(* ===== verification/_CoqProject ===== *)
-Q . S2P
Prelude.v
Crypto.v
CryptoSpec.v
CryptoToy.v
Aead.v
AeadSpec.v
AeadStream.v
AeadSafety.v
AeadUdp.v
AeadProps.v
Base64.v
Bsize.v
Cache.v
Http.v
Tls.v
Local.v
ChunkBuffer.v
PacketBuffer.v
PacketProto.v
Stream.v
StreamSpec.v
StreamToy.v
StreamProps.v
StreamUdp.v
Inet.v
Addr.v
TunUdp.v
Bavl.v
BavlTree.v
BavlBalance.v
BavlSwap.v
BavlSpec.v
BavlProps.v
CAvl.v
CAvlSpec.v
LinkedList1.v
PacketPassInterface.v
StreamInterface.v
PacketStreamSender.v
SocksClient.v
SocksClientSpec.v
SocksClientProps.v
FairQueue.v
FairQueueSpec.v
FairQueueSteps.v
FairQueueProps.v
BufferWriter.v
UdpGw.v
UdpGwSpec.v
UdpGwProps.v
SocksUdpGwClient.v
SocksUdpGwProps.v
LocalSpec.v
LocalSteps.v
LocalToy.v
LocalProps.v
LocalAead.v
LocalSocks.v
