(* ===== verification/Prelude.v ===== *)
(** * SSTestKit: a verification library for the packet tunnel and the proxy core

    ** The program

    The application routes the traffic of a phone through a Shadowsocks proxy.
    Its C code has two halves.  The packet tunnel
    (src/PacketProcessor/tun2socks-iOS, from badvpn) takes IP packets from the
    TUN device: TCP goes through lwIP to a SOCKS client, UDP datagrams go to a
    gateway client that multiplexes them over one stream.  The proxy core
    (src/Library/ShadowPath/ShadowPath/shadowsocks-libev/src) encrypts streams
    and UDP packets, caches UDP associations, looks for host names in the first
    bytes of a connection, and relays connections of SOCKS clients, the tunnel's
    among them, to the server.  This library models the parts of both that compute;
    it models every pointer, index and assertion that can fault, and proves that
    none does, or shows the input that makes it.

    ** Faults, memory and integers

    A function of the C code is a function into [run]: a value, or a [fault]
    (an index out of bounds, a null pointer, a failed [ASSERT], fuel used up).
    Objects that point to each other (trees, lists, connections, flows) live in
    finite maps from addresses ([positive]) to records; a [ptr] is an optional
    address, [None] the null pointer.  Data is a list of integers, an index into
    it is checked.  Machine integers are [Z] with their wrap-around written
    out ([u32], [u64], [s8] and the like).  Loops are fixpoints over fuel; the
    fuel is the number of objects or of bytes left, which the theorems show to be
    enough: a result [Ret] excludes [OutOfFuel].  Allocation and random
    numbers are arguments.  What the program calls of mbed TLS, libsodium and
    uthash is a type class of operations ([CryptoPrims], [StreamPrims],
    [UtHash]) with a class of their documented laws, and each has an instance
    that computes (CryptoToy.v, StreamToy.v).

    ** The proxy core

    - Crypto.v, CryptoSpec.v: crypto.c, its buffers, HKDF, key derivation and
      nonces.  Aead.v: aead.c, the chunked AEAD transport with padding and key
      exchange.  AeadSpec.v (one chunk), AeadStream.v (a whole stream),
      AeadSafety.v (hostile input), AeadUdp.v (new contexts, UDP packets) lead to
      AeadProps.v: both directions of a connection give back what was sent in
      pieces of any size; nothing a peer sends makes the decoder fault; message
      [k] is sealed under the nonces [2k] and [2k+1], so none is used twice; key
      derivation is RFC 5869 up to 255 blocks and fails beyond, as far as an [int]
      counts; contexts are initialised as the first packet assumes; UDP packets
      come back.
    - Stream.v, StreamSpec.v, StreamProps.v, StreamUdp.v: stream.c, the older
      stream ciphers, with the same round trips.  Where they end is proved as
      well: [first_fits] decides whether the first message of a client stays
      inside the static buffer, and beyond 2 GiB of a libsodium session the negative
      padding, an [int] added to a [size_t], writes out of bounds or exits.
    - Base64.v: base64.c, equal to RFC 4648 (URL alphabet), round trip, total.
    - Cache.v: cache.c over uthash: entries are accounted for, the least
      recently used one is dropped, clearing by age filters; keys stay distinct
      when absent ones are inserted.
    - Http.v, Tls.v: http.c and tls.c never read out of bounds and find the
      host that a request or ClientHello names, by grammars of their own (RFC 7230,
      RFC 6066); [ipv6_literal_cut] and [trailing_blank_kept] are the header
      values that http.c does not read as RFC 7230 does.
    - Local.v: local.c, one connection: [server_t] and [remote_t] as records,
      each callback of the event loop as a function on both, each stage of
      [server_recv_cb] as a definition, effects for what goes to the sockets.  The
      cipher behind [crypto_t] is a class ([TcpCrypto], its laws [TcpCryptoLaws]).
      LocalSpec.v (buffers, the laws, what a request calls for), LocalSteps.v
      ([related], the invariant, and every callback), LocalToy.v (a cipher to
      evaluate with), LocalProps.v: for every [admissible] sequence of events
      (what the event loop can deliver, with requests the code survives) a
      connection relays both streams in order and loses nothing.  A [possible]
      sequence leaves the requests free: it is admissible or meets a [misfit].
    - LocalAead.v: aead.c satisfies the laws, so the upload and the download
      hold end to end, from the SOCKS client to the server's decoder and back;
      the upload for every possible sequence.
      LocalSocks.v: the tunnel's SOCKS client and local.c agree on the dialog; a
      request cut one byte short makes local.c leave its buffer.

    ** The packet tunnel

    - Inet.v: misc/ipv4_proto.h, ipv6_proto.h, udp_proto.h; the checksum loops
      compute RFC 1071.  Addr.v: system/BAddr.h, its equality and order.
    - TunUdp.v: the UDP functions of tun2socks/tun2socks.c: a hostile packet
      from the device is dropped without a fault and what is accepted lies inside
      the lengths of its headers, a reply packet read back gives
      the reply, and some valid checksums are refused.
    - Bavl.v and BavlTree.v, BavlBalance.v, BavlSwap.v, BavlSpec.v, BavlProps.v:
      structure/BAVL.h, an AVL tree in linked memory: it refines an ordered list,
      its verifier accepts every state, lookups are logarithmic and iteration ends.
    - CAvl.v, CAvlSpec.v: structure/CAvl_impl.h and SAvl_impl.h, the second AVL
      tree, proved equal to the first on valid trees.
    - LinkedList1.v: structure/LinkedList1.h over the memory of its nodes.
    - ChunkBuffer.v, PacketBuffer.v: structure/ChunkBuffer2.h, a ring of packets
      that refines a queue, and flow/PacketBuffer.c around it.
    - PacketProto.v: flow/PacketProtoEncoder.c and PacketProtoDecoder.c: packets
      over a stream that arrives in pieces.
    - PacketPassInterface.v: flow/PacketPassInterface.h, the one-packet
      interface between components, its state and its jobs.
    - StreamInterface.v, PacketStreamSender.v: flow/StreamPassInterface.h and
      StreamRecvInterface.h, whose operations may be done in part, and
      flow/PacketStreamSender.c, which writes packets to a stream.
    - SocksClient.v, SocksClientSpec.v, SocksClientProps.v: socksclient/BSocksClient.c
      with misc/socks_proto.h; Bsize.v: misc/bsize.h.  The client is a step
      function over what the connection does; it refines the dialog of RFC 1928
      and RFC 1929 ([dialog]) and agrees with a server that follows them.
    - FairQueue.v, FairQueueSpec.v, FairQueueSteps.v, FairQueueProps.v:
      flow/PacketPassFairQueue.c.  The queue is a step function over the calls
      and jobs that can reach it.  [fq_ok] is its invariant; [outcome] says what
      one event does; the theorems cover every interleaving of allowed events:
      well-formedness and order, bounded unfairness, and that no flow starves.
    - BufferWriter.v, UdpGw.v, UdpGwSpec.v, UdpGwProps.v: flow/BufferWriter.c and
      udpgw_client/UdpGwClient.c.  The client with its two trees and its list
      refines a list of sessions; in its memory identifiers and addresses stay
      distinct and look-ups find the one connection; a reply goes to the local
      address that opened the session.
    - SocksUdpGwClient.v, SocksUdpGwProps.v: tun2socks/SocksUdpGwClient.c: the
      gateway client on a SOCKS connection that is made again when it fails; it
      refines a link that is down, dialing or up, and the sessions do not depend on
      how the link fares.

    ** How the parts interact

    The trees and the list promise an ordered list of addresses ([bavl],
    [linked]); the gateway client and the fair queue are proved against these
    promises, not against the code of the trees.  Interfaces with one operation
    in flight connect the flow components; a provider may finish it at any later
    time, and jobs may run in any order, so the theorems hold for every schedule
    of the event loop (base/BPending.c runs them last in, first out).  In the
    proxy core the stream and packet functions share the laws of the primitives,
    and the relay is proved for every cipher with the laws of [TcpCryptoLaws].  The
    halves meet in LocalSocks.v (SOCKS client and proxy), and SocksUdpGwClient.v
    puts the gateway client on the SOCKS client.

    ** What is not modelled

    System calls, sockets, timers and the event loop: what they answer is an
    argument, and a watcher is a flag.  lwIP, Privoxy, Antinat,
    libev, libcork and the other third-party code; the application's Objective-C
    and Swift; logging.  Of local.c, creating the listening socket, signals, the
    start and the end of the loop; whether the access list lets a connection bypass the
    proxy is an argument.  The other programs of shadowsocks-libev (server.c,
    redir.c, tunnel.c, manager.c), the sockets of udprelay.c, the configuration
    parsers and the access lists are calls of such libraries around the functions
    that are modelled.  [DebugObject] counters carry no state the program uses.
    The remaining connectors of flow/ and flowextra/ forward packets between two
    interfaces.  Of tun2socks.c the TCP clients are not modelled: they are
    callbacks of lwIP. *)
From stdpp Require Export base numbers list option decidable tactics.
From Stdlib Require Export ZArith Lia.

#[global] Open Scope Z_scope.

(** ** Faults

    The C functions of the program are translated into functions that either
    return or reach a point where the C program has no defined continuation:
    an access outside an object, a null dereference, a failed [assert]/[ASSERT],
    or a call of [exit] ([FATAL], [ss_malloc] without memory).  [OutOfFuel] is
    not an outcome of the C program: a loop of the model that is bounded by
    fuel fails with it, and the theorems show that it never happens. *)
Inductive fault : Type :=
  | OutOfBounds
  | NullPointer
  | AssertionFailed
  | Exited
  | OutOfFuel.

Inductive run (A : Type) : Type :=
  | Ret (a : A)
  | Fail (f : fault).
Arguments Ret {A} a.
Arguments Fail {A} f.

#[export] Instance fault_eq_dec : EqDecision fault.
Proof. solve_decision. Defined.

#[export] Instance run_ret : MRet run := fun A a => Ret a.
#[export] Instance run_bind : MBind run := fun A B f m =>
  match m with Ret a => f a | Fail e => Fail e end.
#[export] Instance run_fmap : FMap run := fun A B f m =>
  match m with Ret a => Ret (f a) | Fail e => Fail e end.

(** [ASSERT(b)] in a debug build. *)
Definition check (b : bool) : run unit := if b then Ret tt else Fail AssertionFailed.

Definition deref {A} (p : option A) : run A :=
  match p with Some a => Ret a | None => Fail NullPointer end.

Definition is_ret {A} (m : run A) : Prop := exists a, m = Ret a.

(** ** Machine integers: wrap-around at the width of the C type *)

Definition u8 (z : Z) : Z := z mod 256.
Definition u16 (z : Z) : Z := z mod 65536.
Definition u32 (z : Z) : Z := z mod 4294967296.
Definition s8 (z : Z) : Z := (z + 128) mod 256 - 128.
Definition s32 (z : Z) : Z := (z + 2147483648) mod 4294967296 - 2147483648.
Definition INT_MAX : Z := 2147483647.
Definition SIZE_MAX : Z := 18446744073709551615.
(** An [int] compared with a [sizeof]. *)
Definition to_size_t (z : Z) : Z := z mod 18446744073709551616.

(** ** Bytes and byte arrays *)

Definition byte_ok (b : Z) : Prop := 0 <= b < 256.
Abbreviation bytes := (list Z).
Definition bytes_ok (l : bytes) : Prop := Forall byte_ok l.

Definition len {A} (l : list A) : Z := Z.of_nat (length l).
Definition ztake {A} (n : Z) (l : list A) : list A := take (Z.to_nat n) l.
Definition zdrop {A} (n : Z) (l : list A) : list A := drop (Z.to_nat n) l.
Definition zrep {A} (n : Z) (x : A) : list A := replicate (Z.to_nat n) x.

(** Read of one element, of a range, and a write of a range.  Each fails when
    it leaves the array. *)
Definition rd {A} (l : list A) (i : Z) : run A :=
  if (0 <=? i) then
    match l !! Z.to_nat i with Some b => Ret b | None => Fail OutOfBounds end
  else Fail OutOfBounds.

Definition rd_range {A} (l : list A) (off n : Z) : run (list A) :=
  if (0 <=? off) && (0 <=? n) && (off + n <=? len l)
  then Ret (ztake n (zdrop off l)) else Fail OutOfBounds.

Definition wr_range {A} (l : list A) (off : Z) (d : list A) : run (list A) :=
  if (0 <=? off) && (off + len d <=? len l)
  then Ret (ztake off l ++ d ++ zdrop (off + len d) l) else Fail OutOfBounds.

Definition wr {A} (l : list A) (i : Z) (x : A) : run (list A) := wr_range l i [x].

(** Big-endian and little-endian integers in byte arrays. *)
Definition be16 (z : Z) : bytes := [Z.shiftr z 8 mod 256; z mod 256].
Definition be32 (z : Z) : bytes :=
  [Z.shiftr z 24 mod 256; Z.shiftr z 16 mod 256; Z.shiftr z 8 mod 256; z mod 256].
Definition le16 (z : Z) : bytes := [z mod 256; Z.shiftr z 8 mod 256].
Definition le32 (z : Z) : bytes :=
  [z mod 256; Z.shiftr z 8 mod 256; Z.shiftr z 16 mod 256; Z.shiftr z 24 mod 256].

Fixpoint of_be (acc : Z) (l : bytes) : Z :=
  match l with [] => acc | b :: l => of_be (acc * 256 + b) l end.
Fixpoint of_le (l : bytes) : Z :=
  match l with [] => 0 | b :: l => b + 256 * of_le l end.

(** ** Lemmas on arrays *)

Section arrays.
Context {A : Type}.
Implicit Types l k d : list A.

Lemma len_nil : len (@nil A) = 0.
Proof. reflexivity. Qed.
Lemma len_cons x l : len (x :: l) = 1 + len l.
Proof. unfold len. simpl. lia. Qed.
Lemma len_app l k : len (l ++ k) = len l + len k.
Proof. unfold len. rewrite length_app. lia. Qed.
Lemma len_nonneg l : 0 <= len l.
Proof. unfold len. lia. Qed.
Lemma len_ztake n l : 0 <= n <= len l -> len (ztake n l) = n.
Proof. unfold len, ztake. rewrite length_take. lia. Qed.
Lemma len_ztake_min n l : 0 <= n -> len (ztake n l) = n `min` len l.
Proof. unfold len, ztake. rewrite length_take. lia. Qed.
Lemma len_zdrop n l : 0 <= n <= len l -> len (zdrop n l) = len l - n.
Proof. unfold len, zdrop. rewrite length_drop. lia. Qed.
Lemma len_zrep n (x : A) : 0 <= n -> len (zrep n x) = n.
Proof. unfold len, zrep. rewrite length_replicate. lia. Qed.
Lemma len_0_nil l : len l = 0 -> l = [].
Proof. unfold len. destruct l; simpl; [done | lia]. Qed.

Lemma ztake_0 l : ztake 0 l = [].
Proof. reflexivity. Qed.
Lemma zdrop_0 l : zdrop 0 l = l.
Proof. reflexivity. Qed.
Lemma ztake_zdrop n l : ztake n l ++ zdrop n l = l.
Proof. apply take_drop. Qed.
Lemma ztake_all n l : len l <= n -> ztake n l = l.
Proof. unfold len, ztake. intros. apply take_ge. lia. Qed.
Lemma zdrop_all n l : len l <= n -> zdrop n l = [].
Proof. unfold len, zdrop. intros. apply drop_ge. lia. Qed.
Lemma ztake_app_l n l k : n <= len l -> ztake n (l ++ k) = ztake n l.
Proof. unfold len, ztake. intros. apply take_app_le. lia. Qed.
Lemma zdrop_app_l n l k : n <= len l -> zdrop n (l ++ k) = zdrop n l ++ k.
Proof. unfold len, zdrop. intros. apply drop_app_le. lia. Qed.
Lemma ztake_app_exact n l k : n = len l -> ztake n (l ++ k) = l.
Proof. unfold len, ztake. intros ->. apply take_app_length'. lia. Qed.
Lemma zdrop_app_exact n l k : n = len l -> zdrop n (l ++ k) = k.
Proof. unfold len, zdrop. intros ->. apply drop_app_length'. lia. Qed.
Lemma zdrop_app_r n l k : len l <= n -> zdrop n (l ++ k) = zdrop (n - len l) k.
Proof.
  unfold len, zdrop. intros. rewrite drop_app_ge by lia. f_equal. lia.
Qed.
Lemma ztake_app_r n l k : len l <= n -> ztake n (l ++ k) = l ++ ztake (n - len l) k.
Proof.
  unfold len, ztake. intros. rewrite take_app_ge by lia. do 2 f_equal. lia.
Qed.
Lemma zdrop_zdrop m n l : 0 <= m -> 0 <= n -> zdrop m (zdrop n l) = zdrop (n + m) l.
Proof. unfold zdrop. intros. rewrite drop_drop. f_equal. lia. Qed.
Lemma ztake_ztake m n l : ztake m (ztake n l) = ztake (m `min` n) l.
Proof. unfold ztake. rewrite take_take. f_equal. lia. Qed.

(** The range primitives succeed exactly inside the array. *)
Lemma rd_ok l i : 0 <= i < len l -> exists x, rd l i = Ret x /\ l !! Z.to_nat i = Some x.
Proof.
  unfold rd, len. intros H. destruct (Z.leb_spec 0 i); [|lia].
  destruct (lookup_lt_is_Some_2 l (Z.to_nat i)) as [x Hx]; [lia|].
  exists x. rewrite Hx. done.
Qed.
Lemma rd_app_exact l x k i : i = len l -> rd (l ++ x :: k) i = Ret x.
Proof.
  intros ->. unfold rd, len. destruct (Z.leb_spec 0 (Z.of_nat (length l))); [|lia].
  rewrite Nat2Z.id, list_lookup_middle by done. done.
Qed.
Lemma rd_range_ok l off n :
  0 <= off -> 0 <= n -> off + n <= len l -> rd_range l off n = Ret (ztake n (zdrop off l)).
Proof.
  intros. unfold rd_range.
  destruct (Z.leb_spec 0 off), (Z.leb_spec 0 n), (Z.leb_spec (off + n) (len l)); naive_solver lia.
Qed.
Lemma wr_range_ok l off d :
  0 <= off -> off + len d <= len l ->
  wr_range l off d = Ret (ztake off l ++ d ++ zdrop (off + len d) l).
Proof.
  intros. unfold wr_range.
  destruct (Z.leb_spec 0 off), (Z.leb_spec (off + len d) (len l)); naive_solver lia.
Qed.
Lemma rd_range_front l n : 0 <= n <= len l -> rd_range l 0 n = Ret (ztake n l).
Proof. intros. by rewrite rd_range_ok by lia. Qed.
(** Reading a middle segment back. *)
Lemma rd_range_mid l d k off n : off = len l -> n = len d -> rd_range (l ++ d ++ k) off n = Ret d.
Proof.
  intros -> ->. pose proof (len_nonneg l). pose proof (len_nonneg d). pose proof (len_nonneg k).
  rewrite rd_range_ok by (rewrite ?len_app; lia).
  rewrite zdrop_app_exact by done. by rewrite ztake_app_exact.
Qed.

(** Removing an element from a list without duplicates. *)
Lemma filter_absent `{EqDecision A} (x : A) l : x ∉ l -> filter (fun y => y <> x) l = l.
Proof.
  induction l as [|y l IH]; [done|]. rewrite not_elem_of_cons. intros [Hne Hx].
  rewrite list.filter_cons_True by done. by rewrite IH.
Qed.
Lemma filter_ne `{EqDecision A} (x : A) l k : NoDup (l ++ x :: k) -> filter (fun y => y <> x) (l ++ x :: k) = l ++ k.
Proof.
  rewrite list.NoDup_app, list.NoDup_cons. intros (_ & H1 & H2 & _).
  rewrite list.filter_app, list.filter_cons_False by (intros H; by apply H).
  rewrite !filter_absent; [done|done|]. intros Hx. by apply (H1 x Hx), list_elem_of_here.
Qed.

(** An array that starts with a given segment. *)
Definition starts_with l d : Prop := ztake (len l) d = l.

Lemma starts_with_split l d : starts_with l d <-> exists k, d = l ++ k.
Proof.
  unfold starts_with. split.
  - intros H. exists (zdrop (len l) d). rewrite <- H at 1. by rewrite ztake_zdrop.
  - intros [k ->]. by apply ztake_app_exact.
Qed.
Lemma starts_with_nil d : starts_with [] d.
Proof. done. Qed.
Lemma starts_with_len l d : starts_with l d -> len l <= len d.
Proof. intros [k ->]%starts_with_split. rewrite len_app. pose proof (len_nonneg k). lia. Qed.
Lemma starts_with_refl l : starts_with l l.
Proof. apply starts_with_split. exists []. by rewrite app_nil_r. Qed.

(** Sequential writes extend the known prefix. *)
Lemma wr_range_extend l x d off :
  starts_with l d -> off = len l -> len l + len x <= len d ->
  exists d', wr_range d off x = Ret d' /\ starts_with (l ++ x) d' /\ len d' = len d.
Proof.
  intros [k ->]%starts_with_split -> Hl. rewrite len_app in Hl.
  pose proof (len_nonneg l). pose proof (len_nonneg x).
  eexists. split; [apply wr_range_ok; rewrite ?len_app; lia|]. split.
  - apply starts_with_split. rewrite ztake_app_exact by done. eexists. by rewrite <- app_assoc.
  - rewrite !len_app, len_ztake, len_zdrop, len_app by (rewrite ?len_app; lia). lia.
Qed.
Lemma rd_range_prefix l d n : starts_with l d -> n = len l -> rd_range d 0 n = Ret l.
Proof.
  intros [k ->]%starts_with_split ->. apply (rd_range_mid [] l k); [done|done].
Qed.
Lemma wr_range_nil l off : 0 <= off <= len l -> wr_range l off [] = Ret l.
Proof.
  intros. rewrite wr_range_ok by (change (len (@nil A)) with 0; lia).
  change (len (@nil A)) with 0. rewrite Z.add_0_r, app_nil_l.
  by rewrite ztake_zdrop.
Qed.
End arrays.

(** ** Lemmas on machine integers and bytes *)

Lemma byte_ok_mod z : byte_ok (z mod 256).
Proof. unfold byte_ok. pose proof (Z.mod_pos_bound z 256). lia. Qed.
Lemma bytes_ok_app l k : bytes_ok (l ++ k) <-> bytes_ok l /\ bytes_ok k.
Proof. apply Forall_app. Qed.
Lemma bytes_ok_be16 z : bytes_ok (be16 z).
Proof. repeat constructor; apply byte_ok_mod. Qed.
Lemma bytes_ok_be32 z : bytes_ok (be32 z).
Proof. repeat constructor; apply byte_ok_mod. Qed.

Lemma shiftr_div z n : 0 <= n -> Z.shiftr z n = z / 2 ^ n.
Proof. apply Z.shiftr_div_pow2. Qed.

Lemma of_be_be16 z : 0 <= z < 65536 -> of_be 0 (be16 z) = z.
Proof.
  intros. unfold be16, of_be. rewrite shiftr_div by lia. change (2 ^ 8) with 256.
  pose proof (Z.div_mod z 256). pose proof (Z.div_lt_upper_bound z 256 256).
  pose proof (Z.div_pos z 256). rewrite (Z.mod_small (z / 256)) by lia. lia.
Qed.
Lemma of_be_be32 z : 0 <= z < 4294967296 -> of_be 0 (be32 z) = z.
Proof.
  intros. unfold be32, of_be. rewrite !shiftr_div by lia.
  change (2 ^ 24) with 16777216. change (2 ^ 16) with 65536. change (2 ^ 8) with 256.
  Z.to_euclidean_division_equations. lia.
Qed.
Lemma of_le_le16 z : 0 <= z < 65536 -> of_le (le16 z) = z.
Proof.
  intros. unfold le16, of_le. rewrite shiftr_div by lia. change (2 ^ 8) with 256.
  Z.to_euclidean_division_equations. lia.
Qed.
Lemma of_le_le32 z : 0 <= z < 4294967296 -> of_le (le32 z) = z.
Proof.
  intros. unfold le32. cbn [of_le]. rewrite !shiftr_div by lia.
  change (2 ^ 24) with 16777216. change (2 ^ 16) with 65536. change (2 ^ 8) with 256.
  Z.to_euclidean_division_equations. lia.
Qed.
Lemma of_le_bound l : bytes_ok l -> 0 <= of_le l < 256 ^ len l.
Proof.
  induction 1 as [|b l Hb _ IH]; [change (len (@nil Z)) with 0; cbn [of_le]; lia|].
  pose proof (len_nonneg l). rewrite len_cons, Z.pow_add_r by lia.
  change (256 ^ 1) with 256. unfold byte_ok in Hb. cbn [of_le]. nia.
Qed.
Lemma of_le_inj l k : bytes_ok l -> bytes_ok k -> len l = len k -> of_le l = of_le k -> l = k.
Proof.
  intros Hl. revert k. induction Hl as [|b l Hb _ IH]; intros k Hk Hlen Heq.
  - symmetry in Hlen. change (len (@nil Z)) with 0 in Hlen. by rewrite (len_0_nil _ Hlen).
  - destruct Hk as [|c k Hc Hk]; [change (len (@nil Z)) with 0 in Hlen; rewrite len_cons in Hlen; pose proof (len_nonneg l); lia|].
    rewrite !len_cons in Hlen. cbn [of_le] in Heq. unfold byte_ok in *.
    assert (of_le l = of_le k) by lia. f_equal; [lia|]. apply IH; [done|lia|done].
Qed.

Lemma u8_small z : 0 <= z < 256 -> u8 z = z.
Proof. apply Z.mod_small. Qed.
Lemma u16_small z : 0 <= z < 65536 -> u16 z = z.
Proof. apply Z.mod_small. Qed.
Lemma u32_small z : 0 <= z < 4294967296 -> u32 z = z.
Proof. apply Z.mod_small. Qed.
Lemma s32_small z : -2147483648 <= z < 2147483648 -> s32 z = z.
Proof. intros. unfold s32. rewrite Z.mod_small by lia. lia. Qed.
Lemma s8_small z : -128 <= z < 128 -> s8 z = z.
Proof. intros. unfold s8. rewrite Z.mod_small by lia. lia. Qed.

(** Bit operations that combine or cut disjoint fields. *)
Lemma land_ones_mod a n : 0 <= n -> Z.land a (Z.ones n) = a mod 2 ^ n.
Proof. apply Z.land_ones. Qed.
Lemma lor_shiftl_add a b n : 0 <= n -> 0 <= a < 2 ^ n -> Z.lor a (Z.shiftl b n) = a + b * 2 ^ n.
Proof.
  intros Hn Ha.
  assert (Hl : Z.land a (Z.shiftl b n) = 0).
  { apply Z.bits_inj'. intros i Hi. rewrite Z.land_spec, Z.bits_0.
    destruct (Z.lt_ge_cases i n) as [Hlt|Hge].
    - by rewrite Z.shiftl_spec_low, andb_false_r.
    - rewrite <- (Z.mod_small a (2 ^ n)) by done. by rewrite Z.mod_pow2_bits_high by lia. }
  rewrite <- Z.shiftl_mul_pow2 by done. rewrite <- Z.add_lor_land. lia.
Qed.
Lemma of_be_bound l : bytes_ok l -> forall acc, 0 <= acc ->
  0 <= of_be acc l < (acc + 1) * 256 ^ len l.
Proof.
  induction 1 as [|b l Hb _ IH]; intros acc Ha; cbn [of_be].
  - change (len (@nil Z)) with 0. lia.
  - unfold byte_ok in Hb. destruct (IH (acc * 256 + b)) as [H0 H1]; [lia|]. split; [done|].
    pose proof (len_nonneg l). rewrite len_cons, Z.pow_add_r by lia. change (256 ^ 1) with 256.
    pose proof (Z.pow_pos_nonneg 256 (len l)). nia.
Qed.

Create HintDb arr.
Create Rewrite HintDb arr.
#[export] Hint Rewrite @len_nil @len_cons @len_app @app_nil_r @ztake_0 @zdrop_0 : arr.
#[export] Hint Resolve bytes_ok_be16 bytes_ok_be32 byte_ok_mod : arr.

(** ** Automation *)

(** Step through the monad: reduce binds over results that are already known. *)
Ltac run_simpl := cbn [mbind run_bind mret run_ret fmap run_fmap check deref].

(** Case split on the first boolean test in the goal, keeping its meaning. *)
Ltac zcase :=
  match goal with
  | |- context [Z.eqb ?a ?b] => destruct (Z.eqb_spec a b)
  | |- context [Z.ltb ?a ?b] => destruct (Z.ltb_spec a b)
  | |- context [Z.leb ?a ?b] => destruct (Z.leb_spec a b)
  | |- context [Z.gtb ?a ?b] => rewrite (Z.gtb_ltb a b)
  | |- context [Z.geb ?a ?b] => rewrite (Z.geb_leb a b)
  end.

(** Resolve the first test by arithmetic, without a case split. *)
Ltac ztest :=
  repeat match goal with
  | |- context [Z.eqb ?a ?b] =>
      first [rewrite (proj2 (Z.eqb_eq a b)) by lia | rewrite (proj2 (Z.eqb_neq a b)) by lia]
  | |- context [Z.ltb ?a ?b] =>
      first [rewrite (proj2 (Z.ltb_lt a b)) by lia | rewrite (proj2 (Z.ltb_ge a b)) by lia]
  | |- context [Z.leb ?a ?b] =>
      first [rewrite (proj2 (Z.leb_le a b)) by lia | rewrite (proj2 (Z.leb_gt a b)) by lia]
  | |- context [Z.gtb ?a ?b] => rewrite (Z.gtb_ltb a b)
  | |- context [Z.geb ?a ?b] => rewrite (Z.geb_leb a b)
  end; cbn [andb orb negb].

(** [bytes_ok] of a list written out, from facts about its elements. *)
Ltac bytes_ok_list := repeat (apply Forall_cons_2; [done|]); apply Forall_nil_2.

(** Remove the wrap-around of sums that stay in range, innermost first. *)
Ltac u32_norm :=
  repeat match goal with
  | |- context [u32 ?x] =>
      lazymatch x with context [u32 _] => fail | _ => rewrite (u32_small x) by lia end
  end.

(** Facts [0 <= len l] for every array in sight. *)
Ltac len_facts :=
  repeat match goal with
  | |- context [len ?l] =>
      lazymatch goal with H : 0 <= len l |- _ => fail | _ => pose proof (len_nonneg l) end
  | H0 : context [len ?l] |- _ =>
      lazymatch goal with H : 0 <= len l |- _ => fail | _ => pose proof (len_nonneg l) end
  end.
Ltac len_norm :=
  repeat match goal with
  | |- context [len (@nil ?A)] => change (len (@nil A)) with 0
  | H : context [len (@nil ?A)] |- _ => change (len (@nil A)) with 0 in H
  end; autorewrite with arr in *.
Ltac alia := len_norm; len_facts; lia.
