(* ===== verification/Crypto.v ===== *)
(** * crypto.c, crypto.h: growable buffers, key exchange, key derivation

    The primitives of mbed TLS and libsodium are an interface, [CryptoPrims];
    [CryptoLaws] states the documented behaviour the proxy relies on.  The
    functions of crypto.c that call them are translated here. *)
From S2P Require Import Prelude.

Definition CRYPTO_ERROR : Z := -2.
Definition CRYPTO_NEED_MORE : Z := -1.
Definition CRYPTO_OK : Z := 0.

Definition MAX_KEY_LENGTH : Z := 64.
Definition MAX_NONCE_LENGTH : Z := 32.
Definition crypto_kx_PUBLICKEYBYTES : Z := 32.
Definition crypto_kx_SECRETKEYBYTES : Z := 32.
Definition crypto_kx_SESSIONKEYBYTES : Z := 32.

(** ** Interface to the crypto libraries *)

(** A message digest of mbed TLS: its size, what [mbedtls_md_setup] answers for
    it (0 or an error code) and its HMAC ([None] is a non-zero error code). *)
Record digest := Digest {
  md_get_size : Z;
  md_setup : Z;
  md_hmac : bytes -> bytes -> option bytes
}.

(** [cipher_evp_t]: the mbed TLS cipher context, as far as it is used: the key
    installed by [mbedtls_cipher_setkey], with its operation. *)
Record evp_t := Evp { evp_key : option (bytes * Z) }.

Class CryptoPrims := {
  md_SHA1 : option digest;
  md_MD5 : option digest;
  (** context, key, key length in bits, operation; [None] is an error *)
  mbedtls_cipher_setkey : evp_t -> bytes -> Z -> Z -> option evp_t;
  (** context, nonce, input, tag length; result: output and tag *)
  mbedtls_cipher_auth_encrypt : evp_t -> bytes -> bytes -> Z -> option (bytes * bytes);
  mbedtls_cipher_auth_decrypt : evp_t -> bytes -> bytes -> bytes -> option bytes;
  (** message, nonce, key *)
  chacha20poly1305_ietf_encrypt : bytes -> bytes -> bytes -> bytes;
  chacha20poly1305_ietf_decrypt : bytes -> bytes -> bytes -> option bytes;
  xchacha20poly1305_ietf_encrypt : bytes -> bytes -> bytes -> bytes;
  xchacha20poly1305_ietf_decrypt : bytes -> bytes -> bytes -> option bytes;
  (** the key pair drawn from a seed; session keys as (rx, tx) *)
  crypto_kx_keypair : bytes -> bytes * bytes;
  crypto_kx_client_session_keys : bytes -> bytes -> bytes -> option (bytes * bytes);
  crypto_kx_server_session_keys : bytes -> bytes -> bytes -> option (bytes * bytes)
}.

(** What the libraries document.  An AEAD of mbed TLS opened with the key,
    nonce and tag of the encryption gives the plaintext back, whatever the
    operation the key was installed for; so do the two libsodium AEADs, whose
    ciphertext is the message plus a 16-byte tag; what they accept has the
    length of the ciphertext less the tag.  The two ends of a key
    exchange agree on crossed session keys. *)
Class CryptoLaws (P : CryptoPrims) : Prop := {
  setkey_ok e key op : len key ∈ [16; 24; 32] ->
    mbedtls_cipher_setkey e key (len key * 8) op = Some (Evp (Some (key, op)));
  gcm_total key op n m tlen : exists c t,
    mbedtls_cipher_auth_encrypt (Evp (Some (key, op))) n m tlen = Some (c, t)
    /\ len c = len m /\ (0 <= tlen -> len t = tlen);
  gcm_open key op op' n m tlen c t :
    mbedtls_cipher_auth_encrypt (Evp (Some (key, op))) n m tlen = Some (c, t) ->
    mbedtls_cipher_auth_decrypt (Evp (Some (key, op'))) n c t = Some m;
  chacha_len m n k : len (chacha20poly1305_ietf_encrypt m n k) = len m + 16;
  chacha_open m n k :
    chacha20poly1305_ietf_decrypt (chacha20poly1305_ietf_encrypt m n k) n k = Some m;
  xchacha_len m n k : len (xchacha20poly1305_ietf_encrypt m n k) = len m + 16;
  xchacha_open m n k :
    xchacha20poly1305_ietf_decrypt (xchacha20poly1305_ietf_encrypt m n k) n k = Some m;
  gcm_decrypt_len e n c t m :
    mbedtls_cipher_auth_decrypt e n c t = Some m -> len m = len c;
  chacha_decrypt_len c n k m :
    chacha20poly1305_ietf_decrypt c n k = Some m -> len m + 16 = len c;
  xchacha_decrypt_len c n k m :
    xchacha20poly1305_ietf_decrypt c n k = Some m -> len m + 16 = len c;
  kx_keypair_len s : len (fst (crypto_kx_keypair s)) = 32 /\ len (snd (crypto_kx_keypair s)) = 32;
  kx_client_len pk sk rpk rx tx :
    crypto_kx_client_session_keys pk sk rpk = Some (rx, tx) -> len rx = 32 /\ len tx = 32;
  kx_server_len pk sk rpk rx tx :
    crypto_kx_server_session_keys pk sk rpk = Some (rx, tx) -> len rx = 32 /\ len tx = 32;
  kx_agree s s' rx tx :
    crypto_kx_client_session_keys (fst (crypto_kx_keypair s)) (snd (crypto_kx_keypair s))
      (fst (crypto_kx_keypair s')) = Some (rx, tx) ->
    crypto_kx_server_session_keys (fst (crypto_kx_keypair s')) (snd (crypto_kx_keypair s'))
      (fst (crypto_kx_keypair s)) = Some (tx, rx);
  sha1_hmac : exists d, md_SHA1 = Some d /\ md_get_size d = 20 /\ md_setup d = 0 /\
    forall k m, exists h, md_hmac d k m = Some h /\ len h = 20
}.

(** ** buffer_t *)

Record buffer := Buffer {
  b_idx : Z;
  b_len : Z;
  b_capacity : Z;
  b_data : option bytes
}.
(** [static buffer_t tmp = { 0, 0, 0, NULL }], and a buffer after [memset]. *)
Definition buffer_zero : buffer := Buffer 0 0 0 None.

Definition with_len (b : buffer) (n : Z) : buffer :=
  Buffer (b_idx b) n (b_capacity b) (b_data b).
Definition with_data (b : buffer) (d : bytes) : buffer :=
  Buffer (b_idx b) (b_len b) (b_capacity b) (Some d).

Section buffers.
(** The contents of memory that [malloc] and [realloc] leave uninitialised:
    any function of the position. *)
Context (junk : nat -> Z).
Definition fresh (n : Z) : bytes := map junk (seq 0 (Z.to_nat n)).

Definition balloc (capacity : Z) : buffer * Z :=
  (Buffer 0 0 capacity (Some (fresh capacity)), s32 capacity).

Definition ss_realloc (d : option bytes) (n : Z) : bytes :=
  match d with
  | None => fresh n
  | Some d => ztake n d ++ fresh (n - len d)
  end.

(** [brealloc]; on a buffer that exists it is [grow].  The results of these
    functions are [int]s. *)
Definition grow (b : buffer) (n capacity : Z) : buffer :=
  let real_capacity := Z.max n capacity in
  if b_capacity b <? real_capacity
  then Buffer (b_idx b) (b_len b) real_capacity (Some (ss_realloc (b_data b) real_capacity))
  else b.

Definition brealloc (ptr : option buffer) (n capacity : Z) : option buffer * Z :=
  match ptr with
  | None => (None, -1)
  | Some b => (Some (grow b n capacity), s32 (Z.max n capacity))
  end.

Definition bfree (ptr : option buffer) : option buffer :=
  match ptr with None => None | Some _ => Some buffer_zero end.

(** [memcpy] between arrays, with the bounds of both. *)
Definition memcpy (dst : bytes) (doff : Z) (src : bytes) (soff n : Z) : run bytes :=
  x ← rd_range src soff n; wr_range dst doff x.

Definition bprepend (dst src : buffer) (capacity : Z) : run (buffer * Z) :=
  let dst := grow dst (b_len dst + b_len src) capacity in
  d ← deref (b_data dst);
  s ← deref (b_data src);
  d ← memcpy d (b_len src) d 0 (b_len dst);
  d ← memcpy d 0 s 0 (b_len src);
  let dst := with_len (with_data dst d) (b_len dst + b_len src) in
  mret (dst, s32 (b_len dst)).

(** A buffer is well formed when its array has the size it records, and
    represents [l] when its first [b_len] bytes are [l]. *)
Definition buffer_ok (b : buffer) : Prop :=
  match b_data b with
  | None => b_capacity b = 0 /\ b_len b = 0
  | Some d => len d = b_capacity b /\ 0 <= b_len b <= b_capacity b
  end.
Definition holds (b : buffer) (l : bytes) : Prop :=
  buffer_ok b /\ b_len b = len l /\ starts_with l (default [] (b_data b)).

Lemma len_fresh n : 0 <= n -> len (fresh n) = n.
Proof. unfold len, fresh. rewrite length_map, length_seq. lia. Qed.

Lemma holds_zero : holds buffer_zero [].
Proof. by repeat split. Qed.

(** [brealloc] keeps the contents and provides the room asked for. *)
Lemma grow_spec b l n capacity :
  holds b l -> 0 < capacity ->
  holds (grow b n capacity) l /\
  exists d, b_data (grow b n capacity) = Some d
    /\ len d = b_capacity (grow b n capacity)
    /\ Z.max n capacity <= len d /\ b_capacity b <= len d.
Proof.
  intros (Hok & Hl & Hp) Hc. unfold grow.
  pose proof (len_nonneg l).
  destruct (Z.ltb_spec (b_capacity b) (Z.max n capacity)) as [Hlt|Hge].
  - unfold buffer_ok in Hok. unfold holds, buffer_ok. cbn [b_data b_capacity b_len].
    destruct (b_data b) as [d|]; cbn [default from_option ss_realloc] in *; unfold id in *.
    + assert (Hd : ztake (Z.max n capacity) d = d) by (apply ztake_all; lia).
      rewrite Hd. assert (len (fresh (Z.max n capacity - len d)) = Z.max n capacity - len d)
        by (apply len_fresh; lia).
      split; [split_and!; try (rewrite ?len_app; lia)|].
      * apply starts_with_split in Hp as [k ->]. apply starts_with_split.
        eexists. by rewrite <- app_assoc.
      * eexists. split; [done|]. rewrite !len_app. lia.
    + assert (len (fresh (Z.max n capacity)) = Z.max n capacity) by (apply len_fresh; lia).
      rewrite (len_0_nil l) by lia. change (len (@nil Z)) with 0.
      split; [split_and!; try lia; done|]. eexists. split; [done|lia].
  - unfold holds, buffer_ok in *. destruct (b_data b) as [d|] eqn:Hd; [|lia].
    split; [done|]. eexists. split; [done|lia].
Qed.

(** Appending [x] at the end of the contents. *)
Lemma append_spec b l x :
  holds b l -> forall d, b_data b = Some d -> len l + len x <= len d ->
  exists d', wr_range d (b_len b) x = Ret d' /\
    holds (with_len (with_data b d') (b_len b + len x)) (l ++ x).
Proof.
  intros (Hok & Hl & Hp) d Hd Hroom. rewrite Hd in Hp. cbn in Hp.
  destruct (wr_range_extend l x d (b_len b)) as (d' & Hw & Hs & Hlen); [done|lia|lia|].
  exists d'. split; [done|]. unfold buffer_ok in Hok. rewrite Hd in Hok.
  pose proof (len_nonneg x).
  unfold holds, buffer_ok. cbn. rewrite len_app. split_and!; try lia. done.
Qed.
End buffers.

(** ** sodium_increment (libsodium utils.c): little-endian increment in place *)

Fixpoint sodium_increment_from (c : Z) (n : bytes) : bytes :=
  match n with
  | [] => []
  | b :: n => let c := c + b in (c mod 256) :: sodium_increment_from (Z.shiftr c 8) n
  end.
(** [nlen] bytes at the start of the array are incremented. *)
Definition sodium_increment (n : bytes) (nlen : Z) : run bytes :=
  x ← rd_range n 0 nlen; wr_range n 0 (sodium_increment_from 1 x).

Lemma len_increment c n : len (sodium_increment_from c n) = len n.
Proof. revert c. induction n as [|b n IH]; intros c; [done|]. cbn. by rewrite !len_cons, IH. Qed.
Lemma bytes_ok_increment c n : bytes_ok (sodium_increment_from c n).
Proof.
  revert c. induction n as [|b n IH]; intros c; [constructor|].
  constructor; [apply byte_ok_mod|apply IH].
Qed.
Lemma increment_value c n :
  of_le (sodium_increment_from c n) = (c + of_le n) mod 256 ^ len n.
Proof.
  revert c. induction n as [|b n IH]; intros c; [cbn; by rewrite Z.mod_1_r|].
  cbn [sodium_increment_from of_le]. rewrite IH, shiftr_div by lia. change (2 ^ 8) with 256.
  pose proof (len_nonneg n). rewrite len_cons, Z.pow_add_r by lia. change (256 ^ 1) with 256.
  pose proof (Z.pow_pos_nonneg 256 (len n)). rewrite Z.rem_mul_r by lia.
  replace (c + (b + 256 * of_le n)) with ((c + b) + of_le n * 256) by lia.
  rewrite Z.mod_add, Z.div_add by lia. lia.
Qed.

(** ** kx_ctx_t and the key exchange *)

Record kx_ctx := KxCtx {
  pk_sent : Z;
  rpk_received : Z;
  kx_pk : bytes;
  kx_sk : bytes;
  kx_rpk : bytes;
  kx_rx : bytes;
  kx_tx : bytes
}.
Definition kx_zero : kx_ctx :=
  KxCtx 0 0 (zrep 32 0) (zrep 32 0) (zrep 32 0) (zrep 32 0) (zrep 32 0).

Section kx.
Context `{CryptoPrims}.

(** [crypto_kx_ctx_init(kx, is_local, rpk)]; [seed] is the randomness that
    [crypto_kx_keypair] draws.  On a failure of the library the session keys
    stay as they are. *)
Definition crypto_kx_ctx_init (kx : kx_ctx) (is_local : Z) (rpk : bytes) (seed : bytes)
    : run (kx_ctx * Z) :=
  rpk ← rd_range rpk 0 crypto_kx_PUBLICKEYBYTES;
  let finish (kx : kx_ctx) (r : option (bytes * bytes)) :=
    match r with
    | Some (rx, tx) =>
        (KxCtx (pk_sent kx) (rpk_received kx) (kx_pk kx) (kx_sk kx) (kx_rpk kx) rx tx, 0)
    | None => (kx, -1)
    end in
  if negb (is_local =? 0) then
    let (pk, sk) := crypto_kx_keypair seed in
    let kx := KxCtx (pk_sent kx) 1 pk sk rpk (kx_rx kx) (kx_tx kx) in
    mret (finish kx (crypto_kx_client_session_keys (kx_pk kx) (kx_sk kx) rpk))
  else
    let kx := KxCtx 1 1 (kx_pk kx) (kx_sk kx) rpk (kx_rx kx) (kx_tx kx) in
    mret (finish kx (crypto_kx_server_session_keys (kx_pk kx) (kx_sk kx) rpk)).
End kx.

(** ** HKDF (RFC 5869) *)

Section hkdf.
Context (md : digest).

(** Result: error code, and the pseudorandom key. *)
Definition crypto_hkdf_extract (salt : option bytes) (ikm : bytes) : Z * bytes :=
  let hash_len := md_get_size md in
  let salt := match salt with Some s => s | None => zrep hash_len 0 end in
  match md_hmac md salt ikm with
  | Some prk => (0, prk)
  | None => (CRYPTO_ERROR, [])
  end.

(** The loop [for (i = 1; i <= N; i++)]: [T] is the previous block, [whr] the
    position in [okm]. *)
Fixpoint hkdf_loop (todo : nat) (i N : Z) (prk info T : bytes) (whr : Z) (okm : bytes)
    (okm_len : Z) : run (Z * bytes) :=
  match todo with
  | O => mret (0, okm)
  | S todo =>
      let c := u8 i in
      match md_hmac md prk (T ++ info ++ [c]) with
      | None => mret (1, okm)
      | Some T =>
          let hash_len := md_get_size md in
          okm ← memcpy okm whr T 0 (if negb (i =? N) then hash_len else okm_len - whr);
          hkdf_loop todo (i + 1) N prk info T (whr + hash_len) okm okm_len
      end
  end.

(** [N] is an [int], assigned from a quotient of type [size_t]; the increment of
    the largest [int], which C leaves undefined, wraps around here. *)
Definition crypto_hkdf_expand (prk : bytes) (info : option bytes) (okm : bytes) (okm_len : Z)
    : run (Z * bytes) :=
  let hash_len := md_get_size md in
  if len prk <? hash_len then mret (CRYPTO_ERROR, okm)
  else
    let info := default [] info in
    let N := s32 (okm_len / hash_len) in
    let N := if negb (okm_len mod hash_len =? 0) then s32 (N + 1) else N in
    if 255 <? N then mret (CRYPTO_ERROR, okm)
    else if negb (md_setup md =? 0) then mret (md_setup md, okm)
    else hkdf_loop (Z.to_nat N) 1 N prk info [] 0 okm okm_len.

(** [extract(...) || expand(...)]: the truth value of the first failure. *)
Definition crypto_hkdf (salt : option bytes) (ikm : bytes) (info : option bytes)
    (okm : bytes) (okm_len : Z) : run (Z * bytes) :=
  let (e1, prk) := crypto_hkdf_extract salt ikm in
  if negb (e1 =? 0) then mret (1, okm)
  else '(e2, okm) ← crypto_hkdf_expand (ztake (md_get_size md) prk) info okm okm_len;
       mret (if negb (e2 =? 0) then 1 else 0, okm).

(** Specification: the blocks T(1), T(2), ... of RFC 5869, section 2.3. *)
Fixpoint hkdf_blocks (n : nat) (i : Z) (prk info T : bytes) : bytes :=
  match n with
  | O => []
  | S n =>
      let T := default [] (md_hmac md prk (T ++ info ++ [u8 i])) in
      T ++ hkdf_blocks n (i + 1) prk info T
  end.
End hkdf.
