(* ===== verification/CryptoSpec.v ===== *)
(** * Correctness of crypto.c: HKDF against RFC 5869, the nonce counter *)
From S2P Require Import Prelude Crypto.

Section hkdf_spec.
Context (md : digest).
(** HMAC succeeds and yields [md_get_size] bytes, for a digest of positive size. *)
Definition digest_ok : Prop :=
  0 < md_get_size md /\ md_setup md = 0 /\
  forall k m, exists h, md_hmac md k m = Some h /\ len h = md_get_size md.

Lemma hkdf_loop_spec : digest_ok -> forall todo i N prk info T pre okm okm_len,
  N = i + Z.of_nat todo - 1 -> 1 <= i ->
  (N - 1) * md_get_size md < okm_len <= N * md_get_size md -> okm_len <= len okm ->
  len pre = (i - 1) * md_get_size md -> starts_with pre okm ->
  exists okm', hkdf_loop md todo i N prk info T (len pre) okm okm_len = Ret (0, okm') /\
    starts_with (ztake okm_len (pre ++ hkdf_blocks md todo i prk info T)) okm' /\
    len okm' = len okm.
Proof.
  intros (Hpos & _ & Hmac).
  induction todo as [|todo IH]; intros i N prk info T pre okm okm_len HN Hi Hlo Hok Hpre Hs.
  - exists okm. cbn [hkdf_loop hkdf_blocks]. split; [done|]. split; [|done].
    rewrite app_nil_r. apply starts_with_split in Hs as [k ->].
    apply starts_with_split. exists (zdrop okm_len pre ++ k).
    by rewrite app_assoc, ztake_zdrop.
  - cbn [hkdf_loop hkdf_blocks].
    destruct (Hmac prk (T ++ info ++ [u8 i])) as (h & Hh & Hlh). rewrite Hh. cbn [default from_option].
    unfold id. destruct (Z.eqb_spec i N) as [->|Hne]; cbn [negb].
    + assert (todo = O) as -> by lia. cbn [hkdf_loop hkdf_blocks]. rewrite app_nil_r.
      unfold memcpy. rewrite rd_range_front by lia. run_simpl.
      destruct (wr_range_extend pre (ztake (okm_len - len pre) h) okm (len pre) Hs)
        as (okm' & -> & Hs' & Hl'); [done|rewrite len_ztake; lia|].
      exists okm'. run_simpl. split; [done|]. split; [|done].
      by rewrite ztake_app_r by lia.
    + unfold memcpy. rewrite rd_range_front, ztake_all by lia. run_simpl.
      assert (Hmul : i * md_get_size md <= (N - 1) * md_get_size md) by (apply Z.mul_le_mono_nonneg_r; lia).
      destruct (wr_range_extend pre h okm (len pre) Hs) as (okm1 & -> & Hs1 & Hl1); [done|lia|].
      run_simpl.
      destruct (IH (i + 1) N prk info h (pre ++ h) okm1 okm_len) as (okm' & Hr & Hs' & Hl');
        [lia|lia|done|lia|rewrite len_app; lia|done|].
      rewrite len_app, Hlh in Hr. exists okm'. rewrite Hr. split; [done|].
      rewrite app_assoc. split; [done|lia].
Qed.

Lemma len_hkdf_blocks n i prk info T : digest_ok ->
  len (hkdf_blocks md n i prk info T) = Z.of_nat n * md_get_size md.
Proof.
  intros (Hpos & _ & Hmac). revert i T. induction n as [|n IH]; intros i T; [done|].
  cbn [hkdf_blocks]. destruct (Hmac prk (T ++ info ++ [u8 i])) as (h & -> & Hlh).
  cbn [default from_option]. unfold id. rewrite len_app, IH. lia.
Qed.

(** The number of blocks for [okm_len] bytes of output. *)
Definition hkdf_N (okm_len : Z) : Z :=
  let N := okm_len / md_get_size md in
  if negb (okm_len mod md_get_size md =? 0) then N + 1 else N.

(** RFC 5869: extract with the salt, expand with the info. *)
Definition hkdf_spec (salt : option bytes) (ikm info : bytes) (okm_len : Z) : bytes :=
  let salt := match salt with Some s => s | None => zrep (md_get_size md) 0 end in
  ztake okm_len
    (hkdf_blocks md (Z.to_nat (hkdf_N okm_len)) 1 (default [] (md_hmac md salt ikm)) info []).

Lemma hkdf_N_bounds okm_len : digest_ok -> 0 < okm_len ->
  (hkdf_N okm_len - 1) * md_get_size md < okm_len <= hkdf_N okm_len * md_get_size md.
Proof.
  intros [Hpos _] Hok. unfold hkdf_N.
  pose proof (Z.div_mod okm_len (md_get_size md)).
  pose proof (Z.mod_pos_bound okm_len (md_get_size md)).
  destruct (Z.eqb_spec (okm_len mod md_get_size md) 0); cbn [negb]; nia.
Qed.

(** Where the [int] of the code holds it. *)
Lemma hkdf_N_int okm_len : 0 < md_get_size md -> 0 < okm_len <= 2147483647 * md_get_size md ->
  (let N := s32 (okm_len / md_get_size md) in if negb (okm_len mod md_get_size md =? 0) then s32 (N + 1) else N) = hkdf_N okm_len.
Proof.
  intros Hpos Hl. unfold hkdf_N. pose proof (Z.div_mod okm_len (md_get_size md)). pose proof (Z.mod_pos_bound okm_len (md_get_size md)).
  assert (0 <= okm_len / md_get_size md <= 2147483647) by nia. cbv zeta. rewrite (s32_small (okm_len / md_get_size md)) by lia.
  destruct (Z.eqb_spec (okm_len mod md_get_size md) 0); cbn [negb]; [done|]. apply s32_small. nia.
Qed.

Lemma crypto_hkdf_ok salt ikm info okm okm_len : digest_ok ->
  0 < okm_len <= 255 * md_get_size md -> okm_len <= len okm ->
  exists okm', crypto_hkdf md salt ikm (Some info) okm okm_len = Ret (0, okm') /\
    ztake okm_len okm' = hkdf_spec salt ikm info okm_len /\ len okm' = len okm /\
    len (hkdf_spec salt ikm info okm_len) = okm_len.
Proof.
  intros Hd Hlen Hroom. pose proof Hd as (Hpos & Hset & Hmac).
  unfold crypto_hkdf, crypto_hkdf_extract, hkdf_spec.
  set (slt := match salt with Some s => s | None => _ end).
  destruct (Hmac slt ikm) as (prk & Hprk & Hlp). rewrite Hprk. cbn [negb].
  change (negb (0 =? 0)) with false. cbv iota. cbn [default from_option]. unfold id.
  unfold crypto_hkdf_expand. rewrite ztake_all by lia. rewrite (proj2 (Z.ltb_ge (len prk) _)) by lia.
  cbn [default from_option]. unfold id. rewrite hkdf_N_int by lia. rewrite Hset. cbn [Z.eqb negb].
  pose proof (hkdf_N_bounds okm_len Hd) as HN.
  assert (HN255 : hkdf_N okm_len <= 255) by nia.
  assert (HNpos : 0 < hkdf_N okm_len) by nia.
  rewrite (proj2 (Z.ltb_ge 255 _)) by lia.
  destruct (hkdf_loop_spec Hd (Z.to_nat (hkdf_N okm_len)) 1 (hkdf_N okm_len) prk info [] [] okm okm_len)
    as (okm' & Hr & Hs & Hl); [lia|lia|lia|lia|done|apply starts_with_nil|].
  change (len (@nil Z)) with 0 in Hr. rewrite Hr. run_simpl.
  exists okm'. split; [done|]. cbn [app] in Hs. pose proof (starts_with_len _ _ Hs) as Hle.
  assert (Hlb : len (ztake okm_len (hkdf_blocks md (Z.to_nat (hkdf_N okm_len)) 1 prk info [])) = okm_len).
  { apply len_ztake. rewrite len_hkdf_blocks by done. lia. }
  rewrite <- Hlb at 1. split_and!; [exact Hs|done|done].
Qed.
End hkdf_spec.
