(* ===== verification/CryptoToy.v ===== *)
(** * A small concrete instance of the crypto interface

    [CryptoPrims] has instances that satisfy [CryptoLaws]: this one computes, so
    the theorems on aead.c and crypto.c can be evaluated on concrete data.  It
    offers no secrecy. *)
From S2P Require Import Prelude Crypto.

Definition pad32 (l : bytes) : bytes := ztake 32 (l ++ zrep 32 0).
Definition toy_tag (n : Z) (key nonce : bytes) : bytes := ztake n (nonce ++ key ++ zrep n 0).

Definition toy_seal (m n k : bytes) : bytes := m ++ toy_tag 16 k n.
Definition toy_open (c n k : bytes) : option bytes :=
  if (16 <=? len c) && bool_decide (zdrop (len c - 16) c = toy_tag 16 k n)
  then Some (ztake (len c - 16) c) else None.

Definition toy_hmac (k m : bytes) : option bytes := Some (ztake 20 (rev m ++ k ++ zrep 20 0)).

Definition toy_shared (a b : bytes) : bytes :=
  zip_with (fun x y => (x + y) mod 256) (pad32 a) (pad32 b).
Definition toy_rx (a b : bytes) : bytes := (fun x => (x + 1) mod 256) <$> toy_shared a b.

#[export] Instance toy : CryptoPrims := {
  md_SHA1 := Some (Digest 20 0 toy_hmac);
  md_MD5 := Some (Digest 16 0 (fun k m => Some (ztake 16 (rev m ++ k ++ zrep 16 0))));
  mbedtls_cipher_setkey := fun _ key bits op =>
    if bits =? len key * 8 then Some (Evp (Some (key, op))) else None;
  mbedtls_cipher_auth_encrypt := fun e n m tlen =>
    '(k, _) ← evp_key e; Some (m, toy_tag tlen k n);
  mbedtls_cipher_auth_decrypt := fun e n c t =>
    '(k, _) ← evp_key e; if bool_decide (t = toy_tag (len t) k n) then Some c else None;
  chacha20poly1305_ietf_encrypt := toy_seal;
  chacha20poly1305_ietf_decrypt := toy_open;
  xchacha20poly1305_ietf_encrypt := toy_seal;
  xchacha20poly1305_ietf_decrypt := toy_open;
  crypto_kx_keypair := fun s => (pad32 s, pad32 s);
  crypto_kx_client_session_keys := fun pk _ rpk => Some (toy_rx pk rpk, toy_shared pk rpk);
  crypto_kx_server_session_keys := fun pk _ rpk => Some (toy_shared pk rpk, toy_rx pk rpk)
}.

Lemma len_toy_tag n k s : 0 <= n -> len (toy_tag n k s) = n.
Proof. intros. unfold toy_tag. rewrite len_ztake; [done|]. rewrite !len_app, len_zrep; alia. Qed.
Lemma toy_seal_len m n k : len (toy_seal m n k) = len m + 16.
Proof. unfold toy_seal. rewrite len_app, len_toy_tag; lia. Qed.
Lemma toy_open_seal m n k : toy_open (toy_seal m n k) n k = Some m.
Proof.
  unfold toy_open. rewrite toy_seal_len. unfold toy_seal. len_facts.
  replace (len m + 16 - 16) with (len m) by lia.
  rewrite zdrop_app_exact, ztake_app_exact by done. ztest. by rewrite bool_decide_true.
Qed.
Lemma toy_open_len c n k m : toy_open c n k = Some m -> len m + 16 = len c.
Proof.
  unfold toy_open. zcase; [|done]. cbn [andb]. case_bool_decide; [|done].
  intros [= <-]. rewrite len_ztake; len_facts; lia.
Qed.
Lemma len_pad32 l : len (pad32 l) = 32.
Proof. unfold pad32. rewrite len_ztake; [done|]. rewrite len_app, len_zrep; alia. Qed.
Lemma len_zip_with {A B C} (f : A -> B -> C) l k : len l = len k -> len (zip_with f l k) = len l.
Proof. unfold len. rewrite length_zip_with. lia. Qed.
Lemma len_toy_shared a b : len (toy_shared a b) = 32.
Proof. unfold toy_shared. rewrite len_zip_with; by rewrite ?len_pad32. Qed.
Lemma len_toy_rx a b : len (toy_rx a b) = 32.
Proof. unfold toy_rx. unfold len. rewrite length_fmap. apply len_toy_shared. Qed.
Lemma toy_shared_comm a b : toy_shared a b = toy_shared b a.
Proof.
  unfold toy_shared. rewrite <- zip_with_flip. apply zip_with_ext; [|done..].
  intros. cbn. by rewrite Z.add_comm.
Qed.

#[export] Instance toy_laws : CryptoLaws toy.
Proof.
  split; cbn.
  - intros e key op _. by rewrite Z.eqb_refl.
  - intros key op n m tlen. eexists _, _. split; [reflexivity|]. split; [done|]. apply len_toy_tag.
  - intros key op op' n m tlen c t [= <- <-].
    rewrite bool_decide_true; [done|].
    destruct (Z.le_ge_cases 0 tlen) as [H|H]; [by rewrite len_toy_tag|].
    unfold toy_tag, ztake, zrep, len. replace (Z.to_nat tlen) with O by lia. done.
  - apply toy_seal_len.
  - apply toy_open_seal.
  - apply toy_seal_len.
  - apply toy_open_seal.
  - intros e n c t m. destruct (evp_key e) as [[k op]|]; cbn; [|done].
    case_bool_decide; [|done]. by intros [= <-].
  - apply toy_open_len.
  - apply toy_open_len.
  - intros s. by rewrite len_pad32.
  - intros pk sk rpk rx tx [= <- <-]. by rewrite len_toy_shared, len_toy_rx.
  - intros pk sk rpk rx tx [= <- <-]. by rewrite len_toy_shared, len_toy_rx.
  - intros s s' rx tx [= <- <-]. unfold toy_rx.
    by rewrite (toy_shared_comm (pad32 s') (pad32 s)).
  - eexists. do 3 (split; [done|]). intros k m. eexists. split; [done|].
    cbn. rewrite len_ztake; [done|]. rewrite !len_app, len_zrep; alia.
Qed.
