(* ===== verification/Aead.v ===== *)
(** * aead.c: the chunked AEAD transport of the proxy (SIP004 with padding)

    The operations of aead.c on [cipher_ctx_t].  A C function that returns a
    [CRYPTO_*] code is a function into [run] (faults) of the code together with
    the objects it changed.  Random values enter as an [entropy] argument. *)
From S2P Require Import Prelude Crypto.
From Stdlib Require Import String.

Definition NONE : Z := -1.
Definition AES128GCM : Z := 0.
Definition AES192GCM : Z := 1.
Definition AES256GCM : Z := 2.
Definition CHACHA20POLY1305IETF : Z := 3.
Definition XCHACHA20POLY1305IETF : Z := 4.
Definition AEAD_CIPHER_NUM : Z := 5.

Definition CHUNK_SIZE_LEN : Z := 2.
Definition CHUNK_SIZE_MASK : Z := 0x3FFF.
Definition CHUNK_PADDING_SIZE_LEN : Z := 2.
Definition CHUNK_PADDING_SIZE_LIMIT : Z := 512.
Definition CHUNK_PADDING_SIZE_MASK : Z := 0x7FFF.

Definition supported_aead_ciphers : list string :=
  ["aes-128-gcm"; "aes-192-gcm"; "aes-256-gcm";
   "chacha20-ietf-poly1305"; "xchacha20-ietf-poly1305"]%string.
Definition supported_aead_ciphers_nonce_size : list Z := [12; 12; 12; 12; 24].
Definition supported_aead_ciphers_key_size : list Z := [16; 24; 32; 32; 32].
Definition supported_aead_ciphers_tag_size : list Z := [16; 16; 16; 16; 16].

(** [cipher_t]; the [info] pointer only serves the crypto library. *)
Record cipher_t := Cipher {
  method : Z;
  nonce_len : Z;
  key_len : Z;
  tag_len : Z;
  c_pk : bytes;
  c_sk : bytes
}.

Record cipher_ctx := Ctx {
  init : Z;
  is_local : Z;
  evp : option evp_t;
  cipher : cipher_t;
  chunk : option buffer;
  kx : kx_ctx;
  salt : bytes;
  s_rx : bytes;
  s_tx : bytes;
  nonce : bytes
}.

Definition set_init v c := Ctx v (is_local c) (evp c) (cipher c) (chunk c) (kx c) (salt c) (s_rx c) (s_tx c) (nonce c).
Definition set_local v c := Ctx (init c) v (evp c) (cipher c) (chunk c) (kx c) (salt c) (s_rx c) (s_tx c) (nonce c).
Definition set_evp v c := Ctx (init c) (is_local c) v (cipher c) (chunk c) (kx c) (salt c) (s_rx c) (s_tx c) (nonce c).
Definition set_chunk v c := Ctx (init c) (is_local c) (evp c) (cipher c) v (kx c) (salt c) (s_rx c) (s_tx c) (nonce c).
Definition set_kx v c := Ctx (init c) (is_local c) (evp c) (cipher c) (chunk c) v (salt c) (s_rx c) (s_tx c) (nonce c).
Definition set_salt v c := Ctx (init c) (is_local c) (evp c) (cipher c) (chunk c) (kx c) v (s_rx c) (s_tx c) (nonce c).
Definition set_s_rx v c := Ctx (init c) (is_local c) (evp c) (cipher c) (chunk c) (kx c) (salt c) v (s_tx c) (nonce c).
Definition set_s_tx v c := Ctx (init c) (is_local c) (evp c) (cipher c) (chunk c) (kx c) (salt c) (s_rx c) v (nonce c).
Definition set_nonce v c := Ctx (init c) (is_local c) (evp c) (cipher c) (chunk c) (kx c) (salt c) (s_rx c) (s_tx c) v.

Definition kx_set_pk_sent v k := KxCtx v (rpk_received k) (kx_pk k) (kx_sk k) (kx_rpk k) (kx_rx k) (kx_tx k).
Definition kx_set_rpk_received v k := KxCtx (pk_sent k) v (kx_pk k) (kx_sk k) (kx_rpk k) (kx_rx k) (kx_tx k).
Definition kx_set_keys pk sk k := KxCtx (pk_sent k) (rpk_received k) pk sk (kx_rpk k) (kx_rx k) (kx_tx k).

(** What one call of [random()] returns and what [rand_bytes] writes. *)
Record entropy := Entropy { rnd_value : Z; rnd_bytes : Z -> bytes }.

Section aead.
Context `{P : CryptoPrims} (junk : nat -> Z).

(** ** One seal or open: the dispatch on the method *)

(** [aead_cipher_encrypt(ctx, c, clen, m, mlen, NULL, 0, n, k)]: the error code
    and the bytes written at [c] ([*clen] is their number). *)
Definition aead_cipher_encrypt (ctx : cipher_ctx) (m n k : bytes) : run (Z * bytes) :=
  let nlen := nonce_len (cipher ctx) in
  let tlen := tag_len (cipher ctx) in
  let mth := method (cipher ctx) in
  if (mth =? AES128GCM) || (mth =? AES192GCM) || (mth =? AES256GCM) then
    e ← deref (evp ctx);
    n ← rd_range n 0 nlen;
    match mbedtls_cipher_auth_encrypt e n m tlen with
    | Some (c, t) => mret (CRYPTO_OK, c ++ t)
    | None => mret (1, [])
    end
  else if mth =? CHACHA20POLY1305IETF then
    n ← rd_range n 0 12; k ← rd_range k 0 32;
    mret (CRYPTO_OK, chacha20poly1305_ietf_encrypt m n k)
  else if mth =? XCHACHA20POLY1305IETF then
    n ← rd_range n 0 24; k ← rd_range k 0 32;
    mret (CRYPTO_OK, xchacha20poly1305_ietf_encrypt m n k)
  else mret (CRYPTO_ERROR, []).

Definition aead_cipher_decrypt (ctx : cipher_ctx) (m n k : bytes) : run (Z * bytes) :=
  let nlen := nonce_len (cipher ctx) in
  let tlen := tag_len (cipher ctx) in
  let mth := method (cipher ctx) in
  let result (r : option bytes) := match r with Some p => (CRYPTO_OK, p) | None => (1, []) end in
  if (mth =? AES128GCM) || (mth =? AES192GCM) || (mth =? AES256GCM) then
    e ← deref (evp ctx);
    n ← rd_range n 0 nlen;
    c ← rd_range m 0 (len m - tlen);
    t ← rd_range m (len m - tlen) tlen;
    mret (result (mbedtls_cipher_auth_decrypt e n c t))
  else if mth =? CHACHA20POLY1305IETF then
    n ← rd_range n 0 12; k ← rd_range k 0 32;
    mret (result (chacha20poly1305_ietf_decrypt m n k))
  else if mth =? XCHACHA20POLY1305IETF then
    n ← rd_range n 0 24; k ← rd_range k 0 32;
    mret (result (xchacha20poly1305_ietf_decrypt m n k))
  else mret (CRYPTO_ERROR, []).

(** ** Contexts *)

Definition SUBKEY_INFO : bytes := [112; 115; 45; 115; 117; 98; 107; 101; 121].

(** [enc] is 0 or 1.  FATAL is [Exited]. *)
Definition aead_cipher_ctx_set_key (ctx : cipher_ctx) (enc : Z) : run cipher_ctx :=
  match md_SHA1 with
  | None => Fail Exited
  | Some md =>
      let klen := key_len (cipher ctx) in
      let key := if negb (enc =? 0) then kx_tx (kx ctx) else kx_rx (kx ctx) in
      let skey := if negb (enc =? 0) then s_tx ctx else s_rx ctx in
      s ← rd_range (salt ctx) 0 klen;
      k ← rd_range key 0 klen;
      '(err, skey) ← crypto_hkdf md (Some s) k (Some SUBKEY_INFO) skey klen;
      if negb (err =? 0) then Fail Exited
      else
        let ctx := if negb (enc =? 0) then set_s_tx skey ctx else set_s_rx skey ctx in
        n ← wr_range (nonce ctx) 0 (zrep (nonce_len (cipher ctx)) 0);
        let ctx := set_nonce n ctx in
        if CHACHA20POLY1305IETF <=? method (cipher ctx) then mret ctx
        else
          e ← deref (evp ctx);
          k ← rd_range skey 0 klen;
          match mbedtls_cipher_setkey e k (klen * 8) enc with
          | None => Fail Exited
          | Some e => mret (set_evp (Some e) ctx)
          end
  end.

(** [sodium_memzero(cipher_ctx, sizeof(cipher_ctx_t))]. *)
Definition ctx_zero (c : cipher_t) : cipher_ctx :=
  Ctx 0 0 None c None kx_zero (zrep MAX_KEY_LENGTH 0) (zrep MAX_KEY_LENGTH 0)
      (zrep MAX_KEY_LENGTH 0) (zrep MAX_NONCE_LENGTH 0).

Definition aead_cipher_ctx_init (ctx : cipher_ctx) (mth : Z) : cipher_ctx :=
  if (mth <? AES128GCM) || (AEAD_CIPHER_NUM <=? mth) then ctx
  else if CHACHA20POLY1305IETF <=? mth then ctx
  else set_evp (Some (Evp None)) ctx.

(** [aead_ctx_init(cipher, kx, ctx, enc)]; [saltbytes] is what [rand_bytes]
    writes into the salt when [enc] is set. *)
Definition aead_ctx_init (c : cipher_t) (k : option kx_ctx) (enc : Z) (saltbytes : Z -> bytes)
    : run cipher_ctx :=
  let ctx := ctx_zero c in
  let ctx := match k with Some k => set_kx k ctx | None => ctx end in
  let ctx := aead_cipher_ctx_init ctx (method c) in
  if negb (enc =? 0) then
    s ← wr_range (salt ctx) 0 (saltbytes (key_len c));
    mret (set_salt s ctx)
  else mret ctx.

Definition aead_ctx_release (ctx : cipher_ctx) : run cipher_ctx :=
  let ctx := match chunk ctx with Some _ => set_chunk None ctx | None => ctx end in
  if CHACHA20POLY1305IETF <=? method (cipher ctx) then mret ctx
  else mret (set_evp None ctx).

(** ** TCP: one chunk *)

(** [aead_chunk_encrypt(ctx, p, c + coff, ctx->nonce, plen, outlen)]: the code,
    the context (its nonce moves), the array behind [c] and [*outlen].  The
    nonce argument is the context's own nonce in the only call. *)
Definition aead_chunk_encrypt (ctx : cipher_ctx) (p c : bytes) (coff plen outlen : Z)
    (e : entropy) : run (Z * cipher_ctx * bytes * Z) :=
  let nlen := nonce_len (cipher ctx) in
  let tlen := tag_len (cipher ctx) in
  _ ← check (plen <=? CHUNK_SIZE_MASK);
  let t := Z.land plen CHUNK_SIZE_MASK in
  let pdlen :=
    u16 (if plen <? CHUNK_PADDING_SIZE_LIMIT
         then rnd_value e mod CHUNK_PADDING_SIZE_LIMIT + 1
         else rnd_value e mod (CHUNK_PADDING_SIZE_MASK - CHUNK_PADDING_SIZE_LIMIT)
              + CHUNK_PADDING_SIZE_LIMIT + 1) in
  pdbuf ← (if plen <? CHUNK_PADDING_SIZE_LIMIT
           then wr_range (fresh junk CHUNK_PADDING_SIZE_LIMIT) 0 (rnd_bytes e pdlen)
           else mret (fresh junk CHUNK_PADDING_SIZE_LIMIT));
  let len_buf := be32 (Z.lor t (Z.shiftl pdlen 16)) in
  '(err, out) ← aead_cipher_encrypt ctx len_buf (nonce ctx) (s_tx ctx);
  if negb (err =? 0) then mret (CRYPTO_ERROR, ctx, c, outlen)
  else
    c ← wr_range c coff out;
    let clen := len out in
    _ ← check (clen =? CHUNK_SIZE_LEN + CHUNK_PADDING_SIZE_LEN + tlen);
    n ← sodium_increment (nonce ctx) nlen;
    let ctx := set_nonce n ctx in
    c ← (if pdlen <=? CHUNK_PADDING_SIZE_LIMIT then memcpy c (coff + clen) pdbuf 0 pdlen
         else mret c);
    let pdlen := if pdlen <=? CHUNK_PADDING_SIZE_LIMIT then pdlen else 0 in
    m ← rd_range p 0 plen;
    '(err, out) ← aead_cipher_encrypt ctx m (nonce ctx) (s_tx ctx);
    if negb (err =? 0) then mret (CRYPTO_ERROR, ctx, c, outlen)
    else
      c ← wr_range c (coff + CHUNK_SIZE_LEN + CHUNK_PADDING_SIZE_LEN + tlen + pdlen) out;
      _ ← check (len out =? plen + tlen);
      n ← sodium_increment (nonce ctx) nlen;
      let ctx := set_nonce n ctx in
      mret (CRYPTO_OK, ctx, c,
            CHUNK_SIZE_LEN + CHUNK_PADDING_SIZE_LEN + tlen + pdlen + plen + tlen).

(** [aead_encrypt(plaintext, ctx, capacity)]; [tmp] is its static buffer. *)
Definition aead_encrypt (plaintext tmp : buffer) (ctx : cipher_ctx) (capacity : Z) (e : entropy)
    : run (Z * buffer * buffer * cipher_ctx) :=
  if b_len plaintext =? 0 then mret (CRYPTO_OK, plaintext, tmp, ctx)
  else
    let salt_len := key_len (cipher ctx) in
    let tlen := tag_len (cipher ctx) in
    let first := init ctx =? 0 in
    let local := negb (is_local ctx =? 0) in
    let salt_offset := if first then salt_len else 0 in
    let pk_offset := if first && local then crypto_kx_PUBLICKEYBYTES else 0 in
    let out_len := pk_offset + salt_offset + 2 * tlen + b_len plaintext
                   + CHUNK_SIZE_LEN + CHUNK_PADDING_SIZE_LEN + CHUNK_PADDING_SIZE_LIMIT in
    let ciphertext := with_len (grow junk tmp out_len capacity) out_len in
    data ← deref (b_data ciphertext);
    '(data, ctx) ←
      (if first then
         '(data, ctx) ←
           (if local then
              d ← memcpy data 0 (kx_pk (kx ctx)) 0 pk_offset;
              mret (d, set_kx (kx_set_pk_sent 1 (kx ctx)) ctx)
            else mret (data, ctx));
         data ← memcpy data pk_offset (salt ctx) 0 salt_len;
         ctx ← aead_cipher_ctx_set_key ctx 1;
         mret (data, set_init 1 ctx)
       else mret (data, ctx));
    p ← deref (b_data plaintext);
    '(err, ctx, data, out_len) ←
      aead_chunk_encrypt ctx p data (pk_offset + salt_offset) (u16 (b_len plaintext)) out_len e;
    let ciphertext := with_data ciphertext data in
    if negb (err =? 0) then mret (err, plaintext, ciphertext, ctx)
    else
      let total := out_len + pk_offset + salt_offset in
      let plaintext := grow junk plaintext total capacity in
      p ← deref (b_data plaintext);
      p ← memcpy p 0 data 0 total;
      mret (0, with_len (with_data plaintext p) total, ciphertext, ctx).

(** [aead_chunk_decrypt(ctx, p + poff, c, ctx->nonce, plen, clen)]: the code,
    the context, the arrays behind [p] and [c], [*plen] and [*clen]. *)
Definition aead_chunk_decrypt (ctx : cipher_ctx) (p : bytes) (poff : Z) (c : bytes)
    (plen clen : Z) : run (Z * cipher_ctx * bytes * bytes * Z * Z) :=
  let nlen := nonce_len (cipher ctx) in
  let tlen := tag_len (cipher ctx) in
  if clen <=? 2 * tlen + CHUNK_SIZE_LEN + CHUNK_PADDING_SIZE_LEN
  then mret (CRYPTO_NEED_MORE, ctx, p, c, plen, clen)
  else
    hd ← rd_range c 0 (CHUNK_SIZE_LEN + CHUNK_PADDING_SIZE_LEN + tlen);
    '(err, len_buf) ← aead_cipher_decrypt ctx hd (nonce ctx) (s_rx ctx);
    if negb (err =? 0) then mret (CRYPTO_ERROR, ctx, p, c, plen, clen)
    else
      let plen := len len_buf in
      _ ← check (plen =? CHUNK_SIZE_LEN + CHUNK_PADDING_SIZE_LEN);
      let word := of_be 0 len_buf in
      let padlen := Z.land (Z.shiftr word 16) CHUNK_PADDING_SIZE_MASK in
      let mlen := Z.land word CHUNK_SIZE_MASK in
      if mlen =? 0 then mret (CRYPTO_ERROR, ctx, p, c, plen, clen)
      else
        let padlen := if CHUNK_PADDING_SIZE_LIMIT <? padlen then 0 else padlen in
        let chunk_len := 2 * tlen + CHUNK_SIZE_LEN + CHUNK_PADDING_SIZE_LEN + padlen + mlen in
        if clen <? chunk_len then mret (CRYPTO_NEED_MORE, ctx, p, c, plen, clen)
        else
          n ← sodium_increment (nonce ctx) nlen;
          let ctx := set_nonce n ctx in
          body ← rd_range c (CHUNK_SIZE_LEN + CHUNK_PADDING_SIZE_LEN + tlen + padlen) (mlen + tlen);
          '(err, m) ← aead_cipher_decrypt ctx body (nonce ctx) (s_rx ctx);
          if negb (err =? 0) then mret (CRYPTO_ERROR, ctx, p, c, plen, clen)
          else
            p ← wr_range p poff m;
            let plen := len m in
            _ ← check (plen =? mlen);
            n ← sodium_increment (nonce ctx) nlen;
            let ctx := set_nonce n ctx in
            c ← (if chunk_len <? clen then memcpy c 0 c chunk_len (clen - chunk_len) else mret c);
            mret (CRYPTO_OK, ctx, p, c, plen, clen - chunk_len).

(** The loop [while (ctx->chunk->len > 0)] of [aead_decrypt]: [c] and [clen]
    are the chunk's array and length, [p] the plaintext array, [plen] what it
    holds.  Each round that continues consumes bytes of the chunk, so fuel
    equal to its length is never exhausted. *)
Fixpoint aead_decrypt_loop (fuel : nat) (ctx : cipher_ctx) (p c : bytes) (plen clen : Z)
    : run (Z * cipher_ctx * bytes * bytes * Z * Z) :=
  if negb (0 <? clen) then mret (CRYPTO_OK, ctx, p, c, plen, clen)
  else
    match fuel with
    | O => mret (CRYPTO_OK, ctx, p, c, plen, clen)
    | S fuel =>
        '(err, ctx, p, c, chunk_plen, chunk_clen) ← aead_chunk_decrypt ctx p plen c 0 clen;
        if err =? CRYPTO_ERROR then mret (CRYPTO_ERROR, ctx, p, c, plen, clen)
        else if err =? CRYPTO_NEED_MORE then
          if plen =? 0 then mret (CRYPTO_NEED_MORE, ctx, p, c, plen, clen)
          else mret (CRYPTO_OK, ctx, p, c, plen, clen)
        else aead_decrypt_loop fuel ctx p c (plen + chunk_plen) chunk_clen
    end.

(** The part of [aead_decrypt] that starts a session: [None] asks for more
    bytes.  [seed] is the randomness of [crypto_kx_keypair]. *)
Definition aead_decrypt_start (ctx : cipher_ctx) (ch : buffer) (seed : bytes)
    : run (option (cipher_ctx * buffer)) :=
  if init ctx =? 0 then
    let salt_len := key_len (cipher ctx) in
    let local := negb (is_local ctx =? 0) in
    let rpk_len := if local then 0 else crypto_kx_PUBLICKEYBYTES in
    if b_len ch <=? rpk_len + salt_len then mret None
    else
      data ← deref (b_data ch);
      ctx ← (if local then mret ctx
             else
               let k := kx_set_keys (c_pk (cipher ctx)) (c_sk (cipher ctx)) (kx ctx) in
               '(k, _) ← crypto_kx_ctx_init k (is_local ctx) data seed;
               mret (set_kx k ctx));
      s ← memcpy (salt ctx) 0 data rpk_len salt_len;
      ctx ← aead_cipher_ctx_set_key (set_salt s ctx) 0;
      data ← memcpy data 0 data (rpk_len + salt_len) (b_len ch - rpk_len - salt_len);
      let ch := with_len (with_data ch data) (b_len ch - (rpk_len + salt_len)) in
      mret (Some (set_init 1 ctx, ch))
  else if init ctx =? 1 then mret (Some (set_init 2 ctx, ch))
  else mret (Some (ctx, ch)).

(** [aead_decrypt(ciphertext, ctx, capacity)]; [tmp] is its static buffer. *)
Definition aead_decrypt (ciphertext tmp : buffer) (ctx : cipher_ctx) (capacity : Z) (seed : bytes)
    : run (Z * buffer * buffer * cipher_ctx) :=
  let ch := match chunk ctx with
            | None => fst (balloc junk capacity)
            | Some ch => ch
            end in
  let ch := grow junk ch (b_len ch + b_len ciphertext) capacity in
  cdata ← deref (b_data ch);
  input ← deref (b_data ciphertext);
  cdata ← memcpy cdata (b_len ch) input 0 (b_len ciphertext);
  let ch := with_len (with_data ch cdata) (b_len ch + b_len ciphertext) in
  let plaintext := grow junk tmp (b_len ch) capacity in
  started ← aead_decrypt_start ctx ch seed;
  match started with
  | None => mret (CRYPTO_NEED_MORE, ciphertext, plaintext, set_chunk (Some ch) ctx)
  | Some (ctx, ch) =>
      p ← deref (b_data plaintext);
      c ← deref (b_data ch);
      '(err, ctx, p, c, plen, clen) ←
        aead_decrypt_loop (Z.to_nat (b_len ch)) ctx p c 0 (b_len ch);
      let ctx := set_chunk (Some (with_len (with_data ch c) clen)) ctx in
      let plaintext := with_data plaintext p in
      if negb (err =? 0) then mret (err, ciphertext, plaintext, ctx)
      else
        let plaintext := with_len plaintext plen in
        let ciphertext := grow junk ciphertext plen capacity in
        d ← deref (b_data ciphertext);
        d ← memcpy d 0 p 0 plen;
        mret (CRYPTO_OK, with_len (with_data ciphertext d) plen, plaintext, ctx)
  end.

(** ** UDP: whole packets *)

(** [aead_encrypt_all(plaintext, cipher, kx, capacity)]; [tmp] is its static
    buffer.  The context lives on the stack of the call. *)
Definition aead_encrypt_all (plaintext tmp : buffer) (c : cipher_t) (k : kx_ctx) (capacity : Z)
    (saltbytes : Z -> bytes) : run (Z * buffer * buffer * kx_ctx) :=
  ctx ← aead_ctx_init c (Some k) 1 saltbytes;
  let salt_len := key_len c in
  let tlen := tag_len c in
  let pk_len := if pk_sent k =? 0 then crypto_kx_PUBLICKEYBYTES else 0 in
  let tmp := grow junk tmp (pk_len + salt_len + tlen + b_len plaintext) capacity in
  let ciphertext := with_len tmp (tlen + b_len plaintext) in
  data ← deref (b_data ciphertext);
  '(data, k) ← (if negb (pk_len =? 0) then
                  d ← memcpy data 0 (kx_pk k) 0 pk_len; mret (d, kx_set_pk_sent 1 k)
                else mret (data, k));
  data ← memcpy data pk_len (salt ctx) 0 salt_len;
  ctx ← aead_cipher_ctx_set_key ctx 1;
  p ← deref (b_data plaintext);
  m ← rd_range p 0 (b_len plaintext);
  '(err, out) ← aead_cipher_encrypt ctx m (nonce ctx) (s_tx ctx);
  data ← wr_range data (pk_len + salt_len) out;
  let ciphertext := with_data ciphertext data in
  _ ← aead_ctx_release ctx;
  if negb (err =? 0) then mret (CRYPTO_ERROR, plaintext, ciphertext, k)
  else
    _ ← check (b_len ciphertext =? len out);
    let total := pk_len + salt_len + b_len ciphertext in
    let plaintext := grow junk plaintext total capacity in
    p ← deref (b_data plaintext);
    p ← memcpy p 0 data 0 total;
    mret (CRYPTO_OK, with_len (with_data plaintext p) total, ciphertext, k).

Definition aead_decrypt_all (ciphertext tmp : buffer) (c : cipher_t) (k : kx_ctx) (capacity : Z)
    (saltbytes : Z -> bytes) (seed : bytes) : run (Z * buffer * buffer * kx_ctx) :=
  let salt_len := key_len c in
  let tlen := tag_len c in
  let rpk_len := if rpk_received k =? 0 then crypto_kx_PUBLICKEYBYTES else 0 in
  if b_len ciphertext <=? rpk_len + salt_len + tlen then mret (CRYPTO_ERROR, ciphertext, tmp, k)
  else
    cdata ← deref (b_data ciphertext);
    k ← (if rpk_received k =? 0 then
           '(k, _) ← crypto_kx_ctx_init k 0 cdata seed; mret (kx_set_rpk_received 1 k)
         else mret k);
    ctx ← aead_ctx_init c (Some k) 0 saltbytes;
    let tmp := grow junk tmp (b_len ciphertext) capacity in
    let plaintext := with_len tmp (b_len ciphertext - rpk_len - salt_len - tlen) in
    s ← memcpy (salt ctx) 0 cdata rpk_len salt_len;
    ctx ← aead_cipher_ctx_set_key (set_salt s ctx) 0;
    body ← rd_range cdata (rpk_len + salt_len) (b_len ciphertext - rpk_len - salt_len);
    '(err, m) ← aead_cipher_decrypt ctx body (nonce ctx) (s_rx ctx);
    pdata ← deref (b_data plaintext);
    pdata ← wr_range pdata 0 m;
    let plaintext := with_data plaintext pdata in
    _ ← aead_ctx_release ctx;
    if negb (err =? 0) then mret (CRYPTO_ERROR, ciphertext, plaintext, k)
    else
      let ciphertext := grow junk ciphertext (b_len plaintext) capacity in
      d ← deref (b_data ciphertext);
      d ← memcpy d 0 pdata 0 (b_len plaintext);
      mret (CRYPTO_OK, with_len (with_data ciphertext d) (b_len plaintext), plaintext, k).
End aead.

(** ** Choosing a cipher *)

Section cipher_choice.
(** Whether [mbedtls_cipher_info_from_string] knows the method's cipher. *)
Context (mbedtls_has : Z -> bool).

(** [aead_get_cipher_type(method)]: whether the result is a cipher. *)
Definition aead_get_cipher_type (mth : Z) : bool :=
  if (mth <? AES128GCM) || (AEAD_CIPHER_NUM <=? mth) then false
  else if CHACHA20POLY1305IETF <=? mth then false
  else mbedtls_has mth.

(** [aead_key_init(method, pk, sk)]; a missing key argument leaves zeros. *)
Definition aead_key_init (mth : Z) (pk sk : option bytes) : run (option cipher_t) :=
  if (mth <? AES128GCM) || (AEAD_CIPHER_NUM <=? mth) then mret None
  else
    let info := if CHACHA20POLY1305IETF <=? mth then true else aead_get_cipher_type mth in
    if negb info then Fail Exited
    else
      klen ← rd supported_aead_ciphers_key_size mth;
      pk ← match pk with
           | Some pk => rd_range pk 0 crypto_kx_PUBLICKEYBYTES
           | None => mret (zrep crypto_kx_PUBLICKEYBYTES 0) end;
      sk ← match sk with
           | Some sk => rd_range sk 0 crypto_kx_SECRETKEYBYTES
           | None => mret (zrep crypto_kx_SECRETKEYBYTES 0) end;
      if klen =? 0 then Fail Exited
      else
        nlen ← rd supported_aead_ciphers_nonce_size mth;
        tlen ← rd supported_aead_ciphers_tag_size mth;
        mret (Some (Cipher mth nlen klen tlen pk sk)).

(** The search loop of [aead_init]. *)
Fixpoint aead_find (name : string) (m : Z) (names : list string) : Z :=
  match names with
  | [] => m
  | n :: names => if String.eqb name n then m else aead_find name (m + 1) names
  end.
Definition aead_init (pk sk : option bytes) (name : option string) : run (option cipher_t) :=
  let m := match name with
           | None => AES128GCM
           | Some name =>
               let m := aead_find name AES128GCM supported_aead_ciphers in
               if AEAD_CIPHER_NUM <=? m then AES256GCM else m
           end in
  aead_key_init m pk sk.
End cipher_choice.
