(* ===== verification/AeadSpec.v ===== *)
(** * Correctness of aead.c: framing, round trip, memory safety, nonces *)
From S2P Require Import Prelude Crypto Aead.

(** The ciphers of the table, with the sizes the tables of aead.c give them. *)
Definition cipher_ok (c : cipher_t) : Prop :=
  exists i : nat, method c = Z.of_nat i
    /\ supported_aead_ciphers_nonce_size !! i = Some (nonce_len c)
    /\ supported_aead_ciphers_key_size !! i = Some (key_len c)
    /\ supported_aead_ciphers_tag_size !! i = Some (tag_len c).

Lemma cipher_ok_cases c : cipher_ok c ->
  tag_len c = 16 /\
  ((0 <= method c <= 2 /\ nonce_len c = 12 /\ key_len c ∈ [16; 24; 32]) \/
   (method c = 3 /\ nonce_len c = 12 /\ key_len c = 32) \/
   (method c = 4 /\ nonce_len c = 24 /\ key_len c = 32)).
Proof.
  intros (i & Hm & Hn & Hk & Ht).
  destruct i as [|[|[|[|[|i]]]]]; cbn in *; simplify_eq; (split; [lia|]).
  1-3: left; repeat split; try lia; rewrite <- ?Hk; eauto using list_elem_of_here, list_elem_of_further.
  - right; left. lia.
  - right; right. lia.
Qed.

Section seal.
Context `{L : CryptoLaws}.

(** What a successful [aead_cipher_encrypt] writes, as a function of the
    cipher, the session key, the nonce and the message. *)
Definition seal (c : cipher_t) (key n m : bytes) : bytes :=
  if method c <=? 2 then
    match mbedtls_cipher_auth_encrypt (Evp (Some (key, 1))) n m (tag_len c) with
    | Some (x, t) => x ++ t
    | None => []
    end
  else if method c =? 3 then chacha20poly1305_ietf_encrypt m n key
  else xchacha20poly1305_ietf_encrypt m n key.

(** A context whose session key [skey] starts with [key], installed in the
    mbed TLS context when the method uses one. *)
Definition keyed (ctx : cipher_ctx) (skey key : bytes) (op : Z) : Prop :=
  cipher_ok (cipher ctx) /\ len skey = 64 /\ key = ztake (key_len (cipher ctx)) skey /\
  len (nonce ctx) = 32 /\
  (method (cipher ctx) <= 2 -> evp ctx = Some (Evp (Some (key, op)))).

Definition cur_nonce (ctx : cipher_ctx) : bytes := ztake (nonce_len (cipher ctx)) (nonce ctx).

Lemma len_seal c key n m : cipher_ok c -> len (seal c key n m) = len m + tag_len c.
Proof.
  intros [Ht Hc]%cipher_ok_cases. unfold seal. rewrite Ht.
  destruct Hc as [(Hm & _ & _)|[(Hm & _ & _)|(Hm & _ & _)]].
  - ztest. destruct (gcm_total key 1 n m 16) as (x & t & -> & Hx & Htl). rewrite len_app, Hx, Htl; lia.
  - ztest. by rewrite chacha_len.
  - ztest. by rewrite xchacha_len.
Qed.

Lemma seal_encrypt ctx key m :
  keyed ctx (s_tx ctx) key 1 ->
  aead_cipher_encrypt ctx m (nonce ctx) (s_tx ctx)
  = Ret (CRYPTO_OK, seal (cipher ctx) key (cur_nonce ctx) m).
Proof.
  intros (Hok & Hs & -> & Hn & Hevp). pose proof (cipher_ok_cases _ Hok) as [Ht Hc].
  unfold aead_cipher_encrypt, seal, cur_nonce, AES128GCM, AES192GCM, AES256GCM,
    CHACHA20POLY1305IETF, XCHACHA20POLY1305IETF. rewrite Ht.
  destruct Hc as [(Hm & Hnl & _)|[(Hm & Hnl & Hkl)|(Hm & Hnl & Hkl)]]; rewrite Hnl.
  - rewrite Hevp by lia. rewrite rd_range_front by lia.
    replace (_ || _ || _) with true by (repeat zcase; lia || done). ztest. run_simpl.
    destruct (gcm_total (ztake (key_len (cipher ctx)) (s_tx ctx)) 1 (ztake 12 (nonce ctx)) m 16)
      as (x & t & -> & _). done.
  - rewrite Hkl. ztest. rewrite !rd_range_front by lia. done.
  - rewrite Hkl. ztest. rewrite !rd_range_front by lia. done.
Qed.

Lemma seal_decrypt ctx key op m :
  keyed ctx (s_rx ctx) key op ->
  aead_cipher_decrypt ctx (seal (cipher ctx) key (cur_nonce ctx) m) (nonce ctx) (s_rx ctx)
  = Ret (CRYPTO_OK, m).
Proof.
  intros (Hok & Hs & -> & Hn & Hevp). pose proof (cipher_ok_cases _ Hok) as [Ht Hc].
  unfold aead_cipher_decrypt, seal, cur_nonce, AES128GCM, AES192GCM, AES256GCM,
    CHACHA20POLY1305IETF, XCHACHA20POLY1305IETF. rewrite Ht.
  destruct Hc as [(Hm & Hnl & _)|[(Hm & Hnl & Hkl)|(Hm & Hnl & Hkl)]]; rewrite Hnl.
  - rewrite Hevp by lia.
    replace (_ || _ || _) with true by (repeat zcase; lia || done). ztest. run_simpl.
    destruct (gcm_total (ztake (key_len (cipher ctx)) (s_rx ctx)) 1 (ztake 12 (nonce ctx)) m 16)
      as (x & t & He & Hx & Htl). rewrite He.
    rewrite (rd_range_front (nonce ctx)) by lia. run_simpl.
    rewrite len_app, Htl by lia. replace (len x + 16 - 16) with (len x) by lia.
    rewrite (rd_range_front (x ++ t)) by alia. rewrite ztake_app_exact by done. run_simpl.
    pose proof (rd_range_mid x t [] (len x) 16) as Hr. rewrite app_nil_r in Hr.
    rewrite Hr by lia. run_simpl.
    by rewrite (gcm_open _ _ op _ _ _ _ _ He).
  - rewrite Hkl. ztest. rewrite !rd_range_front by lia. run_simpl. by rewrite chacha_open.
  - rewrite Hkl. ztest. rewrite !rd_range_front by lia. run_simpl. by rewrite xchacha_open.
Qed.
End seal.

(** ** Chunks *)

(** Random values of the ranges the library functions promise. *)
Definition entropy_ok (e : entropy) : Prop :=
  0 <= rnd_value e /\ forall n, 0 <= n -> len (rnd_bytes e n) = n.

(** The padding length field, the padding itself, and the header word of a
    chunk with [mlen] bytes of data. *)
Definition pad_len (e : entropy) (mlen : Z) : Z :=
  if mlen <? 512 then rnd_value e mod 512 + 1 else rnd_value e mod 32255 + 513.
Definition padding (e : entropy) (mlen : Z) : bytes :=
  if mlen <? 512 then rnd_bytes e (pad_len e mlen) else [].
Definition header (e : entropy) (mlen : Z) : bytes :=
  be32 (Z.lor (Z.land mlen CHUNK_SIZE_MASK) (Z.shiftl (pad_len e mlen) 16)).

Lemma pad_len_bound e mlen : entropy_ok e ->
  (mlen < 512 -> 1 <= pad_len e mlen <= 512) /\ (512 <= mlen -> 513 <= pad_len e mlen <= 0x7FFF).
Proof.
  intros [Hr _]. unfold pad_len.
  pose proof (Z.mod_pos_bound (rnd_value e) 512). pose proof (Z.mod_pos_bound (rnd_value e) 32255).
  split; intros; ztest; lia.
Qed.
Lemma len_padding e mlen : entropy_ok e ->
  len (padding e mlen) = if mlen <? 512 then pad_len e mlen else 0.
Proof.
  intros He. unfold padding. zcase; [|done]. destruct He as [Hr He].
  apply He. pose proof (pad_len_bound e mlen). destruct (pad_len_bound e mlen); [done|]. lia.
Qed.

(** The receiver recovers both fields of the header word. *)
Lemma header_fields e mlen : entropy_ok e -> 0 <= mlen <= CHUNK_SIZE_MASK ->
  Z.land (of_be 0 (header e mlen)) CHUNK_SIZE_MASK = mlen /\
  Z.land (Z.shiftr (of_be 0 (header e mlen)) 16) CHUNK_PADDING_SIZE_MASK = pad_len e mlen.
Proof.
  intros He Hm. destruct (pad_len_bound e mlen He) as [Hp1 Hp2].
  assert (Hp : 1 <= pad_len e mlen <= 0x7FFF) by lia.
  unfold header, CHUNK_SIZE_MASK, CHUNK_PADDING_SIZE_MASK in *.
  change 0x3FFF with (Z.ones 14). change 0x7FFF with (Z.ones 15).
  rewrite !land_ones_mod by lia. rewrite (Z.mod_small mlen) by lia.
  rewrite lor_shiftl_add by lia. rewrite of_be_be32 by lia. rewrite shiftr_div by lia.
  change (2 ^ 14) with 16384. change (2 ^ 15) with 32768. change (2 ^ 16) with 65536.
  split.
  - replace (mlen + pad_len e mlen * 65536) with (mlen + (pad_len e mlen * 4) * 16384) by lia.
    rewrite Z.mod_add by lia. apply Z.mod_small. lia.
  - rewrite Z.div_add, (Z.div_small mlen) by lia. apply Z.mod_small. lia.
Qed.

Lemma increment_spec n nlen : 0 <= nlen <= len n ->
  exists n', sodium_increment n nlen = Ret n' /\ len n' = len n /\
    ztake nlen n' = sodium_increment_from 1 (ztake nlen n).
Proof.
  intros Hn. unfold sodium_increment. rewrite rd_range_front by lia. run_simpl.
  set (x := sodium_increment_from 1 (ztake nlen n)).
  assert (Hx : len x = nlen) by (unfold x; rewrite len_increment; apply len_ztake; lia).
  destruct (wr_range_extend [] x n 0) as (n' & -> & Hs & Hl); [apply starts_with_nil|done|alia|].
  exists n'. split; [done|]. split; [done|]. rewrite <- Hx. exact Hs.
Qed.

(** Two ways to cut the same list. *)
Lemma app_eq_cases {A} (a b c d : list A) : a ++ b = c ++ d ->
  (exists k, a = c ++ k /\ d = k ++ b) \/ (exists k, c = a ++ k /\ b = k ++ d /\ k <> []).
Proof.
  intros [(k & -> & ->)|(k & -> & ->)]%app_eq_inv; [left; eauto|].
  destruct (decide (k = [])) as [->|]; [|right; eauto].
  left. exists []. by rewrite !app_nil_r.
Qed.

Section chunks.
Context `{L : CryptoLaws} (junk : nat -> Z).

Definition incr (n : bytes) : bytes := sodium_increment_from 1 n.

(** A chunk on the wire: sealed header, padding, sealed data. *)
Definition frame (c : cipher_t) (key n : bytes) (e : entropy) (m : bytes) : bytes :=
  seal c key n (header e (len m)) ++ padding e (len m) ++ seal c key (incr n) m.

Lemma len_frame c key n e m : cipher_ok c -> entropy_ok e ->
  len (frame c key n e m)
  = 4 + tag_len c + (if len m <? 512 then pad_len e (len m) else 0) + len m + tag_len c.
Proof.
  intros Hc He. unfold frame. rewrite !len_app, !len_seal, len_padding by done. change (len (header e (len m))) with 4. zcase; lia.
Qed.

Lemma keyed_nonce ctx n skey key op :
  keyed ctx skey key op -> len n = 32 -> keyed (set_nonce n ctx) skey key op.
Proof. intros (?&?&?&?&?) ?. by repeat split. Qed.

(** Moving the nonce of a keyed context. *)
Lemma incr_nonce ctx skey key op : keyed ctx skey key op ->
  exists n, sodium_increment (nonce ctx) (nonce_len (cipher ctx)) = Ret n /\
    keyed (set_nonce n ctx) skey key op /\
    cur_nonce (set_nonce n ctx) = incr (cur_nonce ctx).
Proof.
  intros Hk. pose proof Hk as (Hok & _ & _ & Hn & _). pose proof (cipher_ok_cases _ Hok).
  destruct (increment_spec (nonce ctx) (nonce_len (cipher ctx))) as (n & -> & Hl & Ht); [lia|].
  exists n. split; [done|]. split; [apply keyed_nonce; [done|lia]|]. exact Ht.
Qed.

(** The padding buffer of [aead_chunk_encrypt] and its copy. *)
Lemma padding_step e mlen c off c' : entropy_ok e ->
  wr_range c off (padding e mlen) = Ret c' ->
  exists pdbuf,
    (if mlen <? 512 then wr_range (fresh junk 512) 0 (rnd_bytes e (pad_len e mlen))
     else mret (fresh junk 512)) = Ret pdbuf /\
    (if pad_len e mlen <=? 512 then memcpy c off pdbuf 0 (pad_len e mlen) else mret c) = Ret c' /\
    (if pad_len e mlen <=? 512 then pad_len e mlen else 0) = len (padding e mlen).
Proof.
  intros He Hw. pose proof He as [_ Hrb]. destruct (pad_len_bound e mlen He) as [Hp1 Hp2].
  rewrite len_padding by done. unfold padding in Hw.
  assert (Hf : len (fresh junk 512) = 512) by (apply len_fresh; lia).
  destruct (Z.ltb_spec mlen 512) as [Hlt|Hge].
  - assert (Hrl : len (rnd_bytes e (pad_len e mlen)) = pad_len e mlen) by (apply Hrb; lia).
    ztest.
    destruct (wr_range_extend [] (rnd_bytes e (pad_len e mlen)) (fresh junk 512) 0)
      as (b & Hb & Hs & Hl); [apply starts_with_nil|done|alia|].
    exists b. split; [done|]. split; [|done].
    unfold memcpy. rewrite (rd_range_prefix _ _ _ Hs) by (rewrite app_nil_l; lia). done.
  - exists (fresh junk 512). ztest. split; [done|]. split; [|done].
    destruct (decide (0 <= off <= len c)) as [Hi|Ho].
    + rewrite wr_range_nil in Hw by done. done.
    + unfold wr_range in Hw. change (len (@nil Z)) with 0 in Hw.
      destruct (Z.leb_spec 0 off), (Z.leb_spec (off + 0) (len c)); cbn in Hw; try done; lia.
Qed.

(** The sender: [aead_chunk_encrypt] writes the frame behind what the array
    already holds, and steps the nonce twice. *)
Lemma chunk_encrypt_frame ctx key e pre c p m outlen :
  keyed ctx (s_tx ctx) key 1 -> entropy_ok e ->
  len m <= CHUNK_SIZE_MASK -> starts_with m p -> starts_with pre c ->
  len pre + 2 * tag_len (cipher ctx) + len m + 516 <= len c ->
  exists n c',
    aead_chunk_encrypt junk ctx p c (len pre) (len m) outlen e
    = Ret (CRYPTO_OK, set_nonce n ctx, c', len (frame (cipher ctx) key (cur_nonce ctx) e m)) /\
    keyed (set_nonce n ctx) (s_tx ctx) key 1 /\
    cur_nonce (set_nonce n ctx) = incr (incr (cur_nonce ctx)) /\
    starts_with (pre ++ frame (cipher ctx) key (cur_nonce ctx) e m) c' /\ len c' = len c.
Proof.
  intros Hk He Hm Hp Hc Hroom. pose proof Hk as (Hok & _).
  destruct (pad_len_bound e (len m) He) as [Hp1 Hp2].
  pose proof (len_nonneg m). pose proof (len_nonneg pre).
  assert (Hpad : len (padding e (len m)) <= 512) by (rewrite len_padding by done; zcase; lia).
  pose proof (len_seal (cipher ctx) key (cur_nonce ctx) (header e (len m)) Hok) as Hl1.
  change (len (header e (len m))) with 4 in Hl1.
  pose proof (len_seal (cipher ctx) key (incr (cur_nonce ctx)) m Hok) as Hl2.
  rewrite len_frame by done. destruct (cipher_ok_cases _ Hok) as [Ht _].
  unfold aead_chunk_encrypt, CHUNK_PADDING_SIZE_LIMIT, CHUNK_PADDING_SIZE_MASK,
    CHUNK_SIZE_LEN, CHUNK_PADDING_SIZE_LEN in *. change (0x7FFF - 512) with 32255.
  rewrite (proj2 (Z.leb_le (len m) _)) by done. run_simpl.
  assert (Hu : u16 (if len m <? 512 then rnd_value e mod 512 + 1
                    else rnd_value e mod 32255 + 512 + 1) = pad_len e (len m)).
  { rewrite u16_small; unfold pad_len in *; destruct (Z.ltb_spec (len m) 512); lia. }
  rewrite Hu. clear Hu.
  destruct (incr_nonce ctx (s_tx ctx) key 1 Hk) as (n1 & Hn1 & Hk1 & Hc1).
  destruct (incr_nonce _ _ _ _ Hk1) as (n2 & Hn2 & Hk2 & Hc2).
  cbn [nonce cipher set_nonce] in Hn2. rewrite Hc1 in Hc2.
  destruct (wr_range_extend pre (seal (cipher ctx) key (cur_nonce ctx) (header e (len m))) c (len pre))
    as (c1 & Hw1 & Hs1 & Hlc1); [done|done|lia|].
  destruct (wr_range_extend _ (padding e (len m)) c1 (len pre + (4 + tag_len (cipher ctx))) Hs1)
    as (c2 & Hw2 & Hs2 & Hlc2); [rewrite len_app; lia|rewrite len_app; lia|].
  destruct (wr_range_extend _ (seal (cipher ctx) key (incr (cur_nonce ctx)) m) c2
              (len pre + (4 + tag_len (cipher ctx)) + len (padding e (len m))) Hs2)
    as (c3 & Hw3 & Hs3 & Hlc3); [rewrite !len_app; lia|rewrite !len_app; lia|].
  exists n2, c3.
  destruct (padding_step e (len m) c1 (len pre + (4 + tag_len (cipher ctx))) c2 He Hw2)
    as (pdbuf & Hb & Hmc & Hpl).
  rewrite Hb. run_simpl.
  rewrite (seal_encrypt ctx key) by done. run_simpl. change (negb (CRYPTO_OK =? 0)) with false. cbv iota.
  change (be32 _) with (header e (len m)). rewrite Hw1. run_simpl.
  rewrite Hl1, Z.eqb_refl. run_simpl. rewrite Hn1. run_simpl. rewrite Hmc. run_simpl.
  rewrite Hpl. apply starts_with_split in Hp as [tl ->].
  rewrite rd_range_front by alia. rewrite ztake_app_exact by done. run_simpl.
  pose proof (seal_encrypt (set_nonce n1 ctx) key m Hk1) as Hse2.
  cbn [s_tx cipher nonce set_nonce] in Hse2 |- *. rewrite Hse2, Hc1. run_simpl.
  change (negb (CRYPTO_OK =? 0)) with false. cbv iota.
  replace (len pre + 2 + 2 + tag_len (cipher ctx) + len (padding e (len m)))
    with (len pre + (4 + tag_len (cipher ctx)) + len (padding e (len m))) by lia.
  rewrite Hw3. run_simpl.
  rewrite Hl2, Z.eqb_refl. run_simpl. rewrite Hn2. run_simpl.
  rewrite len_padding by done. split_and!.
  - f_equal; f_equal; lia.
  - exact Hk2.
  - exact Hc2.
  - unfold frame. by rewrite <- !app_assoc in Hs3.
  - lia.
Qed.

(** The receiver: a complete frame at the start of the chunk is opened. *)
Lemma chunk_decrypt_frame ctx key op e m p q c rest plen :
  keyed ctx (s_rx ctx) key op -> entropy_ok e -> 1 <= len m <= CHUNK_SIZE_MASK ->
  starts_with (frame (cipher ctx) key (cur_nonce ctx) e m ++ rest) c ->
  starts_with q p -> len q + len m <= len p ->
  exists n p' c',
    aead_chunk_decrypt ctx p (len q) c plen
      (len (frame (cipher ctx) key (cur_nonce ctx) e m ++ rest))
    = Ret (CRYPTO_OK, set_nonce n ctx, p', c', len m, len rest) /\
    keyed (set_nonce n ctx) (s_rx ctx) key op /\
    cur_nonce (set_nonce n ctx) = incr (incr (cur_nonce ctx)) /\
    starts_with (q ++ m) p' /\ len p' = len p /\ starts_with rest c' /\ len c' = len c.
Proof.
  intros Hk He Hm Hc Hq Hroom. pose proof Hk as (Hok & _).
  destruct (cipher_ok_cases _ Hok) as [Ht _].
  pose proof (len_frame (cipher ctx) key (cur_nonce ctx) e m Hok He) as Hlf.
  destruct (pad_len_bound e (len m) He) as [Hp1 Hp2]. pose proof (len_nonneg rest).
  pose proof (len_nonneg q).
  destruct (incr_nonce ctx (s_rx ctx) key op Hk) as (n1 & Hn1 & Hk1 & Hc1).
  destruct (incr_nonce _ _ _ _ Hk1) as (n2 & Hn2 & Hk2 & Hc2).
  cbn [nonce cipher set_nonce] in Hn2. rewrite Hc1 in Hc2.
  destruct (wr_range_extend q m p (len q) Hq) as (p' & Hp' & Hqp & Hlp); [done|done|].
  pose proof (starts_with_len _ _ Hc) as Hlc. rewrite len_app in Hlc |- *.
  set (f := frame (cipher ctx) key (cur_nonce ctx) e m) in *.
  pose proof (len_seal (cipher ctx) key (cur_nonce ctx) (header e (len m)) Hok) as Hl1.
  change (len (header e (len m))) with 4 in Hl1.
  pose proof (len_seal (cipher ctx) key (incr (cur_nonce ctx)) m Hok) as Hl2.
  assert (Hmv : exists c', memcpy c 0 c (len f) (len rest) = Ret c' /\
                 starts_with rest c' /\ len c' = len c).
  { apply starts_with_split in Hc as [tl ->]. unfold memcpy.
    rewrite <- app_assoc, rd_range_mid by done. run_simpl.
    destruct (wr_range_extend [] rest (f ++ rest ++ tl) 0) as (c' & ? & ? & ?);
      [apply starts_with_nil|done|alia|eauto]. }
  destruct Hmv as (c' & Hmv & Hrest & Hlc').
  destruct (header_fields e (len m) He) as [Hf1 Hf2]; [lia|].
  apply starts_with_split in Hc as [tl ->].
  exists n2, p', (if 0 <? len rest then c' else (f ++ rest) ++ tl).
  unfold aead_chunk_decrypt, CHUNK_SIZE_LEN, CHUNK_PADDING_SIZE_LEN, CHUNK_PADDING_SIZE_LIMIT.
  destruct (Z.leb_spec (len f + len rest) (2 * tag_len (cipher ctx) + 2 + 2)) as [Hs|_];
    [destruct (len m <? 512); lia|].
  assert (Hrd1 : rd_range ((f ++ rest) ++ tl) 0 (2 + 2 + tag_len (cipher ctx))
                 = Ret (seal (cipher ctx) key (cur_nonce ctx) (header e (len m)))).
  { unfold f, frame. rewrite <- !app_assoc. rewrite <- (app_nil_l (seal _ _ _ _ ++ _)).
    apply rd_range_mid; [done|lia]. }
  rewrite Hrd1. run_simpl. rewrite (seal_decrypt ctx key op) by done. run_simpl.
  change (negb (CRYPTO_OK =? 0)) with false. cbv iota.
  change (len (header e (len m)) =? 2 + 2) with true. run_simpl.
  rewrite Hf1, Hf2. rewrite (proj2 (Z.eqb_neq (len m) 0)) by lia.
  assert (Hpl : (if 512 <? pad_len e (len m) then 0 else pad_len e (len m)) = len (padding e (len m))).
  { rewrite len_padding by done. destruct (Z.ltb_spec (len m) 512).
    - ztest. done. - ztest. done. }
  rewrite Hpl. rewrite <- (len_padding e (len m)) in Hlf by done.
  rewrite (proj2 (Z.ltb_ge _ _)) by lia. rewrite Hn1. run_simpl.
  assert (Hrd2 : rd_range ((f ++ rest) ++ tl)
      (2 + 2 + tag_len (cipher ctx) + len (padding e (len m))) (len m + tag_len (cipher ctx))
      = Ret (seal (cipher ctx) key (incr (cur_nonce ctx)) m)).
  { unfold f, frame. rewrite <- !app_assoc. rewrite (app_assoc (seal _ _ _ _)).
    apply rd_range_mid; rewrite ?len_app; lia. }
  rewrite Hrd2. run_simpl.
  pose proof (seal_decrypt (set_nonce n1 ctx) key op m Hk1) as Hsd.
  rewrite Hc1 in Hsd. cbn [s_rx cipher nonce set_nonce] in Hsd |- *. rewrite Hsd. run_simpl.
  change (negb (CRYPTO_OK =? 0)) with false. cbv iota.
  rewrite Hp'. run_simpl. rewrite Z.eqb_refl. run_simpl. rewrite Hn2. run_simpl.
  replace (2 * tag_len (cipher ctx) + 2 + 2 + len (padding e (len m)) + len m) with (len f) by lia.
  replace (len f + len rest - len f) with (len rest) by lia.
  destruct (Z.ltb_spec (len f) (len f + len rest)).
  - rewrite Hmv. run_simpl. ztest. split_and!; done || lia.
  - rewrite (len_0_nil rest) by lia. run_simpl. by split_and!.
Qed.

(** An incomplete frame changes nothing. *)
Lemma chunk_decrypt_partial ctx key op e m p poff c b more plen :
  keyed ctx (s_rx ctx) key op -> entropy_ok e -> 1 <= len m <= CHUNK_SIZE_MASK ->
  frame (cipher ctx) key (cur_nonce ctx) e m = b ++ more -> more <> [] -> starts_with b c ->
  exists plen', aead_chunk_decrypt ctx p poff c plen (len b)
    = Ret (CRYPTO_NEED_MORE, ctx, p, c, plen', len b).
Proof.
  intros Hk He Hm Hf Hne Hc. pose proof Hk as (Hok & _).
  destruct (cipher_ok_cases _ Hok) as [Ht _].
  pose proof (len_frame (cipher ctx) key (cur_nonce ctx) e m Hok He) as Hlf.
  destruct (pad_len_bound e (len m) He) as [Hp1 Hp2].
  assert (0 < len more).
  { pose proof (len_nonneg more). destruct (Z.eq_dec (len more) 0) as [H0|]; [|lia].
    by apply len_0_nil in H0. }
  assert (Hlb : len b < len (frame (cipher ctx) key (cur_nonce ctx) e m)) by (rewrite Hf, len_app; lia).
  unfold aead_chunk_decrypt, CHUNK_SIZE_LEN, CHUNK_PADDING_SIZE_LEN, CHUNK_PADDING_SIZE_LIMIT.
  destruct (Z.leb_spec (len b) (2 * tag_len (cipher ctx) + 2 + 2)) as [Hs|Hs]; [eauto|].
  pose proof (len_seal (cipher ctx) key (cur_nonce ctx) (header e (len m)) Hok) as Hl1.
  change (len (header e (len m))) with 4 in Hl1.
  assert (Hrd1 : rd_range c 0 (2 + 2 + tag_len (cipher ctx))
                 = Ret (seal (cipher ctx) key (cur_nonce ctx) (header e (len m)))).
  { apply starts_with_split in Hc as [tl ->].
    rewrite rd_range_front by alia. rewrite ztake_app_l by lia.
    replace (ztake (2 + 2 + tag_len (cipher ctx)) b)
      with (ztake (2 + 2 + tag_len (cipher ctx)) (b ++ more)) by (apply ztake_app_l; lia).
    rewrite <- Hf. unfold frame. by rewrite ztake_app_exact by lia. }
  rewrite Hrd1. run_simpl. rewrite (seal_decrypt ctx key op) by done. run_simpl.
  change (negb (CRYPTO_OK =? 0)) with false. cbv iota.
  change (len (header e (len m)) =? 2 + 2) with true. run_simpl.
  destruct (header_fields e (len m) He) as [Hf1 Hf2]; [lia|].
  rewrite Hf1, Hf2. rewrite (proj2 (Z.eqb_neq (len m) 0)) by lia.
  destruct (Z.ltb_spec (len b) (2 * tag_len (cipher ctx) + 2 + 2 +
    (if 512 <? pad_len e (len m) then 0 else pad_len e (len m)) + len m)) as [_|Hx]; [eauto|].
  exfalso. revert Hx. destruct (Z.ltb_spec (len m) 512); ztest; lia.
Qed.

(** ** Streams of chunks *)

Definition msg_ok (m : bytes) : Prop := 1 <= len m <= CHUNK_SIZE_MASK.

Fixpoint frames (c : cipher_t) (key n : bytes) (ems : list (entropy * bytes)) : bytes :=
  match ems with
  | [] => []
  | (e, m) :: ems => frame c key n e m ++ frames c key (incr (incr n)) ems
  end.
Definition plain (ems : list (entropy * bytes)) : bytes := concat (snd <$> ems).
Definition ems_ok (ems : list (entropy * bytes)) : Prop :=
  Forall (fun em => entropy_ok (fst em) /\ msg_ok (snd em)) ems.

(** The nonce after [k] messages. *)
Fixpoint nonce_after (n : bytes) (ems : list (entropy * bytes)) : bytes :=
  match ems with [] => n | _ :: ems => nonce_after (incr (incr n)) ems end.

(** The receiver's session state after it consumed some messages: only the
    nonce moved. *)
Definition moved (ctx ctx' : cipher_ctx) : Prop := exists n, ctx' = set_nonce n ctx.
Lemma moved_refl ctx : moved ctx ctx.
Proof. exists (nonce ctx). by destruct ctx. Qed.
Lemma moved_trans n ctx ctx' : moved (set_nonce n ctx) ctx' -> moved ctx ctx'.
Proof. intros [n' ->]. by exists n'. Qed.

(** [b] does not hold the next frame completely. *)
Definition incomplete (c : cipher_t) (key n : bytes) (ems : list (entropy * bytes)) (b : bytes) : Prop :=
  match ems with [] => True | (e, m) :: _ => len b < len (frame c key n e m) end.

(** The loop of [aead_decrypt] on a prefix [b] of a stream: it delivers the
    messages that are complete and keeps the rest. *)
Lemma decrypt_loop_spec key op ems : ems_ok ems -> forall fuel ctx p q c b more,
  keyed ctx (s_rx ctx) key op ->
  b ++ more = frames (cipher ctx) key (cur_nonce ctx) ems ->
  starts_with b c -> starts_with q p -> len q + len b <= len p -> len b <= Z.of_nat fuel ->
  exists ems1 ems2 b' ctx' p' c',
    ems = ems1 ++ ems2 /\ moved ctx ctx' /\ keyed ctx' (s_rx ctx') key op /\
    b' ++ more = frames (cipher ctx') key (cur_nonce ctx') ems2 /\
    incomplete (cipher ctx') key (cur_nonce ctx') ems2 b' /\
    starts_with b' c' /\ len c' = len c /\
    starts_with (q ++ plain ems1) p' /\ len p' = len p /\
    len (plain ems1) + len b' <= len b /\
    aead_decrypt_loop fuel ctx p c (len q) (len b)
    = Ret (if (0 <? len b') && (len (q ++ plain ems1) =? 0) then CRYPTO_NEED_MORE else CRYPTO_OK,
           ctx', p', c', len (q ++ plain ems1), len b').
Proof.
  induction 1 as [|[e m] ems [He Hm] Hems IH]; intros fuel ctx p q c b more Hk Hf Hc Hq Hroom Hfuel.
  - cbn [frames] in Hf. apply app_nil in Hf as [-> ->].
    exists [], [], [], ctx, p, c. change (plain []) with (@nil Z). rewrite !app_nil_r.
    split_and!; try done; try lia; try apply moved_refl.
    by destruct fuel.
  - destruct (Z.ltb_spec 0 (len b)) as [Hpos|Hz]; cycle 1.
    { pose proof (len_nonneg b). assert (b = []) as -> by (apply len_0_nil; lia).
      exists [], ((e, m) :: ems), [], ctx, p, c. change (plain []) with (@nil Z). rewrite !app_nil_r.
      split_and!; try done; try lia; try apply moved_refl; [|by destruct fuel].
      unfold incomplete. pose proof Hk as (Hok & _). rewrite len_frame by done.
      destruct (cipher_ok_cases _ Hok), (pad_len_bound e (len m) He).
      pose proof (len_nonneg m). change (len (@nil Z)) with 0. zcase; lia. }
    destruct fuel as [|fuel]; [lia|].
    cbn [aead_decrypt_loop]. rewrite (proj2 (Z.ltb_lt 0 (len b))) by lia. cbn [negb].
    cbn [frames] in Hf. cbn [fst snd] in He, Hm.
    destruct (app_eq_cases b more _ _ Hf) as [(k & Hb & Hmore)|(k & Hb & Hmore)].
    + (* a whole frame is there *)
      subst b.
      assert (Hlm : len m <= len (frame (cipher ctx) key (cur_nonce ctx) e m)).
      { pose proof Hk as (Hok & _). rewrite len_frame by done.
        destruct (cipher_ok_cases _ Hok), (pad_len_bound e (len m) He). zcase; lia. }
      rewrite len_app in Hroom, Hfuel. pose proof (len_nonneg k).
      pose proof Hm as [Hm1 Hm2].
      destruct (chunk_decrypt_frame ctx key op e m p q c k 0)
        as (n & p1 & c1 & -> & Hk1 & Hn1 & Hq1 & Hlp1 & Hk1c & Hlc1);
        [done|done|lia|done|done|lia|].
      run_simpl. change (CRYPTO_OK =? CRYPTO_ERROR) with false.
      change (CRYPTO_OK =? CRYPTO_NEED_MORE) with false. cbv iota.
      rewrite <- len_app.
      edestruct (IH fuel (set_nonce n ctx) p1 (q ++ m) c1 k more)
        as (ems1 & ems2 & b' & ctx' & p' & c' & Hems1 & Hmv & Hk' & Hb' & Hinc & Hsc & Hlc & Hsp & Hlp & Hroom' & Hloop);
        [done|rewrite Hn1; done|done|done|rewrite len_app; lia|lia|].
      exists ((e, m) :: ems1), ems2, b', ctx', p', c'.
      cbn [plain fmap list_fmap concat app]. rewrite <- app_assoc in *.
      split_and!; try done; try lia.
      * by rewrite Hems1.
      * unfold plain in *. cbn. rewrite !len_app. lia.
    + (* an incomplete frame *)
      destruct Hmore as [Hmore Hne].
      destruct (chunk_decrypt_partial ctx key op e m p (len q) c b k 0)
        as (plen' & ->); try done. run_simpl.
      change (CRYPTO_NEED_MORE =? CRYPTO_ERROR) with false.
      change (CRYPTO_NEED_MORE =? CRYPTO_NEED_MORE) with true. cbv iota.
      exists [], ((e, m) :: ems), b, ctx, p, c. change (plain []) with (@nil Z).
      rewrite !app_nil_r. change (len (@nil Z)) with 0.
      split_and!; try done; try lia; try apply moved_refl.
      { unfold incomplete. rewrite Hb, len_app. pose proof (len_nonneg k).
        destruct (Z.eq_dec (len k) 0) as [H0|]; [by apply len_0_nil in H0|lia]. }
      ztest. by destruct (len q =? 0).
Qed.
End chunks.
