(* ===== verification/AeadStream.v ===== *)
(** * The AEAD stream of aead.c: sessions, round trip, nonces *)
From S2P Require Import Prelude Crypto CryptoSpec Aead AeadSpec.

(** ** Sessions of local.c, and streams of calls *)

Section drivers.
Context `{P : CryptoPrims} (junk : nat -> Z).

(** [new_server] of local.c: the key exchange with the server's public key and
    the two contexts of a connection. *)
Definition new_server_ctxs (c : cipher_t) (seed : bytes) (saltbytes : Z -> bytes)
    : run (cipher_ctx * cipher_ctx) :=
  '(k, _) ← crypto_kx_ctx_init kx_zero 1 (c_pk c) seed;
  e ← aead_ctx_init c (Some k) 1 saltbytes;
  d ← aead_ctx_init c (Some k) 0 saltbytes;
  mret (set_local 1 e, set_local 1 d).

Definition contents (b : buffer) : bytes := ztake (b_len b) (default [] (b_data b)).
Definition buffer_of (l : bytes) : buffer := Buffer 0 (len l) (len l) (Some l).

(** The messages [ems] sent one [aead_encrypt] each, up to the first error. *)
Fixpoint send_stream (tmp : buffer) (ctx : cipher_ctx) (capacity : Z)
    (ems : list (entropy * bytes)) : run (Z * bytes * cipher_ctx) :=
  match ems with
  | [] => mret (CRYPTO_OK, [], ctx)
  | (e, m) :: ems =>
      '(err, pt, tmp, ctx) ← aead_encrypt junk (buffer_of m) tmp ctx capacity e;
      if negb (err =? 0) then mret (err, [], ctx)
      else '(err, wire, ctx) ← send_stream tmp ctx capacity ems;
           mret (err, contents pt ++ wire, ctx)
  end.

(** The segments read from the network, one [aead_decrypt] each: as in
    local.c, an error ends the connection and [CRYPTO_NEED_MORE] delivers
    nothing. *)
Fixpoint recv_stream (tmp : buffer) (ctx : cipher_ctx) (capacity : Z) (seed : bytes)
    (segs : list bytes) : run (Z * bytes * cipher_ctx) :=
  match segs with
  | [] => mret (CRYPTO_OK, [], ctx)
  | x :: segs =>
      '(err, ct, tmp, ctx) ← aead_decrypt junk (buffer_of x) tmp ctx capacity seed;
      if err =? CRYPTO_ERROR then mret (err, [], ctx)
      else '(err', out, ctx) ← recv_stream tmp ctx capacity seed segs;
           mret (err', (if err =? CRYPTO_NEED_MORE then [] else contents ct) ++ out, ctx)
  end.
End drivers.

Section sessions.
Context `{L : CryptoLaws} (junk : nat -> Z).

(** The arrays of a context have the sizes crypto.h declares. *)
Definition ctx_ok (ctx : cipher_ctx) : Prop :=
  cipher_ok (cipher ctx) /\ len (salt ctx) = 64 /\ len (s_rx ctx) = 64 /\ len (s_tx ctx) = 64 /\
  len (nonce ctx) = 32 /\ len (kx_rx (kx ctx)) = 32 /\ len (kx_tx (kx ctx)) = 32 /\
  len (kx_pk (kx ctx)) = 32 /\ (method (cipher ctx) <= 2 -> is_Some (evp ctx)).

(** The session key: HKDF-SHA1 of the exchanged key, salted. *)
Definition derive (c : cipher_t) (s key : bytes) : bytes :=
  match md_SHA1 with
  | Some md => hkdf_spec md (Some s) key SUBKEY_INFO (key_len c)
  | None => []
  end.

Definition same_session (ctx ctx' : cipher_ctx) : Prop :=
  init ctx' = init ctx /\ is_local ctx' = is_local ctx /\ cipher ctx' = cipher ctx /\
  chunk ctx' = chunk ctx /\ kx ctx' = kx ctx /\ salt ctx' = salt ctx.

Lemma sha1_ok : exists md, md_SHA1 = Some md /\ md_get_size md = 20 /\ digest_ok md.
Proof.
  destruct sha1_hmac as (md & ? & Hs & He & Hm). exists md. split; [done|]. split; [done|].
  split; [lia|]. split; [done|]. intros k m. rewrite Hs. apply Hm.
Qed.

Lemma key_len_bounds c : cipher_ok c -> 16 <= key_len c <= 32 /\ 12 <= nonce_len c <= 24.
Proof.
  intros [_ [(_ & ? & H)|[(_ & ? & H)|(_ & ? & H)]]]%cipher_ok_cases; try lia.
  repeat (apply elem_of_cons in H as [H|H]; [lia|]). by apply not_elem_of_nil in H.
Qed.

Lemma zero_nonce c n : cipher_ok c -> len n = 32 ->
  exists n', wr_range n 0 (zrep (nonce_len c) 0) = Ret n' /\ len n' = 32 /\
    ztake (nonce_len c) n' = zrep (nonce_len c) 0.
Proof.
  intros Hc Hn. pose proof (key_len_bounds c Hc) as [_ Hnl].
  assert (Hz : len (zrep (nonce_len c) 0) = nonce_len c) by (apply len_zrep; lia).
  destruct (wr_range_extend [] (zrep (nonce_len c) 0) n 0) as (n' & ? & Hs & Hl);
    [apply starts_with_nil|done|alia|].
  exists n'. split; [done|]. split; [lia|]. rewrite <- Hz at 1. exact Hs.
Qed.

(** The session key and the exchanged key of a direction ([enc] is 0 or 1). *)
Definition skey_of (enc : Z) (ctx : cipher_ctx) : bytes :=
  if negb (enc =? 0) then s_tx ctx else s_rx ctx.
Definition kx_of (enc : Z) (ctx : cipher_ctx) : bytes :=
  if negb (enc =? 0) then kx_tx (kx ctx) else kx_rx (kx ctx).
Definition session_key (enc : Z) (ctx : cipher_ctx) : bytes :=
  derive (cipher ctx) (ztake (key_len (cipher ctx)) (salt ctx))
         (ztake (key_len (cipher ctx)) (kx_of enc ctx)).

(** Installing the derived key and a cleared nonce in a sound context. *)
Lemma install_keyed ctx enc sk n e :
  ctx_ok ctx -> len sk = 64 -> len n = 32 ->
  ztake (nonce_len (cipher ctx)) n = zrep (nonce_len (cipher ctx)) 0 ->
  (method (cipher ctx) <= 2 -> e = Some (Evp (Some (ztake (key_len (cipher ctx)) sk, enc)))) ->
  let ctx' := set_evp e (set_nonce n (if negb (enc =? 0) then set_s_tx sk ctx else set_s_rx sk ctx)) in
  ctx_ok ctx' /\ same_session ctx ctx' /\
  keyed ctx' (skey_of enc ctx') (ztake (key_len (cipher ctx)) sk) enc /\
  cur_nonce ctx' = zrep (nonce_len (cipher ctx)) 0.
Proof.
  intros (Hc & Hsl & Hrx & Htx & Hn & Hkr & Hkt & Hpk & Hevp) Hsk Hln Hz He ctx'.
  unfold ctx', ctx_ok, same_session, keyed, skey_of.
  destruct (negb (enc =? 0)); cbn; split_and!; try done; intros Hm; rewrite (He Hm); eauto.
Qed.

(** [aead_cipher_ctx_set_key] in both directions. *)
Lemma set_key_spec ctx enc : ctx_ok ctx ->
  exists ctx', aead_cipher_ctx_set_key ctx enc = Ret ctx' /\ ctx_ok ctx' /\ same_session ctx ctx' /\
    keyed ctx' (skey_of enc ctx') (session_key enc ctx) enc /\
    cur_nonce ctx' = zrep (nonce_len (cipher ctx)) 0.
Proof.
  intros Hok. pose proof Hok as (Hc & Hsl & Hrx & Htx & Hn & Hkr & Hkt & Hpk & Hevp).
  pose proof (key_len_bounds _ Hc) as [Hkl _].
  destruct sha1_ok as (md & Hmd & Hsz & Hd).
  unfold aead_cipher_ctx_set_key, session_key, derive. rewrite Hmd.
  fold (kx_of enc ctx). fold (skey_of enc ctx).
  assert (Hl : len (kx_of enc ctx) = 32 /\ len (skey_of enc ctx) = 64)
    by (unfold kx_of, skey_of; destruct (negb _); done).
  rewrite !rd_range_front by lia. run_simpl.
  destruct (crypto_hkdf_ok md (Some (ztake (key_len (cipher ctx)) (salt ctx)))
    (ztake (key_len (cipher ctx)) (kx_of enc ctx)) SUBKEY_INFO (skey_of enc ctx)
    (key_len (cipher ctx))) as (sk & Hh & Hpre & Hlsk & Hlspec); [done|lia|lia|].
  rewrite Hh. run_simpl. change (negb (0 =? 0)) with false. cbv iota.
  destruct (zero_nonce (cipher ctx) (nonce ctx) Hc Hn) as (n' & Hw & Hln & Hz).
  set (ctx1 := if negb (enc =? 0) then set_s_tx sk ctx else set_s_rx sk ctx).
  assert (H1 : nonce ctx1 = nonce ctx /\ cipher ctx1 = cipher ctx /\ evp ctx1 = evp ctx)
    by (unfold ctx1; destruct (negb _); done).
  destruct H1 as (H1n & H1c & H1e). rewrite H1n, H1c, Hw. run_simpl.
  cbn [cipher evp set_nonce]. rewrite H1c, H1e. unfold CHACHA20POLY1305IETF.
  destruct (Z.leb_spec 3 (method (cipher ctx))) as [Hge|Hlt].
  - destruct (install_keyed ctx enc sk n' (evp ctx) Hok) as (Ha & Hb & Hk & Hcn); [lia|lia|done|lia|].
    rewrite <- Hpre. eexists. split; [reflexivity|].
    unfold ctx1 in *. destruct (negb (enc =? 0)); done.
  - destruct Hevp as [e He]; [lia|]. rewrite He. run_simpl. rewrite rd_range_front by lia. run_simpl.
    assert (Hin : len (ztake (key_len (cipher ctx)) sk) ∈ [16; 24; 32]).
    { rewrite len_ztake by lia.
      destruct (cipher_ok_cases _ Hc) as [_ [(_ & _ & H)|[(? & _)|(? & _)]]]; [done|lia|lia]. }
    pose proof (setkey_ok e _ enc Hin) as Hset. rewrite len_ztake in Hset by lia. rewrite Hset.
    destruct (install_keyed ctx enc sk n'
      (Some (Evp (Some (ztake (key_len (cipher ctx)) sk, enc)))) Hok) as (Ha & Hb & Hk & Hcn);
      [lia|lia|done|done|].
    rewrite <- Hpre. eexists. split; [reflexivity|]. by split_and!.
Qed.

Lemma ctx_ok_nonce ctx n : ctx_ok ctx -> len (nonce (set_nonce n ctx)) = 32 -> ctx_ok (set_nonce n ctx).
Proof. intros (?&?&?&?&?&?&?&?&?) ?. by split_and!. Qed.

(** ** The sending side *)

(** What [aead_encrypt] writes in front of its first chunk. *)
Definition preamble (ctx : cipher_ctx) : bytes :=
  (if negb (is_local ctx =? 0) then kx_pk (kx ctx) else [])
  ++ ztake (key_len (cipher ctx)) (salt ctx).

Definition zero_of (c : cipher_t) : bytes := zrep (nonce_len c) 0.

(** A sending context, the key it seals with and the nonce of its next chunk. *)
Definition sender (ctx : cipher_ctx) (key n : bytes) : Prop :=
  ctx_ok ctx /\
  ((init ctx = 0 /\ key = session_key 1 ctx /\ n = zero_of (cipher ctx)) \/
   (init ctx = 1 /\ keyed ctx (s_tx ctx) key 1 /\ n = cur_nonce ctx)).

Lemma buffer_ok_holds b : buffer_ok b -> exists l, holds b l.
Proof.
  unfold holds, buffer_ok. destruct (b_data b) as [d|] eqn:Hd; cbn [default from_option].
  - intros (Hl & H0 & H1). exists (ztake (b_len b) d). unfold id.
    split; [done|]. split; [by rewrite len_ztake by lia|].
    apply starts_with_split. exists (zdrop (b_len b) d). by rewrite ztake_zdrop.
  - intros [H0 H1]. exists []. split; [done|]. split; [done|]. apply starts_with_nil.
Qed.

(** Room in a static buffer, whatever it held before. *)
Lemma grow_tmp tmp n capacity : buffer_ok tmp -> 0 < capacity ->
  exists d, b_data (grow junk tmp n capacity) = Some d /\
    len d = b_capacity (grow junk tmp n capacity) /\ Z.max n capacity <= len d /\
    buffer_ok (grow junk tmp n capacity).
Proof.
  intros [l Hl]%buffer_ok_holds Hc.
  destruct (grow_spec junk tmp l n capacity Hl Hc) as [(Hok & _) (d & ? & ? & ? & ?)]. eauto.
Qed.

(** The result handed back in the caller's buffer. *)
Lemma replace_contents b l x d capacity : holds b l -> 0 < capacity -> starts_with x d ->
  exists p p', b_data (grow junk b (len x) capacity) = Some p /\
    memcpy p 0 d 0 (len x) = Ret p' /\
    holds (with_len (with_data (grow junk b (len x) capacity) p') (len x)) x.
Proof.
  intros Hb Hc Hx.
  destruct (grow_spec junk b l (len x) capacity Hb Hc) as [_ (p & Hp & Hlp & Hmax & _)].
  unfold memcpy. rewrite (rd_range_prefix x d) by done. run_simpl.
  destruct (wr_range_extend [] x p 0) as (p' & Hw & Hs & Hl);
    [apply starts_with_nil|done|alia|].
  exists p, p'. split_and!; [done|done|]. pose proof (len_nonneg x).
  unfold holds, buffer_ok. cbn. split_and!; try lia. exact Hs.
Qed.

(** The first call's preamble: key exchange, salt, session key. *)
Lemma encrypt_start cx data : ctx_ok cx -> init cx = 0 -> len (preamble cx) <= len data ->
  exists data' ctx',
    ('(data, ctx) ←
       (if negb (is_local cx =? 0) then
          d ← memcpy data 0 (kx_pk (kx cx)) 0
                (if negb (is_local cx =? 0) then crypto_kx_PUBLICKEYBYTES else 0);
          mret (d, set_kx (kx_set_pk_sent 1 (kx cx)) cx)
        else mret (data, cx));
     data ← memcpy data (if negb (is_local cx =? 0) then crypto_kx_PUBLICKEYBYTES else 0)
              (salt ctx) 0 (key_len (cipher cx));
     ctx ← aead_cipher_ctx_set_key ctx 1;
     mret (data, set_init 1 ctx)) = Ret (data', ctx') /\
    starts_with (preamble cx) data' /\ len data' = len data /\
    ctx_ok ctx' /\ cipher ctx' = cipher cx /\ init ctx' = 1 /\
    keyed ctx' (s_tx ctx') (session_key 1 cx) 1 /\ cur_nonce ctx' = zero_of (cipher cx).
Proof.
  intros Hok Hinit Hroom. pose proof Hok as (Hc & Hsl & _ & _ & _ & _ & _ & Hpk & _).
  pose proof (key_len_bounds _ Hc) as [Hkl _]. unfold preamble in *. rewrite len_app in Hroom.
  rewrite len_ztake in Hroom by lia. unfold crypto_kx_PUBLICKEYBYTES, memcpy.
  revert Hroom. destruct (negb (is_local cx =? 0)); intros Hroom.
  - rewrite rd_range_front, ztake_all by lia. run_simpl.
    destruct (wr_range_extend [] (kx_pk (kx cx)) data 0) as (d1 & -> & Hs1 & Hl1);
      [apply starts_with_nil|done|alia|]. run_simpl. cbn [salt set_kx].
    rewrite rd_range_front by lia. run_simpl.
    destruct (wr_range_extend _ (ztake (key_len (cipher cx)) (salt cx)) d1 32 Hs1)
      as (d2 & -> & Hs2 & Hl2); [cbn [app]; lia|cbn [app]; rewrite len_ztake; lia|]. run_simpl.
    destruct (set_key_spec (set_kx (kx_set_pk_sent 1 (kx cx)) cx) 1)
      as (ctx' & -> & Hok' & (Hsi & Hsl' & Hsc & _) & Hk & Hn); [done|]. run_simpl.
    exists d2, (set_init 1 ctx'). by split_and!; try done; try lia.
  - run_simpl. rewrite rd_range_front by lia. run_simpl.
    change (len (@nil Z)) with 0 in Hroom.
    destruct (wr_range_extend [] (ztake (key_len (cipher cx)) (salt cx)) data 0)
      as (d1 & -> & Hs1 & Hl1);
      [apply starts_with_nil|done|change (len (@nil Z)) with 0; rewrite len_ztake; lia|].
    run_simpl.
    destruct (set_key_spec cx 1) as (ctx' & -> & Hok' & (Hsi & Hsl' & Hsc & _) & Hk & Hn); [done|].
    run_simpl. exists d1, (set_init 1 ctx'). by split_and!; try done; try lia.
Qed.

(** The chunk behind a prefix, and the copy back to the caller's buffer. *)
Lemma encrypt_finish ctx key pre a b data pt m ct outlen capacity e :
  len pre = a + b ->
  keyed ctx (s_tx ctx) key 1 -> holds pt m -> msg_ok m -> 0 < capacity -> entropy_ok e ->
  starts_with pre data -> len pre + 2 * tag_len (cipher ctx) + len m + 516 <= len data ->
  exists pt' data' n,
    (p ← deref (b_data pt);
     '(err, ctx, data, out_len) ←
       aead_chunk_encrypt junk ctx p data (a + b) (u16 (b_len pt)) outlen e;
     let ciphertext := with_data ct data in
     if negb (err =? 0) then mret (err, pt, ciphertext, ctx)
     else
       let total := out_len + a + b in
       let pt := grow junk pt total capacity in
       p ← deref (b_data pt);
       p ← memcpy p 0 data 0 total;
       mret (0, with_len (with_data pt p) total, ciphertext, ctx))
    = Ret (0, pt', with_data ct data', set_nonce n ctx) /\
    len data' = len data /\
    holds pt' (pre ++ frame (cipher ctx) key (cur_nonce ctx) e m) /\
    keyed (set_nonce n ctx) (s_tx ctx) key 1 /\
    cur_nonce (set_nonce n ctx) = incr (incr (cur_nonce ctx)).
Proof.
  intros Hab Hk Hpt [Hm1 Hm2] Hcap He Hs Hroom. rewrite <- Hab. pose proof Hpt as (Hptok & Hptl & Hpts).
  unfold buffer_ok in Hptok. destruct (b_data pt) as [p|] eqn:Hp; [|lia]. run_simpl.
  rewrite Hptl. unfold CHUNK_SIZE_MASK in *. rewrite u16_small by lia.
  destruct (chunk_encrypt_frame junk ctx key e pre data p m outlen Hk He)
    as (n & data' & -> & Hk' & Hn & Hs' & Hl); [done|done|done|lia|]. run_simpl.
  change (negb (CRYPTO_OK =? 0)) with false. cbv iota.
  cbv zeta. rewrite <- Z.add_assoc, <- Hab, Z.add_comm, <- len_app.
  destruct (replace_contents pt m (pre ++ frame (cipher ctx) key (cur_nonce ctx) e m) data' capacity Hpt)
    as (q & q' & -> & Hcp & Hh); [done|done|]. run_simpl. rewrite Hcp. run_simpl.
  eexists _, data', n. split; [reflexivity|]. by split_and!.
Qed.

(** One call of [aead_encrypt]: preamble on the first call, then one frame. *)
Lemma aead_encrypt_spec cx key n pt m tmp capacity e :
  sender cx key n -> holds pt m -> msg_ok m -> buffer_ok tmp -> 0 < capacity -> entropy_ok e ->
  exists pt' tmp' ctx',
    aead_encrypt junk pt tmp cx capacity e = Ret (0, pt', tmp', ctx') /\
    holds pt' ((if init cx =? 0 then preamble cx else []) ++ frame (cipher cx) key n e m) /\
    buffer_ok tmp' /\ sender ctx' key (incr (incr n)) /\ init ctx' = 1 /\ cipher ctx' = cipher cx.
Proof.
  intros (Hok & Hst) Hpt Hm Htmp Hcap He. pose proof Hm as [Hm1 Hm2].
  pose proof Hok as (Hc & Hsl & _ & _ & _ & _ & _ & Hpk & _).
  pose proof (key_len_bounds _ Hc) as [Hkl _]. destruct (cipher_ok_cases _ Hc) as [Ht _].
  pose proof Hpt as (Hptok & Hptl & Hpts).
  unfold aead_encrypt. rewrite (proj2 (Z.eqb_neq (b_len pt) 0)) by lia.
  match goal with |- context [grow junk tmp ?o capacity] => remember o as out_len eqn:Hout end.
  destruct (grow_tmp tmp out_len capacity Htmp Hcap) as (data & Hd & Hld & Hmax & Hgok).
  cbn [b_data with_len]. rewrite Hd. run_simpl.
  assert (Htmp' : forall data', len data' = len data -> out_len >= 0 ->
            buffer_ok (with_data (with_len (grow junk tmp out_len capacity) out_len) data')).
  { intros data' Hl Hge. unfold buffer_ok. cbn. lia. }
  destruct Hst as [(Hinit & -> & ->)|(Hinit & Hk & ->)]; rewrite Hinit in Hout |- *.
  - change (0 =? 0) with true in *. cbn [andb] in *.
    assert (Hpre : len (preamble cx) =
      (if negb (is_local cx =? 0) then crypto_kx_PUBLICKEYBYTES else 0) + key_len (cipher cx)).
    { unfold preamble. rewrite len_app, len_ztake by lia.
      destruct (negb _); [by rewrite Hpk|done]. }
    unfold CHUNK_SIZE_LEN, CHUNK_PADDING_SIZE_LEN, CHUNK_PADDING_SIZE_LIMIT in *.
    destruct (encrypt_start cx data Hok Hinit) as (data1 & ctx1 & Hst & Hs1 & Hl1 & Hok1 & Hc1 & Hi1 & Hk1 & Hn1);
      [lia|].
    rewrite Hst. run_simpl.
    edestruct (encrypt_finish ctx1 (session_key 1 cx) (preamble cx) _ _ data1 pt m
      (with_len (grow junk tmp out_len capacity) out_len) out_len capacity e Hpre)
      as (pt' & data' & n & Heq & Hl & Hh & Hkn & Hnn); try done.
    { rewrite Hc1. lia. }
    rewrite Hc1, Hn1 in Hh. rewrite Hn1 in Hnn. eexists pt', _, _. split; [exact Heq|]. split; [exact Hh|].
    split; [apply Htmp'; pose proof (len_nonneg (preamble cx)); lia|]. split; [|done]. split; [|right; by split_and!].
    eapply ctx_ok_nonce; [done|apply Hkn].
  - change (1 =? 0) with false in *. cbn [andb] in *. run_simpl.
    unfold CHUNK_SIZE_LEN, CHUNK_PADDING_SIZE_LEN, CHUNK_PADDING_SIZE_LIMIT in *.
    edestruct (encrypt_finish cx key [] 0 0 data pt m
      (with_len (grow junk tmp out_len capacity) out_len) out_len capacity e)
      as (pt' & data' & n & Heq & Hl & Hh & Hkn & Hnn); try done.
    { change (len (@nil Z)) with 0. lia. }
    eexists pt', _, _. split; [exact Heq|]. split; [exact Hh|].
    split; [apply Htmp'; lia|]. split; [|done]. split; [|right; by split_and!].
    eapply ctx_ok_nonce; [done|apply Hkn].
Qed.

(** ** The receiving side *)

(** A receiving context before its session starts, the preamble [pre] it will
    get and the key that preamble leads to. *)
Definition peer (d : cipher_ctx) (pre key : bytes) : Prop :=
  let c := cipher d in
  (is_local d <> 0 /\ len pre = key_len c /\ key = derive c pre (ztake (key_len c) (kx_rx (kx d)))) \/
  (is_local d = 0 /\ len (c_pk c) = 32 /\ exists pk s rx tx,
     pre = pk ++ s /\ len pk = 32 /\ len s = key_len c /\
     crypto_kx_server_session_keys (c_pk c) (c_sk c) pk = Some (rx, tx) /\
     len rx = 32 /\ len tx = 32 /\ key = derive c s (ztake (key_len c) rx)).

Definition rpk_len (d : cipher_ctx) : Z :=
  if negb (is_local d =? 0) then 0 else crypto_kx_PUBLICKEYBYTES.

Lemma len_peer d pre key : peer d pre key -> len pre = rpk_len d + key_len (cipher d).
Proof.
  unfold rpk_len, crypto_kx_PUBLICKEYBYTES.
  intros [(Hl & Hp & _)|(Hl & _ & pk & s & rx & tx & -> & Hpk & Hs & _)].
  - rewrite (proj2 (Z.eqb_neq _ _)) by done. cbn [negb]. lia.
  - rewrite (proj2 (Z.eqb_eq _ _)) by done. cbn [negb]. rewrite len_app. lia.
Qed.

(** Until the whole preamble and one byte more is there, nothing happens. *)
Lemma decrypt_start_waits d ch pre key seed :
  init d = 0 -> peer d pre key -> b_len ch <= len pre -> aead_decrypt_start d ch seed = Ret None.
Proof.
  intros Hi Hp Hl. rewrite (len_peer d pre key Hp) in Hl. unfold aead_decrypt_start, rpk_len in *.
  rewrite Hi. change (0 =? 0) with true. cbv iota zeta. by rewrite (proj2 (Z.leb_le _ _)) by lia.
Qed.

(** The salt and session key of a context whose exchanged key is in place. *)
Lemma decrypt_install d s key : ctx_ok d -> len s = key_len (cipher d) ->
  key = derive (cipher d) s (ztake (key_len (cipher d)) (kx_rx (kx d))) ->
  exists sa d', wr_range (salt d) 0 s = Ret sa /\
    aead_cipher_ctx_set_key (set_salt sa d) 0 = Ret d' /\
    ctx_ok d' /\ same_session (set_salt sa d) d' /\ keyed d' (s_rx d') key 0 /\
    cur_nonce d' = zero_of (cipher d).
Proof.
  intros Hok Hs ->. pose proof Hok as (Hc & Hsl & Hr & Ht & Hn & Hkr & Hkt & Hpk & He).
  pose proof (key_len_bounds _ Hc) as [Hkl _].
  destruct (wr_range_extend [] s (salt d) 0) as (sa & Hw & Hsa & Hls);
    [apply starts_with_nil|done|alia|]. cbn [app] in Hsa.
  destruct (set_key_spec (set_salt sa d) 0) as (d' & Hset & Hok' & Hss & Hk & Hz).
  { split_and!; try done. cbn. lia. }
  exists sa, d'. split_and!; try done; [|apply Hss..].
  unfold session_key in Hk. cbn [cipher salt kx set_salt] in Hk. unfold starts_with in Hsa.
  rewrite Hs in Hsa. rewrite Hsa in Hk. exact Hk.
Qed.

(** The key exchange step, and the salt behind it. *)
Lemma decrypt_exchange d pre key rest seed : ctx_ok d -> peer d pre key ->
  exists d1 s,
    (if negb (is_local d =? 0) then mret d
     else '(k, _) ← crypto_kx_ctx_init (kx_set_keys (c_pk (cipher d)) (c_sk (cipher d)) (kx d))
                      (is_local d) (pre ++ rest) seed;
          mret (set_kx k d)) = Ret d1 /\
    rd_range (pre ++ rest) (rpk_len d) (key_len (cipher d)) = Ret s /\
    len s = key_len (cipher d) /\ ctx_ok d1 /\ cipher d1 = cipher d /\
    key = derive (cipher d) s (ztake (key_len (cipher d)) (kx_rx (kx d1))).
Proof.
  intros Hok [(Hl & Hp & ->)|(Hl & Hcp & pk & s & rx & tx & -> & Hpk & Hs & Hkx & Hrx & Htx & ->)].
  - exists d, pre. unfold rpk_len. rewrite (proj2 (Z.eqb_neq _ _)) by done. cbn [negb].
    split_and!; try done. apply (rd_range_mid [] pre rest); done.
  - exists (set_kx (KxCtx 1 1 (c_pk (cipher d)) (c_sk (cipher d)) pk rx tx) d), s.
    unfold rpk_len, crypto_kx_ctx_init, crypto_kx_PUBLICKEYBYTES.
    rewrite (proj2 (Z.eqb_eq _ _)) by done. cbn [negb].
    rewrite <- app_assoc. rewrite (rd_range_mid [] pk (s ++ rest)) by done.
    cbn [mbind run_bind kx_pk kx_sk kx_set_keys]. rewrite Hkx.
    split_and!; try done.
    + by apply rd_range_mid.
    + destruct Hok as (?&?&?&?&?&?&?&?&?). by split_and!.
Qed.

Lemma decrypt_start_spec d ch pre b key seed :
  ctx_ok d -> init d = 0 -> peer d pre key -> holds ch (pre ++ b) -> b <> [] ->
  exists d' ch', aead_decrypt_start d ch seed = Ret (Some (d', ch')) /\ holds ch' b /\
    is_Some (b_data ch') /\ ctx_ok d' /\ cipher d' = cipher d /\ init d' = 1 /\
    keyed d' (s_rx d') key 0 /\ cur_nonce d' = zero_of (cipher d).
Proof.
  intros Hok Hi Hp (Hbok & Hbl & Hbs) Hne. pose proof (len_peer d pre key Hp) as Hlp.
  pose proof Hok as (Hc & Hsl & Hr & Ht & Hn & Hkr & Hkt & Hpk & He).
  pose proof (key_len_bounds _ Hc) as [Hkl _].
  assert (0 < len b).
  { pose proof (len_nonneg b). destruct (Z.eq_dec (len b) 0) as [H0|]; [|lia]. by apply len_0_nil in H0. }
  rewrite len_app in Hbl. unfold aead_decrypt_start, rpk_len in *. rewrite Hi. change (0 =? 0) with true. cbv iota zeta.
  rewrite (proj2 (Z.leb_gt _ _)) by lia.
  unfold buffer_ok in Hbok. destruct (b_data ch) as [data|] eqn:Hd; cbn [default from_option] in Hbs;
    [unfold id in Hbs|pose proof (len_nonneg pre); lia]. run_simpl.
  apply starts_with_split in Hbs as [junkl ->].
  assert (Hmv : exists data', memcpy ((pre ++ b) ++ junkl) 0 ((pre ++ b) ++ junkl) (len pre) (len b) = Ret data' /\
            starts_with b data' /\ len data' = len ((pre ++ b) ++ junkl)).
  { unfold memcpy. rewrite <- app_assoc, rd_range_mid by done. run_simpl.
    destruct (wr_range_extend [] b (pre ++ b ++ junkl) 0) as (c' & ? & ? & ?);
      [apply starts_with_nil|done|alia|eauto]. }
  destruct Hmv as (data' & Hmv & Hsd & Hld).
  rewrite Hlp in Hmv. replace (len b) with (b_len ch - rpk_len d - key_len (cipher d)) in Hmv
    by (unfold rpk_len; lia). unfold rpk_len in Hmv.
  destruct (decrypt_exchange d pre key (b ++ junkl) seed Hok Hp) as (d1 & sa & Hx & Hrd & Hls & Hok1 & Hc1 & Hkey).
  unfold rpk_len in Hrd. rewrite <- app_assoc in Hmv |- *. rewrite Hx. run_simpl.
  rewrite <- Hc1 in Hls, Hkey. destruct (decrypt_install d1 sa key Hok1 Hls Hkey)
    as (sa' & d' & Hw & Hset & Hok' & (Hs1 & Hs2 & Hs3 & _) & Hk & Hz).
  unfold memcpy in *. rewrite Hrd. run_simpl. rewrite Hw. run_simpl. rewrite Hset. run_simpl.
  rewrite Hmv. run_simpl. eexists _, _. split; [reflexivity|].
  rewrite Hc1 in Hz. cbn in Hs3. rewrite Hc1 in Hs3.
  split; [|by split_and!; eauto]. rewrite <- Hlp, Hbl. unfold holds, buffer_ok. cbn.
  pose proof (len_nonneg pre). replace (len pre + len b - len pre) with (len b) by lia.
  split_and!; try done; lia.
Qed.

(** The bytes of the stream a context has not decoded yet. *)
Definition pending (d : cipher_ctx) (b : bytes) : Prop :=
  match chunk d with None => b = [] | Some ch => holds ch b end.

(** A receiving context in the middle of a stream: [ems] are the messages not
    delivered yet, [b] the bytes it keeps and [more] the bytes to come. *)
Definition receiver (d : cipher_ctx) (pre key : bytes) (ems : list (entropy * bytes))
    (b more : bytes) : Prop :=
  pending d b /\
  ((init d = 0 /\ ctx_ok d /\ peer d pre key /\ len b <= len pre /\
    b ++ more = pre ++ frames (cipher d) key (zero_of (cipher d)) ems) \/
   (init d <> 0 /\ keyed d (s_rx d) key 0 /\
    b ++ more = frames (cipher d) key (cur_nonce d) ems /\
    incomplete (cipher d) key (cur_nonce d) ems b)).

Lemma plain_nil ems : ems_ok ems -> len (plain ems) = 0 -> ems = [].
Proof.
  intros [|[e m] ems' [_ [Hm _]] _]; [done|]. unfold plain. cbn. rewrite len_app.
  pose proof (len_nonneg (concat ems'.*2)). cbn in Hm. lia.
Qed.

(** From the decoding loop to the caller's buffer. *)
Lemma decrypt_deliver d ch ct x p0 pl capacity key ems b more :
  keyed d (s_rx d) key 0 -> init d <> 0 -> ems_ok ems -> holds ch b -> is_Some (b_data ch) ->
  b ++ more = frames (cipher d) key (cur_nonce d) ems ->
  holds ct x -> 0 < capacity -> b_data pl = Some p0 -> buffer_ok pl -> len b <= len p0 ->
  exists code ct' pl' d' ems1 ems2 b',
    (p ← deref (b_data pl);
     c ← deref (b_data ch);
     '(err, ctx, p, c, plen, clen) ← aead_decrypt_loop (Z.to_nat (b_len ch)) d p c 0 (b_len ch);
     let ctx := set_chunk (Some (with_len (with_data ch c) clen)) ctx in
     let plaintext := with_data pl p in
     if negb (err =? 0) then mret (err, ct, plaintext, ctx)
     else
       let plaintext := with_len plaintext plen in
       let ciphertext := grow junk ct plen capacity in
       d ← deref (b_data ciphertext);
       d ← memcpy d 0 p 0 plen;
       mret (CRYPTO_OK, with_len (with_data ciphertext d) plen, plaintext, ctx))
    = Ret (code, ct', pl', d') /\
    ems = ems1 ++ ems2 /\ (forall pre, receiver d' pre key ems2 b' more) /\ buffer_ok pl' /\
    ((code = CRYPTO_OK /\ holds ct' (plain ems1)) \/ (code = CRYPTO_NEED_MORE /\ ems1 = [] /\ ct' = ct)).
Proof.
  intros Hk Hi Hems Hch [c Hc] Hf Hct Hcap Hp Hlp Hroom. pose proof Hch as (Hbok & Hbl & Hbs).
  unfold buffer_ok in Hbok. rewrite Hc in Hbok, Hbs. cbn [default from_option] in Hbs. unfold id in Hbs.
  rewrite Hp, Hc. run_simpl. rewrite Hbl.
  destruct (decrypt_loop_spec key 0 ems Hems (Z.to_nat (len b)) d p0 [] c b more)
    as (ems1 & ems2 & b' & d' & p' & c' & -> & [n Hmv] & Hk' & Hf' & Hinc & Hs' & Hlc' & Hp' & Hlp' & Hle & Hloop);
    [done|done|done|apply starts_with_nil|change (len (@nil Z)) with 0; lia|lia|].
  change (len (@nil Z)) with 0 in Hloop. cbn [app] in Hloop, Hp'. rewrite Hloop. run_simpl.
  pose proof (len_nonneg b'). pose proof (len_nonneg (plain ems1)). subst d'.
  assert (Hrecv : forall pre, receiver
      (set_chunk (Some (with_len (with_data ch c') (len b'))) (set_nonce n d)) pre key ems2 b' more).
  { intros pre. split; [|by right].
    cbn. unfold holds, buffer_ok. cbn. split_and!; try done; lia. }
  unfold buffer_ok in Hlp. rewrite Hp in Hlp.
  assert (Hpl : forall k, 0 <= k <= len p' -> buffer_ok (with_len (with_data pl p') k)).
  { intros k Hkk. unfold buffer_ok. cbn. lia. }
  destruct ((0 <? len b') && (len (plain ems1) =? 0)) eqn:Hcode.
  - apply andb_true_iff in Hcode as [_ He%Z.eqb_eq].
    apply Forall_app in Hems as [Hems1 _]. pose proof (plain_nil ems1 Hems1 He) as ->.
    eexists _, _, _, _, [], ems2, b'. split; [reflexivity|]. split_and!; try done; [|by right].
    unfold buffer_ok. cbn. lia.
  - change (negb (CRYPTO_OK =? 0)) with false. cbv iota zeta.
    destruct (replace_contents ct x (plain ems1) p' capacity Hct Hcap Hp')
      as (q & q' & -> & Hcp & Hh). run_simpl. rewrite Hcp. run_simpl.
    eexists _, _, _, _, ems1, ems2, b'. split; [reflexivity|]. split_and!; try done; [|by left].
    apply Hpl. pose proof (starts_with_len _ _ Hp'). lia.
Qed.

(** On a session that has started, only [init] moves from 1 to 2. *)
Lemma decrypt_started d ch seed : init d <> 0 ->
  exists d', aead_decrypt_start d ch seed = Ret (Some (d', ch)) /\ init d' <> 0 /\
    cipher d' = cipher d /\
    forall key op, keyed d (s_rx d) key op -> keyed d' (s_rx d') key op /\ cur_nonce d' = cur_nonce d.
Proof.
  intros Hi. unfold aead_decrypt_start. rewrite (proj2 (Z.eqb_neq _ _)) by done.
  destruct (init d =? 1); eexists; (split; [reflexivity|]); split_and!; done.
Qed.

(** One call of [aead_decrypt] on the next bytes [x] of the stream. *)
Lemma aead_decrypt_spec d pre key ems b more ct x tmp capacity seed :
  receiver d pre key ems b (x ++ more) -> ems_ok ems -> holds ct x ->
  is_Some (b_data ct) -> buffer_ok tmp -> 0 < capacity ->
  exists code ct' tmp' d' ems1 ems2 b',
    aead_decrypt junk ct tmp d capacity seed = Ret (code, ct', tmp', d') /\
    ems = ems1 ++ ems2 /\ receiver d' pre key ems2 b' more /\ buffer_ok tmp' /\
    ((code = CRYPTO_OK /\ holds ct' (plain ems1)) \/ (code = CRYPTO_NEED_MORE /\ ems1 = [] /\ ct' = ct)).
Proof.
  intros [Hpend Hst] Hems Hct [cd Hcd] Htmp Hcap. unfold aead_decrypt.
  set (ch0 := match chunk d with None => _ | Some ch => ch end).
  assert (Hch0 : holds ch0 b).
  { unfold ch0, pending in *. destruct (chunk d); [done|]. rewrite Hpend. cbn [fst balloc].
    pose proof (len_fresh junk capacity). unfold holds, buffer_ok. cbn.
    split_and!; try done; lia. }
  destruct (grow_spec junk ch0 b (b_len ch0 + b_len ct) capacity Hch0 Hcap)
    as [Hg (g & Hgd & Hgl & Hgm & _)].
  rewrite Hgd, Hcd. run_simpl.
  pose proof Hct as (_ & Hctl & Hcts). rewrite Hcd in Hcts. cbn in Hcts. unfold id in Hcts.
  destruct (append_spec _ b x Hg g Hgd) as (g' & Hw & Hh);
    [destruct Hch0 as (_ & Hch0l & _); lia|].
  assert (Hmem : memcpy g (b_len (grow junk ch0 (b_len ch0 + b_len ct) capacity)) cd 0 (b_len ct) = Ret g').
  { unfold memcpy. rewrite Hctl, (rd_range_prefix x cd) by done. run_simpl. by rewrite <- Hctl. }
  rewrite <- Hctl in Hh. rewrite Hmem. run_simpl. clear Hmem Hw.
  set (ch := with_len (with_data (grow junk ch0 (b_len ch0 + b_len ct) capacity) g') _) in *.
  destruct (grow_tmp tmp (b_len ch) capacity Htmp Hcap) as (p0 & Hp0 & Hlp0 & Hm0 & Hpok).
  assert (Hchl : b_len ch = len (b ++ x)) by apply Hh.
  destruct Hst as [(Hi & Hok & Hpeer & Hlb & Hf)|(Hi & Hk & Hf & _)].
  - rewrite app_assoc in Hf.
    destruct (Z.leb_spec (len (b ++ x)) (len pre)) as [Hshort|Hlong].
    + rewrite (decrypt_start_waits d ch pre key seed) by (done || lia). run_simpl.
      eexists _, _, _, _, [], ems, (b ++ x). split; [reflexivity|].
      split_and!; try done; [|by right]. split; [done|]. left. split_and!; try done.
    + destruct (app_eq_cases (b ++ x) more pre _ Hf) as [(k & Hbx & Hfr)|(k & Hpre & _)];
        [|rewrite Hpre, len_app in Hlong; pose proof (len_nonneg k); lia].
      assert (k <> []) by (intros ->; rewrite Hbx, app_nil_r in Hlong; lia).
      rewrite Hbx in Hh.
      destruct (decrypt_start_spec d ch pre k key seed)
        as (d1 & ch1 & -> & Hh1 & Hsome & Hok1 & Hc1 & Hi1 & Hk1 & Hn1); [done..|]. run_simpl.
      assert (Hlk : len k <= len p0).
      { rewrite Hbx, len_app in Hchl. pose proof (len_nonneg pre). lia. }
      rewrite <- Hn1, <- Hc1 in Hfr.
      edestruct (decrypt_deliver d1 ch1 ct x p0 (grow junk tmp (b_len ch) capacity) capacity key ems k more)
        as (code & ct' & pl' & d' & ems1 & ems2 & b' & Hr & He & Hrecv & Hpl & Hc);
        [done|lia|done|done|done|done|done|done|done|done|lia|].
      eexists code, ct', pl', d', ems1, ems2, b'. split; [exact Hr|]. by split_and!.
  - destruct (decrypt_started d ch seed Hi) as (d1 & -> & Hi1 & Hc1 & Hk1). run_simpl.
    rewrite app_assoc in Hf. rewrite <- Hc1 in Hf. pose proof (Hk1 key 0 Hk) as [Hk1' Hn1].
    rewrite <- Hn1 in Hf.
    edestruct (decrypt_deliver d1 ch ct x p0 (grow junk tmp (b_len ch) capacity) capacity key ems (b ++ x) more)
      as (code & ct' & pl' & d' & ems1 & ems2 & b' & Hr & He & Hrecv & Hpl & Hc);
      [done|done|done|done|by eexists|done|done|done|done|done|lia|].
    eexists code, ct', pl', d', ems1, ems2, b'. split; [exact Hr|]. by split_and!.
Qed.

(** ** Whole streams *)

Lemma holds_buffer_of l : holds (buffer_of l) l.
Proof.
  pose proof (len_nonneg l). unfold holds, buffer_ok. cbn. split_and!; try lia.
  apply starts_with_refl.
Qed.
Lemma contents_holds b l : holds b l -> contents b = l.
Proof. intros (_ & Hl & Hs). unfold contents. rewrite Hl. exact Hs. Qed.

(** The bytes on the wire, and the nonce afterwards. *)
Lemma send_stream_spec ems : ems_ok ems -> forall cx key n tmp capacity,
  sender cx key n -> buffer_ok tmp -> 0 < capacity ->
  exists ctx', send_stream junk tmp cx capacity ems
    = Ret (CRYPTO_OK,
           (if (init cx =? 0) && negb (length ems =? 0)%nat then preamble cx else [])
           ++ frames (cipher cx) key n ems, ctx') /\
    sender ctx' key (nonce_after n ems) /\ cipher ctx' = cipher cx.
Proof.
  induction 1 as [|[e m] ems [He Hm] Hems IH]; intros cx key n tmp capacity Hs Ht Hc.
  { exists cx. cbn. by rewrite andb_false_r. }
  destruct (aead_encrypt_spec cx key n (buffer_of m) m tmp capacity e Hs (holds_buffer_of m) Hm Ht Hc He)
    as (pt & tmp' & ctx1 & Henc & Hpt & Ht' & Hs' & Hi & Hcc).
  cbn [send_stream]. rewrite Henc. run_simpl. change (negb (0 =? 0)) with false. cbv iota.
  destruct (IH ctx1 key _ tmp' capacity Hs' Ht' Hc) as (ctx' & -> & Hs2 & Hc2). run_simpl.
  rewrite (contents_holds _ _ Hpt), Hi, Hcc. change (1 =? 0) with false.
  exists ctx'. cbn [andb app length Nat.eqb negb frames nonce_after]. rewrite andb_true_r, <- app_assoc.
  split_and!; try done. by rewrite Hc2.
Qed.

(** Every segmentation of a part of the rest of the stream delivers the messages
    that this part completes. *)
Lemma recv_stream_spec pre key more segs : forall d ems b tmp capacity seed,
  receiver d pre key ems b (concat segs ++ more) -> ems_ok ems -> buffer_ok tmp -> 0 < capacity ->
  exists d' ems1 ems2 b', recv_stream junk tmp d capacity seed segs = Ret (CRYPTO_OK, plain ems1, d') /\
    ems = ems1 ++ ems2 /\ receiver d' pre key ems2 b' more.
Proof.
  induction segs as [|x segs IH]; intros d ems b tmp capacity seed Hr He Ht Hc.
  { exists d, [], ems, b. done. }
  cbn [concat] in Hr. rewrite <- app_assoc in Hr.
  destruct (aead_decrypt_spec d pre key ems b (concat segs ++ more) (buffer_of x) x tmp capacity seed
              Hr He (holds_buffer_of x) (ltac:(by eexists)) Ht Hc)
    as (code & ct & tmp' & d1 & ems1 & ems2 & b1 & Hdec & -> & Hr1 & Ht1 & Hcode).
  cbn [recv_stream]. rewrite Hdec. run_simpl. apply Forall_app in He as [He1 He2].
  destruct (IH d1 ems2 b1 tmp' capacity seed Hr1 He2 Ht1 Hc)
    as (d' & ems3 & ems4 & b' & Hrec & -> & Hr2).
  destruct Hcode as [[-> Hct]|(-> & -> & ->)].
  - change (CRYPTO_OK =? CRYPTO_ERROR) with false. cbv iota. rewrite Hrec. run_simpl.
    change (CRYPTO_OK =? CRYPTO_NEED_MORE) with false. cbv iota. rewrite (contents_holds _ _ Hct).
    exists d', (ems1 ++ ems3), ems4, b'. unfold plain. rewrite fmap_app, concat_app, <- app_assoc. done.
  - change (CRYPTO_NEED_MORE =? CRYPTO_ERROR) with false. cbv iota. rewrite Hrec. run_simpl.
    change (CRYPTO_NEED_MORE =? CRYPTO_NEED_MORE) with true. cbv iota.
    exists d', ems3, ems4, b'. done.
Qed.

(** At the end of the stream no message is left over. *)
Lemma receiver_done d pre key ems b :
  cipher_ok (cipher d) -> ems_ok ems -> receiver d pre key ems b [] -> ems = [].
Proof.
  intros Hc Hems (_ & Hr). destruct Hems as [|[e m] ems [He _] _]; [done|]. exfalso.
  cbn [fst] in He. destruct (cipher_ok_cases _ Hc) as [Ht _], (pad_len_bound e (len m) He).
  destruct Hr as [(_ & _ & _ & Hl & Hf)|(_ & _ & Hf & Hinc)]; rewrite app_nil_r in Hf; subst b.
  - cbn [frames] in Hl. rewrite !len_app, len_frame in Hl by done. revert Hl.
    pose proof (len_nonneg m). pose proof (len_nonneg (frames (cipher d) key (incr (incr (zero_of (cipher d)))) ems)).
    zcase; lia.
  - cbn [incomplete frames] in Hinc. rewrite len_app in Hinc.
    pose proof (len_nonneg (frames (cipher d) key (incr (incr (cur_nonce d))) ems)). lia.
Qed.

Lemma receiver_cipher d ems b more pre key : receiver d pre key ems b more -> cipher_ok (cipher d).
Proof. intros (_ & [(_ & Ho & _)|(_ & Hk & _)]); [apply Ho|apply Hk]. Qed.

(** Frames only depend on the method of the cipher. *)
Lemma suite_sizes c c' : cipher_ok c -> cipher_ok c' -> method c = method c' ->
  nonce_len c = nonce_len c' /\ key_len c = key_len c' /\ tag_len c = tag_len c'.
Proof.
  intros (i & Hm & Hn & Hk & Ht) (i' & Hm' & Hn' & Hk' & Ht') Heq.
  assert (i = i') as <- by lia. by simplify_eq.
Qed.
Lemma frames_suite c c' key n ems : cipher_ok c -> cipher_ok c' -> method c = method c' ->
  frames c key n ems = frames c' key n ems.
Proof.
  intros Hc Hc' Hm. destruct (suite_sizes c c' Hc Hc' Hm) as (_ & _ & Ht). revert n.
  induction ems as [|[e m] ems IH]; intros n; [done|]. cbn [frames]. rewrite IH. f_equal.
  unfold frame, seal. by rewrite Hm, Ht.
Qed.

(** A sender and a receiver that agree on preamble and key: whatever the
    segmentation of the bytes sent, the messages sent arrive. *)
Lemma stream_roundtrip e d ems tmp tmp' capacity seed :
  ctx_ok e -> ctx_ok d -> init e = 0 -> init d = 0 -> chunk d = None ->
  method (cipher e) = method (cipher d) -> peer d (preamble e) (session_key 1 e) ->
  ems_ok ems -> ems <> [] -> buffer_ok tmp -> buffer_ok tmp' -> 0 < capacity ->
  exists wire e', send_stream junk tmp e capacity ems = Ret (CRYPTO_OK, wire, e') /\
    forall segs, concat segs = wire -> exists d',
      recv_stream junk tmp' d capacity seed segs = Ret (CRYPTO_OK, plain ems, d').
Proof.
  intros He Hd Hie Hid Hch Hm Hp Hems Hne Ht Ht' Hc.
  pose proof (proj1 He) as Hce. pose proof (proj1 Hd) as Hcd.
  destruct (suite_sizes _ _ Hce Hcd Hm) as (Hnl & _ & _).
  destruct (send_stream_spec ems Hems e (session_key 1 e) (zero_of (cipher e)) tmp capacity)
    as (e' & Hsend & _); [split; [done|by left]|done|done|].
  rewrite Hie in Hsend. change (0 =? 0) with true in Hsend. cbn [andb] in Hsend.
  eexists _, e'. split; [exact Hsend|]. intros segs Hsegs.
  destruct ems as [|em ems']; [done|].
  cbn [length Nat.eqb negb] in Hsegs. rewrite (frames_suite _ (cipher d)) in Hsegs by done.
  destruct (recv_stream_spec (preamble e) (session_key 1 e) [] segs d (em :: ems') [] tmp' capacity seed)
    as (d' & ems1 & ems2 & b' & Hrec & Hsplit & Hr); try done.
  { split; [unfold pending; by rewrite Hch|]. left. split_and!; try done.
    - change (len (@nil Z)) with 0. apply len_nonneg.
    - rewrite app_nil_r, Hsegs. cbn [app]. unfold zero_of. by rewrite Hnl. }
  rewrite Hsplit in Hems |- *. apply Forall_app in Hems as [_ He2].
  pose proof (receiver_done _ _ _ _ _ (receiver_cipher _ _ _ _ _ _ Hr) He2 Hr) as ->.
  exists d'. by rewrite app_nil_r.
Qed.
End sessions.
