(* ===== verification/AeadSafety.v ===== *)
(** * aead.c on hostile input: no fault, whatever the network sends *)
From S2P Require Import Prelude Crypto CryptoSpec Aead AeadSpec AeadStream.

Section safety.
Context `{L : CryptoLaws} (junk : nat -> Z).

(** A context that can open: any [keyed] one. *)
Definition opens (ctx : cipher_ctx) : Prop := exists key op, keyed ctx (s_rx ctx) key op.

Lemma opens_nonce ctx : opens ctx ->
  exists n, sodium_increment (nonce ctx) (nonce_len (cipher ctx)) = Ret n /\ opens (set_nonce n ctx).
Proof.
  intros (key & op & Hk). destruct (incr_nonce ctx (s_rx ctx) key op Hk) as (n & ? & ? & _).
  exists n. split; [done|]. by exists key, op.
Qed.

(** Decryption of any input that is long enough returns a code and, on success,
    as many bytes as the input has without its tag. *)
Lemma decrypt_any ctx m : opens ctx -> 16 <= len m ->
  exists err out, aead_cipher_decrypt ctx m (nonce ctx) (s_rx ctx) = Ret (err, out) /\
    (err = 0 /\ len out + 16 = len m \/ err = 1).
Proof.
  intros (key & op & Hok & Hs & Hkey & Hn & Hevp) Hm.
  destruct (cipher_ok_cases _ Hok) as [Ht Hc].
  unfold aead_cipher_decrypt, AES128GCM, AES192GCM, AES256GCM, CHACHA20POLY1305IETF,
    XCHACHA20POLY1305IETF. rewrite Ht.
  destruct Hc as [(Hmt & Hnl & _)|[(Hmt & Hnl & Hkl)|(Hmt & Hnl & Hkl)]]; rewrite Hnl.
  - rewrite Hevp by lia.
    replace (_ || _ || _) with true by (repeat zcase; lia || done).
    rewrite (rd_range_front (nonce ctx)) by lia. run_simpl.
    rewrite rd_range_front, rd_range_ok by lia. run_simpl.
    destruct (mbedtls_cipher_auth_decrypt _ _ _ _) as [o|] eqn:Ho; eexists _, _;
      (split; [reflexivity|]); [left|by right].
    apply gcm_decrypt_len in Ho. rewrite len_ztake in Ho by lia. split; [done|lia].
  - ztest. rewrite !rd_range_front by lia. run_simpl.
    destruct (chacha20poly1305_ietf_decrypt _ _ _) as [o|] eqn:Ho; eexists _, _;
      (split; [reflexivity|]); [left|by right].
    apply chacha_decrypt_len in Ho. done.
  - ztest. rewrite !rd_range_front by lia. run_simpl.
    destruct (xchacha20poly1305_ietf_decrypt _ _ _) as [o|] eqn:Ho; eexists _, _;
      (split; [reflexivity|]); [left|by right].
    apply xchacha_decrypt_len in Ho. done.
Qed.

Lemma land_mask_bound z n : 0 <= n -> 0 <= Z.land z (Z.ones n) < 2 ^ n.
Proof. intros. rewrite Z.land_ones by done. apply Z.mod_pos_bound. by apply Z.pow_pos_nonneg. Qed.

(** One chunk of any bytes: no fault; a chunk that is accepted shrinks the
    input by more than it delivers. *)
Lemma chunk_decrypt_any ctx p poff c plen clen :
  opens ctx -> 0 <= poff -> 0 <= clen <= len c -> poff + clen <= len p ->
  exists err n p' c' plen' clen',
    aead_chunk_decrypt ctx p poff c plen clen = Ret (err, set_nonce n ctx, p', c', plen', clen') /\
    opens (set_nonce n ctx) /\ len p' = len p /\ len c' = len c /\
    (err = CRYPTO_OK /\ 1 <= plen' /\ 0 <= clen' /\ plen' + clen' < clen \/
     err = CRYPTO_ERROR \/ err = CRYPTO_NEED_MORE).
Proof.
  intros Hop Hpo Hcl Hroom. pose proof Hop as (key & op & Hok & _).
  destruct (cipher_ok_cases _ Hok) as [Ht _].
  assert (Hsame : set_nonce (nonce ctx) ctx = ctx) by (by destruct ctx).
  unfold aead_chunk_decrypt, CHUNK_SIZE_LEN, CHUNK_PADDING_SIZE_LEN, CHUNK_PADDING_SIZE_LIMIT. rewrite Ht.
  destruct (Z.leb_spec clen (2 * 16 + 2 + 2)) as [Hs|Hs].
  { eexists _, (nonce ctx), p, c, _, _. rewrite Hsame. split; [reflexivity|]. by split_and!; auto. }
  rewrite rd_range_front by lia. run_simpl.
  destruct (decrypt_any ctx (ztake (2 + 2 + 16) c)) as (err & hd & Hd & Hres);
    [done|rewrite len_ztake; lia|].
  rewrite Hd. run_simpl. destruct Hres as [[-> Hlh]| ->]; cycle 1.
  { eexists _, (nonce ctx), p, c, _, _. rewrite Hsame. split; [reflexivity|]. by split_and!; auto. }
  rewrite len_ztake in Hlh by lia. change (negb (0 =? 0)) with false. cbv iota zeta.
  replace (len hd) with 4 by lia. change (4 =? 2 + 2) with true. run_simpl.
  set (mlen := Z.land (of_be 0 hd) CHUNK_SIZE_MASK).
  assert (Hml : 0 <= mlen < 2 ^ 14) by (apply (land_mask_bound _ 14); lia).
  set (pad := Z.land (Z.shiftr (of_be 0 hd) 16) CHUNK_PADDING_SIZE_MASK).
  assert (Hpd : 0 <= pad < 2 ^ 15) by (apply (land_mask_bound _ 15); lia).
  destruct (Z.eqb_spec mlen 0) as [H0|Hm0].
  { eexists _, (nonce ctx), p, c, _, _. rewrite Hsame. split; [reflexivity|]. by split_and!; auto. }
  assert (Hpad : 0 <= (if 512 <? pad then 0 else pad)) by (zcase; lia).
  set (padlen := if 512 <? pad then 0 else pad) in *.
  destruct (Z.ltb_spec clen (2 * 16 + 2 + 2 + padlen + mlen)) as [Hlt|Hge].
  { eexists _, (nonce ctx), p, c, _, _. rewrite Hsame. split; [reflexivity|]. by split_and!; auto. }
  destruct (opens_nonce ctx Hop) as (n1 & -> & Hop1). run_simpl.
  rewrite rd_range_ok by lia. run_simpl.
  assert (Hlb : len (ztake (mlen + 16) (zdrop (2 + 2 + 16 + padlen) c)) = mlen + 16).
  { apply len_ztake. rewrite len_zdrop by lia. lia. }
  destruct (decrypt_any (set_nonce n1 ctx) _ Hop1 (ltac:(rewrite Hlb; lia))) as (err & m & Hdm & Hres).
  rewrite Hdm. run_simpl. destruct Hres as [[-> Hlm]| ->]; cycle 1.
  { eexists _, n1, p, c, _, _. split; [reflexivity|]. by split_and!; auto. }
  change (negb (0 =? 0)) with false. cbv iota.
  assert (Hlm' : len m = mlen) by lia.
  rewrite wr_range_ok by lia. run_simpl. rewrite Hlm', Z.eqb_refl. run_simpl.
  destruct (opens_nonce _ Hop1) as (n2 & Hn2 & Hop2). cbn [nonce cipher set_nonce] in Hn2 |- *.
  rewrite Hn2. run_simpl.
  set (cl := 2 * 16 + 2 + 2 + padlen + mlen) in *.
  assert (Hmv : exists c', (if cl <? clen then memcpy c 0 c cl (clen - cl) else mret c) = Ret c' /\ len c' = len c).
  { destruct (Z.ltb_spec cl clen); [|by eexists]. unfold memcpy.
    rewrite rd_range_ok by lia. run_simpl.
    assert (Hlz : len (ztake (clen - cl) (zdrop cl c)) = clen - cl) by (rewrite len_ztake; rewrite ?len_zdrop; lia).
    rewrite wr_range_ok by lia. eexists. split; [reflexivity|].
    rewrite ztake_0. cbn [app]. rewrite len_app, Hlz, len_zdrop by lia. lia. }
  destruct Hmv as (c' & -> & Hlc'). run_simpl.
  eexists _, n2, _, c', _, _. split; [reflexivity|].
  split; [done|]. rewrite !len_app, len_ztake, len_zdrop by lia.
  split; [lia|]. split; [done|]. left. split; [done|]. lia.
Qed.

Lemma set_nonce_twice n n' ctx : set_nonce n' (set_nonce n ctx) = set_nonce n' ctx.
Proof. done. Qed.

(** The decoding loop on any chunk. *)
Lemma decrypt_loop_any fuel : forall ctx p c plen clen,
  opens ctx -> 0 <= plen -> 0 <= clen <= len c -> plen + clen <= len p -> clen <= Z.of_nat fuel ->
  exists err n p' c' plen' clen',
    aead_decrypt_loop fuel ctx p c plen clen = Ret (err, set_nonce n ctx, p', c', plen', clen') /\
    opens (set_nonce n ctx) /\ len p' = len p /\ len c' = len c /\
    0 <= plen' <= len p /\ 0 <= clen' <= len c /\
    (err = CRYPTO_OK \/ err = CRYPTO_ERROR \/ err = CRYPTO_NEED_MORE).
Proof.
  induction fuel as [|fuel IH]; intros ctx p c plen clen Hop Hp Hc Hroom Hf.
  { assert (clen = 0) as -> by lia. exists CRYPTO_OK, (nonce ctx), p, c, plen, 0.
    replace (set_nonce (nonce ctx) ctx) with ctx by (by destruct ctx).
    split; [done|]. split_and!; auto; lia. }
  cbn [aead_decrypt_loop].
  destruct (Z.ltb_spec 0 clen) as [Hpos|Hz]; cbn [negb]; cycle 1.
  { eexists _, (nonce ctx), p, c, plen, clen.
    replace (set_nonce (nonce ctx) ctx) with ctx by (by destruct ctx).
    split; [reflexivity|]. split_and!; auto; lia. }
  destruct (chunk_decrypt_any ctx p plen c 0 clen Hop Hp Hc Hroom)
    as (err & n & p1 & c1 & pl1 & cl1 & -> & Hop1 & Hlp1 & Hlc1 & Hres). run_simpl.
  destruct Hres as [(-> & H1 & H2 & H3)|[->| ->]].
  - change (CRYPTO_OK =? CRYPTO_ERROR) with false. change (CRYPTO_OK =? CRYPTO_NEED_MORE) with false.
    cbv iota.
    destruct (IH (set_nonce n ctx) p1 c1 (plen + pl1) cl1)
      as (err & n' & p2 & c2 & pl2 & cl2 & -> & Hop2 & Hlp2 & Hlc2 & Hb1 & Hb2 & Hres);
      [done|lia|lia|lia|lia|].
    exists err, n', p2, c2, pl2, cl2. rewrite set_nonce_twice in *. split; [done|].
    split_and!; auto; lia.
  - change (CRYPTO_ERROR =? CRYPTO_ERROR) with true. cbv iota.
    eexists _, n, p1, c1, plen, clen. split; [reflexivity|]. split_and!; auto; lia.
  - change (CRYPTO_NEED_MORE =? CRYPTO_ERROR) with false.
    change (CRYPTO_NEED_MORE =? CRYPTO_NEED_MORE) with true. cbv iota.
    destruct (plen =? 0); eexists _, n, p1, c1, plen, clen; (split; [reflexivity|]); split_and!; auto; lia.
Qed.

(** A receiving context at any point of a connection: before its session
    starts, or with a session key. *)
Definition live (d : cipher_ctx) : Prop :=
  match chunk d with None => True | Some ch => buffer_ok ch end /\
  ((init d = 0 /\ ctx_ok d /\ (is_local d = 0 -> len (c_pk (cipher d)) = 32)) \/
   (init d <> 0 /\ opens d)).

Lemma start_any d ch seed data : live d -> b_data ch = Some data -> buffer_ok ch ->
  exists r, aead_decrypt_start d ch seed = Ret r /\
    match r with
    | None => init d = 0
    | Some (d', ch') => init d' <> 0 /\ opens d' /\ buffer_ok ch' /\
        (exists data', b_data ch' = Some data') /\ b_len ch' <= b_len ch
    end.
Proof.
  intros [_ Hl] Hd Hb. unfold buffer_ok in Hb. rewrite Hd in Hb.
  destruct Hl as [(Hi & Hok & Hpk)|(Hi & Hop)]; cycle 1.
  { destruct (decrypt_started d ch seed Hi) as (d' & -> & Hi' & _ & Hk'). eexists. split; [reflexivity|].
    destruct Hop as (key & op & Hk). split; [done|]. split; [exists key, op; by apply Hk'|].
    split; [|split; [by eexists|lia]]. unfold buffer_ok. by rewrite Hd. }
  pose proof Hok as (Hc & Hsl & Hr & Ht & Hn & Hkr & Hkt & Hpkl & He).
  pose proof (key_len_bounds _ Hc) as [Hkl _].
  unfold aead_decrypt_start. rewrite Hi. change (0 =? 0) with true. cbv iota zeta.
  set (rl := if negb (is_local d =? 0) then 0 else crypto_kx_PUBLICKEYBYTES).
  assert (Hrl : 0 <= rl <= 32) by (unfold rl, crypto_kx_PUBLICKEYBYTES; destruct (negb _); lia).
  destruct (Z.leb_spec (b_len ch) (rl + key_len (cipher d))) as [Hs|Hs]; [by eexists|].
  rewrite Hd. run_simpl.
  assert (Hx : exists d1, (if negb (is_local d =? 0) then mret d
      else '(k, _) ← crypto_kx_ctx_init (kx_set_keys (c_pk (cipher d)) (c_sk (cipher d)) (kx d))
                       (is_local d) data seed; mret (set_kx k d)) = Ret d1 /\
      ctx_ok d1 /\ cipher d1 = cipher d).
  { unfold rl in *. destruct (Z.eqb_spec (is_local d) 0) as [Hz|Hnz]; cbn [negb] in *;
      [|by eexists]. unfold crypto_kx_ctx_init, crypto_kx_PUBLICKEYBYTES in *.
    rewrite rd_range_front by lia. rewrite Hz. run_simpl. change (negb (0 =? 0)) with false. cbv iota zeta.
    destruct (crypto_kx_server_session_keys _ _ _) as [[rx tx]|] eqn:Hk; eexists;
      (split; [reflexivity|]); (split; [|done]).
    - apply kx_server_len in Hk as [Hrx Htx]. split_and!; try done. by apply Hpk.
    - split_and!; try done. by apply Hpk. }
  destruct Hx as (d1 & -> & Hok1 & Hc1). run_simpl.
  assert (Hls : len (ztake (key_len (cipher d)) (zdrop rl data)) = key_len (cipher d))
    by (rewrite len_ztake; rewrite ?len_zdrop; lia).
  rewrite <- Hc1 in Hls. destruct (decrypt_install d1 _ _ Hok1 Hls eq_refl) as (sa & d' & Hw & Hset & _ & _ & Hk & _).
  unfold memcpy. rewrite !rd_range_ok by lia. run_simpl. rewrite Hc1 in Hw. rewrite Hw. run_simpl.
  rewrite Hset. run_simpl.
  assert (Hlm : len (ztake (b_len ch - rl - key_len (cipher d)) (zdrop (rl + key_len (cipher d)) data))
                = b_len ch - rl - key_len (cipher d)) by (rewrite len_ztake; rewrite ?len_zdrop; lia).
  rewrite wr_range_ok by lia. run_simpl. eexists. split; [reflexivity|].
  split; [done|]. split; [by eexists _, _|]. split; [|split; [by eexists|cbn; lia]].
  unfold buffer_ok. cbn. rewrite !len_app, len_ztake, len_zdrop by lia. lia.
Qed.

(** Any call of [aead_decrypt] on any input. *)
Lemma aead_decrypt_any d ct x tmp capacity seed :
  live d -> holds ct x -> is_Some (b_data ct) -> buffer_ok tmp -> 0 < capacity ->
  exists code ct' tmp' d',
    aead_decrypt junk ct tmp d capacity seed = Ret (code, ct', tmp', d') /\
    (code = CRYPTO_OK \/ code = CRYPTO_ERROR \/ code = CRYPTO_NEED_MORE) /\
    live d' /\ buffer_ok ct' /\ buffer_ok tmp' /\ 0 <= b_len ct'.
Proof.
  intros Hlive Hct [cd Hcd] Htmp Hcap. pose proof Hlive as [Hch Hst]. unfold aead_decrypt.
  set (ch0 := match chunk d with None => _ | Some ch => ch end).
  assert (Hch0 : buffer_ok ch0).
  { unfold ch0. destruct (chunk d); [done|]. cbn [fst balloc].
    pose proof (len_fresh junk capacity). unfold buffer_ok. cbn. lia. }
  apply buffer_ok_holds in Hch0 as [b Hch0].
  destruct (grow_spec junk ch0 b (b_len ch0 + b_len ct) capacity Hch0 Hcap)
    as [Hg (g & Hgd & Hgl & Hgm & _)].
  rewrite Hgd, Hcd. run_simpl.
  pose proof Hct as (Hctok & Hctl & Hcts). rewrite Hcd in Hcts. cbn in Hcts. unfold id in Hcts.
  destruct (append_spec _ b x Hg g Hgd) as (g' & Hw & Hh);
    [destruct Hch0 as (_ & Hch0l & _); lia|].
  assert (Hmem : memcpy g (b_len (grow junk ch0 (b_len ch0 + b_len ct) capacity)) cd 0 (b_len ct) = Ret g').
  { unfold memcpy. rewrite Hctl, (rd_range_prefix x cd) by done. run_simpl. by rewrite <- Hctl. }
  rewrite <- Hctl in Hh. rewrite Hmem. run_simpl. clear Hmem Hw.
  set (ch := with_len (with_data (grow junk ch0 (b_len ch0 + b_len ct) capacity) g') _) in *.
  destruct (grow_tmp junk tmp (b_len ch) capacity Htmp Hcap) as (p0 & Hp0 & Hlp0 & Hm0 & Hpok).
  pose proof (len_nonneg x) as Hlx.
  assert (Hctn : 0 <= b_len ct) by lia.
  destruct (start_any d ch seed g' Hlive) as (r & -> & Hr); [done|apply Hh|]. run_simpl.
  destruct r as [[d1 ch1]|]; cycle 1.
  { eexists _, _, _, _. split; [reflexivity|]. split_and!; auto. split; [apply Hh|left].
    destruct Hst as [(_ & H1 & H2)|(H1 & _)]; [by split_and!|lia]. }
  destruct Hr as (Hi1 & Hop1 & Hok1 & (c1 & Hc1) & Hle). rewrite Hp0, Hc1. run_simpl.
  unfold buffer_ok in Hok1. rewrite Hc1 in Hok1.
  destruct (decrypt_loop_any (Z.to_nat (b_len ch1)) d1 p0 c1 0 (b_len ch1))
    as (err & n & p' & c' & pl & cl & -> & Hop' & Hlp' & Hlc' & Hbp & Hbc & Herr); [done|lia..|].
  run_simpl.
  assert (Hlive' : live (set_chunk (Some (with_len (with_data ch1 c') cl)) (set_nonce n d1))).
  { split; [unfold buffer_ok; cbn; lia|right]. by split. }
  assert (Hpl : forall k, 0 <= k <= len p' -> buffer_ok (with_len (with_data (grow junk tmp (b_len ch) capacity) p') k)).
  { intros k Hkk. unfold buffer_ok. cbn [b_data b_capacity b_len with_len with_data]. lia. }
  destruct Herr as [->|Herr].
  - change (negb (CRYPTO_OK =? 0)) with false. cbv iota zeta.
    destruct (replace_contents junk ct x (ztake pl p') p' capacity Hct Hcap) as (q & q' & Hq & Hcp & Hqh).
    { apply starts_with_split. exists (zdrop pl p'). by rewrite ztake_zdrop. }
    rewrite len_ztake in * by lia. rewrite Hq. run_simpl. rewrite Hcp. run_simpl.
    eexists _, _, _, _. split; [reflexivity|]. split_and!; auto; [apply Hqh|apply Hpl; lia|cbn; lia].
  - assert (Hne : negb (err =? 0) = true) by (by destruct Herr as [->| ->]). rewrite Hne.
    eexists _, _, _, _. split; [reflexivity|]. split_and!; auto.
    unfold buffer_ok in Hpok |- *. rewrite Hp0 in Hpok. cbn [b_data b_capacity b_len with_len with_data]. lia.
Qed.
End safety.
