(* ===== verification/AeadUdp.v ===== *)
(** * aead.c: new contexts, and the packet transport for UDP

    [aead_ctx_init] yields sound contexts; [aead_encrypt_all] and
    [aead_decrypt_all] are inverse to each other, with and without the public
    key in the packet. *)
From S2P Require Import Prelude Crypto CryptoSpec Aead AeadSpec AeadStream AeadSafety.

Definition kx_ok (k : kx_ctx) : Prop :=
  len (kx_pk k) = 32 /\ len (kx_rx k) = 32 /\ len (kx_tx k) = 32.
Definition salt_source (f : Z -> bytes) : Prop := forall n, 0 <= n -> len (f n) = n.

Section udp.
Context `{L : CryptoLaws} (junk : nat -> Z).

Lemma kx_zero_ok : kx_ok kx_zero.
Proof. done. Qed.

Lemma ctx_zero_ok c k : cipher_ok c -> kx_ok k ->
  let ctx := aead_cipher_ctx_init (set_kx k (ctx_zero c)) (method c) in
  ctx_ok ctx /\ init ctx = 0 /\ is_local ctx = 0 /\ cipher ctx = c /\ chunk ctx = None /\
  kx ctx = k /\ salt ctx = zrep MAX_KEY_LENGTH 0.
Proof.
  intros Hc (Hp & Hr & Ht) ctx. pose proof (cipher_ok_cases _ Hc) as [_ Hm].
  unfold ctx, aead_cipher_ctx_init, AES128GCM, AEAD_CIPHER_NUM, CHACHA20POLY1305IETF.
  destruct (Z.ltb_spec (method c) 0), (Z.leb_spec 5 (method c)); try lia. cbn [orb].
  unfold ctx_ok. destruct (Z.leb_spec 3 (method c)); cbn; split_and!; try done; intros; first [lia | by eexists].
Qed.

(** [aead_ctx_init] with a key exchange or without one ([NULL]). *)
Lemma ctx_init_ok c k enc saltbytes : cipher_ok c -> kx_ok (default kx_zero k) -> salt_source saltbytes ->
  exists ctx, aead_ctx_init c k enc saltbytes = Ret ctx /\ ctx_ok ctx /\ init ctx = 0 /\
    is_local ctx = 0 /\ cipher ctx = c /\ chunk ctx = None /\ kx ctx = default kx_zero k /\
    (enc <> 0 -> ztake (key_len c) (salt ctx) = saltbytes (key_len c)).
Proof.
  intros Hc Hk Hs. pose proof (ctx_zero_ok c (default kx_zero k) Hc Hk) as Hz. cbn zeta in Hz.
  pose proof (key_len_bounds c Hc) as [Hkl _].
  unfold aead_ctx_init.
  replace (match k with Some k => set_kx k (ctx_zero c) | None => ctx_zero c end)
    with (set_kx (default kx_zero k) (ctx_zero c)) by (by destruct k).
  set (ctx := aead_cipher_ctx_init _ _) in *.
  destruct Hz as (Hok & Hi & Hl & Hcc & Hch & Hkx & Hsa).
  destruct (Z.eqb_spec enc 0) as [->|Hne]; cbn [negb]; [exists ctx; by split_and!|].
  assert (Hlen : len (saltbytes (key_len c)) = key_len c) by (apply Hs; lia).
  assert (Hsl : len (salt ctx) = 64) by apply Hok.
  destruct (wr_range_extend [] (saltbytes (key_len c)) (salt ctx) 0) as (sa & Hw & Hsw & Hls);
    [apply starts_with_nil|done|alia|]. rewrite Hw. run_simpl.
  exists (set_salt sa ctx). unfold ctx_ok in *. cbn [init is_local evp cipher chunk kx salt s_rx s_tx nonce set_salt].
  split_and!; try done; try apply Hok; try lia.
  intros _. cbn [app] in Hsw. unfold starts_with in Hsw. by rewrite Hlen in Hsw.
Qed.

(** The bytes of a packet: the public key on the first one, the salt, the
    sealed message. *)
Definition packet (c : cipher_t) (k : kx_ctx) (s m : bytes) : bytes :=
  (if pk_sent k =? 0 then kx_pk k else []) ++ s
  ++ seal c (derive c s (ztake (key_len c) (kx_tx k))) (zero_of c) m.

Lemma release_total ctx : exists ctx', aead_ctx_release ctx = Ret ctx'.
Proof. unfold aead_ctx_release. destruct (chunk ctx), (_ <=? _); by eexists. Qed.

(** Three consecutive writes at the start of an array. *)
Lemma encrypt_all_writes (d pk s x : bytes) n1 n2 :
  n1 = len pk -> n2 = len pk + len s -> len pk + len s + len x <= len d ->
  exists d1 d2 d3, wr_range d 0 pk = Ret d1 /\ wr_range d1 n1 s = Ret d2 /\
    wr_range d2 n2 x = Ret d3 /\ starts_with (pk ++ s ++ x) d3 /\ len d3 = len d.
Proof.
  intros -> -> Hroom. len_facts.
  destruct (wr_range_extend [] pk d 0) as (d1 & Hw1 & Hs1 & Hl1); [apply starts_with_nil|done|alia|].
  destruct (wr_range_extend _ s d1 (len pk) Hs1) as (d2 & Hw2 & Hs2 & Hl2); [done|cbn [app]; lia|].
  cbn [app] in Hs2.
  destruct (wr_range_extend _ x d2 (len pk + len s) Hs2) as (d3 & Hw3 & Hs3 & Hl3);
    [by rewrite len_app|rewrite len_app; lia|].
  exists d1, d2, d3. rewrite <- app_assoc in Hs3. by split_and!; try lia.
Qed.

Lemma encrypt_all_spec pt m tmp c k capacity saltbytes :
  holds pt m -> is_Some (b_data pt) -> buffer_ok tmp -> 0 < capacity -> cipher_ok c -> kx_ok k ->
  salt_source saltbytes ->
  exists pt' tmp' k', aead_encrypt_all junk pt tmp c k capacity saltbytes = Ret (CRYPTO_OK, pt', tmp', k') /\
    holds pt' (packet c k (saltbytes (key_len c)) m) /\
    k' = (if pk_sent k =? 0 then kx_set_pk_sent 1 k else k).
Proof.
  intros Hpt [p Hp] Htmp Hcap Hc Hk Hs. pose proof Hk as (Hkp & Hkr & Hkt).
  pose proof (key_len_bounds c Hc) as [Hkl _]. destruct (cipher_ok_cases _ Hc) as [Htl _].
  destruct (ctx_init_ok c (Some k) 1 saltbytes) as (ctx & Hci & Hok & _ & _ & Hcc & _ & Hkx & Hsalt); [done..|].
  specialize (Hsalt (ltac:(lia))). cbn [default from_option] in Hkx. unfold id in Hkx.
  unfold aead_encrypt_all. rewrite Hci. run_simpl.
  set (pkl := if pk_sent k =? 0 then crypto_kx_PUBLICKEYBYTES else 0).
  destruct (grow_tmp junk tmp (pkl + key_len c + tag_len c + b_len pt) capacity Htmp Hcap)
    as (d & Hd & Hld & Hmax & _).
  cbn [b_data with_len]. rewrite Hd. run_simpl.
  pose proof Hpt as (_ & Hpl & Hps). rewrite Hp in Hps. cbn in Hps. unfold id in Hps.
  destruct (set_key_spec ctx 1 Hok) as (ctx1 & Hset & Hok1 & (_ & _ & Hc1 & _) & Hkey & Hn).
  unfold session_key in Hkey. rewrite Hcc, Hsalt in Hkey.
  unfold kx_of in Hkey. rewrite Hkx in Hkey. change (negb (1 =? 0)) with true in Hkey. cbv iota in Hkey.
  change (skey_of 1 ctx1) with (s_tx ctx1) in Hkey.
  pose proof (seal_encrypt ctx1 _ m Hkey) as Hseal. rewrite Hc1, Hcc, Hn, Hcc in Hseal. fold (zero_of c) in Hseal.
  set (key := derive c _ _) in *. set (x := seal c key (zero_of c) m) in *.
  assert (Hlx : len x = len m + tag_len c) by (by apply len_seal).
  assert (Hsl : len (salt ctx) = 64) by apply Hok.
  assert (Hls : len (saltbytes (key_len c)) = key_len c) by (apply Hs; lia).
  set (pk := if pk_sent k =? 0 then kx_pk k else []).
  assert (Hpk : len pk = pkl) by (unfold pk, pkl, crypto_kx_PUBLICKEYBYTES; destruct (_ =? 0); done).
  destruct (encrypt_all_writes d pk (saltbytes (key_len c)) x pkl (pkl + key_len c))
    as (d1 & d2 & d3 & Hw1 & Hw2 & Hw3 & Hs3 & Hl3); [done|lia|lia|].
  assert (Hfirst : (if negb (pkl =? 0) then d0 ← memcpy d 0 (kx_pk k) 0 pkl; mret (d0, kx_set_pk_sent 1 k)
      else mret (d, k)) = Ret (d1, if pk_sent k =? 0 then kx_set_pk_sent 1 k else k)).
  { unfold pkl, pk, crypto_kx_PUBLICKEYBYTES in *. destruct (pk_sent k =? 0).
    - change (negb (32 =? 0)) with true. cbv iota. unfold memcpy.
      rewrite rd_range_front, ztake_all by lia. run_simpl. rewrite Hw1. done.
    - rewrite wr_range_nil in Hw1 by alia. by simplify_eq. }
  rewrite Hfirst. run_simpl. assert (Hsc : memcpy d1 pkl (salt ctx) 0 (key_len c) = Ret d2).
  { unfold memcpy. rewrite rd_range_front by lia. run_simpl. by rewrite Hsalt. }
  rewrite Hsc. run_simpl. rewrite Hset. run_simpl. rewrite Hp. run_simpl.
  rewrite (rd_range_prefix m p) by done. run_simpl. rewrite Hseal. run_simpl.
  rewrite Hw3. run_simpl. destruct (release_total ctx1) as (ctx2 & ->). run_simpl.
  change (negb (CRYPTO_OK =? 0)) with false. cbv iota. cbn [b_len with_data with_len].
  rewrite (proj2 (Z.eqb_eq (tag_len c + b_len pt) (len x))) by lia. run_simpl.
  destruct (replace_contents junk pt m (pk ++ saltbytes (key_len c) ++ x) d3 capacity Hpt)
    as (q & q' & Hq & Hcp & Hh); [done|done|].
  rewrite !len_app in Hq, Hcp, Hh.
  replace (pkl + key_len c + (tag_len c + b_len pt))
    with (len pk + (len (saltbytes (key_len c)) + len x)) by lia.
  rewrite Hq. run_simpl. rewrite Hcp. run_simpl. eexists _, _, _. split; [reflexivity|]. done.
Qed.

(** What the receiver of a packet knows: the key the sender sealed with. *)
Definition agrees (k k' : kx_ctx) (c' : cipher_t) : Prop :=
  (pk_sent k <> 0 /\ rpk_received k' <> 0 /\ kx_rx k' = kx_tx k) \/
  (pk_sent k = 0 /\ rpk_received k' = 0 /\ exists tx,
     crypto_kx_server_session_keys (kx_pk k') (kx_sk k') (kx_pk k) = Some (kx_tx k, tx)).

(** The key exchange of [aead_decrypt_all], if the packet carries a key. *)
Lemma decrypt_all_exchange k k' c' s x rest seed : kx_ok k -> kx_ok k' -> agrees k k' c' ->
  exists k1,
    (if rpk_received k' =? 0 then
       '(k, _) ← crypto_kx_ctx_init k' 0 (((if pk_sent k =? 0 then kx_pk k else []) ++ s ++ x) ++ rest) seed;
       mret (kx_set_rpk_received 1 k)
     else mret k') = Ret k1 /\
    kx_rx k1 = kx_tx k /\ kx_ok k1 /\
    len (if pk_sent k =? 0 then kx_pk k else []) = (if rpk_received k' =? 0 then 32 else 0).
Proof.
  intros (Hp & Hr & Ht) Hk' [(Hs & Hr' & Hrx)|(Hs & Hr' & tx & Hkx)].
  - rewrite !(proj2 (Z.eqb_neq _ _)) by done. exists k'. by split_and!.
  - rewrite Hs, Hr'. change (0 =? 0) with true. cbv iota. unfold crypto_kx_ctx_init, crypto_kx_PUBLICKEYBYTES.
    rewrite <- !app_assoc. rewrite rd_range_front by alia. rewrite ztake_app_exact by done. run_simpl.
    change (negb (0 =? 0)) with false. cbv iota. cbn [kx_pk kx_sk]. rewrite Hkx.
    pose proof (kx_server_len _ _ _ _ _ Hkx) as [_ Htx]. destruct Hk' as (?&?&?).
    eexists. split; [reflexivity|]. by split_and!.
Qed.

Lemma decrypt_all_spec ct m tmp c c' k k' capacity saltbytes saltbytes' seed :
  holds ct (packet c k (saltbytes (key_len c)) m) -> is_Some (b_data ct) -> m <> [] ->
  buffer_ok tmp -> 0 < capacity -> cipher_ok c -> cipher_ok c' -> method c = method c' ->
  kx_ok k -> kx_ok k' -> salt_source saltbytes -> salt_source saltbytes' -> agrees k k' c' ->
  exists ct' tmp' k'', aead_decrypt_all junk ct tmp c' k' capacity saltbytes' seed
    = Ret (CRYPTO_OK, ct', tmp', k'') /\ holds ct' m /\ buffer_ok tmp'.
Proof.
  intros Hct [cd Hcd] Hm Htmp Hcap Hc Hc' Hmt Hk Hk' Hs Hs' Hag.
  destruct (suite_sizes _ _ Hc Hc' Hmt) as (Hnl & Hkl' & Htl').
  pose proof (key_len_bounds c' Hc') as [Hkl _]. destruct (cipher_ok_cases _ Hc') as [Htl _].
  pose proof Hct as (_ & Hcl & Hcs). rewrite Hcd in Hcs. cbn in Hcs. unfold id in Hcs.
  unfold packet in Hcl, Hcs. rewrite Hkl' in Hcl, Hcs.
  set (s := saltbytes (key_len c')) in *. set (key := derive c s _) in *.
  set (x := seal c key (zero_of c) m) in *.
  assert (Hls : len s = key_len c') by (apply Hs; lia).
  assert (Hlx : len x = len m + 16) by (unfold x; rewrite len_seal; [lia|done]).
  assert (Hlm : 0 < len m).
  { len_facts. destruct (Z.eq_dec (len m) 0) as [Hz0|]; [by apply len_0_nil in Hz0|lia]. }
  apply starts_with_split in Hcs as [rest ->].
  destruct (decrypt_all_exchange k k' c' s x rest seed Hk Hk' Hag) as (k1 & Hx & Hrx & Hk1 & Hpl).
  set (pk := if pk_sent k =? 0 then kx_pk k else []) in *.
  set (rl := if rpk_received k' =? 0 then 32 else 0) in *.
  rewrite !len_app in Hcl. assert (0 <= rl) by (rewrite <- Hpl; apply len_nonneg).
  unfold aead_decrypt_all, crypto_kx_PUBLICKEYBYTES. fold rl.
  rewrite (proj2 (Z.leb_gt _ _)) by lia. rewrite Hcd. run_simpl. rewrite Hx. run_simpl.
  destruct (ctx_init_ok c' (Some k1) 0 saltbytes') as (ctx & -> & Hok & _ & _ & Hcc & _ & Hkx & _); [done..|].
  cbn [default from_option] in Hkx. unfold id in Hkx. run_simpl.
  assert (Hpkl : len pk = rl) by exact Hpl.
  assert (Hkey : key = derive (cipher ctx) s (ztake (key_len (cipher ctx)) (kx_rx (kx ctx)))).
  { unfold key, derive. by rewrite Hcc, Hkx, Hrx, Hkl'. }
  rewrite <- Hcc in Hls. destruct (decrypt_install ctx s key Hok Hls Hkey)
    as (sa & d' & Hw & Hset & _ & (_ & _ & Hcd' & _) & Hkd & Hz).
  rewrite Hcc in Hls, Hz. cbn in Hcd'. rewrite Hcc in Hcd'.
  destruct (grow_tmp junk tmp (b_len ct) capacity Htmp Hcap) as (p & Hp & Hlp & Hmax & Hgok).
  assert (Hsalt : memcpy (salt ctx) 0 ((pk ++ s ++ x) ++ rest) rl (key_len c') = Ret sa).
  { unfold memcpy. rewrite <- !app_assoc, rd_range_mid by lia. exact Hw. }
  rewrite Hsalt. run_simpl. rewrite Hset. run_simpl.
  assert (Hbody : rd_range ((pk ++ s ++ x) ++ rest) (rl + key_len c') (b_len ct - rl - key_len c') = Ret x).
  { rewrite <- !app_assoc, (app_assoc pk). apply rd_range_mid; rewrite ?len_app; lia. }
  rewrite Hbody. run_simpl.
  pose proof (seal_decrypt d' key 0 m Hkd) as Hdec. rewrite Hcd', Hz in Hdec.
  assert (Hxx : seal c' key (zero_of c') m = x)
    by (unfold x, seal, zero_of; by rewrite Hmt, Htl', Hnl).
  rewrite Hxx in Hdec. rewrite Hdec. run_simpl. cbn [b_data with_len]. rewrite Hp. run_simpl.
  destruct (wr_range_extend [] m p 0) as (p' & Hwp & Hsp & Hlp');
    [apply starts_with_nil|done|alia|].
  rewrite Hwp. run_simpl. destruct (release_total d') as (d2 & ->). run_simpl.
  change (negb (CRYPTO_OK =? 0)) with false. cbv iota. cbn [b_len with_data with_len].
  replace (b_len ct - rl - key_len c' - tag_len c') with (len m) by lia.
  destruct (replace_contents junk ct _ m p' capacity Hct Hcap Hsp) as (q & q' & -> & Hcp & Hh).
  run_simpl. rewrite Hcp. run_simpl. eexists _, _, _. split; [reflexivity|]. split; [exact Hh|].
  unfold buffer_ok. cbn. lia.
Qed.
End udp.
