(* ===== verification/AeadProps.v ===== *)
(** * Properties of the AEAD transport (aead.c, crypto.c)

    The theorems on the two ends of a connection, on the nonce discipline, on
    hostile input and on key derivation, each with an evaluated instance over the
    interface [CryptoToy.toy]. *)
From stdpp Require Import strings.
From S2P Require Import Prelude Crypto CryptoSpec CryptoToy Aead AeadSpec AeadStream AeadSafety AeadUdp.

Section ends.
Context `{L : CryptoLaws} (junk : nat -> Z).

(** A client and a server configured for each other: one method, and the
    server's key pair, drawn from [seed'], whose public half the client knows;
    the key exchange of the client's key pair, drawn from [seed], succeeds. *)
Record configured (c cs : cipher_t) (seed seed' : bytes) (rx tx : bytes) : Prop := {
  cf_client : cipher_ok c;
  cf_server : cipher_ok cs;
  cf_method : method c = method cs;
  cf_pk : c_pk c = fst (crypto_kx_keypair seed');
  cf_spk : c_pk cs = fst (crypto_kx_keypair seed');
  cf_ssk : c_sk cs = snd (crypto_kx_keypair seed');
  cf_kx : crypto_kx_client_session_keys (fst (crypto_kx_keypair seed)) (snd (crypto_kx_keypair seed))
            (c_pk c) = Some (rx, tx)
}.

Lemma new_server_ok c cs seed seed' rx tx saltbytes :
  configured c cs seed seed' rx tx -> salt_source saltbytes ->
  exists e d, new_server_ctxs c seed saltbytes = Ret (e, d) /\
    ctx_ok e /\ init e = 0 /\ is_local e = 1 /\ cipher e = c /\
    kx_pk (kx e) = fst (crypto_kx_keypair seed) /\ kx_tx (kx e) = tx /\
    ctx_ok d /\ init d = 0 /\ is_local d = 1 /\ cipher d = c /\ chunk d = None /\ kx_rx (kx d) = rx.
Proof.
  intros [Hc _ _ Hpk _ _ Hkx] Hs. unfold new_server_ctxs, crypto_kx_ctx_init, crypto_kx_PUBLICKEYBYTES.
  pose proof (kx_keypair_len seed') as [Hlpk _]. rewrite <- Hpk in Hlpk.
  rewrite rd_range_front, ztake_all by lia. run_simpl.
  change (negb (1 =? 0)) with true. cbv iota.
  destruct (crypto_kx_keypair seed) as [pk sk] eqn:Hkp. cbn [fst snd kx_pk kx_sk] in *. rewrite Hkx.
  run_simpl. set (k := KxCtx _ _ _ _ _ _ _).
  pose proof (kx_client_len _ _ _ _ _ Hkx) as [Hlr Hlt].
  pose proof (kx_keypair_len seed) as [Hlp _]. rewrite Hkp in Hlp.
  assert (Hk : kx_ok k) by done.
  destruct (ctx_init_ok c (Some k) 1 saltbytes Hc Hk Hs) as (e & -> & He & Hei & _ & Hec & _ & Hek & _).
  destruct (ctx_init_ok c (Some k) 0 saltbytes Hc Hk Hs) as (d & -> & Hd & Hdi & _ & Hdc & Hdch & Hdk & _).
  run_simpl. eexists _, _. split; [reflexivity|].
  unfold ctx_ok in *. cbn [init is_local evp cipher chunk kx salt s_rx s_tx nonce set_local].
  rewrite Hek, Hdk. split_and!; try done; try apply He; try apply Hd.
Qed.

Lemma configured_crossed c cs seed seed' rx tx : configured c cs seed seed' rx tx ->
  crypto_kx_server_session_keys (c_pk cs) (c_sk cs) (fst (crypto_kx_keypair seed)) = Some (tx, rx) /\
  len rx = 32 /\ len tx = 32 /\ len (c_pk cs) = 32.
Proof.
  intros [_ _ _ Hpk Hspk Hssk Hkx]. rewrite Hspk, Hssk. rewrite Hpk in Hkx.
  split; [by apply kx_agree|]. pose proof (kx_client_len _ _ _ _ _ Hkx). pose proof (kx_keypair_len seed').
  tauto.
Qed.
(** A new connection's sending context and the server's receiving one. *)
Lemma client_to_server_ends c cs seed seed' rx tx saltbytes saltbytes' :
  configured c cs seed seed' rx tx -> salt_source saltbytes -> salt_source saltbytes' ->
  exists e d sd, new_server_ctxs c seed saltbytes = Ret (e, d) /\ aead_ctx_init cs None 0 saltbytes' = Ret sd /\
    ctx_ok e /\ init e = 0 /\ cipher e = c /\ ctx_ok sd /\ init sd = 0 /\ chunk sd = None /\ cipher sd = cs /\
    (ctx_ok d /\ init d = 0 /\ is_local d = 1 /\ chunk d = None) /\ peer sd (preamble e) (session_key 1 e).
Proof.
  intros Hcf Hs Hs'. pose proof Hcf as [Hc Hcs Hm _ _ _ _].
  destruct (suite_sizes _ _ Hc Hcs Hm) as (_ & Hkl & _).
  destruct (new_server_ok _ _ _ _ _ _ saltbytes Hcf Hs)
    as (e & d & Hn & He & Hei & Hel & Hec & Hepk & Hetx & Hd & Hdi & Hdl & _ & Hdch & _).
  destruct (configured_crossed _ _ _ _ _ _ Hcf) as (Hkx & Hlr & Hlt & Hlp).
  destruct (ctx_init_ok cs None 0 saltbytes' Hcs kx_zero_ok Hs') as (sd & Hi & Hsd & Hsi & Hsl & Hsc & Hsch & _).
  exists e, d, sd. split_and!; try done.
  right. rewrite Hsc. split; [done|]. split; [done|].
  pose proof (key_len_bounds _ Hc) as [Hb _]. assert (len (salt e) = 64) by apply He.
  exists (kx_pk (kx e)), (ztake (key_len (cipher e)) (salt e)), tx, rx.
  unfold preamble, session_key, kx_of. rewrite Hel, Hepk, Hetx, Hec. split_and!; try done.
  - by apply kx_keypair_len.
  - rewrite len_ztake; lia.
  - unfold derive. by rewrite Hkl.
Qed.
(** The server's sending context and the connection's receiving one. *)
Lemma server_to_client_ends c cs seed seed' rx tx k saltbytes saltbytes' :
  configured c cs seed seed' rx tx -> kx_ok k -> kx_tx k = rx -> salt_source saltbytes -> salt_source saltbytes' ->
  exists e d se, new_server_ctxs c seed saltbytes = Ret (e, d) /\ aead_ctx_init cs (Some k) 1 saltbytes' = Ret se /\
    ctx_ok e /\ init e = 0 /\ ctx_ok se /\ init se = 0 /\ cipher se = cs /\
    ctx_ok d /\ init d = 0 /\ chunk d = None /\ cipher d = c /\ is_local d = 1 /\ peer d (preamble se) (session_key 1 se).
Proof.
  intros Hcf Hk Hrx Hs Hs'. pose proof Hcf as [Hc Hcs Hm _ _ _ _].
  destruct (suite_sizes _ _ Hc Hcs Hm) as (_ & Hkl & _).
  destruct (new_server_ok _ _ _ _ _ _ saltbytes Hcf Hs)
    as (e & d & Hn & He & Hei & _ & _ & _ & _ & Hd & Hdi & Hdl & Hdc & Hdch & Hdr).
  destruct (ctx_init_ok cs (Some k) 1 saltbytes' Hcs Hk Hs')
    as (se & Hi & Hse & Hsi & Hsl & Hsc & _ & Hsk & _).
  exists e, d, se. split_and!; try done.
  left. pose proof (key_len_bounds _ Hcs) as [Hb _]. assert (len (salt se) = 64) by apply Hse.
  unfold preamble, session_key, kx_of. rewrite Hdl, Hsl, Hsc, Hsk, Hdc, Hdr.
  change (negb (0 =? 0)) with false. cbv iota. cbn [app]. split; [done|]. split.
  - rewrite len_ztake; lia.
  - unfold derive. cbn [default from_option]. unfold id. by rewrite <- Hkl, <- Hrx.
Qed.
End ends.


(** C18: client to server.  The local proxy opens a connection ([new_server]), a
    server initialises its receiving context, the client sends any non-empty list
    of messages of at most 0x3FFF bytes with any padding randomness: every
    [aead_encrypt] succeeds, and however the network cuts the bytes into
    segments, the [aead_decrypt] calls succeed and together deliver exactly the
    messages, in order. *)
Theorem tcp_client_to_server `{L : CryptoLaws} junk c cs seed seed' rx tx saltbytes saltbytes'
    ems tmp tmp' capacity rseed :
  configured c cs seed seed' rx tx -> salt_source saltbytes -> salt_source saltbytes' ->
  ems_ok ems -> ems <> [] -> buffer_ok tmp -> buffer_ok tmp' -> 0 < capacity ->
  exists e d sd wire e',
    new_server_ctxs c seed saltbytes = Ret (e, d) /\
    aead_ctx_init cs None 0 saltbytes' = Ret sd /\
    send_stream junk tmp e capacity ems = Ret (CRYPTO_OK, wire, e') /\
    forall segs, concat segs = wire -> exists sd',
      recv_stream junk tmp' sd capacity rseed segs = Ret (CRYPTO_OK, plain ems, sd').
Proof.
  intros Hcf Hs Hs' Hems Hne Ht Ht' Hcap. pose proof (cf_method _ _ _ _ _ _ Hcf).
  destruct (client_to_server_ends _ _ _ _ _ _ _ _ Hcf Hs Hs') as (e & d & sd & Hn & Hi & He & Hei & Hec & Hsd & Hsi & Hsch & Hsc & _ & Hp).
  destruct (stream_roundtrip junk e sd ems tmp tmp' capacity rseed) as (wire & e' & Hsend & Hrecv); try done; [by rewrite Hec, Hsc|].
  exists e, d, sd, wire, e'. by split_and!.
Qed.

(** C19: server to client.  A sending context of the server that holds the session
    keys of the exchange, and the receiving context of the client's connection,
    carry every list of messages, whatever the segmentation. *)
Theorem tcp_server_to_client `{L : CryptoLaws} junk c cs seed seed' rx tx k saltbytes saltbytes'
    ems tmp tmp' capacity rseed :
  configured c cs seed seed' rx tx -> kx_ok k -> kx_tx k = rx ->
  salt_source saltbytes -> salt_source saltbytes' ->
  ems_ok ems -> ems <> [] -> buffer_ok tmp -> buffer_ok tmp' -> 0 < capacity ->
  exists e d se wire se',
    new_server_ctxs c seed saltbytes = Ret (e, d) /\
    aead_ctx_init cs (Some k) 1 saltbytes' = Ret se /\
    send_stream junk tmp se capacity ems = Ret (CRYPTO_OK, wire, se') /\
    forall segs, concat segs = wire -> exists d',
      recv_stream junk tmp' d capacity rseed segs = Ret (CRYPTO_OK, plain ems, d').
Proof.
  intros Hcf Hk Hrx Hs Hs' Hems Hne Ht Ht' Hcap. pose proof (cf_method _ _ _ _ _ _ Hcf).
  destruct (server_to_client_ends _ _ _ _ _ _ _ _ _ Hcf Hk Hrx Hs Hs') as (e & d & se & Hn & Hi & _ & _ & He & Hei & Hec & Hd & Hdi & Hdch & Hdc & _ & Hp).
  destruct (stream_roundtrip junk se d ems tmp tmp' capacity rseed) as (wire & se' & Hsend & Hrecv); try done; [by rewrite Hec, Hdc|].
  exists e, d, se, wire, se'. by split_and!.
Qed.

(** A connection that has not seen any input can be driven by any input. *)
Lemma live_initial `{L : CryptoLaws} d l :
  ctx_ok d -> init d = 0 -> chunk d = None -> len (c_pk (cipher d)) = 32 -> live (set_local l d).
Proof.
  intros Hok Hi Hch Hp. unfold live. cbn. rewrite Hch. split; [done|]. left. by split_and!.
Qed.

Lemma recv_stream_any `{L : CryptoLaws} junk segs : forall tmp d capacity seed,
  live d -> buffer_ok tmp -> 0 < capacity ->
  exists code out d', recv_stream junk tmp d capacity seed segs = Ret (code, out, d') /\
    (code = CRYPTO_OK \/ code = CRYPTO_ERROR) /\ live d'.
Proof.
  induction segs as [|x segs IH]; intros tmp d capacity seed Hl Ht Hc.
  { exists CRYPTO_OK, [], d. auto. }
  cbn [recv_stream].
  destruct (aead_decrypt_any junk d (buffer_of x) x tmp capacity seed Hl (holds_buffer_of x)
              (ltac:(by eexists)) Ht Hc)
    as (code & ct & tmp' & d1 & -> & Hcode & Hl1 & Hct & Ht' & _). run_simpl.
  destruct (Z.eqb_spec code CRYPTO_ERROR) as [->|Hne].
  { eexists _, _, _. split; [reflexivity|]. auto. }
  destruct (IH tmp' d1 capacity seed Hl1 Ht' Hc) as (code' & out & d' & -> & Hcode' & Hl'). run_simpl.
  eexists _, _, _. split; [reflexivity|]. auto.
Qed.

(** C20: hostile input.  A receiving context of either side ([l] is its [is_local]
    flag), fed any bytes in any segmentation - truncated, corrupted or invented -
    never reads or writes outside a buffer, never fails an assertion and never
    exits: the calls return until the first [CRYPTO_ERROR] or the end. *)
Theorem aead_decrypt_hostile_input `{L : CryptoLaws} junk c k l saltbytes tmp capacity seed :
  cipher_ok c -> len (c_pk c) = 32 -> kx_ok (default kx_zero k) -> salt_source saltbytes ->
  buffer_ok tmp -> 0 < capacity ->
  exists d, aead_ctx_init c k 0 saltbytes = Ret d /\
    forall segs, exists code out d',
      recv_stream junk tmp (set_local l d) capacity seed segs = Ret (code, out, d') /\
      (code = CRYPTO_OK \/ code = CRYPTO_ERROR).
Proof.
  intros Hc Hp Hk Hs Ht Hcap.
  destruct (ctx_init_ok c k 0 saltbytes Hc Hk Hs) as (d & Hd & Hok & Hi & _ & Hdc & Hch & _).
  exists d. split; [done|]. intros segs.
  destruct (recv_stream_any junk segs tmp (set_local l d) capacity seed) as (code & out & d' & Hr & Hcode & _);
    [by apply live_initial; rewrite ?Hdc|done|done|].
  by exists code, out, d'.
Qed.

Lemma len_nonce_after ems : forall n, len (nonce_after n ems) = len n.
Proof.
  induction ems as [|[e m] ems IH]; intros n; [done|]. cbn [nonce_after].
  rewrite IH. unfold incr. by rewrite !len_increment.
Qed.
Lemma nonce_after_value ems : forall n, bytes_ok n ->
  of_le (nonce_after n ems) = (of_le n + 2 * len ems) mod 256 ^ len n.
Proof.
  induction ems as [|em ems IH]; intros n Hn.
  { cbn [nonce_after]. change (len (@nil (entropy * bytes))) with 0.
    rewrite Z.add_0_r. symmetry. apply Z.mod_small. by apply of_le_bound. }
  cbn [nonce_after]. unfold incr at 1 2. rewrite IH by apply bytes_ok_increment.
  rewrite !len_increment, !increment_value, !len_increment, len_cons.
  pose proof (len_nonneg n). pose proof (Z.pow_pos_nonneg 256 (len n)).
  rewrite Zplus_mod_idemp_r, Zplus_mod_idemp_l. f_equal. lia.
Qed.
Lemma of_le_zero n : of_le (zrep n 0) = 0.
Proof. unfold zrep. induction (Z.to_nat n) as [|k IH]; [done|]. cbn [replicate of_le]. lia. Qed.
Lemma bytes_ok_zero n : bytes_ok (zrep n 0).
Proof. apply Forall_replicate. by split. Qed.

(** The chunks of messages, each sealed with the next two of the nonces [ns]. *)
Fixpoint sealed_with `{CryptoPrims} (c : cipher_t) (key : bytes) (ns : list bytes) (ems : list (entropy * bytes)) : bytes :=
  match ems, ns with
  | (e, m) :: ems, n1 :: n2 :: ns =>
      seal c key n1 (header e (len m)) ++ padding e (len m) ++ seal c key n2 m ++ sealed_with c key ns ems
  | _, _ => []
  end.
Fixpoint nonces_from (n : bytes) (k : nat) : list bytes :=
  match k with O => [] | S k => n :: nonces_from (incr n) k end.
Lemma frames_sealed_with `{CryptoPrims} c key ems : forall n, frames c key n ems = sealed_with c key (nonces_from n (2 * length ems)) ems.
Proof.
  induction ems as [|[e m] ems IH]; intros n; [done|]. cbn [length]. replace (2 * S (length ems))%nat with (S (S (2 * length ems))) by lia.
  cbn [nonces_from sealed_with frames]. unfold frame. by rewrite IH, <- !app_assoc.
Qed.
Lemma nonces_from_values k : forall n, bytes_ok n -> of_le n + Z.of_nat k <= 256 ^ len n ->
  of_le <$> nonces_from n k = seqZ (of_le n) (Z.of_nat k) /\ Forall (fun x => len x = len n) (nonces_from n k).
Proof.
  induction k as [|k IH]; intros n Hn Hk; [split; [done|constructor]|]. pose proof (of_le_bound n Hn) as Hb.
  rewrite seqZ_cons by lia. cbn [nonces_from fmap list_fmap]. fold (of_le <$> nonces_from (incr n) k).
  replace (Z.pred (Z.of_nat (S k))) with (Z.of_nat k) by lia. destruct k as [|k]; [by repeat constructor|].
  assert (Hv : of_le (incr n) = Z.succ (of_le n)) by (unfold incr; rewrite increment_value, Z.mod_small by lia; lia).
  destruct (IH (incr n)) as [Hs Hl]; [apply bytes_ok_increment|unfold incr at 2; rewrite len_increment; lia|].
  split; [by rewrite Hs, Hv|]. constructor; [done|]. by replace (len (incr n)) with (len n) in Hl by (symmetry; apply len_increment).
Qed.

(** C23: no nonce is used twice.  What a connection sends is its preamble, then for
    every message the sealed length and the sealed payload; the nonces of these
    seals are the little-endian encodings of 0, 1, 2, ..., so while fewer than 2^95
    messages are sent no two of the seals made under the session's key use
    the same nonce.  The next nonce is twice the number of messages. *)
Theorem nonce_is_a_counter `{L : CryptoLaws} junk e ems wire e' tmp capacity :
  ctx_ok e -> init e = 0 -> ems_ok ems -> ems <> [] -> 2 * len ems < 256 ^ 12 ->
  buffer_ok tmp -> 0 < capacity ->
  send_stream junk tmp e capacity ems = Ret (CRYPTO_OK, wire, e') ->
  (exists ns, wire = preamble e ++ sealed_with (cipher e) (session_key 1 e) ns ems /\
     of_le <$> ns = seqZ 0 (2 * len ems) /\ Forall (fun n => len n = nonce_len (cipher e)) ns /\ NoDup ns) /\
  of_le (cur_nonce e') = 2 * len ems /\ len (cur_nonce e') = nonce_len (cipher e).
Proof.
  intros He Hi Hems Hne Hlt Ht Hc Hsend. pose proof (key_len_bounds _ (proj1 He)) as [_ Hnl].
  destruct (send_stream_spec junk ems Hems e (session_key 1 e) (zero_of (cipher e)) tmp capacity)
    as (e'' & Hs & (Hok' & Hst) & Hcc); [split; [done|by left]|done|done|].
  rewrite Hs in Hsend. injection Hsend as <- <-.
  assert (Hlz : len (zero_of (cipher e)) = nonce_len (cipher e)) by (apply len_zrep; lia).
  pose proof (len_nonneg ems). pose proof (Z.pow_le_mono_r 256 12 (nonce_len (cipher e))).
  split.
  - rewrite Hi, frames_sealed_with. change (0 =? 0) with true. replace (length ems =? 0)%nat with false by (by destruct ems).
    destruct (nonces_from_values (2 * length ems) (zero_of (cipher e))) as [Hv Hl].
    { apply bytes_ok_zero. }
    { rewrite Hlz. unfold zero_of. rewrite of_le_zero. unfold len in *. lia. }
    assert (Hv' : of_le <$> nonces_from (zero_of (cipher e)) (2 * length ems) = seqZ 0 (2 * len ems)).
    { rewrite Hv. unfold zero_of. rewrite of_le_zero. f_equal. unfold len. lia. }
    eexists. split; [done|]. split; [exact Hv'|]. split.
    + by rewrite Hlz in Hl.
    + apply (NoDup_fmap_1 of_le). rewrite Hv'. apply NoDup_seqZ.
  - assert (Hv : of_le (nonce_after (zero_of (cipher e)) ems) = 2 * len ems).
    { rewrite nonce_after_value, Hlz by apply bytes_ok_zero. unfold zero_of. rewrite of_le_zero.
      apply Z.mod_small. lia. }
    destruct Hst as [(_ & _ & Hz)|(_ & _ & Hz)].
    + exfalso. rewrite Hz in Hv. unfold zero_of in Hv. rewrite of_le_zero in Hv.
      destruct ems; [done|]. rewrite len_cons in Hv. pose proof (len_nonneg ems). lia.
    + rewrite <- Hz. by rewrite len_nonce_after.
Qed.

(** C24: HKDF.  [crypto_hkdf] computes the HKDF of RFC 5869: for at most 255
    blocks it succeeds and writes the first [okm_len] bytes of T(1) | T(2) | ...;
    for more, as long as their number is an [int], it fails and leaves the output
    alone.  At 2^32 blocks the number is 0 as an [int]: the call succeeds and
    writes nothing. *)
Theorem crypto_hkdf_rfc5869 md salt ikm info okm okm_len :
  digest_ok md -> 0 < okm_len <= len okm ->
  (okm_len <= 255 * md_get_size md -> exists okm',
     crypto_hkdf md salt ikm (Some info) okm okm_len = Ret (0, okm') /\ len okm' = len okm /\
     ztake okm_len okm' = hkdf_spec md salt ikm info okm_len) /\
  (255 * md_get_size md < okm_len <= 2147483647 * md_get_size md ->
     crypto_hkdf md salt ikm (Some info) okm okm_len = Ret (1, okm)) /\
  (okm_len = 4294967296 * md_get_size md -> crypto_hkdf md salt ikm (Some info) okm okm_len = Ret (0, okm)).
Proof.
  intros Hd Hl. pose proof Hd as (Hpos & Hset & Hmac).
  assert (He : exists prk, len prk = md_get_size md /\
    crypto_hkdf_extract md salt ikm = (0, prk)).
  { unfold crypto_hkdf_extract.
    destruct (Hmac (match salt with Some s => s | None => zrep (md_get_size md) 0 end) ikm) as (prk & -> & Hlp). by exists prk. }
  destruct He as (prk & Hlp & He). split_and!; intros H.
  - destruct (crypto_hkdf_ok md salt ikm info okm okm_len Hd) as (okm' & ? & ? & ? & _); [lia|lia|].
    by exists okm'.
  - unfold crypto_hkdf. rewrite He. cbn [negb Z.eqb]. unfold crypto_hkdf_expand.
    rewrite ztake_all by lia. rewrite (proj2 (Z.ltb_ge (len prk) _)) by lia. rewrite hkdf_N_int by lia.
    pose proof (hkdf_N_bounds md okm_len Hd). rewrite (proj2 (Z.ltb_lt 255 _)) by nia. done.
  - unfold crypto_hkdf. rewrite He. cbn [negb Z.eqb]. unfold crypto_hkdf_expand.
    rewrite ztake_all by lia. rewrite (proj2 (Z.ltb_ge (len prk) _)) by lia. cbv zeta.
    rewrite H, Z.div_mul, Z.mod_mul, Hset by lia. done.
Qed.

(** C25: UDP.  [aead_decrypt_all] inverts [aead_encrypt_all]: a non-empty packet
    sealed under one end's key exchange state is accepted by the other end, with
    the public key in front of it (first packet) or without. *)
Theorem udp_roundtrip `{L : CryptoLaws} junk c c' k k' m tmp tmp' capacity saltbytes saltbytes' seed :
  cipher_ok c -> cipher_ok c' -> method c = method c' -> kx_ok k -> kx_ok k' -> agrees k k' c' ->
  m <> [] -> salt_source saltbytes -> salt_source saltbytes' ->
  buffer_ok tmp -> buffer_ok tmp' -> 0 < capacity ->
  exists pt tmp1 k1 ct tmp2 k2,
    aead_encrypt_all junk (buffer_of m) tmp c k capacity saltbytes = Ret (CRYPTO_OK, pt, tmp1, k1) /\
    pk_sent k1 <> 0 /\
    aead_decrypt_all junk (buffer_of (contents pt)) tmp' c' k' capacity saltbytes' seed
    = Ret (CRYPTO_OK, ct, tmp2, k2) /\ contents ct = m.
Proof.
  intros Hc Hc' Hm Hk Hk' Hag Hne Hs Hs' Ht Ht' Hcap.
  destruct (encrypt_all_spec junk (buffer_of m) m tmp c k capacity saltbytes)
    as (pt & tmp1 & k1 & Henc & Hpt & Hk1); [apply holds_buffer_of|by eexists|done..|].
  destruct (decrypt_all_spec junk (buffer_of (packet c k (saltbytes (key_len c)) m)) m tmp' c c' k k'
              capacity saltbytes saltbytes' seed)
    as (ct & tmp2 & k2 & Hdec & Hct & _); [apply holds_buffer_of|by eexists|done..|].
  exists pt, tmp1, k1, ct, tmp2, k2. rewrite (contents_holds _ _ Hpt). split; [done|]. split; [|split; [done|by apply contents_holds]].
  rewrite Hk1. destruct (Z.eqb_spec (pk_sent k) 0); done.
Qed.


(** Choosing a cipher.  With a crypto library that has all ciphers,
    [aead_init] yields, for every method name, the default included, a cipher
    with the nonce, key and tag sizes of its row of the tables, and the keys it
    was given. *)
Theorem aead_init_cipher_ok has pk sk (name : option String.string) :
  (forall m, has m = true) -> len pk = 32 -> len sk = 32 ->
  exists c, aead_init has (Some pk) (Some sk) name = Ret (Some c) /\ cipher_ok c /\
    c_pk c = pk /\ c_sk c = sk /\
    supported_aead_ciphers !! Z.to_nat (method c)
    = Some (match name with
            | None => "aes-128-gcm"
            | Some n => if bool_decide (n ∈ supported_aead_ciphers) then n else "aes-256-gcm"
            end)%string.
Proof.
  intros Hhas Hp Hs.
  assert (Hkey : forall i : nat, (i < 5)%nat -> exists c,
            aead_key_init has (Z.of_nat i) (Some pk) (Some sk) = Ret (Some c) /\ cipher_ok c /\
            c_pk c = pk /\ c_sk c = sk /\ method c = Z.of_nat i).
  { intros i Hi. unfold aead_key_init, aead_get_cipher_type, crypto_kx_PUBLICKEYBYTES, crypto_kx_SECRETKEYBYTES.
    rewrite Hhas, !rd_range_front, !ztake_all by lia.
    do 5 (destruct i as [|i]; [eexists; split; [reflexivity|]; split; [eexists; split; [reflexivity|]; done|done]|]).
    lia. }
  assert (Hgo : forall i : nat, (i < 5)%nat -> forall s, supported_aead_ciphers !! i = Some s ->
            exists c, aead_key_init has (Z.of_nat i) (Some pk) (Some sk) = Ret (Some c) /\ cipher_ok c /\
            c_pk c = pk /\ c_sk c = sk /\ supported_aead_ciphers !! Z.to_nat (method c) = Some s).
    { intros i Hi s Hl. destruct (Hkey i Hi) as (c & ? & ? & ? & ? & Hm). exists c. by rewrite Hm, Nat2Z.id. }
  unfold aead_init. destruct name as [n|]; [|by apply (Hgo 0%nat); [lia|]].
  unfold supported_aead_ciphers, AES128GCM, AEAD_CIPHER_NUM, AES256GCM in *. cbn [aead_find].
  repeat match goal with |- context [String.eqb n ?s] => destruct (String.eqb_spec n s) as [->|] end;
    [by apply (Hgo 0%nat); [lia|]|by apply (Hgo 1%nat); [lia|]|by apply (Hgo 2%nat); [lia|]
    |by apply (Hgo 3%nat); [lia|]|by apply (Hgo 4%nat); [lia|]|].
  rewrite bool_decide_false; [by apply (Hgo 2%nat); [lia|]|].
  rewrite !elem_of_cons, elem_of_nil. tauto.
Qed.

(** ** Evaluated instances *)

Definition toy_seed : bytes := [1; 2; 3].
Definition toy_client : cipher_t := Cipher 3 12 32 16 (pad32 [9; 8; 7]) (zrep 32 0).
Definition toy_server : cipher_t := Cipher 3 12 32 16 (pad32 [9; 8; 7]) (pad32 [9; 8; 7]).
Definition toy_salt (n : Z) : bytes := zrep n 170.
Definition toy_entropy : entropy := Entropy 5 (fun n => zrep n 7).
Definition toy_ems : list (entropy * bytes) := [(toy_entropy, [104; 105]); (toy_entropy, [33])].
Definition toy_junk (n : nat) : Z := Z.of_nat n.
(** The server's key exchange state once it has the client's key. *)
Definition toy_kx : kx_ctx :=
  KxCtx 1 1 (c_pk toy_server) (c_sk toy_server) (pad32 toy_seed)
    (toy_shared (pad32 [9; 8; 7]) (pad32 toy_seed)) (toy_rx (pad32 [9; 8; 7]) (pad32 toy_seed)).
(** The client's, before its first packet. *)
Definition toy_ckx : kx_ctx :=
  KxCtx 0 1 (pad32 toy_seed) (pad32 toy_seed) (c_pk toy_client)
    (toy_rx (pad32 toy_seed) (pad32 [9; 8; 7])) (toy_shared (pad32 toy_seed) (pad32 [9; 8; 7])).
Definition toy_ctx : cipher_ctx := set_kx toy_kx (ctx_zero toy_server).

Lemma toy_cipher_ok c : method c = 3 -> nonce_len c = 12 -> key_len c = 32 -> tag_len c = 16 -> cipher_ok c.
Proof. intros ? ? ? ?. exists 3%nat. cbn. by split_and!; try congruence. Qed.
Lemma toy_configured : configured toy_client toy_server toy_seed [9; 8; 7]
  (toy_rx (pad32 toy_seed) (pad32 [9; 8; 7])) (toy_shared (pad32 toy_seed) (pad32 [9; 8; 7])).
Proof. split; try (apply toy_cipher_ok); reflexivity. Qed.
Lemma toy_salt_ok : salt_source toy_salt.
Proof. intros n Hn. by apply len_zrep. Qed.
Lemma toy_ems_ok : ems_ok toy_ems.
Proof.
  repeat constructor; cbn; try done; intros; by apply len_zrep.
Qed.

Lemma tcp_client_to_server_witness :
  exists e d sd wire e',
    new_server_ctxs toy_client toy_seed toy_salt = Ret (e, d) /\
    aead_ctx_init toy_server None 0 toy_salt = Ret sd /\
    send_stream toy_junk buffer_zero e 2048 toy_ems = Ret (CRYPTO_OK, wire, e') /\
    forall segs, concat segs = wire -> exists sd',
      recv_stream toy_junk buffer_zero sd 2048 [] segs = Ret (CRYPTO_OK, [104; 105; 33], sd').
Proof.
  apply (tcp_client_to_server toy_junk toy_client toy_server toy_seed [9; 8; 7] _ _ toy_salt toy_salt
           toy_ems buffer_zero buffer_zero 2048 [] toy_configured toy_salt_ok toy_salt_ok toy_ems_ok);
    done.
Defined.

Lemma tcp_server_to_client_witness :
  exists e d se wire se',
    new_server_ctxs toy_client toy_seed toy_salt = Ret (e, d) /\
    aead_ctx_init toy_server (Some toy_kx) 1 toy_salt = Ret se /\
    send_stream toy_junk buffer_zero se 2048 toy_ems = Ret (CRYPTO_OK, wire, se') /\
    forall segs, concat segs = wire -> exists d',
      recv_stream toy_junk buffer_zero d 2048 [] segs = Ret (CRYPTO_OK, [104; 105; 33], d').
Proof.
  apply (tcp_server_to_client toy_junk toy_client toy_server toy_seed [9; 8; 7] _ _ toy_kx toy_salt toy_salt
           toy_ems buffer_zero buffer_zero 2048 [] toy_configured); try done.
  - apply toy_salt_ok.
  - apply toy_salt_ok.
  - apply toy_ems_ok.
Defined.

Lemma aead_decrypt_hostile_input_witness :
  exists d, aead_ctx_init toy_server None 0 toy_salt = Ret d /\
    forall segs, exists code out d',
      recv_stream toy_junk buffer_zero (set_local 0 d) 2048 [] segs = Ret (code, out, d') /\
      (code = CRYPTO_OK \/ code = CRYPTO_ERROR).
Proof.
  apply (aead_decrypt_hostile_input toy_junk toy_server None 0 toy_salt buffer_zero 2048 []); try done.
  - by apply toy_cipher_ok.
  - apply toy_salt_ok.
Defined.

Lemma nonce_is_a_counter_witness :
  exists wire e', send_stream toy_junk buffer_zero toy_ctx 2048 toy_ems = Ret (CRYPTO_OK, wire, e') /\
    (exists ns, wire = preamble toy_ctx ++ sealed_with (cipher toy_ctx) (session_key 1 toy_ctx) ns toy_ems /\
       of_le <$> ns = [0; 1; 2; 3] /\ Forall (fun n => len n = 12) ns /\ NoDup ns) /\
    of_le (cur_nonce e') = 4 /\ len (cur_nonce e') = 12.
Proof.
  assert (Hok : ctx_ok toy_ctx) by (unfold ctx_ok; by split_and!; [apply toy_cipher_ok|..]).
  destruct (send_stream_spec toy_junk toy_ems toy_ems_ok toy_ctx (session_key 1 toy_ctx)
    (zero_of toy_server) buffer_zero 2048) as (e' & Hs & _); [split; [done|by left]|done|done|].
  assert (Hne : toy_ems <> []) by discriminate.
  assert (Hlt : 2 * len toy_ems < 256 ^ 12) by reflexivity.
  assert (Hb : buffer_ok buffer_zero) by (split; reflexivity).
  pose proof (nonce_is_a_counter toy_junk toy_ctx toy_ems _ e' buffer_zero 2048 Hok eq_refl toy_ems_ok
    Hne Hlt Hb eq_refl Hs) as Hn.
  eexists _, e'. split; [exact Hs|exact Hn].
Defined.

Lemma crypto_hkdf_rfc5869_witness :
  exists okm', crypto_hkdf (Digest 20 0 toy_hmac) (Some [1]) [2] (Some SUBKEY_INFO) (zrep 64 0) 50 = Ret (0, okm') /\
    len okm' = 64 /\
    ztake 50 okm' = hkdf_spec (Digest 20 0 toy_hmac) (Some [1]) [2] SUBKEY_INFO 50.
Proof.
  apply (crypto_hkdf_rfc5869 (Digest 20 0 toy_hmac) (Some [1]) [2] SUBKEY_INFO (zrep 64 0) 50); [|done|done].
  do 2 (split; [done|]). intros k m. eexists. split; [reflexivity|].
  cbn. rewrite len_ztake; [done|]. rewrite !len_app, len_zrep; alia.
Defined.

Lemma udp_roundtrip_witness :
  exists pt tmp1 k1 ct tmp2 k2,
    aead_encrypt_all toy_junk (buffer_of [1; 2]) buffer_zero toy_client toy_ckx 2048 toy_salt
    = Ret (CRYPTO_OK, pt, tmp1, k1) /\
    pk_sent k1 <> 0 /\
    aead_decrypt_all toy_junk (buffer_of (contents pt)) buffer_zero toy_server
      (kx_set_rpk_received 0 toy_kx) 2048 toy_salt [] = Ret (CRYPTO_OK, ct, tmp2, k2) /\ contents ct = [1; 2].
Proof.
  apply (udp_roundtrip toy_junk toy_client toy_server toy_ckx (kx_set_rpk_received 0 toy_kx) [1; 2]
           buffer_zero buffer_zero 2048 toy_salt toy_salt []); try done; try apply toy_salt_ok;
    try by apply toy_cipher_ok.
  right. split; [done|]. split; [done|]. eexists. reflexivity.
Defined.

Lemma aead_init_cipher_ok_witness :
  exists c, aead_init (fun _ => true) (Some (zrep 32 1)) (Some (zrep 32 2)) (Some "xchacha20-ietf-poly1305"%string)
    = Ret (Some c) /\ cipher_ok c /\ c_pk c = zrep 32 1 /\ c_sk c = zrep 32 2 /\
    supported_aead_ciphers !! Z.to_nat (method c) = Some "xchacha20-ietf-poly1305"%string.
Proof.
  apply (aead_init_cipher_ok (fun _ => true) (zrep 32 1) (zrep 32 2) (Some "xchacha20-ietf-poly1305"%string)); done.
Defined.
