(* ===== verification/Base64.v ===== *)
(** * base64.c: the URL-safe base64 of the key exchange configuration

    [base64_encode] and [base64_decode] with their tables, the 32-bit
    accumulators and the output arrays; [rfc4648] is the reference encoding. *)
From S2P Require Import Prelude.

Definition map2 : bytes :=
  [0xff; 0xff; 0x3e; 0xff; 0xff; 0x34; 0x35; 0x36;
   0x37; 0x38; 0x39; 0x3a; 0x3b; 0x3c; 0x3d; 0xff;
   0xff; 0xff; 0xff; 0xff; 0xff; 0xff; 0x00; 0x01;
   0x02; 0x03; 0x04; 0x05; 0x06; 0x07; 0x08; 0x09;
   0x0a; 0x0b; 0x0c; 0x0d; 0x0e; 0x0f; 0x10; 0x11;
   0x12; 0x13; 0x14; 0x15; 0x16; 0x17; 0x18; 0x19;
   0xff; 0xff; 0xff; 0xff; 0x3f; 0xff; 0x1a; 0x1b;
   0x1c; 0x1d; 0x1e; 0x1f; 0x20; 0x21; 0x22; 0x23;
   0x24; 0x25; 0x26; 0x27; 0x28; 0x29; 0x2a; 0x2b;
   0x2c; 0x2d; 0x2e; 0x2f; 0x30; 0x31; 0x32; 0x33].

(** ABCDEFGHIJKLMNOPQRSTUVWXYZabcdefghijklmnopqrstuvwxyz0123456789-_ *)
Definition b64 : bytes :=
  [65; 66; 67; 68; 69; 70; 71; 72; 73; 74; 75; 76; 77; 78; 79; 80; 81; 82; 83; 84; 85; 86; 87; 88; 89; 90;
   97; 98; 99; 100; 101; 102; 103; 104; 105; 106; 107; 108; 109; 110; 111; 112; 113; 114; 115; 116; 117;
   118; 119; 120; 121; 122; 48; 49; 50; 51; 52; 53; 54; 55; 56; 57; 45; 95].

Definition BASE64_SIZE (x : Z) : Z := (x + 2) / 3 * 4 + 1.
Definition UINT_MAX : Z := 4294967295.

(** The loop of [base64_decode]: the result and the output array.  [in_] is the
    rest of the string; [v] is an [int], shifted with wrap-around. *)
Fixpoint base64_decode_loop (in_ : bytes) (i v : Z) (out : bytes) (dst out_size : Z) : run (Z * bytes) :=
  match in_ with
  | [] => Fail OutOfBounds
  | ch :: in_ =>
      if (ch =? 0) || (ch =? 61) then mret (dst, out)
      else
        let index := u32 (s8 ch - 43) in
        if len map2 <=? index then mret (-1, out)
        else
          m ← rd map2 index;
          if m =? 0xff then mret (-1, out)
          else
            let v := s32 (Z.shiftl v 6 + m) in
            if negb (Z.land i 3 =? 0) && (dst <? out_size) then
              out ← wr out dst (u8 (Z.shiftr v (6 - 2 * Z.land i 3)));
              base64_decode_loop in_ (i + 1) v out (dst + 1) out_size
            else base64_decode_loop in_ (i + 1) v out dst out_size
  end.
Definition base64_decode (out in_ : bytes) (out_size : Z) : run (Z * bytes) :=
  base64_decode_loop in_ 0 0 out 0 out_size.

(** The [do ... while] loop: the shift, the output array and the position after
    it.  Running out of fuel is a fault, so results show the fuel is enough. *)
Fixpoint base64_encode_emit (fuel : nat) (i_bits i_shift bytes_remaining : Z) (out : bytes) (dst : Z)
    : run (Z * bytes * Z) :=
  match fuel with
  | O => Fail Exited
  | S fuel =>
      c ← rd b64 (Z.land (Z.shiftr (u32 (Z.shiftl i_bits 6)) i_shift) 0x3f);
      out ← wr out dst c;
      let i_shift := i_shift - 6 in
      if (6 <? i_shift) || ((bytes_remaining =? 0) && (0 <? i_shift))
      then base64_encode_emit fuel i_bits i_shift bytes_remaining out (dst + 1)
      else mret (i_shift, out, dst + 1)
  end.

Fixpoint base64_encode_loop (in_ : bytes) (i_bits i_shift bytes_remaining : Z) (out : bytes) (dst : Z)
    : run (bytes * Z) :=
  if bytes_remaining =? 0 then mret (out, dst)
  else
    match in_ with
    | [] => Fail OutOfBounds
    | b :: in_ =>
        let i_bits := u32 (u32 (Z.shiftl i_bits 8) + b) in
        let bytes_remaining := bytes_remaining - 1 in
        '(i_shift, out, dst) ← base64_encode_emit 3 i_bits (i_shift + 8) bytes_remaining out dst;
        base64_encode_loop in_ i_bits i_shift bytes_remaining out dst
    end.

(** [while ((dst - ret) & 3) *dst++ = '=']. *)
Fixpoint base64_pad (fuel : nat) (out : bytes) (dst : Z) : run (bytes * Z) :=
  if Z.land dst 3 =? 0 then mret (out, dst)
  else
    match fuel with
    | O => Fail Exited
    | S fuel => out ← wr out dst 61; base64_pad fuel out (dst + 1)
    end.

Definition base64_encode (out : bytes) (out_size : Z) (in_ : bytes) (in_size : Z) : run (option bytes) :=
  if (UINT_MAX / 4 <=? u32 in_size) || (out_size <? BASE64_SIZE in_size) then mret None
  else
    '(out, dst) ← base64_encode_loop in_ 0 0 in_size out 0;
    '(out, dst) ← base64_pad 3 out dst;
    out ← wr out dst 0;
    mret (Some out).

(** ** The reference encoding: RFC 4648, section 5, groups of three bytes *)

Definition b64_char (x : Z) : Z := default 0 (b64 !! Z.to_nat x).
Fixpoint sextets (l : bytes) : list Z :=
  match l with
  | [] => []
  | [a] => [a / 4; a mod 4 * 16]
  | [a; b] => [a / 4; a mod 4 * 16 + b / 16; b mod 16 * 4]
  | a :: b :: c :: l => [a / 4; a mod 4 * 16 + b / 16; b mod 16 * 4 + c / 64; c mod 64] ++ sextets l
  end.
Definition b64_padding (l : bytes) : bytes :=
  if len l mod 3 =? 1 then [61; 61] else if len l mod 3 =? 2 then [61] else [].
Definition rfc4648 (l : bytes) : bytes := (b64_char <$> sextets l) ++ b64_padding l.

(** ** Arithmetic of the accumulators *)

Lemma rd_b64 x : 0 <= x < 64 -> rd b64 x = Ret (b64_char x).
Proof.
  intros H. unfold b64_char. destruct (rd_ok b64 x) as (c & -> & ->); [|done].
  change (len b64) with 64. lia.
Qed.

(** The sextet written from the accumulator, and the byte written back. *)
Lemma emit_sextet x s : 0 <= s <= 14 ->
  Z.land (Z.shiftr (u32 (Z.shiftl (u32 x) 6)) s) 0x3f = (x * 64 / 2 ^ s) mod 64.
Proof.
  intros Hs. change 0x3f with (Z.ones 6). rewrite land_ones_mod, shiftr_div, Z.shiftl_mul_pow2 by lia.
  unfold u32. change (2 ^ 6) with 64. rewrite Z.mul_mod_idemp_l by lia.
  assert (Hp : 0 < 2 ^ s) by (apply Z.pow_pos_nonneg; lia).
  assert (Hd : 4294967296 = 2 ^ s * (64 * 2 ^ (26 - s))).
  { change 64 with (2 ^ 6). rewrite <- !Z.pow_add_r by lia. replace (s + (6 + (26 - s))) with 32 by lia. done. }
  assert (Hq : 0 < 2 ^ (26 - s)) by (apply Z.pow_pos_nonneg; lia).
  rewrite Hd, Z.rem_mul_r by lia.
  rewrite (Z.mul_comm (2 ^ s) (_ mod (64 * _))), Z.div_add by lia.
  rewrite (Z.div_small (_ mod 2 ^ s)) by (apply Z.mod_pos_bound; lia).
  rewrite Z.add_0_l, Z.rem_mul_r by lia.
  by rewrite (Z.mul_comm 64 (_ mod 2 ^ (26 - s))), Z.mod_add, Z.mod_mod by lia.
Qed.

(** The low bits of the [int] accumulator of the decoder. *)
Lemma decode_byte x s : 0 <= s <= 4 -> u8 (Z.shiftr (s32 x) s) = (x / 2 ^ s) mod 256.
Proof.
  intros Hs. rewrite shiftr_div by lia. unfold s32, u8.
  assert (Hp : 0 < 2 ^ s) by (apply Z.pow_pos_nonneg; lia).
  assert (Hd : 4294967296 = 2 ^ s * (256 * 2 ^ (24 - s))).
  { change 256 with (2 ^ 8). rewrite <- !Z.pow_add_r by lia. replace (s + (8 + (24 - s))) with 32 by lia. done. }
  rewrite (Z.mod_eq (x + _)) by lia.
  replace (x + 2147483648 - 4294967296 * ((x + 2147483648) / 4294967296) - 2147483648)
    with (x + (- (256 * 2 ^ (24 - s)) * ((x + 2147483648) / 4294967296)) * 2 ^ s)
    by (rewrite Hd; generalize ((x + 2147483648) / (2 ^ s * (256 * 2 ^ (24 - s)))); intros; ring).
  rewrite Z.div_add by lia.
  replace (x / 2 ^ s + - (256 * 2 ^ (24 - s)) * ((x + 2147483648) / 4294967296))
    with (x / 2 ^ s + (- 2 ^ (24 - s) * ((x + 2147483648) / 4294967296)) * 256) by ring.
  by rewrite Z.mod_add by lia.
Qed.

(** ** The encoder *)

(** The sextets one round of the outer loop writes, and the shift after it. *)
Fixpoint emitted (fuel : nat) (x s : Z) (last : bool) : list Z * Z :=
  match fuel with
  | O => ([], s)
  | S fuel =>
      let c := (x * 64 / 2 ^ s) mod 64 in
      if (6 <? s - 6) || (last && (0 <? s - 6))
      then let (cs, s') := emitted fuel x (s - 6) last in (c :: cs, s')
      else ([c], s - 6)
  end.
Fixpoint encoded (l : bytes) (x s : Z) : list Z :=
  match l with
  | [] => []
  | b :: l =>
      let x := x * 256 + b in
      let (cs, s) := emitted 3 x (s + 8) (len l =? 0) in cs ++ encoded l x s
  end.

Lemma wr_snoc (pre out : bytes) x : starts_with pre out -> len pre < len out ->
  exists out', wr out (len pre) x = Ret out' /\ starts_with (pre ++ [x]) out' /\ len out' = len out.
Proof.
  intros Hs Hl. apply wr_range_extend; [done|done|]. change (len [x]) with 1. lia.
Qed.

Lemma len_fmap {A B} (f : A -> B) (l : list A) : len (f <$> l) = len l.
Proof. unfold len. by rewrite length_fmap. Qed.

Lemma emit_spec fuel : forall x s rem pre out,
  1 <= s <= 14 -> s <= 6 * Z.of_nat fuel -> starts_with pre out ->
  len pre + len (fst (emitted fuel x s (rem =? 0))) <= len out ->
  exists out', base64_encode_emit fuel (u32 x) s rem out (len pre)
    = Ret (snd (emitted fuel x s (rem =? 0)), out',
           len (pre ++ (b64_char <$> fst (emitted fuel x s (rem =? 0))))) /\
    starts_with (pre ++ (b64_char <$> fst (emitted fuel x s (rem =? 0)))) out' /\ len out' = len out.
Proof.
  induction fuel as [|fuel IH]; intros x s rem pre out Hs Hf Hpre Hroom; [lia|].
  cbn [base64_encode_emit emitted] in *. rewrite emit_sextet by lia.
  rewrite rd_b64 by (apply Z.mod_pos_bound; lia). run_simpl.
  set (c := (x * 64 / 2 ^ s) mod 64) in *.
  destruct ((6 <? s - 6) || ((rem =? 0) && (0 <? s - 6))) eqn:Hc.
  - destruct (emitted fuel x (s - 6) (rem =? 0)) as [cs s'] eqn:He. cbn [fst snd fmap list_fmap] in *.
    rewrite len_cons in Hroom. pose proof (len_nonneg cs).
    destruct (wr_snoc pre out (b64_char c) Hpre) as (o1 & -> & Hs1 & Hl1); [lia|]. run_simpl.
    assert (1 <= s - 6).
    { apply orb_true_iff in Hc as [?%Z.ltb_lt|[_ ?%Z.ltb_lt]%andb_true_iff]; lia. }
    destruct (IH x (s - 6) rem (pre ++ [b64_char c]) o1) as (out' & Hr & Hs' & Hl');
      [lia|lia|done|rewrite He, len_app; change (len [b64_char c]) with 1; cbn [fst]; lia|].
    rewrite He in Hr, Hs'. cbn [fst snd] in *. rewrite <- app_assoc in Hr, Hs'. cbn [app] in Hr, Hs'.
    exists out'. rewrite len_app in Hr at 1. change (len [b64_char c]) with 1 in Hr.
    rewrite Hr. split; [done|]. split; [done|lia].
  - cbn [fst snd] in *. change (len [c]) with 1 in Hroom.
    destruct (wr_snoc pre out (b64_char c) Hpre) as (o1 & -> & Hs1 & Hl1); [lia|]. run_simpl.
    exists o1. rewrite len_app. done.
Qed.

Lemma emitted_shift x s : 6 <= s <= 14 -> 0 <= snd (emitted 3 x s false) <= 6.
Proof. intros Hs. cbn [emitted andb]. rewrite !orb_false_r. repeat zcase; cbn [snd]; lia. Qed.

Lemma encode_loop_spec l : forall x s pre out,
  0 <= s <= 6 -> starts_with pre out -> len pre + len (encoded l x s) <= len out ->
  exists out', base64_encode_loop l (u32 x) s (len l) out (len pre)
    = Ret (out', len (pre ++ (b64_char <$> encoded l x s))) /\
    starts_with (pre ++ (b64_char <$> encoded l x s)) out' /\ len out' = len out.
Proof.
  induction l as [|b l IH]; intros x s pre out Hs Hpre Hroom.
  { exists out. cbn [base64_encode_loop encoded fmap list_fmap]. rewrite app_nil_r. done. }
  cbn [base64_encode_loop encoded] in *. pose proof (len_nonneg l).
  rewrite len_cons. rewrite (proj2 (Z.eqb_neq (1 + len l) 0)) by lia.
  replace (1 + len l - 1) with (len l) by lia.
  replace (u32 (u32 (Z.shiftl (u32 x) 8) + b)) with (u32 (x * 256 + b)).
  2:{ unfold u32. rewrite Z.shiftl_mul_pow2 by lia. change (2 ^ 8) with 256.
      by rewrite Z.mul_mod_idemp_l, Z.add_mod_idemp_l by lia. }
  destruct (emitted 3 (x * 256 + b) (s + 8) (len l =? 0)) as [cs s'] eqn:He.
  rewrite len_app in Hroom. pose proof (len_nonneg (encoded l (x * 256 + b) s')).
  destruct (emit_spec 3 (x * 256 + b) (s + 8) (len l) pre out) as (o1 & Hr & Hs1 & Hl1);
    [lia|lia|done|rewrite He; cbn [fst]; lia|].
  rewrite He in Hr, Hs1. cbn [fst snd] in Hr, Hs1. rewrite Hr. run_simpl.
  destruct (Z.eqb_spec (len l) 0) as [Hz|Hz].
  - apply len_0_nil in Hz as ->. exists o1. cbn [base64_encode_loop encoded]. rewrite app_nil_r. done.
  - pose proof (emitted_shift (x * 256 + b) (s + 8)) as Hsh. rewrite He in Hsh. cbn [snd] in Hsh.
    destruct (IH (x * 256 + b) s' (pre ++ (b64_char <$> cs)) o1) as (out' & Hr' & Hs' & Hl');
      [lia|done|rewrite len_app, len_fmap; lia|].
    exists out'. rewrite Hr', fmap_app, <- !app_assoc in *. split; [done|]. split; [done|lia].
Qed.

(** Induction by groups of three. *)
Lemma list_ind3 (P : bytes -> Prop) :
  P [] -> (forall a, P [a]) -> (forall a b, P [a; b]) -> (forall a b c l, P l -> P (a :: b :: c :: l)) ->
  forall l, P l.
Proof.
  intros H0 H1 H2 H3 l. assert (H : P l /\ (forall a, P (a :: l)) /\ (forall a b, P (a :: b :: l))).
  { induction l as [|x l (IH1 & IH2 & IH3)]; [done|]. split_and!; auto. }
  apply H.
Qed.

Ltac sextet :=
  change (2 ^ 14) with 16384; change (2 ^ 12) with 4096; change (2 ^ 10) with 1024;
  change (2 ^ 8) with 256; change (2 ^ 6) with 64; change (2 ^ 4) with 16; change (2 ^ 2) with 4;
  unfold byte_ok in *; Z.to_euclidean_division_equations; lia.

Lemma emitted_8 x : emitted 3 x (0 + 8) false = ([(x * 64 / 2 ^ 8) mod 64], 2).
Proof. reflexivity. Qed.
Lemma emitted_10 x : emitted 3 x (2 + 8) false = ([(x * 64 / 2 ^ 10) mod 64], 4).
Proof. reflexivity. Qed.
Lemma emitted_12 x : emitted 3 x (4 + 8) false = ([(x * 64 / 2 ^ 12) mod 64], 6).
Proof. reflexivity. Qed.
Lemma emitted_14 x : emitted 3 x (6 + 8) false = ([(x * 64 / 2 ^ 14) mod 64; (x * 64 / 2 ^ 8) mod 64], 2).
Proof. reflexivity. Qed.

Ltac sextets_eq := repeat first [reflexivity | apply (f_equal2 (@cons Z))]; sextet.

Lemma encoded_sextets l : bytes_ok l -> forall x,
  encoded l x 0 = sextets l /\ (l <> [] -> encoded l x 6 = x mod 64 :: sextets l).
Proof.
  induction l as [|a|a b|a b c l IH] using list_ind3; intros Hl x;
    unfold bytes_ok in Hl; rewrite ?Forall_cons_iff in Hl.
  - done.
  - destruct Hl as [Ha _]. cbn. split; intros; sextets_eq.
  - destruct Hl as (Ha & Hb & _). cbn. split; intros; sextets_eq.
  - destruct Hl as (Ha & Hb & Hc & Hl).
    pose proof (len_nonneg l).
    assert (Hlen : (len (b :: c :: l) =? 0) = false /\ (len (c :: l) =? 0) = false)
      by (rewrite !len_cons; split; apply Z.eqb_neq; lia).
    destruct Hlen as [Hl1 Hl2].
    destruct (IH Hl (((x * 256 + a) * 256 + b) * 256 + c)) as [IH0 IH6].
    cbn [encoded sextets]. rewrite Hl1, Hl2.
    destruct (Z.eqb_spec (len l) 0) as [Hz|Hz].
    + apply len_0_nil in Hz as ->. cbn. split; intros; sextets_eq.
    + rewrite emitted_8, emitted_14, emitted_10, emitted_12, IH6 by (intros ->; done). cbn [app].
      split; intros; sextets_eq.
Qed.

Lemma len_sextets l : len (sextets l) = (len l * 8 + 5) / 6.
Proof.
  induction l as [|a|a b|a b c l IH] using list_ind3; try done.
  cbn [sextets]. rewrite len_app, !len_cons, IH. change (len (@nil Z)) with 0.
  Z.to_euclidean_division_equations. lia.
Qed.
Lemma len_padding64 l : len (b64_padding l) = (3 - len l mod 3) mod 3.
Proof.
  unfold b64_padding. pose proof (Z.mod_pos_bound (len l) 3).
  repeat zcase; [replace (len l mod 3) with 1 by done|replace (len l mod 3) with 2 by done|
    replace (len l mod 3) with 0 by lia]; reflexivity.
Qed.
Lemma len_rfc4648 l : len (rfc4648 l) + 1 = BASE64_SIZE (len l).
Proof.
  unfold rfc4648, BASE64_SIZE. rewrite len_app, len_fmap, len_sextets, len_padding64. pose proof (len_nonneg l).
  Z.to_euclidean_division_equations. lia.
Qed.

Lemma sextets_mod4 n r : 0 <= n -> n mod 3 = r -> ((n * 8 + 5) / 6) mod 4 = (r + 1) mod 4 * (if r =? 0 then 0 else 1).
Proof.
  intros Hn Hr. pose proof (Z.div_mod n 3). set (q := n / 3) in *.
  assert (0 <= r < 3) by (rewrite <- Hr; apply Z.mod_pos_bound; lia).
  replace (n * 8 + 5) with (5 + 8 * r + (q * 4) * 6) by lia. rewrite Z.div_add, Z.mod_add by lia.
  assert (r = 0 \/ r = 1 \/ r = 2) as [->|[->| ->]] by lia; reflexivity.
Qed.
Lemma mod4_step n r : n mod 4 = r -> (n + 1) mod 4 = (r + 1) mod 4.
Proof. intros <-. by rewrite Z.add_mod_idemp_l. Qed.

Lemma pad_spec l out : starts_with (b64_char <$> sextets l) out ->
  len (rfc4648 l) <= len out ->
  exists out', base64_pad 3 out (len (b64_char <$> sextets l)) = Ret (out', len (rfc4648 l)) /\
    starts_with (rfc4648 l) out' /\ len out' = len out.
Proof.
  intros Hs Hl. unfold rfc4648 in *. pose proof (len_sextets l) as Hn. pose proof (len_padding64 l) as Hp.
  rewrite <- (len_fmap b64_char) in Hn. set (pre := b64_char <$> sextets l) in *.
  rewrite len_app in *. unfold b64_padding in *.
  assert (Hmask : forall z, Z.land z 3 = z mod 4) by (intros; apply (land_ones_mod _ 2); lia).
  assert (Hwr : forall q o, starts_with q o -> len q < len o ->
            exists o', wr o (len q) 61 = Ret o' /\ starts_with (q ++ [61]) o' /\ len o' = len o)
    by (intros; by apply wr_snoc).
  pose proof (len_nonneg l). pose proof (Z.mod_pos_bound (len l) 3).
  destruct (Z.eqb_spec (len l mod 3) 1) as [H1|H1]; [|destruct (Z.eqb_spec (len l mod 3) 2) as [H2|H2]].
  - change (len [61; 61]) with 2 in *. assert (len pre mod 4 = 2) by (rewrite Hn; by apply (sextets_mod4 _ 1)).
    cbn [base64_pad]. rewrite !Hmask. rewrite (mod4_step (len pre + 1) 3), (mod4_step (len pre) 2) by (done || by apply (mod4_step _ 2)).
    rewrite (proj2 (Z.eqb_neq (len pre mod 4) 0)) by lia.
    destruct (Hwr pre out Hs) as (o1 & -> & Hs1 & Hl1); [lia|]. run_simpl.
    change (((2 + 1) mod 4 =? 0)) with false. cbv iota.
    destruct (Hwr _ o1 Hs1) as (o2 & Hw2 & Hs2 & Hl2); [rewrite len_app; change (len [61]) with 1; lia|].
    rewrite len_app in Hw2. change (len [61]) with 1 in Hw2. rewrite Hw2. run_simpl.
    change (((3 + 1) mod 4 =? 0)) with true. cbv iota.
    exists o2. rewrite <- app_assoc in Hs2. split; [by rewrite <- Z.add_assoc|]. split; [done|lia].
  - change (len [61]) with 1 in *. assert (len pre mod 4 = 3) by (rewrite Hn; by apply (sextets_mod4 _ 2)).
    cbn [base64_pad]. rewrite !Hmask. rewrite (mod4_step (len pre) 3) by done.
    rewrite (proj2 (Z.eqb_neq (len pre mod 4) 0)) by (intros Hx; rewrite Hx in *; discriminate).
    destruct (Hwr pre out Hs) as (o1 & -> & Hs1 & Hl1); [lia|]. run_simpl.
    change (((3 + 1) mod 4 =? 0)) with true. cbv iota.
    exists o1. by split_and!.
  - change (len (@nil Z)) with 0 in *. assert (len pre mod 4 = 0) by (rewrite Hn; apply (sextets_mod4 _ 0); lia).
    cbn [base64_pad]. rewrite Hmask, (proj2 (Z.eqb_eq (len pre mod 4) 0)) by lia.
    exists out. rewrite app_nil_r, Z.add_0_r. by split_and!.
Qed.

Lemma base64_encode_spec l out out_size :
  bytes_ok l -> len l < 1073741823 -> BASE64_SIZE (len l) <= out_size <= len out ->
  exists out', base64_encode out out_size l (len l) = Ret (Some out') /\
    starts_with (rfc4648 l ++ [0]) out' /\ len out' = len out.
Proof.
  intros Hl Hsize Hout. pose proof (len_nonneg l). pose proof (len_rfc4648 l) as Hlr.
  unfold base64_encode. rewrite u32_small by lia. change (UINT_MAX / 4) with 1073741823.
  rewrite (proj2 (Z.leb_gt _ _)), (proj2 (Z.ltb_ge _ _)) by lia. cbn [orb].
  destruct (encoded_sextets l Hl 0) as [He _]. assert (Hle : len (sextets l) <= len (rfc4648 l)).
  { unfold rfc4648. rewrite len_app, len_fmap. pose proof (len_nonneg (b64_padding l)). lia. }
  destruct (encode_loop_spec l 0 0 [] out) as (o1 & Hr & Hs1 & Hl1);
    [lia|apply starts_with_nil|rewrite He; change (len (@nil Z)) with 0; lia|].
  rewrite He in Hr, Hs1. change (len (@nil Z)) with 0 in Hr. change (u32 0) with 0 in Hr.
  cbn [app] in Hr, Hs1. rewrite Hr. run_simpl.
  destruct (pad_spec l o1 Hs1) as (o2 & -> & Hs2 & Hl2); [lia|]. run_simpl.
  destruct (wr_snoc _ o2 0 Hs2) as (o3 & -> & Hs3 & Hl3); [lia|]. run_simpl.
  exists o3. split; [done|]. split; [done|lia].
Qed.

(** ** The decoder *)

Lemma decode_char x : 0 <= x < 64 ->
  (b64_char x =? 0) || (b64_char x =? 61) = false /\
  (len map2 <=? u32 (s8 (b64_char x) - 43)) = false /\ rd map2 (u32 (s8 (b64_char x) - 43)) = Ret x.
Proof.
  intros Hx.
  assert (Hall : forallb (fun n => let x := Z.of_nat n in
     negb ((b64_char x =? 0) || (b64_char x =? 61)) && negb (len map2 <=? u32 (s8 (b64_char x) - 43)) &&
     match rd map2 (u32 (s8 (b64_char x) - 43)) with Ret y => y =? x | Fail _ => false end) (seq 0 64) = true)
    by reflexivity.
  rewrite forallb_forall in Hall.
  specialize (Hall (Z.to_nat x) (proj2 (in_seq 64 0 (Z.to_nat x)) (ltac:(lia)))).
  cbv zeta in Hall. rewrite Z2Nat.id in Hall by lia.
  destruct (rd map2 (u32 (s8 (b64_char x) - 43))) as [y|]; [|by rewrite andb_false_r in Hall].
  apply andb_true_iff in Hall as [[H1%negb_true_iff H2%negb_true_iff]%andb_true_iff ->%Z.eqb_eq]. done.
Qed.

Lemma decode_step x in_ i v out dst out_size : 0 <= x < 64 ->
  base64_decode_loop (b64_char x :: in_) i (s32 v) out dst out_size
  = if negb (i mod 4 =? 0) && (dst <? out_size) then
      out ← wr out dst ((v * 64 + x) / 2 ^ (6 - 2 * (i mod 4)) mod 256);
      base64_decode_loop in_ (i + 1) (s32 (v * 64 + x)) out (dst + 1) out_size
    else base64_decode_loop in_ (i + 1) (s32 (v * 64 + x)) out dst out_size.
Proof.
  intros Hx. destruct (decode_char x Hx) as (H1 & H2 & H3).
  cbn [base64_decode_loop]. rewrite H1. cbv zeta. rewrite H2, H3. run_simpl.
  rewrite (proj2 (Z.eqb_neq x 255)) by lia.
  replace (Z.land i 3) with (i mod 4) by (symmetry; apply (land_ones_mod i 2); lia).
  replace (s32 (Z.shiftl (s32 v) 6 + x)) with (s32 (v * 64 + x)).
  2:{ rewrite Z.shiftl_mul_pow2 by lia. change (2 ^ 6) with 64. unfold s32.
      f_equal. rewrite (Z.mod_eq (v + _)) by lia. generalize ((v + 2147483648) / 4294967296). intros q.
      rewrite <- (Z.mod_add (v * 64 + x + _) (- (q * 64))) by lia. f_equal. lia. }
  destruct (Z.eqb_spec (i mod 4) 0) as [Hi|Hi]; cbn [negb andb]; [done|].
  pose proof (Z.mod_pos_bound i 4). by rewrite decode_byte by lia.
Qed.

Lemma decode_write x in_ i r v out pre out_size y : 0 <= x < 64 -> i mod 4 = r -> 1 <= r <= 3 ->
  starts_with pre out -> len pre < out_size <= len out -> (v * 64 + x) / 2 ^ (6 - 2 * r) mod 256 = y ->
  exists out', base64_decode_loop (b64_char x :: in_) i (s32 v) out (len pre) out_size
    = base64_decode_loop in_ (i + 1) (s32 (v * 64 + x)) out' (len (pre ++ [y])) out_size /\
    starts_with (pre ++ [y]) out' /\ len out' = len out.
Proof.
  intros Hx Hi Hr Hs Hl <-. rewrite decode_step, Hi by done.
  rewrite (proj2 (Z.eqb_neq r 0)), (proj2 (Z.ltb_lt _ _)) by lia. cbn [negb andb].
  destruct (wr_snoc pre out ((v * 64 + x) / 2 ^ (6 - 2 * r) mod 256) Hs) as (o & -> & Hso & Hlo); [lia|].
  run_simpl. exists o. by rewrite len_app.
Qed.
Lemma decode_skip x in_ i v out dst out_size : 0 <= x < 64 -> i mod 4 = 0 ->
  base64_decode_loop (b64_char x :: in_) i (s32 v) out dst out_size
  = base64_decode_loop in_ (i + 1) (s32 (v * 64 + x)) out dst out_size.
Proof. intros Hx Hi. by rewrite decode_step, Hi. Qed.

(** The three bytes of a group, and the two shapes of the last group. *)
Lemma decode_sextets l : bytes_ok l -> forall i v pre out out_size rest,
  i mod 4 = 0 -> starts_with pre out -> len pre + len l <= out_size <= len out ->
  exists i' v' out',
    base64_decode_loop ((b64_char <$> sextets l) ++ rest) i (s32 v) out (len pre) out_size
    = base64_decode_loop rest i' (s32 v') out' (len (pre ++ l)) out_size /\
    starts_with (pre ++ l) out' /\ len out' = len out.
Proof.
  induction l as [|a|a b|a b c l IH] using list_ind3; intros Hl i v pre out out_size rest Hi Hs Hroom;
    unfold bytes_ok in Hl; rewrite ?Forall_cons_iff in Hl; cbn [sextets app fmap list_fmap];
    rewrite ?len_cons in Hroom; change (len (@nil Z)) with 0 in Hroom.
  - exists i, v, out. rewrite app_nil_r. done.
  - destruct Hl as (Ha & _).
    rewrite decode_skip by (done || sextet).
    edestruct (decode_write (a mod 4 * 16) rest (i + 1) 1 (v * 64 + a / 4) out pre out_size a)
      as (o1 & -> & Hs1 & Hl1); [sextet|by apply (mod4_step _ 0)|lia|done|lia|sextet|].
    eexists _, _, o1. split; [reflexivity|]. done.
  - destruct Hl as (Ha & Hb & _).
    rewrite decode_skip by (done || sextet).
    assert (Hi1 : (i + 1) mod 4 = 1) by (by apply (mod4_step _ 0)).
    edestruct (decode_write (a mod 4 * 16 + b / 16) ([b64_char (b mod 16 * 4)] ++ rest) (i + 1) 1
      (v * 64 + a / 4) out pre out_size a) as (o1 & Hr1 & Hs1 & Hl1); [sextet|done|lia|done|lia|sextet|].
    cbn [app] in Hr1. rewrite Hr1.
    edestruct (decode_write (b mod 16 * 4) rest (i + 1 + 1) 2
      ((v * 64 + a / 4) * 64 + (a mod 4 * 16 + b / 16)) o1 (pre ++ [a]) out_size b) as (o2 & -> & Hs2 & Hl2);
      [sextet|by apply (mod4_step _ 1)|lia|done|rewrite len_app; change (len [a]) with 1; lia|sextet|].
    rewrite <- app_assoc in *. eexists _, _, o2. split; [reflexivity|]. split; [done|lia].
  - destruct Hl as (Ha & Hb & Hc & Hl). pose proof (len_nonneg l).
    rewrite decode_skip by (done || sextet).
    assert (Hi1 : (i + 1) mod 4 = 1) by (by apply (mod4_step _ 0)).
    assert (Hi2 : (i + 1 + 1) mod 4 = 2) by (by apply (mod4_step _ 1)).
    assert (Hi3 : (i + 1 + 1 + 1) mod 4 = 3) by (by apply (mod4_step _ 2)).
    edestruct (decode_write (a mod 4 * 16 + b / 16) (b64_char (b mod 16 * 4 + c / 64) :: b64_char (c mod 64) ::
        (b64_char <$> sextets l) ++ rest) (i + 1) 1
      (v * 64 + a / 4) out pre out_size a) as (o1 & -> & Hs1 & Hl1); [sextet|done|lia|done|lia|sextet|].
    edestruct (decode_write (b mod 16 * 4 + c / 64) (b64_char (c mod 64) :: (b64_char <$> sextets l) ++ rest)
      (i + 1 + 1) 2 ((v * 64 + a / 4) * 64 + (a mod 4 * 16 + b / 16)) o1 (pre ++ [a]) out_size b)
      as (o2 & -> & Hs2 & Hl2); [sextet|done|lia|done|rewrite len_app; change (len [a]) with 1; lia|sextet|].
    rewrite <- app_assoc in *. cbn [app] in *.
    edestruct (decode_write (c mod 64) ((b64_char <$> sextets l) ++ rest) (i + 1 + 1 + 1) 3
      (((v * 64 + a / 4) * 64 + (a mod 4 * 16 + b / 16)) * 64 + (b mod 16 * 4 + c / 64)) o2 (pre ++ [a; b]) out_size c)
      as (o3 & -> & Hs3 & Hl3);
      [sextet|done|lia|done|rewrite len_app; change (len [a; b]) with 2; lia|sextet|].
    rewrite <- app_assoc in *. cbn [app] in *.
    edestruct (IH Hl (i + 1 + 1 + 1 + 1) ((((v * 64 + a / 4) * 64 + (a mod 4 * 16 + b / 16)) * 64
        + (b mod 16 * 4 + c / 64)) * 64 + c mod 64) (pre ++ [a; b; c]) o3 out_size rest)
      as (i' & v' & o4 & -> & Hs4 & Hl4);
      [by apply (mod4_step _ 3)|done|rewrite len_app; change (len [a; b; c]) with 3; lia|].
    rewrite <- app_assoc in *. cbn [app] in *. eexists _, _, o4. split; [reflexivity|]. split; [done|lia].
Qed.

Lemma decode_end l rest i v out dst out_size :
  base64_decode_loop (b64_padding l ++ 0 :: rest) i v out dst out_size = Ret (dst, out).
Proof. unfold b64_padding. by repeat zcase. Qed.

Lemma base64_decode_rfc4648 l rest out out_size :
  bytes_ok l -> len l <= out_size <= len out ->
  exists out', base64_decode out (rfc4648 l ++ 0 :: rest) out_size = Ret (len l, out') /\
    starts_with l out' /\ len out' = len out.
Proof.
  intros Hl Hroom. unfold base64_decode, rfc4648. rewrite <- app_assoc.
  destruct (decode_sextets l Hl 0 0 [] out out_size (b64_padding l ++ 0 :: rest)) as (i & v & o & Hr & Hs & Hlo);
    [done|apply starts_with_nil|change (len (@nil Z)) with 0; lia|].
  change (s32 0) with 0 in Hr. change (len (@nil Z)) with 0 in Hr. rewrite Hr, decode_end.
  exists o. done.
Qed.

(** ** Properties *)

(** C32: [base64_encode] writes the encoding of RFC 4648 (URL-safe alphabet, with
    padding) and a NUL, in exactly [BASE64_SIZE] bytes: it never writes beyond a
    buffer of that size. *)
Theorem base64_encode_rfc4648 l out out_size :
  bytes_ok l -> len l < 1073741823 -> BASE64_SIZE (len l) <= out_size <= len out ->
  exists out', base64_encode out out_size l (len l) = Ret (Some out') /\
    ztake (BASE64_SIZE (len l)) out' = rfc4648 l ++ [0] /\ len out' = len out.
Proof.
  intros Hl Hsize Hout. destruct (base64_encode_spec l out out_size Hl Hsize Hout) as (o & Hr & Hs & Hlo).
  exists o. split; [done|]. split; [|done]. rewrite <- len_rfc4648.
  unfold starts_with in Hs. rewrite len_app in Hs. exact Hs.
Qed.

(** Decoding what was encoded gives the data back, whatever follows the NUL
    in the encoding's buffer. *)
Theorem base64_roundtrip l buf out out_size :
  bytes_ok l -> len l < 1073741823 -> BASE64_SIZE (len l) <= len buf -> len l <= out_size <= len out ->
  exists buf' out', base64_encode buf (len buf) l (len l) = Ret (Some buf') /\
    base64_decode out buf' out_size = Ret (len l, out') /\ ztake (len l) out' = l.
Proof.
  intros Hl Hsize Hbuf Hout.
  destruct (base64_encode_spec l buf (len buf) Hl Hsize) as (b & Hr & Hs & Hlb); [lia|].
  apply starts_with_split in Hs as [rest ->]. rewrite <- app_assoc in *. cbn [app] in *.
  destruct (base64_decode_rfc4648 l rest out out_size Hl Hout) as (o & Hd & Hso & _).
  eexists _, o. split; [exact Hr|]. split; [exact Hd|exact Hso].
Qed.

Lemma decode_loop_total in_ : 0 ∈ in_ -> forall i v out dst out_size,
  0 <= dst <= Z.max 0 out_size -> out_size <= len out ->
  exists n out', base64_decode_loop in_ i v out dst out_size = Ret (n, out') /\
    (n = -1 \/ 0 <= n <= Z.max 0 out_size) /\ len out' = len out.
Proof.
  induction in_ as [|ch in_ IH]; intros Hin i v out dst out_size Hd Ho; [by apply elem_of_nil in Hin|].
  cbn [base64_decode_loop].
  destruct ((ch =? 0) || (ch =? 61)) eqn:Hend; [eexists _, _; split; [reflexivity|]; lia|].
  assert (Hin' : 0 ∈ in_) by (apply elem_of_cons in Hin as [<-|]; done). cbv zeta.
  destruct (Z.leb_spec (len map2) (u32 (s8 ch - 43))) as [_|Hidx]; [eexists _, _; split; [reflexivity|]; lia|].
  destruct (rd_ok map2 (u32 (s8 ch - 43))) as (m & -> & _).
  { split; [|done]. unfold u32. apply Z.mod_pos_bound. lia. }
  run_simpl. destruct (m =? 255); [eexists _, _; split; [reflexivity|]; lia|].
  destruct (negb (Z.land i 3 =? 0) && (dst <? out_size)) eqn:Hw; [|by apply IH].
  apply andb_true_iff in Hw as [_ Hlt%Z.ltb_lt].
  unfold wr. rewrite wr_range_ok by (change (len [_]) with 1; lia). run_simpl.
  edestruct IH as (n & o & Hr & Hn & Hl); [done| | |eexists n, o; split; [exact Hr|]]; [lia| |].
  - rewrite !len_app, len_ztake, len_zdrop by (change (len [_]) with 1; lia). change (len [_]) with 1. lia.
  - split; [done|]. rewrite Hl, !len_app, len_ztake, len_zdrop by (change (len [_]) with 1; lia).
    change (len [_]) with 1. lia.
Qed.

(** [base64_decode] on any NUL-terminated string stays within the string, the
    table and the [out_size] bytes of the output, and returns -1 or the number of
    bytes written. *)
Theorem base64_decode_total out in_ out_size :
  0 ∈ in_ -> 0 <= out_size <= len out ->
  exists n out', base64_decode out in_ out_size = Ret (n, out') /\
    (n = -1 \/ 0 <= n <= out_size) /\ len out' = len out.
Proof.
  intros Hin Ho. destruct (decode_loop_total in_ Hin 0 0 out 0 out_size) as (n & o & Hr & Hn & Hl); [lia|lia|].
  exists n, o. split; [exact Hr|]. split; [lia|done].
Qed.

Lemma base64_encode_rfc4648_witness :
  exists out', base64_encode (zrep 16 7) 9 [104; 105; 33; 255] 4 = Ret (Some out') /\
    ztake 9 out' = [97; 71; 107; 104; 95; 119; 61; 61; 0] /\ len out' = 16.
Proof.
  apply (base64_encode_rfc4648 [104; 105; 33; 255] (zrep 16 7) 9); [repeat constructor; done|done|done].
Defined.
Lemma base64_roundtrip_witness :
  exists buf' out', base64_encode (zrep 16 7) 16 [104; 105; 33; 255] 4 = Ret (Some buf') /\
    base64_decode (zrep 8 0) buf' 8 = Ret (4, out') /\ ztake 4 out' = [104; 105; 33; 255].
Proof.
  apply (base64_roundtrip [104; 105; 33; 255] (zrep 16 7) (zrep 8 0) 8); [repeat constructor; done|done..].
Defined.
Lemma base64_decode_total_witness :
  exists n out', base64_decode (zrep 2 0) [97; 71; 107; 104; 42; 0] 2 = Ret (n, out') /\
    (n = -1 \/ 0 <= n <= 2) /\ len out' = 2.
Proof.
  apply (base64_decode_total (zrep 2 0) [97; 71; 107; 104; 42; 0] 2); [|done].
  do 5 apply list_elem_of_further. apply list_elem_of_here.
Defined.
