(* ===== verification/Bsize.v ===== *)
(** * Sizes with overflow detection ([misc/bsize.h])

    A size is a [size_t] with a flag.  [bsize_is s z]: [s] stands for the
    number [z], or says that it is too large. *)
From S2P Require Import Prelude.

Record bsize_t := BSize { is_overflow : bool; bs_value : Z }.

Definition bsize_fromsize (v : Z) : bsize_t := BSize false v.
Definition bsize_fromint (v : Z) : bsize_t := BSize ((v <? 0) || (v >? SIZE_MAX)) (to_size_t v).
Definition bsize_overflow : bsize_t := BSize true 0.
(** [Some] what is written to [out]. *)
Definition bsize_tosize (s : bsize_t) : option Z := if is_overflow s then None else Some (bs_value s).
Definition bsize_toint (s : bsize_t) : option Z :=
  if is_overflow s || (bs_value s >? INT_MAX) then None else Some (bs_value s).
Definition bsize_add (s1 s2 : bsize_t) : bsize_t :=
  BSize (is_overflow s1 || is_overflow s2 || (bs_value s2 >? SIZE_MAX - bs_value s1)) (to_size_t (bs_value s1 + bs_value s2)).
Definition bsize_max (s1 s2 : bsize_t) : bsize_t :=
  BSize (is_overflow s1 || is_overflow s2)
    (to_size_t (Z.b2z (bs_value s1 >? bs_value s2) * bs_value s1 + Z.b2z (bs_value s1 <=? bs_value s2) * bs_value s2)).
Definition bsize_mul (s1 s2 : bsize_t) : bsize_t :=
  BSize (is_overflow s1 || is_overflow s2 || (negb (bs_value s1 =? 0) && (bs_value s2 >? SIZE_MAX / bs_value s1)))
    (to_size_t (bs_value s1 * bs_value s2)).

Definition bsize_is (s : bsize_t) (z : Z) : Prop :=
  0 <= z /\ (is_overflow s = true /\ SIZE_MAX < z \/ is_overflow s = false /\ z <= SIZE_MAX /\ bs_value s = z).

Section bsize.
Implicit Types (s : bsize_t) (v z : Z).

Lemma bsize_fromsize_ok v : 0 <= v <= SIZE_MAX -> bsize_is (bsize_fromsize v) v.
Proof. intros. split; [lia|]. right. cbn. split; [done|lia]. Qed.
Lemma bsize_fromint_ok v : 0 <= v -> bsize_is (bsize_fromint v) v.
Proof.
  intros. split; [lia|]. unfold bsize_fromint, to_size_t. cbn [is_overflow bs_value]. rewrite Z.gtb_ltb.
  destruct (Z.ltb_spec v 0), (Z.ltb_spec SIZE_MAX v); try lia. right.
  split; [done|]. split; [done|]. unfold SIZE_MAX in *. apply Z.mod_small. lia.
Qed.
Lemma bsize_toint_ok s z : bsize_is s z -> bsize_toint s = if z <=? INT_MAX then Some z else None.
Proof.
  intros (Hz & [[Ho Hs]|(Ho & Hs & Hv)]); unfold bsize_toint; rewrite Ho; cbn [orb]; unfold SIZE_MAX, INT_MAX in *.
  - destruct (Z.leb_spec z 2147483647); [lia|done].
  - rewrite Hv, Z.gtb_ltb. by destruct (Z.leb_spec z 2147483647), (Z.ltb_spec 2147483647 z); try lia.
Qed.
Lemma bsize_tosize_ok s z : bsize_is s z -> bsize_tosize s = if z <=? SIZE_MAX then Some z else None.
Proof.
  intros (Hz & [[Ho Hs]|(Ho & Hs & Hv)]); unfold bsize_tosize; rewrite Ho.
  - by destruct (Z.leb_spec z SIZE_MAX); [lia|].
  - rewrite Hv. by destruct (Z.leb_spec z SIZE_MAX); [|lia].
Qed.
Lemma bsize_add_ok s1 s2 z1 z2 : bsize_is s1 z1 -> bsize_is s2 z2 -> bsize_is (bsize_add s1 s2) (z1 + z2).
Proof.
  intros (H1 & [[Ho1 Hs1]|(Ho1 & Hs1 & Hv1)]) (H2 & [[Ho2 Hs2]|(Ho2 & Hs2 & Hv2)]);
    (split; [lia|]); unfold bsize_add; rewrite Ho1, Ho2; cbn [orb is_overflow bs_value]; try (left; split; [done|lia]).
  rewrite Hv1, Hv2, Z.gtb_ltb. destruct (Z.ltb_spec (SIZE_MAX - z1) z2); [left; split; [done|lia]|right].
  split; [done|]. split; [lia|]. unfold to_size_t, SIZE_MAX in *. apply Z.mod_small. lia.
Qed.
Lemma bsize_max_ok s1 s2 z1 z2 : bsize_is s1 z1 -> bsize_is s2 z2 -> bsize_is (bsize_max s1 s2) (z1 `max` z2).
Proof.
  intros (H1 & [[Ho1 Hs1]|(Ho1 & Hs1 & Hv1)]) (H2 & [[Ho2 Hs2]|(Ho2 & Hs2 & Hv2)]);
    (split; [lia|]); unfold bsize_max; rewrite Ho1, Ho2; cbn [orb is_overflow bs_value]; try (left; split; [done|lia]).
  right. split; [done|]. split; [lia|]. rewrite Hv1, Hv2, Z.gtb_ltb. unfold to_size_t, SIZE_MAX in *.
  destruct (Z.ltb_spec z2 z1), (Z.leb_spec z1 z2); cbn [Z.b2z]; try lia; rewrite Z.mod_small; lia.
Qed.
(** (A product with 0 of a size that is too large counts as too large.) *)
Lemma bsize_mul_ok s1 s2 z1 z2 : bsize_is s1 z1 -> bsize_is s2 z2 -> 0 < z1 -> 0 < z2 -> bsize_is (bsize_mul s1 s2) (z1 * z2).
Proof.
  intros (H1 & [[Ho1 Hs1]|(Ho1 & Hs1 & Hv1)]) (H2 & [[Ho2 Hs2]|(Ho2 & Hs2 & Hv2)]) Hp1 Hp2;
    (split; [nia|]); unfold bsize_mul; rewrite Ho1, Ho2; cbn [orb is_overflow bs_value]; try (left; split; [done|nia]).
  rewrite Hv1, Hv2, Z.gtb_ltb. destruct (Z.eqb_spec z1 0); [lia|]. cbn [negb andb].
  pose proof (Z.mul_div_le SIZE_MAX z1 Hp1). pose proof (Z.mul_succ_div_gt SIZE_MAX z1 Hp1).
  destruct (Z.ltb_spec (SIZE_MAX / z1) z2); [left; split; [done|nia]|right].
  assert (z1 * z2 <= SIZE_MAX) by nia. split; [done|]. split; [done|]. unfold to_size_t, SIZE_MAX in *. apply Z.mod_small. nia.
Qed.
(** A size in range. *)
Lemma bsize_is_size s z : bsize_is s z -> z <= SIZE_MAX -> s = BSize false z.
Proof. intros (_ & [[_ H]|(H1 & _ & H2)]) Hz; [lia|]. destruct s. cbn in *. congruence. Qed.
End bsize.
