(* ===== verification/Cache.v ===== *)
(** * cache.c: the bounded cache of connections

    The operations of cache.c over the application order of the uthash table.
    [entries] lists the table from the oldest to the most recently used entry;
    uthash itself is the interface [UtHash]: a look-up that names one entry with
    the key.  Payloads [D] and time stamps [T] are abstract; every call gets the
    time [ev_time] returns and reports what it freed. *)
From S2P Require Import Prelude.

Definition EINVAL : Z := 22.
Definition ENOMEM : Z := 12.

Record cache_entry (D T : Type) := CacheEntry {
  ce_key : bytes;
  ce_data : option D;
  ce_ts : T
}.
Arguments CacheEntry {D T} _ _ _.
Arguments ce_key {D T} _.
Arguments ce_data {D T} _.
Arguments ce_ts {D T} _.

(** [free_cb] tells whether there is a callback. *)
Record cache (D T : Type) := Cache {
  max_entries : Z;
  entries : list (cache_entry D T);
  free_cb : bool
}.
Arguments Cache {D T} _ _ _.
Arguments max_entries {D T} _.
Arguments entries {D T} _.
Arguments free_cb {D T} _.

(** What a call frees: through the callback, or with [ss_free]. *)
Inductive freed (D : Type) :=
  | FreeCb (key : bytes) (d : D)
  | FreeData (d : D).
Arguments FreeCb {D} key d.
Arguments FreeData {D} d.
Definition freed_data {D} (f : freed D) : D := match f with FreeCb _ d => d | FreeData d => d end.

(** [HASH_FIND]: the position in application order of an entry with the key.
    Which one is found among entries of one key depends on the bucket chains. *)
Class UtHash (D T : Type) := hash_find : list (cache_entry D T) -> bytes -> option nat.
Class UtHashLaws D T (H : UtHash D T) : Prop := {
  find_some l k i : hash_find l k = Some i -> exists e, l !! i = Some e /\ ce_key e = k;
  find_none l k : hash_find l k = None -> Forall (fun e => ce_key e <> k) l
}.

(** A table whose chains are in order of insertion. *)
#[export] Instance uthash_first D T : UtHash D T := fun l k =>
  fst <$> list_find (fun e => ce_key e = k) l.
#[export] Instance uthash_first_laws D T : UtHashLaws D T (uthash_first D T).
Proof.
  split; unfold hash_find, uthash_first; intros l k.
  - intros i ([j e] & Hf & ->)%fmap_Some. apply list_find_Some in Hf as (Hl & Hk & _). eauto.
  - intros Hn%fmap_None. apply list_find_None in Hn. done.
Qed.

Section cache_ops.
Context {D T : Type} {H : UtHash D T}.
(** [older now ts age] is [now - ts > age] on [double]. *)
Context (older : T -> T -> T -> bool).

Definition with_entries (c : cache D T) (l : list (cache_entry D T)) : cache D T :=
  Cache (max_entries c) l (free_cb c).

(** Freeing an entry that left the table. *)
Definition release (c : cache D T) (e : cache_entry D T) : list (freed D) :=
  match ce_data e with
  | None => []
  | Some d => [if free_cb c then FreeCb (ce_key e) d else FreeData d]
  end.

(** [dst] is the destination pointer, [mem] whether [malloc] has memory. *)
Definition cache_create (dst : option unit) (capacity : Z) (cb : bool) (mem : bool) : Z * option (cache D T) :=
  match dst with
  | None => (EINVAL, None)
  | Some _ => if negb mem then (ENOMEM, None) else (0, Some (Cache capacity [] cb))
  end.

Definition cache_delete (c : option (cache D T)) (keep_data : Z) : Z * list (freed D) :=
  match c with
  | None => (EINVAL, [])
  | Some c => (0, if negb (keep_data =? 0) then [] else concat (release c <$> entries c))
  end.

(** The loop [HASH_ITER] with deletion of [cache_clear]. *)
Fixpoint cache_clear_loop (c : cache D T) (now age : T) (l : list (cache_entry D T))
    : list (cache_entry D T) * list (freed D) :=
  match l with
  | [] => ([], [])
  | e :: l =>
      let (kept, fr) := cache_clear_loop c now age l in
      if older now (ce_ts e) age then (kept, release c e ++ fr) else (e :: kept, fr)
  end.
Definition cache_clear (c : option (cache D T)) (age now : T) : Z * option (cache D T) * list (freed D) :=
  match c with
  | None => (EINVAL, None, [])
  | Some c =>
      let (kept, fr) := cache_clear_loop c now age (entries c) in
      (0, Some (with_entries c kept), fr)
  end.

Definition cache_remove (c : option (cache D T)) (key : option bytes) (key_len : Z)
    : run (Z * option (cache D T) * list (freed D)) :=
  match c, key with
  | Some c, Some key =>
      k ← rd_range key 0 key_len;
      match hash_find (entries c) k with
      | None => mret (0, Some c, [])
      | Some i =>
          match entries c !! i with
          | None => mret (0, Some c, [])
          | Some tmp => mret (0, Some (with_entries c (delete i (entries c))), release c tmp)
          end
      end
  | _, _ => mret (EINVAL, c, [])
  end.

(** The entry found moves to the end of the application order with a new time
    stamp: shared by [cache_lookup] and [cache_key_exist]. *)
Definition cache_touch (c : cache D T) (k : bytes) (now : T) : option (cache D T * option D) :=
  i ← hash_find (entries c) k;
  tmp ← entries c !! i;
  Some (with_entries c (delete i (entries c) ++ [CacheEntry k (ce_data tmp) now]), ce_data tmp).

(** [result] is the pointer the caller passes; the result holds what is stored
    behind it: [Some None] is [NULL], [None] nothing. *)
Definition cache_lookup (c : option (cache D T)) (key : option bytes) (key_len : Z) (result : option unit) (now : T)
    : run (Z * option (cache D T) * option (option D)) :=
  match c, key, result with
  | Some c, Some key, Some _ =>
      k ← rd_range key 0 key_len;
      match cache_touch c k now with
      | Some (c, d) => mret (0, Some c, Some d)
      | None => mret (0, Some c, Some None)
      end
  | _, _, _ => mret (EINVAL, c, None)
  end.

Definition cache_key_exist (c : option (cache D T)) (key : option bytes) (key_len : Z) (now : T)
    : run (Z * option (cache D T)) :=
  match c, key with
  | Some c, Some key =>
      k ← rd_range key 0 key_len;
      match cache_touch c k now with
      | Some (c, _) => mret (1, Some c)
      | None => mret (0, Some c)
      end
  | _, _ => mret (0, c)
  end.

(** The eviction at the end of [cache_insert]: the first entry of the iteration
    leaves, then [break]. *)
Definition cache_evict (c : cache D T) : cache D T * list (freed D) :=
  if max_entries c <=? len (entries c) then
    match entries c with
    | [] => (c, [])
    | e :: l => (with_entries c l, release c e)
    end
  else (c, []).

Definition cache_insert (c : option (cache D T)) (key : option bytes) (key_len : Z) (data : option D) (mem : bool) (now : T)
    : run (Z * option (cache D T) * list (freed D)) :=
  match c with
  | None => mret (EINVAL, None, [])
  | Some c =>
      if negb mem then mret (ENOMEM, Some c, [])
      else
        key ← deref key;
        k ← rd_range key 0 key_len;
        let (c, fr) := cache_evict (with_entries c (entries c ++ [CacheEntry k data now])) in
        mret (0, Some c, fr)
  end.
End cache_ops.

(** ** Sequences of calls *)

Inductive cache_op (D T : Type) :=
  | OpInsert (k : bytes) (d : option D) (now : T)
  | OpLookup (k : bytes) (now : T)
  | OpExist (k : bytes) (now : T)
  | OpRemove (k : bytes)
  | OpClear (age now : T).
Arguments OpInsert {D T} k d now.
Arguments OpLookup {D T} k now.
Arguments OpExist {D T} k now.
Arguments OpRemove {D T} k.
Arguments OpClear {D T} age now.

Section cache_runs.
Context {D T : Type} `{L : UtHashLaws D T} (older : T -> T -> T -> bool).

(** One call on a live cache. *)
Definition cache_step (c : cache D T) (o : cache_op D T) : run (option (cache D T) * list (freed D)) :=
  match o with
  | OpInsert k d now =>
      '(_, c, fr) ← cache_insert (Some c) (Some k) (len k) d true now; mret (c, fr)
  | OpLookup k now =>
      '(_, c, _) ← cache_lookup (Some c) (Some k) (len k) (Some tt) now; mret (c, [])
  | OpExist k now =>
      '(_, c) ← cache_key_exist (Some c) (Some k) (len k) now; mret (c, [])
  | OpRemove k =>
      '(_, c, fr) ← cache_remove (Some c) (Some k) (len k); mret (c, fr)
  | OpClear age now =>
      let '(_, c, fr) := cache_clear older (Some c) age now in mret (c, fr)
  end.
Fixpoint cache_run (c : cache D T) (os : list (cache_op D T)) : run (cache D T * list (freed D)) :=
  match os with
  | [] => mret (c, [])
  | o :: os =>
      '(c, fr) ← cache_step c o;
      c ← deref c;
      '(c, fr') ← cache_run c os;
      mret (c, fr ++ fr')
  end.

(** The payloads a sequence inserts, and those in a table. *)
Definition op_data (o : cache_op D T) : list D :=
  match o with OpInsert _ (Some d) _ => [d] | _ => [] end.
Definition live_data (l : list (cache_entry D T)) : list D := omap ce_data l.

Lemma release_data (c : cache D T) e : freed_data <$> release c e = option_list (ce_data e).
Proof. unfold release. destruct (ce_data e); [by destruct (free_cb c)|done]. Qed.
Lemma live_data_app (l k : list (cache_entry D T)) : live_data (l ++ k) = live_data l ++ live_data k.
Proof. unfold live_data. induction l as [|e l IH]; [done|]. cbn. destruct (ce_data e); cbn; by rewrite IH. Qed.
Lemma live_data_cons (e : cache_entry D T) l : live_data (e :: l) = option_list (ce_data e) ++ live_data l.
Proof. unfold live_data. cbn. by destruct (ce_data e). Qed.
Lemma live_data_delete (l : list (cache_entry D T)) i e : l !! i = Some e ->
  live_data l ≡ₚ option_list (ce_data e) ++ live_data (delete i l).
Proof.
  intros Hi. rewrite delete_take_drop. rewrite <- (take_drop_middle l i e Hi) at 1.
  rewrite !live_data_app, live_data_cons. by rewrite Permutation_app_swap_app.
Qed.

Lemma clear_loop_data c now age l :
  let r := cache_clear_loop older c now age l in
  live_data l ≡ₚ (freed_data <$> snd r) ++ live_data (fst r) /\ len (fst r) <= len l.
Proof.
  induction l as [|e l [IH Hl]]; [done|]. cbn [cache_clear_loop]. rewrite len_cons.
  destruct (cache_clear_loop older c now age l) as [kept fr]. cbn [fst snd] in *.
  destruct (older now (ce_ts e) age); cbn [fst snd]; rewrite live_data_cons.
  - rewrite fmap_app, release_data, <- app_assoc, IH. split; [done|lia].
  - rewrite live_data_cons, IH, len_cons. split; [by rewrite Permutation_app_swap_app|lia].
Qed.

(** [cache_step] on every branch: it succeeds, keeps the capacity and the
    callback, and accounts for every payload. *)
Lemma rd_key (k : bytes) : rd_range k 0 (len k) = Ret k.
Proof. rewrite rd_range_front by (pose proof (len_nonneg k); lia). by rewrite ztake_all. Qed.

Lemma len_delete (l : list (cache_entry D T)) i e : l !! i = Some e -> len (delete i l) = len l - 1.
Proof. intros Hi. unfold len. rewrite length_delete by done. apply lookup_lt_Some in Hi. lia. Qed.

(** What each call does to the table. *)
Lemma insert_step c k d now : cache_step c (OpInsert k d now)
  = let (c, fr) := cache_evict (with_entries c (entries c ++ [CacheEntry k d now])) in Ret (Some c, fr).
Proof.
  cbn [cache_step cache_insert negb]. run_simpl. rewrite rd_key. run_simpl.
  by destruct (cache_evict _) as [c' fr].
Qed.
Lemma touch_cases c k now :
  (cache_touch c k now = None /\ Forall (fun e => ce_key e <> k) (entries c)) \/
  exists i e, hash_find (entries c) k = Some i /\ entries c !! i = Some e /\ ce_key e = k /\
    cache_touch c k now
    = Some (with_entries c (delete i (entries c) ++ [CacheEntry k (ce_data e) now]), ce_data e).
Proof.
  unfold cache_touch. destruct (hash_find (entries c) k) as [i|] eqn:Hf; cbn.
  - destruct (find_some _ _ _ Hf) as (e & He & Hk). right. exists i, e. by rewrite He.
  - left. split; [done|]. by apply find_none in Hf.
Qed.
Lemma lookup_step c k now : cache_step c (OpLookup k now)
  = Ret (Some (match cache_touch c k now with Some (c, _) => c | None => c end), []).
Proof.
  cbn [cache_step cache_lookup]. rewrite rd_key. run_simpl. by destruct (cache_touch c k now) as [[c' d]|].
Qed.
Lemma exist_step c k now : cache_step c (OpExist k now)
  = Ret (Some (match cache_touch c k now with Some (c, _) => c | None => c end), []).
Proof.
  cbn [cache_step cache_key_exist]. rewrite rd_key. run_simpl. by destruct (cache_touch c k now) as [[c' d]|].
Qed.
Lemma remove_step c k : cache_step c (OpRemove k)
  = match hash_find (entries c) k with
    | Some i => match entries c !! i with
                | Some e => Ret (Some (with_entries c (delete i (entries c))), release c e)
                | None => Ret (Some c, []) end
    | None => Ret (Some c, [])
    end.
Proof.
  cbn [cache_step cache_remove]. rewrite rd_key. run_simpl.
  destruct (hash_find (entries c) k) as [i|]; [|done]. by destruct (entries c !! i).
Qed.

Lemma evict_accounts (c : cache D T) : let r := cache_evict c in
  live_data (entries c) ≡ₚ (freed_data <$> snd r) ++ live_data (entries (fst r)) /\
  max_entries (fst r) = max_entries c /\ free_cb (fst r) = free_cb c /\
  (1 <= max_entries c -> len (entries c) <= max_entries c -> len (entries (fst r)) < max_entries c).
Proof.
  unfold cache_evict. destruct (Z.leb_spec (max_entries c) (len (entries c))) as [Hle|Hlt].
  - destruct (entries c) as [|e l] eqn:He; cbn [fst snd entries with_entries max_entries free_cb].
    + rewrite He. change (len []) with 0. split_and!; try done. lia.
    + rewrite len_cons, live_data_cons, release_data. split_and!; try done. lia.
  - split_and!; try done.
Qed.

Lemma touch_accounts (c : cache D T) k now :
  let c' := match cache_touch c k now with Some (c', _) => c' | None => c end in
  live_data (entries c) ≡ₚ live_data (entries c') /\ len (entries c') = len (entries c) /\
  max_entries c' = max_entries c /\ free_cb c' = free_cb c.
Proof.
  destruct (touch_cases c k now) as [[-> _]|(i & e & _ & Hi & _ & ->)]; [done|].
  cbn [entries with_entries max_entries free_cb]. rewrite live_data_app, live_data_cons.
  cbn [ce_data]. change (live_data (@nil (cache_entry D T))) with (@nil D).
  rewrite app_nil_r, len_app, (len_delete _ i e Hi). change (len [_]) with 1.
  split_and!; [|lia|done|done]. by rewrite (live_data_delete _ i e Hi), Permutation_app_comm.
Qed.

Lemma step_accounts (c : cache D T) o : 1 <= max_entries c -> len (entries c) < max_entries c ->
  exists c' fr, cache_step c o = Ret (Some c', fr) /\
    op_data o ++ live_data (entries c) ≡ₚ (freed_data <$> fr) ++ live_data (entries c') /\
    max_entries c' = max_entries c /\ free_cb c' = free_cb c /\ len (entries c') < max_entries c.
Proof.
  intros Hm Hl. destruct o as [k d now|k now|k now|k|age now].
  - rewrite insert_step. set (c0 := with_entries c _).
    pose proof (evict_accounts c0) as He. destruct (cache_evict c0) as [c' fr]. cbn [fst snd] in He.
    destruct He as (Hp & Hm' & Hcb & Hlt). exists c', fr. split; [done|]. unfold c0 in *.
    cbn [entries with_entries max_entries free_cb] in *. rewrite <- Hp, live_data_app, len_app in *.
    change (len [_]) with 1 in Hlt. split_and!; try done; [|apply Hlt; lia].
    rewrite live_data_cons. cbn [ce_data]. change (live_data (@nil (cache_entry D T))) with (@nil D).
    rewrite app_nil_r, Permutation_app_comm. by destruct d.
  - rewrite lookup_step. destruct (touch_accounts c k now) as (Hp & Hlen & Hm' & Hcb).
    eexists _, []. split; [reflexivity|]. cbn [op_data app]. split_and!; try done. lia.
  - rewrite exist_step. destruct (touch_accounts c k now) as (Hp & Hlen & Hm' & Hcb).
    eexists _, []. split; [reflexivity|]. cbn [op_data app]. split_and!; try done. lia.
  - rewrite remove_step. destruct (hash_find (entries c) k) as [i|]; [|by exists c, []].
    destruct (entries c !! i) as [e|] eqn:Hi; [|by exists c, []].
    eexists _, _. split; [reflexivity|]. cbn [entries with_entries max_entries free_cb op_data app].
    rewrite release_data, (len_delete _ i e Hi). split_and!; try done; [|lia]. by apply live_data_delete.
  - cbn [cache_step cache_clear]. pose proof (clear_loop_data c now age (entries c)) as [Hp Hlen].
    destruct (cache_clear_loop older c now age (entries c)) as [kept fr]. cbn [fst snd] in *.
    eexists _, fr. split; [reflexivity|]. cbn [entries with_entries max_entries free_cb op_data app].
    split_and!; try done. lia.
Qed.

Lemma run_accounts os : forall c : cache D T, 1 <= max_entries c -> len (entries c) < max_entries c ->
  exists c' fr, cache_run c os = Ret (c', fr) /\
    concat (op_data <$> os) ++ live_data (entries c) ≡ₚ (freed_data <$> fr) ++ live_data (entries c') /\
    max_entries c' = max_entries c /\ len (entries c') < max_entries c.
Proof.
  induction os as [|o os IH]; intros c Hm Hl; [by exists c, []|].
  destruct (step_accounts c o Hm Hl) as (c1 & fr1 & Hs & Hp1 & Hm1 & Hcb & Hl1).
  destruct (IH c1) as (c2 & fr2 & Hr & Hp2 & Hm2 & Hl2); [lia|lia|].
  cbn [cache_run]. rewrite Hs. run_simpl. rewrite Hr. run_simpl.
  eexists c2, _. split; [reflexivity|]. rewrite fmap_cons, fmap_app. cbn [concat].
  split_and!; [|lia|lia]. rewrite <- !app_assoc, <- Hp2.
  rewrite (Permutation_app_swap_app (op_data o)), Hp1. by rewrite Permutation_app_swap_app.
Qed.

(** ** Keys

    [cache_insert] adds an entry whether or not the key is there; udprelay.c looks
    the key up first.  Then the keys stay distinct. *)
Definition keys (c : cache D T) : list bytes := ce_key <$> entries c.
Fixpoint inserts_absent (c : cache D T) (os : list (cache_op D T)) : Prop :=
  match os with
  | [] => True
  | o :: os =>
      match o with OpInsert k _ _ => k ∉ keys c | _ => True end /\
      forall c' fr, cache_step c o = Ret (Some c', fr) -> inserts_absent c' os
  end.

Lemma sublist_keys (l l' : list (cache_entry D T)) : sublist l l' -> NoDup (ce_key <$> l') -> NoDup (ce_key <$> l).
Proof.
  intros Hs Hn. eapply sublist_NoDup; [exact Hn|]. clear Hn. induction Hs; cbn; by constructor.
Qed.
Lemma touch_keys (c : cache D T) k now : NoDup (keys c) ->
  NoDup (keys (match cache_touch c k now with Some (c', _) => c' | None => c end)).
Proof.
  intros Hn. destruct (touch_cases c k now) as [[-> _]|(i & e & _ & Hi & <- & ->)]; [done|].
  unfold keys in *. cbn [entries with_entries]. rewrite fmap_app. cbn.
  rewrite <- (take_drop_middle (entries c) i e Hi), fmap_app in Hn. cbn in Hn.
  rewrite delete_take_drop, fmap_app, (Permutation_app_comm _ [ce_key e]). cbn.
  by rewrite (Permutation_middle (ce_key <$> take i (entries c))).
Qed.
Lemma step_keys (c : cache D T) o c' fr : match o with OpInsert k _ _ => k ∉ keys c | _ => True end ->
  NoDup (keys c) -> cache_step c o = Ret (Some c', fr) -> NoDup (keys c').
Proof.
  intros Ho Hn. destruct o as [k d now|k now|k now|k|age now].
  - rewrite insert_step. unfold cache_evict. cbn [entries with_entries max_entries].
    assert (Hall : NoDup (ce_key <$> entries c ++ [CacheEntry k d now])).
    { rewrite fmap_app. cbn. apply list.NoDup_app. split_and!; [done| |apply NoDup_singleton].
      intros x Hx ->%list_elem_of_singleton. done. }
    unfold keys. destruct (_ <=? _); [|intros [= <- <-]; done].
    destruct (entries c ++ [_]) as [|e l]; intros [= <- <-]; [done|]. cbn in *. by apply list.NoDup_cons in Hall as [_ ?].
  - rewrite lookup_step. intros [= <- <-]. by apply touch_keys.
  - rewrite exist_step. intros [= <- <-]. by apply touch_keys.
  - rewrite remove_step. destruct (hash_find (entries c) k) as [i|]; [|by intros [= <- <-]].
    destruct (entries c !! i) as [e|] eqn:Hi; [|by intros [= <- <-]]. intros [= <- <-].
    unfold keys in *. cbn [entries with_entries]. by eapply sublist_keys; [apply sublist_delete|].
  - cbn [cache_step cache_clear]. assert (Hs : sublist (cache_clear_loop older c now age (entries c)).1 (entries c)).
    { induction (entries c) as [|e l IH]; [done|]. cbn [cache_clear_loop].
      destruct (cache_clear_loop older c now age l) as [kept fr']. cbn [fst] in *. destruct (older _ _ _); cbn; by constructor. }
    destruct (cache_clear_loop older c now age (entries c)) as [kept fr']. intros [= <- <-]. by eapply sublist_keys.
Qed.
Lemma run_keys os : forall (c : cache D T) c' fr, inserts_absent c os -> NoDup (keys c) ->
  cache_run c os = Ret (c', fr) -> NoDup (keys c').
Proof.
  induction os as [|o os IH]; intros c c' fr Ha Hn; [by intros [= <- <-]|]. destruct Ha as [Ho Ha]. cbn [cache_run].
  destruct (cache_step c o) as [[[c1|] fr1]|] eqn:Hs; run_simpl; [|done..].
  destruct (cache_run c1 os) as [[c2 fr2]|] eqn:Hr; run_simpl; [|done]. intros [= <- _].
  eapply (IH c1); [by eapply Ha|by eapply step_keys|done].
Qed.

(** ** Least recently used *)

Lemma delete_app_lt {A} (l k : list A) i : (i < length l)%nat -> delete i (l ++ k) = delete i l ++ k.
Proof. revert i. induction l as [|x l IH]; intros [|i] Hi; cbn in *; [lia|lia|done|]. f_equal. apply IH. lia. Qed.
Lemma delete_app_ge {A} (l k : list A) i : (length l <= i)%nat -> delete i (l ++ k) = l ++ delete (i - length l)%nat k.
Proof. revert i. induction l as [|x l IH]; intros i Hi; cbn in *; [by rewrite Nat.sub_0_r|]. destruct i as [|i]; [lia|]. cbn. f_equal. apply IH. lia. Qed.

(** The entry of [k] has data [d] and at most [n] entries behind it. *)
Definition recent (l : list (cache_entry D T)) (k : bytes) (d : option D) (n : Z) : Prop :=
  exists pre ts suf, l = pre ++ CacheEntry k d ts :: suf /\ len suf <= n /\
    Forall (fun e => ce_key e <> k) (pre ++ suf).

Lemma recent_touch l k d n i e now : recent l k d n -> l !! i = Some e ->
  recent (delete i l ++ [CacheEntry (ce_key e) (ce_data e) now]) k d (n + 1).
Proof.
  intros (pre & ts & suf & -> & Hn & Hk) Hi. apply Forall_app in Hk as [Hp Hs].
  pose proof (len_nonneg suf) as H0.
  apply lookup_app_Some in Hi as [Hi|[Hge Hi]].
  - rewrite delete_app_lt by (by eapply lookup_lt_Some). rewrite <- app_assoc. cbn [app].
    exists (delete i pre), ts, (suf ++ [CacheEntry (ce_key e) (ce_data e) now]).
    split; [done|]. rewrite len_app. change (len [_]) with 1. split; [lia|].
    rewrite Forall_app, Forall_app, Forall_singleton. split_and!; try done; [by apply Forall_delete|].
    cbn. by eapply Forall_lookup_1 in Hp.
  - rewrite delete_app_ge by done. destruct (i - length pre)%nat as [|j] eqn:Hj; cbn in Hi |- *.
    + injection Hi as <-. cbn [ce_key ce_data]. exists (pre ++ suf), now, [].
      split; [done|]. change (len []) with 0. split; [lia|].
      rewrite app_nil_r. by apply Forall_app.
    + rewrite <- app_assoc. exists pre, ts, (delete j suf ++ [CacheEntry (ce_key e) (ce_data e) now]).
      split; [done|]. rewrite len_app, (len_delete _ _ _ Hi). change (len [_]) with 1. split; [lia|].
      rewrite !Forall_app, Forall_singleton. split_and!; try done; [by apply Forall_delete|].
      cbn. by eapply Forall_lookup_1 in Hs.
Qed.

Lemma recent_insert (c : cache D T) k d n k' d' now : recent (entries c) k d n -> k' <> k -> n + 2 < max_entries c ->
  recent (entries (fst (cache_evict (with_entries c (entries c ++ [CacheEntry k' d' now]))))) k d (n + 1).
Proof.
  intros (pre & ts & suf & Hl & Hn & Hk) Hne Hm. apply Forall_app in Hk as [Hp Hs].
  unfold cache_evict. cbn [entries with_entries max_entries free_cb]. rewrite Hl, <- app_assoc. cbn [app].
  assert (Hbase : forall q, Forall (fun e => ce_key e <> k) q ->
            recent (q ++ CacheEntry k d ts :: suf ++ [CacheEntry k' d' now]) k d (n + 1)).
  { intros q Hq. exists q, ts, (suf ++ [CacheEntry k' d' now]). split; [done|].
    rewrite len_app. change (len [_]) with 1. split; [lia|].
    rewrite !Forall_app, Forall_singleton. by split_and!. }
  destruct (Z.leb_spec (max_entries c) (len (pre ++ CacheEntry k d ts :: suf ++ [CacheEntry k' d' now]))) as [Hle|_];
    [|by apply Hbase].
  destruct pre as [|e pre]; cbn [app fst entries with_entries]; [|apply Hbase; by apply Forall_cons_iff in Hp as [_ ?]].
  exfalso. cbn [app] in Hle. rewrite len_cons, len_app in Hle. change (len [_]) with 1 in Hle. lia.
Qed.

(** Calls that keep an entry alive: insertions of other keys, look-ups. *)
Definition keeps (k : bytes) (o : cache_op D T) : Prop :=
  match o with
  | OpInsert k' _ _ => k' <> k
  | OpLookup _ _ | OpExist _ _ => True
  | OpRemove _ | OpClear _ _ => False
  end.

Lemma recent_step (c : cache D T) k d n o : recent (entries c) k d n -> keeps k o -> n + 2 < max_entries c ->
  exists c' fr, cache_step c o = Ret (Some c', fr) /\ recent (entries c') k d (n + 1) /\
    max_entries c' = max_entries c.
Proof.
  intros Hr Hk Hm.
  assert (Hmono : recent (entries c) k d (n + 1)).
  { destruct Hr as (pre & ts & suf & -> & Hn & Hf). exists pre, ts, suf. split_and!; [done|lia|done]. }
  assert (Htouch : forall k' now, let c' := match cache_touch c k' now with Some (c', _) => c' | None => c end in
            recent (entries c') k d (n + 1) /\ max_entries c' = max_entries c).
  { intros k' now. destruct (touch_cases c k' now) as [[-> _]|(i & e & _ & Hi & <- & ->)]; [done|].
    split; [|done]. cbn [entries with_entries]. by apply recent_touch. }
  destruct o as [k' d' now|k' now|k' now|k'|age now]; cbn [keeps] in Hk; try done.
  - rewrite insert_step. pose proof (recent_insert c k d n k' d' now Hr Hk Hm) as Hi.
    pose proof (evict_accounts (with_entries c (entries c ++ [CacheEntry k' d' now]))) as (_ & Hme & _).
    destruct (cache_evict _) as [c' fr]. cbn [fst] in *. exists c', fr. by split_and!.
  - rewrite lookup_step. eexists _, _. split; [reflexivity|]. apply Htouch.
  - rewrite exist_step. eexists _, _. split; [reflexivity|]. apply Htouch.
Qed.
Lemma recent_run os : forall (c : cache D T) k d n, recent (entries c) k d n -> Forall (keeps k) os ->
  n + len os + 1 < max_entries c ->
  exists c' fr, cache_run c os = Ret (c', fr) /\ recent (entries c') k d (n + len os).
Proof.
  induction os as [|o os IH]; intros c k d n Hr Hk Hm.
  { exists c, []. split; [done|]. change (len []) with 0. by rewrite Z.add_0_r. }
  apply Forall_cons_iff in Hk as [Ho Hk]. rewrite len_cons in *. pose proof (len_nonneg os).
  destruct (recent_step c k d n o Hr Ho) as (c1 & fr1 & Hs & Hr1 & Hm1); [lia|].
  destruct (IH c1 k d (n + 1) Hr1 Hk) as (c2 & fr2 & Hrun & Hr2); [lia|].
  cbn [cache_run]. rewrite Hs. run_simpl. rewrite Hrun. run_simpl. eexists c2, _. split; [reflexivity|].
  by replace (n + (1 + len os)) with (n + 1 + len os) by lia.
Qed.
Lemma recent_lookup (c : cache D T) k d n now : recent (entries c) k d n ->
  exists c', cache_lookup (Some c) (Some k) (len k) (Some tt) now = Ret (0, Some c', Some d).
Proof.
  intros (pre & ts & suf & Hl & _ & Hf). unfold cache_lookup. rewrite rd_key. run_simpl.
  destruct (touch_cases c k now) as [[_ Hn]|(i & e & _ & Hi & Hk & ->)].
  - rewrite Hl, Forall_app, Forall_cons_iff in Hn. by destruct Hn as (_ & Hn & _).
  - rewrite Hl in Hi. apply Forall_app in Hf as [Hp Hs].
    apply lookup_app_Some in Hi as [Hi|[_ Hi]]; [by eapply Forall_lookup_1 in Hp|].
    destruct (i - length pre)%nat as [|j]; cbn in Hi; [|by eapply Forall_lookup_1 in Hs].
    injection Hi as <-. by eexists.
Qed.
End cache_runs.

(** ** Properties *)

(** C31: conservation and bound.  Any sequence of calls on a cache created with
    [capacity >= 1] succeeds; every payload inserted is afterwards either in the
    table or has been freed, each exactly once; the table never holds as many
    as [capacity] entries; and when only absent keys are inserted, no two entries
    have the same key. *)
Theorem cache_accounts {D T} `{L : UtHashLaws D T} (older : T -> T -> T -> bool) capacity cb os c :
  1 <= capacity -> cache_create (Some tt) capacity cb true = (0, Some c) ->
  exists c' fr, cache_run older c os = Ret (c', fr) /\
    concat (op_data <$> os) ≡ₚ (freed_data <$> fr) ++ live_data (entries c') /\
    len (entries c') <= capacity - 1 /\
    (inserts_absent older c os -> NoDup (keys c')).
Proof.
  intros Hc [= <-]. destruct (run_accounts older os (Cache capacity [] cb)) as (c' & fr & Hr & Hp & _ & Hl);
    [done|cbn; change (len []) with 0; lia|].
  exists c', fr. cbn [entries max_entries] in *. change (live_data (@nil (cache_entry D T))) with (@nil D) in Hp.
  rewrite app_nil_r in Hp. split_and!; [done|done|lia|]. intros Ha. eapply run_keys; [exact Ha|constructor|exact Hr].
Qed.

(** Least recently used.  A key inserted into a cache that does not have it
    is still found, with its payload, after any [capacity - 2] insertions of other
    keys and look-ups. *)
Theorem cache_keeps_recent {D T} `{L : UtHashLaws D T} (older : T -> T -> T -> bool) c k d now now' os :
  Forall (fun e => ce_key e <> k) (entries c) -> len (entries c) < max_entries c ->
  Forall (keeps k) os -> len os + 1 < max_entries c ->
  exists c1 fr1 c2 fr2 c3, cache_insert (Some c) (Some k) (len k) d true now = Ret (0, Some c1, fr1) /\
    cache_run older c1 os = Ret (c2, fr2) /\
    cache_lookup (Some c2) (Some k) (len k) (Some tt) now' = Ret (0, Some c3, Some d).
Proof.
  intros Hk Hl Hos Hn. unfold cache_insert. cbn [negb]. run_simpl. rewrite rd_key. run_simpl.
  set (c0 := with_entries c (entries c ++ [CacheEntry k d now])).
  assert (Hr : recent (entries (fst (cache_evict c0))) k d 0 /\ max_entries (fst (cache_evict c0)) = max_entries c).
  { split; [|apply (evict_accounts c0)]. pose proof (len_nonneg os).
    assert (Hbase : forall q, Forall (fun e => ce_key e <> k) q -> recent (q ++ [CacheEntry k d now]) k d 0)
      by (intros q Hq; exists q, now, []; by rewrite app_nil_r).
    unfold cache_evict, c0. cbn [entries with_entries max_entries].
    destruct (_ <=? _) eqn:Hfull; [|by apply Hbase].
    destruct (entries c) as [|e l]; cbn [app fst entries with_entries].
    - apply Z.leb_le in Hfull. change (len ([] ++ [CacheEntry k d now])) with 1 in Hfull. lia.
    - apply Hbase. by apply Forall_cons_iff in Hk as [_ ?]. }
  destruct (cache_evict c0) as [c1 fr1]. cbn [fst] in Hr. destruct Hr as [Hr Hm].
  destruct (recent_run older os c1 k d 0 Hr Hos) as (c2 & fr2 & Hrun & Hr2); [lia|].
  destruct (recent_lookup c2 k d _ now' Hr2) as (c3 & Hlk).
  by exists c1, fr1, c2, fr2, c3.
Qed.

(** [cache_clear] removes exactly the entries older than the age, keeps the
    others in their order, and releases the removed ones in order. *)
Theorem cache_clear_filters {D T} (older : T -> T -> T -> bool) (c : cache D T) age now :
  cache_clear older (Some c) age now
  = (0, Some (with_entries c (List.filter (fun e => negb (older now (ce_ts e) age)) (entries c))),
     concat (release c <$> List.filter (fun e => older now (ce_ts e) age) (entries c))).
Proof.
  unfold cache_clear.
  assert (Hl : forall l, cache_clear_loop older c now age l
    = (List.filter (fun e => negb (older now (ce_ts e) age)) l,
       concat (release c <$> List.filter (fun e => older now (ce_ts e) age) l))).
  { induction l as [|e l IH]; [done|]. cbn [cache_clear_loop List.filter]. rewrite IH.
    by destruct (older now (ce_ts e) age). }
  by rewrite Hl.
Qed.

Definition toy_older (now ts age : Z) : bool := age <? now - ts.
Definition toy_ops : list (cache_op nat Z) :=
  [OpInsert [1] (Some 10%nat) 0; OpInsert [2] (Some 20%nat) 1; OpLookup [1] 2; OpInsert [3] None 3;
   OpInsert [4] (Some 40%nat) 4; OpRemove [1]; OpClear 0 9].
Lemma cache_accounts_witness :
  exists c' fr, cache_run toy_older (Cache 4 [] true) toy_ops = Ret (c', fr) /\
    [10; 20; 40]%nat ≡ₚ (freed_data <$> fr) ++ live_data (entries c') /\ len (entries c') <= 3 /\
    NoDup (keys c').
Proof.
  destruct (cache_accounts toy_older 4 true toy_ops (Cache 4 [] true)) as (c' & fr & Hr & Hp & Hl & Hk); [done|done|].
  exists c', fr. split; [exact Hr|]. split; [exact Hp|]. split; [exact Hl|]. apply Hk.
  unfold toy_ops. cbn [inserts_absent].
  repeat (split; [first [exact I|apply (bool_decide_unpack _); by vm_compute]|intros ? ? E; vm_compute in E; injection E as <- <-]).
  exact I.
Defined.
Lemma cache_keeps_recent_witness :
  exists c1 fr1 c2 fr2 c3,
    cache_insert (Some (Cache 4 [CacheEntry [5] (Some 50%nat) 0] true)) (Some [1]) 1 (Some 10%nat) true 1
    = Ret (0, Some c1, fr1) /\
    cache_run toy_older c1 [OpInsert [2] None 2; OpInsert [3] (Some 30%nat) 3] = Ret (c2, fr2) /\
    cache_lookup (Some c2) (Some [1]) 1 (Some tt) 4 = Ret (0, Some c3, Some (Some 10%nat)).
Proof.
  apply (cache_keeps_recent toy_older (Cache 4 [CacheEntry [5] (Some 50%nat) 0] true) [1] (Some 10%nat) 1 4
           [OpInsert [2] None 2; OpInsert [3] (Some 30%nat) 3]); [|done| |done].
  - apply Forall_singleton. done.
  - apply Forall_cons; [done|]. by apply Forall_singleton.
Defined.
