(* ===== verification/Http.v ===== *)
(** * http.c: the Host header of a sniffed HTTP request

    [data] is the buffer, an [off] the position of a moving [char *], lengths are
    the [int]s of the code. *)
From S2P Require Import Prelude.

Definition CR : Z := 13.
Definition LF : Z := 10.

(** ** The C library on strings *)

Definition isblank (c : Z) : bool := (c =? 32) || (c =? 9).
Definition tolower (c : Z) : Z := if (65 <=? c) && (c <=? 90) then c + 32 else c.

(** [strncasecmp(s, data + off, n) == 0], for a string [s] of [n] characters other
    than NUL; characters are compared until the first difference. *)
Fixpoint strncasecmp_eq (s data : bytes) (off : Z) : run bool :=
  match s with
  | [] => mret true
  | c :: s =>
      d ← rd data off;
      if tolower c =? tolower d then strncasecmp_eq s data (off + 1) else mret false
  end.

(** [strncpy] of [n] characters: what follows a NUL is zero. *)
Fixpoint strncpy (l : bytes) : bytes :=
  match l with
  | [] => []
  | c :: l => if c =? 0 then 0 :: ((fun _ => 0) <$> l) else c :: strncpy l
  end.

(** ** next_header *)

Fixpoint next_header_skip (fuel : nat) (data : bytes) (off len : Z) : run (Z * Z) :=
  if negb (2 <? len) then mret (off, len)
  else
    match fuel with
    | O => Fail Exited
    | S fuel =>
        c0 ← rd data off;
        if c0 =? CR then mret (off, len)
        else
          c1 ← rd data (off + 1);
          if c1 =? LF then mret (off, len)
          else next_header_skip fuel data (off + 1) (len - 1)
    end.
Fixpoint next_header_scan (fuel : nat) (data : bytes) (off len header_len : Z) : run Z :=
  if negb (header_len + 1 <? len) then mret header_len
  else
    match fuel with
    | O => Fail Exited
    | S fuel =>
        c0 ← rd data (off + header_len);
        if c0 =? CR then mret header_len
        else
          c1 ← rd data (off + header_len + 1);
          if c1 =? LF then mret header_len
          else next_header_scan fuel data off len (header_len + 1)
    end.

(** The header's length, [*data] and [*len]. *)
Definition next_header (data : bytes) (off len : Z) : run (Z * Z * Z) :=
  '(off, len) ← next_header_skip (Z.to_nat len) data off len;
  let off := off + 2 in
  let len := len - 2 in
  header_len ← next_header_scan (Z.to_nat len) data off len 0;
  mret (header_len, off, len).

(** ** get_header *)

Definition HOST : bytes := [72; 111; 115; 116; 58].

Fixpoint eat_blank (fuel : nat) (data : bytes) (off header_len len : Z) : run Z :=
  if negb (header_len <? len) then mret header_len
  else
    match fuel with
    | O => Fail Exited
    | S fuel =>
        c ← rd data (off + header_len);
        if isblank c then eat_blank fuel data off (header_len + 1) len else mret header_len
    end.

(** The result and what [*value] points to; [mem] tells whether [malloc] has
    memory. *)
Fixpoint get_header_loop (fuel : nat) (header data : bytes) (off data_len : Z) (mem : bool)
    : run (Z * option bytes) :=
  let header_len := len header in
  '(len, off, data_len) ← next_header data off data_len;
  if len =? 0 then
    if data_len =? 0 then mret (-1, None) else mret (-2, None)
  else
    eq ← (if header_len <? len then strncasecmp_eq header data off else mret false);
    if (eq : bool) then
      header_len ← eat_blank (Z.to_nat len) data off header_len len;
      if negb mem then mret (-4, None)
      else
        v ← rd_range data (off + header_len) (len - header_len);
        mret (len - header_len, Some (strncpy v ++ [0]))
    else
      match fuel with
      | O => Fail Exited
      | S fuel => get_header_loop fuel header data off data_len mem
      end.
Definition get_header (header data : bytes) (data_len : Z) (mem : bool) : run (Z * option bytes) :=
  get_header_loop (length data) header data 0 data_len mem.

(** ** parse_http_header *)

(** The loop that cuts off the port: [i] counts down. *)
Fixpoint trim_port (fuel : nat) (hostname : bytes) (i result : Z) : run (Z * bytes) :=
  if negb (0 <=? i) then mret (result, hostname)
  else
    match fuel with
    | O => Fail Exited
    | S fuel =>
        c ← rd hostname i;
        if c =? 58 then hostname ← wr hostname i 0; mret (i, hostname)
        else trim_port fuel hostname (i - 1) result
    end.

(** [hostname] is the caller's pointer. *)
Definition parse_http_header (data : bytes) (data_len : Z) (hostname : option unit) (mem : bool)
    : run (Z * option bytes) :=
  match hostname with
  | None => mret (-3, None)
  | Some _ =>
      if data_len =? 0 then mret (-1, None)
      else
        '(result, value) ← get_header HOST data (s32 data_len) mem;
        if result <? 0 then mret (result, value)
        else
          host ← deref value;
          '(result, host) ← trim_port (Z.to_nat result) host (result - 1) result;
          mret (result, Some host)
  end.

(** ** Safety *)

Lemma skip_total fuel : forall data off n, 0 <= off -> off + n <= len data -> n <= Z.of_nat fuel + 2 ->
  exists off' n', next_header_skip fuel data off n = Ret (off', n') /\
    off <= off' /\ off' + n' = off + n /\ n' <= n /\ (2 <= n -> 2 <= n').
Proof.
  induction fuel as [|fuel IH]; intros data off n Ho Hn Hf; cbn [next_header_skip].
  { rewrite (proj2 (Z.ltb_ge 2 n)) by lia. cbn [negb]. exists off, n. split; [done|]. lia. }
  destruct (Z.ltb_spec 2 n) as [H2|H2]; cbn [negb]; [|exists off, n; split; [done|]; lia].
  destruct (rd_ok data off) as (c0 & -> & _); [lia|]. run_simpl.
  destruct (c0 =? CR); [exists off, n; split; [done|]; lia|].
  destruct (rd_ok data (off + 1)) as (c1 & -> & _); [lia|]. run_simpl.
  destruct (c1 =? LF); [exists off, n; split; [done|]; lia|].
  destruct (IH data (off + 1) (n - 1)) as (off' & n' & -> & H); [lia|lia|lia|].
  exists off', n'. split; [done|]. lia.
Qed.
Lemma scan_total fuel : forall data off n h, 0 <= off -> 0 <= h -> off + n <= len data ->
  n - h <= Z.of_nat fuel + 1 ->
  exists h', next_header_scan fuel data off n h = Ret h' /\ h <= h' /\ (h' = h \/ h' < n).
Proof.
  induction fuel as [|fuel IH]; intros data off n h Ho Hh Hn Hf; cbn [next_header_scan].
  { rewrite (proj2 (Z.ltb_ge (h + 1) n)) by lia. cbn [negb]. exists h. split; [done|]. lia. }
  destruct (Z.ltb_spec (h + 1) n) as [H2|H2]; cbn [negb]; [|exists h; split; [done|]; lia].
  destruct (rd_ok data (off + h)) as (c0 & -> & _); [lia|]. run_simpl.
  destruct (c0 =? CR); [exists h; split; [done|]; lia|].
  destruct (rd_ok data (off + h + 1)) as (c1 & -> & _); [lia|]. run_simpl.
  destruct (c1 =? LF); [exists h; split; [done|]; lia|].
  destruct (IH data off n (h + 1)) as (h' & -> & H); [lia|lia|lia|lia|].
  exists h'. split; [done|]. lia.
Qed.
Lemma next_header_total data off n : 0 <= off -> off + n <= len data ->
  exists h off' n', next_header data off n = Ret (h, off', n') /\
    off + 2 <= off' /\ off' + n' = off + n /\ n' <= n - 2 /\ 0 <= h /\ (h <> 0 -> h < n').
Proof.
  intros Ho Hn. unfold next_header.
  destruct (skip_total (Z.to_nat n) data off n) as (o1 & n1 & -> & H1); [lia|lia|lia|]. run_simpl.
  destruct (scan_total (Z.to_nat (n1 - 2)) data (o1 + 2) (n1 - 2) 0) as (h & -> & H2); [lia|lia|lia|lia|]. run_simpl.
  exists h, (o1 + 2), (n1 - 2). split; [done|]. lia.
Qed.

Lemma strncasecmp_total s : forall data off, 0 <= off -> off + len s <= len data ->
  exists b, strncasecmp_eq s data off = Ret b.
Proof.
  induction s as [|c s IH]; intros data off Ho Hl; cbn [strncasecmp_eq]; [by eexists|].
  rewrite len_cons in Hl. pose proof (len_nonneg s).
  destruct (rd_ok data off) as (d & -> & _); [lia|]. run_simpl.
  destruct (_ =? _); [|by eexists]. apply IH; lia.
Qed.
Lemma eat_blank_total fuel : forall data off h n, 0 <= off -> 0 <= h <= n -> off + n <= len data ->
  n - h <= Z.of_nat fuel -> exists h', eat_blank fuel data off h n = Ret h' /\ h <= h' <= n.
Proof.
  induction fuel as [|fuel IH]; intros data off h n Ho Hh Hn Hf; cbn [eat_blank].
  { rewrite (proj2 (Z.ltb_ge h n)) by lia. cbn [negb]. exists h. split; [done|]. lia. }
  destruct (Z.ltb_spec h n) as [H2|H2]; cbn [negb]; [|exists h; split; [done|]; lia].
  destruct (rd_ok data (off + h)) as (c & -> & _); [lia|]. run_simpl.
  destruct (isblank c); [|exists h; split; [done|]; lia].
  destruct (IH data off (h + 1) n) as (h' & -> & H); [lia|lia|lia|lia|]. exists h'. split; [done|]. lia.
Qed.
Lemma len_strncpy l : len (strncpy l) = len l.
Proof.
  induction l as [|c l IH]; [done|]. cbn [strncpy]. destruct (c =? 0); rewrite !len_cons; [|lia].
  unfold len. by rewrite length_fmap.
Qed.

Lemma get_header_total fuel : forall header data off n mem,
  0 <= off -> off + n <= len data -> n <= 2 * Z.of_nat fuel + 1 ->
  exists code v, get_header_loop fuel header data off n mem = Ret (code, v) /\
    (code = -1 \/ code = -2 \/ code = -4 \/
     (0 <= code < n /\ exists s, v = Some (s ++ [0]) /\ len s = code)).
Proof.
  induction fuel as [|fuel IH]; intros header data off n mem Ho Hn Hf; cbn [get_header_loop];
    destruct (next_header_total data off n Ho Hn) as (h & off' & n' & -> & Ho' & Hon & Hn' & Hh & Hlt); run_simpl;
    destruct (Z.eqb_spec h 0) as [->|Hne];
    try (destruct (n' =? 0); eexists _, _; (split; [reflexivity|]); auto; fail).
  { lia. }
  specialize (Hlt Hne). pose proof (len_nonneg header) as Hhd.
  assert (Heq : exists b, (if len header <? h then strncasecmp_eq header data off' else mret false) = Ret b).
  { destruct (Z.ltb_spec (len header) h); [|by eexists]. apply strncasecmp_total; lia. }
  destruct Heq as (b & Hb). rewrite Hb. run_simpl. destruct b; [|].
  - destruct (Z.ltb_spec (len header) h) as [Hlh|]; [|done].
    destruct (eat_blank_total (Z.to_nat h) data off' (len header) h) as (k & -> & Hk); [lia|lia|lia|lia|].
    run_simpl. destruct mem; cbn [negb]; [|eexists _, _; split; [reflexivity|]; auto].
    rewrite rd_range_ok by lia. run_simpl. eexists _, _. split; [reflexivity|]. do 3 right.
    split; [lia|]. eexists. split; [reflexivity|]. rewrite len_strncpy, len_ztake; [done|].
    rewrite len_zdrop; lia.
  - destruct (IH header data off' n' mem) as (code & v & -> & Hc); [lia|lia|lia|].
    eexists _, _. split; [reflexivity|]. destruct Hc as [|[|[|[? ?]]]]; auto.
    do 3 right. split; [lia|done].
Qed.

Lemma trim_port_total fuel : forall h i r, i < len h -> i < Z.of_nat fuel -> r < len h -> i < r ->
  exists r' h', trim_port fuel h i r = Ret (r', h') /\ len h' = len h /\
    ((r' = r /\ h' = h) \/ (0 <= r' <= i /\ h' !! Z.to_nat r' = Some 0)).
Proof.
  induction fuel as [|fuel IH]; intros h i r Hi Hf Hr Hir; cbn [trim_port].
  { rewrite (proj2 (Z.leb_gt 0 i)) by lia. cbn [negb]. exists r, h. auto. }
  destruct (Z.leb_spec 0 i) as [H0|H0]; cbn [negb]; [|exists r, h; auto].
  destruct (rd_ok h i) as (c & -> & _); [lia|]. run_simpl.
  destruct (c =? 58).
  - unfold wr. rewrite wr_range_ok by (change (len [0]) with 1; lia). run_simpl.
    eexists _, _. split; [reflexivity|]. change (len [0]) with 1. split.
    + rewrite !len_app, len_ztake, len_zdrop by lia. change (len [0]) with 1. lia.
    + right. split; [lia|]. pose proof (len_ztake i h). rewrite lookup_app_r by (unfold len in *; lia).
      replace (Z.to_nat i - length (ztake i h))%nat with O by (unfold len in *; lia). done.
  - destruct (IH h (i - 1) r) as (r' & h' & -> & Hl & Hc); [lia|lia|lia|lia|].
    exists r', h'. split; [done|]. split; [done|]. destruct Hc as [?|[? ?]]; [by left|]. right. split; [lia|done].
Qed.

(** ** Well-formed requests *)

(** A header line: not empty, without CR, LF and NUL. *)
Definition line_ok (l : bytes) : Prop := l <> [] /\ Forall (fun c => c <> CR /\ c <> LF /\ c <> 0) l.
Definition lines (ls : list bytes) : bytes := concat ((fun l => l ++ [CR; LF]) <$> ls).

Definition is_host (l : bytes) : bool :=
  (5 <? len l) && bool_decide (tolower <$> ztake 5 l = tolower <$> HOST).

(** What the code makes of such a line: blanks skipped, then cut at the last
    colon.  [host_line_found] below relates it to the grammar of the header. *)
Fixpoint drop_blank (l : bytes) : bytes :=
  match l with c :: l' => if isblank c then drop_blank l' else l | [] => [] end.
Fixpoint cut_last_colon (l : bytes) : option bytes :=
  match l with
  | [] => None
  | c :: l' =>
      match cut_last_colon l' with
      | Some k => Some (c :: k)
      | None => if c =? 58 then Some [] else None
      end
  end.
Definition host_of (l : bytes) : bytes :=
  let v := drop_blank (zdrop 5 l) in default v (cut_last_colon v).

Definition plain_line (l : bytes) : Prop := Forall (fun c => c <> CR /\ c <> LF /\ c <> 0) l.

Lemma rd_app_next (pre k : bytes) x y i : i = len pre + 1 -> rd (pre ++ x :: y :: k) i = Ret y.
Proof.
  intros ->. replace (pre ++ x :: y :: k) with ((pre ++ [x]) ++ y :: k) by (by rewrite <- app_assoc).
  apply rd_app_exact. by rewrite len_app.
Qed.

Lemma skip_line l : plain_line l -> forall fuel pre rest n,
  n = len l + 2 + len rest -> n <= Z.of_nat fuel + 2 ->
  next_header_skip fuel (pre ++ l ++ CR :: LF :: rest) (len pre) n = Ret (len pre + len l, 2 + len rest).
Proof.
  induction l as [|c l IH]; intros Hl fuel pre rest n Hn Hf; pose proof (len_nonneg rest);
    rewrite ?len_cons in Hn; change (len (@nil Z)) with 0 in *; cbn [app].
  - replace (len pre + 0) with (len pre) by lia. replace n with (2 + len rest) in * by lia.
    destruct fuel as [|fuel]; cbn [next_header_skip].
    + by rewrite (proj2 (Z.ltb_ge 2 (2 + len rest))) by lia.
    + destruct (2 <? 2 + len rest); cbn [negb]; [|done]. rewrite (rd_app_exact pre CR _ (len pre)) by done. reflexivity.
  - apply Forall_cons_iff in Hl as [(Hc1 & Hc2 & _) Hl]. pose proof (len_nonneg l).
    destruct fuel as [|fuel]; [lia|]. cbn [next_header_skip].
    rewrite (proj2 (Z.ltb_lt 2 n)) by lia. cbn [negb]. rewrite (rd_app_exact pre _ _ (len pre)) by done. run_simpl.
    rewrite (proj2 (Z.eqb_neq c CR)) by done.
    assert (H1 : exists d, rd (pre ++ c :: l ++ CR :: LF :: rest) (len pre + 1) = Ret d /\ d <> LF).
    { destruct l as [|d l]; cbn [app].
      - exists CR. by rewrite rd_app_next.
      - apply Forall_cons_iff in Hl as [(_ & Hd & _) _]. exists d. by rewrite rd_app_next. }
    destruct H1 as (d & -> & Hd). run_simpl. rewrite (proj2 (Z.eqb_neq d LF)) by done.
    specialize (IH Hl fuel (pre ++ [c]) rest (n - 1)). rewrite len_app, <- app_assoc in IH.
    change (len [c]) with 1 in IH. cbn [app] in IH. rewrite IH by lia. rewrite len_cons. do 2 f_equal. lia.
Qed.

Lemma scan_line l2 : plain_line l2 -> forall fuel pre l1 rest n,
  n = len l1 + len l2 + 2 + len rest -> n <= Z.of_nat fuel + len l1 ->
  next_header_scan fuel (pre ++ l1 ++ l2 ++ CR :: LF :: rest) (len pre) n (len l1) = Ret (len l1 + len l2).
Proof.
  induction l2 as [|c l IH]; intros Hl fuel pre l1 rest n Hn Hf; pose proof (len_nonneg rest);
    rewrite ?len_cons in Hn; change (len (@nil Z)) with 0 in *; cbn [app].
  - destruct fuel as [|fuel]; [lia|]. cbn [next_header_scan].
    rewrite (proj2 (Z.ltb_lt (len l1 + 1) n)) by lia. cbn [negb].
    rewrite (app_assoc pre l1), (rd_app_exact (pre ++ l1) _ _ (len pre + len l1)) by (by rewrite len_app). run_simpl.
    change (CR =? CR) with true. cbv iota. by rewrite Z.add_0_r.
  - apply Forall_cons_iff in Hl as [(Hc1 & Hc2 & _) Hl]. pose proof (len_nonneg l).
    destruct fuel as [|fuel]; [lia|]. cbn [next_header_scan].
    rewrite (proj2 (Z.ltb_lt (len l1 + 1) n)) by lia. cbn [negb].
    rewrite (app_assoc pre l1), (rd_app_exact (pre ++ l1) _ _ (len pre + len l1)) by (by rewrite len_app). run_simpl.
    rewrite (proj2 (Z.eqb_neq c CR)) by done.
    assert (H1 : exists d, rd ((pre ++ l1) ++ c :: l ++ CR :: LF :: rest) (len pre + len l1 + 1) = Ret d /\ d <> LF).
    { destruct l as [|d l]; cbn [app].
      - exists CR. by rewrite rd_app_next by (by rewrite len_app).
      - apply Forall_cons_iff in Hl as [(_ & Hd & _) _]. exists d. by rewrite rd_app_next by (by rewrite len_app). }
    destruct H1 as (d & -> & Hd). run_simpl. rewrite (proj2 (Z.eqb_neq d LF)) by done.
    specialize (IH Hl fuel pre (l1 ++ [c]) rest n). rewrite len_app in IH. change (len [c]) with 1 in IH.
    rewrite <- !app_assoc in *. cbn [app] in IH. rewrite IH by lia. rewrite len_cons. f_equal. lia.
Qed.

(** One step from a line to what follows it. *)
Lemma next_header_line l pre l2 rest : plain_line l -> plain_line l2 ->
  next_header (pre ++ l ++ CR :: LF :: l2 ++ CR :: LF :: rest) (len pre)
    (len l + 2 + (len l2 + 2 + len rest))
  = Ret (len l2, len pre + len l + 2, len l2 + 2 + len rest).
Proof.
  intros Hl Hl2. unfold next_header. pose proof (len_nonneg l). pose proof (len_nonneg l2). pose proof (len_nonneg rest).
  assert (Hr : len (l2 ++ CR :: LF :: rest) = len l2 + 2 + len rest) by (rewrite len_app, !len_cons; lia).
  rewrite (skip_line l Hl _ pre (l2 ++ CR :: LF :: rest)) by lia. run_simpl.
  rewrite len_app, !len_cons.
  replace (2 + (len l2 + (1 + (1 + len rest))) - 2) with (len l2 + 2 + len rest) by lia.
  replace (pre ++ l ++ CR :: LF :: l2 ++ CR :: LF :: rest)
    with ((pre ++ l ++ [CR; LF]) ++ [] ++ l2 ++ CR :: LF :: rest) by (rewrite <- !app_assoc; done).
  replace (len pre + len l + 2) with (len (pre ++ l ++ [CR; LF])) by (rewrite !len_app; change (len [CR; LF]) with 2; lia).
  pose proof (scan_line l2 Hl2 (Z.to_nat (len l2 + 2 + len rest)) (pre ++ l ++ [CR; LF]) [] rest
    (len l2 + 2 + len rest)) as Hs. change (len (@nil Z)) with 0 in Hs. rewrite Hs by lia. done.
Qed.
Lemma next_header_end l pre : plain_line l ->
  next_header (pre ++ l ++ [CR; LF]) (len pre) (len l + 2) = Ret (0, len pre + len l + 2, 0).
Proof.
  intros Hl. unfold next_header. pose proof (len_nonneg l).
  rewrite (skip_line l Hl _ pre [] (len l + 2)) by (change (len (@nil Z)) with 0; lia). done.
Qed.

Lemma strncasecmp_spec s : forall data pre l rest, data = pre ++ l ++ rest -> len s <= len l ->
  strncasecmp_eq s data (len pre) = Ret (bool_decide (tolower <$> ztake (len s) l = tolower <$> s)).
Proof.
  induction s as [|c s IH]; intros data pre l rest -> Hl; cbn [strncasecmp_eq].
  { by rewrite bool_decide_true. }
  rewrite len_cons in *. pose proof (len_nonneg s). destruct l as [|d l]; [change (len (@nil Z)) with 0 in Hl; lia|].
  rewrite len_cons in Hl. cbn [app]. rewrite (rd_app_exact pre _ _ (len pre)) by done. run_simpl.
  replace (ztake (1 + len s) (d :: l)) with (d :: ztake (len s) l)
    by (unfold ztake; replace (Z.to_nat (1 + len s)) with (S (Z.to_nat (len s))) by lia; done).
  rewrite !fmap_cons. destruct (Z.eqb_spec (tolower c) (tolower d)) as [Heq|Hne].
  - replace (len pre + 1) with (len (pre ++ [d])) by (rewrite len_app; done).
    rewrite (IH _ (pre ++ [d]) l rest) by (rewrite <- ?app_assoc; done || lia). f_equal.
    apply bool_decide_ext. rewrite Heq. split; [by intros ->|by intros [= ->]].
  - rewrite bool_decide_false; [done|]. intros [= H1 H2]. by rewrite H1 in Hne.
Qed.

Lemma eat_blank_spec l2 : forall fuel pre l1 rest, len l2 <= Z.of_nat fuel ->
  eat_blank fuel (pre ++ l1 ++ l2 ++ rest) (len pre) (len l1) (len l1 + len l2)
  = Ret (len l1 + len l2 - len (drop_blank l2)).
Proof.
  induction l2 as [|c l IH]; intros fuel pre l1 rest Hf.
  - change (len (@nil Z)) with 0 in *. destruct fuel; cbn [eat_blank drop_blank];
      rewrite (proj2 (Z.ltb_ge (len l1) _)) by lia; cbn [negb]; f_equal; change (len (@nil Z)) with 0; lia.
  - rewrite len_cons in *. pose proof (len_nonneg l). destruct fuel as [|fuel]; [lia|].
    cbn [eat_blank drop_blank]. rewrite (proj2 (Z.ltb_lt (len l1) _)) by lia. cbn [negb app].
    rewrite (app_assoc pre), (rd_app_exact (pre ++ l1) _ _ (len pre + len l1)) by (by rewrite len_app). run_simpl.
    destruct (isblank c); [|rewrite len_cons; f_equal; lia].
    specialize (IH fuel pre (l1 ++ [c]) rest). rewrite len_app in IH. change (len [c]) with 1 in IH.
    rewrite <- !app_assoc in *. cbn [app] in *.
    replace (len l1 + (1 + len l)) with (len l1 + 1 + len l) by lia. rewrite IH by lia. done.
Qed.
Lemma drop_blank_suffix l : exists k, l = k ++ drop_blank l.
Proof.
  induction l as [|c l [k IH]]; [by exists []|]. cbn [drop_blank]. destruct (isblank c); [|by exists []].
  exists (c :: k). cbn. by f_equal.
Qed.
Lemma strncpy_plain l : plain_line l -> strncpy l = l.
Proof.
  induction 1 as [|c l (_ & _ & Hc) _ IH]; [done|]. cbn [strncpy].
  rewrite (proj2 (Z.eqb_neq c 0)) by done. by rewrite IH.
Qed.

(** The value that [get_header] copies from a header line. *)
Definition value_of (l : bytes) : bytes := drop_blank (zdrop 5 l).

Lemma header_eq pre l rest :
  (if 5 <? len l then strncasecmp_eq HOST (pre ++ l ++ CR :: LF :: rest) (len pre) else mret false)
  = Ret (is_host l).
Proof.
  unfold is_host. destruct (Z.ltb_spec 5 (len l)); cbn [andb]; [|done].
  by rewrite (strncasecmp_spec HOST _ pre l (CR :: LF :: rest)) by (done || (change (len HOST) with 5; lia)).
Qed.

Lemma host_value fuel pre l rest : 5 < len l -> plain_line l -> len l <= Z.of_nat fuel ->
  (header_len ← eat_blank fuel (pre ++ l ++ CR :: LF :: rest) (len pre) 5 (len l);
   v ← rd_range (pre ++ l ++ CR :: LF :: rest) (len pre + header_len) (len l - header_len);
   mret (len l - header_len, Some (strncpy v ++ [0]))) = Ret (len (value_of l), Some (value_of l ++ [0])).
Proof.
  intros H5 Hl Hf.
  pose proof (len_ztake 5 l) as H1. pose proof (len_zdrop 5 l) as H2.
  pose proof (eat_blank_spec (zdrop 5 l) fuel pre (ztake 5 l) (CR :: LF :: rest)) as He.
  rewrite (app_assoc (ztake 5 l)), ztake_zdrop in He. rewrite H1, H2 in He by lia.
  replace (5 + (len l - 5)) with (len l) in He by lia. rewrite He by lia. run_simpl.
  fold (value_of l). destruct (drop_blank_suffix (zdrop 5 l)) as [k Hk]. fold (value_of l) in Hk.
  assert (Hl2 : l = (ztake 5 l ++ k) ++ value_of l) by (rewrite <- app_assoc, <- Hk; by rewrite ztake_zdrop).
  set (q := ztake 5 l ++ k) in Hl2. set (v := value_of l) in *. clearbody q v.
  assert (Hlq : len l = len q + len v) by (rewrite Hl2 at 1; apply len_app).
  replace (len l - (len l - len v)) with (len v) by lia. subst l.
  rewrite <- (app_assoc q), (app_assoc pre q), rd_range_mid by (rewrite ?len_app; lia). run_simpl.
  rewrite strncpy_plain; [done|]. unfold plain_line in *. by apply Forall_app in Hl as [_ Hl].
Qed.

(** [get_header] on whole lines: the first header line for the host wins; the
    blank line decides between absent and incomplete. *)
Lemma get_header_spec ls tail : Forall line_ok ls -> (tail = [] \/ exists body, tail = CR :: LF :: body) ->
  forall fuel l0 pre n, plain_line l0 -> n = len l0 + 2 + len (lines ls ++ tail) -> n <= Z.of_nat fuel ->
  get_header_loop fuel HOST (pre ++ l0 ++ CR :: LF :: lines ls ++ tail) (len pre) n true
  = Ret match List.find is_host ls with
        | Some l => (len (value_of l), Some (value_of l ++ [0]))
        | None => (if bool_decide (tail = []) then -1 else -2, None)
        end.
Proof.
  intros Hls Htail. induction Hls as [|l ls [Hne Hl] Hls IH]; intros fuel l0 pre n Hl0 Hn Hf; subst n.
  - change (lines []) with (@nil Z) in *. cbn [app List.find] in *. pose proof (len_nonneg l0).
    destruct Htail as [->|[body ->]].
    + change (len (@nil Z)) with 0 in *. rewrite Z.add_0_r in *.
      destruct fuel as [|fuel]; [lia|]. cbn [get_header_loop]. rewrite next_header_end by done. reflexivity.
    + pose proof (len_nonneg body). rewrite !len_cons in *. destruct fuel as [|fuel]; [lia|]. cbn [get_header_loop].
      pose proof (next_header_line l0 pre [] body Hl0 ltac:(constructor)) as Hnh.
      change (len (@nil Z)) with 0 in Hnh. cbn [app] in Hnh.
      replace (len l0 + 2 + (1 + (1 + len body))) with (len l0 + 2 + (0 + 2 + len body)) by lia.
      rewrite Hnh. run_simpl. change (0 =? 0) with true. cbv iota.
      rewrite (proj2 (Z.eqb_neq (0 + 2 + len body) 0)) by lia. done.
  - assert (Hsplit : lines (l :: ls) ++ tail = l ++ CR :: LF :: lines ls ++ tail)
      by (unfold lines; cbn; by rewrite <- !app_assoc).
    rewrite Hsplit in Hf |- *. rewrite (len_app l), !len_cons in Hf |- *. cbn [List.find].
    pose proof (len_nonneg l0). pose proof (len_nonneg (lines ls ++ tail)).
    assert (0 < len l).
    { pose proof (len_nonneg l). destruct (Z.eq_dec (len l) 0) as [Hz|]; [by apply len_0_nil in Hz|lia]. }
    destruct fuel as [|fuel]; [lia|]. cbn [get_header_loop].
    replace (len l0 + 2 + (len l + (1 + (1 + len (lines ls ++ tail)))))
      with (len l0 + 2 + (len l + 2 + len (lines ls ++ tail))) by lia.
    rewrite next_header_line by done. run_simpl. rewrite (proj2 (Z.eqb_neq (len l) 0)) by lia.
    change (len HOST) with 5.
    replace (pre ++ l0 ++ CR :: LF :: l ++ CR :: LF :: lines ls ++ tail)
      with ((pre ++ l0 ++ [CR; LF]) ++ l ++ CR :: LF :: lines ls ++ tail) by (rewrite <- !app_assoc; done).
    replace (len pre + len l0 + 2) with (len (pre ++ l0 ++ [CR; LF]))
      by (rewrite !len_app; change (len [CR; LF]) with 2; lia).
    rewrite header_eq. run_simpl. destruct (is_host l) eqn:Hh.
    + assert (5 < len l) by (unfold is_host in Hh; by apply andb_true_iff in Hh as [?%Z.ltb_lt _]).
      cbn [negb]. by rewrite host_value by (done || lia).
    + by rewrite IH by (done || lia).
Qed.

Lemma cut_last_colon_app v : match cut_last_colon v with
  | Some k => exists r, v = k ++ 58 :: r /\ Forall (fun c => c <> 58) r
  | None => Forall (fun c => c <> 58) v end.
Proof.
  induction v as [|c v IH]; cbn [cut_last_colon]; [constructor|].
  destruct (cut_last_colon v) as [k|].
  - destruct IH as (r & -> & Hr). by exists r.
  - destruct (Z.eqb_spec c 58) as [->|Hne]; [by exists v|by constructor].
Qed.

(** The port loop, from the end of the value downwards. *)
Lemma trim_port_skip r : Forall (fun c => c <> 58) r -> forall fuel k z x,
  Z.of_nat fuel = len k + len r ->
  trim_port fuel (k ++ r ++ z) (len k + len r - 1) x
  = trim_port (Z.to_nat (len k)) (k ++ r ++ z) (len k - 1) x.
Proof.
  intros Hr. induction r as [|c r IH] using rev_ind; intros fuel k z x Hf.
  { change (len (@nil Z)) with 0 in *. rewrite Z.add_0_r in *. by replace (Z.to_nat (len k)) with fuel by lia. }
  apply Forall_app in Hr as [Hr Hc]. apply Forall_cons_iff in Hc as [Hc _].
  rewrite len_app in *. change (len [c]) with 1 in *. pose proof (len_nonneg k). pose proof (len_nonneg r).
  destruct fuel as [|fuel]; [lia|]. cbn [trim_port].
  rewrite (proj2 (Z.leb_le 0 _)) by lia. cbn [negb]. rewrite <- app_assoc. cbn [app].
  rewrite (app_assoc k), (rd_app_exact (k ++ r) c z (len k + (len r + 1) - 1)) by (rewrite len_app; lia). run_simpl.
  rewrite (proj2 (Z.eqb_neq c 58) Hc). rewrite <- app_assoc.
  replace (len k + (len r + 1) - 1 - 1) with (len k + len r - 1) by lia.
  apply (IH Hr fuel k (c :: z) x). lia.
Qed.

Lemma trim_port_spec v : exists h,
  trim_port (Z.to_nat (len v)) (v ++ [0]) (len v - 1) (len v)
  = Ret (len (default v (cut_last_colon v)), h) /\ starts_with (default v (cut_last_colon v) ++ [0]) h.
Proof.
  pose proof (cut_last_colon_app v) as Hc. destruct (cut_last_colon v) as [k|]; cbn [default from_option]; unfold id.
  - destruct Hc as (r & -> & Hr). pose proof (len_nonneg k). pose proof (len_nonneg r).
    pose proof (trim_port_skip r Hr (Z.to_nat (len (k ++ 58 :: r))) (k ++ [58]) [0] (len (k ++ 58 :: r))) as Hs.
    rewrite !len_app, len_cons in *. change (len [58]) with 1 in Hs. change (len (@nil Z)) with 0 in Hs.
    rewrite <- !app_assoc in *. cbn [app] in *.
    replace (len k + (1 + len r) - 1) with (len k + 1 + len r - 1) by lia. rewrite Hs by lia.
    replace (Z.to_nat (len k + 1)) with (S (Z.to_nat (len k))) by lia.
    cbn [trim_port]. rewrite (proj2 (Z.leb_le 0 _)) by lia. cbn [negb].
    rewrite (rd_app_exact k _ _ (len k + 1 - 1)) by lia. run_simpl. change (58 =? 58) with true. cbv iota.
    replace (len k + 1 - 1) with (len k) by lia.
    destruct (wr_range_extend k [0] (k ++ 58 :: r ++ [0]) (len k)) as (h & Hw & Hsw & _).
    { apply starts_with_split. by eexists. } { done. }
    { change (len [0]) with 1. rewrite len_app, len_cons. pose proof (len_nonneg (r ++ [0])). lia. }
    unfold wr. rewrite Hw. run_simpl. by exists h.
  - pose proof (trim_port_skip v Hc (Z.to_nat (len v)) [] [0] (len v)) as Hs.
    change (len (@nil Z)) with 0 in Hs. cbn [app] in Hs. rewrite Z.add_0_l in Hs.
    rewrite Hs by (pose proof (len_nonneg v); lia). exists (v ++ [0]). split; [done|]. apply starts_with_refl.
Qed.

(** The parser answers with a code or a name. *)
Lemma parse_http_header_total data hostname mem : len data <= INT_MAX ->
  exists code h, parse_http_header data (len data) hostname mem = Ret (code, h) /\
    (-4 <= code <= -1 \/ 0 <= code < len data /\ exists s, h = Some s /\ s !! Z.to_nat code = Some 0).
Proof.
  intros Hlen. pose proof (len_nonneg data). unfold parse_http_header, INT_MAX in *.
  destruct hostname; [|eexists _, _; split; [reflexivity|]; lia].
  destruct (len data =? 0); [eexists _, _; split; [reflexivity|]; lia|]. rewrite s32_small by lia. unfold get_header.
  destruct (get_header_total (length data) HOST data 0 (len data) mem) as (code & v & -> & Hc);
    [lia|lia|unfold len; lia|]. run_simpl.
  destruct (Z.ltb_spec code 0); [eexists _, _; split; [reflexivity|]; lia|].
  destruct Hc as [|[|[|(Hc & s & -> & Hs)]]]; [lia..|]. run_simpl.
  destruct (trim_port_total (Z.to_nat code) (s ++ [0]) (code - 1) code) as (r & h & -> & Hl & Hr);
    try (rewrite len_app; change (len [0]) with 1); try lia.
  run_simpl. eexists _, _. split; [reflexivity|]. right.
  destruct Hr as [[-> ->]|[Hr Hz]]; (split; [lia|]); eexists; (split; [reflexivity|]); [|done].
  rewrite lookup_app_r by (unfold len in Hs; lia).
  by replace (Z.to_nat code - length s)%nat with O by (unfold len in Hs; lia).
Qed.

(** ** Properties *)

(** C29: HTTP sniffing is safe.  On any bytes [parse_http_header] reads only inside
    the data, terminates, and returns -1, -2, -3, -4 or the length of a
    NUL-terminated name it allocated. *)
Theorem parse_http_header_safe data hostname mem : len data <= INT_MAX ->
  exists code h, parse_http_header data (len data) hostname mem = Ret (code, h) /\
    (-4 <= code <= -1 \/ 0 <= code < len data /\ exists s, h = Some s /\ s !! Z.to_nat code = Some 0).
Proof. apply parse_http_header_total. Qed.

(** The header as RFC 7230, section 5.4 writes it: the field name in any letter
    case, blanks, the host, and optionally a colon, the digits of a port and blanks. *)
Definition blank (c : Z) : Prop := c = 32 \/ c = 9.
Definition digit (c : Z) : Prop := 48 <= c <= 57.
Inductive field_value (host : bytes) : bytes -> Prop :=
  | host_alone : Forall (fun c => c <> 58) host -> field_value host host
  | host_port port trail : Forall digit port -> Forall blank trail -> field_value host (host ++ 58 :: port ++ trail).
Definition host_line (l host : bytes) : Prop := exists name ows v,
  l = name ++ ows ++ v /\ tolower <$> name = tolower <$> HOST /\ Forall blank ows /\
  host <> [] /\ Forall (fun c => ~ blank c) host /\ field_value host v.

Lemma isblank_true c : blank c -> isblank c = true.
Proof. by intros [-> | ->]. Qed.
Lemma isblank_false c : ~ blank c -> isblank c = false.
Proof. intros H. unfold isblank, blank in *. apply orb_false_iff. rewrite !Z.eqb_neq. lia. Qed.
Lemma drop_blank_app ows v : Forall blank ows -> drop_blank (ows ++ v) = drop_blank v.
Proof. induction 1 as [|c ows Hc _ IH]; [done|]. cbn [app drop_blank]. by rewrite isblank_true. Qed.
Lemma cut_last_colon_none r : Forall (fun c => c <> 58) r -> cut_last_colon r = None.
Proof. induction 1 as [|c r Hc _ IH]; [done|]. cbn [cut_last_colon]. rewrite IH. by rewrite (proj2 (Z.eqb_neq c 58)). Qed.
Lemma cut_last_colon_some k r : Forall (fun c => c <> 58) r -> cut_last_colon (k ++ 58 :: r) = Some k.
Proof.
  intros Hr. induction k as [|c k IH]; cbn [app cut_last_colon]; [by rewrite (cut_last_colon_none r)|]. by rewrite IH.
Qed.
Lemma host_line_found l host : host_line l host -> is_host l = true /\ host_of l = host.
Proof.
  intros (name & ows & v & -> & Hname & Hows & Hne & Hhost & Hv).
  assert (Hl : len name = 5) by (apply (f_equal length) in Hname; rewrite !length_fmap in Hname; unfold len; by rewrite Hname).
  assert (Hstart : exists c k w, host = c :: k /\ v = c :: w).
  { destruct host as [|c k]; [done|]. destruct Hv; by eexists _, _, _. }
  destruct Hstart as (c & k & w & Eh & Ev). split.
  - unfold is_host. rewrite ztake_app_exact by done. rewrite bool_decide_true by done. rewrite !len_app, Hl.
    rewrite Ev, len_cons. pose proof (len_nonneg ows). pose proof (len_nonneg w). by rewrite (proj2 (Z.ltb_lt _ _)) by lia.
  - unfold host_of. rewrite zdrop_app_exact, drop_blank_app by done.
    assert (Hd : drop_blank v = v).
    { rewrite Ev. cbn [drop_blank]. rewrite isblank_false; [done|]. rewrite Eh in Hhost. by apply Forall_cons_iff in Hhost as [? _]. }
    rewrite Hd. destruct Hv as [Hc|port trail Hp Ht]; [by rewrite cut_last_colon_none|].
    rewrite cut_last_colon_some; [done|]. apply Forall_app. split.
    + clear -Hp. induction Hp as [|x ? Hx]; constructor; [unfold digit in Hx; lia|done].
    + clear -Ht. induction Ht as [|x ? Hx]; constructor; [unfold blank in Hx; lia|done].
Qed.
Lemma find_first pre l post : Forall (fun l => is_host l = false) pre -> is_host l = true ->
  List.find is_host (pre ++ l :: post) = Some l.
Proof. intros Hp Hl. induction Hp as [|x pre Hx _ IH]; cbn; [by rewrite Hl|by rewrite Hx]. Qed.
Lemma find_no_host ls : Forall (fun l => is_host l = false) ls -> List.find is_host ls = None.
Proof. induction 1 as [|x ls Hx _ IH]; cbn; [done|by rewrite Hx]. Qed.

(** C30: HTTP sniffing finds the host.  In a request of complete lines, the first
    header line after the request line that begins with [Host:] (in any letter
    case) and says more, and that has the form of RFC 7230, gives its host, without
    the blanks around it and without the port - except that a host which itself
    contains a colon needs a port behind it and that only a port may be followed
    by blanks ([ipv6_literal_cut], [trailing_blank_kept] are what happens
    otherwise).  With no such line the answer is -2 once the blank line is there
    and -1 (incomplete) before. *)
Theorem parse_http_header_host l0 ls tail :
  line_ok l0 -> Forall line_ok ls -> (tail = [] \/ exists body, tail = CR :: LF :: body) ->
  let data := l0 ++ CR :: LF :: lines ls ++ tail in len data <= INT_MAX ->
  (forall pre l post host, ls = pre ++ l :: post -> Forall (fun l => is_host l = false) pre -> host_line l host ->
     exists h, parse_http_header data (len data) (Some tt) true = Ret (len host, Some h) /\ starts_with (host ++ [0]) h) /\
  (Forall (fun l => is_host l = false) ls ->
     parse_http_header data (len data) (Some tt) true = Ret (if bool_decide (tail = []) then -1 else -2, None)).
Proof.
  intros [_ Hl0] Hls Htail data Hlen. unfold parse_http_header, INT_MAX in *.
  assert (Hn : len data = len l0 + 2 + len (lines ls ++ tail)) by (unfold data; rewrite len_app, !len_cons; lia).
  pose proof (len_nonneg l0). pose proof (len_nonneg (lines ls ++ tail)).
  rewrite (proj2 (Z.eqb_neq (len data) 0)) by lia. rewrite s32_small by lia. unfold get_header.
  pose proof (get_header_spec ls tail Hls Htail (length data) l0 [] (len data) Hl0 Hn (ltac:(unfold len; lia))) as Hg.
  cbn [app] in Hg. fold data in Hg. change (len (@nil Z)) with 0 in Hg. rewrite Hg. run_simpl. split.
  - intros pre l post host -> Hpre Hl. destruct (host_line_found l host Hl) as [His <-].
    rewrite (find_first pre l post) by done. rewrite (proj2 (Z.ltb_ge (len (value_of l)) 0)) by apply len_nonneg. run_simpl.
    destruct (trim_port_spec (value_of l)) as (h & -> & Hh). run_simpl. exists h. by split.
  - intros Hno. rewrite find_no_host by done. by destruct (bool_decide (tail = [])).
Qed.

(** "GET /", "hOsT:\t a:80" *)
Definition toy_request : bytes := [71; 69; 84; 32; 47].
Definition toy_host_line : bytes := [104; 79; 115; 84; 58; 9; 32; 97; 58; 56; 48].
Lemma parse_http_header_safe_witness :
  exists code h, parse_http_header [13; 13; 10] 3 (Some tt) true = Ret (code, h) /\
    (-4 <= code <= -1 \/ 0 <= code < 3 /\ exists s, h = Some s /\ s !! Z.to_nat code = Some 0).
Proof. apply (parse_http_header_safe [13; 13; 10] (Some tt) true). done. Defined.
Lemma parse_http_header_host_witness :
  exists h, parse_http_header (toy_request ++ CR :: LF :: lines [toy_host_line] ++ []) 20 (Some tt) true
    = Ret (1, Some h) /\ starts_with [97; 0] h.
Proof.
  apply (proj1 (parse_http_header_host toy_request [toy_host_line] [] ltac:(split; [done|by repeat constructor])
    ltac:(apply Forall_singleton; split; [done|by repeat constructor]) (or_introl eq_refl) ltac:(done)) [] toy_host_line [] [97]); [done|done|].
  exists [104; 79; 115; 84; 58], [9; 32], [97; 58; 56; 48]. split; [done|]. split; [done|].
  split; [by repeat constructor; (left + right)|]. split; [done|]. split; [apply Forall_singleton; unfold blank; lia|].
  apply (host_port [97] [56; 48] []); [|constructor]. repeat constructor; unfold digit; lia.
Defined.

(** A host that is an IPv6 literal without a port loses its tail: the last colon
    is the literal's own ("GET /", "Host: [::1]"). *)
Lemma ipv6_literal_cut :
  parse_http_header (toy_request ++ CR :: LF :: lines [HOST ++ [32; 91; 58; 58; 49; 93]] ++ [CR; LF]) 22 (Some tt) true
  = Ret (2, Some [91; 58; 0; 49; 93; 0]).
Proof. reflexivity. Qed.
(** One byte is an incomplete request, but the answer is -2. *)
Lemma one_byte_not_incomplete : parse_http_header [71] 1 (Some tt) true = Ret (-2, None).
Proof. reflexivity. Qed.
(** Blanks behind a host without a port stay ("Host: a "). *)
Lemma trailing_blank_kept :
  parse_http_header (toy_request ++ CR :: LF :: lines [HOST ++ [32; 97; 32]] ++ [CR; LF]) 19 (Some tt) true
  = Ret (2, Some [97; 32; 0]).
Proof. reflexivity. Qed.
