(* ===== verification/Tls.v ===== *)
(** * tls.c: the server name of a sniffed TLS ClientHello

    [data] is the whole buffer, [base] the position of the moving [const char *];
    [char] is signed, lengths and positions are [size_t]. *)
From S2P Require Import Prelude Http.

Definition TLS_HEADER_LEN : Z := 5.

(** [((unsigned char)data[i] << 8) + (unsigned char)data[i + 1]]. *)
Definition rd_be16 (data : bytes) (i : Z) : run Z :=
  hi ← rd data i; lo ← rd data (i + 1); mret (Z.shiftl hi 8 + lo).

(** The loop of [parse_server_name_extension]; [mem] tells whether [malloc] has
    memory.  Each round moves on by at least 3. *)
Fixpoint parse_server_name_loop (fuel : nat) (data : bytes) (base data_len pos : Z) (mem : bool)
    : run (Z * option bytes) :=
  if negb (pos + 3 <? data_len) then
    if negb (pos =? data_len) then mret (-5, None) else mret (-2, None)
  else
    match fuel with
    | O => Fail Exited
    | S fuel =>
        len ← rd_be16 data (base + pos + 1);
        if data_len <? pos + 3 + len then mret (-5, None)
        else
          ty ← rd data (base + pos);
          if ty =? 0 then
            if negb mem then mret (-4, None)
            else
              v ← rd_range data (base + pos + 3) len;
              mret (len, Some (strncpy v ++ [0]))
          else parse_server_name_loop fuel data base data_len (pos + 3 + len) mem
    end.
Definition parse_server_name_extension (data : bytes) (base data_len : Z) (mem : bool) : run (Z * option bytes) :=
  parse_server_name_loop (Z.to_nat data_len) data base data_len 2 mem.

Fixpoint parse_extensions_loop (fuel : nat) (data : bytes) (base data_len pos : Z) (mem : bool)
    : run (Z * option bytes) :=
  if negb (pos + 4 <=? data_len) then
    if negb (pos =? data_len) then mret (-5, None) else mret (-2, None)
  else
    match fuel with
    | O => Fail Exited
    | S fuel =>
        len ← rd_be16 data (base + pos + 2);
        t0 ← rd data (base + pos);
        t1 ← (if t0 =? 0 then rd data (base + pos + 1) else mret 1);
        if (t0 =? 0) && (t1 =? 0) then
          if data_len <? pos + 4 + len then mret (-5, None)
          else parse_server_name_extension data (base + pos + 4) len mem
        else parse_extensions_loop fuel data base data_len (pos + (4 + len)) mem
    end.
Definition parse_extensions (data : bytes) (base data_len : Z) (mem : bool) : run (Z * option bytes) :=
  parse_extensions_loop (Z.to_nat data_len) data base data_len 0 mem.

(** The handshake message inside the record: [data_len] is the record's end. *)
Definition parse_tls_handshake (data : bytes) (data_len tls_version_major tls_version_minor : Z) (mem : bool)
    : run (Z * option bytes) :=
  let pos := TLS_HEADER_LEN in
  if data_len <? pos + 1 then mret (-5, None)
  else
    ty ← rd data pos;
    if negb (s8 ty =? 1) then mret (-5, None)
    else
      let pos := pos + 38 in
      if data_len <? pos + 1 then mret (-5, None)
      else
        len ← rd data pos;
        let pos := pos + (1 + len) in
        if data_len <? pos + 2 then mret (-5, None)
        else
          len ← rd_be16 data pos;
          let pos := pos + (2 + len) in
          if data_len <? pos + 1 then mret (-5, None)
          else
            len ← rd data pos;
            let pos := pos + (1 + len) in
            if (pos =? data_len) && (tls_version_major =? 3) && (tls_version_minor =? 0)
            then mret (-2, None)
            else if data_len <? pos + 2 then mret (-5, None)
            else
              len ← rd_be16 data pos;
              let pos := pos + 2 in
              if data_len <? pos + len then mret (-5, None)
              else parse_extensions data pos len mem.

Definition parse_tls_header (data : bytes) (data_len : Z) (hostname : option unit) (mem : bool)
    : run (Z * option bytes) :=
  match hostname with
  | None => mret (-3, None)
  | Some _ =>
      if data_len <? TLS_HEADER_LEN then mret (-1, None)
      else
        d0 ← rd data 0;
        d2 ← (if negb (Z.land (s8 d0) 0x80 =? 0) then rd data 2 else mret 0);
        if negb (Z.land (s8 d0) 0x80 =? 0) && (s8 d2 =? 1) then mret (-2, None)
        else if negb (s8 d0 =? 0x16) then mret (-5, None)
        else
          tls_version_major ← rd data 1;
          tls_version_minor ← rd data 2;
          let tls_version_major := s8 tls_version_major in
          let tls_version_minor := s8 tls_version_minor in
          if tls_version_major <? 3 then mret (-2, None)
          else
            len ← rd_be16 data 3;
            let len := len + TLS_HEADER_LEN in
            let data_len := Z.min data_len len in
            if data_len <? len then mret (-1, None)
            else parse_tls_handshake data data_len tls_version_major tls_version_minor mem
  end.

(** ** Safety *)

Lemma rd_byte data i : bytes_ok data -> 0 <= i < len data -> exists b, rd data i = Ret b /\ 0 <= b < 256.
Proof.
  intros Hb Hi. destruct (rd_ok data i Hi) as (b & -> & Hl). exists b. split; [done|].
  by eapply Forall_lookup_1 in Hb.
Qed.
Lemma rd_be16_ok data i : bytes_ok data -> 0 <= i -> i + 2 <= len data ->
  exists n, rd_be16 data i = Ret n /\ 0 <= n < 65536.
Proof.
  intros Hb H0 Hi. unfold rd_be16.
  destruct (rd_byte data i Hb) as (h & -> & Hh); [lia|]. run_simpl.
  destruct (rd_byte data (i + 1) Hb) as (l & -> & Hl); [lia|]. run_simpl.
  rewrite Z.shiftl_mul_pow2 by lia. change (2 ^ 8) with 256. eexists. split; [reflexivity|]. lia.
Qed.

(** What the parser may answer: a code, or a name with a terminator. *)
Definition answer_ok (limit : Z) (r : run (Z * option bytes)) : Prop :=
  exists code h, r = Ret (code, h) /\
    (-5 <= code <= -1 \/ 0 <= code < limit /\ exists s, h = Some (s ++ [0]) /\ len s = code).

Ltac answer := eexists _, _; split; [reflexivity|left; lia].

Lemma server_name_safe fuel : forall data base n pos mem, bytes_ok data ->
  0 <= base -> 0 <= pos -> base + n <= len data -> n - pos <= Z.of_nat fuel ->
  answer_ok (n + 1) (parse_server_name_loop fuel data base n pos mem).
Proof.
  induction fuel as [|fuel IH]; intros data base n pos mem Hb H0 Hp Hn Hf; cbn [parse_server_name_loop].
  { rewrite (proj2 (Z.ltb_ge _ n)) by lia. cbn [negb]. destruct (negb _); answer. }
  destruct (Z.ltb_spec (pos + 3) n); cbn [negb]; [|destruct (negb _); answer].
  destruct (rd_be16_ok data (base + pos + 1) Hb) as (k & -> & Hk); [lia|lia|]. run_simpl.
  destruct (Z.ltb_spec n (pos + 3 + k)); [answer|].
  destruct (rd_byte data (base + pos) Hb) as (ty & -> & _); [lia|]. run_simpl.
  destruct (ty =? 0); [|apply IH; try done; lia].
  destruct mem; cbn [negb]; [|answer]. rewrite rd_range_ok by lia. run_simpl.
  eexists _, _. split; [reflexivity|right]. split; [lia|]. eexists. split; [reflexivity|].
  rewrite len_strncpy, len_ztake; [done|]. rewrite len_zdrop; lia.
Qed.

Lemma extensions_safe fuel : forall data base n pos mem limit, bytes_ok data ->
  0 <= base -> 0 <= pos -> base + n <= len data -> n - pos <= Z.of_nat fuel -> n + 1 <= limit ->
  answer_ok limit (parse_extensions_loop fuel data base n pos mem).
Proof.
  induction fuel as [|fuel IH]; intros data base n pos mem limit Hb H0 Hp Hn Hf Hlim; cbn [parse_extensions_loop].
  { rewrite (proj2 (Z.leb_gt _ n)) by lia. cbn [negb]. destruct (negb _); answer. }
  destruct (Z.leb_spec (pos + 4) n); cbn [negb]; [|destruct (negb _); answer].
  destruct (rd_be16_ok data (base + pos + 2) Hb) as (k & -> & Hk); [lia|lia|]. run_simpl.
  destruct (rd_byte data (base + pos) Hb) as (t0 & -> & _); [lia|]. run_simpl.
  assert (H1 : exists t1, (if t0 =? 0 then rd data (base + pos + 1) else mret 1) = Ret t1).
  { destruct (t0 =? 0); [|by eexists]. destruct (rd_byte data (base + pos + 1) Hb) as (t1 & -> & _); [lia|]. by eexists. }
  destruct H1 as (t1 & ->). run_simpl.
  destruct ((t0 =? 0) && (t1 =? 0)); [|apply IH; try done; lia].
  destruct (Z.ltb_spec n (pos + 4 + k)); [answer|].
  destruct (server_name_safe (Z.to_nat k) data (base + pos + 4) k 2 mem Hb) as (c & h & Hr & Hc); [lia|lia|lia|lia|].
  exists c, h. split; [exact Hr|]. destruct Hc as [?|[? ?]]; [by left|right]. split; [lia|done].
Qed.

Lemma handshake_safe data n major minor mem : bytes_ok data -> 5 <= n <= len data ->
  answer_ok (len data) (parse_tls_handshake data n major minor mem).
Proof.
  intros Hb Hn. unfold parse_tls_handshake, TLS_HEADER_LEN.
  destruct (Z.ltb_spec n (5 + 1)); [answer|].
  destruct (rd_byte data 5 Hb) as (ty & -> & _); [lia|]. run_simpl. destruct (negb (s8 ty =? 1)); [answer|].
  destruct (Z.ltb_spec n (5 + 38 + 1)); [answer|].
  destruct (rd_byte data (5 + 38) Hb) as (sl & -> & Hsl); [lia|]. run_simpl.
  destruct (Z.ltb_spec n (5 + 38 + (1 + sl) + 2)); [answer|].
  destruct (rd_be16_ok data (5 + 38 + (1 + sl)) Hb) as (cl & -> & Hcl); [lia|lia|]. run_simpl.
  destruct (Z.ltb_spec n (5 + 38 + (1 + sl) + (2 + cl) + 1)); [answer|].
  destruct (rd_byte data (5 + 38 + (1 + sl) + (2 + cl)) Hb) as (ml & -> & Hml); [lia|]. run_simpl.
  destruct (_ && _ && _); [answer|].
  set (q := 5 + 38 + (1 + sl) + (2 + cl) + (1 + ml)). destruct (Z.ltb_spec n (q + 2)); [answer|].
  destruct (rd_be16_ok data q Hb) as (el & -> & Hel); [lia|lia|]. run_simpl.
  destruct (Z.ltb_spec n (q + 2 + el)); [answer|].
  apply extensions_safe; try done; lia.
Qed.

Lemma parse_tls_header_total data hostname mem : bytes_ok data ->
  answer_ok (len data) (parse_tls_header data (len data) hostname mem).
Proof.
  intros Hb. unfold parse_tls_header, TLS_HEADER_LEN. destruct hostname; [|answer].
  destruct (Z.ltb_spec (len data) 5); [answer|].
  destruct (rd_byte data 0 Hb) as (d0 & -> & _); [lia|]. run_simpl.
  destruct (rd_byte data 2 Hb) as (d2 & Hd2 & _); [lia|].
  set (hi := negb (Z.land (s8 d0) 128 =? 0)).
  assert (H1 : exists x, (if hi then rd data 2 else mret 0) = Ret x) by (destruct hi; [rewrite Hd2|]; by eexists).
  destruct H1 as (x & ->). run_simpl. destruct (hi && (s8 x =? 1)); [answer|].
  destruct (negb (s8 d0 =? 22)); [answer|].
  destruct (rd_byte data 1 Hb) as (d1 & -> & _); [lia|]. run_simpl. rewrite Hd2. run_simpl.
  destruct (s8 d1 <? 3); [answer|].
  destruct (rd_be16_ok data 3 Hb) as (rl & -> & Hrl); [lia|lia|]. run_simpl.
  destruct (Z.ltb_spec (Z.min (len data) (rl + 5)) (rl + 5)); [answer|].
  apply handshake_safe; [done|lia].
Qed.

(** C27: TLS sniffing is safe.  On any bytes [parse_tls_header] reads only inside
    the data, terminates, and returns a negative code or the length of a
    NUL-terminated name it allocated. *)
Theorem parse_tls_header_safe data hostname mem : bytes_ok data ->
  answer_ok (len data) (parse_tls_header data (len data) hostname mem).
Proof. apply parse_tls_header_total. Qed.

(** ** A reference ClientHello (RFC 5246, RFC 6066) *)

Definition sni_entry (ty : Z) (name : bytes) : bytes := ty :: be16 (len name) ++ name.
Definition extension (ty : Z) (body : bytes) : bytes := be16 ty ++ be16 (len body) ++ body.
Definition sni_body (names : list (Z * bytes)) : bytes :=
  let l := concat ((fun e => sni_entry (fst e) (snd e)) <$> names) in be16 (len l) ++ l.
Definition extensions (es : list (Z * bytes)) : bytes :=
  concat ((fun e => extension (fst e) (snd e)) <$> es).
(** [hello] holds the handshake type, the length, the version and the random. *)
Definition client_hello (minor : Z) (hello sid ciphers comps exts : bytes) : bytes :=
  let body := hello ++ [len sid] ++ sid ++ be16 (len ciphers) ++ ciphers ++ [len comps] ++ comps
              ++ be16 (len exts) ++ exts in
  [0x16; 3; minor] ++ be16 (len body) ++ body.

Lemma rd_be16_at (data pre : bytes) n rest i : data = pre ++ be16 n ++ rest -> i = len pre -> 0 <= n < 65536 ->
  rd_be16 data i = Ret n.
Proof.
  intros -> -> Hn. unfold rd_be16, be16. cbn [app].
  rewrite (rd_app_exact pre _ _ (len pre)) by done. run_simpl. rewrite rd_app_next by done. run_simpl.
  rewrite Z.shiftl_mul_pow2, shiftr_div by lia. change (2 ^ 8) with 256. f_equal.
  Z.to_euclidean_division_equations. lia.
Qed.
Lemma rd_at (data pre : bytes) x rest i : data = pre ++ x :: rest -> i = len pre -> rd data i = Ret x.
Proof. intros -> ->. by apply rd_app_exact. Qed.

Ltac segments := repeat (rewrite <- ?app_assoc; progress cbn [app]); rewrite <- ?app_assoc; reflexivity.

Lemma len_sni_entry ty name : len (sni_entry ty name) = 3 + len name.
Proof. unfold sni_entry. rewrite len_cons, len_app. change (len (be16 _)) with 2. lia. Qed.
Lemma len_extension ty body : len (extension ty body) = 4 + len body.
Proof. unfold extension. rewrite !len_app. change (len (be16 _)) with 2. lia. Qed.

(** The list of names: entries of other types are passed over. *)
Lemma server_name_found others : forall fuel data pre pos base n name rest,
  Forall (fun e => fst e <> 0 /\ len (snd e) < 65536) others ->
  data = pre ++ concat ((fun e => sni_entry (fst e) (snd e)) <$> others) ++ sni_entry 0 name ++ rest ->
  base + pos = len pre -> plain_line name -> 0 < len name < 65536 -> 0 <= pos ->
  pos + len (concat ((fun e => sni_entry (fst e) (snd e)) <$> others)) + len (sni_entry 0 name) <= n ->
  n - pos <= Z.of_nat fuel ->
  parse_server_name_loop fuel data base n pos true = Ret (len name, Some (name ++ [0])).
Proof.
  induction others as [|[ty v] others IH]; intros fuel data pre pos base n name rest Ho Hd Hpre Hp Hl H0 Hn Hf;
    rewrite ?len_sni_entry in Hn.
  - cbn [fmap list_fmap concat app] in *. change (len (@nil Z)) with 0 in Hn. destruct fuel as [|fuel]; [lia|].
    cbn [parse_server_name_loop]. rewrite (proj2 (Z.ltb_lt _ n)) by lia. cbn [negb].
    rewrite (rd_be16_at data (pre ++ [0]) (len name) (name ++ rest));
      [|rewrite Hd; unfold sni_entry; segments|rewrite len_app; change (len [0]) with 1; lia|lia].
    run_simpl. rewrite (proj2 (Z.ltb_ge n _)) by lia.
    rewrite (rd_at data pre 0 (be16 (len name) ++ name ++ rest)) by (rewrite ?Hd; unfold sni_entry; segments || done).
    run_simpl. change (0 =? 0) with true. cbv iota. cbn [negb].
    replace data with ((pre ++ 0 :: be16 (len name)) ++ name ++ rest) by (rewrite Hd; unfold sni_entry; segments).
    rewrite rd_range_mid by (rewrite ?len_app, ?len_cons; change (len (be16 _)) with 2; lia). run_simpl.
    by rewrite strncpy_plain.
  - apply Forall_cons_iff in Ho as [[Hty Hv] Ho]. cbn [fst snd] in Hty, Hv.
    rewrite fmap_cons in Hd, Hn. cbn [concat fst snd] in Hd, Hn. rewrite len_app, len_sni_entry in Hn.
    pose proof (len_nonneg v). pose proof (len_nonneg (concat ((fun e => sni_entry (fst e) (snd e)) <$> others))).
    destruct fuel as [|fuel]; [lia|].
    cbn [parse_server_name_loop]. rewrite (proj2 (Z.ltb_lt _ n)) by lia. cbn [negb].
    set (others' := concat _) in *.
    rewrite (rd_be16_at data (pre ++ [ty]) (len v) (v ++ others' ++ sni_entry 0 name ++ rest));
      [|rewrite Hd; unfold sni_entry; segments|rewrite len_app; change (len [ty]) with 1; lia|lia].
    run_simpl. rewrite (proj2 (Z.ltb_ge n _)) by lia.
    rewrite (rd_at data pre ty (be16 (len v) ++ v ++ others' ++ sni_entry 0 name ++ rest))
      by (rewrite ?Hd; unfold sni_entry; segments || done).
    run_simpl. rewrite (proj2 (Z.eqb_neq ty 0)) by done.
    apply (IH fuel data (pre ++ sni_entry ty v) (pos + 3 + len v) base n name rest); try done;
      rewrite ?len_app, ?len_sni_entry; try lia. rewrite Hd. segments.
Qed.

(** The list of extensions: others are passed over. *)
Lemma extensions_found others : forall fuel data pre pos base n before name after rest,
  Forall (fun e => 0 < fst e < 65536 /\ len (snd e) < 65536) others ->
  data = pre ++ extensions others ++ extension 0 (sni_body (before ++ (0, name) :: after)) ++ rest ->
  Forall (fun e => fst e <> 0 /\ len (snd e) < 65536) before ->
  base + pos = len pre -> plain_line name -> 0 < len name < 65536 -> 0 <= pos ->
  len (sni_body (before ++ (0, name) :: after)) < 65536 ->
  pos + len (extensions others) + len (extension 0 (sni_body (before ++ (0, name) :: after))) <= n ->
  n - pos <= Z.of_nat fuel ->
  parse_extensions_loop fuel data base n pos true = Ret (len name, Some (name ++ [0])).
Proof.
  induction others as [|[ty v] others IH];
    intros fuel data pre pos base n before name after rest Ho Hd Hb Hpre Hp Hl H0 Hs Hn Hf;
    rewrite ?len_extension in Hn.
  - change (extensions []) with (@nil Z) in *. cbn [app] in Hd. change (len (@nil Z)) with 0 in Hn.
    set (body := sni_body (before ++ (0, name) :: after)) in *.
    pose proof (len_nonneg body). destruct fuel as [|fuel]; [lia|].
    cbn [parse_extensions_loop]. rewrite (proj2 (Z.leb_le _ n)) by lia. cbn [negb].
    rewrite (rd_be16_at data (pre ++ [0; 0]) (len body) (body ++ rest));
      [|rewrite Hd; unfold extension; segments|rewrite len_app; change (len [0; 0]) with 2; lia|lia].
    run_simpl. rewrite (rd_at data pre 0 (0 :: be16 (len body) ++ body ++ rest) (base + pos))
      by (rewrite ?Hd; unfold extension; segments || done). run_simpl.
    change (0 =? 0) with true. cbv iota.
    rewrite (rd_at data (pre ++ [0]) 0 (be16 (len body) ++ body ++ rest))
      by (rewrite ?Hd, ?len_app; unfold extension; segments || (change (len [0]) with 1; lia)). run_simpl.
    cbn [andb]. rewrite (proj2 (Z.ltb_ge n _)) by lia. unfold parse_server_name_extension.
    unfold body, sni_body in *. rewrite fmap_app, fmap_cons, concat_app in *. cbn [concat fst snd] in *.
    set (list := concat _ ++ _) in *. rewrite len_app in *. change (len (be16 (len list))) with 2 in *.
    eapply (server_name_found before (Z.to_nat (2 + len list)) data (pre ++ be16 0 ++ be16 (2 + len list) ++ be16 (len list))
             2 (base + pos + 4) (2 + len list) name
             (concat ((fun e => sni_entry (fst e) (snd e)) <$> after) ++ rest)); try done; try lia.
    + rewrite Hd. unfold extension. rewrite len_app. change (len (be16 (len list))) with 2. unfold list. segments.
    + rewrite !len_app. change (len (be16 _)) with 2. change (len (be16 _)) with 2. lia.
    + unfold list. rewrite !len_app. pose proof (len_nonneg (concat ((fun e => sni_entry (fst e) (snd e)) <$> after))). lia.
  - apply Forall_cons_iff in Ho as [[Hty Hv] Ho]. cbn [fst snd] in Hty, Hv.
    unfold extensions in Hd, Hn. rewrite fmap_cons in Hd, Hn. cbn [concat fst snd] in Hd, Hn.
    fold (extensions others) in Hd, Hn. rewrite len_app, len_extension in Hn.
    pose proof (len_nonneg v). pose proof (len_nonneg (extensions others)). 
    set (sni := extension 0 (sni_body _)) in *.
    pose proof (len_nonneg (sni_body (before ++ (0, name) :: after))). destruct fuel as [|fuel]; [lia|].
    cbn [parse_extensions_loop]. rewrite (proj2 (Z.leb_le _ n)) by lia. cbn [negb].
    rewrite (rd_be16_at data (pre ++ be16 ty) (len v) (v ++ extensions others ++ sni ++ rest));
      [|rewrite Hd; unfold extension; segments|rewrite len_app; change (len (be16 ty)) with 2; lia|lia].
    run_simpl.
    set (hi := Z.shiftr ty 8 mod 256). set (lo := ty mod 256).
    rewrite (rd_at data pre hi (lo :: be16 (len v) ++ v ++ extensions others ++ sni ++ rest) (base + pos))
      by (rewrite ?Hd; unfold extension; segments || done). run_simpl.
    assert (Htt : exists t1, (if hi =? 0 then rd data (base + pos + 1) else mret 1) = Ret t1 /\ (hi =? 0) && (t1 =? 0) = false).
    { destruct (Z.eqb_spec hi 0) as [Hz|]; [|by exists 1]. exists lo. split.
      - rewrite (rd_at data (pre ++ [hi]) lo (be16 (len v) ++ v ++ extensions others ++ sni ++ rest));
          [done|rewrite Hd; unfold extension; segments|rewrite len_app; change (len [hi]) with 1; lia].
      - cbn [andb]. apply Z.eqb_neq. unfold hi, lo in *. rewrite shiftr_div in Hz by lia. change (2 ^ 8) with 256 in Hz.
        Z.to_euclidean_division_equations. lia. }
    destruct Htt as (t1 & -> & Ht). run_simpl. rewrite Ht.
    apply (IH fuel data (pre ++ extension ty v) (pos + (4 + len v)) base n before name after rest); try done;
      rewrite ?len_app, ?len_extension; fold sni; try lia. rewrite Hd. segments.
Qed.

Lemma len_be16 n : len (be16 n) = 2.
Proof. done. Qed.

(** The fields of the handshake message in front of the extensions lead to them. *)
Lemma handshake_fields q hello tl sid ciphers comps exts extra n major minor :
  hello = 1 :: tl -> len hello = 38 -> len q = 5 ->
  len ciphers < 65536 -> len exts < 65536 ->
  n = 49 + len sid + len ciphers + len comps + len exts ->
  parse_tls_handshake (q ++ hello ++ len sid :: sid ++ be16 (len ciphers) ++ ciphers ++ len comps :: comps
                         ++ be16 (len exts) ++ exts ++ extra) n major minor true
  = parse_extensions (q ++ hello ++ len sid :: sid ++ be16 (len ciphers) ++ ciphers ++ len comps :: comps
                         ++ be16 (len exts) ++ exts ++ extra)
      (49 + len sid + len ciphers + len comps) (len exts) true.
Proof.
  intros Htl Hh Hq Hci Hex Hn. len_facts.
  set (data := q ++ _). unfold parse_tls_handshake, TLS_HEADER_LEN.
  rewrite (proj2 (Z.ltb_ge n (5 + 1))) by lia.
  erewrite (rd_at data q 1 _ 5) by (unfold data; rewrite ?Htl; segments || lia). run_simpl.
  change (negb (s8 1 =? 1)) with false. cbv iota. rewrite (proj2 (Z.ltb_ge n (5 + 38 + 1))) by lia.
  erewrite (rd_at data (q ++ hello) (len sid) _ (5 + 38))
    by (rewrite ?len_app; unfold data; segments || lia). run_simpl.
  rewrite (proj2 (Z.ltb_ge n (5 + 38 + (1 + len sid) + 2))) by lia.
  erewrite (rd_be16_at data (q ++ hello ++ len sid :: sid) (len ciphers) _ (5 + 38 + (1 + len sid)))
    by (rewrite ?len_app, ?len_cons; unfold data; segments || lia). run_simpl.
  rewrite (proj2 (Z.ltb_ge n (5 + 38 + (1 + len sid) + (2 + len ciphers) + 1))) by lia.
  erewrite (rd_at data (q ++ hello ++ len sid :: sid ++ be16 (len ciphers) ++ ciphers) (len comps) _
             (5 + 38 + (1 + len sid) + (2 + len ciphers)))
    by (rewrite ?len_app, ?len_cons, ?len_app, ?len_be16; unfold data; segments || lia). run_simpl.
  set (p := 5 + 38 + (1 + len sid) + (2 + len ciphers) + (1 + len comps)).
  rewrite (proj2 (Z.eqb_neq p n)) by lia. cbn [andb]. rewrite (proj2 (Z.ltb_ge n (p + 2))) by lia.
  erewrite (rd_be16_at data (q ++ hello ++ len sid :: sid ++ be16 (len ciphers) ++ ciphers ++ len comps :: comps)
             (len exts) _ p)
    by (rewrite ?len_app, ?len_cons, ?len_app, ?len_be16, ?len_app, ?len_cons; unfold data; segments || lia).
  run_simpl. rewrite (proj2 (Z.ltb_ge n (p + 2 + len exts))) by lia. f_equal. lia.
Qed.

(** The record header leads to the handshake message. *)
Lemma record_header minor body extra : 0 <= len body < 65536 ->
  parse_tls_header ([22; 3; minor] ++ be16 (len body) ++ body ++ extra)
    (len ([22; 3; minor] ++ be16 (len body) ++ body ++ extra)) (Some tt) true
  = parse_tls_handshake ([22; 3; minor] ++ be16 (len body) ++ body ++ extra) (len body + 5) 3 (s8 minor) true.
Proof.
  intros Hb. pose proof (len_nonneg extra). set (data := [22; 3; minor] ++ _).
  assert (Hl : len data = 5 + len body + len extra).
  { unfold data. rewrite !len_app, len_be16. change (len [22; 3; minor]) with 3. lia. }
  unfold parse_tls_header, TLS_HEADER_LEN. rewrite (proj2 (Z.ltb_ge (len data) 5)) by lia.
  rewrite (rd_at data [] 22 _ 0 eq_refl eq_refl). run_simpl.
  change (negb (Z.land (s8 22) 128 =? 0)) with false. cbv iota. run_simpl. cbn [andb].
  change (negb (s8 22 =? 22)) with false. cbv iota.
  rewrite (rd_at data [22] 3 _ 1 eq_refl eq_refl). run_simpl.
  rewrite (rd_at data [22; 3] minor _ 2 eq_refl eq_refl). run_simpl.
  change (s8 3 <? 3) with false. cbv iota.
  rewrite (rd_be16_at data [22; 3; minor] (len body) _ 3 eq_refl eq_refl) by lia. run_simpl.
  rewrite Z.min_r by lia. by rewrite (proj2 (Z.ltb_ge (len body + 5) (len body + 5))) by lia.
Qed.

Lemma len_sni_body before name after :
  3 + len name <= len (sni_body (before ++ (0, name) :: after)).
Proof.
  unfold sni_body. rewrite len_app, len_be16, fmap_app, fmap_cons, concat_app, len_app.
  cbn [concat fst snd]. rewrite len_app, len_sni_entry. len_facts. lia.
Qed.

(** C28: TLS sniffing finds the name.  For a ClientHello of TLS whose extensions
    contain, after others, a server name list with, after entries of other types,
    a host name, and with any bytes behind the record, the result is that name. *)
Theorem parse_tls_header_sni minor hello sid ciphers comps others before name after more extra :
  let exts := extensions others ++ extension 0 (sni_body (before ++ (0, name) :: after)) ++ more in
  let record := client_hello minor hello sid ciphers comps exts in
  len hello = 38 -> (exists tl, hello = 1 :: tl) -> 0 <= minor < 128 ->
  len sid < 256 -> len ciphers < 65536 -> len comps < 256 -> len record < 65541 ->
  Forall (fun e => 0 < fst e < 65536 /\ len (snd e) < 65536) others ->
  Forall (fun e => fst e <> 0 /\ len (snd e) < 65536) before ->
  plain_line name -> name <> [] ->
  parse_tls_header (record ++ extra) (len (record ++ extra)) (Some tt) true
  = Ret (len name, Some (name ++ [0])).
Proof.
  intros exts record Hh [tl Htl] Hmin Hsid Hci Hco Hrec Ho Hb Hp Hne.
  assert (Hl : 0 < len name).
  { pose proof (len_nonneg name). destruct (Z.eq_dec (len name) 0) as [Hz|]; [by apply len_0_nil in Hz|lia]. }
  pose proof (len_sni_body before name after) as Hln.
  assert (Hle : len exts = len (extensions others) + (4 + len (sni_body (before ++ (0, name) :: after))) + len more)
    by (unfold exts; rewrite !len_app, len_extension; lia).
  set (body := hello ++ [len sid] ++ sid ++ be16 (len ciphers) ++ ciphers ++ [len comps] ++ comps
                 ++ be16 (len exts) ++ exts).
  assert (Hlb : len body = 44 + len sid + len ciphers + len comps + len exts).
  { unfold body. rewrite !len_app, !len_be16. change (len [len sid]) with 1. change (len [len comps]) with 1. lia. }
  assert (Hr : record = [22; 3; minor] ++ be16 (len body) ++ body) by reflexivity.
  rewrite Hr, !len_app, len_be16 in Hrec. change (len [22; 3; minor]) with 3 in Hrec.
  rewrite Hr, <- !app_assoc. rewrite record_header by (len_facts; lia).
  set (q := [22; 3; minor] ++ be16 (len body)).
  replace ([22; 3; minor] ++ be16 (len body) ++ body ++ extra)
    with (q ++ hello ++ len sid :: sid ++ be16 (len ciphers) ++ ciphers ++ len comps :: comps
            ++ be16 (len exts) ++ exts ++ extra) by (unfold q, body; segments).
  rewrite (handshake_fields q hello tl) by (done || (len_facts; lia)).
  eapply (extensions_found others (Z.to_nat (len exts)) _
    (q ++ hello ++ len sid :: sid ++ be16 (len ciphers) ++ ciphers ++ len comps :: comps ++ be16 (len exts)) 0
    _ (len exts) before name after (more ++ extra) Ho); [|done| |done| | | | |].
  - assert (Hx : exts ++ extra = extensions others ++ extension 0 (sni_body (before ++ (0, name) :: after)) ++ more ++ extra)
      by (unfold exts; by rewrite <- !app_assoc).
    rewrite Hx. clearbody exts. segments.
  - rewrite !len_app, len_cons, !len_app, len_be16, len_cons, len_app, len_be16. change (len q) with 5. lia.
  - len_facts; lia.
  - done.
  - len_facts; lia.
  - rewrite len_extension. len_facts; lia.
  - lia.
Qed.

Definition toy_hello : bytes := 1 :: zrep 37 7.
Definition toy_record : bytes :=
  client_hello 1 toy_hello [9] [19; 1] [0]
    (extensions [(10, [1; 2])] ++ extension 0 (sni_body ([] ++ (0, [97; 46; 98]) :: [])) ++ []).
Lemma parse_tls_header_safe_witness :
  answer_ok 6 (parse_tls_header [22; 3; 1; 0; 1; 1] 6 (Some tt) true).
Proof. apply (parse_tls_header_safe [22; 3; 1; 0; 1; 1] (Some tt) true). repeat constructor; done. Defined.
Lemma parse_tls_header_sni_witness :
  parse_tls_header (toy_record ++ [1; 2; 3]) (len (toy_record ++ [1; 2; 3])) (Some tt) true
  = Ret (3, Some [97; 46; 98; 0]).
Proof.
  apply (parse_tls_header_sni 1 toy_hello [9] [19; 1] [0] [(10, [1; 2])] [] [97; 46; 98] [] [] [1; 2; 3]); try done.
  - by exists (zrep 37 7).
  - repeat constructor; done.
  - repeat constructor; done.
Defined.
