(* ===== verification/Local.v ===== *)
(** * The local proxy ([shadowsocks-libev/src/local.c], [socks5.h])

    One connection of a SOCKS client: [server] is the client's side, [remote] the
    side of the Shadowsocks server.  The handlers of the event loop are functions
    on the two objects; a freed object is [None].  Watchers and timers are flags.
    What system calls answer is an argument of each handler, what is given to them
    is an effect.  The build defines neither ANDROID nor MODULE_REMOTE; the
    function pointers of [crypto_t] are an interface. *)
From S2P Require Import Prelude Crypto Http Tls.

(** [crypto->encrypt(buf, ctx, BUF_SIZE)] and [crypto->decrypt]: the code, the
    buffer and the context.  A context holds the randomness it will draw and the
    static buffer of the cipher. *)
Class TcpCrypto (C : Type) := {
  crypto_encrypt : buffer -> C -> run (Z * buffer * C);
  crypto_decrypt : buffer -> C -> run (Z * buffer * C) }.

Definition BUF_SIZE : Z := 2048.
Definition SVERSION : Z := 5.
Definition CMD_NOT_SUPPORTED : Z := 7.

Inductive stage_t : Type := STAGE_INIT | STAGE_HANDSHAKE | STAGE_PARSE | STAGE_WAIT | STAGE_STREAM.
#[export] Instance stage_eq_dec : EqDecision stage_t.
Proof. solve_decision. Defined.

(** What [recv], [send] and [connect] answer.  [Accept n]: there is room for [n] bytes. *)
Inductive recv_result : Type := Received (d : bytes) | RecvClosed | RecvAgain | RecvError.
Inductive send_result : Type := Accept (n : nat) | SendAgain | SendError.
Inductive connect_result : Type := ConnectOk | ConnectInProgress | ConnectError.
Definition accepted (r : send_result) (d : bytes) : bytes := match r with Accept n => take n d | _ => [] end.
(** The return value of [send]. *)
Definition send_value (r : send_result) (d : bytes) : Z := match r with Accept n => len (take n d) | _ => -1 end.

(** The calls [server_recv_cb] may make: the two replies to the client, what
    [getsockname] writes, [malloc] in the parsers, whether the access list lets the
    connection bypass the proxy and the socket for that is there, [socket],
    [connect] and [send] for the remote. *)
Record calls := Calls {
  k_method : send_result;
  k_reply : send_result;
  k_name : bytes;
  k_mem : bool;
  k_bypass : bool;
  k_socket : bool;
  k_connect : connect_result;
  k_send : send_result }.

Inductive effect : Type :=
  | ToClient (d : bytes)
  | ToRemote (d : bytes)
  | OpenRemote
  | ConnectRemote
  | CloseRemote
  | CloseServer.

(** [server_t]: its buffers, contexts, the two I/O watchers and the timer. *)
Record server_t (C : Type) := Server {
  stage : stage_t;
  sbuf : buffer;
  abuf : option buffer;
  e_ctx : C;
  d_ctx : C;
  s_recv_io : bool;
  s_send_io : bool;
  delayed_connect : bool }.
Arguments Server {C}. Arguments stage {C}. Arguments sbuf {C}. Arguments abuf {C}. Arguments e_ctx {C}.
Arguments d_ctx {C}. Arguments s_recv_io {C}. Arguments s_send_io {C}. Arguments delayed_connect {C}.

(** [remote_t]: [send_connected] and [recv_connected] are the flags of its two contexts. *)
Record remote_t := Remote {
  rbuf : buffer;
  direct : bool;
  send_connected : bool;
  recv_connected : bool;
  r_recv_io : bool;
  r_send_io : bool;
  send_timer : bool;
  recv_timer : bool }.

(** The connection: the server and [server->remote]. *)
Record conn (C : Type) := Conn { c_server : option (server_t C); c_remote : option remote_t }.
Arguments Conn {C}. Arguments c_server {C}. Arguments c_remote {C}.

Definition set_stage {C} (x : stage_t) (s : server_t C) : server_t C :=
  Server x (sbuf s) (abuf s) (e_ctx s) (d_ctx s) (s_recv_io s) (s_send_io s) (delayed_connect s).
Definition set_sbuf {C} (b : buffer) (s : server_t C) : server_t C :=
  Server (stage s) b (abuf s) (e_ctx s) (d_ctx s) (s_recv_io s) (s_send_io s) (delayed_connect s).
Definition set_abuf {C} (a : option buffer) (s : server_t C) : server_t C :=
  Server (stage s) (sbuf s) a (e_ctx s) (d_ctx s) (s_recv_io s) (s_send_io s) (delayed_connect s).
Definition set_e_ctx {C} (c : C) (s : server_t C) : server_t C :=
  Server (stage s) (sbuf s) (abuf s) c (d_ctx s) (s_recv_io s) (s_send_io s) (delayed_connect s).
Definition set_d_ctx {C} (c : C) (s : server_t C) : server_t C :=
  Server (stage s) (sbuf s) (abuf s) (e_ctx s) c (s_recv_io s) (s_send_io s) (delayed_connect s).
Definition set_s_io {C} (rc sn : bool) (s : server_t C) : server_t C :=
  Server (stage s) (sbuf s) (abuf s) (e_ctx s) (d_ctx s) rc sn (delayed_connect s).
Definition set_delayed {C} (b : bool) (s : server_t C) : server_t C :=
  Server (stage s) (sbuf s) (abuf s) (e_ctx s) (d_ctx s) (s_recv_io s) (s_send_io s) b.
Definition set_rbuf (b : buffer) (r : remote_t) : remote_t :=
  Remote b (direct r) (send_connected r) (recv_connected r) (r_recv_io r) (r_send_io r) (send_timer r) (recv_timer r).
Definition set_connected (sn rc : bool) (r : remote_t) : remote_t :=
  Remote (rbuf r) (direct r) sn rc (r_recv_io r) (r_send_io r) (send_timer r) (recv_timer r).
Definition set_r_io (rc sn : bool) (r : remote_t) : remote_t :=
  Remote (rbuf r) (direct r) (send_connected r) (recv_connected r) rc sn (send_timer r) (recv_timer r).
Definition set_timers (sn rc : bool) (r : remote_t) : remote_t :=
  Remote (rbuf r) (direct r) (send_connected r) (recv_connected r) (r_recv_io r) (r_send_io r) sn rc.
Definition with_idx (b : buffer) (i : Z) : buffer := Buffer i (b_len b) (b_capacity b) (b_data b).

(** ** Buffers *)

(** [buf->data + off] receives [d]; [memcpy] to the end of a buffer, with its length moved. *)
Definition store (b : buffer) (off : Z) (d : bytes) : run buffer :=
  a ← deref (b_data b); a ← wr_range a off d; Ret (with_data b a).
Definition put (b : buffer) (d : bytes) : run buffer :=
  b' ← store b (b_len b) d; Ret (with_len b' (b_len b + len d)).
Definition bytes_at (b : buffer) (off n : Z) : run bytes := a ← deref (b_data b); rd_range a off n.
Definition byte_at (b : buffer) (i : Z) : run Z := a ← deref (b_data b); rd a i.
(** [memmove(buf->data, buf->data + n, buf->len)] *)
Definition shift (b : buffer) (n : Z) : run buffer := d ← bytes_at b n (b_len b); store b 0 d.

Section local.
Context {C : Type} `{TcpCrypto C} (junk : nat -> Z).
(** [acl || verbose], and [fast_open]. *)
Context (logging fast_open : bool).
Implicit Types (st : conn C) (s : server_t C) (r : remote_t).

Definition result : Type := run (conn C * list effect).

(** [close_and_free_remote], then [close_and_free_server]: everything that exists is stopped and freed. *)
Definition close_and_free_remote (r : option remote_t) : list effect := match r with Some _ => [CloseRemote] | None => [] end.
Definition close_and_free_server (s : option (server_t C)) : list effect := match s with Some _ => [CloseServer] | None => [] end.
Definition close_both (r : option remote_t) (s : option (server_t C)) : result :=
  Ret (Conn None None, close_and_free_remote r ++ close_and_free_server s).

Definition new_server (e d : C) : server_t C :=
  Server STAGE_INIT (fst (balloc junk BUF_SIZE)) (Some (fst (balloc junk BUF_SIZE))) e d false false false.
Definition new_remote : remote_t :=
  Remote (fst (balloc junk BUF_SIZE)) false false false false false false false.
(** [accept_cb] *)
Definition accept_cb (e d : C) : conn C := Conn (Some (set_s_io true false (new_server e d))) None.

(** *** server_recv_cb: STAGE_STREAM *)

(** What was not sent stays in the buffer: [remote] waits for room. *)
Definition wait_for_room s r (timer : bool) (fx : list effect) : result :=
  Ret (Conn (Some (set_s_io false (s_send_io s) s))
         (Some (set_timers (timer || send_timer r) (recv_timer r) (set_r_io (r_recv_io r) true r))), fx).
(** After [s = send(...)] of the whole buffer. *)
Definition leftover (b : buffer) (s : Z) : buffer := with_idx (with_len b (b_len b - s)) s.
Definition emptied (b : buffer) : buffer := with_idx (with_len b 0) 0.

Definition connect_or_send s r (k : calls) : result :=
  let close fx := '(st, fx') ← close_both (Some r) (Some s); Ret (st, fx ++ fx') in
  if negb (send_connected r) then
    let r := set_rbuf (with_idx (rbuf r) 0) r in
    if negb fast_open || direct r then
      match k_connect k with
      | ConnectError => close [ConnectRemote]
      | _ => wait_for_room s r true [ConnectRemote]
      end
    else
      match k_connect k with
      | ConnectInProgress => wait_for_room s r false [ConnectRemote]
      | ConnectError => close [ConnectRemote]
      | ConnectOk =>
          d ← bytes_at (rbuf r) 0 (b_len (rbuf r));
          let n := send_value (k_send k) d in
          let fx := [ConnectRemote; ToRemote (accepted (k_send k) d)] in
          if n =? -1 then close fx
          else if n <? b_len (rbuf r) then wait_for_room s (set_rbuf (leftover (rbuf r) n) r) true fx
          else wait_for_room s (set_rbuf (emptied (rbuf r)) r) true fx
      end
  else
    d ← bytes_at (rbuf r) 0 (b_len (rbuf r));
    let n := send_value (k_send k) d in
    let fx := [ToRemote (accepted (k_send k) d)] in
    match k_send k with
    | SendAgain => wait_for_room s (set_rbuf (with_idx (rbuf r) 0) r) false fx
    | SendError => close fx
    | Accept _ =>
        if n <? b_len (rbuf r) then wait_for_room s (set_rbuf (leftover (rbuf r) n) r) false fx
        else Ret (Conn (Some s) (Some (set_rbuf (emptied (rbuf r)) r)), fx)
    end.

Definition stage_stream s (remote : option remote_t) (k : calls) : result :=
  match remote with
  | None => close_both None (Some s)
  | Some r =>
      let s := set_delayed false s in
      (* insert shadowsocks header *)
      if negb (direct r) then
        '(err, b, e) ← crypto_encrypt (rbuf r) (e_ctx s);
        if negb (err =? 0) then close_both (Some r) (Some s) else
        let s := set_e_ctx e s in
        match abuf s with
        | Some a =>
            '(b, _) ← bprepend junk b a BUF_SIZE;
            connect_or_send (set_abuf None s) (set_rbuf b r) k
        | None => connect_or_send s (set_rbuf b r) k
        end
      else connect_or_send s r k
  end.

(** *** server_recv_cb: STAGE_HANDSHAKE and STAGE_PARSE *)

(** [char host[257]]: the name and its terminator, for the log and the access list. *)
Definition fill_host (name : bytes) : run unit :=
  if negb logging then Ret tt else
  h ← wr_range (fresh junk 257) 0 name; _ ← wr h (len name) 0; Ret tt.

(** The address of the request into [abuf]; [None]: not all of it is there. *)
Definition copy_address (b a : buffer) (atyp : Z) : run (option (option buffer)) :=
  if atyp =? 1 then
    if b_len b <? 4 + 4 + 2 then Ret (Some None) else
    d ← bytes_at b 4 6; a ← put a d; Ret (Some (Some a))
  else if atyp =? 3 then
    name_len ← byte_at b 4;
    let name_len := u8 name_len in
    if b_len b <? 4 + name_len + 2 then Ret (Some None) else
    a ← put a [name_len];
    d ← bytes_at b 5 (name_len + 2);
    a ← put a d;
    name ← bytes_at b 5 name_len; _ ← fill_host name;
    Ret (Some (Some a))
  else if atyp =? 4 then
    if b_len b <? 4 + 16 + 2 then Ret (Some None) else
    d ← bytes_at b 4 18; a ← put a d; Ret (Some (Some a))
  else Ret None.

(** [http_protocol->parse_packet], [tls_protocol->parse_packet] on the bytes [d]. *)
Definition parse_packet (port : Z) (d : bytes) (mem : bool) : run (Z * option bytes) :=
  if port =? 80 then parse_http_header d (len d) (Some tt) mem
  else if port =? 443 then parse_tls_header d (len d) (Some tt) mem
  else Ret (0, None).
(** The host name in the first bytes of a connection to an address:
    [ret] and [hostname]. *)
Definition sniff (b a : buffer) (mem : bool) : run (Z * option bytes) :=
  port ← bytes_at a (b_len a - 2) 2;
  d ← bytes_at b (3 + b_len a) (b_len b - 3 - b_len a);
  parse_packet (of_be 0 port) d mem.

(** Reconstruct address buffer. *)
Definition name_address (a : buffer) (ret : Z) (hostname : option bytes) : run buffer :=
  port ← bytes_at a (b_len a - 2) 2;
  h ← deref hostname;
  name ← rd_range h 0 ret;
  a ← put (with_len a 0) [3];
  a ← put a [u8 ret];
  a ← put a name;
  a ← put a port;
  _ ← fill_host name;
  Ret a.

(** [used] bytes of the buffer were the request. *)
Definition drop_request (b : buffer) (used : Z) : run buffer :=
  let n := to_size_t (b_len b - used) in
  if 0 <? n then shift (with_len b n) used else Ret (with_len b n).

(** The connection is accepted. *)
Definition start_stream s (a : buffer) (used : Z) (k : calls) (fx : list effect) : result :=
  b ← drop_request (sbuf s) used;
  let n := b_len b in
  let s := set_stage STAGE_STREAM (set_sbuf b (set_abuf (Some a) s)) in
  let remote :=
    if k_bypass k then
      Some (Remote (rbuf new_remote) true false false false false false false)
    else if k_socket k then Some new_remote else None in
  match remote with
  | None => '(st, fx') ← close_both None (Some s); Ret (st, fx ++ fx')
  | Some r =>
      '(err, a, e) ← (if negb (direct r) then crypto_encrypt a (e_ctx s) else Ret (0, a, e_ctx s));
      if negb (err =? 0) then '(st, fx') ← close_both (Some r) (Some s); Ret (st, fx ++ [OpenRemote] ++ fx') else
      rb ← (if 0 <? n then d ← bytes_at b 0 n; b' ← store (rbuf r) 0 d; Ret (with_len b' n) else Ret (rbuf r));
      Ret (Conn (Some (set_delayed true (set_abuf (Some a) (set_e_ctx e s)))) (Some (set_rbuf rb r)), fx ++ [OpenRemote])
  end.

Definition stage_parse s (k : calls) (fx : list effect) : result :=
  let b := sbuf s in
  a ← deref (abuf s);
  atyp ← byte_at b 3;
  a ← put (with_idx (with_len a 0) 0) [atyp];
  r ← copy_address b a atyp;
  match r with
  | None => '(st, fx') ← close_both None (Some s); Ret (st, fx ++ fx')
  | Some None => Ret (Conn (Some (set_abuf (Some a) s)) None, fx)
  | Some (Some a) =>
      let s := set_abuf (Some a) s in
      let used := 3 + b_len a in
      if negb ((atyp =? 1) || (atyp =? 4)) then start_stream s a used k fx else
      '(ret, hostname) ← sniff b a (k_mem k);
      if (ret =? -1) && (b_len b <? BUF_SIZE) then Ret (Conn (Some (set_stage STAGE_PARSE s)) None, fx)
      else if 0 <? ret then a ← name_address a ret hostname; start_stream s a used k fx
      else start_stream s a used k fx
  end.

Definition stage_handshake s (k : calls) (fx : list effect) : result :=
  let b := sbuf s in
  let close fx := '(st, fx') ← close_both None (Some s); Ret (st, fx ++ fx') in
  if b_len b <? 4 then Ret (Conn (Some s) None, fx) else
  cmd ← byte_at b 1;
  if negb (cmd =? 3) && negb (cmd =? 1) then
    close (fx ++ [ToClient (accepted (k_reply k) [SVERSION; CMD_NOT_SUPPORTED; 0; 1])])
  else
    (* fake reply *)
    if bool_decide (stage s = STAGE_HANDSHAKE) then
      let reply := [SVERSION; 0; 0; 1] ++ (if cmd =? 3 then k_name k else zrep 6 0) in
      let fx := fx ++ [ToClient (accepted (k_reply k) reply)] in
      if send_value (k_reply k) reply <? len reply then close fx
      else if cmd =? 3 then Ret (Conn (Some s) None, fx)
      else stage_parse s k fx
    else stage_parse s k fx.

(** *** server_recv_cb: STAGE_INIT *)

Definition stage_init s (k : calls) : result :=
  let b := sbuf s in
  if b_len b <? 3 then Ret (Conn (Some s) None, []) else
  nmethods ← byte_at b 1;
  let method_len := u8 nmethods + 2 in
  if b_len b <? method_len then Ret (Conn (Some s) None, []) else
  let fx := [ToClient (accepted (k_method k) [SVERSION; 0])] in
  let s := set_stage STAGE_HANDSHAKE s in
  ver ← byte_at b 0;
  if (ver =? SVERSION) && (method_len <? b_len b) then
    b ← shift (with_len b (b_len b - method_len)) method_len;
    stage_handshake (set_sbuf b s) k fx
  else Ret (Conn (Some (set_sbuf (with_len b 0) s)) None, fx).

(** The loop; its [continue] is a call. *)
Definition server_recv_loop st (k : calls) : result :=
  s ← deref (c_server st);
  match stage s with
  | STAGE_STREAM => stage_stream s (c_remote st) k
  | STAGE_INIT => stage_init s k
  | STAGE_HANDSHAKE | STAGE_PARSE => stage_handshake s k []
  | STAGE_WAIT => Fail OutOfFuel
  end.

(** [remote == NULL ? server->buf : remote->buf] *)
Definition recv_buf st s : buffer := match c_remote st with Some r => rbuf r | None => sbuf s end.

Definition server_recv_cb st (x : recv_result) (k : calls) : result :=
  s ← deref (c_server st);
  if bool_decide (stage s = STAGE_WAIT) then
    server_recv_loop (Conn (Some (set_stage STAGE_STREAM s)) (c_remote st)) k
  else
    match x with
    | RecvClosed | RecvError => close_both (c_remote st) (c_server st)
    | RecvAgain => Ret (st, [])
    | Received d =>
        let b := recv_buf st s in
        b' ← store b (b_len b) d;
        let b' := with_len b' (b_len b + len d) in
        server_recv_loop
          (match c_remote st with
           | Some r => Conn (Some s) (Some (set_rbuf b' r))
           | None => Conn (Some (set_sbuf b' s)) None
           end) k
    end.

(** The timer is a one-shot: it is stopped when it fires. *)
Definition delayed_connect_cb st (k : calls) : result :=
  s ← deref (c_server st);
  server_recv_cb (Conn (Some (set_stage STAGE_WAIT (set_delayed false s))) (c_remote st)) RecvAgain k.

(** *** The other handlers *)

Definition server_send_cb st (x : send_result) : result :=
  s ← deref (c_server st);
  let b := sbuf s in
  if b_len b =? 0 then close_both (c_remote st) (c_server st) else
  d ← bytes_at b (b_idx b) (b_len b);
  let n := send_value x d in
  match x with
  | SendAgain => Ret (st, [])
  | SendError => close_both (c_remote st) (c_server st)
  | Accept _ =>
      let fx := [ToClient (accepted x d)] in
      if n <? b_len b then
        Ret (Conn (Some (set_sbuf (with_idx (with_len b (b_len b - n)) (b_idx b + n)) s)) (c_remote st), fx)
      else
        r ← deref (c_remote st);
        Ret (Conn (Some (set_s_io (s_recv_io s) false (set_sbuf (emptied b) s))) (Some (set_r_io true (r_send_io r) r)), fx)
  end.

Definition remote_timeout_cb st : result := close_both (c_remote st) (c_server st).

(** Disable TCP_NODELAY after the first response: only the flag is kept. *)
Definition first_response st : conn C :=
  Conn (c_server st) (match c_remote st with Some r => Some (set_connected (send_connected r) true r) | None => None end).

Definition remote_recv_cb st (x : recv_result) (y : send_result) : result :=
  r ← deref (c_remote st);
  s ← deref (c_server st);
  let r := set_timers (send_timer r) true r in
  match x with
  | RecvClosed | RecvError => close_both (Some r) (Some s)
  | RecvAgain => Ret (Conn (Some s) (Some r), [])
  | Received d =>
      b ← store (sbuf s) 0 d;
      let b := with_len b (len d) in
      '(err, b, dc) ← (if negb (direct r) then crypto_decrypt b (d_ctx s) else Ret (CRYPTO_OK, b, d_ctx s));
      let s := set_d_ctx dc (set_sbuf b s) in
      if err =? CRYPTO_ERROR then close_both (Some r) (Some s)
      else if err =? CRYPTO_NEED_MORE then Ret (Conn (Some s) (Some r), [])
      else
        out ← bytes_at b 0 (b_len b);
        let n := send_value y out in
        let fx := [ToClient (accepted y out)] in
        let wait b := Ret (first_response (Conn (Some (set_s_io (s_recv_io s) true (set_sbuf b s)))
                             (Some (set_r_io false (r_send_io r) r))), fx) in
        match y with
        | SendAgain => wait (with_idx b 0)
        | SendError => '(st, fx') ← close_both (Some r) (Some s); Ret (st, fx ++ fx')
        | Accept _ =>
            if n <? b_len b then wait (leftover b n) else Ret (first_response (Conn (Some s) (Some r)), fx)
        end
  end.

(** [peer]: whether [getpeername] finds the remote connected. *)
Definition remote_send_cb st (peer : bool) (x : send_result) : result :=
  r ← deref (c_remote st);
  s ← deref (c_server st);
  let first := negb (send_connected r) in
  if first && negb peer then close_both (Some r) (Some s) else
  let r := if first then set_r_io true (r_send_io r) (set_timers false true (set_connected true (recv_connected r) r)) else r in
  let back r := Conn (Some (set_s_io true (s_send_io s) s)) (Some (set_r_io (r_recv_io r) false r)) in
  let b := rbuf r in
  if b_len b =? 0 then
    if first then Ret (back r, []) else close_both (Some r) (Some s)
  else
    d ← bytes_at b (b_idx b) (b_len b);
    let n := send_value x d in
    match x with
    | SendAgain => Ret (Conn (Some s) (Some r), [])
    | SendError => close_both (Some r) (Some s)
    | Accept _ =>
        let fx := [ToRemote (accepted x d)] in
        if n <? b_len b then
          Ret (Conn (Some s) (Some (set_rbuf (with_idx (with_len b (b_len b - n)) (b_idx b + n)) r)), fx)
        else Ret (back (set_rbuf (emptied b) r), fx)
    end.

(** ** A connection in the event loop *)

Inductive event : Type :=
  | ServerRecv (x : recv_result) (k : calls)
  | ServerSend (x : send_result)
  | RemoteRecv (x : recv_result) (y : send_result)
  | RemoteSend (peer : bool) (x : send_result)
  | DelayedConnect (k : calls)
  | RemoteTimeout.

Definition step st (e : event) : result :=
  match e with
  | ServerRecv x k => server_recv_cb st x k
  | ServerSend x => server_send_cb st x
  | RemoteRecv x y => remote_recv_cb st x y
  | RemoteSend peer x => remote_send_cb st peer x
  | DelayedConnect k => delayed_connect_cb st k
  | RemoteTimeout => remote_timeout_cb st
  end.
Fixpoint exec st (es : list event) : result :=
  match es with
  | [] => Ret (st, [])
  | e :: es => '(st, f) ← step st e; '(st, fs) ← exec st es; Ret (st, f ++ fs)
  end.
End local.
