(* ===== verification/ChunkBuffer.v ===== *)
(** * structure/ChunkBuffer2.h: the ring of packets of a PacketBuffer

    The buffer is an array of 4-byte blocks, modelled as its bytes; a packet is a
    header block with its length and as many blocks as its data needs.  Pointers
    into the buffer are byte offsets.  The assertions of the debug build are
    checked where the code checks them. *)
From S2P Require Import Prelude.

Definition sizeof_block : Z := 4.

(** misc/balign.h *)
Definition bdivide_up (a b : Z) : Z := let r := a mod b in if 0 <? r then a / b + 1 else a / b.


Record ChunkBuffer2 := CB {
  buffer : bytes;
  size : Z;
  wrap : Z;
  start : Z;
  used : Z;
  mtu : Z;
  input_dest : option Z;
  input_avail : Z;
  output_dest : option Z;
  output_avail : Z
}.

Definition cb_set_ring w st us b :=
  CB (buffer b) (size b) w st us (mtu b) (input_dest b) (input_avail b) (output_dest b) (output_avail b).
Definition cb_set_input d a b :=
  CB (buffer b) (size b) (wrap b) (start b) (used b) (mtu b) d a (output_dest b) (output_avail b).
Definition cb_set_output d a b :=
  CB (buffer b) (size b) (wrap b) (start b) (used b) (mtu b) (input_dest b) (input_avail b) d a.
Definition cb_set_buffer m b :=
  CB m (size b) (wrap b) (start b) (used b) (mtu b) (input_dest b) (input_avail b) (output_dest b) (output_avail b).

(** [buf->buffer[i].len]. *)
Definition rd_block (b : ChunkBuffer2) (i : Z) : run Z :=
  x ← rd_range (buffer b) (4 * i) 4; mret (s32 (of_le x)).
Definition wr_block (b : ChunkBuffer2) (i n : Z) : run ChunkBuffer2 :=
  m ← wr_range (buffer b) (4 * i) (le32 n); mret (cb_set_buffer m b).

Definition ChunkBuffer2_end (b : ChunkBuffer2) : Z :=
  if wrap b - start b <=? used b then used b - (wrap b - start b) else start b + used b.

Definition ChunkBuffer2_assert_buffer (b : ChunkBuffer2) : run unit :=
  check ((0 <? size b) && (0 <? wrap b) && (wrap b <=? size b) && (0 <=? start b) && (start b <? wrap b)
         && (0 <=? used b) && (used b <=? wrap b)
         && ((wrap b =? size b) || (wrap b - start b <=? used b)) && (0 <=? mtu b)).

(** The number of free blocks behind the end. *)
Definition free_blocks (b : ChunkBuffer2) : Z :=
  let e := ChunkBuffer2_end b in
  if wrap b - start b <=? used b then start b - e else size b - e.

Definition ChunkBuffer2_update_input (b : ChunkBuffer2) : ChunkBuffer2 :=
  let e := ChunkBuffer2_end b in
  if size b - e - 1 <? mtu b then cb_set_input None (-1) b
  else
    let free := free_blocks b in
    if 0 <? free then cb_set_input (Some (4 * (e + 1))) (s32 ((free - 1) * sizeof_block)) b
    else cb_set_input None (-1) b.

Definition ChunkBuffer2_update_output (b : ChunkBuffer2) : run ChunkBuffer2 :=
  if 0 <? used b then
    datalen ← rd_block b (start b);
    _ ← check (0 <=? datalen);
    let blocklen := bdivide_up datalen sizeof_block in
    _ ← check (blocklen <=? used b - 1);
    _ ← check (blocklen <=? wrap b - start b - 1);
    mret (cb_set_output (Some (4 * (start b + 1))) datalen b)
  else mret (cb_set_output None (-1) b).

Definition ChunkBuffer2_assert_io (b : ChunkBuffer2) : run unit :=
  let e := ChunkBuffer2_end b in
  _ ← (if size b - e - 1 <? mtu b then
         check (bool_decide (input_dest b = None) && (input_avail b =? -1))
       else
         let free := free_blocks b in
         if 0 <? free then
           check (bool_decide (input_dest b = Some (4 * (e + 1))) && (input_avail b =? (free - 1) * sizeof_block))
         else check (bool_decide (input_dest b = None) && (input_avail b =? -1)));
  if 0 <? used b then
    datalen ← rd_block b (start b);
    _ ← check (0 <=? datalen);
    let blocklen := bdivide_up datalen sizeof_block in
    check ((blocklen <=? used b - 1) && (blocklen <=? wrap b - start b - 1)
           && bool_decide (output_dest b = Some (4 * (start b + 1))) && (output_avail b =? datalen))
  else check (bool_decide (output_dest b = None) && (output_avail b =? -1)).

Definition ChunkBuffer2_calc_blocks (chunk_len num : Z) : Z :=
  let chunk_data_blocks := bdivide_up chunk_len sizeof_block in
  if INT_MAX - 1 <? chunk_data_blocks then -1
  else
    let chunk_blocks := 1 + chunk_data_blocks in
    if INT_MAX - 1 <? num then -1
    else
      let num_chunks := num + 1 in
      if INT_MAX / num_chunks <? chunk_blocks then -1 else chunk_blocks * num_chunks.

Definition ChunkBuffer2_Init (buffer : bytes) (blocks mtu : Z) : run ChunkBuffer2 :=
  _ ← check (0 <? blocks);
  _ ← check (0 <=? mtu);
  let b := CB buffer blocks blocks 0 0 (bdivide_up mtu sizeof_block) None (-1) None (-1) in
  _ ← ChunkBuffer2_assert_buffer b;
  let b := ChunkBuffer2_update_input b in
  b ← ChunkBuffer2_update_output b;
  _ ← ChunkBuffer2_assert_io b;
  mret b.

Definition ChunkBuffer2_SubmitPacket (b : ChunkBuffer2) (n : Z) : run ChunkBuffer2 :=
  _ ← check (bool_decide (input_dest b <> None));
  _ ← check (0 <=? n);
  _ ← check (n <=? input_avail b);
  _ ← ChunkBuffer2_assert_buffer b;
  _ ← ChunkBuffer2_assert_io b;
  let e := ChunkBuffer2_end b in
  let blocklen := bdivide_up n sizeof_block in
  _ ← check (blocklen <=? size b - e - 1);
  _ ← check ((used b <? wrap b - start b) || (blocklen <=? start b - e - 1));
  b ← wr_block b e n;
  let us := used b + (1 + blocklen) in
  let w := if (us <=? wrap b - start b) && (size b - (e + 1 + blocklen) - 1 <? mtu b)
           then e + 1 + blocklen else wrap b in
  let b := cb_set_ring w (start b) us b in
  _ ← ChunkBuffer2_assert_buffer b;
  let b := ChunkBuffer2_update_input b in
  b ← (if used b =? 1 + blocklen then ChunkBuffer2_update_output b else mret b);
  _ ← ChunkBuffer2_assert_io b;
  mret b.

Definition ChunkBuffer2_ConsumePacket (b : ChunkBuffer2) : run ChunkBuffer2 :=
  _ ← check (bool_decide (output_dest b <> None));
  _ ← ChunkBuffer2_assert_buffer b;
  _ ← ChunkBuffer2_assert_io b;
  _ ← check (1 <=? wrap b - start b);
  _ ← check (1 <=? used b);
  n ← rd_block b (start b);
  let blocklen := bdivide_up n sizeof_block in
  _ ← check (blocklen <=? wrap b - start b - 1);
  _ ← check (blocklen <=? used b - 1);
  let data_wrapped := wrap b - start b <=? used b in
  let st := start b + (1 + blocklen) in
  let us := used b - (1 + blocklen) in
  let b := if st =? wrap b then cb_set_ring (size b) 0 us b else cb_set_ring (wrap b) st us b in
  _ ← ChunkBuffer2_assert_buffer b;
  let b := if data_wrapped then ChunkBuffer2_update_input b else b in
  b ← ChunkBuffer2_update_output b;
  _ ← ChunkBuffer2_assert_io b;
  mret b.

(** ** The client: writes at [input_dest], reads at [output_dest] *)

Definition cb_put (b : ChunkBuffer2) (d : bytes) : run ChunkBuffer2 :=
  p ← deref (input_dest b);
  m ← wr_range (buffer b) p d;
  ChunkBuffer2_SubmitPacket (cb_set_buffer m b) (len d).
Definition cb_peek (b : ChunkBuffer2) : run bytes :=
  p ← deref (output_dest b);
  rd_range (buffer b) p (output_avail b).

(** ** Packets in memory *)

Definition nblocks (n : Z) : Z := 1 + bdivide_up n 4.
Definition slice (m : bytes) (off n : Z) : bytes := ztake n (zdrop off m).
Definition stored (m : bytes) (p : Z) (d : bytes) : Prop :=
  slice m (4 * p) 4 = le32 (len d) /\ slice m (4 * (p + 1)) (len d) = d.
Fixpoint laid (m : bytes) (p : Z) (q : list bytes) : Prop :=
  match q with [] => True | d :: q => stored m p d /\ laid m (p + nblocks (len d)) q end.
Fixpoint blocks_of (q : list bytes) : Z :=
  match q with [] => 0 | d :: q => nblocks (len d) + blocks_of q end.

Lemma bdivide_up_4 n : 0 <= n -> 4 * (bdivide_up n 4 - 1) < n <= 4 * bdivide_up n 4 /\ 0 <= bdivide_up n 4.
Proof. intros Hn. unfold bdivide_up. zcase; Z.to_euclidean_division_equations; lia. Qed.
Lemma nblocks_pos (d : bytes) : 1 <= nblocks (len d).
Proof. unfold nblocks. pose proof (bdivide_up_4 (len d) (len_nonneg d)). lia. Qed.
Lemma blocks_of_nonneg q : 0 <= blocks_of q.
Proof. induction q as [|d q IH]; cbn [blocks_of]; [lia|]. pose proof (nblocks_pos d). lia. Qed.
Lemma blocks_of_app q1 q2 : blocks_of (q1 ++ q2) = blocks_of q1 + blocks_of q2.
Proof. induction q1 as [|d q IH]; cbn [blocks_of app]; lia. Qed.
Lemma laid_app m q1 q2 : forall p, laid m p (q1 ++ q2) <-> laid m p q1 /\ laid m (p + blocks_of q1) q2.
Proof.
  induction q1 as [|d q IH]; intros p; cbn [laid app blocks_of].
  - rewrite Z.add_0_r. tauto.
  - rewrite IH, Z.add_assoc. tauto.
Qed.

Lemma slice_len (m : bytes) off n : 0 <= off -> 0 <= n -> off + n <= len m -> len (slice m off n) = n.
Proof. intros. unfold slice. rewrite len_ztake; [done|]. rewrite len_zdrop; lia. Qed.

(** A write leaves the slices beside it alone. *)
Lemma slice_write_before (m : bytes) p d off n m' : wr_range m p d = Ret m' -> 0 <= off -> 0 <= n -> off + n <= p ->
  slice m' off n = slice m off n.
Proof.
  intros Hw H0 Hn Hle. unfold wr_range in Hw.
  destruct (Z.leb_spec 0 p), (Z.leb_spec (p + len d) (len m)); cbn in Hw; try done. injection Hw as <-.
  pose proof (len_nonneg d). unfold slice. rewrite zdrop_app_l by (rewrite len_ztake; lia).
  rewrite ztake_app_l by (rewrite len_zdrop, len_ztake; rewrite ?len_ztake; lia).
  unfold ztake, zdrop. rewrite skipn_firstn_comm, take_take. f_equal. lia.
Qed.
Lemma slice_write_after (m : bytes) p d off n m' : wr_range m p d = Ret m' -> p + len d <= off ->
  slice m' off n = slice m off n.
Proof.
  intros Hw Hle. unfold wr_range in Hw.
  destruct (Z.leb_spec 0 p), (Z.leb_spec (p + len d) (len m)); cbn in Hw; try done. injection Hw as <-.
  pose proof (len_nonneg d). unfold slice. rewrite app_assoc.
  rewrite zdrop_app_r by (rewrite len_app, len_ztake; lia). rewrite len_app, len_ztake by lia.
  rewrite zdrop_zdrop by lia. f_equal. f_equal. lia.
Qed.
Lemma slice_write_same (m : bytes) p d m' : wr_range m p d = Ret m' -> slice m' p (len d) = d.
Proof.
  intros Hw. unfold wr_range in Hw.
  destruct (Z.leb_spec 0 p), (Z.leb_spec (p + len d) (len m)); cbn in Hw; try done. injection Hw as <-.
  pose proof (len_nonneg d). unfold slice. rewrite zdrop_app_exact by (rewrite len_ztake; lia).
  by rewrite ztake_app_exact.
Qed.
Lemma wr_range_len (m : bytes) p d m' : wr_range m p d = Ret m' -> len m' = len m.
Proof.
  intros Hw. unfold wr_range in Hw.
  destruct (Z.leb_spec 0 p), (Z.leb_spec (p + len d) (len m)); cbn in Hw; try done. injection Hw as <-.
  pose proof (len_nonneg d). rewrite !len_app, len_ztake, len_zdrop by lia. lia.
Qed.

(** Packets outside the written blocks stay. *)
Lemma stored_write m x d m' p e : wr_range m x d = Ret m' -> 0 <= p -> stored m p e ->
  (4 * (p + nblocks (len e)) <= x \/ x + len d <= 4 * p) -> stored m' p e.
Proof.
  intros Hw Hp [H1 H2] Hside. unfold nblocks in Hside. pose proof (len_nonneg e) as He.
  pose proof (bdivide_up_4 (len e) He). destruct Hside as [Hb|Ha].
  - split; [rewrite (slice_write_before _ _ _ _ _ _ Hw)|rewrite (slice_write_before _ _ _ _ _ _ Hw)]; done || lia.
  - split; [rewrite (slice_write_after _ _ _ _ _ _ Hw)|rewrite (slice_write_after _ _ _ _ _ _ Hw)]; done || lia.
Qed.
Lemma laid_write m x d m' q : wr_range m x d = Ret m' -> forall p, 0 <= p -> laid m p q ->
  (4 * (p + blocks_of q) <= x \/ x + len d <= 4 * p) -> laid m' p q.
Proof.
  intros Hw. induction q as [|e q IH]; intros p Hp Hl Hside; [done|].
  cbn [laid blocks_of] in *. destruct Hl as [Hs Hl].
  pose proof (nblocks_pos e). pose proof (blocks_of_nonneg q). split.
  - eapply stored_write; [done|done|done|]. lia.
  - apply IH; [lia|done|]. lia.
Qed.

(** ** The invariant *)

(** [q1] are the packets from [start] on, [q2] those at the front once the end has
    wrapped around. *)
Definition unwrapped (b : ChunkBuffer2) (q1 q2 : list bytes) : Prop :=
  q2 = [] /\ wrap b = size b /\ used b = blocks_of q1 /\ start b + used b + mtu b + 1 <= size b.
Definition wrapped (b : ChunkBuffer2) (q1 q2 : list bytes) : Prop :=
  exists q d, q1 = q ++ [d] /\ start b + blocks_of q1 = wrap b /\ used b = blocks_of q1 + blocks_of q2 /\
    blocks_of q2 <= start b /\ start b + blocks_of q + mtu b + 1 <= size b /\
    wrap b <= size b < wrap b + mtu b + 1.
Record geom (b : ChunkBuffer2) (q1 q2 : list bytes) : Prop := {
  g_len : len (buffer b) = 4 * size b;
  g_max : 4 * size b <= INT_MAX;
  g_mtu : 0 <= mtu b;
  g_start : 0 <= start b;
  g_laid1 : laid (buffer b) (start b) q1;
  g_laid2 : laid (buffer b) 0 q2;
  g_ring : unwrapped b q1 q2 \/ wrapped b q1 q2
}.
Definition io_ok (b : ChunkBuffer2) : Prop :=
  ChunkBuffer2_update_input b = b /\ ChunkBuffer2_update_output b = Ret b.

(** The buffer holds the packets [q]. *)
Definition repr (b : ChunkBuffer2) (q : list bytes) : Prop :=
  exists q1 q2, q = q1 ++ q2 /\ geom b q1 q2 /\ io_ok b.

Lemma geom_pos b q1 q2 : geom b q1 q2 ->
  (unwrapped b q1 q2 /\ used b < wrap b - start b /\ ChunkBuffer2_end b = start b + used b /\
   free_blocks b = size b - (start b + used b)) \/
  (wrapped b q1 q2 /\ wrap b - start b <= used b /\ ChunkBuffer2_end b = blocks_of q2 /\
   free_blocks b = start b - blocks_of q2 /\ 1 <= blocks_of q1).
Proof.
  intros [_ _ Hm Hst _ _ [(H1 & H2 & H3 & H4)|(q & d & H1 & H2 & H3 & H4 & H5 & H6)]].
  - left. pose proof (blocks_of_nonneg q1). unfold free_blocks, ChunkBuffer2_end.
    rewrite (proj2 (Z.leb_gt (wrap b - start b) (used b))) by lia. repeat split; lia || done.
  - right. pose proof (blocks_of_nonneg q2). unfold free_blocks, ChunkBuffer2_end.
    rewrite (proj2 (Z.leb_le (wrap b - start b) (used b))) by lia.
    assert (1 <= blocks_of q1).
    { rewrite H1, blocks_of_app. cbn [blocks_of]. pose proof (blocks_of_nonneg q). pose proof (nblocks_pos d). lia. }
    split; [by exists q, d|]. lia.
Qed.

Lemma blocks_pos d q : 1 <= blocks_of (d :: q) /\ nblocks (len d) <= blocks_of (d :: q).
Proof. cbn [blocks_of]. pose proof (nblocks_pos d). pose proof (blocks_of_nonneg q). lia. Qed.

Lemma geom_used b q1 q2 : geom b q1 q2 -> used b = blocks_of q1 + blocks_of q2 /\ start b + blocks_of q1 <= size b /\
  blocks_of q1 <= used b /\ start b + blocks_of q1 <= wrap b /\ 0 < size b.
Proof.
  intros [_ _ Hm Hst _ _ [(-> & H2 & H3 & H4)|(q & d & H1 & H2 & H3 & H4 & H5 & H6)]].
  - cbn [blocks_of]. pose proof (blocks_of_nonneg q1). lia.
  - pose proof (blocks_of_nonneg q2). pose proof (blocks_of_nonneg q). lia.
Qed.
(** Something is used exactly when there is a packet at [start]. *)
Lemma geom_head b q1 q2 : geom b q1 q2 -> (0 <? used b) = match q1 with [] => false | _ => true end.
Proof.
  intros Hg. destruct (geom_used _ _ _ Hg) as (Hu & _). destruct q1 as [|d q1].
  - apply Z.ltb_ge. destruct (geom_pos _ _ _ Hg) as [((-> & _) & _)|(_ & _ & _ & _ & H)]; cbn [blocks_of] in *; lia.
  - apply Z.ltb_lt. pose proof (blocks_pos d q1). pose proof (blocks_of_nonneg q2). lia.
Qed.
Lemma geom_assert_buffer b q1 q2 : geom b q1 q2 -> ChunkBuffer2_assert_buffer b = Ret tt.
Proof.
  intros Hg. pose proof (geom_used _ _ _ Hg). unfold ChunkBuffer2_assert_buffer.
  replace (_ && _) with true; [done|]. symmetry. pose proof (blocks_of_nonneg q1). pose proof (blocks_of_nonneg q2).
  destruct Hg as [_ _ Hm Hst _ _ [(-> & ? & ? & ?)|(q & d & Hq & ? & ? & ? & ? & ?)]];
    rewrite !andb_true_iff, orb_true_iff, !Z.leb_le, !Z.ltb_lt, Z.eqb_eq; cbn [blocks_of] in *.
  - lia.
  - subst q1. rewrite blocks_of_app in *. cbn [blocks_of] in *. pose proof (nblocks_pos d).
    pose proof (blocks_of_nonneg q). lia.
Qed.

Lemma rd_slice m off n : 0 <= off -> 0 <= n -> off + n <= len m -> rd_range m off n = Ret (slice m off n).
Proof. intros. by rewrite rd_range_ok. Qed.

(** The header of the first packet. *)
Lemma geom_first b d q1 q2 : geom b (d :: q1) q2 ->
  rd_block b (start b) = Ret (len d) /\
  slice (buffer b) (4 * (start b + 1)) (len d) = d /\ 4 * (start b + 1) + len d <= len (buffer b) /\
  (0 <=? len d) = true /\ bdivide_up (len d) 4 + 1 = nblocks (len d) /\
  (bdivide_up (len d) 4 <=? used b - 1) = true /\ (bdivide_up (len d) 4 <=? wrap b - start b - 1) = true.
Proof.
  intros Hg. destruct (geom_used _ _ _ Hg) as (Hu & Hs & Hu1 & Hw & _). pose proof Hg as [Hl Hmax _ Hst [[Hh1 Hh2] _] _ _].
  pose proof (len_nonneg d). pose proof (bdivide_up_4 (len d) (len_nonneg d)).
  destruct (blocks_pos d q1) as [_ Hb]. unfold nblocks in *. unfold INT_MAX in *.
  split.
  - unfold rd_block. rewrite rd_slice by lia. run_simpl. rewrite Hh1, of_le_le32 by lia. by rewrite s32_small by lia.
  - rewrite !Z.leb_le. split_and!; lia || done.
Qed.

(** What [ChunkBuffer2_update_output] stores. *)
Definition head_io (b : ChunkBuffer2) (q : list bytes) : option Z * Z :=
  match q with [] => (None, -1) | d :: _ => (Some (4 * (start b + 1)), len d) end.
Lemma update_output_spec b q1 q2 : geom b q1 q2 ->
  ChunkBuffer2_update_output b = Ret (cb_set_output (fst (head_io b q1)) (snd (head_io b q1)) b).
Proof.
  intros Hg. unfold ChunkBuffer2_update_output. rewrite (geom_head _ _ _ Hg). destruct q1 as [|d q1]; [done|].
  destruct (geom_first _ _ _ _ Hg) as (-> & _ & _ & H1 & _ & H2 & H3). run_simpl. unfold sizeof_block.
  rewrite H1. run_simpl. rewrite H2. run_simpl. rewrite H3. done.
Qed.

Lemma geom_input d a b q1 q2 : geom (cb_set_input d a b) q1 q2 <-> geom b q1 q2.
Proof. split; intros []; split; done. Qed.
Lemma geom_output d a b q1 q2 : geom (cb_set_output d a b) q1 q2 <-> geom b q1 q2.
Proof. split; intros []; split; done. Qed.

Lemma free_bound b q1 q2 : geom b q1 q2 -> free_blocks b <= size b.
Proof.
  intros Hg. destruct (geom_used _ _ _ Hg) as (Hu & Hs & _). pose proof (blocks_of_nonneg q2).
  pose proof (blocks_of_nonneg q1). pose proof (g_start _ _ _ Hg).
  destruct (geom_pos _ _ _ Hg) as [(_ & _ & _ & ->)|(_ & _ & _ & -> & _)]; lia.
Qed.
Lemma assert_io_spec b q1 q2 : geom b q1 q2 -> io_ok b -> ChunkBuffer2_assert_io b = Ret tt.
Proof.
  intros Hg [Hi Ho]. rewrite (update_output_spec _ _ _ Hg) in Ho. injection Ho as Ho.
  unfold ChunkBuffer2_assert_io.
  assert (H1 : (if size b - ChunkBuffer2_end b - 1 <? mtu b then
         check (bool_decide (input_dest b = None) && (input_avail b =? -1))
       else
         if 0 <? free_blocks b then
           check (bool_decide (input_dest b = Some (4 * (ChunkBuffer2_end b + 1)))
                  && (input_avail b =? (free_blocks b - 1) * sizeof_block))
         else check (bool_decide (input_dest b = None) && (input_avail b =? -1))) = Ret tt).
  { pose proof (free_bound _ _ _ Hg). pose proof (g_max _ _ _ Hg). unfold INT_MAX, sizeof_block in *.
    unfold ChunkBuffer2_update_input in Hi. destruct (_ <? mtu b); [by rewrite <- Hi|].
    destruct (Z.ltb_spec 0 (free_blocks b)); rewrite <- Hi; cbn [input_dest input_avail cb_set_input]; [|done].
    unfold sizeof_block. rewrite s32_small by lia. by rewrite bool_decide_true, Z.eqb_refl. }
  cbv zeta. rewrite H1. run_simpl. rewrite (geom_head _ _ _ Hg). destruct q1 as [|d q1].
  - rewrite <- Ho. done.
  - destruct (geom_first _ _ _ _ Hg) as (-> & _ & _ & H2 & _ & H3 & H4). run_simpl. unfold sizeof_block.
    rewrite H2. run_simpl. rewrite H3, H4. cbn [andb]. rewrite <- Ho. cbn [output_dest output_avail cb_set_output start head_io fst snd].
    by rewrite bool_decide_true, Z.eqb_refl.
Qed.

(** What [ChunkBuffer2_update_input] stores. *)
Definition tail_io (b : ChunkBuffer2) : option Z * Z :=
  if size b - ChunkBuffer2_end b - 1 <? mtu b then (None, -1)
  else if 0 <? free_blocks b
  then (Some (4 * (ChunkBuffer2_end b + 1)), s32 ((free_blocks b - 1) * sizeof_block)) else (None, -1).
Lemma update_input_spec b : ChunkBuffer2_update_input b = cb_set_input (fst (tail_io b)) (snd (tail_io b)) b.
Proof. unfold ChunkBuffer2_update_input, tail_io. by destruct (_ <? mtu b), (0 <? free_blocks b). Qed.
Lemma io_input b : ChunkBuffer2_update_input b = b <-> tail_io b = (input_dest b, input_avail b).
Proof.
  rewrite update_input_spec. destruct (tail_io b) as [p a]. cbn [fst snd]. destruct b as [m s w st u mt i ia o oa].
  cbn. split; [by intros [= -> ->]|by intros [= -> ->]].
Qed.
Lemma io_output b q1 q2 : geom b q1 q2 ->
  (ChunkBuffer2_update_output b = Ret b <-> head_io b q1 = (output_dest b, output_avail b)).
Proof.
  intros Hg. rewrite (update_output_spec _ _ _ Hg). destruct (head_io b q1) as [p a]. cbn [fst snd].
  destruct b as [m s w st u mt i ia o oa]. cbn. split; [by intros [= -> ->]|by intros [= -> ->]].
Qed.

(** Refreshing both ends makes the input and output fields right. *)
Lemma refresh b q1 q2 : geom b q1 q2 ->
  exists b', ChunkBuffer2_update_output (ChunkBuffer2_update_input b) = Ret b' /\
    geom b' q1 q2 /\ io_ok b' /\ ChunkBuffer2_assert_io b' = Ret tt.
Proof.
  intros Hg. rewrite update_input_spec. set (p := fst (tail_io b)). set (a := snd (tail_io b)).
  assert (Hg1 : geom (cb_set_input p a b) q1 q2) by (by apply geom_input).
  rewrite (update_output_spec _ _ _ Hg1). set (b' := cb_set_output _ _ _).
  assert (Hg' : geom b' q1 q2) by (by apply geom_output).
  assert (Hio : io_ok b').
  { split.
    - apply io_input. change (tail_io b') with (tail_io b). change (input_dest b', input_avail b') with (p, a).
      unfold p, a. by destruct (tail_io b).
    - apply (io_output _ _ _ Hg'). change (head_io b' q1) with (head_io b q1).
      change (output_dest b', output_avail b') with (fst (head_io b q1), snd (head_io b q1)).
      by destruct (head_io b q1). }
  exists b'. split; [done|]. split; [done|]. split; [done|]. by eapply assert_io_spec.
Qed.

Lemma bdivide_up_le a c : 0 <= a <= c -> bdivide_up a 4 <= bdivide_up c 4.
Proof. intros H. pose proof (bdivide_up_4 a). pose proof (bdivide_up_4 c). lia. Qed.

Lemma chunk_init m blocks mtu_bytes :
  len m = 4 * blocks -> 4 * blocks <= INT_MAX -> 0 <= mtu_bytes -> nblocks mtu_bytes <= blocks ->
  exists b, ChunkBuffer2_Init m blocks mtu_bytes = Ret b /\ repr b [] /\ size b = blocks /\
    mtu b = bdivide_up mtu_bytes 4.
Proof.
  intros Hl Hmax Hm Hb. pose proof (bdivide_up_4 mtu_bytes Hm). unfold nblocks, INT_MAX in *.
  unfold ChunkBuffer2_Init. rewrite (proj2 (Z.ltb_lt 0 blocks)), (proj2 (Z.leb_le 0 mtu_bytes)) by lia. run_simpl.
  set (b := CB m blocks blocks 0 0 (bdivide_up mtu_bytes sizeof_block) None (-1) None (-1)).
  assert (Hg : geom b [] []).
  { split; cbn [b buffer size mtu start laid]; unfold INT_MAX, sizeof_block; try done; try lia.
    left. unfold unwrapped. cbn [b wrap used start size mtu blocks_of]. unfold sizeof_block. split_and!; done || lia. }
  rewrite (geom_assert_buffer _ _ _ Hg). run_simpl.
  destruct (refresh _ _ _ Hg) as (b' & Hr & Hg' & Hio & Ha).
  assert (Hsz : size b' = blocks /\ mtu b' = bdivide_up mtu_bytes 4).
  { revert Hr. rewrite update_input_spec. destruct (tail_io b) as [p a]. cbn. by intros [= <-]. }
  rewrite Hr. run_simpl. rewrite Ha. run_simpl. exists b'. split; [done|]. split; [|done]. by exists [], [].
Qed.

Lemma geom_write b q1 q2 x d m' : geom b q1 q2 -> wr_range (buffer b) x d = Ret m' ->
  4 * ChunkBuffer2_end b <= x -> x + len d <= 4 * (ChunkBuffer2_end b + free_blocks b) ->
  geom (cb_set_buffer m' b) q1 q2.
Proof.
  intros Hg Hw Hx Hd. pose proof (geom_pos _ _ _ Hg) as Hp. pose proof (wr_range_len _ _ _ _ Hw) as Hlen.
  pose proof (blocks_of_nonneg q2). pose proof (blocks_of_nonneg q1). destruct (geom_used _ _ _ Hg) as (Hu & _).
  destruct Hg as [Hl Hmax Hm Hst Hl1 Hl2 Hr]. split; cbn; try done; try lia.
  - eapply laid_write; [done|done|done|].
    destruct Hp as [((-> & _) & _ & He & _)|(_ & _ & He & Hf & _)]; cbn [blocks_of] in *; lia.
  - eapply laid_write; [done|lia|done|].
    destruct Hp as [((-> & _ & _ & ?) & _ & He & _)|(_ & _ & He & Hf & _)]; cbn [blocks_of] in *; lia.
Qed.

(** The two writes of a packet: its data by the client, its header by
    [ChunkBuffer2_SubmitPacket]. *)
Lemma put_memory b q1 q2 d : geom b q1 q2 -> nblocks (len d) <= free_blocks b ->
  exists m1 m2,
    wr_range (buffer b) (4 * (ChunkBuffer2_end b + 1)) d = Ret m1 /\ geom (cb_set_buffer m1 b) q1 q2 /\
    wr_range m1 (4 * ChunkBuffer2_end b) (le32 (len d)) = Ret m2 /\ geom (cb_set_buffer m2 b) q1 q2 /\
    stored m2 (ChunkBuffer2_end b) d.
Proof.
  intros Hg Hf. pose proof (len_nonneg d). pose proof (bdivide_up_4 (len d) (len_nonneg d)) as Hb.
  destruct (geom_used _ _ _ Hg) as (Hu & Hs & _). pose proof (blocks_of_nonneg q1). pose proof (blocks_of_nonneg q2).
  pose proof (g_start _ _ _ Hg). pose proof (g_len _ _ _ Hg) as Hl.
  assert (He : 0 <= ChunkBuffer2_end b /\ ChunkBuffer2_end b + free_blocks b <= size b)
    by (destruct (geom_pos _ _ _ Hg) as [(_ & _ & -> & ->)|(_ & _ & -> & -> & _)]; lia).
  unfold nblocks in Hf. set (e := ChunkBuffer2_end b) in *.
  pose proof (wr_range_ok (buffer b) (4 * (e + 1)) d ltac:(lia) ltac:(lia)) as Hw1.
  set (m1 := ztake _ _ ++ _) in Hw1.
  assert (Hg1 : geom (cb_set_buffer m1 b) q1 q2) by (eapply (geom_write b); [done|exact Hw1|fold e; lia|fold e; lia]).
  pose proof (wr_range_len _ _ _ _ Hw1) as Hl1.
  pose proof (wr_range_ok m1 (4 * e) (le32 (len d)) ltac:(lia) ltac:(change (len (le32 _)) with 4; lia)) as Hw2.
  set (m2 := ztake (4 * e) m1 ++ _) in Hw2. exists m1, m2. split_and!; try done.
  - eapply (geom_write (cb_set_buffer m1 b)); [done|exact Hw2| |]; change (ChunkBuffer2_end (cb_set_buffer m1 b)) with e;
      change (free_blocks (cb_set_buffer m1 b)) with (free_blocks b); change (len (le32 _)) with 4; lia.
  - split; [exact (slice_write_same _ _ _ _ Hw2)|].
    rewrite (slice_write_after _ _ _ _ _ _ Hw2) by (change (len (le32 _)) with 4; lia).
    exact (slice_write_same _ _ _ _ Hw1).
Qed.

(** The ring after a packet was added. *)
Lemma put_ring b q1 q2 d : geom b q1 q2 -> mtu b <= size b - ChunkBuffer2_end b - 1 ->
  stored (buffer b) (ChunkBuffer2_end b) d -> nblocks (len d) <= free_blocks b ->
  let bl := bdivide_up (len d) 4 in
  let us := used b + (1 + bl) in
  let w := if (us <=? wrap b - start b) && (size b - (ChunkBuffer2_end b + 1 + bl) - 1 <? mtu b)
           then ChunkBuffer2_end b + 1 + bl else wrap b in
  exists q1' q2', geom (cb_set_ring w (start b) us b) q1' q2' /\ q1' ++ q2' = (q1 ++ q2) ++ [d] /\
    (q1 <> [] -> head q1' = head q1).
Proof.
  intros Hg Hm Hst Hf bl us w. pose proof (geom_pos _ _ _ Hg) as Hp.
  destruct (bdivide_up_4 (len d) (len_nonneg d)) as [_ Hb]. fold bl in Hb. unfold nblocks in Hf. fold bl in Hf.
  pose proof (blocks_of_nonneg q1). pose proof (blocks_of_nonneg q2).
  destruct Hp as [((Hq2 & Hw & Hu & Hr) & Hlt & He & Hfr)|(Hwr & Hge & He & Hfr & Hq1)].
  - subst q2. exists (q1 ++ [d]), []. rewrite !app_nil_r. split; [|split; [done|by destruct q1]].
    destruct Hg as [Hl Hmax Hmt Hs Hl1 _ _].
    assert (Hbl : blocks_of (q1 ++ [d]) = us).
    { rewrite blocks_of_app. cbn [blocks_of]. unfold us, nblocks. fold bl. lia. }
    split; cbn [buffer size mtu start cb_set_ring]; try done.
    + apply laid_app. split; [done|]. cbn [laid]. split; [|done]. by rewrite <- Hu, <- He.
    + unfold w. rewrite (proj2 (Z.leb_le us _)) by lia. cbn [andb].
      destruct (Z.ltb_spec (size b - (ChunkBuffer2_end b + 1 + bl) - 1) (mtu b)) as [Hfull|Hroom].
      * right. exists q1, d. cbn [wrap used start size mtu blocks_of cb_set_ring]. rewrite Hbl. unfold us.
        split_and!; done || lia.
      * left. unfold unwrapped. cbn [wrap used start size mtu cb_set_ring]. rewrite Hbl. unfold us. split_and!; done || lia.
  - exists q1, (q2 ++ [d]). rewrite app_assoc. split; [|split; [done|done]].
    destruct Hg as [Hl Hmax Hmt Hs Hl1 Hl2 _].
    assert (Hbl : blocks_of (q2 ++ [d]) = blocks_of q2 + (1 + bl)).
    { rewrite blocks_of_app. cbn [blocks_of]. unfold nblocks. fold bl. lia. }
    destruct Hwr as (q & d0 & Hq & Hr1 & Hr2 & Hr3 & Hr4 & Hr5).
    split; cbn [buffer size mtu start cb_set_ring]; try done.
    + apply laid_app. split; [done|]. cbn [laid]. split; [|done]. rewrite Z.add_0_l, <- He. done.
    + right. exists q, d0. unfold w. rewrite (proj2 (Z.leb_gt us _)) by lia. cbn [andb].
      cbn [wrap used start size mtu cb_set_ring]. rewrite Hbl. unfold us. split_and!; done || lia.
Qed.

(** The end of [ChunkBuffer2_SubmitPacket]: the output is refreshed only when the
    queue was empty. *)
Lemma put_finish b q1 q2 (c : bool) : geom b q1 q2 ->
  (c = false -> head_io b q1 = (output_dest b, output_avail b)) ->
  exists b', (b1 ← (if c then ChunkBuffer2_update_output (ChunkBuffer2_update_input b)
                   else mret (ChunkBuffer2_update_input b));
              _ ← ChunkBuffer2_assert_io b1; mret b1) = Ret b' /\
    repr b' (q1 ++ q2) /\ size b' = size b /\ mtu b' = mtu b /\ len (buffer b') = len (buffer b) /\ start b' = start b.
Proof.
  intros Hg Hc. destruct (refresh _ _ _ Hg) as (b' & Hr & Hg' & Hio & Ha).
  assert (Hd : forall b1, ChunkBuffer2_update_output (ChunkBuffer2_update_input b) = Ret b1 ->
     size b1 = size b /\ mtu b1 = mtu b /\ len (buffer b1) = len (buffer b) /\ start b1 = start b).
  { intros b1. rewrite update_input_spec.
    rewrite (update_output_spec _ q1 q2) by (by apply geom_input). by intros [= <-]. }
  destruct c.
  - rewrite Hr. run_simpl. rewrite Ha. run_simpl. exists b'. split; [done|]. split; [by exists q1, q2|]. by apply Hd.
  - assert (E : b' = ChunkBuffer2_update_input b).
    { revert Hr. rewrite update_input_spec. set (p := fst (tail_io b)). set (a := snd (tail_io b)).
      assert (Hg1 : geom (cb_set_input p a b) q1 q2) by (by apply geom_input).
      rewrite (proj2 (io_output _ _ _ Hg1)); [by intros [= <-]|]. exact (Hc eq_refl). }
    run_simpl. rewrite <- E, Ha. run_simpl. exists b'. split; [done|]. split; [by exists q1, q2|]. by apply Hd.
Qed.

Lemma put_checks b q1 q2 bl : geom b q1 q2 -> 1 + bl <= free_blocks b ->
  (bl <=? size b - ChunkBuffer2_end b - 1) = true /\
  ((used b <? wrap b - start b) || (bl <=? start b - ChunkBuffer2_end b - 1)) = true.
Proof.
  intros Hg Hf. destruct (geom_used _ _ _ Hg) as (? & ? & _). pose proof (blocks_of_nonneg q2).
  pose proof (blocks_of_nonneg q1).
  rewrite Z.leb_le, orb_true_iff, Z.ltb_lt, Z.leb_le.
  destruct (geom_pos _ _ _ Hg) as [(_ & ? & E & F)|(_ & ? & E & F & _)]; lia.
Qed.

Definition can_put (b : ChunkBuffer2) (n : Z) : Prop := is_Some (input_dest b) /\ n <= input_avail b.

Lemma chunk_put b q d : repr b q -> can_put b (len d) ->
  exists b', cb_put b d = Ret b' /\ repr b' (q ++ [d]) /\ size b' = size b /\ mtu b' = mtu b /\
    len (buffer b') = len (buffer b) /\ start b' = start b.
Proof.
  intros (q1 & q2 & -> & Hg & Hi & Ho) [[p Hp] Hav].
  pose proof (proj1 (io_input b) Hi) as Ht. rewrite Hp in Ht. unfold tail_io in Ht.
  pose proof (free_bound _ _ _ Hg) as Hfb. pose proof (g_max _ _ _ Hg) as Hmax. unfold INT_MAX, sizeof_block in *.
  destruct (Z.ltb_spec (size b - ChunkBuffer2_end b - 1) (mtu b)) as [|Hm]; [done|].
  destruct (Z.ltb_spec 0 (free_blocks b)) as [Hf0|]; [|done]. injection Ht as <- Ha.
  rewrite s32_small in Ha by lia.
  pose proof (bdivide_up_4 (len d) (len_nonneg d)) as Hb.
  assert (Hf : nblocks (len d) <= free_blocks b) by (unfold nblocks; lia).
  destruct (put_memory b q1 q2 d Hg Hf) as (m1 & m2 & Hw1 & Hg1 & Hw2 & Hg2 & Hst).
  destruct (put_ring (cb_set_buffer m2 b) q1 q2 d Hg2 Hm Hst Hf) as (q1' & q2' & Hg' & Hq & Hhd).
  assert (Hio1 : io_ok (cb_set_buffer m1 b)).
  { split; [apply io_input; exact (proj1 (io_input b) Hi)|].
    apply (io_output _ _ _ Hg1). exact (proj1 (io_output _ _ _ Hg) Ho). }
  destruct (put_checks _ _ _ _ Hg Hf) as [Hc1 Hc2].
  pose proof (proj1 (io_output _ _ _ Hg) Ho) as Hout.
  set (b2 := cb_set_ring _ _ _ _) in Hg'.
  unfold cb_put. rewrite Hp. run_simpl. rewrite Hw1. run_simpl.
  unfold ChunkBuffer2_SubmitPacket. cbn [input_dest input_avail cb_set_buffer].
  rewrite Hp, bool_decide_true by done. run_simpl. rewrite (proj2 (Z.leb_le 0 _)) by apply len_nonneg. run_simpl.
  rewrite (proj2 (Z.leb_le (len d) _)) by done. run_simpl.
  rewrite (geom_assert_buffer _ _ _ Hg1). run_simpl. rewrite (assert_io_spec _ _ _ Hg1 Hio1). run_simpl.
  change (ChunkBuffer2_end (cb_set_buffer m1 b)) with (ChunkBuffer2_end b). unfold sizeof_block.
  change (size (cb_set_buffer m1 b)) with (size b). change (wrap (cb_set_buffer m1 b)) with (wrap b).
  change (start (cb_set_buffer m1 b)) with (start b). change (used (cb_set_buffer m1 b)) with (used b).
  rewrite Hc1. run_simpl. rewrite Hc2. run_simpl.
  unfold wr_block. change (buffer (cb_set_buffer m1 b)) with m1. rewrite Hw2. run_simpl.
  change (cb_set_ring _ _ _ _) with b2. rewrite (geom_assert_buffer _ _ _ Hg'). run_simpl.
  assert (Hl2 : len (buffer b2) = len (buffer b)).
  { change (buffer b2) with m2. rewrite (wr_range_len _ _ _ _ Hw2). exact (wr_range_len _ _ _ _ Hw1). }
  replace (used (ChunkBuffer2_update_input b2)) with (used b2) by (by rewrite update_input_spec).
  rewrite <- Hq, <- Hl2. apply (put_finish b2 q1' q2' (used b2 =? 1 + bdivide_up (len d) 4) Hg').
  intros Hc. change (output_dest b2, output_avail b2) with (output_dest b, output_avail b). rewrite <- Hout.
  assert (q1 <> []) as Hne.
  { intros ->. pose proof (geom_head _ _ _ Hg) as Hh. apply Z.ltb_ge in Hh. destruct (geom_used _ _ _ Hg) as (Hu & _).
    cbn [blocks_of] in Hu. pose proof (blocks_of_nonneg q2). apply Z.eqb_neq in Hc. apply Hc.
    unfold b2. cbn [used cb_set_ring cb_set_buffer]. lia. }
  specialize (Hhd Hne). destruct q1 as [|d1 q1]; [done|]. destruct q1' as [|d1' q1']; [done|].
  injection Hhd as ->. done.
Qed.

Lemma ring_end b st us : used b < wrap b - start b -> us < wrap b - st -> st + us = start b + used b ->
  let b' := cb_set_ring (wrap b) st us b in
  (used b < wrap b - start b -> tail_io b' = tail_io b) /\
  ChunkBuffer2_end b' = ChunkBuffer2_end b /\ free_blocks b <= free_blocks b'.
Proof.
  intros H1 H2 H3 b'.
  assert (E1 : ChunkBuffer2_end b' = ChunkBuffer2_end b).
  { unfold ChunkBuffer2_end. cbn [b' wrap used start cb_set_ring].
    rewrite (proj2 (Z.leb_gt _ us)), (proj2 (Z.leb_gt _ (used b))) by lia. done. }
  assert (E2 : free_blocks b' = free_blocks b).
  { unfold free_blocks. rewrite E1. cbn [b' wrap used start size cb_set_ring].
    rewrite (proj2 (Z.leb_gt _ us)), (proj2 (Z.leb_gt _ (used b))) by lia. done. }
  split_and!; [|done|lia]. intros _. unfold tail_io. by rewrite E1, E2.
Qed.

(** The ring after the first packet was removed. *)
Lemma get_ring b d q1 q2 : geom b (d :: q1) q2 ->
  let bl := bdivide_up (len d) 4 in
  let st := start b + (1 + bl) in
  let us := used b - (1 + bl) in
  let b' := if st =? wrap b then cb_set_ring (size b) 0 us b else cb_set_ring (wrap b) st us b in
  exists q1' q2', geom b' q1' q2' /\ q1' ++ q2' = q1 ++ q2 /\
    (used b < wrap b - start b -> tail_io b' = tail_io b) /\
    ChunkBuffer2_end b' = ChunkBuffer2_end b /\ free_blocks b <= free_blocks b'.
Proof.
  intros Hg bl st us b'. pose proof (geom_pos _ _ _ Hg) as Hp.
  destruct (bdivide_up_4 (len d) (len_nonneg d)) as [_ Hb]. fold bl in Hb.
  pose proof (blocks_of_nonneg q1). pose proof (blocks_of_nonneg q2).
  destruct Hg as [Hl Hmax Hmt Hs Hl1 Hl2 _]. destruct Hl1 as [_ Hl1]. unfold nblocks in Hl1. fold bl st in Hl1.
  destruct Hp as [((Hq2 & Hw & Hu & Hr) & Hlt & He & Hfr)|(Hwr & Hge & He & Hfr & Hq1)].
  - cbn [blocks_of] in Hu. unfold nblocks in Hu. fold bl in Hu. subst q2. exists q1, []. unfold b'.
    rewrite (proj2 (Z.eqb_neq st _)) by (unfold st; lia). split; [|split; [done|]].
    + split; cbn [buffer size mtu start cb_set_ring]; try done; [unfold st; lia|]. left. unfold unwrapped.
      cbn [wrap used start size mtu cb_set_ring]. unfold us, st. split_and!; done || lia.
    + apply ring_end; [done|unfold us, st; lia..].
  - destruct Hwr as (q & d0 & Hq & Hr1 & Hr2 & Hr3 & Hr4 & Hr5). cbn [blocks_of] in Hr1, Hr2.
    unfold nblocks in Hr1, Hr2. fold bl in Hr1, Hr2. destruct q as [|d' q].
    + injection Hq as <- ->. cbn [blocks_of] in *. exists q2, []. unfold b'.
      rewrite (proj2 (Z.eqb_eq st _)) by (unfold st; lia). cbv iota.
      assert (Hg' : geom (cb_set_ring (size b) 0 us b) q2 []); [|
        split_and!; [done|by rewrite app_nil_r|lia|destruct (geom_pos _ _ _ Hg') as [(_ & _ & E1 & E2)|(_ & Hx & _)]; rewrite ?E1, ?E2;
          cbn [wrap used start size cb_set_ring] in *; unfold us in *; lia..]].
      split; cbn [buffer size mtu start cb_set_ring laid]; try done. left. unfold unwrapped.
      cbn [wrap used start size mtu cb_set_ring]. unfold us. split_and!; done || lia.
    + injection Hq as <- ->. exists (q ++ [d0]), q2. unfold b'. cbn [blocks_of] in *. unfold nblocks in Hr4. fold bl in Hr4.
      assert (1 <= blocks_of (q ++ [d0])).
      { rewrite blocks_of_app. cbn [blocks_of]. pose proof (nblocks_pos d0). pose proof (blocks_of_nonneg q). lia. }
      rewrite (proj2 (Z.eqb_neq st _)) by (unfold st; lia). cbv iota.
      assert (Hg' : geom (cb_set_ring (wrap b) st us b) (q ++ [d0]) q2); [|
        split_and!; [done|done|lia|destruct (geom_pos _ _ _ Hg') as [(_ & Hx & _)|(_ & _ & E1 & E2 & _)]; rewrite ?E1, ?E2;
          cbn [wrap used start size cb_set_ring] in *; unfold us, st in *; lia..]].
      split; cbn [buffer size mtu start cb_set_ring]; try done; [unfold st; lia|]. right. exists q, d0.
      cbn [wrap used start size mtu cb_set_ring]. unfold us, st. split_and!; done || lia.
Qed.

Lemma get_finish b q1 q2 (c : bool) : geom b q1 q2 ->
  (c = false -> tail_io b = (input_dest b, input_avail b)) ->
  exists b', (b1 ← ChunkBuffer2_update_output (if c then ChunkBuffer2_update_input b else b);
              _ ← ChunkBuffer2_assert_io b1; mret b1) = Ret b' /\
    repr b' (q1 ++ q2) /\ size b' = size b /\ mtu b' = mtu b /\ len (buffer b') = len (buffer b) /\
    (input_dest b', input_avail b') = tail_io b.
Proof.
  intros Hg Hc. destruct (refresh _ _ _ Hg) as (b' & Hr & Hg' & Hio & Ha).
  assert (E : (if c then ChunkBuffer2_update_input b else b) = ChunkBuffer2_update_input b).
  { destruct c; [done|]. symmetry. by apply io_input, Hc. }
  rewrite E, Hr. run_simpl. rewrite Ha. run_simpl. exists b'. split; [done|]. split; [by exists q1, q2|].
  revert Hr. rewrite update_input_spec, (update_output_spec _ q1 q2) by (by apply geom_input). intros [= <-].
  split_and!; try done. by destruct (tail_io b).
Qed.

Lemma tail_io_grows b b2 d a d' a' : ChunkBuffer2_end b2 = ChunkBuffer2_end b -> size b2 = size b -> mtu b2 = mtu b ->
  free_blocks b <= free_blocks b2 -> tail_io b = (d, a) -> (d', a') = tail_io b2 -> 4 * free_blocks b2 <= INT_MAX ->
  is_Some d -> d' = d /\ a <= a'.
Proof.
  intros He Hs Hm Hf. unfold tail_io, sizeof_block, INT_MAX. rewrite He, Hs, Hm. intros H1 H2 Hmax [p ->].
  destruct (_ <? mtu b); [done|]. destruct (Z.ltb_spec 0 (free_blocks b)); [|done].
  rewrite (proj2 (Z.ltb_lt 0 (free_blocks b2))) in H2 by lia. injection H1 as <- <-. injection H2 as -> ->.
  rewrite !s32_small by lia. split; [done|lia].
Qed.

Lemma repr_first b d q : repr b (d :: q) -> exists q1 q2, q = q1 ++ q2 /\ geom b (d :: q1) q2 /\ io_ok b.
Proof.
  intros (q1 & q2 & Hq & Hg & Hio). destruct q1 as [|d1 q1].
  - destruct (geom_used _ _ _ Hg) as (Hu & _). pose proof (geom_head _ _ _ Hg) as Hh. apply Z.ltb_ge in Hh.
    cbn [blocks_of app] in *. subst q2. pose proof (blocks_pos d q). lia.
  - injection Hq as <- ->. by exists q1, q2.
Qed.

Lemma chunk_peek b d q : repr b (d :: q) ->
  output_dest b = Some (4 * (start b + 1)) /\ output_avail b = len d /\ cb_peek b = Ret d.
Proof.
  intros Hr. destruct (repr_first _ _ _ Hr) as (q1 & q2 & -> & Hg & _ & Ho).
  pose proof (proj1 (io_output _ _ _ Hg) Ho) as Hout. cbn [head_io] in Hout. injection Hout as Hd Ha.
  destruct (geom_first _ _ _ _ Hg) as (_ & H1 & H2 & _). pose proof (g_start _ _ _ Hg). pose proof (len_nonneg d).
  unfold cb_peek. rewrite <- Hd, <- Ha. split_and!; [done|done|]. run_simpl. rewrite rd_slice by lia. by rewrite H1.
Qed.
Lemma chunk_empty b : repr b [] -> output_dest b = None /\ output_avail b = -1.
Proof.
  intros (q1 & q2 & Hq & Hg & _ & Ho). symmetry in Hq. apply app_nil in Hq as [-> ->].
  pose proof (proj1 (io_output _ _ _ Hg) Ho) as Hout. by injection Hout as <- <-.
Qed.

Lemma chunk_get b d q : repr b (d :: q) ->
  exists b', ChunkBuffer2_ConsumePacket b = Ret b' /\ repr b' q /\ size b' = size b /\ mtu b' = mtu b /\
    len (buffer b') = len (buffer b) /\
    (is_Some (input_dest b) -> input_dest b' = input_dest b /\ input_avail b <= input_avail b').
Proof.
  intros Hrep. destruct (chunk_peek _ _ _ Hrep) as (Hp & _ & _).
  destruct (repr_first _ _ _ Hrep) as (q1 & q2 & -> & Hg & Hio).
  destruct (get_ring _ _ _ _ Hg) as (q1' & q2' & Hg' & Hq & Ht & He & Hfr).
  destruct (geom_first _ _ _ _ Hg) as (Hh & _ & _ & _ & _ & Hc1 & Hc2).
  destruct (bdivide_up_4 (len d) (len_nonneg d)) as [_ Hb]. apply Z.leb_le in Hc1 as Hc1', Hc2 as Hc2'.
  unfold ChunkBuffer2_ConsumePacket. rewrite Hp, bool_decide_true by done. run_simpl.
  rewrite (geom_assert_buffer _ _ _ Hg). run_simpl. rewrite (assert_io_spec _ _ _ Hg Hio). run_simpl.
  rewrite (proj2 (Z.leb_le 1 (wrap b - start b))), (proj2 (Z.leb_le 1 (used b))) by lia. run_simpl. rewrite Hh. run_simpl.
  unfold sizeof_block. rewrite Hc2. run_simpl. rewrite Hc1. run_simpl.
  set (b2 := if start b + (1 + bdivide_up (len d) 4) =? wrap b then _ else _) in *.
  rewrite (geom_assert_buffer _ _ _ Hg'). run_simpl.
  assert (Hf : size b2 = size b /\ mtu b2 = mtu b /\ buffer b2 = buffer b /\ input_dest b2 = input_dest b /\
               input_avail b2 = input_avail b) by (unfold b2; by destruct (_ =? wrap b)).
  destruct Hf as (Hs & Hm & Hbuf & Hi1 & Hi2). pose proof (proj1 (io_input b) (proj1 Hio)) as Hin.
  destruct (get_finish b2 q1' q2' (wrap b - start b <=? used b) Hg') as (b' & -> & Hr' & Hs' & Hm' & Hl' & Ht').
  { intros Hc%Z.leb_gt. rewrite Hi1, Hi2, Ht by done. exact Hin. }
  exists b'. rewrite <- Hq, <- Hs, <- Hm, <- Hbuf. split_and!; try done.
  apply (tail_io_grows b b2); [done..|lia|exact Hin|done|].
  pose proof (free_bound _ _ _ Hg'). pose proof (g_max _ _ _ Hg'). lia.
Qed.

(** The promise of [ChunkBuffer2_calc_blocks]: with fewer than [num] packets
    queued there is room for one more. *)
Lemma blocks_of_bound q n : 0 <= n -> Forall (fun d => len d <= n) q -> blocks_of q <= len q * nblocks n.
Proof.
  intros Hn. induction q as [|d q IH]; intros Hq; cbn [blocks_of].
  - change (len (@nil bytes)) with 0. lia.
  - apply Forall_cons_iff in Hq as [Hd Hq]. specialize (IH Hq). rewrite len_cons.
    pose proof (bdivide_up_le (len d) n ltac:(pose proof (len_nonneg d); lia)). unfold nblocks in *. lia.
Qed.
Lemma chunk_room b q n num : repr b q -> 0 <= n -> mtu b = bdivide_up n 4 -> nblocks n * (num + 1) <= size b ->
  Forall (fun d => len d <= n) q -> len q < num -> can_put b n.
Proof.
  intros (q1 & q2 & -> & Hg & Hi & _) Hn Hm Hs Hq Hnum. pose proof (blocks_of_bound _ _ Hn Hq) as Hb.
  rewrite blocks_of_app in Hb. pose proof (bdivide_up_4 n Hn). unfold nblocks in *. rewrite <- Hm in *.
  pose proof (blocks_of_nonneg q1). pose proof (blocks_of_nonneg q2). pose proof (free_bound _ _ _ Hg).
  pose proof (g_max _ _ _ Hg). unfold INT_MAX in *.
  assert (Hf : mtu b <= size b - ChunkBuffer2_end b - 1 /\ 1 + mtu b <= free_blocks b).
  { destruct (geom_pos _ _ _ Hg) as [((_ & _ & Hu & Hr) & Hlt & He & Hfr)|
                                     ((q & d & Hq1 & Hr1 & Hr2 & Hr3 & Hr4 & Hr5) & Hge & He & Hfr & _)].
    - lia.
    - pose proof (blocks_of_nonneg q). nia. }
  apply io_input in Hi. unfold tail_io in Hi.
  rewrite (proj2 (Z.ltb_ge (size b - ChunkBuffer2_end b - 1) _)), (proj2 (Z.ltb_lt 0 (free_blocks b))) in Hi by lia.
  injection Hi as Hp Ha. unfold sizeof_block in *. rewrite s32_small in Ha by lia. split; [by rewrite <- Hp|lia].
Qed.

(** ** A client *)

Inductive chunk_op := Put (d : bytes) | Get.

(** The client keeps to the interface: it writes only where it is given room, and
    takes only what is offered. *)
Definition chunk_step (b : ChunkBuffer2) (o : chunk_op) : run (ChunkBuffer2 * list bytes * list bytes) :=
  match o with
  | Put d =>
    match input_dest b with
    | Some _ => if len d <=? input_avail b then b ← cb_put b d; mret (b, [d], []) else mret (b, [], [])
    | None => mret (b, [], [])
    end
  | Get =>
    match output_dest b with
    | Some _ => d ← cb_peek b; b ← ChunkBuffer2_ConsumePacket b; mret (b, [], [d])
    | None => mret (b, [], [])
    end
  end.
Fixpoint chunk_run (b : ChunkBuffer2) (l : list chunk_op) : run (ChunkBuffer2 * list bytes * list bytes) :=
  match l with
  | [] => mret (b, [], [])
  | o :: l =>
    '(b, i, u) ← chunk_step b o;
    '(b, i', u') ← chunk_run b l;
    mret (b, i ++ i', u ++ u')
  end.

Lemma chunk_step_repr b q o : repr b q ->
  exists b' i u q', chunk_step b o = Ret (b', i, u) /\ repr b' q' /\ q ++ i = u ++ q' /\
    size b' = size b /\ mtu b' = mtu b /\ len (buffer b') = len (buffer b).
Proof.
  intros Hr. destruct o as [d|]; cbn [chunk_step].
  - destruct (input_dest b) as [p|] eqn:Hp; [destruct (Z.leb_spec (len d) (input_avail b)) as [Hl|]|].
    + destruct (chunk_put b q d Hr) as (b' & -> & Hr' & ? & ? & ? & _); [by split; [exists p|]|]. run_simpl.
      by exists b', [d], [], (q ++ [d]).
    + exists b, [], [], q. by rewrite app_nil_r.
    + exists b, [], [], q. by rewrite app_nil_r.
  - destruct q as [|d q].
    + rewrite (proj1 (chunk_empty b Hr)). by exists b, [], [], [].
    + destruct (chunk_peek _ _ _ Hr) as (Hp & _ & ->). rewrite Hp. run_simpl.
      destruct (chunk_get _ _ _ Hr) as (b' & -> & Hr' & ? & ? & ? & _). run_simpl.
      exists b', [], [d], q. by rewrite app_nil_r.
Qed.
Lemma chunk_run_repr l : forall b q, repr b q ->
  exists b' i u q', chunk_run b l = Ret (b', i, u) /\ repr b' q' /\ q ++ i = u ++ q' /\
    size b' = size b /\ mtu b' = mtu b /\ len (buffer b') = len (buffer b).
Proof.
  induction l as [|o l IH]; intros b q Hr; cbn [chunk_run].
  - exists b, [], [], q. by rewrite app_nil_r.
  - destruct (chunk_step_repr b q o Hr) as (b1 & i & u & q1 & -> & Hr1 & Hq1 & Hs & Hm & Hl). run_simpl.
    destruct (IH b1 q1 Hr1) as (b' & i' & u' & q' & -> & Hr' & Hq' & Hs' & Hm' & Hl'). run_simpl.
    exists b', (i ++ i'), (u ++ u'), q'. split_and!; try done; try congruence.
    by rewrite app_assoc, Hq1, <- !app_assoc, Hq'.
Qed.

Lemma calc_blocks_ok n num : 0 <= n <= INT_MAX -> 0 <= num < INT_MAX -> ChunkBuffer2_calc_blocks n num <> -1 ->
  ChunkBuffer2_calc_blocks n num = nblocks n * (num + 1).
Proof.
  intros Hn Hnum. unfold ChunkBuffer2_calc_blocks, sizeof_block, nblocks. pose proof (bdivide_up_4 n ltac:(lia)).
  repeat zcase; done.
Qed.

(** ** Properties *)

(** C39: the ring buffer is a queue.  Initialised with the number of blocks that
    [ChunkBuffer2_calc_blocks] computes for [num] packets of [n] bytes, and used
    through any sequence of submissions (where [input_dest] offers the room) and
    removals, no assertion of the code fails, the packets come out unchanged and
    in the order they were submitted, [output_dest] offers exactly the oldest one
    that is left, and while fewer than [num] packets are queued a packet of [n]
    bytes is accepted. *)
Theorem chunk_ring_is_a_queue (m : bytes) (n num blocks : Z) (ops : list chunk_op) :
  0 <= n <= INT_MAX -> 0 <= num < INT_MAX ->
  blocks = ChunkBuffer2_calc_blocks n num -> blocks <> -1 -> 4 * blocks <= INT_MAX -> len m = 4 * blocks ->
  exists b0 b accepted delivered queue,
    ChunkBuffer2_Init m blocks n = Ret b0 /\ chunk_run b0 ops = Ret (b, accepted, delivered) /\
    accepted = delivered ++ queue /\
    match queue with [] => output_dest b = None | d :: _ => cb_peek b = Ret d end /\
    (Forall (fun d => len d <= n) queue -> len queue < num -> is_Some (input_dest b) /\ n <= input_avail b).
Proof.
  intros Hn Hnum -> Hc Hmax Hl. rewrite calc_blocks_ok in Hmax, Hl |- * by done.
  pose proof (bdivide_up_4 n ltac:(lia)).
  assert (nblocks n <= nblocks n * (num + 1)) by (unfold nblocks; nia).
  destruct (chunk_init m _ n Hl Hmax) as (b0 & Hi & Hr & Hs & Hm); [lia|done|].
  destruct (chunk_run_repr ops b0 [] Hr) as (b & i & u & q & Hrun & Hr' & Hq & Hs' & Hm' & _).
  exists b0, b, i, u, q. split_and!; try done.
  - destruct q as [|d q]; [by apply chunk_empty|]. by destruct (chunk_peek _ _ _ Hr') as (_ & _ & ?).
  - intros Hf Hlt. apply (chunk_room b q n num); [done|lia|by rewrite Hm'|lia|done|done].
Qed.

Lemma chunk_ring_is_a_queue_witness :
  exists b0 b accepted delivered queue,
    ChunkBuffer2_Init (zrep 48 0) 12 5 = Ret b0 /\
    chunk_run b0 [Put [1;2;3]; Put [4]; Get; Put [5;6;7;8;9]; Put [10]; Put [11;12]; Get; Put [13]; Get; Get]
      = Ret (b, accepted, delivered) /\
    accepted = delivered ++ queue /\
    match queue with [] => output_dest b = None | d :: _ => cb_peek b = Ret d end /\
    (Forall (fun d => len d <= 5) queue -> len queue < 3 -> is_Some (input_dest b) /\ 5 <= input_avail b).
Proof.
  apply (chunk_ring_is_a_queue _ 5 3); [unfold INT_MAX; lia|unfold INT_MAX; lia|by vm_compute|lia|unfold INT_MAX; lia|by vm_compute].
Defined.
