(* ===== verification/PacketBuffer.v ===== *)
(** * flow/PacketBuffer.c: a packet queue between two interfaces

    The input ([PacketRecvInterface]) and the output ([PacketPassInterface]) are
    seen through their operation in flight: a slot that [Receiver_Recv] and
    [Sender_Send] fill, that must be free when they are called, and that is free
    again when the interface calls the done handler. *)
From S2P Require Import Prelude.
From S2P Require Import ChunkBuffer.

Record PacketBuffer := PB {
  buf : ChunkBuffer2;
  input_mtu : Z;
  output_mtu : Z;
  in_flight : option (option Z);
  out_flight : option (option Z * Z)
}.
Definition pb_set_buf b pb := PB b (input_mtu pb) (output_mtu pb) (in_flight pb) (out_flight pb).
Definition pb_set_in s pb := PB (buf pb) (input_mtu pb) (output_mtu pb) s (out_flight pb).
Definition pb_set_out s pb := PB (buf pb) (input_mtu pb) (output_mtu pb) (in_flight pb) s.

(** flow/PacketRecvInterface.h and flow/PacketPassInterface.h *)
Definition PacketRecvInterface_Receiver_Recv (pb : PacketBuffer) (data : option Z) : run PacketBuffer :=
  _ ← check (negb (0 <? input_mtu pb) || bool_decide (data <> None));
  _ ← check (bool_decide (in_flight pb = None));
  mret (pb_set_in (Some data) pb).
Definition PacketPassInterface_Sender_Send (pb : PacketBuffer) (data : option Z) (data_len : Z) : run PacketBuffer :=
  _ ← check (0 <=? data_len);
  _ ← check (data_len <=? output_mtu pb);
  _ ← check (negb (0 <? data_len) || bool_decide (data <> None));
  _ ← check (bool_decide (out_flight pb = None));
  mret (pb_set_out (Some (data, data_len)) pb).

Definition input_handler_done (pb : PacketBuffer) (in_len : Z) : run PacketBuffer :=
  _ ← check (0 <=? in_len);
  _ ← check (in_len <=? input_mtu pb);
  let was_empty := output_avail (buf pb) <? 0 in
  b ← ChunkBuffer2_SubmitPacket (buf pb) in_len;
  let pb := pb_set_buf b pb in
  pb ← (if input_mtu pb <=? input_avail (buf pb)
        then PacketRecvInterface_Receiver_Recv pb (input_dest (buf pb)) else mret pb);
  if was_empty then PacketPassInterface_Sender_Send pb (output_dest (buf pb)) (output_avail (buf pb)) else mret pb.

Definition output_handler_done (pb : PacketBuffer) : run PacketBuffer :=
  let was_full := input_avail (buf pb) <? input_mtu pb in
  b ← ChunkBuffer2_ConsumePacket (buf pb);
  let pb := pb_set_buf b pb in
  pb ← (if was_full && (input_mtu pb <=? input_avail (buf pb))
        then PacketRecvInterface_Receiver_Recv pb (input_dest (buf pb)) else mret pb);
  if 0 <=? output_avail (buf pb)
  then PacketPassInterface_Sender_Send pb (output_dest (buf pb)) (output_avail (buf pb)) else mret pb.

(** [BAllocArray] is the argument [alloc]: it gives the memory, or nothing. *)
Definition PacketBuffer_Init (alloc : Z -> Z -> option bytes) (input_mtu output_mtu num_packets : Z) :
    run (option PacketBuffer) :=
  _ ← check (input_mtu <=? output_mtu);
  _ ← check (0 <? num_packets);
  let num_blocks := ChunkBuffer2_calc_blocks input_mtu num_packets in
  if num_blocks <? 0 then mret None
  else
    match alloc num_blocks sizeof_block with
    | None => mret None
    | Some buf_data =>
      b ← ChunkBuffer2_Init buf_data num_blocks input_mtu;
      pb ← PacketRecvInterface_Receiver_Recv (PB b input_mtu output_mtu None None) (input_dest b);
      mret (Some pb)
    end.

(** ** The two neighbours *)

(** The input finishes a receive with the packet [d] in the memory it was given;
    the output finishes a send, having taken the packet from the memory it was
    given. *)
Inductive pb_event := InDone (d : bytes) | OutDone.
Definition pb_step (pb : PacketBuffer) (e : pb_event) : run (PacketBuffer * list bytes * list bytes) :=
  match e with
  | InDone d =>
    match in_flight pb with
    | Some (Some p) =>
      if len d <=? input_mtu pb then
        m ← wr_range (buffer (buf pb)) p d;
        pb ← input_handler_done (pb_set_in None (pb_set_buf (cb_set_buffer m (buf pb)) pb)) (len d);
        mret (pb, [d], [])
      else mret (pb, [], [])
    | _ => mret (pb, [], [])
    end
  | OutDone =>
    match out_flight pb with
    | Some (Some p, n) =>
      d ← rd_range (buffer (buf pb)) p n;
      pb ← output_handler_done (pb_set_out None pb);
      mret (pb, [], [d])
    | _ => mret (pb, [], [])
    end
  end.
Fixpoint pb_run (pb : PacketBuffer) (l : list pb_event) : run (PacketBuffer * list bytes * list bytes) :=
  match l with
  | [] => mret (pb, [], [])
  | e :: l =>
    '(pb, i, u) ← pb_step pb e;
    '(pb, i', u') ← pb_run pb l;
    mret (pb, i ++ i', u ++ u')
  end.

(** ** The invariant *)

(** A receive is in flight exactly while the buffer has room for a packet, a send
    exactly while it holds one. *)
Record pb_ok (num : Z) (pb : PacketBuffer) (q : list bytes) : Prop := {
  k_repr : repr (buf pb) q;
  k_mtu : 0 <= input_mtu pb <= output_mtu pb;
  k_cmtu : mtu (buf pb) = bdivide_up (input_mtu pb) 4;
  k_size : nblocks (input_mtu pb) * (num + 1) <= size (buf pb);
  k_packets : Forall (fun d => len d <= input_mtu pb) q;
  k_in : in_flight pb = if input_mtu pb <=? input_avail (buf pb) then Some (input_dest (buf pb)) else None;
  k_out : out_flight pb = match q with [] => None | d :: _ => Some (output_dest (buf pb), len d) end
}.

Lemma repr_input b q : repr b q -> input_dest b = None -> input_avail b = -1.
Proof.
  intros (q1 & q2 & _ & _ & Hi & _) Hn. apply io_input in Hi. rewrite Hn in Hi. unfold tail_io in Hi.
  destruct (_ <? mtu b), (0 <? free_blocks b); injection Hi; try done; congruence.
Qed.
Lemma repr_input_some b q n : repr b q -> 0 <= n -> n <= input_avail b -> is_Some (input_dest b).
Proof.
  intros Hr Hn Hle. destruct (input_dest b) as [p|] eqn:Hp; [by exists p|].
  pose proof (repr_input b q Hr Hp). lia.
Qed.
Lemma repr_output_avail b q : repr b q -> (output_avail b <? 0) = match q with [] => true | _ => false end.
Proof.
  intros Hr. destruct q as [|d q].
  - by destruct (chunk_empty b Hr) as [_ ->].
  - destruct (chunk_peek _ _ _ Hr) as (_ & -> & _). apply Z.ltb_ge, len_nonneg.
Qed.

Lemma recv_ok pb p : in_flight pb = None -> PacketRecvInterface_Receiver_Recv pb (Some p) = Ret (pb_set_in (Some (Some p)) pb).
Proof.
  intros Hn. unfold PacketRecvInterface_Receiver_Recv. rewrite !bool_decide_true by done. by rewrite orb_true_r.
Qed.
Lemma send_ok pb p n : out_flight pb = None -> 0 <= n <= output_mtu pb ->
  PacketPassInterface_Sender_Send pb (Some p) n = Ret (pb_set_out (Some (Some p, n)) pb).
Proof.
  intros Hn Hle. unfold PacketPassInterface_Sender_Send. rewrite !bool_decide_true, orb_true_r by done.
  by rewrite (proj2 (Z.leb_le 0 n)), (proj2 (Z.leb_le n _)) by lia.
Qed.

Lemma in_done num pb q p d : pb_ok num pb q -> in_flight pb = Some (Some p) -> len d <= input_mtu pb ->
  exists pb', (m ← wr_range (buffer (buf pb)) p d;
     input_handler_done (pb_set_in None (pb_set_buf (cb_set_buffer m (buf pb)) pb)) (len d)) = Ret pb' /\
    pb_ok num pb' (q ++ [d]) /\ input_mtu pb' = input_mtu pb.
Proof.
  intros [Hr Hm Hcm Hs Hf Hi Ho] Hp Hd. rewrite Hp in Hi. pose proof (len_nonneg d).
  destruct (Z.leb_spec (input_mtu pb) (input_avail (buf pb))) as [Ha|]; [|done]. injection Hi as Hi. symmetry in Hi.
  destruct (chunk_put (buf pb) q d Hr) as (b' & Hput & Hr' & Hs' & Hm' & _ & Hst); [split; [by rewrite Hi|lia]|].
  unfold cb_put in Hput. rewrite Hi in Hput. run_simpl. revert Hput. run_simpl.
  destruct (wr_range (buffer (buf pb)) p d) as [m|] eqn:Hw; [|done]. run_simpl. intros Hput.
  unfold input_handler_done. rewrite (proj2 (Z.leb_le 0 _)), (proj2 (Z.leb_le (len d) _)) by (cbn; lia). run_simpl.
  cbn [buf pb_set_in pb_set_buf]. rewrite Hput. run_simpl. cbn [buf pb_set_in pb_set_buf input_mtu output_avail cb_set_buffer].
  rewrite (repr_output_avail _ _ Hr).
  set (pb1 := PB b' (input_mtu pb) (output_mtu pb) (if input_mtu pb <=? input_avail b' then Some (input_dest b') else None) (out_flight pb)).
  assert (E : (if input_mtu pb <=? input_avail b' then PacketRecvInterface_Receiver_Recv
      (pb_set_buf b' (pb_set_in None (pb_set_buf (cb_set_buffer m (buf pb)) pb))) (input_dest b')
      else mret (pb_set_buf b' (pb_set_in None (pb_set_buf (cb_set_buffer m (buf pb)) pb)))) = Ret pb1).
  { unfold pb1. destruct (Z.leb_spec (input_mtu pb) (input_avail b')) as [Ha'|]; [|done].
    destruct (repr_input_some b' _ (input_mtu pb) Hr') as [p' ->]; [lia|done|]. by rewrite recv_ok. }
  rewrite E. run_simpl. destruct q as [|d0 q].
  - destruct (chunk_peek b' d [] Hr') as (Hd1 & Hd2 & _). cbn [buf pb1]. rewrite Hd1, Hd2.
    rewrite send_ok by (cbn [out_flight output_mtu pb1]; done || lia).
    eexists. split; [done|]. split; [|done].
    split; cbn [buf input_mtu output_mtu in_flight out_flight pb_set_out pb1 app]; try done; try congruence.
    + by apply Forall_cons_iff.
  - exists pb1. split; [done|]. split; [|done].
    split; cbn [buf input_mtu output_mtu in_flight out_flight pb1]; try done; try congruence.
    + apply Forall_app. split; [done|]. by apply Forall_cons_iff.
    + cbn [app]. rewrite Ho. destruct (chunk_peek _ _ _ Hr) as (-> & _). destruct (chunk_peek b' d0 (q ++ [d]) Hr') as (-> & _).
      by rewrite Hst.
Qed.

Lemma out_done num pb d q : pb_ok num pb (d :: q) ->
  exists p, out_flight pb = Some (Some p, len d) /\ rd_range (buffer (buf pb)) p (len d) = Ret d /\
  exists pb', output_handler_done (pb_set_out None pb) = Ret pb' /\ pb_ok num pb' q /\ input_mtu pb' = input_mtu pb.
Proof.
  intros [Hr Hm Hcm Hs Hf Hi Ho]. destruct (chunk_peek _ _ _ Hr) as (Hd1 & Hd2 & Hpk).
  unfold cb_peek in Hpk. rewrite Hd1, Hd2 in Hpk. eexists. rewrite Ho, Hd1. split; [done|]. split; [exact Hpk|].
  destruct (chunk_get _ _ _ Hr) as (b' & Hget & Hr' & Hs' & Hm' & _ & Hkeep).
  apply Forall_cons_iff in Hf as [Hd Hf].
  unfold output_handler_done. cbn [buf pb_set_out]. rewrite Hget. run_simpl. cbn [buf pb_set_buf pb_set_out input_mtu].
  set (pb1 := PB b' (input_mtu pb) (output_mtu pb) (if input_mtu pb <=? input_avail b' then Some (input_dest b') else None) None).
  set (c := pb_set_buf b' (pb_set_out None pb)).
  assert (E : (if (input_avail (buf pb) <? input_mtu pb) && (input_mtu pb <=? input_avail b')
      then PacketRecvInterface_Receiver_Recv c (input_dest b') else mret c) = Ret pb1).
  { unfold pb1, c. destruct (Z.leb_spec (input_mtu pb) (input_avail (buf pb))) as [Ha|Ha].
    - rewrite (proj2 (Z.ltb_ge (input_avail (buf pb)) _)) by lia. cbn [andb].
      destruct (Hkeep (repr_input_some _ _ (input_mtu pb) Hr ltac:(lia) Ha)) as [Hk1 Hk2].
      rewrite (proj2 (Z.leb_le _ (input_avail b'))) by lia. unfold pb_set_buf, pb_set_out.
      cbn [input_mtu output_mtu in_flight out_flight]. by rewrite Hi, Hk1.
    - rewrite (proj2 (Z.ltb_lt (input_avail (buf pb)) _)) by lia. cbn [andb].
      destruct (Z.leb_spec (input_mtu pb) (input_avail b')) as [Ha'|Ha'].
      + destruct (repr_input_some b' _ (input_mtu pb) Hr') as [p' ->]; [lia|done|]. by rewrite recv_ok.
      + unfold pb_set_buf, pb_set_out. cbn [input_mtu output_mtu in_flight out_flight]. by rewrite Hi. }
  rewrite E. run_simpl. clearbody c. pose proof (repr_output_avail _ _ Hr') as Hav. cbn [buf pb1].
  destruct q as [|d' q].
  - rewrite (proj2 (Z.leb_gt 0 _)) by (by apply Z.ltb_lt). exists pb1. split; [done|]. split; [|done].
    split; cbn [buf input_mtu output_mtu in_flight out_flight pb1]; try done; congruence.
  - rewrite (proj2 (Z.leb_le 0 _)) by (by apply Z.ltb_ge). destruct (chunk_peek _ _ _ Hr') as (Hp1 & Hp2 & _).
    apply Forall_cons_iff in Hf as [Hd' Hf]. pose proof (len_nonneg d').
    rewrite Hp1, Hp2, send_ok by (cbn [out_flight output_mtu pb1]; done || lia).
    eexists. split; [done|]. split; [|done].
    split; cbn [buf input_mtu output_mtu in_flight out_flight pb1 pb_set_out]; try done; try congruence.
    by apply Forall_cons_iff.
Qed.

Lemma pb_step_ok num pb q e : pb_ok num pb q ->
  exists pb' i u q', pb_step pb e = Ret (pb', i, u) /\ pb_ok num pb' q' /\ q ++ i = u ++ q' /\
    input_mtu pb' = input_mtu pb.
Proof.
  intros Hk. destruct e as [d|]; cbn [pb_step].
  - destruct (in_flight pb) as [[p|]|] eqn:Hp; [destruct (Z.leb_spec (len d) (input_mtu pb)) as [Hd|Hd]|..];
      try (exists pb, [], [], q; by rewrite app_nil_r).
    destruct (in_done num pb q p d Hk Hp Hd) as (pb' & Hh & Hk' & Hm').
    destruct (wr_range _ p d) as [m|]; [|done]. revert Hh. run_simpl. intros ->. run_simpl.
    by exists pb', [d], [], (q ++ [d]).
  - destruct q as [|d q].
    + rewrite (k_out _ _ _ Hk). by exists pb, [], [], [].
    + destruct (out_done num pb d q Hk) as (p & -> & Hrd & pb' & Hh & Hk' & Hm'). rewrite Hrd. run_simpl.
      rewrite Hh. run_simpl. exists pb', [], [d], q. by rewrite app_nil_r.
Qed.
Lemma pb_run_ok num l : forall pb q, pb_ok num pb q ->
  exists pb' i u q', pb_run pb l = Ret (pb', i, u) /\ pb_ok num pb' q' /\ q ++ i = u ++ q' /\
    input_mtu pb' = input_mtu pb.
Proof.
  induction l as [|e l IH]; intros pb q Hk; cbn [pb_run].
  - exists pb, [], [], q. by rewrite app_nil_r.
  - destruct (pb_step_ok num pb q e Hk) as (pb1 & i & u & q1 & -> & Hk1 & Hq1 & Hm1). run_simpl.
    destruct (IH pb1 q1 Hk1) as (pb' & i' & u' & q' & -> & Hk' & Hq' & Hm'). run_simpl.
    exists pb', (i ++ i'), (u ++ u'), q'. split_and!; try done; try congruence.
    by rewrite app_assoc, Hq1, <- !app_assoc, Hq'.
Qed.

Lemma pb_init_ok alloc imtu omtu num m : 0 <= imtu <= INT_MAX -> imtu <= omtu -> 0 < num < INT_MAX ->
  ChunkBuffer2_calc_blocks imtu num <> -1 -> 4 * ChunkBuffer2_calc_blocks imtu num <= INT_MAX ->
  alloc (ChunkBuffer2_calc_blocks imtu num) 4 = Some m -> len m = 4 * ChunkBuffer2_calc_blocks imtu num ->
  exists pb, PacketBuffer_Init alloc imtu omtu num = Ret (Some pb) /\ pb_ok num pb [] /\ input_mtu pb = imtu.
Proof.
  intros Him Hom Hnum Hc Hmax Hal Hl. unfold PacketBuffer_Init.
  rewrite (proj2 (Z.leb_le imtu omtu)), (proj2 (Z.ltb_lt 0 num)) by lia. run_simpl.
  pose proof (calc_blocks_ok imtu num Him ltac:(lia) Hc) as E.
  pose proof (bdivide_up_4 imtu ltac:(lia)) as Hbd.
  assert (nblocks imtu <= nblocks imtu * (num + 1)) by (unfold nblocks; nia).
  assert (0 < nblocks imtu) by (unfold nblocks; lia).
  rewrite (proj2 (Z.ltb_ge (ChunkBuffer2_calc_blocks imtu num) 0)) by lia. unfold sizeof_block. rewrite Hal.
  destruct (chunk_init m _ imtu Hl Hmax) as (b & Hb & Hr & Hs & Hm); [lia|lia|]. rewrite Hb. run_simpl.
  destruct (chunk_room b [] imtu num Hr) as [[p Hp] Ha]; [lia|done|lia|done|change (len (@nil bytes)) with 0; lia|].
  rewrite Hp, recv_ok by done. run_simpl. eexists. split; [done|]. split; [|done].
  split; cbn [buf input_mtu output_mtu in_flight out_flight pb_set_in]; try done; try lia.
  by rewrite (proj2 (Z.leb_le imtu _)), Hp by lia.
Qed.

(** ** Properties *)

(** C40: a PacketBuffer between an input and an output, for any order in which the
    two finish their operations: no assertion fails (no second receive or send is
    started while one is in flight, and none exceeds the MTU), every packet the
    input delivers is handed to the output unchanged, once and in order, the
    output is busy exactly while packets are queued, and as long as fewer than
    [num] packets are queued a receive is in flight. *)
Theorem packet_buffer_forwards (alloc : Z -> Z -> option bytes) (imtu omtu num : Z) (m : bytes) (evs : list pb_event) :
  0 <= imtu <= INT_MAX -> imtu <= omtu -> 0 < num < INT_MAX ->
  ChunkBuffer2_calc_blocks imtu num <> -1 -> 4 * ChunkBuffer2_calc_blocks imtu num <= INT_MAX ->
  alloc (ChunkBuffer2_calc_blocks imtu num) 4 = Some m -> len m = 4 * ChunkBuffer2_calc_blocks imtu num ->
  exists pb0 pb received sent queue,
    PacketBuffer_Init alloc imtu omtu num = Ret (Some pb0) /\ pb_run pb0 evs = Ret (pb, received, sent) /\
    received = sent ++ queue /\
    (out_flight pb = None <-> queue = []) /\
    (len queue < num -> is_Some (in_flight pb)).
Proof.
  intros Him Hom Hnum Hc Hmax Hal Hl.
  destruct (pb_init_ok alloc imtu omtu num m Him Hom Hnum Hc Hmax Hal Hl) as (pb0 & Hi & Hk & Hm).
  destruct (pb_run_ok num evs pb0 [] Hk) as (pb & i & u & q & Hrun & Hk' & Hq & Hm').
  exists pb0, pb, i, u, q. do 3 (split; [done|]). split.
  - rewrite (k_out _ _ _ Hk'). by destruct q.
  - intros Hlt. pose proof (k_mtu _ _ _ Hk'). rewrite (k_in _ _ _ Hk').
    destruct Hk' as [Hr _ Hcm Hs Hf _ _].
    destruct (chunk_room (buf pb) q (input_mtu pb) num Hr ltac:(lia) Hcm Hs Hf Hlt) as [_ Ha].
    by rewrite (proj2 (Z.leb_le _ _)) by lia.
Qed.

Lemma packet_buffer_forwards_witness :
  exists pb0 pb received sent queue,
    PacketBuffer_Init (fun n size => Some (zrep (n * size) 0)) 4 4 2 = Ret (Some pb0) /\
    pb_run pb0 [InDone [1;2;3;4]; InDone [5]; InDone [6]; OutDone; InDone [7;8]; OutDone; OutDone] = Ret (pb, received, sent) /\
    received = sent ++ queue /\
    (out_flight pb = None <-> queue = []) /\
    (len queue < 2 -> is_Some (in_flight pb)).
Proof.
  apply (packet_buffer_forwards _ 4 4 2 (zrep 24 0)); [unfold INT_MAX; lia|lia|unfold INT_MAX; lia|by vm_compute|
    by vm_compute|by vm_compute|by vm_compute].
Defined.
