(* ===== verification/PacketProto.v ===== *)
(** * PacketProto: packets over a byte stream

    flow/PacketProtoEncoder.c puts a 16-bit little-endian length before each
    packet; flow/PacketProtoDecoder.c gets the packets back from a stream that
    arrives in pieces of any size.  As in PacketBuffer.v the interfaces are seen
    through their operation in flight. *)
From S2P Require Import Prelude.
From S2P Require Import ChunkBuffer.

Definition sizeof_header : Z := 2.
Definition PACKETPROTO_ENCLEN (n : Z) : Z := sizeof_header + n.
Definition PACKETPROTO_MAXPAYLOAD : Z := 65535.

(** ** The encoder *)

(** [enc_mem] is the memory the output hands out; pointers are offsets into it. *)
Record PacketProtoEncoder := Enc {
  enc_mem : bytes;
  output_packet : option Z;
  enc_recv : option Z;
  enc_done : option Z
}.
Definition PacketProtoEncoder_Init (mem : bytes) (input_mtu : Z) : run PacketProtoEncoder :=
  _ ← check (input_mtu <=? PACKETPROTO_MAXPAYLOAD); mret (Enc mem None None None).
Definition output_handler_recv (e : PacketProtoEncoder) (data : Z) : run PacketProtoEncoder :=
  _ ← check (bool_decide (output_packet e = None));
  _ ← check (bool_decide (enc_recv e = None));
  mret (Enc (enc_mem e) (Some data) (Some (data + sizeof_header)) (enc_done e)).
Definition enc_input_handler_done (e : PacketProtoEncoder) (in_len : Z) : run PacketProtoEncoder :=
  p ← deref (output_packet e);
  m ← wr_range (enc_mem e) p (le16 (u16 in_len));
  mret (Enc m None (enc_recv e) (Some (PACKETPROTO_ENCLEN in_len))).

(** The input fills the memory it was given and finishes. *)
Definition enc_fill (e : PacketProtoEncoder) (d : bytes) : run PacketProtoEncoder :=
  p ← deref (enc_recv e);
  m ← wr_range (enc_mem e) p d;
  enc_input_handler_done (Enc m (output_packet e) None (enc_done e)) (len d).

(** ** The decoder *)

Record PacketProtoDecoder := Dec {
  dec_buf : bytes;
  output_mtu : Z;
  buf_size : Z;
  buf_start : Z;
  buf_used : Z;
  in_flight : option (Z * Z);
  out_flight : option (Z * Z);
  errors : Z
}.
Definition dec_set_pos m st us d := Dec m (output_mtu d) (buf_size d) st us (in_flight d) (out_flight d) (errors d).
Definition dec_set_in s d := Dec (dec_buf d) (output_mtu d) (buf_size d) (buf_start d) (buf_used d) s (out_flight d) (errors d).
Definition dec_set_out s d := Dec (dec_buf d) (output_mtu d) (buf_size d) (buf_start d) (buf_used d) (in_flight d) s (errors d).
Definition handler_error d := Dec (dec_buf d) (output_mtu d) (buf_size d) (buf_start d) (buf_used d) (in_flight d) (out_flight d) (errors d + 1).

(** flow/StreamRecvInterface.h and flow/PacketPassInterface.h *)
Definition StreamRecvInterface_Receiver_Recv (d : PacketProtoDecoder) (data data_len : Z) : run PacketProtoDecoder :=
  _ ← check (0 <? data_len);
  _ ← check (bool_decide (in_flight d = None));
  mret (dec_set_in (Some (data, data_len)) d).
Definition Sender_Send (d : PacketProtoDecoder) (data data_len : Z) : run PacketProtoDecoder :=
  _ ← check (0 <=? data_len);
  _ ← check (data_len <=? output_mtu d);
  _ ← check (bool_decide (out_flight d = None));
  mret (dec_set_out (Some (data, data_len)) d).

(** The rest of [process_data] when no packet is complete. *)
Definition process_more (d : PacketProtoDecoder) (was_error : bool) : run PacketProtoDecoder :=
  d ← (if was_error then mret (dec_set_pos (dec_buf d) 0 0 d)
       else if buf_start d + buf_used d =? buf_size d then
         x ← rd_range (dec_buf d) (buf_start d) (buf_used d);
         m ← wr_range (dec_buf d) 0 x;
         mret (dec_set_pos m 0 (buf_used d) d)
       else mret d);
  d ← StreamRecvInterface_Receiver_Recv d (buf_start d + buf_used d) (buf_size d - (buf_start d + buf_used d));
  if was_error then mret (handler_error d) else mret d.

Definition process_data (d : PacketProtoDecoder) : run PacketProtoDecoder :=
  let data := buf_start d in
  let left := buf_used d in
  if to_size_t left <? sizeof_header then process_more d false
  else
    header ← rd_range (dec_buf d) data sizeof_header;
    let data := data + sizeof_header in
    let left := left - sizeof_header in
    let data_len := of_le header in
    if output_mtu d <? data_len then process_more d true
    else if left <? data_len then process_more d false
    else
      Sender_Send (dec_set_pos (dec_buf d) (buf_start d + (sizeof_header + data_len))
                     (buf_used d - (sizeof_header + data_len)) d) data data_len.

Definition input_handler_done (d : PacketProtoDecoder) (data_len : Z) : run PacketProtoDecoder :=
  _ ← check (0 <? data_len);
  _ ← check (data_len <=? buf_size d - (buf_start d + buf_used d));
  process_data (dec_set_pos (dec_buf d) (buf_start d) (buf_used d + data_len) d).
Definition output_handler_done (d : PacketProtoDecoder) : run PacketProtoDecoder := process_data d.

(** [malloc] is the argument [alloc]. *)
Definition PacketProtoDecoder_Init (alloc : Z -> option bytes) (mtu : Z) : run (option PacketProtoDecoder) :=
  let mtu := Z.min mtu PACKETPROTO_MAXPAYLOAD in
  let size := PACKETPROTO_ENCLEN mtu in
  match alloc size with
  | None => mret None
  | Some m => d ← StreamRecvInterface_Receiver_Recv (Dec m mtu size 0 0 None None 0) 0 size; mret (Some d)
  end.

Definition PacketProtoDecoder_Reset (d : PacketProtoDecoder) : PacketProtoDecoder :=
  dec_set_pos (dec_buf d) (buf_start d + buf_used d) 0 d.

(** ** The two neighbours *)

(** The stream delivers the bytes [x] (as many as there is room for); the output
    has taken the packet in flight. *)
Inductive dec_event := In (x : bytes) | Sent.
Definition dec_step (d : PacketProtoDecoder) (e : dec_event) : run (PacketProtoDecoder * bytes * list bytes) :=
  match e with
  | In x =>
    match in_flight d with
    | Some (p, room) =>
      let x := ztake room x in
      if 0 <? len x then
        m ← wr_range (dec_buf d) p x;
        d ← input_handler_done (dec_set_in None (dec_set_pos m (buf_start d) (buf_used d) d)) (len x);
        mret (d, x, [])
      else mret (d, [], [])
    | None => mret (d, [], [])
    end
  | Sent =>
    match out_flight d with
    | Some (p, n) =>
      x ← rd_range (dec_buf d) p n;
      d ← output_handler_done (dec_set_out None d);
      mret (d, [], [x])
    | None => mret (d, [], [])
    end
  end.
Fixpoint dec_run (d : PacketProtoDecoder) (l : list dec_event) : run (PacketProtoDecoder * bytes * list bytes) :=
  match l with
  | [] => mret (d, [], [])
  | e :: l =>
    '(d, i, u) ← dec_step d e;
    '(d, i', u') ← dec_run d l;
    mret (d, i ++ i', u ++ u')
  end.

(** ** The format *)

Definition encode (p : bytes) : bytes := le16 (len p) ++ p.
Fixpoint encode_all (ps : list bytes) : bytes :=
  match ps with [] => [] | p :: ps => encode p ++ encode_all ps end.

Lemma encode_all_app ps qs : encode_all (ps ++ qs) = encode_all ps ++ encode_all qs.
Proof. induction ps as [|p ps IH]; cbn [encode_all app]; [done|]. by rewrite IH, <- !app_assoc. Qed.
Lemma len_encode p : len (encode p) = 2 + len p.
Proof. unfold encode. by rewrite len_app. Qed.
Lemma le16_u16 n : 0 <= n < 65536 -> le16 (u16 n) = le16 n.
Proof. intros. by rewrite u16_small. Qed.
Lemma of_le_2 h : len h = 2 -> bytes_ok h -> h = le16 (of_le h) /\ 0 <= of_le h < 65536.
Proof.
  intros Hl Hb. pose proof (of_le_bound h Hb) as Hbd. rewrite Hl in Hbd. change (256 ^ 2) with 65536 in Hbd.
  split; [|done]. apply of_le_inj; [done| |done|].
  - unfold le16. repeat constructor; apply byte_ok_mod.
  - symmetry. by apply of_le_le16.
Qed.

(** ** The invariant *)

Definition buffered (d : PacketProtoDecoder) : bytes := slice (dec_buf d) (buf_start d) (buf_used d).
(** The buffer does not start with a complete packet, nor with a header that is
    too large. *)
Definition incomplete (mtu : Z) (l : bytes) : Prop := len l < 2 \/ len l - 2 < of_le (ztake 2 l) <= mtu.
Record dec_ok (d : PacketProtoDecoder) : Prop := {
  d_len : len (dec_buf d) = buf_size d;
  d_size : buf_size d = 2 + output_mtu d;
  d_mtu : 0 <= output_mtu d <= 65535;
  d_start : 0 <= buf_start d;
  d_used : 0 <= buf_used d;
  d_end : buf_start d + buf_used d <= buf_size d;
  d_bytes : bytes_ok (buffered d)
}.
(** Exactly one side is busy: a receive into the free end of the buffer, when
    there is no packet, or a send of the packet [p], which stays in the buffer. *)
Definition receiving (d : PacketProtoDecoder) : Prop :=
  let e := buf_start d + buf_used d in
  out_flight d = None /\ in_flight d = Some (e, buf_size d - e) /\ 0 < buf_size d - e /\
  incomplete (output_mtu d) (buffered d).
Definition sending (d : PacketProtoDecoder) (p : bytes) : Prop :=
  in_flight d = None /\ exists o, out_flight d = Some (o, len p) /\ rd_range (dec_buf d) o (len p) = Ret p.

Lemma buffered_len d : dec_ok d -> len (buffered d) = buf_used d.
Proof. intros []. apply slice_len; lia. Qed.

Lemma slice_app (m : bytes) a n k : 0 <= a -> 0 <= n -> 0 <= k -> slice m a (n + k) = slice m a n ++ slice m (a + n) k.
Proof.
  intros. unfold slice. rewrite <- (zdrop_zdrop n a) by lia. unfold ztake, zdrop.
  rewrite Z2Nat.inj_add by lia. symmetry. apply take_take_drop.
Qed.

Lemma dec_recv_ok d p room : in_flight d = None -> 0 < room ->
  StreamRecvInterface_Receiver_Recv d p room = Ret (dec_set_in (Some (p, room)) d).
Proof.
  intros Hn Hr. unfold StreamRecvInterface_Receiver_Recv. rewrite (proj2 (Z.ltb_lt 0 _)) by lia. run_simpl.
  by rewrite bool_decide_true.
Qed.

(** [process_more] without an error keeps the buffered bytes and makes room. *)
Lemma process_more_ok d : dec_ok d -> in_flight d = None -> out_flight d = None -> incomplete (output_mtu d) (buffered d) ->
  exists d', process_more d false = Ret d' /\ dec_ok d' /\ receiving d' /\ buffered d' = buffered d /\
    errors d' = errors d /\ output_mtu d' = output_mtu d.
Proof.
  intros Hd Hi Ho Hinc. pose proof (buffered_len d Hd) as Hl. unfold process_more. cbv iota.
  pose proof Hd as [H1 H2 H3 H4 H5 H6 H7].
  assert (Hus : buf_used d < buf_size d) by (unfold incomplete in Hinc; lia).
  destruct (Z.eqb_spec (buf_start d + buf_used d) (buf_size d)) as [He|He].
  - rewrite rd_slice by lia. run_simpl. fold (buffered d).
    pose proof (wr_range_ok (dec_buf d) 0 (buffered d) ltac:(lia) ltac:(lia)) as Hw. set (m := ztake 0 _ ++ _) in Hw.
    rewrite Hw. run_simpl. cbn [buf_start buf_used buf_size dec_set_pos].
    rewrite dec_recv_ok by (done || lia). run_simpl. eexists. split; [done|].
    assert (Hb : slice m 0 (buf_used d) = buffered d).
    { rewrite <- Hl at 1. exact (slice_write_same _ _ _ _ Hw). }
    pose proof (wr_range_len _ _ _ _ Hw) as Hml. split_and!; try done; [split; cbn; try done; try lia|].
    + unfold buffered. cbn. by rewrite Hb.
    + unfold receiving, buffered. cbn. rewrite Hb. split_and!; done || lia.
  - change (mret d) with (Ret d). run_simpl.
    rewrite dec_recv_ok by (done || lia). run_simpl. eexists. split; [done|].
    split_and!; try done. unfold receiving. cbn. split_and!; done || lia.
Qed.

Lemma process_error_ok d : dec_ok d -> in_flight d = None -> out_flight d = None ->
  exists d', process_more d true = Ret d' /\ dec_ok d' /\ receiving d' /\
    errors d' = errors d + 1 /\ output_mtu d' = output_mtu d.
Proof.
  intros [H1 H2 H3 H4 H5 H6 H7] Hi Ho. unfold process_more. cbv iota. run_simpl. cbn [buf_start buf_used buf_size dec_set_pos].
  rewrite dec_recv_ok by (done || lia). run_simpl. eexists. split; [done|].
  split_and!; try done; [split; cbn; try done; try lia|].
  - constructor.
  - unfold receiving. cbn. split_and!; try done; try lia. left. done.
Qed.

Inductive processed (d d' : PacketProtoDecoder) : Prop :=
  | Packet p : sending d' p -> buffered d = encode p ++ buffered d' -> len p <= output_mtu d -> errors d' = errors d ->
      processed d d'
  | NoPacket : receiving d' -> buffered d' = buffered d -> errors d' = errors d -> processed d d'
  | TooLarge h k : receiving d' -> buffered d = h ++ k -> len h = 2 -> output_mtu d < of_le h -> errors d' = errors d + 1 ->
      processed d d'.

Lemma dec_sub d d' : dec_ok d -> dec_buf d' = dec_buf d -> output_mtu d' = output_mtu d -> buf_size d' = buf_size d ->
  0 <= buf_start d' -> 0 <= buf_used d' -> buf_start d' + buf_used d' <= buf_size d -> bytes_ok (buffered d') -> dec_ok d'.
Proof. intros [H1 H2 H3 H4 H5 H6 H7] E1 E2 E3 ? ? ? ?. split; rewrite ?E1, ?E2, ?E3; try done; lia. Qed.

Lemma process_data_ok d : dec_ok d -> in_flight d = None -> out_flight d = None ->
  exists d', process_data d = Ret d' /\ dec_ok d' /\ processed d d' /\ output_mtu d' = output_mtu d.
Proof.
  intros Hd Hi Ho. pose proof (buffered_len d Hd) as Hl. pose proof Hd as [H1 H2 H3 H4 H5 H6 H7]. unfold process_data.
  unfold to_size_t. rewrite Z.mod_small by lia. unfold sizeof_header in *.
  destruct (Z.ltb_spec (buf_used d) 2) as [Hs|Hs].
  { destruct (process_more_ok d Hd Hi Ho) as (d' & -> & Hd' & Hr & Hb & He & Hm); [left; lia|].
    exists d'. split_and!; try done. by apply NoPacket. }
  rewrite rd_slice by lia. run_simpl.
  pose proof (slice_app (dec_buf d) (buf_start d) 2 (buf_used d - 2) ltac:(lia) ltac:(lia) ltac:(lia)) as Hsl.
  replace (2 + (buf_used d - 2)) with (buf_used d) in Hsl by lia. fold (buffered d) in Hsl.
  set (h := slice (dec_buf d) (buf_start d) 2) in *. set (k := slice _ _ _) in Hsl.
  assert (Hh : len h = 2) by (apply slice_len; lia).
  assert (Hhb : bytes_ok h) by (rewrite Hsl in H7; by destruct (proj1 (bytes_ok_app _ _) H7)).
  destruct (of_le_2 h Hh Hhb) as [Hle Hn]. set (n := of_le h) in *.
  destruct (Z.ltb_spec (output_mtu d) n) as [Hbig|Hbig].
  { destruct (process_error_ok d Hd Hi Ho) as (d' & -> & Hd' & Hr & He & Hm).
    exists d'. split_and!; try done. by apply (TooLarge d d' h k). }
  destruct (Z.ltb_spec (buf_used d - 2) n) as [Hmore|Hfull].
  { destruct (process_more_ok d Hd Hi Ho) as (d' & -> & Hd' & Hr & Hb & He & Hm).
    - right. rewrite Hl. rewrite Hsl, ztake_app_exact by lia. fold n. lia.
    - exists d'. split_and!; try done. by apply NoPacket. }
  unfold Sender_Send. rewrite (proj2 (Z.leb_le 0 n)), (proj2 (Z.leb_le n _)) by (cbn; lia). run_simpl.
  rewrite bool_decide_true by done. run_simpl. eexists. split; [done|]. set (d' := dec_set_out _ _).
  set (p := slice (dec_buf d) (buf_start d + 2) n).
  assert (Hp : len p = n) by (apply slice_len; lia).
  assert (Hk : k = p ++ buffered d').
  { unfold k, p, buffered. cbn [d' dec_buf buf_start buf_used dec_set_out dec_set_pos].
    rewrite (Z.add_assoc (buf_start d)), <- slice_app by lia. f_equal. lia. }
  assert (Henc : buffered d = encode p ++ buffered d').
  { rewrite Hsl, Hk. unfold encode. by rewrite Hp, <- Hle, app_assoc. }
  assert (Hb' : bytes_ok (buffered d')) by (rewrite Henc in H7; by destruct (proj1 (bytes_ok_app _ _) H7)).
  assert (Hd' : dec_ok d') by (apply (dec_sub d); cbn; done || lia).
  split; [done|]. split; [|done]. apply (Packet d d' p); try done; [|lia].
  split; [done|]. exists (buf_start d + 2). rewrite Hp. split; [done|]. change (dec_buf d') with (dec_buf d). apply rd_slice; lia.
Qed.

(** ** One step of the neighbours *)

Definition dec_state (d : PacketProtoDecoder) (fl : list bytes) : Prop :=
  dec_ok d /\ Forall (fun p => len p <= output_mtu d) fl /\
  match fl with [] => receiving d | [p] => sending d p | _ => False end.

(** What the decoder has received, [l], as the packets [u] it has passed on, the
    packet in flight and the bytes still in the buffer; or else the stream had a
    header above the MTU. *)
Definition accounts (d d' : PacketProtoDecoder) (l : bytes) (u fl' : list bytes) : Prop :=
  (errors d' = errors d /\ l = encode_all u ++ encode_all fl' ++ buffered d') \/
  (errors d < errors d' /\ exists es h k, Forall (fun p => len p <= output_mtu d) es /\
     l = encode_all es ++ h ++ k /\ len h = 2 /\ output_mtu d < of_le h).

Lemma processed_state d d' u : dec_ok d' -> output_mtu d' = output_mtu d -> processed d d' ->
  Forall (fun p => len p <= output_mtu d) u ->
  exists fl', dec_state d' fl' /\ accounts d d' (encode_all u ++ buffered d) u fl'.
Proof.
  intros Hd' Hm [p Hs Hb Hp He|Hr Hb He|h k Hr Hb Hh Hbig He] Hu.
  - exists [p]. split; [split_and!; [done|rewrite Hm; by apply Forall_cons_iff|done]|]. left. split; [done|].
    rewrite Hb. cbn [encode_all]. by rewrite app_nil_r.
  - exists []. split; [split_and!; done|]. left. split; [done|]. by rewrite Hb.
  - exists []. split; [split_and!; done|]. right. split; [lia|]. exists u, h, k. by rewrite Hb.
Qed.

Lemma dec_step_ok d fl e : dec_state d fl -> match e with In x => bytes_ok x | Sent => True end ->
  exists d' x u fl', dec_step d e = Ret (d', x, u) /\ dec_state d' fl' /\ output_mtu d' = output_mtu d /\
    Forall (fun p => len p <= output_mtu d) u /\ accounts d d' (encode_all fl ++ buffered d ++ x) u fl'.
Proof.
  intros (Hd & Hfl & Hst) He.
  assert (Hsame : exists d' x u fl', mret (d, [], []) = Ret (d', x, u) /\ dec_state d' fl' /\ output_mtu d' = output_mtu d /\
    Forall (fun p => len p <= output_mtu d) u /\ accounts d d' (encode_all fl ++ buffered d ++ x) u fl').
  { exists d, [], [], fl. split_and!; try done. left. split; [done|]. by rewrite app_nil_r. }
  destruct e as [x|], fl as [|p [|]]; try done; cbn [dec_step].
  - pose proof Hst as (Ho & Hi & Hr & _). rewrite Hi. set (room := buf_size d - (buf_start d + buf_used d)) in *.
    destruct (Z.ltb_spec 0 (len (ztake room x))) as [Hx|]; [|done].
    pose proof (len_ztake_min room x ltac:(lia)) as Hlx. assert (Hxb : bytes_ok (ztake room x)) by (by apply Forall_take).
    clear Hsame. remember (ztake room x) as y eqn:Ey. clear Ey. pose proof Hd as [H1 H2 H3 H4 H5 H6 H7].
    pose proof (wr_range_ok (dec_buf d) (buf_start d + buf_used d) y ltac:(lia) ltac:(lia)) as Hw.
    set (m := ztake _ _ ++ _) in Hw. rewrite Hw. run_simpl. unfold input_handler_done.
    rewrite (proj2 (Z.ltb_lt 0 (len y))), (proj2 (Z.leb_le (len y) _)) by (cbn; lia). run_simpl.
    set (d1 := dec_set_pos _ _ _ _).
    assert (Hb1 : buffered d1 = buffered d ++ y).
    { unfold buffered. cbn [d1 dec_buf buf_start buf_used dec_set_in dec_set_pos]. rewrite slice_app by lia. f_equal.
      - apply (slice_write_before _ _ _ _ _ _ Hw); lia.
      - exact (slice_write_same _ _ _ _ Hw). }
    assert (Hd1 : dec_ok d1).
    { split; try (cbn; done || lia).
      - cbn [d1 dec_buf buf_size dec_set_pos dec_set_in]. rewrite (wr_range_len _ _ _ _ Hw). done.
      - rewrite Hb1. by apply bytes_ok_app. }
    destruct (process_data_ok d1 Hd1 eq_refl Ho) as (d' & -> & Hd' & Hp & Hm). run_simpl.
    destruct (processed_state d1 d' [] Hd' Hm Hp ltac:(done)) as (fl' & Hs' & Ha).
    exists d', y, [], fl'. split_and!; try done. unfold accounts in *. cbn [encode_all app] in *. by rewrite <- Hb1.
  - pose proof Hst as (Hi & _). by rewrite Hi.
  - pose proof Hst as (Ho & _). by rewrite Ho.
  - pose proof Hst as (Hi & o & Ho & Hrd). rewrite Ho, Hrd. run_simpl. unfold output_handler_done.
    set (d1 := dec_set_out None d). assert (Hd1 : dec_ok d1) by (by destruct Hd; split).
    destruct (process_data_ok d1 Hd1 Hi eq_refl) as (d' & -> & Hd' & Hp & Hm). run_simpl.
    destruct (processed_state d1 d' [p] Hd' Hm Hp Hfl) as (fl' & Hs' & Ha).
    exists d', [], [p], fl'. split_and!; try done. by rewrite app_nil_r.
Qed.

Definition event_ok (e : dec_event) : Prop := match e with In x => bytes_ok x | Sent => True end.

Lemma dec_run_ok evs : Forall event_ok evs -> forall d fl, dec_state d fl ->
  exists d' x u fl', dec_run d evs = Ret (d', x, u) /\ dec_state d' fl' /\ output_mtu d' = output_mtu d /\
    Forall (fun p => len p <= output_mtu d) u /\ accounts d d' (encode_all fl ++ buffered d ++ x) u fl'.
Proof.
  induction 1 as [|e evs He _ IH]; intros d fl Hs; cbn [dec_run].
  - exists d, [], [], fl. split_and!; try done. left. split; [done|]. by rewrite app_nil_r.
  - destruct (dec_step_ok d fl e Hs He) as (d1 & x & u & fl1 & -> & Hs1 & Hm1 & Hu & Ha). run_simpl.
    destruct (IH d1 fl1 Hs1) as (d' & x' & u' & fl' & -> & Hs' & Hm' & Hu' & Ha'). run_simpl. rewrite Hm1 in *.
    exists d', (x ++ x'), (u ++ u'), fl'. split_and!; try done; [by apply Forall_app|].
    unfold accounts in *. rewrite Hm1 in Ha'.
    replace (encode_all fl ++ buffered d ++ x ++ x') with ((encode_all fl ++ buffered d ++ x) ++ x')
      by (by rewrite <- !app_assoc).
    destruct Ha as [[He1 Hl]|(He1 & es & h & k & Hes & Hl & Hh)]; rewrite Hl; rewrite <- !app_assoc.
    + destruct Ha' as [[He2 Hl2]|(He2 & es & h & k & Hes & Hl2 & Hh)]; rewrite Hl2.
      * left. split; [lia|]. by rewrite encode_all_app, <- !app_assoc.
      * right. split; [lia|]. exists (u ++ es), h, k. split; [by apply Forall_app|]. split; [|done].
        by rewrite encode_all_app, <- !app_assoc.
    + right. split; [destruct Ha' as [[? _]|[? _]]; lia|]. by exists es, h, (k ++ x').
Qed.

(** The framing is unambiguous: packets read off a stream that continues the
    encoding of [ps] are the first ones of [ps]. *)
Lemma encode_prefix mtu es : Forall (fun p => len p <= mtu) es -> mtu <= 65535 -> forall ps r k,
  Forall (fun p => len p <= mtu) ps -> encode_all ps = (encode_all es ++ r) ++ k ->
  exists ps', ps = es ++ ps' /\ encode_all ps' = r ++ k.
Proof.
  intros Hes Hm. induction Hes as [|e es He _ IH]; intros ps r k Hps Heq; [by exists ps|].
  destruct ps as [|p ps]; [done|]. apply Forall_cons_iff in Hps as [Hp Hps]. cbn [encode_all] in Heq.
  unfold encode in Heq. rewrite <- !app_assoc in Heq. apply app_inj_1 in Heq as [Hh Heq]; [|done].
  pose proof (len_nonneg p). pose proof (len_nonneg e).
  assert (Hlen : len p = len e) by (apply (f_equal of_le) in Hh; by rewrite !of_le_le16 in Hh by lia).
  apply app_inj_1 in Heq as [-> Heq]; [|unfold len in Hlen; lia].
  destruct (IH ps r k Hps) as (ps' & -> & H'); [by rewrite <- !app_assoc|]. by exists ps'.
Qed.
Lemma encode_head ps h k mtu : Forall (fun p => len p <= mtu) ps -> mtu <= 65535 -> encode_all ps = h ++ k -> len h = 2 ->
  of_le h <= mtu /\ of_le h <= len k.
Proof.
  intros Hps Hm Heq Hh. destruct ps as [|p ps].
  - symmetry in Heq. apply app_nil in Heq as [-> _]. done.
  - apply Forall_cons_iff in Hps as [Hp _]. cbn [encode_all] in Heq. unfold encode in Heq. rewrite <- app_assoc in Heq.
    apply app_inj_1 in Heq as [<- <-]; [|unfold len in Hh; cbn; lia]. pose proof (len_nonneg p).
    rewrite of_le_le16 by lia. rewrite len_app. pose proof (len_nonneg (encode_all ps)). lia.
Qed.

Lemma dec_init_ok alloc mtu m : 0 <= mtu -> alloc (2 + mtu `min` 65535) = Some m -> len m = 2 + mtu `min` 65535 ->
  exists d, PacketProtoDecoder_Init alloc mtu = Ret (Some d) /\ dec_state d [] /\ output_mtu d = mtu `min` 65535 /\
    buffered d = [] /\ errors d = 0.
Proof.
  intros Hm Hal Hl. unfold PacketProtoDecoder_Init, PACKETPROTO_ENCLEN, PACKETPROTO_MAXPAYLOAD, sizeof_header.
  rewrite Hal, dec_recv_ok by (done || lia). run_simpl. eexists. split; [done|]. split_and!; try done.
  unfold dec_state. split; [split; cbn; try done; try lia; constructor|]. split; [done|].
  unfold receiving. split_and!; [done|cbn [dec_set_in in_flight buf_start buf_used buf_size]; f_equal; f_equal; lia|cbn; lia|by left].
Qed.

(** ** Properties *)

(** C26: the decoder undoes the framing.  Let the stream be the encoding of the
    packets [ps] (none above the MTU), delivered in pieces of any size, and the
    output finish its sends at any time: no assertion fails, no error is reported,
    the packets passed on are the first ones of [ps], unchanged and in order, one
    of the two sides is always busy, and when the whole stream has been received
    and the decoder waits for more, all of [ps] has been passed on. *)
Theorem packetproto_roundtrip (alloc : Z -> option bytes) (mtu : Z) (m : bytes) (ps : list bytes)
    (evs : list dec_event) :
  0 <= mtu -> alloc (2 + Z.min mtu 65535) = Some m -> len m = 2 + Z.min mtu 65535 ->
  Forall (fun p => len p <= Z.min mtu 65535) ps -> Forall event_ok evs ->
  exists d0 d received passed,
    PacketProtoDecoder_Init alloc mtu = Ret (Some d0) /\ dec_run d0 evs = Ret (d, received, passed) /\
    (in_flight d = None <-> out_flight d <> None) /\
    forall later, encode_all ps = received ++ later ->
      errors d = 0 /\ (exists todo, ps = passed ++ todo) /\
      (later = [] -> in_flight d <> None -> passed = ps).
Proof.
  intros Hm Hal Hl Hps Hev.
  destruct (dec_init_ok alloc mtu m Hm Hal Hl) as (d0 & Hi & Hs & Hmtu & Hb & He).
  destruct (dec_run_ok evs Hev d0 [] Hs) as (d & x & u & fl & Hrun & Hs' & Hm' & Hu & Ha).
  exists d0, d, x, u. split; [done|]. split; [done|]. rewrite Hb in Ha. cbn [encode_all app] in Ha.
  unfold accounts in Ha. rewrite Hmtu in *. pose proof Hs' as (Hd' & Hfl & Hmode). split.
  { destruct fl as [|p [|]]; [|..|done].
    - destruct Hmode as (Ho & Hin & _). by rewrite Ho, Hin.
    - destruct Hmode as (Hin & o & Ho & _). by rewrite Ho, Hin. }
  intros later Heq. destruct Ha as [[He' Hx]|(_ & es & h & k & Hes & Hx & Hh & Hbig)]; subst x.
  - split; [lia|]. rewrite Hm' in Hfl.
    destruct (encode_prefix (mtu `min` 65535) u Hu ltac:(lia) ps _ later Hps Heq) as (todo & -> & Htodo).
    split; [by exists todo|]. intros -> Hin. apply Forall_app in Hps as [_ Hps].
    destruct fl as [|p [|]]; [|by destruct Hmode as (? & _)|done]. cbn [encode_all app] in Htodo. rewrite app_nil_r in Htodo.
    destruct todo as [|p todo]; [by rewrite app_nil_r|]. exfalso. destruct Hmode as (_ & _ & _ & Hinc).
    rewrite <- Htodo in Hinc. cbn [encode_all] in Hinc. unfold incomplete in Hinc. unfold encode in Hinc.
    rewrite <- app_assoc, ztake_app_exact in Hinc by done. apply Forall_cons_iff in Hps as [Hp _].
    pose proof (len_nonneg p). pose proof (len_nonneg (encode_all todo)).
    rewrite of_le_le16 in Hinc by lia. rewrite !len_app in Hinc. change (len (le16 _)) with 2 in Hinc. lia.
  - exfalso. destruct (encode_prefix (mtu `min` 65535) es Hes ltac:(lia) ps _ later Hps Heq) as (todo & -> & Htodo).
    apply Forall_app in Hps as [_ Hps]. rewrite <- app_assoc in Htodo.
    destruct (encode_head todo h _ (mtu `min` 65535) Hps ltac:(lia) Htodo Hh). lia.
Qed.

Definition dec_evs : list dec_event := [In [2]; In [0;7]; In [8;3;0]; Sent; In [1;2;3;0;0;9]; In [1]; Sent; In [4]; Sent; Sent].
Lemma packetproto_roundtrip_witness :
  exists d0 d received passed,
    PacketProtoDecoder_Init (fun n => Some (zrep n 0)) 4 = Ret (Some d0) /\ dec_run d0 dec_evs = Ret (d, received, passed) /\
    (in_flight d = None <-> out_flight d <> None) /\
    forall later, encode_all [[7;8];[1;2;3];[]] = received ++ later ->
      errors d = 0 /\ (exists todo, [[7;8];[1;2;3];[]] = passed ++ todo) /\
      (later = [] -> in_flight d <> None -> passed = [[7;8];[1;2;3];[]]).
Proof.
  apply (packetproto_roundtrip _ 4 (zrep 6 0)); [lia|done|done|by repeat constructor|].
  repeat constructor; unfold byte_ok; lia.
Defined.

(** The encoder.  Given a buffer of [PACKETPROTO_ENCLEN] of the MTU, and a
    packet within the MTU from the input, the output receives exactly the encoding
    of the packet, and no byte outside of it is written. *)
Theorem packetproto_encode (mem d : bytes) (mtu p : Z) :
  len d <= mtu <= 65535 -> 0 <= p -> p + PACKETPROTO_ENCLEN mtu <= len mem ->
  exists e0 e1 e2,
    PacketProtoEncoder_Init mem mtu = Ret e0 /\ output_handler_recv e0 p = Ret e1 /\ enc_fill e1 d = Ret e2 /\
    enc_done e2 = Some (len (encode d)) /\ output_packet e2 = None /\ enc_recv e2 = None /\
    enc_mem e2 = ztake p mem ++ encode d ++ zdrop (p + len (encode d)) mem.
Proof.
  intros [Hd Hm] Hp Hl. unfold PACKETPROTO_ENCLEN, sizeof_header in *. pose proof (len_nonneg d).
  unfold PacketProtoEncoder_Init, PACKETPROTO_MAXPAYLOAD. rewrite (proj2 (Z.leb_le mtu _)) by lia. run_simpl.
  eexists _, _, _. split; [done|]. unfold output_handler_recv. cbn [output_packet enc_recv]. rewrite !bool_decide_true by done.
  run_simpl. split; [done|]. unfold enc_fill. cbn [enc_recv enc_mem output_packet enc_done]. run_simpl. unfold sizeof_header.
  rewrite wr_range_ok by lia. run_simpl. unfold enc_input_handler_done. cbn [enc_recv enc_mem output_packet enc_done]. run_simpl.
  rewrite u16_small by lia. set (m1 := ztake (p + 2) mem ++ _).
  assert (Hm1 : len m1 = len mem) by (unfold m1; rewrite !len_app, len_ztake, len_zdrop by lia; lia).
  rewrite wr_range_ok by (rewrite ?Hm1; try (change (len (le16 _)) with 2); lia). run_simpl.
  split; [done|]. cbn [enc_done output_packet enc_recv enc_mem]. rewrite len_encode. split_and!; try done.
  unfold m1, encode. change (len (le16 (len d))) with 2. rewrite ztake_app_l by (rewrite len_ztake; lia).
  rewrite ztake_ztake, zdrop_app_exact by (rewrite ?len_ztake; lia). replace (p `min` (p + 2)) with p by lia.
  rewrite <- !app_assoc. do 4 f_equal. lia.
Qed.

Lemma packetproto_encode_witness :
  exists e0 e1 e2,
    PacketProtoEncoder_Init (zrep 8 0) 5 = Ret e0 /\ output_handler_recv e0 1 = Ret e1 /\ enc_fill e1 [4;5;6] = Ret e2 /\
    enc_done e2 = Some (len (encode [4;5;6])) /\ output_packet e2 = None /\ enc_recv e2 = None /\
    enc_mem e2 = ztake 1 (zrep 8 0) ++ encode [4;5;6] ++ zdrop (1 + len (encode [4;5;6])) (zrep 8 0).
Proof. apply (packetproto_encode (zrep 8 0) [4;5;6] 5 1); [split; [done|lia]|lia|done]. Defined.

(** The decoder on any stream, hostile ones included.  No assertion fails and
    no access leaves the buffer; as long as no error was reported the bytes received
    are exactly the encodings of the packets passed on and of the one in flight,
    followed by the buffered bytes; and an error is reported only when a header of
    the stream exceeds the MTU.  [PacketProtoDecoder_Reset] keeps all this, with an
    empty buffer. *)
Theorem packetproto_any_stream (d0 : PacketProtoDecoder) (fl : list bytes) (evs : list dec_event) :
  dec_state d0 fl -> Forall event_ok evs ->
  dec_state (PacketProtoDecoder_Reset d0) fl /\ buffered (PacketProtoDecoder_Reset d0) = [] /\
  exists d received passed fl', dec_run d0 evs = Ret (d, received, passed) /\ dec_state d fl' /\
    accounts d0 d (encode_all fl ++ buffered d0 ++ received) passed fl'.
Proof.
  intros Hs Hev. pose proof Hs as (Hd & Hfl & Hmode). pose proof Hd as [H1 H2 H3 H4 H5 H6 H7].
  assert (Hb : buffered (PacketProtoDecoder_Reset d0) = []) by done.
  split_and!; [|done|].
  - unfold dec_state. split; [apply (dec_sub d0); cbn; try done; try lia; constructor|]. split; [done|].
    destruct fl as [|p [|]]; [|..|done].
    + destruct Hmode as (Ho & Hi & Hr & _). unfold receiving. rewrite Hb. cbn. rewrite Z.add_0_r.
      split_and!; try done. by left.
    + exact Hmode.
  - destruct (dec_run_ok evs Hev d0 fl Hs) as (d & x & u & fl' & Hrun & Hs' & _ & _ & Ha). by exists d, x, u, fl'.
Qed.

Definition dec_5 : PacketProtoDecoder := Dec (zrep 7 0) 5 7 0 0 (Some (0, 7)) None 0.
Lemma packetproto_any_stream_witness :
  dec_state (PacketProtoDecoder_Reset dec_5) [] /\ buffered (PacketProtoDecoder_Reset dec_5) = [] /\
  exists d received passed fl', dec_run dec_5 [In [1;0;3;6]; Sent; In [0;1;2]; In [2;0]] = Ret (d, received, passed) /\
    dec_state d fl' /\ accounts dec_5 d (encode_all [] ++ buffered dec_5 ++ received) passed fl'.
Proof.
  apply packetproto_any_stream; [|repeat constructor; unfold byte_ok; lia].
  unfold dec_state. split; [split; cbn; try done; lia || constructor|]. split; [done|].
  unfold receiving. cbn. split_and!; [done|done|lia|by left].
Defined.
