(* ===== verification/Stream.v ===== *)
(** * stream.c: the stream ciphers (TCP streams and UDP packets)

    The ciphers of libsodium are a key stream addressed by 64-byte blocks, which
    the code addresses by bytes with a zero padding; those of mbed TLS keep their
    state in a context.  Both are an interface, [StreamPrims]. *)
From stdpp Require Import strings.
From S2P Require Import Prelude Crypto Aead.

Definition SODIUM_BLOCK_SIZE : Z := 64.
Definition TABLE : Z := 0.
Definition RC4 : Z := 1.
Definition RC4_MD5 : Z := 2.
Definition SALSA20 : Z := 18.
Definition CHACHA20 : Z := 19.
Definition CHACHA20IETF : Z := 20.
Definition STREAM_CIPHER_NUM : Z := 21.
Definition CIPHER_UNSUPPORTED : string := "unsupported".

Definition supported_stream_ciphers : list string :=
  ["table"; "rc4"; "rc4-md5"; "aes-128-cfb"; "aes-192-cfb"; "aes-256-cfb"; "aes-128-ctr"; "aes-192-ctr"; "aes-256-ctr";
   "bf-cfb"; "camellia-128-cfb"; "camellia-192-cfb"; "camellia-256-cfb"; "cast5-cfb"; "des-cfb"; "idea-cfb"; "rc2-cfb";
   "seed-cfb"; "salsa20"; "chacha20"; "chacha20-ietf"]%string.
Definition supported_stream_ciphers_mbedtls : list string :=
  ["table"; "ARC4-128"; "ARC4-128"; "AES-128-CFB128"; "AES-192-CFB128"; "AES-256-CFB128"; "AES-128-CTR"; "AES-192-CTR";
   "AES-256-CTR"; "BLOWFISH-CFB64"; "CAMELLIA-128-CFB128"; "CAMELLIA-192-CFB128"; "CAMELLIA-256-CFB128";
   CIPHER_UNSUPPORTED; CIPHER_UNSUPPORTED; CIPHER_UNSUPPORTED; CIPHER_UNSUPPORTED; CIPHER_UNSUPPORTED;
   "salsa20"; "chacha20"; "chacha20-ietf"]%string.
Definition supported_stream_ciphers_nonce_size : list Z :=
  [0; 0; 16; 16; 16; 16; 16; 16; 16; 8; 16; 16; 16; 8; 8; 8; 8; 16; 8; 8; 12].
Definition supported_stream_ciphers_key_size : list Z :=
  [0; 16; 16; 16; 24; 32; 16; 24; 32; 16; 16; 24; 32; 16; 8; 16; 16; 16; 32; 32; 32].

(** ** Interface to the libraries *)

(** [crypto_stream_*_xor_ic]: message, nonce, block counter, key.  The mbed TLS
    functions give [None] on an error. *)
Class StreamPrims := {
  salsa20_xor_ic : bytes -> bytes -> Z -> bytes -> bytes;
  chacha20_xor_ic : bytes -> bytes -> Z -> bytes -> bytes;
  chacha20_ietf_xor_ic : bytes -> bytes -> Z -> bytes -> bytes;
  mbedtls_md5 : bytes -> bytes;
  mbed_evp : Type;
  mbedtls_cipher_info_from_string : string -> option Z;
  mbedtls_cipher_setup : string -> option mbed_evp;
  cipher_setkey : mbed_evp -> bytes -> Z -> Z -> option mbed_evp;
  cipher_set_iv : mbed_evp -> bytes -> option mbed_evp;
  cipher_reset : mbed_evp -> option mbed_evp;
  cipher_update : mbed_evp -> bytes -> option (bytes * mbed_evp)
}.

(** [cipher_ctx_t], the fields stream.c uses. *)
Record stream_ctx `{StreamPrims} := SCtx {
  x_init : Z;
  x_local : Z;
  x_counter : Z;
  x_evp : option mbed_evp;
  x_cipher : cipher_t;
  x_chunk : option buffer;
  x_kx : kx_ctx;
  x_nonce : bytes
}.

Section stream.
Context `{P : CryptoPrims} `{S : StreamPrims} (junk : nat -> Z).

Definition x_set_init v c := SCtx _ v (x_local c) (x_counter c) (x_evp c) (x_cipher c) (x_chunk c) (x_kx c) (x_nonce c).
Definition x_set_counter v c := SCtx _ (x_init c) (x_local c) v (x_evp c) (x_cipher c) (x_chunk c) (x_kx c) (x_nonce c).
Definition x_set_evp v c := SCtx _ (x_init c) (x_local c) (x_counter c) v (x_cipher c) (x_chunk c) (x_kx c) (x_nonce c).
Definition x_set_chunk v c := SCtx _ (x_init c) (x_local c) (x_counter c) (x_evp c) (x_cipher c) v (x_kx c) (x_nonce c).
Definition x_set_kx v c := SCtx _ (x_init c) (x_local c) (x_counter c) (x_evp c) (x_cipher c) (x_chunk c) v (x_nonce c).
Definition x_set_nonce v c := SCtx _ (x_init c) (x_local c) (x_counter c) (x_evp c) (x_cipher c) (x_chunk c) (x_kx c) v.

(** The bytes written; methods outside the three write nothing.  The library
    reads the nonce and the key of its cipher behind the two pointers. *)
Definition crypto_stream_xor_ic (m n : bytes) (ic : Z) (k : bytes) (mth : Z) : run (option bytes) :=
  if mth =? SALSA20 then
    n ← rd_range n 0 8; k ← rd_range k 0 32; mret (Some (salsa20_xor_ic m n ic k))
  else if mth =? CHACHA20 then
    n ← rd_range n 0 8; k ← rd_range k 0 32; mret (Some (chacha20_xor_ic m n ic k))
  else if mth =? CHACHA20IETF then
    n ← rd_range n 0 12; k ← rd_range k 0 32; mret (Some (chacha20_ietf_xor_ic m n (u32 ic) k))
  else mret None.

Definition stream_get_cipher_type (mth : Z) : run (option string) :=
  if (mth <=? TABLE) || (STREAM_CIPHER_NUM <=? mth) then mret None
  else
    let mth := if mth =? RC4_MD5 then RC4 else mth in
    if SALSA20 <=? mth then mret None
    else
      mbedtlsname ← rd supported_stream_ciphers_mbedtls mth;
      if String.eqb mbedtlsname CIPHER_UNSUPPORTED then mret None
      else
        match mbedtls_cipher_info_from_string mbedtlsname with
        | None => mret None
        | Some _ => mret (Some mbedtlsname)
        end.

Definition stream_cipher_ctx_init (ctx : stream_ctx) (mth : Z) : run stream_ctx :=
  if (mth <=? TABLE) || (STREAM_CIPHER_NUM <=? mth) then mret ctx
  else if SALSA20 <=? mth then mret ctx
  else
    cipher ← stream_get_cipher_type mth;
    match cipher with
    | None => Fail Exited
    | Some name =>
      match mbedtls_cipher_setup name with None => Fail Exited | Some e => mret (x_set_evp (Some e) ctx) end
    end.

Definition stream_ctx_release (ctx : stream_ctx) : stream_ctx :=
  let ctx := match x_chunk ctx with Some _ => x_set_chunk None ctx | None => ctx end in
  if SALSA20 <=? method (x_cipher ctx) then ctx else x_set_evp None ctx.

(** [cipher_ctx_set_nonce(ctx, ctx->nonce, nonce_len, enc)]; every call passes the
    nonce of the context. *)
Definition cipher_ctx_set_nonce (ctx : stream_ctx) (nonce_len enc : Z) : run stream_ctx :=
  let c := x_cipher ctx in
  if SALSA20 <=? method c then mret ctx
  else
    let key := if negb (enc =? 0) then kx_tx (x_kx ctx) else kx_rx (x_kx ctx) in
    '(true_key, nonce_len) ←
      (if method c =? RC4_MD5 then
         k ← rd_range key 0 16; n ← rd_range (x_nonce ctx) 0 16; mret (mbedtls_md5 (k ++ n), 0)
       else mret (key, nonce_len));
    match x_evp ctx with
    | None => mret ctx
    | Some e =>
      k ← rd_range true_key 0 (key_len c);
      match cipher_setkey e k (key_len c * 8) enc with
      | None => Fail Exited
      | Some e =>
        iv ← rd_range (x_nonce ctx) 0 nonce_len;
        match cipher_set_iv e iv with
        | None => Fail Exited
        | Some e => match cipher_reset e with None => Fail Exited | Some e => mret (x_set_evp (Some e) ctx) end
        end
      end
    end.

(** [cipher_ctx_update(ctx, output + off, olen, input, ilen)]: the error, the
    context, the output array and [*olen]. *)
Definition cipher_ctx_update (ctx : stream_ctx) (out : bytes) (off olen : Z) (input : bytes) (ioff ilen : Z) :
    run (Z * stream_ctx * bytes * Z) :=
  x ← rd_range input ioff ilen;
  e ← deref (x_evp ctx);
  match cipher_update e x with
  | None => mret (1, ctx, out, olen)
  | Some (y, e) => o ← wr_range out off y; mret (0, x_set_evp (Some e) ctx, o, len y)
  end.

(** [crypto_stream_xor_ic] between two arrays. *)
Definition xor_ic (out : bytes) (off : Z) (input : bytes) (ioff n : Z) (nonce : bytes) (ic : Z) (k : bytes) (mth : Z) : run bytes :=
  x ← rd_range input ioff n;
  y ← crypto_stream_xor_ic x nonce ic k mth;
  match y with None => mret out | Some y => wr_range out off y end.

(** The whole of [memset] to zero and the randomness of [rand_bytes]. *)
Definition stream_ctx_init (c : cipher_t) (k : option kx_ctx) (enc : Z) (rnd : Z -> bytes) : run stream_ctx :=
  let ctx := SCtx _ 0 0 0 None c None kx_zero (zrep MAX_NONCE_LENGTH 0) in
  ctx ← stream_cipher_ctx_init ctx (method c);
  let ctx := match k with Some k => x_set_kx k ctx | None => ctx end in
  if negb (enc =? 0) then n ← wr_range (x_nonce ctx) 0 (rnd (nonce_len c)); mret (x_set_nonce n ctx)
  else mret ctx.

(** The prefix of the first message: the public key, unless it was sent, and the
    nonce. *)
Definition stream_preamble (ctx : stream_ctx) (data : bytes) (nonce_len : Z) : run (bytes * stream_ctx * Z) :=
  '(data, ctx, pk_len) ←
    (if pk_sent (x_kx ctx) =? 0 then
       d ← memcpy data 0 (kx_pk (x_kx ctx)) 0 crypto_kx_PUBLICKEYBYTES;
       mret (d, x_set_kx (kx_set_pk_sent 1 (x_kx ctx)) ctx, crypto_kx_PUBLICKEYBYTES)
     else mret (data, ctx, 0));
  ctx ← cipher_ctx_set_nonce ctx nonce_len 1;
  data ← memcpy data pk_len (x_nonce ctx) 0 nonce_len;
  mret (data, x_set_init 1 (x_set_counter 0 ctx), pk_len).

Definition uint64 (z : Z) : Z := z mod 18446744073709551616.

(** [brealloc] with a length computed in [size_t], where a negative [int] wraps
    around.  No buffer is larger than [PTRDIFF_MAX] and [realloc] grants nothing
    larger, so such a length makes [ss_realloc] exit. *)
Definition PTRDIFF_MAX : Z := 9223372036854775807.
Definition brealloc_size (b : buffer) (n capacity : Z) : run buffer :=
  let n := to_size_t n in
  if PTRDIFF_MAX <? n then Fail Exited else Ret (grow junk b n capacity).

(** The libsodium branch of [stream_encrypt] and [stream_decrypt]: the input is
    moved behind [padding] zeros, all of it is xored with whole blocks of the key
    stream, and the result is moved back over the padding.  [padding] is an
    [int]; lengths that are added to it are [size_t]. *)
Definition padded_xor (input output : buffer) (off padding capacity : Z) (nonce : bytes) (counter : Z) (key : bytes)
    (mth : Z) : run (buffer * buffer) :=
  output ← brealloc_size output (off + (padding + b_len output) * 2) capacity;
  input ←
    (if negb (padding =? 0) then
       input ← brealloc_size input (b_len input + padding) capacity;
       p ← deref (b_data input);
       p ← memcpy p padding p 0 (b_len input);
       p ← wr_range p 0 (zrep (to_size_t padding) 0);
       mret (with_data input p)
     else mret input);
  o ← deref (b_data output);
  p ← deref (b_data input);
  o ← xor_ic o off p 0 (to_size_t (b_len input + padding)) nonce (counter / SODIUM_BLOCK_SIZE) key mth;
  o ← (if negb (padding =? 0) then memcpy o off o (off + padding) (b_len output) else mret o);
  mret (input, with_data output o).

(** [stream_encrypt(plaintext, ctx, capacity)]; [tmp] is its static buffer.  The
    padding is computed on the counter converted to [int]. *)
Definition stream_encrypt (plaintext tmp : buffer) (ctx : stream_ctx) (capacity : Z) :
    run (Z * buffer * buffer * stream_ctx) :=
  let first := x_init ctx =? 0 in
  let nlen := if first then nonce_len (x_cipher ctx) else 0 in
  let ciphertext := with_len (grow junk tmp (nlen + b_len plaintext) capacity) (b_len plaintext) in
  data ← deref (b_data ciphertext);
  '(data, ctx, pk_len) ← (if first then stream_preamble ctx data nlen else mret (data, ctx, 0));
  let ciphertext := with_data ciphertext data in
  let off := pk_len + nlen in
  '(err, plaintext, ciphertext, ctx) ←
    (if SALSA20 <=? method (x_cipher ctx) then
       let padding := Z.rem (s32 (x_counter ctx)) SODIUM_BLOCK_SIZE in
       '(plaintext, ciphertext) ← padded_xor plaintext ciphertext off padding capacity (x_nonce ctx) (x_counter ctx)
                                    (kx_tx (x_kx ctx)) (method (x_cipher ctx));
       mret (0, plaintext, ciphertext, x_set_counter (uint64 (x_counter ctx + b_len plaintext)) ctx)
     else
       data ← deref (b_data ciphertext);
       p ← deref (b_data plaintext);
       '(err, ctx, data, olen) ← cipher_ctx_update ctx data off (b_len ciphertext) p 0 (b_len plaintext);
       mret (err, plaintext, with_len (with_data ciphertext data) olen, ctx));
  if negb (err =? 0) then mret (CRYPTO_ERROR, plaintext, ciphertext, ctx)
  else
    let total := off + b_len ciphertext in
    let plaintext := grow junk plaintext total capacity in
    p ← deref (b_data plaintext);
    data ← deref (b_data ciphertext);
    p ← memcpy p 0 data 0 total;
    mret (CRYPTO_OK, with_len (with_data plaintext p) total, ciphertext, ctx).

(** The start of a session in [stream_decrypt]: the bytes of the public key and
    the nonce are collected in the chunk.  [None] asks for more; the number is
    [left_len]. *)
Definition stream_decrypt_start (ciphertext : buffer) (ctx : stream_ctx) (seed : bytes) :
    run (buffer * stream_ctx * option Z) :=
  let nlen := nonce_len (x_cipher ctx) in
  let ch := match x_chunk ctx with Some ch => ch | None => fst (balloc junk (crypto_kx_PUBLICKEYBYTES + nlen)) end in
  let rpk_len := if rpk_received (x_kx ctx) =? 0 then crypto_kx_PUBLICKEYBYTES else 0 in
  let left_len := Z.min (uint64 (nlen + rpk_len - b_len ch)) (b_len ciphertext) in
  '(ciphertext, ch) ←
    (if 0 <? left_len then
       cd ← deref (b_data ch);
       x ← deref (b_data ciphertext);
       cd ← memcpy cd (b_len ch) x 0 left_len;
       x ← memcpy x 0 x left_len (b_len ciphertext - left_len);
       mret (with_len (with_data ciphertext x) (b_len ciphertext - left_len), with_len (with_data ch cd) (b_len ch + left_len))
     else mret (ciphertext, ch));
  let ctx := x_set_chunk (Some ch) ctx in
  if b_len ch <? rpk_len + nlen then mret (ciphertext, ctx, None)
  else
    cd ← deref (b_data ch);
    ctx ← (if rpk_received (x_kx ctx) =? 0 then
             '(k, _) ← crypto_kx_ctx_init (x_kx ctx) (x_local ctx) cd seed;
             mret (x_set_kx (kx_set_rpk_received 1 k) ctx)
           else mret ctx);
    n ← memcpy (x_nonce ctx) 0 cd rpk_len nlen;
    ctx ← cipher_ctx_set_nonce (x_set_nonce n ctx) nlen 0;
    mret (ciphertext, x_set_init 1 (x_set_counter 0 ctx), Some left_len).

(** The part of [stream_decrypt] after the start. *)
Definition stream_decrypt_data (ciphertext plaintext : buffer) (ctx : stream_ctx) (capacity : Z) :
    run (Z * buffer * buffer * stream_ctx) :=
  '(err, ciphertext, plaintext, ctx) ←
    (if SALSA20 <=? method (x_cipher ctx) then
       let padding := x_counter ctx mod SODIUM_BLOCK_SIZE in
       '(ciphertext, plaintext) ← padded_xor ciphertext plaintext 0 padding capacity (x_nonce ctx) (x_counter ctx)
                                    (kx_rx (x_kx ctx)) (method (x_cipher ctx));
       mret (0, ciphertext, plaintext, x_set_counter (uint64 (x_counter ctx + b_len ciphertext)) ctx)
     else
       p ← deref (b_data plaintext);
       x ← deref (b_data ciphertext);
       '(err, ctx, p, olen) ← cipher_ctx_update ctx p 0 (b_len plaintext) x 0 (b_len ciphertext);
       mret (err, ciphertext, with_len (with_data plaintext p) olen, ctx));
  if negb (err =? 0) then mret (CRYPTO_ERROR, ciphertext, plaintext, ctx)
  else
    let ciphertext := grow junk ciphertext (b_len plaintext) capacity in
    x ← deref (b_data ciphertext);
    p ← deref (b_data plaintext);
    x ← memcpy x 0 p 0 (b_len plaintext);
    mret (CRYPTO_OK, with_len (with_data ciphertext x) (b_len plaintext), plaintext, ctx).

Definition stream_decrypt (ciphertext tmp : buffer) (ctx : stream_ctx) (capacity : Z) (seed : bytes) :
    run (Z * buffer * buffer * stream_ctx) :=
  let plaintext := with_len (grow junk tmp (b_len ciphertext) capacity) (b_len ciphertext) in
  '(ciphertext, ctx, started) ←
    (if x_init ctx =? 0 then stream_decrypt_start ciphertext ctx seed
     else if x_init ctx =? 1 then
       mret (ciphertext, if RC4_MD5 <=? method (x_cipher ctx) then x_set_init 2 ctx else ctx, Some 0)
     else mret (ciphertext, ctx, Some 0));
  match started with
  | None => mret (CRYPTO_NEED_MORE, ciphertext, plaintext, ctx)
  | Some left_len =>
    let plaintext := with_len plaintext (b_len plaintext - left_len) in
    if b_len ciphertext <=? 0 then mret (CRYPTO_NEED_MORE, ciphertext, plaintext, ctx)
    else stream_decrypt_data ciphertext plaintext ctx capacity
  end.

(** ** UDP: whole packets *)

(** [stream_encrypt_all(plaintext, cipher, kx, capacity)]; the context lives on the
    stack of the call. *)
Definition stream_encrypt_all (plaintext tmp : buffer) (c : cipher_t) (k : kx_ctx) (capacity : Z) (rnd : Z -> bytes) :
    run (Z * buffer * buffer * kx_ctx) :=
  ctx ← stream_ctx_init c (Some k) 1 rnd;
  let nlen := nonce_len c in
  let pk_len := if pk_sent k =? 0 then crypto_kx_PUBLICKEYBYTES else 0 in
  let ciphertext := with_len (grow junk tmp (pk_len + nlen + b_len plaintext) capacity) (b_len plaintext) in
  ctx ← cipher_ctx_set_nonce ctx nlen 1;
  data ← deref (b_data ciphertext);
  '(data, k) ← (if pk_sent k =? 0 then d ← memcpy data 0 (kx_pk k) 0 pk_len; mret (d, kx_set_pk_sent 1 k)
                else mret (data, k));
  data ← memcpy data pk_len (x_nonce ctx) 0 nlen;
  p ← deref (b_data plaintext);
  '(err, ctx, data, olen) ←
    (if SALSA20 <=? method c then
       data ← xor_ic data (pk_len + nlen) p 0 (b_len plaintext) (x_nonce ctx) 0 (kx_tx (x_kx ctx)) (method c);
       mret (0, ctx, data, b_len ciphertext)
     else cipher_ctx_update ctx data (pk_len + nlen) (b_len ciphertext) p 0 (b_len plaintext));
  let ciphertext := with_len (with_data ciphertext data) olen in
  if negb (err =? 0) then mret (CRYPTO_ERROR, plaintext, ciphertext, k)
  else
    let total := pk_len + nlen + b_len ciphertext in
    let plaintext := grow junk plaintext total capacity in
    p ← deref (b_data plaintext);
    p ← memcpy p 0 data 0 total;
    mret (CRYPTO_OK, with_len (with_data plaintext p) total, ciphertext, k).

Definition stream_decrypt_all (ciphertext tmp : buffer) (c : cipher_t) (k : kx_ctx) (capacity : Z) (rnd : Z -> bytes) :
    run (Z * buffer * buffer * kx_ctx) :=
  let nlen := nonce_len c in
  if b_len ciphertext <=? nlen then mret (CRYPTO_ERROR, ciphertext, tmp, k)
  else
    ctx ← stream_ctx_init c (Some k) 0 rnd;
    let plaintext := with_len (grow junk tmp (b_len ciphertext) capacity) (b_len ciphertext - nlen) in
    x ← deref (b_data ciphertext);
    n ← memcpy (x_nonce ctx) 0 x 0 nlen;
    ctx ← cipher_ctx_set_nonce (x_set_nonce n ctx) nlen 0;
    p ← deref (b_data plaintext);
    '(err, ctx, p, olen) ←
      (if SALSA20 <=? method c then
         p ← xor_ic p 0 x nlen (b_len ciphertext - nlen) (x_nonce ctx) 0 (kx_rx k) (method c);
         mret (0, ctx, p, b_len plaintext)
       else cipher_ctx_update ctx p 0 (b_len plaintext) x nlen (b_len ciphertext - nlen));
    let plaintext := with_len (with_data plaintext p) olen in
    if negb (err =? 0) then mret (CRYPTO_ERROR, ciphertext, plaintext, k)
    else
      let ciphertext := grow junk ciphertext (b_len plaintext) capacity in
      x ← deref (b_data ciphertext);
      x ← memcpy x 0 p 0 (b_len plaintext);
      mret (CRYPTO_OK, with_len (with_data ciphertext x) (b_len plaintext), plaintext, k).

(** ** Choosing a cipher *)

(** The last field of the result is the tag length, which stream ciphers leave
    zero. *)
Definition stream_key_init (mth : Z) (pk sk : option bytes) : run (option cipher_t) :=
  if (mth <=? TABLE) || (STREAM_CIPHER_NUM <=? mth) then mret None
  else
    info ← (if (mth =? SALSA20) || (mth =? CHACHA20) || (mth =? CHACHA20IETF) then
              n ← rd supported_stream_ciphers_nonce_size mth; mret (Some n)
            else
              name ← stream_get_cipher_type mth;
              mret (match name with Some name => mbedtls_cipher_info_from_string name | None => None end));
    match info with
    | None => Fail Exited
    | Some iv_size =>
      klen ← rd supported_stream_ciphers_key_size mth;
      pk ← match pk with Some pk => rd_range pk 0 crypto_kx_PUBLICKEYBYTES | None => mret (zrep crypto_kx_PUBLICKEYBYTES 0) end;
      sk ← match sk with Some sk => rd_range sk 0 crypto_kx_SECRETKEYBYTES | None => mret (zrep crypto_kx_SECRETKEYBYTES 0) end;
      if klen =? 0 then Fail Exited
      else mret (Some (Cipher mth (if mth =? RC4_MD5 then 16 else iv_size) klen 0 pk sk))
    end.

(** The name is searched from [TABLE] on; an unknown one is rc4-md5. *)
Definition stream_init (pk sk : option bytes) (name : option string) : run (option cipher_t) :=
  let m := match name with
           | None => TABLE
           | Some name => let m := aead_find name TABLE supported_stream_ciphers in
                          if STREAM_CIPHER_NUM <=? m then RC4_MD5 else m
           end in
  if m =? TABLE then mret None else stream_key_init m pk sk.
End stream.
