(* ===== verification/StreamSpec.v ===== *)
(** * stream.c: the laws of the ciphers, and one call of each function *)
From stdpp Require Import strings.
From S2P Require Import Prelude Crypto Aead AeadStream Stream.

(** What the libraries document.  libsodium: the output is the input xored with a
    key stream that depends on the nonce and the key, block [ic] of which starts at
    byte [64 * ic]; the IETF variant has a 32-bit block counter.  mbed TLS: for a
    cipher it knows, contexts set up with one key of the right size and one
    nonce, for encryption and for decryption, are [synced]; updating gives as many
    bytes as it takes, does not depend on how the data is cut, and a synced context
    gives the data back. *)
Class StreamLaws (S : StreamPrims) := {
  keystream : Z -> bytes -> bytes -> Z -> Z;
  synced : mbed_evp -> mbed_evp -> Prop;
  salsa20_law m n ic k : 0 <= ic ->
    salsa20_xor_ic m n ic k = imap (fun i x => Z.lxor x (keystream SALSA20 n k (64 * ic + Z.of_nat i))) m;
  chacha20_law m n ic k : 0 <= ic ->
    chacha20_xor_ic m n ic k = imap (fun i x => Z.lxor x (keystream CHACHA20 n k (64 * ic + Z.of_nat i))) m;
  chacha20_ietf_law m n ic k : 0 <= ic -> 64 * ic + len m <= 64 * 4294967296 ->
    chacha20_ietf_xor_ic m n ic k = imap (fun i x => Z.lxor x (keystream CHACHA20IETF n k (64 * ic + Z.of_nat i))) m;
  md5_law d : len (mbedtls_md5 d) = 16;
  info_law mth name n : supported_stream_ciphers_mbedtls !! mth = Some name -> mbedtls_cipher_info_from_string name = Some n ->
    0 <= n <= 16 /\ (name = "ARC4-128"%string -> n = 0);
  mbed_law mth name n key iv : supported_stream_ciphers_mbedtls !! mth = Some name ->
    mbedtls_cipher_info_from_string name = Some n ->
    supported_stream_ciphers_key_size !! mth = Some (len key) -> len iv = n ->
    exists e0, mbedtls_cipher_setup name = Some e0 /\
    exists e d e1 d1 e2 d2,
      cipher_setkey e0 key (len key * 8) 1 = Some e1 /\ cipher_set_iv e1 iv = Some e2 /\ cipher_reset e2 = Some e /\
      cipher_setkey e0 key (len key * 8) 0 = Some d1 /\ cipher_set_iv d1 iv = Some d2 /\ cipher_reset d2 = Some d /\
      synced e d;
  update_law e d x : synced e d ->
    exists c e' d', cipher_update e x = Some (c, e') /\ len c = len x /\ cipher_update d c = Some (x, d') /\ synced e' d';
  update_cut e d x y : synced e d ->
    exists c1 c2 e1 e2, cipher_update e x = Some (c1, e1) /\ cipher_update e1 y = Some (c2, e2) /\
      cipher_update e (x ++ y) = Some (c1 ++ c2, e2)
}.

Section spec.
Context `{P : CryptoPrims} `{S : StreamPrims} {L : StreamLaws S} (junk : nat -> Z).

(** ** The two kinds of cipher as one *)

Definition sodium (c : cipher_t) : bool := SALSA20 <=? method c.
Definition cipher_nonce (c : cipher_t) (n : bytes) : bytes := ztake (if method c =? CHACHA20IETF then 12 else 8) n.

(** [m] xored with the key stream from position [pos] on. *)
Definition xored (c : cipher_t) (n k : bytes) (pos : Z) (m : bytes) : bytes :=
  imap (fun i x => Z.lxor x (keystream (method c) (cipher_nonce c n) k (pos + Z.of_nat i))) m.

Lemma len_xored c n k pos m : len (xored c n k pos m) = len m.
Proof. unfold len, xored. by rewrite length_imap. Qed.
Lemma xored_app c n k pos a b : xored c n k pos (a ++ b) = xored c n k pos a ++ xored c n k (pos + len a) b.
Proof.
  unfold xored. rewrite imap_app. f_equal. apply imap_ext. intros i x _. cbn. unfold len. do 2 f_equal. lia.
Qed.
Lemma xored_twice c n k pos m : xored c n k pos (xored c n k pos m) = m.
Proof.
  unfold xored. apply list_eq. intros i. rewrite !list_lookup_imap.
  destruct (m !! i) as [x|]; [|done]. cbn. by rewrite Z.lxor_assoc, Z.lxor_nilpotent, Z.lxor_0_r.
Qed.

(** What [stream_encrypt] and [stream_decrypt] do to the data, once the session has
    started. *)
Definition encrypted (ctx : stream_ctx) (m : bytes) : option (bytes * stream_ctx) :=
  if sodium (x_cipher ctx) then
    Some (xored (x_cipher ctx) (x_nonce ctx) (kx_tx (x_kx ctx)) (x_counter ctx) m, x_set_counter (x_counter ctx + len m) ctx)
  else
    match x_evp ctx with
    | Some e => match cipher_update e m with Some (c, e) => Some (c, x_set_evp (Some e) ctx) | None => None end
    | None => None
    end.
Definition decrypted (ctx : stream_ctx) (c : bytes) : option (bytes * stream_ctx) :=
  if sodium (x_cipher ctx) then
    Some (xored (x_cipher ctx) (x_nonce ctx) (kx_rx (x_kx ctx)) (x_counter ctx) c, x_set_counter (x_counter ctx + len c) ctx)
  else
    match x_evp ctx with
    | Some e => match cipher_update e c with Some (m, e) => Some (m, x_set_evp (Some e) ctx) | None => None end
    | None => None
    end.

(** ** Contexts *)

Definition method_ok (c : cipher_t) : Prop := 0 < method c < STREAM_CIPHER_NUM /\ 0 <= nonce_len c <= 16.
Record xctx_ok (ctx : stream_ctx) : Prop := {
  xo_method : method_ok (x_cipher ctx);
  xo_nonce : len (x_nonce ctx) = 32;
  xo_pk : len (kx_pk (x_kx ctx)) = 32;
  xo_tx : len (kx_tx (x_kx ctx)) = 32;
  xo_rx : len (kx_rx (x_kx ctx)) = 32
}.

(** The position a cipher of libsodium may reach: the counter of
    [stream_encrypt] is converted to [int]. *)
Definition pos_ok (ctx : stream_ctx) (n : Z) : Prop :=
  0 <= x_counter ctx /\ (sodium (x_cipher ctx) = true -> x_counter ctx + n <= 2147483647).

Lemma pos_ok_less ctx n k : pos_ok ctx n -> k <= n -> pos_ok ctx k.
Proof. intros [H0 H1] Hk. split; [done|]. intros Hs. specialize (H1 Hs). lia. Qed.
Lemma pos_ok_next ctx ctx' n k : pos_ok ctx (n + k) -> x_cipher ctx' = x_cipher ctx ->
  x_counter ctx <= x_counter ctx' <= x_counter ctx + n -> pos_ok ctx' k.
Proof. intros [H0 H1] Hc Hn. split; [lia|]. rewrite Hc. intros Hs. specialize (H1 Hs). lia. Qed.

Lemma xor_ic_ok c out off input ioff n nonce ic k x :
  sodium c = true -> method c < STREAM_CIPHER_NUM -> len nonce = 32 -> len k = 32 -> 0 <= ic ->
  64 * ic + n < 64 * 4294967296 -> 0 <= n -> 0 <= off -> off + n <= len out ->
  rd_range input ioff n = Ret x -> len x = n ->
  xor_ic out off input ioff n nonce ic k (method c) = wr_range out off (xored c nonce k (64 * ic) x).
Proof.
  intros Hs Hm Hn Hk Hic Hb Hn0 Ho Hl Hx Hlx. unfold xor_ic. rewrite Hx. run_simpl.
  unfold sodium in Hs. apply Z.leb_le in Hs. unfold STREAM_CIPHER_NUM, SALSA20 in *.
  assert (Hc : method c = 18 \/ method c = 19 \/ method c = 20) by lia.
  unfold crypto_stream_xor_ic, xored, cipher_nonce, SALSA20, CHACHA20, CHACHA20IETF.
  destruct Hc as [E|[E|E]]; rewrite E; cbn [Z.eqb Pos.eqb]; rewrite !rd_range_front by lia; run_simpl;
    rewrite (ztake_all 32 k) by lia.
  - rewrite salsa20_law by lia. done.
  - rewrite chacha20_law by lia. done.
  - rewrite u32_small by lia. rewrite chacha20_ietf_law by lia. done.
Qed.

(** ** One block of data *)

Lemma brealloc_size_ok b n capacity : 0 <= n <= PTRDIFF_MAX -> brealloc_size junk b n capacity = Ret (grow junk b n capacity).
Proof.
  unfold PTRDIFF_MAX. intros Hn. unfold brealloc_size, to_size_t, PTRDIFF_MAX. rewrite Z.mod_small by lia.
  by rewrite (proj2 (Z.ltb_ge _ _)) by lia.
Qed.
Lemma brealloc_size_wraps b n capacity : -9223372036854775808 <= n < 0 -> brealloc_size junk b n capacity = Fail Exited.
Proof.
  intros Hn. unfold brealloc_size, to_size_t, PTRDIFF_MAX. rewrite <- (Z.mod_add n 1), Z.mod_small by lia.
  by rewrite (proj2 (Z.ltb_lt _ _)) by lia.
Qed.

(** Moving the contents of a buffer behind zeros. *)
Lemma shift_ok input m pad capacity : holds input m -> 0 < capacity -> 0 < pad ->
  exists b p p1 p2, grow junk input (b_len input + pad) capacity = b /\ b_data b = Some p /\ b_len b = len m /\
    memcpy p pad p 0 (b_len b) = Ret p1 /\ wr_range p1 0 (zrep pad 0) = Ret p2 /\
    buffer_ok (with_data b p2) /\ rd_range p2 0 (len m + pad) = Ret (zrep pad 0 ++ m).
Proof.
  intros Hh Hc Hp. pose proof Hh as (_ & Hl & _).
  destruct (grow_spec junk input m (b_len input + pad) capacity Hh Hc) as [(Hok & Hlb & Hs) (d & Hd & Hcap & Hmax & _)].
  set (b := grow _ _ _ _) in *. pose proof (len_nonneg m). rewrite Hd in Hs. cbn in Hs.
  assert (Hz : len (zrep pad 0) = pad) by (apply len_zrep; lia).
  pose proof (wr_range_ok d pad m ltac:(lia) ltac:(lia)) as Hw1. set (p1 := ztake pad d ++ m ++ _) in Hw1.
  assert (Hp1 : len p1 = len d) by (unfold p1; rewrite !len_app, len_ztake, len_zdrop by lia; lia).
  pose proof (wr_range_ok p1 0 (zrep pad 0) ltac:(lia) ltac:(lia)) as Hw2. set (p2 := ztake 0 p1 ++ _) in Hw2.
  assert (E : p2 = (zrep pad 0 ++ m) ++ zdrop (pad + len m) d).
  { unfold p2, p1. rewrite ztake_0, Hz. cbn [app]. rewrite <- app_assoc. f_equal.
    rewrite Z.add_0_l, zdrop_app_exact by (rewrite len_ztake; lia). done. }
  clearbody p2. exists b, d, p1, p2. unfold memcpy. rewrite Hlb, (rd_range_prefix m d) by done. run_simpl.
  unfold buffer_ok in *. rewrite Hd in Hok. cbn [b_data with_data b_capacity b_len].
  split_and!; try done; try (rewrite E, !len_app, len_zdrop, Hz by lia; lia); try lia.
  rewrite E, rd_range_front by (rewrite !len_app, len_zdrop, Hz by lia; lia).
  rewrite ztake_app_exact; [done|]. rewrite len_app, Hz. lia.
Qed.

(** [brealloc] keeps every byte of the array. *)
Lemma grow_prefix b d n capacity : b_data b = Some d -> len d = b_capacity b ->
  exists d', b_data (grow junk b n capacity) = Some d' /\ starts_with d d' /\
    len d' = b_capacity (grow junk b n capacity) /\ Z.max n capacity <= len d' /\ len d <= len d' /\
    b_len (grow junk b n capacity) = b_len b.
Proof.
  intros Hd Hl. unfold grow. destruct (Z.ltb_spec (b_capacity b) (Z.max n capacity)) as [Hlt|Hge]; cbn.
  - rewrite Hd. cbn [ss_realloc]. rewrite ztake_all by lia. eexists. split; [done|].
    rewrite len_app, len_fresh by lia. split_and!; try lia. apply starts_with_split. by eexists.
  - exists d. split_and!; try done; try lia. apply starts_with_refl.
Qed.
Lemma starts_with_trans (a b c : bytes) : starts_with a b -> starts_with b c -> starts_with a c.
Proof.
  intros [k ->]%starts_with_split [k' ->]%starts_with_split. apply starts_with_split. eexists. by rewrite <- app_assoc.
Qed.

Lemma padded_xor_ok c input output m pre od nonce counter key capacity :
  sodium c = true -> method c < STREAM_CIPHER_NUM -> len nonce = 32 -> len key = 32 ->
  0 <= counter -> counter + len m <= 274877906000 -> 1 <= len m ->
  holds input m -> b_len output = len m -> b_data output = Some od -> len od = b_capacity output ->
  starts_with pre od -> len pre <= 48 -> 0 < capacity ->
  exists input' output' od', padded_xor junk input output (len pre) (counter mod 64) capacity nonce counter key (method c)
      = Ret (input', output') /\
    buffer_ok input' /\ b_len input' = len m /\ b_len output' = len m /\ b_data output' = Some od' /\
    len od' = b_capacity output' /\ starts_with (pre ++ xored c nonce key counter m) od'.
Proof.
  intros Hs Hm Hn Hk Hc0 Hcm Hm1 Hi Ho Hod Hlo Hpre Hp48 Hcap0. unfold padded_xor.
  set (pad := counter mod 64). pose proof (Z.mod_pos_bound counter 64 ltac:(lia)) as Hpad. fold pad in Hpad.
  pose proof (len_nonneg m). pose proof (len_nonneg pre).
  assert (Hblk : 64 * (counter / 64) = counter - pad) by (unfold pad; pose proof (Z.div_mod counter 64); lia).
  pose proof Hi as (_ & Hli & _).
  rewrite (brealloc_size_ok output) by (unfold PTRDIFF_MAX; lia). run_simpl.
  destruct (grow_prefix output od (len pre + (pad + b_len output) * 2) capacity Hod Hlo)
    as (o & Hog & Hso & Hlog & Hmax & _ & Hbl).
  set (g := grow _ _ _ _) in *. pose proof (starts_with_trans _ _ _ Hpre Hso) as Hpo. rewrite Ho in *.
  assert (Hin : exists input' p, (if negb (pad =? 0) then
       input ← brealloc_size junk input (b_len input + pad) capacity;
       p ← deref (b_data input);
       p ← memcpy p pad p 0 (b_len input);
       p ← wr_range p 0 (zrep (to_size_t pad) 0);
       mret (with_data input p)
     else mret input) = Ret input' /\ buffer_ok input' /\ b_len input' = len m /\ b_data input' = Some p /\
     rd_range p 0 (len m + pad) = Ret (zrep pad 0 ++ m)).
  { destruct (Z.eqb_spec pad 0) as [E|E]; cbn [negb].
    - destruct Hi as (Hok & Hl & Hsw). pose proof Hok as Hok'. unfold buffer_ok in Hok'.
      destruct (b_data input) as [p|] eqn:Hp.
      + exists input, p. split_and!; try done. rewrite E, Z.add_0_r. by apply rd_range_prefix.
      + cbn in Hok'. lia.
    - destruct (shift_ok input m pad capacity Hi Hcap0 ltac:(lia)) as (b & p & p1 & p2 & Hg & Hp & Hbl' & Hc1 & Hw & Hok & Hr).
      rewrite brealloc_size_ok by (unfold PTRDIFF_MAX; lia). run_simpl.
      rewrite Hg, Hp. run_simpl. rewrite Hc1. run_simpl. unfold to_size_t. rewrite Z.mod_small by lia.
      rewrite Hw. run_simpl. by exists (with_data b p2), p2. }
  destruct Hin as (input' & p & -> & Hok' & Hl' & Hp & Hr). run_simpl. rewrite Hog, Hp. run_simpl. rewrite Hl'.
  unfold to_size_t. rewrite Z.mod_small by lia.
  change SODIUM_BLOCK_SIZE with 64.
  assert (Hz : len (zrep pad 0) = pad) by (apply len_zrep; lia).
  assert (Hlz : len (zrep pad 0 ++ m) = len m + pad) by (rewrite len_app; lia).
  rewrite (xor_ic_ok c o (len pre) p 0 (len m + pad) nonce (counter / 64) key (zrep pad 0 ++ m)) by (done || lia).
  rewrite Hblk, xored_app, Hz. replace (counter - pad + pad) with counter by lia.
  set (x := xored c nonce key counter m). set (zs := xored c nonce key (counter - pad) (zrep pad 0)).
  assert (Hlx : len x = len m) by apply len_xored. assert (Hlzs : len zs = pad) by (unfold zs; by rewrite len_xored).
  destruct (wr_range_extend pre (zs ++ x) o (len pre) Hpo) as (o1 & -> & Hs1 & Hlo1); [done|rewrite len_app; lia|].
  run_simpl. change (b_len g) with (b_len g). rewrite Hbl.
  assert (Hfin : exists o2, (if negb (pad =? 0) then memcpy o1 (len pre) o1 (len pre + pad) (len m) else mret o1) = Ret o2 /\
     len o2 = len o1 /\ starts_with (pre ++ x) o2).
  { destruct (Z.eqb_spec pad 0) as [E|E]; cbn [negb].
    - exists o1. split_and!; try done. by rewrite (len_0_nil zs) in Hs1 by lia.
    - apply starts_with_split in Hs1 as [k Ho1]. unfold memcpy.
      assert (Ho1' : o1 = (pre ++ zs) ++ x ++ k) by (by rewrite Ho1, <- !app_assoc).
      assert (Hr1 : rd_range o1 (len pre + pad) (len m) = Ret x)
        by (rewrite Ho1'; apply rd_range_mid; rewrite ?len_app; lia).
      rewrite Hr1. run_simpl.
      destruct (wr_range_extend pre x o1 (len pre)) as (o2 & Hw & Hs2 & Hl2);
        [apply starts_with_split; eexists; by rewrite Ho1', <- app_assoc|done|
         rewrite Ho1', !len_app; pose proof (len_nonneg k); lia|].
      by exists o2. }
  destruct Hfin as (o2 & -> & Hlo2 & Hs2). run_simpl. eexists _, _, o2. split; [done|].
  unfold with_data. cbn [b_len b_data b_capacity]. split_and!; try done; lia.
Qed.

(** ** Starting a session *)

(** The key and the nonce that mbed TLS is given. *)
Definition mbed_key (c : cipher_t) (key nonce : bytes) : bytes :=
  if method c =? RC4_MD5 then mbedtls_md5 (ztake 16 key ++ ztake 16 nonce) else ztake (key_len c) key.
Definition mbed_iv (c : cipher_t) (nonce : bytes) : bytes := if method c =? RC4_MD5 then [] else ztake (nonce_len c) nonce.
Definition mbed_start (e0 : mbed_evp) (c : cipher_t) (key nonce : bytes) (enc : Z) : option mbed_evp :=
  match cipher_setkey e0 (mbed_key c key nonce) (key_len c * 8) enc with
  | None => None
  | Some e => match cipher_set_iv e (mbed_iv c nonce) with None => None | Some e => cipher_reset e end
  end.
(** The context ready for the data: [enc] selects the direction. *)
Definition session (ctx : stream_ctx) (enc : Z) (ctx' : stream_ctx) : Prop :=
  if sodium (x_cipher ctx) then ctx' = ctx
  else exists e0 e, x_evp ctx = Some e0 /\
    mbed_start e0 (x_cipher ctx) (if enc =? 0 then kx_rx (x_kx ctx) else kx_tx (x_kx ctx)) (x_nonce ctx) enc = Some e /\
    ctx' = x_set_evp (Some e) ctx.

Lemma set_nonce_ok ctx enc ctx' : xctx_ok ctx -> session ctx enc ctx' ->
  (method (x_cipher ctx) = RC4_MD5 -> key_len (x_cipher ctx) = 16) -> 0 <= key_len (x_cipher ctx) <= 32 ->
  cipher_ctx_set_nonce ctx (nonce_len (x_cipher ctx)) enc = Ret ctx'.
Proof.
  intros [[Hm Hnl] Hn Hpk Htx Hrx] Hs Hrc Hkl. unfold cipher_ctx_set_nonce, session, sodium in *.
  destruct (SALSA20 <=? method (x_cipher ctx)); [by rewrite Hs|]. destruct Hs as (e0 & e & He0 & Hst & ->).
  unfold mbed_start in Hst.
  replace (if negb (enc =? 0) then kx_tx (x_kx ctx) else kx_rx (x_kx ctx))
    with (if enc =? 0 then kx_rx (x_kx ctx) else kx_tx (x_kx ctx)) by (by destruct (enc =? 0)).
  set (key := if enc =? 0 then kx_rx (x_kx ctx) else kx_tx (x_kx ctx)) in *.
  assert (Hk : len key = 32) by (unfold key; by destruct (enc =? 0)). rewrite He0.
  unfold mbed_key, mbed_iv in Hst. destruct (Z.eqb_spec (method (x_cipher ctx)) RC4_MD5) as [E|E].
  - rewrite !rd_range_front by lia. run_simpl. rewrite (Hrc E) in *.
    pose proof (md5_law (ztake 16 key ++ ztake 16 (x_nonce ctx))) as Hmd. set (md := mbedtls_md5 _) in *.
    rewrite (rd_range_front md), (ztake_all 16 md) by lia. run_simpl.
    destruct (cipher_setkey _ _ _ _) as [e1|]; [|done]. rewrite rd_range_front, ztake_0 by lia. run_simpl.
    destruct (cipher_set_iv _ _) as [e2|]; [|done]. by rewrite Hst.
  - run_simpl. rewrite (rd_range_front key) by lia. run_simpl. destruct (cipher_setkey _ _ _ _) as [e1|]; [|done].
    rewrite (rd_range_front (x_nonce ctx)) by lia. run_simpl. destruct (cipher_set_iv _ _) as [e2|]; [|done]. by rewrite Hst.
Qed.

(** The prefix of the stream. *)
Definition preamble (ctx : stream_ctx) : bytes :=
  (if pk_sent (x_kx ctx) =? 0 then kx_pk (x_kx ctx) else []) ++ ztake (nonce_len (x_cipher ctx)) (x_nonce ctx).
Lemma len_preamble ctx : xctx_ok ctx ->
  len (preamble ctx) = (if pk_sent (x_kx ctx) =? 0 then 32 else 0) + nonce_len (x_cipher ctx).
Proof.
  intros [[Hm Hnl] Hn Hpk _ _]. unfold preamble. rewrite len_app, len_ztake by lia.
  destruct (pk_sent (x_kx ctx) =? 0); change (len (@nil Z)) with 0; lia.
Qed.

Definition key_ok (c : cipher_t) : Prop := (method c = RC4_MD5 -> key_len c = 16) /\ 0 <= key_len c <= 32.
(** The context of the sender when its first message has been started. *)
Definition started (ctx : stream_ctx) (ctx1 : stream_ctx) : Prop :=
  exists ctx0, session (if pk_sent (x_kx ctx) =? 0 then x_set_kx (kx_set_pk_sent 1 (x_kx ctx)) ctx else ctx) 1 ctx0 /\
    ctx1 = x_set_init 1 (x_set_counter 0 ctx0).

Lemma stream_preamble_ok ctx ctx1 data : xctx_ok ctx -> key_ok (x_cipher ctx) -> started ctx ctx1 ->
  len (preamble ctx) <= len data ->
  exists data', stream_preamble ctx data (nonce_len (x_cipher ctx))
      = Ret (data', ctx1, if pk_sent (x_kx ctx) =? 0 then 32 else 0) /\
    starts_with (preamble ctx) data' /\ len data' = len data.
Proof.
  intros Hok [Hrc Hkl] (ctx0 & Hs & ->) Hlen. rewrite len_preamble in Hlen by done. unfold preamble, stream_preamble.
  pose proof Hok as [[Hm Hnl] Hn Hpk Htx Hrx]. unfold crypto_kx_PUBLICKEYBYTES, memcpy in *.
  destruct (pk_sent (x_kx ctx) =? 0).
  - rewrite rd_range_front, ztake_all by lia. run_simpl.
    destruct (wr_range_extend [] (kx_pk (x_kx ctx)) data 0) as (d1 & -> & Hs1 & Hl1);
      [apply starts_with_nil|done|change (len (@nil Z)) with 0; lia|]. run_simpl.
    set (c1 := x_set_kx _ ctx) in *. assert (Hok1 : xctx_ok c1) by (by split).
    change (nonce_len (x_cipher ctx)) with (nonce_len (x_cipher c1)). rewrite (set_nonce_ok c1 1 ctx0 Hok1 Hs Hrc Hkl). run_simpl.
    assert (E : x_nonce ctx0 = x_nonce ctx).
    { unfold session in Hs. destruct (sodium (x_cipher c1)); [by subst ctx0|]. by destruct Hs as (? & ? & _ & _ & ->). }
    rewrite E. change (nonce_len (x_cipher c1)) with (nonce_len (x_cipher ctx)). rewrite rd_range_front by lia. run_simpl.
    destruct (wr_range_extend _ (ztake (nonce_len (x_cipher ctx)) (x_nonce ctx)) d1 32 Hs1) as (d2 & -> & Hs2 & Hl2);
      [cbn [app]; lia|cbn [app]; rewrite len_ztake; lia|]. run_simpl. exists d2. split_and!; done || lia.
  - run_simpl. rewrite (set_nonce_ok ctx 1 ctx0 Hok Hs Hrc Hkl). run_simpl.
    assert (E : x_nonce ctx0 = x_nonce ctx).
    { unfold session in Hs. destruct (sodium (x_cipher ctx)); [by subst ctx0|]. by destruct Hs as (? & ? & _ & _ & ->). }
    rewrite E, rd_range_front by lia. run_simpl.
    destruct (wr_range_extend [] (ztake (nonce_len (x_cipher ctx)) (x_nonce ctx)) data 0) as (d1 & -> & Hs1 & Hl1);
      [apply starts_with_nil|done|change (len (@nil Z)) with 0; rewrite len_ztake; lia|].
    run_simpl. by exists d1.
Qed.

(** ** [stream_encrypt] *)

(** The static buffer is sized for the nonce and the data before the public key
    ([pk_len] bytes) is put in front of them; the mbed TLS branch writes the data
    behind it without growing the buffer again.  The first message fits when the
    buffer happens to be large enough. *)
Definition static_size (c : cipher_t) (tmp : buffer) (capacity n : Z) : Z :=
  Z.max (b_capacity tmp) (Z.max (nonce_len c + n) capacity).
Definition first_fits (c : cipher_t) (pk_len : Z) (tmp : buffer) (capacity n : Z) : bool :=
  pk_len + nonce_len c + (if sodium c then 0 else n) <=? static_size c tmp capacity n.
Definition ctx_pk_len (ctx : stream_ctx) : Z := if pk_sent (x_kx ctx) =? 0 then 32 else 0.
Definition room (ctx : stream_ctx) (tmp : buffer) (capacity n : Z) : Prop :=
  x_init ctx = 0 -> first_fits (x_cipher ctx) (ctx_pk_len ctx) tmp capacity n = true.

Lemma grow_size tmp n capacity : buffer_ok tmp -> 0 < capacity ->
  exists d, b_data (grow junk tmp n capacity) = Some d /\ len d = b_capacity (grow junk tmp n capacity) /\
    len d = Z.max (b_capacity tmp) (Z.max n capacity).
Proof.
  intros Ht Hc. destruct (grow_tmp junk tmp n capacity Ht Hc) as (d & Hd & Hl & Hmax & _). exists d. split_and!; try done.
  rewrite Hl in Hmax |- *. unfold grow in *. destruct (Z.ltb_spec (b_capacity tmp) (Z.max n capacity)); cbn in *; lia.
Qed.

(** The session the message is sent in, and what it is preceded by. *)
Definition sends (ctx ctx1 : stream_ctx) (pre : bytes) : Prop :=
  (x_init ctx = 0 /\ started ctx ctx1 /\ pre = preamble ctx) \/ (x_init ctx <> 0 /\ ctx1 = ctx /\ pre = []).

Lemma session_fields ctx enc ctx' : session ctx enc ctx' ->
  x_cipher ctx' = x_cipher ctx /\ x_nonce ctx' = x_nonce ctx /\ x_kx ctx' = x_kx ctx /\ x_counter ctx' = x_counter ctx /\
  x_local ctx' = x_local ctx.
Proof. unfold session. destruct (sodium _); [by intros ->|]. by intros (? & ? & _ & _ & ->). Qed.
Lemma started_fields ctx ctx1 : started ctx ctx1 ->
  x_cipher ctx1 = x_cipher ctx /\ x_nonce ctx1 = x_nonce ctx /\ kx_tx (x_kx ctx1) = kx_tx (x_kx ctx) /\
  kx_pk (x_kx ctx1) = kx_pk (x_kx ctx) /\ kx_rx (x_kx ctx1) = kx_rx (x_kx ctx) /\ x_counter ctx1 = 0 /\ x_init ctx1 = 1.
Proof.
  intros (ctx0 & Hs%session_fields & ->). destruct Hs as (H1 & H2 & H3 & _). cbn.
  destruct (pk_sent (x_kx ctx) =? 0); cbn in *; by rewrite H1, H2, H3.
Qed.
Lemma sends_ok ctx ctx1 pre : sends ctx ctx1 pre -> xctx_ok ctx -> xctx_ok ctx1 /\ x_cipher ctx1 = x_cipher ctx /\ len pre <= 48.
Proof.
  intros [(_ & Hs & ->)|(_ & -> & ->)] Hok.
  - pose proof (len_preamble ctx Hok) as Hl. destruct Hok as [[Hm Hnl] Hn Hpk Htx Hrx].
    destruct (started_fields _ _ Hs) as (E1 & E2 & E3 & E4 & E5 & _).
    split; [split; rewrite ?E1, ?E2, ?E3, ?E4, ?E5; try done; by split|]. split; [done|]. rewrite Hl. destruct (_ =? 0); lia.
  - split; [done|]. split; [done|]. change (len (@nil Z)) with 0. lia.
Qed.

Lemma rem_counter n : 0 <= n <= 2147483647 -> Z.rem (s32 n) SODIUM_BLOCK_SIZE = n mod 64.
Proof. intros. rewrite s32_small by lia. apply Z.rem_mod_nonneg; unfold SODIUM_BLOCK_SIZE; lia. Qed.

(** The data behind the preamble. *)
Lemma encrypt_data ctx pt ct m pre data c ctx' capacity : xctx_ok ctx ->
  encrypted ctx m = Some (c, ctx') -> len c = len m -> holds pt m -> 1 <= len m -> pos_ok ctx (len m) ->
  b_len ct = len m -> b_data ct = Some data -> len data = b_capacity ct -> len m <= b_capacity ct -> starts_with pre data -> len pre <= 48 ->
  0 < capacity -> (sodium (x_cipher ctx) = false -> len pre + len m <= len data) ->
  exists pt' ct' data', (if SALSA20 <=? method (x_cipher ctx) then
       let padding := Z.rem (s32 (x_counter ctx)) SODIUM_BLOCK_SIZE in
       '(plaintext, ciphertext) ← padded_xor junk pt ct (len pre) padding capacity (x_nonce ctx) (x_counter ctx)
                                    (kx_tx (x_kx ctx)) (method (x_cipher ctx));
       mret (0, plaintext, ciphertext, x_set_counter (uint64 (x_counter ctx + b_len plaintext)) ctx)
     else
       data ← deref (b_data ct);
       p ← deref (b_data pt);
       '(err, ctx, data, olen) ← cipher_ctx_update ctx data (len pre) (b_len ct) p 0 (b_len pt);
       mret (err, pt, with_len (with_data ct data) olen, ctx)) = Ret (0, pt', ct', ctx') /\
    buffer_ok pt' /\ b_len ct' = len m /\ b_data ct' = Some data' /\ len data' = b_capacity ct' /\
    starts_with (pre ++ c) data'.
Proof.
  intros [[Hm Hnl] Hn Hpk Htx Hrx] He Hlc Hpt Hm1 [Hp0 Hp1] Hb Hd Hl Hcap Hpre Hp48 Hc0 Hr. pose proof Hpt as (Hok & Hpl & Hps).
  unfold encrypted in He. fold (sodium (x_cipher ctx)). destruct (sodium (x_cipher ctx)) eqn:Hs.
  - injection He as <- <-. rewrite rem_counter by lia. cbv zeta.
    destruct (padded_xor_ok (x_cipher ctx) pt ct m pre data (x_nonce ctx) (x_counter ctx) (kx_tx (x_kx ctx)) capacity)
      as (pt' & ct' & data' & -> & Hok' & Hl1 & Hl2 & Hd' & Hl3 & Hst); try done; try lia. run_simpl.
    rewrite Hl1. unfold uint64. rewrite Z.mod_small by lia. by exists pt', ct', data'.
  - destruct (x_evp ctx) as [e|] eqn:Hevp; [|done]. destruct (cipher_update e m) as [[c1 e1]|] eqn:Hu; [|done].
    injection He as -> <-. rewrite Hd. run_simpl. unfold buffer_ok in Hok.
    destruct (b_data pt) as [p|] eqn:Hp; [|lia]. run_simpl. cbn in Hps. unfold cipher_ctx_update.
    rewrite Hpl, (rd_range_prefix m p) by done. run_simpl. rewrite Hevp. run_simpl. rewrite Hu.
    destruct (wr_range_extend pre c data (len pre)) as (data' & -> & Hst & Hld); [done|done|rewrite Hlc; by apply Hr|].
    run_simpl. eexists _, _, data'. split; [done|]. cbn. unfold buffer_ok. rewrite Hp. split_and!; done || lia.
Qed.

Lemma stream_encrypt_ok ctx ctx1 pre m c ctx' pt tmp capacity : xctx_ok ctx -> key_ok (x_cipher ctx) ->
  sends ctx ctx1 pre -> encrypted ctx1 m = Some (c, ctx') -> len c = len m -> pos_ok ctx1 (len m) ->
  holds pt m -> 1 <= len m -> buffer_ok tmp -> room ctx tmp capacity (len m) -> 0 < capacity ->
  exists pt' tmp', stream_encrypt junk pt tmp ctx capacity = Ret (CRYPTO_OK, pt', tmp', ctx') /\
    holds pt' (pre ++ c) /\ buffer_ok tmp'.
Proof.
  intros Hok Hkey Hsend He Hlc Hpos Hpt Hm1 Htmp Hroom Hcap. destruct (sends_ok _ _ _ Hsend Hok) as (Hok1 & Hcc & Hpl).
  pose proof Hpt as (_ & Hptl & _). pose proof (len_nonneg pre).
  pose proof Hok as [[_ Hnlen] _ _ _ _].
  unfold stream_encrypt. set (nlen := if x_init ctx =? 0 then nonce_len (x_cipher ctx) else 0).
  destruct (grow_size tmp (nlen + b_len pt) capacity Htmp Hcap) as (d0 & Hd0 & Hl0 & Hmax).
  set (g := grow junk tmp _ capacity) in *. cbn [b_data with_len]. rewrite Hd0. run_simpl. cbn [b_data with_len].
  assert (Hfit : len pre + (if sodium (x_cipher ctx) then 0 else len m) <= len d0).
  { rewrite Hmax, Hptl. unfold nlen. destruct Hsend as [(Hi & Hst & ->)|(Hi & -> & ->)].
    - specialize (Hroom Hi). unfold first_fits, static_size, ctx_pk_len in Hroom. apply Z.leb_le in Hroom.
      rewrite Hi, len_preamble by done. cbn [Z.eqb]. lia.
    - rewrite (proj2 (Z.eqb_neq _ _) Hi). change (len (@nil Z)) with 0. destruct (sodium _); lia. }
  assert (Hpre : exists data pk_len, (if x_init ctx =? 0 then stream_preamble ctx d0 nlen else mret (d0, ctx, 0))
      = Ret (data, ctx1, pk_len) /\ pk_len + nlen = len pre /\ starts_with pre data /\ len data = len d0).
  { destruct Hsend as [(Hi & Hst & ->)|(Hi & -> & ->)].
    - unfold nlen. rewrite Hi. cbn [Z.eqb].
      destruct (stream_preamble_ok ctx ctx1 d0 Hok Hkey Hst) as (data & -> & Hs & Hl); [destruct (sodium _); lia|].
      eexists data, _. split; [done|]. rewrite len_preamble by done. destruct (_ =? 0); split_and!; done || lia.
    - unfold nlen. rewrite (proj2 (Z.eqb_neq _ _) Hi). by exists d0, 0. }
  destruct Hpre as (data & pk_len & -> & Hoff & Hsd & Hld). run_simpl. rewrite Hoff.
  set (ct := with_data _ data).
  assert (Hnl0 : 0 <= nlen) by (unfold nlen; destruct Hok as [[_ Hnl] _ _ _ _]; destruct (_ =? 0); lia). clearbody nlen.
  destruct (encrypt_data ctx1 pt ct m pre data c ctx' capacity) as (pt' & ct' & data' & Hrun & Hokp & Hbl & Hbd & Hcl & Hst); try done.
  1,2: change (b_capacity ct) with (b_capacity g); lia.
  { intros Hns. rewrite Hcc in Hns. rewrite Hns in Hfit. lia. }
  cbv zeta in Hrun. rewrite Hrun. run_simpl. change (negb (0 =? 0)) with false. cbv iota. rewrite Hbl.
  destruct (buffer_ok_holds pt' Hokp) as [l Hl].
  destruct (replace_contents junk pt' l (pre ++ c) data' capacity Hl ltac:(lia) Hst) as (p & p' & Hp & Hcp & Hh).
  rewrite len_app, Hlc in *. rewrite Hp. run_simpl. rewrite Hbd. run_simpl. rewrite Hcp. run_simpl.
  eexists _, _. split; [done|]. split; [done|]. unfold buffer_ok. rewrite Hbd. pose proof (starts_with_len _ _ Hst) as Hle.
  rewrite len_app in Hle. lia.
Qed.

(** A first message that does not fit is written beyond the static buffer. *)
Lemma wr_range_beyond (l : bytes) off d : off < 0 \/ len l < off + len d -> wr_range l off d = Fail OutOfBounds.
Proof.
  intros H. unfold wr_range. destruct (Z.leb_spec 0 off), (Z.leb_spec (off + len d) (len l)); try done. lia.
Qed.
Lemma stream_preamble_beyond ctx ctx1 data : xctx_ok ctx -> key_ok (x_cipher ctx) -> started ctx ctx1 ->
  nonce_len (x_cipher ctx) <= len data < len (preamble ctx) ->
  stream_preamble ctx data (nonce_len (x_cipher ctx)) = Fail OutOfBounds.
Proof.
  intros Hok [Hrc Hkl] (ctx0 & Hs & ->) Hlen. rewrite len_preamble in Hlen by done. unfold stream_preamble.
  pose proof Hok as [[Hm Hnl] Hn Hpk Htx Hrx]. unfold crypto_kx_PUBLICKEYBYTES, memcpy in *.
  destruct (pk_sent (x_kx ctx) =? 0); [|lia]. rewrite rd_range_front, ztake_all by lia. run_simpl.
  destruct (Z.le_gt_cases 32 (len data)) as [H32|H32]; [|by rewrite wr_range_beyond by lia].
  destruct (wr_range_extend [] (kx_pk (x_kx ctx)) data 0) as (d1 & -> & _ & Hl1);
    [apply starts_with_nil|done|change (len (@nil Z)) with 0; lia|]. run_simpl.
  set (c1 := x_set_kx _ ctx) in *. assert (Hok1 : xctx_ok c1) by (by split).
  change (nonce_len (x_cipher ctx)) with (nonce_len (x_cipher c1)). rewrite (set_nonce_ok c1 1 ctx0 Hok1 Hs Hrc Hkl). run_simpl.
  destruct (session_fields _ _ _ Hs) as (_ & -> & _). change (nonce_len (x_cipher c1)) with (nonce_len (x_cipher ctx)).
  change (x_nonce c1) with (x_nonce ctx). rewrite rd_range_front by lia. run_simpl.
  by rewrite wr_range_beyond by (rewrite len_ztake; lia).
Qed.
Lemma stream_encrypt_beyond ctx ctx1 m c ctx' pt tmp capacity : xctx_ok ctx -> key_ok (x_cipher ctx) -> x_init ctx = 0 ->
  started ctx ctx1 -> encrypted ctx1 m = Some (c, ctx') -> len c = len m -> holds pt m -> 1 <= len m -> buffer_ok tmp -> 0 < capacity ->
  first_fits (x_cipher ctx) (ctx_pk_len ctx) tmp capacity (len m) = false ->
  stream_encrypt junk pt tmp ctx capacity = Fail OutOfBounds.
Proof.
  intros Hok Hkey Hi Hst He Hlc Hpt Hm1 Htmp Hcap Hfit. pose proof Hok as [[_ Hnlen] _ _ _ _]. pose proof Hpt as (Hokp & Hptl & Hps).
  unfold stream_encrypt. rewrite Hi. cbn [Z.eqb]. set (nlen := nonce_len (x_cipher ctx)) in *.
  destruct (grow_size tmp (nlen + b_len pt) capacity Htmp Hcap) as (d0 & Hd0 & Hl0 & Hmax).
  set (g := grow junk tmp _ capacity) in *. cbn [b_data with_len]. rewrite Hd0. run_simpl. cbn [b_data with_len].
  unfold first_fits, static_size in Hfit. apply Z.leb_gt in Hfit. fold nlen in Hfit. rewrite Hptl in Hmax. rewrite <- Hmax in Hfit.
  pose proof (len_preamble ctx Hok) as Hlp. fold (ctx_pk_len ctx) nlen in Hlp.
  destruct (Z.le_gt_cases (len (preamble ctx)) (len d0)) as [Hp|Hp];
    [|unfold nlen in *; by rewrite (stream_preamble_beyond ctx ctx1) by (done || lia)].
  destruct (stream_preamble_ok ctx ctx1 d0 Hok Hkey Hst Hp) as (data & Hpre & Hs & Hl).
  fold nlen in Hpre. rewrite Hpre. run_simpl. fold (ctx_pk_len ctx). rewrite <- Hlp. unfold encrypted in He. destruct (started_fields _ _ Hst) as (Hc1 & _).
  rewrite Hc1 in *. fold (sodium (x_cipher ctx)). destruct (sodium (x_cipher ctx)); [lia|].
  destruct (x_evp ctx1) as [e|] eqn:Hevp; [|done]. destruct (cipher_update e m) as [[c1 e1]|] eqn:Hu; [|done]. injection He as -> _.
  unfold buffer_ok in Hokp. destruct (b_data pt) as [p|] eqn:Hpd; [|lia]. cbn in Hps. cbn [b_data with_data with_len b_len].
  run_simpl. unfold cipher_ctx_update. rewrite Hptl, (rd_range_prefix m p) by done. run_simpl. rewrite Hevp. run_simpl. rewrite Hu.
  by rewrite wr_range_beyond by lia.
Qed.

(** ** [stream_decrypt] *)

Lemma decrypt_data ctx ct pl x p pd ctx' capacity : xctx_ok ctx ->
  decrypted ctx x = Some (p, ctx') -> len p = len x -> holds ct x -> 1 <= len x -> pos_ok ctx (len x) ->
  b_len pl = len x -> b_data pl = Some pd -> len pd = b_capacity pl -> len x <= b_capacity pl -> 0 < capacity ->
  exists ct' pl', stream_decrypt_data junk ct pl ctx capacity = Ret (CRYPTO_OK, ct', pl', ctx') /\
    holds ct' p /\ buffer_ok pl'.
Proof.
  intros [[Hm Hnl] Hn Hpk Htx Hrx] He Hlc Hct Hm1 [Hp0 Hp1] Hb Hd Hl Hcap Hc0. pose proof Hct as (Hok & Hpl & Hps).
  unfold stream_decrypt_data. unfold decrypted in He. fold (sodium (x_cipher ctx)).
  assert (Hend : exists ct1 pl1 pd1, (if sodium (x_cipher ctx) then
       let padding := x_counter ctx mod SODIUM_BLOCK_SIZE in
       '(ciphertext, plaintext) ← padded_xor junk ct pl 0 padding capacity (x_nonce ctx) (x_counter ctx)
                                    (kx_rx (x_kx ctx)) (method (x_cipher ctx));
       mret (0, ciphertext, plaintext, x_set_counter (uint64 (x_counter ctx + b_len ciphertext)) ctx)
     else
       p ← deref (b_data pl);
       x ← deref (b_data ct);
       '(err, ctx, p, olen) ← cipher_ctx_update ctx p 0 (b_len pl) x 0 (b_len ct);
       mret (err, ct, with_len (with_data pl p) olen, ctx)) = Ret (0, ct1, pl1, ctx') /\
    buffer_ok ct1 /\ b_len pl1 = len p /\ b_data pl1 = Some pd1 /\ len pd1 = b_capacity pl1 /\ starts_with p pd1).
  { destruct (sodium (x_cipher ctx)) eqn:Hs.
    - injection He as <- <-. cbv zeta. change SODIUM_BLOCK_SIZE with 64.
      destruct (padded_xor_ok (x_cipher ctx) ct pl x [] pd (x_nonce ctx) (x_counter ctx) (kx_rx (x_kx ctx)) capacity)
        as (ct' & pl' & pd' & Hrun & Hok' & Hl1 & Hl2 & Hd' & Hl3 & Hst); try done; try lia.
      change (len (@nil Z)) with 0 in Hrun. rewrite Hrun. run_simpl.
      rewrite Hl1. unfold uint64. rewrite Z.mod_small by lia. exists ct', pl', pd'. rewrite len_xored. split_and!; done || lia.
    - destruct (x_evp ctx) as [e|] eqn:Hevp; [|done]. destruct (cipher_update e x) as [[c1 e1]|] eqn:Hu; [|done].
      injection He as -> <-. rewrite Hd. run_simpl. unfold buffer_ok in Hok.
      destruct (b_data ct) as [cd|] eqn:Hp; [|lia]. run_simpl. cbn in Hps. unfold cipher_ctx_update.
      rewrite Hpl, (rd_range_prefix x cd) by done. run_simpl. rewrite Hevp. run_simpl. rewrite Hu.
      destruct (wr_range_extend [] p pd 0) as (data' & -> & Hst & Hld);
        [apply starts_with_nil|done|change (len (@nil Z)) with 0; lia|].
      run_simpl. eexists _, _, data'. split; [done|]. cbn. unfold buffer_ok. rewrite Hp. split_and!; done || lia. }
  cbv zeta in Hend |- *. destruct Hend as (ct1 & pl1 & pd1 & -> & Hok1 & Hl1 & Hd1 & Hc1 & Hs1). run_simpl.
  change (negb (0 =? 0)) with false. cbv iota. rewrite Hl1.
  destruct (buffer_ok_holds ct1 Hok1) as [l Hll].
  destruct (replace_contents junk ct1 l p pd1 capacity Hll Hc0 Hs1) as (q & q' & Hq & Hcp & Hh).
  rewrite Hq. run_simpl. rewrite Hd1. run_simpl. rewrite Hcp. run_simpl. eexists _, _. split; [done|]. split; [done|].
  unfold buffer_ok. rewrite Hd1. pose proof (starts_with_len _ _ Hs1). pose proof (len_nonneg p). lia.
Qed.

(** What the receiver makes of the preamble [pre]. *)
Definition rpk_len (d : stream_ctx) : Z := if rpk_received (x_kx d) =? 0 then 32 else 0.
Record accepts (d : stream_ctx) (pre seed : bytes) (d1 : stream_ctx) : Prop := {
  ac_len : len pre = rpk_len d + nonce_len (x_cipher d);
  ac_ok : exists k n d0,
    (if rpk_received (x_kx d) =? 0
     then exists k0 r, crypto_kx_ctx_init (x_kx d) (x_local d) pre seed = Ret (k0, r) /\ k = kx_set_rpk_received 1 k0
     else k = x_kx d) /\
    wr_range (x_nonce d) 0 (zdrop (rpk_len d) pre) = Ret n /\
    xctx_ok (x_set_nonce n (x_set_kx k d)) /\
    session (x_set_nonce n (x_set_kx k d)) 0 d0 /\ d1 = x_set_init 1 (x_set_counter 0 d0)
}.

(** The chunk of a waiting receiver holds the bytes [b] of the preamble. *)
Definition chunk_holds (d : stream_ctx) (b : bytes) : Prop :=
  match x_chunk d with
  | None => b = []
  | Some ch => holds ch b /\ b_capacity ch = 32 + nonce_len (x_cipher d)
  end.

Lemma session_chunk ch ctx enc ctx' : session ctx enc ctx' -> session (x_set_chunk ch ctx) enc (x_set_chunk ch ctx').
Proof. unfold session. cbn. destruct (sodium _); [by intros ->|]. intros (e0 & e & H1 & H2 & ->). by exists e0, e. Qed.

Lemma collect d b : xctx_ok d -> chunk_holds d b -> len b <= rpk_len d + nonce_len (x_cipher d) ->
  let ch := match x_chunk d with Some ch => ch | None => fst (balloc junk (crypto_kx_PUBLICKEYBYTES + nonce_len (x_cipher d))) end in
  holds ch b /\ b_capacity ch = 32 + nonce_len (x_cipher d) /\ exists cd, b_data ch = Some cd.
Proof.
  intros [[Hm Hnl] _ _ _ _] Hch Hle. unfold chunk_holds in Hch. unfold rpk_len in Hle.
  destruct (x_chunk d) as [ch|] eqn:E; cbv zeta.
  - destruct Hch as [(Hok & Hl & Hs) Hc]. split; [done|]. split; [done|]. unfold buffer_ok in Hok.
    destruct (b_data ch); [by eexists|]. lia.
  - subst b. unfold balloc, crypto_kx_PUBLICKEYBYTES. cbn. split; [|split; [done|by eexists]].
    unfold holds, buffer_ok. cbn. rewrite len_fresh by lia. split_and!; done || lia.
Qed.

Lemma drop_front ct x n : holds ct x -> 0 <= n <= len x -> forall d, b_data ct = Some d ->
  exists d', memcpy d 0 d n (len x - n) = Ret d' /\ holds (with_len (with_data ct d') (len x - n)) (zdrop n x).
Proof.
  intros (Hok & Hl & Hs) Hn d Hd. rewrite Hd in Hs. cbn in Hs. unfold buffer_ok in Hok. rewrite Hd in Hok.
  apply starts_with_split in Hs as [k Hk]. unfold memcpy.
  assert (Hr : rd_range d n (len x - n) = Ret (zdrop n x)).
  { rewrite Hk, <- (ztake_zdrop n x) at 1. rewrite <- app_assoc. apply rd_range_mid; [by rewrite len_ztake|by rewrite len_zdrop]. }
  rewrite Hr. run_simpl. pose proof (len_zdrop n x Hn) as Hld.
  destruct (wr_range_extend [] (zdrop n x) d 0) as (d' & -> & Hs' & Hl'); [apply starts_with_nil|done|change (len (@nil Z)) with 0; lia|].
  exists d'. split; [done|]. unfold holds, buffer_ok. cbn. split_and!; done || lia.
Qed.

(** The copy of the first bytes of the ciphertext into the chunk. *)
Lemma move_front ct x ch b cd n : holds ct x -> holds ch b -> b_data ch = Some cd -> 0 <= n <= len x ->
  len b + n <= b_capacity ch ->
  exists ct' ch', (if 0 <? n then
       cd ← deref (b_data ch);
       x ← deref (b_data ct);
       cd ← memcpy cd (b_len ch) x 0 n;
       x ← memcpy x 0 x n (b_len ct - n);
       mret (with_len (with_data ct x) (b_len ct - n), with_len (with_data ch cd) (b_len ch + n))
     else mret (ct, ch)) = Ret (ct', ch') /\
    holds ct' (zdrop n x) /\ holds ch' (b ++ ztake n x) /\ b_capacity ch' = b_capacity ch /\ is_Some (b_data ch').
Proof.
  intros Hct Hch Hcd Hn Hcap. destruct (Z.ltb_spec 0 n) as [H0|H0].
  - rewrite Hcd. run_simpl. pose proof Hct as (Hok & Hl & Hs). pose proof Hok as Hok'. unfold buffer_ok in Hok'.
    destruct (b_data ct) as [d|] eqn:Hd; [|lia]. run_simpl. cbn in Hs.
    assert (Hr : rd_range d 0 n = Ret (ztake n x)).
    { apply starts_with_split in Hs as [k ->]. rewrite rd_range_front by (rewrite len_app; pose proof (len_nonneg k); lia).
      by rewrite ztake_app_l by lia. }
    pose proof Hch as (Hokc & Hlc & _). pose proof Hokc as Hokc'. unfold buffer_ok in Hokc'. rewrite Hcd in Hokc'.
    destruct (append_spec ch b (ztake n x) Hch cd Hcd) as (cd' & Hw & Hh); [rewrite len_ztake; lia|].
    assert (Hmc : memcpy cd (b_len ch) d 0 n = Ret cd') by (unfold memcpy; rewrite Hr; exact Hw).
    rewrite Hmc. run_simpl.
    destruct (drop_front ct x n Hct Hn d Hd) as (d' & Hm & Hh'). rewrite Hl, Hm. run_simpl.
    rewrite len_ztake in Hh by lia. rewrite Hlc in *. eexists _, _. by split_and!.
  - assert (n = 0) as -> by lia. rewrite zdrop_0, ztake_0, app_nil_r. exists ct, ch. rewrite Hcd. by split_and!.
Qed.

(** Less than the preamble so far: the bytes are kept. *)
Lemma stream_start_waits d b ct x seed : xctx_ok d -> chunk_holds d b -> holds ct x ->
  len b + len x < rpk_len d + nonce_len (x_cipher d) ->
  exists ct' ch', stream_decrypt_start junk ct d seed = Ret (ct', x_set_chunk (Some ch') d, None) /\
    buffer_ok ct' /\ chunk_holds (x_set_chunk (Some ch') d) (b ++ x).
Proof.
  intros Hok Hch Hct Hlt. pose proof (len_nonneg b). pose proof (len_nonneg x).
  pose proof Hok as [[Hm Hnl] _ _ _ _]. destruct (collect d b Hok Hch ltac:(lia)) as (Hhb & Hcap & cd & Hcd).
  unfold stream_decrypt_start. fold (rpk_len d). cbv zeta in *.
  set (ch := match x_chunk d with Some _ => _ | None => _ end) in *. pose proof Hhb as (_ & Hlb & _). pose proof Hct as (_ & Hlx & _).
  change (if rpk_received (x_kx d) =? 0 then crypto_kx_PUBLICKEYBYTES else 0) with (rpk_len d).
  assert (Hr : 0 <= rpk_len d <= 32) by (unfold rpk_len; destruct (_ =? 0); lia).
  rewrite Hlb, Hlx. unfold uint64. rewrite Z.mod_small by lia. replace (Z.min _ _) with (len x) by lia.
  rewrite <- Hlb, <- Hlx.
  destruct (move_front ct x ch b cd (len x) Hct Hhb Hcd ltac:(lia) ltac:(lia)) as (ct' & ch' & Hmv & Hct' & Hch' & Hcap' & _).
  rewrite Hlx, Hlb in Hmv |- *. rewrite Hmv. run_simpl. rewrite ztake_all in Hch' by lia. pose proof Hch' as (_ & Hlb' & _).
  rewrite Hlb', len_app. rewrite (proj2 (Z.ltb_lt _ _)) by lia. exists ct', ch'. split; [done|]. split; [apply Hct'|].
  unfold chunk_holds. cbn. split; [done|]. lia.
Qed.

Lemma kx_init_prefix k l pre cd seed : starts_with pre cd -> 32 <= len pre ->
  crypto_kx_ctx_init k l cd seed = crypto_kx_ctx_init k l pre seed.
Proof.
  intros [r ->]%starts_with_split Hl. unfold crypto_kx_ctx_init, crypto_kx_PUBLICKEYBYTES.
  rewrite !rd_range_front by (rewrite ?len_app; pose proof (len_nonneg r); lia). by rewrite ztake_app_l by lia.
Qed.

(** The whole preamble: the session starts with what follows it. *)
Lemma decrypt_start_ready d b ct x pre rest seed d1 : xctx_ok d -> key_ok (x_cipher d) -> chunk_holds d b -> holds ct x ->
  accepts d pre seed d1 -> b ++ x = pre ++ rest -> len b <= len pre ->
  exists ct' ch', stream_decrypt_start junk ct d seed = Ret (ct', x_set_chunk (Some ch') d1, Some (len x - len rest)) /\
    holds ct' rest.
Proof.
  intros Hok [Hrc Hkl] Hch Hct [Hlp (k & n & d0 & Hk & Hw & Hok1 & Hses & ->)] Heq Hle.
  pose proof (len_nonneg b). pose proof (len_nonneg x). pose proof (len_nonneg rest).
  pose proof Hok as [[Hm Hnl] _ _ _ _]. destruct (collect d b Hok Hch ltac:(lia)) as (Hhb & Hcap & cd & Hcd).
  assert (Hlen : len b + len x = len pre + len rest) by (by rewrite <- !len_app, Heq).
  assert (Hx : b ++ ztake (len x - len rest) x = pre /\ zdrop (len x - len rest) x = rest).
  { split.
    - rewrite <- (ztake_app_exact (len pre) pre rest) by done. rewrite <- Heq, ztake_app_r by lia. do 2 f_equal. lia.
    - replace (len x - len rest) with (len pre - len b) by lia. rewrite <- zdrop_app_r by lia. rewrite Heq.
      by apply zdrop_app_exact. }
  destruct Hx as [Hx1 Hx2].
  unfold stream_decrypt_start. cbv zeta in *.
  set (ch := match x_chunk d with Some _ => _ | None => _ end) in *. pose proof Hhb as (_ & Hlb & _). pose proof Hct as (_ & Hlx & _).
  change (if rpk_received (x_kx d) =? 0 then crypto_kx_PUBLICKEYBYTES else 0) with (rpk_len d).
  assert (Hr : 0 <= rpk_len d <= 32) by (unfold rpk_len; destruct (_ =? 0); lia).
  unfold uint64. rewrite Z.mod_small by lia. replace (Z.min _ _) with (len x - len rest) by lia.
  destruct (move_front ct x ch b cd (len x - len rest) Hct Hhb Hcd ltac:(lia) ltac:(lia)) as (ct' & ch' & Hmv & Hct' & Hch' & Hcap' & [cd' Hcd']).
  rewrite Hmv. run_simpl. rewrite Hx1, Hx2 in *. pose proof Hch' as (_ & Hlb' & Hs'). rewrite Hcd' in Hs'. cbn in Hs'.
  rewrite Hlb', (proj2 (Z.ltb_ge _ _)) by lia. rewrite Hcd'. run_simpl.
  set (dc := x_set_chunk (Some ch') d).
  assert (Hkx : (if rpk_received (x_kx dc) =? 0 then
             '(k, _) ← crypto_kx_ctx_init (x_kx dc) (x_local dc) cd' seed;
             mret (x_set_kx (kx_set_rpk_received 1 k) dc)
           else mret dc) = Ret (x_set_kx k dc)).
  { unfold rpk_len in Hlp, Hr. cbn [x_kx x_local dc x_set_chunk]. destruct (rpk_received (x_kx d) =? 0).
    - destruct Hk as (k0 & r & Hk0 & ->). rewrite (kx_init_prefix _ _ pre cd' seed Hs') by lia. by rewrite Hk0.
    - subst k. by destruct d. }
  rewrite Hkx. run_simpl. cbn [x_nonce x_set_kx dc x_set_chunk].
  assert (Hmc : memcpy (x_nonce d) 0 cd' (rpk_len d) (nonce_len (x_cipher d)) = Ret n).
  { unfold memcpy. apply starts_with_split in Hs' as [t ->].
    replace (rd_range (pre ++ t) (rpk_len d) (nonce_len (x_cipher d))) with (Ret (zdrop (rpk_len d) pre)); [exact Hw|].
    symmetry. rewrite <- (ztake_zdrop (rpk_len d) pre) at 1. rewrite <- app_assoc.
    apply rd_range_mid; [by rewrite len_ztake by lia|rewrite len_zdrop; lia]. }
  rewrite Hmc. run_simpl.
  change (x_set_nonce n (x_set_kx k dc)) with (x_set_chunk (Some ch') (x_set_nonce n (x_set_kx k d))).
  pose proof (session_chunk (Some ch') _ _ _ Hses) as Hses'.
  set (dd := x_set_chunk (Some ch') (x_set_nonce n (x_set_kx k d))) in *.
  change (nonce_len (x_cipher d)) with (nonce_len (x_cipher dd)).
  rewrite (set_nonce_ok dd 0 _ (ltac:(by destruct Hok1; split)) Hses' Hrc Hkl). run_simpl. by eexists _, _.
Qed.
End spec.
