(* ===== verification/StreamToy.v ===== *)
(** * A small concrete instance of the stream cipher interface

    [StreamPrims] has instances that satisfy [StreamLaws]: this one computes, so
    the theorems on stream.c can be evaluated on concrete data.  It offers no
    secrecy. *)
From stdpp Require Import strings.
From S2P Require Import Prelude Crypto Stream StreamSpec.

Definition toy_ks (mth : Z) (n k : bytes) (pos : Z) : Z := (mth + of_le n + of_le k + pos) mod 256.
Definition toy_xor (mth : Z) (m n : bytes) (ic : Z) (k : bytes) : bytes :=
  imap (fun i x => Z.lxor x (toy_ks mth n k (64 * ic + Z.of_nat i))) m.
(** The cipher context of mbed TLS: key, nonce and position. *)
Definition toy_evp : Type := bytes * Z.
Definition toy_update (e : toy_evp) (x : bytes) : option (bytes * toy_evp) :=
  Some (imap (fun i b => Z.lxor b (toy_ks 0 [] (fst e) (snd e + Z.of_nat i))) x, (fst e, snd e + len x)).
Definition toy_info (name : string) : option Z :=
  if String.eqb name "ARC4-128" then Some 0 else if String.eqb name "BLOWFISH-CFB64" then Some 8
  else if String.eqb name CIPHER_UNSUPPORTED then None else Some 16.

#[export] Instance toy_stream : StreamPrims := {|
  salsa20_xor_ic := toy_xor SALSA20;
  chacha20_xor_ic := toy_xor CHACHA20;
  chacha20_ietf_xor_ic := toy_xor CHACHA20IETF;
  mbedtls_md5 := fun d => ztake 16 (d ++ zrep 16 0);
  mbed_evp := toy_evp;
  mbedtls_cipher_info_from_string := toy_info;
  mbedtls_cipher_setup := fun _ => Some ([], 0);
  cipher_setkey := fun _ k bits _ => if bits =? len k * 8 then Some (k, 0) else None;
  cipher_set_iv := fun e iv => Some (iv ++ fst e, 0);
  cipher_reset := fun e => Some (fst e, 0);
  cipher_update := toy_update
|}.

#[export] Instance toy_stream_laws : StreamLaws toy_stream.
Proof.
  refine (Build_StreamLaws toy_stream toy_ks (fun e d => e = d) _ _ _ _ _ _ _ _).
  - done.
  - done.
  - done.
  - intros d. cbn. rewrite len_ztake; [done|]. rewrite len_app, len_zrep by lia. pose proof (len_nonneg d). lia.
  - intros mth name n _ Hi. cbn in Hi. unfold toy_info in Hi.
    destruct (String.eqb_spec name "ARC4-128") as [->|Hne]; [injection Hi as <-; by split; [lia|]|].
    split; [|by intros ->]. destruct (String.eqb name _); [injection Hi as <-; lia|].
    destruct (String.eqb name _); [done|]. injection Hi as <-. lia.
  - intros mth name n key iv _ _ _ _. eexists. split; [done|]. cbn. rewrite Z.eqb_refl.
    do 6 eexists. split_and!; reflexivity.
  - intros e d x ->. eexists _, _, _. split; [reflexivity|]. split; [unfold len; by rewrite length_imap|]. split; [|reflexivity].
    cbn. unfold toy_update. do 2 f_equal.
    + apply list_eq. intros i. rewrite !list_lookup_imap. destruct (x !! i) as [b|]; [|done]. cbn.
      by rewrite Z.lxor_assoc, Z.lxor_nilpotent, Z.lxor_0_r.
    + unfold len. by rewrite length_imap.
  - intros e d x y _. eexists _, _, _, _. split; [reflexivity|]. split; [reflexivity|]. cbn. unfold toy_update. do 2 f_equal.
    + rewrite imap_app. f_equal. apply imap_ext. intros i b _. cbn. unfold len. do 2 f_equal. lia.
    + cbn. rewrite len_app. f_equal. lia.
Defined.
