(* ===== verification/StreamProps.v ===== *)
(** * Properties of stream.c *)
From stdpp Require Import strings.
From S2P Require Import Prelude Crypto CryptoToy Aead AeadStream AeadUdp Stream StreamSpec StreamToy.

Section drivers.
Context `{P : CryptoPrims} `{S : StreamPrims} (junk : nat -> Z).

(** [new_server] of local.c with the functions of stream.c. *)
Definition stream_new_server (c : cipher_t) (seed : bytes) (rnd : Z -> bytes) : run (stream_ctx * stream_ctx) :=
  '(k, _) ← crypto_kx_ctx_init kx_zero 1 (c_pk c) seed;
  e ← stream_ctx_init c (Some k) 1 rnd;
  d ← stream_ctx_init c (Some k) 0 rnd;
  let local (x : stream_ctx) := SCtx _ (x_init x) 1 (x_counter x) (x_evp x) (x_cipher x) (x_chunk x) (x_kx x) (x_nonce x) in
  mret (local e, local d).

(** Messages sent one [stream_encrypt] each, up to the first error. *)
Fixpoint send_all (tmp : buffer) (ctx : stream_ctx) (capacity : Z) (ms : list bytes) : run (Z * bytes * stream_ctx) :=
  match ms with
  | [] => mret (CRYPTO_OK, [], ctx)
  | m :: ms =>
    '(err, pt, tmp, ctx) ← stream_encrypt junk (buffer_of m) tmp ctx capacity;
    if negb (err =? 0) then mret (err, [], ctx)
    else '(err, wire, ctx) ← send_all tmp ctx capacity ms; mret (err, contents pt ++ wire, ctx)
  end.
(** Segments received one [stream_decrypt] each; [CRYPTO_NEED_MORE] delivers
    nothing. *)
Fixpoint recv_all (tmp : buffer) (ctx : stream_ctx) (capacity : Z) (seed : bytes) (segs : list bytes) :
    run (Z * bytes * stream_ctx) :=
  match segs with
  | [] => mret (CRYPTO_OK, [], ctx)
  | x :: segs =>
    '(err, ct, tmp, ctx) ← stream_decrypt junk (buffer_of x) tmp ctx capacity seed;
    if err =? CRYPTO_ERROR then mret (err, [], ctx)
    else '(err', out, ctx) ← recv_all tmp ctx capacity seed segs;
         mret (err', (if err =? CRYPTO_NEED_MORE then [] else contents ct) ++ out, ctx)
  end.
End drivers.

Section streams.
Context `{P : CryptoPrims} `{S : StreamPrims} {L : StreamLaws S} (junk : nat -> Z).

(** ** Two ends in step *)

Definition in_step (e d : stream_ctx) : Prop :=
  method (x_cipher e) = method (x_cipher d) /\
  if sodium (x_cipher e) then
    cipher_nonce (x_cipher e) (x_nonce e) = cipher_nonce (x_cipher e) (x_nonce d) /\ x_counter e = x_counter d /\
    kx_tx (x_kx e) = kx_rx (x_kx d)
  else exists ee dd, x_evp e = Some ee /\ x_evp d = Some dd /\ synced ee dd.

Lemma in_step_chunk e d ch : in_step e d -> in_step e (x_set_chunk ch d).
Proof. done. Qed.
Lemma in_step_init e d v : in_step e d -> in_step e (x_set_init v d).
Proof. done. Qed.

(** Everything can be encrypted. *)
Lemma in_step_total e d m : in_step e d -> exists c e', encrypted e m = Some (c, e') /\ len c = len m.
Proof.
  intros [_ Hs]. unfold encrypted. destruct (sodium (x_cipher e)).
  - eexists _, _. split; [done|]. apply len_xored.
  - destruct Hs as (ee & dd & -> & _ & Hsy). destruct (update_law ee dd m Hsy) as (c & e' & d' & -> & Hl & _). by eexists _, _.
Qed.

(** The plaintext and its encryption are cut together, and what was encrypted is
    decrypted. *)
Lemma in_step_cut e d p q C e' : in_step e d -> encrypted e (p ++ q) = Some (C, e') ->
  exists c1 c2 e1 d1, C = c1 ++ c2 /\ len c1 = len p /\ encrypted e p = Some (c1, e1) /\ encrypted e1 q = Some (c2, e') /\
    decrypted d c1 = Some (p, d1) /\ in_step e1 d1.
Proof.
  intros [Hm Hs] He. unfold encrypted, decrypted in *. unfold sodium in *. rewrite <- Hm.
  destruct (SALSA20 <=? method (x_cipher e)) eqn:Hsod.
  - destruct Hs as (Hn & Hc & Hk). injection He as <- <-. rewrite xored_app. eexists _, _, _, _. split; [done|].
    rewrite len_xored. split; [done|]. split; [done|]. cbn [x_cipher x_set_counter]. rewrite Hsod.
    cbn [x_nonce x_kx x_counter x_set_counter]. rewrite len_app, Z.add_assoc. split; [done|].
    assert (Hx : forall l, xored (x_cipher d) (x_nonce d) (kx_rx (x_kx d)) (x_counter d) l
              = xored (x_cipher e) (x_nonce e) (kx_tx (x_kx e)) (x_counter e) l).
    { intros l. unfold xored, cipher_nonce in *. by rewrite <- Hm, <- Hn, Hc, Hk. }
    rewrite Hx, xored_twice. split; [done|]. split; [done|]. unfold sodium. cbn. rewrite Hsod.
    split_and!; try done. by rewrite Hc.
  - destruct Hs as (ee & dd & Hee & Hdd & Hsy). rewrite Hee in *.
    destruct (update_cut ee dd p q Hsy) as (c1 & c2 & e1 & e2 & H1 & H2 & H3). rewrite H3 in He. injection He as <- <-.
    destruct (update_law ee dd p Hsy) as (c1' & e1' & d1 & H1' & Hl & Hd & Hsy'). rewrite H1 in H1'. injection H1' as <- <-.
    exists c1, c2, (x_set_evp (Some e1) e), (x_set_evp (Some d1) d). rewrite H1, Hdd, Hd. cbn [x_cipher x_evp x_set_evp].
    rewrite Hsod, H2. split_and!; try done. split; [done|]. cbn. unfold sodium. rewrite Hsod. by exists e1, d1.
Qed.
Lemma encrypted_fields e m c e' : encrypted e m = Some (c, e') -> 0 <= x_counter e ->
  x_cipher e' = x_cipher e /\ x_nonce e' = x_nonce e /\ x_kx e' = x_kx e /\ x_init e' = x_init e /\
  x_counter e <= x_counter e' <= x_counter e + len m.
Proof.
  intros He H0. pose proof (len_nonneg m). unfold encrypted in He. destruct (sodium _).
  - injection He as _ <-. cbn. split_and!; try done; lia.
  - destruct (x_evp e); [|done]. destruct (cipher_update _ _) as [[??]|]; [|done]. injection He as _ <-. cbn. split_and!; try done; lia.
Qed.
Lemma decrypted_fields d c m d' : decrypted d c = Some (m, d') -> 0 <= x_counter d ->
  x_cipher d' = x_cipher d /\ x_nonce d' = x_nonce d /\ x_kx d' = x_kx d /\ x_init d' = x_init d /\
  x_counter d <= x_counter d' <= x_counter d + len c.
Proof.
  intros He H0. pose proof (len_nonneg c). unfold decrypted in He. destruct (sodium _).
  - injection He as _ <-. cbn. split_and!; try done; lia.
  - destruct (x_evp d); [|done]. destruct (cipher_update _ _) as [[??]|]; [|done]. injection He as _ <-. cbn. split_and!; try done; lia.
Qed.

(** ** The sender *)

(** Only the first message of a session has to fit the static buffer. *)
Definition msgs_ok (ms : list bytes) : Prop := Forall (fun m => 1 <= len m) ms.
Definition head_fits (ctx : stream_ctx) (tmp : buffer) (capacity : Z) (ms : list bytes) : Prop :=
  match ms with [] => True | m :: _ => room ctx tmp capacity (len m) end.

Lemma send_all_ok ms : forall ctx ctx1 pre d tmp capacity, msgs_ok ms -> head_fits ctx tmp capacity ms -> 0 < capacity ->
  xctx_ok ctx -> key_ok (x_cipher ctx) -> sends ctx ctx1 pre -> in_step ctx1 d -> pos_ok ctx1 (len (concat ms)) -> buffer_ok tmp ->
  exists C ctx', encrypted ctx1 (concat ms) = Some (C, ctx') /\
    exists ctx2, send_all junk tmp ctx capacity ms = Ret (CRYPTO_OK, match ms with [] => [] | _ => pre ++ C end, ctx2).
Proof.
  induction ms as [|m ms IH]; intros ctx ctx1 pre d tmp capacity Hms Hroom Hcap Hok Hkey Hsend Hstep Hpos Htmp.
  - destruct (in_step_total ctx1 d [] Hstep) as (C & ctx' & He & _). exists C, ctx'. split; [done|]. by exists ctx.
  - apply Forall_cons_iff in Hms as [Hm Hms]. cbn [concat send_all head_fits] in *. rewrite len_app in Hpos.
    destruct (in_step_total ctx1 d (m ++ concat ms) Hstep) as (C & ctx' & He & _). exists C, ctx'. split; [done|].
    destruct (in_step_cut ctx1 d m (concat ms) C ctx' Hstep He) as (c1 & c2 & e2 & d2 & -> & Hl & He1 & He2 & _ & Hstep2).
    pose proof (len_nonneg (concat ms)). pose proof (len_nonneg m). pose proof (proj1 Hpos) as Hp0.
    assert (Hpm : pos_ok ctx1 (len m)) by (eapply pos_ok_less; [done|lia]).
    destruct (stream_encrypt_ok junk ctx ctx1 pre m c1 e2 (buffer_of m) tmp capacity Hok Hkey Hsend He1 Hl
                Hpm (holds_buffer_of m) Hm Htmp Hroom Hcap) as (pt & tmp' & -> & Hpt & Htmp').
    run_simpl. change (negb (CRYPTO_OK =? 0)) with false. cbv iota. rewrite (contents_holds _ _ Hpt).
    destruct (sends_ok _ _ _ Hsend Hok) as (Hok1 & Hc1 & _).
    destruct (encrypted_fields _ _ _ _ He1 Hp0) as (F1 & F2 & F3 & F4 & F5).
    assert (Hinit : x_init ctx1 <> 0).
    { destruct Hsend as [(_ & Hst & _)|(Hi & -> & _)]; [|done]. by destruct (started_fields _ _ Hst) as (_ & _ & _ & _ & _ & _ & ->). }
    assert (Hok2 : xctx_ok e2) by (destruct Hok1; split; rewrite ?F1, ?F2, ?F3; done).
    destruct (IH e2 e2 [] d2 tmp' capacity) as (C2 & ctx2 & HeC & ctx3 & ->); try done.
    + destruct ms; [done|]. intros Hz. by rewrite F4 in Hz.
    + by rewrite F1, Hc1.
    + right. by rewrite F4.
    + by apply (pos_ok_next ctx1 _ (len m)).
    + rewrite He2 in HeC. injection HeC as <- <-. run_simpl. exists ctx3.
      replace (match ms with [] => [] | _ => [] ++ c2 end) with c2; [by rewrite <- app_assoc|].
      destruct ms; [|done]. cbn [concat] in He2. destruct (in_step_total e2 d2 [] Hstep2) as (c & e & E & Hlc).
      rewrite E in He2. injection He2 as <- _. by apply len_0_nil.
Qed.

(** ** The receiver *)

(** The receiver [d] has seen part of the stream; the wire will still bring [rem],
    and the plaintext [q] is still to be delivered.  [bound] is the position the
    whole stream reaches. *)
Record receiving (d : stream_ctx) (seed : bytes) (q rem : bytes) : Prop := {
  rc_ok : xctx_ok d;
  rc_key : key_ok (x_cipher d);
  rc_state :
    (x_init d = 0 /\ exists b pre d1 e e' C, chunk_holds d b /\ len b <= len pre /\ accepts d pre seed d1 /\
       xctx_ok d1 /\ in_step e d1 /\ pos_ok d1 (len q) /\ encrypted e q = Some (C, e') /\ pre ++ C = b ++ rem)
    \/ (x_init d <> 0 /\ exists e e', in_step e d /\ pos_ok d (len q) /\ encrypted e q = Some (rem, e'))
}.

Lemma encrypted_len e d m c e' : in_step e d -> encrypted e m = Some (c, e') -> len c = len m.
Proof. intros Hs He. destruct (in_step_total e d m Hs) as (c' & e2 & He' & Hl). rewrite He in He'. by injection He' as <- _. Qed.

(** The data of one segment. *)
Lemma data_ok d e e' q x rem ct pl pd capacity : xctx_ok d -> key_ok (x_cipher d) -> in_step e d -> pos_ok d (len q) ->
  encrypted e q = Some (x ++ rem, e') -> holds ct x -> 1 <= len x -> x_init d <> 0 ->
  b_len pl = len x -> b_data pl = Some pd -> len pd = b_capacity pl -> len x <= b_capacity pl -> 0 < capacity ->
  exists ct' pl' d' p q', stream_decrypt_data junk ct pl d capacity = Ret (CRYPTO_OK, ct', pl', d') /\
    q = p ++ q' /\ holds ct' p /\ buffer_ok pl' /\ forall seed, receiving d' seed q' rem.
Proof.
  intros Hok Hkey Hstep Hpos He Hct Hx Hi H1 H2 H3 H4 H5.
  pose proof (encrypted_len _ _ _ _ _ Hstep He) as Hlq. rewrite len_app in Hlq. pose proof (len_nonneg rem).
  rewrite <- (ztake_zdrop (len x) q) in He.
  destruct (in_step_cut e d _ _ _ _ Hstep He) as (c1 & c2 & e1 & d1 & Heq & Hl & He1 & He2 & Hd & Hstep1).
  rewrite len_ztake in Hl by lia. apply app_inj_1 in Heq as [<- <-]; [|unfold len in Hl; lia].
  destruct (decrypt_data junk d ct pl x (ztake (len x) q) pd d1 capacity Hok Hd) as (ct' & pl' & Hrun & Hh & Hpl);
    try done; [by rewrite len_ztake by lia|eapply pos_ok_less; [done|lia]|].
  exists ct', pl', d1, (ztake (len x) q), (zdrop (len x) q). rewrite ztake_zdrop. split_and!; try done. intros seed.
  destruct (decrypted_fields _ _ _ _ Hd (proj1 Hpos)) as (F1 & F2 & F3 & F4 & F5).
  split; [destruct Hok; split; by rewrite ?F1, ?F2, ?F3|by rewrite F1|]. right. split; [by rewrite F4|].
  exists e1, e'. split; [done|]. split; [|done]. apply (pos_ok_next d _ (len x)); [|done|lia]. rewrite len_zdrop by lia.
  by replace (len x + (len q - len x)) with (len q) by lia.
Qed.

Lemma accepts_init d pre seed d1 : accepts d pre seed d1 -> x_init d1 = 1 /\ x_cipher d1 = x_cipher d.
Proof. intros [_ (k & n & d0 & _ & _ & _ & Hs%session_fields & ->)]. cbn. split; [done|]. by destruct Hs as (-> & _). Qed.
Lemma accepts_chunk d pre seed d1 ch : accepts d pre seed d1 -> accepts (x_set_chunk ch d) pre seed (x_set_chunk ch d1).
Proof.
  intros [Hl (k & n & d0 & Hk & Hw & Hok & Hs & ->)]. split; [done|]. exists k, n, (x_set_chunk ch d0).
  split_and!; try done; [by destruct Hok; split|exact (session_chunk ch _ _ _ Hs)].
Qed.

Lemma stream_decrypt_ok d seed q x rem ct tmp capacity : receiving d seed q (x ++ rem) -> holds ct x -> buffer_ok tmp -> 0 < capacity ->
  exists code ct' tmp' d' p q', stream_decrypt junk ct tmp d capacity seed = Ret (code, ct', tmp', d') /\
    q = p ++ q' /\ receiving d' seed q' rem /\ buffer_ok tmp' /\
    ((code = CRYPTO_OK /\ holds ct' p) \/ (code = CRYPTO_NEED_MORE /\ p = [])).
Proof.
  intros [Hok Hkey Hst] Hct Htmp Hcap. pose proof Hct as (_ & Hlx & _). pose proof (len_nonneg x). pose proof (len_nonneg rem).
  unfold stream_decrypt. destruct (grow_tmp junk tmp (b_len ct) capacity Htmp Hcap) as (td & Htd & Hltd & Hmax & _).
  set (g := grow junk tmp _ capacity) in *. set (pl := with_len g (b_len ct)).
  destruct Hst as [(Hi & b & pre & d1 & e & e' & C & Hch & Hb & Hacc & Hok1 & Hstep & Hpos & He & Heq)|(Hi & e & e' & Hstep & Hpos & He)].
  - rewrite Hi. cbn [Z.eqb]. destruct (accepts_init _ _ _ _ Hacc) as [Hi1 Hc1]. pose proof (ac_len _ _ _ _ Hacc) as Hlp.
    destruct (Z.lt_ge_cases (len b + len x) (len pre)) as [Hlt|Hge].
    + destruct (stream_start_waits junk d b ct x seed Hok Hch Hct ltac:(lia)) as (ct' & ch' & -> & Hct' & Hch'). run_simpl.
      exists CRYPTO_NEED_MORE, ct', pl, (x_set_chunk (Some ch') d), [], q. split_and!; try done; [| |by right].
      * split; [by destruct Hok; split|done|]. left. split; [done|]. exists (b ++ x), pre, (x_set_chunk (Some ch') d1), e, e', C.
        split; [done|]. split; [rewrite len_app; lia|]. split; [by apply accepts_chunk|].
        split; [by destruct Hok1; split|]. split; [done|]. split; [done|]. split; [done|]. by rewrite <- app_assoc.
      * unfold buffer_ok. cbn. rewrite Htd. lia.
    + set (rest := zdrop (len pre - len b) x).
      assert (Hr : len rest = len b + len x - len pre) by (unfold rest; rewrite len_zdrop; lia).
      assert (Hsplit : b ++ x = pre ++ rest /\ C = rest ++ rem).
      { rewrite app_assoc in Heq. assert (Hbx : ztake (len pre) (b ++ x) = pre).
        { pose proof (f_equal (ztake (len pre)) Heq) as Ht. rewrite ztake_app_exact in Ht by done.
          rewrite ztake_app_l in Ht by (rewrite len_app; lia). by symmetry. }
        assert (E : b ++ x = pre ++ rest).
        { rewrite <- (ztake_zdrop (len pre) (b ++ x)), Hbx. f_equal. unfold rest. by rewrite zdrop_app_r by lia. }
        split; [done|]. rewrite E, <- app_assoc in Heq. by apply app_inv_head in Heq. }
      destruct Hsplit as [Hbx ->].
      destruct (decrypt_start_ready junk d b ct x pre rest seed d1 Hok Hkey Hch Hct Hacc Hbx Hb) as (ct' & ch' & -> & Hct'). run_simpl.
      set (dd := x_set_chunk (Some ch') d1). pose proof Hct' as (Hokc' & Hlr & _). pose proof (len_nonneg rest).
      assert (Hokd : xctx_ok dd) by (by destruct Hok1; split). assert (Hkd : key_ok (x_cipher dd)) by (change (x_cipher dd) with (x_cipher d1); by rewrite Hc1).
      destruct (Z.leb_spec (b_len ct') 0) as [Hz|Hz].
      * eexists _, _, _, _, [], q. split; [done|]. split; [done|]. split; [|split; [|by right]].
        -- split; [done|done|]. right. split; [cbn; lia|]. exists e, e'. rewrite (len_0_nil rest) in He by lia. done.
        -- unfold buffer_ok. cbn. rewrite Htd. lia.
      * destruct (data_ok dd e e' q rest rem ct' (with_len pl (b_len pl - (len x - len rest))) td capacity)
          as (ct2 & pl2 & d2 & p & q' & -> & -> & Hp & Hpl2 & Hrec); try done; try (cbn; lia).
        eexists _, _, _, _, p, q'. split; [done|]. split; [done|]. split; [apply Hrec|]. split; [done|by left].
  - rewrite (proj2 (Z.eqb_neq _ _) Hi).
    assert (Hd : exists d0, (if x_init d =? 1 then mret (ct, if RC4_MD5 <=? method (x_cipher d) then x_set_init 2 d else d, Some 0)
       else mret (ct, d, Some 0)) = Ret (ct, d0, Some 0) /\ xctx_ok d0 /\ key_ok (x_cipher d0) /\ x_init d0 <> 0 /\ in_step e d0 /\
         pos_ok d0 (len q)).
    { destruct (x_init d =? 1); [|by exists d]. destruct (RC4_MD5 <=? method (x_cipher d)); [|by exists d].
      exists (x_set_init 2 d). by split_and!; try done; destruct Hok. }
    destruct Hd as (d0 & -> & Hok0 & Hkey0 & Hi0 & Hstep0 & Hpos0). run_simpl.
    destruct (Z.leb_spec (b_len ct) 0) as [Hz|Hz].
    + rewrite (len_0_nil x) in He by lia. eexists _, _, _, _, [], q. split; [done|]. split; [done|]. split; [|split; [|by right]].
      * split; [done|done|]. right. split; [done|]. by exists e, e'.
      * unfold buffer_ok. cbn. rewrite Htd. lia.
    + destruct (data_ok d0 e e' q x rem ct (with_len pl (b_len pl - 0)) td capacity)
        as (ct2 & pl2 & d2 & p & q' & -> & -> & Hp & Hpl2 & Hrec); try done; try (cbn; lia).
      eexists _, _, _, _, p, q'. split; [done|]. split; [done|]. split; [apply Hrec|]. split; [done|by left].
Qed.

Lemma recv_all_ok segs : forall d seed q rem tmp capacity, receiving d seed q (concat segs ++ rem) -> buffer_ok tmp -> 0 < capacity ->
  exists d' p q', recv_all junk tmp d capacity seed segs = Ret (CRYPTO_OK, p, d') /\ q = p ++ q' /\ receiving d' seed q' rem.
Proof.
  induction segs as [|x segs IH]; intros d seed q rem tmp capacity Hr Ht Hc; cbn [concat recv_all] in *.
  - by exists d, [], q.
  - rewrite <- app_assoc in Hr.
    destruct (stream_decrypt_ok d seed q x _ (buffer_of x) tmp capacity Hr (holds_buffer_of x) Ht Hc)
      as (code & ct & tmp' & d1 & p & q1 & -> & -> & Hr1 & Ht1 & Hcode). run_simpl.
    destruct (IH d1 seed q1 rem tmp' capacity Hr1 Ht1 Hc) as (d' & p' & q' & Hrec & -> & Hr').
    destruct Hcode as [[-> Hct]|[-> ->]].
    + change (CRYPTO_OK =? CRYPTO_ERROR) with false. cbv iota. rewrite Hrec. run_simpl.
      change (CRYPTO_OK =? CRYPTO_NEED_MORE) with false. cbv iota. rewrite (contents_holds _ _ Hct).
      exists d', (p ++ p'), q'. by rewrite <- app_assoc.
    + change (CRYPTO_NEED_MORE =? CRYPTO_ERROR) with false. cbv iota. rewrite Hrec. run_simpl.
      change (CRYPTO_NEED_MORE =? CRYPTO_NEED_MORE) with true. cbv iota. by exists d', p', q'.
Qed.

Lemma receiving_done d seed q : receiving d seed q [] -> q = [].
Proof.
  intros [_ _ [(_ & b & pre & d1 & e & e' & C & _ & Hb & _ & _ & Hs & _ & He & Heq)|(_ & e & e' & Hs & _ & He)]];
    pose proof (encrypted_len _ _ _ _ _ Hs He) as Hl; pose proof (len_nonneg q).
  - pose proof (f_equal len Heq) as Hle. rewrite app_nil_r, len_app in Hle. apply len_0_nil. lia.
  - apply len_0_nil. by rewrite <- Hl.
Qed.

(** A sender and a receiver that are in step after the preamble: the whole
    exchange when the first message fits the static buffer, the overflow when it
    does not. *)
Definition exchange (fits : bool) (e d : stream_ctx) (seed : bytes) (ms : list bytes) (tmp tmp' : buffer) (capacity : Z) : Prop :=
  if fits then exists wire ctx, send_all junk tmp e capacity ms = Ret (CRYPTO_OK, wire, ctx) /\
    forall segs, concat segs = wire -> exists ctx', recv_all junk tmp' d capacity seed segs = Ret (CRYPTO_OK, concat ms, ctx')
  else send_all junk tmp e capacity ms = Fail OutOfBounds.

Lemma stream_in_step_exchange e e1 d d1 seed m ms tmp tmp' capacity :
  xctx_ok e -> key_ok (x_cipher e) -> x_init e = 0 -> started e e1 ->
  xctx_ok d -> key_ok (x_cipher d) -> x_init d = 0 -> x_chunk d = None -> accepts d (preamble e) seed d1 -> xctx_ok d1 ->
  in_step e1 d1 -> x_counter d1 = 0 -> msgs_ok (m :: ms) ->
  (sodium (x_cipher e) = true -> len (concat (m :: ms)) <= 2147483647) ->
  buffer_ok tmp -> buffer_ok tmp' -> 0 < capacity ->
  exchange (first_fits (x_cipher e) (ctx_pk_len e) tmp capacity (len m)) e d seed (m :: ms) tmp tmp' capacity.
Proof.
  intros Hoe Hke Hie Hst Hod Hkd Hid Hcd Hacc Hod1 Hstep Hc0 Hms Hlen Ht Ht' Hcap. unfold exchange.
  destruct (started_fields _ _ Hst) as (Hcc & _ & _ & _ & _ & Hce & _). pose proof (len_nonneg (concat (m :: ms))) as H0.
  destruct (first_fits _ _ _ _ _) eqn:Hfit.
  - destruct (send_all_ok (m :: ms) e e1 (preamble e) d1 tmp capacity Hms) as (C & e2 & HeC & ctx & Hsend); try done.
    { by intros _. }
    { by left. }
    { split; rewrite ?Hce, ?Hcc; done. }
    rewrite Hsend. eexists _, ctx. split; [done|]. intros segs Hsegs.
    assert (Hr : receiving d seed (concat (m :: ms)) (concat segs ++ [])).
    { split; [done|done|]. left. split; [done|]. exists [], (preamble e), d1, e1, e2, C.
      unfold chunk_holds. rewrite Hcd, app_nil_r, Hsegs. split_and!; try done; [apply len_nonneg|].
      split; [by rewrite Hc0|]. destruct Hstep as [Hm _]. unfold sodium in *. rewrite Hc0, <- Hm, Hcc. done. }
    destruct (recv_all_ok segs d seed _ [] tmp' capacity Hr Ht' Hcap) as (d' & p & q' & Hrec & Hq & Hdone).
    rewrite (receiving_done _ _ _ Hdone), app_nil_r in Hq. exists d'. by rewrite Hrec, Hq.
  - destruct (in_step_total e1 d1 m Hstep) as (c & e2 & He & Hl). apply Forall_cons_iff in Hms as [Hm _].
    cbn [send_all]. by rewrite (stream_encrypt_beyond junk e e1 m c e2 (buffer_of m) tmp capacity) by (done || apply holds_buffer_of).
Qed.

(** ** Ciphers of [stream_init] *)

(** What [stream_init] returns for a name, apart from the keys. *)
Record suite (c : cipher_t) : Prop := {
  su_method : method_ok c;
  su_key : key_ok c;
  su_mbed : sodium c = false -> exists nm n,
    stream_get_cipher_type (method c) = Ret (Some nm) /\ supported_stream_ciphers_mbedtls !! Z.to_nat (method c) = Some nm /\
    mbedtls_cipher_info_from_string nm = Some n /\ nonce_len c = (if method c =? RC4_MD5 then 16 else n) /\
    (method c = RC4_MD5 -> n = 0) /\
    supported_stream_ciphers_key_size !! Z.to_nat (method c) = Some (key_len c)
}.

Lemma cipher_type_table (k : nat) : (1 <= k <= 17)%nat -> exists nm klen,
  supported_stream_ciphers_mbedtls !! k = Some nm /\ supported_stream_ciphers_key_size !! k = Some klen /\
  rd supported_stream_ciphers_key_size (Z.of_nat k) = Ret klen /\ 8 <= klen <= 32 /\
  (k = 2%nat -> klen = 16 /\ nm = "ARC4-128"%string) /\
  stream_get_cipher_type (Z.of_nat k) =
    (if String.eqb nm CIPHER_UNSUPPORTED then Ret None
     else match mbedtls_cipher_info_from_string nm with None => Ret None | Some _ => Ret (Some nm) end).
Proof.
  intros Hk. do 18 (destruct k as [|k]; [first [lia | eexists _, _; split_and!; try reflexivity; try lia; intros; split; reflexivity || lia]|]). lia.
Qed.

Lemma key_init_ok m pk sk c : stream_key_init m (Some pk) (Some sk) = Ret (Some c) ->
  suite c /\ method c = m /\ c_pk c = ztake 32 pk /\ c_sk c = ztake 32 sk /\ 32 <= len pk /\ 32 <= len sk.
Proof.
  intros H. unfold stream_key_init, TABLE, STREAM_CIPHER_NUM in H.
  destruct (Z.leb_spec m 0) as [|H0]; [done|]. destruct (Z.leb_spec 21 m) as [|H1]; [done|]. cbn [orb] in H.
  assert (Hr : forall (l x : bytes), rd_range l 0 32 = Ret x -> x = ztake 32 l /\ 32 <= len l).
  { intros l x Hx. unfold rd_range in Hx. cbn [Z.leb Z.compare andb] in Hx.
    destruct (Z.leb_spec (0 + 32) (len l)); [|done]. injection Hx as <-. rewrite zdrop_0. split; [done|lia]. }
  unfold crypto_kx_PUBLICKEYBYTES, crypto_kx_SECRETKEYBYTES in H.
  assert (Hkeys : forall klen nl, 8 <= klen ->
    (pk0 ← rd_range pk 0 32; sk0 ← rd_range sk 0 32;
     if klen =? 0 then Fail Exited else mret (Some (Cipher m nl klen 0 pk0 sk0))) = Ret (Some c) ->
    c = Cipher m nl klen 0 (ztake 32 pk) (ztake 32 sk) /\ 32 <= len pk /\ 32 <= len sk).
  { intros klen nl Hkl E. destruct (rd_range pk 0 32) as [p|] eqn:Ep; [|done]. destruct (rd_range sk 0 32) as [q|] eqn:Eq; [|done].
    revert E. run_simpl. rewrite (proj2 (Z.eqb_neq klen 0)) by lia. intros [= <-].
    destruct (Hr _ _ Ep) as [-> ?], (Hr _ _ Eq) as [-> ?]. done. }
  destruct ((m =? SALSA20) || (m =? CHACHA20) || (m =? CHACHA20IETF)) eqn:Hsod.
  - assert (Hm : exists nl, 0 <= nl <= 16 /\ rd supported_stream_ciphers_nonce_size m = Ret nl /\
      rd supported_stream_ciphers_key_size m = Ret 32 /\ SALSA20 <= m /\ m <> RC4_MD5).
    { rewrite !orb_true_iff, !Z.eqb_eq in Hsod. unfold SALSA20, CHACHA20, CHACHA20IETF, RC4_MD5 in *.
      destruct Hsod as [[->| ->]| ->]; eexists; (split; [|split; [reflexivity|split; [reflexivity|lia]]]); lia. }
    destruct Hm as (nl & Hnl & Hn & Hk & Hs & Hrc). rewrite Hn in H. revert H. run_simpl. rewrite Hk. run_simpl.
    rewrite (proj2 (Z.eqb_neq m RC4_MD5)) by done. intros H. apply Hkeys in H as (-> & Hp1 & Hp2); [|lia].
    split_and!; try done. split.
    + split; cbn [method nonce_len]; unfold STREAM_CIPHER_NUM; lia.
    + split; cbn [method key_len]; [intros E; by destruct Hrc|lia].
    + unfold sodium. cbn [method]. intros E%Z.leb_gt. lia.
  - rewrite !orb_false_iff, !Z.eqb_neq in Hsod. unfold SALSA20, CHACHA20, CHACHA20IETF in Hsod.
    destruct (cipher_type_table (Z.to_nat m) ltac:(lia)) as (nm & klen & Hnm & Hkl & Hkr & Hklb & Hrc & Hty).
    rewrite Z2Nat.id in * by lia. rewrite Hty in H.
    destruct (String.eqb nm CIPHER_UNSUPPORTED); [done|].
    destruct (mbedtls_cipher_info_from_string nm) as [n|] eqn:Hinfo; [|done]. revert H. run_simpl. rewrite Hinfo, Hkr. run_simpl.
    intros H. apply Hkeys in H as (-> & Hp1 & Hp2); [|lia]. destruct (info_law _ _ _ Hnm Hinfo) as [Hn Harc].
    unfold RC4_MD5 in *. split_and!; try done. split.
    + split; cbn [method nonce_len]; [unfold STREAM_CIPHER_NUM; lia|]. destruct (m =? 2); lia.
    + split; cbn [method key_len]; [|lia]. unfold RC4_MD5. intros E. apply Hrc. lia.
    + intros _. exists nm, n. cbn. split_and!; try done. intros E. unfold RC4_MD5 in E. apply Harc, Hrc. lia.
Qed.

Lemma stream_init_ok name pk sk c : stream_init (Some pk) (Some sk) name = Ret (Some c) ->
  suite c /\ c_pk c = ztake 32 pk /\ c_sk c = ztake 32 sk /\ 32 <= len pk /\ 32 <= len sk.
Proof.
  unfold stream_init. destruct (_ =? TABLE); [done|]. intros H. apply key_init_ok in H. tauto.
Qed.
Lemma stream_init_same name pk sk pk' sk' c c' :
  stream_init (Some pk) (Some sk) name = Ret (Some c) -> stream_init (Some pk') (Some sk') name = Ret (Some c') ->
  method c = method c' /\ nonce_len c = nonce_len c' /\ key_len c = key_len c'.
Proof.
  unfold stream_init. destruct (_ =? TABLE); [done|]. set (m := match name with Some _ => _ | None => _ end).
  unfold stream_key_init. destruct (_ || _); [done|].
  set (info := if _ || _ then _ else _). destruct info as [[n|]|]; [|done|done]. run_simpl.
  destruct (rd supported_stream_ciphers_key_size m) as [klen|]; [|done]. run_simpl.
  destruct (rd_range pk _ _); [|done]. destruct (rd_range sk _ _); [|done]. destruct (rd_range pk' _ _); [|by intros _].
  destruct (rd_range sk' _ _); [|by intros _]. run_simpl. destruct (klen =? 0); [done|]. by intros [= <-] [= <-].
Qed.

(** ** Contexts of [stream_ctx_init] *)

Definition evp_of (c : cipher_t) : option mbed_evp :=
  if sodium c then None
  else match stream_get_cipher_type (method c) with Ret (Some nm) => mbedtls_cipher_setup nm | _ => None end.
Definition fresh_ctx (c : cipher_t) (k : kx_ctx) (n : bytes) : stream_ctx := SCtx _ 0 0 0 (evp_of c) c None k n.

Lemma mbed_key_len c key n : suite c -> len key = 32 -> len (mbed_key c key n) = key_len c.
Proof.
  intros [_ [Hrc Hkl] _] Hk. unfold mbed_key. destruct (Z.eqb_spec (method c) RC4_MD5) as [E|E].
  - by rewrite md5_law, Hrc.
  - rewrite len_ztake; lia.
Qed.
Lemma mbed_iv_len c n : suite c -> len n = 32 -> forall l, nonce_len c = (if method c =? RC4_MD5 then 16 else l) ->
  (method c = RC4_MD5 -> l = 0) -> len (mbed_iv c n) = l.
Proof.
  intros [[_ Hnl] _ _] Hn l Hl H0. unfold mbed_iv. destruct (Z.eqb_spec (method c) RC4_MD5) as [E|E].
  - by rewrite H0.
  - rewrite len_ztake; lia.
Qed.

(** Contexts of one suite with crossed keys and one nonce start in step. *)
Lemma sessions_ok (e d : stream_ctx) : suite (x_cipher e) -> suite (x_cipher d) ->
  method (x_cipher e) = method (x_cipher d) -> nonce_len (x_cipher e) = nonce_len (x_cipher d) ->
  key_len (x_cipher e) = key_len (x_cipher d) -> x_evp e = evp_of (x_cipher e) -> x_evp d = evp_of (x_cipher d) ->
  x_nonce e = x_nonce d -> len (x_nonce d) = 32 -> kx_tx (x_kx e) = kx_rx (x_kx d) -> len (kx_rx (x_kx d)) = 32 ->
  exists e0 d0, session e 1 e0 /\ session d 0 d0 /\
    in_step (x_set_init 1 (x_set_counter 0 e0)) (x_set_init 1 (x_set_counter 0 d0)).
Proof.
  intros He Hd Hm Hnl Hkl Hee Hde Hn Hln Hk Hlk. unfold session.
  assert (Hs : sodium (x_cipher d) = sodium (x_cipher e)) by (unfold sodium; by rewrite Hm). rewrite Hs.
  destruct (sodium (x_cipher e)) eqn:Hsod.
  - exists e, d. split_and!; try done. split; [done|]. cbn. rewrite Hsod. by rewrite Hn.
  - destruct (su_mbed _ He Hsod) as (nm & n & Hty & Hnm & Hinfo & Hnl' & H0 & Hks).
    unfold evp_of in *. rewrite Hs, Hsod, <- Hm, Hty in *. set (key := kx_rx (x_kx d)) in *.
    pose proof (mbed_key_len (x_cipher e) key (x_nonce d) He Hlk) as Hkey.
    pose proof (mbed_iv_len (x_cipher e) (x_nonce d) He Hln n Hnl' H0) as Hiv. rewrite <- Hkey in Hks.
    destruct (mbed_law _ _ _ _ _ Hnm Hinfo Hks Hiv) as (e0 & Hset & ee & dd & e1 & d1 & e2 & d2 & H1 & H2 & H3 & H4 & H5 & H6 & Hsy).
    exists (x_set_evp (Some ee) e), (x_set_evp (Some dd) d).
    assert (Hkd : mbed_key (x_cipher d) key (x_nonce d) = mbed_key (x_cipher e) key (x_nonce d)) by (unfold mbed_key; by rewrite Hm, Hkl).
    assert (Hid : mbed_iv (x_cipher d) (x_nonce d) = mbed_iv (x_cipher e) (x_nonce d)) by (unfold mbed_iv; by rewrite Hm, Hnl).
    rewrite Hkey in *. split_and!.
    + exists e0, ee. rewrite Hee, Hset. split; [done|]. split; [|done]. unfold mbed_start. cbn [Z.eqb].
      by rewrite Hk, Hn, H1, H2, H3.
    + exists e0, dd. rewrite Hde, Hset. split; [done|]. split; [|done]. unfold mbed_start. cbn [Z.eqb]. fold key.
      by rewrite Hkd, Hid, <- Hkl, H4, H5, H6.
    + split; [done|]. cbn. rewrite Hsod. by exists ee, dd.
Qed.

Lemma ctx_init_stream c k enc rnd : suite c -> salt_source rnd ->
  stream_ctx_init c (Some k) enc rnd
  = Ret (fresh_ctx c k (if enc =? 0 then zrep 32 0 else rnd (nonce_len c) ++ zrep (32 - nonce_len c) 0)).
Proof.
  intros Hc Hr. pose proof Hc as [[Hm Hnl] _ Hmb]. unfold stream_ctx_init, MAX_NONCE_LENGTH.
  set (c0 := SCtx _ 0 0 0 None c None kx_zero (zrep 32 0)).
  assert (Hi : stream_cipher_ctx_init c0 (method c) = Ret (x_set_evp (evp_of c) c0)).
  { unfold stream_cipher_ctx_init, TABLE, STREAM_CIPHER_NUM, evp_of in *. fold (sodium c).
    rewrite (proj2 (Z.leb_gt (method c) 0)), (proj2 (Z.leb_gt 21 (method c))) by lia. cbn [orb].
    destruct (sodium c) eqn:Hs; [done|]. destruct (Hmb eq_refl) as (nm & n & -> & Hnm & Hinfo & Hnl' & H0 & Hks). run_simpl.
    assert (Hkey : len (zrep (key_len c) 0) = key_len c) by (apply len_zrep; apply Hc).
    assert (Hn0 : 0 <= n <= 16) by (by destruct (info_law _ _ _ Hnm Hinfo)).
    rewrite <- Hkey in Hks. destruct (mbed_law _ _ _ _ (zrep n 0) Hnm Hinfo Hks) as (e0 & -> & _); [apply len_zrep; lia|]. done. }
  rewrite Hi. run_simpl. cbn [x_nonce x_set_kx x_set_evp c0].
  destruct (Z.eqb_spec enc 0) as [E|E]; cbn [negb]; [done|].
  pose proof (Hr (nonce_len c) ltac:(lia)) as Hl. rewrite wr_range_ok by (rewrite ?len_zrep; lia). run_simpl.
  rewrite ztake_0, Hl. cbn [app]. unfold fresh_ctx, x_set_nonce, x_set_kx, x_set_evp. cbn. repeat f_equal.
  unfold zdrop, zrep. rewrite drop_replicate. f_equal. lia.
Qed.

Lemma fresh_ok c k n : suite c -> kx_ok k -> len n = 32 -> xctx_ok (fresh_ctx c k n).
Proof. intros [Hm _ _] (H1 & H2 & H3) Hn. by split. Qed.
End streams.

(** ** The two ends of a connection *)

Section ends.
Context `{P : CryptoPrims} {LP : CryptoLaws P} `{S : StreamPrims} {L : StreamLaws S} (junk : nat -> Z).

(** A client and a server with one method; [seed'] gave the key pair of the
    server, whose public half the client has. *)
Record stream_configured (name : option string) (c cs : cipher_t) (seed seed' rx tx : bytes) : Prop := {
  sc_client : exists sk, stream_init (Some (fst (crypto_kx_keypair seed'))) (Some sk) name = Ret (Some c);
  sc_server : stream_init (Some (fst (crypto_kx_keypair seed'))) (Some (snd (crypto_kx_keypair seed'))) name = Ret (Some cs);
  sc_kx : crypto_kx_client_session_keys (fst (crypto_kx_keypair seed)) (snd (crypto_kx_keypair seed))
            (fst (crypto_kx_keypair seed')) = Some (rx, tx)
}.
(** The key exchange state a server starts with: its key pair. *)
Definition server_kx (c : cipher_t) : kx_ctx := KxCtx 0 0 (c_pk c) (c_sk c) (zrep 32 0) (zrep 32 0) (zrep 32 0).
(** What the exchange leaves at the client, and at the server. *)
Definition client_kx (seed pk rx tx : bytes) : kx_ctx :=
  KxCtx 0 1 (fst (crypto_kx_keypair seed)) (snd (crypto_kx_keypair seed)) pk rx tx.
Definition set_x_local (x : stream_ctx) : stream_ctx :=
  SCtx _ (x_init x) 1 (x_counter x) (x_evp x) (x_cipher x) (x_chunk x) (x_kx x) (x_nonce x).

Definition nonce_of (c : cipher_t) (rnd : Z -> bytes) : bytes := rnd (nonce_len c) ++ zrep (32 - nonce_len c) 0.
Lemma len_nonce_of c rnd : suite c -> salt_source rnd -> len (nonce_of c rnd) = 32.
Proof.
  intros [[_ Hnl] _ _] Hr. unfold nonce_of. rewrite len_app, Hr, len_zrep by lia. lia.
Qed.
Lemma nonce_sent c rnd : suite c -> salt_source rnd -> ztake (nonce_len c) (nonce_of c rnd) = rnd (nonce_len c) /\
  wr_range (zrep 32 0) 0 (rnd (nonce_len c)) = Ret (nonce_of c rnd).
Proof.
  intros [[_ Hnl] _ _] Hr. pose proof (Hr (nonce_len c) ltac:(lia)) as Hl. unfold nonce_of. split; [by rewrite ztake_app_exact|].
  rewrite wr_range_ok by (rewrite ?len_zrep; lia). rewrite ztake_0, Hl. cbn [app]. do 2 f_equal. unfold zdrop, zrep. rewrite drop_replicate.
  f_equal. lia.
Qed.

Lemma configured_suites name c cs seed seed' rx tx : stream_configured name c cs seed seed' rx tx ->
  suite c /\ suite cs /\ method c = method cs /\ nonce_len c = nonce_len cs /\ key_len c = key_len cs /\
  c_pk c = fst (crypto_kx_keypair seed') /\ c_pk cs = fst (crypto_kx_keypair seed') /\ c_sk cs = snd (crypto_kx_keypair seed') /\
  len rx = 32 /\ len tx = 32.
Proof.
  intros [[sk Hc] Hs Hk]. destruct (stream_init_same _ _ _ _ _ _ _ Hc Hs) as (H1 & H2 & H3).
  destruct (stream_init_ok _ _ _ _ Hc) as (S1 & -> & _). destruct (stream_init_ok _ _ _ _ Hs) as (S2 & -> & -> & _).
  destruct (kx_keypair_len seed') as [L1 L2]. rewrite !ztake_all by lia. destruct (kx_client_len _ _ _ _ _ Hk). by split_and!.
Qed.

Lemma stream_new_server_ok name c cs seed seed' rx tx rnd : stream_configured name c cs seed seed' rx tx -> salt_source rnd ->
  let k := client_kx seed (fst (crypto_kx_keypair seed')) rx tx in
  kx_ok k /\ stream_new_server c seed rnd
  = Ret (set_x_local (fresh_ctx c k (nonce_of c rnd)), set_x_local (fresh_ctx c k (zrep 32 0))).
Proof.
  intros Hcf Hr k. destruct (configured_suites _ _ _ _ _ _ _ Hcf) as (S1 & S2 & H1 & H2 & H3 & Hpk & _ & _ & Hrx & Htx).
  destruct Hcf as [_ _ Hk]. destruct (kx_keypair_len seed) as [L1 L2]. destruct (kx_keypair_len seed') as [L3 L4].
  split; [by split|]. unfold stream_new_server, crypto_kx_ctx_init, crypto_kx_PUBLICKEYBYTES. rewrite Hpk.
  rewrite rd_range_front, ztake_all by lia. run_simpl. change (negb (1 =? 0)) with true. cbv iota.
  unfold k, client_kx. destruct (crypto_kx_keypair seed) as [pk sk]. cbn [fst snd kx_pk kx_sk] in *. rewrite Hk. run_simpl.
  rewrite !ctx_init_stream by done. run_simpl. done.
Qed.

(** The server's side of the exchange. *)
Lemma server_exchange c cs name seed seed' rx tx rest seed2 : stream_configured name c cs seed seed' rx tx ->
  crypto_kx_ctx_init (server_kx cs) 0 (fst (crypto_kx_keypair seed) ++ rest) seed2
  = Ret (KxCtx 1 1 (c_pk cs) (c_sk cs) (fst (crypto_kx_keypair seed)) tx rx, 0).
Proof.
  intros Hcf. destruct (configured_suites _ _ _ _ _ _ _ Hcf) as (_ & _ & _ & _ & _ & _ & Hpk & Hsk & _).
  destruct Hcf as [_ _ Hk]. destruct (kx_keypair_len seed) as [L1 _]. unfold crypto_kx_ctx_init, crypto_kx_PUBLICKEYBYTES.
  rewrite rd_range_front by (rewrite len_app; pose proof (len_nonneg rest); lia). rewrite ztake_app_exact by done. run_simpl.
  change (negb (0 =? 0)) with false. cbv iota. cbn [kx_pk kx_sk server_kx]. rewrite Hpk, Hsk.
  by rewrite (kx_agree seed seed' rx tx Hk).
Qed.
End ends.

(** C21: client to server with a stream cipher of libsodium or mbed TLS.  The proxy
    opens a connection ([new_server]), sends non-empty messages, one
    [stream_encrypt] each, and a server with the other half of the keys receives
    the bytes in any segmentation.  When the public key, the nonce and (with mbed
    TLS) the first message fit the static buffer, which the code sizes without the
    public key, every call succeeds and what the server's calls deliver, in order,
    is exactly the messages; otherwise the first call writes beyond that buffer.
    A session of libsodium is followed up to 2 GiB: what happens beyond is
    [stream_encrypt_2GiB]. *)
Theorem stream_client_to_server `{P : CryptoPrims} {LP : CryptoLaws P} `{S : StreamPrims} {L : StreamLaws S} (junk : nat -> Z)
    name c cs seed seed' seed2 rx tx rnd rnd' m ms tmp tmp' capacity :
  stream_configured name c cs seed seed' rx tx -> salt_source rnd -> salt_source rnd' ->
  Forall (fun m => 1 <= len m) (m :: ms) -> (sodium c = true -> len (concat (m :: ms)) <= 2147483647) ->
  buffer_ok tmp -> buffer_ok tmp' -> 0 < capacity ->
  exists e d sd,
    stream_new_server c seed rnd = Ret (e, d) /\ stream_ctx_init cs (Some (server_kx cs)) 0 rnd' = Ret sd /\
    if first_fits c 32 tmp capacity (len m) then
      exists wire ctx, send_all junk tmp e capacity (m :: ms) = Ret (CRYPTO_OK, wire, ctx) /\
      forall segs, concat segs = wire ->
        exists ctx', recv_all junk tmp' sd capacity seed2 segs = Ret (CRYPTO_OK, concat (m :: ms), ctx')
    else send_all junk tmp e capacity (m :: ms) = Fail OutOfBounds.
Proof.
  intros Hcf Hr Hr' Hms Hlen Ht Ht' Hcap.
  destruct (configured_suites _ _ _ _ _ _ _ Hcf) as (S1 & S2 & H1 & H2 & H3 & Hpk & Hpks & Hsks & Hrx & Htx).
  destruct (stream_new_server_ok name c cs seed seed' rx tx rnd Hcf Hr) as [Hkok Hnew]. cbv zeta in *.
  set (k := client_kx _ _ _ _) in *. set (e := set_x_local (fresh_ctx c k (nonce_of c rnd))) in *.
  destruct (kx_keypair_len seed) as [L1 _]. destruct (kx_keypair_len seed') as [L3 _].
  eexists e, _, _. rewrite (ctx_init_stream cs (server_kx cs) 0 rnd' S2 Hr'). cbn [Z.eqb]. set (sd := fresh_ctx cs _ (zrep 32 0)).
  set (k' := KxCtx 1 1 (c_pk cs) (c_sk cs) (fst (crypto_kx_keypair seed)) tx rx).
  set (e' := x_set_kx (kx_set_pk_sent 1 k) e). set (d' := x_set_nonce (nonce_of c rnd) (x_set_kx (kx_set_rpk_received 1 k') sd)).
  pose proof (len_nonce_of c rnd S1 Hr) as Hln. destruct (nonce_sent c rnd S1 Hr) as [Hns Hnw].
  destruct (sessions_ok e' d') as (e0 & d0 & Hse & Hsd & Hstep); try done.
  assert (Hoke : xctx_ok e) by (destruct (fresh_ok c k (nonce_of c rnd) S1 Hkok Hln); by split).
  assert (Hkk : kx_ok (server_kx cs)) by (split; [cbn; by rewrite Hpks|done]).
  assert (Hokd' : xctx_ok d') by (split; cbn; try done; [apply S2|by rewrite Hpks]).
  destruct (session_fields _ _ _ Hsd) as (F1 & F2 & F3 & F4 & _).
  split_and!; [done|done|].
  apply (stream_in_step_exchange junk e (x_set_init 1 (x_set_counter 0 e0)) sd (x_set_init 1 (x_set_counter 0 d0)) seed2 m ms tmp tmp' capacity);
    try done; try apply S1; try apply S2.
  - by exists e0.
  - by apply fresh_ok.
  - assert (Hpre : preamble e = fst (crypto_kx_keypair seed) ++ rnd (nonce_len c)) by (unfold preamble; cbn; by rewrite Hns).
    split; rewrite Hpre.
    + rewrite len_app, L1, Hr; [cbn; lia|]. destruct S1 as [[_ ?] _ _]. lia.
    + exists (kx_set_rpk_received 1 k'), (nonce_of c rnd), d0. cbn [x_kx x_local sd fresh_ctx rpk_received server_kx Z.eqb].
      split; [eexists _, _; split; [by eapply server_exchange|done]|]. split; [|by split_and!].
      change (rpk_len sd) with 32. rewrite zdrop_app_exact by lia. exact Hnw.
  - destruct Hokd'. split; cbn; by rewrite ?F1, ?F2, ?F3.
Qed.

Definition toy_pk : bytes := pad32 [3; 4].
Definition toy_cipher (name : string) : cipher_t :=
  match stream_init (Some toy_pk) (Some toy_pk) (Some name) with Ret (Some c) => c | _ => Cipher 0 0 0 0 [] [] end.
Definition toy_rnd (n : Z) : bytes := zrep n 7.
Lemma toy_rnd_ok : salt_source toy_rnd.
Proof. intros n Hn. by apply len_zrep. Qed.
Lemma toy_stream_configured name : stream_init (Some toy_pk) (Some toy_pk) (Some name) = Ret (Some (toy_cipher name)) ->
  stream_configured (Some name) (toy_cipher name) (toy_cipher name) [1; 2] [3; 4]
    (toy_rx (pad32 [1; 2]) toy_pk) (toy_shared (pad32 [1; 2]) toy_pk).
Proof. intros H. split; [by exists toy_pk|done|done]. Qed.

Lemma stream_client_to_server_witness : exists e d sd,
  stream_new_server (toy_cipher "chacha20-ietf") [1; 2] toy_rnd = Ret (e, d) /\
  stream_ctx_init (toy_cipher "chacha20-ietf") (Some (server_kx (toy_cipher "chacha20-ietf"))) 0 toy_rnd = Ret sd /\
  exists wire ctx, send_all (fun _ => 0) buffer_zero e 100 [[1; 2; 3]; [4]] = Ret (CRYPTO_OK, wire, ctx) /\
  forall segs, concat segs = wire ->
    exists ctx', recv_all (fun _ => 0) buffer_zero sd 100 [] segs = Ret (CRYPTO_OK, concat [[1; 2; 3]; [4]], ctx').
Proof.
  apply (stream_client_to_server (fun _ => 0) (Some "chacha20-ietf"%string) _ _ [1; 2] [3; 4] [] _ _ toy_rnd toy_rnd
           [1; 2; 3] [[4]] buffer_zero buffer_zero 100 (toy_stream_configured "chacha20-ietf" eq_refl) toy_rnd_ok toy_rnd_ok).
  - by repeat constructor.
  - done.
  - done.
  - done.
  - done.
Defined.

(** C22: server to client.  A server that has finished the key exchange (its session
    keys are those of the client, crossed, and it does not announce a public key)
    sends any non-empty messages, with a cipher of libsodium at most 2 GiB in all
    ([stream_encrypt_2GiB] tells what happens beyond); the receiving context of
    the client's connection delivers exactly these bytes, in order, for every
    segmentation and whatever the size of the buffers. *)
Theorem stream_server_to_client `{P : CryptoPrims} {LP : CryptoLaws P} `{S : StreamPrims} {L : StreamLaws S} (junk : nat -> Z)
    name c cs seed seed' seed2 rx tx rnd rnd' k ms tmp tmp' capacity :
  stream_configured name c cs seed seed' rx tx -> salt_source rnd -> salt_source rnd' ->
  kx_ok k -> pk_sent k <> 0 -> kx_tx k = rx ->
  ms <> [] -> Forall (fun m => 1 <= len m) ms -> (sodium cs = true -> len (concat ms) <= 2147483647) ->
  buffer_ok tmp -> buffer_ok tmp' -> 0 < capacity ->
  exists e d se wire ctx,
    stream_new_server c seed rnd = Ret (e, d) /\ stream_ctx_init cs (Some k) 1 rnd' = Ret se /\
    send_all junk tmp se capacity ms = Ret (CRYPTO_OK, wire, ctx) /\
    forall segs, concat segs = wire ->
      exists ctx', recv_all junk tmp' d capacity seed2 segs = Ret (CRYPTO_OK, concat ms, ctx').
Proof.
  intros Hcf Hr Hr' Hk Hpks Htxk Hne Hms Hlen Ht Ht' Hcap.
  destruct (configured_suites _ _ _ _ _ _ _ Hcf) as (S1 & S2 & H1 & H2 & H3 & Hpk & _ & _ & Hrx & Htx).
  destruct (stream_new_server_ok name c cs seed seed' rx tx rnd Hcf Hr) as [Hkok Hnew]. cbv zeta in *.
  set (kc := client_kx _ _ _ _) in *. set (d := set_x_local (fresh_ctx c kc (zrep 32 0))) in *.
  eexists _, d, _. rewrite (ctx_init_stream cs k 1 rnd' S2 Hr'). cbn [Z.eqb]. fold (nonce_of cs rnd').
  set (se := fresh_ctx cs k (nonce_of cs rnd')).
  set (d' := x_set_nonce (nonce_of cs rnd') (x_set_kx kc d)).
  pose proof (len_nonce_of cs rnd' S2 Hr') as Hln. destruct (nonce_sent cs rnd' S2 Hr') as [Hns Hnw].
  destruct (sessions_ok se d') as (e0 & d0 & Hse & Hsd & Hstep); try done.
  pose proof (fresh_ok cs k (nonce_of cs rnd') S2 Hk Hln) as Hoke. fold se in Hoke.
  assert (Hokd' : xctx_ok d') by (split; cbn; try done; [apply S1|apply Hkok]).
  destruct (session_fields _ _ _ Hsd) as (F1 & F2 & F3 & F4 & _).
  destruct ms as [|m ms]; [done|].
  assert (Hex : exchange junk (first_fits cs (ctx_pk_len se) tmp capacity (len m)) se d seed2 (m :: ms) tmp tmp' capacity).
  { apply (stream_in_step_exchange junk se (x_set_init 1 (x_set_counter 0 e0)) d (x_set_init 1 (x_set_counter 0 d0)) seed2 m ms tmp tmp' capacity);
    try done; try apply S1; try apply S2.
  - exists e0. rewrite (proj2 (Z.eqb_neq (pk_sent (x_kx se)) 0)) by done. done.
  - destruct (fresh_ok c kc (zrep 32 0) S1 Hkok eq_refl). by split.
  - assert (Hpre : preamble se = rnd' (nonce_len cs)).
    { unfold preamble. rewrite (proj2 (Z.eqb_neq (pk_sent (x_kx se)) 0)) by done. cbn. by rewrite Hns. }
    split; rewrite Hpre.
    + rewrite Hr'; [cbn; lia|]. destruct S2 as [[_ ?] _ _]. lia.
    + exists kc, (nonce_of cs rnd'), d0. split; [done|]. split; [|by split_and!]. rewrite zdrop_0. exact Hnw.
  - destruct Hokd'. split; cbn; by rewrite ?F1, ?F2, ?F3.
  }
  assert (Hfit : first_fits cs (ctx_pk_len se) tmp capacity (len m) = true).
  { unfold first_fits, static_size, ctx_pk_len. rewrite (proj2 (Z.eqb_neq (pk_sent (x_kx se)) 0)) by done. pose proof (len_nonneg m).
    apply Z.leb_le. destruct (sodium cs); lia. }
  rewrite Hfit in Hex. destruct Hex as (wire & ctx & Hsend & Hrecv). exists wire, ctx. by split_and!.
Qed.

Lemma stream_server_to_client_witness : exists e d se wire ctx,
  stream_new_server (toy_cipher "rc4-md5") [1; 2] toy_rnd = Ret (e, d) /\
  stream_ctx_init (toy_cipher "rc4-md5") (Some (KxCtx 1 1 toy_pk toy_pk toy_pk (zrep 32 5) (toy_rx (pad32 [1; 2]) toy_pk))) 1 toy_rnd = Ret se /\
  send_all (fun _ => 0) buffer_zero se 100 [[1; 2; 3]; [4]] = Ret (CRYPTO_OK, wire, ctx) /\
  forall segs, concat segs = wire ->
    exists ctx', recv_all (fun _ => 0) buffer_zero d 100 [] segs = Ret (CRYPTO_OK, concat [[1; 2; 3]; [4]], ctx').
Proof.
  apply (stream_server_to_client (fun _ => 0) (Some "rc4-md5"%string) _ _ [1; 2] [3; 4] [] _ (toy_shared (pad32 [1; 2]) toy_pk) toy_rnd toy_rnd _
           [[1; 2; 3]; [4]] buffer_zero buffer_zero 100 (toy_stream_configured "rc4-md5" eq_refl) toy_rnd_ok toy_rnd_ok).
  - by vm_compute.
  - done.
  - done.
  - done.
  - by repeat constructor.
  - done.
  - done.
  - done.
  - done.
Defined.
