(* ===== verification/StreamUdp.v ===== *)
(** * stream.c: UDP packets, and two defects of [stream_encrypt] *)
From stdpp Require Import strings.
From S2P Require Import Prelude Crypto CryptoToy Aead AeadStream AeadUdp Stream StreamSpec StreamToy StreamProps.

Section udp.
Context `{P : CryptoPrims} `{S : StreamPrims} {L : StreamLaws S} (junk : nat -> Z).

(** One shot of the cipher into an array, as the two functions for packets do it. *)
Definition shot_encrypt (c : cipher_t) (ctx : stream_ctx) (data : bytes) (off : Z) (p : bytes) (n olen : Z) :
    run (Z * stream_ctx * bytes * Z) :=
  if SALSA20 <=? method c then
    data ← xor_ic data off p 0 n (x_nonce ctx) 0 (kx_tx (x_kx ctx)) (method c); mret (0, ctx, data, olen)
  else cipher_ctx_update ctx data off olen p 0 n.
Definition shot_decrypt (c : cipher_t) (ctx : stream_ctx) (rx : bytes) (data x : bytes) (ioff n olen : Z) :
    run (Z * stream_ctx * bytes * Z) :=
  if SALSA20 <=? method c then
    data ← xor_ic data 0 x ioff n (x_nonce ctx) 0 rx (method c); mret (0, ctx, data, olen)
  else cipher_ctx_update ctx data 0 olen x ioff n.

Lemma shot_encrypt_ok c e data off p m n olen y e' pre : x_cipher e = c -> xctx_ok e -> x_counter e = 0 ->
  encrypted e m = Some (y, e') -> len y = len m -> rd_range p 0 n = Ret m -> len m = n -> n <= 2147483647 -> n = olen ->
  starts_with pre data -> off = len pre -> off + n <= len data ->
  exists data' ctx, shot_encrypt c e data off p n olen = Ret (0, ctx, data', len m) /\ starts_with (pre ++ y) data' /\ len data' = len data.
Proof.
  intros <- [[Hm Hnl] Hn Hpk Htx Hrx] Hc0 He Hly Hrd <- Hmax <- Hpre -> Hoff. pose proof (len_nonneg m). pose proof (len_nonneg pre).
  unfold shot_encrypt, encrypted in *. fold (sodium (x_cipher e)). destruct (sodium (x_cipher e)) eqn:Hs.
  - injection He as <- <-. rewrite (xor_ic_ok (x_cipher e) data (len pre) p 0 (len m) (x_nonce e) 0 (kx_tx (x_kx e)) m) by (done || lia).
    rewrite Hc0 in *. destruct (wr_range_extend pre (xored (x_cipher e) (x_nonce e) (kx_tx (x_kx e)) 0 m) data (len pre) Hpre)
      as (d' & Hw & Hsw & Hl); [done|lia|]. change (64 * 0) with 0. rewrite Hw. run_simpl. by eexists _, _.
  - destruct (x_evp e) as [ev|] eqn:Hev; [|done]. destruct (cipher_update ev m) as [[y1 e1]|] eqn:Hu; [|done]. injection He as -> <-.
    unfold cipher_ctx_update. rewrite Hrd. run_simpl. rewrite Hev. run_simpl. rewrite Hu.
    destruct (wr_range_extend pre y data (len pre) Hpre) as (d' & -> & Hsw & Hl); [done|lia|]. run_simpl. rewrite Hly. by eexists _, _.
Qed.
Lemma shot_decrypt_ok c d rx data x y ioff n olen m d' : x_cipher d = c -> xctx_ok d -> x_counter d = 0 -> rx = kx_rx (x_kx d) ->
  decrypted d y = Some (m, d') -> len m = len y -> rd_range x ioff n = Ret y -> len y = n -> n <= 2147483647 -> n = olen ->
  n <= len data ->
  exists data' ctx, shot_decrypt c d rx data x ioff n olen = Ret (0, ctx, data', len y) /\ starts_with m data' /\ len data' = len data.
Proof.
  intros <- [[Hm Hnl] Hn Hpk Htx Hrx] Hc0 -> He Hly Hrd <- Hmax <- Hlen. pose proof (len_nonneg y).
  unfold shot_decrypt, decrypted in *. fold (sodium (x_cipher d)). destruct (sodium (x_cipher d)) eqn:Hs.
  - injection He as <- <-. rewrite (xor_ic_ok (x_cipher d) data 0 x ioff (len y) (x_nonce d) 0 (kx_rx (x_kx d)) y) by (done || lia).
    rewrite Hc0 in *. destruct (wr_range_extend [] (xored (x_cipher d) (x_nonce d) (kx_rx (x_kx d)) 0 y) data 0)
      as (q & Hw & Hsw & Hl); [apply starts_with_nil|done|change (len (@nil Z)) with 0; lia|].
    change (64 * 0) with 0. rewrite Hw. run_simpl. by eexists _, _.
  - destruct (x_evp d) as [ev|] eqn:Hev; [|done]. destruct (cipher_update ev y) as [[y1 e1]|] eqn:Hu; [|done]. injection He as -> <-.
    unfold cipher_ctx_update. rewrite Hrd. run_simpl. rewrite Hev. run_simpl. rewrite Hu.
    destruct (wr_range_extend [] m data 0) as (q & -> & Hsw & Hl); [apply starts_with_nil|done|change (len (@nil Z)) with 0; lia|].
    run_simpl. rewrite Hly. by eexists _, _.
Qed.

(** The packet of [stream_encrypt_all]. *)
Lemma encrypt_all_ok c k pt m tmp capacity rnd e0 y e' : suite c -> kx_ok k -> salt_source rnd ->
  session (fresh_ctx c k (nonce_of c rnd)) 1 e0 -> encrypted e0 m = Some (y, e') -> len y = len m ->
  holds pt m -> 1 <= len m <= 2147483647 -> buffer_ok tmp -> 0 < capacity ->
  exists pt' tmp', stream_encrypt_all junk pt tmp c k capacity rnd
      = Ret (CRYPTO_OK, pt', tmp', if pk_sent k =? 0 then kx_set_pk_sent 1 k else k) /\
    holds pt' ((if pk_sent k =? 0 then kx_pk k else []) ++ rnd (nonce_len c) ++ y).
Proof.
  intros Hc Hk Hr Hses He Hly Hpt Hm Ht Hcap. pose proof Hc as [[Hme Hnl] [Hrc Hkl] _]. pose proof Hk as (Hkp & Hkr & Hkt).
  unfold stream_encrypt_all. rewrite (ctx_init_stream c k 1 rnd Hc Hr). run_simpl. cbn [Z.eqb]. fold (nonce_of c rnd).
  set (ctx := fresh_ctx c k (nonce_of c rnd)) in *. pose proof (len_nonce_of c rnd Hc Hr) as Hln.
  destruct (nonce_sent c rnd Hc Hr) as [Hns _]. pose proof (fresh_ok c k (nonce_of c rnd) Hc Hk Hln) as Hok. fold ctx in Hok.
  pose proof Hpt as (Hokp & Hlp & Hsp). unfold buffer_ok in Hokp. pose proof (Hr (nonce_len c) ltac:(lia)) as Hlr.
  destruct (session_fields _ _ _ Hses) as (F1 & F2 & F3 & F4 & _).
  pose proof (set_nonce_ok ctx 1 e0 Hok Hses Hrc Hkl) as Hset. change (nonce_len (x_cipher ctx)) with (nonce_len c) in Hset.
  rewrite Hset. run_simpl.
  set (pkl := if pk_sent k =? 0 then crypto_kx_PUBLICKEYBYTES else 0).
  assert (Hpk0 : 0 <= pkl <= 32) by (unfold pkl, crypto_kx_PUBLICKEYBYTES; destruct (_ =? 0); lia).
  destruct (grow_tmp junk tmp (pkl + nonce_len c + b_len pt) capacity Ht Hcap) as (d0 & Hd0 & Hl0 & Hmax & _).
  set (g := grow junk tmp _ capacity) in *. cbn [b_data with_len]. rewrite Hd0. run_simpl.
  set (pre := if pk_sent k =? 0 then kx_pk k else []).
  assert (Hpre : exists d1, (if pk_sent k =? 0 then d ← memcpy d0 0 (kx_pk k) 0 pkl; mret (d, kx_set_pk_sent 1 k) else mret (d0, k))
      = Ret (d1, if pk_sent k =? 0 then kx_set_pk_sent 1 k else k) /\ starts_with pre d1 /\ len d1 = len d0 /\ len pre = pkl).
  { unfold pre, pkl, crypto_kx_PUBLICKEYBYTES in *. destruct (pk_sent k =? 0).
    - unfold memcpy. rewrite rd_range_front, ztake_all by lia. run_simpl.
      destruct (wr_range_extend [] (kx_pk k) d0 0) as (d1 & -> & Hs1 & Hl1);
        [apply starts_with_nil|done|change (len (@nil Z)) with 0; lia|]. run_simpl. by exists d1.
    - exists d0. by split_and!. }
  destruct Hpre as (d1 & -> & Hs1 & Hl1 & Hlpre). run_simpl. rewrite F2. cbn [x_nonce ctx fresh_ctx].
  assert (Hcp : exists d2, memcpy d1 pkl (nonce_of c rnd) 0 (nonce_len c) = Ret d2 /\
     starts_with (pre ++ rnd (nonce_len c)) d2 /\ len d2 = len d1).
  { unfold memcpy. rewrite (rd_range_front (nonce_of c rnd)) by lia. rewrite Hns. run_simpl.
    by apply wr_range_extend; [| |lia]. }
  destruct Hcp as (d2 & -> & Hs2 & Hl2). run_simpl.
  destruct (b_data pt) as [p|] eqn:Hp; [|lia]. run_simpl. cbn in Hsp.
  destruct (shot_encrypt_ok c e0 d2 (pkl + nonce_len c) p m (b_len pt) (b_len pt) y e' (pre ++ rnd (nonce_len c)))
    as (d3 & ctx3 & Hshot & Hs3 & Hl3); try done; try lia.
  - destruct Hok; split; by rewrite ?F1, ?F2, ?F3.
  - by rewrite Hlp; apply rd_range_prefix.
  - rewrite len_app. lia.
  - unfold shot_encrypt in Hshot. cbn [b_len with_len]. rewrite F3 in Hshot. rewrite F2 in Hshot.
    change (x_nonce ctx) with (nonce_of c rnd) in Hshot. rewrite ?F3, Hshot. run_simpl.
    change (negb (0 =? 0)) with false. cbv iota.
    destruct (replace_contents junk pt m ((pre ++ rnd (nonce_len c)) ++ y) d3 capacity Hpt Hcap Hs3) as (q & q' & Hq & Hcq & Hh).
    rewrite !len_app, Hlpre, Hlr, Hly in *. cbn [b_len with_len with_data b_data]. rewrite Hq. run_simpl. rewrite Hcq. run_simpl.
    eexists _, _. split; [done|]. by rewrite app_assoc.
Qed.

Lemma decrypt_all_ok c k ct n y m tmp capacity rnd d0 d' : suite c -> kx_ok k -> salt_source rnd ->
  len n = nonce_len c -> session (fresh_ctx c k (n ++ zrep (32 - nonce_len c) 0)) 0 d0 -> decrypted d0 y = Some (m, d') -> len m = len y ->
  holds ct (n ++ y) -> 1 <= len y <= 2147483647 -> buffer_ok tmp -> 0 < capacity ->
  exists ct' tmp', stream_decrypt_all junk ct tmp c k capacity rnd = Ret (CRYPTO_OK, ct', tmp', k) /\ holds ct' m.
Proof.
  intros Hc Hk Hr Hln Hses He Hly Hct Hy Ht Hcap. pose proof Hc as [[Hme Hnl] [Hrc Hkl] _]. pose proof Hk as (Hkp & Hkr & Hkt).
  pose proof Hct as (Hok & Hlc & Hs). unfold buffer_ok in Hok. rewrite len_app in Hlc.
  unfold stream_decrypt_all. rewrite (proj2 (Z.leb_gt (b_len ct) (nonce_len c))) by lia.
  rewrite (ctx_init_stream c k 0 rnd Hc Hr). run_simpl. cbn [Z.eqb].
  destruct (grow_tmp junk tmp (b_len ct) capacity Ht Hcap) as (t0 & Ht0 & Hl0 & Hmax & _).
  set (g := grow junk tmp _ capacity) in *. destruct (b_data ct) as [x|] eqn:Hx; [|lia]. run_simpl. cbn in Hs.
  assert (Hmc : memcpy (zrep 32 0) 0 x 0 (nonce_len c) = Ret (n ++ zrep (32 - nonce_len c) 0)).
  { unfold memcpy. apply starts_with_split in Hs as [r ->]. rewrite <- app_assoc.
    rewrite rd_range_front by (rewrite len_app; pose proof (len_nonneg (y ++ r)); lia). rewrite ztake_app_exact by done. run_simpl.
    rewrite wr_range_ok by (rewrite ?len_zrep; lia). rewrite ztake_0, Hln. cbn [app]. do 2 f_equal.
    unfold zdrop, zrep. rewrite drop_replicate. f_equal. lia. }
  cbn [x_nonce fresh_ctx]. rewrite Hmc. run_simpl.
  set (nn := n ++ _) in *. change (x_set_nonce nn (fresh_ctx c k (zrep 32 0))) with (fresh_ctx c k nn).
  set (ctx := fresh_ctx c k nn) in *.
  assert (Hlnn : len nn = 32) by (unfold nn; rewrite len_app, len_zrep; lia).
  pose proof (fresh_ok c k nn Hc Hk Hlnn) as Hokc. fold ctx in Hokc. destruct (session_fields _ _ _ Hses) as (F1 & F2 & F3 & F4 & _).
  pose proof (set_nonce_ok ctx 0 d0 Hokc Hses Hrc Hkl) as Hset. change (nonce_len (x_cipher ctx)) with (nonce_len c) in Hset.
  rewrite Hset. run_simpl. cbn [b_data b_len with_len]. rewrite Ht0. run_simpl.
  destruct (shot_decrypt_ok c d0 (kx_rx k) t0 x y (nonce_len c) (b_len ct - nonce_len c) (b_len ct - nonce_len c) m d')
    as (p & ctx2 & Hshot & Hsp & Hlp); try done; try lia.
  - destruct Hokc; split; by rewrite ?F1, ?F2, ?F3.
  - by rewrite F3.
  - apply starts_with_split in Hs as [r ->]. rewrite <- app_assoc. apply rd_range_mid; lia.
  - unfold shot_decrypt in Hshot. rewrite Hshot. run_simpl. change (negb (0 =? 0)) with false. cbv iota.
    destruct (replace_contents junk ct _ m p capacity Hct Hcap Hsp) as (q & q' & Hq & Hcq & Hh).
    rewrite Hly in *. rewrite Hq. run_simpl. rewrite Hcq. run_simpl. by eexists _, _.
Qed.
End udp.

(** UDP.  A packet sealed by [stream_encrypt_all] is the public key, unless it
    was sent before, then the nonce and the ciphertext; a peer of the same suite
    whose receiving key is the sender's sending key gets the message back with
    [stream_decrypt_all] from what follows the public key. *)
Theorem stream_udp_roundtrip `{P : CryptoPrims} `{S : StreamPrims} {L : StreamLaws S} (junk : nat -> Z)
    name pk sk pk' sk' c cs k k' pt m tmp tmp' capacity rnd rnd' :
  stream_init (Some pk) (Some sk) name = Ret (Some c) -> stream_init (Some pk') (Some sk') name = Ret (Some cs) ->
  kx_ok k -> kx_ok k' -> kx_tx k = kx_rx k' -> salt_source rnd -> salt_source rnd' ->
  holds pt m -> 1 <= len m <= 2147483647 -> buffer_ok tmp -> buffer_ok tmp' -> 0 < capacity ->
  exists pt' t1 k1 body,
    stream_encrypt_all junk pt tmp c k capacity rnd = Ret (CRYPTO_OK, pt', t1, k1) /\ pk_sent k1 <> 0 /\
    holds pt' ((if pk_sent k =? 0 then kx_pk k else []) ++ body) /\
    forall ct, holds ct body -> exists ct' t2, stream_decrypt_all junk ct tmp' cs k' capacity rnd' = Ret (CRYPTO_OK, ct', t2, k') /\
      holds ct' m.
Proof.
  intros Hi Hi' Hk Hk' Hkx Hr Hr' Hpt Hm Ht Ht' Hcap.
  destruct (stream_init_same _ _ _ _ _ _ _ Hi Hi') as (H1 & H2 & H3).
  destruct (stream_init_ok _ _ _ _ Hi) as (S1 & _). destruct (stream_init_ok _ _ _ _ Hi') as (S2 & _).
  pose proof (len_nonce_of c rnd S1 Hr) as Hln.
  set (e := fresh_ctx c k (nonce_of c rnd)). set (d := fresh_ctx cs k' (nonce_of c rnd)).
  destruct (sessions_ok e d) as (e0 & d0 & Hse & Hsd & Hstep); try done; [apply Hk'|].
  destruct (in_step_total _ _ m Hstep) as (y & e' & He & Hly).
  assert (Hstep0 : in_step e0 d0).
  { destruct (session_fields _ _ _ Hse) as (F1 & F2 & F3 & F4 & _), (session_fields _ _ _ Hsd) as (G1 & G2 & G3 & G4 & _).
    destruct Hstep as [Hmm Hst]. split; [done|]. cbn in Hst. destruct (sodium (x_cipher e0)); [|done].
    destruct Hst as (A & _ & B). split_and!; try done. by rewrite F4, G4. }
  destruct (in_step_total _ _ m Hstep0) as (y0 & e1 & He0 & Hly0). rewrite <- (app_nil_r m) in He0.
  destruct (in_step_cut _ _ _ _ _ _ Hstep0 He0) as (c1 & c2 & e2 & d1 & _ & Hl1 & Hee & _ & Hdd & _).
  destruct (encrypt_all_ok junk c k pt m tmp capacity rnd e0 c1 e2 S1 Hk Hr Hse Hee Hl1 Hpt Hm Ht Hcap) as (pt' & t1 & Henc & Hpt').
  exists pt', t1, (if pk_sent k =? 0 then kx_set_pk_sent 1 k else k), (rnd (nonce_len c) ++ c1). split; [done|]. split.
  { destruct (Z.eqb_spec (pk_sent k) 0); done. }
  split; [done|]. intros ct Hct.
  pose proof (Hr (nonce_len c) (ltac:(destruct S1 as [[_ ?] _ _]; lia))) as Hlr.
  destruct (decrypt_all_ok junk cs k' ct (rnd (nonce_len c)) c1 m tmp' capacity rnd' d0 d1) as (ct' & t2 & Hdec & Hct'); try done; try lia.
  - unfold d, nonce_of in Hsd. by rewrite <- H2.
  - by exists ct', t2.
Qed.

Lemma stream_udp_roundtrip_witness :
  exists pt' t1 k1 body,
    stream_encrypt_all (fun _ => 0) (buffer_of [1; 2; 3]) buffer_zero (toy_cipher "rc4-md5") (KxCtx 0 1 toy_pk toy_pk toy_pk toy_pk (zrep 32 9)) 100 toy_rnd
      = Ret (CRYPTO_OK, pt', t1, k1) /\ pk_sent k1 <> 0 /\
    holds pt' ((if 0 =? 0 then toy_pk else []) ++ body) /\
    forall ct, holds ct body -> exists ct' t2,
      stream_decrypt_all (fun _ => 0) ct buffer_zero (toy_cipher "rc4-md5") (KxCtx 1 1 toy_pk toy_pk toy_pk (zrep 32 9) toy_pk) 100 toy_rnd
        = Ret (CRYPTO_OK, ct', t2, KxCtx 1 1 toy_pk toy_pk toy_pk (zrep 32 9) toy_pk) /\ holds ct' [1; 2; 3].
Proof.
  apply (stream_udp_roundtrip (fun _ => 0) (Some "rc4-md5"%string) toy_pk toy_pk toy_pk toy_pk _ _
    (KxCtx 0 1 toy_pk toy_pk toy_pk toy_pk (zrep 32 9))); done || exact toy_rnd_ok || apply holds_buffer_of.
Defined.

(** ** Two defects of [stream_encrypt] *)

Section defects.
Context `{P : CryptoPrims} `{S : StreamPrims} {L : StreamLaws S} (junk : nat -> Z).

(** The padding of a libsodium cipher is computed on the counter as an [int]: in
    the upper half of every 4 GiB of a session it is negative.  A message at least as
    long is moved to before the start of its buffer; for a shorter one the sum of
    the padding and its length wraps around as [size_t], and the process exits for
    want of memory. *)
Lemma negative_padding pt m ct capacity counter nonce key mth : holds pt m -> b_len ct = len m -> 1 <= len m <= PTRDIFF_MAX / 2 -> 0 < capacity ->
  2147483648 <= counter mod 4294967296 -> counter mod 64 <> 0 ->
  padded_xor junk pt ct 0 (Z.rem (s32 counter) SODIUM_BLOCK_SIZE) capacity nonce counter key mth
  = Fail (if len m <? 64 - counter mod 64 then Exited else OutOfBounds).
Proof.
  intros Hpt Hct Hm Hcap Hc Hmod. pose proof Hpt as (_ & Hpl & _).
  assert (Hs : Z.rem (s32 counter) SODIUM_BLOCK_SIZE = counter mod 64 - 64).
  { unfold s32, SODIUM_BLOCK_SIZE. clear -Hc Hmod. Z.to_euclidean_division_equations. lia. }
  rewrite Hs. pose proof (Z.mod_pos_bound counter 64 ltac:(lia)) as Hp. set (pad := counter mod 64 - 64).
  replace (64 - counter mod 64) with (- pad) by lia. assert (Hpad : -64 < pad < 0) by lia. clearbody pad.
  change (PTRDIFF_MAX / 2) with 4611686018427387903 in Hm.
  unfold padded_xor. rewrite Hct. destruct (Z.ltb_spec (len m) (- pad)) as [Hlt|Hge].
  - by rewrite (brealloc_size_wraps junk ct) by lia.
  - rewrite (brealloc_size_ok junk ct) by (unfold PTRDIFF_MAX; lia). run_simpl.
    rewrite (proj2 (Z.eqb_neq pad 0)) by lia. cbn [negb].
    rewrite (brealloc_size_ok junk pt) by (unfold PTRDIFF_MAX; lia). run_simpl.
    destruct (grow_spec junk pt m (b_len pt + pad) capacity Hpt Hcap) as [(_ & Hl & Hst) (d & Hd & _)].
    rewrite Hd in Hst |- *. run_simpl. cbn in Hst. rewrite Hl.
    unfold memcpy. rewrite (rd_range_prefix m d) by done. run_simpl. by rewrite wr_range_beyond by lia.
Qed.

End defects.

(** C38: the 2 GiB defect.  A session of a libsodium cipher whose counter lies in the
    upper half of a 4 GiB range, not on a block, ends at its next message: a
    message that reaches to the next block boundary of the key stream is written before the start of
    the plaintext buffer, a shorter one makes the process exit. *)
Theorem stream_encrypt_2GiB `{P : CryptoPrims} `{S : StreamPrims} {L : StreamLaws S} (junk : nat -> Z)
    (ctx : stream_ctx) pt m tmp capacity :
  x_init ctx <> 0 -> SALSA20 <= method (x_cipher ctx) ->
  2147483648 <= x_counter ctx mod 4294967296 -> x_counter ctx mod 64 <> 0 ->
  holds pt m -> 1 <= len m <= PTRDIFF_MAX / 2 -> buffer_ok tmp -> 0 < capacity ->
  stream_encrypt junk pt tmp ctx capacity = Fail (if len m <? 64 - x_counter ctx mod 64 then Exited else OutOfBounds).
Proof.
  intros Hi Hs Hc Hmod Hpt Hm Ht Hcap. unfold stream_encrypt. rewrite (proj2 (Z.eqb_neq _ _) Hi). pose proof Hpt as (_ & Hpl & _).
  destruct (grow_tmp junk tmp (0 + b_len pt) capacity Ht Hcap) as (d & Hd & _). cbn [b_data with_len]. rewrite Hd. run_simpl.
  rewrite (proj2 (Z.leb_le SALSA20 _)) by done. cbv zeta. change (0 + 0) with 0. by rewrite (negative_padding junk pt m).
Qed.
(** The counter is 2^31 + 1: one byte is short of the boundary, 63 reach it. *)
Lemma stream_encrypt_2GiB_witness :
  stream_encrypt (fun _ => 0) (buffer_of [1]) buffer_zero
    (SCtx _ 1 1 2147483649 None (toy_cipher "chacha20") None kx_zero (zrep 32 0)) 100 = Fail Exited /\
  stream_encrypt (fun _ => 0) (buffer_of (zrep 63 1)) buffer_zero
    (SCtx _ 1 1 2147483649 None (toy_cipher "chacha20") None kx_zero (zrep 32 0)) 100 = Fail OutOfBounds.
Proof.
  split.
  - apply (stream_encrypt_2GiB (fun _ => 0) (SCtx _ 1 1 2147483649 None (toy_cipher "chacha20") None kx_zero (zrep 32 0)) (buffer_of [1]) [1]);
      done || apply holds_buffer_of.
  - apply (stream_encrypt_2GiB (fun _ => 0) (SCtx _ 1 1 2147483649 None (toy_cipher "chacha20") None kx_zero (zrep 32 0)) (buffer_of (zrep 63 1)) (zrep 63 1));
      done || apply holds_buffer_of.
Defined.

(** The overflow of the first message.  [stream_encrypt] sizes its static buffer
    before it knows that it will also send the public key: with a cipher of mbed TLS,
    a first message that leaves less than 32 bytes for the key in the buffer is
    written beyond its end. *)
Theorem stream_encrypt_overflow `{P : CryptoPrims} `{S : StreamPrims} {L : StreamLaws S} (junk : nat -> Z)
    (ctx ctx1 e' : stream_ctx) pt m c capacity :
  xctx_ok ctx -> key_ok (x_cipher ctx) -> sodium (x_cipher ctx) = false -> x_init ctx = 0 -> pk_sent (x_kx ctx) = 0 ->
  started ctx ctx1 -> encrypted ctx1 m = Some (c, e') -> len c = len m -> holds pt m -> 1 <= len m ->
  0 < capacity < 32 + nonce_len (x_cipher ctx) + len m ->
  stream_encrypt junk pt buffer_zero ctx capacity = Fail OutOfBounds.
Proof.
  intros Hok Hkey Hs Hi Hpk Hst He Hlc Hpt Hm Hcap. pose proof Hok as [[_ Hnl] _ _ _ _].
  apply (stream_encrypt_beyond junk ctx ctx1 m c e'); try done; [lia|].
  unfold first_fits, static_size, ctx_pk_len. rewrite Hs, Hpk. cbn [Z.eqb b_capacity buffer_zero]. apply Z.leb_gt. lia.
Qed.

Definition toy_first : stream_ctx :=
  fresh_ctx (toy_cipher "aes-128-cfb") (KxCtx 0 1 toy_pk toy_pk toy_pk toy_pk toy_pk) (zrep 32 0).
Definition toy_keyed : stream_ctx :=
  x_set_evp (Some ((zrep 16 0 ++ ztake 16 toy_pk, 0) : @mbed_evp toy_stream)) (x_set_kx (kx_set_pk_sent 1 (x_kx toy_first)) toy_first).
Lemma stream_encrypt_overflow_witness :
  stream_encrypt (fun _ => 0) (buffer_of (zrep 40 1)) buffer_zero toy_first 80 = Fail OutOfBounds.
Proof.
  apply (stream_encrypt_overflow (fun _ => 0) toy_first (x_set_init 1 (x_set_counter 0 toy_keyed))
           (x_set_init 1 (x_set_counter 0 (x_set_evp (Some ((zrep 16 0 ++ ztake 16 toy_pk, 40) : @mbed_evp toy_stream)) toy_keyed)))
           (buffer_of (zrep 40 1)) (zrep 40 1)
           (imap (fun i b => Z.lxor b (toy_ks 0 [] (zrep 16 0 ++ ztake 16 toy_pk) (0 + Z.of_nat i))) (zrep 40 1)));
    try done; try apply holds_buffer_of.
  exists toy_keyed. split; [|done]. unfold session. exists (([], 0) : @mbed_evp toy_stream), ((zrep 16 0 ++ ztake 16 toy_pk, 0) : @mbed_evp toy_stream).
  split; [reflexivity|]. split; reflexivity.
Defined.
