(* ===== verification/Inet.v ===== *)
(** * Internet headers and checksums ([misc/ipv4_proto.h], [misc/ipv6_proto.h],
    [misc/udp_proto.h], [misc/byteorder.h], [misc/read_write_int.h])

    A header struct is a record of the numbers the C program holds in its
    fields on the little-endian target; [*_mem] is the struct in memory, which
    is what the checksum loops walk over with [char *].  A pointer into a packet
    is the part of the packet from there on. *)
From S2P Require Import Prelude.

(** ** Byte order *)

(** [badvpn_reverse16]/[32], through the bytes of the number in memory. *)
Definition badvpn_reverse16 (x : Z) : Z := of_le (rev (le16 x)).
Definition badvpn_reverse32 (x : Z) : Z := of_le (rev (le32 x)).

Definition hton16 (x : Z) : Z := badvpn_reverse16 x.
Definition hton32 (x : Z) : Z := badvpn_reverse32 x.
Definition ntoh16 (x : Z) : Z := hton16 x.
Definition ntoh32 (x : Z) : Z := hton32 x.

Definition badvpn_read_be16 (mem : bytes) (i : Z) : run Z :=
  p0 ← rd mem i; p1 ← rd mem (i + 1); Ret (u16 (Z.lor (Z.shiftl p0 8) p1)).

(** ** IPv4 *)

Definition IPV4_PROTOCOL_UDP : Z := 17.

Record ipv4_header := Ipv4Header {
  version4_ihl4 : Z; ds : Z; total_length : Z;
  identification : Z; flags3_fragmentoffset13 : Z;
  ttl : Z; protocol : Z; ip_checksum : Z;
  source_address : Z; destination_address : Z }.

Definition sizeof_ipv4_header : Z := 20.

Definition ipv4_header_mem (h : ipv4_header) : bytes :=
  [version4_ihl4 h; ds h] ++ le16 (total_length h) ++ le16 (identification h) ++
  le16 (flags3_fragmentoffset13 h) ++ [ttl h; protocol h] ++ le16 (ip_checksum h) ++
  le32 (source_address h) ++ le32 (destination_address h).

(** [memcpy(out_header, data, sizeof( *out_header))]. *)
Definition ipv4_header_of (m : bytes) : option ipv4_header :=
  match m with
  | [v; d; t0; t1; i0; i1; f0; f1; l; p; c0; c1; s0; s1; s2; s3; d0; d1; d2; d3] =>
      Some (Ipv4Header v d (of_le [t0; t1]) (of_le [i0; i1]) (of_le [f0; f1]) l p
              (of_le [c0; c1]) (of_le [s0; s1; s2; s3]) (of_le [d0; d1; d2; d3]))
  | _ => None
  end.

Definition set_ip_checksum (c : Z) (h : ipv4_header) : ipv4_header :=
  Ipv4Header (version4_ihl4 h) (ds h) (total_length h) (identification h)
    (flags3_fragmentoffset13 h) (ttl h) (protocol h) c (source_address h) (destination_address h).

Definition IPV4_GET_VERSION (h : ipv4_header) : Z := Z.shiftr (Z.land (version4_ihl4 h) 0xF0) 4.
Definition IPV4_GET_IHL (h : ipv4_header) : Z := Z.shiftr (Z.land (version4_ihl4 h) 0x0F) 0.
Definition IPV4_MAKE_VERSION_IHL (size : Z) : Z := size `quot` 4 + Z.shiftl 4 4.

(** [for (i = 0; i < n; i++) t += badvpn_read_be16(mem + 2 * i);] on a [uint32_t] [t]. *)
Fixpoint add_words (n : nat) (i : Z) (mem : bytes) (t : Z) : run Z :=
  match n with
  | O => Ret t
  | S n => w ← badvpn_read_be16 mem (2 * i); add_words n (i + 1) mem (u32 (t + w))
  end.

(** [while (t >> 16) t = (t & 0xFFFF) + (t >> 16);] *)
Fixpoint fold_carries (fuel : nat) (t : Z) : run Z :=
  if Z.shiftr t 16 =? 0 then Ret t
  else match fuel with
       | O => Fail OutOfFuel
       | S fuel => fold_carries fuel (u32 (Z.land t 0xFFFF + Z.shiftr t 16))
       end.

(** Two rounds are enough for any 32-bit [t] ([fold_carries_32]). *)
Definition carry_rounds : nat := 2.

(** [~t], kept as a [uint32_t] and passed to a [uint16_t] parameter. *)
Definition not16 (t : Z) : Z := u16 (u32 (Z.lnot t)).

Definition ipv4_checksum (header : ipv4_header) (extra : bytes) (extra_len : Z) : run Z :=
  _ ← check (extra_len mod 2 =? 0);
  t ← add_words (Z.to_nat (sizeof_ipv4_header `quot` 2)) 0 (ipv4_header_mem header) 0;
  t ← add_words (Z.to_nat (extra_len `quot` 2)) 0 extra t;
  t ← fold_carries carry_rounds t;
  Ret (hton16 (not16 t)).

(** [ipv4_check(data, data_len, ...)]: [None] for the return value 0, otherwise
    the header, the payload pointer and the payload length.  The out parameters
    are read by callers only after the return value 1. *)
Definition ipv4_check (data : bytes) (data_len : Z) : run (option (ipv4_header * bytes * Z)) :=
  _ ← check (0 <=? data_len);
  if data_len <? sizeof_ipv4_header then Ret None else
  m ← rd_range data 0 sizeof_ipv4_header;
  out_header ← deref (ipv4_header_of m);
  if negb (IPV4_GET_VERSION out_header =? 4) then Ret None else
  let header_len := u16 (IPV4_GET_IHL out_header * 4) in
  if header_len <? sizeof_ipv4_header then Ret None else
  if header_len >? data_len then Ret None else
  let total_length := ntoh16 (total_length out_header) in
  if total_length <? header_len then Ret None else
  if total_length >? data_len then Ret None else
  let checksum_in_packet := ip_checksum out_header in
  let out_header := set_ip_checksum (hton16 0) out_header in
  checksum_computed ← ipv4_checksum out_header (zdrop sizeof_ipv4_header data)
                        (u16 (header_len - sizeof_ipv4_header));
  let out_header := set_ip_checksum checksum_in_packet out_header in
  if negb (checksum_in_packet =? checksum_computed) then Ret None else
  Ret (Some (out_header, zdrop header_len data, total_length - header_len)).

(** ** IPv6 *)

Definition IPV6_NEXT_UDP : Z := 17.
Definition sizeof_ipv6_header : Z := 40.

Record ipv6_header := Ipv6Header {
  version4_tc4 : Z; tc4_fl4 : Z; fl : Z; payload_length : Z;
  next_header : Z; hop_limit : Z;
  source_address6 : bytes; destination_address6 : bytes }.

Definition ipv6_header_mem (h : ipv6_header) : bytes :=
  [version4_tc4 h; tc4_fl4 h] ++ le16 (fl h) ++ le16 (payload_length h) ++
  [next_header h; hop_limit h] ++ source_address6 h ++ destination_address6 h.

Definition ipv6_header_of (m : bytes) : option ipv6_header :=
  match m with
  | v :: t :: f0 :: f1 :: p0 :: p1 :: n :: h :: addrs =>
      Some (Ipv6Header v t (of_le [f0; f1]) (of_le [p0; p1]) n h (ztake 16 addrs) (zdrop 16 addrs))
  | _ => None
  end.

Definition ipv6_check (data : bytes) (data_len : Z) : run (option (ipv6_header * bytes * Z)) :=
  _ ← check (0 <=? data_len);
  if data_len <? sizeof_ipv6_header then Ret None else
  m ← rd_range data 0 sizeof_ipv6_header;
  out_header ← deref (ipv6_header_of m);
  if negb (Z.shiftr (version4_tc4 out_header) 4 =? 6) then Ret None else
  let payload_length := ntoh16 (payload_length out_header) in
  if payload_length >? data_len - sizeof_ipv6_header then Ret None else
  Ret (Some (out_header, zdrop sizeof_ipv6_header data, payload_length)).

(** ** UDP *)

Record udp_header := UdpHeader { source_port : Z; dest_port : Z; udp_length : Z; udp_cksum : Z }.
Definition sizeof_udp_header : Z := 8.

Definition udp_header_mem (h : udp_header) : bytes :=
  le16 (source_port h) ++ le16 (dest_port h) ++ le16 (udp_length h) ++ le16 (udp_cksum h).

Definition udp_header_of (m : bytes) : option udp_header :=
  match m with
  | [s0; s1; d0; d1; l0; l1; c0; c1] =>
      Some (UdpHeader (of_le [s0; s1]) (of_le [d0; d1]) (of_le [l0; l1]) (of_le [c0; c1]))
  | _ => None
  end.

Definition set_udp_cksum (c : Z) (h : udp_header) : udp_header :=
  UdpHeader (source_port h) (dest_port h) (udp_length h) c.

Definition udp_checksum_summer (data : bytes) (len : Z) : run Z :=
  _ ← check (len mod 2 =? 0); add_words (Z.to_nat (len `quot` 2)) 0 data 0.

(** The part of [udp_checksum] and [udp_ip6_checksum] after the pseudo header. *)
Definition udp_checksum_rest (header : udp_header) (payload : bytes) (payload_len t : Z) : run Z :=
  s ← udp_checksum_summer (udp_header_mem header) sizeof_udp_header;
  let t := u32 (t + s) in
  t ← (if payload_len mod 2 =? 0 then
         s ← udp_checksum_summer payload payload_len; Ret (u32 (t + s))
       else
         s ← udp_checksum_summer payload (u16 (payload_len - 1));
         let t := u32 (t + s) in
         last ← rd payload (payload_len - 1);
         s ← udp_checksum_summer (le16 (hton16 (u16 (Z.shiftl last 8)))) 2;
         Ret (u32 (t + s)));
  t ← fold_carries carry_rounds t;
  let t := if t =? 0 then 65535 else t in
  Ret (hton16 (not16 t)).

Definition udp_checksum (header : udp_header) (payload : bytes) (payload_len source_addr dest_addr : Z) : run Z :=
  s ← udp_checksum_summer (le32 source_addr) 4;
  let t := u32 (0 + s) in
  s ← udp_checksum_summer (le32 dest_addr) 4;
  let t := u32 (t + s) in
  s ← udp_checksum_summer (le16 (hton16 IPV4_PROTOCOL_UDP)) 2;
  let t := u32 (t + s) in
  s ← udp_checksum_summer (le16 (hton16 (u16 (sizeof_udp_header + payload_len)))) 2;
  let t := u32 (t + s) in
  udp_checksum_rest header payload payload_len t.

Definition udp_ip6_checksum (header : udp_header) (payload : bytes) (payload_len : Z)
    (source_addr dest_addr : bytes) : run Z :=
  s ← udp_checksum_summer source_addr 16;
  let t := u32 (0 + s) in
  s ← udp_checksum_summer dest_addr 16;
  let t := u32 (t + s) in
  s ← udp_checksum_summer (le32 (hton32 (u32 (sizeof_udp_header + payload_len)))) 4;
  let t := u32 (t + s) in
  s ← udp_checksum_summer (le32 (hton32 IPV6_NEXT_UDP)) 4;
  let t := u32 (t + s) in
  udp_checksum_rest header payload payload_len t.

Definition udp_check (data : bytes) (data_len : Z) : run (option (udp_header * bytes * Z)) :=
  _ ← check (0 <=? data_len);
  if data_len <? sizeof_udp_header then Ret None else
  m ← rd_range data 0 sizeof_udp_header;
  out_header ← deref (udp_header_of m);
  let data := zdrop sizeof_udp_header data in
  let data_len := data_len - sizeof_udp_header in
  let length := ntoh16 (udp_length out_header) in
  if length <? sizeof_udp_header then Ret None else
  if length >? sizeof_udp_header + data_len then Ret None else
  Ret (Some (out_header, data, length - sizeof_udp_header)).

(** ** One's-complement sums (RFC 1071)

    [words m] is the sum of the 16-bit big-endian words of [m], an odd last byte
    padded with zero, and [ones s] is [s] folded to 16 bits with end-around
    carry.  The loops above compute them. *)
Fixpoint words (m : bytes) : Z :=
  match m with
  | [] => 0
  | [a] => a * 256
  | a :: b :: m => a * 256 + b + words m
  end.

Definition ones (s : Z) : Z := if s =? 0 then 0 else (s - 1) mod 65535 + 1.

Lemma words_bound_nat n : forall m, (length m <= n)%nat -> bytes_ok m ->
  0 <= words m <= 65535 * ((len m + 1) / 2).
Proof.
  unfold bytes_ok, byte_ok.
  induction n as [|n IH]; intros [|a [|b m]] Hn Hm; simpl in Hn;
    rewrite ?Forall_cons_iff in Hm; try lia; try (by vm_compute).
  - change (len [a]) with 1. change ((1 + 1) / 2) with 1. destruct Hm as [Ha _]. simpl. lia.
  - destruct Hm as (Ha & Hb & Hm'').
    destruct (IH m) as [H0 H1]; [lia|done|]. rewrite !len_cons.
    replace ((1 + (1 + len m) + 1) / 2) with (1 + (len m + 1) / 2)
      by (Z.to_euclidean_division_equations; lia).
    cbn [words]. lia.
Qed.
Lemma words_bound m : bytes_ok m -> 0 <= words m <= 65535 * ((len m + 1) / 2).
Proof. by apply (words_bound_nat (length m)). Qed.

Lemma words_app_nat n : forall m k, (length m <= n)%nat -> len m mod 2 = 0 -> words (m ++ k) = words m + words k.
Proof.
  induction n as [|n IH]; intros [|a [|b m]] k Hn Hm; simpl in Hn; try done; try lia.
  rewrite !len_cons in Hm. cbn [words app]. rewrite IH; [lia|lia|].
  Z.to_euclidean_division_equations; lia.
Qed.
Lemma words_app m k : len m mod 2 = 0 -> words (m ++ k) = words m + words k.
Proof. by apply (words_app_nat (length m)). Qed.

Lemma ones_unique s r : 0 <= s -> 0 <= r <= 65535 -> (r = 0 <-> s = 0) -> (s - r) mod 65535 = 0 -> r = ones s.
Proof.
  intros Hs Hr H0 Hm. unfold ones. destruct (Z.eqb_spec s 0) as [->|Hne]; [by apply H0|].
  assert (r <> 0) by (intros E; by apply Hne, H0).
  apply Z.mod_divide in Hm as [q Hq]; [|lia].
  rewrite <- (Z.mod_unique_pos (s - 1) 65535 q (r - 1)); lia.
Qed.
Lemma ones_range s : 0 <= s -> 0 <= ones s <= 65535.
Proof. intros. unfold ones. zcase; [lia|]. pose proof (Z.mod_pos_bound (s - 1) 65535). lia. Qed.
Lemma ones_pos s : 0 < s -> 0 < ones s.
Proof. intros. unfold ones. zcase; [lia|]. pose proof (Z.mod_pos_bound (s - 1) 65535). lia. Qed.

Lemma ones_step t : 0 <= t -> ones (t mod 65536 + t / 65536) = ones t.
Proof.
  intros. symmetry. pose proof (Z.mod_pos_bound t 65536). pose proof (Z.div_mod t 65536).
  assert (0 <= t / 65536) by (apply Z.div_pos; lia).
  destruct (ones_range (t mod 65536 + t / 65536)); [lia|].
  symmetry. apply ones_unique; [lia|lia| |].
  - split; intros E.
    + destruct (Z.eq_dec (t mod 65536 + t / 65536) 0) as [|Hne]; [lia|].
      pose proof (ones_pos (t mod 65536 + t / 65536)). lia.
    + by subst.
  - unfold ones. zcase.
    + replace t with 0 by lia. done.
    + set (u := t mod 65536 + t / 65536) in *. pose proof (Z.div_mod (u - 1) 65535).
      apply Z.mod_divide; [lia|]. exists (t / 65536 + (u - 1) / 65535). lia.
Qed.

Lemma ones_small t : 0 <= t <= 65535 -> ones t = t.
Proof. intros. symmetry. apply ones_unique; [lia|lia|done|]. by rewrite Z.sub_diag. Qed.

(** The carry loop ends within [carry_rounds] rounds and computes [ones]. *)
Lemma fold_carries_step fuel t : 65536 <= t < 4294967296 ->
  fold_carries (S fuel) t = fold_carries fuel (t mod 65536 + t / 65536).
Proof.
  intros. cbn [fold_carries]. rewrite shiftr_div by lia. change (2 ^ 16) with 65536.
  assert (1 <= t / 65536 <= 65535) by (Z.to_euclidean_division_equations; lia).
  pose proof (Z.mod_pos_bound t 65536). ztest.
  change 65535 with (Z.ones 16) at 1. rewrite land_ones_mod by lia. change (2 ^ 16) with 65536.
  by rewrite u32_small by lia.
Qed.
Lemma fold_carries_done fuel t : 0 <= t < 65536 -> fold_carries fuel t = Ret t.
Proof.
  intros. destruct fuel; cbn [fold_carries]; rewrite shiftr_div by lia; change (2 ^ 16) with 65536;
    rewrite Z.div_small by lia; done.
Qed.
Lemma fold_carries_32 t : 0 <= t < 4294967296 -> fold_carries carry_rounds t = Ret (ones t).
Proof.
  intros Ht. unfold carry_rounds.
  destruct (Z.lt_ge_cases t 65536); [rewrite fold_carries_done, ones_small by lia; done|].
  rewrite fold_carries_step by lia. rewrite <- (ones_step t) by lia.
  set (u := t mod 65536 + t / 65536).
  assert (0 <= u < 131071) by (unfold u; Z.to_euclidean_division_equations; lia).
  destruct (Z.lt_ge_cases u 65536); [rewrite fold_carries_done, ones_small by lia; done|].
  rewrite fold_carries_step by lia. rewrite <- (ones_step u) by lia.
  set (v := u mod 65536 + u / 65536).
  assert (0 <= v < 65536) by (unfold v; Z.to_euclidean_division_equations; lia).
  by rewrite fold_carries_done, ones_small by lia.
Qed.

Lemma not16_ok t : 0 <= t <= 65535 -> not16 t = 65535 - t.
Proof. intros. unfold not16, u16, u32. unfold Z.lnot. Z.to_euclidean_division_equations. lia. Qed.

(** ** What the loops and the byte swaps compute *)

Lemma hton16_mem x : 0 <= x < 65536 -> le16 (hton16 x) = be16 x.
Proof.
  intros. unfold hton16, badvpn_reverse16, le16, be16. cbn [rev app of_le].
  rewrite !shiftr_div by lia. change (2 ^ 8) with 256.
  rewrite (Z.mod_small (x / 256)) by (Z.to_euclidean_division_equations; lia).
  f_equal; [|f_equal]; Z.to_euclidean_division_equations; lia.
Qed.
Lemma hton16_range x : 0 <= hton16 x < 65536.
Proof. unfold hton16, badvpn_reverse16, le16. cbn [rev app of_le]. Z.to_euclidean_division_equations. lia. Qed.
Lemma hton16_involutive x : 0 <= x < 65536 -> ntoh16 (hton16 x) = x.
Proof.
  intros. unfold ntoh16. unfold hton16 at 1, badvpn_reverse16. rewrite hton16_mem by done.
  unfold be16. cbn [rev app of_le]. rewrite !shiftr_div by lia. change (2 ^ 8) with 256.
  Z.to_euclidean_division_equations. lia.
Qed.
Lemma le16_of_le a b : byte_ok a -> byte_ok b -> le16 (of_le [a; b]) = [a; b].
Proof.
  unfold byte_ok, le16. intros. cbn [of_le]. rewrite !shiftr_div by lia. change (2 ^ 8) with 256.
  f_equal; [|f_equal]; Z.to_euclidean_division_equations; lia.
Qed.
Lemma le32_of_le a b c d : byte_ok a -> byte_ok b -> byte_ok c -> byte_ok d ->
  le32 (of_le [a; b; c; d]) = [a; b; c; d].
Proof.
  unfold byte_ok, le32. intros. cbn [of_le]. rewrite !shiftr_div by lia.
  change (2 ^ 8) with 256. change (2 ^ 16) with 65536. change (2 ^ 24) with 16777216.
  f_equal; [|f_equal; [|f_equal; [|f_equal]]]; Z.to_euclidean_division_equations; lia.
Qed.
Lemma hton32_mem x : le32 (hton32 x) = be32 x.
Proof. apply (le32_of_le _ _ _ _ (byte_ok_mod _) (byte_ok_mod _) (byte_ok_mod _) (byte_ok_mod _)). Qed.
Lemma bytes_ok_le16 z : bytes_ok (le16 z).
Proof. repeat constructor; apply byte_ok_mod. Qed.
Lemma bytes_ok_le32 z : bytes_ok (le32 z).
Proof. repeat constructor; apply byte_ok_mod. Qed.
Lemma words_be16 x : 0 <= x < 65536 -> words (be16 x) = x.
Proof.
  intros. unfold be16. cbn [words]. rewrite shiftr_div by lia. change (2 ^ 8) with 256.
  Z.to_euclidean_division_equations. lia.
Qed.
#[export] Hint Resolve bytes_ok_le16 bytes_ok_le32 : arr.

Lemma read_be16_ok a b m k i : i = len k -> byte_ok a -> byte_ok b ->
  badvpn_read_be16 (k ++ a :: b :: m) i = Ret (a * 256 + b).
Proof.
  intros -> Ha Hb. unfold badvpn_read_be16. rewrite (rd_app_exact k a (b :: m) (len k)) by done. run_simpl.
  change (k ++ a :: b :: m) with (k ++ [a] ++ b :: m). rewrite app_assoc, (rd_app_exact (k ++ [a]) b m) by (len_norm; lia). run_simpl.
  unfold byte_ok in *. rewrite Z.lor_comm, lor_shiftl_add by lia. change (2 ^ 8) with 256.
  f_equal. rewrite u16_small by lia. lia.
Qed.

Lemma add_words_ok n : forall k m t rest,
  bytes_ok m -> len m = 2 * Z.of_nat n -> len k mod 2 = 0 -> 0 <= t -> t + 65535 * Z.of_nat n < 4294967296 ->
  add_words n (len k / 2) (k ++ m ++ rest) t = Ret (t + words m).
Proof.
  induction n as [|n IH]; intros k m t rest Hm Hlen Hk Ht Hbound.
  - rewrite (len_0_nil m) by lia. cbn. f_equal. lia.
  - destruct m as [|a [|b m]]; rewrite ?len_cons in Hlen; try (unfold len in Hlen; simpl in Hlen; lia).
    unfold bytes_ok in Hm. rewrite !Forall_cons_iff in Hm. destruct Hm as (Ha & Hb & Hm).
    cbn [add_words app]. rewrite read_be16_ok; [|Z.to_euclidean_division_equations; lia|done|done].
    run_simpl. unfold byte_ok in *. rewrite u32_small by lia.
    replace (len k / 2 + 1) with (len (k ++ [a; b]) / 2)
      by (len_norm; Z.to_euclidean_division_equations; lia).
    change (k ++ a :: b :: m ++ rest) with (k ++ [a; b] ++ m ++ rest). rewrite (app_assoc k).
    rewrite IH; try done; try lia; [|len_norm; Z.to_euclidean_division_equations; lia].
    cbn [words]. f_equal. lia.
Qed.

(** Sum of the first [2n] bytes of an array, from its start. *)
Lemma add_words_start n mem t :
  bytes_ok mem -> 2 * Z.of_nat n <= len mem -> 0 <= t -> t + 65535 * Z.of_nat n < 4294967296 ->
  add_words n 0 mem t = Ret (t + words (ztake (2 * Z.of_nat n) mem)).
Proof.
  intros Hm Hl Ht Hb. rewrite <- (ztake_zdrop (2 * Z.of_nat n) mem) at 1.
  apply (add_words_ok n [] (ztake (2 * Z.of_nat n) mem) t (zdrop (2 * Z.of_nat n) mem)); try done.
  - by apply Forall_take.
  - rewrite len_ztake; lia.
Qed.

Lemma summer_ok mem n : bytes_ok mem -> 0 <= n <= len mem -> n mod 2 = 0 -> n <= 65536 ->
  udp_checksum_summer mem n = Ret (words (ztake n mem)).
Proof.
  intros Hm Hn He Hb. unfold udp_checksum_summer. rewrite He. cbn [check Z.eqb]. run_simpl.
  assert (0 <= n `quot` 2 /\ n = 2 * (n `quot` 2)) by (Z.to_euclidean_division_equations; lia).
  rewrite add_words_start; try done; try lia.
  replace (2 * Z.of_nat (Z.to_nat (n `quot` 2))) with n by lia. done.
Qed.
Lemma summer_whole mem n : bytes_ok mem -> n = len mem -> n mod 2 = 0 -> n <= 65536 ->
  udp_checksum_summer mem n = Ret (words mem).
Proof. intros. rewrite summer_ok, ztake_all by (done || lia || (len_facts; lia)). done. Qed.

(** ** The checksums against RFC 1071 and RFC 768 *)

(** The struct holds bytes in its one-byte fields. *)
Definition ipv4_header_ok (h : ipv4_header) : Prop :=
  byte_ok (version4_ihl4 h) /\ byte_ok (ds h) /\ byte_ok (ttl h) /\ byte_ok (protocol h).

Lemma ipv4_mem_ok h : ipv4_header_ok h -> bytes_ok (ipv4_header_mem h).
Proof.
  intros (? & ? & ? & ?). unfold ipv4_header_mem. rewrite !bytes_ok_app.
  split_and!; auto with arr; bytes_ok_list.
Qed.
Lemma udp_mem_ok h : bytes_ok (udp_header_mem h).
Proof. unfold udp_header_mem. rewrite !bytes_ok_app. split_and!; auto with arr. Qed.

Lemma ipv4_checksum_ok h extra n : ipv4_header_ok h -> bytes_ok extra ->
  0 <= n <= len extra -> n mod 2 = 0 -> n <= 65536 ->
  ipv4_checksum h extra n =
    Ret (hton16 (65535 - ones (words (ipv4_header_mem h) + words (ztake n extra)))).
Proof.
  intros Hh He Hn Hev Hb. unfold ipv4_checksum. rewrite Hev. cbn [check Z.eqb]. run_simpl.
  pose proof (ipv4_mem_ok h Hh) as Hm. pose proof (words_bound _ Hm) as Hw.
  change (len (ipv4_header_mem h)) with 20 in Hw. change ((20 + 1) / 2) with 10 in Hw.
  rewrite add_words_start; try done. run_simpl.
  change (Z.of_nat (Z.to_nat (sizeof_ipv4_header `quot` 2))) with 10.
  rewrite (ztake_all (2 * 10)) by done.
  assert (0 <= n `quot` 2 /\ n = 2 * (n `quot` 2)) by (Z.to_euclidean_division_equations; lia).
  rewrite add_words_start by (done || lia). run_simpl.
  replace (2 * Z.of_nat (Z.to_nat (n `quot` 2))) with n by lia.
  pose proof (words_bound (ztake n extra) (Forall_take _ _ _ He)) as Hw2. rewrite len_ztake in Hw2 by lia.
  assert ((n + 1) / 2 <= 32768) by (Z.to_euclidean_division_equations; lia).
  rewrite fold_carries_32 by lia. run_simpl.
  pose proof (ones_range (words (ipv4_header_mem h) + words (ztake n extra))).
  by rewrite Z.add_0_l, not16_ok by lia.
Qed.

(** The end-around carry makes a word and its complement cancel. *)
Lemma ones_complement s : 0 < s -> ones (s + (65535 - ones s)) = 65535.
Proof.
  intros Hs. pose proof (ones_pos s Hs). pose proof (ones_range s). symmetry.
  apply ones_unique; [lia|lia|lia|].
  unfold ones at 1. zcase; [lia|].
  pose proof (Z.div_mod (s - 1) 65535). apply Z.mod_divide; [lia|]. exists ((s - 1) / 65535). lia.
Qed.
Lemma ones_complement_inv s c : 0 <= s -> 0 <= c <= 65535 -> 0 < c \/ 0 < s ->
  ones (s + c) = 65535 -> ones (65535 - c) = ones s \/ (c = 65535 /\ ones s = 65535).
Proof.
  intros Hs Hc Hpos H. destruct (Z.eq_dec c 65535) as [->|Hne].
  - destruct (Z.eq_dec s 0) as [->|]; [by left|]. right. split; [done|].
    symmetry. apply ones_unique; [lia|lia|lia|]. unfold ones in H. destruct (Z.eqb_spec (s + 65535) 0); [lia|].
    pose proof (Z.div_mod (s + 65535 - 1) 65535). apply Z.mod_divide; [lia|].
    exists ((s + 65535 - 1) / 65535 - 1). lia.
  - left. rewrite ones_small by lia. apply ones_unique; [lia|lia| |].
    + split; [lia|]. intros ->. rewrite Z.add_0_l, ones_small in H by lia. lia.
    + unfold ones in H. destruct (Z.eqb_spec (s + c) 0); [lia|].
      pose proof (Z.div_mod (s + c - 1) 65535). apply Z.mod_divide; [lia|].
      exists ((s + c - 1) / 65535). lia.
Qed.

Lemma words_set_ip_checksum h c : 0 <= c < 65536 ->
  words (ipv4_header_mem (set_ip_checksum (hton16 c) h)) =
  words (ipv4_header_mem (set_ip_checksum (hton16 0) h)) + c.
Proof.
  intros Hc. unfold ipv4_header_mem, set_ip_checksum. cbn [version4_ihl4 ds total_length identification
    flags3_fragmentoffset13 ttl protocol ip_checksum source_address destination_address].
  rewrite !hton16_mem by lia.
  rewrite !words_app by reflexivity. rewrite (words_be16 c), (words_be16 0) by lia. lia.
Qed.

(** Payload, parity and final fold of the two UDP checksums. *)
Lemma udp_checksum_rest_ok h payload n t : bytes_ok payload -> 0 <= n <= len payload -> n <= 65535 ->
  0 < t < 2 ^ 30 ->
  udp_checksum_rest h payload n t =
    Ret (hton16 (65535 - ones (t + words (udp_header_mem h) + words (ztake n payload)))).
Proof.
  intros Hp Hn Hn2 Ht. unfold udp_checksum_rest. change (2 ^ 30) with 1073741824 in Ht.
  pose proof (words_bound _ (udp_mem_ok h)) as Hw. change (len (udp_header_mem h)) with 8 in Hw.
  change ((8 + 1) / 2) with 4 in Hw.
  rewrite (summer_whole (udp_header_mem h)) by (done || apply udp_mem_ok). run_simpl. rewrite u32_small by lia.
  pose proof (words_bound (ztake n payload) (Forall_take _ _ _ Hp)) as Hw2. rewrite len_ztake in Hw2 by lia.
  assert ((n + 1) / 2 <= 32768) by (Z.to_euclidean_division_equations; lia).
  assert (HT : 0 < t + words (udp_header_mem h) < 1074003964) by lia.
  set (T := t + words (udp_header_mem h)) in *.
  assert (Hsum : (if n mod 2 =? 0 then s ← udp_checksum_summer payload n; Ret (u32 (T + s))
    else s ← udp_checksum_summer payload (u16 (n - 1));
         last ← rd payload (n - 1);
         s0 ← udp_checksum_summer (le16 (hton16 (u16 (Z.shiftl last 8)))) 2;
         Ret (u32 (u32 (T + s) + s0))) = Ret (T + words (ztake n payload))).
  { zcase.
    - rewrite summer_ok by (done || lia). run_simpl. rewrite u32_small by lia. done.
    - assert (Hodd : (n - 1) mod 2 = 0 /\ 1 <= n) by (Z.to_euclidean_division_equations; lia).
      destruct Hodd as [Hev H1]. rewrite u16_small by lia. rewrite summer_ok by (done || lia). run_simpl.
      destruct (rd_ok payload (n - 1)) as (x & Hrd & Hx); [lia|]. rewrite Hrd. run_simpl.
      assert (Hxb : byte_ok x) by (apply (Forall_lookup_1 _ _ _ _ Hp Hx)). unfold byte_ok in Hxb.
      rewrite Z.shiftl_mul_pow2 by lia. change (2 ^ 8) with 256. rewrite u16_small by lia.
      rewrite summer_whole by (done || auto with arr). run_simpl. rewrite hton16_mem, words_be16 by lia.
      assert (Hsp : ztake n payload = ztake (n - 1) payload ++ [x]).
      { unfold ztake. replace (Z.to_nat n) with (S (Z.to_nat (n - 1))) by lia. by apply take_S_r. }
      rewrite Hsp, words_app in * by (rewrite len_ztake; lia || done). cbn [words] in *.
      pose proof (words_bound (ztake (n - 1) payload) (Forall_take _ _ _ Hp)).
      rewrite (u32_small (T + _)) by lia. rewrite u32_small by lia. f_equal. lia. }
  rewrite Hsum. run_simpl. rewrite fold_carries_32 by lia. run_simpl.
  pose proof (ones_range (T + words (ztake n payload))).
  pose proof (ones_pos (T + words (ztake n payload))). ztest. by rewrite not16_ok by lia.
Qed.

(** The sum of the pseudo headers of RFC 768 and RFC 2460. *)
Definition pseudo4 (src dst n : Z) : Z := words (le32 src) + words (le32 dst) + 17 + (8 + n).
Definition pseudo6 (src dst : bytes) (n : Z) : Z := words src + words dst + words (be32 (8 + n)) + 17.

Lemma udp_checksum_ok h payload n src dst : bytes_ok payload -> 0 <= n <= len payload -> n <= 65527 ->
  udp_checksum h payload n src dst =
    Ret (hton16 (65535 - ones (pseudo4 src dst n + words (udp_header_mem h) + words (ztake n payload)))).
Proof.
  intros Hp Hn Hb. unfold udp_checksum, pseudo4, sizeof_udp_header.
  pose proof (words_bound (le32 src) ltac:(auto with arr)) as H1.
  pose proof (words_bound (le32 dst) ltac:(auto with arr)) as H2.
  change ((len (le32 src) + 1) / 2) with 2 in H1. change ((len (le32 dst) + 1) / 2) with 2 in H2.
  rewrite (u16_small (8 + n)) by lia.
  do 2 (rewrite summer_whole by (done || auto with arr); run_simpl).
  do 2 (rewrite summer_whole by (done || auto with arr); run_simpl; rewrite hton16_mem by (unfold IPV4_PROTOCOL_UDP; lia)).
  rewrite !words_be16 by (unfold IPV4_PROTOCOL_UDP; lia). unfold IPV4_PROTOCOL_UDP.
  u32_norm.
  rewrite udp_checksum_rest_ok by (done || lia). do 4 f_equal.
Qed.

Lemma udp_ip6_checksum_ok h payload n src dst : bytes_ok payload -> 0 <= n <= len payload -> n <= 65535 ->
  bytes_ok src -> bytes_ok dst -> len src = 16 -> len dst = 16 ->
  udp_ip6_checksum h payload n src dst =
    Ret (hton16 (65535 - ones (pseudo6 src dst n + words (udp_header_mem h) + words (ztake n payload)))).
Proof.
  intros Hp Hn Hb Hs Hd Ls Ld. unfold udp_ip6_checksum, pseudo6, sizeof_udp_header.
  pose proof (words_bound src Hs) as H1. pose proof (words_bound dst Hd) as H2. rewrite Ls in H1. rewrite Ld in H2.
  change ((16 + 1) / 2) with 8 in H1, H2.
  pose proof (words_bound (be32 (8 + n)) ltac:(auto with arr)) as H3.
  change ((len (be32 (8 + n)) + 1) / 2) with 2 in H3.
  rewrite (u32_small (8 + n)) by lia.
  do 2 (rewrite summer_whole by (done || auto with arr || lia); run_simpl).
  do 2 (rewrite summer_whole by (done || auto with arr); run_simpl; rewrite hton32_mem).
  change (words (be32 IPV6_NEXT_UDP)) with 17.
  u32_norm.
  rewrite udp_checksum_rest_ok by (done || lia). do 4 f_equal.
Qed.

(** C33: The three checksum functions agree with RFC 1071 on every header and
    every payload length the callers use: the 32-bit accumulator never wraps
    around, the carry loop ends within two rounds, odd payloads are padded with
    a zero byte, and the value stored is the complement of the one's-complement
    sum, in network byte order. *)
Theorem checksums_rfc1071 :
  (forall h extra n, ipv4_header_ok h -> bytes_ok extra -> 0 <= n <= len extra -> n mod 2 = 0 -> n <= 65535 ->
    ipv4_checksum h extra n =
      Ret (hton16 (65535 - ones (words (ipv4_header_mem h ++ ztake n extra))))) /\
  (forall h payload n src dst, bytes_ok payload -> 0 <= n <= len payload -> n <= 65527 ->
    udp_checksum h payload n src dst =
      Ret (hton16 (65535 - ones (words (le32 src ++ le32 dst ++ [0; 17] ++ be16 (8 + n) ++
                                        udp_header_mem h ++ ztake n payload))))) /\
  (forall h payload n src dst, bytes_ok payload -> 0 <= n <= len payload -> n <= 65527 ->
    bytes_ok src -> bytes_ok dst -> len src = 16 -> len dst = 16 ->
    udp_ip6_checksum h payload n src dst =
      Ret (hton16 (65535 - ones (words (src ++ dst ++ be32 (8 + n) ++ [0; 0; 0; 17] ++
                                        udp_header_mem h ++ ztake n payload))))).
Proof.
  split_and!.
  - intros. rewrite ipv4_checksum_ok by (done || lia). by rewrite words_app.
  - intros. rewrite udp_checksum_ok by (done || lia). rewrite !words_app by done.
    rewrite words_be16 by lia. unfold pseudo4. cbn [words]. do 4 f_equal. lia.
  - intros h payload n src dst ? ? ? ? ? Ls Ld. rewrite udp_ip6_checksum_ok by (done || lia).
    rewrite !words_app by (done || by rewrite ?Ls, ?Ld). unfold pseudo6. cbn [words]. do 4 f_equal. lia.
Qed.

Lemma checksums_rfc1071_witness :
  ipv4_checksum (Ipv4Header 69 0 7680 0 0 64 17 0 67305985 134678021) [] 0 =
    Ret (hton16 (65535 - ones (words (ipv4_header_mem (Ipv4Header 69 0 7680 0 0 64 17 0 67305985 134678021))))) /\
  udp_checksum (UdpHeader 14640 13568 2816 0) [104; 105; 33] 3 67305985 134678021 = Ret 60725 /\
  udp_ip6_checksum (UdpHeader 14640 13568 2816 0) [104; 105; 33] 3 (zrep 16 1) (zrep 16 2) = Ret 59693.
Proof.
  destruct checksums_rfc1071 as (H1 & H2 & H3). split_and!.
  - rewrite H1; [done|repeat split; by vm_compute|apply Forall_nil_2|by vm_compute..].
  - rewrite H2; [by vm_compute|bytes_ok_list; by vm_compute|by vm_compute..].
  - rewrite H3; [by vm_compute|..]; try by vm_compute.
    + bytes_ok_list; by vm_compute.
    + apply Forall_replicate. by vm_compute.
    + apply Forall_replicate. by vm_compute.
Defined.
