(* ===== verification/Addr.v ===== *)
(** * Socket addresses ([system/BAddr.h], [misc/compare.h])

    [BAddr] is the tagged union of the C program; addresses and ports are kept
    in network byte order as the struct keeps them.  The order
    [BAddr_CompareOrder] is a total preorder whose equality is that of
    [BAddr_Compare]; the trees of the UDP client rely on the first. *)
From S2P Require Import Prelude Inet.

Inductive BAddr : Type :=
  | BADDR_NONE
  | BADDR_IPV4 (ip port : Z)
  | BADDR_IPV6 (ip6 : bytes) (port : Z).

#[export] Instance BAddr_eq_dec : EqDecision BAddr.
Proof. solve_decision. Defined.

Definition BADDR_TYPE_NONE : Z := 0.
Definition BADDR_TYPE_IPV4 : Z := 1.
Definition BADDR_TYPE_IPV6 : Z := 2.

Definition BAddr_type (a : BAddr) : Z :=
  match a with
  | BADDR_NONE => BADDR_TYPE_NONE
  | BADDR_IPV4 _ _ => BADDR_TYPE_IPV4
  | BADDR_IPV6 _ _ => BADDR_TYPE_IPV6
  end.

Definition BAddr_MakeNone : BAddr := BADDR_NONE.
Definition BAddr_MakeIPv4 (ip port : Z) : BAddr := BADDR_IPV4 ip port.
Definition BAddr_MakeIPv6 (ip : bytes) (port : Z) : run BAddr :=
  ip ← rd_range ip 0 16; Ret (BADDR_IPV6 ip port).
Definition BAddr_InitIPv4 (ip port : Z) : BAddr := BAddr_MakeIPv4 ip port.
Definition BAddr_InitIPv6 (ip : bytes) (port : Z) : run BAddr := BAddr_MakeIPv6 ip port.
Definition BAddr_IsInvalid (a : BAddr) : bool := BAddr_type a =? BADDR_TYPE_NONE.

Definition BAddr_GetPort (a : BAddr) : run Z :=
  match a with
  | BADDR_NONE => Fail AssertionFailed
  | BADDR_IPV4 _ port | BADDR_IPV6 _ port => Ret port
  end.
Definition BAddr_SetPort (a : BAddr) (port : Z) : run BAddr :=
  match a with
  | BADDR_NONE => Fail AssertionFailed
  | BADDR_IPV4 ip _ => Ret (BADDR_IPV4 ip port)
  | BADDR_IPV6 ip _ => Ret (BADDR_IPV6 ip port)
  end.

(** [B_COMPARE(a, b)]. *)
Definition B_COMPARE (a b : Z) : Z := Z.b2z (a >? b) - Z.b2z (a <? b).

(** [memcmp]: the difference of the first bytes that differ.  (Of arrays of
    different lengths, which the program never compares, the shorter is smaller.) *)
Fixpoint memcmp (a b : bytes) : Z :=
  match a, b with
  | [], [] => 0
  | [], _ :: _ => -1
  | _ :: _, [] => 1
  | x :: a, y :: b => if x =? y then memcmp a b else x - y
  end.

Definition BAddr_Compare (addr1 addr2 : BAddr) : bool :=
  if negb (BAddr_type addr1 =? BAddr_type addr2) then false else
  match addr1, addr2 with
  | BADDR_IPV4 ip1 port1, BADDR_IPV4 ip2 port2 => (ip1 =? ip2) && (port1 =? port2)
  | BADDR_IPV6 ip1 port1, BADDR_IPV6 ip2 port2 => (memcmp ip1 ip2 =? 0) && (port1 =? port2)
  | _, _ => false
  end.

Definition BAddr_CompareOrder (addr1 addr2 : BAddr) : Z :=
  let cmp := B_COMPARE (BAddr_type addr1) (BAddr_type addr2) in
  if negb (cmp =? 0) then cmp else
  match addr1, addr2 with
  | BADDR_IPV4 ip1 port1, BADDR_IPV4 ip2 port2 =>
      let cmp := B_COMPARE (ntoh32 ip1) (ntoh32 ip2) in
      if negb (cmp =? 0) then cmp else B_COMPARE (ntoh16 port1) (ntoh16 port2)
  | BADDR_IPV6 ip1 port1, BADDR_IPV6 ip2 port2 =>
      let cmp := memcmp ip1 ip2 in
      if negb (cmp =? 0) then B_COMPARE cmp 0 else B_COMPARE (ntoh16 port1) (ntoh16 port2)
  | _, _ => 0
  end.

(** ** Comparators are total preorders

    What [structure/BAVL.h] requires of a comparator: it returns -1, 0 or 1 and
    its [<=] is a total order on the values (up to values that compare equal). *)
Class ValueOrder {V : Type} (cmp : V -> V -> Z) : Prop := {
  cmp_range a b : cmp a b = -1 \/ cmp a b = 0 \/ cmp a b = 1;
  cmp_sym a b : cmp b a = - cmp a b;
  cmp_trans a b c : cmp a b <= 0 -> cmp b c <= 0 -> cmp a c <= 0 }.

Section value_order.
Context {V : Type} (cmp : V -> V -> Z) `{!ValueOrder cmp}.

Lemma cmp_refl a : cmp a a = 0.
Proof. pose proof (cmp_sym a a). lia. Qed.
Lemma cmp_lt_trans a b c : cmp a b = -1 -> cmp b c = -1 -> cmp a c = -1.
Proof.
  intros H1 H2. pose proof (cmp_trans a b c). pose proof (cmp_trans b c a).
  pose proof (cmp_sym a b). pose proof (cmp_sym a c). pose proof (cmp_range a c). lia.
Qed.
Lemma cmp_eq_lt a b c : cmp a b = 0 -> cmp b c = -1 -> cmp a c = -1.
Proof.
  intros H1 H2. pose proof (cmp_trans a b c). pose proof (cmp_trans c a b).
  pose proof (cmp_sym b c). pose proof (cmp_sym a c). pose proof (cmp_range a c). lia.
Qed.
Lemma cmp_lt_eq a b c : cmp a b = -1 -> cmp b c = 0 -> cmp a c = -1.
Proof.
  intros H1 H2. pose proof (cmp_trans a b c). pose proof (cmp_trans b c a).
  pose proof (cmp_sym a b). pose proof (cmp_sym a c). pose proof (cmp_range a c). lia.
Qed.
Lemma cmp_eq_trans a b c : cmp a b = 0 -> cmp b c = 0 -> cmp a c = 0.
Proof.
  intros H1 H2. pose proof (cmp_trans a b c). pose proof (cmp_trans c b a).
  pose proof (cmp_sym a b). pose proof (cmp_sym b c). pose proof (cmp_sym a c). lia.
Qed.
End value_order.

(** Comparing by a key, and two comparisons one after the other. *)
Lemma value_order_by {V W} (f : V -> W) (cmp : W -> W -> Z) :
  ValueOrder cmp -> ValueOrder (fun a b => cmp (f a) (f b)).
Proof. intros []. split; eauto. Qed.

Lemma value_order_lex {V} (cmp1 cmp2 : V -> V -> Z) :
  ValueOrder cmp1 -> ValueOrder cmp2 ->
  ValueOrder (fun a b => if negb (cmp1 a b =? 0) then cmp1 a b else cmp2 a b).
Proof.
  intros H1 H2. split.
  - intros a b. zcase; cbn [negb]; apply cmp_range.
  - intros a b. pose proof (cmp_sym (cmp := cmp1) a b) as E1. pose proof (cmp_sym (cmp := cmp2) a b).
    rewrite E1. repeat zcase; cbn [negb]; lia.
  - intros a b c.
    pose proof (cmp_trans (cmp := cmp1) a b c). pose proof (cmp_trans (cmp := cmp2) a b c).
    pose proof (cmp_trans (cmp := cmp1) b c a). pose proof (cmp_trans (cmp := cmp1) c a b).
    pose proof (cmp_sym (cmp := cmp1) a b). pose proof (cmp_sym (cmp := cmp1) b c).
    pose proof (cmp_sym (cmp := cmp1) a c).
    repeat zcase; cbn [negb]; lia.
Qed.

#[export] Instance B_COMPARE_order : ValueOrder B_COMPARE.
Proof.
  unfold B_COMPARE. split; intros; repeat match goal with
    | |- context [?a >? ?b] => rewrite (Z.gtb_ltb a b)
    | H : context [?a >? ?b] |- _ => rewrite (Z.gtb_ltb a b) in H
    | |- context [?a <? ?b] => destruct (Z.ltb_spec a b)
    | H : context [?a <? ?b] |- _ => destruct (Z.ltb_spec a b)
    end; simpl in *; lia.
Qed.
Lemma B_COMPARE_0 a b : B_COMPARE a b = 0 <-> a = b.
Proof. unfold B_COMPARE. rewrite Z.gtb_ltb. destruct (Z.ltb_spec b a), (Z.ltb_spec a b); simpl; lia. Qed.

Lemma memcmp_0 a b : memcmp a b = 0 <-> a = b.
Proof.
  revert b. induction a as [|x a IH]; intros [|y b]; simpl; try (split; [lia|done]); [done|].
  zcase; [subst; rewrite IH; split; [by intros ->|by intros [= ->]]|]. split; [lia|]. intros [=]. lia.
Qed.

#[export] Instance memcmp_order : ValueOrder (fun a b => B_COMPARE (memcmp a b) 0).
Proof.
  assert (Hsym : forall a b, memcmp b a = - memcmp a b).
  { induction a as [|x a IH]; intros [|y b]; simpl; try done. rewrite (Z.eqb_sym y x). zcase; [apply IH|lia]. }
  assert (Htr : forall a b c, memcmp a b <= 0 -> memcmp b c <= 0 -> memcmp a c <= 0).
  { induction a as [|x a IH]; intros [|y b] [|z c]; simpl; try lia.
    repeat zcase; try lia; subst; try lia. eauto. }
  assert (Hle : forall s, B_COMPARE s 0 <= 0 <-> s <= 0).
  { intros s. unfold B_COMPARE. rewrite Z.gtb_ltb. destruct (Z.ltb_spec 0 s), (Z.ltb_spec s 0); simpl; lia. }
  split.
  - intros. apply cmp_range.
  - intros a b. rewrite Hsym. unfold B_COMPARE. rewrite !Z.gtb_ltb.
    repeat match goal with |- context [?a <? ?b] => destruct (Z.ltb_spec a b) end; simpl; lia.
  - intros a b c. rewrite !Hle. apply Htr.
Qed.

(** The two halves of the order, for two addresses of one type. *)
Definition order4 (a b : Z * Z) : Z :=
  if negb (B_COMPARE (ntoh32 a.1) (ntoh32 b.1) =? 0) then B_COMPARE (ntoh32 a.1) (ntoh32 b.1)
  else B_COMPARE (ntoh16 a.2) (ntoh16 b.2).
Definition order6 (a b : bytes * Z) : Z :=
  if negb (B_COMPARE (memcmp a.1 b.1) 0 =? 0) then B_COMPARE (memcmp a.1 b.1) 0
  else B_COMPARE (ntoh16 a.2) (ntoh16 b.2).

#[export] Instance order4_order : ValueOrder order4.
Proof.
  apply (value_order_lex (fun a b : Z * Z => B_COMPARE (ntoh32 a.1) (ntoh32 b.1))
           (fun a b => B_COMPARE (ntoh16 a.2) (ntoh16 b.2)));
    apply (value_order_by _ B_COMPARE), _.
Qed.
#[export] Instance order6_order : ValueOrder order6.
Proof.
  apply (value_order_lex (fun a b : bytes * Z => B_COMPARE (memcmp a.1 b.1) 0)
           (fun a b => B_COMPARE (ntoh16 a.2) (ntoh16 b.2))).
  - apply (value_order_by fst (fun a b => B_COMPARE (memcmp a b) 0)), _.
  - apply (value_order_by (fun a : bytes * Z => ntoh16 a.2) B_COMPARE), _.
Qed.

Lemma CompareOrder_4 ip1 p1 ip2 p2 :
  BAddr_CompareOrder (BADDR_IPV4 ip1 p1) (BADDR_IPV4 ip2 p2) = order4 (ip1, p1) (ip2, p2).
Proof. done. Qed.
Lemma CompareOrder_6 ip1 p1 ip2 p2 :
  BAddr_CompareOrder (BADDR_IPV6 ip1 p1) (BADDR_IPV6 ip2 p2) = order6 (ip1, p1) (ip2, p2).
Proof.
  unfold BAddr_CompareOrder, order6. cbn [BAddr_type fst snd].
  change (B_COMPARE BADDR_TYPE_IPV6 BADDR_TYPE_IPV6) with 0. cbn [Z.eqb negb].
  destruct (Z.eqb_spec (B_COMPARE (memcmp ip1 ip2) 0) 0) as [E|E], (Z.eqb_spec (memcmp ip1 ip2) 0) as [E'|E'];
    cbn [negb]; try done.
  - exfalso. by apply E', B_COMPARE_0.
  - by rewrite E' in E.
Qed.

Lemma B_COMPARE_le a b : B_COMPARE a b <= 0 <-> a <= b.
Proof. unfold B_COMPARE. rewrite Z.gtb_ltb. destruct (Z.ltb_spec b a), (Z.ltb_spec a b); simpl; lia. Qed.
Lemma CompareOrder_types a b : BAddr_type a <> BAddr_type b ->
  BAddr_CompareOrder a b = B_COMPARE (BAddr_type a) (BAddr_type b).
Proof. intros Ht. unfold BAddr_CompareOrder. rewrite <- B_COMPARE_0 in Ht. by destruct (Z.eqb_spec (B_COMPARE (BAddr_type a) (BAddr_type b)) 0). Qed.

(** [BAddr_CompareOrder] is a total preorder on every pair of addresses. *)
#[export] Instance BAddr_CompareOrder_order : ValueOrder BAddr_CompareOrder.
Proof.
  split.
  - intros a b. destruct (decide (BAddr_type a = BAddr_type b)) as [E|E];
      [|rewrite CompareOrder_types by done; apply cmp_range].
    destruct a, b; try discriminate E; rewrite ?CompareOrder_4, ?CompareOrder_6; [by right; left|apply cmp_range..].
  - intros a b. destruct (decide (BAddr_type a = BAddr_type b)) as [E|E];
      [|rewrite !CompareOrder_types by done; apply cmp_sym].
    destruct a, b; try discriminate E; rewrite ?CompareOrder_4, ?CompareOrder_6;
      [done|apply (cmp_sym (cmp := order4))|apply (cmp_sym (cmp := order6))].
  - intros a b c. destruct (decide (BAddr_type a = BAddr_type b /\ BAddr_type b = BAddr_type c)) as [[E1 E2]|E].
    + destruct a, b, c; try discriminate E1; try discriminate E2; rewrite ?CompareOrder_4, ?CompareOrder_6;
        [done|exact (cmp_trans (cmp := order4) _ _ _)|exact (cmp_trans (cmp := order6) _ _ _)].
    + intros H1 H2.
      assert (Hle : forall x y, BAddr_CompareOrder x y <= 0 -> BAddr_type x <= BAddr_type y).
      { intros x y H. destruct (decide (BAddr_type x = BAddr_type y)) as [Exy|Exy]; [lia|].
        rewrite CompareOrder_types in H by done. by apply B_COMPARE_le. }
      apply Hle in H1, H2. rewrite CompareOrder_types by lia. apply B_COMPARE_le. lia.
Qed.

(** Addresses as the program builds them. *)
Definition baddr_ok (a : BAddr) : Prop :=
  match a with
  | BADDR_NONE => True
  | BADDR_IPV4 ip port => 0 <= ip < 4294967296 /\ 0 <= port < 65536
  | BADDR_IPV6 ip port => bytes_ok ip /\ len ip = 16 /\ 0 <= port < 65536
  end.
Definition is_ip (a : BAddr) : Prop := BAddr_type a = BADDR_TYPE_IPV4 \/ BAddr_type a = BADDR_TYPE_IPV6.

Lemma ntoh16_inj x y : 0 <= x < 65536 -> 0 <= y < 65536 -> ntoh16 x = ntoh16 y -> x = y.
Proof.
  intros Hx Hy H. rewrite <- (hton16_involutive x), <- (hton16_involutive y) by done.
  unfold ntoh16 in *. by rewrite H.
Qed.
Lemma ntoh32_inj x y : 0 <= x < 4294967296 -> 0 <= y < 4294967296 -> ntoh32 x = ntoh32 y -> x = y.
Proof.
  intros Hx Hy H. apply (f_equal le32) in H. unfold ntoh32 in H. rewrite !hton32_mem in H.
  by rewrite <- (of_be_be32 x), <- (of_be_be32 y), H by done.
Qed.

(** The order and the equality of the program agree, and both are equality of
    addresses, on addresses of one of the two IP types. *)
Lemma BAddr_CompareOrder_0 a b : baddr_ok a -> baddr_ok b -> BAddr_CompareOrder a b = 0 <-> a = b.
Proof.
  intros Ha Hb. split; [|intros ->; apply cmp_refl; apply _].
  destruct a as [|ip1 p1|ip1 p1], b as [|ip2 p2|ip2 p2]; try done;
    rewrite ?CompareOrder_4, ?CompareOrder_6; unfold order4, order6; cbn [fst snd baddr_ok] in *.
  - destruct (Z.eqb_spec (B_COMPARE (ntoh32 ip1) (ntoh32 ip2)) 0) as [E|E]; [|done]. cbn [negb].
    rewrite B_COMPARE_0 in *. intros Hp. f_equal; [apply ntoh32_inj|apply ntoh16_inj]; tauto.
  - destruct (Z.eqb_spec (B_COMPARE (memcmp ip1 ip2) 0) 0) as [E|E]; [|done]. cbn [negb].
    rewrite B_COMPARE_0 in *. rewrite memcmp_0 in E. intros Hp. f_equal; [done|apply ntoh16_inj; tauto].
Qed.

Lemma BAddr_Compare_eq a b : is_ip a -> BAddr_Compare a b = true <-> a = b.
Proof.
  intros Ha. destruct a as [|ip1 p1|ip1 p1], b as [|ip2 p2|ip2 p2];
    try (by destruct Ha); unfold BAddr_Compare; cbn; rewrite ?andb_true_iff, ?Z.eqb_eq, ?memcmp_0;
    split; first [done | naive_solver].
Qed.
