(* ===== verification/TunUdp.v ===== *)
(** * UDP packets between the TUN device and the UDP gateway client
    ([tun2socks/tun2socks.c])

    [process_device_udp_packet] takes a packet from the device apart and hands
    its payload to the gateway client; [udpgw_client_handler_received] builds
    the packet for a reply and writes it to the device.  The globals the two
    functions read are a record; the call of the gateway client and the packet
    written to the device are results. *)
From S2P Require Import Prelude Inet Addr.

Record tun_globals := TunGlobals {
  netif_ip6addr : bool;              (* options.netif_ip6addr != NULL *)
  udpgw_remote_server_addr : bool;   (* options.udpgw_remote_server_addr != NULL *)
  BTap_MTU : Z;                      (* BTap_GetMTU(&device) *)
  udp_mtu : Z }.

(** The value [main] computes for [udp_mtu] when a gateway is configured. *)
Definition compute_udp_mtu (mtu : Z) (ip6 : bool) : Z :=
  let udp_mtu := mtu - (sizeof_ipv4_header + sizeof_udp_header) in
  let udp_mtu :=
    if ip6 then
      let udp_ip6_mtu := mtu - (sizeof_ipv6_header + sizeof_udp_header) in
      if udp_mtu <? udp_ip6_mtu then udp_ip6_mtu else udp_mtu
    else udp_mtu in
  if udp_mtu <? 0 then 0 else udp_mtu.

(** Arguments of [SocksUdpGwClient_SubmitPacket]. *)
Record submission := Submission {
  sub_local : BAddr; sub_remote : BAddr; sub_is_dns : Z; sub_data : bytes; sub_len : Z }.

(** After the switch: the payload length check and the call. *)
Definition submit_udp (g : tun_globals) (local remote : BAddr) (data : bytes) (data_len : Z) : run (option submission) :=
  if data_len >? udp_mtu g then Ret None
  else Ret (Some (Submission local remote 0 data data_len)).

(** [case 4:] of the switch in [process_device_udp_packet]. *)
Definition process_ipv4_case (g : tun_globals) (data : bytes) (data_len : Z) : run (option submission) :=
  if data_len <? sizeof_ipv4_header then Ret None else
  proto ← rd data 9;
  if negb (proto =? IPV4_PROTOCOL_UDP) then Ret None else
  r ← ipv4_check data data_len;
  match r with
  | None => Ret None
  | Some (ipv4_header, data, data_len) =>
      r ← udp_check data data_len;
      match r with
      | None => Ret None
      | Some (udp_header, data, data_len) =>
          let checksum_in_packet := udp_cksum udp_header in
          let udp_header := set_udp_cksum 0 udp_header in
          checksum_computed ← udp_checksum udp_header data (u16 data_len)
                                (source_address ipv4_header) (destination_address ipv4_header);
          if negb (checksum_in_packet =? checksum_computed) then Ret None else
          submit_udp g (BAddr_InitIPv4 (source_address ipv4_header) (source_port udp_header))
            (BAddr_InitIPv4 (destination_address ipv4_header) (dest_port udp_header)) data data_len
      end
  end.

(** [case 6:]. *)
Definition process_ipv6_case (g : tun_globals) (data : bytes) (data_len : Z) : run (option submission) :=
  if negb (netif_ip6addr g) then Ret None else
  if data_len <? sizeof_ipv6_header then Ret None else
  proto ← rd data 6;
  if negb (proto =? IPV6_NEXT_UDP) then Ret None else
  r ← ipv6_check data data_len;
  match r with
  | None => Ret None
  | Some (ipv6_header, data, data_len) =>
      r ← udp_check data data_len;
      match r with
      | None => Ret None
      | Some (udp_header, data, data_len) =>
          let checksum_in_packet := udp_cksum udp_header in
          let udp_header := set_udp_cksum 0 udp_header in
          checksum_computed ← udp_ip6_checksum udp_header data (u16 data_len)
                                (source_address6 ipv6_header) (destination_address6 ipv6_header);
          if negb (checksum_in_packet =? checksum_computed) then Ret None else
          local_addr ← BAddr_InitIPv6 (source_address6 ipv6_header) (source_port udp_header);
          remote_addr ← BAddr_InitIPv6 (destination_address6 ipv6_header) (dest_port udp_header);
          submit_udp g local_addr remote_addr data data_len
      end
  end.

Definition process_device_udp_packet (g : tun_globals) (data : bytes) (data_len : Z) : run (option submission) :=
  _ ← check (0 <=? data_len);
  ip_version ← (if data_len >? 0 then b ← rd data 0; Ret (Z.shiftr b 4) else Ret 0);
  if ip_version =? 4 then process_ipv4_case g data data_len
  else if ip_version =? 6 then process_ipv6_case g data data_len
  else Ret None.

(** What [device_read_handler_send] does with a packet after it has accepted
    it: the UDP path, or the TCP/IP stack.  [pbuf_alloc] and the input function
    of the stack are the vendored lwIP: whether they succeed is an argument. *)
Inductive device_action : Type :=
  | SubmitToGateway (s : submission)
  | InputToStack (packet : bytes)
  | DropPacket.

Definition device_read_handler_send (g : tun_globals) (pbuf_alloc_ok input_ok : bool)
    (data : bytes) (data_len : Z) : run device_action :=
  _ ← check (0 <=? data_len);
  r ← process_device_udp_packet g data data_len;
  match r with
  | Some s => Ret (SubmitToGateway s)
  | None =>
      if data_len >? 65535 then Ret DropPacket else
      if negb pbuf_alloc_ok then Ret DropPacket else
      p ← rd_range data 0 data_len;
      if negb input_ok then Ret DropPacket else Ret (InputToStack p)
  end.

(** The three writes to [device_write_buf] and [BTap_Send]. *)
Definition send_to_device (buf iph udph data : bytes) (data_len : Z) : run (bytes * option bytes) :=
  buf ← wr_range buf 0 iph;
  buf ← wr_range buf (len iph) udph;
  payload ← rd_range data 0 data_len;
  buf ← wr_range buf (len iph + len udph) payload;
  packet ← rd_range buf 0 (len iph + len udph + data_len);
  Ret (buf, Some packet).

Definition udpgw_client_handler_received (g : tun_globals) (device_write_buf : bytes)
    (local_addr remote_addr : BAddr) (data : bytes) (data_len : Z) : run (bytes * option bytes) :=
  _ ← check (udpgw_remote_server_addr g);
  _ ← check ((BAddr_type local_addr =? BADDR_TYPE_IPV4) || (BAddr_type local_addr =? BADDR_TYPE_IPV6));
  _ ← check (BAddr_type local_addr =? BAddr_type remote_addr);
  _ ← check (0 <=? data_len);
  match local_addr, remote_addr with
  | BADDR_IPV4 local_ip local_port, BADDR_IPV4 remote_ip remote_port =>
      if (data_len >? 65535 - (sizeof_ipv4_header + sizeof_udp_header)) ||
         (data_len >? BTap_MTU g - (sizeof_ipv4_header + sizeof_udp_header))
      then Ret (device_write_buf, None) else
      let iph := Ipv4Header (IPV4_MAKE_VERSION_IHL sizeof_ipv4_header) 0
                   (hton16 (u16 (sizeof_ipv4_header + sizeof_udp_header + data_len)))
                   (hton16 0) (hton16 0) 64 IPV4_PROTOCOL_UDP (hton16 0) remote_ip local_ip in
      c ← ipv4_checksum iph [] 0;
      let iph := set_ip_checksum c iph in
      let udph := UdpHeader remote_port local_port (hton16 (u16 (sizeof_udp_header + data_len))) (hton16 0) in
      c ← udp_checksum udph data (u16 data_len) (source_address iph) (destination_address iph);
      let udph := set_udp_cksum c udph in
      send_to_device device_write_buf (ipv4_header_mem iph) (udp_header_mem udph) data data_len
  | BADDR_IPV6 local_ip local_port, BADDR_IPV6 remote_ip remote_port =>
      if negb (netif_ip6addr g) then Ret (device_write_buf, None) else
      if (data_len >? 65535 - sizeof_udp_header) ||
         (data_len >? BTap_MTU g - (sizeof_ipv6_header + sizeof_udp_header))
      then Ret (device_write_buf, None) else
      src ← rd_range remote_ip 0 16;
      dst ← rd_range local_ip 0 16;
      let iph := Ipv6Header (Z.shiftl 6 4) 0 (hton16 0) (hton16 (u16 (sizeof_udp_header + data_len)))
                   IPV6_NEXT_UDP 64 src dst in
      let udph := UdpHeader remote_port local_port (hton16 (u16 (sizeof_udp_header + data_len))) (hton16 0) in
      c ← udp_ip6_checksum udph data (u16 data_len) (source_address6 iph) (destination_address6 iph);
      let udph := set_udp_cksum c udph in
      send_to_device device_write_buf (ipv6_header_mem iph) (udp_header_mem udph) data data_len
  | _, _ => Fail AssertionFailed
  end.

(** ** Headers survive the trip through memory *)

Definition u16_ok (x : Z) : Prop := 0 <= x < 65536.
Definition u32_ok (x : Z) : Prop := 0 <= x < 4294967296.

Definition ipv4_fields_ok (h : ipv4_header) : Prop :=
  ipv4_header_ok h /\ u16_ok (total_length h) /\ u16_ok (identification h) /\
  u16_ok (flags3_fragmentoffset13 h) /\ u16_ok (ip_checksum h) /\
  u32_ok (source_address h) /\ u32_ok (destination_address h).
Definition udp_fields_ok (h : udp_header) : Prop :=
  u16_ok (source_port h) /\ u16_ok (dest_port h) /\ u16_ok (udp_length h) /\ u16_ok (udp_cksum h).

Lemma ipv4_header_of_mem h : ipv4_fields_ok h -> ipv4_header_of (ipv4_header_mem h) = Some h.
Proof.
  unfold ipv4_fields_ok, u16_ok, u32_ok. intros (_ & H1 & H2 & H3 & H4 & H5 & H6).
  pose proof (of_le_le16 _ H1) as E1. pose proof (of_le_le16 _ H2) as E2. pose proof (of_le_le16 _ H3) as E3.
  pose proof (of_le_le16 _ H4) as E4. pose proof (of_le_le32 _ H5) as E5. pose proof (of_le_le32 _ H6) as E6.
  unfold ipv4_header_mem, le16, le32 in *. cbn [app ipv4_header_of].
  rewrite E1, E2, E3, E4, E5, E6. by destruct h.
Qed.
Lemma udp_header_of_mem h : udp_fields_ok h -> udp_header_of (udp_header_mem h) = Some h.
Proof.
  unfold udp_fields_ok, u16_ok. intros (H1 & H2 & H3 & H4).
  pose proof (of_le_le16 _ H1) as E1. pose proof (of_le_le16 _ H2) as E2.
  pose proof (of_le_le16 _ H3) as E3. pose proof (of_le_le16 _ H4) as E4.
  unfold udp_header_mem, le16 in *. cbn [app udp_header_of]. rewrite E1, E2, E3, E4. by destruct h.
Qed.
Lemma len_udp_mem h : len (udp_header_mem h) = 8.
Proof. done. Qed.
Lemma len_ipv4_mem h : len (ipv4_header_mem h) = 20.
Proof. done. Qed.

(** [udp_check] on a datagram followed by any stray bytes. *)
Lemma udp_check_ok h rest n data_len : udp_fields_ok h -> ntoh16 (udp_length h) = 8 + n ->
  0 <= n -> 8 + n <= data_len <= 8 + len rest ->
  udp_check (udp_header_mem h ++ rest) data_len = Ret (Some (h, rest, n)).
Proof.
  intros Hh Hl Hn Hd. unfold udp_check, sizeof_udp_header. rewrite (proj2 (Z.leb_le 0 data_len)) by lia.
  cbn [check]. run_simpl. ztest.
  rewrite rd_range_front by (rewrite len_app, len_udp_mem; len_facts; lia). run_simpl.
  rewrite ztake_app_exact by done. rewrite udp_header_of_mem by done. run_simpl.
  rewrite zdrop_app_exact by done. rewrite Hl. ztest. do 4 f_equal. lia.
Qed.

(** [ipv4_check] on a packet without options whose checksum is the computed one. *)
Lemma ipv4_check_ok h rest n data_len : ipv4_fields_ok h -> bytes_ok rest ->
  version4_ihl4 h = 69 -> ntoh16 (total_length h) = 20 + n ->
  0 <= n -> 20 + n <= data_len <= 20 + len rest ->
  ipv4_checksum (set_ip_checksum (hton16 0) h) [] 0 = Ret (ip_checksum h) ->
  ipv4_check (ipv4_header_mem h ++ rest) data_len = Ret (Some (h, rest, n)).
Proof.
  intros Hh Hr Hv Hl Hn Hd Hc. unfold ipv4_check, sizeof_ipv4_header. rewrite (proj2 (Z.leb_le 0 data_len)) by lia.
  cbn [check]. run_simpl. ztest.
  rewrite rd_range_front by (rewrite len_app, len_ipv4_mem; len_facts; lia). run_simpl.
  rewrite ztake_app_exact by done. rewrite ipv4_header_of_mem by done. run_simpl.
  unfold IPV4_GET_VERSION, IPV4_GET_IHL. rewrite Hv.
  change (Z.shiftr (Z.land 69 240) 4) with 4. change (u16 (Z.shiftr (Z.land 69 15) 0 * 4)) with 20.
  cbn [Z.eqb negb]. rewrite Hl. ztest. change (u16 (20 - 20)) with 0.
  assert (Hc' : ipv4_checksum (set_ip_checksum (hton16 0) h) (zdrop 20 (ipv4_header_mem h ++ rest)) 0 =
                Ret (ip_checksum h)).
  { rewrite <- Hc. unfold ipv4_checksum. by change (Z.to_nat (0 `quot` 2)) with O. }
  rewrite Hc'. run_simpl. rewrite Z.eqb_refl. cbn [negb].
  rewrite zdrop_app_exact by done. do 4 f_equal; [|lia]. by destruct h.
Qed.

Lemma send_to_device_ok buf iph udph data n : 0 <= n <= len data -> len iph + len udph + n <= len buf ->
  exists buf', send_to_device buf iph udph data n = Ret (buf', Some (iph ++ udph ++ ztake n data)) /\
    len buf' = len buf.
Proof.
  intros Hn Hb. pose proof (len_nonneg iph). pose proof (len_nonneg udph). unfold send_to_device.
  destruct (wr_range_extend [] iph buf 0) as (b1 & -> & S1 & L1); [done|done|alia|]. run_simpl.
  destruct (wr_range_extend ([] ++ iph) udph b1 (len iph)) as (b2 & -> & S2 & L2); [done|by rewrite app_nil_l|alia|].
  run_simpl. rewrite rd_range_front by done. run_simpl.
  destruct (wr_range_extend (([] ++ iph) ++ udph) (ztake n data) b2 (len iph + len udph)) as (b3 & -> & S3 & L3);
    [done|by rewrite app_nil_l, len_app|rewrite app_nil_l, len_app, len_ztake; lia|]. run_simpl.
  rewrite (rd_range_prefix _ _ _ S3) by (rewrite app_nil_l, !len_app, len_ztake; lia). run_simpl.
  exists b3. split; [|lia]. by rewrite app_nil_l, <- app_assoc.
Qed.

(** ** A reply written to the device, read back from the device *)

Definition header_size (a : BAddr) : Z :=
  match a with BADDR_IPV6 _ _ => 48 | _ => 28 end.

(** The configuration [main] sets up, and a payload that fits in a packet. *)
Definition device_ready (g : tun_globals) (buf : bytes) : Prop :=
  udpgw_remote_server_addr g = true /\ len buf = BTap_MTU g /\
  udp_mtu g = compute_udp_mtu (BTap_MTU g) (netif_ip6addr g).
Definition payload_fits (g : tun_globals) (a : BAddr) (n : Z) : Prop :=
  header_size a + n <= BTap_MTU g /\
  match a with
  | BADDR_NONE => False
  | BADDR_IPV4 _ _ => 28 + n <= 65535
  | BADDR_IPV6 _ _ => netif_ip6addr g = true /\ 8 + n <= 65535
  end.

Lemma u16_lt z : 0 <= z < 65536 -> u16 z = z.
Proof. apply u16_small. Qed.

Lemma fits_udp_mtu g buf a n : device_ready g buf -> payload_fits g a n -> 0 <= n -> n <= udp_mtu g.
Proof.
  intros (_ & _ & ->) [H1 H2] Hn. unfold compute_udp_mtu, sizeof_ipv4_header, sizeof_ipv6_header, sizeof_udp_header.
  rewrite (proj2 (Z.ltb_ge (BTap_MTU g - (20 + 8)) (BTap_MTU g - (40 + 8)))) by lia.
  destruct a as [|ip p|ip p]; [done| |destruct H2 as [-> H2]]; cbn [header_size] in H1;
    try destruct (netif_ip6addr g); zcase; lia.
Qed.

Lemma submit_ok g l r d n : n <= udp_mtu g -> submit_udp g l r d n = Ret (Some (Submission l r 0 d n)).
Proof. intros. unfold submit_udp. by ztest. Qed.

(** The IPv4 half, for a header without options and a checksum that is the computed one or not. *)
Lemma process_ipv4 g iph udph payload n u :
  ipv4_fields_ok iph -> version4_ihl4 iph = 69 -> protocol iph = IPV4_PROTOCOL_UDP ->
  total_length iph = hton16 (28 + n) -> udp_fields_ok udph -> udp_length udph = hton16 (8 + n) ->
  bytes_ok payload -> n = len payload -> 28 + n <= 65535 -> n <= udp_mtu g ->
  ipv4_checksum (set_ip_checksum (hton16 0) iph) [] 0 = Ret (ip_checksum iph) ->
  udp_checksum (set_udp_cksum 0 udph) payload n (source_address iph) (destination_address iph) = Ret u ->
  process_device_udp_packet g (ipv4_header_mem iph ++ udp_header_mem udph ++ payload) (28 + n) =
    if udp_cksum udph =? u then
      Ret (Some (Submission (BADDR_IPV4 (source_address iph) (source_port udph))
                            (BADDR_IPV4 (destination_address iph) (dest_port udph)) 0 payload n))
    else Ret None.
Proof.
  intros Hip Hv Hp Htl Hudp Hul Hpl Hn Hfit Hmtu Hc Hu. pose proof (len_nonneg payload).
  unfold process_device_udp_packet. rewrite (proj2 (Z.leb_le 0 (28 + n))) by lia. cbn [check]. run_simpl.
  rewrite (proj2 (Z.gtb_lt (28 + n) 0)) by lia.
  assert (H0 : rd (ipv4_header_mem iph ++ udp_header_mem udph ++ payload) 0 = Ret 69) by (cbn; by rewrite Hv).
  assert (H9 : rd (ipv4_header_mem iph ++ udp_header_mem udph ++ payload) 9 = Ret IPV4_PROTOCOL_UDP) by (cbn; by rewrite Hp).
  rewrite H0. run_simpl. change (Z.shiftr 69 4 =? 4) with true. cbv iota.
  unfold process_ipv4_case, sizeof_ipv4_header. rewrite (proj2 (Z.ltb_ge (28 + n) 20)) by lia. rewrite H9. run_simpl.
  rewrite Z.eqb_refl. cbn [negb].
  rewrite (ipv4_check_ok iph _ (8 + n)); try done; try lia.
  2: { rewrite bytes_ok_app. split; [apply udp_mem_ok|done]. }
  2: { rewrite Htl, hton16_involutive by lia. lia. }
  2: { rewrite len_app, len_udp_mem. lia. }
  run_simpl. rewrite (udp_check_ok udph payload n); try done; try lia.
  2: { rewrite Hul. by rewrite hton16_involutive by lia. }
  run_simpl. rewrite u16_lt by lia. rewrite Hu. run_simpl.
  destruct (udp_cksum udph =? u); cbn [negb]; [by rewrite submit_ok|done].
Qed.

Lemma ipv6_header_of_mem h : u16_ok (fl h) -> u16_ok (payload_length h) ->
  len (source_address6 h) = 16 -> len (destination_address6 h) = 16 ->
  ipv6_header_of (ipv6_header_mem h) = Some h.
Proof.
  unfold u16_ok. intros H1 H2 L1 L2.
  pose proof (of_le_le16 _ H1) as E1. pose proof (of_le_le16 _ H2) as E2.
  unfold ipv6_header_mem, le16 in *. cbn [app ipv6_header_of]. rewrite E1, E2.
  rewrite ztake_app_exact, zdrop_app_exact by done. by destruct h.
Qed.
Lemma len_ipv6_mem h : len (source_address6 h) = 16 -> len (destination_address6 h) = 16 ->
  len (ipv6_header_mem h) = 40.
Proof. intros L1 L2. unfold ipv6_header_mem. by rewrite !len_app, L1, L2. Qed.

Lemma ipv6_check_ok h rest n data_len : u16_ok (fl h) -> u16_ok (payload_length h) ->
  len (source_address6 h) = 16 -> len (destination_address6 h) = 16 ->
  version4_tc4 h = 96 -> ntoh16 (payload_length h) = n -> 0 <= n -> 40 + n <= data_len <= 40 + len rest ->
  ipv6_check (ipv6_header_mem h ++ rest) data_len = Ret (Some (h, rest, n)).
Proof.
  intros H1 H2 L1 L2 Hv Hl Hn Hd. pose proof (len_ipv6_mem h L1 L2) as Hm.
  unfold ipv6_check, sizeof_ipv6_header. rewrite (proj2 (Z.leb_le 0 data_len)) by lia.
  cbn [check]. run_simpl. ztest.
  rewrite rd_range_front by (rewrite len_app, Hm; len_facts; lia). run_simpl.
  rewrite ztake_app_exact by done. rewrite ipv6_header_of_mem by done. run_simpl.
  rewrite Hv. change (Z.shiftr 96 4) with 6. cbn [Z.eqb negb Pos.eqb]. rewrite Hl. ztest.
  by rewrite zdrop_app_exact by done.
Qed.

Lemma process_ipv6 g iph udph payload n :
  netif_ip6addr g = true -> u16_ok (fl iph) ->
  len (source_address6 iph) = 16 -> len (destination_address6 iph) = 16 ->
  version4_tc4 iph = 96 -> next_header iph = IPV6_NEXT_UDP -> payload_length iph = hton16 (8 + n) ->
  udp_fields_ok udph -> udp_length udph = hton16 (8 + n) ->
  bytes_ok payload -> n = len payload -> 8 + n <= 65535 -> n <= udp_mtu g ->
  udp_ip6_checksum (set_udp_cksum 0 udph) payload n (source_address6 iph) (destination_address6 iph) = Ret (udp_cksum udph) ->
  process_device_udp_packet g (ipv6_header_mem iph ++ udp_header_mem udph ++ payload) (48 + n) =
    Ret (Some (Submission (BADDR_IPV6 (source_address6 iph) (source_port udph))
                          (BADDR_IPV6 (destination_address6 iph) (dest_port udph)) 0 payload n)).
Proof.
  intros Hip6 Hfl L1 L2 Hv Hp Htl Hudp Hul Hpl Hn Hfit Hmtu Hu. pose proof (len_nonneg payload).
  unfold process_device_udp_packet. rewrite (proj2 (Z.leb_le 0 (48 + n))) by lia. cbn [check]. run_simpl.
  rewrite (proj2 (Z.gtb_lt (48 + n) 0)) by lia.
  assert (H0 : rd (ipv6_header_mem iph ++ udp_header_mem udph ++ payload) 0 = Ret 96) by (cbn; by rewrite Hv).
  assert (H6 : rd (ipv6_header_mem iph ++ udp_header_mem udph ++ payload) 6 = Ret IPV6_NEXT_UDP) by (cbn; by rewrite Hp).
  rewrite H0. run_simpl. change (Z.shiftr 96 4 =? 4) with false. change (Z.shiftr 96 4 =? 6) with true. cbv iota.
  unfold process_ipv6_case. rewrite Hip6. cbn [negb]. cbv iota.
  unfold sizeof_ipv6_header. rewrite (proj2 (Z.ltb_ge (48 + n) 40)) by lia. rewrite H6. run_simpl.
  rewrite Z.eqb_refl. cbn [negb].
  rewrite (ipv6_check_ok iph _ (8 + n)); try done; try lia.
  2: { unfold u16_ok. rewrite Htl. apply hton16_range. }
  2: { rewrite Htl. by rewrite hton16_involutive by lia. }
  2: { rewrite len_app, len_udp_mem. lia. }
  run_simpl. rewrite (udp_check_ok udph payload n); try done; try lia.
  2: { rewrite Hul. by rewrite hton16_involutive by lia. }
  run_simpl. rewrite u16_lt by lia. rewrite Hu. run_simpl. rewrite Z.eqb_refl. cbn [negb].
  unfold BAddr_InitIPv6, BAddr_MakeIPv6. rewrite !rd_range_front by lia. run_simpl.
  rewrite !ztake_all by lia. by rewrite submit_ok.
Qed.

(** The checksum functions return a 16-bit number that depends on the first
    [n] bytes of the payload only. *)
Lemma udp_checksum_value h data n src dst : bytes_ok data -> 0 <= n <= len data -> n <= 65527 ->
  exists c, udp_checksum h data n src dst = Ret c /\ u16_ok c /\ udp_checksum h (ztake n data) n src dst = Ret c.
Proof.
  intros Hd Hn Hb. eexists. split; [by apply udp_checksum_ok|]. split; [apply hton16_range|].
  rewrite udp_checksum_ok; [|by apply Forall_take|rewrite len_ztake; lia|done].
  by rewrite (ztake_all n (ztake n data)) by (rewrite len_ztake; lia).
Qed.
Lemma udp_ip6_checksum_value h data n src dst : bytes_ok data -> 0 <= n <= len data -> n <= 65535 ->
  bytes_ok src -> bytes_ok dst -> len src = 16 -> len dst = 16 ->
  exists c, udp_ip6_checksum h data n src dst = Ret c /\ u16_ok c /\ udp_ip6_checksum h (ztake n data) n src dst = Ret c.
Proof.
  intros Hd Hn Hb Hs Ht Ls Lt. eexists. split; [by apply udp_ip6_checksum_ok|]. split; [apply hton16_range|].
  rewrite udp_ip6_checksum_ok; try done; [|by apply Forall_take|rewrite len_ztake; lia].
  by rewrite (ztake_all n (ztake n data)) by (rewrite len_ztake; lia).
Qed.
Lemma ipv4_checksum_value h : ipv4_header_ok h -> exists c, ipv4_checksum h [] 0 = Ret c /\ u16_ok c.
Proof.
  intros Hh. eexists. split; [by apply (ipv4_checksum_ok h [] 0 Hh (Forall_nil_2 _))|]. apply hton16_range.
Qed.

Lemma handler_ipv4 g buf lip lport rip rport data n :
  device_ready g buf -> baddr_ok (BADDR_IPV4 lip lport) -> baddr_ok (BADDR_IPV4 rip rport) ->
  bytes_ok data -> 0 <= n <= len data -> payload_fits g (BADDR_IPV4 lip lport) n ->
  exists buf' pkt,
    udpgw_client_handler_received g buf (BADDR_IPV4 lip lport) (BADDR_IPV4 rip rport) data n = Ret (buf', Some pkt) /\
    len buf' = len buf /\ len pkt = 28 + n /\
    process_device_udp_packet g pkt (28 + n) =
      Ret (Some (Submission (BADDR_IPV4 rip rport) (BADDR_IPV4 lip lport) 0 (ztake n data) n)).
Proof.
  intros Hg [Hli Hlp] [Hri Hrp] Hd Hn Hfit. pose proof (fits_udp_mtu _ _ _ _ Hg Hfit ltac:(lia)) as Hmtu.
  destruct Hg as (Hsrv & Hbuf & _), Hfit as [Hfit1 Hfit2]. cbn [header_size] in Hfit1.
  unfold udpgw_client_handler_received. rewrite Hsrv, (proj2 (Z.leb_le 0 n)) by lia.
  cbn [BAddr_type]. change (BADDR_TYPE_IPV4 =? BADDR_TYPE_IPV4) with true. cbn [orb check]. run_simpl.
  unfold sizeof_ipv4_header, sizeof_udp_header. ztest.
  rewrite !(u16_lt (_ + _)) by lia. rewrite (u16_lt n) by lia. change (IPV4_MAKE_VERSION_IHL 20) with 69.
  set (iph0 := Ipv4Header _ _ _ _ _ _ _ _ _ _).
  assert (Hi0 : ipv4_header_ok iph0) by (repeat split; by vm_compute).
  destruct (ipv4_checksum_value iph0 Hi0) as (c & Hic & Hc). rewrite Hic. run_simpl.
  set (iph := set_ip_checksum c iph0). set (udph0 := UdpHeader _ _ _ _).
  change (source_address iph) with rip. change (destination_address iph) with lip.
  destruct (udp_checksum_value udph0 data n rip lip Hd Hn) as (u & Hu & Huc & Hu'); [lia|].
  rewrite Hu. run_simpl. set (udph := set_udp_cksum u udph0).
  destruct (send_to_device_ok buf (ipv4_header_mem iph) (udp_header_mem udph) data n) as (buf' & Hsend & Hl);
    [done|rewrite len_ipv4_mem, len_udp_mem; lia|].
  exists buf', (ipv4_header_mem iph ++ udp_header_mem udph ++ ztake n data). split; [done|]. split; [done|].
  split; [rewrite !len_app, len_ipv4_mem, len_udp_mem, len_ztake by lia; lia|].
  rewrite (process_ipv4 g iph udph (ztake n data) n u); try done.
  - by rewrite Z.eqb_refl.
  - unfold ipv4_fields_ok. split_and!; first [done | apply hton16_range].
  - unfold udp_fields_ok. split_and!; first [done | apply hton16_range].
  - by apply Forall_take.
  - rewrite len_ztake; lia.
Qed.

Lemma handler_ipv6 g buf lip lport rip rport data n :
  device_ready g buf -> baddr_ok (BADDR_IPV6 lip lport) -> baddr_ok (BADDR_IPV6 rip rport) ->
  bytes_ok data -> 0 <= n <= len data -> payload_fits g (BADDR_IPV6 lip lport) n ->
  exists buf' pkt,
    udpgw_client_handler_received g buf (BADDR_IPV6 lip lport) (BADDR_IPV6 rip rport) data n = Ret (buf', Some pkt) /\
    len buf' = len buf /\ len pkt = 48 + n /\
    process_device_udp_packet g pkt (48 + n) =
      Ret (Some (Submission (BADDR_IPV6 rip rport) (BADDR_IPV6 lip lport) 0 (ztake n data) n)).
Proof.
  intros Hg (Hli & Lli & Hlp) (Hri & Lri & Hrp) Hd Hn Hfit.
  pose proof (fits_udp_mtu _ _ _ _ Hg Hfit ltac:(lia)) as Hmtu.
  destruct Hg as (Hsrv & Hbuf & _), Hfit as [Hfit1 [Hip6 Hfit2]]. cbn [header_size] in Hfit1.
  unfold udpgw_client_handler_received. rewrite Hsrv, (proj2 (Z.leb_le 0 n)) by lia.
  cbn [BAddr_type]. change (BADDR_TYPE_IPV6 =? BADDR_TYPE_IPV4) with false.
  change (BADDR_TYPE_IPV6 =? BADDR_TYPE_IPV6) with true. cbn [orb check]. run_simpl. rewrite Hip6. cbn [negb].
  unfold sizeof_ipv6_header, sizeof_udp_header. ztest.
  rewrite !rd_range_front by lia. run_simpl. rewrite !ztake_all by lia.
  rewrite !(u16_lt (_ + _)) by lia. rewrite (u16_lt n) by lia. change (Z.shiftl 6 4) with 96.
  set (iph := Ipv6Header _ _ _ _ _ _ _ _). set (udph0 := UdpHeader _ _ _ _).
  change (source_address6 iph) with rip. change (destination_address6 iph) with lip.
  destruct (udp_ip6_checksum_value udph0 data n rip lip Hd Hn) as (u & Hu & Huc & Hu'); [lia|done..|].
  rewrite Hu. run_simpl. set (udph := set_udp_cksum u udph0).
  pose proof (len_ipv6_mem iph Lri Lli) as Lm.
  destruct (send_to_device_ok buf (ipv6_header_mem iph) (udp_header_mem udph) data n) as (buf' & Hsend & Hl);
    [done|rewrite Lm, len_udp_mem; lia|].
  exists buf', (ipv6_header_mem iph ++ udp_header_mem udph ++ ztake n data). split; [done|]. split; [done|].
  split; [rewrite !len_app, Lm, len_udp_mem, len_ztake by lia; lia|].
  rewrite (process_ipv6 g iph udph (ztake n data) n); try done.
  - unfold udp_fields_ok. split_and!; first [done | apply hton16_range].
  - by apply Forall_take.
  - rewrite len_ztake; lia.
Qed.

(** C12: A reply of the gateway, written to the TUN device by
    [udpgw_client_handler_received], is a packet that [process_device_udp_packet]
    accepts: IPv4 or IPv6 header, checksums and lengths are right, and the
    program reads back the two addresses (with their roles exchanged) and
    exactly the payload, for every payload that fits in the device's MTU. *)
Theorem device_packet_roundtrip g buf local_addr remote_addr data n :
  device_ready g buf -> BAddr_type local_addr = BAddr_type remote_addr ->
  baddr_ok local_addr -> baddr_ok remote_addr ->
  bytes_ok data -> 0 <= n <= len data -> payload_fits g local_addr n ->
  exists buf' pkt,
    udpgw_client_handler_received g buf local_addr remote_addr data n = Ret (buf', Some pkt) /\
    len buf' = len buf /\ len pkt = header_size local_addr + n /\
    process_device_udp_packet g pkt (len pkt) =
      Ret (Some (Submission remote_addr local_addr 0 (ztake n data) n)).
Proof.
  intros Hg Ht Hl Hr Hd Hn Hfit.
  destruct local_addr as [|lip lport|lip lport], remote_addr as [|rip rport|rip rport]; try discriminate Ht.
  - by destruct Hfit.
  - destruct (handler_ipv4 g buf lip lport rip rport data n) as (buf' & pkt & ? & ? & Hlen & ?); try done.
    exists buf', pkt. by rewrite Hlen.
  - destruct (handler_ipv6 g buf lip lport rip rport data n) as (buf' & pkt & ? & ? & Hlen & ?); try done.
    exists buf', pkt. by rewrite Hlen.
Qed.

Lemma device_packet_roundtrip_witness :
  let g := TunGlobals true true 1500 (compute_udp_mtu 1500 true) in
  exists buf' pkt,
    udpgw_client_handler_received g (zrep 1500 0) (BADDR_IPV4 67305985 14640) (BADDR_IPV4 134678021 13568) [104; 105; 33] 3
      = Ret (buf', Some pkt) /\
    len buf' = 1500 /\ len pkt = 31 /\
    process_device_udp_packet g pkt (len pkt) =
      Ret (Some (Submission (BADDR_IPV4 134678021 13568) (BADDR_IPV4 67305985 14640) 0 [104; 105; 33] 3)).
Proof.
  intros g.
  apply (device_packet_roundtrip g (zrep 1500 0) (BADDR_IPV4 67305985 14640) (BADDR_IPV4 134678021 13568) [104; 105; 33] 3);
    repeat (split || apply Forall_cons_2 || apply Forall_nil_2); by vm_compute.
Defined.

(** ** Hostile packets *)

Lemma byte_field b : byte_ok b ->
  Z.shiftr (Z.land b 0xF0) 4 = b / 16 /\ Z.shiftr (Z.land b 0x0F) 0 = b mod 16.
Proof.
  unfold byte_ok. intros Hb. split.
  - rewrite Z.shiftr_land. change (Z.shiftr 0xF0 4) with (Z.ones 4). rewrite land_ones_mod, shiftr_div by lia.
    change (2 ^ 4) with 16. apply Z.mod_small. Z.to_euclidean_division_equations. lia.
  - rewrite Z.shiftr_0_r. change 0x0F with (Z.ones 4). by rewrite land_ones_mod by lia.
Qed.

(** A 20-byte block is the image of the header read from it; the same for UDP. *)
Lemma ipv4_header_of_bytes m : bytes_ok m -> len m = 20 ->
  exists h, ipv4_header_of m = Some h /\ ipv4_header_mem h = m /\ ipv4_header_ok h /\ u16_ok (ip_checksum h) /\
    m !! 0%nat = Some (version4_ihl4 h) /\ u32_ok (source_address h) /\ u32_ok (destination_address h).
Proof.
  intros Hm Hl. unfold bytes_ok in Hm.
  do 20 (destruct m as [|? m]; [by vm_compute in Hl|]). rewrite !len_cons in Hl.
  destruct m; [|rewrite len_cons in Hl; pose proof (len_nonneg m); lia].
  rewrite !Forall_cons_iff in Hm. decompose [and] Hm. clear Hm Hl.
  eexists. split; [reflexivity|]. unfold ipv4_header_mem, ipv4_header_ok.
  cbn [version4_ihl4 ds total_length identification flags3_fragmentoffset13 ttl protocol ip_checksum
       source_address destination_address].
  rewrite !le16_of_le, !le32_of_le by done.
  split; [done|]. split; [done|].
  match goal with |- u16_ok ?x /\ _ => change (u16_ok x) with (0 <= x < 256 ^ 2) end.
  split; [apply (of_le_bound [_; _]); bytes_ok_list|]. split; [done|].
  split; match goal with |- u32_ok ?x => change (u32_ok x) with (0 <= x < 256 ^ 4) end;
    apply (of_le_bound [_; _; _; _]); bytes_ok_list.
Qed.
Lemma udp_header_of_bytes m : bytes_ok m -> len m = 8 ->
  exists h, udp_header_of m = Some h /\ udp_header_mem h = m /\ udp_fields_ok h.
Proof.
  intros Hm Hl. unfold bytes_ok in Hm.
  do 8 (destruct m as [|? m]; [by vm_compute in Hl|]). rewrite !len_cons in Hl.
  destruct m; [|rewrite len_cons in Hl; pose proof (len_nonneg m); lia].
  rewrite !Forall_cons_iff in Hm. decompose [and] Hm. clear Hm Hl.
  eexists. split; [reflexivity|]. unfold udp_header_mem, udp_fields_ok.
  cbn [source_port dest_port udp_length udp_cksum]. rewrite !le16_of_le by done. split; [done|].
  split_and!; match goal with |- u16_ok ?x => change (u16_ok x) with (0 <= x < 256 ^ 2) end;
    apply (of_le_bound [_; _]); bytes_ok_list.
Qed.

Lemma ntoh16_range x : 0 <= ntoh16 x < 65536.
Proof. apply hton16_range. Qed.
Lemma set_ip_checksum_self h : set_ip_checksum (ip_checksum h) h = h.
Proof. by destruct h. Qed.
Lemma set_udp_cksum_self h : set_udp_cksum (udp_cksum h) h = h.
Proof. by destruct h. Qed.
Lemma words_set_udp_cksum h c : 0 <= c < 65536 ->
  words (udp_header_mem (set_udp_cksum (hton16 c) h)) = words (udp_header_mem (set_udp_cksum 0 h)) + c.
Proof.
  intros Hc. unfold udp_header_mem, set_udp_cksum. cbn [source_port dest_port udp_length udp_cksum].
  rewrite hton16_mem by done. rewrite !words_app by done. rewrite words_be16 by done. change (words (le16 0)) with 0. lia.
Qed.

Lemma slice_prefix (l : bytes) off k m : 0 <= off -> 0 <= k -> off + k <= m ->
  ztake k (zdrop off (ztake m l)) = ztake k (zdrop off l).
Proof.
  intros. unfold ztake, zdrop. rewrite !take_drop_commute, take_take. do 2 f_equal. lia.
Qed.
(** A 16-bit field of a header in network order. *)
Definition field16 (l : bytes) (off : Z) : Z := of_be 0 (ztake 2 (zdrop off l)).
Lemma ntoh16_of_be x : ntoh16 x = of_be 0 (le16 x).
Proof. unfold ntoh16, hton16, badvpn_reverse16, le16. cbn [rev app of_le of_be]. lia. Qed.
Lemma field16_mem x m l off n : m = ztake n l -> 0 <= off -> off + 2 <= n -> ztake 2 (zdrop off m) = le16 x -> field16 l off = ntoh16 x.
Proof. intros -> H0 Hn E. unfold field16. rewrite ntoh16_of_be, <- E. by rewrite slice_prefix by lia. Qed.
Lemma rd_first b k n (l : bytes) : b :: k = ztake n l -> rd l 0 = Ret b.
Proof. intros E. destruct l as [|c l]; [unfold ztake in E; by rewrite take_nil in E|]. unfold ztake in E. destruct (Z.to_nat n); [done|]. by injection E as ->. Qed.

(** Any bytes: [ipv4_check] answers, and what it accepts is well formed. *)
Lemma ipv4_check_any data n : bytes_ok data -> 0 <= n <= len data ->
  exists r, ipv4_check data n = Ret r /\
    match r with
    | None => True
    | Some (h, d, m) => exists hl, (exists b, rd data 0 = Ret b /\ b / 16 = 4 /\ hl = b mod 16 * 4) /\ hl + m = field16 data 2 /\
        20 <= hl <= 60 /\ 0 <= m /\ hl + m <= n /\ hl + m <= 65535 /\ d = zdrop hl data /\
        ipv4_header_mem h = ztake 20 data /\ u32_ok (source_address h) /\ u32_ok (destination_address h) /\
        ones (words (ztake hl data)) = 65535
    end.
Proof.
  intros Hd Hn. unfold ipv4_check, sizeof_ipv4_header. rewrite (proj2 (Z.leb_le 0 n)) by lia. cbn [check]. run_simpl.
  destruct (Z.ltb_spec n 20); [by exists None|].
  rewrite rd_range_front by lia. run_simpl.
  destruct (ipv4_header_of_bytes (ztake 20 data)) as (h & -> & Hmem & Hok & Hcks & _ & Hsa & Hda);
    [by apply Forall_take|rewrite len_ztake; lia|].
  run_simpl. unfold IPV4_GET_VERSION, IPV4_GET_IHL. destruct (byte_field (version4_ihl4 h)) as [-> ->]; [apply Hok|].
  destruct (Z.eqb_spec (version4_ihl4 h / 16) 4) as [Hv|]; cbn [negb]; [|by exists None].
  pose proof (Z.mod_pos_bound (version4_ihl4 h) 16). rewrite u16_lt by lia.
  set (hl := version4_ihl4 h mod 16 * 4) in *.
  destruct (Z.ltb_spec hl 20); [by exists None|]. rewrite Z.gtb_ltb. destruct (Z.ltb_spec n hl); [by exists None|].
  pose proof (ntoh16_range (total_length h)).
  destruct (Z.ltb_spec (ntoh16 (total_length h)) hl); [by exists None|].
  rewrite Z.gtb_ltb. destruct (Z.ltb_spec n (ntoh16 (total_length h))); [by exists None|].
  rewrite u16_lt by lia.
  assert (Hev : (hl - 20) mod 2 = 0) by (unfold hl; Z.to_euclidean_division_equations; lia).
  set (h0 := set_ip_checksum (hton16 0) h).
  rewrite (ipv4_checksum_ok h0) by (done || by apply Forall_drop || (rewrite ?len_zdrop by lia; lia)). run_simpl.
  set (S0 := words (ipv4_header_mem h0) + words (ztake (hl - 20) (zdrop 20 data))).
  destruct (Z.eqb_spec (ip_checksum h) (hton16 (65535 - ones S0))) as [E|]; cbn [negb]; [|by exists None].
  eexists. split; [done|]. exists hl. unfold h0. change (set_ip_checksum (ip_checksum h) (set_ip_checksum (hton16 0) h))
    with (set_ip_checksum (ip_checksum h) h). rewrite set_ip_checksum_self.
  split; [exists (version4_ihl4 h); split; [by eapply rd_first, Hmem|done]|].
  split; [rewrite (field16_mem (total_length h) _ data 2 20 Hmem) by (done || lia); lia|].
  do 8 (split; [done || lia|]).
  assert (HS0 : 0 < S0).
  { assert (Hh0 : bytes_ok (ipv4_header_mem h0)) by (apply ipv4_mem_ok; exact Hok).
    pose proof (words_bound (ztake (hl - 20) (zdrop 20 data)) (Forall_take _ _ _ (Forall_drop _ _ _ Hd))).
    unfold ipv4_header_mem in Hh0. rewrite bytes_ok_app in Hh0. destruct Hh0 as [_ Hr].
    apply words_bound in Hr as [Hr _]. unfold S0, ipv4_header_mem. rewrite words_app by done.
    cbn [words]. destruct Hok as (Hv1 & Hd1 & _). unfold byte_ok in *. change (version4_ihl4 h0) with (version4_ihl4 h).
    change (ds h0) with (ds h).
    assert (64 <= version4_ihl4 h) by (Z.to_euclidean_division_equations; lia). lia. }
  pose proof (ones_range S0). pose proof (words_set_ip_checksum h (65535 - ones S0)) as Hw.
  rewrite <- E, set_ip_checksum_self, Hmem in Hw. fold h0 in Hw.
  replace (ztake hl data) with (ztake 20 data ++ ztake (hl - 20) (zdrop 20 data)).
  - rewrite words_app by (rewrite len_ztake by lia; done). rewrite Hw by lia.
    etrans; [|apply (ones_complement S0 HS0)]. f_equal.
    assert (S0 = words (ipv4_header_mem h0) + words (ztake (hl - 20) (zdrop 20 data))) by done. lia.
  - rewrite <- (ztake_zdrop 20 data) at 3. rewrite ztake_app_r by (rewrite len_ztake; lia).
    rewrite len_ztake by lia. done.
Qed.

Lemma udp_check_any data n : bytes_ok data -> 0 <= n <= len data ->
  exists r, udp_check data n = Ret r /\
    match r with
    | None => True
    | Some (h, d, m) => 8 + m = field16 data 4 /\ 0 <= m /\ 8 + m <= n /\ 8 + m <= 65535 /\ d = zdrop 8 data /\
        udp_header_mem h = ztake 8 data /\ udp_fields_ok h
    end.
Proof.
  intros Hd Hn. unfold udp_check, sizeof_udp_header. rewrite (proj2 (Z.leb_le 0 n)) by lia. cbn [check]. run_simpl.
  destruct (Z.ltb_spec n 8); [by exists None|].
  rewrite rd_range_front by lia. run_simpl.
  destruct (udp_header_of_bytes (ztake 8 data)) as (h & -> & Hmem & Hok); [by apply Forall_take|rewrite len_ztake; lia|].
  run_simpl. pose proof (ntoh16_range (udp_length h)).
  destruct (Z.ltb_spec (ntoh16 (udp_length h)) 8); [by exists None|].
  rewrite Z.gtb_ltb. destruct (Z.ltb_spec (8 + (n - 8)) (ntoh16 (udp_length h))); [by exists None|].
  eexists. split; [done|]. rewrite (field16_mem (udp_length h) _ data 4 8 Hmem) by (done || lia).
  split_and!; try done; try lia; apply Hok.
Qed.

(** The checksum in a datagram that was compared equal makes the sum of the
    pseudo header and the datagram all ones. *)
Lemma udp_sum_verified pseudo h data m : 0 < pseudo -> bytes_ok data -> 0 <= m -> 8 + m <= len data ->
  udp_header_mem h = ztake 8 data ->
  udp_cksum h = hton16 (65535 - ones (pseudo + words (udp_header_mem (set_udp_cksum 0 h)) + words (ztake m (zdrop 8 data)))) ->
  ones (pseudo + words (ztake (8 + m) data)) = 65535.
Proof.
  intros Hp Hd Hm Hl Hmem E.
  pose proof (words_bound _ (udp_mem_ok (set_udp_cksum 0 h))) as [Hb1 _].
  pose proof (words_bound (ztake m (zdrop 8 data)) (Forall_take _ _ _ (Forall_drop _ _ _ Hd))) as [Hb2 _].
  set (S0 := pseudo + words (udp_header_mem (set_udp_cksum 0 h)) + words (ztake m (zdrop 8 data))) in *.
  assert (HS : S0 = pseudo + words (udp_header_mem (set_udp_cksum 0 h)) + words (ztake m (zdrop 8 data))) by done.
  clearbody S0. pose proof (ones_range S0). pose proof (words_set_udp_cksum h (65535 - ones S0)) as Hw.
  rewrite <- E, set_udp_cksum_self, Hmem in Hw.
  replace (ztake (8 + m) data) with (ztake 8 data ++ ztake m (zdrop 8 data)).
  - rewrite words_app by (rewrite len_ztake by lia; done). etrans; [|apply (ones_complement S0); lia].
    f_equal. lia.
  - rewrite <- (ztake_zdrop 8 data) at 3. rewrite ztake_app_r by (rewrite len_ztake; lia).
    rewrite len_ztake by lia. do 2 f_equal. lia.
Qed.

Lemma pseudo4_pos src dst n : 0 <= n -> 0 < pseudo4 src dst n.
Proof.
  intros. unfold pseudo4. pose proof (words_bound (le32 src) ltac:(auto with arr)).
  pose proof (words_bound (le32 dst) ltac:(auto with arr)). lia.
Qed.
Lemma pseudo6_pos src dst n : bytes_ok src -> bytes_ok dst -> 0 < pseudo6 src dst n.
Proof.
  intros Hs Hd. unfold pseudo6. pose proof (words_bound src Hs). pose proof (words_bound dst Hd).
  pose proof (words_bound (be32 (8 + n)) ltac:(auto with arr)). lia.
Qed.

(** The UDP part of an accepted packet: [u] is the packet after its IP header,
    [room] the length of it that the IP header states. *)
Definition accepted_udp (g : tun_globals) (u : bytes) (room pseudo : Z) (sport dport : Z) (s : submission) : Prop :=
  sub_is_dns s = 0 /\ 0 <= sub_len s <= udp_mtu g /\ 8 + sub_len s = field16 u 4 /\ 8 + sub_len s <= room /\
  sub_data s = zdrop 8 u /\ le16 sport = ztake 2 u /\ le16 dport = ztake 2 (zdrop 2 u) /\
  ones (pseudo + words (ztake (8 + sub_len s) u)) = 65535.

(** What is known of a packet whose payload was handed to the gateway client: the
    UDP length lies within the payload length of the IP header, which lies within
    the [n] bytes received. *)
Definition accepted_packet (g : tun_globals) (data : bytes) (n : Z) (s : submission) : Prop :=
  match sub_local s, sub_remote s with
  | BADDR_IPV4 src sport, BADDR_IPV4 dst dport =>
      exists b hl, rd data 0 = Ret b /\ b / 16 = 4 /\ hl = b mod 16 * 4 /\ 20 <= hl /\ hl <= field16 data 2 <= n /\
        rd data 9 = Ret IPV4_PROTOCOL_UDP /\
        le32 src = ztake 4 (zdrop 12 data) /\ le32 dst = ztake 4 (zdrop 16 data) /\
        ones (words (ztake hl data)) = 65535 /\
        accepted_udp g (zdrop hl data) (field16 data 2 - hl) (pseudo4 src dst (sub_len s)) sport dport s
  | BADDR_IPV6 src sport, BADDR_IPV6 dst dport =>
      netif_ip6addr g = true /\ (exists b, rd data 0 = Ret b /\ b / 16 = 6) /\ 40 + field16 data 4 <= n /\
      rd data 6 = Ret IPV6_NEXT_UDP /\
      src = ztake 16 (zdrop 8 data) /\ dst = ztake 16 (zdrop 24 data) /\
      accepted_udp g (zdrop 40 data) (field16 data 4) (pseudo6 src dst (sub_len s)) sport dport s
  | _, _ => False
  end.

(** The part of both branches after the IP header: [ck] is the checksum that
    the branch computes and [pseudo] its pseudo header. *)
Lemma accept_udp g u room h d m pseudo local remote :
  bytes_ok u -> 0 <= m -> 8 + m = field16 u 4 -> 8 + m <= room -> room <= len u -> d = zdrop 8 u ->
  udp_header_mem h = ztake 8 u -> 0 < pseudo ->
  udp_cksum h = hton16 (65535 - ones (pseudo + words (udp_header_mem (set_udp_cksum 0 h)) + words (ztake m d))) ->
  exists r, submit_udp g local remote d m = Ret r /\
    match r with
    | None => True
    | Some s => sub_local s = local /\ sub_remote s = remote /\ sub_len s = m /\
        accepted_udp g u room pseudo (source_port h) (dest_port h) s
    end.
Proof.
  intros Hu Hm Hf Hroom Hl -> Hmem Hp Hc. unfold submit_udp. rewrite Z.gtb_ltb.
  destruct (Z.ltb_spec (udp_mtu g) m); [by exists None|].
  eexists. split; [done|]. cbn [sub_local sub_remote sub_len]. do 3 (split; [done|]).
  unfold accepted_udp. cbn [sub_is_dns sub_len sub_data]. do 4 (split; [done || lia|]). split; [done|].
  split; [change (ztake 2 u) with (ztake 2 (zdrop 0 u)); rewrite <- (slice_prefix u 0 2 8) by lia; by rewrite <- Hmem|].
  split; [rewrite <- (slice_prefix u 2 2 8) by lia; by rewrite <- Hmem|].
  apply (udp_sum_verified pseudo h u m); done || lia.
Qed.

Lemma process_ipv4_any g data n : bytes_ok data -> 0 <= n <= len data ->
  exists r, process_ipv4_case g data n = Ret r /\ match r with None => True | Some s => accepted_packet g data n s end.
Proof.
  intros Hd Hn. unfold process_ipv4_case. destruct (Z.ltb_spec n sizeof_ipv4_header); [by exists None|].
  unfold sizeof_ipv4_header in *. destruct (rd_ok data 9) as (proto & H9 & _); [lia|]. rewrite H9. run_simpl.
  destruct (Z.eqb_spec proto IPV4_PROTOCOL_UDP) as [->|]; cbn [negb]; [|by exists None].
  destruct (ipv4_check_any data n Hd Hn) as ([[[h d] m]|] & -> & Hchk); run_simpl; [|by exists None].
  destruct Hchk as (hl & (b0 & Hb0 & Hv4 & Hihl) & Htl & Hhl & Hm & Hroom & Hmax & -> & Hmem & Hsa & Hda & Hones).
  pose proof (Forall_drop _ (Z.to_nat hl) _ Hd : bytes_ok (zdrop hl data)) as Hd'.
  pose proof (len_zdrop hl data ltac:(lia)) as Hlen.
  destruct (udp_check_any (zdrop hl data) m Hd') as ([[[uh d2] k]|] & -> & Hchk); [lia| |by exists None]. run_simpl.
  destruct Hchk as (Hulen & Hk & Hkm & Hkmax & Hd2 & Humem & Hufields).
  pose proof (Forall_drop _ (Z.to_nat 8) _ Hd' : bytes_ok (zdrop 8 (zdrop hl data))) as Hd2'.
  pose proof (len_zdrop 8 (zdrop hl data) ltac:(lia)) as Hlen2.
  rewrite u16_lt by lia. rewrite udp_checksum_ok; [|by subst|subst; lia|lia]. run_simpl. cbv zeta.
  match goal with |- context [udp_cksum uh =? ?c] => destruct (Z.eqb_spec (udp_cksum uh) c) as [E|] end;
    cbn [negb]; [|by exists None].
  destruct (accept_udp g (zdrop hl data) (field16 data 2 - hl) uh d2 k (pseudo4 (source_address h) (destination_address h) k)
    (BAddr_InitIPv4 (source_address h) (source_port uh)) (BAddr_InitIPv4 (destination_address h) (dest_port uh)))
    as (r & Hr & Hacc); try done; try lia; [by apply pseudo4_pos|].
  exists r. split; [exact Hr|]. destruct r as [s|]; [|done]. destruct Hacc as (Hsl & Hsr & Hsn & Hacc).
  unfold accepted_packet. rewrite Hsl, Hsr, Hsn. cbn -[field16]. exists b0, hl. do 3 (split; [done|]). do 2 (split; [lia|]). split; [done|].
  split; [rewrite <- (slice_prefix data 12 4 20) by lia; by rewrite <- Hmem|].
  split; [rewrite <- (slice_prefix data 16 4 20) by lia; by rewrite <- Hmem|]. done.
Qed.

Lemma ipv6_header_of_bytes m : bytes_ok m -> len m = 40 ->
  exists h, ipv6_header_of m = Some h /\ source_address6 h = ztake 16 (zdrop 8 m) /\ destination_address6 h = zdrop 24 m /\
    (exists k, m = version4_tc4 h :: k) /\ ztake 2 (zdrop 4 m) = le16 (payload_length h).
Proof.
  intros Hm Hl. unfold bytes_ok in Hm.
  do 8 (destruct m as [|? m]; [by vm_compute in Hl|]).
  eexists. split; [reflexivity|]. cbn [source_address6 destination_address6]. split; [done|].
  split; [change 24 with (8 + 16) at 1; by rewrite <- (zdrop_zdrop 16 8) by lia|]. split; [by eexists|].
  cbn [payload_length]. rewrite !Forall_cons_iff in Hm. decompose [and] Hm. by rewrite le16_of_le.
Qed.

Lemma ipv6_check_any data n : bytes_ok data -> 0 <= n <= len data ->
  exists r, ipv6_check data n = Ret r /\
    match r with
    | None => True
    | Some (h, d, m) => (exists b, rd data 0 = Ret b /\ b / 16 = 6) /\ m = field16 data 4 /\
        0 <= m /\ 40 + m <= n /\ m <= 65535 /\ d = zdrop 40 data /\
        source_address6 h = ztake 16 (zdrop 8 data) /\ destination_address6 h = ztake 16 (zdrop 24 data)
    end.
Proof.
  intros Hd Hn. unfold ipv6_check, sizeof_ipv6_header. rewrite (proj2 (Z.leb_le 0 n)) by lia. cbn [check]. run_simpl.
  destruct (Z.ltb_spec n 40); [by exists None|]. rewrite rd_range_front by lia. run_simpl.
  destruct (ipv6_header_of_bytes (ztake 40 data)) as (h & -> & Hs & Hda & (k & Hk) & Hpl);
    [by apply Forall_take|rewrite len_ztake; lia|].
  run_simpl. destruct (Z.eqb_spec (Z.shiftr (version4_tc4 h) 4) 6) as [Hv|]; cbn [negb]; [|by exists None].
  pose proof (ntoh16_range (payload_length h)).
  rewrite Z.gtb_ltb. destruct (Z.ltb_spec (n - 40) (ntoh16 (payload_length h))); [by exists None|].
  eexists. split; [done|]. rewrite shiftr_div in Hv by lia.
  split; [exists (version4_tc4 h); split; [by eapply rd_first|done]|].
  split; [by rewrite (field16_mem (payload_length h) _ data 4 40 eq_refl) by (done || lia)|].
  split_and!; try lia; [done|by rewrite Hs, slice_prefix by lia|].
  rewrite Hda. rewrite <- (slice_prefix data 24 16 40) by lia. symmetry. apply ztake_all.
  rewrite len_zdrop; rewrite len_ztake; lia.
Qed.

Lemma process_ipv6_any g data n : bytes_ok data -> 0 <= n <= len data ->
  exists r, process_ipv6_case g data n = Ret r /\ match r with None => True | Some s => accepted_packet g data n s end.
Proof.
  intros Hd Hn. unfold process_ipv6_case. destruct (netif_ip6addr g) eqn:Hip6; cbn [negb]; [|by exists None].
  destruct (Z.ltb_spec n sizeof_ipv6_header); [by exists None|]. unfold sizeof_ipv6_header in *.
  destruct (rd_ok data 6) as (proto & H6 & _); [lia|]. rewrite H6. run_simpl.
  destruct (Z.eqb_spec proto IPV6_NEXT_UDP) as [->|]; cbn [negb]; [|by exists None].
  destruct (ipv6_check_any data n Hd Hn) as ([[[h d] m]|] & -> & H'); run_simpl; [|by exists None].
  destruct H' as ((b0 & Hb0 & Hv6) & Hpl & Hm & Hroom & Hmax & -> & Hs & Hda).
  pose proof (Forall_drop _ (Z.to_nat 40) _ Hd : bytes_ok (zdrop 40 data)) as Hd'.
  pose proof (len_zdrop 40 data ltac:(lia)) as Hlen.
  destruct (udp_check_any (zdrop 40 data) m Hd') as ([[[uh d2] k]|] & -> & H'); [lia| |by exists None]. run_simpl.
  destruct H' as (Hulen & Hk & Hkm & Hkmax & Hd2 & Humem & Hufields).
  pose proof (Forall_drop _ (Z.to_nat 8) _ Hd' : bytes_ok (zdrop 8 (zdrop 40 data))) as Hd2'.
  pose proof (len_zdrop 8 (zdrop 40 data) ltac:(lia)) as Hlen2.
  assert (Hsb : bytes_ok (source_address6 h)) by (rewrite Hs; by apply Forall_take, Forall_drop).
  assert (Hdb : bytes_ok (destination_address6 h)) by (rewrite Hda; by apply Forall_take, Forall_drop).
  assert (Hsl : len (source_address6 h) = 16) by (rewrite Hs, len_ztake; rewrite ?len_zdrop; lia).
  assert (Hdl : len (destination_address6 h) = 16) by (rewrite Hda, len_ztake; rewrite ?len_zdrop; lia).
  rewrite u16_lt by lia. rewrite udp_ip6_checksum_ok; try done; [|by subst|subst; lia|lia]. run_simpl. cbv zeta.
  match goal with |- context [udp_cksum uh =? ?c] => destruct (Z.eqb_spec (udp_cksum uh) c) as [E|] end;
    cbn [negb]; [|by exists None].
  unfold BAddr_InitIPv6, BAddr_MakeIPv6. rewrite !rd_range_front by lia. run_simpl. rewrite !ztake_all by lia.
  destruct (accept_udp g (zdrop 40 data) (field16 data 4) uh d2 k (pseudo6 (source_address6 h) (destination_address6 h) k)
    (BADDR_IPV6 (source_address6 h) (source_port uh)) (BADDR_IPV6 (destination_address6 h) (dest_port uh)))
    as (r & Hr & Hacc); try done; try lia; [by apply pseudo6_pos|].
  exists r. split; [exact Hr|]. destruct r as [s|]; [|done]. destruct Hacc as (Hl & Hr' & Hsn & Hacc).
  unfold accepted_packet. rewrite Hl, Hr', Hsn. split_and!; try done; [by exists b0|lia].
Qed.

(** C13: [process_device_udp_packet] takes any bytes the device delivers, cut
    anywhere: it never reads outside the packet and never fails an assertion,
    and a payload it hands to the gateway client lies inside the packet, belongs
    to a UDP packet whose lengths nest, whose IP header and UDP checksums
    verify, and comes with the addresses and ports of its headers. *)
Theorem process_device_hostile_packet g data n : bytes_ok data -> 0 <= n <= len data ->
  exists r, process_device_udp_packet g data n = Ret r /\
    match r with None => True | Some s => accepted_packet g data n s end.
Proof.
  intros Hd Hn. unfold process_device_udp_packet. rewrite (proj2 (Z.leb_le 0 n)) by lia. cbn [check]. run_simpl.
  rewrite Z.gtb_ltb. destruct (Z.ltb_spec 0 n); [|by exists None].
  destruct (rd_ok data 0) as (b & -> & _); [lia|]. run_simpl.
  destruct (Z.shiftr b 4 =? 4); [by apply process_ipv4_any|].
  destruct (Z.shiftr b 4 =? 6); [by apply process_ipv6_any|by exists None].
Qed.

Lemma process_device_hostile_packet_witness :
  exists r, process_device_udp_packet (TunGlobals true true 1500 1472) (69 :: zrep 8 0 ++ 17 :: zrep 18 1) 28 = Ret r /\
    match r with None => True | Some s => accepted_packet (TunGlobals true true 1500 1472) (69 :: zrep 8 0 ++ 17 :: zrep 18 1) 28 s end.
Proof.
  apply process_device_hostile_packet; [|by vm_compute].
  apply (bool_decide_unpack _). by vm_compute.
Defined.

(** C34: Two encodings of the UDP checksum that RFC 768 defines are refused by
    [process_device_udp_packet]: a datagram sent without a checksum (field 0),
    and one whose checksum computes to zero and is therefore sent as all ones.
    [udp_checksum] replaces an all-zero sum instead of an all-zero checksum, so
    it yields 0 where the sender has to write 65535.  Both packets fall through
    to the TCP/IP stack. *)
Theorem rfc768_checksums_refused g iph udph payload n :
  ipv4_fields_ok iph -> version4_ihl4 iph = 69 -> protocol iph = IPV4_PROTOCOL_UDP ->
  total_length iph = hton16 (28 + n) ->
  ipv4_checksum (set_ip_checksum (hton16 0) iph) [] 0 = Ret (ip_checksum iph) ->
  udp_fields_ok udph -> udp_length udph = hton16 (8 + n) ->
  bytes_ok payload -> n = len payload -> 28 + n <= 65535 -> n <= udp_mtu g ->
  let sum := ones (pseudo4 (source_address iph) (destination_address iph) n +
                   words (udp_header_mem (set_udp_cksum 0 udph)) + words payload) in
  let pkt := ipv4_header_mem iph ++ udp_header_mem udph ++ payload in
  (udp_cksum udph = 0 /\ sum <> 65535) \/ (udp_cksum udph = 65535 /\ sum = 65535) ->
  process_device_udp_packet g pkt (len pkt) = Ret None /\
  device_read_handler_send g true true pkt (len pkt) = Ret (InputToStack pkt).
Proof.
  intros Hip Hv Hp Htl Hck Hudp Hul Hpl Hn Hfit Hmtu sum pkt Hcase.
  assert (Hlen : len pkt = 28 + n) by (unfold pkt; rewrite !len_app, len_ipv4_mem, len_udp_mem; lia).
  pose proof (len_nonneg payload).
  assert (Hnone : process_device_udp_packet g pkt (28 + n) = Ret None).
  { unfold pkt. rewrite (process_ipv4 g iph udph payload n (hton16 (65535 - sum))); try done.
    - destruct (Z.eqb_spec (udp_cksum udph) (hton16 (65535 - sum))) as [E|]; [|done]. exfalso.
      pose proof (ones_range (pseudo4 (source_address iph) (destination_address iph) n +
                              words (udp_header_mem (set_udp_cksum 0 udph)) + words payload)) as Hr. fold sum in Hr.
      pose proof (pseudo4_pos (source_address iph) (destination_address iph) n).
      pose proof (words_bound _ (udp_mem_ok (set_udp_cksum 0 udph))). pose proof (words_bound _ Hpl).
      destruct Hcase as [[E0 Hs]|[E0 Hs]]; rewrite E0 in E.
      + apply Hs. apply (f_equal ntoh16) in E. rewrite hton16_involutive in E by lia. change (ntoh16 0) with 0 in E. lia.
      + rewrite Hs in E. by vm_compute in E.
    - rewrite udp_checksum_ok by (done || lia). by rewrite ztake_all by lia. }
  rewrite Hlen. split; [done|]. unfold device_read_handler_send. rewrite (proj2 (Z.leb_le 0 (28 + n))) by lia.
  cbn [check]. run_simpl. rewrite Hnone. run_simpl. rewrite Z.gtb_ltb. ztest.
  rewrite rd_range_front by lia. run_simpl. by rewrite ztake_all by lia.
Qed.

(** A DNS query whose checksum computes to zero, and the same without a checksum. *)
Definition example_iph : ipv4_header :=
  Ipv4Header 69 0 (hton16 30) 0 0 64 17 48234 67305985 134678021.
Definition example_udph (c : Z) : udp_header := UdpHeader 14640 13568 (hton16 10) c.

Lemma rfc768_checksums_refused_witness :
  let g := TunGlobals true true 1500 1472 in
  let pkt1 := ipv4_header_mem example_iph ++ udp_header_mem (example_udph 65535) ++ [191; 88] in
  let pkt2 := ipv4_header_mem example_iph ++ udp_header_mem (example_udph 0) ++ [1; 2] in
  (process_device_udp_packet g pkt1 (len pkt1) = Ret None /\
   device_read_handler_send g true true pkt1 (len pkt1) = Ret (InputToStack pkt1)) /\
  (process_device_udp_packet g pkt2 (len pkt2) = Ret None /\
   device_read_handler_send g true true pkt2 (len pkt2) = Ret (InputToStack pkt2)).
Proof.
  intros g pkt1 pkt2.
  split; [apply (rfc768_checksums_refused g example_iph (example_udph 65535) [191; 88] 2)
         |apply (rfc768_checksums_refused g example_iph (example_udph 0) [1; 2] 2)];
    try (repeat split; by vm_compute); try (bytes_ok_list; by vm_compute);
    [right|left]; split; by vm_compute.
Defined.
