(* ===== verification/Bavl.v ===== *)
(** * AVL trees with parent pointers ([structure/BAVL.h])

    The nodes live in a memory from addresses to [BAVLNode]s, as the C program
    embeds them in the objects that a tree indexes; the tree itself is its root
    pointer.  [value] gives the value stored next to a node ([node + offset]);
    it is an argument of every operation that compares, because the owner may
    change the value of a node that is not in the tree.  The feature
    [BAVL_COUNT] is not compiled into the program and not modelled. *)
From stdpp Require Import gmap.
From S2P Require Import Prelude Addr.

Abbreviation loc := positive (only parsing).
Abbreviation ptr := (option positive).

Record BAVLNode := MkNode { n_parent : ptr; n_link0 : ptr; n_link1 : ptr; n_balance : Z }.
Record BAVL := MkTree { root : ptr; mem : gmap positive BAVLNode }.

(** A side: [true] is the index 1 of [link]. *)
Definition n_link (n : BAVLNode) (side : bool) : ptr := if side then n_link1 n else n_link0 n.

Definition upd_parent (p : ptr) (n : BAVLNode) : BAVLNode := MkNode p (n_link0 n) (n_link1 n) (n_balance n).
Definition upd_link (side : bool) (p : ptr) (n : BAVLNode) : BAVLNode :=
  if side then MkNode (n_parent n) (n_link0 n) p (n_balance n)
  else MkNode (n_parent n) p (n_link1 n) (n_balance n).
Definition upd_balance (b : Z) (n : BAVLNode) : BAVLNode := MkNode (n_parent n) (n_link0 n) (n_link1 n) b.

(** The memory of a new node, and of a node that its owner gives up. *)
Definition tree_alloc (x : positive) (n : BAVLNode) (t : BAVL) : BAVL := MkTree (root t) (<[x := n]> (mem t)).
Definition tree_free (x : positive) (t : BAVL) : BAVL := MkTree (root t) (delete x (mem t)).

(** Reads and writes through a pointer. *)
Definition load (o : BAVL) (p : ptr) : run BAVLNode :=
  x ← deref p; match mem o !! x with Some n => Ret n | None => Fail OutOfBounds end.
Definition store (o : BAVL) (p : ptr) (f : BAVLNode -> BAVLNode) : run BAVL :=
  x ← deref p;
  match mem o !! x with Some n => Ret (MkTree (root o) (<[x := f n]> (mem o))) | None => Fail OutOfBounds end.

Definition parent_of (o : BAVL) (p : ptr) : run ptr := n ← load o p; Ret (n_parent n).
Definition link_of (o : BAVL) (p : ptr) (side : bool) : run ptr := n ← load o p; Ret (n_link n side).
Definition balance_of (o : BAVL) (p : ptr) : run Z := n ← load o p; Ret (n_balance n).
Definition set_parent (o : BAVL) (p q : ptr) : run BAVL := store o p (upd_parent q).
Definition set_link (o : BAVL) (p : ptr) (side : bool) (q : ptr) : run BAVL := store o p (upd_link side q).
Definition set_balance (o : BAVL) (p : ptr) (b : Z) : run BAVL := store o p (upd_balance (s8 b)).
Definition set_root (o : BAVL) (p : ptr) : BAVL := MkTree p (mem o).

(** [if (p) { p->parent = q; }] *)
Definition set_parent_if (o : BAVL) (p q : ptr) : run BAVL :=
  match p with Some _ => set_parent o p q | None => Ret o end.

(** [if (par) { par->link[old == par->link[1]] = new; } else { tree->root = new; }] *)
Definition replace_child (o : BAVL) (par old new : ptr) : run BAVL :=
  match par with
  | Some _ => l1 ← link_of o par true; set_link o par (bool_decide (old = l1)) new
  | None => Ret (set_root o new)
  end.

Definition BAVL_MAX (a b : Z) : Z := if a >? b then a else b.
Definition BAVL_OPTNEG (a : Z) (neg : bool) : Z := if neg then - a else a.

(** ** Rotation, replacement and exchange of nodes *)

Definition BAVL_rotate (tree : BAVL) (r : ptr) (dir : bool) : run BAVL :=
  nr ← link_of tree r (negb dir);
  c ← link_of tree nr dir;
  tree ← set_link tree r (negb dir) c;
  c ← link_of tree r (negb dir);
  tree ← set_parent_if tree c r;
  tree ← set_link tree nr dir r;
  p ← parent_of tree r;
  tree ← set_parent tree nr p;
  p ← parent_of tree nr;
  tree ← replace_child tree p r nr;
  set_parent tree r nr.

Fixpoint BAVL_subtree_max (fuel : nat) (o : BAVL) (n : ptr) : run ptr :=
  r ← link_of o n true;
  match r with
  | None => Ret n
  | Some _ => match fuel with O => Fail OutOfFuel | S fuel => BAVL_subtree_max fuel o r end
  end.

Definition BAVL_replace_subtree (tree : BAVL) (dest n : ptr) : run BAVL :=
  p ← parent_of tree dest;
  tree ← replace_child tree p dest n;
  match n with
  | Some _ => p ← parent_of tree dest; set_parent tree n p
  | None => Ret tree
  end.

(** [a->link[side] = q; if (q) { q->parent = a; }] *)
Definition adopt (tree : BAVL) (a : ptr) (side : bool) (q : ptr) : run BAVL :=
  tree ← set_link tree a side q; set_parent_if tree q a.

Definition swap_connected (tree : BAVL) (n1 n2 : ptr) : run BAVL :=
  l1 ← link_of tree n1 true;
  let side := bool_decide (n2 = l1) in
  c ← link_of tree n1 (negb side);
  q ← link_of tree n2 false; tree ← adopt tree n1 false q;
  q ← link_of tree n2 true; tree ← adopt tree n1 true q;
  p ← parent_of tree n1; tree ← set_parent tree n2 p;
  tree ← replace_child tree p n1 n2;
  tree ← set_link tree n2 side n1;
  tree ← set_parent tree n1 n2;
  adopt tree n2 (negb side) c.

Definition swap_apart (tree : BAVL) (n1 n2 : ptr) : run BAVL :=
  (* swap parents *)
  temp ← parent_of tree n1;
  p ← parent_of tree n2; tree ← set_parent tree n1 p;
  tree ← replace_child tree p n2 n1;
  tree ← set_parent tree n2 temp;
  tree ← replace_child tree temp n1 n2;
  (* swap left children *)
  temp ← link_of tree n1 false;
  q ← link_of tree n2 false; tree ← adopt tree n1 false q;
  tree ← adopt tree n2 false temp;
  (* swap right children *)
  temp ← link_of tree n1 true;
  q ← link_of tree n2 true; tree ← adopt tree n1 true q;
  adopt tree n2 true temp.

Definition BAVL_swap_nodes (tree : BAVL) (n1 n2 : ptr) : run BAVL :=
  p1 ← parent_of tree n1; p2 ← parent_of tree n2;
  '(tree, n1, n2) ←
    (if bool_decide (p2 = n1) || bool_decide (p1 = n2) then
       let '(n1, n2) := if bool_decide (p1 = n2) then (n2, n1) else (n1, n2) in
       tree ← swap_connected tree n1 n2; Ret (tree, n1, n2)
     else tree ← swap_apart tree n1 n2; Ret (tree, n1, n2));
  (* swap balance factors *)
  b ← balance_of tree n1;
  b2 ← balance_of tree n2; tree ← set_balance tree n1 b2;
  set_balance tree n2 b.

(** ** Rebalancing *)

(** The transformations for a node whose balance factor is 2 or -2: the tree,
    the top of the subtree afterwards and the new [delta]. *)
Definition BAVL_transform (o : BAVL) (node : ptr) (delta : Z) : run (BAVL * ptr * Z) :=
  b ← balance_of o node;
  let bside := b =? 2 in
  let bsidef := if b =? 2 then 1 else -1 in
  child ← link_of o node bside;
  _ ← check (bool_decide (child <> None));
  cb ← balance_of o child;
  if cb * bsidef =? 1 then
    o ← BAVL_rotate o node (negb bside);
    o ← set_balance o node 0;
    o ← set_balance o child 0;
    Ret (o, child, s8 (delta - 1))
  else if cb * bsidef =? 0 then
    o ← BAVL_rotate o node (negb bside);
    o ← set_balance o node (1 * bsidef);
    o ← set_balance o child (-1 * bsidef);
    Ret (o, child, delta)
  else if cb * bsidef =? -1 then
    gchild ← link_of o child (negb bside);
    _ ← check (bool_decide (gchild <> None));
    o ← BAVL_rotate o child bside;
    o ← BAVL_rotate o node (negb bside);
    gb ← balance_of o gchild;
    o ← set_balance o node (- BAVL_MAX 0 (gb * bsidef) * bsidef);
    gb ← balance_of o gchild;
    o ← set_balance o child (BAVL_MAX 0 (- gb * bsidef) * bsidef);
    o ← set_balance o gchild 0;
    Ret (o, gchild, s8 (delta - 1))
  else Fail AssertionFailed.

(** The recursion goes up one level a step: fuel for the depth of the tree. *)
Fixpoint BAVL_rebalance (fuel : nat) (o : BAVL) (node : ptr) (side : bool) (deltac : Z) : run BAVL :=
  _ ← check ((-1 <=? deltac) && (deltac <=? 1));
  b ← balance_of o node;
  _ ← check ((-1 <=? b) && (b <=? 1));
  if deltac =? 0 then Ret o else
  let delta := s8 (BAVL_MAX deltac (BAVL_OPTNEG b side) - BAVL_MAX 0 (BAVL_OPTNEG b side)) in
  _ ← check ((-1 <=? delta) && (delta <=? 1));
  o ← set_balance o node (b - BAVL_OPTNEG deltac side);
  b ← balance_of o node;
  '(o, node, delta) ←
    (if (b =? 2) || (b =? -2) then BAVL_transform o node delta else Ret (o, node, delta));
  _ ← check ((-1 <=? delta) && (delta <=? 1));
  p ← parent_of o node;
  match p with
  | None => Ret o
  | Some _ =>
      l1 ← link_of o p true;
      match fuel with
      | O => Fail OutOfFuel
      | S fuel => BAVL_rebalance fuel o p (bool_decide (node = l1)) delta
      end
  end.

(** ** The interface *)

Definition BAVL_Init (m : gmap positive BAVLNode) : BAVL := MkTree None m.

Section ops.
Context {V : Type} (comparator : V -> V -> Z) (value : positive -> V).

(** No walk in a tree is longer than the number of nodes in memory. *)
Definition tree_fuel (o : BAVL) : nat := size (mem o).

Definition BAVL_compare_values (v1 v2 : V) : run Z :=
  let res := comparator v1 v2 in
  _ ← check ((res =? -1) || (res =? 0) || (res =? 1)); Ret res.
Definition BAVL_node_value (n : ptr) : run V := x ← deref n; Ret (value x).

(** The loop of [BAVL_Insert], [BAVL_Lookup] and [BAVL_LookupExact]: from [c]
    down to a node that compares equal (result 0) or to a node without a child
    on the side where the value belongs. *)
Fixpoint BAVL_descend (fuel : nat) (o : BAVL) (val : V) (c : ptr) : run (Z * ptr * bool) :=
  cv ← BAVL_node_value c;
  comp ← BAVL_compare_values val cv;
  if comp =? 0 then Ret (comp, c, false) else
  let side := comp =? 1 in
  l ← link_of o c side;
  match l with
  | None => Ret (comp, c, side)
  | Some _ =>
      match fuel with O => Fail OutOfFuel | S fuel => BAVL_descend fuel o val l end
  end.

(** The results are the tree, the return value and [*ref]. *)
Definition BAVL_Insert (o : BAVL) (node : ptr) : run (BAVL * bool * ptr) :=
  match root o with
  | None =>
      let o := set_root o node in
      o ← store o node (fun _ => MkNode None None None 0);
      Ret (o, true, None)
  | Some _ =>
      v ← BAVL_node_value node;
      '(comp, c, side) ← BAVL_descend (tree_fuel o) o v (root o);
      if comp =? 0 then Ret (o, false, c) else
      o ← set_link o c side node;
      o ← store o node (fun _ => MkNode c None None 0);
      o ← BAVL_rebalance (tree_fuel o) o c side 1;
      Ret (o, true, c)
  end.

Definition BAVL_Remove (o : BAVL) (node : ptr) : run BAVL :=
  l0 ← link_of o node false; l1 ← link_of o node true;
  o ← (if bool_decide (l0 <> None) && bool_decide (l1 <> None) then
         max ← BAVL_subtree_max (tree_fuel o) o l0;
         BAVL_swap_nodes o node max
       else Ret o);
  l0 ← link_of o node false; l1 ← link_of o node true;
  _ ← check (negb (bool_decide (l0 <> None) && bool_decide (l1 <> None)));
  parent ← parent_of o node;
  let child := match l0 with Some _ => l0 | None => l1 end in
  match parent with
  | Some _ =>
      p1 ← link_of o parent true;
      let side := bool_decide (node = p1) in
      o ← BAVL_replace_subtree o node child;
      BAVL_rebalance (tree_fuel o) o parent side (-1)
  | None => BAVL_replace_subtree o node child
  end.

Definition BAVL_IsEmpty (o : BAVL) : bool := bool_decide (root o = None).

Definition BAVL_Lookup (o : BAVL) (val : V) : run ptr :=
  match root o with
  | None => Ret None
  | Some _ => '(_, c, _) ← BAVL_descend (tree_fuel o) o val (root o); Ret c
  end.
Definition BAVL_LookupExact (o : BAVL) (val : V) : run ptr :=
  match root o with
  | None => Ret None
  | Some _ =>
      '(comp, c, _) ← BAVL_descend (tree_fuel o) o val (root o);
      Ret (if comp =? 0 then c else None)
  end.
End ops.

(** [while (n->link[side]) n = n->link[side];] *)
Fixpoint BAVL_walk (fuel : nat) (o : BAVL) (n : ptr) (side : bool) : run ptr :=
  l ← link_of o n side;
  match l with
  | None => Ret n
  | Some _ => match fuel with O => Fail OutOfFuel | S fuel => BAVL_walk fuel o l side end
  end.
(** [while (n->parent && n == n->parent->link[side]) n = n->parent; n = n->parent;] *)
Fixpoint BAVL_climb (fuel : nat) (o : BAVL) (n : ptr) (side : bool) : run ptr :=
  p ← parent_of o n;
  match p with
  | None => Ret None
  | Some _ =>
      l ← link_of o p side;
      if bool_decide (n = l) then
        match fuel with O => Fail OutOfFuel | S fuel => BAVL_climb fuel o p side end
      else Ret p
  end.

Definition BAVL_GetFirst (o : BAVL) : run ptr :=
  match root o with None => Ret None | Some _ => BAVL_walk (tree_fuel o) o (root o) false end.
Definition BAVL_GetLast (o : BAVL) : run ptr :=
  match root o with None => Ret None | Some _ => BAVL_walk (tree_fuel o) o (root o) true end.
Definition BAVL_GetNext (o : BAVL) (n : ptr) : run ptr :=
  l ← link_of o n true;
  match l with
  | Some _ => BAVL_walk (tree_fuel o) o l false
  | None => BAVL_climb (tree_fuel o) o n true
  end.
Definition BAVL_GetPrev (o : BAVL) (n : ptr) : run ptr :=
  l ← link_of o n false;
  match l with
  | Some _ => BAVL_walk (tree_fuel o) o l true
  | None => BAVL_climb (tree_fuel o) o n false
  end.

(** [BAVL_Verify]: the assertions of [_BAVL_assert_recurser], which returns the height. *)
Section verify.
Context {V : Type} (comparator : V -> V -> Z) (value : positive -> V).

Fixpoint BAVL_assert_recurser (fuel : nat) (o : BAVL) (n : ptr) : run Z :=
  b ← balance_of o n;
  _ ← check ((-1 <=? b) && (b <=? 1));
  v ← BAVL_node_value value n;
  let subtree (side : bool) (want : Z) : run Z :=
    c ← link_of o n side;
    match c with
    | None => Ret 0
    | Some _ =>
        p ← parent_of o c;
        _ ← check (bool_decide (p = n));
        cv ← BAVL_node_value value c;
        comp ← BAVL_compare_values comparator cv v;
        _ ← check (comp =? want);
        match fuel with O => Fail OutOfFuel | S fuel => BAVL_assert_recurser fuel o c end
    end in
  height_left ← subtree false (-1);
  height_right ← subtree true 1;
  _ ← check (b =? height_right - height_left);
  Ret (BAVL_MAX height_left height_right + 1).

Definition BAVL_Verify (o : BAVL) : run unit :=
  match root o with
  | None => Ret tt
  | Some _ =>
      p ← parent_of o (root o);
      _ ← check (bool_decide (p = None));
      _ ← BAVL_assert_recurser (tree_fuel o) o (root o);
      Ret tt
  end.
End verify.
