(* ===== verification/BavlTree.v ===== *)
(** * The tree in memory: shape, zippers and rotations

    A ghost tree describes what the nodes reachable from a pointer look like
    ([rep]); a list of frames describes the way from the root to a subtree
    ([seg]).  [zip o c t] says that the tree [o] consists of the subtree [t]
    plugged into the frames [c]; all steps of the algorithms are changes of
    [c] and [t]. *)
From stdpp Require Import gmap.
From S2P Require Import Prelude Addr Bavl.

Inductive tree : Type :=
  | E
  | N (l : tree) (x : positive) (b : Z) (r : tree).

(** A node written from the side [d]: [s] is the child on side [d]. *)
Definition node (d : bool) (s : tree) (x : positive) (b : Z) (s' : tree) : tree :=
  if d then N s' x b s else N s x b s'.
Lemma node_flip d s x b s' : node d s x b s' = node (negb d) s' x b s.
Proof. by destruct d. Qed.

Definition rootp (t : tree) : ptr := match t with E => None | N _ x _ _ => Some x end.
Fixpoint locs (t : tree) : list positive :=
  match t with E => [] | N l x _ r => locs l ++ x :: locs r end.

Record frame := Frame { f_side : bool; f_loc : positive; f_bal : Z; f_sib : tree }.
Definition fill (f : frame) (t : tree) : tree := node (f_side f) t (f_loc f) (f_bal f) (f_sib f).
Definition plug (c : list frame) (t : tree) : tree := fold_left (fun t f => fill f t) c t.

Definition top (par : ptr) (c : list frame) : ptr :=
  match c with [] => par | f :: _ => Some (f_loc f) end.
Fixpoint bot (q : ptr) (c : list frame) : ptr :=
  match c with [] => q | f :: c => bot (Some (f_loc f)) c end.
Fixpoint clocs (c : list frame) : list positive :=
  match c with [] => [] | f :: c => f_loc f :: locs (f_sib f) ++ clocs c end.

Definition mk_node (par : ptr) (d : bool) (p q : ptr) (b : Z) : BAVLNode :=
  if d then MkNode par q p b else MkNode par p q b.

Fixpoint rep (h : gmap positive BAVLNode) (par : ptr) (t : tree) : Prop :=
  match t with
  | E => True
  | N l x b r =>
      h !! x = Some (MkNode par (rootp l) (rootp r) b) /\ rep h (Some x) l /\ rep h (Some x) r
  end.

Fixpoint seg (h : gmap positive BAVLNode) (par : ptr) (c : list frame) (q : ptr) : Prop :=
  match c with
  | [] => True
  | f :: c =>
      h !! f_loc f = Some (mk_node (top par c) (f_side f) q (rootp (f_sib f)) (f_bal f)) /\
      rep h (Some (f_loc f)) (f_sib f) /\ seg h par c (Some (f_loc f))
  end.

Definition zip (o : BAVL) (c : list frame) (t : tree) : Prop :=
  rep (mem o) (top None c) t /\ seg (mem o) None c (rootp t) /\ root o = bot (rootp t) c /\
  NoDup (locs t ++ clocs c).

(** ** Shape *)

Lemma rep_node h par d s x b s' :
  rep h par (node d s x b s') <->
  h !! x = Some (mk_node par d (rootp s) (rootp s') b) /\ rep h (Some x) s /\ rep h (Some x) s'.
Proof. destruct d; simpl; naive_solver. Qed.
Lemma rootp_node d s x b s' : rootp (node d s x b s') = Some x.
Proof. by destruct d. Qed.
Lemma locs_node d s x b s' : locs (node d s x b s') ≡ₚ x :: locs s ++ locs s'.
Proof. destruct d; simpl; rewrite <- Permutation_middle; [by rewrite (Permutation_app_comm (locs s'))|done]. Qed.
Lemma link_mk par d p q b side : n_link (mk_node par d p q b) side = if bool_decide (side = d) then p else q.
Proof. by destruct d, side. Qed.
Lemma link_mk_same par d p q b : n_link (mk_node par d p q b) d = p.
Proof. by destruct d. Qed.
Lemma link_mk_other par d p q b : n_link (mk_node par d p q b) (negb d) = q.
Proof. by destruct d. Qed.
Lemma parent_mk par d p q b : n_parent (mk_node par d p q b) = par.
Proof. by destruct d. Qed.
Lemma balance_mk par d p q b : n_balance (mk_node par d p q b) = b.
Proof. by destruct d. Qed.
Lemma upd_parent_mk par par' d p q b : upd_parent par' (mk_node par d p q b) = mk_node par' d p q b.
Proof. by destruct d. Qed.
Lemma upd_balance_mk par d p q b b' : upd_balance b' (mk_node par d p q b) = mk_node par d p q b'.
Proof. by destruct d. Qed.
Lemma upd_link_same par d p p' q b : upd_link d p' (mk_node par d p q b) = mk_node par d p' q b.
Proof. by destruct d. Qed.
Lemma upd_link_other par d p q q' b : upd_link (negb d) q' (mk_node par d p q b) = mk_node par d p q' b.
Proof. by destruct d. Qed.
Lemma mk_node_flip par d p q b : mk_node par (negb d) p q b = mk_node par d q p b.
Proof. by destruct d. Qed.
Lemma MkNode_mk par p q b : MkNode par p q b = mk_node par false p q b.
Proof. done. Qed.

(** ** Frame properties *)

Lemma rep_agree h h' par t : (forall x, x ∈ locs t -> h' !! x = h !! x) -> rep h par t -> rep h' par t.
Proof.
  revert par. induction t as [|l IHl x b r IHr]; intros par Ha; [done|]. cbn [rep locs] in *.
  intros (Hx & Hl & Hr). split; [rewrite Ha; [done|set_solver]|].
  split; [apply IHl|apply IHr]; try done; intros; apply Ha; set_solver.
Qed.
Lemma seg_agree h h' par c q : (forall x, x ∈ clocs c -> h' !! x = h !! x) -> seg h par c q -> seg h' par c q.
Proof.
  revert q. induction c as [|f c IH]; intros q Ha; [done|]. cbn [seg clocs] in *.
  intros (Hx & Hs & Hc). split; [rewrite Ha; [done|set_solver]|].
  split; [apply (rep_agree h)|apply IH]; try done; intros; apply Ha; set_solver.
Qed.

(** A subtree whose root has a new parent. *)
Lemma rep_reparent h h' par par' t :
  NoDup (locs t) ->
  (forall x, x ∈ locs t -> h' !! x = (if decide (rootp t = Some x) then upd_parent par' else id) <$> h !! x) ->
  rep h par t -> rep h' par' t.
Proof.
  destruct t as [|l x b r]; [done|]. cbn [rep locs rootp]. intros Hnd Ha (Hx & Hl & Hr).
  rewrite list.NoDup_app, list.NoDup_cons in Hnd. destruct Hnd as (Hndl & Hdis & Hxr & Hndr).
  split; [|split].
  - rewrite Ha by set_solver. rewrite decide_True by done. by rewrite Hx.
  - apply (rep_agree h); [|done]. intros y Hy. rewrite Ha by set_solver.
    rewrite decide_False by (intros [= ->]; set_solver). by destruct (h !! y).
  - apply (rep_agree h); [|done]. intros y Hy. rewrite Ha by set_solver.
    rewrite decide_False by (intros [= ->]; set_solver). by destruct (h !! y).
Qed.

(** Memory with the node under a pointer changed; nothing for [NULL]. *)
Definition upd (f : BAVLNode -> BAVLNode) (p : ptr) (h : gmap positive BAVLNode) : gmap positive BAVLNode :=
  match p with Some x => alter f x h | None => h end.
Lemma lookup_upd f p h y : upd f p h !! y = (if decide (p = Some y) then f else id) <$> h !! y.
Proof.
  destruct p as [x|]; cbn [upd]; [|rewrite decide_False by done; by destruct (h !! y)].
  destruct (decide (x = y)) as [->|Hne].
  - rewrite lookup_alter_eq. by rewrite decide_True.
  - rewrite lookup_alter_ne by done. rewrite decide_False by congruence. by destruct (h !! y).
Qed.
Lemma dom_upd f p h : dom (upd f p h) = dom h.
Proof. destruct p; [apply dom_alter_L|done]. Qed.

(** Frames whose hole holds another pointer. *)
Definition cside (c : list frame) : bool := match c with [] => false | f :: _ => f_side f end.
Lemma seg_relink h h' par c q q' :
  NoDup (clocs c) ->
  (forall x, x ∈ clocs c -> h' !! x = (if decide (top None c = Some x) then upd_link (cside c) q' else id) <$> h !! x) ->
  seg h par c q -> seg h' par c q'.
Proof.
  destruct c as [|f c]; [done|]. cbn [seg clocs top cside]. intros Hnd Ha (Hx & Hs & Hc).
  rewrite list.NoDup_cons in Hnd. destruct Hnd as (Hf & Hnd).
  split; [|split].
  - rewrite Ha by set_solver. rewrite decide_True by done. rewrite Hx. cbn. by rewrite upd_link_same.
  - apply (rep_agree h); [|done]. intros y Hy. rewrite Ha by set_solver.
    rewrite decide_False by (intros [= <-]; set_solver). by destruct (h !! y).
  - apply (seg_agree h); [|done]. intros y Hy. rewrite Ha by set_solver.
    rewrite decide_False by (intros [= <-]; set_solver). by destruct (h !! y).
Qed.

(** Frames of which the uppermost has a new parent. *)
Lemma bot_in q f c : exists x, bot q (f :: c) = Some x /\ x ∈ clocs (f :: c).
Proof.
  revert q f. induction c as [|f2 c IH]; intros q f; cbn [bot].
  - eexists. split; [done|]. cbn. set_solver.
  - destruct (IH (Some (f_loc f)) f2) as (x & Hx & Hin). exists x. split; [done|]. cbn in *. set_solver.
Qed.
Lemma seg_reparent h h' par par' f c q :
  NoDup (clocs (f :: c)) ->
  (forall x, x ∈ clocs (f :: c) -> h' !! x = (if decide (bot q (f :: c) = Some x) then upd_parent par' else id) <$> h !! x) ->
  seg h par (f :: c) q -> seg h' par' (f :: c) q.
Proof.
  revert q f. induction c as [|f2 c IH]; intros q f Hnd Ha (Hx & Hs & Hc).
  - cbn [clocs bot top] in *. rewrite app_nil_r in *. rewrite list.NoDup_cons in Hnd. destruct Hnd as (Hf & Hnd).
    split; [|split; [|done]].
    + rewrite Ha by set_solver. rewrite decide_True by done. rewrite Hx. cbn. by rewrite upd_parent_mk.
    + apply (rep_agree h); [|done]. intros y Hy. rewrite Ha by set_solver.
      rewrite decide_False by (intros [= <-]; set_solver). by destruct (h !! y).
  - change (clocs (f :: f2 :: c)) with (f_loc f :: locs (f_sib f) ++ clocs (f2 :: c)) in *.
    change (bot q (f :: f2 :: c)) with (bot (Some (f_loc f)) (f2 :: c)) in *.
    destruct (bot_in (Some (f_loc f)) f2 c) as (w & Hw & Hwin).
    rewrite list.NoDup_cons, list.NoDup_app in Hnd. destruct Hnd as (Hf & Hnds & Hdis & Hnd).
    split; [|split].
    + rewrite Ha by set_solver. rewrite decide_False by (rewrite Hw; intros [= ->]; set_solver).
      by rewrite option_fmap_id.
    + apply (rep_agree h); [|done]. intros y Hy. rewrite Ha by set_solver.
      rewrite decide_False by (rewrite Hw; intros [= ->]; by apply (Hdis y)). by rewrite option_fmap_id.
    + apply IH; [done| |done]. intros x Hin. apply Ha. set_solver.
Qed.

Lemma seg_app h par p c q : seg h par (p ++ c) q <-> seg h (top par c) p q /\ seg h par c (bot q p).
Proof.
  revert q. induction p as [|f p IH]; intros q; cbn [app seg bot top]; [naive_solver|].
  rewrite IH. assert (Ht : top par (p ++ c) = top (top par c) p) by (by destruct p). rewrite Ht. naive_solver.
Qed.
Lemma clocs_app p c : clocs (p ++ c) = clocs p ++ clocs c.
Proof. induction p as [|f p IH]; cbn; [done|]. by rewrite IH, <- app_assoc. Qed.
Lemma bot_app q p c : bot q (p ++ c) = bot (bot q p) c.
Proof. revert q. induction p as [|f p IH]; intros q; cbn; [done|]. apply IH. Qed.

(** Every node of a tree and of the frames is in memory. *)
Lemma rep_dom h par t x : rep h par t -> x ∈ locs t -> is_Some (h !! x).
Proof.
  revert par. induction t as [|l IHl y b r IHr]; intros par; cbn [rep locs]; [set_solver|].
  intros (Hy & Hl & Hr). rewrite elem_of_app, elem_of_cons. intros [?|[->|?]]; eauto.
Qed.
Lemma seg_dom h par c q x : seg h par c q -> x ∈ clocs c -> is_Some (h !! x).
Proof.
  revert q. induction c as [|f c IH]; intros q; cbn [seg clocs]; [set_solver|].
  intros (Hf & Hs & Hc). rewrite elem_of_cons, elem_of_app. intros [->|[?|?]]; eauto using rep_dom.
Qed.

(** ** Moving the focus *)

Lemma zip_down o c d s x b s' : zip o c (node d s x b s') <-> zip o (Frame d x b s' :: c) s.
Proof.
  unfold zip. rewrite rep_node, rootp_node. cbn [top seg bot clocs f_loc f_bal f_sib f_side].
  assert (Hp : locs (node d s x b s') ++ clocs c ≡ₚ locs s ++ x :: locs s' ++ clocs c).
  { rewrite locs_node. simpl. rewrite <- app_assoc. apply Permutation_middle. }
  rewrite Hp. naive_solver.
Qed.
Lemma zip_left o c l x b r : zip o c (N l x b r) <-> zip o (Frame false x b r :: c) l.
Proof. apply (zip_down o c false). Qed.
Lemma zip_right o c l x b r : zip o c (N l x b r) <-> zip o (Frame true x b l :: c) r.
Proof. apply (zip_down o c true). Qed.
Lemma zip_plug o c t : zip o c t <-> zip o [] (plug c t).
Proof.
  revert t. induction c as [|f c IH]; intros t; [done|]. cbn [plug fold_left].
  rewrite <- (IH (fill f t)). destruct f. symmetry. apply zip_down.
Qed.

Definition c_left (f : frame) : list positive := if f_side f then locs (f_sib f) ++ [f_loc f] else [].
Definition c_right (f : frame) : list positive := if f_side f then [] else f_loc f :: locs (f_sib f).
Fixpoint lefts (c : list frame) : list positive := match c with [] => [] | f :: c => lefts c ++ c_left f end.
Fixpoint rights (c : list frame) : list positive := match c with [] => [] | f :: c => c_right f ++ rights c end.
Lemma locs_plug c t : locs (plug c t) = lefts c ++ locs t ++ rights c.
Proof.
  revert t. induction c as [|f c IH]; intros t; cbn [plug fold_left lefts rights]; [by rewrite app_nil_r|].
  fold (plug c (fill f t)). rewrite IH. unfold fill, node, c_left, c_right.
  destruct (f_side f); cbn [locs]; rewrite <- ?app_assoc; simpl; by rewrite <- ?app_assoc.
Qed.

Lemma elem_of_clocs c x : x ∈ clocs c -> x ∈ lefts c ++ rights c.
Proof.
  induction c as [|f c IH]; cbn [clocs lefts rights]; [done|].
  rewrite elem_of_cons, elem_of_app. unfold c_left, c_right. intros Hx.
  assert (Hs : x = f_loc f \/ x ∈ locs (f_sib f) \/ x ∈ lefts c \/ x ∈ rights c) by (rewrite elem_of_app in IH; tauto).
  destruct (f_side f); cbn; rewrite ?app_nil_r, !elem_of_app, ?elem_of_cons, ?elem_of_app; tauto.
Qed.

(** ** Reads and writes of the program *)

Lemma load_ok o x n : mem o !! x = Some n -> load o (Some x) = Ret n.
Proof. intros H. unfold load. cbn. by rewrite H. Qed.
Lemma store_ok o x n f : mem o !! x = Some n -> store o (Some x) f = Ret (MkTree (root o) (upd f (Some x) (mem o))).
Proof.
  intros H. unfold store. cbn. rewrite H. do 2 f_equal. apply map_eq. intros y.
  destruct (decide (x = y)) as [->|Hne]; [by rewrite lookup_insert_eq, lookup_alter_eq, H|].
  by rewrite lookup_insert_ne, lookup_alter_ne.
Qed.
Lemma parent_of_ok o x n : mem o !! x = Some n -> parent_of o (Some x) = Ret (n_parent n).
Proof. intros H. unfold parent_of. by rewrite (load_ok _ _ _ H). Qed.
Lemma link_of_ok o x n d : mem o !! x = Some n -> link_of o (Some x) d = Ret (n_link n d).
Proof. intros H. unfold link_of. by rewrite (load_ok _ _ _ H). Qed.
Lemma balance_of_ok o x n : mem o !! x = Some n -> balance_of o (Some x) = Ret (n_balance n).
Proof. intros H. unfold balance_of. by rewrite (load_ok _ _ _ H). Qed.
Lemma set_parent_ok o x n q : mem o !! x = Some n ->
  set_parent o (Some x) q = Ret (MkTree (root o) (upd (upd_parent q) (Some x) (mem o))).
Proof. apply store_ok. Qed.
Lemma set_link_ok o x n d q : mem o !! x = Some n ->
  set_link o (Some x) d q = Ret (MkTree (root o) (upd (upd_link d q) (Some x) (mem o))).
Proof. apply store_ok. Qed.
Lemma set_balance_ok o x n b : mem o !! x = Some n ->
  set_balance o (Some x) b = Ret (MkTree (root o) (upd (upd_balance (s8 b)) (Some x) (mem o))).
Proof. apply store_ok. Qed.
Lemma set_parent_if_ok o p q : (forall x, p = Some x -> is_Some (mem o !! x)) ->
  set_parent_if o p q = Ret (MkTree (root o) (upd (upd_parent q) p (mem o))).
Proof.
  intros H. destruct p as [x|]; [|by destruct o]. destruct (H x eq_refl) as [n Hn]. cbn [set_parent_if].
  unfold set_parent. by rewrite (store_ok _ _ _ _ Hn).
Qed.

(** The pointer to the root of a tree in memory can be followed. *)
Lemma rep_root_some h par t x : rep h par t -> rootp t = Some x -> is_Some (h !! x).
Proof. destruct t; [done|]. cbn. intros (Hx & _) [= <-]. by rewrite Hx. Qed.
Lemma rootp_in t x : rootp t = Some x -> x ∈ locs t.
Proof. destruct t; [done|]. cbn. intros [= <-]. set_solver. Qed.
Lemma rootp_notin t x : x ∉ locs t -> rootp t <> Some x.
Proof. intros H E. by apply H, rootp_in. Qed.

(** What [replace_child] does at the parent of the hole. *)
Definition new_root (o : BAVL) (c : list frame) (new : ptr) : ptr :=
  match c with [] => new | _ => root o end.
(** The hole of [c] holds [x]: its parent points to it from one side only. *)
Definition hole (h : gmap positive BAVLNode) (c : list frame) (x : positive) : Prop :=
  forall p, top None c = Some p -> exists n, h !! p = Some n /\
    n_link n (cside c) = Some x /\ n_link n (negb (cside c)) <> Some x.
Lemma seg_hole h par c x : seg h par c (Some x) -> x ∉ clocs c -> hole h c x.
Proof.
  destruct c as [|f c]; [done|]. cbn. intros (Hf & _) Hx p [= <-].
  eexists. split; [exact Hf|]. rewrite link_mk_same, link_mk_other. split; [done|]. apply rootp_notin. set_solver.
Qed.
Lemma hole_agree h h' c x : (forall p, top None c = Some p -> h' !! p = h !! p) -> hole h c x -> hole h' c x.
Proof. intros Ha Hh p Hp. rewrite Ha by done. by apply Hh. Qed.
Lemma top_clocs c p : top None c = Some p -> p ∈ clocs c.
Proof. destruct c; cbn; [done|]. intros [= <-]. set_solver. Qed.

Lemma top_notin c x : x ∉ clocs c -> top None c <> Some x.
Proof. intros H E. by apply H, top_clocs. Qed.

Create HintDb bavl.
#[export] Hint Resolve rootp_notin top_notin : bavl.

(** Two nodes and four disjoint groups, the situation of every rewiring step. *)
Lemma nodup_groups (x y : positive) (A B C D : list positive) : NoDup (x :: y :: A ++ B ++ C ++ D) ->
  x <> y /\ (x ∉ A /\ x ∉ B /\ x ∉ C /\ x ∉ D) /\ (y ∉ A /\ y ∉ B /\ y ∉ C /\ y ∉ D) /\
  (NoDup A /\ NoDup B /\ NoDup C /\ NoDup D) /\
  (forall z, z ∈ A -> z <> x /\ z <> y /\ z ∉ B /\ z ∉ C /\ z ∉ D) /\
  (forall z, z ∈ B -> z <> x /\ z <> y /\ z ∉ A /\ z ∉ C /\ z ∉ D) /\
  (forall z, z ∈ C -> z <> x /\ z <> y /\ z ∉ A /\ z ∉ B /\ z ∉ D) /\
  (forall z, z ∈ D -> z <> x /\ z <> y /\ z ∉ A /\ z ∉ B /\ z ∉ C).
Proof.
  rewrite !list.NoDup_cons, !list.NoDup_app, !not_elem_of_cons, !not_elem_of_app.
  intros ((Hxy & HxA & HxB & HxC & HxD) & (HyA & HyB & HyC & HyD) & NA & dA & NB & dB & NC & dC & ND).
  assert (dAB : forall z, z ∈ A -> z ∈ B -> False) by (intros z HA; specialize (dA z HA); rewrite !not_elem_of_app in dA; tauto).
  assert (dAC : forall z, z ∈ A -> z ∈ C -> False) by (intros z HA; specialize (dA z HA); rewrite !not_elem_of_app in dA; tauto).
  assert (dAD : forall z, z ∈ A -> z ∈ D -> False) by (intros z HA; specialize (dA z HA); rewrite !not_elem_of_app in dA; tauto).
  assert (dBC : forall z, z ∈ B -> z ∈ C -> False) by (intros z HB; specialize (dB z HB); rewrite !not_elem_of_app in dB; tauto).
  assert (dBD : forall z, z ∈ B -> z ∈ D -> False) by (intros z HB; specialize (dB z HB); rewrite !not_elem_of_app in dB; tauto).
  assert (Hneq : forall (L : list positive) z w, z ∈ L -> w ∉ L -> z <> w) by (by intros L z w ? ? ->).
  clear dA dB.
  split_and!; try done; intros z Hz; split_and!; try (by eapply Hneq); try (intros HA; eauto); by apply (dC z).
Qed.

Lemma replace_child_ok o c x new : hole (mem o) c x ->
  replace_child o (top None c) (Some x) new =
    Ret (MkTree (new_root o c new) (upd (upd_link (cside c) new) (top None c) (mem o))).
Proof.
  intros Hh. destruct c as [|fr c]; [done|]. destruct (Hh (f_loc fr) eq_refl) as (n & Hn & Hl & Hr).
  cbn [top cside new_root replace_child] in *. rewrite (link_of_ok _ _ _ _ Hn). run_simpl.
  assert (Hd : bool_decide (Some x = n_link n true) = f_side fr).
  { destruct (f_side fr); [by rewrite bool_decide_true|]. rewrite bool_decide_false; [done|]. intros Heq; by apply Hr. }
  rewrite Hd. unfold set_link. by rewrite (store_ok _ _ _ _ Hn).
Qed.

(** Look up a node through the writes of the current state. *)
Ltac lk_if :=
  repeat match goal with
  | |- context [decide (?p = ?q)] =>
      first [rewrite (decide_True (P := p = q)) by congruence
            |rewrite (decide_False (P := p = q)) by congruence]
  end.
Ltac lk :=
  cbn [mem root]; rewrite ?lookup_upd; lk_if;
  match goal with H : ?h !! ?x = Some _ |- context [?h !! ?x] => rewrite H end; cbn [fmap option_fmap option_map id];
  rewrite ?upd_link_same, ?upd_link_other, ?upd_parent_mk, ?upd_balance_mk; reflexivity.
Ltac in_dom := apply elem_of_dom; cbn [mem]; rewrite ?dom_upd; apply elem_of_dom.

(** [_BAVL_rotate] towards [d] lifts the child [nr] on the other side over [r]. *)
Lemma BAVL_rotate_ok o c d mid nr bn out r br a :
  zip o c (node (negb d) (node d mid nr bn out) r br a) ->
  exists o', BAVL_rotate o (Some r) d = Ret o' /\
    zip o' c (node d (node (negb d) mid r br a) nr bn out) /\ dom (mem o') = dom (mem o).
Proof.
  intros (Hrep & Hseg & Hroot & Hnd). rewrite !rootp_node in *.
  assert (Hperm : locs (node (negb d) (node d mid nr bn out) r br a) ++ clocs c ≡ₚ
    r :: nr :: locs mid ++ locs out ++ locs a ++ clocs c).
  { rewrite !locs_node. cbn. by rewrite <- !app_assoc. }
  rewrite Hperm in Hnd. pose proof Hnd as Hnd0.
  rewrite !list.NoDup_cons, !list.NoDup_app in Hnd. destruct Hnd as (Hr & Hnr & Hmid & Hdm & Hout & Hdo & Ha & Hda & Hc).
  rewrite !rep_node in Hrep. destruct Hrep as (Er & (Enr & Rmid & Rout) & Ra). rewrite rootp_node in Er.
  assert (Hne : r <> nr) by set_solver.
  assert (Hmr : forall x, rootp mid = Some x -> x <> r /\ x <> nr) by (intros x Hx%rootp_in; split; set_solver).
  assert (Htr : forall x, top None c = Some x -> x <> r /\ x <> nr /\ x ∉ locs mid)
    by (intros x Hx%top_clocs; split_and!; set_solver).
  unfold BAVL_rotate.
  erewrite link_of_ok by lk. rewrite link_mk_same. run_simpl.
  erewrite link_of_ok by lk. rewrite link_mk_same. run_simpl.
  erewrite set_link_ok by lk. run_simpl.
  erewrite link_of_ok by lk. rewrite link_mk_same. run_simpl.
  rewrite set_parent_if_ok by (intros x Hx; in_dom; apply (rep_root_some _ _ _ _ Rmid Hx)). run_simpl.
  assert (rootp mid <> Some nr) by (apply rootp_notin; set_solver).
  assert (rootp mid <> Some r) by (apply rootp_notin; set_solver).
  erewrite set_link_ok by lk. run_simpl.
  erewrite parent_of_ok by lk. rewrite parent_mk. run_simpl.
  erewrite set_parent_ok by lk. run_simpl.
  erewrite parent_of_ok by lk. rewrite parent_mk. run_simpl.
  assert (top None c <> Some nr) by (intros ?%top_clocs; set_solver).
  assert (top None c <> Some r) by (intros ?%top_clocs; set_solver).
  rewrite replace_child_ok.
  2: { apply (hole_agree (mem o)); [|apply (seg_hole _ None); [done|set_solver]].
       intros p Hp. destruct (Htr p Hp) as (? & ? & Hp'). apply (rootp_notin mid) in Hp'.
       cbn [mem]. rewrite !lookup_upd. lk_if. by destruct (mem o !! p). }
  run_simpl. erewrite set_parent_ok by lk.
  eexists. split; [done|]. split; [|cbn [mem]; by rewrite !dom_upd].
  split; [|split; [|split]].
  - apply rep_node. rewrite rootp_node. cbn [mem]. split; [by lk|]. split; [apply rep_node; split; [by lk|split]|].
    + apply (rep_reparent (mem o) _ (Some nr)); [done| |done]. intros x Hx. rewrite !lookup_upd.
      assert (x <> r /\ x <> nr /\ x ∉ clocs c) as (? & ? & Hxc) by set_solver.
      assert (top None c <> Some x) by (by intros ?%top_clocs). lk_if. by destruct (decide _), (mem o !! x).
    + apply (rep_agree (mem o)); [|done]. intros x Hx. rewrite !lookup_upd.
      assert (x <> r /\ x <> nr /\ x ∉ locs mid /\ x ∉ clocs c) as (? & ? & Hxm & Hxc) by set_solver.
      assert (top None c <> Some x) by (by intros ?%top_clocs).
      apply rootp_notin in Hxm. lk_if. by destruct (mem o !! x).
    + apply (rep_agree (mem o)); [|done]. intros x Hx. rewrite !lookup_upd.
      assert (x <> r /\ x <> nr /\ x ∉ locs mid /\ x ∉ clocs c) as (? & ? & Hxm & Hxc) by set_solver.
      assert (top None c <> Some x) by (by intros ?%top_clocs).
      apply rootp_notin in Hxm. lk_if. by destruct (mem o !! x).
  - rewrite rootp_node. cbn [mem]. apply (seg_relink (mem o) _ None c (Some r)); [done| |done].
    intros x Hx. rewrite !lookup_upd.
    assert (x <> r /\ x <> nr /\ x ∉ locs mid) as (? & ? & Hxm) by set_solver.
    apply rootp_notin in Hxm. lk_if. by destruct (decide _), (mem o !! x).
  - rewrite rootp_node. cbn [root]. by destruct c.
  - assert (Hp : locs (node d (node (negb d) mid r br a) nr bn out) ++ clocs c ≡ₚ
      r :: nr :: locs mid ++ locs out ++ locs a ++ clocs c); [|by rewrite Hp].
    rewrite !locs_node. cbn. rewrite <- !app_assoc. rewrite Permutation_swap. do 2 f_equiv.
    f_equiv. apply Permutation_app_swap_app.
Qed.
