(* ===== verification/BavlBalance.v ===== *)
(** * Rebalancing ([_BAVL_rebalance] of [structure/BAVL.h])

    Heights and balance factors, the transformation of a node whose balance
    factor has become 2 or -2, and the walk up to the root. *)
From stdpp Require Import gmap.
From S2P Require Import Prelude Addr Bavl BavlTree.

Fixpoint height (t : tree) : Z :=
  match t with E => 0 | N l _ _ r => 1 + height l `max` height r end.
Fixpoint avl (t : tree) : Prop :=
  match t with
  | E => True
  | N l _ b r => avl l /\ avl r /\ b = height r - height l /\ -1 <= b <= 1
  end.
Definition sgn (d : bool) : Z := if d then 1 else -1.

(** Frames that are balanced around a hole of the given height. *)
Fixpoint cavl (c : list frame) (hh : Z) : Prop :=
  match c with
  | [] => True
  | f :: c =>
      avl (f_sib f) /\ f_bal f * sgn (f_side f) = hh - height (f_sib f) /\ -1 <= f_bal f <= 1 /\
      cavl c (1 + hh `max` height (f_sib f))
  end.

Lemma height_nonneg t : 0 <= height t.
Proof. induction t; simpl; lia. Qed.
Lemma height_node d s x b s' : height (node d s x b s') = 1 + height s `max` height s'.
Proof. destruct d; simpl; lia. Qed.
Lemma avl_node d s x b s' :
  avl (node d s x b s') <-> avl s /\ avl s' /\ b * sgn d = height s - height s' /\ -1 <= b <= 1.
Proof. destruct d; simpl; split; intros (? & ? & ? & ?); split_and!; try done; lia. Qed.
Lemma cavl_plug c t : avl t -> cavl c (height t) -> avl (plug c t).
Proof.
  revert t. induction c as [|f c IH]; intros t Ht; [done|]. cbn [cavl plug fold_left].
  intros (Hs & Hb & Hb1 & Hc). apply IH; unfold fill.
  - by rewrite avl_node.
  - by rewrite height_node.
Qed.

Lemma set_balance_zip o c l x b r b' : zip o c (N l x b r) ->
  exists o', set_balance o (Some x) b' = Ret o' /\ zip o' c (N l x (s8 b') r) /\ dom (mem o') = dom (mem o).
Proof.
  intros (Hrep & Hseg & Hroot & Hnd). pose proof Hrep as (Hx & Hl & Hr). cbn [rep locs rootp] in *.
  rewrite <- app_assoc in Hnd. cbn in Hnd. pose proof Hnd as Hnd'.
  rewrite list.NoDup_app, list.NoDup_cons, list.NoDup_app in Hnd'. destruct Hnd' as (_ & Hdl & Hxr & _ & Hdr & _).
  eexists. split; [by rewrite (set_balance_ok _ _ _ _ Hx)|]. split; [|cbn [mem]; apply dom_upd].
  assert (Hag : forall y, y <> x -> upd (upd_balance (s8 b')) (Some x) (mem o) !! y = mem o !! y).
  { intros y Hy. rewrite lookup_upd, decide_False by congruence. by destruct (mem o !! y). }
  split; [|split; [|split]]; cbn [rep rootp locs mem root].
  - split; [by rewrite lookup_upd, decide_True, Hx|].
    split; (apply (rep_agree (mem o)); [|done]; intros y Hy; apply Hag; intros ->; set_solver).
  - apply (seg_agree (mem o)); [|done]. intros y Hy. apply Hag. intros ->. set_solver.
  - done.
  - rewrite <- app_assoc. done.
Qed.
Lemma set_balance_node o c d s x b s' b' : -128 <= b' < 128 -> zip o c (node d s x b s') ->
  exists o', set_balance o (Some x) b' = Ret o' /\ zip o' c (node d s x b' s') /\ dom (mem o') = dom (mem o).
Proof.
  intros Hb Hz. destruct d; destruct (set_balance_zip _ _ _ _ _ _ b' Hz) as (o' & ? & ? & ?);
    rewrite s8_small in * by done; by exists o'.
Qed.
Lemma zip_balance o c d s x b s' : zip o c (node d s x b s') -> balance_of o (Some x) = Ret b.
Proof. intros (Hrep & _). apply rep_node in Hrep as (Hx & _). by rewrite (balance_of_ok _ _ _ Hx), balance_mk. Qed.
Lemma zip_link o c d s x b s' : zip o c (node d s x b s') -> link_of o (Some x) d = Ret (rootp s).
Proof. intros (Hrep & _). apply rep_node in Hrep as (Hx & _). by rewrite (link_of_ok _ _ _ _ Hx), link_mk_same. Qed.
Lemma zip_parent o c l x b r : zip o c (N l x b r) -> parent_of o (Some x) = Ret (top None c).
Proof. intros ((Hx & _) & _). by rewrite (parent_of_ok _ _ _ Hx). Qed.

(** Every nonempty tree can be written from either side. *)
Lemma tree_node d t : 0 < height t -> exists s x b s', t = node d s x b s'.
Proof. destruct t as [|l x b r]; cbn; [lia|]. intros _. destruct d; by eexists _, x, b, _. Qed.

Lemma BAVL_MAX_max a b : BAVL_MAX a b = a `max` b.
Proof. unfold BAVL_MAX. rewrite Z.gtb_ltb. zcase; lia. Qed.
Lemma BAVL_OPTNEG_sgn a d : BAVL_OPTNEG a d = - (a * sgn d).
Proof. destruct d; simpl; lia. Qed.

(** What a transformation keeps: the nodes in their order; it balances the
    subtree and reports the change of its height. *)
Definition transformed (o : BAVL) (c : list frame) (t : tree) (delta : Z) (res : run (BAVL * ptr * Z)) : Prop :=
  exists o' t' y, res = Ret (o', Some y, delta - (height t - height t')) /\ zip o' c t' /\ rootp t' = Some y /\
    avl t' /\ locs t' = locs t /\ dom (mem o') = dom (mem o) /\ height t - 1 <= height t' <= height t.
Arguments transformed : simpl never.

Section transform.
Variables (o : BAVL) (c : list frame) (d : bool) (x : positive) (b : Z) (s' : tree) (delta : Z).
Hypothesis (Hb : b = 2 * sgn d) (Hs' : avl s') (Hdelta : -100 <= delta <= 100).

Lemma bside_eq : (b =? 2) = d.
Proof. rewrite Hb. by destruct d. Qed.
Lemma bsidef_eq : (if b =? 2 then 1 else -1) = sgn d.
Proof. rewrite Hb. by destruct d. Qed.

(** [case 1] and [case 0]: a single rotation. *)
Lemma transform_single cc y cb m :
  zip o c (node d (node d cc y cb m) x b s') -> avl cc -> avl m ->
  height cc - height m = 0 \/ height cc - height m = 1 -> cb * sgn d = height cc - height m ->
  1 + height cc `max` height m = height s' + 2 ->
  transformed o c (node d (node d cc y cb m) x b s') delta (BAVL_transform o (Some x) delta).
Proof.
  intros Hz Hcc Hm Hcase Hcb Hh. unfold BAVL_transform. rewrite (zip_balance _ _ _ _ _ _ _ Hz). run_simpl.
  rewrite bsidef_eq, bside_eq. rewrite (zip_link _ _ _ _ _ _ _ Hz). run_simpl. rewrite rootp_node.
  rewrite bool_decide_true by done. cbn [check]. run_simpl.
  rewrite (zip_balance _ _ _ _ _ _ _ (proj1 (zip_down _ _ _ _ _ _ _) Hz)). run_simpl. rewrite Hcb.
  assert (Hrot : zip o c (node (negb (negb d)) (node (negb d) m y cb cc) x b s')).
  { rewrite negb_involutive. rewrite (node_flip (negb d)), negb_involutive. done. }
  destruct (BAVL_rotate_ok _ _ _ _ _ _ _ _ _ _ Hrot) as (o1 & Er & Hz1 & Hd1). rewrite Er. run_simpl.
  rewrite negb_involutive in Hz1.
  assert (Hsgn : sgn d = 1 \/ sgn d = -1) by (destruct d; auto).
  destruct (set_balance_node _ _ _ _ _ _ _ (if height cc - height m =? 1 then 0 else 1 * sgn d) ltac:(zcase; lia)
    (proj1 (zip_down _ _ _ _ _ _ _) Hz1)) as (o2 & E2 & Hz2 & Hd2). apply zip_down in Hz2.
  destruct (set_balance_node _ _ _ _ _ _ _ (if height cc - height m =? 1 then 0 else -1 * sgn d) ltac:(zcase; lia)
    Hz2) as (o3 & E3 & Hz3 & Hd3).
  assert (Hdom : dom (mem o3) = dom (mem o)) by congruence.
  exists o3, (node (negb d) (node d m x (if height cc - height m =? 1 then 0 else 1 * sgn d) s') y
                (if height cc - height m =? 1 then 0 else -1 * sgn d) cc), y.
  destruct (Z.eqb_spec (height cc - height m) 1) as [E|E].
  - rewrite E2. run_simpl. rewrite E3. run_simpl.
    rewrite !height_node. split_and!; try done; try lia; [|apply rootp_node| |by destruct d; simpl; rewrite <- ?app_assoc].
    + rewrite s8_small by lia. do 2 f_equal. lia.
    + rewrite !avl_node. split_and!; try done; try lia. rewrite height_node. lia.
  - assert (Hc0 : height cc - height m = 0) by lia. rewrite Hc0. cbn [Z.eqb]. rewrite E2. run_simpl. rewrite E3. run_simpl.
    rewrite !height_node. split_and!; try done; try lia; [|apply rootp_node| |by destruct d; simpl; rewrite <- ?app_assoc].
    + do 2 f_equal. lia.
    + rewrite !avl_node. split_and!; try done; try lia; rewrite ?height_node; destruct d; simpl in *; lia.
Qed.

(** [case -1]: the grandchild [g] comes up with two rotations. *)
Lemma transform_double cc y cb g1 g gb g2 :
  zip o c (node d (node d cc y cb (node d g1 g gb g2)) x b s') -> avl cc -> avl (node d g1 g gb g2) ->
  height cc = height s' -> height g1 `max` height g2 = height s' -> cb * sgn d = -1 ->
  transformed o c (node d (node d cc y cb (node d g1 g gb g2)) x b s') delta (BAVL_transform o (Some x) delta).
Proof.
  intros Hz Hcc Hm Hcch Hgh Hcb. unfold BAVL_transform. rewrite (zip_balance _ _ _ _ _ _ _ Hz). run_simpl.
  rewrite bsidef_eq, bside_eq. rewrite (zip_link _ _ _ _ _ _ _ Hz). run_simpl. rewrite rootp_node.
  rewrite bool_decide_true by done. cbn [check]. run_simpl.
  pose proof (proj1 (zip_down _ _ _ _ _ _ _) Hz) as Hzc. rewrite (zip_balance _ _ _ _ _ _ _ Hzc). run_simpl.
  rewrite Hcb. cbn [Z.eqb Pos.eqb]. rewrite (node_flip d cc) in Hzc.
  rewrite (zip_link _ _ _ _ _ _ _ Hzc). run_simpl. rewrite rootp_node.
  rewrite bool_decide_true by done. cbn [check]. run_simpl.
  destruct (BAVL_rotate_ok _ _ _ _ _ _ _ _ _ _ Hzc) as (o1 & E1 & Hz1 & Hd1). rewrite E1. run_simpl.
  rewrite (node_flip d _ g) in Hz1. apply zip_down in Hz1.
  rewrite <- (negb_involutive d) in Hz1 at 1.
  destruct (BAVL_rotate_ok _ _ _ _ _ _ _ _ _ _ Hz1) as (o2 & E2 & Hz2 & Hd2). rewrite E2. run_simpl.
  rewrite negb_involutive in Hz2.
  rewrite (zip_balance _ _ _ _ _ _ _ Hz2). run_simpl.
  apply avl_node in Hm as (Hg1 & Hg2 & Hgb & Hgbr).
  assert (Hsgn : sgn d = 1 \/ sgn d = -1) by (destruct d; auto).
  rewrite !BAVL_MAX_max.
  destruct (set_balance_node _ _ _ _ _ _ _ (- (0 `max` (gb * sgn d)) * sgn d) ltac:(nia)
    (proj1 (zip_down _ _ _ _ _ _ _) Hz2)) as (o3 & E3 & Hz3 & Hd3). rewrite E3. run_simpl. apply zip_down in Hz3.
  rewrite (zip_balance _ _ _ _ _ _ _ Hz3). run_simpl.
  rewrite node_flip, negb_involutive in Hz3.
  destruct (set_balance_node _ _ _ _ _ _ _ (0 `max` (- gb * sgn d) * sgn d) ltac:(nia)
    (proj1 (zip_down _ _ _ _ _ _ _) Hz3)) as (o4 & E4 & Hz4 & Hd4). rewrite !BAVL_MAX_max, E4. run_simpl. apply zip_down in Hz4.
  destruct (set_balance_node _ _ _ _ _ _ _ 0 ltac:(lia) Hz4) as (o5 & E5 & Hz5 & Hd5). rewrite E5. run_simpl.
  eexists o5, _, g. split; [|split; [exact Hz5|]].
  - rewrite !height_node, s8_small by lia. do 2 f_equal. destruct d; simpl in *; lia.
  - rewrite !height_node. split_and!; try lia; [apply rootp_node| |destruct d; simpl; by rewrite <- ?app_assoc; simpl; rewrite <- ?app_assoc|congruence].
    rewrite !avl_node, !height_node. split_and!; try done; destruct d; simpl in *; lia.
Qed.
End transform.

Lemma BAVL_transform_ok o c l x b r delta :
  zip o c (N l x b r) -> avl l -> avl r -> b = height r - height l -> b = 2 \/ b = -2 -> -100 <= delta <= 100 ->
  transformed o c (N l x b r) delta (BAVL_transform o (Some x) delta).
Proof.
  intros Hz Hl Hr Hb Hb2 Hdelta.
  assert (exists d s s', N l x b r = node d s x b s' /\ avl s /\ avl s' /\ height s = height s' + 2 /\ b = 2 * sgn d)
    as (d & s & s' & E & Hs & Hs' & Hh & Hbd).
  { destruct Hb2 as [->| ->]; [exists true, r, l|exists false, l, r]; repeat split; try done; lia. }
  rewrite E in *. pose proof (height_nonneg s').
  destruct (tree_node d s) as (cc & y & cb & m & ->); [lia|].
  apply avl_node in Hs as (Hcc & Hm & Hcb & Hcbr). rewrite height_node in Hh.
  assert (sgn d = 1 \/ sgn d = -1) by (destruct d; auto).
  destruct (Z_le_gt_dec (height m) (height cc)) as [Hle|Hgt].
  - apply transform_single; try done; nia.
  - pose proof (height_nonneg cc). destruct (tree_node d m) as (g1 & g & gb & g2 & ->); [lia|].
    rewrite height_node in *. apply transform_double; try done; nia.
Qed.

(** The side of the parent on which the program finds a child again. *)
Lemma zip_child_side o f c t y : zip o (f :: c) t -> rootp t = Some y ->
  exists l1, link_of o (Some (f_loc f)) true = Ret l1 /\ bool_decide (Some y = l1) = f_side f.
Proof.
  intros (_ & Hseg & _ & Hnd) Hy. rewrite Hy in Hseg. pose proof (rootp_in _ _ Hy) as Hin.
  rewrite list.NoDup_app in Hnd. destruct Hnd as (_ & Hdis & _).
  destruct (seg_hole _ _ _ _ Hseg (Hdis _ Hin) (f_loc f) eq_refl) as (n & Hn & Hl & Hr). cbn [cside] in *.
  eexists. split; [by apply link_of_ok|]. destruct (f_side f).
  - by rewrite bool_decide_true.
  - rewrite bool_decide_false; [done|]. intros E. by apply Hr.
Qed.

(** One level of [_BAVL_rebalance]: the node is balanced again, and [delta] is
    the change of the height of its subtree. *)
Lemma rebalance_level o c d t x b s oldh deltac :
  zip o c (node d t x b s) -> avl t -> avl s -> b * sgn d = oldh - height s -> -1 <= b <= 1 ->
  oldh = height t - deltac -> 0 <= oldh -> deltac = 1 \/ deltac = -1 ->
  exists o1 t2 o2 y,
    set_balance o (Some x) (b - BAVL_OPTNEG deltac d) = Ret o1 /\
    (b' ← balance_of o1 (Some x);
     (if (b' =? 2) || (b' =? -2) then
        BAVL_transform o1 (Some x) (s8 (BAVL_MAX deltac (BAVL_OPTNEG b d) - BAVL_MAX 0 (BAVL_OPTNEG b d)))
      else Ret (o1, Some x, s8 (BAVL_MAX deltac (BAVL_OPTNEG b d) - BAVL_MAX 0 (BAVL_OPTNEG b d)))))
      = Ret (o2, Some y, height t2 - (1 + oldh `max` height s)) /\
    zip o2 c t2 /\ rootp t2 = Some y /\ avl t2 /\ locs t2 = locs (node d t x b s) /\
    dom (mem o2) = dom (mem o) /\ -1 <= height t2 - (1 + oldh `max` height s) <= 1.
Proof.
  intros Hz Ht Hs Hb Hbr Hold H0 Hdc. assert (Hsgn : sgn d = 1 \/ sgn d = -1) by (destruct d; auto).
  rewrite !BAVL_OPTNEG_sgn, !BAVL_MAX_max, s8_small by nia.
  destruct (set_balance_node _ _ _ _ _ _ _ (b - - (deltac * sgn d)) ltac:(nia) Hz) as (o1 & E1 & Hz1 & Hd1).
  set (b1 := b - - (deltac * sgn d)) in *. set (delta := _ - _).
  assert (Hb1 : b1 * sgn d = height t - height s) by (unfold b1; nia).
  destruct (decide (b1 = 2 \/ b1 = -2)) as [Hb2|Hb2].
  - assert (exists l r, node d t x b1 s = N l x b1 r /\ avl l /\ avl r /\ b1 = height r - height l)
      as (l & r & E & Hl & Hr & Hbal).
    { destruct d; [exists s, t|exists t, s]; cbn in *; split_and!; try done; lia. }
    rewrite E in Hz1.
    destruct (BAVL_transform_ok o1 c l x b1 r delta Hz1 Hl Hr Hbal Hb2) as (o2 & t2 & y & Et & Hz2 & Hy & Ha & Hlo & Hd2 & Hh);
      [unfold delta; nia|].
    exists o1, t2, o2, y. split; [done|].
    assert (Hbo : balance_of o1 (Some x) = Ret b1) by (destruct Hz1 as ((Hx & _) & _); by rewrite (balance_of_ok _ _ _ Hx)).
    rewrite Hbo. run_simpl.
    assert (Hbb : (b1 =? 2) || (b1 =? -2) = true) by (destruct Hb2 as [-> | ->]; done). rewrite Hbb, Et.
    rewrite <- E in *. rewrite height_node in *. fold delta.
    split_and!; try done; try congruence; unfold delta in *; try nia.
    + do 2 f_equal. nia.
    + rewrite Hlo. by destruct d.
  - exists o1, (node d t x b1 s), o1, x. split; [done|]. rewrite (zip_balance _ _ _ _ _ _ _ Hz1). run_simpl.
    assert (Hbb : (b1 =? 2) || (b1 =? -2) = false) by (repeat zcase; lia). rewrite Hbb.
    rewrite height_node, avl_node. split_and!; try done; unfold delta in *; try nia.
    + do 2 f_equal. nia.
    + apply rootp_node.
    + by destruct d.
Qed.

Lemma zip_parent_root o c t y : zip o c t -> rootp t = Some y -> parent_of o (Some y) = Ret (top None c).
Proof. destruct t; [done|]. cbn. intros Hz [= <-]. by apply zip_parent in Hz. Qed.

(** A round of the walk: it stops at the root or goes on with the parent. *)
Lemma rebalance_round fuel o c d t x b s oldh deltac :
  zip o c (node d t x b s) -> avl t -> avl s -> b * sgn d = oldh - height s -> -1 <= b <= 1 ->
  oldh = height t - deltac -> 0 <= oldh -> deltac = 1 \/ deltac = -1 ->
  exists t2 o2 y delta,
    BAVL_rebalance fuel o (Some x) d deltac =
      match top None c with
      | None => Ret o2
      | Some _ =>
          l1 ← link_of o2 (top None c) true;
          match fuel with
          | O => Fail OutOfFuel
          | S fuel => BAVL_rebalance fuel o2 (top None c) (bool_decide (Some y = l1)) delta
          end
      end /\
    zip o2 c t2 /\ rootp t2 = Some y /\ avl t2 /\ locs t2 = locs (node d t x b s) /\
    dom (mem o2) = dom (mem o) /\ -1 <= delta <= 1 /\ height t2 - delta = 1 + oldh `max` height s.
Proof.
  intros Hz Ht Hs Hb Hbr Hold H0 Hdc.
  assert (Hsgn : sgn d = 1 \/ sgn d = -1) by (destruct d; auto).
  destruct (rebalance_level o c d t x b s oldh deltac) as (o1 & t2 & o2 & y & E1 & E2 & Hz2 & Hy & Ha & Hl & Hd & Hr);
    try done.
  exists t2, o2, y, (height t2 - (1 + oldh `max` height s)).
  split; [|by split_and!; try done; lia].
  set (delta := s8 _) in *.
  assert (Hdelta : -1 <= delta <= 1).
  { unfold delta. rewrite !BAVL_OPTNEG_sgn, !BAVL_MAX_max. rewrite s8_small by nia. nia. }
  assert (Hu : BAVL_rebalance fuel o (Some x) d deltac =
    (b' ← balance_of o1 (Some x);
     '(o, node, delta) ← (if (b' =? 2) || (b' =? -2) then BAVL_transform o1 (Some x) delta else Ret (o1, Some x, delta));
     _ ← check ((-1 <=? delta) && (delta <=? 1));
     p ← parent_of o node;
     match p with
     | None => Ret o
     | Some _ =>
         l1 ← link_of o p true;
         match fuel with
         | O => Fail OutOfFuel
         | S fuel => BAVL_rebalance fuel o p (bool_decide (node = l1)) delta
         end
     end)).
  { destruct fuel; cbn [BAVL_rebalance]; ztest; run_simpl; rewrite (zip_balance _ _ _ _ _ _ _ Hz); run_simpl; ztest;
      run_simpl; fold delta; ztest; run_simpl; by rewrite E1. }
  rewrite Hu. destruct (balance_of o1 (Some x)) as [b'|]; [|done]. cbn [mbind run_bind] in E2 |- *.
  rewrite E2. cbn [mbind run_bind]. ztest. run_simpl. by rewrite (zip_parent_root _ _ _ _ Hz2 Hy).
Qed.

Lemma BAVL_rebalance_ok c : forall fuel o f t deltac,
  zip o (f :: c) t -> avl t -> cavl (f :: c) (height t - deltac) -> -1 <= deltac <= 1 ->
  0 <= height t - deltac -> (length c <= fuel)%nat ->
  exists o' t', BAVL_rebalance fuel o (Some (f_loc f)) (f_side f) deltac = Ret o' /\
    zip o' [] t' /\ avl t' /\ locs t' = locs (plug (f :: c) t) /\ dom (mem o') = dom (mem o).
Proof.
  induction c as [|f2 c IH]; intros fuel o f t deltac Hz Ht Hc Hdc H0 Hfuel;
    (destruct (decide (deltac = 0)) as [->|Hne];
      [eexists o, _; split; [|split; [by apply zip_plug in Hz|]]; [|split; [|done]; apply cavl_plug; [done|];
         by rewrite Z.sub_0_r in Hc]|]).
  1, 3: assert (Hb : exists b, balance_of o (Some (f_loc f)) = Ret b /\ -1 <= b <= 1)
    by (destruct f as [d x b s]; exists b; split; [apply zip_down in Hz; by apply zip_balance in Hz|apply Hc]);
    destruct Hb as (b & Hb & Hbr); destruct fuel; cbn [BAVL_rebalance]; ztest; run_simpl; rewrite Hb; run_simpl; by ztest.
  - destruct f as [d x b s], Hc as (Hs & Hb & Hbr & _). cbn [f_side f_loc f_bal f_sib] in *.
    destruct (rebalance_round fuel o [] d t x b s (height t - deltac) deltac) as (t2 & o2 & y & dl & E & Hz2 & ? & ? & ? & ? & _);
      try done; try lia; [by apply zip_down|].
    exists o2, t2. rewrite E. done.
  - destruct f as [d x b s], Hc as (Hs & Hb & Hbr & Hrest). cbn [f_side f_loc f_bal f_sib] in *.
    destruct (rebalance_round fuel o (f2 :: c) d t x b s (height t - deltac) deltac)
      as (t2 & o2 & y & dl & E & Hz2 & Hy & Ha & Hl & Hd & Hdl & Hh); try done; try lia; [by apply zip_down|].
    rewrite E. cbn [top]. destruct (zip_child_side _ _ _ _ _ Hz2 Hy) as (l1 & -> & Hside). run_simpl. rewrite Hside.
    destruct fuel as [|fuel]; [cbn in Hfuel; lia|].
    destruct (IH fuel o2 f2 t2 dl) as (o' & t' & E' & Hz' & Ha' & Hl' & Hd'); try done; try lia.
    + by rewrite Hh.
    + cbn in Hfuel. lia.
    + exists o', t'. split_and!; try done; [|congruence].
      rewrite Hl'. cbn [plug fold_left]. fold (plug c (fill f2 t2)).
      fold (plug c (fill f2 (fill (Frame d x b s) t))). rewrite !locs_plug.
      unfold fill. cbn [f_side f_loc f_bal f_sib]. do 2 f_equal. destruct (f_side f2); cbn; rewrite Hl; done.
Qed.
