(* ===== verification/BavlSwap.v ===== *)
(** * Exchange and replacement of nodes ([_BAVL_swap_nodes], [_BAVL_replace_subtree])

    [BAVL_Remove] of a node with two children first exchanges the node with the
    largest node of its left subtree: every link, every parent pointer and the
    balance factors change places, in one of two ways depending on whether the
    nodes are neighbours. *)
From stdpp Require Import gmap.
From S2P Require Import Prelude Addr Bavl BavlTree BavlBalance.

Ltac node_cbn := cbn [n_link n_parent n_balance n_link0 n_link1 upd_parent upd_link upd_balance negb].
(** A node read through the writes, with its fields computed. *)
Ltac lkc :=
  cbn [mem root]; rewrite ?lookup_upd; lk_if;
  match goal with H : ?h !! ?x = Some _ |- context [?h !! ?x] => rewrite H end;
  cbn [fmap option_fmap option_map id]; node_cbn; reflexivity.

(** The loc [x] keeps its node: none of the written pointers is [x]. *)
Ltac unchanged h x :=
  rewrite ?lookup_upd; lk_if; by destruct (h !! x).

(** A node of one of the groups: only the writes at the edge of its group reach it. *)
Ltac rewired H x h :=
  match goal with Hx : x ∈ _ |- _ => destruct (H x Hx) as (? & ? & ? & ? & ?) end;
  rewrite ?lookup_upd;
  repeat match goal with
  | Hn : x ∉ locs ?t |- _ => apply rootp_notin in Hn
  | Hn : x ∉ clocs ?c |- _ => apply top_notin in Hn
  end;
  lk_if; by destruct (decide _), (h !! x).

(** [_BAVL_replace_subtree] puts the only child in the place of a node. *)
Lemma BAVL_replace_subtree_ok o c l x b r t :
  zip o c (N l x b r) -> (l = E /\ t = r) \/ (r = E /\ t = l) ->
  exists o', BAVL_replace_subtree o (Some x) (rootp t) = Ret o' /\ zip o' c t /\ dom (mem o') = dom (mem o).
Proof.
  intros (Hrep & Hseg & Hroot & Hnd) Ht. pose proof Hrep as (Hx & Hl & Hr). cbn [rootp] in *.
  assert (Hp : locs (N l x b r) ++ clocs c ≡ₚ x :: locs t ++ clocs c).
  { destruct Ht as [[-> ->]|[-> ->]]; cbn; [done|]. rewrite <- app_assoc. cbn. by rewrite Permutation_middle. }
  rewrite Hp in Hnd. pose proof Hnd as Hnd'. rewrite list.NoDup_cons, list.NoDup_app in Hnd'.
  destruct Hnd' as (Hxn & Hndt & Hdis & Hndc).
  assert (Hrt : rep (mem o) (Some x) t) by (by destruct Ht as [[-> ->]|[-> ->]]).
  assert (Htx : rootp t <> Some x) by (apply rootp_notin; set_solver).
  assert (Hcx : top None c <> Some x) by (intros ?%top_clocs; set_solver).
  unfold BAVL_replace_subtree. erewrite parent_of_ok by lkc. node_cbn. run_simpl.
  rewrite replace_child_ok by (apply (seg_hole _ None); [done|set_solver]). run_simpl.
  assert (Hfin : exists o', (match rootp t with
      | Some _ => p ← parent_of (MkTree (new_root o c (rootp t)) (upd (upd_link (cside c) (rootp t)) (top None c) (mem o))) (Some x);
          set_parent (MkTree (new_root o c (rootp t)) (upd (upd_link (cside c) (rootp t)) (top None c) (mem o))) (rootp t) p
      | None => Ret (MkTree (new_root o c (rootp t)) (upd (upd_link (cside c) (rootp t)) (top None c) (mem o)))
      end) = Ret o' /\ root o' = new_root o c (rootp t) /\
      mem o' = upd (upd_parent (top None c)) (rootp t) (upd (upd_link (cside c) (rootp t)) (top None c) (mem o))).
  { destruct (rootp t) as [y|] eqn:Hy; [|by eexists]. erewrite parent_of_ok by lkc. node_cbn. run_simpl.
    destruct (rep_root_some _ _ _ _ Hrt Hy) as [n Hn].
    rewrite (set_parent_ok _ _ ((if decide (top None c = Some y) then upd_link (cside c) (Some y) else id) n))
      by (cbn [mem]; by rewrite lookup_upd, Hn). by eexists. }
  destruct Hfin as (o' & Ho' & Hro' & Hmo'). exists o'. split; [done|].
  split; [|by rewrite Hmo', !dom_upd].
  split; [|split; [|split]]; rewrite ?Hmo', ?Hro'.
  - apply (rep_reparent (mem o) _ (Some x)); [done| |done]. intros y Hy. rewrite !lookup_upd.
    assert (top None c <> Some y) by (intros ?%top_clocs; set_solver). lk_if. by destruct (decide _), (mem o !! y).
  - apply (seg_relink (mem o) _ None c (Some x)); [done| |done]. intros y Hy. rewrite !lookup_upd.
    assert (rootp t <> Some y) by (apply rootp_notin; set_solver). lk_if. by destruct (decide _), (mem o !! y).
  - destruct c; [done|]. cbn. by rewrite Hroot.
  - by apply list.NoDup_cons in Hnd as [_ ?].
Qed.

(** ** Neighbours: [n2] is the child of [n1] on side [d] *)
Lemma swap_connected_ok o c d n1 b1 s l2 n2 b2 r2 :
  zip o (Frame d n1 b1 s :: c) (N l2 n2 b2 r2) ->
  exists o', swap_connected o (Some n1) (Some n2) = Ret o' /\
    zip o' (Frame d n2 b2 s :: c) (N l2 n1 b1 r2) /\ dom (mem o') = dom (mem o).
Proof.
  intros (Hrep & Hseg & Hroot & Hnd). pose proof Hrep as (E2 & Hl2 & Hr2). pose proof Hseg as (E1 & Hs & Hc).
  cbn [rootp top bot clocs f_loc f_side f_bal f_sib] in *.
  assert (Hp : locs (N l2 n2 b2 r2) ++ n1 :: locs s ++ clocs c ≡ₚ
    n1 :: n2 :: locs l2 ++ locs r2 ++ locs s ++ clocs c).
  { cbn. rewrite <- !Permutation_middle. cbn. by rewrite <- app_assoc. }
  rewrite Hp in Hnd. destruct (nodup_groups _ _ _ _ _ _ Hnd) as
    (Hn12 & (?&?&?&?) & (?&?&?&?) & (Hndl & Hndr & Hnds & Hndc) & Hlt & Hrt & Hst & Hct).
  assert (rootp l2 <> Some n1) by auto with bavl. assert (rootp l2 <> Some n2) by auto with bavl.
  assert (rootp r2 <> Some n1) by auto with bavl. assert (rootp r2 <> Some n2) by auto with bavl.
  assert (rootp s <> Some n1) by auto with bavl. assert (rootp s <> Some n2) by auto with bavl.
  assert (top None c <> Some n1) by auto with bavl. assert (top None c <> Some n2) by auto with bavl.
  unfold swap_connected, adopt.
  rewrite (link_of_ok _ _ _ true E1). run_simpl.
  assert (Hside : bool_decide (Some n2 = n_link (mk_node (top None c) d (Some n2) (rootp s) b1) true) = d).
  { destruct d; cbn; [by rewrite bool_decide_true|]. rewrite bool_decide_false; [done|congruence]. }
  rewrite Hside, (link_of_ok _ _ _ (negb d) E1), link_mk_other. run_simpl.
  rewrite (link_of_ok _ _ _ false E2). node_cbn. run_simpl.
  erewrite set_link_ok by lkc. run_simpl.
  rewrite set_parent_if_ok by (intros x Hx; in_dom; apply (rep_root_some _ _ _ _ Hl2 Hx)). run_simpl.
  erewrite link_of_ok by lkc. node_cbn. run_simpl.
  erewrite set_link_ok by lkc. run_simpl.
  rewrite set_parent_if_ok by (intros x Hx; in_dom; apply (rep_root_some _ _ _ _ Hr2 Hx)). run_simpl.
  erewrite parent_of_ok by lkc. node_cbn. rewrite parent_mk. run_simpl.
  erewrite set_parent_ok by lkc. run_simpl.
  rewrite replace_child_ok.
  2: { apply (hole_agree (mem o)); [|apply (seg_hole _ None); [done|set_solver]].
       intros p (? & ? & Hpl & Hpr & _)%top_clocs%Hct. cbn [mem].
       apply rootp_notin in Hpl, Hpr. unchanged (mem o) p. }
  run_simpl. erewrite set_link_ok by lkc. run_simpl.
  erewrite set_parent_ok by lkc. run_simpl.
  erewrite set_link_ok by lkc. run_simpl.
  rewrite set_parent_if_ok by (intros x Hx; in_dom; apply (rep_root_some _ _ _ _ Hs Hx)).
  eexists. split; [done|]. split; [|cbn [mem]; by rewrite !dom_upd].
  split; [|split; [|split]]; cbn [rootp top bot clocs f_loc f_side f_bal f_sib mem root rep seg].
  - split; [|split].
    + rewrite !lookup_upd. lk_if. rewrite E1. cbn. by destruct d.
    + apply (rep_reparent (mem o) _ (Some n2)); [done| |done]. intros x Hx. rewired Hlt x (mem o).
    + apply (rep_reparent (mem o) _ (Some n2)); [done| |done]. intros x Hx. rewired Hrt x (mem o).
  - split; [|split].
    + rewrite !lookup_upd. lk_if. rewrite E2. cbn. by destruct d.
    + apply (rep_reparent (mem o) _ (Some n1)); [done| |done]. intros x Hx. rewired Hst x (mem o).
    + apply (seg_relink (mem o) _ None c (Some n1)); [done| |done]. intros x Hx. rewired Hct x (mem o).
  - destruct c; [done|]. cbn. by rewrite Hroot.
  - assert (Hp' : locs (N l2 n1 b1 r2) ++ n2 :: locs s ++ clocs c ≡ₚ
      n1 :: n2 :: locs l2 ++ locs r2 ++ locs s ++ clocs c); [|by rewrite Hp'].
    cbn. rewrite <- !Permutation_middle. cbn. rewrite <- app_assoc. apply Permutation_swap.
Qed.

Lemma perm_apart (n1 n2 : positive) (A B S Q C : list positive) :
  (A ++ n2 :: B) ++ Q ++ n1 :: S ++ C ≡ₚ n1 :: n2 :: A ++ B ++ S ++ Q ++ C.
Proof.
  rewrite (app_assoc (A ++ n2 :: B)), <- Permutation_middle. f_equiv.
  rewrite <- !app_assoc. cbn. rewrite <- Permutation_middle. do 3 f_equiv. apply Permutation_app_swap_app.
Qed.

(** ** Nodes apart: [n2] lies below [n1] with the frames [f :: p] between them *)
Lemma swap_apart_ok o f p c n1 b1 s l2 n2 b2 r2 :
  zip o ((f :: p) ++ Frame false n1 b1 s :: c) (N l2 n2 b2 r2) ->
  exists o', swap_apart o (Some n1) (Some n2) = Ret o' /\
    zip o' ((f :: p) ++ Frame false n2 b2 s :: c) (N l2 n1 b1 r2) /\ dom (mem o') = dom (mem o).
Proof.
  set (q := f :: p). intros (Hrep & Hseg & Hroot & Hnd).
  pose proof Hrep as (E2 & Hl2 & Hr2). rewrite seg_app in Hseg. destruct Hseg as (Hq & E1 & Hs & Hc).
  rewrite bot_app in Hroot. cbn [rootp top bot clocs f_loc f_side f_bal f_sib] in *.
  assert (Htop : top None (q ++ Frame false n1 b1 s :: c) = Some (f_loc f)) by done. rewrite Htop in E2.
  assert (Hp : locs (N l2 n2 b2 r2) ++ clocs (q ++ Frame false n1 b1 s :: c) ≡ₚ
    n1 :: n2 :: locs l2 ++ locs r2 ++ locs s ++ (clocs q ++ clocs c)).
  { rewrite clocs_app. apply perm_apart. }
  rewrite Hp in Hnd. destruct (nodup_groups _ _ _ _ _ _ Hnd) as
    (Hn12 & (?&?&?&Hn1q) & (?&?&?&Hn2q) & (Hndl & Hndr & Hnds & Hndqc) & Hlt & Hrt & Hst & Hqt).
  rewrite not_elem_of_app in Hn1q, Hn2q. destruct Hn1q, Hn2q.
  rewrite list.NoDup_app in Hndqc. destruct Hndqc as (Hndq & Hdqc & Hndc).
  destruct (bot_in (Some n2) f p) as (y & Hy & Hyq). fold q in Hy, Hyq. rewrite Hy in E1. cbn [mk_node] in E1.
  destruct (Hqt y) as (? & ? & ? & ? & ?); [apply elem_of_app; by left|].
  assert (Hfq : f_loc f ∈ clocs q) by (cbn; set_solver).
  destruct (Hqt (f_loc f)) as (? & ? & Hfl & Hfr & Hfs); [apply elem_of_app; by left|].
  assert (rootp l2 <> Some n1) by auto with bavl. assert (rootp l2 <> Some n2) by auto with bavl.
  assert (rootp r2 <> Some n1) by auto with bavl. assert (rootp r2 <> Some n2) by auto with bavl.
  assert (rootp s <> Some n1) by auto with bavl. assert (rootp s <> Some n2) by auto with bavl.
  assert (top None c <> Some n1) by auto with bavl. assert (top None c <> Some n2) by auto with bavl.
  assert (Hcq : forall x, x ∈ clocs c -> x ∉ clocs q) by (intros x Hx Hx'; by apply (Hdqc x)).
  unfold swap_apart, adopt.
  rewrite (parent_of_ok _ _ _ E1). cbn [mk_node]. node_cbn. run_simpl.
  rewrite (parent_of_ok _ _ _ E2). node_cbn. run_simpl.
  erewrite set_parent_ok by lkc. run_simpl.
  rewrite (replace_child_ok (MkTree _ _) q n2).
  2: { apply (hole_agree (mem o)); [|apply (seg_hole _ (Some n1)); done].
       intros z Hz%top_clocs. cbn [mem]. destruct (Hqt z) as (? & ? & _); [apply elem_of_app; by left|]. unchanged (mem o) z. }
  run_simpl. change (top None q) with (Some (f_loc f)).
  erewrite set_parent_ok by lkc. run_simpl.
  rewrite replace_child_ok.
  2: { apply (hole_agree (mem o)); [|apply (seg_hole _ None); [exact Hc|done]].
       intros z Hz%top_clocs. cbn [mem]. destruct (Hqt z) as (? & ? & _); [apply elem_of_app; by right|].
       assert (f_loc f <> z) by (intros <-; by apply (Hcq (f_loc f))). unchanged (mem o) z. }
  run_simpl.
  assert (Hfc : top None c <> Some (f_loc f)) by (apply top_notin; intros ?; by apply (Hcq (f_loc f))).
  assert (Hyc : top None c <> Some y) by (apply top_notin; intros ?; by apply (Hcq y)).
  erewrite link_of_ok by lkc. cbn [mk_node]. node_cbn. run_simpl.
  erewrite link_of_ok by lkc. node_cbn. run_simpl.
  erewrite set_link_ok by lkc. run_simpl.
  rewrite set_parent_if_ok by (intros x Hx; in_dom; apply (rep_root_some _ _ _ _ Hl2 Hx)). run_simpl.
  erewrite set_link_ok by lkc. run_simpl.
  rewrite (set_parent_if_ok _ (Some y)).
  2: { intros x [= <-]. in_dom. apply (seg_dom _ _ _ _ _ Hq Hyq). }
  run_simpl. erewrite link_of_ok by lkc. node_cbn. run_simpl.
  erewrite link_of_ok by lkc. node_cbn. run_simpl.
  erewrite set_link_ok by lkc. run_simpl.
  rewrite set_parent_if_ok by (intros x Hx; in_dom; apply (rep_root_some _ _ _ _ Hr2 Hx)). run_simpl.
  erewrite set_link_ok by lkc. run_simpl.
  rewrite set_parent_if_ok by (intros x Hx; in_dom; apply (rep_root_some _ _ _ _ Hs Hx)).
  eexists. split; [done|]. split; [|cbn [mem]; by rewrite !dom_upd].
  assert (Hout : forall x, x ∉ clocs q ++ clocs c -> x <> f_loc f /\ x <> y /\ top None c <> Some x).
  { intros x Hx. rewrite not_elem_of_app in Hx. destruct Hx as [Hx1 Hx2].
    split_and!; [by intros ->..|by apply top_notin]. }
  split; [|split; [|split]].
  - change (top None (q ++ Frame false n2 b2 s :: c)) with (Some (f_loc f)). cbn [rep mem]. split; [|split].
    + rewrite !lookup_upd. lk_if. by rewrite E1.
    + apply (rep_reparent (mem o) _ (Some n2)); [done| |done]. intros x Hx.
      destruct (Hlt x Hx) as (? & ? & Hxr & Hxs & Hxq). destruct (Hout x Hxq) as (? & ? & ?).
      apply rootp_notin in Hxr, Hxs. rewrite !lookup_upd. lk_if. by destruct (decide _), (mem o !! x).
    + apply (rep_reparent (mem o) _ (Some n2)); [done| |done]. intros x Hx.
      destruct (Hrt x Hx) as (? & ? & Hxr & Hxs & Hxq). destruct (Hout x Hxq) as (? & ? & ?).
      apply rootp_notin in Hxr, Hxs. rewrite !lookup_upd. lk_if. by destruct (decide _), (mem o !! x).
  - cbn [rootp mem]. apply seg_app. cbn [top f_loc seg f_side f_bal f_sib].
    change (bot (Some n1) q) with (bot (Some n2) q). rewrite Hy. split; [|split; [|split]].
    + assert (Hm : seg (upd (upd_link (cside q) (Some n1)) (top None q) (mem o)) (Some n1) q (Some n1)).
      { apply (seg_relink (mem o) _ _ q (Some n2)); [done| |done]. intros x _. by rewrite lookup_upd. }
      eapply (seg_reparent _ _ (Some n1) (Some n2) f p); [done| |exact Hm]. intros x Hx.
      destruct (Hqt x) as (? & ? & Hxl & Hxr & Hxs); [apply elem_of_app; by left|].
      assert (top None c <> Some x) by (apply top_notin; by apply Hdqc).
      apply rootp_notin in Hxl, Hxr, Hxs. fold q. change (bot (Some n1) q) with (bot (Some n2) q). rewrite Hy.
      change (top None q) with (Some (f_loc f)).
      rewrite !lookup_upd. destruct (decide (Some y = Some x)), (decide (Some (f_loc f) = Some x));
        lk_if; by destruct (mem o !! x).
    + rewrite !lookup_upd. lk_if. by rewrite E2.
    + apply (rep_reparent (mem o) _ (Some n1)); [done| |done]. intros x Hx.
      destruct (Hst x Hx) as (? & ? & Hxl & Hxr & Hxq). destruct (Hout x Hxq) as (? & ? & ?).
      apply rootp_notin in Hxl, Hxr. rewrite !lookup_upd. lk_if. by destruct (decide _), (mem o !! x).
    + apply (seg_relink (mem o) _ None c (Some n1)); [done| |done]. intros x Hx.
      destruct (Hqt x) as (? & ? & Hxl & Hxr & Hxs); [apply elem_of_app; by right|].
      assert (x <> f_loc f /\ x <> y) as [? ?] by (split; intros ->; by apply (Hcq _ Hx)).
      apply rootp_notin in Hxl, Hxr, Hxs. rewrite !lookup_upd. lk_if. by destruct (decide _), (mem o !! x).
  - rewrite bot_app. cbn [root bot f_loc]. destruct c; [done|]. cbn. by rewrite Hroot.
  - rewrite clocs_app. cbn [locs clocs f_loc f_sib]. rewrite perm_apart. rewrite Permutation_swap. done.
Qed.

Lemma zip_plug_app o p c t : zip o (p ++ c) t <-> zip o c (plug p t).
Proof.
  revert t. induction p as [|f p IH]; intros t; [done|]. cbn [app plug fold_left].
  fold (plug p (fill f t)). rewrite <- IH. destruct f. symmetry. apply zip_down.
Qed.

(** The exchange puts each node in the place of the other; places keep their balance factors. *)
Lemma BAVL_swap_nodes_ok o p c n1 b1 s l2 n2 b2 r2 :
  zip o (p ++ Frame false n1 b1 s :: c) (N l2 n2 b2 r2) -> -1 <= b1 <= 1 -> -1 <= b2 <= 1 ->
  exists o', BAVL_swap_nodes o (Some n1) (Some n2) = Ret o' /\
    zip o' (p ++ Frame false n2 b1 s :: c) (N l2 n1 b2 r2) /\ dom (mem o') = dom (mem o).
Proof.
  intros Hz Hb1 Hb2. unfold BAVL_swap_nodes.
  assert (Hz1 : zip o c (N (plug p (N l2 n2 b2 r2)) n1 b1 s)) by (by apply zip_left, zip_plug_app).
  rewrite (zip_parent _ _ _ _ _ _ Hz1), (zip_parent _ _ _ _ _ _ Hz). run_simpl.
  assert (Hne : top None c <> Some n2 /\ forall f p', p = f :: p' -> f_loc f <> n1).
  { destruct Hz as (_ & _ & _ & Hnd). rewrite clocs_app in Hnd. cbn in Hnd. rewrite perm_apart in Hnd.
    destruct (nodup_groups _ _ _ _ _ _ Hnd) as (_ & _ & (_ & _ & _ & H2) & _ & _ & _ & _ & Hq).
    rewrite not_elem_of_app in H2. split; [apply top_notin; tauto|].
    intros f p' ->. apply (Hq (f_loc f)). cbn. set_solver. }
  destruct Hne as [Hne1 Hne2].
  assert (Hsw : exists o1, (if bool_decide (top None (p ++ Frame false n1 b1 s :: c) = Some n1) || bool_decide (top None c = Some n2) then
       let '(n1, n2) := if bool_decide (top None c = Some n2) then (Some n2, Some n1) else (Some n1, Some n2) in
       tree ← swap_connected o n1 n2; Ret (tree, n1, n2)
     else tree ← swap_apart o (Some n1) (Some n2); Ret (tree, Some n1, Some n2)) = Ret (o1, Some n1, Some n2) /\
     zip o1 (p ++ Frame false n2 b2 s :: c) (N l2 n1 b1 r2) /\ dom (mem o1) = dom (mem o)).
  { rewrite (bool_decide_false (top None c = Some n2)) by done. destruct p as [|f p].
    - cbn [app top f_loc]. rewrite bool_decide_true by done. cbn [orb].
      destruct (swap_connected_ok _ _ _ _ _ _ _ _ _ _ Hz) as (o1 & -> & Hz' & Hd). by exists o1.
    - rewrite bool_decide_false by (cbn; intros [= E]; by apply (Hne2 f p)). cbn [orb].
      destruct (swap_apart_ok _ _ _ _ _ _ _ _ _ _ _ Hz) as (o1 & -> & Hz' & Hd). by exists o1. }
  destruct Hsw as (o1 & Hsw & Hz2 & Hd1). rewrite Hsw. run_simpl.
  rewrite (zip_balance o1 _ false _ _ _ _ Hz2). run_simpl.
  assert (Hz3 : zip o1 c (N (plug p (N l2 n1 b1 r2)) n2 b2 s)) by (by apply zip_left, zip_plug_app).
  rewrite (zip_balance o1 _ false _ _ _ _ Hz3). run_simpl.
  destruct (set_balance_node o1 _ false _ _ _ _ b2 ltac:(lia) Hz2) as (o2 & -> & Hz4 & Hd2). run_simpl.
  assert (Hz5 : zip o2 c (N (plug p (N l2 n1 b2 r2)) n2 b2 s)) by (by apply zip_left, zip_plug_app).
  destruct (set_balance_node o2 _ false _ _ _ _ b1 ltac:(lia) Hz5) as (o3 & -> & Hz6 & Hd3).
  exists o3. split; [done|]. split; [|congruence]. by apply zip_plug_app, zip_left.
Qed.
