(* ===== verification/BavlSpec.v ===== *)
(** * The AVL tree implements an ordered list of nodes ([structure/BAVL.h])

    [bavl o l]: the tree [o] in memory is balanced and its nodes, read in order,
    are [l], whose values increase strictly.  The lemmas give every operation
    its effect on [l]; none of them fails, fails an assertion or runs out of
    fuel. *)
From stdpp Require Import gmap sorting.
From S2P Require Import Prelude Addr Bavl BavlTree BavlBalance BavlSwap.

(** ** Fuel: no walk is longer than the number of nodes *)

Lemma zip_nodes o c t x : zip o c t -> x ∈ locs t ++ clocs c -> x ∈ dom (mem o).
Proof.
  intros (Hrep & Hseg & _) Hx. apply elem_of_dom. rewrite elem_of_app in Hx.
  destruct Hx; [by eapply rep_dom|by eapply seg_dom].
Qed.
Lemma zip_size o c t : zip o c t -> (length (locs t) + length (clocs c) <= tree_fuel o)%nat.
Proof.
  intros Hz. pose proof Hz as (_ & _ & _ & Hnd). unfold tree_fuel. rewrite <- length_app, <- size_dom.
  rewrite <- (size_list_to_set (C := gset positive) _ Hnd). apply subseteq_size.
  intros x Hx. rewrite elem_of_list_to_set in Hx. by eapply zip_nodes.
Qed.
Lemma length_clocs c : (length c <= length (clocs c))%nat.
Proof. induction c as [|f c IH]; cbn; [lia|]. rewrite length_app. lia. Qed.
Lemma zip_depth o c t : zip o c t -> (length c <= tree_fuel o)%nat.
Proof. intros Hz. pose proof (zip_size _ _ _ Hz). pose proof (length_clocs c). lia. Qed.
Lemma height_locs t : height t <= len (locs t).
Proof.
  induction t as [|l IHl x b r IHr]; cbn [height locs]; [done|]. rewrite len_app, len_cons.
  pose proof (len_nonneg (locs l)). pose proof (len_nonneg (locs r)). lia.
Qed.
Lemma zip_height o c t : zip o c t -> height t <= Z.of_nat (tree_fuel o).
Proof. intros Hz. pose proof (zip_size _ _ _ Hz). pose proof (height_locs t). unfold len in *. lia. Qed.

(** A balanced tree of height [h] has at least [2^(h/2)-1] nodes. *)
Lemma avl_size t : avl t -> 2 ^ (height t / 2) <= 1 + len (locs t).
Proof.
  enough (Hs : forall n t, height t <= Z.of_nat n -> avl t -> 2 ^ (height t / 2) <= 1 + len (locs t)).
  { apply (Hs (Z.to_nat (height t))). pose proof (height_nonneg t). lia. }
  clear t. induction n as [|n IH]; intros t Hh Ha; pose proof (height_nonneg t).
  - replace (height t) with 0 by lia. change (2 ^ (0 / 2)) with 1. pose proof (len_nonneg (locs t)). lia.
  - destruct t as [|l x b r]; [by vm_compute|]. cbn [height avl locs] in *. destruct Ha as (Hl & Hr & Hb & Hbr).
    rewrite len_app, len_cons. pose proof (height_nonneg l). pose proof (height_nonneg r).
    pose proof (IH l ltac:(lia) Hl) as IHl. pose proof (IH r ltac:(lia) Hr) as IHr.
    set (m := height l `max` height r) in *.
    destruct (Z.eq_dec m 0) as [E|E].
    + rewrite E. change (2 ^ ((1 + 0) / 2)) with 1. pose proof (len_nonneg (locs l)). pose proof (len_nonneg (locs r)). lia.
    + assert (Hm : 2 ^ ((1 + m) / 2) = 2 * 2 ^ ((m - 1) / 2)).
      { replace ((1 + m) / 2) with (1 + (m - 1) / 2) by (Z.to_euclidean_division_equations; lia).
        rewrite Z.pow_add_r by (try lia; Z.to_euclidean_division_equations; lia). lia. }
      rewrite Hm.
      assert (forall k, m - 1 <= k -> 2 ^ ((m - 1) / 2) <= 2 ^ (k / 2)) as Hmono.
      { intros k Hk. apply Z.pow_le_mono_r; [lia|]. apply Z.div_le_mono; lia. }
      pose proof (Hmono (height l) ltac:(lia)). pose proof (Hmono (height r) ltac:(lia)). lia.
Qed.

Lemma cavl_unplug c t : avl (plug c t) -> avl t /\ cavl c (height t).
Proof.
  revert t. induction c as [|f c IH]; intros t; [done|]. cbn [plug fold_left]. fold (plug c (fill f t)).
  intros (Hf & Hc)%IH. unfold fill in *. apply avl_node in Hf as (Ht & Hs & Hb & Hbr). rewrite height_node in Hc.
  split; [done|]. cbn [cavl]. done.
Qed.

(** Every node of a tree is the focus of some zipper. *)
Lemma locs_focus t x : x ∈ locs t -> exists c l b r, t = plug c (N l x b r).
Proof.
  enough (Hf : forall c t, x ∈ locs t -> exists c' l b r, plug c t = plug c' (N l x b r)) by apply (Hf []).
  clear t. intros c t. revert c. induction t as [|l IHl y b r IHr]; intros c; cbn [locs]; [set_solver|].
  rewrite elem_of_app, elem_of_cons. intros [Hx|[->|Hx]].
  - apply (IHl (Frame false y b r :: c) Hx).
  - by eexists c, l, b, r.
  - apply (IHr (Frame true y b l :: c) Hx).
Qed.

(** ** Walking along one side, and climbing back *)

Lemma subtree_max_walk fuel o n : BAVL_subtree_max fuel o n = BAVL_walk fuel o n true.
Proof.
  revert n. induction fuel as [|fuel IH]; intros n; cbn [BAVL_subtree_max BAVL_walk]; [done|].
  destruct (link_of o n true) as [[q|]|]; cbn [mbind run_bind]; done.
Qed.

(** The walk ends at a node without a child on side [d]; all frames passed are of side [d]. *)
Lemma BAVL_walk_zip d t : forall fuel o c x, zip o c t -> rootp t = Some x -> height t <= 1 + Z.of_nat fuel ->
  exists p y b s, BAVL_walk fuel o (Some x) d = Ret (Some y) /\ t = plug p (node d E y b s) /\
    zip o (p ++ c) (node d E y b s) /\ Forall (fun f => f_side f = d) p.
Proof.
  enough (Hw : forall fuel t o c x, zip o c t -> rootp t = Some x -> height t <= 1 + Z.of_nat fuel ->
    exists p y b s, BAVL_walk fuel o (Some x) d = Ret (Some y) /\ t = plug p (node d E y b s) /\
      zip o (p ++ c) (node d E y b s) /\ Forall (fun f => f_side f = d) p) by eauto.
  clear t. induction fuel as [|fuel IH]; intros t o c x Hz Hx Hh.
  all: assert (exists s b s', t = node d s x b s') as (s & b & s' & ->)
    by (destruct t as [|l y b r]; [done|]; injection Hx as <-; destruct d; by eexists _, b, _).
  all: rewrite height_node in Hh; cbn [BAVL_walk]; rewrite (zip_link _ _ _ _ _ _ _ Hz); run_simpl.
  - pose proof (height_nonneg s). pose proof (height_nonneg s').
    destruct s as [|l y c' r]; [|cbn in Hh; pose proof (height_nonneg l); pose proof (height_nonneg r); lia].
    exists [], x, b, s'. split_and!; try done.
  - destruct (rootp s) as [y|] eqn:Hy.
    + destruct (IH s o (Frame d x b s' :: c) y) as (p & z & bz & sz & E1 & -> & Hz' & Hp); [by apply zip_down|done|lia|].
      exists (p ++ [Frame d x b s']), z, bz, sz. split; [done|]. split; [|split].
      * unfold plug. rewrite fold_left_app. done.
      * by rewrite <- app_assoc.
      * rewrite Forall_app. split; [done|]. by repeat constructor.
    + destruct s; [|done]. exists [], x, b, s'. split_and!; try done.
Qed.

(** The first (or last) node of a tree or of a list. *)
Definition end_of (d : bool) (l : list positive) : ptr := if d then list.last l else list.head l.
Lemma last_app_cons (l : list positive) x k : list.last (l ++ x :: k) = list.last (x :: k).
Proof. rewrite list.last_app. by destruct (list.last (x :: k)) eqn:E; [|apply list.last_None in E]. Qed.
Lemma walk_end d p y b s : Forall (fun f => f_side f = d) p -> end_of d (locs (plug p (node d E y b s))) = Some y.
Proof.
  intros Hp. rewrite locs_plug. destruct d; cbn [end_of node locs].
  - assert (Hr : rights p = []) by (induction Hp as [|f p Hf _ IH]; cbn; [done|]; unfold c_right; by rewrite Hf).
    by rewrite Hr, app_nil_r, app_assoc, list.last_snoc.
  - assert (Hl : lefts p = []) by (induction Hp as [|f p Hf _ IH]; cbn; [done|]; unfold c_left; by rewrite Hf, app_nil_r).
    by rewrite Hl.
Qed.
Lemma BAVL_walk_ok d fuel o c t x : zip o c t -> rootp t = Some x -> height t <= 1 + Z.of_nat fuel ->
  BAVL_walk fuel o (Some x) d = Ret (end_of d (locs t)).
Proof.
  intros Hz Hx Hh. destruct (BAVL_walk_zip d t fuel o c x Hz Hx Hh) as (p & y & b & s & -> & -> & _ & Hp).
  by rewrite walk_end.
Qed.

(** Climbing finds the nearest node on the other side of the frames. *)
Lemma BAVL_climb_ok d c : forall fuel o t x, zip o c t -> rootp t = Some x -> (length c <= fuel)%nat ->
  BAVL_climb fuel o (Some x) d = Ret (if d then list.head (rights c) else list.last (lefts c)).
Proof.
  induction c as [|f c IH]; intros fuel o t x Hz Hx Hfuel.
  - destruct fuel; cbn [BAVL_climb]; rewrite (zip_parent_root _ _ _ _ Hz Hx); run_simpl; by destruct d.
  - assert (Hu : BAVL_climb fuel o (Some x) d =
      if decide (f_side f = d) then
        match fuel with O => Fail OutOfFuel | S fuel => BAVL_climb fuel o (Some (f_loc f)) d end
      else Ret (Some (f_loc f))).
    { pose proof Hz as (_ & Hseg & _ & Hnd). rewrite Hx in Hseg. rewrite list.NoDup_app in Hnd.
      destruct Hnd as (_ & Hdis & _).
      destruct (seg_hole _ _ _ _ Hseg (Hdis _ (rootp_in _ _ Hx)) (f_loc f) eq_refl) as (n & Hn & Hl & Hr). cbn [cside] in *.
      destruct fuel; cbn [BAVL_climb]; rewrite (zip_parent_root _ _ _ _ Hz Hx); run_simpl; cbn [top];
        rewrite (link_of_ok _ _ _ _ Hn); run_simpl.
      all: destruct (decide (f_side f = d)) as [<-|Hne]; [by rewrite bool_decide_true|rewrite bool_decide_false; [done|]].
      all: intros E; apply Hr; by replace (negb (f_side f)) with d by (destruct (f_side f), d; done). }
    rewrite Hu. destruct (decide (f_side f = d)) as [<-|Hne].
    + destruct fuel as [|fuel]; [cbn in Hfuel; lia|].
      assert (Hz' : zip o c (fill f t)) by (destruct f; by apply zip_down).
      rewrite (IH fuel o (fill f t) (f_loc f)); [|done|apply rootp_node|cbn in Hfuel; lia].
      cbn [rights lefts]. unfold c_right, c_left. destruct (f_side f); [done|]. by rewrite app_nil_r.
    + cbn [rights lefts]. unfold c_right, c_left. destruct d, (f_side f); try done. by rewrite app_assoc, list.last_snoc.
Qed.

Lemma lefts_app p c : lefts (p ++ c) = lefts c ++ lefts p.
Proof. induction p as [|f p IH]; cbn; [by rewrite app_nil_r|]. by rewrite IH, <- app_assoc. Qed.
Lemma rights_app p c : rights (p ++ c) = rights p ++ rights c.
Proof. induction p as [|f p IH]; cbn; [done|]. by rewrite IH, <- app_assoc. Qed.
Lemma cavl_relabel p d x y b s c hh : cavl (p ++ Frame d x b s :: c) hh -> cavl (p ++ Frame d y b s :: c) hh.
Proof.
  revert hh. induction p as [|f p IH]; intros hh; cbn [app cavl f_sib f_bal f_side]; [done|].
  intros (? & ? & ? & ?). split_and!; try done; try lia. by apply IH.
Qed.

(** ** Removal

    First the node is brought to a place with at most one child, by exchanging
    it with its predecessor if needed. *)
Lemma remove_place o c l x b r : zip o c (N l x b r) -> avl (plug c (N l x b r)) ->
  exists o1 c1 l1 b1 r1,
    (if bool_decide (rootp l <> None) && bool_decide (rootp r <> None) then
       max ← BAVL_subtree_max (tree_fuel o) o (rootp l); BAVL_swap_nodes o (Some x) max
     else Ret o) = Ret o1 /\
    zip o1 c1 (N l1 x b1 r1) /\ avl (plug c1 (N l1 x b1 r1)) /\ (l1 = E \/ r1 = E) /\
    lefts c1 ++ locs l1 ++ locs r1 ++ rights c1 = lefts c ++ locs l ++ locs r ++ rights c /\
    dom (mem o1) = dom (mem o).
Proof.
  intros Hz Ha. destruct (bool_decide (rootp l <> None) && bool_decide (rootp r <> None)) eqn:Hboth.
  2: { exists o, c, l, b, r. split_and!; try done. destruct l; [by left|]. destruct r; [by right|]. done. }
  destruct l as [|ll y lb lr]; [done|]. cbn [rootp]. rewrite subtree_max_walk.
  pose proof (proj1 (zip_left _ _ _ _ _ _) Hz) as Hzl. pose proof (zip_height _ _ _ Hzl).
  destruct (BAVL_walk_zip true _ (tree_fuel o) o _ y Hzl eq_refl) as (p & m & mb & ml & -> & Hl & Hzm & Hp); [lia|].
  run_simpl. rewrite Hl in *. cbn [node] in *.
  assert (Ha' : avl (plug (p ++ Frame false x b r :: c) (N ml m mb E))).
  { unfold plug in *. by rewrite fold_left_app. }
  apply cavl_unplug in Ha' as [Hm Hc]. pose proof (proj1 (cavl_unplug c _ Ha)) as Hx. cbn [avl] in Hm, Hx.
  destruct (BAVL_swap_nodes_ok o p c x b r ml m mb E Hzm) as (o1 & -> & Hz1 & Hd1); [tauto|tauto|].
  exists o1, (p ++ Frame false m b r :: c), ml, mb, E. split; [done|]. split; [done|].
  split; [apply cavl_plug; [exact Hm|by apply (cavl_relabel _ _ x)]|]. split; [by right|]. split; [|done].
  assert (Hr : rights p = []) by (clear -Hp; induction Hp as [|f p Hf _ IH]; cbn; [done|]; unfold c_right; by rewrite Hf).
  rewrite locs_plug, lefts_app, rights_app, Hr. cbn. rewrite app_nil_r. unfold c_left. cbn.
  by rewrite app_nil_r, <- !app_assoc.
Qed.

(** A new leaf hung below the frames. *)
Lemma attach_ok o f c x : zip o (f :: c) E -> x ∉ clocs (f :: c) -> is_Some (mem o !! x) ->
  exists o1 o2, set_link o (Some (f_loc f)) (f_side f) (Some x) = Ret o1 /\
    store o1 (Some x) (fun _ => MkNode (Some (f_loc f)) None None 0) = Ret o2 /\
    zip o2 (f :: c) (N E x 0 E) /\ dom (mem o2) = dom (mem o).
Proof.
  intros (_ & Hseg & Hroot & Hnd) Hx [n Hn]. pose proof Hseg as (Ef & _).
  assert (f_loc f <> x) by (intros <-; apply Hx; cbn; set_solver).
  eexists _, _. split; [by apply (set_link_ok _ _ _ _ _ Ef)|].
  split; [erewrite store_ok by (cbn [mem]; rewrite lookup_upd; lk_if; by rewrite Hn); done|].
  split; [|cbn [mem]; by rewrite !dom_upd].
  split; [|split; [|split]]; cbn [rootp top rep mem root locs].
  - split; [|done]. rewrite !lookup_upd. lk_if. by rewrite Hn.
  - apply (seg_relink (mem o) _ None (f :: c) None); [done| |done]. intros y Hy. rewrite !lookup_upd.
    assert (x <> y) by (by intros ->). cbn [top cside]. lk_if. by rewrite option_fmap_id.
  - done.
  - cbn. by apply list.NoDup_cons.
Qed.

Section spec.
Context {V : Type} (comparator : V -> V -> Z) `{!ValueOrder comparator} (value : positive -> V).
Implicit Types (o : BAVL) (l : list positive) (x y node : positive).

(** [x] stands before [y]. *)
Definition before x y : Prop := comparator (value x) (value y) = -1.
Definition ordered l : Prop := StronglySorted before l.
Definition bavl o l : Prop := exists t, zip o [] t /\ avl t /\ locs t = l /\ ordered l.

(** ** Facts on ordered lists *)

Lemma ordered_app l k : ordered (l ++ k) <-> ordered l /\ ordered k /\ (forall x y, x ∈ l -> y ∈ k -> before x y).
Proof.
  unfold ordered. induction l as [|z l IH]; cbn [app].
  - split; [intros H; split_and!; [constructor|done|set_solver]|tauto].
  - split.
    + intros [H1 H2]%StronglySorted_inv. apply IH in H1 as (Hl & Hk & Hlk). rewrite Forall_app in H2. destruct H2 as [F1 F2].
      rewrite list.Forall_forall in F2. split_and!; [by constructor|done|].
      intros x y. rewrite elem_of_cons. intros [->|Hx] Hy; [by apply F2|by apply Hlk].
    + intros ([Hl Hz]%StronglySorted_inv & Hk & Hlk). constructor.
      * apply IH. split_and!; try done. intros x y Hx Hy. apply Hlk; [set_solver|done].
      * rewrite Forall_app. split; [done|]. apply list.Forall_forall. intros y Hy. apply Hlk; [set_solver|done].
Qed.
Lemma ordered_cons x l : ordered (x :: l) <-> ordered l /\ forall y, y ∈ l -> before x y.
Proof.
  unfold ordered. split.
  - intros [H1 H2]%StronglySorted_inv. rewrite list.Forall_forall in H2. done.
  - intros [H1 H2]. constructor; [done|]. by apply list.Forall_forall.
Qed.
Lemma ordered_middle l x k : ordered (l ++ x :: k) <->
  ordered (l ++ k) /\ (forall y, y ∈ l -> before y x) /\ (forall y, y ∈ k -> before x y).
Proof.
  rewrite !ordered_app, ordered_cons. split.
  - intros (Hl & (Hk & Hx) & Hlk). split_and!; try done; intros; apply Hlk; set_solver.
  - intros ((Hl & Hk & Hlk) & Hy & Hx). split_and!; try done.
    intros a b Ha. rewrite elem_of_cons. intros [->|Hb]; auto.
Qed.

(** ** Descending to a value *)

Lemma compare_values v w : BAVL_compare_values comparator v w = Ret (comparator v w).
Proof. unfold BAVL_compare_values. destruct (cmp_range v w) as [-> |[-> | ->]]; done. Qed.

Lemma descend_eq fuel o v x : BAVL_descend comparator value fuel o v (Some x) =
  if comparator v (value x) =? 0 then Ret (comparator v (value x), Some x, false) else
  l ← link_of o (Some x) (comparator v (value x) =? 1);
  match l with
  | None => Ret (comparator v (value x), Some x, comparator v (value x) =? 1)
  | Some _ => match fuel with O => Fail OutOfFuel | S fuel => BAVL_descend comparator value fuel o v l end
  end.
Proof.
  destruct fuel; cbn [BAVL_descend]; unfold BAVL_node_value; cbn [deref mbind run_bind];
    by rewrite compare_values.
Qed.

(** Where [v] belongs: after [l] and before [k]. *)
Definition splits (v : V) l (k : list positive) : Prop :=
  (forall y, y ∈ l -> comparator v (value y) = 1) /\ (forall y, y ∈ k -> comparator v (value y) = -1).

Lemma after_lt v x y : comparator v (value x) = 1 -> before y x -> comparator v (value y) = 1.
Proof.
  unfold before. intros H1 H2. pose proof (cmp_sym v (value x)). pose proof (cmp_sym v (value y)).
  pose proof (cmp_lt_trans comparator (value y) (value x) v). lia.
Qed.
Lemma before_lt v x y : comparator v (value x) = -1 -> before x y -> comparator v (value y) = -1.
Proof. unfold before. apply cmp_lt_trans, _. Qed.

Lemma BAVL_descend_ok v t : forall fuel o c y,
  zip o c t -> rootp t = Some y -> height t <= 1 + Z.of_nat fuel -> ordered (locs (plug c t)) ->
  splits v (lefts c) (rights c) ->
  exists comp p side, BAVL_descend comparator value fuel o v (Some y) = Ret (comp, Some p, side) /\
    ((comp = 0 /\ p ∈ locs t /\ comparator v (value p) = 0) \/
     (comp <> 0 /\ exists f c', f_loc f = p /\ f_side f = side /\ zip o (f :: c') E /\
        plug (f :: c') E = plug c t /\ splits v (lefts (f :: c')) (rights (f :: c')))).
Proof.
  induction t as [|l IHl x b r IHr]; intros fuel o c y Hz Hy Hfuel Hord [Hle Hri]; [done|]. injection Hy as <-.
  cbn [height] in Hfuel. pose proof (height_nonneg l). pose proof (height_nonneg r).
  rewrite locs_plug in Hord. cbn [locs] in Hord. rewrite <- app_assoc, app_assoc in Hord. cbn in Hord.
  apply ordered_middle in Hord as (Hord & Hbx & Hxa).
  destruct (cmp_range v (value x)) as [Ec|[Ec|Ec]].
  - (* smaller *)
    pose proof (proj1 (zip_left _ _ _ _ _ _) Hz) as Hzl.
    assert (Hsp : splits v (lefts (Frame false x b r :: c)) (rights (Frame false x b r :: c))).
    { cbn [lefts rights c_left c_right f_side f_loc f_sib]. rewrite app_nil_r. split; [done|].
      intros z. cbn. rewrite elem_of_cons, elem_of_app. intros [->|[Hz'|Hz']]; [done| |by apply Hri].
      apply (before_lt v x); [done|]. apply Hxa. set_solver. }
    destruct l as [|ll xl bl rl].
    + exists (-1), x, false. split.
      * rewrite descend_eq, Ec. cbn [Z.eqb Pos.eqb]. rewrite (zip_link _ _ false _ _ _ _ Hz); done.
      * right. split; [lia|]. by exists (Frame false x b r), c.
    + destruct fuel as [|fuel]; [cbn [height] in *; pose proof (height_nonneg ll); pose proof (height_nonneg rl); lia|].
      destruct (IHl fuel o _ xl Hzl eq_refl) as (comp & p & side & Ed & Hres); [lia| |done|].
      { cbn [plug fold_left fill f_side f_loc f_bal f_sib node]. fold (plug c (N (N ll xl bl rl) x b r)).
        rewrite locs_plug. cbn [locs] in *. rewrite <- app_assoc, app_assoc. cbn. apply ordered_middle. done. }
      exists comp, p, side. rewrite descend_eq, Ec.
      cbn [Z.eqb Pos.eqb]. rewrite (zip_link _ _ false _ _ _ _ Hz). run_simpl. split; [done|].
      destruct Hres as [(? & Hin & ?)|Hres]; [left; split_and!; try done; cbn [locs] in *; set_solver|by right].
  - (* equal *)
    exists 0, x, false. split.
    + by rewrite descend_eq, Ec.
    + left. split_and!; try done. cbn [locs]. set_solver.
  - (* greater *)
    pose proof (proj1 (zip_right _ _ _ _ _ _) Hz) as Hzr.
    assert (Hsp : splits v (lefts (Frame true x b l :: c)) (rights (Frame true x b l :: c))).
    { cbn [lefts rights c_left c_right f_side f_loc f_sib app]. split; [|done].
      intros z. rewrite !elem_of_app, elem_of_cons. intros [Hz'|[Hz'|[->|Hz']]]; [by apply Hle| |done|by apply not_elem_of_nil in Hz'].
      apply (after_lt v x); [done|]. apply Hbx. set_solver. }
    destruct r as [|lr xr br rr].
    + exists 1, x, true. split.
      * rewrite descend_eq, Ec. cbn [Z.eqb Pos.eqb]. rewrite (zip_link _ _ true _ _ _ _ Hz); done.
      * right. split; [lia|]. by exists (Frame true x b l), c.
    + destruct fuel as [|fuel]; [cbn [height] in *; pose proof (height_nonneg lr); pose proof (height_nonneg rr); lia|].
      destruct (IHr fuel o _ xr Hzr eq_refl) as (comp & p & side & Ed & Hres); [lia| |done|].
      { cbn [plug fold_left fill f_side f_loc f_bal f_sib node]. fold (plug c (N l x b (N lr xr br rr))).
        rewrite locs_plug. cbn [locs] in *. rewrite <- app_assoc, app_assoc. cbn. apply ordered_middle. done. }
      exists comp, p, side. rewrite descend_eq, Ec.
      cbn [Z.eqb Pos.eqb]. rewrite (zip_link _ _ true _ _ _ _ Hz). run_simpl. split; [done|].
      destruct Hres as [(? & Hin & ?)|Hres]; [left; split_and!; try done; cbn [locs] in *; set_solver|by right].
Qed.
(** ** Insertion *)

Lemma BAVL_Init_ok (m : gmap positive BAVLNode) : bavl (BAVL_Init m) [].
Proof.
  exists E. split_and!; try done; [|constructor]. split; [done|]. split; [done|]. split; [done|]. constructor.
Qed.
Lemma bavl_nil o : bavl o [] -> root o = None.
Proof.
  intros (t & (_ & _ & Hr & _) & _ & Hl & _). destruct t as [|l x b r]; [done|]. cbn in Hl. by destruct (locs l).
Qed.
Lemma bavl_root o l x : bavl o l -> x ∈ l -> exists y, root o = Some y.
Proof.
  intros (t & (_ & _ & Hr & _) & _ & <- & _) Hx. destruct t as [|l y b r]; [by apply not_elem_of_nil in Hx|]. by exists y.
Qed.

(** The next nodes on both sides of the place found by a descent. *)
Lemma neighbour f c :
  (if f_side f then list.last (lefts (f :: c)) = Some (f_loc f) else list.head (rights (f :: c)) = Some (f_loc f)).
Proof.
  destruct f as [[] x b s]; cbn; [|done]. by rewrite app_assoc, list.last_snoc.
Qed.

Lemma BAVL_Insert_ok o l node : bavl o l -> node ∉ l -> is_Some (mem o !! node) ->
  (exists x, x ∈ l /\ comparator (value node) (value x) = 0 /\
     BAVL_Insert comparator value o (Some node) = Ret (o, false, Some x)) \/
  (exists l1 l2 o' ref, l = l1 ++ l2 /\ BAVL_Insert comparator value o (Some node) = Ret (o', true, ref) /\
     bavl o' (l1 ++ node :: l2) /\ dom (mem o') = dom (mem o) /\ (ref = list.last l1 \/ ref = list.head l2)).
Proof.
  intros (t & Hz & Ha & <- & Hord) Hnode Hmem. pose proof Hz as (_ & _ & Hroot & _). cbn [bot] in Hroot.
  unfold BAVL_Insert. rewrite Hroot. destruct t as [|l x b r].
  - right. cbn [rootp]. destruct Hmem as [n Hn].
    rewrite (store_ok _ node n) by done. run_simpl. eexists [], [], _, None. split; [done|]. split; [done|].
    split; [|split; [cbn [mem]; by rewrite dom_upd|by left]].
    exists (N E node 0 E). split_and!; [|by vm_compute..|done|repeat constructor].
    split; [|split; [done|split; [done|]]]; cbn [top rep rootp mem root locs app clocs].
    + split; [|done]. change (mem (set_root o (Some node))) with (mem o). by rewrite lookup_upd, decide_True, Hn.
    + apply NoDup_singleton.
  - cbn [rootp]. change (BAVL_node_value value (Some node)) with (Ret (value node)). run_simpl.
    destruct (BAVL_descend_ok (value node) (N l x b r) (tree_fuel o) o [] x Hz eq_refl)
      as (comp & p & side & Ed & [(-> & Hp & Hc)|(Hne & f & c & <- & <- & Hzf & Hplug & Hsp)]);
      [pose proof (zip_height _ _ _ Hz); lia|done|by split; intros y Hy%not_elem_of_nil| |].
    + left. exists p. rewrite Ed. run_simpl. done.
    + right. rewrite Ed. run_simpl. rewrite (proj2 (Z.eqb_neq _ _) Hne).
      cbn [plug fold_left] in Hplug. change (fold_left _ c ?t) with (plug c t) in Hplug.
      assert (Hlocs : locs (N l x b r) = lefts (f :: c) ++ rights (f :: c)).
      { rewrite <- Hplug. change (plug c (fill f E)) with (plug (f :: c) E). by rewrite locs_plug. }
      assert (Hnf : node ∉ clocs (f :: c)).
      { intros Hin. apply Hnode. rewrite Hlocs. by apply elem_of_clocs. }
      destruct (attach_ok o f c node Hzf Hnf Hmem) as (o1 & o2 & E1 & E2 & Hz2 & Hd2).
      rewrite E1. run_simpl. rewrite E2. run_simpl.
      assert (Hcavl : cavl (f :: c) 0).
      { apply (cavl_unplug (f :: c) E). change (plug (f :: c) E) with (plug c (fill f E)). by rewrite Hplug. }
      destruct (BAVL_rebalance_ok c (tree_fuel o2) o2 f (N E node 0 E) 1) as (o' & t' & E' & Hz' & Ha' & Hl' & Hd');
        try done; try lia.
      { pose proof (zip_depth _ _ _ Hz2). cbn in *. lia. }
      rewrite E'. run_simpl. rewrite locs_plug in Hl'.
      exists (lefts (f :: c)), (rights (f :: c)), o', (Some (f_loc f)). split_and!; try done; [|congruence|].
      * exists t'. split_and!; try done. destruct Hsp as [Hle Hri]. apply ordered_middle. rewrite <- Hlocs.
        split_and!; [done| |exact Hri]. unfold before.
        intros y Hy. pose proof (cmp_sym (value node) (value y)). rewrite (Hle y Hy) in *. lia.
      * pose proof (neighbour f c). destruct (f_side f); [left|right]; done.
Qed.
(** ** Queries *)

Lemma bavl_nodup o l : bavl o l -> NoDup l.
Proof. intros (t & (_ & _ & _ & Hnd) & _ & <- & _). by rewrite app_nil_r in Hnd. Qed.
Lemma bavl_dom o l x : bavl o l -> x ∈ l -> is_Some (mem o !! x).
Proof. intros (t & (Hrep & _) & _ & <- & _). intros Hx; by eapply rep_dom. Qed.

(** Two nodes with equal values are the same node. *)
Lemma ordered_inj l x y : ordered l -> x ∈ l -> y ∈ l -> comparator (value x) (value y) = 0 -> x = y.
Proof.
  intros Hl Hx Hy Hc. apply list_elem_of_split in Hx as (l1 & l2 & ->).
  apply ordered_middle in Hl as (_ & Hb & Ha). rewrite elem_of_app, elem_of_cons in Hy. unfold before in *.
  destruct Hy as [Hy|[->|Hy]]; [|done|].
  - pose proof (cmp_sym (value x) (value y)). rewrite (Hb y Hy) in *. lia.
  - rewrite (Ha y Hy) in Hc. lia.
Qed.

(** The place of a value in an ordered list: the node that compares equal, or
    the neighbours. *)
Definition found (v : V) l (p : ptr) (exact : ptr) : Prop :=
  match exact with
  | Some x => x ∈ l /\ comparator v (value x) = 0 /\ p = Some x
  | None => (forall y, y ∈ l -> comparator v (value y) <> 0) /\
      exists l1 l2, l = l1 ++ l2 /\ splits v l1 l2 /\ (p = list.last l1 \/ p = list.head l2) /\ (p = None -> l = [])
  end.

Lemma splits_ne v l1 l2 y : splits v l1 l2 -> y ∈ l1 ++ l2 -> comparator v (value y) <> 0.
Proof. intros [H1 H2]. rewrite elem_of_app. intros [Hy|Hy]; [rewrite (H1 y Hy)|rewrite (H2 y Hy)]; lia. Qed.

Lemma BAVL_Lookup_ok o l v : bavl o l ->
  exists p exact, BAVL_Lookup comparator value o v = Ret p /\
    BAVL_LookupExact comparator value o v = Ret exact /\ found v l p exact.
Proof.
  intros (t & Hz & Ha & <- & Hord). pose proof Hz as (_ & _ & Hroot & _). cbn [bot] in Hroot.
  unfold BAVL_Lookup, BAVL_LookupExact. rewrite Hroot. destruct t as [|l x b r].
  - exists None, None. do 2 (split; [done|]). split; [by intros y Hy%not_elem_of_nil|].
    exists [], []. split; [done|]. split; [by split; intros y Hy%not_elem_of_nil|]. by split; [left|].
  - cbn [rootp].
    destruct (BAVL_descend_ok v (N l x b r) (tree_fuel o) o [] x Hz eq_refl)
      as (comp & p & side & Ed & [(-> & Hp & Hc)|(Hne & f & c & <- & <- & Hzf & Hplug & Hsp)]);
      [pose proof (zip_height _ _ _ Hz); lia|done|by split; intros y Hy%not_elem_of_nil| |].
    + exists (Some p), (Some p). rewrite Ed. run_simpl. done.
    + exists (Some (f_loc f)), None. rewrite Ed. run_simpl. rewrite (proj2 (Z.eqb_neq _ _) Hne).
      do 2 (split; [done|]).
      assert (Hlocs : locs (N l x b r) = lefts (f :: c) ++ rights (f :: c)).
      { change (plug [] (N l x b r)) with (N l x b r) in Hplug. rewrite <- Hplug. by rewrite locs_plug. }
      rewrite Hlocs. split; [intros y; by apply splits_ne|].
      exists (lefts (f :: c)), (rights (f :: c)). split; [done|]. split; [done|]. split; [|done].
      pose proof (neighbour f c). destruct (f_side f); [left|right]; done.
Qed.

(** The exact lookup as a function of the list. *)
Lemma BAVL_LookupExact_ok o l v : bavl o l ->
  exists r, BAVL_LookupExact comparator value o v = Ret r /\
    forall x, r = Some x <-> x ∈ l /\ comparator v (value x) = 0.
Proof.
  intros Hb. destruct (BAVL_Lookup_ok o l v Hb) as (p & exact & _ & -> & Hf). exists exact. split; [done|].
  destruct Hb as (t & _ & _ & _ & Hord). intros x. destruct exact as [y|]; cbn in Hf.
  - destruct Hf as (Hy & Hc & _). split; [by intros [= <-]|]. intros [Hx Hcx]. f_equal.
    apply (ordered_inj l); try done. pose proof (cmp_sym (value y) v).
    apply (cmp_eq_trans comparator _ v); [|done]. rewrite cmp_sym. lia.
  - split; [done|]. intros [Hx Hcx]. by destruct (proj1 Hf x Hx).
Qed.

Lemma BAVL_GetFirst_ok o l : bavl o l -> BAVL_GetFirst o = Ret (list.head l) /\ BAVL_GetLast o = Ret (list.last l).
Proof.
  intros (t & Hz & Ha & <- & Hord). pose proof Hz as (_ & _ & Hroot & _). cbn [bot] in Hroot.
  unfold BAVL_GetFirst, BAVL_GetLast. rewrite Hroot. destruct t as [|l x b r]; [done|]. cbn [rootp].
  pose proof (zip_height _ _ _ Hz).
  rewrite (BAVL_walk_ok false _ _ _ _ _ Hz), (BAVL_walk_ok true _ _ _ _ _ Hz) by (done || lia). done.
Qed.

(** A node of the tree under the focus, and what stands on its two sides. *)
Lemma bavl_focus o l1 x l2 : bavl o (l1 ++ x :: l2) -> exists c tl b tr,
  zip o c (N tl x b tr) /\ avl (plug c (N tl x b tr)) /\ l1 = lefts c ++ locs tl /\ l2 = locs tr ++ rights c.
Proof.
  intros Hb. pose proof (bavl_nodup _ _ Hb) as Hnd. destruct Hb as (t & Hz & Ha & Hl & Hord).
  destruct (locs_focus t x) as (c & l & b & r & ->); [rewrite Hl; set_solver|].
  exists c, l, b, r. apply zip_plug in Hz. split; [done|]. split; [done|].
  rewrite locs_plug in Hl. cbn [locs] in Hl. rewrite <- app_assoc, app_assoc in Hl. cbn in Hl.
  rewrite list.NoDup_app, list.NoDup_cons in Hnd. destruct Hnd as (_ & Hd1 & Hd2 & _).
  apply app_eq_inv in Hl as [(k & E1 & E2)|(k & E1 & E2)].
  - destruct k as [|z k]; [rewrite app_nil_r in E1; by injection E2 as <-|]. injection E2 as <- E2.
    exfalso. apply Hd2. rewrite E2. set_solver.
  - destruct k as [|z k]; [rewrite app_nil_r in E1; by injection E2 as <-|]. injection E2 as -> E2.
    exfalso. apply (Hd1 z); [rewrite E1|]; set_solver.
Qed.

Lemma BAVL_GetNext_ok o l1 x l2 : bavl o (l1 ++ x :: l2) ->
  BAVL_GetNext o (Some x) = Ret (list.head l2) /\ BAVL_GetPrev o (Some x) = Ret (list.last l1).
Proof.
  intros (c & l & b & r & Hz & _ & -> & ->)%bavl_focus. unfold BAVL_GetNext, BAVL_GetPrev.
  pose proof (zip_depth _ _ _ Hz).
  rewrite (zip_link _ _ true _ _ _ _ Hz), (zip_link _ _ false _ _ _ _ Hz). run_simpl. split.
  - destruct r as [|rl y rb rr]; cbn [rootp].
    + by rewrite (BAVL_climb_ok true c _ _ _ _ Hz) by done.
    + apply zip_right in Hz. pose proof (zip_height _ _ _ Hz).
      rewrite (BAVL_walk_ok false _ _ _ _ _ Hz) by (done || lia). cbn [end_of locs]. rewrite <- app_assoc. by destruct (locs rl).
  - destruct l as [|ll y lb lr]; cbn [rootp].
    + rewrite (BAVL_climb_ok false c _ _ _ _ Hz) by done. by rewrite app_nil_r.
    + apply zip_left in Hz. pose proof (zip_height _ _ _ Hz).
      rewrite (BAVL_walk_ok true _ _ _ _ _ Hz) by (done || lia). cbn [end_of locs].
      by rewrite app_assoc, !last_app_cons.
Qed.
(** ** Removal *)

Lemma BAVL_Remove_ok o l1 x l2 : bavl o (l1 ++ x :: l2) ->
  exists o', BAVL_Remove o (Some x) = Ret o' /\ bavl o' (l1 ++ l2) /\ dom (mem o') = dom (mem o).
Proof.
  intros Hb. assert (Hord : ordered (l1 ++ l2)).
  { destruct Hb as (t & _ & _ & _ & Hord). apply ordered_middle in Hord. tauto. }
  apply bavl_focus in Hb as (c & tl & b & tr & Hz & Ha & -> & ->). unfold BAVL_Remove.
  rewrite (zip_link _ _ false _ _ _ _ Hz), (zip_link _ _ true _ _ _ _ Hz). run_simpl.
  destruct (remove_place o c tl x b tr Hz Ha) as (o1 & c1 & l & b1 & r & -> & Hz1 & Ha1 & Hone & Hlocs & Hd1). run_simpl.
  rewrite (zip_link _ _ false _ _ _ _ Hz1), (zip_link _ _ true _ _ _ _ Hz1). run_simpl.
  rewrite (zip_parent _ _ _ _ _ _ Hz1).
  assert (Hchk : check (negb (bool_decide (rootp l <> None) && bool_decide (rootp r <> None))) = Ret tt).
  { destruct Hone as [-> | ->]; [done|]. by rewrite andb_false_r. }
  rewrite Hchk. run_simpl.
  set (t := match l with E => r | _ => l end).
  assert (Hchild : match rootp l with Some _ => rootp l | None => rootp r end = rootp t) by (unfold t; by destruct l).
  rewrite Hchild.
  assert (Ht : (l = E /\ t = r) \/ (r = E /\ t = l)).
  { unfold t. destruct Hone as [-> | ->]; [by left|]. destruct l; [by left|by right]. }
  destruct (BAVL_replace_subtree_ok _ _ _ _ _ _ t Hz1 Ht) as (o2 & E2 & Hz2 & Hd2).
  apply cavl_unplug in Ha1 as [Hx Hc]. cbn [avl] in Hx. destruct Hx as (Hal & Har & _).
  assert (Hat : avl t) by (by destruct Ht as [[_ ->]|[_ ->]]).
  assert (Hht : height (N l x b1 r) = 1 + height t).
  { cbn [height]. pose proof (height_nonneg l). pose proof (height_nonneg r).
    destruct Ht as [[-> ->]|[-> ->]]; cbn [height] in *; lia. }
  assert (Hlt : lefts c1 ++ locs t ++ rights c1 = lefts c ++ locs tl ++ locs tr ++ rights c).
  { rewrite <- Hlocs. destruct Ht as [[-> ->]|[-> ->]]; cbn; done. }
  destruct c1 as [|f c1].
  - cbn [top]. exists o2. split; [exact E2|]. split; [|congruence]. exists t. split_and!; try done.
    rewrite <- app_assoc. rewrite <- Hlt. cbn. by rewrite app_nil_r.
  - cbn [top]. destruct (zip_child_side _ _ _ _ x Hz1 eq_refl) as (q & -> & Hside). run_simpl. rewrite Hside, E2. run_simpl.
    rewrite Hht in Hc.
    destruct (BAVL_rebalance_ok c1 (tree_fuel o2) o2 f t (-1)) as (o3 & t3 & -> & Hz3 & Ha3 & Hl3 & Hd3);
      try done; try lia.
    + by replace (height t - -1) with (1 + height t) by lia.
    + pose proof (height_nonneg t). lia.
    + pose proof (zip_depth _ _ _ Hz2). cbn in *. lia.
    + exists o3. split; [done|]. split; [|congruence]. exists t3. split_and!; try done.
      rewrite Hl3, locs_plug, Hlt. by rewrite <- app_assoc.
Qed.
(** ** The verifier of the code accepts every reachable tree *)

Lemma compare_child x y : before x y ->
  BAVL_compare_values comparator (value x) (value y) = Ret (-1) /\
  BAVL_compare_values comparator (value y) (value x) = Ret 1.
Proof.
  unfold before. intros H. rewrite !compare_values. pose proof (cmp_sym (value x) (value y)). split; f_equal; lia.
Qed.

Lemma BAVL_assert_recurser_ok t : forall fuel o c x,
  zip o c t -> rootp t = Some x -> avl t -> ordered (locs t) -> height t <= 1 + Z.of_nat fuel ->
  BAVL_assert_recurser comparator value fuel o (Some x) = Ret (height t).
Proof.
  induction t as [|l IHl x b r IHr]; intros fuel o c y Hz Hy Hav Hord Hh; [done|]. injection Hy as <-.
  destruct Hav as (Hl & Hr & Hb & Hbr).
  cbn [locs height] in *. apply ordered_app in Hord as Hord'. destruct Hord' as (Hol & Hoxr & Hlx).
  apply ordered_cons in Hoxr as [Hor Hxr].
  assert (Hleft : forall q, rootp l = Some q -> parent_of o (Some q) = Ret (Some x) /\
    BAVL_compare_values comparator (value q) (value x) = Ret (-1)).
  { intros q Hq. split; [apply zip_left in Hz; by rewrite (zip_parent_root _ _ _ _ Hz Hq)|].
    apply compare_child, Hlx; [by apply rootp_in|set_solver]. }
  assert (Hright : forall q, rootp r = Some q -> parent_of o (Some q) = Ret (Some x) /\
    BAVL_compare_values comparator (value q) (value x) = Ret 1).
  { intros q Hq. split; [apply zip_right in Hz; by rewrite (zip_parent_root _ _ _ _ Hz Hq)|].
    apply compare_child, Hxr. by apply rootp_in. }
  pose proof (height_nonneg l). pose proof (height_nonneg r).
  assert (Hrec : forall q, rootp l = Some q -> exists f, fuel = S f /\ BAVL_assert_recurser comparator value f o (Some q) = Ret (height l)).
  { intros q Hq. destruct l as [|ll z lb lr]; [done|]. cbn [height] in *.
    pose proof (height_nonneg ll). pose proof (height_nonneg lr). destruct fuel as [|f]; [lia|]. exists f. split; [done|].
    apply (IHl f o _ q (proj1 (zip_left _ _ _ _ _ _) Hz)); try done. lia. }
  assert (Hrec2 : forall q, rootp r = Some q -> exists f, fuel = S f /\ BAVL_assert_recurser comparator value f o (Some q) = Ret (height r)).
  { intros q Hq. destruct r as [|rl z rb rr]; [done|]. cbn [height] in *.
    pose proof (height_nonneg rl). pose proof (height_nonneg rr). destruct fuel as [|f]; [lia|]. exists f. split; [done|].
    apply (IHr f o _ q (proj1 (zip_right _ _ _ _ _ _) Hz)); try done. lia. }
  assert (Hheights : BAVL_MAX (height l) (height r) + 1 = 1 + height l `max` height r) by (rewrite BAVL_MAX_max; lia).
  destruct fuel as [|fuel]; cbn [BAVL_assert_recurser];
    rewrite (zip_balance _ _ false _ _ _ _ Hz); run_simpl; ztest; run_simpl;
    change (BAVL_node_value value (Some x)) with (Ret (value x)); run_simpl;
    rewrite (zip_link _ _ false _ _ _ _ Hz), (zip_link _ _ true _ _ _ _ Hz); run_simpl.
  - destruct (rootp l) as [ql|] eqn:Eql; [by destruct (Hrec ql eq_refl) as (? & ? & _)|].
    destruct (rootp r) as [qr|] eqn:Eqr; [by destruct (Hrec2 qr eq_refl) as (? & ? & _)|].
    destruct l, r; try done. cbn in Hb. subst b. done.
  - assert (HL : match rootp l with
      | Some _ => p ← parent_of o (rootp l); _ ← check (bool_decide (p = Some x));
          cv ← BAVL_node_value value (rootp l); comp ← BAVL_compare_values comparator cv (value x);
          _ ← check (comp =? -1); BAVL_assert_recurser comparator value fuel o (rootp l)
      | None => Ret 0 end = Ret (height l)).
    { destruct (rootp l) as [q|] eqn:Eq; [|by destruct l]. destruct (Hleft q eq_refl) as [-> Hc]. run_simpl.
      rewrite bool_decide_true by done. run_simpl. change (BAVL_node_value value (Some q)) with (Ret (value q)).
      run_simpl. rewrite Hc. run_simpl. by destruct (Hrec q eq_refl) as (f & [= <-] & ->). }
    assert (HR : match rootp r with
      | Some _ => p ← parent_of o (rootp r); _ ← check (bool_decide (p = Some x));
          cv ← BAVL_node_value value (rootp r); comp ← BAVL_compare_values comparator cv (value x);
          _ ← check (comp =? 1); BAVL_assert_recurser comparator value fuel o (rootp r)
      | None => Ret 0 end = Ret (height r)).
    { destruct (rootp r) as [q|] eqn:Eq; [|by destruct r]. destruct (Hright q eq_refl) as [-> Hc]. run_simpl.
      rewrite bool_decide_true by done. run_simpl. change (BAVL_node_value value (Some q)) with (Ret (value q)).
      run_simpl. rewrite Hc. run_simpl. by destruct (Hrec2 q eq_refl) as (f & [= <-] & ->). }
    rewrite HL. run_simpl. rewrite HR. run_simpl. ztest. run_simpl. by rewrite Hheights.
Qed.

Lemma BAVL_Verify_ok o l : bavl o l -> BAVL_Verify comparator value o = Ret tt.
Proof.
  intros (t & Hz & Ha & <- & Hord). pose proof Hz as (_ & _ & Hroot & _). cbn [bot] in Hroot.
  unfold BAVL_Verify. rewrite Hroot. destruct t as [|l x b r]; [done|]. cbn [rootp].
  rewrite (zip_parent _ _ _ _ _ _ Hz). run_simpl. rewrite bool_decide_true by done. run_simpl.
  rewrite (BAVL_assert_recurser_ok (N l x b r) _ o [] x Hz); try done. pose proof (zip_height _ _ _ Hz). lia.
Qed.
End spec.

(** ** Changes around a tree *)

(** Memory that holds no node of the tree may change, as may values of other nodes. *)
Lemma bavl_mem {V} comparator (value : positive -> V) r m m' l :
  (forall x, x ∈ l -> m' !! x = m !! x) -> bavl comparator value (MkTree r m) l -> bavl comparator value (MkTree r m') l.
Proof.
  intros Ha (t & (Hr & Hs & Hroot & Hnd) & Ht & <- & Hord). exists t. split; [|done].
  split; [by eapply rep_agree|done].
Qed.
Lemma bavl_before {V} comparator (value value' : positive -> V) o l :
  (forall x y, x ∈ l -> y ∈ l -> comparator (value x) (value y) = -1 -> comparator (value' x) (value' y) = -1) ->
  bavl comparator value o l -> bavl comparator value' o l.
Proof.
  intros Ha (t & Hz & Ht & <- & Hord). exists t. do 3 (split; [done|]). clear - Ha Hord.
  unfold ordered in *. induction Hord as [|x l Hl IH Hx]; constructor.
  - apply IH. intros y z Hy Hz. apply Ha; set_solver.
  - rewrite list.Forall_forall in *. intros y Hy. apply Ha; [set_solver..|]. by apply Hx.
Qed.
Lemma bavl_value {V} comparator (value value' : positive -> V) o l :
  (forall x, x ∈ l -> value' x = value x) -> bavl comparator value o l -> bavl comparator value' o l.
Proof. intros Ha. apply bavl_before. intros x y Hx Hy. by rewrite !Ha. Qed.
