(* ===== verification/BavlProps.v ===== *)
(** * What a user of the tree can rely on ([structure/BAVL.h])

    Any sequence of calls behaves like the same calls on an ordered list of
    nodes; the tree's own verifier accepts every state; a lookup visits a
    logarithmic number of nodes; iteration enumerates the nodes in order. *)
From stdpp Require Import gmap sorting.
From S2P Require Import Prelude Addr Bavl BavlTree BavlBalance BavlSwap BavlSpec.

Section props.
Context {V : Type} (comparator : V -> V -> Z) `{!ValueOrder comparator} (value : positive -> V).

(** ** The abstract specification: an ordered list of nodes *)

Inductive op : Type :=
  | OpInsert (x : positive)
  | OpRemove (x : positive)
  | OpLookupExact (v : V)
  | OpFirst
  | OpLast
  | OpNext (x : positive)
  | OpPrev (x : positive).

(** A result: the return code of an insertion, or a pointer. *)
Inductive res : Type :=
  | RDone
  | RInserted (b : bool)
  | RNode (p : ptr).

Fixpoint place (x : positive) (l : list positive) : list positive :=
  match l with
  | [] => [x]
  | y :: l' => if comparator (value x) (value y) =? 1 then y :: place x l' else x :: l
  end.
Definition lookup_value (v : V) (l : list positive) : option positive :=
  snd <$> list_find (fun y => comparator v (value y) = 0) l.
Fixpoint next_in (x : positive) (l : list positive) : ptr :=
  match l with [] => None | y :: l => if decide (x = y) then list.head l else next_in x l end.
Fixpoint prev_in (prev : ptr) (x : positive) (l : list positive) : ptr :=
  match l with [] => None | y :: l => if decide (x = y) then prev else prev_in (Some y) x l end.

(** [None]: the call violates the contract of the header: a node inserted twice,
    or an operation on a node that is not in the tree. *)
Definition spec_op (l : list positive) (c : op) : option (list positive * res) :=
  match c with
  | OpInsert x =>
      if decide (x ∈ l) then None else
      match lookup_value (value x) l with
      | Some _ => Some (l, RInserted false)
      | None => Some (place x l, RInserted true)
      end
  | OpRemove x => if decide (x ∈ l) then Some (filter (fun y => y <> x) l, RDone) else None
  | OpLookupExact v => Some (l, RNode (lookup_value v l))
  | OpFirst => Some (l, RNode (list.head l))
  | OpLast => Some (l, RNode (list.last l))
  | OpNext x => if decide (x ∈ l) then Some (l, RNode (next_in x l)) else None
  | OpPrev x => if decide (x ∈ l) then Some (l, RNode (prev_in None x l)) else None
  end.
Fixpoint spec_run (l : list positive) (cs : list op) : option (list positive * list res) :=
  match cs with
  | [] => Some (l, [])
  | c :: cs =>
      '(l, r) ← spec_op l c; '(l, rs) ← spec_run l cs; Some (l, r :: rs)
  end.

(** ** The same calls on the tree *)

Definition exec_op (o : BAVL) (c : op) : run (BAVL * res) :=
  match c with
  | OpInsert x => '(o, r, _) ← BAVL_Insert comparator value o (Some x); Ret (o, RInserted r)
  | OpRemove x => o ← BAVL_Remove o (Some x); Ret (o, RDone)
  | OpLookupExact v => p ← BAVL_LookupExact comparator value o v; Ret (o, RNode p)
  | OpFirst => p ← BAVL_GetFirst o; Ret (o, RNode p)
  | OpLast => p ← BAVL_GetLast o; Ret (o, RNode p)
  | OpNext x => p ← BAVL_GetNext o (Some x); Ret (o, RNode p)
  | OpPrev x => p ← BAVL_GetPrev o (Some x); Ret (o, RNode p)
  end.
Fixpoint exec_run (o : BAVL) (cs : list op) : run (BAVL * list res) :=
  match cs with
  | [] => Ret (o, [])
  | c :: cs => '(o, r) ← exec_op o c; '(o, rs) ← exec_run o cs; Ret (o, r :: rs)
  end.

(** The nodes handed to [BAVL_Insert] are objects in memory, with any contents. *)
Definition allocated (m : gmap positive BAVLNode) (c : op) : Prop :=
  match c with OpInsert x => is_Some (m !! x) | _ => True end.

Lemma place_ok x l1 l2 : splits comparator value (value x) l1 l2 -> place x (l1 ++ l2) = l1 ++ x :: l2.
Proof.
  intros [H1 H2]. induction l1 as [|y l1 IH]; cbn [app place].
  - destruct l2 as [|y l2]; [done|]. cbn [place]. by rewrite (H2 y) by set_solver.
  - rewrite (H1 y) by set_solver. cbn. f_equal. apply IH. intros z Hz. apply H1. set_solver.
Qed.
Lemma lookup_value_some v l x : lookup_value v l = Some x -> x ∈ l /\ comparator v (value x) = 0.
Proof.
  unfold lookup_value. intros ([i y] & (Hl & Hc & _)%list_find_Some & ->)%fmap_Some. cbn.
  split; [by eapply list_elem_of_lookup_2|done].
Qed.
Lemma lookup_value_none v l : lookup_value v l = None -> forall y, y ∈ l -> comparator v (value y) <> 0.
Proof.
  unfold lookup_value. rewrite fmap_None, list_find_None, list.Forall_forall. done.
Qed.
Lemma next_in_ok x l1 l2 : x ∉ l1 -> next_in x (l1 ++ x :: l2) = list.head l2.
Proof.
  induction l1 as [|y l1 IH]; cbn [app next_in]; [by rewrite decide_True|].
  rewrite not_elem_of_cons. intros [Hne Hx]. rewrite decide_False by done. by apply IH.
Qed.
Lemma prev_in_ok prev x l1 l2 : x ∉ l1 ->
  prev_in prev x (l1 ++ x :: l2) = match list.last l1 with Some y => Some y | None => prev end.
Proof.
  revert prev. induction l1 as [|y l1 IH]; intros prev; cbn [app prev_in]; [by rewrite decide_True|].
  rewrite not_elem_of_cons. intros [Hne Hx]. rewrite decide_False by done. rewrite IH by done.
  rewrite list.last_cons. by destruct (list.last l1).
Qed.
(** Every call within the contract does what the specification says. *)
Lemma exec_op_ok o l c l' r : bavl comparator value o l -> allocated (mem o) c -> spec_op l c = Some (l', r) ->
  exists o', exec_op o c = Ret (o', r) /\ bavl comparator value o' l' /\ dom (mem o') = dom (mem o).
Proof.
  intros Hb Hal. pose proof (bavl_nodup _ _ _ _ Hb) as Hnd. destruct c as [x|x|v| | |x|x]; cbn [spec_op exec_op].
  - destruct (decide (x ∈ l)) as [|Hx]; [done|].
    destruct (BAVL_Insert_ok comparator value o l x Hb Hx Hal)
      as [(y & Hy & Hc & ->)|(l1 & l2 & o' & ref & -> & -> & Hb' & Hd & _)]; run_simpl.
    + destruct (lookup_value (value x) l) eqn:Hl; [intros [= <- <-]; by exists o|].
      by destruct (lookup_value_none _ _ Hl y Hy).
    + assert (Hsp : splits comparator value (value x) l1 l2).
      { destruct Hb' as (_ & _ & _ & _ & Hord). apply (ordered_middle comparator value) in Hord as (_ & H1 & H2). split; [|done].
        intros y Hy. pose proof (H1 y Hy) as Hby. unfold before in Hby. rewrite cmp_sym. lia. }
      destruct (lookup_value (value x) (l1 ++ l2)) as [y|] eqn:Hl.
      * apply lookup_value_some in Hl as [Hy Hc]. by destruct (splits_ne comparator value _ _ _ _ Hsp Hy).
      * rewrite (place_ok x l1 l2 Hsp). intros [= <- <-]. by exists o'.
  - destruct (decide (x ∈ l)) as [Hx|]; [|done]. intros [= <- <-].
    apply list_elem_of_split in Hx as (l1 & l2 & ->).
    destruct (BAVL_Remove_ok comparator value o l1 x l2 Hb) as (o' & -> & Hb' & Hd). run_simpl.
    exists o'. by rewrite filter_ne.
  - intros [= <- <-]. destruct (BAVL_LookupExact_ok comparator value o l v Hb) as (p & -> & Hp). run_simpl.
    exists o. split; [|done]. do 3 f_equal. destruct (lookup_value v l) as [y|] eqn:Hl.
    + by apply Hp, lookup_value_some.
    + destruct p as [y|]; [|done]. destruct (proj1 (Hp y) eq_refl) as [Hy Hc]. by destruct (lookup_value_none _ _ Hl y Hy).
  - intros [= <- <-]. destruct (BAVL_GetFirst_ok comparator value o l Hb) as [-> _]. by exists o.
  - intros [= <- <-]. destruct (BAVL_GetFirst_ok comparator value o l Hb) as [_ ->]. by exists o.
  - destruct (decide (x ∈ l)) as [Hx|]; [|done]. intros [= <- <-].
    apply list_elem_of_split in Hx as (l1 & l2 & ->). exists o. split; [|done].
    destruct (BAVL_GetNext_ok comparator value o l1 x l2 Hb) as [-> _]. run_simpl.
    rewrite list.NoDup_app in Hnd. rewrite next_in_ok; [done|]. intros Hin. destruct Hnd as (_ & H1 & _). apply (H1 x); set_solver.
  - destruct (decide (x ∈ l)) as [Hx|]; [|done]. intros [= <- <-].
    apply list_elem_of_split in Hx as (l1 & l2 & ->). exists o. split; [|done].
    destruct (BAVL_GetNext_ok comparator value o l1 x l2 Hb) as [_ ->]. run_simpl.
    rewrite list.NoDup_app in Hnd. rewrite prev_in_ok; [by destruct (list.last l1)|].
    intros Hin. destruct Hnd as (_ & H1 & _). apply (H1 x); set_solver.
Qed.

Lemma exec_run_ok cs : forall o l l' rs,
  bavl comparator value o l -> Forall (allocated (mem o)) cs -> spec_run l cs = Some (l', rs) ->
  exists o', exec_run o cs = Ret (o', rs) /\ bavl comparator value o' l'.
Proof.
  induction cs as [|c cs IH]; intros o l l' rs Hb Hal; cbn [spec_run exec_run]; [intros [= <- <-]; by exists o|].
  apply Forall_cons_iff in Hal as [Hc Hcs].
  destruct (spec_op l c) as [[l1 r]|] eqn:Es; [|done]. cbn.
  destruct (spec_run l1 cs) as [[l2 rs']|] eqn:Er; [|done]. cbn. intros [= <- <-].
  destruct (exec_op_ok o l c l1 r Hb Hc Es) as (o1 & -> & Hb1 & Hd). run_simpl.
  destruct (IH o1 l1 l2 rs' Hb1) as (o' & -> & Hb'); [|done|run_simpl; by exists o'].
  eapply Forall_impl; [|exact Hcs]. intros [] H; cbn in *; try done.
  apply elem_of_dom. rewrite Hd. by apply elem_of_dom.
Qed.

(** C11: The AVL tree refines an ordered list of nodes: for any sequence of
    insertions, removals, exact lookups and steps to a neighbour that respects
    the documented contract, the C code returns exactly what the list
    specification returns, without a fault, a failed assertion or an endless
    loop, and the tree it leaves passes its own verifier (parent links, order
    and balance factors). *)
Theorem bavl_refines_ordered_list m cs l rs :
  Forall (allocated m) cs -> spec_run [] cs = Some (l, rs) ->
  exists o, exec_run (BAVL_Init m) cs = Ret (o, rs) /\ bavl comparator value o l /\
    BAVL_Verify comparator value o = Ret tt.
Proof.
  intros Hal Hs. destruct (exec_run_ok cs (BAVL_Init m) [] l rs) as (o & Ho & Hb); try done.
  - apply BAVL_Init_ok.
  - exists o. split; [done|]. split; [done|]. by eapply BAVL_Verify_ok.
Qed.

(** C35: A lookup in a tree of [n] nodes visits at most [2 log2 (n+1) + 1] of them:
    with that many rounds of the descending loop it always has its answer. *)
Theorem bavl_lookup_logarithmic o l v : bavl comparator value o l -> l <> [] ->
  exists r, BAVL_descend comparator value (Z.to_nat (2 * Z.log2 (len l + 1))) o v (root o) = Ret r.
Proof.
  intros (t & Hz & Ha & <- & Hord) Hne. pose proof Hz as (_ & _ & Hroot & _). cbn [bot] in Hroot.
  destruct t as [|tl x b tr]; [done|]. rewrite Hroot. cbn [rootp].
  pose proof (avl_size _ Ha) as Hsize. set (t := N tl x b tr) in *. pose proof (height_nonneg t).
  pose proof (len_nonneg (locs t)).
  assert (Hlog : height t / 2 <= Z.log2 (len (locs t) + 1)).
  { rewrite <- (Z.log2_pow2 (height t / 2)) by (Z.to_euclidean_division_equations; lia).
    apply Z.log2_le_mono. lia. }
  destruct (BAVL_descend_ok comparator value v t (Z.to_nat (2 * Z.log2 (len (locs t) + 1))) o [] x Hz eq_refl)
    as (comp & p & side & Ed & _); [|done|by split; intros y Hy%not_elem_of_nil|by eexists].
  pose proof (Z.log2_nonneg (len (locs t) + 1)). rewrite Z2Nat.id by lia. Z.to_euclidean_division_equations; lia.
Qed.

(** Iteration: [for (p = first; p; p = next(p))], the nodes visited. *)
Fixpoint iterate (n : nat) (next : ptr -> run ptr) (p : ptr) : run (list positive) :=
  match p with
  | None => Ret []
  | Some x =>
      match n with
      | O => Fail OutOfFuel
      | S n => q ← next p; xs ← iterate n next q; Ret (x :: xs)
      end
  end.

(** C36: Iterating from [BAVL_GetFirst] with [BAVL_GetNext] ends after as many
    steps as there are nodes and visits each node once, in order; from
    [BAVL_GetLast] with [BAVL_GetPrev] it visits them in reverse. *)
Theorem bavl_iteration o l : bavl comparator value o l ->
  (p ← BAVL_GetFirst o; iterate (length l) (BAVL_GetNext o) p) = Ret l /\
  (p ← BAVL_GetLast o; iterate (length l) (BAVL_GetPrev o) p) = Ret (rev l).
Proof.
  intros Hb. destruct (BAVL_GetFirst_ok comparator value o l Hb) as [-> ->]. run_simpl. split.
  - enough (Hi : forall l1 l2, l = l1 ++ l2 -> iterate (length l2) (BAVL_GetNext o) (list.head l2) = Ret l2) by (by apply (Hi [] l)).
    intros l1 l2. revert l1. induction l2 as [|x l2 IH]; intros l1 ->; [done|]. cbn [length list.head hd_error iterate].
    destruct (BAVL_GetNext_ok comparator value o l1 x l2 Hb) as [-> _]. run_simpl.
    rewrite (IH (l1 ++ [x])) by (by rewrite <- app_assoc). done.
  - enough (Hi : forall l1 l2, l = l1 ++ l2 -> iterate (length l1) (BAVL_GetPrev o) (list.last l1) = Ret (rev l1))
      by (apply (Hi l []); by rewrite app_nil_r).
    intros l1. induction l1 as [|x l1 IH] using rev_ind; intros l2 ->; [done|].
    rewrite list.last_snoc, length_app, Nat.add_comm, rev_app_distr. cbn [length Nat.add iterate].
    rewrite <- app_assoc in Hb. destruct (BAVL_GetNext_ok comparator value o l1 x l2 Hb) as [_ ->]. run_simpl.
    rewrite (IH (x :: l2)) by (by rewrite <- app_assoc). done.
Qed.
End props.

(** ** Concrete trees *)

Section examples.
(** Nodes 1 to 12 in uninitialised memory; the value of a node scrambles its address. *)
Definition ex_value (x : positive) : Z := (Zpos x * 7) mod 13.
Definition ex_mem : gmap positive BAVLNode :=
  list_to_map (map (fun x => (x, MkNode (Some 77%positive) (Some 78%positive) (Some x) 5))
                   [1; 2; 3; 4; 5; 6; 7; 8; 9; 10; 11; 12]%positive).
Definition ex_ops : list (@op Z) :=
  map OpInsert [1; 2; 3; 4; 5; 6; 7; 8; 9; 10; 11; 12]%positive ++
  [OpLookupExact 4; OpLookupExact 0; OpRemove 6; OpRemove 1; OpRemove 9; OpFirst; OpLast;
   OpNext 2; OpPrev 2; OpRemove 4; OpInsert 6].
Definition ex_state : list positive * list res :=
  match spec_run B_COMPARE ex_value [] ex_ops with Some s => s | None => ([], []) end.

Lemma bavl_refines_ordered_list_witness :
  exists o, exec_run B_COMPARE ex_value (BAVL_Init ex_mem) ex_ops = Ret (o, ex_state.2) /\
    bavl B_COMPARE ex_value o ex_state.1 /\ BAVL_Verify B_COMPARE ex_value o = Ret tt.
Proof.
  apply (bavl_refines_ordered_list B_COMPARE ex_value ex_mem ex_ops ex_state.1 ex_state.2); [|by vm_compute].
  repeat (apply Forall_cons_2; [by eexists; vm_compute|]). apply Forall_nil_2.
Defined.

(** A tree of two nodes, the second below the first. *)
Definition ex_tree : BAVL :=
  MkTree (Some 1%positive)
    {[ 1%positive := MkNode None None (Some 3%positive) 1; 3%positive := MkNode (Some 1%positive) None None 0 ]}.
Lemma ex_tree_ok : bavl B_COMPARE ex_value ex_tree [1; 3]%positive.
Proof.
  exists (N E 1 1 (N E 3 0 E)). split_and!; try (by vm_compute).
  - split; [|split; [done|split; [done|]]]; [by vm_compute|]. apply (bool_decide_unpack _). by vm_compute.
  - repeat constructor; by vm_compute.
Qed.
Lemma bavl_lookup_logarithmic_witness :
  exists r, BAVL_descend B_COMPARE ex_value (Z.to_nat (2 * Z.log2 (2 + 1))) ex_tree 8 (root ex_tree) = Ret r.
Proof. apply (bavl_lookup_logarithmic B_COMPARE ex_value ex_tree [1; 3]%positive 8 ex_tree_ok). done. Defined.
Lemma bavl_iteration_witness :
  (p ← BAVL_GetFirst ex_tree; iterate 2 (BAVL_GetNext ex_tree) p) = Ret [1; 3]%positive /\
  (p ← BAVL_GetLast ex_tree; iterate 2 (BAVL_GetPrev ex_tree) p) = Ret [3; 1]%positive.
Proof. apply (bavl_iteration B_COMPARE ex_value ex_tree [1; 3]%positive ex_tree_ok). Defined.
End examples.
