(* ===== verification/CAvl.v ===== *)
(** * AVL trees of linked entries ([structure/CAvl_impl.h], [structure/SAvl_impl.h])

    The second tree of the program, a template instantiated by [SAvl] for the
    tree [PacketPassFairQueue__Tree].  Its nodes have the members of [BAVLNode],
    and its state is a root link and the memory of the nodes, so the records of
    Bavl.v are used for both.  A [CAvlRef] is a link with the pointer it stands
    for, which are the same in an [SAvl] ([CAVL_PARAM_FUN_DEREF(arg, link)] is
    [link]): a reference is a pointer here and [CAvlDeref] does nothing.  The
    features [COUNTS], [ASSOC] and [KEYS_ARE_INDICES] are off in the program and
    so are lookups ([NOKEYS]); [CAVL_AUTO_VERIFY] is not defined. *)
From stdpp Require Import gmap.
From S2P Require Import Prelude Addr Bavl.

Definition CAvl_MAX (a b : Z) : Z := if a >? b then a else b.
Definition CAvl_OPTNEG (a : Z) (neg : bool) : Z := if neg then - a else a.

Definition CAvl_check_parent (o : BAVL) (p c : ptr) : run bool :=
  cp ← parent_of o c;
  if negb (bool_decide (p = cp)) then Ret false else
  if bool_decide (p = None) then Ret true else
  l0 ← link_of o p false;
  if bool_decide (c = l0) then Ret true else
  l1 ← link_of o p true;
  Ret (bool_decide (c = l1)).

Definition CAvl_rotate (o : BAVL) (r : ptr) (dir : bool) (r_parent : ptr) : run BAVL :=
  ok ← CAvl_check_parent o r_parent r; _ ← check ok;
  nr ← link_of o r (negb dir);
  c ← link_of o nr dir;
  o ← set_link o r (negb dir) c;
  c ← link_of o r (negb dir);
  o ← set_parent_if o c r;
  o ← set_link o nr dir r;
  o ← set_parent o nr r_parent;
  o ← replace_child o r_parent r nr;
  set_parent o r nr.

(** [CAvl_subtree_min] and [CAvl_subtree_max]: side 0 and side 1. *)
Fixpoint CAvl_subtree_end (fuel : nat) (o : BAVL) (n : ptr) (side : bool) : run ptr :=
  l ← link_of o n side;
  match l with
  | None => Ret n
  | Some _ => match fuel with O => Fail OutOfFuel | S fuel => CAvl_subtree_end fuel o l side end
  end.
Definition CAvl_subtree_min (o : BAVL) (n : ptr) : run ptr :=
  _ ← check (bool_decide (n <> None)); CAvl_subtree_end (tree_fuel o) o n false.
Definition CAvl_subtree_max (o : BAVL) (n : ptr) : run ptr :=
  _ ← check (bool_decide (n <> None)); CAvl_subtree_end (tree_fuel o) o n true.

Definition CAvl_replace_subtree_fix_assoc (o : BAVL) (dest n dest_parent : ptr) : run BAVL :=
  _ ← check (bool_decide (dest <> None));
  ok ← CAvl_check_parent o dest_parent dest; _ ← check ok;
  o ← replace_child o dest_parent dest n;
  match n with
  | Some _ => p ← parent_of o dest; set_parent o n p
  | None => Ret o
  end.

Definition CAvl_swap_connected (o : BAVL) (node enode node_parent : ptr) : run BAVL :=
  l1 ← link_of o node true;
  let side := bool_decide (enode = l1) in
  c ← link_of o node (negb side);
  q ← link_of o enode false; o ← adopt o node false q;
  q ← link_of o enode true; o ← adopt o node true q;
  p ← parent_of o node; o ← set_parent o enode p;
  o ← replace_child o node_parent node enode;
  o ← set_link o enode side node;
  o ← set_parent o node enode;
  adopt o enode (negb side) c.

Definition CAvl_swap_apart (o : BAVL) (node enode node_parent enode_parent : ptr) : run BAVL :=
  (* swap parents *)
  let temp := node_parent in
  p ← parent_of o enode; o ← set_parent o node p;
  o ← replace_child o enode_parent enode node;
  o ← set_parent o enode temp;
  o ← replace_child o temp node enode;
  (* swap left children *)
  temp ← link_of o node false;
  q ← link_of o enode false; o ← adopt o node false q;
  o ← adopt o enode false temp;
  (* swap right children *)
  temp ← link_of o node true;
  q ← link_of o enode true; o ← adopt o node true q;
  adopt o enode true temp.

Definition CAvl_swap_for_remove (o : BAVL) (node enode node_parent enode_parent : ptr) : run BAVL :=
  ok ← CAvl_check_parent o node_parent node; _ ← check ok;
  ok ← CAvl_check_parent o enode_parent enode; _ ← check ok;
  o ← (if bool_decide (enode_parent = node) then CAvl_swap_connected o node enode node_parent
       else CAvl_swap_apart o node enode node_parent enode_parent);
  (* swap balance factors *)
  b ← balance_of o node;
  b2 ← balance_of o enode; o ← set_balance o node b2;
  set_balance o enode b.

(** The transformations for a node whose balance factor is 2 or -2: the tree,
    the top of the subtree afterwards and the new [delta]. *)
Definition CAvl_transform (o : BAVL) (node : ptr) (delta : Z) : run (BAVL * ptr * Z) :=
  b ← balance_of o node;
  let bside := b =? 2 in
  let bsidef := if b =? 2 then 1 else -1 in
  child ← link_of o node bside;
  _ ← check (bool_decide (child <> None));
  cb ← balance_of o child;
  if cb * bsidef =? 1 then
    p ← parent_of o node; o ← CAvl_rotate o node (negb bside) p;
    o ← set_balance o node 0;
    o ← set_balance o child 0;
    Ret (o, child, s8 (delta - 1))
  else if cb * bsidef =? 0 then
    p ← parent_of o node; o ← CAvl_rotate o node (negb bside) p;
    o ← set_balance o node (1 * bsidef);
    o ← set_balance o child (-1 * bsidef);
    Ret (o, child, delta)
  else if cb * bsidef =? -1 then
    gchild ← link_of o child (negb bside);
    _ ← check (bool_decide (gchild <> None));
    o ← CAvl_rotate o child bside node;
    p ← parent_of o node; o ← CAvl_rotate o node (negb bside) p;
    gb ← balance_of o gchild;
    o ← set_balance o node (- CAvl_MAX 0 (gb * bsidef) * bsidef);
    gb ← balance_of o gchild;
    o ← set_balance o child (CAvl_MAX 0 (- gb * bsidef) * bsidef);
    o ← set_balance o gchild 0;
    Ret (o, gchild, s8 (delta - 1))
  else Fail AssertionFailed.

Fixpoint CAvl_rebalance (fuel : nat) (o : BAVL) (node : ptr) (side : bool) (deltac : Z) : run BAVL :=
  _ ← check ((-1 <=? deltac) && (deltac <=? 1));
  b ← balance_of o node;
  _ ← check ((-1 <=? b) && (b <=? 1));
  if deltac =? 0 then Ret o else
  let delta := s8 (CAvl_MAX deltac (CAvl_OPTNEG b side) - CAvl_MAX 0 (CAvl_OPTNEG b side)) in
  _ ← check ((-1 <=? delta) && (delta <=? 1));
  o ← set_balance o node (b - CAvl_OPTNEG deltac side);
  b ← balance_of o node;
  '(o, node, delta) ←
    (if (b =? 2) || (b =? -2) then CAvl_transform o node delta else Ret (o, node, delta));
  _ ← check ((-1 <=? delta) && (delta <=? 1));
  p ← parent_of o node;
  match p with
  | None => Ret o
  | Some _ =>
      l1 ← link_of o p true;
      match fuel with
      | O => Fail OutOfFuel
      | S fuel => CAvl_rebalance fuel o p (bool_decide (node = l1)) delta
      end
  end.

(** ** The interface *)

Definition CAvl_Init (m : gmap positive BAVLNode) : BAVL := MkTree None m.

Section ops.
Context {V : Type} (compare : V -> V -> Z) (entry : positive -> V).

(** [CAVL_PARAM_FUN_COMPARE_ENTRIES] sees the entries at the two references. *)
Definition CAvl_compare_entries (node1 node2 : ptr) : run Z :=
  x1 ← deref node1; x2 ← deref node2;
  let res := compare (entry x1) (entry x2) in
  _ ← check (res >=? -1); _ ← check (res <=? 1); Ret res.

Fixpoint CAvl_descend (fuel : nat) (o : BAVL) (node c : ptr) : run (Z * ptr * bool) :=
  comp ← CAvl_compare_entries node c;
  if comp =? 0 then Ret (comp, c, false) else
  let side := comp =? 1 in
  l ← link_of o c side;
  match l with
  | None => Ret (comp, c, side)
  | Some _ => match fuel with O => Fail OutOfFuel | S fuel => CAvl_descend fuel o node l end
  end.

Definition CAvl_Insert (o : BAVL) (node : ptr) : run (BAVL * bool * ptr) :=
  _ ← check (bool_decide (node <> None));
  match root o with
  | None =>
      let o := set_root o node in
      o ← store o node (fun _ => MkNode None None None 0);
      Ret (o, true, None)
  | Some _ =>
      '(comp, c, side) ← CAvl_descend (tree_fuel o) o node (root o);
      if comp =? 0 then Ret (o, false, c) else
      o ← set_link o c side node;
      o ← store o node (fun _ => MkNode c None None 0);
      o ← CAvl_rebalance (tree_fuel o) o c side 1;
      Ret (o, true, c)
  end.

Definition CAvl_Remove (o : BAVL) (node : ptr) : run BAVL :=
  _ ← check (bool_decide (node <> None));
  _ ← check (bool_decide (root o <> None));
  l0 ← link_of o node false; l1 ← link_of o node true;
  o ← (if bool_decide (l0 <> None) && bool_decide (l1 <> None) then
         max ← CAvl_subtree_max o l0;
         p ← parent_of o node; pm ← parent_of o max;
         CAvl_swap_for_remove o node max p pm
       else Ret o);
  l0 ← link_of o node false; l1 ← link_of o node true;
  _ ← check (bool_decide (l0 = None) || bool_decide (l1 = None));
  paren ← parent_of o node;
  let child := match l0 with Some _ => l0 | None => l1 end in
  match paren with
  | Some _ =>
      p1 ← link_of o paren true;
      let side := bool_decide (node = p1) in
      o ← CAvl_replace_subtree_fix_assoc o node child paren;
      CAvl_rebalance (tree_fuel o) o paren side (-1)
  | None => CAvl_replace_subtree_fix_assoc o node child paren
  end.
End ops.

Definition CAvl_IsEmpty (o : BAVL) : bool := bool_decide (root o = None).
Definition CAvl_GetFirst (o : BAVL) : run ptr :=
  match root o with None => Ret None | Some _ => CAvl_subtree_min o (root o) end.
Definition CAvl_GetLast (o : BAVL) : run ptr :=
  match root o with None => Ret None | Some _ => CAvl_subtree_max o (root o) end.

(** The climbing loop of [CAvl_GetNext] (side 1) and [CAvl_GetPrev] (side 0). *)
Fixpoint CAvl_climb (fuel : nat) (o : BAVL) (n : ptr) (side : bool) : run ptr :=
  p ← parent_of o n;
  match p with
  | None => Ret None
  | Some _ =>
      l ← link_of o p side;
      if bool_decide (n = l) then
        match fuel with O => Fail OutOfFuel | S fuel => CAvl_climb fuel o p side end
      else Ret p
  end.
Definition CAvl_step (o : BAVL) (node : ptr) (side : bool) : run ptr :=
  _ ← check (bool_decide (node <> None));
  _ ← check (bool_decide (root o <> None));
  l ← link_of o node side;
  match l with
  | Some _ => CAvl_subtree_end (tree_fuel o) o l (negb side)
  | None => CAvl_climb (tree_fuel o) o node side
  end.
Definition CAvl_GetNext (o : BAVL) (node : ptr) : run ptr := CAvl_step o node true.
Definition CAvl_GetPrev (o : BAVL) (node : ptr) : run ptr := CAvl_step o node false.

(** [CAvl_Verify]: the assertions of [CAvl_verify_recurser], which returns the height. *)
Section verify.
Context {V : Type} (compare : V -> V -> Z) (entry : positive -> V).

Fixpoint CAvl_verify_recurser (fuel : nat) (o : BAVL) (n : ptr) : run Z :=
  b ← balance_of o n;
  _ ← check ((-1 <=? b) && (b <=? 1));
  let subtree (side : bool) (want : Z) : run Z :=
    c ← link_of o n side;
    match c with
    | None => Ret 0
    | Some _ =>
        p ← parent_of o c;
        _ ← check (bool_decide (p = n));
        comp ← CAvl_compare_entries compare entry c n;
        _ ← check (comp =? want);
        match fuel with O => Fail OutOfFuel | S fuel => CAvl_verify_recurser fuel o c end
    end in
  height_left ← subtree false (-1);
  height_right ← subtree true 1;
  _ ← check (b =? height_right - height_left);
  Ret (CAvl_MAX height_left height_right + 1).
Definition CAvl_Verify (o : BAVL) : run unit :=
  match root o with
  | None => Ret tt
  | Some _ =>
      p ← parent_of o (root o);
      _ ← check (bool_decide (p = None));
      _ ← CAvl_verify_recurser (tree_fuel o) o (root o);
      Ret tt
  end.
End verify.

(** ** SAvl: entries instead of references *)

Definition SAvl_Init (m : gmap positive BAVLNode) : BAVL := CAvl_Init m.
Definition SAvl_Insert {V} (compare : V -> V -> Z) (value : positive -> V) (o : BAVL) (entry : ptr) :
    run (BAVL * bool * ptr) :=
  _ ← check (bool_decide (entry <> None)); CAvl_Insert compare value o entry.
Definition SAvl_Remove (o : BAVL) (entry : ptr) : run BAVL :=
  _ ← check (bool_decide (entry <> None)); CAvl_Remove o entry.
Definition SAvl_GetFirst (o : BAVL) : run ptr := CAvl_GetFirst o.
Definition SAvl_GetLast (o : BAVL) : run ptr := CAvl_GetLast o.
Definition SAvl_GetNext (o : BAVL) (entry : ptr) : run ptr :=
  _ ← check (bool_decide (entry <> None)); CAvl_GetNext o entry.
Definition SAvl_GetPrev (o : BAVL) (entry : ptr) : run ptr :=
  _ ← check (bool_decide (entry <> None)); CAvl_GetPrev o entry.
Definition SAvl_IsEmpty (o : BAVL) : bool := CAvl_IsEmpty o.
Definition SAvl_Verify {V} (compare : V -> V -> Z) (value : positive -> V) (o : BAVL) : run unit :=
  CAvl_Verify compare value o.
