(* ===== verification/CAvlSpec.v ===== *)
(** * The two AVL trees are one ([CAvl_impl.h] and [BAVL.h])

    On every valid tree the operations of [CAvl] pass their additional
    assertions ([CAvl_check_parent]) and do what those of [BAVL] do, so the
    theorems about the one hold of the other.  The last group of lemmas are the
    laws by which [PacketPassFairQueue__Tree] is used. *)
From stdpp Require Import gmap.
From S2P Require Import Prelude Addr Bavl BavlTree BavlBalance BavlSwap BavlSpec CAvl.

(** ** Parents through writes of links *)

Lemma parent_set_link o p s q o' r : set_link o p s q = Ret o' -> parent_of o' r = parent_of o r.
Proof.
  unfold set_link, store, parent_of, load. destruct p as [x|]; [|done]. cbn.
  destruct (mem o !! x) as [n|] eqn:Hn; [|done]. intros [= <-]. destruct r as [y|]; [|done]. cbn.
  destruct (decide (x = y)) as [->|Hne].
  - rewrite lookup_insert_eq, Hn. cbn. by destruct s.
  - by rewrite lookup_insert_ne.
Qed.
Lemma parent_set_parent_ne o p q o' r : p <> r -> set_parent o p q = Ret o' -> parent_of o' r = parent_of o r.
Proof.
  unfold set_parent, store, parent_of, load. destruct p as [x|]; [|done]. cbn.
  destruct (mem o !! x) as [n|] eqn:Hn; [|done]. intros Hne [= <-]. destruct r as [y|]; [|done]. cbn.
  by rewrite lookup_insert_ne by congruence.
Qed.
Lemma parent_set_parent_if_ne o p q o' r : p <> r -> set_parent_if o p q = Ret o' -> parent_of o' r = parent_of o r.
Proof. destruct p; [apply parent_set_parent_ne|]. by intros _ [= <-]. Qed.
Lemma parent_set_parent o p q o' : set_parent o p q = Ret o' -> parent_of o' p = Ret q.
Proof.
  unfold set_parent, store, parent_of, load. destruct p as [x|]; [|done]. cbn.
  destruct (mem o !! x) as [n|] eqn:Hn; [|done]. intros [= <-]. cbn. by rewrite lookup_insert_eq.
Qed.
Lemma link_set_link o p s q o' : set_link o p s q = Ret o' -> link_of o' p s = Ret q.
Proof.
  unfold set_link, store, link_of, load. destruct p as [x|]; [|done]. cbn.
  destruct (mem o !! x) as [n|] eqn:Hn; [|done]. intros [= <-]. cbn. rewrite lookup_insert_eq. cbn. by destruct s.
Qed.
Lemma parent_adopt_ne o a s q o' r : q <> r -> adopt o a s q = Ret o' -> parent_of o' r = parent_of o r.
Proof.
  unfold adopt. intros Hne. destruct (set_link o a s q) as [o1|] eqn:E1; [|done]. cbn. intros E2.
  rewrite (parent_set_parent_if_ne _ _ _ _ _ Hne E2). by apply (parent_set_link _ _ _ _ _ _ E1).
Qed.

(** Both sides run the same step. *)
Ltac both := match goal with |- (?m ≫= _) = (?m ≫= _) => destruct m eqn:?; cbn [mbind run_bind]; [|done] end.

Lemma CAvl_rotate_eq o r dir rp : parent_of o r = Ret rp -> CAvl_check_parent o rp r = Ret true ->
  (forall nr c, link_of o r (negb dir) = Ret nr -> link_of o nr dir = Ret c -> c <> r) ->
  CAvl_rotate o r dir rp = BAVL_rotate o r dir.
Proof.
  intros Hp Hc Hne. unfold CAvl_rotate, BAVL_rotate. rewrite Hc. run_simpl.
  both. both. rename a into nr, a0 into c. specialize (Hne _ _ eq_refl Heqr1). both. rename a into o1.
  rewrite (link_set_link _ _ _ _ _ Heqr2). run_simpl. both. rename a into o2. both. rename a into o3.
  rewrite (parent_set_link _ _ _ _ _ r Heqr4), (parent_set_parent_if_ne _ _ _ _ _ Hne Heqr3),
    (parent_set_link _ _ _ _ _ r Heqr2), Hp. run_simpl. both.
  by rewrite (parent_set_parent _ _ _ _ Heqr5).
Qed.

Lemma check_parent_ok o c t y : zip o c t -> rootp t = Some y -> CAvl_check_parent o (top None c) (Some y) = Ret true.
Proof.
  intros Hz Hy. unfold CAvl_check_parent. rewrite (zip_parent_root _ _ _ _ Hz Hy). run_simpl.
  rewrite (bool_decide_true (top None c = top None c)) by done. cbn [negb].
  destruct c as [|f c]; [by rewrite bool_decide_true|]. cbn [top]. rewrite bool_decide_false by done.
  assert (Hl : link_of o (Some (f_loc f)) (f_side f) = Ret (Some y)).
  { apply zip_plug in Hz. destruct f as [d x b s]. cbn [plug fold_left] in Hz. fold (plug c (fill (Frame d x b s) t)) in Hz.
    apply zip_plug in Hz. unfold fill in Hz. cbn [f_side f_loc f_bal f_sib] in *. by rewrite (zip_link _ _ _ _ _ _ _ Hz), Hy. }
  assert (Hr : is_ret (link_of o (Some (f_loc f)) (negb (f_side f)))).
  { unfold link_of, load in *. cbn in *. destruct (mem o !! f_loc f); [|done]. by eexists. }
  destruct Hr as [q Hr]. destruct (f_side f); cbn [negb] in Hr.
  - rewrite Hr. run_simpl. case_bool_decide; [done|]. rewrite Hl. run_simpl. by rewrite bool_decide_true.
  - rewrite Hl. run_simpl. by rewrite bool_decide_true.
Qed.

Lemma rotate_zip_eq o c d mid nr bn out r br a :
  zip o c (node (negb d) (node d mid nr bn out) r br a) -> CAvl_rotate o (Some r) d (top None c) = BAVL_rotate o (Some r) d.
Proof.
  intros Hz. apply CAvl_rotate_eq.
  - apply (zip_parent_root _ _ _ _ Hz), rootp_node.
  - apply (check_parent_ok _ _ _ _ Hz), rootp_node.
  - intros q cc. rewrite (zip_link _ _ _ _ _ _ _ Hz), rootp_node. intros [= <-].
    rewrite (zip_link _ _ _ _ _ _ _ (proj1 (zip_down _ _ _ _ _ _ _) Hz)). intros [= <-].
    destruct Hz as (_ & _ & _ & Hnd). rewrite !locs_node in Hnd. cbn in Hnd. apply rootp_notin.
    intros Hin. apply list.NoDup_cons in Hnd as [Hn _]. apply Hn. set_solver.
Qed.

(** ** Rebalancing *)

Lemma CAvl_transform_eq o c l x b r delta :
  zip o c (N l x b r) -> avl l -> avl r -> b = height r - height l -> b = 2 \/ b = -2 ->
  CAvl_transform o (Some x) delta = BAVL_transform o (Some x) delta.
Proof.
  intros Hz Hl Hr Hb Hb2.
  assert (exists d s s', N l x b r = node d s x b s' /\ avl s /\ height s = height s' + 2 /\ b = 2 * sgn d)
    as (d & s & s' & E & Hs & Hh & Hbd).
  { destruct Hb2 as [->| ->]; [exists true, r, l|exists false, l, r]; repeat split; try done; lia. }
  rewrite E in Hz. pose proof (height_nonneg s').
  destruct (tree_node d s) as (cc & y & cb & m & ->); [lia|].
  apply avl_node in Hs as (Hcc & Hm & Hcb & _). rewrite height_node in Hh.
  assert (Hrot : CAvl_rotate o (Some x) (negb d) (top None c) = BAVL_rotate o (Some x) (negb d)).
  { apply (rotate_zip_eq o c (negb d) m y cb cc x b s').
    rewrite negb_involutive. rewrite (node_flip (negb d)), negb_involutive. done. }
  unfold CAvl_transform, BAVL_transform.
  rewrite (zip_balance _ _ _ _ _ _ _ Hz). run_simpl. rewrite !(bsidef_eq d b Hbd), !(bside_eq d b Hbd).
  rewrite (zip_link _ _ _ _ _ _ _ Hz). run_simpl. rewrite rootp_node, bool_decide_true by done. cbn [check]. run_simpl.
  pose proof (proj1 (zip_down _ _ _ _ _ _ _) Hz) as Hzc. rewrite (zip_balance _ _ _ _ _ _ _ Hzc). run_simpl.
  rewrite (zip_parent_root _ _ _ _ Hz (rootp_node _ _ _ _ _)). run_simpl. rewrite Hrot.
  destruct (cb * sgn d =? 1); [done|]. destruct (cb * sgn d =? 0) eqn:E0; [done|].
  destruct (cb * sgn d =? -1) eqn:E1; [|done]. apply Z.eqb_eq in E1.
  pose proof (height_nonneg cc). destruct (tree_node d m) as (g1 & g & gb & g2 & ->); [lia|].
  rewrite (node_flip d cc) in Hzc. rewrite (zip_link _ _ _ _ _ _ _ Hzc). run_simpl.
  rewrite rootp_node, bool_decide_true by done. cbn [check]. run_simpl.
  pose proof (rotate_zip_eq _ _ _ _ _ _ _ _ _ _ Hzc) as Hrc. cbn [top f_loc] in Hrc. rewrite Hrc.
  destruct (BAVL_rotate_ok _ _ _ _ _ _ _ _ _ _ Hzc) as (o1 & Er & Hz1 & _). rewrite Er. run_simpl.
  rewrite (node_flip d _ g) in Hz1. apply zip_down in Hz1.
  rewrite (zip_parent_root _ _ _ _ Hz1 (rootp_node _ _ _ _ _)). run_simpl.
  rewrite <- (negb_involutive d) in Hz1 at 1. by rewrite (rotate_zip_eq _ _ _ _ _ _ _ _ _ _ Hz1).
Qed.

(** The balance step of one level, on both sides. *)
Lemma transform_level o c d t x b s b' delta :
  zip o c (node d t x b s) -> avl t -> avl s -> b * sgn d = height t - height s ->
  balance_of o (Some x) = Ret b' ->
  (if (b' =? 2) || (b' =? -2) then CAvl_transform o (Some x) delta else Ret (o, Some x, delta)) =
  (if (b' =? 2) || (b' =? -2) then BAVL_transform o (Some x) delta else Ret (o, Some x, delta)).
Proof.
  intros Hz Ht Hs Hb Hbo. rewrite (zip_balance _ _ _ _ _ _ _ Hz) in Hbo. injection Hbo as <-.
  destruct ((b =? 2) || (b =? -2)) eqn:E; [|done].
  destruct d; cbn in *; eapply CAvl_transform_eq; try exact Hz; try done; try lia.
  all: apply orb_true_iff in E as [E%Z.eqb_eq|E%Z.eqb_eq]; lia.
Qed.

(** A round of the walk, as [rebalance_round] of BavlBalance.v. *)
Lemma CAvl_rebalance_round fuel o c d t x b s oldh deltac :
  zip o c (node d t x b s) -> avl t -> avl s -> b * sgn d = oldh - height s -> -1 <= b <= 1 ->
  oldh = height t - deltac -> 0 <= oldh -> deltac = 1 \/ deltac = -1 ->
  exists t2 o2 y delta,
    CAvl_rebalance fuel o (Some x) d deltac =
      match top None c with
      | None => Ret o2
      | Some _ =>
          l1 ← link_of o2 (top None c) true;
          match fuel with
          | O => Fail OutOfFuel
          | S fuel => CAvl_rebalance fuel o2 (top None c) (bool_decide (Some y = l1)) delta
          end
      end /\
    BAVL_rebalance fuel o (Some x) d deltac =
      match top None c with
      | None => Ret o2
      | Some _ =>
          l1 ← link_of o2 (top None c) true;
          match fuel with
          | O => Fail OutOfFuel
          | S fuel => BAVL_rebalance fuel o2 (top None c) (bool_decide (Some y = l1)) delta
          end
      end /\
    zip o2 c t2 /\ rootp t2 = Some y /\ avl t2 /\ -1 <= delta <= 1 /\ height t2 - delta = 1 + oldh `max` height s.
Proof.
  intros Hz Ht Hs Hb Hbr Hold H0 Hdc. assert (Hsgn : sgn d = 1 \/ sgn d = -1) by (destruct d; auto).
  destruct (rebalance_level o c d t x b s oldh deltac) as (o1 & t2 & o2 & y & E1 & E2 & Hz2 & Hy & Ha & _ & _ & Hr); try done.
  assert (Hz1 : zip o1 c (node d t x (b - BAVL_OPTNEG deltac d) s)).
  { destruct (set_balance_node o c d t x b s (b - BAVL_OPTNEG deltac d)) as (o1' & E1' & Hz1 & _);
      [rewrite BAVL_OPTNEG_sgn; nia|exact Hz|]. rewrite E1 in E1'. injection E1' as <-. exact Hz1. }
  exists t2, o2, y, (height t2 - (1 + oldh `max` height s)). set (delta := s8 _) in *.
  assert (Hdelta : -1 <= delta <= 1).
  { unfold delta. rewrite !BAVL_OPTNEG_sgn, !BAVL_MAX_max. rewrite s8_small by nia. nia. }
  rewrite (zip_balance _ _ _ _ _ _ _ Hz1) in E2. cbn [mbind run_bind] in E2.
  pose proof E2 as E3. rewrite <- (transform_level o1 c d t x _ s _ delta Hz1 Ht Hs) in E3;
    [|rewrite BAVL_OPTNEG_sgn; nia|apply (zip_balance _ _ _ _ _ _ _ Hz1)].
  split; [|split; [|split_and!; try done; lia]].
  all: destruct fuel; cbn [CAvl_rebalance BAVL_rebalance]; ztest; run_simpl; rewrite (zip_balance _ _ _ _ _ _ _ Hz); run_simpl;
    ztest; run_simpl; change CAvl_MAX with BAVL_MAX; change CAvl_OPTNEG with BAVL_OPTNEG; fold delta; ztest; run_simpl;
    rewrite E1; run_simpl; rewrite (zip_balance _ _ _ _ _ _ _ Hz1); run_simpl; rewrite ?E2, ?E3; run_simpl; ztest; run_simpl;
    rewrite (zip_parent_root _ _ _ _ Hz2 Hy); reflexivity.
Qed.

Lemma CAvl_rebalance_eq c : forall fuel o f t deltac,
  zip o (f :: c) t -> avl t -> cavl (f :: c) (height t - deltac) -> -1 <= deltac <= 1 -> 0 <= height t - deltac ->
  CAvl_rebalance fuel o (Some (f_loc f)) (f_side f) deltac = BAVL_rebalance fuel o (Some (f_loc f)) (f_side f) deltac.
Proof.
  induction c as [|f2 c IH]; intros fuel o [d x b s] t deltac Hz Ht (Hs & Hb & Hbr & Hc) Hdc H0;
    cbn [f_side f_loc f_bal f_sib] in *; apply zip_down in Hz; destruct (decide (deltac = 0)) as [->|Hne].
  1, 3: by destruct fuel; cbn [CAvl_rebalance BAVL_rebalance Z.eqb].
  all: destruct (CAvl_rebalance_round fuel o _ d t x b s (height t - deltac) deltac Hz)
    as (t2 & o2 & y & dl & -> & -> & Hz2 & Hy & Ha & Hdl & Hh); try done; try lia.
  cbn [top]. destruct (zip_child_side _ _ _ _ _ Hz2 Hy) as (l1 & -> & Hside). run_simpl. rewrite Hside.
  destruct fuel as [|fuel]; [done|]. apply (IH fuel o2 f2 t2 dl Hz2 Ha); [|lia|]; rewrite Hh; [done|].
  pose proof (height_nonneg s). lia.
Qed.

(** ** Exchange and replacement *)

Lemma swap_connected_eq o n e p1 : parent_of o n = Ret p1 ->
  (forall d q, link_of o e d = Ret q -> q <> n) -> n <> e ->
  CAvl_swap_connected o n e p1 = swap_connected o n e.
Proof.
  intros Hp Hq Hne. unfold CAvl_swap_connected, swap_connected. both. both. both. pose proof (Hq false _ Heqr1) as Hq1.
  both. rename a2 into o1.
  assert (Hl : forall q, link_of o1 e true = Ret q -> link_of o e true = Ret q).
  { intros q. unfold adopt, set_link, set_parent_if, set_parent, store, link_of, load in *. destruct n as [x|]; [|done]. cbn in *.
    destruct (mem o !! x) as [nn|] eqn:Hn; [|done]. cbn in *. destruct e as [y|]; [|done]. cbn in *.
    destruct a1 as [z|]; cbn in *.
    - destruct (<[x:=_]> (mem o) !! z) as [nz|] eqn:Hz; [|done]. cbn in *. injection Heqr2 as <-. cbn.
      destruct (decide (z = y)) as [->|].
      + rewrite lookup_insert_eq. rewrite lookup_insert_ne in Hz by congruence. by rewrite Hz.
      + rewrite !lookup_insert_ne by congruence. done.
    - injection Heqr2 as <-. cbn. by rewrite lookup_insert_ne by congruence. }
  both. pose proof (Hq true _ (Hl _ eq_refl)) as Hq2. both.
  by rewrite (parent_adopt_ne _ _ _ _ _ n Hq2 Heqr4), (parent_adopt_ne _ _ _ _ _ n Hq1 Heqr2), Hp.
Qed.
Lemma swap_apart_eq o n e p1 p2 : parent_of o n = Ret p1 -> parent_of o e = Ret p2 ->
  CAvl_swap_apart o n e p1 p2 = swap_apart o n e.
Proof. intros H1 H2. unfold CAvl_swap_apart, swap_apart. by rewrite H1, H2. Qed.

Lemma swap_for_remove_eq o p c n1 b1 s l2 n2 b2 r2 :
  zip o (p ++ Frame false n1 b1 s :: c) (N l2 n2 b2 r2) ->
  CAvl_swap_for_remove o (Some n1) (Some n2) (top None c) (top None (p ++ Frame false n1 b1 s :: c)) =
  BAVL_swap_nodes o (Some n1) (Some n2).
Proof.
  intros Hz. unfold CAvl_swap_for_remove, BAVL_swap_nodes.
  assert (Hz1 : zip o c (N (plug p (N l2 n2 b2 r2)) n1 b1 s)) by (by apply zip_left, zip_plug_app).
  rewrite (check_parent_ok _ _ _ n1 Hz1 eq_refl), (check_parent_ok _ _ _ n2 Hz eq_refl). run_simpl.
  rewrite (zip_parent _ _ _ _ _ _ Hz1), (zip_parent _ _ _ _ _ _ Hz). run_simpl.
  pose proof Hz as (_ & _ & _ & Hnd). rewrite clocs_app in Hnd. cbn in Hnd. rewrite perm_apart in Hnd.
  destruct (nodup_groups _ _ _ _ _ _ Hnd) as (Hne & (Hl & Hr & _) & (_ & _ & _ & H2) & _).
  rewrite not_elem_of_app in H2. rewrite (bool_decide_false (top None c = Some n2)) by (apply top_notin; tauto).
  rewrite orb_false_r. case_bool_decide as Hc.
  - rewrite swap_connected_eq; [by destruct (swap_connected _ _ _)|by apply (zip_parent _ _ _ _ _ _ Hz1)| |congruence].
    intros d q. destruct d.
    + rewrite (zip_link _ _ true _ _ _ _ Hz). intros [= <-]. by apply rootp_notin.
    + rewrite (zip_link _ _ false _ _ _ _ Hz). intros [= <-]. by apply rootp_notin.
  - rewrite swap_apart_eq; [by destruct (swap_apart _ _ _)|by apply (zip_parent _ _ _ _ _ _ Hz1)|by apply (zip_parent _ _ _ _ _ _ Hz)].
Qed.

Lemma replace_subtree_eq o c l x b r n : zip o c (N l x b r) ->
  CAvl_replace_subtree_fix_assoc o (Some x) n (top None c) = BAVL_replace_subtree o (Some x) n.
Proof.
  intros Hz. unfold CAvl_replace_subtree_fix_assoc, BAVL_replace_subtree.
  rewrite (check_parent_ok _ _ _ x Hz eq_refl), (zip_parent _ _ _ _ _ _ Hz). by rewrite bool_decide_true.
Qed.

Lemma subtree_end_walk fuel o n side : CAvl_subtree_end fuel o n side = BAVL_walk fuel o n side.
Proof. revert n. induction fuel as [|fuel IH]; intros n; cbn; destruct (link_of o n side) as [[|]|]; try done. Qed.

(** The exchange before a removal. *)
Lemma swap_max_eq o c l x b r : zip o c (N l x b r) ->
  (if bool_decide (rootp l <> None) && bool_decide (rootp r <> None) then
     max ← CAvl_subtree_max o (rootp l);
     p ← parent_of o (Some x); pm ← parent_of o max;
     CAvl_swap_for_remove o (Some x) max p pm
   else Ret o) =
  (if bool_decide (rootp l <> None) && bool_decide (rootp r <> None) then
     max ← BAVL_subtree_max (tree_fuel o) o (rootp l); BAVL_swap_nodes o (Some x) max
   else Ret o).
Proof.
  intros Hz. destruct (bool_decide (rootp l <> None) && _) eqn:Hboth; [|done].
  destruct l as [|ll y lb lr]; [by cbn in Hboth|]. unfold CAvl_subtree_max. cbn [rootp]. rewrite bool_decide_true by done. run_simpl.
  rewrite subtree_end_walk, subtree_max_walk.
  pose proof (proj1 (zip_left _ _ _ _ _ _) Hz) as Hzl. pose proof (zip_height _ _ _ Hzl).
  destruct (BAVL_walk_zip true _ (tree_fuel o) o _ y Hzl eq_refl) as (p & m & mb & ml & -> & Hl & Hzm & _); [lia|].
  run_simpl. rewrite (zip_parent _ _ _ _ _ _ Hz), (zip_parent_root _ _ _ m Hzm eq_refl). run_simpl.
  by apply swap_for_remove_eq in Hzm.
Qed.

(** ** The operations *)

Section ops.
Context {V : Type} (comparator : V -> V -> Z) `{!ValueOrder comparator} (value : positive -> V).
Implicit Types (o : BAVL) (l : list positive) (x y node : positive).

Lemma compare_entries_eq x y :
  CAvl_compare_entries comparator value (Some x) (Some y) = BAVL_compare_values comparator (value x) (value y).
Proof.
  rewrite (compare_values comparator). unfold CAvl_compare_entries. run_simpl. rewrite !Z.geb_leb.
  pose proof (cmp_range (value x) (value y)). ztest. by run_simpl.
Qed.
Lemma CAvl_descend_eq fuel o x c :
  CAvl_descend comparator value fuel o (Some x) c = BAVL_descend comparator value fuel o (value x) c.
Proof.
  revert c. induction fuel as [|fuel IH]; intros [y|]; try done; cbn [CAvl_descend BAVL_descend];
    rewrite compare_entries_eq; unfold BAVL_node_value; run_simpl; rewrite (compare_values comparator); run_simpl;
    destruct (comparator _ _ =? 0); try done; destruct (link_of _ _ _) as [[|]|]; try done; run_simpl; try done; apply IH.
Qed.

Lemma CAvl_Insert_eq o l node : bavl comparator value o l -> node ∉ l -> is_Some (mem o !! node) ->
  CAvl_Insert comparator value o (Some node) = BAVL_Insert comparator value o (Some node).
Proof.
  intros (t & Hz & Ha & <- & Hord) Hnode Hmem. pose proof Hz as (_ & _ & Hroot & _). cbn [bot] in Hroot.
  unfold CAvl_Insert, BAVL_Insert. rewrite bool_decide_true by done. cbn [check]. run_simpl. rewrite Hroot.
  destruct t as [|l x b r]; [done|]. cbn [rootp]. rewrite CAvl_descend_eq. change (BAVL_node_value value (Some node)) with (Ret (value node)).
  run_simpl. destruct (BAVL_descend_ok comparator value (value node) (N l x b r) (tree_fuel o) o [] x Hz eq_refl)
    as (comp & p & side & -> & [(-> & _)|(Hne & f & c & <- & <- & Hzf & Hplug & _)]);
    [pose proof (zip_height _ _ _ Hz); lia|done|by split; intros y Hy%not_elem_of_nil|by run_simpl|].
  run_simpl. rewrite (proj2 (Z.eqb_neq _ _) Hne).
  assert (Hlocs : locs (N l x b r) = locs (plug (f :: c) E)) by (by rewrite Hplug).
  assert (Hnf : node ∉ clocs (f :: c)).
  { intros Hin%elem_of_clocs. apply Hnode. by rewrite Hlocs, locs_plug. }
  destruct (attach_ok o f c node Hzf Hnf Hmem) as (o1 & o2 & -> & E2 & Hz2 & _). run_simpl. rewrite E2. run_simpl.
  rewrite (CAvl_rebalance_eq c _ o2 f (N E node 0 E) 1 Hz2); try done.
  apply (cavl_unplug (f :: c) E). by rewrite Hplug.
Qed.

Lemma CAvl_Remove_eq o l1 x l2 : bavl comparator value o (l1 ++ x :: l2) -> CAvl_Remove o (Some x) = BAVL_Remove o (Some x).
Proof.
  intros Hb. destruct (bavl_root comparator value o _ x Hb) as [y Hy]; [set_solver|].
  apply (bavl_focus comparator value) in Hb as (c & tl & b & tr & Hz & Ha & _ & _). unfold CAvl_Remove, BAVL_Remove.
  rewrite Hy, !bool_decide_true by done. run_simpl.
  rewrite (zip_link _ _ false _ _ _ _ Hz), (zip_link _ _ true _ _ _ _ Hz). run_simpl. rewrite (swap_max_eq _ _ _ _ _ _ Hz).
  destruct (remove_place o c tl x b tr Hz Ha) as (o1 & c1 & l & b1 & r & -> & Hz1 & Ha1 & Hone & _ & _). run_simpl.
  rewrite (zip_link _ _ false _ _ _ _ Hz1), (zip_link _ _ true _ _ _ _ Hz1). run_simpl.
  rewrite (zip_parent _ _ _ _ _ _ Hz1).
  set (t := match l with E => r | _ => l end).
  assert (Hchild : match rootp l with Some _ => rootp l | None => rootp r end = rootp t) by (unfold t; by destruct l).
  assert (Ht : (l = E /\ t = r) \/ (r = E /\ t = l)).
  { unfold t. destruct Hone as [-> | ->]; [by left|]. destruct l; [by left|by right]. }
  assert (Hchk : bool_decide (rootp l = None) || bool_decide (rootp r = None) =
    negb (bool_decide (rootp l <> None) && bool_decide (rootp r <> None))) by (by destruct l, r).
  rewrite Hchk, Hchild. both. run_simpl. pose proof (replace_subtree_eq _ _ _ _ _ _ (rootp t) Hz1) as Hrs.
  destruct c1 as [|f c1]; [exact Hrs|]. cbn [top] in *. both. rewrite Hrs.
  destruct (BAVL_replace_subtree_ok _ _ _ _ _ _ t Hz1 Ht) as (o2 & -> & Hz2 & _). run_simpl.
  destruct (zip_child_side _ _ _ _ x Hz1 eq_refl) as (q & Eq & Hside). rewrite Eq in Heqr1. injection Heqr1 as <-. rewrite Hside.
  apply cavl_unplug in Ha1 as [Hx Hc]. cbn [avl] in Hx. destruct Hx as (Hal & Har & _).
  assert (Hht : height (N l x b1 r) = 1 + height t).
  { cbn [height]. pose proof (height_nonneg l). pose proof (height_nonneg r).
    destruct Ht as [[-> ->]|[-> ->]]; cbn [height] in *; lia. }
  pose proof (height_nonneg t). apply (CAvl_rebalance_eq c1 _ o2 f t (-1) Hz2); try lia.
  - by destruct Ht as [[_ ->]|[_ ->]].
  - replace (height t - -1) with (1 + height t) by lia. by rewrite <- Hht.
Qed.

Lemma CAvl_verify_eq fuel o x :
  CAvl_verify_recurser comparator value fuel o (Some x) = BAVL_assert_recurser comparator value fuel o (Some x).
Proof.
  revert x. induction fuel as [|fuel IH]; intros x; cbn [CAvl_verify_recurser BAVL_assert_recurser];
    unfold BAVL_node_value; run_simpl; change CAvl_MAX with BAVL_MAX.
  all: both; both; destruct (link_of o (Some x) false) as [[y|]|]; run_simpl; try done.
  all: destruct (link_of o (Some x) true) as [[z|]|]; run_simpl; try done; rewrite ?compare_entries_eq; try done.
  all: by rewrite !IH.
Qed.
Lemma CAvl_GetFirst_eq o : CAvl_GetFirst o = BAVL_GetFirst o /\ CAvl_GetLast o = BAVL_GetLast o.
Proof.
  unfold CAvl_GetFirst, BAVL_GetFirst, CAvl_GetLast, BAVL_GetLast, CAvl_subtree_min, CAvl_subtree_max.
  destruct (root o); [|done]. rewrite bool_decide_true by done. run_simpl. by rewrite !subtree_end_walk.
Qed.
Lemma CAvl_climb_eq fuel o n side : CAvl_climb fuel o n side = BAVL_climb fuel o n side.
Proof.
  revert n. induction fuel as [|fuel IH]; intros n; cbn; destruct (parent_of o n) as [[p|]|]; run_simpl; try done;
    destruct (link_of o _ side); run_simpl; try done; by case_bool_decide.
Qed.
Lemma CAvl_GetNext_eq o x : root o <> None ->
  CAvl_GetNext o (Some x) = BAVL_GetNext o (Some x) /\ CAvl_GetPrev o (Some x) = BAVL_GetPrev o (Some x).
Proof.
  intros Hr. unfold CAvl_GetNext, CAvl_GetPrev, CAvl_step, BAVL_GetNext, BAVL_GetPrev.
  rewrite !bool_decide_true by done. run_simpl.
  split; (destruct (link_of o _ _) as [[p|]|]; run_simpl; [apply subtree_end_walk|apply CAvl_climb_eq|done]).
Qed.

(** ** The laws of the entry tree *)

Lemma SAvl_Init_ok (m : gmap positive BAVLNode) : bavl comparator value (SAvl_Init m) [].
Proof. apply BAVL_Init_ok. Qed.
Lemma SAvl_Insert_ok o l node : bavl comparator value o l -> node ∉ l -> is_Some (mem o !! node) ->
  (forall y, y ∈ l -> comparator (value node) (value y) <> 0) ->
  exists l1 l2 o' ref, l = l1 ++ l2 /\ SAvl_Insert comparator value o (Some node) = Ret (o', true, ref) /\
    bavl comparator value o' (l1 ++ node :: l2) /\ dom (mem o') = dom (mem o).
Proof.
  intros Hb Hn Hm Hne. unfold SAvl_Insert. rewrite bool_decide_true by done. run_simpl. rewrite (CAvl_Insert_eq _ _ _ Hb Hn Hm).
  destruct (BAVL_Insert_ok comparator value o l node Hb Hn Hm) as [(y & Hy & Hc & _)|(l1 & l2 & o' & ref & H1 & H2 & H3 & H4 & _)];
    [by destruct (Hne y Hy)|]. by exists l1, l2, o', ref.
Qed.
Lemma SAvl_Remove_ok o l1 x l2 : bavl comparator value o (l1 ++ x :: l2) ->
  exists o', SAvl_Remove o (Some x) = Ret o' /\ bavl comparator value o' (l1 ++ l2) /\ dom (mem o') = dom (mem o).
Proof.
  intros Hb. unfold SAvl_Remove. rewrite bool_decide_true by done. run_simpl. rewrite (CAvl_Remove_eq _ _ _ _ Hb).
  by apply BAVL_Remove_ok.
Qed.
Lemma SAvl_GetFirst_ok o l : bavl comparator value o l ->
  SAvl_GetFirst o = Ret (list.head l) /\ SAvl_GetLast o = Ret (list.last l).
Proof.
  intros Hb. unfold SAvl_GetFirst, SAvl_GetLast. destruct (CAvl_GetFirst_eq o) as [-> ->]. by apply (BAVL_GetFirst_ok comparator value).
Qed.
Lemma SAvl_IsEmpty_ok o l : bavl comparator value o l -> SAvl_IsEmpty o = bool_decide (l = []).
Proof.
  intros Hb. unfold SAvl_IsEmpty, CAvl_IsEmpty. apply bool_decide_ext. split.
  - intros Hr. destruct l as [|x l]; [done|]. destruct (bavl_root comparator value o _ x Hb) as [y Hy]; [set_solver|congruence].
  - intros ->. by apply (bavl_nil comparator value).
Qed.
Lemma SAvl_GetNext_ok o l1 x l2 : bavl comparator value o (l1 ++ x :: l2) ->
  SAvl_GetNext o (Some x) = Ret (list.head l2) /\ SAvl_GetPrev o (Some x) = Ret (list.last l1).
Proof.
  intros Hb. unfold SAvl_GetNext, SAvl_GetPrev. rewrite bool_decide_true by done. run_simpl.
  destruct (bavl_root comparator value o _ x Hb) as [y Hy]; [set_solver|].
  destruct (CAvl_GetNext_eq o x) as [-> ->]; [congruence|]. by apply (BAVL_GetNext_ok comparator value).
Qed.
Lemma SAvl_Verify_ok o l : bavl comparator value o l -> SAvl_Verify comparator value o = Ret tt.
Proof.
  intros Hb. rewrite <- (BAVL_Verify_ok comparator value o l Hb). unfold SAvl_Verify, CAvl_Verify, BAVL_Verify.
  destruct (root o); [|done]. by rewrite CAvl_verify_eq.
Qed.
End ops.
