(* ===== verification/LinkedList1.v ===== *)
(** * Doubly linked lists ([structure/LinkedList1.h])

    The nodes live in a memory from addresses to [LinkedList1Node]s, as they are
    embedded in the objects a list links; the list is its first and last
    pointers.  [linked o l]: following the links of [o] gives the addresses [l].
    Each operation is proved to do to [l] what its comment in the header says. *)
From stdpp Require Import gmap.
From S2P Require Import Prelude.

Abbreviation ptr := (option positive).

Record LinkedList1Node := MkLink { ln_p : ptr; ln_n : ptr }.
Record LinkedList1 := MkList { ll_first : ptr; ll_last : ptr; ll_mem : gmap positive LinkedList1Node }.

(** The memory of a new node, and of a node that its owner gives up. *)
Definition list_alloc (x : positive) (n : LinkedList1Node) (l : LinkedList1) : LinkedList1 :=
  MkList (ll_first l) (ll_last l) (<[x := n]> (ll_mem l)).
Definition list_free (x : positive) (l : LinkedList1) : LinkedList1 :=
  MkList (ll_first l) (ll_last l) (delete x (ll_mem l)).

Definition ll_load (o : LinkedList1) (a : ptr) : run LinkedList1Node :=
  x ← deref a; match ll_mem o !! x with Some n => Ret n | None => Fail OutOfBounds end.
Definition ll_store (o : LinkedList1) (a : ptr) (f : LinkedList1Node -> LinkedList1Node) : run LinkedList1 :=
  x ← deref a;
  match ll_mem o !! x with
  | Some n => Ret (MkList (ll_first o) (ll_last o) (<[x := f n]> (ll_mem o)))
  | None => Fail OutOfBounds
  end.
Definition prev_of (o : LinkedList1) (a : ptr) : run ptr := n ← ll_load o a; Ret (ln_p n).
Definition next_of (o : LinkedList1) (a : ptr) : run ptr := n ← ll_load o a; Ret (ln_n n).
Definition set_p (o : LinkedList1) (a q : ptr) : run LinkedList1 := ll_store o a (fun n => MkLink q (ln_n n)).
Definition set_n (o : LinkedList1) (a q : ptr) : run LinkedList1 := ll_store o a (fun n => MkLink (ln_p n) q).
Definition set_first (o : LinkedList1) (q : ptr) : LinkedList1 := MkList q (ll_last o) (ll_mem o).
Definition set_last (o : LinkedList1) (q : ptr) : LinkedList1 := MkList (ll_first o) q (ll_mem o).

(** [if (a) { a->n = q; } else { list->first = q; }] and its mirror image. *)
Definition set_n_or_first (o : LinkedList1) (a q : ptr) : run LinkedList1 :=
  match a with Some _ => set_n o a q | None => Ret (set_first o q) end.
Definition set_p_or_last (o : LinkedList1) (a q : ptr) : run LinkedList1 :=
  match a with Some _ => set_p o a q | None => Ret (set_last o q) end.

Definition LinkedList1_Init (m : gmap positive LinkedList1Node) : LinkedList1 := MkList None None m.
Definition LinkedList1_IsEmpty (o : LinkedList1) : bool := bool_decide (ll_first o = None).
Definition LinkedList1_GetFirst (o : LinkedList1) : ptr := ll_first o.
Definition LinkedList1_GetLast (o : LinkedList1) : ptr := ll_last o.

Definition LinkedList1_Prepend (o : LinkedList1) (node : ptr) : run LinkedList1 :=
  o ← set_p o node None;
  o ← set_n o node (ll_first o);
  o ← set_p_or_last o (ll_first o) node;
  Ret (set_first o node).
Definition LinkedList1_Append (o : LinkedList1) (node : ptr) : run LinkedList1 :=
  o ← set_p o node (ll_last o);
  o ← set_n o node None;
  o ← set_n_or_first o (ll_last o) node;
  Ret (set_last o node).
Definition LinkedList1_InsertBefore (o : LinkedList1) (node target : ptr) : run LinkedList1 :=
  tp ← prev_of o target; o ← set_p o node tp;
  o ← set_n o node target;
  tp ← prev_of o target; o ← set_n_or_first o tp node;
  set_p o target node.
Definition LinkedList1_InsertAfter (o : LinkedList1) (node target : ptr) : run LinkedList1 :=
  o ← set_p o node target;
  tn ← next_of o target; o ← set_n o node tn;
  tn ← next_of o target; o ← set_p_or_last o tn node;
  set_n o target node.
Definition LinkedList1_Remove (o : LinkedList1) (node : ptr) : run LinkedList1 :=
  p ← prev_of o node; n ← next_of o node;
  o ← set_n_or_first o p n;
  n ← next_of o node; p ← prev_of o node;
  set_p_or_last o n p.
(** The inserted list is passed by value: its two pointers. *)
Definition LinkedList1_InsertListAfter (o : LinkedList1) (ins_first ins_last target : ptr) : run LinkedList1 :=
  match ins_first with
  | None => Ret o
  | Some _ =>
      t_next ← (match target with Some _ => next_of o target | None => Ret (ll_first o) end);
      o ← set_p o ins_first target;
      o ← set_n o ins_last t_next;
      o ← set_n_or_first o target ins_first;
      set_p_or_last o t_next ins_last
  end.
Definition LinkedList1Node_Next (o : LinkedList1) (node : ptr) : run ptr := next_of o node.
Definition LinkedList1Node_Prev (o : LinkedList1) (node : ptr) : run ptr := prev_of o node.

(** ** Segments of a list in memory *)

Definition hd_or (l : list positive) (q : ptr) : ptr := match l with [] => q | x :: _ => Some x end.
Definition last_or (p : ptr) (l : list positive) : ptr := match list.last l with Some x => Some x | None => p end.

(** The nodes [l] in memory, with [p] before and [q] after them. *)
Fixpoint segment (m : gmap positive LinkedList1Node) (p : ptr) (l : list positive) (q : ptr) : Prop :=
  match l with
  | [] => True
  | x :: l => m !! x = Some (MkLink p (hd_or l q)) /\ segment m (Some x) l q
  end.

Definition linked (o : LinkedList1) (l : list positive) : Prop :=
  NoDup l /\ ll_first o = hd_or l None /\ ll_last o = last_or None l /\ segment (ll_mem o) None l None.

Lemma last_or_cons p x l : last_or p (x :: l) = last_or (Some x) l.
Proof. unfold last_or. rewrite list.last_cons. by destruct (list.last l). Qed.
Lemma last_or_snoc p l x : last_or p (l ++ [x]) = Some x.
Proof. unfold last_or. by rewrite list.last_snoc. Qed.
Lemma last_or_app p l1 l2 : last_or p (l1 ++ l2) = last_or (last_or p l1) l2.
Proof. unfold last_or. rewrite list.last_app. by destruct (list.last l2), (list.last l1). Qed.
Lemma hd_or_app l1 l2 q : hd_or (l1 ++ l2) q = hd_or l1 (hd_or l2 q).
Proof. by destruct l1. Qed.

Lemma segment_app m p l1 l2 q :
  segment m p (l1 ++ l2) q <-> segment m p l1 (hd_or l2 q) /\ segment m (last_or p l1) l2 q.
Proof.
  revert p. induction l1 as [|x l1 IH]; intros p; cbn [app segment]; [by intuition|].
  rewrite IH, last_or_cons, hd_or_app. tauto.
Qed.
Lemma segment_agree m m' p l q : (forall x, x ∈ l -> m' !! x = m !! x) -> segment m p l q -> segment m' p l q.
Proof.
  revert p. induction l as [|x l IH]; intros p Ha; cbn [segment]; [done|]. intros [Hx Hl].
  split; [rewrite Ha by set_solver; done|]. apply IH; [|done]. intros y Hy. apply Ha. set_solver.
Qed.
Lemma segment_insert m p l q x n : x ∉ l -> segment m p l q -> segment (<[x := n]> m) p l q.
Proof. intros Hx. apply segment_agree. intros y Hy. rewrite lookup_insert_ne; [done|]. by intros ->. Qed.

(** The link after a segment is its last node's; the link before it its first node's. *)
Lemma segment_set_n m p l y q q' : segment m p (l ++ [y]) q -> NoDup (l ++ [y]) ->
  segment (<[y := MkLink (last_or p l) q']> m) p (l ++ [y]) q'.
Proof.
  rewrite !segment_app. cbn [segment hd_or]. rewrite list.NoDup_app. intros [Hl _] (_ & Hd & _).
  rewrite lookup_insert_eq. split; [|done]. apply segment_insert; [|done].
  intros Hy. apply (Hd y Hy). set_solver.
Qed.
Lemma segment_set_p m p p' y l q : segment m p (y :: l) q -> NoDup (y :: l) ->
  segment (<[y := MkLink p' (hd_or l q)]> m) p' (y :: l) q.
Proof.
  cbn [segment]. rewrite list.NoDup_cons. intros [_ Hl] [Hy _]. rewrite lookup_insert_eq.
  split; [done|]. by apply segment_insert.
Qed.

(** Memory that holds no node of the list may change. *)
Lemma linked_mem (ll : LinkedList1) m l : (forall x, x ∈ l -> m !! x = ll_mem ll !! x) -> linked ll l ->
  linked (MkList (ll_first ll) (ll_last ll) m) l.
Proof. intros Ha (Hnd & Hf & Hl & Hs). split; [done|]. do 2 (split; [done|]). by eapply segment_agree. Qed.
Lemma linked_alloc ll l x n : x ∉ l -> linked ll l -> linked (list_alloc x n ll) l.
Proof. intros Hx. apply linked_mem. intros y Hy. apply lookup_insert_ne. by intros ->. Qed.
Lemma linked_free ll l x : x ∉ l -> linked ll l -> linked (list_free x ll) l.
Proof. intros Hx. apply linked_mem. intros y Hy. apply lookup_delete_ne. by intros ->. Qed.

(** ** The two halves of a list, cut at a place *)

Definition front (o : LinkedList1) (l : list positive) (q : ptr) : Prop :=
  ll_first o = hd_or l q /\ segment (ll_mem o) None l q.
Definition back (o : LinkedList1) (p : ptr) (l : list positive) : Prop :=
  ll_last o = last_or p l /\ segment (ll_mem o) p l None.

Lemma linked_cut o l1 l2 : linked o (l1 ++ l2) <->
  NoDup (l1 ++ l2) /\ front o l1 (hd_or l2 None) /\ back o (last_or None l1) l2.
Proof. unfold linked, front, back. rewrite segment_app, hd_or_app, last_or_app. tauto. Qed.

(** [o'] is [o] with changes to nodes of [l] only. *)
Definition changes (l : list positive) (o o' : LinkedList1) : Prop :=
  dom (ll_mem o') = dom (ll_mem o) /\ forall x, x ∉ l -> ll_mem o' !! x = ll_mem o !! x.

Lemma changes_refl l o : changes l o o.
Proof. done. Qed.
Lemma changes_trans l1 l2 l o o1 o2 : changes l1 o o1 -> changes l2 o1 o2 -> l1 ⊆ l -> l2 ⊆ l -> changes l o o2.
Proof.
  intros [Hd1 H1] [Hd2 H2] Hs1 Hs2. split; [congruence|]. intros x Hx.
  rewrite H2, H1; [done| |]; intros Hin; apply Hx; auto.
Qed.
Lemma front_agree o o' l q : ll_first o' = ll_first o -> (forall x, x ∈ l -> ll_mem o' !! x = ll_mem o !! x) ->
  front o l q -> front o' l q.
Proof. intros Hf Ha [Hh Hs]. split; [congruence|]. by eapply segment_agree. Qed.
Lemma back_agree o o' p l : ll_last o' = ll_last o -> (forall x, x ∈ l -> ll_mem o' !! x = ll_mem o !! x) ->
  back o p l -> back o' p l.
Proof. intros Hf Ha [Hh Hs]. split; [congruence|]. by eapply segment_agree. Qed.

Lemma ll_store_ok o x f : is_Some (ll_mem o !! x) -> exists o' n,
  ll_store o (Some x) f = Ret o' /\ ll_mem o !! x = Some n /\ ll_mem o' = <[x := f n]> (ll_mem o) /\
  ll_first o' = ll_first o /\ ll_last o' = ll_last o /\ changes [x] o o'.
Proof.
  intros [n Hn]. unfold ll_store. run_simpl. rewrite Hn. eexists _, n. repeat (split; [done|]).
  split; cbn [ll_mem].
  - rewrite dom_insert_L. apply elem_of_dom_2 in Hn. set_solver.
  - intros y Hy. rewrite lookup_insert_ne; [done|]. intros ->. apply Hy. set_solver.
Qed.

(** Writing a new node that is not linked yet. *)
Lemma write_node_ok o x p q : is_Some (ll_mem o !! x) -> exists o1 o',
  set_p o (Some x) p = Ret o1 /\ ll_first o1 = ll_first o /\ ll_last o1 = ll_last o /\ changes [x] o o1 /\
  set_n o1 (Some x) q = Ret o' /\ ll_mem o' !! x = Some (MkLink p q) /\
  ll_first o' = ll_first o /\ ll_last o' = ll_last o /\ changes [x] o o'.
Proof.
  intros Hx. unfold set_p, set_n.
  destruct (ll_store_ok o x (fun n => MkLink p (ln_n n)) Hx) as (o1 & n & -> & _ & Hm & Hf & Hl & Hc).
  destruct (ll_store_ok o1 x (fun n => MkLink (ln_p n) q)) as (o2 & n2 & He2 & Hn2 & Hm2 & Hf2 & Hl2 & Hc2).
  { rewrite Hm, lookup_insert_eq. by eexists. }
  exists o1, o2. rewrite Hm, lookup_insert_eq in Hn2. injection Hn2 as <-.
  rewrite Hm2, lookup_insert_eq. repeat (split; [done|]). split; [congruence|]. split; [congruence|].
  by eapply changes_trans.
Qed.

Lemma set_n_or_first_ok o l q q' : front o l q -> NoDup l -> exists o',
  set_n_or_first o (last_or None l) q' = Ret o' /\ front o' l q' /\ ll_last o' = ll_last o /\ changes l o o'.
Proof.
  intros [Hf Hs] Hnd. destruct l as [|y l _] using rev_ind.
  { exists (set_first o q'). done. }
  rewrite last_or_snoc. cbn [set_n_or_first]. unfold set_n.
  pose proof Hs as [_ [Hy _]]%segment_app.
  destruct (ll_store_ok o y (fun n => MkLink (ln_p n) q')) as (o1 & n & -> & Hn & Hm & Hf1 & Hl1 & Hc); [by eexists|].
  exists o1. split; [done|]. rewrite Hn in Hy. injection Hy as ->. cbn [ln_p] in Hm. split; [|split; [done|]].
  - split; [rewrite Hf1, Hf; by destruct l|]. rewrite Hm. by eapply segment_set_n.
  - eapply changes_trans; [apply changes_refl|exact Hc|set_solver|set_solver].
Qed.
Lemma set_p_or_last_ok o p p' l : back o p l -> NoDup l -> exists o',
  set_p_or_last o (hd_or l None) p' = Ret o' /\ back o' p' l /\ ll_first o' = ll_first o /\ changes l o o'.
Proof.
  intros [Hl Hs] Hnd. destruct l as [|y l].
  { exists (set_last o p'). done. }
  cbn [hd_or set_p_or_last]. unfold set_p. pose proof Hs as [Hy _].
  destruct (ll_store_ok o y (fun n => MkLink p' (ln_n n))) as (o1 & n & -> & Hn & Hm & Hf1 & Hl1 & Hc); [by eexists|].
  exists o1. split; [done|]. rewrite Hn in Hy. injection Hy as ->. cbn [ln_n] in Hm. split; [|split; [done|]].
  - split; [rewrite Hl1, Hl, !last_or_cons; done|]. rewrite Hm. by eapply segment_set_p.
  - eapply changes_trans; [apply changes_refl|exact Hc|set_solver|set_solver].
Qed.
Lemma prev_of_ok o x p n : ll_mem o !! x = Some (MkLink p n) -> prev_of o (Some x) = Ret p.
Proof. intros Hx. unfold prev_of, ll_load. run_simpl. by rewrite Hx. Qed.
Lemma next_of_ok o x p n : ll_mem o !! x = Some (MkLink p n) -> next_of o (Some x) = Ret n.
Proof. intros Hx. unfold next_of, ll_load. run_simpl. by rewrite Hx. Qed.

Lemma linked_around o l1 x l2 : linked o (l1 ++ x :: l2) <->
  NoDup (l1 ++ x :: l2) /\ front o l1 (Some x) /\ back o (Some x) l2 /\
  ll_mem o !! x = Some (MkLink (last_or None l1) (hd_or l2 None)).
Proof. rewrite linked_cut. unfold back. cbn [hd_or segment]. rewrite last_or_cons. tauto. Qed.
Lemma nodup_insert (l1 : list positive) x l2 : NoDup (l1 ++ l2) -> x ∉ l1 ++ l2 -> NoDup (l1 ++ x :: l2).
Proof.
  rewrite !list.NoDup_app, list.NoDup_cons, not_elem_of_app. intros (H1 & Hd & H2) [Hx1 Hx2].
  split; [done|]. split; [|done]. intros y Hy. rewrite not_elem_of_cons. split; [by intros ->|by apply Hd].
Qed.
Lemma nodup_sides (l1 l2 : list positive) : NoDup (l1 ++ l2) -> NoDup l1 /\ NoDup l2 /\ (forall x, x ∈ l1 -> x ∉ l2) /\ (forall x, x ∈ l2 -> x ∉ l1).
Proof.
  rewrite list.NoDup_app. intros (H1 & Hd & H2). split; [done|]. split; [done|]. split; [done|].
  intros x Hx Hx'. by apply (Hd x Hx').
Qed.

(** Closing the gap around a node that is written: the last two steps of each insertion. *)
Lemma link_both o l1 x l2 : NoDup (l1 ++ l2) -> x ∉ l1 ++ l2 ->
  front o l1 (Some x) -> back o (Some x) l2 -> ll_mem o !! x = Some (MkLink (last_or None l1) (hd_or l2 None)) ->
  linked o (l1 ++ x :: l2).
Proof. intros Hnd Hx Hf Hb Hm. apply linked_around. split; [by apply nodup_insert|done]. Qed.

Section insertion.
Context (o : LinkedList1) (l1 l2 : list positive) (x : positive).
Context (Hx : x ∉ l1 ++ l2) (Hl : linked o (l1 ++ l2)).

(** A new node with the links it needs, the list as before. *)
Lemma new_node_ok : is_Some (ll_mem o !! x) -> exists o1 o',
  set_p o (Some x) (last_or None l1) = Ret o1 /\ linked o1 (l1 ++ l2) /\ changes [x] o o1 /\
  set_n o1 (Some x) (hd_or l2 None) = Ret o' /\ linked o' (l1 ++ l2) /\ changes [x] o o' /\
  ll_mem o' !! x = Some (MkLink (last_or None l1) (hd_or l2 None)).
Proof.
  intros Hal. destruct (write_node_ok o x (last_or None l1) (hd_or l2 None) Hal)
    as (o1 & o' & He1 & Hf1 & Hl1 & Hc1 & He & Hm & Hf & Hla & Hc).
  assert (Hk : forall o2, ll_first o2 = ll_first o -> ll_last o2 = ll_last o -> changes [x] o o2 -> linked o2 (l1 ++ l2)).
  { intros o2 Hf2 Hl2 Hc2. destruct Hl as (Hnd & Hf0 & Hl0 & Hs).
    split; [done|]. split; [congruence|]. split; [congruence|].
    eapply segment_agree; [|exact Hs]. intros y Hy. apply Hc2. intros ->%list_elem_of_singleton. done. }
  exists o1, o'. repeat (split; [by auto|]). done.
Qed.

(** Forward link first, then backward link. *)
Lemma link_n_then_p : ll_mem o !! x = Some (MkLink (last_or None l1) (hd_or l2 None)) ->
  exists o1 o', set_n_or_first o (last_or None l1) (Some x) = Ret o1 /\ changes l1 o o1 /\ ll_last o1 = ll_last o /\
    ll_first o1 = hd_or l1 (Some x) /\
    set_p_or_last o1 (hd_or l2 None) (Some x) = Ret o' /\ linked o' (l1 ++ x :: l2) /\ changes (l1 ++ l2) o o'.
Proof.
  intros Hm. pose proof Hl as (Hnd & Hf & Hb)%linked_cut. apply nodup_sides in Hnd as Hs. destruct Hs as (H1 & H2 & H12 & H21).
  apply not_elem_of_app in Hx as [Hx1 Hx2].
  destruct (set_n_or_first_ok o l1 _ (Some x) Hf H1) as (o1 & -> & Hf1 & Hl1 & Hc1).
  assert (Hb1 : back o1 (last_or None l1) l2) by (eapply back_agree; [exact Hl1|intros y Hy; apply Hc1; auto|done]).
  destruct (set_p_or_last_ok o1 _ (Some x) l2 Hb1 H2) as (o2 & He & Hb2 & Hf2 & Hc2).
  exists o1, o2. split; [done|]. split; [done|]. split; [done|]. split; [by destruct Hf1|]. split; [done|]. split.
  - apply link_both; [done|set_solver|eapply front_agree; [exact Hf2|intros y Hy; apply Hc2; auto|done]|done|].
    destruct Hc1 as [_ Hc1], Hc2 as [_ Hc2]. by rewrite Hc2, Hc1.
  - eapply changes_trans; [exact Hc1|exact Hc2|set_solver|set_solver].
Qed.
(** Backward link first. *)
Lemma link_p_then_n : ll_mem o !! x = Some (MkLink (last_or None l1) (hd_or l2 None)) ->
  exists o1 o', set_p_or_last o (hd_or l2 None) (Some x) = Ret o1 /\ changes l2 o o1 /\ ll_first o1 = ll_first o /\
    ll_last o1 = last_or (Some x) l2 /\
    set_n_or_first o1 (last_or None l1) (Some x) = Ret o' /\ linked o' (l1 ++ x :: l2) /\ changes (l1 ++ l2) o o'.
Proof.
  intros Hm. pose proof Hl as (Hnd & Hf & Hb)%linked_cut. apply nodup_sides in Hnd as Hs. destruct Hs as (H1 & H2 & H12 & H21).
  apply not_elem_of_app in Hx as [Hx1 Hx2].
  destruct (set_p_or_last_ok o _ (Some x) l2 Hb H2) as (o1 & -> & Hb1 & Hf1 & Hc1).
  assert (Hf0 : front o1 l1 (hd_or l2 None)) by (eapply front_agree; [exact Hf1|intros y Hy; apply Hc1; auto|done]).
  destruct (set_n_or_first_ok o1 l1 _ (Some x) Hf0 H1) as (o2 & He & Hf2 & Hl2 & Hc2).
  exists o1, o2. split; [done|]. split; [done|]. split; [done|]. split; [by destruct Hb1|]. split; [done|]. split.
  - apply link_both; [done|set_solver|done|eapply back_agree; [exact Hl2|intros y Hy; apply Hc2; auto|done]|].
    destruct Hc1 as [_ Hc1], Hc2 as [_ Hc2]. by rewrite Hc2, Hc1.
  - eapply changes_trans; [exact Hc1|exact Hc2|set_solver|set_solver].
Qed.
End insertion.

(** ** The operations *)

Section operations.
Implicit Types (o : LinkedList1) (l : list positive).

Lemma LinkedList1_Init_ok m : linked (LinkedList1_Init m) [].
Proof. by split; [apply list.NoDup_nil|]. Qed.
Lemma LinkedList1_ends_ok o l : linked o l -> LinkedList1_GetFirst o = list.head l /\ LinkedList1_GetLast o = list.last l /\
  LinkedList1_IsEmpty o = bool_decide (l = []).
Proof.
  intros (_ & Hf & Hl & _). unfold LinkedList1_GetFirst, LinkedList1_GetLast, LinkedList1_IsEmpty.
  rewrite Hf, Hl. unfold last_or. split; [by destruct l|]. split; [by destruct (list.last l)|].
  apply bool_decide_ext. by destruct l.
Qed.
Lemma LinkedList1_Next_ok o l1 x l2 : linked o (l1 ++ x :: l2) ->
  LinkedList1Node_Next o (Some x) = Ret (list.head l2) /\ LinkedList1Node_Prev o (Some x) = Ret (list.last l1).
Proof.
  intros (_ & _ & _ & Hm)%linked_around. unfold LinkedList1Node_Next, LinkedList1Node_Prev.
  rewrite (next_of_ok _ _ _ _ Hm), (prev_of_ok _ _ _ _ Hm). unfold last_or. by destruct l2, (list.last l1).
Qed.

Lemma LinkedList1_Prepend_ok o l x : linked o l -> x ∉ l -> is_Some (ll_mem o !! x) -> exists o',
  LinkedList1_Prepend o (Some x) = Ret o' /\ linked o' (x :: l) /\ changes (x :: l) o o'.
Proof.
  intros Hl Hx Hal. destruct (new_node_ok o [] l x Hx Hl Hal) as (o1 & o2 & E1 & Hl1 & _ & E2 & Hl2 & Hc2 & Hm).
  unfold LinkedList1_Prepend. change (last_or None []) with (@None positive) in *.
  change ([] ++ l) with l in *. rewrite E1. run_simpl. destruct Hl1 as (_ & -> & _). rewrite E2. run_simpl.
  destruct (link_p_then_n o2 [] l x Hx Hl2 Hm) as (o3 & o' & E3 & _ & _ & _ & E4 & Hl' & Hc').
  destruct Hl2 as (_ & -> & _). rewrite E3. run_simpl. exists o'.
  split; [exact E4|]. split; [done|]. eapply changes_trans; [exact Hc2|exact Hc'|set_solver|set_solver].
Qed.
Lemma LinkedList1_Append_ok o l x : linked o l -> x ∉ l -> is_Some (ll_mem o !! x) -> exists o',
  LinkedList1_Append o (Some x) = Ret o' /\ linked o' (l ++ [x]) /\ changes (x :: l) o o'.
Proof.
  intros Hl Hx Hal. rewrite <- (app_nil_r l) in Hl, Hx.
  destruct (new_node_ok o l [] x Hx Hl Hal) as (o1 & o2 & E1 & Hl1 & _ & E2 & Hl2 & Hc2 & Hm).
  unfold LinkedList1_Append. change (hd_or [] None) with (@None positive) in *.
  destruct Hl as (_ & _ & -> & _). rewrite app_nil_r, E1. run_simpl. rewrite E2. run_simpl.
  destruct (link_n_then_p o2 l [] x Hx Hl2 Hm) as (o3 & o' & E3 & _ & _ & _ & E4 & Hl' & Hc').
  destruct Hl2 as (_ & _ & -> & _). rewrite app_nil_r, E3. run_simpl. exists o'.
  split; [exact E4|]. split; [done|]. rewrite app_nil_r in Hc'. eapply changes_trans; [exact Hc2|exact Hc'|set_solver|set_solver].
Qed.

Lemma LinkedList1_InsertBefore_ok o l1 x y l2 : linked o (l1 ++ y :: l2) -> x ∉ l1 ++ y :: l2 -> is_Some (ll_mem o !! x) ->
  exists o', LinkedList1_InsertBefore o (Some x) (Some y) = Ret o' /\ linked o' (l1 ++ x :: y :: l2) /\
    changes (x :: l1 ++ y :: l2) o o'.
Proof.
  intros Hl Hx Hal. destruct (new_node_ok o l1 (y :: l2) x Hx Hl Hal) as (o1 & o2 & E1 & Hl1 & _ & E2 & Hl2 & Hc2 & Hm).
  unfold LinkedList1_InsertBefore. pose proof Hl as (_ & _ & _ & Hy)%linked_around. rewrite (prev_of_ok _ _ _ _ Hy).
  run_simpl. rewrite E1. run_simpl. cbn [hd_or] in *. rewrite E2. run_simpl.
  pose proof Hl2 as (_ & _ & _ & Hy2)%linked_around. rewrite (prev_of_ok _ _ _ _ Hy2). run_simpl.
  destruct (link_n_then_p o2 l1 (y :: l2) x Hx Hl2 Hm) as (o3 & o' & E3 & _ & _ & _ & E4 & Hl' & Hc').
  rewrite E3. run_simpl. exists o'. split; [exact E4|]. split; [done|].
  eapply changes_trans; [exact Hc2|exact Hc'|set_solver|set_solver].
Qed.
Lemma LinkedList1_InsertAfter_ok o l1 x y l2 : linked o (l1 ++ y :: l2) -> x ∉ l1 ++ y :: l2 -> is_Some (ll_mem o !! x) ->
  exists o', LinkedList1_InsertAfter o (Some x) (Some y) = Ret o' /\ linked o' (l1 ++ y :: x :: l2) /\
    changes (x :: l1 ++ y :: l2) o o'.
Proof.
  intros Hl Hx Hal. unfold LinkedList1_InsertAfter. rewrite (cons_middle y l1 l2), (cons_middle y l1 (x :: l2)), !app_assoc in *.
  destruct (new_node_ok o (l1 ++ [y]) l2 x Hx Hl Hal) as (o1 & o2 & E1 & Hl1 & _ & E2 & Hl2 & Hc2 & Hm).
  rewrite last_or_snoc in *. rewrite E1. run_simpl.
  assert (Hnext : forall o0, linked o0 ((l1 ++ [y]) ++ l2) -> next_of o0 (Some y) = Ret (hd_or l2 None)).
  { intros o0. rewrite <- app_assoc. intros (_ & _ & _ & Hy)%linked_around. by rewrite (next_of_ok _ _ _ _ Hy). }
  rewrite Hnext by done. run_simpl. rewrite E2. run_simpl. rewrite Hnext by done. run_simpl.
  rewrite <- (last_or_snoc None l1 y) in Hm.
  destruct (link_p_then_n o2 (l1 ++ [y]) l2 x Hx Hl2 Hm) as (o3 & o' & E3 & _ & _ & _ & E4 & Hl' & Hc').
  rewrite E3. run_simpl. rewrite last_or_snoc in E4. exists o'. split; [exact E4|]. split; [done|].
  eapply changes_trans; [exact Hc2|exact Hc'|set_solver|set_solver].
Qed.
Lemma LinkedList1_Remove_ok o l1 x l2 : linked o (l1 ++ x :: l2) -> exists o',
  LinkedList1_Remove o (Some x) = Ret o' /\ linked o' (l1 ++ l2) /\ changes (l1 ++ l2) o o'.
Proof.
  intros (Hnd & Hf & Hb & Hm)%linked_around. unfold LinkedList1_Remove.
  rewrite (prev_of_ok _ _ _ _ Hm), (next_of_ok _ _ _ _ Hm). run_simpl.
  pose proof Hnd as (H1 & [Hx2 H2]%list.NoDup_cons & H12 & H21)%nodup_sides.
  destruct (set_n_or_first_ok o l1 _ (hd_or l2 None) Hf H1) as (o1 & -> & Hf1 & Hl1 & Hc1). run_simpl.
  assert (Hm1 : ll_mem o1 !! x = ll_mem o !! x) by (apply Hc1; apply H21; set_solver).
  rewrite Hm in Hm1. rewrite (next_of_ok _ _ _ _ Hm1), (prev_of_ok _ _ _ _ Hm1). run_simpl.
  assert (Hb1 : back o1 (Some x) l2).
  { eapply back_agree; [exact Hl1| |exact Hb]. intros y Hy. apply Hc1, H21. set_solver. }
  destruct (set_p_or_last_ok o1 _ (last_or None l1) l2 Hb1 H2) as (o' & -> & Hb' & Hf' & Hc').
  exists o'. split; [done|]. split; [|eapply changes_trans; [exact Hc1|exact Hc'|set_solver|set_solver]].
  apply linked_cut. split.
  - rewrite list.NoDup_app. split; [done|]. split; [|done]. intros y Hy Hy2. apply (H12 y Hy). set_solver.
  - split; [|done]. eapply front_agree; [exact Hf'| |exact Hf1]. intros y Hy. apply Hc'. intros Hy2.
    apply (H12 y Hy). set_solver.
Qed.
Lemma LinkedList1_move_to_end o l1 x l2 : linked o (l1 ++ x :: l2) -> exists o',
  (o1 ← LinkedList1_Remove o (Some x); LinkedList1_Append o1 (Some x)) = Ret o' /\ linked o' (l1 ++ l2 ++ [x]) /\
  changes (l1 ++ x :: l2) o o'.
Proof.
  intros Hl. destruct (LinkedList1_Remove_ok o l1 x l2 Hl) as (o1 & -> & Hl1 & Hc1). run_simpl.
  pose proof Hl as (Hnd & _ & _ & Hm)%linked_around.
  assert (Hx : x ∉ l1 ++ l2).
  { apply list.NoDup_app in Hnd as (_ & Hd & [Hx _]%list.NoDup_cons). rewrite not_elem_of_app. split; [|done].
    intros Hx1. apply (Hd x Hx1). set_solver. }
  destruct (LinkedList1_Append_ok o1 (l1 ++ l2) x Hl1 Hx) as (o' & -> & Hl' & Hc').
  { destruct Hc1 as [_ Hc1]. rewrite Hc1, Hm by done. by eexists. }
  exists o'. rewrite <- app_assoc in Hl'. split; [done|]. split; [done|].
  eapply changes_trans; [exact Hc1|exact Hc'|set_solver|set_solver].
Qed.
End operations.
