(* ===== verification/PacketPassInterface.v ===== *)
(** * The packet interface of the flow components ([flow/PacketPassInterface.h], [.c])

    A sender hands a packet to a provider, which handles one at a time and
    reports when it is done.  Each call only sets a job; the jobs are run later
    by the event loop ([base/BPending.c]), which unsets a job before it calls its
    handler.  The handler functions are not values here: an interface says which
    of them are set, and a job that calls one gives what it is called with. *)
From S2P Require Import Prelude.

Inductive ppi_state : Type :=
  | PPI_STATE_NONE
  | PPI_STATE_OPERATION_PENDING
  | PPI_STATE_BUSY
  | PPI_STATE_DONE_PENDING.
#[export] Instance ppi_state_eq_dec : EqDecision ppi_state.
Proof. solve_decision. Defined.

(** [i_cancel], [i_user]: whether [handler_requestcancel] and [handler_done] are set. *)
Record PacketPassInterface := PPI {
  i_mtu : Z;
  i_cancel : bool;
  i_user : bool;
  job_operation : bool;
  job_operation_data : bytes;
  job_requestcancel : bool;
  job_done : bool;
  i_state : ppi_state;
  cancel_requested : bool }.

Definition PacketPassInterface_Init (mtu : Z) : run PacketPassInterface :=
  _ ← check (0 <=? mtu);
  Ret (PPI mtu false false false [] false false PPI_STATE_NONE false).

Definition PacketPassInterface_EnableCancel (i : PacketPassInterface) : run PacketPassInterface :=
  _ ← check (negb (i_cancel i)); _ ← check (negb (i_user i));
  Ret (PPI (i_mtu i) true (i_user i) (job_operation i) (job_operation_data i) (job_requestcancel i) (job_done i)
         (i_state i) (cancel_requested i)).

Definition PacketPassInterface_Done (i : PacketPassInterface) : run PacketPassInterface :=
  _ ← check (bool_decide (i_state i = PPI_STATE_BUSY));
  Ret (PPI (i_mtu i) (i_cancel i) (i_user i) (job_operation i) (job_operation_data i) false true
         PPI_STATE_DONE_PENDING (cancel_requested i)).

Definition PacketPassInterface_GetMTU (i : PacketPassInterface) : Z := i_mtu i.
Definition PacketPassInterface_HasCancel (i : PacketPassInterface) : bool := i_cancel i.

Definition PacketPassInterface_Sender_Init (i : PacketPassInterface) : run PacketPassInterface :=
  _ ← check (negb (i_user i));
  Ret (PPI (i_mtu i) (i_cancel i) true (job_operation i) (job_operation_data i) (job_requestcancel i) (job_done i)
         (i_state i) (cancel_requested i)).

(** The packet is the bytes at [data], [data_len] of them. *)
Definition PacketPassInterface_Sender_Send (i : PacketPassInterface) (data : bytes) : run PacketPassInterface :=
  _ ← check (len data <=? i_mtu i);
  _ ← check (bool_decide (i_state i = PPI_STATE_NONE));
  _ ← check (i_user i);
  Ret (PPI (i_mtu i) (i_cancel i) (i_user i) true data (job_requestcancel i) (job_done i)
         PPI_STATE_OPERATION_PENDING false).

Definition PacketPassInterface_Sender_RequestCancel (i : PacketPassInterface) : run PacketPassInterface :=
  _ ← check (negb (bool_decide (i_state i = PPI_STATE_NONE)));
  _ ← check (i_cancel i);
  if cancel_requested i then Ret i else
  match i_state i with
  | PPI_STATE_OPERATION_PENDING =>
      Ret (PPI (i_mtu i) (i_cancel i) (i_user i) false (job_operation_data i) (job_requestcancel i) true
             PPI_STATE_DONE_PENDING true)
  | PPI_STATE_BUSY =>
      Ret (PPI (i_mtu i) (i_cancel i) (i_user i) (job_operation i) (job_operation_data i) true (job_done i)
             PPI_STATE_BUSY true)
  | _ =>
      Ret (PPI (i_mtu i) (i_cancel i) (i_user i) (job_operation i) (job_operation_data i) (job_requestcancel i)
             (job_done i) (i_state i) true)
  end.

(** The three jobs, unset when they run.  [_job_operation] calls
    [handler_operation] with the packet, the others [handler_requestcancel] and
    [handler_done]. *)
Definition PacketPassInterface_job_operation (i : PacketPassInterface) : run (PacketPassInterface * bytes) :=
  _ ← check (bool_decide (i_state i = PPI_STATE_OPERATION_PENDING));
  Ret (PPI (i_mtu i) (i_cancel i) (i_user i) false (job_operation_data i) (job_requestcancel i) (job_done i)
         PPI_STATE_BUSY (cancel_requested i), job_operation_data i).
Definition PacketPassInterface_job_requestcancel (i : PacketPassInterface) : run PacketPassInterface :=
  _ ← check (bool_decide (i_state i = PPI_STATE_BUSY));
  _ ← check (cancel_requested i); _ ← check (i_cancel i);
  Ret (PPI (i_mtu i) (i_cancel i) (i_user i) (job_operation i) (job_operation_data i) false (job_done i)
         (i_state i) (cancel_requested i)).
Definition PacketPassInterface_job_done (i : PacketPassInterface) : run PacketPassInterface :=
  _ ← check (bool_decide (i_state i = PPI_STATE_DONE_PENDING));
  Ret (PPI (i_mtu i) (i_cancel i) (i_user i) (job_operation i) (job_operation_data i) (job_requestcancel i) false
         PPI_STATE_NONE (cancel_requested i)).

(** ** The protocol

    The state says which jobs are set: the operation job while an operation is
    pending, the done job after it, a cancellation only of a packet in hand. *)
Record ppi_ok (i : PacketPassInterface) : Prop := {
  pi_mtu : 0 <= i_mtu i;
  pi_op : job_operation i = bool_decide (i_state i = PPI_STATE_OPERATION_PENDING);
  pi_done : job_done i = bool_decide (i_state i = PPI_STATE_DONE_PENDING);
  pi_cancel : job_requestcancel i = true ->
    i_state i = PPI_STATE_BUSY /\ cancel_requested i = true /\ i_cancel i = true;
  pi_user : i_state i <> PPI_STATE_NONE -> i_user i = true;
  pi_data : len (job_operation_data i) <= i_mtu i }.

(** [ppi_moves i s i']: [i] is in state [s] now, with the same handlers. *)
Definition ppi_moves (i : PacketPassInterface) (s : ppi_state) (i' : PacketPassInterface) : Prop :=
  ppi_ok i' /\ i_state i' = s /\ i_mtu i' = i_mtu i /\ i_cancel i' = i_cancel i /\ i_user i' = i_user i.

Section protocol.
Implicit Types (i : PacketPassInterface) (d : bytes).

Lemma Init_ok mtu : 0 <= mtu -> exists i, PacketPassInterface_Init mtu = Ret i /\ ppi_ok i /\
  i_state i = PPI_STATE_NONE /\ i_mtu i = mtu /\ i_cancel i = false /\ i_user i = false.
Proof.
  intros H. unfold PacketPassInterface_Init. ztest. run_simpl. eexists. split; [done|]. by repeat split; cbn.
Qed.
Lemma Sender_Init_ok i : ppi_ok i -> i_user i = false -> exists i', PacketPassInterface_Sender_Init i = Ret i' /\
  ppi_ok i' /\ i_state i' = i_state i /\ i_mtu i' = i_mtu i /\ i_cancel i' = i_cancel i /\ i_user i' = true /\
  job_operation_data i' = job_operation_data i.
Proof. intros [] H. unfold PacketPassInterface_Sender_Init. rewrite H. run_simpl. eexists. split; [done|]. by split_and!. Qed.
Lemma Sender_Send_ok i d : ppi_ok i -> i_user i = true -> i_state i = PPI_STATE_NONE -> len d <= i_mtu i ->
  exists i', PacketPassInterface_Sender_Send i d = Ret i' /\ ppi_moves i PPI_STATE_OPERATION_PENDING i' /\ job_operation_data i' = d.
Proof.
  intros [] Hu Hs Hd. unfold PacketPassInterface_Sender_Send. ztest. run_simpl. rewrite Hu, bool_decide_true by done. run_simpl.
  eexists. split; [done|]. split; [|done]. split; [|done]. split; cbn; try done.
  - by rewrite pi_done0, bool_decide_false by congruence.
  - intros H. destruct (pi_cancel0 H). congruence.
Qed.
Lemma Done_ok i : ppi_ok i -> i_state i = PPI_STATE_BUSY ->
  exists i', PacketPassInterface_Done i = Ret i' /\ ppi_moves i PPI_STATE_DONE_PENDING i'.
Proof.
  intros [] Hs. unfold PacketPassInterface_Done. rewrite bool_decide_true by done. run_simpl.
  eexists. split; [done|]. split; [|done]. split; cbn; try done.
  - by rewrite pi_op0, Hs.
  - intros _. apply pi_user0. congruence.
Qed.
Lemma job_operation_ok i : ppi_ok i -> job_operation i = true ->
  exists i', PacketPassInterface_job_operation i = Ret (i', job_operation_data i) /\ ppi_moves i PPI_STATE_BUSY i' /\
    i_state i = PPI_STATE_OPERATION_PENDING.
Proof.
  intros [] Hj. rewrite Hj in pi_op0. symmetry in pi_op0. apply bool_decide_eq_true in pi_op0.
  unfold PacketPassInterface_job_operation. rewrite bool_decide_true by done. run_simpl.
  eexists. split; [done|]. split; [|done]. split; [|done]. split; cbn; try done.
  - by rewrite pi_done0, pi_op0.
  - intros H. destruct (pi_cancel0 H). congruence.
  - intros _. apply pi_user0. congruence.
Qed.
Lemma job_done_ok i : ppi_ok i -> job_done i = true ->
  exists i', PacketPassInterface_job_done i = Ret i' /\ ppi_moves i PPI_STATE_NONE i' /\ i_state i = PPI_STATE_DONE_PENDING.
Proof.
  intros [] Hj. rewrite Hj in pi_done0. symmetry in pi_done0. apply bool_decide_eq_true in pi_done0.
  unfold PacketPassInterface_job_done. rewrite bool_decide_true by done. run_simpl.
  eexists. split; [done|]. split; [|done]. split; [|done]. split; cbn; try done.
  - by rewrite pi_op0, pi_done0.
  - intros H. destruct (pi_cancel0 H). congruence.
Qed.
Lemma job_requestcancel_ok i : ppi_ok i -> job_requestcancel i = true ->
  exists i', PacketPassInterface_job_requestcancel i = Ret i' /\ ppi_moves i (i_state i) i'.
Proof.
  intros [] Hj. destruct (pi_cancel0 Hj) as (Hs & Hc & Hh).
  unfold PacketPassInterface_job_requestcancel. rewrite bool_decide_true by done. rewrite Hc, Hh. run_simpl.
  eexists. split; [done|]. split; [|by rewrite Hh]. by split; cbn.
Qed.
(** A cancelled operation that has not started is done at once. *)
Lemma Sender_RequestCancel_ok i : ppi_ok i -> i_state i <> PPI_STATE_NONE -> i_cancel i = true ->
  exists i' s, PacketPassInterface_Sender_RequestCancel i = Ret i' /\ ppi_moves i s i' /\ cancel_requested i' = true /\
    (s = i_state i \/ (i_state i = PPI_STATE_OPERATION_PENDING /\ s = PPI_STATE_DONE_PENDING)).
Proof.
  intros Hok Hs Hc. unfold PacketPassInterface_Sender_RequestCancel. rewrite bool_decide_false by done. cbn [negb].
  rewrite Hc. run_simpl. pose proof Hok as []. destruct (cancel_requested i) eqn:Hq.
  { exists i, (i_state i). split; [done|]. split; [by split|]. split; [done|by left]. }
  assert (Hu : i_user i = true) by auto.
  assert (Hj : job_requestcancel i = false).
  { destruct (job_requestcancel i); [|done]. destruct (pi_cancel0 eq_refl) as (_ & ? & _). congruence. }
  destruct (i_state i) eqn:Es; [done| | |].
  - eexists _, PPI_STATE_DONE_PENDING. split; [done|]. split; [split; [|done]; split; cbn; try done; congruence|]. auto.
  - eexists _, PPI_STATE_BUSY. split; [done|]. split; [split; [|done]; split; cbn; done|]. auto.
  - eexists _, PPI_STATE_DONE_PENDING. split; [done|]. split; [split; [|by cbn]; split; cbn; try done; congruence|]. auto.
Qed.
End protocol.
