(* ===== verification/StreamInterface.v ===== *)
(** * The stream interfaces of the flow components ([flow/StreamPassInterface.h], [flow/StreamRecvInterface.h])

    Like the packet interface, with an operation that may be done in part: the
    provider says how many of the bytes it has taken or filled in.  The two
    headers are one text with two sets of names, so the operations are defined
    once, for the data [D] that the operation hands over: the bytes to be sent,
    or the place (an offset into the user's buffer) for the bytes to be received. *)
From S2P Require Import Prelude.

Inductive stream_state : Type :=
  | STREAM_STATE_NONE
  | STREAM_STATE_OPERATION_PENDING
  | STREAM_STATE_BUSY
  | STREAM_STATE_DONE_PENDING.
#[export] Instance stream_state_eq_dec : EqDecision stream_state.
Proof. solve_decision. Defined.

(** [s_user]: whether [handler_done] is set.  [s_data] is [None] before the first operation. *)
Record stream_interface (D : Type) := SI {
  s_user : bool;
  s_operation : bool;
  s_data : option D;
  s_len : Z;
  s_done : bool;
  s_done_len : Z;
  s_state : stream_state }.
Arguments SI {D}.
Arguments s_user {D}.
Arguments s_operation {D}.
Arguments s_data {D}.
Arguments s_len {D}.
Arguments s_done {D}.
Arguments s_done_len {D}.
Arguments s_state {D}.

Section operations.
Context {D : Type}.
Implicit Types i : stream_interface D.

Definition stream_Init : stream_interface D := SI false false None 0 false 0 STREAM_STATE_NONE.

Definition stream_Done i (data_len : Z) : run (stream_interface D) :=
  _ ← check (bool_decide (s_state i = STREAM_STATE_BUSY));
  _ ← check (0 <? data_len);
  _ ← check (data_len <=? s_len i);
  Ret (SI (s_user i) (s_operation i) (s_data i) (s_len i) true data_len STREAM_STATE_DONE_PENDING).

(** [Sender_Init], [Receiver_Init] *)
Definition stream_User_Init i : run (stream_interface D) :=
  _ ← check (negb (s_user i));
  Ret (SI true (s_operation i) (s_data i) (s_len i) (s_done i) (s_done_len i) (s_state i)).

(** [Sender_Send], [Receiver_Recv] *)
Definition stream_Start i (data : D) (data_len : Z) : run (stream_interface D) :=
  _ ← check (0 <? data_len);
  _ ← check (bool_decide (s_state i = STREAM_STATE_NONE));
  _ ← check (s_user i);
  Ret (SI (s_user i) true (Some data) data_len (s_done i) (s_done_len i) STREAM_STATE_OPERATION_PENDING).

(** The jobs, unset when they run: the first calls [handler_operation] with
    the data and its length, the second [handler_done] with the length done. *)
Definition stream_job_operation i : run (stream_interface D * (D * Z)) :=
  _ ← check (bool_decide (s_state i = STREAM_STATE_OPERATION_PENDING));
  d ← deref (s_data i);
  Ret (SI (s_user i) false (s_data i) (s_len i) (s_done i) (s_done_len i) STREAM_STATE_BUSY, (d, s_len i)).
Definition stream_job_done i : run (stream_interface D * Z) :=
  _ ← check (bool_decide (s_state i = STREAM_STATE_DONE_PENDING));
  Ret (SI (s_user i) (s_operation i) (s_data i) (s_len i) false (s_done_len i) STREAM_STATE_NONE, s_done_len i).
End operations.

Definition StreamPassInterface : Type := stream_interface bytes.
Definition StreamPassInterface_Init : StreamPassInterface := stream_Init.
Definition StreamPassInterface_Done : StreamPassInterface -> Z -> run StreamPassInterface := stream_Done.
Definition StreamPassInterface_Sender_Init : StreamPassInterface -> run StreamPassInterface := stream_User_Init.
Definition StreamPassInterface_Sender_Send (i : StreamPassInterface) (data : bytes) : run StreamPassInterface :=
  stream_Start i data (len data).
Definition StreamPassInterface_job_operation : StreamPassInterface -> run (StreamPassInterface * (bytes * Z)) := stream_job_operation.
Definition StreamPassInterface_job_done : StreamPassInterface -> run (StreamPassInterface * Z) := stream_job_done.

Definition StreamRecvInterface : Type := stream_interface Z.
Definition StreamRecvInterface_Init : StreamRecvInterface := stream_Init.
Definition StreamRecvInterface_Done : StreamRecvInterface -> Z -> run StreamRecvInterface := stream_Done.
Definition StreamRecvInterface_Receiver_Init : StreamRecvInterface -> run StreamRecvInterface := stream_User_Init.
Definition StreamRecvInterface_Receiver_Recv : StreamRecvInterface -> Z -> Z -> run StreamRecvInterface := stream_Start.
Definition StreamRecvInterface_job_operation : StreamRecvInterface -> run (StreamRecvInterface * (Z * Z)) := stream_job_operation.
Definition StreamRecvInterface_job_done : StreamRecvInterface -> run (StreamRecvInterface * Z) := stream_job_done.

(** ** The protocol

    [stream_at i s d n]: [i] has a user, is in state [s] and, unless it is idle,
    works on [n] bytes at [d]. *)
Record stream_ok {D} (i : stream_interface D) : Prop := {
  si_user : s_user i = true;
  si_op : s_operation i = bool_decide (s_state i = STREAM_STATE_OPERATION_PENDING);
  si_done : s_done i = bool_decide (s_state i = STREAM_STATE_DONE_PENDING) }.
Record stream_at {D} (i : stream_interface D) (s : stream_state) (d : D) (n : Z) : Prop := {
  sa_ok : stream_ok i;
  sa_state : s_state i = s;
  sa_data : s_data i = Some d;
  sa_len : s_len i = n }.

Section protocol.
Context {D : Type}.
Implicit Types (i : stream_interface D) (d : D) (n k : Z).

Lemma stream_Init_ok : exists i, stream_User_Init (stream_Init (D := D)) = Ret i /\ stream_ok i /\ s_state i = STREAM_STATE_NONE.
Proof. eexists. split; [done|]. by split. Qed.
Lemma stream_Start_ok i d n : stream_ok i -> s_state i = STREAM_STATE_NONE -> 0 < n ->
  exists i', stream_Start i d n = Ret i' /\ stream_at i' STREAM_STATE_OPERATION_PENDING d n.
Proof.
  intros [] Hs Hn. unfold stream_Start. ztest. run_simpl. rewrite bool_decide_true, si_user0 by done. run_simpl.
  eexists. split; [done|]. split; [|done..]. split; cbn; try done. by rewrite si_done0, Hs.
Qed.
Lemma stream_job_operation_ok i d n : stream_at i STREAM_STATE_OPERATION_PENDING d n ->
  exists i', stream_job_operation i = Ret (i', (d, n)) /\ stream_at i' STREAM_STATE_BUSY d n.
Proof.
  intros [[] Hs Hd Hn]. unfold stream_job_operation. rewrite bool_decide_true by done. run_simpl. rewrite Hd, Hn. run_simpl.
  eexists. split; [done|]. split; try done. split; cbn; try done. by rewrite si_done0, Hs.
Qed.
Lemma stream_Done_ok i d n k : stream_at i STREAM_STATE_BUSY d n -> 0 < k <= n ->
  exists i', stream_Done i k = Ret i' /\ stream_at i' STREAM_STATE_DONE_PENDING d n /\ s_done_len i' = k.
Proof.
  intros [[] Hs Hd Hn] Hk. unfold stream_Done. rewrite bool_decide_true by done. run_simpl. rewrite Hn. ztest. run_simpl.
  eexists. split; [done|]. split; [|done]. split; try done. split; cbn; try done. by rewrite si_op0, Hs.
Qed.
Lemma stream_job_done_ok i d n : stream_at i STREAM_STATE_DONE_PENDING d n ->
  exists i', stream_job_done i = Ret (i', s_done_len i) /\ stream_ok i' /\ s_state i' = STREAM_STATE_NONE.
Proof.
  intros [[] Hs Hd Hn]. unfold stream_job_done. rewrite bool_decide_true by done. run_simpl.
  eexists. split; [done|]. split; [|done]. split; cbn; try done. by rewrite si_op0, Hs.
Qed.
End protocol.
