(* ===== verification/PacketStreamSender.v ===== *)
(** * Packets written to a stream ([flow/PacketStreamSender.c])

    The sender hands a packet to the stream, and the rest of it again as long as
    the stream has taken only a part; the packet is done when all of it is taken. *)
From S2P Require Import Prelude PacketPassInterface StreamInterface.

Record PacketStreamSender := Sender {
  input : PacketPassInterface;
  output : StreamPassInterface;
  in_len : Z;
  in_data : bytes;     (* the packet at [in] *)
  in_used : Z }.

Definition send_data (s : PacketStreamSender) : run PacketStreamSender :=
  _ ← check (0 <=? in_len s);
  if in_used s <? in_len s then
    (* send more data *)
    d ← rd_range (in_data s) (in_used s) (in_len s - in_used s);
    o ← StreamPassInterface_Sender_Send (output s) d;
    Ret (Sender (input s) o (in_len s) (in_data s) (in_used s))
  else
    (* finish input packet *)
    i ← PacketPassInterface_Done (input s);
    Ret (Sender i (output s) (-1) (in_data s) (in_used s)).

Definition input_handler_send (s : PacketStreamSender) (data : bytes) : run PacketStreamSender :=
  _ ← check (in_len s =? -1);
  send_data (Sender (input s) (output s) (len data) data 0).

Definition output_handler_done (s : PacketStreamSender) (data_len : Z) : run PacketStreamSender :=
  _ ← check (0 <=? in_len s);
  _ ← check (0 <? data_len);
  _ ← check (data_len <=? in_len s - in_used s);
  send_data (Sender (input s) (output s) (in_len s) (in_data s) (in_used s + data_len)).

Definition PacketStreamSender_Init (out : StreamPassInterface) (mtu : Z) : run PacketStreamSender :=
  _ ← check (0 <=? mtu);
  i ← PacketPassInterface_Init mtu;
  o ← StreamPassInterface_Sender_Init out;
  Ret (Sender i o (-1) [] 0).

(** ** The jobs of the two interfaces, and what the stream does

    A job that is not set does nothing. *)
Definition set_input (i : PacketPassInterface) (s : PacketStreamSender) : PacketStreamSender :=
  Sender i (output s) (in_len s) (in_data s) (in_used s).
Definition set_output (o : StreamPassInterface) (s : PacketStreamSender) : PacketStreamSender :=
  Sender (input s) o (in_len s) (in_data s) (in_used s).

Definition input_operation_job (s : PacketStreamSender) : run PacketStreamSender :=
  if negb (job_operation (input s)) then Ret s else
  '(i, d) ← PacketPassInterface_job_operation (input s); input_handler_send (set_input i s) d.
(** The stream gets the bytes to send. *)
Definition output_operation_job (s : PacketStreamSender) : run (PacketStreamSender * option bytes) :=
  if negb (s_operation (output s)) then Ret (s, None) else
  '(o, (d, _)) ← StreamPassInterface_job_operation (output s); Ret (set_output o s, Some d).
(** The stream has taken [n] of the bytes it was given; the result names them. *)
Definition output_done (s : PacketStreamSender) (n : Z) : run (PacketStreamSender * bytes) :=
  o ← StreamPassInterface_Done (output s) n; d ← deref (s_data (output s)); Ret (set_output o s, ztake n d).
Definition output_done_job (s : PacketStreamSender) : run PacketStreamSender :=
  if negb (s_done (output s)) then Ret s else
  '(o, n) ← StreamPassInterface_job_done (output s); output_handler_done (set_output o s) n.

(** ** What is still to be taken *)

Record sender_ok (s : PacketStreamSender) : Prop := {
  so_input : ppi_ok (input s) /\ i_user (input s) = true;
  so_output : stream_ok (output s);
  so_idle : i_state (input s) <> PPI_STATE_BUSY -> in_len s = -1 /\ s_state (output s) = STREAM_STATE_NONE;
  so_busy : i_state (input s) = PPI_STATE_BUSY ->
    0 <= in_used s < in_len s /\ in_len s = len (in_data s) /\ s_state (output s) <> STREAM_STATE_NONE /\
    stream_at (output s) (s_state (output s)) (zdrop (in_used s) (in_data s)) (in_len s - in_used s) /\
    (s_state (output s) = STREAM_STATE_DONE_PENDING -> 0 < s_done_len (output s) <= in_len s - in_used s) }.

Definition taken (o : StreamPassInterface) : Z :=
  if decide (s_state o = STREAM_STATE_DONE_PENDING) then s_done_len o else 0.
(** The bytes of the packet in hand that the stream has not taken. *)
Definition pending (s : PacketStreamSender) : bytes :=
  match i_state (input s) with
  | PPI_STATE_OPERATION_PENDING => job_operation_data (input s)
  | PPI_STATE_BUSY => zdrop (in_used s + taken (output s)) (in_data s)
  | _ => []
  end.
(** [sends_on s d s']: [s'] is [s] after a step, with [d] still to be taken, and the
    packet is done when nothing is. *)
Definition sends_on (s : PacketStreamSender) (d : bytes) (s' : PacketStreamSender) : Prop :=
  sender_ok s' /\ pending s' = d /\ i_mtu (input s') = i_mtu (input s) /\ i_state (input s') <> PPI_STATE_NONE.

Section sender.
Implicit Types (s : PacketStreamSender) (d : bytes).

Lemma PacketStreamSender_Init_ok out mtu : s_user out = false -> s_operation out = false -> s_done out = false ->
  s_state out = STREAM_STATE_NONE -> 0 <= mtu ->
  exists s i, PacketStreamSender_Init out mtu = Ret s /\ PacketPassInterface_Sender_Init (input s) = Ret i /\
    sender_ok (set_input i s) /\ i_state i = PPI_STATE_NONE /\ i_mtu i = mtu.
Proof.
  intros Hu Hop Hd Hs Hm. destruct (Init_ok mtu Hm) as (i & Ei & Hi & His & Him & _ & Hiu).
  destruct (Sender_Init_ok i Hi Hiu) as (i' & Ei' & Hi' & His' & Him' & _ & Hiu' & _).
  unfold PacketStreamSender_Init, StreamPassInterface_Sender_Init, stream_User_Init. ztest. run_simpl. rewrite Ei. run_simpl. rewrite Hu. run_simpl.
  eexists _, i'. split; [done|]. split; [done|]. split; [|by rewrite His', Him'].
  split; cbn; try done; rewrite ?His', ?His; try done. split; cbn; rewrite ?Hop, ?Hd, ?Hs; done.
Qed.

Lemma Send_ok s d : sender_ok s -> i_state (input s) = PPI_STATE_NONE -> len d <= i_mtu (input s) ->
  exists i, PacketPassInterface_Sender_Send (input s) d = Ret i /\ sends_on s d (set_input i s).
Proof.
  intros [[Hi Hu] Ho Hidle Hbusy] Hs Hd. destruct (Sender_Send_ok (input s) d Hi Hu Hs Hd) as (i & Ei & (Hi' & Hs' & Hm & _ & Hu') & Hdata).
  exists i. split; [done|]. split; [|split; [|split]]; try done.
  - split; cbn; rewrite ?Hs', ?Hu'; try done. intros _. apply Hidle. by rewrite Hs.
  - unfold pending. cbn. by rewrite Hs'.
  - cbn. by rewrite Hs'.
Qed.

(** The common part of the two handlers: [k] bytes of the packet are taken. *)
Lemma send_data_ok s d k : ppi_ok (input s) -> i_user (input s) = true -> stream_ok (output s) ->
  i_state (input s) = PPI_STATE_BUSY -> s_state (output s) = STREAM_STATE_NONE -> 0 <= k <= len d ->
  in_len s = len d -> in_data s = d -> in_used s = k ->
  exists s', send_data s = Ret s' /\ sends_on s (zdrop k d) s'.
Proof.
  intros Hi Hu Ho Hs Hos Hk Hl Hd Hus. unfold send_data. rewrite Hl, Hd, Hus. ztest. run_simpl.
  destruct (Z.ltb_spec k (len d)) as [Hlt|Hge].
  - rewrite rd_range_ok by lia. run_simpl. rewrite ztake_all by (rewrite len_zdrop by lia; lia).
    destruct (stream_Start_ok (output s) (zdrop k d) (len (zdrop k d)) Ho Hos) as (o & Eo & Hat); [rewrite len_zdrop by lia; lia|].
    unfold StreamPassInterface_Sender_Send. rewrite Eo. run_simpl. rewrite len_zdrop in Hat by lia. pose proof (sa_state _ _ _ _ Hat) as Host.
    eexists. split; [done|]. split; [|split; [|split; [done|by cbn; rewrite Hs]]].
    + split; cbn; try done; [by apply Hat|]. intros _. rewrite Host. split; [lia|]. split; [done|]. split; [done|]. split; [|done]. exact Hat.
    + unfold pending. cbn. rewrite Hs. unfold taken. rewrite Host, decide_False by done. by rewrite Z.add_0_r.
  - destruct (Done_ok (input s) Hi Hs) as (i & -> & Hi' & Hs' & Hm & _ & Hu'). run_simpl.
    eexists. split; [done|]. split; [|split; [|split; [done|]]]; cbn.
    + split; cbn; rewrite ?Hs', ?Hu'; try done.
    + unfold pending. cbn. rewrite Hs'. symmetry. apply zdrop_all. lia.
    + by rewrite Hs'.
Qed.

Lemma input_operation_job_ok s : sender_ok s -> i_state (input s) <> PPI_STATE_NONE ->
  exists s', input_operation_job s = Ret s' /\ sends_on s (pending s) s'.
Proof.
  intros Hok Hne. pose proof Hok as [[Hi Hu] Ho Hidle Hbusy]. unfold input_operation_job.
  destruct (job_operation (input s)) eqn:Hj; cbn [negb]; [|by exists s].
  destruct (job_operation_ok (input s) Hi Hj) as (i & -> & (Hi' & Hs' & Hm & _ & Hu') & Hs). run_simpl.
  destruct (Hidle ltac:(by rewrite Hs)) as [Hl Hos]. unfold input_handler_send. cbn [in_len set_input]. rewrite Hl. run_simpl.
  destruct (send_data_ok (Sender i (output s) (len (job_operation_data (input s))) (job_operation_data (input s)) 0)
    (job_operation_data (input s)) 0) as (s' & E & Hs2); cbn; try done; [by rewrite Hu'|pose proof (len_nonneg (job_operation_data (input s))); lia|].
  exists s'. split; [done|]. unfold pending. rewrite Hs. destruct Hs2 as (H1 & H2 & H3 & H4). split; [done|]. split; [done|]. split; [|done].
  rewrite H3. exact Hm.
Qed.
Lemma output_operation_job_ok s : sender_ok s -> i_state (input s) <> PPI_STATE_NONE ->
  exists s' (o : option bytes), output_operation_job s = Ret (s', o) /\ sends_on s (pending s) s'.
Proof.
  intros Hok Hne. pose proof Hok as [[Hi Hu] Ho Hidle Hbusy]. unfold output_operation_job.
  destruct (s_operation (output s)) eqn:Hj; cbn [negb]; [|by exists s, None].
  pose proof Hj as Hop. rewrite (si_op _ Ho) in Hop. apply bool_decide_eq_true in Hop.
  destruct (decide (i_state (input s) = PPI_STATE_BUSY)) as [Hb|Hb]; [|destruct (Hidle Hb); congruence].
  destruct (Hbusy Hb) as (H1 & H2 & H3 & Hat & H5). rewrite Hop in Hat.
  destruct (stream_job_operation_ok (output s) _ _ Hat) as (o & Eo & Hat'). unfold StreamPassInterface_job_operation. rewrite Eo. run_simpl.
  pose proof (sa_state _ _ _ _ Hat') as Hos. eexists _, _. split; [done|]. split; [|split; [|split; [done|done]]].
  - split; cbn; try done; [by apply Hat'|]. intros _. rewrite Hos. split_and!; try done; lia.
  - unfold pending, taken. cbn. by rewrite Hb, Hos, Hop.
Qed.
Lemma output_done_ok s n : sender_ok s -> s_state (output s) = STREAM_STATE_BUSY -> 0 < n <= s_len (output s) ->
  exists s' d d', output_done s n = Ret (s', d) /\ pending s = d ++ d' /\ sends_on s d' s'.
Proof.
  intros Hok Hop Hn. pose proof Hok as [[Hi Hu] Ho Hidle Hbusy].
  destruct (decide (i_state (input s) = PPI_STATE_BUSY)) as [Hb|Hb]; [|destruct (Hidle Hb); congruence].
  destruct (Hbusy Hb) as (H1 & H2 & H3 & Hat & H5). rewrite Hop in Hat. rewrite (sa_len _ _ _ _ Hat) in Hn.
  destruct (stream_Done_ok (output s) _ _ n Hat Hn) as (o & Eo & Hat' & Hdl). unfold output_done, StreamPassInterface_Done. rewrite Eo.
  rewrite (sa_data _ _ _ _ Hat). run_simpl. pose proof (sa_state _ _ _ _ Hat') as Hos. eexists _, _, (zdrop n (pending s)). split; [done|].
  assert (Hpend : pending s = zdrop (in_used s) (in_data s)) by (unfold pending, taken; rewrite Hb, Hop, decide_False by done; by rewrite Z.add_0_r).
  rewrite Hpend, ztake_zdrop. split; [done|]. split; [|split; [|split; [done|by cbn; rewrite Hb]]].
  - split; cbn; try done; [by apply Hat'|]. intros _. rewrite Hos. split_and!; try done; lia.
  - unfold pending, taken. cbn. rewrite Hb, Hos, decide_True, Hdl, zdrop_zdrop by (done || lia). done.
Qed.
Lemma output_done_job_ok s : sender_ok s -> i_state (input s) <> PPI_STATE_NONE ->
  exists s', output_done_job s = Ret s' /\ sends_on s (pending s) s'.
Proof.
  intros Hok Hne. pose proof Hok as [[Hi Hu] Ho Hidle Hbusy]. unfold output_done_job.
  destruct (s_done (output s)) eqn:Hj; cbn [negb]; [|by exists s].
  pose proof Hj as Hop. rewrite (si_done _ Ho) in Hop. apply bool_decide_eq_true in Hop.
  destruct (decide (i_state (input s) = PPI_STATE_BUSY)) as [Hb|Hb]; [|destruct (Hidle Hb); congruence].
  destruct (Hbusy Hb) as (H1 & H2 & H3 & Hat & H5). specialize (H5 Hop). rewrite Hop in Hat.
  destruct (stream_job_done_ok (output s) _ _ Hat) as (o & Eo & Ho' & Hos). unfold StreamPassInterface_job_done. rewrite Eo. run_simpl.
  unfold output_handler_done. cbn [in_len in_used set_output]. ztest. run_simpl.
  destruct (send_data_ok (Sender (input s) o (in_len s) (in_data s) (in_used s + s_done_len (output s))) (in_data s) (in_used s + s_done_len (output s)))
    as (s' & E & Hs2); cbn; try done; [lia|].
  exists s'. split; [done|]. unfold pending, taken. by rewrite Hb, Hop, decide_True by done.
Qed.
End sender.
