(* ===== verification/SocksClient.v ===== *)
(** * The SOCKS5 client ([socksclient/BSocksClient.c], [misc/socks_proto.h])

    The client connects to the server, offers its authentication methods, logs
    in, asks for a connection to [dest_addr] and is then up.  Each message is
    written to one buffer, reallocated for every message, and sent with a
    PacketStreamSender; each reply is received into the buffer in as many
    pieces as the connection delivers.

    The connection ([system/BConnection.h]) is the provider of the two stream
    interfaces: what it does are events, what the client asks of it are effects.
    [alloc] is what [realloc] finds: [None], or memory with some contents. *)
From S2P Require Import Prelude Inet Addr Bsize PacketPassInterface StreamInterface PacketStreamSender.

(** ** The protocol's numbers ([misc/socks_proto.h]) *)

Definition SOCKS_VERSION : Z := 5.
Definition SOCKS_METHOD_NO_AUTHENTICATION_REQUIRED : Z := 0.
Definition SOCKS_METHOD_USERNAME_PASSWORD : Z := 2.
Definition SOCKS_CMD_CONNECT : Z := 1.
Definition SOCKS_ATYP_IPV4 : Z := 1.
Definition SOCKS_ATYP_IPV6 : Z := 4.
Definition SOCKS_REP_SUCCEEDED : Z := 0.
(** The sizes of the packed structs: hellos, reply header, addresses. *)
Definition sizeof_socks_client_hello_header : Z := 2.
Definition sizeof_socks_client_hello_method : Z := 1.
Definition sizeof_socks_server_hello : Z := 2.
Definition sizeof_socks_request_header : Z := 4.
Definition sizeof_socks_reply_header : Z := 4.
Definition sizeof_socks_addr_ipv4 : Z := 6.
Definition sizeof_socks_addr_ipv6 : Z := 18.

(** ** The client *)

(** [password] is the union: a user name and a password, or not set. *)
Record BSocksClient_auth_info := AuthInfo { auth_type : Z; password : option (bytes * bytes) }.
Definition BSocksClient_auth_none : BSocksClient_auth_info := AuthInfo SOCKS_METHOD_NO_AUTHENTICATION_REQUIRED None.
Definition BSocksClient_auth_password (username password : bytes) : BSocksClient_auth_info :=
  AuthInfo SOCKS_METHOD_USERNAME_PASSWORD (Some (username, password)).

Inductive socks_state : Type :=
  | STATE_CONNECTING | STATE_SENDING_HELLO | STATE_SENT_HELLO | STATE_SENDING_PASSWORD | STATE_SENT_PASSWORD
  | STATE_SENDING_REQUEST | STATE_SENT_REQUEST | STATE_RECEIVED_REPLY_HEADER | STATE_UP.
#[export] Instance socks_state_eq_dec : EqDecision socks_state.
Proof. solve_decision. Defined.

Inductive BSOCKSCLIENT_EVENT : Type := EVENT_ERROR | EVENT_UP | EVENT_ERROR_CLOSED.
Inductive BCONNECTION_EVENT : Type := CON_ERROR | CON_RECVCLOSED.

(** [recv_dest]: an offset into the buffer. *)
Record control_io := Control {
  send_sender : PacketStreamSender;
  recv_if : StreamRecvInterface;
  recv_dest : Z;
  recv_len : Z;
  recv_total : Z }.
Inductive client_io : Type := NoIO | ControlIO (c : control_io) | UpIO.

(** [con]: the connection is initialised.  [io]: which interfaces of it are.
    [d_err]: an error has been reported. *)
Record BSocksClient := Client {
  auth_info : list BSocksClient_auth_info;
  dest_addr : BAddr;
  state : socks_state;
  buffer : option bytes;
  con : bool;
  io : client_io;
  d_err : bool }.

Definition set_state (s : socks_state) (o : BSocksClient) : BSocksClient :=
  Client (auth_info o) (dest_addr o) s (buffer o) (con o) (io o) (d_err o).
Definition set_buffer (b : option bytes) (o : BSocksClient) : BSocksClient :=
  Client (auth_info o) (dest_addr o) (state o) b (con o) (io o) (d_err o).
Definition set_con (b : bool) (o : BSocksClient) : BSocksClient :=
  Client (auth_info o) (dest_addr o) (state o) (buffer o) b (io o) (d_err o).
Definition set_io (i : client_io) (o : BSocksClient) : BSocksClient :=
  Client (auth_info o) (dest_addr o) (state o) (buffer o) (con o) i (d_err o).
Definition set_err (o : BSocksClient) : BSocksClient :=
  Client (auth_info o) (dest_addr o) (state o) (buffer o) (con o) (io o) true.

(** What the client does to its surroundings. *)
Inductive effect : Type :=
  | Report (event : BSOCKSCLIENT_EVENT)  (* the handler of the user *)
  | ConSend (data : bytes)               (* the connection is given bytes to send *)
  | ConSent (data : bytes)               (* it has taken these *)
  | ConRecv (data_len : Z).              (* it is asked for at most so many bytes *)
Definition result : Type := run (BSocksClient * list effect).

Definition report_error (o : BSocksClient) (error : BSOCKSCLIENT_EVENT) : result :=
  _ ← check (negb (d_err o)); Ret (set_err o, [Report error]).

Definition control_of (o : BSocksClient) : run control_io :=
  match io o with ControlIO c => Ret c | _ => Fail AssertionFailed end.

Definition init_control_io (o : BSocksClient) : run BSocksClient :=
  _ ← check (con o && match io o with NoIO => true | _ => false end);
  r ← StreamRecvInterface_Receiver_Init StreamRecvInterface_Init;
  s ← PacketStreamSender_Init StreamPassInterface_Init INT_MAX;
  i ← PacketPassInterface_Sender_Init (input s);
  Ret (set_io (ControlIO (Control (set_input i s) r 0 0 0)) o).
Definition free_control_io (o : BSocksClient) : run BSocksClient := _ ← control_of o; Ret (set_io NoIO o).
Definition init_up_io (o : BSocksClient) : run BSocksClient :=
  _ ← check (con o && match io o with NoIO => true | _ => false end); Ret (set_io UpIO o).
Definition free_up_io (o : BSocksClient) : run BSocksClient :=
  match io o with UpIO => Ret (set_io NoIO o) | _ => Fail AssertionFailed end.
Definition BConnection_Free (o : BSocksClient) : run BSocksClient :=
  _ ← check (con o && match io o with NoIO => true | _ => false end); Ret (set_con false o).

(** [BRealloc]: the old contents stay, as far as they fit; [alloc] is what else the new memory holds. *)
Definition BRealloc (m : option bytes) (n : Z) (alloc : option (nat -> Z)) : option bytes :=
  match alloc with
  | None => None
  | Some g => let n := if n =? 0 then 1 else n in
      Some (ztake n (default [] m ++ map g (List.seq 0 (Z.to_nat n))))
  end.
Definition reserve_buffer (o : BSocksClient) (size : bsize_t) (alloc : option (nat -> Z)) : option BSocksClient :=
  if is_overflow size then None else
  match BRealloc (buffer o) (bs_value size) alloc with Some b => Some (set_buffer (Some b) o) | None => None end.

Definition do_receive (o : BSocksClient) : run BSocksClient :=
  c ← control_of o;
  _ ← check (recv_len c <? recv_total c);
  r ← StreamRecvInterface_Receiver_Recv (recv_if c) (recv_dest c + recv_len c) (recv_total c - recv_len c);
  Ret (set_io (ControlIO (Control (send_sender c) r (recv_dest c) (recv_len c) (recv_total c))) o).
Definition start_receive (o : BSocksClient) (dest total : Z) : run BSocksClient :=
  _ ← check (0 <? total);
  c ← control_of o;
  do_receive (set_io (ControlIO (Control (send_sender c) (recv_if c) dest 0 total)) o).

(** [PacketPassInterface_Sender_Send(o->control.send_if, o->buffer, size)] *)
Definition send_buffer (o : BSocksClient) (size : Z) : run BSocksClient :=
  c ← control_of o;
  b ← deref (buffer o);
  d ← rd_range b 0 size;
  i ← PacketPassInterface_Sender_Send (input (send_sender c)) d;
  Ret (set_io (ControlIO (Control (set_input i (send_sender c)) (recv_if c) (recv_dest c) (recv_len c) (recv_total c))) o).
(** [memcpy] to the buffer. *)
Definition write_buffer (o : BSocksClient) (off : Z) (d : bytes) : run BSocksClient :=
  b ← deref (buffer o); b ← wr_range b off d; Ret (set_buffer (Some b) o).
Fixpoint write_methods (o : BSocksClient) (off : Z) (ais : list BSocksClient_auth_info) : run BSocksClient :=
  match ais with
  | [] => Ret o
  | ai :: ais => o ← write_buffer o off [u8 (auth_type ai)]; write_methods o (off + 1) ais
  end.

(** ** The handlers *)

Definition connector_handler (o : BSocksClient) (is_error con_ok : bool) (alloc : option (nat -> Z)) : result :=
  _ ← check (bool_decide (state o = STATE_CONNECTING));
  (* check connection result, init connection *)
  if is_error || negb con_ok then report_error o EVENT_ERROR else
  o ← init_control_io (set_con true o);
  let fail1 := o ← free_control_io o; o ← BConnection_Free o; report_error o EVENT_ERROR in
  (* check number of methods *)
  let num_auth_info := len (auth_info o) in
  if (num_auth_info =? 0) || (255 <? num_auth_info) then fail1 else
  (* allocate buffer for sending hello *)
  let size := bsize_add (bsize_fromsize sizeof_socks_client_hello_header)
                (bsize_mul (bsize_fromsize num_auth_info) (bsize_fromsize sizeof_socks_client_hello_method)) in
  match reserve_buffer o size alloc with
  | None => fail1
  | Some o =>
      (* write hello header and methods *)
      o ← write_buffer o 0 [SOCKS_VERSION; u8 num_auth_info];
      o ← write_methods o sizeof_socks_client_hello_header (auth_info o);
      (* send *)
      o ← send_buffer o (bs_value size);
      Ret (set_state STATE_SENDING_HELLO o, [])
  end.

Definition connection_handler (o : BSocksClient) (event : BCONNECTION_EVENT) : result :=
  _ ← check (negb (bool_decide (state o = STATE_CONNECTING)));
  match state o, event with
  | STATE_UP, CON_RECVCLOSED => report_error o EVENT_ERROR_CLOSED
  | _, _ => report_error o EVENT_ERROR
  end.

Definition auth_finished (o : BSocksClient) (alloc : option (nat -> Z)) : result :=
  (* allocate request buffer *)
  let size := bsize_fromsize sizeof_socks_request_header in
  let size :=
    match dest_addr o with
    | BADDR_IPV4 _ _ => bsize_add size (bsize_fromsize sizeof_socks_addr_ipv4)
    | BADDR_IPV6 _ _ => bsize_add size (bsize_fromsize sizeof_socks_addr_ipv6)
    | BADDR_NONE => size
    end in
  match reserve_buffer o size alloc with
  | None => report_error o EVENT_ERROR
  | Some o =>
      (* write request *)
      '(o, atyp) ←
        (match dest_addr o with
         | BADDR_IPV4 ip port =>
             o ← write_buffer o sizeof_socks_request_header (le32 ip ++ le16 port); Ret (o, SOCKS_ATYP_IPV4)
         | BADDR_IPV6 ip port =>
             o ← write_buffer o sizeof_socks_request_header (ip ++ le16 port); Ret (o, SOCKS_ATYP_IPV6)
         | BADDR_NONE => Fail AssertionFailed
         end);
      o ← write_buffer o 0 [SOCKS_VERSION; SOCKS_CMD_CONNECT; 0; atyp];
      (* send request *)
      o ← send_buffer o (bs_value size);
      Ret (set_state STATE_SENDING_REQUEST o, [])
  end.

Fixpoint find_auth (ais : list BSocksClient_auth_info) (method : Z) : option BSocksClient_auth_info :=
  match ais with
  | [] => None
  | ai :: ais => if auth_type ai =? method then Some ai else find_auth ais method
  end.

(** The cases of the switch in [recv_handler_done]. *)
Definition received_hello (o : BSocksClient) (alloc : option (nat -> Z)) : result :=
  b ← deref (buffer o);
  ver ← rd b 0; method ← rd b 1;
  if negb (ver =? SOCKS_VERSION) then report_error o EVENT_ERROR else
  match find_auth (auth_info o) method with
  | None => report_error o EVENT_ERROR
  | Some ai =>
      if auth_type ai =? SOCKS_METHOD_NO_AUTHENTICATION_REQUIRED then auth_finished o alloc
      else if auth_type ai =? SOCKS_METHOD_USERNAME_PASSWORD then
        '(username, password) ← deref (password ai);
        let username_len := len username in
        let password_len := len password in
        if (username_len =? 0) || (255 <? username_len) || (password_len =? 0) || (255 <? password_len)
        then report_error o EVENT_ERROR else
        (* allocate password packet *)
        let size := bsize_fromsize (to_size_t (1 + 1 + username_len + 1 + password_len)) in
        match reserve_buffer o size alloc with
        | None => report_error o EVENT_ERROR
        | Some o =>
            (* write password packet *)
            o ← write_buffer o 0 [1];
            o ← write_buffer o 1 [u8 username_len];
            o ← write_buffer o 2 username;
            o ← write_buffer o (2 + username_len) [u8 password_len];
            o ← write_buffer o (3 + username_len) password;
            (* start sending *)
            o ← send_buffer o (bs_value size);
            Ret (set_state STATE_SENDING_PASSWORD o, [])
        end
      else Fail AssertionFailed
  end.
Definition received_reply_header (o : BSocksClient) : result :=
  b ← deref (buffer o);
  ver ← rd b 0; rep ← rd b 1; atyp ← rd b 3;
  if negb (ver =? SOCKS_VERSION) then report_error o EVENT_ERROR else
  if negb (rep =? SOCKS_REP_SUCCEEDED) then report_error o EVENT_ERROR else
  let receive_rest addr_len :=
    o ← start_receive o sizeof_socks_reply_header addr_len;
    Ret (set_state STATE_RECEIVED_REPLY_HEADER o, []) in
  if atyp =? SOCKS_ATYP_IPV4 then receive_rest sizeof_socks_addr_ipv4
  else if atyp =? SOCKS_ATYP_IPV6 then receive_rest sizeof_socks_addr_ipv6
  else report_error o EVENT_ERROR.
Definition received_password_reply (o : BSocksClient) (alloc : option (nat -> Z)) : result :=
  b ← deref (buffer o);
  ver ← rd b 0;
  if negb (ver =? 1) then report_error o EVENT_ERROR else
  status ← rd b 1;
  if negb (status =? 0) then report_error o EVENT_ERROR else auth_finished o alloc.
Definition received_reply_rest (o : BSocksClient) : result :=
  (* free buffer and control I/O, init up I/O *)
  o ← free_control_io (set_buffer None o);
  o ← init_up_io o;
  Ret (set_state STATE_UP o, [Report EVENT_UP]).

Definition recv_handler_done (o : BSocksClient) (data_len : Z) (alloc : option (nat -> Z)) : result :=
  c ← control_of o;
  _ ← check (0 <=? data_len);
  _ ← check (data_len <=? recv_total c - recv_len c);
  let c := Control (send_sender c) (recv_if c) (recv_dest c) (recv_len c + data_len) (recv_total c) in
  let o := set_io (ControlIO c) o in
  if recv_len c <? recv_total c then o ← do_receive o; Ret (o, []) else
  match state o with
  | STATE_SENT_HELLO => received_hello o alloc
  | STATE_SENT_REQUEST => received_reply_header o
  | STATE_SENT_PASSWORD => received_password_reply o alloc
  | STATE_RECEIVED_REPLY_HEADER => received_reply_rest o
  | _ => Fail AssertionFailed
  end.

Definition send_handler_done (o : BSocksClient) (alloc : option (nat -> Z)) : result :=
  _ ← check (bool_decide (is_Some (buffer o)));
  let receive size total state :=
    match reserve_buffer o size alloc with
    | None => report_error o EVENT_ERROR
    | Some o => o ← start_receive o 0 total; Ret (set_state state o, [])
    end in
  match state o with
  | STATE_SENDING_HELLO => receive (bsize_fromsize sizeof_socks_server_hello) sizeof_socks_server_hello STATE_SENT_HELLO
  | STATE_SENDING_REQUEST =>
      receive (bsize_add (bsize_fromsize sizeof_socks_reply_header)
                 (bsize_max (bsize_fromsize sizeof_socks_addr_ipv4) (bsize_fromsize sizeof_socks_addr_ipv6)))
        sizeof_socks_reply_header STATE_SENT_REQUEST
  | STATE_SENDING_PASSWORD => receive (bsize_fromsize 2) 2 STATE_SENT_PASSWORD
  | _ => Fail AssertionFailed
  end.

(** ** The interface *)

(** [BConnector_Init] may fail. *)
Definition BSocksClient_Init (server_addr : BAddr) (auth_info : list BSocksClient_auth_info) (dest_addr : BAddr)
    (connector_ok : bool) : run (option BSocksClient) :=
  _ ← check (negb (BAddr_IsInvalid server_addr));
  _ ← check (negb (BAddr_IsInvalid dest_addr));
  _ ← check (forallb (fun ai => (auth_type ai =? SOCKS_METHOD_NO_AUTHENTICATION_REQUIRED) ||
                                (auth_type ai =? SOCKS_METHOD_USERNAME_PASSWORD)) auth_info);
  if negb connector_ok then Ret None else
  Ret (Some (Client auth_info dest_addr STATE_CONNECTING None false NoIO false)).

Definition BSocksClient_Free (o : BSocksClient) : run BSocksClient :=
  o ← (if negb (bool_decide (state o = STATE_CONNECTING)) then
         o ← (if bool_decide (state o = STATE_UP) then free_up_io o else free_control_io o);
         BConnection_Free o
       else Ret o);
  Ret (set_buffer None o).

(** [BSocksClient_GetSendInterface], [BSocksClient_GetRecvInterface]: the interfaces of the connection. *)
Definition BSocksClient_GetInterface (o : BSocksClient) : run unit :=
  _ ← check (bool_decide (state o = STATE_UP)); match io o with UpIO => Ret tt | _ => Fail AssertionFailed end.

(** ** The client in its surroundings

    What can happen to a client: the connection is established or fails, it
    takes bytes, delivers bytes into the buffer, breaks; and the jobs of the
    interfaces run.  A job that is not set does nothing. *)
Inductive event : Type :=
  | Connected (is_error con_ok : bool) (alloc : option (nat -> Z))
  | ConnectionEvent (event : BCONNECTION_EVENT)
  | SendPacketJob                                   (* calls the input handler of the sender *)
  | SendPacketDoneJob (alloc : option (nat -> Z))   (* calls send_handler_done *)
  | SendOperationJob
  | SendDone (n : Z)                                (* StreamPassInterface_Done *)
  | SendDoneJob                                     (* calls the output handler of the sender *)
  | RecvOperationJob
  | RecvDone (d : bytes)                            (* StreamRecvInterface_Done, with d in the buffer *)
  | RecvDoneJob (alloc : option (nat -> Z)).        (* calls recv_handler_done *)

Definition with_sender (s : PacketStreamSender) (c : control_io) : control_io :=
  Control s (recv_if c) (recv_dest c) (recv_len c) (recv_total c).
Definition with_recv (r : StreamRecvInterface) (c : control_io) : control_io :=
  Control (send_sender c) r (recv_dest c) (recv_len c) (recv_total c).
Definition with_control (c : control_io) (o : BSocksClient) : BSocksClient := set_io (ControlIO c) o.

Definition control_step (o : BSocksClient) (c : control_io) (e : event) : result :=
  let s := send_sender c in
  match e with
  | SendPacketJob => s ← input_operation_job s; Ret (with_control (with_sender s c) o, [])
  | SendPacketDoneJob alloc =>
      if negb (job_done (input s)) then Ret (o, []) else
      i ← PacketPassInterface_job_done (input s);
      send_handler_done (with_control (with_sender (set_input i s) c) o) alloc
  | SendOperationJob =>
      '(s, d) ← output_operation_job s;
      Ret (with_control (with_sender s c) o, match d with Some d => [ConSend d] | None => [] end)
  | SendDone n => '(s, d) ← output_done s n; Ret (with_control (with_sender s c) o, [ConSent d])
  | SendDoneJob => s ← output_done_job s; Ret (with_control (with_sender s c) o, [])
  | RecvOperationJob =>
      if negb (s_operation (recv_if c)) then Ret (o, []) else
      '(r, (_, n)) ← StreamRecvInterface_job_operation (recv_if c);
      Ret (with_control (with_recv r c) o, [ConRecv n])
  | RecvDone d =>
      off ← deref (s_data (recv_if c));
      o ← write_buffer o off d;
      r ← StreamRecvInterface_Done (recv_if c) (len d);
      Ret (with_control (with_recv r c) o, [])
  | RecvDoneJob alloc =>
      if negb (s_done (recv_if c)) then Ret (o, []) else
      '(r, n) ← StreamRecvInterface_job_done (recv_if c);
      recv_handler_done (with_control (with_recv r c) o) n alloc
  | _ => Ret (o, [])
  end.
Definition step (o : BSocksClient) (e : event) : result :=
  match e with
  | Connected is_error con_ok alloc => connector_handler o is_error con_ok alloc
  | ConnectionEvent event => connection_handler o event
  | _ => match io o with ControlIO c => control_step o c e | _ => Ret (o, []) end
  end.
Fixpoint exec (o : BSocksClient) (es : list event) : result :=
  match es with
  | [] => Ret (o, [])
  | e :: es => '(o, f) ← step o e; '(o, fs) ← exec o es; Ret (o, f ++ fs)
  end.

(** What the surroundings promise: the connector reports once; a connection
    that exists may break; an operation of the connection that is under way is
    done with at least one byte and at most what was asked for; after an error the
    client is freed. *)
Definition possible (o : BSocksClient) (e : event) : Prop :=
  match e with
  | Connected _ _ _ => state o = STATE_CONNECTING
  | ConnectionEvent _ => con o = true
  | SendDone n =>
      match io o with
      | ControlIO c => s_state (output (send_sender c)) = STREAM_STATE_BUSY /\ 0 < n <= s_len (output (send_sender c))
      | _ => False
      end
  | RecvDone d =>
      match io o with
      | ControlIO c => s_state (recv_if c) = STREAM_STATE_BUSY /\ 0 < len d <= s_len (recv_if c)
      | _ => False
      end
  | _ => True
  end.
Definition allowed (o : BSocksClient) (e : event) : Prop := d_err o = false /\ possible o e.
Fixpoint allowed_run (o : BSocksClient) (es : list event) : Prop :=
  match es with
  | [] => True
  | e :: es => allowed o e /\ forall o' f, step o e = Ret (o', f) -> allowed_run o' es
  end.
