(* ===== verification/SocksClientSpec.v ===== *)
(** * The SOCKS client holds the dialog of RFC 1928 and RFC 1929 ([socksclient/BSocksClient.c])

    [dialog ais dest r]: what a client with the methods [ais] says to a server
    that has said [r] so far, and how things stand.  [related o r sent]: the state
    of the client when it has been given [r] and the connection has taken [sent]. *)
From S2P Require Import Prelude Inet Addr Bsize PacketPassInterface StreamInterface PacketStreamSender SocksClient.

(** ** The dialog *)

Inductive verdict : Type := Pending | Up | Refused.
#[export] Instance verdict_eq_dec : EqDecision verdict.
Proof. solve_decision. Defined.

Definition hello (ais : list BSocksClient_auth_info) : bytes := [5; len ais] ++ map auth_type ais.
Definition login (username password : bytes) : bytes := [1; len username] ++ username ++ [len password] ++ password.
Definition request (dest : BAddr) : bytes :=
  match dest with
  | BADDR_IPV4 ip port => [5; 1; 0; 1] ++ le32 ip ++ le16 port
  | BADDR_IPV6 ip port => [5; 1; 0; 4] ++ ip ++ le16 port
  | BADDR_NONE => []
  end.

(** The reply to the request: a header and an address of [n] bytes. *)
Definition after_header (n : Z) (r : bytes) : verdict := if len r <? n then Pending else Up.
Definition after_request (r : bytes) : verdict :=
  match r with
  | ver :: rep :: _ :: atyp :: r =>
      if negb (ver =? 5) || negb (rep =? 0) then Refused
      else if atyp =? 1 then after_header 6 r
      else if atyp =? 4 then after_header 18 r
      else Refused
  | _ => Pending
  end.
(** The reply to the user name and the password. *)
Definition after_login (dest : BAddr) (r : bytes) : bytes * verdict :=
  match r with
  | ver :: status :: r => if negb (ver =? 1) || negb (status =? 0) then ([], Refused) else (request dest, after_request r)
  | _ => ([], Pending)
  end.
(** A field of 1 to 255 bytes. *)
Definition field_ok (d : bytes) : bool := (0 <? len d) && (len d <=? 255).
(** The server has chosen a method. *)
Definition after_method (dest : BAddr) (ai : BSocksClient_auth_info) (r : bytes) : bytes * verdict :=
  match password ai with
  | None => (request dest, after_request r)
  | Some (u, p) =>
      if field_ok u && field_ok p then let '(s, v) := after_login dest r in (login u p ++ s, v) else ([], Refused)
  end.
Definition after_hello (ais : list BSocksClient_auth_info) (dest : BAddr) (r : bytes) : bytes * verdict :=
  match r with
  | ver :: method :: r =>
      if negb (ver =? 5) then ([], Refused) else
      match find_auth ais method with None => ([], Refused) | Some ai => after_method dest ai r end
  | _ => ([], Pending)
  end.
Definition dialog (ais : list BSocksClient_auth_info) (dest : BAddr) (r : bytes) : bytes * verdict :=
  if (0 <? len ais) && (len ais <=? 255) then let '(s, v) := after_hello ais dest r in (hello ais ++ s, v)
  else ([], Refused).

(** ** Configurations *)

Definition auth_ok (ai : BSocksClient_auth_info) : Prop :=
  (auth_type ai = 0 /\ password ai = None) \/
  (exists u p, auth_type ai = 2 /\ password ai = Some (u, p)).
Definition dest_ok (a : BAddr) : Prop :=
  match a with BADDR_NONE => False | BADDR_IPV4 _ _ => True | BADDR_IPV6 ip _ => len ip = 16 end.

(** ** The state *)

Definition sender_idle (c : control_io) : Prop :=
  sender_ok (send_sender c) /\ i_mtu (input (send_sender c)) = INT_MAX /\ i_state (input (send_sender c)) = PPI_STATE_NONE.
Definition receiver_idle (c : control_io) : Prop := stream_ok (recv_if c) /\ s_state (recv_if c) = STREAM_STATE_NONE.

(** A message is on its way; [sent] of all that is to be sent so far has been taken. *)
Record sending (o : BSocksClient) (c : control_io) (full sent : bytes) : Prop := {
  sg_io : io o = ControlIO c /\ con o = true;
  sg_buffer : is_Some (buffer o);
  sg_sender : sender_ok (send_sender c) /\ i_mtu (input (send_sender c)) = INT_MAX /\ i_state (input (send_sender c)) <> PPI_STATE_NONE;
  sg_full : sent ++ pending (send_sender c) = full;
  sg_recv : receiver_idle c }.

Definition arrived (i : StreamRecvInterface) : Z :=
  if decide (s_state i = STREAM_STATE_DONE_PENDING) then s_done_len i else 0.
(** A reply of [total] bytes is expected at [dest]; [got] of it has come. *)
Record receiving (o : BSocksClient) (c : control_io) (b : bytes) (dest total : Z) (got : bytes) : Prop := {
  rg_io : io o = ControlIO c /\ con o = true;
  rg_buffer : buffer o = Some b;
  rg_sender : sender_idle c;
  rg_place : recv_dest c = dest /\ recv_total c = total /\ 0 <= dest /\ dest + total <= len b;
  rg_len : 0 <= recv_len c < total;
  rg_recv : stream_at (recv_if c) (s_state (recv_if c)) (dest + recv_len c) (total - recv_len c) /\ s_state (recv_if c) <> STREAM_STATE_NONE;
  rg_done : s_state (recv_if c) = STREAM_STATE_DONE_PENDING -> 0 < s_done_len (recv_if c) <= total - recv_len c;
  rg_got : len got = recv_len c + arrived (recv_if c) /\ ztake (len got) (zdrop dest b) = got }.

Section related.
Context (ais : list BSocksClient_auth_info) (dest : BAddr).

(** [goes f r sent]: after [r] the dialog goes on with [f], [sent] having been said. *)
Definition goes (f : bytes -> bytes * verdict) (r sent : bytes) : Prop :=
  forall r', dialog ais dest (r ++ r') = (sent ++ (f r').1, (f r').2).
Definition silent (f : bytes -> verdict) (r : bytes) : bytes * verdict := ([], f r).

Definition sends_then (f : bytes -> bytes * verdict) (o : BSocksClient) (r sent : bytes) : Prop :=
  exists c full, sending o c full sent /\ goes f r full.
Definition awaits (f : bytes -> bytes * verdict) (at_ n : Z) (o : BSocksClient) (r sent : bytes) : Prop :=
  exists c b r0 got, receiving o c b at_ n got /\ r = r0 ++ got /\ goes f r0 sent.

Definition related (o : BSocksClient) (r sent : bytes) : Prop :=
  auth_info o = ais /\ dest_addr o = dest /\ d_err o = false /\
  match state o with
  | STATE_CONNECTING => con o = false /\ io o = NoIO /\ buffer o = None /\ r = [] /\ sent = []
  | STATE_SENDING_HELLO => sends_then (after_hello ais dest) o r sent
  | STATE_SENT_HELLO => awaits (after_hello ais dest) 0 2 o r sent
  | STATE_SENDING_PASSWORD => sends_then (after_login dest) o r sent
  | STATE_SENT_PASSWORD => awaits (after_login dest) 0 2 o r sent
  | STATE_SENDING_REQUEST => sends_then (silent after_request) o r sent
  | STATE_SENT_REQUEST => awaits (silent after_request) 0 4 o r sent /\ exists b, buffer o = Some b /\ len b = 22
  | STATE_RECEIVED_REPLY_HEADER => exists n, n <= 18 /\ awaits (silent (after_header n)) 4 n o r sent
  | STATE_UP => con o = true /\ io o = UpIO /\ dialog ais dest r = (sent, Up)
  end.

(** The parts of a client fit its state: it can be freed. *)
Definition freeable (o : BSocksClient) : Prop :=
  match state o with
  | STATE_CONNECTING => con o = false /\ io o = NoIO
  | STATE_UP => con o = true /\ io o = UpIO
  | _ => con o = true /\ exists c, io o = ControlIO c
  end.
Definition freed (o : BSocksClient) : Prop := buffer o = None /\ con o = false /\ io o = NoIO.
End related.

(** ** What an event brings *)

Definition received_by (e : event) : bytes := match e with RecvDone d => d | _ => [] end.
Definition received (es : list event) : bytes := flat_map received_by es.
Definition sent_by (f : effect) : bytes := match f with ConSent d => d | _ => [] end.
Definition sent_of (fs : list effect) : bytes := flat_map sent_by fs.
Definition report_of (f : effect) : list BSOCKSCLIENT_EVENT := match f with Report e => [e] | _ => [] end.
Definition reports (fs : list effect) : list BSOCKSCLIENT_EVENT := flat_map report_of fs.
(** The event brings no failure of the machine or of the connection. *)
Definition blameless (e : event) : bool :=
  match e with
  | Connected is_error con_ok alloc => negb is_error && con_ok && bool_decide (is_Some alloc)
  | ConnectionEvent _ => false
  | SendPacketDoneJob alloc | RecvDoneJob alloc => bool_decide (is_Some alloc)
  | _ => true
  end.

Definition outcome (ais : list BSocksClient_auth_info) (dest : BAddr) (o : BSocksClient) (r sent : bytes) (e : event) : Prop :=
  exists o' fx, step o e = Ret (o', fx) /\ freeable o' /\
    let r' := r ++ received_by e in let sent' := sent ++ sent_of fx in
    ((related ais dest o' r' sent' /\
      reports fx = if decide (state o' = STATE_UP /\ state o <> STATE_UP) then [EVENT_UP] else []) \/
     (d_err o' = true /\ exists err, reports fx = [err] /\ err <> EVENT_UP /\ starts_with sent' (dialog ais dest r').1 /\
       (blameless e = true -> err = EVENT_ERROR /\ dialog ais dest r' = (sent', Refused)))).

(** ** Sending and receiving a message *)

Section messages.
Implicit Types (o : BSocksClient) (c : control_io).

Lemma reserve_ok o n g : 0 < n -> exists b, reserve_buffer o (BSize false n) (Some g) = Some (set_buffer (Some b) o) /\ len b = n.
Proof.
  intros Hn. unfold reserve_buffer, BRealloc. cbn [is_overflow bs_value]. destruct (Z.eqb_spec n 0); [lia|].
  eexists. split; [done|]. rewrite len_ztake_min, len_app by lia.
  unfold len at 2. rewrite length_map, length_seq. pose proof (len_nonneg (default [] (buffer o))). lia.
Qed.
Lemma reserve_none o size : reserve_buffer o size None = None.
Proof. unfold reserve_buffer. by destruct (is_overflow size). Qed.

Lemma write_buffer_ok o b off d : buffer o = Some b -> 0 <= off -> off + len d <= len b ->
  write_buffer o off d = Ret (set_buffer (Some (ztake off b ++ d ++ zdrop (off + len d) b)) o).
Proof. intros Hb H1 H2. unfold write_buffer. rewrite Hb. run_simpl. rewrite wr_range_ok by lia. by run_simpl. Qed.
Lemma write_buffer_extend o b l off d : buffer o = Some b -> starts_with l b -> off = len l -> len l + len d <= len b ->
  exists b', write_buffer o off d = Ret (set_buffer (Some b') o) /\ starts_with (l ++ d) b' /\ len b' = len b.
Proof.
  intros Hb Hl Ho Hd. destruct (wr_range_extend l d b off Hl Ho Hd) as (b' & E & H1 & H2).
  exists b'. unfold write_buffer. rewrite Hb. run_simpl. rewrite E. by run_simpl.
Qed.
Lemma write_methods_ok o b l off ais : buffer o = Some b -> starts_with l b -> off = len l -> len l + len ais <= len b ->
  (forall ai, ai ∈ ais -> 0 <= auth_type ai < 256) ->
  exists b', write_methods o off ais = Ret (set_buffer (Some b') o) /\ starts_with (l ++ map auth_type ais) b' /\ len b' = len b.
Proof.
  induction ais as [|ai ais IH] in o, b, l, off |- *; intros Hb Hl Ho Hn Ht; cbn.
  - exists b. rewrite app_nil_r. split; [|done]. rewrite <- Hb. by destruct o.
  - rewrite len_cons in Hn. pose proof (len_nonneg ais). unfold u8. rewrite Z.mod_small by (apply Ht; by left).
    destruct (write_buffer_extend o b l off [auth_type ai] Hb Hl Ho) as (b1 & E1 & H1 & H2); [change (len [auth_type ai]) with 1; lia|].
    rewrite E1. run_simpl. destruct (IH (set_buffer (Some b1) o) b1 (l ++ [auth_type ai]) (off + 1)) as (b2 & E2 & H3 & H4);
      [done|done|rewrite len_app; change (len [auth_type ai]) with 1; lia|rewrite len_app; change (len [auth_type ai]) with 1; lia|intros; apply Ht; by right|].
    exists b2. rewrite E2. split; [done|]. rewrite <- app_assoc in H3. split; [done|]. lia.
Qed.
Lemma starts_with_full (l b : bytes) : starts_with l b -> len l = len b -> b = l.
Proof.
  intros [k ->]%starts_with_split Hl. rewrite len_app in Hl. rewrite (len_0_nil k) by lia. apply app_nil_r.
Qed.

Lemma send_buffer_ok o c b sent : io o = ControlIO c -> con o = true -> buffer o = Some b -> sender_idle c -> receiver_idle c ->
  len b <= INT_MAX -> exists c', send_buffer o (len b) = Ret (with_control c' o) /\ sending (with_control c' o) c' (sent ++ b) sent.
Proof.
  intros Hio Hc Hb (Hs & Hm & Hi) Hr Hl. unfold send_buffer, control_of. rewrite Hio, Hb. run_simpl.
  rewrite rd_range_front by (pose proof (len_nonneg b); lia). run_simpl. rewrite ztake_all by lia.
  destruct (Send_ok (send_sender c) b Hs Hi) as (i & Ei & Hs' & Hp & Hm' & Hne); [by rewrite Hm|]. rewrite Ei. run_simpl.
  eexists. split; [done|]. split; cbn; try done.
  - cbn in Hm'. by rewrite Hm'.
  - by rewrite Hp.
Qed.

Lemma do_receive_ok o c b dest total got : io o = ControlIO c -> con o = true -> buffer o = Some b -> sender_idle c -> receiver_idle c ->
  recv_dest c = dest -> recv_total c = total -> recv_len c = len got -> 0 <= dest -> dest + total <= len b -> len got < total ->
  ztake (len got) (zdrop dest b) = got ->
  exists c', do_receive o = Ret (with_control c' o) /\ receiving (with_control c' o) c' b dest total got.
Proof.
  intros Hio Hc Hb Hs (Hr & Hn) Hd Ht Hl H0 Hdt Hlt Hg. unfold do_receive, control_of. rewrite Hio. run_simpl. ztest. run_simpl.
  destruct (stream_Start_ok (recv_if c) (recv_dest c + recv_len c) (recv_total c - recv_len c) Hr Hn) as (i & Ei & Hat); [lia|].
  unfold StreamRecvInterface_Receiver_Recv. rewrite Ei. run_simpl. pose proof (sa_state _ _ _ _ Hat) as Hst. rewrite Hd, Ht in Hat.
  pose proof (len_nonneg got). eexists. split; [done|]. split; cbn; rewrite ?Hst; try done.
  - lia.
  - unfold arrived. rewrite Hst, decide_False by done. split; [lia|done].
Qed.
Lemma start_receive_ok o c b dest total : io o = ControlIO c -> con o = true -> buffer o = Some b -> sender_idle c -> receiver_idle c ->
  0 <= dest -> dest + total <= len b -> 0 < total ->
  exists c', start_receive o dest total = Ret (with_control c' o) /\ receiving (with_control c' o) c' b dest total [].
Proof.
  intros Hio Hc Hb Hs Hr H0 Hdt Ht. unfold start_receive, control_of. ztest. run_simpl. rewrite Hio. run_simpl.
  apply (do_receive_ok (set_io (ControlIO (Control (send_sender c) (recv_if c) dest 0 total)) o)
    (Control (send_sender c) (recv_if c) dest 0 total) b dest total []); try done.
Qed.
End messages.

(** ** The handlers *)

Section handlers.
Context (ais : list BSocksClient_auth_info) (dest : BAddr).
Hypotheses (Hauth : forall ai, ai ∈ ais -> auth_ok ai) (Hdest : dest_ok dest).
Implicit Types (o : BSocksClient) (c : control_io) (r sent : bytes).

Definition working o : Prop := state o <> STATE_CONNECTING /\ state o <> STATE_UP.
(** Both interfaces are idle: a handler is about to send or to receive. *)
Record between o c : Prop := {
  bt_io : io o = ControlIO c /\ con o = true;
  bt_idle : sender_idle c /\ receiver_idle c;
  bt_config : auth_info o = ais /\ dest_addr o = dest /\ d_err o = false;
  bt_state : working o }.

Definition handled r sent (ok : bool) (res : result) : Prop :=
  exists o' fx, res = Ret (o', fx) /\ freeable o' /\ sent_of fx = [] /\
    ((related ais dest o' r sent /\ reports fx = if decide (state o' = STATE_UP) then [EVENT_UP] else []) \/
     (d_err o' = true /\ reports fx = [EVENT_ERROR] /\ starts_with sent (dialog ais dest r).1 /\
       (ok = true -> dialog ais dest r = (sent, Refused)))).

Lemma working_freeable o c : working o -> con o = true -> io o = ControlIO c -> freeable o.
Proof. intros [H1 H2] Hc Hio. unfold freeable. destruct (state o); try done; split; try done; by exists c. Qed.
Lemma goes_starts f r sent r' : goes ais dest f r sent -> starts_with sent (dialog ais dest (r ++ r')).1.
Proof. intros Hg. rewrite Hg. cbn. apply starts_with_split. by eexists. Qed.
Lemma goes_now f r sent : goes ais dest f r sent -> dialog ais dest r = (sent ++ (f []).1, (f []).2).
Proof. intros Hg. specialize (Hg []). by rewrite app_nil_r in Hg. Qed.

Lemma report_ok o r sent ok : d_err o = false -> freeable o -> starts_with sent (dialog ais dest r).1 ->
  (ok = true -> dialog ais dest r = (sent, Refused)) -> handled r sent ok (report_error o EVENT_ERROR).
Proof.
  intros He Hf Hs Hok. unfold report_error. rewrite He. run_simpl. eexists _, _. split; [done|]. split; [done|]. split; [done|].
  right. by split_and!.
Qed.
Lemma between_free o c : between o c -> freeable o.
Proof. intros [[] _ _ Hw]. by eapply working_freeable. Qed.
Lemma between_buffer o c b : between o c -> between (set_buffer b o) c.
Proof. intros []. by split. Qed.

Lemma len_request : len (request dest) = match dest with BADDR_IPV4 _ _ => 10 | BADDR_IPV6 _ _ => 22 | BADDR_NONE => 0 end.
Proof. unfold dest_ok in Hdest. destruct dest; cbn [request]; rewrite ?len_app; [done|done|]. rewrite Hdest. done. Qed.

Lemma auth_finished_ok o c r sent alloc : between o c -> goes ais dest (fun r' => (request dest, after_request r')) r sent ->
  handled r sent (bool_decide (is_Some alloc)) (auth_finished o alloc).
Proof.
  intros Hb Hg. pose proof Hb as [[Hio Hc] [Hs Hr] (Ha & Hd & He) Hw]. unfold auth_finished.
  pose proof (goes_starts _ _ _ [] Hg) as Hst. rewrite app_nil_r in Hst.
  destruct alloc as [g|]; [|rewrite reserve_none; apply report_ok; [done|by eapply between_free|done|done]].
  rewrite Hd. set (size := match dest with BADDR_IPV4 _ _ => _ | BADDR_IPV6 _ _ => _ | BADDR_NONE => _ end).
  assert (Hsize : size = BSize false (len (request dest)) /\ 0 < len (request dest) <= 22).
  { unfold size. rewrite len_request. unfold dest_ok in Hdest. by destruct dest. }
  destruct Hsize as [-> Hl]. destruct (reserve_ok o (len (request dest)) g) as (b & -> & Hlb); [lia|].
  set (o1 := set_buffer (Some b) o).
  assert (Hwrite : exists atyp, request dest = [5; 1; 0; atyp] ++ zdrop 4 (request dest) /\
    (match dest_addr o1 with
     | BADDR_IPV4 ip port => o ← write_buffer o1 sizeof_socks_request_header (le32 ip ++ le16 port); Ret (o, SOCKS_ATYP_IPV4)
     | BADDR_IPV6 ip port => o ← write_buffer o1 sizeof_socks_request_header (ip ++ le16 port); Ret (o, SOCKS_ATYP_IPV6)
     | BADDR_NONE => Fail AssertionFailed
     end) = Ret (set_buffer (Some (ztake 4 b ++ zdrop 4 (request dest))) o1, atyp)).
  { change (dest_addr o1) with (dest_addr o). rewrite Hd. rewrite len_request in Hlb. unfold dest_ok in Hdest.
    destruct dest as [|ip port|ip port]; [done| |].
    - exists 1. split; [done|]. rewrite (write_buffer_ok o1 b) by (done || (change (len (le32 ip ++ le16 port)) with 6; unfold sizeof_socks_request_header; lia)).
      run_simpl. unfold sizeof_socks_request_header. change (len (le32 ip ++ le16 port)) with 6. rewrite (zdrop_all (4 + 6)) by lia. by rewrite app_nil_r.
    - exists 4. assert (Hz : zdrop 4 (request (BADDR_IPV6 ip port)) = ip ++ le16 port) by done.
      assert (Hl6 : len (ip ++ le16 port) = 18) by (rewrite len_app, Hdest; done).
      split; [done|]. rewrite (write_buffer_ok o1 b) by (done || (rewrite ?Hl6; unfold sizeof_socks_request_header; lia)).
      run_simpl. unfold sizeof_socks_request_header. rewrite Hl6, Hz, (zdrop_all (4 + 18)) by lia. by rewrite app_nil_r. }
  destruct Hwrite as (atyp & Hreq & ->). run_simpl.
  pose proof (len_nonneg (zdrop 4 (request dest))).
  assert (Hlz : len (request dest) = 4 + len (zdrop 4 (request dest))) by (rewrite Hreq at 1; rewrite len_app; done).
  rewrite (write_buffer_ok _ (ztake 4 b ++ zdrop 4 (request dest))); [|done|lia|].
  2: { rewrite len_app, len_ztake by lia. change (len [SOCKS_VERSION; SOCKS_CMD_CONNECT; 0; atyp]) with 4. lia. }
  run_simpl. cbn [bs_value]. change (0 + len [SOCKS_VERSION; SOCKS_CMD_CONNECT; 0; atyp]) with 4.
  rewrite ztake_0, zdrop_app_exact by (rewrite len_ztake; lia). rewrite app_nil_l. change [SOCKS_VERSION; SOCKS_CMD_CONNECT; 0; atyp] with [5; 1; 0; atyp].
  rewrite <- Hreq. set (o2 := set_buffer (Some (request dest)) _).
  destruct (send_buffer_ok o2 c (request dest) sent) as (c' & -> & Hsend); [done|done|done|done|done|unfold INT_MAX; lia|]. run_simpl.
  eexists _, _. split; [done|]. split; [split; [done|by exists c']|]. split; [done|]. left. split; [|done].
  split; [done|]. split; [done|]. split; [done|]. exists c', (sent ++ request dest). split; [by destruct Hsend; split|].
  intros r'. rewrite (Hg r'). cbn. by rewrite app_nil_r.
Qed.

Lemma goes_refused f r sent msg : goes ais dest f r sent -> f msg = ([], Refused) -> dialog ais dest (r ++ msg) = (sent, Refused).
Proof. intros Hg Hf. rewrite (Hg msg), Hf. cbn. by rewrite app_nil_r. Qed.
Lemma goes_next f f' r sent msg : goes ais dest f r sent -> (forall r', f (msg ++ r') = f' r') -> goes ais dest f' (r ++ msg) sent.
Proof. intros Hg Hf r'. rewrite <- app_assoc, (Hg (msg ++ r')). by rewrite Hf. Qed.
Lemma between_report o c f r sent msg ok : between o c -> goes ais dest f r sent -> (ok = true -> f msg = ([], Refused)) ->
  handled (r ++ msg) sent ok (report_error o EVENT_ERROR).
Proof.
  intros Hb Hg Hf. apply report_ok; [apply (bt_config _ _ Hb)|by eapply between_free|by eapply goes_starts|].
  intros Hok. eapply goes_refused; [done|auto].
Qed.

Lemma find_auth_in l method ai : find_auth l method = Some ai -> ai ∈ l /\ auth_type ai = method.
Proof.
  induction l as [|a l IH]; cbn; [done|]. destruct (Z.eqb_spec (auth_type a) method).
  - intros [= <-]. split; [by left|done].
  - intros H. destruct (IH H). split; [by right|done].
Qed.

(** The rest of a message is said: the buffer holds it. *)
Lemma say_ok o c b f r sent st : between o c -> buffer o = Some b -> 0 < len b <= INT_MAX -> goes ais dest f r (sent ++ b) ->
  st = STATE_SENDING_PASSWORD /\ f = after_login dest \/ st = STATE_SENDING_REQUEST /\ f = silent after_request ->
  handled r sent true (o ← send_buffer o (len b); Ret (set_state st o, [])).
Proof.
  intros [[Hio Hc] [Hs Hr] (Ha & Hd & He) Hw] Hb Hl Hg Hst.
  destruct (send_buffer_ok o c b sent Hio Hc Hb Hs Hr) as (c' & -> & Hsend); [lia|]. run_simpl.
  eexists _, _. split; [done|]. split; [destruct Hst as [[-> _]|[-> _]]; (split; [done|by exists c'])|]. split; [done|]. left.
  assert (Hthen : forall g, f = g -> sends_then ais dest g (set_state st (with_control c' o)) r sent).
  { intros g <-. exists c', (sent ++ b). split; [by destruct Hsend; split|done]. }
  destruct Hst as [[-> Hf]|[-> Hf]]; (split; [|done]); split_and!; try done; by apply Hthen.
Qed.

Lemma login_written o u p g : field_ok u && field_ok p = true -> exists o' b,
  reserve_buffer o (bsize_fromsize (to_size_t (1 + 1 + len u + 1 + len p))) (Some g) = Some o' /\
  (o ← write_buffer o' 0 [1]; o ← write_buffer o 1 [u8 (len u)]; o ← write_buffer o 2 u;
   o ← write_buffer o (2 + len u) [u8 (len p)]; write_buffer o (3 + len u) p) = Ret (set_buffer (Some (login u p)) o) /\
  o' = set_buffer (Some b) o /\ to_size_t (1 + 1 + len u + 1 + len p) = len (login u p) /\ 0 < len (login u p) <= INT_MAX.
Proof.
  intros [Hu Hp]%andb_true_iff. unfold field_ok in Hu, Hp. rewrite andb_true_iff, Z.ltb_lt, Z.leb_le in Hu, Hp.
  assert (Hlen : len (login u p) = 1 + 1 + len u + 1 + len p) by (unfold login; rewrite !len_app; change (len [1; len u]) with 2; change (len [len p]) with 1; lia).
  assert (Hsz : to_size_t (1 + 1 + len u + 1 + len p) = len (login u p)) by (unfold to_size_t; rewrite Z.mod_small; lia).
  rewrite Hsz. destruct (reserve_ok o (len (login u p)) g) as (b & E & Hb); [lia|].
  exists (set_buffer (Some b) o), b. unfold bsize_fromsize. rewrite E. split; [done|].
  destruct (write_buffer_extend (set_buffer (Some b) o) b [] 0 [1]) as (b1 & -> & H1 & L1); [done|apply starts_with_nil|done|rewrite Hb; change (len [1]) with 1; rewrite len_nil; lia|]. run_simpl.
  destruct (write_buffer_extend (set_buffer (Some b1) (set_buffer (Some b) o)) b1 [1] 1 [u8 (len u)]) as (b2 & -> & H2 & L2); [done|done|done|change (len [1]) with 1; change (len [u8 (len u)]) with 1; lia|]. run_simpl.
  destruct (write_buffer_extend (set_buffer (Some b2) (set_buffer (Some b1) (set_buffer (Some b) o))) b2 ([1] ++ [u8 (len u)]) 2 u) as (b3 & -> & H3 & L3); [done|done|done|change (len ([1] ++ [u8 (len u)])) with 2; lia|]. run_simpl.
  destruct (write_buffer_extend (set_buffer (Some b3) (set_buffer (Some b2) (set_buffer (Some b1) (set_buffer (Some b) o)))) b3 (([1] ++ [u8 (len u)]) ++ u) (2 + len u) [u8 (len p)]) as (b4 & -> & H4 & L4);
    [done|done|by rewrite len_app|rewrite len_app; change (len ([1] ++ [u8 (len u)])) with 2; change (len [u8 (len p)]) with 1; lia|]. run_simpl.
  destruct (write_buffer_extend (set_buffer (Some b4) (set_buffer (Some b3) (set_buffer (Some b2) (set_buffer (Some b1) (set_buffer (Some b) o))))) b4 ((([1] ++ [u8 (len u)]) ++ u) ++ [u8 (len p)]) (3 + len u) p) as (b5 & -> & H5 & L5);
    [done|done|rewrite !len_app; change (len [1]) with 1; change (len [u8 (len u)]) with 1; change (len [u8 (len p)]) with 1; lia|
     rewrite !len_app; change (len [1]) with 1; change (len [u8 (len u)]) with 1; change (len [u8 (len p)]) with 1; lia|].
  unfold u8 in H5. rewrite !Z.mod_small in H5 by lia.
  assert (Hfull : b5 = login u p).
  { assert (Heq : (((([1] ++ [len u]) ++ u) ++ [len p]) ++ p) = login u p) by (unfold login; by rewrite <- !app_assoc).
    rewrite Heq in H5. apply starts_with_full; [done|lia]. }
  rewrite Hfull. split; [done|]. split; [done|]. split; [done|]. unfold INT_MAX. lia.
Qed.

Lemma field_test (u p : bytes) : (len u =? 0) || (255 <? len u) || (len p =? 0) || (255 <? len p) = negb (field_ok u && field_ok p).
Proof.
  unfold field_ok. pose proof (len_nonneg u). pose proof (len_nonneg p).
  destruct (Z.eqb_spec (len u) 0), (Z.ltb_spec 255 (len u)), (Z.eqb_spec (len p) 0), (Z.ltb_spec 255 (len p)),
    (Z.ltb_spec 0 (len u)), (Z.leb_spec (len u) 255), (Z.ltb_spec 0 (len p)), (Z.leb_spec (len p) 255); cbn; done || lia.
Qed.

Lemma handled_weaken r sent (ok ok' : bool) res : handled r sent ok res -> (ok' = true -> ok = true) -> handled r sent ok' res.
Proof.
  intros (o' & fx & E & Hf & Hs & H) Hok. exists o', fx. do 3 (split; [done|]).
  destruct H as [H|(H1 & H2 & H3 & H4)]; [by left|right]. split_and!; auto.
Qed.

Lemma received_hello_ok o c r sent v m k alloc : between o c -> buffer o = Some (v :: m :: k) -> goes ais dest (after_hello ais dest) r sent ->
  handled (r ++ [v; m]) sent (bool_decide (is_Some alloc)) (received_hello o alloc).
Proof.
  intros Hb Hbuf Hg. pose proof Hb as [[Hio Hc] [Hs Hr] (Ha & Hd & He) Hw]. unfold received_hello. rewrite Hbuf. run_simpl.
  change (rd (v :: m :: k) 0) with (Ret v). change (rd (v :: m :: k) 1) with (Ret m). run_simpl. rewrite Ha. unfold SOCKS_VERSION.
  destruct (Z.eqb_spec v 5) as [->|Hv]; cbn [negb]; [|eapply between_report; try done; intros _; cbn; by rewrite (proj2 (Z.eqb_neq v 5))].
  destruct (find_auth ais m) as [ai|] eqn:Hf; [|eapply between_report; try done; intros _; cbn; by rewrite Hf].
  destruct (find_auth_in _ _ _ Hf) as [Hin Hm]. unfold SOCKS_METHOD_NO_AUTHENTICATION_REQUIRED, SOCKS_METHOD_USERNAME_PASSWORD.
  destruct (Hauth ai Hin) as [[Ht Hp]|(u & p & Ht & Hp)]; rewrite Ht; cbn [Z.eqb Pos.eqb].
  - apply (auth_finished_ok o c); [done|]. eapply goes_next; [done|]. intros r'. cbn. rewrite Hf. unfold after_method. by rewrite Hp.
  - rewrite Hp. run_simpl. rewrite field_test. destruct (field_ok u && field_ok p) eqn:Hfield; cbn [negb];
      [|eapply between_report; try done; intros _; cbn; rewrite Hf; unfold after_method; by rewrite Hp, Hfield].
    destruct alloc as [g|]; [|rewrite reserve_none; eapply between_report; try done].
    destruct (login_written o u p g Hfield) as (o' & b & -> & Hwr & -> & Hsz & Hl). cbn [bs_value bsize_fromsize]. rewrite Hsz.
    set (o1 := set_buffer (Some b) o) in *. clearbody o1.
    destruct (write_buffer o1 0 [1]) as [o2|]; [|done]. cbn in Hwr |- *.
    destruct (write_buffer o2 1 _) as [o3|]; [|done]. cbn in Hwr |- *.
    destruct (write_buffer o3 2 u) as [o4|]; [|done]. cbn in Hwr |- *.
    destruct (write_buffer o4 (2 + len u) _) as [o5|]; [|done]. cbn in Hwr |- *. rewrite Hwr. cbn.
    change (1 :: len u :: u ++ len p :: p) with (login u p).
    eapply handled_weaken; [apply (say_ok (set_buffer (Some (login u p)) o) c (login u p) (after_login dest))|done];
      [by apply between_buffer|done|done| |by left].
    intros r'. rewrite <- app_assoc, (Hg ([5; m] ++ r')). cbn. rewrite Hf. unfold after_method. rewrite Hp, Hfield.
    change (1 :: len u :: u ++ len p :: p) with (login u p). destruct (after_login dest r') as [s w]. cbn [fst snd]. by rewrite app_assoc.
Qed.
Lemma received_password_reply_ok o c r sent v st k alloc : between o c -> buffer o = Some (v :: st :: k) -> goes ais dest (after_login dest) r sent ->
  handled (r ++ [v; st]) sent (bool_decide (is_Some alloc)) (received_password_reply o alloc).
Proof.
  intros Hb Hbuf Hg. unfold received_password_reply. rewrite Hbuf. run_simpl.
  change (rd (v :: st :: k) 0) with (Ret v). change (rd (v :: st :: k) 1) with (Ret st). run_simpl.
  destruct (Z.eqb_spec v 1) as [->|Hv]; cbn [negb]; [|eapply between_report; try done; intros _; cbn; by rewrite (proj2 (Z.eqb_neq v 1))].
  run_simpl. destruct (Z.eqb_spec st 0) as [->|Hv]; cbn [negb]; [|eapply between_report; try done; intros _; cbn; by rewrite (proj2 (Z.eqb_neq st 0))].
  apply (auth_finished_ok o c); [done|]. by eapply goes_next.
Qed.
Lemma received_reply_header_ok o c r sent v rep rsv atyp k : between o c -> buffer o = Some (v :: rep :: rsv :: atyp :: k) -> len k = 18 ->
  goes ais dest (silent after_request) r sent -> handled (r ++ [v; rep; rsv; atyp]) sent true (received_reply_header o).
Proof.
  intros Hb Hbuf Hk Hg. pose proof Hb as [[Hio Hc] [Hs Hr] (Ha & Hd & He) Hw]. unfold received_reply_header. rewrite Hbuf. run_simpl.
  change (rd (v :: rep :: rsv :: atyp :: k) 0) with (Ret v). change (rd (v :: rep :: rsv :: atyp :: k) 1) with (Ret rep).
  change (rd (v :: rep :: rsv :: atyp :: k) 3) with (Ret atyp). run_simpl. unfold SOCKS_VERSION, SOCKS_REP_SUCCEEDED, SOCKS_ATYP_IPV4, SOCKS_ATYP_IPV6.
  unfold sizeof_socks_reply_header, sizeof_socks_addr_ipv4, sizeof_socks_addr_ipv6.
  destruct (Z.eqb_spec v 5) as [->|Hv]; cbn [negb];
    [|eapply between_report; try done; intros _; unfold silent, after_request; by rewrite (proj2 (Z.eqb_neq v 5))].
  destruct (Z.eqb_spec rep 0) as [->|Hv]; cbn [negb];
    [|eapply between_report; try done; intros _; unfold silent, after_request; by rewrite (proj2 (Z.eqb_neq rep 0))].
  assert (Hrest : forall n, 0 < n <= 18 -> (forall r', after_request ([5; 0; rsv; atyp] ++ r') = after_header n r') ->
    handled (r ++ [5; 0; rsv; atyp]) sent true (o ← start_receive o 4 n; Ret (set_state STATE_RECEIVED_REPLY_HEADER o, []))).
  { intros n Hn Hf. destruct (start_receive_ok o c (5 :: 0 :: rsv :: atyp :: k) 4 n Hio Hc Hbuf Hs Hr) as (c' & -> & Hrecv);
      [lia|rewrite !len_cons; lia|lia|]. run_simpl.
    eexists _, _. split; [done|]. split; [split; [done|by exists c']|]. split; [done|]. left. split; [|done]. split_and!; try done.
    exists n. split; [lia|]. eexists c', _, _, []. split; [by destruct Hrecv; split|]. rewrite app_nil_r. split; [done|].
    eapply goes_next; [done|]. intros r'. unfold silent. by rewrite Hf. }
  destruct (Z.eqb_spec atyp 1) as [->|H1]; [by apply Hrest|]. destruct (Z.eqb_spec atyp 4) as [->|H4]; [by apply Hrest|].
  eapply between_report; try done. intros _. unfold silent, after_request. by rewrite (proj2 (Z.eqb_neq atyp 1)), (proj2 (Z.eqb_neq atyp 4)).
Qed.
Lemma received_reply_rest_ok o c r sent n got : between o c -> goes ais dest (silent (after_header n)) r sent -> n <= len got ->
  handled (r ++ got) sent true (received_reply_rest o).
Proof.
  intros [[Hio Hc] [Hs Hr] (Ha & Hd & He) Hw] Hg Hl. unfold received_reply_rest, free_control_io, control_of, init_up_io.
  cbn [io set_buffer]. rewrite Hio. run_simpl. cbn [con io set_io set_buffer]. rewrite Hc. run_simpl.
  eexists _, _. split; [done|]. split; [by split|]. split; [done|]. left. split; [|done].
  split_and!; try done. cbn. split_and!; try done. rewrite (Hg got). unfold silent, after_header. cbn. ztest. by rewrite app_nil_r.
Qed.

(** ** Events *)

(** A working client is sending or receiving; with other interfaces that are
    as far it is in the same place of the dialog. *)
Lemma related_working o r sent : related ais dest o r sent -> working o ->
  (exists c full, sending o c full sent /\
    forall c' sent', sending (with_control c' o) c' full sent' -> related ais dest (with_control c' o) r sent') \/
  (exists c b at_ n r0 got, receiving o c b at_ n got /\ r = r0 ++ got /\
    forall c' b' got', receiving (with_control c' (set_buffer (Some b') o)) c' b' at_ n got' -> len b' = len b ->
      related ais dest (with_control c' (set_buffer (Some b') o)) (r0 ++ got') sent).
Proof.
  intros (Ha & Hd & He & H) [H1 H2]. unfold related.
  destruct (state o) eqn:Hst; try done.
  all: try (destruct H as (c & full & Hs & Hg); left; exists c, full; split; [done|]; intros c' sent' Hs'; cbn; rewrite Hst; split_and!; try done; by exists c', full).
  all: try (destruct H as (c & b & r0 & got & Hr & Hr0 & Hg); right; exists c, b; do 4 eexists; split; [exact Hr|]; split; [exact Hr0|];
    intros c' b' got' Hr' _; cbn; rewrite Hst; split_and!; try done; by exists c', b', r0, got').
  - destruct H as ((c & b & r0 & got & Hr & Hr0 & Hg) & b0 & Hb0 & Hl). right. exists c, b. do 4 eexists. split; [exact Hr|]. split; [exact Hr0|].
    intros c' b' got' Hr' Hb'. cbn. rewrite Hst. pose proof (rg_buffer _ _ _ _ _ _ Hr). split_and!; try done; [by exists c', b', r0, got'|].
    exists b'. split; [done|]. rewrite Hb'. congruence.
  - destruct H as (n & Hn & c & b & r0 & got & Hr & Hr0 & Hg). right. exists c, b. do 4 eexists. split; [exact Hr|]. split; [exact Hr0|].
    intros c' b' got' Hr' _. cbn. rewrite Hst. split_and!; try done. exists n. split; [done|]. by exists c', b', r0, got'.
Qed.

Lemma related_freeable o r sent : related ais dest o r sent -> freeable o.
Proof.
  intros Hr. destruct (decide (state o = STATE_CONNECTING)) as [Hc|Hc]; [|destruct (decide (state o = STATE_UP)) as [Hu|Hu]].
  - destruct Hr as (_ & _ & _ & Hr). unfold freeable. rewrite Hc in *. tauto.
  - destruct Hr as (_ & _ & _ & Hr). unfold freeable. rewrite Hu in *. tauto.
  - destruct (related_working o r sent Hr) as [(c & full & [[Hio Hco]] & _)|(c & b & at_ & n & r0 & got & [[Hio Hco]] & _)];
      [done|by apply (working_freeable o c)..].
Qed.
Lemma quiet_outcome o r sent e o' fx : related ais dest o r sent -> step o e = Ret (o', fx) -> reports fx = [] ->
  (state o' = STATE_UP -> state o = STATE_UP) ->
  related ais dest o' (r ++ received_by e) (sent ++ sent_of fx) -> outcome ais dest o r sent e.
Proof.
  intros Hr E Hf Hu Hr'. exists o', fx. split; [done|]. split; [by eapply related_freeable|]. left. split; [done|].
  rewrite Hf. rewrite decide_False; [done|]. intros [H1 H2]. auto.
Qed.
Lemma idle_outcome o r sent e : related ais dest o r sent -> step o e = Ret (o, []) -> received_by e = [] -> outcome ais dest o r sent e.
Proof. intros Hr E He. eapply quiet_outcome; try done. rewrite He. by rewrite !app_nil_r. Qed.
Lemma handled_outcome o r sent e res : step o e = res -> received_by e = [] -> working o -> handled r sent (blameless e) res ->
  outcome ais dest o r sent e.
Proof.
  intros E He [_ Hw] (o' & fx & -> & Hf & Hs & H). exists o', fx. split; [done|]. split; [done|]. rewrite He, Hs, !app_nil_r.
  destruct H as [[H1 H2]|(H1 & H2 & H3 & H4)]; [left|right].
  - split; [done|]. rewrite H2. destruct (decide (state o' = STATE_UP)) as [Hu|Hu]; [by rewrite decide_True|rewrite decide_False; tauto].
  - split; [done|]. exists EVENT_ERROR. by split_and!; auto.
Qed.

(** The sender moves: [d] is taken, if anything. *)
Lemma sender_outcome o r sent e : related ais dest o r sent -> received_by e = [] ->
  (forall c, io o = ControlIO c -> sender_ok (send_sender c) -> i_state (input (send_sender c)) <> PPI_STATE_NONE ->
    exists s' d d' fx, step o e = Ret (with_control (with_sender s' c) o, fx) /\ reports fx = [] /\ sent_of fx = d /\
      pending (send_sender c) = d ++ d' /\ sends_on (send_sender c) d' s') ->
  (forall c, io o = ControlIO c -> sender_idle c -> step o e = Ret (o, [])) ->
  ((forall c, io o <> ControlIO c) -> step o e = Ret (o, [])) -> outcome ais dest o r sent e.
Proof.
  intros Hr He Hmove Hstay Hno. destruct (decide (working o)) as [Hw|Hw].
  - destruct (related_working o r sent Hr Hw) as [(c & full & Hs & Hk)|(c & b & at_ & n & r0 & got & Hrecv & Hr0 & Hk)].
    + destruct Hs as [[Hio Hc] Hb (Hso & Hm & Hne) Hfull Hri].
      destruct (Hmove c Hio Hso Hne) as (s' & d & d' & fx & E & Hrep & Hd & Hp & (Hso' & Hp' & Hm' & Hne')).
      eapply quiet_outcome; try done. rewrite He, Hd, app_nil_r. apply Hk. split; cbn; try done.
      * by rewrite Hm'.
      * by rewrite Hp', <- app_assoc, <- Hp.
    + eapply idle_outcome; try done. by eapply Hstay; apply Hrecv.
  - apply idle_outcome; try done. apply Hno. intros c Hio. apply Hw. destruct Hr as (_ & _ & _ & Hr).
    split; intros Hs; rewrite Hs in Hr; destruct Hr as (H1 & H2 & _); congruence.
Qed.

Lemma step_control o c e : io o = ControlIO c -> (match e with Connected _ _ _ | ConnectionEvent _ => False | _ => True end) ->
  step o e = control_step o c e.
Proof. intros Hio He. by destruct e; cbn [step]; rewrite ?Hio. Qed.
Lemma step_no_control o e : (forall c, io o <> ControlIO c) -> (match e with Connected _ _ _ | ConnectionEvent _ => False | _ => True end) ->
  step o e = Ret (o, []).
Proof. intros Hio He. destruct e; cbn [step]; try done; destruct (io o) eqn:E; try done; by destruct (Hio c). Qed.

Lemma with_sender_id o c : io o = ControlIO c -> with_control (with_sender (send_sender c) c) o = o.
Proof. intros H. destruct c. unfold with_control, with_sender. cbn. rewrite <- H. by destruct o. Qed.
Lemma sender_idle_jobs c : sender_idle c -> job_operation (input (send_sender c)) = false /\ job_done (input (send_sender c)) = false /\
  s_operation (output (send_sender c)) = false /\ s_done (output (send_sender c)) = false /\ s_state (output (send_sender c)) = STREAM_STATE_NONE.
Proof.
  intros ([[Hi Hu] Ho Hidle _] & _ & Hs). destruct (Hidle ltac:(by rewrite Hs)) as [_ Hos].
  by rewrite (pi_op _ Hi), (pi_done _ Hi), (si_op _ Ho), (si_done _ Ho), Hs, Hos.
Qed.

Lemma SendPacketJob_outcome o r sent : related ais dest o r sent -> outcome ais dest o r sent SendPacketJob.
Proof.
  intros Hr. apply sender_outcome; try done.
  - intros c Hio Hs Hne. destruct (input_operation_job_ok (send_sender c) Hs Hne) as (s' & E & Hs').
    exists s', [], (pending (send_sender c)), []. rewrite (step_control o c) by done. cbn [control_step]. rewrite E. by run_simpl.
  - intros c Hio Hs. rewrite (step_control o c) by done. cbn [control_step]. unfold input_operation_job.
    rewrite (proj1 (sender_idle_jobs c Hs)). cbn [negb]. run_simpl. by rewrite (with_sender_id o c Hio).
  - intros Hno. by apply step_no_control.
Qed.
Lemma SendDoneJob_outcome o r sent : related ais dest o r sent -> outcome ais dest o r sent SendDoneJob.
Proof.
  intros Hr. apply sender_outcome; try done.
  - intros c Hio Hs Hne. destruct (output_done_job_ok (send_sender c) Hs Hne) as (s' & E & Hs').
    exists s', [], (pending (send_sender c)), []. rewrite (step_control o c) by done. cbn [control_step]. rewrite E. by run_simpl.
  - intros c Hio Hs. rewrite (step_control o c) by done. cbn [control_step]. unfold output_done_job.
    destruct (sender_idle_jobs c Hs) as (_ & _ & _ & -> & _). cbn [negb]. run_simpl. by rewrite (with_sender_id o c Hio).
  - intros Hno. by apply step_no_control.
Qed.
Lemma SendOperationJob_outcome o r sent : related ais dest o r sent -> outcome ais dest o r sent SendOperationJob.
Proof.
  intros Hr. apply sender_outcome; try done.
  - intros c Hio Hs Hne. destruct (output_operation_job_ok (send_sender c) Hs Hne) as (s' & d & E & Hs').
    exists s', [], (pending (send_sender c)), (match d with Some d => [ConSend d] | None => [] end).
    rewrite (step_control o c) by done. cbn [control_step]. rewrite E. run_simpl. by destruct d.
  - intros c Hio Hs. rewrite (step_control o c) by done. cbn [control_step]. unfold output_operation_job.
    destruct (sender_idle_jobs c Hs) as (_ & _ & -> & _). cbn [negb]. run_simpl. by rewrite (with_sender_id o c Hio).
  - intros Hno. by apply step_no_control.
Qed.
Lemma SendDone_outcome o r sent n : related ais dest o r sent -> allowed o (SendDone n) -> outcome ais dest o r sent (SendDone n).
Proof.
  intros Hr [_ Ha]. cbn [possible] in Ha. destruct (io o) as [|c|] eqn:Hio; try done. destruct Ha as [Hb Hn].
  apply sender_outcome; try done.
  - intros c' Hio' Hs Hne. rewrite Hio in Hio'. injection Hio' as <-.
    destruct (output_done_ok (send_sender c) n Hs Hb Hn) as (s' & d & d' & E & Hp & Hs').
    exists s', d, d', [ConSent d]. rewrite (step_control o c) by done. cbn [control_step]. rewrite E. run_simpl. cbn. by rewrite app_nil_r.
  - intros c' Hio' Hs. rewrite Hio in Hio'. injection Hio' as <-. destruct (sender_idle_jobs c Hs) as (_ & _ & _ & _ & ?). congruence.
  - intros Hno. by destruct (Hno c).
Qed.

(** The receiver moves. *)
Lemma receiver_outcome o r sent e :
  related ais dest o r sent -> (match e with RecvOperationJob | RecvDone _ | RecvDoneJob _ => True | _ => False end) ->
  (forall c, io o = ControlIO c -> sender_ok (send_sender c) -> receiver_idle c -> received_by e = [] /\ step o e = Ret (o, [])) ->
  ((forall c, io o <> ControlIO c) -> received_by e = []) ->
  (forall c b at_ n r0 got, receiving o c b at_ n got -> r = r0 ++ got -> working o ->
    (forall c' b' got', receiving (with_control c' (set_buffer (Some b') o)) c' b' at_ n got' -> len b' = len b ->
      related ais dest (with_control c' (set_buffer (Some b') o)) (r0 ++ got') sent) -> outcome ais dest o r sent e) ->
  outcome ais dest o r sent e.
Proof.
  intros Hr He Hidle Hno Hmove. destruct (decide (working o)) as [Hw|Hw].
  - destruct (related_working o r sent Hr Hw) as [(c & full & [[Hio Hco] Hb (Hso & _) Hfull Hri] & _)|(c & b & at_ & n & r0 & got & Hrecv & Hr0 & Hk)].
    + destruct (Hidle c Hio Hso Hri). by apply idle_outcome.
    + by eapply Hmove.
  - assert (Hio : forall c, io o <> ControlIO c).
    { intros c Hio. apply Hw. destruct Hr as (_ & _ & _ & Hr). split; intros Hs; rewrite Hs in Hr; destruct Hr as (H1 & H2 & _); congruence. }
    apply idle_outcome; [done| |by apply Hno]. apply step_no_control; [done|]. by destruct e.
Qed.
Lemma receiver_idle_jobs c : receiver_idle c -> s_operation (recv_if c) = false /\ s_done (recv_if c) = false.
Proof. intros [Ho Hs]. by rewrite (si_op _ Ho), (si_done _ Ho), Hs. Qed.
Lemma set_buffer_id o b : buffer o = Some b -> set_buffer (Some b) o = o.
Proof. intros H. rewrite <- H. by destruct o. Qed.

Lemma RecvOperationJob_outcome o r sent : related ais dest o r sent -> outcome ais dest o r sent RecvOperationJob.
Proof.
  intros Hr. apply receiver_outcome; try done.
  - intros c Hio _ Hi. split; [done|]. rewrite (step_control o c) by done. cbn [control_step].
    by rewrite (proj1 (receiver_idle_jobs c Hi)).
  - intros c b at_ n r0 got [[Hio Hc] Hb Hs Hp Hl [Hat Hne] Hd Hg] -> Hw Hk.
    destruct (s_operation (recv_if c)) eqn:Hj.
    2: { apply idle_outcome; [done| |done]. rewrite (step_control o c) by done. cbn [control_step]. by rewrite Hj. }
    pose proof Hj as Hop. rewrite (si_op _ (sa_ok _ _ _ _ Hat)) in Hop. apply bool_decide_eq_true in Hop. rewrite Hop in Hat.
    destruct (stream_job_operation_ok (recv_if c) _ _ Hat) as (i & Ei & Hat'). pose proof (sa_state _ _ _ _ Hat') as Hst.
    eapply (quiet_outcome o _ sent RecvOperationJob (with_control (with_recv i c) (set_buffer (Some b) o)) [ConRecv (n - recv_len c)]); [done| |done|done|].
    + rewrite (step_control o c) by done. cbn [control_step]. rewrite Hj. cbn [negb]. unfold StreamRecvInterface_job_operation.
      rewrite Ei. run_simpl. by rewrite set_buffer_id.
    + cbn [received_by sent_of flat_map sent_by app]. rewrite !app_nil_r. apply Hk; [|done]. split; cbn; rewrite ?Hst; try done.
      unfold arrived in *. rewrite Hop in Hg. by rewrite Hst.
Qed.
Lemma RecvDone_outcome o r sent d : related ais dest o r sent -> allowed o (RecvDone d) -> outcome ais dest o r sent (RecvDone d).
Proof.
  intros Hr [_ Ha]. cbn [possible] in Ha. destruct (io o) as [|c0|] eqn:Hio0; try done. destruct Ha as [Hbusy Hd].
  apply receiver_outcome; try done.
  - intros c Hio _ [_ Hi]. rewrite Hio0 in Hio. injection Hio as <-. congruence.
  - intros Hno. by destruct (Hno c0).
  - intros c b at_ n r0 got [[Hio Hc] Hb Hs (Hp1 & Hp2 & Hp3 & Hp4) Hl [Hat Hne] _ [Hg1 Hg2]] -> Hw Hk.
    rewrite Hio0 in Hio. injection Hio as <-. rewrite Hbusy in Hat. rewrite (sa_len _ _ _ _ Hat) in Hd.
    destruct (stream_Done_ok (recv_if c0) _ _ (len d) Hat Hd) as (i & Ei & Hat' & Hdl). pose proof (sa_state _ _ _ _ Hat') as Hst.
    unfold arrived in Hg1. rewrite Hbusy, decide_False, Z.add_0_r in Hg1 by done. pose proof (len_nonneg d). pose proof (len_nonneg got).
    assert (Hb' : write_buffer o (at_ + recv_len c0) d =
      Ret (set_buffer (Some (ztake (at_ + recv_len c0) b ++ d ++ zdrop (at_ + recv_len c0 + len d) b)) o)) by (by apply write_buffer_ok; [| |lia]; [|lia]).
    eapply (quiet_outcome o _ sent (RecvDone d) (with_control (with_recv i c0) (set_buffer _ o)) []); [done| |done|done|].
    + rewrite (step_control o c0) by done. cbn [control_step]. rewrite (sa_data _ _ _ _ Hat). run_simpl. rewrite Hb'. run_simpl.
      unfold StreamRecvInterface_Done. rewrite Ei. by run_simpl.
    + cbn [received_by sent_of flat_map]. rewrite <- app_assoc, app_nil_r. apply Hk; [|rewrite !len_app, len_ztake, len_zdrop by lia; lia]. split; cbn; rewrite ?Hst; try done.
      * split_and!; try done. rewrite !len_app, len_ztake, len_zdrop by lia. lia.
      * intros _. rewrite Hdl. lia.
      * unfold arrived. rewrite Hst, decide_True, Hdl, len_app by done. split; [lia|].
        rewrite zdrop_app_l by (rewrite len_ztake; lia). rewrite ztake_app_r; rewrite len_zdrop, len_ztake; rewrite ?len_ztake; try lia.
        replace (len got + len d - (at_ + recv_len c0 - at_)) with (len d) by lia. rewrite ztake_app_exact by done. f_equal.
        rewrite <- Hg2, Hg1. unfold ztake, zdrop. rewrite take_drop_commute. do 2 f_equal. lia.
Qed.

(** A message has been taken: its reply is awaited. *)
Lemma await_ok o c f r sent n total st alloc : between o c -> goes ais dest f r sent -> 0 < total <= n -> st <> STATE_UP ->
  (forall o', awaits ais dest f 0 total o' r sent -> (exists b, buffer o' = Some b /\ len b = n) ->
    auth_info o' = ais -> dest_addr o' = dest -> d_err o' = false -> state o' = st -> related ais dest o' r sent) ->
  handled r sent (bool_decide (is_Some alloc))
    (match reserve_buffer o (BSize false n) alloc with
     | None => report_error o EVENT_ERROR
     | Some o => o ← start_receive o 0 total; Ret (set_state st o, [])
     end).
Proof.
  intros Hb Hg Ht Hst Hrel. pose proof Hb as [[Hio Hc] [Hs Hr] (Ha & Hd & He) Hw].
  destruct alloc as [g|]; [|rewrite reserve_none; apply report_ok; [done|by eapply between_free| |done]].
  2: { rewrite <- (app_nil_r r). by eapply goes_starts. }
  destruct (reserve_ok o n g) as (b & -> & Hl); [lia|].
  destruct (start_receive_ok (set_buffer (Some b) o) c b 0 total Hio Hc) as (c' & -> & Hrecv); [done|done|done|lia|lia|lia|]. run_simpl.
  assert (Haw : related ais dest (set_state st (with_control c' (set_buffer (Some b) o))) r sent).
  { apply Hrel; try done; [|by exists b]. exists c', b, r, []. rewrite app_nil_r. split; [by destruct Hrecv; split|done]. }
  eexists _, _. split; [done|]. split; [by eapply related_freeable|]. split; [done|]. left. split; [done|]. by rewrite decide_False.
Qed.

Lemma sent_whole o c full sent : sending o c full sent -> job_done (input (send_sender c)) = true -> auth_info o = ais -> dest_addr o = dest ->
  d_err o = false -> working o -> exists i, PacketPassInterface_job_done (input (send_sender c)) = Ret i /\ sent = full /\
    between (with_control (with_sender (set_input i (send_sender c)) c) o) (with_sender (set_input i (send_sender c)) c).
Proof.
  intros [[Hio Hc] Hb (Hso & Hm & Hne) Hfull Hri] Hj Ha Hd He Hw. pose proof Hso as [[Hi Hu] Ho Hidle Hbusy].
  destruct (job_done_ok (input (send_sender c)) Hi Hj) as (i & -> & (Hi' & Hs' & Hm' & _ & Hu') & Hs). exists i. split; [done|].
  unfold pending in Hfull. rewrite Hs, app_nil_r in Hfull. split; [done|]. destruct (Hidle ltac:(by rewrite Hs)) as [Hl Hos].
  split; try done. split; [|done]. split; [|by cbn; rewrite Hm'].
  split; cbn; rewrite ?Hs', ?Hu'; done.
Qed.
Lemma SendPacketDoneJob_outcome o r sent alloc : related ais dest o r sent -> outcome ais dest o r sent (SendPacketDoneJob alloc).
Proof.
  intros Hr. pose proof Hr as (Ha & Hd & He & H).
  assert (Hidle : (forall c, io o = ControlIO c -> job_done (input (send_sender c)) = false) -> outcome ais dest o r sent (SendPacketDoneJob alloc)).
  { intros Hj. apply idle_outcome; [done| |done]. destruct (io o) as [|c|] eqn:Hio; [by apply step_no_control; [rewrite Hio|]| |by apply step_no_control; [rewrite Hio|]].
    rewrite (step_control o c) by done. cbn [control_step]. by rewrite (Hj c). }
  assert (Hsend : forall f n total st, sends_then ais dest f o r sent -> working o -> 0 < total <= n -> st <> STATE_UP ->
    (forall o', state o' = state o -> is_Some (buffer o') -> send_handler_done o' alloc =
      match reserve_buffer o' (BSize false n) alloc with
      | None => report_error o' EVENT_ERROR
      | Some o => o ← start_receive o 0 total; Ret (set_state st o, [])
      end) ->
    (forall o', awaits ais dest f 0 total o' r sent -> (exists b, buffer o' = Some b /\ len b = n) ->
      auth_info o' = ais -> dest_addr o' = dest -> d_err o' = false -> state o' = st -> related ais dest o' r sent) ->
    outcome ais dest o r sent (SendPacketDoneJob alloc)).
  { intros f n total st (c & full & Hs & Hg) Hw Ht Hst Heq Hrel. pose proof (proj1 (sg_io _ _ _ _ Hs)) as Hio.
    destruct (job_done (input (send_sender c))) eqn:Hj; [|apply Hidle; intros c' Hc'; congruence].
    destruct (sent_whole o c full sent Hs Hj Ha Hd He Hw) as (i & Ei & <- & Hb).
    eapply handled_outcome; [|done|done|].
    - rewrite (step_control o c) by done. cbn [control_step]. rewrite Hj. cbn [negb]. rewrite Ei. run_simpl.
      apply Heq; [done|]. apply Hs.
    - by eapply await_ok. }
  assert (Hrecv : forall f at_ n, awaits ais dest f at_ n o r sent -> outcome ais dest o r sent (SendPacketDoneJob alloc)).
  { intros f at_ n (c & b & r0 & got & Hrecv & _). apply Hidle. intros c' Hc'. pose proof (proj1 (rg_io _ _ _ _ _ _ Hrecv)) as Hio.
    rewrite Hc' in Hio. injection Hio as ->. apply (sender_idle_jobs c), Hrecv. }
  destruct (state o) eqn:Hst.
  - apply Hidle. intros c Hc. destruct H as (_ & H & _). congruence.
  - eapply (Hsend _ 2 2 STATE_SENT_HELLO H); [by split; rewrite Hst|lia|done| |].
    + intros o' Hs' Hb'. unfold send_handler_done. rewrite Hs', bool_decide_true by done. by run_simpl.
    + intros o' Haw _ H1 H2 H3 H4. unfold related. by rewrite H4.
  - by eapply Hrecv.
  - eapply (Hsend _ 2 2 STATE_SENT_PASSWORD H); [by split; rewrite Hst|lia|done| |].
    + intros o' Hs' Hb'. unfold send_handler_done. rewrite Hs', bool_decide_true by done. by run_simpl.
    + intros o' Haw _ H1 H2 H3 H4. unfold related. by rewrite H4.
  - by eapply Hrecv.
  - eapply (Hsend _ 22 4 STATE_SENT_REQUEST H); [by split; rewrite Hst|lia|done| |].
    + intros o' Hs' Hb'. unfold send_handler_done. rewrite Hs', bool_decide_true by done. by run_simpl.
    + intros o' Haw Hb H1 H2 H3 H4. unfold related. by rewrite H4.
  - destruct H as [H _]. by eapply Hrecv.
  - destruct H as (n & _ & H). by eapply Hrecv.
  - apply Hidle. intros c Hc. destruct H as (_ & H & _). congruence.
Qed.

(** The interface is done with a part of a reply. *)
Lemma arrived_ok o c b at_ n got : receiving o c b at_ n got -> s_done (recv_if c) = true -> auth_info o = ais -> dest_addr o = dest ->
  d_err o = false -> working o -> exists i o1 c1, StreamRecvInterface_job_done (recv_if c) = Ret (i, s_done_len (recv_if c)) /\
    o1 = with_control c1 o /\ between o1 c1 /\ recv_dest c1 = at_ /\ recv_total c1 = n /\ recv_len c1 = len got /\ len got <= n /\
    forall alloc, recv_handler_done (with_control (with_recv i c) o) (s_done_len (recv_if c)) alloc =
      if len got <? n then o ← do_receive o1; Ret (o, []) else
      match state o with
      | STATE_SENT_HELLO => received_hello o1 alloc
      | STATE_SENT_REQUEST => received_reply_header o1
      | STATE_SENT_PASSWORD => received_password_reply o1 alloc
      | STATE_RECEIVED_REPLY_HEADER => received_reply_rest o1
      | _ => Fail AssertionFailed
      end.
Proof.
  intros [[Hio Hc] Hb Hs (Hp1 & Hp2 & Hp3 & Hp4) Hl [Hat Hne] Hdl [Hg1 Hg2]] Hj Ha Hd He Hw.
  pose proof Hj as Hop. rewrite (si_done _ (sa_ok _ _ _ _ Hat)) in Hop. apply bool_decide_eq_true in Hop. rewrite Hop in Hat. specialize (Hdl Hop).
  destruct (stream_job_done_ok (recv_if c) _ _ Hat) as (i & Ei & Hi & His). unfold arrived in Hg1. rewrite Hop, decide_True in Hg1 by done.
  eexists i, _, (Control (send_sender c) i (recv_dest c) (recv_len c + s_done_len (recv_if c)) (recv_total c)).
  split; [exact Ei|]. split; [done|]. split; [by split|]. cbn. split_and!; try done; [lia|]. intros alloc.
  unfold recv_handler_done, control_of. cbn [io with_control set_io with_recv recv_total recv_len send_sender recv_if recv_dest]. run_simpl.
  ztest. run_simpl. by rewrite Hp2, <- Hg1.
Qed.

Lemma got_2 (got : bytes) : len got = 2 -> exists x y, got = [x; y].
Proof. destruct got as [|x [|y [|z got]]]; try done; [by exists x, y|]. rewrite !len_cons. pose proof (len_nonneg got). lia. Qed.
Lemma got_4 (got : bytes) : len got = 4 -> exists x y z w, got = [x; y; z; w].
Proof. destruct got as [|x [|y [|z [|w [|v got]]]]]; try done; [by exists x, y, z, w|]. rewrite !len_cons. pose proof (len_nonneg got). lia. Qed.
Lemma got_front o c b n got : receiving o c b 0 n got -> exists k, b = got ++ k.
Proof. intros Hr. destruct (rg_got _ _ _ _ _ _ Hr) as [_ <-]. exists (zdrop (len got) b). symmetry. rewrite zdrop_0. apply ztake_zdrop. Qed.

Lemma awaits_receiving o c b at_ n got r0 sent f z k : receiving o c b at_ n got -> awaits ais dest f z k o (r0 ++ got) sent ->
  z = at_ /\ k = n /\ goes ais dest f r0 sent.
Proof.
  intros Hr (c' & b' & r' & got' & Hr' & Heq & Hg). pose proof (proj1 (rg_io _ _ _ _ _ _ Hr')) as Hio.
  rewrite (proj1 (rg_io _ _ _ _ _ _ Hr)) in Hio. injection Hio as <-.
  destruct (rg_got _ _ _ _ _ _ Hr) as [Hl _], (rg_got _ _ _ _ _ _ Hr') as [Hl' _].
  destruct (rg_place _ _ _ _ _ _ Hr) as (<- & <- & _), (rg_place _ _ _ _ _ _ Hr') as (<- & <- & _).
  apply app_inj_2 in Heq as [-> ->]; [done|unfold len in *; lia].
Qed.
Lemma sends_not_receiving o c b at_ n got r sent f : receiving o c b at_ n got -> sends_then ais dest f o r sent -> False.
Proof.
  intros Hr (c' & full & Hs & _). pose proof (proj1 (sg_io _ _ _ _ Hs)) as Hio.
  rewrite (proj1 (rg_io _ _ _ _ _ _ Hr)) in Hio. injection Hio as <-. by apply (proj2 (rg_recv _ _ _ _ _ _ Hr)), (sg_recv _ _ _ _ Hs).
Qed.

(** The whole reply is in the buffer. *)
Lemma reply_ok o c b at_ n r0 got sent c1 alloc : related ais dest o (r0 ++ got) sent -> receiving o c b at_ n got -> working o -> len got = n ->
  between (with_control c1 o) c1 -> handled (r0 ++ got) sent (bool_decide (is_Some alloc))
    (match state o with
     | STATE_SENT_HELLO => received_hello (with_control c1 o) alloc
     | STATE_SENT_REQUEST => received_reply_header (with_control c1 o)
     | STATE_SENT_PASSWORD => received_password_reply (with_control c1 o) alloc
     | STATE_RECEIVED_REPLY_HEADER => received_reply_rest (with_control c1 o)
     | _ => Fail AssertionFailed
     end).
Proof.
  intros (_ & _ & _ & H) Hrecv [Hw1 Hw2] Hn Hb. pose proof (rg_buffer _ _ _ _ _ _ Hrecv) as Hbuf.
  destruct (state o) eqn:Hst; try done; try (by edestruct sends_not_receiving).
  - destruct (awaits_receiving _ _ _ _ _ _ _ _ _ _ _ Hrecv H) as (<- & <- & Hg). destruct (got_2 got Hn) as (x & y & ->).
    destruct (got_front _ _ _ _ _ Hrecv) as [k ->]. by apply (received_hello_ok _ c1 r0 sent x y k).
  - destruct (awaits_receiving _ _ _ _ _ _ _ _ _ _ _ Hrecv H) as (<- & <- & Hg). destruct (got_2 got Hn) as (x & y & ->).
    destruct (got_front _ _ _ _ _ Hrecv) as [k ->]. by apply (received_password_reply_ok _ c1 r0 sent x y k).
  - destruct H as (H & b0 & Hb0 & Hl). rewrite Hbuf in Hb0. injection Hb0 as <-.
    destruct (awaits_receiving _ _ _ _ _ _ _ _ _ _ _ Hrecv H) as (<- & <- & Hg). destruct (got_4 got Hn) as (x & y & z & w & ->).
    destruct (got_front _ _ _ _ _ Hrecv) as [k ->]. rewrite len_app in Hl. change (len [x; y; z; w]) with 4 in Hl.
    eapply handled_weaken; [apply (received_reply_header_ok _ c1 r0 sent x y z w k); try done; lia|done].
  - destruct H as (k & _ & H). destruct (awaits_receiving _ _ _ _ _ _ _ _ _ _ _ Hrecv H) as (<- & <- & Hg).
    eapply handled_weaken; [apply (received_reply_rest_ok _ c1 r0 sent k got); [done|done|lia]|done].
Qed.
Lemma RecvDoneJob_outcome o r sent alloc : related ais dest o r sent -> outcome ais dest o r sent (RecvDoneJob alloc).
Proof.
  intros Hr. pose proof Hr as (Ha & Hd & He & _). apply receiver_outcome; try done.
  { intros c Hio _ Hi. split; [done|]. rewrite (step_control o c) by done. cbn [control_step]. by rewrite (proj2 (receiver_idle_jobs c Hi)). }
  intros c b at_ n r0 got Hrecv -> Hw Hk. pose proof (proj1 (rg_io _ _ _ _ _ _ Hrecv)) as Hio. pose proof (rg_buffer _ _ _ _ _ _ Hrecv) as Hbuf.
  destruct (s_done (recv_if c)) eqn:Hj.
  2: { apply idle_outcome; [done| |done]. rewrite (step_control o c) by done. cbn [control_step]. by rewrite Hj. }
  destruct (arrived_ok o c b at_ n got Hrecv Hj Ha Hd He Hw) as (i & o1 & c1 & Ei & -> & Hb1 & Hat & Htot & Hlen & Hle & Hrest).
  assert (E : step o (RecvDoneJob alloc) = recv_handler_done (with_control (with_recv i c) o) (s_done_len (recv_if c)) alloc).
  { rewrite (step_control o c) by done. cbn [control_step]. rewrite Hj. cbn [negb]. rewrite Ei. by run_simpl. }
  rewrite Hrest in E. pose proof Hb1 as [[Hio1 Hc1] [Hs1 Hr1] _ _]. destruct (rg_place _ _ _ _ _ _ Hrecv) as (_ & _ & H0 & Hroom).
  destruct (Z.ltb_spec (len got) n) as [Hlt|Hge].
  - destruct (do_receive_ok (with_control c1 o) c1 b at_ n got Hio1 Hc1) as (c' & E' & Hrecv'); try done; [apply Hrecv|].
    eapply (quiet_outcome o _ sent (RecvDoneJob alloc) (with_control c' (set_buffer (Some b) o)) []); [done| |done|done|].
    + rewrite E, E', set_buffer_id by done. by run_simpl.
    + cbn. rewrite !app_nil_r. apply Hk; [|done]. rewrite set_buffer_id by done. by destruct Hrecv'; split.
  - eapply handled_outcome; [exact E|done|done|]. apply (reply_ok o c b at_ n r0 got sent c1 alloc); try done. lia.
Qed.

Lemma failed_outcome o r sent e o' err : step o e = Ret (o', [Report err]) -> received_by e = [] -> freeable o' -> d_err o' = true ->
  err <> EVENT_UP -> starts_with sent (dialog ais dest r).1 ->
  (blameless e = true -> err = EVENT_ERROR /\ dialog ais dest r = (sent, Refused)) -> outcome ais dest o r sent e.
Proof.
  intros E He Hf Hd Hu Hs Hb. exists o', [Report err]. split; [done|]. split; [done|]. rewrite He, !app_nil_r. right. split; [done|].
  exists err. by split_and!.
Qed.
Lemma related_starts o r sent : related ais dest o r sent -> starts_with sent (dialog ais dest r).1.
Proof.
  intros Hr. destruct (decide (state o = STATE_CONNECTING)) as [Hc|Hc]; [|destruct (decide (state o = STATE_UP)) as [Hu|Hu]].
  - destruct Hr as (_ & _ & _ & Hr). rewrite Hc in Hr. destruct Hr as (_ & _ & _ & -> & ->). apply starts_with_nil.
  - destruct Hr as (_ & _ & _ & Hr). rewrite Hu in Hr. destruct Hr as (_ & _ & ->). apply starts_with_refl.
  - destruct Hr as (_ & _ & _ & H).
    assert (Hsend : forall f, sends_then ais dest f o r sent -> starts_with sent (dialog ais dest r).1).
    { intros f (c & full & Hs & Hg). rewrite (goes_now _ _ _ Hg). apply starts_with_split. cbn. rewrite <- (sg_full _ _ _ _ Hs), <- app_assoc. by eexists. }
    assert (Hrecv : forall f z n, awaits ais dest f z n o r sent -> starts_with sent (dialog ais dest r).1).
    { intros f z n (c & b & r0 & got & _ & -> & Hg). by eapply goes_starts. }
    destruct (state o); try done; eauto; [|destruct H as (n & _ & H); eauto]. destruct H as [H _]. eauto.
Qed.

Lemma ConnectionEvent_outcome o r sent event : related ais dest o r sent -> allowed o (ConnectionEvent event) -> outcome ais dest o r sent (ConnectionEvent event).
Proof.
  intros Hr [_ Hcon]. cbn [possible] in Hcon. pose proof Hr as (_ & _ & He & H).
  assert (Hst : state o <> STATE_CONNECTING) by (intros Hst; rewrite Hst in H; destruct H; congruence).
  assert (E : exists err, step o (ConnectionEvent event) = Ret (set_err o, [Report err]) /\ err <> EVENT_UP).
  { cbn [step]. unfold connection_handler. rewrite bool_decide_false by done. cbn [negb]. run_simpl. unfold report_error. rewrite He. run_simpl.
    destruct (state o), event; eexists; by split. }
  destruct E as (err & E & Hu). eapply failed_outcome; [exact E|done| |done|done|by eapply related_starts|done].
  by apply (related_freeable o r sent).
Qed.

Lemma auth_type_byte ai : ai ∈ ais -> 0 <= auth_type ai < 256.
Proof. intros Hin. destruct (Hauth ai Hin) as [[-> _]|(u & p & -> & _)]; lia. Qed.
Lemma init_control_ok o : con o = true -> io o = NoIO -> exists c, init_control_io o = Ret (with_control c o) /\ sender_idle c /\ receiver_idle c.
Proof.
  intros Hc Hio. unfold init_control_io. rewrite Hc, Hio. run_simpl.
  destruct (stream_Init_ok (D := Z)) as (ri & Er & Hri & Hrs). unfold StreamRecvInterface_Receiver_Init, StreamRecvInterface_Init. rewrite Er. run_simpl.
  destruct (PacketStreamSender_Init_ok StreamPassInterface_Init INT_MAX) as (s & i & Es & Ei & Hs & His & Him); try done.
  rewrite Es. run_simpl. rewrite Ei. run_simpl. eexists. split; [done|]. by split.
Qed.

Lemma hello_written o g : auth_info o = ais -> (0 <? len ais) && (len ais <=? 255) = true -> exists o' b,
  reserve_buffer o (bsize_add (bsize_fromsize sizeof_socks_client_hello_header)
    (bsize_mul (bsize_fromsize (len ais)) (bsize_fromsize sizeof_socks_client_hello_method))) (Some g) = Some o' /\ o' = set_buffer (Some b) o /\
  (o ← write_buffer o' 0 [SOCKS_VERSION; u8 (len ais)]; write_methods o sizeof_socks_client_hello_header (auth_info o)) = Ret (set_buffer (Some (hello ais)) o) /\
  bs_value (bsize_add (bsize_fromsize sizeof_socks_client_hello_header)
    (bsize_mul (bsize_fromsize (len ais)) (bsize_fromsize sizeof_socks_client_hello_method))) = len (hello ais) /\ len (hello ais) <= INT_MAX.
Proof.
  intros Ha [Hn1 Hn2]%andb_true_iff. apply Z.ltb_lt in Hn1. apply Z.leb_le in Hn2.
  assert (Hlen : len (hello ais) = 2 + len ais) by (unfold hello; rewrite len_app; unfold len; rewrite length_map; cbn; lia).
  assert (Hsz : bsize_add (bsize_fromsize sizeof_socks_client_hello_header)
    (bsize_mul (bsize_fromsize (len ais)) (bsize_fromsize sizeof_socks_client_hello_method)) = BSize false (len (hello ais))).
  { apply bsize_is_size; [|unfold SIZE_MAX; lia]. rewrite Hlen. apply bsize_add_ok; [by apply bsize_fromsize_ok|].
    rewrite <- (Z.mul_1_r (len ais)) at 2. apply bsize_mul_ok; try done; apply bsize_fromsize_ok; unfold SIZE_MAX; [lia|done]. }
  rewrite Hsz. destruct (reserve_ok o (len (hello ais)) g) as (b & -> & Hb); [lia|].
  eexists _, b. split; [done|]. split; [done|]. unfold u8. rewrite Z.mod_small by lia.
  destruct (write_buffer_extend (set_buffer (Some b) o) b [] 0 [SOCKS_VERSION; len ais]) as (b1 & -> & H1 & L1); [done|apply starts_with_nil|done|rewrite len_nil; change (len [SOCKS_VERSION; len ais]) with 2; lia|].
  run_simpl. cbn [auth_info set_buffer]. rewrite Ha.
  destruct (write_methods_ok (set_buffer (Some b1) (set_buffer (Some b) o)) b1 [SOCKS_VERSION; len ais] sizeof_socks_client_hello_header ais) as (b2 & -> & H2 & L2);
    [done|done|done|change (len [SOCKS_VERSION; len ais]) with 2; lia|exact auth_type_byte|].
  rewrite (starts_with_full _ _ H2); [|fold (hello ais)]; [|change ([SOCKS_VERSION; len ais] ++ map auth_type ais) with (hello ais); lia].
  split; [done|]. split; [done|]. unfold INT_MAX. lia.
Qed.

Lemma Connected_outcome o r sent is_error con_ok alloc : related ais dest o r sent -> allowed o (Connected is_error con_ok alloc) ->
  outcome ais dest o r sent (Connected is_error con_ok alloc).
Proof.
  intros Hr [_ Hst]. cbn [possible] in Hst. pose proof Hr as (Ha & Hd & He & H). rewrite Hst in H. destruct H as (Hc & Hio & Hb & -> & ->).
  assert (Hstart : starts_with [] (dialog ais dest []).1) by apply starts_with_nil.
  assert (Estep : step o (Connected is_error con_ok alloc) = connector_handler o is_error con_ok alloc) by done.
  unfold connector_handler in Estep. rewrite bool_decide_true in Estep by done. cbn [check mbind run_bind] in Estep.
  destruct (is_error || negb con_ok) eqn:Hcon.
  { unfold report_error in Estep. rewrite He in Estep. eapply failed_outcome; [exact Estep|done| |done|done|done|].
    - unfold freeable. cbn. by rewrite Hst.
    - cbn. by destruct is_error, con_ok. }
  destruct (init_control_ok (set_con true o) eq_refl Hio) as (c & Ei & Hs & Hri).
  set (o1 := with_control c (set_con true o)) in *. rewrite Ei in Estep. cbn [mbind run_bind] in Estep.
  assert (Efail : forall o', io o' = ControlIO c -> con o' = true -> d_err o' = false ->
    (o ← free_control_io o'; o ← BConnection_Free o; report_error o EVENT_ERROR) = Ret (set_err (set_con false (set_io NoIO o')), [Report EVENT_ERROR])).
  { intros o' H1 H2 H3. unfold free_control_io, control_of, BConnection_Free, report_error. rewrite H1. run_simpl. cbn. rewrite H2. run_simpl. cbn. by rewrite H3. }
  rewrite (Efail o1) in Estep by done. change (auth_info o1) with (auth_info o) in Estep. rewrite Ha in Estep. cbn zeta in Estep.
  assert (Htest : (len ais =? 0) || (255 <? len ais) = negb ((0 <? len ais) && (len ais <=? 255))).
  { pose proof (len_nonneg ais). destruct (Z.eqb_spec (len ais) 0), (Z.ltb_spec 255 (len ais)), (Z.ltb_spec 0 (len ais)), (Z.leb_spec (len ais) 255); cbn; done || lia. }
  rewrite Htest in Estep. destruct ((0 <? len ais) && (len ais <=? 255)) eqn:Hnum; cbn [negb] in Estep.
  2: { eapply failed_outcome; [exact Estep|done| |done|done|done|]; [unfold freeable; cbn; by rewrite Hst|].
       intros _. split; [done|]. unfold dialog. by rewrite Hnum. }
  destruct alloc as [g|].
  2: { rewrite reserve_none in Estep. eapply failed_outcome; [exact Estep|done| |done|done|done|].
       - unfold freeable. cbn. by rewrite Hst.
       - cbn. by rewrite !andb_false_r. }
  destruct (hello_written o1 g Ha Hnum) as (o2 & b & Er & -> & Ew & Esz & Hl). rewrite Er, Esz in Estep.
  set (o2 := set_buffer (Some b) o1) in *. clearbody o2.
  destruct (write_buffer o2 0 _) as [o3|]; [|done]. cbn [mbind run_bind] in Estep, Ew. rewrite Ew in Estep. cbn [mbind run_bind] in Estep.
  destruct (send_buffer_ok (set_buffer (Some (hello ais)) o1) c (hello ais) []) as (c' & Es & Hsend); try done.
  rewrite Es in Estep. cbn [mbind run_bind] in Estep.
  eapply (quiet_outcome o [] [] _ _ []); [done|exact Estep|done|done|]. cbn. split_and!; try done. exists c', (hello ais). split; [by destruct Hsend; split|].
  intros r'. unfold dialog. rewrite Hnum, app_nil_l. by destruct (after_hello ais dest r').
Qed.

Theorem socks_step_outcome o r sent e : related ais dest o r sent -> allowed o e -> outcome ais dest o r sent e.
Proof.
  destruct e; eauto using Connected_outcome, ConnectionEvent_outcome, SendPacketJob_outcome, SendPacketDoneJob_outcome,
    SendOperationJob_outcome, SendDone_outcome, SendDoneJob_outcome, RecvOperationJob_outcome, RecvDone_outcome, RecvDoneJob_outcome.
Qed.
End handlers.
