(* ===== verification/SocksClientProps.v ===== *)
(** * The SOCKS client in operation ([socksclient/BSocksClient.c])

    For every behaviour of the connection the client says what [dialog] says and
    reports its verdict; together with a server that follows RFC 1928 and RFC
    1929 it comes up exactly when the server accepts. *)
From S2P Require Import Prelude Inet Addr Bsize PacketPassInterface StreamInterface PacketStreamSender SocksClient SocksClientSpec.

(** ** Runs *)

(** No bytes wait to be handled; a reply is being waited for. *)
Definition settled (o : BSocksClient) : Prop :=
  match io o with ControlIO c => s_done (recv_if c) = false | _ => True end.
Definition reading (o : BSocksClient) : Prop :=
  match io o with ControlIO c => s_state (recv_if c) <> STREAM_STATE_NONE | _ => False end.
Definition report_of_verdict (v : verdict) : list BSOCKSCLIENT_EVENT :=
  match v with Pending => [] | Up => [EVENT_UP] | Refused => [EVENT_ERROR] end.

Lemma received_app es es' : received (es ++ es') = received es ++ received es'.
Proof. apply flat_map_app. Qed.
Lemma sent_of_app fs fs' : sent_of (fs ++ fs') = sent_of fs ++ sent_of fs'.
Proof. apply flat_map_app. Qed.
Lemma reports_app fs fs' : reports (fs ++ fs') = reports fs ++ reports fs'.
Proof. apply flat_map_app. Qed.

Lemma after_hello_short ais dest r : len r < 2 -> after_hello ais dest r = ([], Pending).
Proof. destruct r as [|x [|y r]]; try done. rewrite !len_cons. pose proof (len_nonneg r). lia. Qed.
Lemma after_login_short dest r : len r < 2 -> after_login dest r = ([], Pending).
Proof. destruct r as [|x [|y r]]; try done. rewrite !len_cons. pose proof (len_nonneg r). lia. Qed.
Lemma after_request_short r : len r < 4 -> after_request r = Pending.
Proof. destruct r as [|x [|y [|z [|w r]]]]; try done. rewrite !len_cons. pose proof (len_nonneg r). lia. Qed.
Lemma after_header_short n r : len r < n -> after_header n r = Pending.
Proof. intros. unfold after_header. by ztest. Qed.

Section run.
Context (ais : list BSocksClient_auth_info) (dest : BAddr).
Hypotheses (Hauth : forall ai, ai ∈ ais -> auth_ok ai) (Hdest : dest_ok dest).
Implicit Types (o : BSocksClient) (r sent : bytes).

Lemma related_verdict o r sent : related ais dest o r sent -> settled o -> state o <> STATE_CONNECTING ->
  (dialog ais dest r).2 = (if decide (state o = STATE_UP) then Up else Pending) /\ (reading o -> sent = (dialog ais dest r).1).
Proof.
  intros (_ & _ & _ & H) Hset Hc.
  assert (Hsend : forall f, sends_then ais dest f o r sent -> f [] = ([], Pending) -> (dialog ais dest r).2 = Pending /\ (reading o -> sent = (dialog ais dest r).1)).
  { intros f (c & full & Hs & Hg) Hf. rewrite (goes_now _ _ _ _ _ Hg), Hf. split; [done|]. unfold reading.
    rewrite (proj1 (sg_io _ _ _ _ Hs)). intros Hne. by destruct (sg_recv _ _ _ _ Hs). }
  assert (Hrecv : forall f z n, awaits ais dest f z n o r sent -> (forall g, len g < n -> f g = ([], Pending)) ->
    (dialog ais dest r).2 = Pending /\ (reading o -> sent = (dialog ais dest r).1)).
  { intros f z n (c & b & r0 & got & Hr & -> & Hg) Hf. unfold settled in Hset. rewrite (proj1 (rg_io _ _ _ _ _ _ Hr)) in Hset.
    rewrite (si_done _ (sa_ok _ _ _ _ (proj1 (rg_recv _ _ _ _ _ _ Hr)))) in Hset. apply bool_decide_eq_false in Hset.
    destruct (rg_got _ _ _ _ _ _ Hr) as [Hl _]. unfold arrived in Hl. rewrite decide_False in Hl by done. pose proof (rg_len _ _ _ _ _ _ Hr).
    rewrite (Hg got), Hf by lia. cbn. by rewrite app_nil_r. }
  destruct (state o) eqn:Hst; try done.
  - by eapply Hsend.
  - eapply Hrecv; [done|]. apply after_hello_short.
  - by eapply Hsend.
  - eapply Hrecv; [done|]. apply after_login_short.
  - by eapply Hsend.
  - destruct H as [H _]. eapply Hrecv; [done|]. intros g Hg. unfold silent. by rewrite after_request_short.
  - destruct H as (n & _ & H). eapply Hrecv; [done|]. intros g Hg. unfold silent. by rewrite after_header_short.
  - destruct H as (_ & Hio & ->). split; [done|]. unfold reading. by rewrite Hio.
Qed.

(** What is known of a client after any run. *)
Definition running o r sent (ok : bool) (reps : list BSOCKSCLIENT_EVENT) : Prop :=
  (related ais dest o r sent /\ reps = if decide (state o = STATE_UP) then [EVENT_UP] else []) \/
  (d_err o = true /\ starts_with sent (dialog ais dest r).1 /\
    (exists up err, reps = up ++ [err] /\ (up = [] \/ up = [EVENT_UP]) /\ err <> EVENT_UP) /\
    (ok = true -> reps = [EVENT_ERROR] /\ dialog ais dest r = (sent, Refused))).

Lemma Free_ok o : freeable o -> exists o', BSocksClient_Free o = Ret o' /\ freed o'.
Proof.
  destruct o as [ai da st b cn i de]. unfold freeable. cbn. intros H.
  destruct st; destruct H as [-> H]; first [subst i|destruct H as [c ->]]; (eexists; split; [reflexivity|by split_and!]).
Qed.

(** A client that is up is up until it fails. *)
Lemma up_step o r sent e o' f : related ais dest o r sent -> state o = STATE_UP -> allowed o e -> step o e = Ret (o', f) ->
  received_by e = [] /\ ((o' = o /\ f = []) \/ (d_err o' = true /\ blameless e = false)).
Proof.
  intros (_ & _ & He & H) Hu [_ Ha] E. rewrite Hu in H. destruct H as (_ & Hio & _).
  unfold possible in Ha. destruct e as [is_error con_ok alloc|event| |alloc| |n| | |d|alloc]; cbn [step] in E; try rewrite Hio in E; try rewrite Hio in Ha.
  2: { split; [done|right; split; [|done]]. unfold connection_handler, report_error in E. rewrite Hu, He in E.
       by destruct event; injection E as <- _. }
  all: try done; try congruence; (injection E as <- <-; split; [done|by left]).
Qed.

Lemma exec_ok o r sent es : related ais dest o r sent -> allowed_run o es -> exists o' fx, exec o es = Ret (o', fx) /\ freeable o' /\
  running o' (r ++ received es) (sent ++ sent_of fx) (forallb blameless es) ((if decide (state o = STATE_UP) then [EVENT_UP] else []) ++ reports fx).
Proof.
  induction es as [|e es IH] in o, r, sent |- *; intros Hr Ha.
  - exists o, []. split; [done|]. split; [by eapply related_freeable|]. cbn. rewrite !app_nil_r. by left.
  - destruct Ha as [Ha Hrun]. destruct (socks_step_outcome ais dest Hauth Hdest o r sent e Hr Ha) as (o1 & f1 & E1 & Hf1 & H).
    specialize (Hrun o1 f1 E1). cbn [exec received flat_map forallb]. rewrite E1. cbn [mbind run_bind]. fold (received es).
    destruct H as [[Hr1 Hrep]|(Herr & err & Hrep & Hne & Hst & Hb)].
    + destruct (IH o1 _ _ Hr1 Hrun) as (o' & fx & E & Hf & Hr'). rewrite E. cbn [mbind run_bind]. exists o', (f1 ++ fx). split; [done|]. split; [done|].
      rewrite sent_of_app, reports_app, Hrep, !app_assoc.
      assert (Hup : state o = STATE_UP -> state o1 = STATE_UP).
      { intros Hu. destruct (up_step o r sent e o1 f1 Hr Hu Ha E1) as [_ [[-> _]|[Herr _]]]; [done|]. destruct Hr1 as (_ & _ & ? & _). congruence. }
      replace ((if decide (state o = STATE_UP) then [EVENT_UP] else []) ++ (if decide (state o1 = STATE_UP /\ state o <> STATE_UP) then [EVENT_UP] else []))
        with (if decide (state o1 = STATE_UP) then [EVENT_UP] else []) by (repeat destruct (decide _); tauto).
      destruct Hr' as [Hr'|(H1 & H2 & H3 & H4)]; [by left|right]. split_and!; try done. intros [_ Hok]%andb_true_iff. auto.
    + destruct es as [|e' es].
      2: { destruct Hrun as [[? _] _]. congruence. }
      exists o1, f1. cbn. rewrite !app_nil_r. split; [done|]. split; [done|]. right. rewrite Hrep. split_and!; try done.
      * eexists _, err. split; [done|]. split; [|done]. destruct (decide _); tauto.
      * intros Hok. rewrite andb_true_r in Hok. destruct (Hb Hok) as [-> ->]. split; [|done]. destruct (decide (state o = STATE_UP)) as [Hu|]; [|done].
        destruct (up_step o r sent e o1 f1 Hr Hu Ha E1) as [_ [[-> _]|[_ ?]]]; [|congruence]. destruct Hr as (_ & _ & ? & _). congruence.
Qed.

Lemma init_related server : server <> BADDR_NONE -> exists o0, BSocksClient_Init server ais dest true = Ret (Some o0) /\
  related ais dest o0 [] [] /\ state o0 = STATE_CONNECTING.
Proof.
  intros Hserver. exists (Client ais dest STATE_CONNECTING None false NoIO false). split; [|done]. unfold BSocksClient_Init.
  assert (Hs : BAddr_IsInvalid server = false) by (by destruct server). assert (Hd : BAddr_IsInvalid dest = false) by (by destruct dest).
  rewrite Hs, Hd. run_simpl.
  replace (forallb _ ais) with true; [by run_simpl|]. symmetry. apply forallb_forall. intros ai Hin%list_elem_of_In.
  destruct (Hauth ai Hin) as [[-> _]|(u & p & -> & _)]; done.
Qed.
End run.

(** C6: whatever the connection does (delivers the replies in pieces of any
    size, takes the messages in parts, breaks) and whatever [realloc] finds,
    nothing faults; the bytes sent are a beginning of what the dialog of RFC 1928
    has the client say, all of it whenever a reply is waited for; if nothing has
    broken, the report is the verdict of the dialog; at most one error is
    reported, as the last thing; and the client can be freed, leaving nothing. *)
Theorem socks_client_refines_dialog ais dest server es :
  (forall ai, ai ∈ ais -> auth_ok ai) -> dest_ok dest -> server <> BADDR_NONE ->
  exists o0, BSocksClient_Init server ais dest true = Ret (Some o0) /\ (allowed_run o0 es ->
    exists o fx, exec o0 es = Ret (o, fx) /\
      starts_with (sent_of fx) (dialog ais dest (received es)).1 /\
      (d_err o = false -> settled o -> reading o -> sent_of fx = (dialog ais dest (received es)).1) /\
      (forallb blameless es = true -> settled o -> state o <> STATE_CONNECTING \/ d_err o = true ->
        reports fx = report_of_verdict (dialog ais dest (received es)).2) /\
      (exists up err, reports fx = up ++ (if d_err o then [err] else []) /\ (up = [] \/ up = [EVENT_UP]) /\ err <> EVENT_UP) /\
      exists o', BSocksClient_Free o = Ret o' /\ freed o').
Proof.
  intros Hauth Hdest Hserver. destruct (init_related ais dest Hauth Hdest server Hserver) as (o0 & E0 & Hr & Hst0).
  exists o0. split; [done|]. intros Ha. destruct (exec_ok ais dest Hauth Hdest _ _ _ es Hr Ha) as (o & fx & E & Hf & Hrun).
  exists o, fx. split; [exact E|]. rewrite Hst0, decide_False, !app_nil_l in Hrun by done. destruct Hrun as [[Hrel Hrep]|(Herr & Hst & (up & err & Hrep & Hup & Hne) & Hok)].
  - assert (He : d_err o = false) by apply Hrel. rewrite He, Hrep. split; [by eapply related_starts|].
    split; [|split; [|split; [|by apply Free_ok]]].
    + intros _ Hset Hread. apply (related_verdict ais dest o _ _ Hrel Hset); [|done]. intros Hs. destruct Hrel as (_ & _ & _ & Hrel).
      rewrite Hs in Hrel. destruct Hrel as (_ & Hio & _). unfold reading in Hread. by rewrite Hio in Hread.
    + intros _ Hset [Hs|?]; [|done]. rewrite (proj1 (related_verdict ais dest o _ _ Hrel Hset Hs)). by destruct (decide _).
    + exists (if decide (state o = STATE_UP) then [EVENT_UP] else []), EVENT_ERROR. rewrite app_nil_r. split; [done|]. split; [|done].
      destruct (decide _); tauto.
  - rewrite Herr. split; [done|]. split; [done|]. split; [|split; [by exists up, err|by apply Free_ok]].
    intros Hb _ _. destruct (Hok Hb) as [-> ->]. done.
Qed.

(** ** The other side

    A server that follows RFC 1928 and RFC 1929, as a function of the bytes it
    has read to the bytes it has written: it selects [want] if that is offered,
    checks the account if that is [USERNAME/PASSWORD], and asks [reach] for a
    connection. *)
Section server.
Context (want : Z) (account : bytes -> bytes -> bool) (reach : BAddr -> option BAddr).

Definition parse_hello (s : bytes) : option (bytes * bytes) :=
  match s with
  | ver :: n :: s => if negb (ver =? 5) || (len s <? n) then None else Some (ztake n s, zdrop n s)
  | _ => None
  end.
Definition parse_field (s : bytes) : option (bytes * bytes) :=
  match s with
  | n :: s => if len s <? n then None else Some (ztake n s, zdrop n s)
  | _ => None
  end.
Definition parse_login (s : bytes) : option (bytes * bytes * bytes) :=
  match s with
  | ver :: s =>
      if negb (ver =? 1) then None else
      '(u, s) ← parse_field s; '(p, s) ← parse_field s; Some (u, p, s)
  | _ => None
  end.
Definition parse_request (s : bytes) : option BAddr :=
  match s with
  | 5 :: 1 :: 0 :: 1 :: s => if len s <? 6 then None else Some (BADDR_IPV4 (of_le (ztake 4 s)) (of_le (ztake 2 (zdrop 4 s))))
  | 5 :: 1 :: 0 :: 4 :: s => if len s <? 18 then None else Some (BADDR_IPV6 (ztake 16 s) (of_le (ztake 2 (zdrop 16 s))))
  | _ => None
  end.
(** The reply is written like a request: the address the server connects from. *)
Definition grant (s : bytes) : bytes :=
  match parse_request s with
  | None => []
  | Some a => match reach a with Some b => [5; 0; 0] ++ zdrop 3 (request b) | None => [5; 4; 0; 1] ++ zrep 6 0 end
  end.
Definition socks_server (s : bytes) : bytes :=
  match parse_hello s with
  | None => []
  | Some (methods, s) =>
      if negb (bool_decide (want ∈ methods)) then [5; 255] else
      [5; want] ++
      if want =? 2 then
        match parse_login s with
        | None => []
        | Some (u, p, s) => if account u p then [1; 0] ++ grant s else [1; 1]
        end
      else grant s
  end.

Definition accepts (ais : list BSocksClient_auth_info) (dest : BAddr) : bool :=
  match find_auth ais want with
  | None => false
  | Some ai => match password ai with None => true | Some (u, p) => account u p end && bool_decide (is_Some (reach dest))
  end.
(** An address that fits the wire format. *)
Definition addr_fits (a : BAddr) : Prop :=
  match a with
  | BADDR_NONE => False
  | BADDR_IPV4 ip port => 0 <= ip < 4294967296 /\ 0 <= port < 65536
  | BADDR_IPV6 ip port => len ip = 16 /\ 0 <= port < 65536
  end.

Lemma find_auth_none l method : find_auth l method = None -> method ∉ map auth_type l.
Proof.
  induction l as [|a l IH]; cbn; [intros _; apply not_elem_of_nil|]. destruct (Z.eqb_spec (auth_type a) method); [done|].
  intros H. rewrite elem_of_cons. intros [->|Hin]; [done|by apply IH].
Qed.
Lemma find_auth_elem l method ai : find_auth l method = Some ai -> method ∈ map auth_type l.
Proof. intros H. destruct (find_auth_in _ _ _ H) as [Hin <-]. apply list_elem_of_In, in_map. by apply list_elem_of_In. Qed.

Lemma parse_hello_ok ais s : parse_hello (hello ais ++ s) = Some (map auth_type ais, s).
Proof.
  assert (Hl : len (map auth_type ais) = len ais) by (unfold len; by rewrite length_map).
  unfold hello. cbn [app parse_hello negb Z.eqb Pos.eqb orb]. rewrite len_app, Hl. pose proof (len_nonneg s). ztest.
  by rewrite ztake_app_exact, zdrop_app_exact.
Qed.
Lemma parse_field_ok d s : parse_field ([len d] ++ d ++ s) = Some (d, s).
Proof. cbn [app parse_field]. rewrite len_app. pose proof (len_nonneg s). ztest. by rewrite ztake_app_exact, zdrop_app_exact. Qed.
Lemma parse_login_ok u p s : parse_login (login u p ++ s) = Some (u, p, s).
Proof.
  unfold login. cbn [app parse_login negb Z.eqb Pos.eqb]. rewrite <- app_assoc. change (len u :: u ++ (len p :: p) ++ s) with ([len u] ++ u ++ (len p :: p) ++ s).
  rewrite parse_field_ok. cbn [mbind option_bind]. change ((len p :: p) ++ s) with ([len p] ++ p ++ s). by rewrite parse_field_ok.
Qed.
Lemma parse_request_ok dest : addr_fits dest -> parse_request (request dest) = Some dest.
Proof.
  destruct dest as [|ip port|ip port]; cbn [addr_fits]; [done| |].
  - intros [H1 H2]. cbn [request app parse_request]. change (len (le32 ip ++ le16 port) <? 6) with false. cbn iota.
    rewrite (ztake_app_exact 4 (le32 ip)), (zdrop_app_exact 4 (le32 ip)), ztake_all by done. by rewrite of_le_le32, of_le_le16.
  - intros [H1 H2]. cbn [request app parse_request]. rewrite len_app, H1. change (16 + len (le16 port) <? 18) with false. cbn iota.
    rewrite ztake_app_exact, zdrop_app_exact, ztake_all by done. by rewrite of_le_le16.
Qed.

Section agreement.
Context (ais : list BSocksClient_auth_info) (dest : BAddr).
Hypotheses (Hnum : 1 <= len ais <= 255) (Hauth : forall ai, ai ∈ ais -> auth_ok ai)
  (Hfields : forall ai u p, ai ∈ ais -> password ai = Some (u, p) -> field_ok u && field_ok p = true)
  (Hdest : addr_fits dest) (Hreach : forall a b, reach a = Some b -> dest_ok b).

Lemma dialog_hello r : dialog ais dest r = (hello ais ++ (after_hello ais dest r).1, (after_hello ais dest r).2).
Proof. unfold dialog. ztest. cbn [andb]. by destruct (after_hello ais dest r). Qed.
Lemma granted : after_request (grant (request dest)) = if bool_decide (is_Some (reach dest)) then Up else Refused.
Proof.
  unfold grant. rewrite parse_request_ok by done. destruct (reach dest) as [b|] eqn:Hr; [|done].
  rewrite bool_decide_true by done. pose proof (Hreach dest b Hr) as Hb. destruct b as [|ip port|ip port]; [done|done|].
  cbn [dest_ok] in Hb. change (zdrop 3 (request (BADDR_IPV6 ip port))) with (4 :: ip ++ le16 port). cbn. unfold after_header. by rewrite len_app, Hb.
Qed.
Lemma method_255 : find_auth ais 255 = None.
Proof.
  destruct (find_auth ais 255) as [ai|] eqn:H; [|done]. destruct (find_auth_in _ _ _ H) as [Hin Ht].
  destruct (Hauth ai Hin) as [[? _]|(u & p & ? & _)]; lia.
Qed.

(** What the server has to say, and what the client makes of it. *)
Lemma server_dialog r : socks_server (dialog ais dest r).1 =
  match find_auth ais want with
  | None => [5; 255]
  | Some _ => [5; want] ++
      let s := (after_hello ais dest r).1 in
      if want =? 2 then match parse_login s with
        | None => []
        | Some (u, p, s) => if account u p then [1; 0] ++ grant s else [1; 1]
        end
      else grant s
  end.
Proof.
  rewrite dialog_hello. unfold socks_server. cbn [fst]. rewrite parse_hello_ok. destruct (find_auth ais want) as [ai|] eqn:Hf.
  - rewrite bool_decide_true by (by eapply find_auth_elem). done.
  - rewrite bool_decide_false by (by apply find_auth_none). done.
Qed.

Lemma agreed ai : find_auth ais want = Some ai -> forall r1, exists s,
  (after_hello ais dest (5 :: want :: r1)).1 = s /\
  match password ai with
  | None => want = 0 /\ s = request dest /\ (after_hello ais dest (5 :: want :: r1)).2 = after_request r1
  | Some (u, p) => want = 2 /\ s = login u p ++ (after_login dest r1).1 /\ (after_hello ais dest (5 :: want :: r1)).2 = (after_login dest r1).2
  end.
Proof.
  intros Hf r1. destruct (find_auth_in _ _ _ Hf) as [Hin Ht]. eexists. split; [done|]. cbn. rewrite Hf. unfold after_method.
  destruct (Hauth ai Hin) as [[H0 Hp]|(u & p & H2 & Hp)]; rewrite Hp; [split; [congruence|done]|].
  rewrite (Hfields ai u p Hin Hp). split; [congruence|]. by destruct (after_login dest r1).
Qed.

Lemma agreement_unique r : r = socks_server (dialog ais dest r).1 -> (dialog ais dest r).2 = if accepts ais dest then Up else Refused.
Proof.
  intros Hr. rewrite server_dialog in Hr. rewrite dialog_hello. cbn [snd]. unfold accepts. destruct (find_auth ais want) as [ai|] eqn:Hf.
  2: { rewrite Hr. cbn. by rewrite method_255. }
  destruct (after_hello ais dest r) as [t v] eqn:Hah. cbn [fst snd] in Hr |- *. cbn zeta in Hr.
  destruct r as [|x [|y r1]]; try done. cbn [app] in Hr. injection Hr as Hx Hy Hr1. subst x y.
  destruct (agreed ai Hf r1) as (s & Hs & H). rewrite Hah in Hs, H. cbn [fst snd] in Hs, H. subst s. destruct (password ai) as [[u p]|].
  - destruct H as (Hw & -> & ->). rewrite Hw in Hr1. cbn [Z.eqb Pos.eqb] in Hr1. rewrite parse_login_ok in Hr1.
    destruct (account u p); cbn [andb]; [|by rewrite Hr1]. destruct r1 as [|x [|y r2]]; try done.
    destruct (after_login dest (x :: y :: r2)) as [t v'] eqn:Hal. cbn [fst snd app] in Hr1 |- *. injection Hr1 as Hx Hy Hr2. subst x y.
    cbn in Hal. injection Hal as <- <-. rewrite Hr2. apply granted.
  - destruct H as (Hw & -> & ->). rewrite Hw in Hr1. cbn [Z.eqb Pos.eqb] in Hr1. rewrite Hr1. apply granted.
Qed.
(** The client is done, or has said everything and waits for a reply. *)
Definition resting (o : BSocksClient) : Prop := settled o /\ (reading o \/ state o = STATE_UP \/ d_err o = true).

Lemma addr_fits_ok a : addr_fits a -> dest_ok a.
Proof. destruct a; cbn; tauto. Qed.

(** C15: the client and a server that follows RFC 1928 and RFC 1929 agree:
    when the server has answered all that the client has sent, however the bytes were
    cut in pieces on the way, and the client rests, then it has reported that it is up
    if the server offers the method, knows the account that goes with it and
    reaches the destination, as it reads them from the client's bytes, and an error otherwise. *)
Theorem socks_client_agrees_with_server server es o0 o fx : server <> BADDR_NONE ->
  BSocksClient_Init server ais dest true = Ret (Some o0) -> allowed_run o0 es -> forallb blameless es = true ->
  exec o0 es = Ret (o, fx) -> resting o -> received es = socks_server (sent_of fx) ->
  reports fx = [if accepts ais dest then EVENT_UP else EVENT_ERROR].
Proof.
  intros Hserver E0 Ha Hb E [Hset Hrest] Hserved. destruct (init_related ais dest Hauth (addr_fits_ok dest Hdest) server Hserver) as (o0' & E0' & Hr & Hst0).
  rewrite E0 in E0'. injection E0' as <-.
  destruct (exec_ok ais dest Hauth (addr_fits_ok dest Hdest) _ _ _ es Hr Ha) as (o' & fx' & E' & _ & Hrun).
  rewrite E in E'. injection E' as <- <-. rewrite Hst0, decide_False, !app_nil_l in Hrun by done.
  destruct Hrun as [[Hrel Hrep]|(Herr & _ & _ & Hok)].
  - assert (Hst : state o <> STATE_CONNECTING).
    { intros Hst. pose proof Hrel as (_ & _ & He & Hrel'). rewrite Hst in Hrel'. destruct Hrel' as (_ & Hio & _).
      unfold reading in Hrest. rewrite Hio, Hst, He in Hrest. naive_solver. }
    destruct (related_verdict ais dest o _ _ Hrel Hset Hst) as [Hv Hs].
    assert (Hsent : sent_of fx = (dialog ais dest (received es)).1).
    { destruct Hrest as [Hread|[Hup|Herr]]; [by apply Hs| |destruct Hrel as (_ & _ & ? & _); congruence].
      destruct Hrel as (_ & _ & _ & Hrel). rewrite Hup in Hrel. by destruct Hrel as (_ & _ & ->). }
    rewrite Hsent in Hserved. rewrite (agreement_unique _ Hserved) in Hv. rewrite Hrep. by destruct (accepts ais dest), (decide (state o = STATE_UP)).
  - destruct (Hok Hb) as [-> Hd]. replace (sent_of fx) with (dialog ais dest (received es)).1 in Hserved by (by rewrite Hd).
    pose proof (agreement_unique _ Hserved) as Hv. rewrite Hd in Hv. by destruct (accepts ais dest).
Qed.
End agreement.
End server.

(** ** A connection *)

Section example.
#[local] Instance allowed_dec o e : Decision (allowed o e).
Proof. unfold allowed, possible. destruct e; try apply _; destruct (io o); apply _. Defined.
#[local] Instance next_dec o e (P : BSocksClient -> Prop) : (forall o', Decision (P o')) ->
  Decision (forall o' (f : list effect), step o e = Ret (o', f) -> P o').
Proof.
  intros HP. destruct (step o e) as [[o1 f1]|]; [destruct (HP o1) as [H|H]; [left|right]|left]; [by intros o' f [= <- <-]| |done].
  intros H'. by apply H, (H' o1 f1).
Defined.
#[local] Instance allowed_run_dec o es : Decision (allowed_run o es).
Proof. revert o. induction es as [|e es IH]; intros o; cbn; apply _. Defined.

Let ex_auths : list BSocksClient_auth_info := [BSocksClient_auth_none; BSocksClient_auth_password [117; 115] [112]].
Let ex_dest : BAddr := BADDR_IPV4 134744072 13568.
Let ex_server : BAddr := BADDR_IPV4 16777343 14340.
Let heap : option (nat -> Z) := Some (fun i => Z.of_nat i + 170).
Let says (n : Z) : list event := [SendPacketJob; SendOperationJob; SendDone 2; SendDoneJob; SendOperationJob; SendDone (n - 2); SendDoneJob; SendPacketDoneJob heap].
Let hears (d : bytes) : list event := [RecvOperationJob; RecvDone d; RecvDoneJob heap].
(** The server wants a password; its replies come in pieces. *)
Let ex_events : list event :=
  [Connected false true heap] ++ says 4 ++ hears [5] ++ hears [2] ++ says 6 ++ hears [1; 0] ++ says 10 ++
  hears [5; 0; 0] ++ hears [1] ++ hears [10; 0; 0] ++ hears [1; 4; 56].
Let ex_client : BSocksClient := Client ex_auths ex_dest STATE_CONNECTING None false NoIO false.

Lemma ex_auths_ok ai : ai ∈ ex_auths -> auth_ok ai.
Proof. intros [->|[->|[]%not_elem_of_nil]%elem_of_cons]%elem_of_cons; [by left|right; by exists [117; 115], [112]]. Qed.
Lemma socks_ex_allowed : allowed_run ex_client ex_events.
Proof. apply (bool_decide_unpack _). by vm_compute. Qed.
Example socks_ex_up : match exec ex_client ex_events with Ret (_, fx) => (sent_of fx, reports fx) | Fail _ => ([], []) end =
  ([5; 2; 0; 2] ++ [1; 2; 117; 115; 1; 112] ++ [5; 1; 0; 1; 8; 8; 8; 8; 0; 53], [EVENT_UP]).
Proof. by vm_compute. Qed.

Lemma socks_client_refines_dialog_witness : exists o fx, exec ex_client ex_events = Ret (o, fx) /\
  starts_with (sent_of fx) (dialog ex_auths ex_dest (received ex_events)).1.
Proof.
  destruct (socks_client_refines_dialog ex_auths ex_dest ex_server ex_events ex_auths_ok) as (o0 & E0 & H); [done|done|].
  vm_compute in E0. injection E0 as <-. destruct (H socks_ex_allowed) as (o & fx & E & Hs & _). exists o, fx. exact (conj E Hs).
Defined.

Let ex_account (u p : bytes) : bool := bool_decide (u = [117; 115] /\ p = [112]).
Let ex_reach (a : BAddr) : option BAddr := Some (BADDR_IPV4 16777226 14340).
Let ex_end : BSocksClient * list effect := match exec ex_client ex_events with Ret r => r | Fail _ => (ex_client, []) end.
Lemma ex_fields ai u p : ai ∈ ex_auths -> password ai = Some (u, p) -> field_ok u && field_ok p = true.
Proof. intros [->|[->|[]%not_elem_of_nil]%elem_of_cons]%elem_of_cons [=]; subst; by vm_compute. Qed.
Lemma socks_client_agrees_with_server_witness : accepts 2 ex_account ex_reach ex_auths ex_dest = true /\
  reports ex_end.2 = [if accepts 2 ex_account ex_reach ex_auths ex_dest then EVENT_UP else EVENT_ERROR].
Proof.
  split; [by vm_compute|].
  apply (socks_client_agrees_with_server 2 ex_account ex_reach ex_auths ex_dest) with (server := ex_server) (es := ex_events) (o0 := ex_client) (o := ex_end.1) (fx := ex_end.2);
    [by vm_compute|exact ex_auths_ok|exact ex_fields|by vm_compute|by intros a b [= <-]|done|by vm_compute|exact socks_ex_allowed|by vm_compute|vm_compute; reflexivity| |vm_compute; reflexivity].
  vm_compute. split; [done|right; by left].
Defined.
End example.
