(* ===== verification/FairQueue.v ===== *)
(** * The fair packet queue ([flow/PacketPassFairQueue.c])

    Several flows share one output.  Each flow has a virtual time, the bytes it
    has sent with a weight for each packet; the queued flow with the least time
    is next.  Times are 64-bit and are shifted back when they overflow.  The
    flows are objects in a memory [flows], linked by [flows_list]; those with a
    packet waiting are in [queued_tree], ordered by time and address.  The
    effects are the calls the queue makes: packets given to the output, the
    output's handler at work, the users of the flows told that they are done. *)
From stdpp Require Import gmap.
From S2P Require Import Prelude Addr Bavl LinkedList1 CAvl PacketPassInterface.

Definition u64 (z : Z) : Z := z mod 18446744073709551616.
(** [UINT64_MAX] *)
Definition FAIRQUEUE_MAX_TIME : Z := 18446744073709551615.

(** [handler_busy] with its [user]: a number for the pair. *)
Record PacketPassFairQueueFlow := Flow {
  handler_busy : option Z;
  input : PacketPassInterface;
  time : Z;
  is_queued : bool;
  queued_data : bytes }.

Record PacketPassFairQueue := FairQueue {
  output : PacketPassInterface;
  use_cancel : bool;
  packet_weight : Z;
  sending_flow : ptr;
  sending_len : Z;
  previous_flow : ptr;
  queued_tree : BAVL;
  flows_list : LinkedList1;
  freeing : bool;
  schedule_job : bool;
  flows : gmap positive PacketPassFairQueueFlow }.

Definition set_output (i : PacketPassInterface) (m : PacketPassFairQueue) : PacketPassFairQueue :=
  FairQueue i (use_cancel m) (packet_weight m) (sending_flow m) (sending_len m) (previous_flow m) (queued_tree m)
    (flows_list m) (freeing m) (schedule_job m) (flows m).
Definition set_sending (p : ptr) (n : Z) (m : PacketPassFairQueue) : PacketPassFairQueue :=
  FairQueue (output m) (use_cancel m) (packet_weight m) p n (previous_flow m) (queued_tree m)
    (flows_list m) (freeing m) (schedule_job m) (flows m).
Definition set_previous (p : ptr) (m : PacketPassFairQueue) : PacketPassFairQueue :=
  FairQueue (output m) (use_cancel m) (packet_weight m) (sending_flow m) (sending_len m) p (queued_tree m)
    (flows_list m) (freeing m) (schedule_job m) (flows m).
Definition set_tree (t : BAVL) (m : PacketPassFairQueue) : PacketPassFairQueue :=
  FairQueue (output m) (use_cancel m) (packet_weight m) (sending_flow m) (sending_len m) (previous_flow m) t
    (flows_list m) (freeing m) (schedule_job m) (flows m).
Definition set_list (l : LinkedList1) (m : PacketPassFairQueue) : PacketPassFairQueue :=
  FairQueue (output m) (use_cancel m) (packet_weight m) (sending_flow m) (sending_len m) (previous_flow m)
    (queued_tree m) l (freeing m) (schedule_job m) (flows m).
Definition set_freeing (b : bool) (m : PacketPassFairQueue) : PacketPassFairQueue :=
  FairQueue (output m) (use_cancel m) (packet_weight m) (sending_flow m) (sending_len m) (previous_flow m)
    (queued_tree m) (flows_list m) b (schedule_job m) (flows m).
Definition set_job (b : bool) (m : PacketPassFairQueue) : PacketPassFairQueue :=
  FairQueue (output m) (use_cancel m) (packet_weight m) (sending_flow m) (sending_len m) (previous_flow m)
    (queued_tree m) (flows_list m) (freeing m) b (flows m).
Definition set_flows (fs : gmap positive PacketPassFairQueueFlow) (m : PacketPassFairQueue) : PacketPassFairQueue :=
  FairQueue (output m) (use_cancel m) (packet_weight m) (sending_flow m) (sending_len m) (previous_flow m)
    (queued_tree m) (flows_list m) (freeing m) (schedule_job m) fs.

Definition flow_of (m : PacketPassFairQueue) (p : ptr) : run PacketPassFairQueueFlow :=
  x ← deref p; match flows m !! x with Some f => Ret f | None => Fail OutOfBounds end.
Definition set_flow (m : PacketPassFairQueue) (p : ptr) (f : PacketPassFairQueueFlow -> PacketPassFairQueueFlow) :
    run PacketPassFairQueue :=
  x ← deref p;
  match flows m !! x with Some fl => Ret (set_flows (<[x := f fl]> (flows m)) m) | None => Fail OutOfBounds end.

Definition with_time (t : Z) (f : PacketPassFairQueueFlow) : PacketPassFairQueueFlow :=
  Flow (handler_busy f) (input f) t (is_queued f) (queued_data f).
Definition with_queued (b : bool) (f : PacketPassFairQueueFlow) : PacketPassFairQueueFlow :=
  Flow (handler_busy f) (input f) (time f) b (queued_data f).
Definition with_data (d : bytes) (f : PacketPassFairQueueFlow) : PacketPassFairQueueFlow :=
  Flow (handler_busy f) (input f) (time f) (is_queued f) d.
Definition with_input (i : PacketPassInterface) (f : PacketPassFairQueueFlow) : PacketPassFairQueueFlow :=
  Flow (handler_busy f) i (time f) (is_queued f) (queued_data f).
Definition with_busy (h : option Z) (f : PacketPassFairQueueFlow) : PacketPassFairQueueFlow :=
  Flow h (input f) (time f) (is_queued f) (queued_data f).

Inductive effect : Type :=
  | SenderSend (flow : positive) (data : bytes)  (* PacketPassInterface_Sender_Send(output), for this flow *)
  | OutputHandler (data : bytes)                 (* handler_operation of the output *)
  | OutputCancel                                 (* handler_requestcancel of the output *)
  | UserDone (flow : positive)                   (* handler_done of the user of a flow *)
  | CallBusy (handler : Z).
#[export] Instance effect_eq_dec : EqDecision effect.
Proof. solve_decision. Defined.

(** ** Order and time *)

(** An entry of the tree as [compare_flows] sees it: its time and its address. *)
Definition compare_flows (f1 f2 : Z * Z) : Z :=
  let cmp := B_COMPARE f1.1 f2.1 in
  if negb (cmp =? 0) then cmp else B_COMPARE f1.2 f2.2.
Definition time_at (fs : gmap positive PacketPassFairQueueFlow) (x : positive) : Z :=
  match fs !! x with Some f => time f | None => 0 end.
Definition entry_at (fs : gmap positive PacketPassFairQueueFlow) (x : positive) : Z * Z := (time_at fs x, Zpos x).

Definition get_current_time (m : PacketPassFairQueue) : run Z :=
  match sending_flow m with
  | Some _ => f ← flow_of m (sending_flow m); Ret (time f)
  | None =>
      first_flow ← SAvl_GetFirst (queued_tree m);
      '(t, have) ←
        (match first_flow with
         | Some _ => f ← flow_of m first_flow; _ ← check (is_queued f); Ret (time f, true)
         | None => Ret (0, false)
         end);
      '(t, have) ←
        (match previous_flow m with
         | Some _ =>
             p ← flow_of m (previous_flow m);
             Ret (if negb have || (time p <? t) then (time p, true) else (t, have))
         | None => Ret (t, have)
         end);
      Ret (if (have : bool) then t else 0)
  end.

(** The loop over [flows_list]. *)
Fixpoint subtract_times (fuel : nat) (m : PacketPassFairQueue) (flow : ptr) (subtract : Z) (list_node : ptr) :
    run PacketPassFairQueue :=
  match list_node with
  | None => Ret m
  | Some _ =>
      match fuel with
      | O => Fail OutOfFuel
      | S fuel =>
          someflow ← flow_of m list_node;
          m ← (if (subtract >? time someflow) && negb (bool_decide (list_node = flow)) then
                 _ ← check (negb (is_queued someflow));
                 set_flow m list_node (with_time 0)
               else set_flow m list_node (with_time (u64 (time someflow - subtract))));
          next ← LinkedList1Node_Next (flows_list m) list_node;
          subtract_times fuel m flow subtract next
      end
  end.

Definition increment_sent_flow (m : PacketPassFairQueue) (flow : ptr) (amount : Z) : run PacketPassFairQueue :=
  f ← flow_of m flow;
  _ ← check (amount <=? FAIRQUEUE_MAX_TIME);
  _ ← check (negb (is_queued f));
  _ ← check (bool_decide (sending_flow m = None));
  (* does time overflow? *)
  m ← (if amount >? u64 (FAIRQUEUE_MAX_TIME - time f) then
         (* get time to subtract *)
         first_flow ← SAvl_GetFirst (queued_tree m);
         subtract ←
           (match first_flow with
            | None => Ret (time f)
            | Some _ => ff ← flow_of m first_flow; _ ← check (is_queued ff); Ret (time ff)
            end);
         (* subtract time from all flows *)
         subtract_times (size (ll_mem (flows_list m))) m flow subtract (LinkedList1_GetFirst (flows_list m))
       else Ret m);
  (* add time to flow *)
  f ← flow_of m flow;
  set_flow m flow (with_time (u64 (time f + amount))).

(** ** Scheduling *)

Definition schedule (m : PacketPassFairQueue) : run (PacketPassFairQueue * list effect) :=
  _ ← check (bool_decide (sending_flow m = None));
  _ ← check (bool_decide (previous_flow m = None));
  _ ← check (negb (freeing m));
  _ ← check (negb (SAvl_IsEmpty (queued_tree m)));
  (* get first queued flow *)
  qflow ← SAvl_GetFirst (queued_tree m);
  f ← flow_of m qflow;
  _ ← check (is_queued f);
  (* remove flow from queue *)
  t ← SAvl_Remove (queued_tree m) qflow;
  m ← set_flow (set_tree t m) qflow (with_queued false);
  (* schedule send *)
  o ← PacketPassInterface_Sender_Send (output m) (queued_data f);
  x ← deref qflow;
  Ret (set_sending qflow (len (queued_data f)) (set_output o m), [SenderSend x (queued_data f)]).

(** The job runs: it has been unset. *)
Definition schedule_job_handler (m : PacketPassFairQueue) : run (PacketPassFairQueue * list effect) :=
  _ ← check (bool_decide (sending_flow m = None));
  _ ← check (negb (freeing m));
  (* remove previous flow *)
  let m := set_previous None m in
  if negb (SAvl_IsEmpty (queued_tree m)) then schedule m else Ret (m, []).

Definition input_handler_send (m : PacketPassFairQueue) (flow : ptr) (data : bytes) :
    run (PacketPassFairQueue * list effect) :=
  _ ← check (negb (bool_decide (flow = sending_flow m)));
  f ← flow_of m flow;
  _ ← check (negb (is_queued f));
  _ ← check (negb (freeing m));
  m ← (if bool_decide (flow = previous_flow m) then Ret (set_previous None m)
       else (* raise time *)
         now ← get_current_time m;
         set_flow m flow (with_time (time f `max` now)));
  (* queue flow *)
  m ← set_flow m flow (with_data data);
  '(t, res, _) ← SAvl_Insert compare_flows (entry_at (flows m)) (queued_tree m) flow;
  _ ← check res;
  m ← set_flow (set_tree t m) flow (with_queued true);
  if bool_decide (sending_flow m = None) && negb (schedule_job m) then schedule m else Ret (m, []).

Definition output_handler_done (m : PacketPassFairQueue) : run (PacketPassFairQueue * list effect) :=
  _ ← check (bool_decide (sending_flow m <> None));
  _ ← check (bool_decide (previous_flow m = None));
  _ ← check (negb (schedule_job m));
  _ ← check (negb (freeing m));
  f ← flow_of m (sending_flow m);
  _ ← check (negb (is_queued f));
  let flow := sending_flow m in
  (* sending finished *)
  let m := set_sending None (sending_len m) m in
  (* remember this flow so the schedule job can remove its time if it did not send *)
  let m := set_previous flow m in
  (* update flow time by packet size *)
  m ← increment_sent_flow m flow (u64 (u64 (packet_weight m) + u64 (sending_len m)));
  (* schedule schedule *)
  let m := set_job true m in
  (* finish flow packet *)
  f ← flow_of m flow;
  i ← PacketPassInterface_Done (input f);
  m ← set_flow m flow (with_input i);
  (* call busy handler if set *)
  match handler_busy f with
  | Some h => m ← set_flow m flow (with_busy None); Ret (m, [CallBusy h])
  | None => Ret (m, [])
  end.

(** ** The interface *)

(** The result is [None] when the packets of the output are too large.  [nodes]
    and [links] are the memory the flows will be in. *)
Definition PacketPassFairQueue_Init (out : PacketPassInterface) (use_cancel : bool) (packet_weight : Z) :
    run (option PacketPassFairQueue) :=
  _ ← check (0 <? packet_weight);
  _ ← check (negb use_cancel || PacketPassInterface_HasCancel out);
  (* make sure that (output MTU + packet_weight <= FAIRQUEUE_MAX_TIME) *)
  if negb ((u64 (PacketPassInterface_GetMTU out) <=? FAIRQUEUE_MAX_TIME) &&
           (u64 packet_weight <=? u64 (FAIRQUEUE_MAX_TIME - PacketPassInterface_GetMTU out))) then Ret None else
  out ← PacketPassInterface_Sender_Init out;
  Ret (Some (FairQueue out use_cancel packet_weight None 0 None (SAvl_Init ∅) (LinkedList1_Init ∅) false false ∅)).

Definition PacketPassFairQueue_Free (m : PacketPassFairQueue) : run unit :=
  _ ← check (LinkedList1_IsEmpty (flows_list m));
  _ ← check (SAvl_IsEmpty (queued_tree m));
  _ ← check (bool_decide (previous_flow m = None));
  check (bool_decide (sending_flow m = None)).

Definition PacketPassFairQueue_PrepareFree (m : PacketPassFairQueue) : PacketPassFairQueue := set_freeing true m.
Definition PacketPassFairQueue_GetMTU (m : PacketPassFairQueue) : Z := PacketPassInterface_GetMTU (output m).

(** The memory of a flow that its user provides: its address and old contents. *)
Record flow_memory := FlowMemory {
  fm_addr : positive; fm_flow : PacketPassFairQueueFlow; fm_node : BAVLNode; fm_link : LinkedList1Node }.
Definition flow_alloc (a : flow_memory) (m : PacketPassFairQueue) : PacketPassFairQueue :=
  set_tree (tree_alloc (fm_addr a) (fm_node a) (queued_tree m))
    (set_list (list_alloc (fm_addr a) (fm_link a) (flows_list m)) (set_flows (<[fm_addr a := fm_flow a]> (flows m)) m)).
Definition flow_release (x : positive) (m : PacketPassFairQueue) : PacketPassFairQueue :=
  set_tree (tree_free x (queued_tree m)) (set_list (list_free x (flows_list m)) (set_flows (delete x (flows m)) m)).

Definition PacketPassFairQueueFlow_Init (m : PacketPassFairQueue) (a : flow_memory) : run PacketPassFairQueue :=
  _ ← check (negb (freeing m));
  let flow := Some (fm_addr a) in
  let m := flow_alloc a m in
  (* have no canfree handler; init input; set time; is not queued *)
  i ← PacketPassInterface_Init (PacketPassInterface_GetMTU (output m));
  m ← set_flow m flow (fun f => Flow None i 0 false (queued_data f));
  (* add to flows list *)
  l ← LinkedList1_Append (flows_list m) flow;
  Ret (set_list l m).

Definition PacketPassFairQueueFlow_Free (m : PacketPassFairQueue) (flow : ptr) : run PacketPassFairQueue :=
  _ ← check (freeing m || negb (bool_decide (flow = sending_flow m)));
  (* remove from current flow *)
  let m := if bool_decide (flow = sending_flow m) then set_sending None (sending_len m) m else m in
  (* remove from previous flow *)
  let m := if bool_decide (flow = previous_flow m) then set_previous None m else m in
  (* remove from queue *)
  f ← flow_of m flow;
  m ← (if is_queued f then t ← SAvl_Remove (queued_tree m) flow; Ret (set_tree t m) else Ret m);
  (* remove from flows list *)
  l ← LinkedList1_Remove (flows_list m) flow;
  x ← deref flow;
  Ret (flow_release x (set_list l m)).

Definition PacketPassFairQueueFlow_AssertFree (m : PacketPassFairQueue) (flow : ptr) : run unit :=
  check (freeing m || negb (bool_decide (flow = sending_flow m))).
Definition PacketPassFairQueueFlow_IsBusy (m : PacketPassFairQueue) (flow : ptr) : run bool :=
  _ ← check (negb (freeing m)); Ret (bool_decide (flow = sending_flow m)).

Definition PacketPassFairQueueFlow_RequestCancel (m : PacketPassFairQueue) (flow : ptr) : run PacketPassFairQueue :=
  _ ← check (bool_decide (flow = sending_flow m));
  _ ← check (use_cancel m);
  _ ← check (negb (freeing m));
  _ ← check (negb (schedule_job m));
  o ← PacketPassInterface_Sender_RequestCancel (output m);
  Ret (set_output o m).

Definition PacketPassFairQueueFlow_SetBusyHandler (m : PacketPassFairQueue) (flow : ptr) (handler : option Z) :
    run PacketPassFairQueue :=
  _ ← check (bool_decide (flow = sending_flow m));
  _ ← check (negb (freeing m));
  set_flow m flow (with_busy handler).

(** ** The queue in its surroundings

    What can happen to a queue: calls of its users, calls of the provider of
    the output, and the jobs of the queue and of its interfaces, which the event
    loop runs in any order; a job that is not set does nothing. *)
Inductive event : Type :=
  | FlowInit (a : flow_memory)
  | FlowFree (x : positive)
  | SenderInit (x : positive)            (* the user of the flow sets handler_done *)
  | UserSend (x : positive) (d : bytes)  (* PacketPassInterface_Sender_Send on the input of a flow *)
  | InputOperationJob (x : positive)     (* calls input_handler_send *)
  | InputDoneJob (x : positive)
  | OutputOperationJob
  | OutputCancelJob
  | OutputDone                           (* PacketPassInterface_Done on the output *)
  | OutputDoneJob                        (* calls output_handler_done *)
  | ScheduleJob                          (* calls schedule_job_handler *)
  | SetBusyHandler (x : positive) (h : option Z)
  | RequestCancel (x : positive)
  | PrepareFree.

Definition step (m : PacketPassFairQueue) (e : event) : run (PacketPassFairQueue * list effect) :=
  match e with
  | FlowInit a => m ← PacketPassFairQueueFlow_Init m a; Ret (m, [])
  | FlowFree x => m ← PacketPassFairQueueFlow_Free m (Some x); Ret (m, [])
  | SenderInit x =>
      f ← flow_of m (Some x); i ← PacketPassInterface_Sender_Init (input f);
      m ← set_flow m (Some x) (with_input i); Ret (m, [])
  | UserSend x d =>
      f ← flow_of m (Some x); i ← PacketPassInterface_Sender_Send (input f) d;
      m ← set_flow m (Some x) (with_input i); Ret (m, [])
  | InputOperationJob x =>
      f ← flow_of m (Some x);
      if negb (job_operation (input f)) then Ret (m, []) else
      '(i, d) ← PacketPassInterface_job_operation (input f);
      m ← set_flow m (Some x) (with_input i);
      input_handler_send m (Some x) d
  | InputDoneJob x =>
      f ← flow_of m (Some x);
      if negb (job_done (input f)) then Ret (m, []) else
      i ← PacketPassInterface_job_done (input f);
      m ← set_flow m (Some x) (with_input i); Ret (m, [UserDone x])
  | OutputOperationJob =>
      if negb (job_operation (output m)) then Ret (m, []) else
      '(o, d) ← PacketPassInterface_job_operation (output m); Ret (set_output o m, [OutputHandler d])
  | OutputCancelJob =>
      if negb (job_requestcancel (output m)) then Ret (m, []) else
      o ← PacketPassInterface_job_requestcancel (output m); Ret (set_output o m, [OutputCancel])
  | OutputDone => o ← PacketPassInterface_Done (output m); Ret (set_output o m, [])
  | OutputDoneJob =>
      if negb (job_done (output m)) then Ret (m, []) else
      o ← PacketPassInterface_job_done (output m); output_handler_done (set_output o m)
  | ScheduleJob => if negb (schedule_job m) then Ret (m, []) else schedule_job_handler (set_job false m)
  | SetBusyHandler x h => m ← PacketPassFairQueueFlow_SetBusyHandler m (Some x) h; Ret (m, [])
  | RequestCancel x => m ← PacketPassFairQueueFlow_RequestCancel m (Some x); Ret (m, [])
  | PrepareFree => Ret (PacketPassFairQueue_PrepareFree m, [])
  end.

Fixpoint exec (m : PacketPassFairQueue) (es : list event) : run (PacketPassFairQueue * list effect) :=
  match es with
  | [] => Ret (m, [])
  | e :: es => '(m, f) ← step m e; '(m, fs) ← exec m es; Ret (m, f ++ fs)
  end.

(** What the callers have to obey: the header's comments and the protocol of
    the interfaces.  The memory of a new flow is not in use; a flow is freed when
    it is not being sent; a sender waits for its packet to be done and keeps to
    the MTU; after [PrepareFree] flows are freed and nothing else happens. *)
Definition on_flow (m : PacketPassFairQueue) (x : positive) (P : PacketPassFairQueueFlow -> Prop) : Prop :=
  match flows m !! x with Some f => P f | None => False end.
Definition allowed (m : PacketPassFairQueue) (e : event) : Prop :=
  match e with
  | FlowInit a => freeing m = false /\ flows m !! fm_addr a = None
  | FlowFree x => on_flow m x (fun _ => freeing m = true \/ sending_flow m <> Some x)
  | PrepareFree => True
  | _ =>
      freeing m = false /\
      match e with
      | SenderInit x => on_flow m x (fun f => i_user (input f) = false)
      | UserSend x d => on_flow m x (fun f => i_user (input f) = true /\ i_state (input f) = PPI_STATE_NONE /\ len d <= i_mtu (input f))
      | InputOperationJob x | InputDoneJob x => on_flow m x (fun _ => True)
      | OutputDone => i_state (output m) = PPI_STATE_BUSY
      | SetBusyHandler x _ => sending_flow m = Some x
      | RequestCancel x => sending_flow m = Some x /\ use_cancel m = true
      | _ => True
      end
  end.
Fixpoint allowed_run (m : PacketPassFairQueue) (es : list event) : Prop :=
  match es with
  | [] => True
  | e :: es => allowed m e /\ forall m' f, step m e = Ret (m', f) -> allowed_run m' es
  end.
