(* ===== verification/FairQueueSpec.v ===== *)
(** * The state of the fair queue, and its operations one by one

    [fq_mem m l q]: the flows [l] are linked in memory and [q] are the queued
    ones in the order of the tree; [fq_run m q] and [fq_busy m q]: the output, the jobs
    and the inputs are where the queue believes they are.  The lemmas give the state after each handler. *)
From stdpp Require Import gmap.
From S2P Require Import Prelude Addr Bavl BavlTree BavlSpec LinkedList1 CAvl CAvlSpec PacketPassInterface FairQueue.

(** ** The order of the flows *)

#[export] Instance compare_flows_order : ValueOrder compare_flows.
Proof.
  apply (value_order_lex (fun a b : Z * Z => B_COMPARE a.1 b.1) (fun a b => B_COMPARE a.2 b.2)).
  - apply (value_order_by fst), _.
  - apply (value_order_by snd), _.
Qed.
Lemma B_COMPARE_lt a b : B_COMPARE a b = -1 <-> a < b.
Proof. unfold B_COMPARE. rewrite Z.gtb_ltb. destruct (Z.ltb_spec b a), (Z.ltb_spec a b); simpl; lia. Qed.
Lemma compare_flows_lt a b : compare_flows a b = -1 <-> a.1 < b.1 \/ (a.1 = b.1 /\ a.2 < b.2).
Proof.
  unfold compare_flows. destruct (Z.eqb_spec (B_COMPARE a.1 b.1) 0) as [E|E]; cbn [negb].
  - rewrite B_COMPARE_lt. rewrite B_COMPARE_0 in E. lia.
  - rewrite B_COMPARE_lt. rewrite B_COMPARE_0 in E. lia.
Qed.
Lemma compare_flows_ne fs x y : x <> y -> compare_flows (entry_at fs x) (entry_at fs y) <> 0.
Proof.
  intros Hne. unfold compare_flows, entry_at. cbn. destruct (Z.eqb_spec (B_COMPARE (time_at fs x) (time_at fs y)) 0) as [E|E]; cbn [negb]; [|done].
  rewrite B_COMPARE_0. congruence.
Qed.
Lemma queue_head fs t x q y : bavl compare_flows (entry_at fs) t (x :: q) -> y ∈ q -> time_at fs x <= time_at fs y.
Proof.
  intros (tr & _ & _ & _ & Hord) Hy. apply ordered_cons in Hord as [_ Hx].
  specialize (Hx y Hy). unfold before in Hx. apply compare_flows_lt in Hx. cbn in Hx. lia.
Qed.

(** ** The invariant *)

Record flow_ok (mtu : Z) (q : list positive) (x : positive) (f : PacketPassFairQueueFlow) : Prop := {
  f_time : 0 <= time f <= FAIRQUEUE_MAX_TIME;
  f_queued : is_queued f = bool_decide (x ∈ q);
  f_input : ppi_ok (input f);
  f_mtu : i_mtu (input f) = mtu;
  f_cancel : i_cancel (input f) = false;
  f_data : x ∈ q -> len (queued_data f) <= mtu }.

Record fq_mem (m : PacketPassFairQueue) (l q : list positive) : Prop := {
  m_weight : 0 < packet_weight m <= INT_MAX;
  m_mtu : i_mtu (output m) <= INT_MAX;
  m_output : ppi_ok (output m) /\ i_user (output m) = true /\ (use_cancel m = true -> i_cancel (output m) = true);
  m_list : linked (flows_list m) l;
  m_links : forall x, x ∈ l -> is_Some (ll_mem (flows_list m) !! x);
  m_tree : bavl compare_flows (entry_at (flows m)) (queued_tree m) q;
  m_nodes : forall x, x ∈ l -> is_Some (mem (queued_tree m) !! x);
  m_queue : forall x, x ∈ q -> x ∈ l;
  m_dom : forall x, is_Some (flows m !! x) <-> x ∈ l;
  m_flow : forall x f, flows m !! x = Some f -> flow_ok (i_mtu (output m)) q x f }.

Definition live (m : PacketPassFairQueue) (x : positive) : Prop := is_Some (flows m !! x).
Notation time_of m x := (time_at (flows m) x).

Record fq_run (m : PacketPassFairQueue) (q : list positive) : Prop := {
  c_sending : forall x, sending_flow m = Some x ->
    live m x /\ x ∉ q /\ 0 <= sending_len m <= i_mtu (output m) /\ previous_flow m = None /\ schedule_job m = false /\
    i_state (output m) <> PPI_STATE_NONE /\ forall y, y ∈ q -> time_of m x <= time_of m y;
  c_idle : sending_flow m = None -> freeing m = false ->
    i_state (output m) = PPI_STATE_NONE /\ (q <> [] -> schedule_job m = true);
  c_previous : forall x, previous_flow m = Some x -> live m x /\ x ∉ q /\ schedule_job m = true }.
(** The flows whose packet the queue holds, as their inputs see it. *)
Definition fq_busy (m : PacketPassFairQueue) (q : list positive) : Prop :=
  forall x f, flows m !! x = Some f -> i_state (input f) = PPI_STATE_BUSY <-> x ∈ q \/ sending_flow m = Some x.

Definition fq_ok (m : PacketPassFairQueue) (l q : list positive) : Prop := fq_mem m l q /\ fq_run m q /\ fq_busy m q.

Section fairqueue.
Implicit Types (m : PacketPassFairQueue) (l q : list positive) (x y : positive) (f : PacketPassFairQueueFlow).

(** ** Reading and writing flows *)

Lemma flow_of_ok m x f : flows m !! x = Some f -> flow_of m (Some x) = Ret f.
Proof. intros Hx. unfold flow_of. run_simpl. by rewrite Hx. Qed.
Lemma set_flow_ok m x f g : flows m !! x = Some f -> set_flow m (Some x) g = Ret (set_flows (<[x := g f]> (flows m)) m).
Proof. intros Hx. unfold set_flow. run_simpl. by rewrite Hx. Qed.
Lemma time_at_some fs x f : fs !! x = Some f -> time_at fs x = time f.
Proof. unfold time_at. by intros ->. Qed.
Lemma time_at_insert fs x f y : time_at (<[x := f]> fs) y = if decide (x = y) then time f else time_at fs y.
Proof. unfold time_at. rewrite lookup_insert. by destruct (decide _). Qed.
Lemma entry_at_insert fs x f y : x <> y \/ time f = time_at fs x -> entry_at (<[x := f]> fs) y = entry_at fs y.
Proof. intros H. unfold entry_at. rewrite time_at_insert. destruct (decide (x = y)) as [->|]; [|done]. destruct H as [|H]; [done|by rewrite H]. Qed.

Lemma queued_live m l q x : fq_mem m l q -> x ∈ q -> exists f, flows m !! x = Some f /\ flow_ok (i_mtu (output m)) q x f /\ is_queued f = true.
Proof.
  intros Hm Hx. destruct (proj2 (m_dom _ _ _ Hm x)) as [f Hf]; [by apply Hm|].
  exists f. split; [done|]. pose proof (m_flow _ _ _ Hm _ _ Hf) as Hok. split; [done|].
  rewrite (f_queued _ _ _ _ Hok). by rewrite bool_decide_true.
Qed.

Lemma live_time m l q x : fq_mem m l q -> live m x ->
  exists f, flows m !! x = Some f /\ time_of m x = time f /\ 0 <= time f <= FAIRQUEUE_MAX_TIME.
Proof.
  intros Hm [f Hf]. exists f. split; [done|]. split; [by apply time_at_some|]. by apply (m_flow _ _ _ Hm x).
Qed.

(** One flow changes; a queued flow keeps its time. *)
Lemma mem_update m l q x f f' : fq_mem m l q -> flows m !! x = Some f -> flow_ok (i_mtu (output m)) q x f' ->
  x ∉ q \/ time f' = time f -> fq_mem (set_flows (<[x := f']> (flows m)) m) l q.
Proof.
  intros [] Hx Hf' Ht. split; cbn; try done.
  - eapply bavl_value; [|done]. intros y Hy. apply entry_at_insert. destruct Ht as [Ht|Ht]; [left; by intros ->|right].
    by rewrite (time_at_some _ _ _ Hx).
  - intros y. rewrite lookup_insert. destruct (decide (x = y)) as [->|]; [|apply m_dom0].
    rewrite <- m_dom0, Hx. split; intros; by eexists.
  - intros y fy. rewrite lookup_insert. destruct (decide (x = y)) as [<-|]; [intros [= <-]; done|apply m_flow0].
Qed.
(** The control part changes. *)
Lemma mem_control m m' l q : fq_mem m l q ->
  packet_weight m' = packet_weight m -> use_cancel m' = use_cancel m ->
  queued_tree m' = queued_tree m -> flows_list m' = flows_list m -> flows m' = flows m -> i_mtu (output m') = i_mtu (output m) ->
  ppi_ok (output m') -> i_user (output m') = true -> i_cancel (output m') = i_cancel (output m) -> fq_mem m' l q.
Proof. intros [] Hw Hu Ht Hl Hf Hmtu Ho Hus Hc. split; rewrite ?Hw, ?Hu, ?Ht, ?Hl, ?Hf, ?Hmtu, ?Hc; try done. tauto. Qed.

(** A flow leaves the queue. *)
Lemma flow_ok_cons mtu x q y f : x <> y -> flow_ok mtu (x :: q) y f <-> flow_ok mtu q y f.
Proof.
  intros Hne. assert (Hiff : y ∈ x :: q <-> y ∈ q) by (rewrite elem_of_cons; naive_solver).
  split; intros []; split; try done; try naive_solver; rewrite f_queued0; by apply bool_decide_ext.
Qed.
Lemma flow_ok_perm mtu q q' y f : q ≡ₚ q' -> flow_ok mtu q y f -> flow_ok mtu q' y f.
Proof. intros Hq []. split; try done; [rewrite f_queued0; by apply bool_decide_ext; rewrite Hq|by rewrite <- Hq]. Qed.

(** ** Scheduling *)

Definition kept m m' : Prop :=
  packet_weight m' = packet_weight m /\ use_cancel m' = use_cancel m /\ i_mtu (output m') = i_mtu (output m) /\
  i_cancel (output m') = i_cancel (output m) /\ freeing m' = freeing m.

Lemma schedule_ok m l x q f : fq_mem m l (x :: q) -> flows m !! x = Some f ->
  sending_flow m = None -> previous_flow m = None -> freeing m = false -> i_state (output m) = PPI_STATE_NONE ->
  exists m', schedule m = Ret (m', [SenderSend x (queued_data f)]) /\ fq_mem m' l q /\ x ∉ q /\ kept m m' /\
    flows m' = <[x := with_queued false f]> (flows m) /\ sending_flow m' = Some x /\ sending_len m' = len (queued_data f) /\
    len (queued_data f) <= i_mtu (output m) /\ previous_flow m' = None /\ schedule_job m' = schedule_job m /\
    i_state (output m') = PPI_STATE_OPERATION_PENDING.
Proof.
  intros Hm Hx Hs Hp Hf Ho. pose proof (m_tree _ _ _ Hm) as Ht.
  assert (Hxq : x ∉ q) by (apply (bavl_nodup compare_flows), list.NoDup_cons in Ht; tauto).
  destruct (queued_live m l (x :: q) x Hm) as (f' & Hf' & Hok & Hiq); [by left|]. rewrite Hx in Hf'. injection Hf' as <-.
  destruct (m_output _ _ _ Hm) as (Hpp & Hu & Hca).
  pose proof (f_data _ _ _ _ Hok ltac:(by left)) as Hd.
  unfold schedule. rewrite Hs, Hp, Hf. rewrite (SAvl_IsEmpty_ok _ _ _ _ Ht). run_simpl.
  destruct (SAvl_GetFirst_ok _ _ _ _ Ht) as [-> _]. run_simpl. cbn [list.head negb bool_decide]. run_simpl.
  rewrite (flow_of_ok _ _ _ Hx). run_simpl. rewrite Hiq. run_simpl.
  destruct (SAvl_Remove_ok compare_flows _ _ [] x q Ht) as (t & -> & Hb & Hdom). run_simpl.
  rewrite (set_flow_ok (set_tree t m) x f) by done. run_simpl.
  destruct (Sender_Send_ok (output m) (queued_data f) Hpp Hu Ho Hd) as (o & Eo & (Hok' & Hst & Hmtu & Hcan & Husr) & _).
  cbn [output set_flows set_tree]. rewrite Eo. run_simpl.
  eexists. split; [reflexivity|]. split_and!; try done.
  destruct Hm. split; cbn; rewrite ?Hmtu, ?Hcan, ?Husr; try done.
  - eapply bavl_value; [|exact Hb]. intros y Hy. apply entry_at_insert. left. by intros ->.
  - intros y Hy. apply elem_of_dom. rewrite Hdom. apply elem_of_dom. auto.
  - intros y Hy. apply m_queue0. by right.
  - intros y. rewrite <- m_dom0, lookup_insert. destruct (decide (x = y)) as [->|]; [rewrite Hx; split; by eexists|done].
  - intros y fy. rewrite lookup_insert. destruct (decide (x = y)) as [<-|Hne].
    + intros [= <-]. destruct Hok. split; cbn; try done. by rewrite bool_decide_false.
    + intros Hy. apply (flow_ok_cons _ x); [done|]. by apply m_flow0.
Qed.

(** ** The current time *)

Lemma get_current_time_ok m l q : fq_mem m l q -> (forall x, sending_flow m = Some x -> live m x) ->
  (forall x, previous_flow m = Some x -> live m x) ->
  exists now, get_current_time m = Ret now /\ 0 <= now <= FAIRQUEUE_MAX_TIME /\
    forall x, sending_flow m = Some x -> now = time_of m x.
Proof.
  intros Hm Hs Hp. unfold get_current_time.
  assert (Htime : forall x f, flows m !! x = Some f -> 0 <= time f <= FAIRQUEUE_MAX_TIME) by (intros x f Hf; by apply (m_flow _ _ _ Hm x f)).
  destruct (sending_flow m) as [x|].
  { destruct (Hs x eq_refl) as [f Hf]. rewrite (flow_of_ok _ _ _ Hf). run_simpl. exists (time f).
    split; [done|]. split; [by eapply Htime|]. intros y [= <-]. by rewrite (time_at_some _ _ _ Hf). }
  destruct (SAvl_GetFirst_ok _ _ _ _ (m_tree _ _ _ Hm)) as [-> _]. run_simpl.
  assert (Hfirst : exists t (have : bool), match list.head q with
      | Some _ => f ← flow_of m (list.head q); _ ← check (is_queued f); Ret (time f, true)
      | None => Ret (0, false) end = Ret (t, have) /\ 0 <= t <= FAIRQUEUE_MAX_TIME).
  { destruct q as [|x q]; cbn [list.head]; [by exists 0, false|].
    destruct (queued_live m l (x :: q) x Hm) as (f & Hf & Hok & Hiq); [by left|].
    rewrite (flow_of_ok _ _ _ Hf). run_simpl. rewrite Hiq. run_simpl. exists (time f), true. split; [done|by eapply Htime]. }
  destruct Hfirst as (t & have & -> & Ht). run_simpl.
  assert (Hprev : exists t2 (have2 : bool), match previous_flow m with
      | Some _ => p ← flow_of m (previous_flow m); Ret (if negb have || (time p <? t) then (time p, true) else (t, have))
      | None => Ret (t, have) end = Ret (t2, have2) /\ 0 <= t2 <= FAIRQUEUE_MAX_TIME).
  { destruct (previous_flow m) as [x|]; [|by exists t, have]. destruct (Hp x eq_refl) as [f Hf].
    rewrite (flow_of_ok _ _ _ Hf). run_simpl. destruct (negb have || _); [exists (time f), true|exists t, have]; split; try done; by eapply Htime. }
  destruct Hprev as (t2 & have2 & -> & Ht2). run_simpl.
  exists (if have2 then t2 else 0). split; [done|]. split; [destruct have2; unfold FAIRQUEUE_MAX_TIME in *; lia|done].
Qed.

(** ** Shifting the times *)

Definition retimed (g : positive -> Z) (fs fs' : gmap positive PacketPassFairQueueFlow) : Prop :=
  forall x, fs' !! x = (fun f => with_time (g x) f) <$> fs !! x.

Lemma retimed_at g fs fs' x : retimed g fs fs' -> is_Some (fs !! x) -> time_at fs' x = g x.
Proof. intros Hr [f Hf]. unfold time_at. by rewrite Hr, Hf. Qed.

(** Queued flows keep their distances. *)
Lemma mem_retimed m l q g fs' : fq_mem m l q -> retimed g (flows m) fs' ->
  (forall x, live m x -> 0 <= g x <= FAIRQUEUE_MAX_TIME) ->
  (forall x y, x ∈ q -> y ∈ q -> g x - g y = time_of m x - time_of m y) -> fq_mem (set_flows fs' m) l q.
Proof.
  intros Hm Hr Hrange Hdist.
  assert (Hlive : forall x, x ∈ q -> is_Some (flows m !! x)) by (intros x Hx; by apply Hm, Hm).
  destruct Hm. split; cbn; try done.
  - eapply bavl_before; [|done]. intros x y Hx Hy. rewrite !compare_flows_lt. unfold entry_at. cbn.
    rewrite !(retimed_at _ _ _ _ Hr) by auto. specialize (Hdist x y Hx Hy). lia.
  - intros x. rewrite Hr, fmap_is_Some. apply m_dom0.
  - intros x f. rewrite Hr. intros (f0 & Hf0 & ->)%fmap_Some. destruct (m_flow0 _ _ Hf0).
    split; cbn; try done. apply Hrange. by eexists.
Qed.

Lemma u64_small z : 0 <= z <= FAIRQUEUE_MAX_TIME -> u64 z = z.
Proof. intros H. apply Z.mod_small. unfold FAIRQUEUE_MAX_TIME in H. lia. Qed.

(** The new time of a flow in the loop; the flow just sent may underflow. *)
Definition shifted (flow : positive) (s : Z) (x : positive) (t : Z) : Z :=
  if decide (x = flow) then u64 (t - s) else 0 `max` (t - s).

Lemma subtract_times_ok m flow s l1 l2 fuel :
  linked (flows_list m) (l1 ++ l2) -> (length l2 <= fuel)%nat -> 0 <= s ->
  (forall x, x ∈ l2 -> exists f, flows m !! x = Some f /\ 0 <= time f <= FAIRQUEUE_MAX_TIME /\
     (is_queued f = true -> s <= time f)) ->
  exists fs', subtract_times fuel m (Some flow) s (hd_or l2 None) = Ret (set_flows fs' m) /\
    forall x, fs' !! x = (fun f => if decide (x ∈ l2) then with_time (shifted flow s x (time f)) f else f) <$> flows m !! x.
Proof.
  intros Hl Hfuel Hs. revert m l1 fuel Hl Hfuel. induction l2 as [|x l2 IH]; intros m l1 fuel Hl Hfuel Hfl.
  { exists (flows m). split; [destruct fuel; by destruct m|]. intros y. destruct (flows m !! y); [|done]. cbn.
    by rewrite decide_False by set_solver. }
  destruct (Hfl x) as (f & Hf & Ht & Hq); [by left|].
  destruct fuel as [|fuel]; [cbn in Hfuel; lia|]. cbn [hd_or subtract_times].
  rewrite (flow_of_ok _ _ _ Hf). run_simpl. rewrite Z.gtb_ltb.
  assert (Hstep : (if (time f <? s) && negb (bool_decide (Some x = Some flow)) then
      _ ← check (negb (is_queued f)); set_flow m (Some x) (with_time 0)
    else set_flow m (Some x) (with_time (u64 (time f - s)))) =
    Ret (set_flows (<[x := with_time (shifted flow s x (time f)) f]> (flows m)) m)).
  { unfold shifted. destruct (decide (x = flow)) as [->|Hne].
    - rewrite bool_decide_true by done. rewrite andb_false_r. by apply set_flow_ok.
    - rewrite bool_decide_false by congruence. destruct (Z.ltb_spec (time f) s) as [Hlt|Hge]; cbn [negb andb].
      + assert (is_queued f = false) as -> by (destruct (is_queued f); [specialize (Hq eq_refl); lia|done]). cbn [negb]. run_simpl.
        rewrite (set_flow_ok _ _ _ _ Hf). by replace (0 `max` (time f - s)) with 0 by lia.
      + rewrite (set_flow_ok _ _ _ _ Hf). rewrite u64_small by lia. by replace (0 `max` (time f - s)) with (time f - s) by lia. }
  rewrite Hstep. run_simpl.
  pose proof Hl as (Hnd & _ & _ & Hlx)%linked_around. unfold LinkedList1Node_Next. cbn [flows_list set_flows].
  rewrite (next_of_ok _ _ _ _ Hlx). run_simpl.
  apply list.NoDup_app in Hnd as (_ & _ & Hnd). apply list.NoDup_cons in Hnd as [Hxl _].
  destruct (IH (set_flows (<[x := with_time (shifted flow s x (time f)) f]> (flows m)) m) (l1 ++ [x]) fuel) as (fs' & E & Hfs').
  - cbn. by rewrite <- app_assoc.
  - cbn in Hfuel. lia.
  - intros y Hy. destruct (Hfl y) as (fy & Hfy & Hrest); [by right|]. exists fy. split; [|done].
    cbn. rewrite lookup_insert_ne; [done|]. by intros ->.
  - exists fs'. split; [exact E|]. intros y. rewrite Hfs'. cbn. rewrite lookup_insert. destruct (decide (x = y)) as [<-|Hne].
    + rewrite Hf. cbn. by rewrite (decide_False (P := x ∈ l2)), (decide_True (P := x ∈ x :: l2)) by set_solver.
    + destruct (flows m !! y); [|done]. cbn. by destruct (decide (y ∈ l2)), (decide (y ∈ x :: l2)); try set_solver.
Qed.

Lemma links_fuel m l q : fq_mem m l q -> (length l <= size (ll_mem (flows_list m)))%nat.
Proof.
  intros Hm. destruct (m_list _ _ _ Hm) as (Hnd & _). rewrite <- (size_list_to_set (C := gset positive)) by done.
  rewrite <- size_dom. apply subseteq_size. intros x Hx%elem_of_list_to_set. by apply elem_of_dom, Hm.
Qed.

(** What the code gets from the wrap-around: the flow just sent moves ahead of
    the queue by its packet, all others keep their places or move up. *)
Definition charged m (z : positive) (amount s : Z) (x : positive) : Z :=
  if decide (x = z) then time_of m z + amount - s else 0 `max` (time_of m x - s).

(** The amount added after the loop, if there was one. *)
Lemma add_amount_ok m l q z f amount s fs : fq_mem m l q -> flows m !! z = Some f -> z ∉ q ->
  (forall x, fs !! x = (fun fx => with_time (if decide (x = z) then u64 (time fx - s) else 0 `max` (time fx - s)) fx) <$> flows m !! x) ->
  0 <= s -> (forall y, y ∈ q -> s <= time_of m y) -> 0 <= time f - s + amount <= FAIRQUEUE_MAX_TIME ->
  exists fs', (f ← flow_of (set_flows fs m) (Some z); set_flow (set_flows fs m) (Some z) (with_time (u64 (time f + amount)))) =
    Ret (set_flows fs' m) /\ fq_mem (set_flows fs' m) l q /\ retimed (charged m z amount s) (flows m) fs'.
Proof.
  intros Hm Hz Hzq Hfs Hs0 Hsq Hrange.
  assert (Hfz : fs !! z = Some (with_time (u64 (time f - s)) f)) by (rewrite Hfs, Hz; cbn; by rewrite decide_True).
  assert (Hr : retimed (charged m z amount s) (flows m) (<[z := with_time (time f - s + amount) f]> fs)).
  { intros x. unfold charged. rewrite lookup_insert. destruct (decide (z = x)) as [<-|Hne].
    - rewrite Hz. cbn. rewrite decide_True by done. rewrite (time_at_some _ _ _ Hz).
      by replace (time f + amount - s) with (time f - s + amount) by lia.
    - rewrite Hfs. destruct (flows m !! x) as [fx|] eqn:Hx; [|done]. cbn. rewrite !decide_False by done.
      by rewrite (time_at_some _ _ _ Hx). }
  exists (<[z := with_time (time f - s + amount) f]> fs). split; [|split; [|done]].
  - rewrite (flow_of_ok _ z _) by exact Hfz. run_simpl. rewrite (set_flow_ok _ z _) by exact Hfz. cbn.
    replace (u64 (u64 (time f - s) + amount)) with (time f - s + amount); [done|].
    unfold u64. rewrite Zplus_mod_idemp_l. symmetry. by apply u64_small.
  - apply (mem_retimed m l q _ _ Hm Hr).
    + intros x Hx. unfold charged. destruct (decide (x = z)) as [->|]; [rewrite (time_at_some _ _ _ Hz); lia|].
      destruct (live_time m l q x Hm Hx) as (fx & _ & -> & ?). unfold FAIRQUEUE_MAX_TIME in *. lia.
    + intros x y Hx Hy. unfold charged. rewrite !decide_False by (by intros ->).
      pose proof (Hsq x Hx). pose proof (Hsq y Hy). lia.
Qed.

(** The time that is subtracted when the time overflows. *)
Lemma subtract_ok m l q z f : fq_mem m l q -> flows m !! z = Some f -> (forall y, y ∈ q -> time_of m z <= time_of m y) ->
  exists s, (match list.head q with
     | Some _ => ff ← flow_of m (list.head q); _ ← check (is_queued ff); Ret (time ff)
     | None => Ret (time f) end) = Ret s /\ time f <= s <= FAIRQUEUE_MAX_TIME /\ forall y, y ∈ q -> s <= time_of m y.
Proof.
  intros Hm Hz Hmin. pose proof (f_time _ _ _ _ (m_flow _ _ _ Hm z f Hz)).
  destruct q as [|x q]; cbn [list.head].
  { exists (time f). split_and!; try done; [lia..|by intros y Hy%not_elem_of_nil]. }
  destruct (queued_live m l (x :: q) x Hm) as (fx & Hfx & Hokx & Hiq); [by left|].
  rewrite (flow_of_ok _ _ _ Hfx). run_simpl. rewrite Hiq. run_simpl. exists (time fx). split; [done|].
  pose proof (f_time _ _ _ _ Hokx). pose proof (Hmin x ltac:(by left)).
  rewrite (time_at_some _ _ _ Hfx), (time_at_some _ _ _ Hz) in *. split; [lia|].
  intros y [->|Hy]%elem_of_cons; [by rewrite (time_at_some _ _ _ Hfx)|].
  pose proof (queue_head _ _ _ _ _ (m_tree _ _ _ Hm) Hy). by rewrite (time_at_some _ _ _ Hfx) in *.
Qed.

Lemma increment_sent_flow_ok m l q z f amount : fq_mem m l q -> flows m !! z = Some f -> z ∉ q -> sending_flow m = None ->
  0 <= amount <= FAIRQUEUE_MAX_TIME -> (forall y, y ∈ q -> time_of m z <= time_of m y) ->
  exists fs' s, increment_sent_flow m (Some z) amount = Ret (set_flows fs' m) /\ fq_mem (set_flows fs' m) l q /\
    retimed (charged m z amount s) (flows m) fs' /\ 0 <= s /\ forall y, y ∈ q -> s <= time_of m y.
Proof.
  intros Hm Hz Hzq Hs Ha Hmin. pose proof (m_flow _ _ _ Hm z f Hz) as Hok. pose proof (f_time _ _ _ _ Hok) as Ht.
  unfold increment_sent_flow. rewrite (flow_of_ok _ _ _ Hz). run_simpl. ztest. run_simpl.
  rewrite (f_queued _ _ _ _ Hok), (bool_decide_false (z ∈ q)) by done. cbn [negb]. run_simpl.
  rewrite Hs, bool_decide_true by done. run_simpl. rewrite u64_small by (unfold FAIRQUEUE_MAX_TIME in *; lia).
  destruct (Z.ltb_spec (FAIRQUEUE_MAX_TIME - time f) amount) as [Hov|Hno].
  - destruct (SAvl_GetFirst_ok _ _ _ _ (m_tree _ _ _ Hm)) as [-> _]. run_simpl.
    destruct (subtract_ok m l q z f Hm Hz Hmin) as (s & -> & Hsr & Hsq). run_simpl.
    pose proof (m_list _ _ _ Hm) as Hl. unfold LinkedList1_GetFirst. destruct (Hl) as (_ & -> & _).
    destruct (subtract_times_ok m z s [] l (size (ll_mem (flows_list m)))) as (fs & -> & Hfs); [done|by eapply links_fuel|lia| |].
    { intros x Hx. destruct (live_time m l q x Hm) as (fx & Hfx & Htx & Hr); [by apply Hm|]. exists fx. do 2 (split; [done|]).
      intros Hiq. rewrite (f_queued _ _ _ _ (m_flow _ _ _ Hm x fx Hfx)) in Hiq. apply bool_decide_eq_true in Hiq.
      rewrite <- Htx. auto. }
    run_simpl. destruct (add_amount_ok m l q z f amount s fs) as (fs' & E & H1 & H2); try done; try lia.
    { intros x. rewrite Hfs. destruct (flows m !! x) as [fx|] eqn:Hx; [|done].
      cbn. by rewrite (decide_True (P := x ∈ l)) by (apply (m_dom _ _ _ Hm); by eexists). }
    exists fs', s. split_and!; try done. lia.
  - run_simpl. destruct (add_amount_ok m l q z f amount 0 (flows m)) as (fs' & E & H1 & H2); try done; try lia.
    + intros x. destruct (flows m !! x) as [fx|] eqn:Hx; [|done]. cbn. pose proof (f_time _ _ _ _ (m_flow _ _ _ Hm x fx Hx)).
      destruct fx as [hb i t iq d]. unfold with_time. cbn in *. rewrite !Z.sub_0_r, u64_small by done.
      destruct (decide _); [done|]. by replace (0 `max` t) with t by lia.
    + intros y Hy. destruct (live_time m l q y Hm) as (fy & _ & -> & ?); [by apply Hm, Hm|]. lia.
    + exists fs', 0. split_and!; try done.
      intros y Hy. destruct (live_time m l q y Hm) as (fy & _ & -> & ?); [by apply Hm, Hm|]. lia.
Qed.
End fairqueue.
