(* ===== verification/FairQueueSteps.v ===== *)
(** * What each event does to a fair queue

    Every event that the callers may cause is handled without a fault, keeps the
    invariant of FairQueueSpec.v, and moves the queue as [moved] says: packets
    are kept in order, no flow gets ahead of another that has packets waiting by
    more than [lead], and the packet at the output gets nearer to its end. *)
From stdpp Require Import gmap.
From S2P Require Import Prelude Addr Bavl BavlTree BavlSpec LinkedList1 CAvl CAvlSpec PacketPassInterface FairQueue FairQueueSpec.

(** ** Service *)

Definition charge (m : PacketPassFairQueue) (x : positive) : Z :=
  if decide (sending_flow m = Some x) then packet_weight m + sending_len m else 0.
(** The time of a flow when the packet it is sending is done. *)
Definition finish (m : PacketPassFairQueue) (x : positive) : Z := time_of m x + charge m x.
(** The most that one packet costs. *)
Definition quantum (m : PacketPassFairQueue) : Z := packet_weight m + i_mtu (output m).
(** How much service [y] can still get while [x] gets none. *)
Definition lead (m : PacketPassFairQueue) (x y : positive) : Z := 0 `max` (finish m x - finish m y + quantum m).
(** The flow has a packet in the queue or at the output, or has just had one. *)
Definition backlogged (m : PacketPassFairQueue) (x : positive) : Prop :=
  on_flow m x (fun f => is_queued f = true) \/ sending_flow m = Some x \/ previous_flow m = Some x.

Definition sent_by (x : positive) (e : effect) : option bytes :=
  match e with SenderSend y d => if decide (y = x) then Some d else None | _ => None end.
Definition is_send (e : effect) : option positive := match e with SenderSend y _ => Some y | _ => None end.
Definition sends (x : positive) (es : list effect) : list bytes := omap (sent_by x) es.
Definition senders (es : list effect) : list positive := omap is_send es.
Definition service (w : Z) (ds : list bytes) : Z := foldr (fun d n => w + len d + n) 0 ds.

Definition fair (m : PacketPassFairQueue) (es : list effect) (m' : PacketPassFairQueue) : Prop :=
  forall x y, x <> y -> backlogged m x -> backlogged m' x -> live m y -> live m' y ->
    lead m' x y + service (packet_weight m) (sends y es) <= lead m x y + service (packet_weight m) (sends x es).

(** ** Packets *)

Definition waiting (m : PacketPassFairQueue) (x : positive) : list bytes :=
  match flows m !! x with
  | Some f => (if is_queued f then [queued_data f] else []) ++ (if job_operation (input f) then [job_operation_data (input f)] else [])
  | None => []
  end.
Definition submitted (e : event) (x : positive) : list bytes :=
  match e with UserSend y d => if decide (y = x) then [d] else [] | _ => [] end.

(** ** Progress *)

(** The stations of a packet at the output. *)
Definition phase (m : PacketPassFairQueue) : Z :=
  match i_state (output m) with
  | PPI_STATE_NONE => 0
  | PPI_STATE_DONE_PENDING => 1
  | PPI_STATE_BUSY => 2
  | PPI_STATE_OPERATION_PENDING => 3
  end.
(** What the event loop or the provider of the output does next. *)
Definition next_event (m : PacketPassFairQueue) : event :=
  match i_state (output m) with
  | PPI_STATE_NONE => ScheduleJob
  | PPI_STATE_DONE_PENDING => OutputDoneJob
  | PPI_STATE_BUSY => OutputDone
  | PPI_STATE_OPERATION_PENDING => OutputOperationJob
  end.

Record moved (m : PacketPassFairQueue) (q : list positive) (e : event) (es : list effect)
    (m' : PacketPassFairQueue) (q' : list positive) : Prop := {
  mv_const : packet_weight m' = packet_weight m /\ i_mtu (output m') = i_mtu (output m);
  mv_freeing : freeing m' = (match e with PrepareFree => true | _ => freeing m end);
  mv_fair : fair m es m';
  mv_packets : forall x, live m x -> live m' x -> waiting m x ++ submitted e x = sends x es ++ waiting m' x;
  mv_phase : freeing m' = false -> phase m' <= phase m + 4 * len (senders es) /\
    (q <> [] -> e = next_event m -> 1 + phase m' <= phase m + 4 * len (senders es));
  mv_wait : forall x, x ∈ q -> live m' x -> sends x es = [] -> x ∈ q';
  mv_live : forall x, live m' x -> live m x \/ exists a, e = FlowInit a /\ fm_addr a = x;
  mv_stay : forall x, live m x -> live m' x \/ e = FlowFree x;
  mv_senders : forall x, x ∈ senders es -> live m' x }.

Definition outcome (m : PacketPassFairQueue) (q : list positive) (e : event) : Prop :=
  exists m' es l' q', step m e = Ret (m', es) /\ fq_ok m' l' q' /\ moved m q e es m' q'.

Section steps.
Implicit Types (m : PacketPassFairQueue) (l q : list positive) (x y z : positive) (f : PacketPassFairQueueFlow).

Lemma backlogged_iff m l q x : fq_mem m l q -> backlogged m x <-> x ∈ q \/ sending_flow m = Some x \/ previous_flow m = Some x.
Proof.
  intros Hm. unfold backlogged, on_flow. destruct (flows m !! x) as [f|] eqn:Hx.
  - by rewrite (f_queued _ _ _ _ (m_flow _ _ _ Hm x f Hx)), bool_decide_eq_true.
  - split; [tauto|]. intros [Hq|H]; [|tauto]. destruct (queued_live m l q x Hm Hq) as (f & Hf & _). congruence.
Qed.

(** Nobody is sent and no virtual finish time changes. *)
Lemma fair_quiet m es m' : senders es = [] -> quantum m' = quantum m ->
  (forall x, live m x -> live m' x -> finish m' x = finish m x) ->
  (forall x, backlogged m x -> live m x) -> (forall x, backlogged m' x -> live m' x) -> fair m es m'.
Proof.
  intros Hes Hq Hf Hb Hb' x y _ Hx Hx' Hy Hy'.
  assert (Hsends : forall z, sends z es = []).
  { intros z. clear - Hes. unfold sends, senders in *. induction es as [|[z' d|d| |z'|h] es IH]; cbn in *; try done; by apply IH. }
  rewrite !Hsends. unfold lead. rewrite Hq, !Hf by auto. cbn. lia.
Qed.

Lemma backlogged_live m l q x : fq_ok m l q -> backlogged m x -> live m x.
Proof.
  intros (Hm & Hr & _). rewrite (backlogged_iff m l q x Hm). intros [Hx|[Hx|Hx]].
  - by apply Hm, Hm.
  - by apply (c_sending _ _ Hr).
  - by apply (c_previous _ _ Hr).
Qed.
Lemma no_senders es x : senders es = [] -> sends x es = [].
Proof.
  unfold sends, senders. intros Hes. induction es as [|[z d|d| |z|h] es IH]; cbn in *; try done; by apply IH.
Qed.

(** An event that sends nothing and leaves the queue and the times alone. *)
Lemma moved_quiet m l l' q e es m' : fq_ok m l q -> fq_ok m' l' q -> senders es = [] ->
  packet_weight m' = packet_weight m -> i_mtu (output m') = i_mtu (output m) ->
  freeing m' = (match e with PrepareFree => true | _ => freeing m end) ->
  (forall x, live m' x <-> live m x) -> (forall x, time_of m' x = time_of m x) -> (forall x, charge m' x = charge m x) ->
  (forall x, live m x -> waiting m x ++ submitted e x = waiting m' x) ->
  phase m' <= phase m -> (freeing m' = false -> q <> [] -> e = next_event m -> 1 + phase m' <= phase m) ->
  moved m q e es m' q.
Proof.
  intros Ho Ho' Hes Hw Hmtu Hf Hlive Ht Hc Hwait Hph Hnext. split; rewrite ?Hes; try done.
  - apply fair_quiet; try done.
    + unfold quantum. by rewrite Hw, Hmtu.
    + intros x _ _. unfold finish. by rewrite Ht, Hc.
    + intros x. by eapply backlogged_live.
    + intros x. by eapply backlogged_live.
  - intros x Hx _. rewrite (no_senders es x Hes). by apply Hwait.
  - intros Hfr. change (len (@nil positive)) with 0. split; [lia|]. intros Hq He. specialize (Hnext Hfr Hq He). lia.
  - intros x Hx. left. by apply Hlive.
  - intros x Hx. left. by apply Hlive.
  - intros x Hx. by apply not_elem_of_nil in Hx.
Qed.

Lemma live_insert m x f y : live m x -> live (set_flows (<[x := f]> (flows m)) m) y <-> live m y.
Proof. unfold live. cbn. rewrite lookup_insert. destruct (decide (x = y)) as [->|]; [|done]. intros; split; [done|by eexists]. Qed.

(** One flow changes, but not its time nor its place. *)
Lemma run_update m q x f f' : flows m !! x = Some f -> time f' = time f -> fq_run m q -> fq_run (set_flows (<[x := f']> (flows m)) m) q.
Proof.
  intros Hx Ht [Hsend Hidle Hprev].
  assert (Hl : live m x) by (by eexists).
  assert (Htime : forall y, time_at (<[x := f']> (flows m)) y = time_of m y).
  { intros y. rewrite time_at_insert. destruct (decide (x = y)) as [<-|]; [|done]. by rewrite (time_at_some _ _ _ Hx). }
  split; cbn; try done.
  - intros y Hy. rewrite live_insert by done. destruct (Hsend y Hy) as (? & ? & ? & ? & ? & ? & H). repeat (split; [done|]).
    intros z Hz. rewrite !Htime. by apply H.
  - intros y Hy. rewrite live_insert by done. by apply Hprev.
Qed.

(** ** Events of the input of a flow *)

Lemma input_event m l q x f i e es : fq_ok m l q -> freeing m = false -> flows m !! x = Some f ->
  step m e = Ret (set_flows (<[x := with_input i f]> (flows m)) m, es) ->
  ppi_ok i -> i_mtu i = i_mtu (input f) -> i_cancel i = i_cancel (input f) ->
  (i_state i = PPI_STATE_BUSY <-> i_state (input f) = PPI_STATE_BUSY) -> senders es = [] ->
  (if job_operation (input f) then [job_operation_data (input f)] else []) ++ submitted e x =
    (if job_operation i then [job_operation_data i] else []) ->
  (forall y, y <> x -> submitted e y = []) -> e <> next_event m -> e <> PrepareFree -> outcome m q e.
Proof.
  intros Ho Hfr Hx Hstep Hi Hmtu Hcan Hbusy Hes Hsub Hsubo Hnext Hprep. pose proof Ho as (Hm & Hr & Hb).
  assert (Hok : fq_ok (set_flows (<[x := with_input i f]> (flows m)) m) l q).
  { split; [|split].
    - apply (mem_update m l q x f); [done..| |by right]. destruct (m_flow _ _ _ Hm x f Hx). split; cbn; try done; congruence.
    - by eapply run_update.
    - intros y fy. cbn. rewrite lookup_insert. destruct (decide (x = y)) as [<-|]; [|apply Hb].
      intros [= <-]. cbn. rewrite Hbusy. by apply Hb. }
  eexists _, es, l, q. split; [exact Hstep|]. split; [exact Hok|].
  eapply moved_quiet; try done.
  - cbn. by destruct e.
  - intros y. apply live_insert. by eexists.
  - intros y. cbn. rewrite time_at_insert. destruct (decide (x = y)) as [<-|]; [|done]. by rewrite (time_at_some _ _ _ Hx).
  - intros y [fy Hy]. unfold waiting. cbn. rewrite lookup_insert. destruct (decide (x = y)) as [<-|Hne].
    + rewrite Hx, <- app_assoc. cbn. by rewrite Hsub.
    + by rewrite Hsubo, app_nil_r.
Qed.

Lemma next_event_cases m : next_event m = ScheduleJob \/ next_event m = OutputDoneJob \/ next_event m = OutputDone \/ next_event m = OutputOperationJob.
Proof. unfold next_event. destruct (i_state (output m)); tauto. Qed.

Lemma on_flow_some m x (P : PacketPassFairQueueFlow -> Prop) : on_flow m x P -> exists f, flows m !! x = Some f /\ P f.
Proof. unfold on_flow. destruct (flows m !! x) as [f|]; [|done]. by exists f. Qed.

Lemma SenderInit_outcome m l q x : fq_ok m l q -> allowed m (SenderInit x) -> outcome m q (SenderInit x).
Proof.
  intros Ho (Hfr & (f & Hx & Hu)%on_flow_some). pose proof Ho as (Hm & _). destruct (m_flow _ _ _ Hm x f Hx) as [_ _ Hi _ _ _].
  destruct (Sender_Init_ok (input f) Hi Hu) as (i & Ei & Hi' & Hs & Hmtu & Hc & _ & Hd).
  assert (Hj : job_operation i = job_operation (input f)) by (by rewrite (pi_op _ Hi'), (pi_op _ Hi), Hs).
  eapply (input_event m l q x f i _ []); try done.
  - cbn [step]. rewrite (flow_of_ok _ _ _ Hx). run_simpl. rewrite Ei. run_simpl. rewrite (set_flow_ok _ _ _ _ Hx). by run_simpl.
  - by rewrite Hs.
  - cbn. by rewrite app_nil_r, Hj, Hd.
  - destruct (next_event_cases m) as [->|[->|[->| ->]]]; done.
Qed.
Lemma UserSend_outcome m l q x d : fq_ok m l q -> allowed m (UserSend x d) -> outcome m q (UserSend x d).
Proof.
  intros Ho (Hfr & (f & Hx & Hu & Hs & Hd)%on_flow_some). pose proof Ho as (Hm & _). destruct (m_flow _ _ _ Hm x f Hx) as [_ _ Hi _ _ _].
  destruct (Sender_Send_ok (input f) d Hi Hu Hs Hd) as (i & Ei & (Hi' & Hs' & Hmtu & Hc & _) & Hdata).
  eapply (input_event m l q x f i _ []); try done.
  - cbn [step]. rewrite (flow_of_ok _ _ _ Hx). run_simpl. rewrite Ei. run_simpl. rewrite (set_flow_ok _ _ _ _ Hx). by run_simpl.
  - by rewrite Hs, Hs'.
  - rewrite (pi_op _ Hi'), (pi_op _ Hi), Hs, Hs', Hdata. cbn. by rewrite decide_True.
  - intros y Hne. cbn. by rewrite decide_False.
  - destruct (next_event_cases m) as [->|[->|[->| ->]]]; done.
Qed.

Lemma idle_event m l q e es : fq_ok m l q -> step m e = Ret (m, es) -> senders es = [] -> (forall x, submitted e x = []) ->
  e <> next_event m \/ q = [] -> e <> PrepareFree -> outcome m q e.
Proof.
  intros Ho Hstep Hes Hsub Hnext Hp. exists m, es, l, q. split; [done|]. split; [done|].
  eapply moved_quiet; try done.
  - by destruct e.
  - intros x Hx. by rewrite Hsub, app_nil_r.
  - intros _ Hq He. by destruct Hnext.
Qed.
Lemma InputDoneJob_outcome m l q x : fq_ok m l q -> allowed m (InputDoneJob x) -> outcome m q (InputDoneJob x).
Proof.
  intros Ho (Hfr & (f & Hx & _)%on_flow_some). pose proof Ho as (Hm & _). destruct (m_flow _ _ _ Hm x f Hx) as [_ _ Hi _ _ _].
  assert (Hne : InputDoneJob x <> next_event m) by (destruct (next_event_cases m) as [->|[->|[->| ->]]]; done).
  destruct (job_done (input f)) eqn:Hj.
  - destruct (job_done_ok (input f) Hi Hj) as (i & Ei & (Hi' & Hs' & Hmtu & Hc & _) & Hs).
    eapply (input_event m l q x f i _ [UserDone x]); try done.
    + cbn [step]. rewrite (flow_of_ok _ _ _ Hx). run_simpl. rewrite Hj. cbn [negb]. rewrite Ei. run_simpl.
      rewrite (set_flow_ok _ _ _ _ Hx). by run_simpl.
    + by rewrite Hs, Hs'.
    + by rewrite (pi_op _ Hi'), (pi_op _ Hi), Hs, Hs'.
  - eapply (idle_event m l q _ []); try done; [|by left].
    cbn [step]. rewrite (flow_of_ok _ _ _ Hx). run_simpl. by rewrite Hj.
Qed.

(** ** Events of the output *)

Lemma output_update m l q o : fq_ok m l q -> ppi_ok o -> i_mtu o = i_mtu (output m) -> i_cancel o = i_cancel (output m) ->
  i_user o = i_user (output m) -> (i_state o = PPI_STATE_NONE <-> i_state (output m) = PPI_STATE_NONE) ->
  fq_ok (set_output o m) l q.
Proof.
  intros (Hm & [Hsend Hidle Hprev] & Hb) Hi Hmtu Hc Hu Hs. split; [|split; [|exact Hb]].
  - apply (mem_control m); try done. cbn. rewrite Hu. by apply Hm.
  - split; cbn; try done.
    + intros x Hx. rewrite Hmtu. destruct (Hsend x Hx) as (? & ? & ? & ? & ? & Hne & ?).
      do 5 (split; [done|]). split; [by rewrite Hs|done].
    + intros H1 H2. rewrite Hs. by apply Hidle.
Qed.
Lemma output_event m l q o e es : fq_ok m l q -> freeing m = false -> step m e = Ret (set_output o m, es) ->
  ppi_ok o -> i_mtu o = i_mtu (output m) -> i_cancel o = i_cancel (output m) -> i_user o = i_user (output m) ->
  (i_state o = PPI_STATE_NONE <-> i_state (output m) = PPI_STATE_NONE) -> senders es = [] -> (forall x, submitted e x = []) ->
  phase (set_output o m) <= phase m -> (e = next_event m -> 1 + phase (set_output o m) <= phase m) -> e <> PrepareFree ->
  outcome m q e.
Proof.
  intros Ho Hfr Hstep Hi Hmtu Hc Hu Hs Hes Hsub Hph Hnext Hp.
  pose proof (output_update m l q o Ho Hi Hmtu Hc Hu Hs) as Ho'.
  eexists _, es, l, q. split; [exact Hstep|]. split; [exact Ho'|].
  eapply moved_quiet; try done; [cbn; by destruct e|].
  intros x Hx. by rewrite Hsub, app_nil_r.
Qed.
Lemma OutputDone_outcome m l q : fq_ok m l q -> allowed m OutputDone -> outcome m q OutputDone.
Proof.
  intros Ho (Hfr & Hs). pose proof Ho as (Hm & _). destruct (m_output _ _ _ Hm) as (Hi & _).
  destruct (Done_ok (output m) Hi Hs) as (o & Eo & (Hi' & Hs' & Hmtu & Hc & Hu)).
  apply (output_event m l q o _ []); try done; cbn; rewrite ?Eo, ?Hs, ?Hs'; try done.
  all: unfold phase; cbn; rewrite Hs, Hs'; lia.
Qed.
Lemma OutputOperationJob_outcome m l q : fq_ok m l q -> allowed m OutputOperationJob -> outcome m q OutputOperationJob.
Proof.
  intros Ho (Hfr & _). pose proof Ho as (Hm & _). destruct (m_output _ _ _ Hm) as (Hi & _).
  destruct (job_operation (output m)) eqn:Hj.
  - destruct (job_operation_ok (output m) Hi Hj) as (o & Eo & (Hi' & Hs' & Hmtu & Hc & Hu) & Hs).
    apply (output_event m l q o _ [OutputHandler (job_operation_data (output m))]); try done; cbn; rewrite ?Hj; cbn; rewrite ?Eo, ?Hs, ?Hs'; try done.
    all: unfold phase; cbn; rewrite Hs, Hs'; lia.
  - apply (idle_event m l q _ []); try done; [cbn; by rewrite Hj|]. left. unfold next_event. rewrite (pi_op _ Hi) in Hj.
    by destruct (i_state (output m)).
Qed.
Lemma OutputCancelJob_outcome m l q : fq_ok m l q -> allowed m OutputCancelJob -> outcome m q OutputCancelJob.
Proof.
  intros Ho (Hfr & _). pose proof Ho as (Hm & _). destruct (m_output _ _ _ Hm) as (Hi & _).
  assert (Hne : OutputCancelJob <> next_event m) by (destruct (next_event_cases m) as [->|[->|[->| ->]]]; done).
  destruct (job_requestcancel (output m)) eqn:Hj.
  - destruct (job_requestcancel_ok (output m) Hi Hj) as (o & Eo & (Hi' & Hs' & Hmtu & Hc & Hu)).
    apply (output_event m l q o _ [OutputCancel]); try done; cbn; rewrite ?Hj; cbn; rewrite ?Eo, ?Hs'; try done.
    unfold phase; cbn; rewrite Hs'; lia.
  - apply (idle_event m l q _ []); try done; [cbn; by rewrite Hj|by left].
Qed.
Lemma RequestCancel_outcome m l q x : fq_ok m l q -> allowed m (RequestCancel x) -> outcome m q (RequestCancel x).
Proof.
  intros Ho (Hfr & Hx & Hu). pose proof Ho as (Hm & Hr & _). destruct (m_output _ _ _ Hm) as (Hi & _ & Huse).
  destruct (c_sending _ _ Hr x Hx) as (_ & _ & _ & _ & Hj & Hs & _).
  destruct (Sender_RequestCancel_ok (output m) Hi Hs (Huse Hu)) as (o & s & Eo & (Hi' & Hs' & Hmtu & Hc & Hus) & _ & Hcase).
  assert (Hne : RequestCancel x <> next_event m) by (destruct (next_event_cases m) as [->|[->|[->| ->]]]; done).
  apply (output_event m l q o _ []); try done.
  - cbn. unfold PacketPassFairQueueFlow_RequestCancel. rewrite Hx, bool_decide_true by done. rewrite Hu, Hfr, Hj. run_simpl.
    cbn [negb]. run_simpl. rewrite Eo. by run_simpl.
  - rewrite Hs'. destruct Hcase as [->|[_ ->]]; [done|]. by split.
  - unfold phase. cbn. rewrite Hs'. destruct Hcase as [->|[-> ->]]; lia.
Qed.
Lemma SetBusyHandler_outcome m l q x h : fq_ok m l q -> allowed m (SetBusyHandler x h) -> outcome m q (SetBusyHandler x h).
Proof.
  intros Ho (Hfr & Hs). pose proof Ho as (Hm & Hr & Hb). destruct (c_sending _ _ Hr x Hs) as ([f Hx] & _).
  assert (Hok : fq_ok (set_flows (<[x := with_busy h f]> (flows m)) m) l q).
  { split; [|split].
    - apply (mem_update m l q x f); [done..| |by right]. destruct (m_flow _ _ _ Hm x f Hx). by split.
    - by eapply run_update.
    - intros y fy. cbn. rewrite lookup_insert. destruct (decide (x = y)) as [<-|]; [|apply Hb].
      intros [= <-]. cbn. by apply Hb. }
  eexists _, [], l, q. split; [|split; [exact Hok|]].
  - cbn [step]. unfold PacketPassFairQueueFlow_SetBusyHandler. rewrite Hs, Hfr, bool_decide_true by done. run_simpl. cbn [negb].
    run_simpl. rewrite (set_flow_ok _ _ _ _ Hx). by run_simpl.
  - eapply moved_quiet; try done.
    + intros y. apply live_insert. by eexists.
    + intros y. cbn. rewrite time_at_insert. destruct (decide (x = y)) as [<-|]; [|done]. by rewrite (time_at_some _ _ _ Hx).
    + intros y [fy Hy]. rewrite app_nil_r. unfold waiting. cbn. rewrite lookup_insert. destruct (decide (x = y)) as [<-|Hne]; [|done].
      by rewrite Hx.
    + intros _ _. by destruct (next_event_cases m) as [->|[->|[->| ->]]].
Qed.
Lemma PrepareFree_outcome m l q : fq_ok m l q -> outcome m q PrepareFree.
Proof.
  intros Ho. pose proof Ho as (Hm & [Hsend Hidle Hprev] & Hb). eexists _, [], l, q. split; [done|].
  assert (Hok : fq_ok (PacketPassFairQueue_PrepareFree m) l q).
  { split; [by apply (mem_control m); try apply Hm|]. split; [by split|exact Hb]. }
  split; [done|]. eapply moved_quiet; try done.
  intros x Hx. by rewrite app_nil_r.
Qed.

(** ** A packet goes to the output *)

Lemma fair_trans m m1 m2 es1 es2 : packet_weight m1 = packet_weight m -> fair m es1 m1 -> fair m1 es2 m2 ->
  (forall x, backlogged m x -> backlogged m2 x -> backlogged m1 x) -> (forall x, live m x -> live m2 x -> live m1 x) ->
  fair m (es1 ++ es2) m2.
Proof.
  intros Hw H1 H2 Hb Hl x y Hne Hx Hx2 Hy Hy2. specialize (H1 x y Hne Hx (Hb x Hx Hx2) Hy (Hl y Hy Hy2)).
  specialize (H2 x y Hne (Hb x Hx Hx2) Hx2 (Hl y Hy Hy2) Hy2). rewrite Hw in H2.
  assert (Happ : forall z, service (packet_weight m) (sends z (es1 ++ es2)) =
    service (packet_weight m) (sends z es1) + service (packet_weight m) (sends z es2)).
  { intros z. unfold sends. rewrite omap_app. induction (omap (sent_by z) es1) as [|d l IH]; cbn [app service foldr]; [done|].
    unfold service in *. rewrite IH. lia. }
  rewrite !Happ. lia.
Qed.
Lemma service_one w x y d : service w (sends y [SenderSend x d]) = if decide (x = y) then w + len d else 0.
Proof. unfold sends. cbn. destruct (decide (x = y)); cbn; lia. Qed.

(** The flow with the least time is charged for its packet. *)
Lemma charge_fair m l x q d m' : fq_mem m l (x :: q) -> sending_flow m = None -> previous_flow m = None ->
  fq_mem m' l q -> kept m m' -> (forall y, time_of m' y = time_of m y) -> sending_flow m' = Some x -> sending_len m' = len d ->
  previous_flow m' = None -> len d <= i_mtu (output m) -> fair m [SenderSend x d] m'.
Proof.
  intros Hm Hs Hp Hm' (Hw & _ & Hmtu & _) Ht Hs' Hl Hp' Hd a b Hne Ha Ha' Hb Hb'.
  assert (Hfin : forall y, finish m' y = time_of m y + (if decide (x = y) then packet_weight m + len d else 0)).
  { intros y. unfold finish, charge. rewrite Ht, Hs', Hw, Hl. destruct (decide (Some x = Some y)), (decide (x = y)); congruence. }
  assert (Hfin0 : forall y, finish m y = time_of m y) by (intros y; unfold finish, charge; rewrite Hs, decide_False by done; lia).
  rewrite !service_one. unfold lead, quantum. rewrite !Hfin, !Hfin0, Hw, Hmtu.
  rewrite (backlogged_iff m' l q a Hm'), Hs', Hp' in Ha'.
  pose proof (m_weight _ _ _ Hm). pose proof (len_nonneg d).
  destruct (decide (x = a)) as [<-|Hxa], (decide (x = b)) as [<-|Hxb]; try done; try lia.
  assert (Haq : a ∈ q) by (destruct Ha' as [|[[= <-]|]]; done).
  pose proof (queue_head _ _ _ _ _ (m_tree _ _ _ Hm) Haq). lia.
Qed.

Lemma schedule_outcome m l x q : fq_mem m l (x :: q) -> fq_busy m (x :: q) -> sending_flow m = None -> previous_flow m = None ->
  freeing m = false -> schedule_job m = false -> i_state (output m) = PPI_STATE_NONE ->
  exists m' d, schedule m = Ret (m', [SenderSend x d]) /\ fq_ok m' l q /\ fair m [SenderSend x d] m' /\ kept m m' /\
    (forall y, live m' y <-> live m y) /\ (forall y, live m y -> waiting m y = sends y [SenderSend x d] ++ waiting m' y) /\
    phase m' = 3 /\ sending_flow m' = Some x.
Proof.
  intros Hm Hb Hs Hp Hfr Hj Ho. destruct (queued_live m l (x :: q) x Hm) as (f & Hx & Hok & Hiq); [by left|].
  destruct (schedule_ok m l x q f Hm Hx Hs Hp Hfr Ho) as (m' & E & Hm' & Hxq & Hk & Hfl & Hs' & Hl' & Hd & Hp' & Hj' & Ho').
  assert (Ht : forall y, time_of m' y = time_of m y).
  { intros y. rewrite Hfl, time_at_insert. destruct (decide (x = y)) as [<-|]; [|done]. by rewrite (time_at_some _ _ _ Hx). }
  assert (Hlive : forall y, live m' y <-> live m y).
  { intros y. unfold live. rewrite Hfl, lookup_insert. destruct (decide (x = y)) as [<-|]; [|done]. rewrite Hx. split; by eexists. }
  exists m', (queued_data f). split; [done|]. split; [split; [done|split]|split; [|split; [done|split; [done|split; [|split; [|done]]]]]].
  - split.
    + intros y. rewrite Hs'. intros [= <-]. split_and!; try done.
      * apply Hlive. by eexists.
      * rewrite Hl'. apply len_nonneg.
      * rewrite Hl'. destruct Hk as (_ & _ & -> & _). done.
      * by rewrite Hj'.
      * by rewrite Ho'.
      * intros z Hz. rewrite !Ht. by apply (queue_head _ _ _ _ _ (m_tree _ _ _ Hm)).
    + by rewrite Hs'.
    + by rewrite Hp'.
  - intros y fy. rewrite Hfl, Hs', lookup_insert. destruct (decide (x = y)) as [<-|Hne].
    + intros [= <-]. cbn. rewrite (Hb x f Hx). split; [by right|by left; left].
    + intros Hy. rewrite (Hb y fy Hy), Hs, elem_of_cons. split.
      * intros [[->|H]|H]; [done|by left|done].
      * intros [H|[= ->]]; [by left; right|done].
  - by eapply charge_fair.
  - intros y [fy Hy]. unfold waiting, sends. rewrite Hfl, lookup_insert, Hy. cbn. destruct (decide (x = y)) as [<-|Hne]; [|done].
    rewrite Hx in Hy. injection Hy as <-. by rewrite Hiq.
  - unfold phase. by rewrite Ho'.
Qed.

Lemma ScheduleJob_outcome m l q : fq_ok m l q -> allowed m ScheduleJob -> outcome m q ScheduleJob.
Proof.
  intros Ho (Hfr & _). pose proof Ho as (Hm & Hr & Hb).
  destruct (schedule_job m) eqn:Hj.
  2: { apply (idle_event m l q _ []); try done; [cbn; by rewrite Hj|].
       destruct (decide (q = [])) as [|Hq]; [by right|left]. unfold next_event.
       destruct (sending_flow m) as [x|] eqn:Hs.
       - destruct (c_sending _ _ Hr x Hs) as (_ & _ & _ & _ & _ & Hne & _). by destruct (i_state (output m)).
       - destruct (c_idle _ _ Hr Hs Hfr) as [_ H]. rewrite (H Hq) in Hj. done. }
  assert (Hs : sending_flow m = None).
  { destruct (sending_flow m) as [x|] eqn:Hs; [|done]. destruct (c_sending _ _ Hr x Hs) as (_ & _ & _ & _ & H & _). congruence. }
  destruct (c_idle _ _ Hr Hs Hfr) as [Hst _].
  set (m1 := set_previous None (set_job false m)).
  assert (Hm1 : fq_mem m1 l q) by (apply (mem_control m); try done; apply Hm).
  assert (E : step m ScheduleJob = if negb (bool_decide (q = [])) then schedule m1 else Ret (m1, [])).
  { cbn [step]. rewrite Hj. cbn [negb]. unfold schedule_job_handler. cbn [sending_flow set_job freeing].
    rewrite Hs, Hfr, bool_decide_true by done. run_simpl. cbn [negb]. run_simpl. fold m1.
    by rewrite (SAvl_IsEmpty_ok _ _ _ _ (m_tree _ _ _ Hm1)). }
  destruct q as [|x q].
  - cbn in E. assert (Ho1 : fq_ok m1 l []).
    { split; [done|]. split; [|exact Hb]. split; cbn; try done. by rewrite Hs. }
    exists m1, [], l, []. split; [done|]. split; [done|]. eapply moved_quiet; try done.
    intros x _. by rewrite app_nil_r.
  - destruct (schedule_outcome m1 l x q) as (m' & d & E' & Ho' & Hfair & Hk & Hlive & Hwait & Hph & Hs'); try done.
    exists m', [SenderSend x d], l, q. rewrite E. split; [exact E'|]. split; [done|].
    assert (Hph0 : phase m = 0) by (unfold phase; by rewrite Hst).
    assert (Hxl : live m' x) by (apply Hlive; apply Hm, Hm; by left).
    split; try done.
    + split; apply Hk.
    + destruct Hk as (_ & _ & _ & _ & ->). done.
    + apply (fair_trans m m1 m' [] [SenderSend x d]); try done.
      * apply fair_quiet; try done.
        -- intros y. by apply (backlogged_live m l (x :: q)).
        -- intros y. rewrite (backlogged_iff m1 l (x :: q) y Hm1). intros [Hy|[Hy|Hy]]; cbn in *; try congruence. by apply Hm, Hm.
      * intros y _. rewrite (backlogged_iff m1 l (x :: q) y Hm1), (backlogged_iff m' l q y ltac:(apply Ho')), Hs'.
        rewrite elem_of_cons. intros [Hy|[[= <-]|Hy]]; [tauto|tauto|]. destruct Ho' as (_ & Hr' & _).
        destruct (c_sending _ _ Hr' x Hs') as (_ & _ & _ & H & _). congruence.
    + intros y Hy _. rewrite app_nil_r. by apply Hwait.
    + intros _. rewrite Hph, Hph0. cbn [senders omap list_omap is_send]. change (len [x]) with 1. lia.
    + intros y Hy Hly. unfold sends. cbn. destruct (decide (x = y)) as [->|Hne]; [done|]. intros _.
      apply elem_of_cons in Hy as [->|]; done.
    + intros y Hy. left. by apply Hlive.
    + intros y Hy. left. by apply Hlive.
    + intros y Hy. cbn in Hy. apply list_elem_of_singleton in Hy as ->. done.
Qed.

(** ** A packet arrives *)

(** The time of the flow is raised to the current time, unless it has just sent. *)
Lemma raise_ok m l q z f : fq_mem m l q -> fq_run m q -> flows m !! z = Some f ->
  exists t, (if bool_decide (Some z = previous_flow m) then Ret (set_previous None m)
      else now ← get_current_time m; set_flow m (Some z) (with_time (time f `max` now))) =
    Ret (set_previous (if bool_decide (Some z = previous_flow m) then None else previous_flow m)
           (set_flows (<[z := with_time t f]> (flows m)) m)) /\
    time f <= t <= FAIRQUEUE_MAX_TIME /\ (previous_flow m = Some z -> t = time f) /\
    forall x, sending_flow m = Some x -> time_of m x <= t.
Proof.
  intros Hm [Hsend Hidle Hprev] Hz. pose proof (f_time _ _ _ _ (m_flow _ _ _ Hm z f Hz)) as Ht.
  case_bool_decide as Hp.
  - exists (time f). split; [|split_and!; try done; [lia..|]].
    + assert (Hid : <[z := with_time (time f) f]> (flows m) = flows m) by (apply insert_id; by destruct f).
      rewrite Hid. by destruct m.
    + intros x Hx. destruct (Hsend x Hx) as (_ & _ & _ & H & _). congruence.
  - destruct (get_current_time_ok m l q Hm) as (now & -> & Hn & Hns).
    { intros x Hx. by apply Hsend. }
    { intros x Hx. by apply Hprev. }
    run_simpl. rewrite (set_flow_ok _ _ _ _ Hz). exists (time f `max` now).
    split; [by destruct m|]. split; [lia|]. split; [congruence|]. intros x Hx. rewrite <- (Hns x Hx). lia.
Qed.

Lemma enqueue_ok m l q z f d : fq_mem m l q -> fq_run m q -> flows m !! z = Some f -> z ∉ q -> sending_flow m <> Some z ->
  freeing m = false -> len d <= i_mtu (output m) ->
  exists t tr q1 (m1 := set_tree tr (set_previous (if bool_decide (Some z = previous_flow m) then None else previous_flow m)
                   (set_flows (<[z := Flow (handler_busy f) (input f) t true d]> (flows m)) m))),
    input_handler_send m (Some z) d =
      (if bool_decide (sending_flow m = None) && negb (schedule_job m) then schedule m1 else Ret (m1, [])) /\
    fq_mem m1 l q1 /\ q1 ≡ₚ z :: q /\ time f <= t /\ (previous_flow m = Some z -> t = time f) /\
    forall x, sending_flow m = Some x -> time_of m x <= t.
Proof.
  intros Hm Hr Hz Hzq Hs Hfr Hd. pose proof (m_flow _ _ _ Hm z f Hz) as Hok.
  destruct (raise_ok m l q z f Hm Hr Hz) as (t & E & Ht & Hprev & Hst).
  set (p := if bool_decide (Some z = previous_flow m) then None else previous_flow m) in *.
  set (f2 := with_data d (with_time t f)). set (fs2 := <[z := f2]> (flows m)).
  assert (Hm2 : fq_mem (set_flows fs2 m) l q).
  { apply (mem_update m l q z f); [done..| |by left]. destruct Hok. split; cbn; try done. lia. }
  destruct (SAvl_Insert_ok compare_flows (entry_at fs2) (queued_tree m) q z (m_tree _ _ _ Hm2) Hzq) as (l1 & l2 & tr & ref & -> & Ei & Hb & Hdom).
  { apply (m_nodes _ _ _ Hm), (m_dom _ _ _ Hm). by eexists. }
  { intros y Hy. apply compare_flows_ne. by intros ->. }
  exists t, tr, (l1 ++ z :: l2). split; [|split; [|split_and!; try done; [by rewrite Permutation_middle|lia]]].
  - unfold input_handler_send. rewrite (bool_decide_false (Some z = sending_flow m)) by congruence. cbn [negb]. run_simpl.
    rewrite (flow_of_ok _ _ _ Hz). run_simpl. rewrite (f_queued _ _ _ _ Hok), (bool_decide_false (z ∈ l1 ++ l2)), Hfr by done.
    cbn [negb]. run_simpl. rewrite E. run_simpl.
    rewrite (set_flow_ok _ z (with_time t f)) by (cbn; by rewrite lookup_insert_eq). run_simpl.
    cbn [flows set_flows set_previous queued_tree]. rewrite insert_insert_eq. fold f2. fold fs2. rewrite Ei. run_simpl.
    rewrite (set_flow_ok _ z f2) by (cbn; unfold fs2; by rewrite lookup_insert_eq). run_simpl. cbn [flows set_flows set_tree set_previous].
    unfold fs2. rewrite insert_insert_eq. done.
  - destruct Hm2. split; cbn in *; try done.
    + eapply bavl_value; [|exact Hb]. intros y Hy. unfold entry_at, fs2. f_equal. rewrite !time_at_insert. by destruct (decide _).
    + intros y Hy. apply elem_of_dom. rewrite Hdom. apply elem_of_dom. auto.
    + intros y. rewrite elem_of_app, elem_of_cons. intros [Hy|[->|Hy]]; [apply m_queue; set_solver| |apply m_queue; set_solver].
      apply m_dom. unfold fs2. rewrite lookup_insert_eq. by eexists.
    + intros y. rewrite <- m_dom. unfold fs2. rewrite !lookup_insert. destruct (decide (z = y)); [|done]. split; by eexists.
    + intros y fy. rewrite lookup_insert. destruct (decide (z = y)) as [<-|Hne].
      * intros [= <-]. destruct Hok. split; cbn; try done; [lia|]. symmetry. apply bool_decide_eq_true. set_solver.
      * intros Hy. apply (flow_ok_perm _ (z :: l1 ++ l2)); [by rewrite Permutation_middle|]. apply flow_ok_cons; [done|].
        apply m_flow. unfold fs2. by rewrite lookup_insert_ne.
Qed.

(** The queue with the packet in it, as [enqueue_ok] gives it. *)
Lemma enqueue_fair m l q z f t m1 q1 : fq_mem m l q -> fq_run m q -> flows m !! z = Some f -> z ∉ q -> sending_flow m <> Some z ->
  quantum m1 = quantum m -> sending_flow m1 = sending_flow m -> sending_len m1 = sending_len m -> packet_weight m1 = packet_weight m ->
  (forall x, time_of m1 x = if decide (z = x) then t else time_of m x) -> time f <= t -> (previous_flow m = Some z -> t = time f) ->
  fq_mem m1 l q1 -> q1 ≡ₚ z :: q -> fair m [] m1.
Proof.
  intros Hm Hr Hz Hzq Hs Hq Hs1 Hl1 Hw1 Ht1 Ht Hp Hm1 Hq1 x y Hne Hx Hx1 Hy Hy1.
  assert (Hfin : forall a, finish m1 a = finish m a + (if decide (z = a) then t - time f else 0)).
  { intros a. unfold finish, charge. rewrite Hs1, Hl1, Hw1, Ht1. destruct (decide (z = a)) as [<-|]; [|lia].
    rewrite (time_at_some _ _ _ Hz). lia. }
  unfold lead. rewrite !Hfin, Hq. cbn. apply (backlogged_iff m l q x Hm) in Hx.
  destruct (decide (z = x)) as [<-|].
  - destruct Hx as [|[|Hx]]; [done..|]. rewrite (Hp Hx). destruct (decide (z = y)); [done|]. lia.
  - destruct (decide (z = y)); lia.
Qed.
Lemma enqueue_run m l q z f t m1 q1 : fq_mem m l q -> fq_run m q -> flows m !! z = Some f -> sending_flow m <> Some z ->
  (sending_flow m = None -> schedule_job m = true) ->
  output m1 = output m -> sending_flow m1 = sending_flow m -> sending_len m1 = sending_len m -> schedule_job m1 = schedule_job m ->
  freeing m1 = freeing m -> previous_flow m1 = (if bool_decide (Some z = previous_flow m) then None else previous_flow m) ->
  (forall x, live m1 x <-> live m x) ->
  (forall x, time_of m1 x = if decide (z = x) then t else time_of m x) -> time f <= t ->
  (forall x, sending_flow m = Some x -> time_of m x <= t) -> q1 ≡ₚ z :: q -> fq_run m1 q1.
Proof.
  intros Hm [Hsend Hidle Hprev] Hz Hsz Hjob Ho Hs1 Hl1 Hj1 Hf1 Hp1 Hlive Ht1 Ht Hst Hq1.
  assert (Hin : forall x, x ∈ q1 <-> x = z \/ x ∈ q) by (intros x; by rewrite Hq1, elem_of_cons).
  split; rewrite ?Hs1, ?Ho, ?Hj1, ?Hl1, ?Hf1, ?Hp1.
  - intros x Hx. destruct (Hsend x Hx) as (H1 & H2 & H3 & H4 & H5 & H6 & H7). rewrite Hlive, Hin.
    assert (Hzx : z <> x) by congruence.
    split; [done|]. split; [naive_solver|]. split; [done|]. split; [by case_bool_decide|]. do 2 (split; [done|]).
    intros y. rewrite Hin, !Ht1, (decide_False (P := z = x)) by done. intros [->|Hy].
    + rewrite decide_True by done. auto.
    + destruct (decide (z = y)); auto.
  - intros Hs Hfr. split; [by apply Hidle|]. intros _. by apply Hjob.
  - intros x. case_bool_decide as Hp; [done|]. intros Hx. destruct (Hprev x Hx) as (H1 & H2 & H3).
    rewrite Hlive, Hin. split; [done|]. split; [|done]. intros [->|]; [congruence|done].
Qed.

(** The state with the packet in the queue, before anything is scheduled. *)
Record arrived (m : PacketPassFairQueue) (l q : list positive) (z : positive) (m1 : PacketPassFairQueue) (q1 : list positive) : Prop := {
  a_mem : fq_mem m1 l q1;
  a_queue : q1 ≡ₚ z :: q;
  a_run : (sending_flow m = None -> schedule_job m = true) -> fq_run m1 q1;
  a_busy : fq_busy m1 q1;
  a_fair : fair m [] m1;
  a_live : forall x, live m1 x <-> live m x;
  a_waiting : forall x, live m x -> waiting m x = waiting m1 x;
  a_backlogged : forall x, backlogged m x -> backlogged m1 x;
  a_same : output m1 = output m /\ sending_flow m1 = sending_flow m /\ schedule_job m1 = schedule_job m /\
    freeing m1 = freeing m /\ packet_weight m1 = packet_weight m /\ (previous_flow m = None -> previous_flow m1 = None) }.

Lemma arrive_ok m l q z f : fq_ok m l q -> freeing m = false -> flows m !! z = Some f -> job_operation (input f) = true ->
  exists m1 q1, arrived m l q z m1 q1 /\
    step m (InputOperationJob z) = (if bool_decide (sending_flow m = None) && negb (schedule_job m) then schedule m1 else Ret (m1, [])).
Proof.
  intros (Hm & Hr & Hb) Hfr Hz Hj. destruct (m_flow _ _ _ Hm z f Hz) as [_ Hfq Hi Hfmtu _ _].
  destruct (job_operation_ok (input f) Hi Hj) as (i & Ei & (Hi' & Hs' & Hmtu & Hc & _) & Hs).
  set (d := job_operation_data (input f)) in *. pose proof (pi_data _ Hi) as Hd. fold d in Hd. rewrite Hfmtu in Hd.
  assert (Hidle : z ∉ q /\ sending_flow m <> Some z).
  { pose proof (Hb z f Hz) as Hbz. rewrite Hs in Hbz. split; intros H; by (destruct Hbz as [_ Hbz]; specialize (Hbz ltac:(tauto))). }
  destruct Hidle as [Hzq Hsz].
  set (f0 := with_input i f). set (m0 := set_flows (<[z := f0]> (flows m)) m).
  assert (Hz0 : flows m0 !! z = Some f0) by (cbn; by rewrite lookup_insert_eq).
  assert (Hm0 : fq_mem m0 l q).
  { apply (mem_update m l q z f); [done..| |by right]. destruct (m_flow _ _ _ Hm z f Hz). split; cbn; try done; congruence. }
  assert (Hr0 : fq_run m0 q) by (by apply (run_update m q z f)).
  destruct (enqueue_ok m0 l q z f0 d Hm0 Hr0 Hz0 Hzq Hsz Hfr Hd) as (t & tr & q1 & Eq & Hm1 & Hq1 & Ht & Hp & Hst).
  set (m1 := set_tree tr _) in *. set (f1 := Flow (handler_busy f0) (input f0) t true d) in *.
  assert (Hfl1 : flows m1 = <[z := f1]> (flows m)) by (cbn; by rewrite insert_insert_eq).
  assert (E : step m (InputOperationJob z) = (if bool_decide (sending_flow m = None) && negb (schedule_job m) then schedule m1 else Ret (m1, []))).
  { cbn [step]. rewrite (flow_of_ok _ _ _ Hz). run_simpl. rewrite Hj. cbn [negb]. rewrite Ei. run_simpl.
    rewrite (set_flow_ok _ _ _ _ Hz). run_simpl. exact Eq. }
  assert (Hlive : forall x, live m1 x <-> live m x).
  { intros x. unfold live. rewrite Hfl1, lookup_insert. destruct (decide (z = x)) as [<-|]; [|done]. rewrite Hz. split; by eexists. }
  assert (Htz : time_of m0 z = time f) by (by apply time_at_some in Hz0).
  assert (Ht0 : forall x, time_of m0 x = time_of m x).
  { intros x. cbn. rewrite time_at_insert. destruct (decide (z = x)) as [<-|]; [|done]. by rewrite (time_at_some _ _ _ Hz). }
  assert (Ht1 : forall x, time_of m1 x = if decide (z = x) then t else time_of m x) by (intros x; by rewrite Hfl1, time_at_insert).
  assert (Hfair : fair m [] m1) by (by apply (enqueue_fair m l q z f t m1 q1)).
  assert (Hb1 : fq_busy m1 q1).
  { intros x fx. rewrite Hfl1, lookup_insert, Hq1, elem_of_cons. destruct (decide (z = x)) as [<-|Hzx].
    - intros [= <-]. cbn. rewrite Hs'. split; [by left; left|done].
    - intros Hx. rewrite (Hb x fx Hx). cbn. naive_solver. }
  assert (Hwait : forall x, live m x -> waiting m x = waiting m1 x).
  { intros x [fx Hx]. unfold waiting. rewrite Hfl1, lookup_insert, Hx. destruct (decide (z = x)) as [<-|]; [|done].
    rewrite Hz in Hx. injection Hx as <-. cbn. rewrite Hfq, Hj, (pi_op _ Hi'), Hs'. by rewrite (bool_decide_false (z ∈ q)) by done. }
  assert (Hb01 : forall x, backlogged m x -> backlogged m1 x).
  { intros x. rewrite (backlogged_iff m l q x Hm), (backlogged_iff m1 l q1 x Hm1), Hq1, elem_of_cons. cbn.
    destruct (bool_decide (Some z = previous_flow m)) eqn:Hbd; [|tauto]. apply bool_decide_eq_true in Hbd.
    intros [|[|]]; try tauto. left. left. congruence. }
  exists m1, q1. split; [|exact E]. split; try done.
  - intros Hjob. apply (enqueue_run m l q z f t m1 q1); try done. intros x Hx. rewrite <- Ht0. by apply Hst.
  - split_and!; try done. intros Hpn. cbn. rewrite Hpn. by destruct (bool_decide _).
Qed.

Lemma InputOperationJob_outcome m l q z : fq_ok m l q -> allowed m (InputOperationJob z) -> outcome m q (InputOperationJob z).
Proof.
  intros Ho (Hfr & (f & Hz & _)%on_flow_some). pose proof Ho as (Hm & Hr & Hb).
  assert (Hne : InputOperationJob z <> next_event m) by (destruct (next_event_cases m) as [->|[->|[->| ->]]]; done).
  destruct (job_operation (input f)) eqn:Hj.
  2: { apply (idle_event m l q _ []); try done; [|by left]. cbn [step]. rewrite (flow_of_ok _ _ _ Hz). run_simpl. by rewrite Hj. }
  destruct (arrive_ok m l q z f Ho Hfr Hz Hj) as (m1 & q1 & [Hm1 Hq1 Hr1 Hb1 Hfair Hlive Hwait Hb01 (Hout1 & Hs1 & Hj1 & Hf1 & Hw1 & Hp1)] & E).
  destruct (bool_decide (sending_flow m = None) && negb (schedule_job m)) eqn:Hsch.
  - apply andb_true_iff in Hsch as [Hsn%bool_decide_eq_true Hjn%negb_true_iff].
    destruct (c_idle _ _ Hr Hsn Hfr) as [Hout Hqe].
    assert (q = []) as -> by (destruct q; [done|]; rewrite Hqe in Hjn; done).
    assert (Hpn : previous_flow m = None).
    { destruct (previous_flow m) as [x|] eqn:Hpx; [|done]. destruct (c_previous _ _ Hr x Hpx) as (_ & _ & ?). congruence. }
    apply Permutation_singleton_r in Hq1 as ->.
    destruct (schedule_outcome m1 l z []) as (m' & d' & E' & Ho' & Hfair' & Hk & Hlive' & Hwait' & Hph & Hs2); try done.
    { by rewrite Hs1. }
    { by apply Hp1. }
    { by rewrite Hf1. }
    { by rewrite Hj1. }
    { by rewrite Hout1. }
    exists m', [SenderSend z d'], l, []. rewrite E. split; [exact E'|]. split; [done|].
    assert (Hph0 : phase m = 0) by (unfold phase; by rewrite Hout).
    destruct Hk as (Hk1 & Hk2 & Hk3 & Hk4 & Hk5). split; try done.
    + by rewrite Hk1, Hk3, Hw1, Hout1.
    + by rewrite Hk5.
    + apply (fair_trans m m1 m' [] _); try done; [auto|]. intros x Hx _. by apply Hlive.
    + intros x Hx Hx'. cbn [submitted]. rewrite app_nil_r, Hwait by done. by apply Hwait', Hlive.
    + intros _. rewrite Hph, Hph0. cbn [senders omap list_omap is_send]. change (len [z]) with 1. split; [lia|done].
    + intros x Hx. left. by apply Hlive, Hlive'.
    + intros x Hx. left. by apply Hlive', Hlive.
    + intros x Hx. cbn in Hx. apply list_elem_of_singleton in Hx as ->. apply Hlive', Hlive. by eexists.
  - exists m1, [], l, q1. rewrite E. split; [done|].
    assert (Hjob : sending_flow m = None -> schedule_job m = true).
    { intros Hsn. rewrite Hsn in Hsch. destruct (schedule_job m); [done|]. by cbn in Hsch. }
    split; [by split; [|split; [apply Hr1|]]|]. split; try done.
    + by rewrite Hw1, Hout1.
    + intros x Hx _. rewrite app_nil_r. by apply Hwait.
    + intros _. change (len (senders [])) with 0. unfold phase. rewrite Hout1. split; [lia|done].
    + intros x Hx _ _. rewrite Hq1. by right.
    + intros x Hx. left. by apply Hlive.
    + intros x Hx. left. by apply Hlive.
    + intros x Hx. by apply not_elem_of_nil in Hx.
Qed.

(** ** The packet at the output is done *)

Lemma retimed_live g fs fs' x : retimed g fs fs' -> is_Some (fs' !! x) <-> is_Some (fs !! x).
Proof. intros Hr. by rewrite Hr, fmap_is_Some. Qed.

Lemma amount_ok m l q : fq_mem m l q -> 0 <= sending_len m <= i_mtu (output m) ->
  u64 (u64 (packet_weight m) + u64 (sending_len m)) = packet_weight m + sending_len m /\
  0 <= packet_weight m + sending_len m <= FAIRQUEUE_MAX_TIME.
Proof.
  intros Hm Hl. pose proof (m_weight _ _ _ Hm). pose proof (m_mtu _ _ _ Hm). unfold INT_MAX, FAIRQUEUE_MAX_TIME in *.
  rewrite (u64_small (packet_weight m)), (u64_small (sending_len m)), u64_small by (unfold FAIRQUEUE_MAX_TIME; lia). lia.
Qed.

(** [output_handler_done] on a state in which the output is free again. *)
Lemma output_handler_done_ok m l q z f : fq_mem m l q -> fq_busy m q -> freeing m = false ->
  sending_flow m = Some z -> flows m !! z = Some f -> z ∉ q -> 0 <= sending_len m <= i_mtu (output m) ->
  previous_flow m = None -> schedule_job m = false -> (forall y, y ∈ q -> time_of m z <= time_of m y) ->
  exists fs' s i es, output_handler_done m =
      Ret (set_flows (<[z := Flow None i (charged m z (packet_weight m + sending_len m) s z) false (queued_data f)]> fs')
             (set_job true (set_previous (Some z) (set_sending None (sending_len m) m))), es) /\
    senders es = [] /\ fq_mem (set_flows fs' m) l q /\ retimed (charged m z (packet_weight m + sending_len m) s) (flows m) fs' /\
    0 <= s /\ (forall y, y ∈ q -> s <= time_of m y) /\ ppi_moves (input f) PPI_STATE_DONE_PENDING i.
Proof.
  intros Hm Hb Hfr Hs Hz Hzq Hl Hp Hj Hmin.
  pose proof (m_flow _ _ _ Hm z f Hz) as Hok. destruct (amount_ok m l q Hm Hl) as [Eam Ham].
  set (mA := set_previous (Some z) (set_sending None (sending_len m) m)).
  assert (HmA : fq_mem mA l q) by (apply (mem_control m); try done; apply Hm).
  destruct (increment_sent_flow_ok mA l q z f (packet_weight m + sending_len m) HmA Hz Hzq eq_refl Ham Hmin)
    as (fs' & s & Ei & HmB & Hre & Hs0 & Hsq).
  assert (Hbusy : i_state (input f) = PPI_STATE_BUSY) by (apply (Hb z f Hz); by right).
  destruct (Done_ok (input f) (f_input _ _ _ _ Hok) Hbusy) as (i & Edone & Hi).
  assert (Hz' : fs' !! z = Some (with_time (charged m z (packet_weight m + sending_len m) s z) f)) by (by rewrite Hre; cbn; rewrite Hz).
  exists fs', s, i, (match handler_busy f with Some h => [CallBusy h] | None => [] end).
  split; [|split_and!; try done; [by destruct (handler_busy f)|]].
  2: { apply (mem_control (set_flows fs' mA)); try done; apply Hm. }
  unfold output_handler_done. rewrite Hs, (bool_decide_true (Some z <> None)), Hp, Hj, Hfr by done. cbn [negb].
  rewrite (bool_decide_true (None = None)) by done. run_simpl. rewrite (flow_of_ok _ _ _ Hz). run_simpl.
  rewrite (f_queued _ _ _ _ Hok), (bool_decide_false (z ∈ q)) by done. cbn [negb]. run_simpl.
  change (packet_weight (set_previous (Some z) (set_sending None (sending_len m) m))) with (packet_weight m).
  change (sending_len (set_previous (Some z) (set_sending None (sending_len m) m))) with (sending_len m).
  rewrite Eam. fold mA. rewrite Ei. run_simpl. rewrite (flow_of_ok _ z _) by exact Hz'. run_simpl. cbn [input with_time]. rewrite Edone.
  run_simpl. rewrite (set_flow_ok _ z _) by exact Hz'. run_simpl. cbn [handler_busy with_time].
  assert (Hiq : is_queued f = false) by (by rewrite (f_queued _ _ _ _ Hok), bool_decide_false).
  destruct (handler_busy f) as [h|] eqn:Hh.
  - erewrite (set_flow_ok _ z) by (cbn; by rewrite lookup_insert_eq). run_simpl. cbn. rewrite insert_insert_eq.
    unfold with_busy, with_input, with_time. cbn. by rewrite Hiq.
  - cbn. unfold with_input, with_time. cbn. by rewrite Hiq, Hh.
Qed.

(** The queue after it. *)
Section done.
Context (m : PacketPassFairQueue) (l q : list positive) (z : positive) (f : PacketPassFairQueueFlow).
Context (o i : PacketPassInterface) (fs' : gmap positive PacketPassFairQueueFlow) (s : Z).
Context (Ho : fq_ok m l q) (Hs : sending_flow m = Some z) (Hz : flows m !! z = Some f).
Notation amount := (packet_weight m + sending_len m).
Context (Hm' : fq_mem (set_flows fs' (set_output o m)) l q) (Hre : retimed (charged m z amount s) (flows m) fs').
Context (Hs0 : 0 <= s) (Hsq : forall y, y ∈ q -> s <= time_of m y).
Context (Hi : ppi_moves (input f) PPI_STATE_DONE_PENDING i) (Hout : ppi_moves (output m) PPI_STATE_NONE o).
Context (m' : PacketPassFairQueue) (Em' : m' = set_flows (<[z := Flow None i (charged m z amount s z) false (queued_data f)]> fs')
  (set_job true (set_previous (Some z) (set_sending None (sending_len m) (set_output o m))))).

Lemma done_live x : live m' x <-> live m x.
Proof using Hz Hre Em'.
  rewrite Em'. unfold live. cbn. rewrite lookup_insert. destruct (decide (z = x)) as [<-|].
  - rewrite Hz. split; by eexists.
  - by apply (retimed_live (charged m z amount s)).
Qed.
Lemma done_time x : live m x -> time_of m' x = charged m z amount s x.
Proof using Hz Hre Em'.
  intros Hx. rewrite Em'. cbn. rewrite time_at_insert. destruct (decide (z = x)) as [<-|]; [done|].
  by apply (retimed_at _ (flows m)).
Qed.
Lemma done_ok : fq_ok m' l q.
Proof using All.
  pose proof Ho as (Hm & [Hsend Hidle Hprev] & Hb). destruct (Hsend z Hs) as (_ & Hzq & Hl & Hp & Hj & _ & Hmin).
  assert (Hz' : fs' !! z = Some (with_time (charged m z amount s z) f)) by (by rewrite Hre, Hz).
  destruct Hi as (Hio & His & Himtu & Hic & _). destruct Hout as (_ & Hos & Homtu & _).
  split; [|split].
  - rewrite Em'. apply (mem_control (set_flows (<[z := Flow None i (charged m z amount s z) false (queued_data f)]> fs') (set_output o m)));
      try done; try apply Hm'.
    eapply (mem_update _ l q z _ _ Hm' Hz'); [|by left].
    destruct (m_flow _ _ _ Hm' z _ Hz'). cbn in *. split; cbn; try done; [|congruence..].
    symmetry. by apply bool_decide_eq_false.
  - rewrite Em'. split; cbn; try done.
    intros x [= <-]. split; [|done]. rewrite <- Em'. apply done_live. by eexists.
  - intros x fx. rewrite Em'. cbn. rewrite lookup_insert. destruct (decide (z = x)) as [<-|Hne].
    + intros [= <-]. cbn. rewrite His. split; [done|]. by intros [?|?].
    + rewrite Hre. intros (f0 & Hf0 & ->)%fmap_Some. cbn. rewrite (Hb x f0 Hf0), Hs.
      split; (intros [?|?]; [by left|congruence]).
Qed.
Lemma done_moved es : senders es = [] -> freeing m = false -> i_state (output m) = PPI_STATE_DONE_PENDING ->
  moved m q OutputDoneJob es m' q.
Proof using All.
  intros Hes Hfr Host. pose proof Ho as (Hm & Hr & Hb). destruct (c_sending _ _ Hr z Hs) as (_ & Hzq & Hl & Hp & Hj & _ & Hmin).
  assert (Hmove : packet_weight m' = packet_weight m /\ i_mtu (output m') = i_mtu (output m)).
  { rewrite Em'. split; [done|]. apply Hout. }
  assert (Hfin0 : forall x, finish m x = time_of m x + (if decide (x = z) then amount else 0)).
  { intros x. unfold finish, charge. rewrite Hs. destruct (decide (x = z)), (decide (Some z = Some x)); congruence. }
  assert (Hsn : sending_flow m' = None) by (by rewrite Em').
  assert (Hfin : forall x, live m x -> finish m' x = charged m z amount s x).
  { intros x Hx. unfold finish, charge. rewrite Hsn, decide_False by done.
    rewrite done_time by done. lia. }
  split; rewrite ?Hes; try done.
  - rewrite Em'. done.
  - intros a b Hne Ha _ Hb1 _. rewrite !(no_senders es) by done. pose proof (backlogged_live m l q a Ho Ha) as Hal.
    apply (backlogged_iff m l q a Hm) in Ha. unfold lead, quantum. destruct Hmove as [-> ->].
    rewrite !Hfin, !Hfin0 by done. unfold charged. destruct (live_time m l q b Hm Hb1) as (fb & _ & Hfb & ?).
    destruct (decide (a = z)) as [->|Haz], (decide (b = z)) as [->|Hbz]; try done; cbn [service foldr]; try lia.
    all: assert (s <= time_of m a) by (apply Hsq; destruct Ha as [|[|]]; [done|congruence..]); lia.
  - intros x [fx Hx] _. cbn [submitted]. rewrite app_nil_r, no_senders by done. unfold waiting. rewrite Em'. cbn [flows set_flows].
    rewrite lookup_insert. destruct (decide (z = x)) as [<-|].
    + rewrite Hz. cbn. destruct Hi as (Hio & His & _). pose proof (m_flow _ _ _ Hm z f Hz) as Hok.
      rewrite (pi_op _ Hio), His, (pi_op _ (f_input _ _ _ _ Hok)), (f_queued _ _ _ _ Hok), bool_decide_false by done.
      assert (Hbz : i_state (input f) = PPI_STATE_BUSY) by (apply (Hb z f Hz); by right). by rewrite Hbz.
    + by rewrite Hre, Hx.
  - intros _. assert (Hph : phase m' = 0) by (rewrite Em'; unfold phase; cbn; destruct Hout as (_ & -> & _); done).
    rewrite Hph. unfold phase. rewrite Host. change (len (@nil positive)) with 0. lia.
  - intros x Hx. left. by apply done_live.
  - intros x Hx. left. by apply done_live.
  - intros x Hx. by apply not_elem_of_nil in Hx.
Qed.
End done.

Lemma OutputDoneJob_outcome m l q : fq_ok m l q -> allowed m OutputDoneJob -> outcome m q OutputDoneJob.
Proof.
  intros Ho (Hfr & _). pose proof Ho as (Hm & Hr & Hb). destruct (m_output _ _ _ Hm) as (Hi & Hu & Hca).
  destruct (job_done (output m)) eqn:Hj.
  2: { apply (idle_event m l q _ []); try done; [cbn; by rewrite Hj|]. left. unfold next_event. rewrite (pi_done _ Hi) in Hj.
       by destruct (i_state (output m)). }
  destruct (job_done_ok (output m) Hi Hj) as (o & Eo & Hout & Host).
  destruct (sending_flow m) as [z|] eqn:Hs; [|destruct (c_idle _ _ Hr Hs Hfr); congruence].
  destruct (c_sending _ _ Hr z Hs) as ([f Hz] & Hzq & Hl & Hp & Hjob & _ & Hmin).
  pose proof Hout as (Hok & _ & Hmtu & Hc & Hus).
  assert (Hm0 : fq_mem (set_output o m) l q) by (apply (mem_control m); try done; cbn; by rewrite Hus).
  destruct (output_handler_done_ok (set_output o m) l q z f Hm0) as (fs' & s & i & es & E & Hes & Hm1 & Hre & Hs0 & Hsq & Hin);
    try done; [by cbn; rewrite Hmtu|].
  eexists _, es, l, q. split; [cbn [step]; rewrite Hj; cbn [negb]; rewrite Eo; run_simpl; exact E|].
  split; [by eapply (done_ok m l q z f o i fs' s)|by eapply (done_moved m l q z f o i fs' s)].
Qed.

(** ** Flows come and go *)

Lemma new_flow_mem m l q x f ll n0 : fq_mem m l q -> x ∉ l -> x ∉ q -> linked ll (l ++ [x]) ->
  dom (ll_mem ll) = {[x]} ∪ dom (ll_mem (flows_list m)) -> flow_ok (i_mtu (output m)) q x f ->
  fq_mem (set_list ll (set_flows (<[x := f]> (flows m)) (set_tree (tree_alloc x n0 (queued_tree m)) m))) (l ++ [x]) q.
Proof.
  intros [] Hxl Hxq Hll Hd Hf. split; cbn; try done.
  - intros y. rewrite elem_of_app, list_elem_of_singleton. intros Hy. apply elem_of_dom. rewrite Hd, elem_of_union, elem_of_singleton.
    destruct Hy as [Hy| ->]; [right|by left]. apply elem_of_dom. auto.
  - destruct (queued_tree m) as [r mm] eqn:Etr. eapply (bavl_mem _ _ r mm); [|eapply bavl_value; [|exact m_tree]].
    + intros y Hy. apply lookup_insert_ne. by intros ->.
    + intros y Hy. apply entry_at_insert. left. by intros ->.
  - intros y. rewrite elem_of_app, list_elem_of_singleton. intros Hy. rewrite lookup_insert. destruct (decide (x = y)); [by eexists|].
    apply m_nodes. naive_solver.
  - intros y Hy. apply elem_of_app. left. auto.
  - intros y. rewrite elem_of_app, list_elem_of_singleton, <- m_dom, lookup_insert. destruct (decide (x = y)); naive_solver.
  - intros y fy. rewrite lookup_insert. destruct (decide (x = y)) as [<-|]; [|apply m_flow]. by intros [= <-].
Qed.

Lemma FlowInit_outcome m l q a : fq_ok m l q -> allowed m (FlowInit a) -> outcome m q (FlowInit a).
Proof.
  intros Ho (Hfr & Hnew). pose proof Ho as (Hm & [Hsend Hidle Hprev] & Hb). destruct (m_output _ _ _ Hm) as (Hi & _).
  destruct a as [x f0 n0 k0]. cbn [fm_addr] in *.
  assert (Hxl : x ∉ l) by (rewrite <- (m_dom _ _ _ Hm), Hnew; by intros [? ?]).
  assert (Hxq : x ∉ q) by (intros Hq; by apply Hxl, Hm).
  destruct (Init_ok (i_mtu (output m)) (pi_mtu _ Hi)) as (i & Ei & Hio & His & Himtu & Hic & _).
  destruct (LinkedList1_Append_ok (list_alloc x k0 (flows_list m)) l x) as (ll & Ea & Hll & [Hd _]); [by apply linked_alloc, Hm|done| |].
  { cbn. rewrite lookup_insert_eq. by eexists. }
  set (f := Flow None i 0 false (queued_data f0)).
  set (m' := set_list ll (set_flows (<[x := f]> (flows m)) (set_tree (tree_alloc x n0 (queued_tree m)) m))).
  assert (E : step m (FlowInit (FlowMemory x f0 n0 k0)) = Ret (m', [])).
  { cbn [step]. unfold PacketPassFairQueueFlow_Init. rewrite Hfr. cbn [negb fm_addr]. run_simpl.
    unfold PacketPassInterface_GetMTU. cbn [output flow_alloc set_tree set_list set_flows]. rewrite Ei. run_simpl.
    rewrite (set_flow_ok _ x f0) by (cbn; by rewrite lookup_insert_eq). run_simpl.
    cbn [flows_list flow_alloc set_tree set_list set_flows fm_addr fm_link]. rewrite Ea. run_simpl. cbn. by rewrite insert_insert_eq. }
  assert (Ht : forall y, y <> x -> time_of m' y = time_of m y) by (intros y Hy; cbn; by rewrite time_at_insert, decide_False by done).
  assert (Hlive : forall y, live m' y <-> y = x \/ live m y).
  { intros y. unfold live. cbn. rewrite lookup_insert. destruct (decide (x = y)) as [->|]; split; try naive_solver. }
  assert (Hlx : forall y, live m y -> y <> x) by (intros y [fy Hy] ->; congruence).
  assert (Hok : fq_ok m' (l ++ [x]) q).
  { split; [|split].
    - apply new_flow_mem; try done; [rewrite Hd; cbn; by rewrite dom_insert_L|].
      split; cbn; try done. by rewrite bool_decide_false.
    - split; cbn [sending_flow sending_len output previous_flow schedule_job freeing m' set_list set_flows set_tree]; try done.
      + intros y Hy. destruct (Hsend y Hy) as (H1 & H2 & H3 & H4 & H5 & H6 & H7). split; [apply Hlive; by right|]. do 5 (split; [done|]).
        intros w Hw. rewrite !Ht; [by apply H7|by intros ->|by apply Hlx].
      + intros y Hy. destruct (Hprev y Hy) as (H1 & H2 & H3). split; [apply Hlive; by right|done].
    - intros y fy. cbn. rewrite lookup_insert. destruct (decide (x = y)) as [<-|]; [|apply Hb]. intros [= <-]. cbn. rewrite His.
      split; [done|]. intros [?|Hsx]; [done|]. destruct (Hsend x Hsx) as ([? ?] & _). congruence. }
  exists m', [], (l ++ [x]), q. split; [exact E|]. split; [exact Hok|]. split; try done.
  - apply fair_quiet; try done.
    + intros y Hy _. unfold finish. rewrite Ht by (by apply Hlx). done.
    + intros y. by eapply backlogged_live.
    + intros y. by eapply backlogged_live.
  - intros y [fy Hy] _. cbn [submitted]. rewrite app_nil_r. unfold waiting. cbn. rewrite lookup_insert_ne; [done|]. intros ->. congruence.
  - intros _. change (phase m') with (phase m). change (len (senders [])) with 0. split; [lia|].
    by destruct (next_event_cases m) as [->|[->|[->| ->]]].
  - intros y [->|Hy]%Hlive; [right|by left]. by eexists.
  - intros y Hy. left. apply Hlive. by right.
  - intros y Hy. by apply not_elem_of_nil in Hy.
Qed.

(** The memory without the flow [x]. *)
Lemma free_flow_mem m l1 l2 q q' x tr ll : fq_mem m (l1 ++ x :: l2) q -> linked ll (l1 ++ l2) ->
  dom (ll_mem ll) = dom (ll_mem (flows_list m)) -> bavl compare_flows (entry_at (flows m)) tr q' -> dom (mem tr) = dom (mem (queued_tree m)) ->
  (forall y, y ∈ q' <-> y ∈ q /\ y <> x) -> fq_mem (flow_release x (set_list ll (set_tree tr m))) (l1 ++ l2) q'.
Proof.
  intros [] Hll Hd Htr Hdt Hq. destruct m_list as [Hnd _].
  assert (Hx : x ∉ l1 ++ l2).
  { apply list.NoDup_app in Hnd as (_ & H1 & [H2 _]%list.NoDup_cons). intros [Hx|Hx]%elem_of_app; [|done]. apply (H1 x Hx). by left. }
  assert (Hl : forall y, y ∈ l1 ++ l2 <-> y ∈ l1 ++ x :: l2 /\ y <> x).
  { intros y. rewrite !elem_of_app, elem_of_cons. split; [|naive_solver]. intros Hy. split; [tauto|]. intros ->. apply Hx. by apply elem_of_app. }
  split; cbn; try done.
  - by apply linked_free.
  - intros y [Hy Hne]%Hl. rewrite lookup_delete_ne by done. apply elem_of_dom. rewrite Hd. apply elem_of_dom. auto.
  - destruct tr as [r mm]. eapply (bavl_mem _ _ r mm); [|eapply bavl_value; [|exact Htr]].
    + intros y [_ Hy]%Hq. by apply lookup_delete_ne.
    + intros y [_ Hy]%Hq. unfold entry_at, time_at. by rewrite lookup_delete_ne.
  - intros y [Hy Hne]%Hl. rewrite lookup_delete_ne by done. apply elem_of_dom. rewrite Hdt. apply elem_of_dom. auto.
  - intros y [Hy Hne]%Hq. apply Hl. auto.
  - intros y. rewrite Hl, <- m_dom, lookup_delete_is_Some. naive_solver.
  - intros y fy [Hne Hy]%lookup_delete_Some. destruct (m_flow y fy Hy). split; try done.
    + rewrite f_queued. apply bool_decide_ext. rewrite Hq. naive_solver.
    + intros Hyq. apply f_data. by apply Hq.
Qed.

(** The queue without the flow [x]. *)
Record freed (m : PacketPassFairQueue) (q : list positive) (x : positive) (m' : PacketPassFairQueue) (q' : list positive) : Prop := {
  fr_queue : forall y, y ∈ q' <-> y ∈ q /\ y <> x;
  fr_flows : flows m' = delete x (flows m);
  fr_sending : forall y, sending_flow m' = Some y <-> sending_flow m = Some y /\ y <> x;
  fr_previous : forall y, previous_flow m' = Some y <-> previous_flow m = Some y /\ y <> x;
  fr_same : output m' = output m /\ packet_weight m' = packet_weight m /\ sending_len m' = sending_len m /\
    schedule_job m' = schedule_job m /\ freeing m' = freeing m }.

Lemma unpoint_iff (x : positive) (p : ptr) y : (if bool_decide (Some x = p) then None else p) = Some y <-> p = Some y /\ y <> x.
Proof.
  destruct (bool_decide _) eqn:E; [apply bool_decide_eq_true in E as <-|apply bool_decide_eq_false in E].
  - split; [done|]. intros [[= ->] ?]. done.
  - split; [|tauto]. intros ->. split; [done|]. intros ->. done.
Qed.

Lemma free_tree_ok m l q x f : fq_mem m l q -> flows m !! x = Some f -> exists tr q',
  (if is_queued f then t ← SAvl_Remove (queued_tree m) (Some x); Ret t else Ret (queued_tree m)) = Ret tr /\
  bavl compare_flows (entry_at (flows m)) tr q' /\ dom (mem tr) = dom (mem (queued_tree m)) /\ forall y, y ∈ q' <-> y ∈ q /\ y <> x.
Proof.
  intros Hm Hx. rewrite (f_queued _ _ _ _ (m_flow _ _ _ Hm x f Hx)). pose proof (m_tree _ _ _ Hm) as Ht. case_bool_decide as Hxq.
  - apply list_elem_of_split in Hxq as (q1 & q2 & ->). destruct (SAvl_Remove_ok _ _ _ _ _ _ Ht) as (tr & Er & Hbt & Hdt).
    exists tr, (q1 ++ q2). rewrite Er. run_simpl. split_and!; try done.
    apply (bavl_nodup compare_flows) in Ht. apply list.NoDup_app in Ht as (_ & H1 & [H2 _]%list.NoDup_cons).
    intros y. rewrite !elem_of_app, elem_of_cons. split; [|naive_solver].
    intros [Hy|Hy]; (split; [tauto|]); intros ->; [apply (H1 x Hy); by left|done].
  - exists (queued_tree m), q. split_and!; try done. intros y. split; [|tauto]. intros Hy. split; [done|]. by intros ->.
Qed.

Lemma free_ok m l q x : fq_ok m l q -> allowed m (FlowFree x) ->
  exists m' l' q', step m (FlowFree x) = Ret (m', []) /\ fq_mem m' l' q' /\ freed m q x m' q'.
Proof.
  intros (Hm & _) (f & Hx & Hal)%on_flow_some.
  assert (Hxl : x ∈ l) by (apply (m_dom _ _ _ Hm); by eexists). apply list_elem_of_split in Hxl as (l1 & l2 & ->).
  set (s := if bool_decide (Some x = sending_flow m) then None else sending_flow m).
  set (p := if bool_decide (Some x = previous_flow m) then None else previous_flow m).
  set (m1 := set_previous p (set_sending s (sending_len m) m)).
  destruct (free_tree_ok m _ q x f Hm Hx) as (tr & q' & Etr & Hbt & Hdt & Hq').
  destruct (LinkedList1_Remove_ok (flows_list m) l1 x l2 (m_list _ _ _ Hm)) as (ll & Ell & Hll & [Hd _]).
  exists (flow_release x (set_list ll (set_tree tr m1))), (l1 ++ l2), q'. split; [|split].
  - cbn [step]. unfold PacketPassFairQueueFlow_Free.
    assert (Hchk : freeing m || negb (bool_decide (Some x = sending_flow m)) = true).
    { destruct Hal as [->|Hne]; [done|]. rewrite bool_decide_false by congruence. by rewrite orb_true_r. }
    rewrite Hchk. run_simpl.
    assert (Hm1 : (let m := if bool_decide (Some x = sending_flow m) then set_sending None (sending_len m) m else m in
      if bool_decide (Some x = previous_flow m) then set_previous None m else m) = m1).
    { unfold m1, s, p. by destruct m; cbn; repeat case_bool_decide. }
    cbn zeta in Hm1. rewrite Hm1, (flow_of_ok m1 x f Hx). run_simpl.
    assert (Htr : (if is_queued f then t ← SAvl_Remove (queued_tree m1) (Some x); Ret (set_tree t m1) else Ret m1) = Ret (set_tree tr m1)).
    { cbn [queued_tree m1 set_previous set_sending]. destruct (is_queued f).
      - destruct (SAvl_Remove _ _); [|done]. cbn in *. by injection Etr as ->.
      - injection Etr as <-. by destruct m. }
    rewrite Htr. run_simpl. cbn [flows_list set_tree m1 set_previous set_sending]. rewrite Ell. by run_simpl.
  - apply (free_flow_mem m1 l1 l2 q q' x tr ll); try done. apply (mem_control m); try done; apply Hm.
  - split; [exact Hq'|done|exact (unpoint_iff x (sending_flow m))|exact (unpoint_iff x (previous_flow m))|done].
Qed.

Lemma freed_ok m l q x m' l' q' : fq_ok m l q -> allowed m (FlowFree x) -> freed m q x m' q' -> fq_mem m' l' q' -> fq_ok m' l' q'.
Proof.
  intros (Hm & [Hsend Hidle Hprev] & Hb) (f & Hx & Hal)%on_flow_some [Hq' Hfl Hs Hp (Ho & Hw & Hl & Hj & Hfr)] Hm'.
  assert (Hlive : forall y, live m' y <-> live m y /\ y <> x) by (intros y; unfold live; rewrite Hfl, lookup_delete_is_Some; naive_solver).
  assert (Ht : forall y, y <> x -> time_of m' y = time_of m y) by (intros y Hy; rewrite Hfl; unfold time_at; by rewrite lookup_delete_ne).
  split; [done|]. split; [split|]; rewrite ?Ho, ?Hl, ?Hj, ?Hfr.
  - intros y [Hy Hne]%Hs. destruct (Hsend y Hy) as (H1 & H2 & H3 & H4 & H5 & H6 & H7). rewrite Hlive, Hq'.
    split; [done|]. split; [tauto|]. split; [done|]. split.
    { destruct (previous_flow m') as [w|] eqn:Hw'; [|done]. destruct (proj1 (Hp w) eq_refl). congruence. }
    do 2 (split; [done|]). intros w [Hw1 Hwx]%Hq'. rewrite !Ht by done. auto.
  - intros Hsn Hfree. assert (Hsn' : sending_flow m = None).
    { destruct (sending_flow m) as [y|] eqn:Hy; [|done]. exfalso. destruct (decide (y = x)) as [->|Hne]; [destruct Hal; congruence|].
      pose proof (proj2 (Hs y) (conj eq_refl Hne)). congruence. }
    destruct (Hidle Hsn' Hfree) as [H1 H2]. split; [done|]. intros Hne. apply H2. intros ->.
    destruct q' as [|y q']; [done|]. by destruct (proj1 (Hq' y) ltac:(by left)) as [?%not_elem_of_nil _].
  - intros y [Hy Hne]%Hp. destruct (Hprev y Hy) as (H1 & H2 & H3). rewrite Hlive, Hq'. split; [done|]. split; [tauto|done].
  - intros y fy. rewrite Hfl. intros [Hne Hy]%lookup_delete_Some. rewrite (Hb y fy Hy), Hq', (Hs y). naive_solver.
Qed.

Lemma FlowFree_outcome m l q x : fq_ok m l q -> allowed m (FlowFree x) -> outcome m q (FlowFree x).
Proof.
  intros Ho Ha. destruct (free_ok m l q x Ho Ha) as (m' & l' & q' & E & Hm' & Hf).
  pose proof (freed_ok m l q x m' l' q' Ho Ha Hf Hm') as Hok. destruct Hf as [Hq' Hfl Hs Hp (Hout & Hw & Hl & Hj & Hfr)].
  assert (Hlive : forall y, live m' y <-> live m y /\ y <> x) by (intros y; unfold live; rewrite Hfl, lookup_delete_is_Some; naive_solver).
  exists m', [], l', q'. split; [exact E|]. split; [exact Hok|]. split; try done.
  - by rewrite Hout.
  - apply fair_quiet; try done.
    + unfold quantum. by rewrite Hw, Hout.
    + intros y _ [_ Hne]%Hlive. unfold finish, charge, time_at. rewrite Hfl, lookup_delete_ne, Hw, Hl by done.
      destruct (decide (sending_flow m' = Some y)) as [H1|H1], (decide (sending_flow m = Some y)) as [H2|H2]; rewrite ?(Hs y) in *; naive_solver.
    + intros y. by eapply backlogged_live.
    + intros y. by eapply backlogged_live.
  - intros y _ [_ Hne]%Hlive. cbn [submitted]. rewrite app_nil_r. unfold waiting. by rewrite Hfl, lookup_delete_ne.
  - intros _. unfold phase. rewrite Hout. change (len (senders [])) with 0. split; [lia|].
    by destruct (next_event_cases m) as [->|[->|[->| ->]]].
  - intros y Hy [_ Hne]%Hlive _. by apply Hq'.
  - intros y [Hy _]%Hlive. by left.
  - intros y Hy. destruct (decide (y = x)) as [->|]; [by right|left]. by apply Hlive.
  - intros y Hy. by apply not_elem_of_nil in Hy.
Qed.

Theorem step_outcome m l q e : fq_ok m l q -> allowed m e -> outcome m q e.
Proof.
  destruct e; eauto using FlowInit_outcome, FlowFree_outcome, SenderInit_outcome, UserSend_outcome, InputOperationJob_outcome,
    InputDoneJob_outcome, OutputOperationJob_outcome, OutputCancelJob_outcome, OutputDone_outcome, OutputDoneJob_outcome,
    ScheduleJob_outcome, SetBusyHandler_outcome, RequestCancel_outcome, PrepareFree_outcome.
Qed.
End steps.
