(* ===== verification/FairQueueProps.v ===== *)
(** * The fair queue in operation

    Whatever its users, its output and the event loop do with a queue, in any
    order they are allowed to: it stays well formed and keeps the packets of a flow in
    order; a flow with packets waiting gets its share; and it is not starved. *)
From stdpp Require Import gmap.
From S2P Require Import Prelude Addr Bavl BavlTree BavlSpec LinkedList1 CAvl CAvlSpec PacketPassInterface FairQueue FairQueueSpec FairQueueSteps.

(** ** Runs *)

(** [P] holds before and after every event. *)
Fixpoint throughout (P : PacketPassFairQueue -> Prop) (m : PacketPassFairQueue) (es : list event) : Prop :=
  P m /\ match es with
  | [] => True
  | e :: es => forall m' f, step m e = Ret (m', f) -> throughout P m' es
  end.
(** How many of the events are the one that the packet at the output waits for. *)
Definition is_next (m : PacketPassFairQueue) (e : event) : bool :=
  match next_event m, e with
  | ScheduleJob, ScheduleJob | OutputDoneJob, OutputDoneJob | OutputDone, OutputDone
  | OutputOperationJob, OutputOperationJob => true
  | _, _ => false
  end.
Fixpoint served (m : PacketPassFairQueue) (es : list event) : Z :=
  match es with
  | [] => 0
  | e :: es => (if is_next m e then 1 else 0) + match step m e with Ret (m', _) => served m' es | Fail _ => 0 end
  end.
(** What the other flows can be sent before [x]. *)
Definition total (g : positive -> Z) (ys : list positive) : Z := foldr (fun y n => g y + n) 0 ys.
Definition others (m : PacketPassFairQueue) (x : positive) : list positive := elements (dom (flows m) ∖ {[x]}).
Definition leads (m : PacketPassFairQueue) (x : positive) : Z := total (lead m x) (others m x).
Definition only_old_flows (x : positive) (e : event) : Prop :=
  match e with FlowInit _ | PrepareFree => False | FlowFree y => y <> x | _ => True end.

Section props.
Implicit Types (m : PacketPassFairQueue) (l q : list positive) (x y : positive) (e : event) (es : list event) (fx : list effect).

Lemma is_next_true m e : is_next m e = true -> e = next_event m.
Proof. unfold is_next. by destruct (next_event_cases m) as [->|[->|[->| ->]]]; destruct e. Qed.

(** ** The queue after its initialisation *)

Lemma Init_outcome out uc w : ppi_ok out -> i_user out = false -> i_mtu out <= INT_MAX -> 0 < w <= INT_MAX ->
  (uc = true -> i_cancel out = true) ->
  exists m, PacketPassFairQueue_Init out uc w = Ret (Some m) /\ fq_ok m [] [] /\ packet_weight m = w.
Proof.
  intros Ho Hu Hmtu Hw Hc. assert (Hst : i_state out = PPI_STATE_NONE).
  { destruct (decide (i_state out = PPI_STATE_NONE)) as [|Hn]; [done|]. apply (pi_user _ Ho) in Hn. congruence. }
  destruct (Sender_Init_ok out Ho Hu) as (o & Eo & Ho' & Hs & Hm & Hca & Hus & _). pose proof (pi_mtu _ Ho).
  assert (Hfit : (u64 (PacketPassInterface_GetMTU out) <=? FAIRQUEUE_MAX_TIME) &&
    (u64 w <=? u64 (FAIRQUEUE_MAX_TIME - PacketPassInterface_GetMTU out)) = true).
  { unfold PacketPassInterface_GetMTU, u64, FAIRQUEUE_MAX_TIME, INT_MAX in *. rewrite !Z.mod_small by lia.
    by rewrite andb_true_iff, !Z.leb_le; lia. }
  assert (Hcc : negb uc || PacketPassInterface_HasCancel out = true).
  { unfold PacketPassInterface_HasCancel. destruct uc; [by rewrite Hc|done]. }
  eexists. unfold PacketPassFairQueue_Init. rewrite Hfit, Hcc, Eo. ztest. run_simpl. split; [done|]. split; [|done]. split; [|split].
  - split; cbn; try done.
    + by rewrite Hm.
    + split_and!; [done..|]. rewrite Hca. exact Hc.
    + apply LinkedList1_Init_ok.
    + intros x Hx. by apply not_elem_of_nil in Hx.
    + apply SAvl_Init_ok.
    + intros x Hx. by apply not_elem_of_nil in Hx.
    + intros x. rewrite lookup_empty. split; [by intros [? ?]|by intros Hx%not_elem_of_nil].
  - split; cbn; try done. by rewrite Hs.
  - intros x f. cbn. by rewrite lookup_empty.
Qed.

(** ** A run, event by event *)

Lemma allowed_step m l q e es m' fx : fq_ok m l q -> allowed_run m (e :: es) -> exec m (e :: es) = Ret (m', fx) ->
  exists m1 f1 l1 q1 fx', step m e = Ret (m1, f1) /\ fq_ok m1 l1 q1 /\ moved m q e f1 m1 q1 /\ allowed_run m1 es /\
    exec m1 es = Ret (m', fx') /\ fx = f1 ++ fx'.
Proof.
  intros Ho [Ha Hr] E. destruct (step_outcome m l q e Ho Ha) as (m1 & f1 & l1 & q1 & E1 & Ho1 & Hmv).
  cbn in E. rewrite E1 in E. cbn in E. destruct (exec m1 es) as [[m2 f2]|] eqn:E2; [|done]. injection E as <- <-.
  exists m1, f1, l1, q1, f2. split_and!; try done. by apply (Hr m1 f1).
Qed.
Lemma run_outcome m l q es : fq_ok m l q -> allowed_run m es ->
  exists m' fx l' q', exec m es = Ret (m', fx) /\ fq_ok m' l' q' /\ packet_weight m' = packet_weight m.
Proof.
  induction es as [|e es IH] in m, l, q |- *; intros Ho Ha.
  - by exists m, [], l, q.
  - destruct Ha as [Ha Hr]. destruct (step_outcome m l q e Ho Ha) as (m1 & f1 & l1 & q1 & E1 & Ho1 & Hmv).
    destruct (IH m1 l1 q1 Ho1 (Hr m1 f1 E1)) as (m' & fx & l' & q' & E & Ho' & Hw).
    exists m', (f1 ++ fx), l', q'. cbn. rewrite E1. cbn. rewrite E. cbn. split; [done|]. split; [done|].
    rewrite Hw. apply (mv_const _ _ _ _ _ _ Hmv).
Qed.
Lemma allowed_run_app m es1 es2 m' fx : allowed_run m (es1 ++ es2) -> exec m es1 = Ret (m', fx) -> allowed_run m' es2.
Proof.
  induction es1 as [|e es1 IH] in m, fx |- *; cbn; [by intros ? [= <- <-]|]. intros [Ha Hr].
  destruct (step m e) as [[m1 f1]|] eqn:E1; [|done]. cbn. destruct (exec m1 es1) as [[m2 f2]|] eqn:E2; [|done]. cbn. intros [= <- <-].
  by apply (IH m1 f2); [apply (Hr m1 f1)|].
Qed.
Lemma allowed_run_prefix m es1 es2 : allowed_run m (es1 ++ es2) -> allowed_run m es1.
Proof. induction es1 as [|e es1 IH] in m |- *; cbn; [done|]. intros [Ha Hr]. split; [done|]. intros m' f E. by apply IH, (Hr m' f). Qed.

Lemma sends_app x fx1 fx2 : sends x (fx1 ++ fx2) = sends x fx1 ++ sends x fx2.
Proof. apply omap_app. Qed.
Lemma service_app w ds1 ds2 : service w (ds1 ++ ds2) = service w ds1 + service w ds2.
Proof. unfold service. induction ds1 as [|d ds1 IH]; cbn; lia. Qed.

Lemma packets_run m l q es m' fx x : fq_ok m l q -> allowed_run m es -> exec m es = Ret (m', fx) -> live m x -> FlowFree x ∉ es ->
  live m' x /\ waiting m x ++ flat_map (fun e => submitted e x) es = sends x fx ++ waiting m' x.
Proof.
  induction es as [|e es IH] in m, l, q, fx |- *; intros Ho Ha E Hx Hes.
  - injection E as <- <-. split; [done|]. by rewrite app_nil_r.
  - destruct (allowed_step m l q e es m' fx Ho Ha E) as (m1 & f1 & l1 & q1 & fx' & E1 & Ho1 & Hmv & Ha1 & E2 & ->).
    rewrite elem_of_cons in Hes. assert (Hx1 : live m1 x) by (destruct (mv_stay _ _ _ _ _ _ Hmv x Hx) as [|Hf]; naive_solver).
    destruct (IH m1 l1 q1 fx' Ho1 Ha1 E2 Hx1) as [Hx' Hw]; [naive_solver|]. split; [done|].
    cbn [flat_map]. rewrite sends_app, (app_assoc (waiting m x)), (mv_packets _ _ _ _ _ _ Hmv x Hx Hx1).
    by rewrite <- !app_assoc, Hw.
Qed.
(** ** Fairness over a run *)

Lemma fair_run m l q es m' fx x y : fq_ok m l q -> allowed_run m es -> exec m es = Ret (m', fx) -> x <> y ->
  throughout (fun s => backlogged s x /\ live s y) m es ->
  lead m' x y + service (packet_weight m) (sends y fx) <= lead m x y + service (packet_weight m) (sends x fx).
Proof.
  induction es as [|e es IH] in m, l, q, fx |- *; intros Ho Ha E Hne [[Hx Hy] Hs].
  - injection E as <- <-. cbn. lia.
  - destruct (allowed_step m l q e es m' fx Ho Ha E) as (m1 & f1 & l1 & q1 & fx' & E1 & Ho1 & Hmv & Ha1 & E2 & ->).
    specialize (Hs m1 f1 E1). specialize (IH m1 l1 q1 fx' Ho1 Ha1 E2 Hne Hs).
    assert (Hxy : backlogged m1 x /\ live m1 y) by (destruct es; apply Hs).
    pose proof (mv_fair _ _ _ _ _ _ Hmv x y Hne Hx (proj1 Hxy) Hy (proj2 Hxy)) as H.
    rewrite (proj1 (mv_const _ _ _ _ _ _ Hmv)) in IH. rewrite !sends_app, !service_app. lia.
Qed.

(** ** Sums over the flows *)

Lemma total_app g ys zs : total g (ys ++ zs) = total g ys + total g zs.
Proof. unfold total. induction ys as [|y ys IH]; cbn; [done|]. lia. Qed.
Lemma total_perm g ys zs : ys ≡ₚ zs -> total g ys = total g zs.
Proof. unfold total. induction 1; cbn; lia. Qed.
Lemma total_le g h ys : (forall y, y ∈ ys -> g y <= h y) -> total g ys <= total h ys.
Proof.
  unfold total. induction ys as [|y ys IH]; cbn; intros H; [done|]. pose proof (H y ltac:(by left)).
  specialize (IH ltac:(intros z Hz; apply H; by right)). lia.
Qed.
Lemma total_ext g h ys : (forall y, g y = h y) -> total g ys = total h ys.
Proof. intros H. apply Z.le_antisymm; apply total_le; intros y _; by rewrite H. Qed.
Lemma total_0 ys : total (fun _ => 0) ys = 0.
Proof. by induction ys. Qed.
Lemma total_add g h ys : total (fun y => g y + h y) ys = total g ys + total h ys.
Proof. unfold total. induction ys as [|y ys IH]; cbn; [done|]. lia. Qed.
Lemma total_mul w g ys : total (fun y => w * g y) ys = w * total g ys.
Proof. unfold total. induction ys as [|y ys IH]; cbn; lia. Qed.
Lemma total_one z n ys : NoDup ys -> z ∈ ys -> total (fun y => if decide (z = y) then n else 0) ys = n.
Proof.
  induction ys as [|y ys IH]; [by intros _ ?%not_elem_of_nil|]. intros [Hy Hn]%list.NoDup_cons.
  cbn. intros [->|Hz]%elem_of_cons.
  - rewrite decide_True by done. assert (Hle : forall g h, (forall z, z ∈ ys -> g z = h z) -> total g ys <= total h ys).
    { intros g h H. apply total_le. intros z Hz. by rewrite H. }
    assert (E : forall z, z ∈ ys -> (if decide (y = z) then n else 0) = 0) by (intros z Hz; rewrite decide_False; [done|by intros ->]).
    pose proof (Hle _ (fun _ => 0) E) as H1. pose proof (Hle (fun _ => 0) _ (fun z Hz => eq_sym (E z Hz))) as H2.
    rewrite total_0 in H1, H2. unfold total in *. lia.
  - rewrite decide_False by (by intros ->). by apply IH.
Qed.
Lemma len_senders fx ys : NoDup ys -> (forall y, y ∈ senders fx -> y ∈ ys) ->
  len (senders fx) = total (fun y => len (sends y fx)) ys.
Proof.
  intros Hn. induction fx as [|e fx IH]; intros Hys; [symmetry; apply total_0|].
  destruct e as [z d|d| |z|h]; cbn in *; try (by apply IH).
  rewrite len_cons. change (omap is_send fx) with (senders fx) in *. rewrite IH by (intros y Hy; apply Hys; by right).
  rewrite <- (total_one z 1 ys Hn) at 1 by (apply Hys; by left). rewrite <- total_add.
  apply total_ext. intros y. destruct (decide _); [by rewrite len_cons|done].
Qed.
Lemma service_count w ds : 0 < w -> w * len ds <= service w ds.
Proof. intros Hw. unfold service. induction ds as [|d ds IH]; cbn [foldr]; [rewrite len_nil; lia|]. rewrite len_cons. pose proof (len_nonneg d). lia. Qed.

(** ** Progress over a run *)

Lemma leads_step m l q e f1 m1 l1 q1 x : fq_ok m l q -> fq_ok m1 l1 q1 -> moved m q e f1 m1 q1 -> 0 < packet_weight m ->
  only_old_flows x e -> x ∈ q -> x ∈ q1 -> sends x f1 = [] -> leads m1 x + packet_weight m * len (senders f1) <= leads m x.
Proof.
  intros (Hm & _) (Hm1 & _) Hmv Hw He Hx Hx1 Hs.
  assert (Hlive : forall y, live m1 y -> live m y).
  { intros y Hy. destruct (mv_live _ _ _ _ _ _ Hmv y Hy) as [|(a & -> & _)]; done. }
  assert (Hsub : dom (flows m1) ∖ {[x]} ⊆ dom (flows m) ∖ {[x]}).
  { intros y. rewrite !elem_of_difference, !elem_of_dom. naive_solver. }
  assert (Hothers : others m x ≡ₚ others m1 x ++ elements ((dom (flows m) ∖ {[x]}) ∖ (dom (flows m1) ∖ {[x]}))).
  { unfold others. rewrite <- elements_disj_union by set_solver. by rewrite <- union_difference_L. }
  assert (Hb : backlogged m x /\ backlogged m1 x).
  { rewrite (backlogged_iff m l q x Hm), (backlogged_iff m1 l1 q1 x Hm1). tauto. }
  assert (Hin : forall y, y ∈ others m1 x <-> live m1 y /\ y <> x).
  { intros y. unfold others. rewrite elem_of_elements, elem_of_difference, elem_of_dom, elem_of_singleton. done. }
  rewrite (len_senders f1 (others m1 x)); [|apply NoDup_elements|].
  - unfold leads. rewrite <- total_mul, <- total_add, (total_perm _ _ _ Hothers), total_app.
    assert (Hnn : forall ys, 0 <= total (lead m x) ys).
    { intros ys. rewrite <- (total_0 ys) at 1. apply total_le. intros y _. unfold lead. lia. }
    specialize (Hnn (elements (dom (flows m) ∖ {[x]} ∖ (dom (flows m1) ∖ {[x]})))).
    enough (total (fun y => lead m1 x y + packet_weight m * len (sends y f1)) (others m1 x) <= total (lead m x) (others m1 x)) by lia.
    apply total_le. intros y [Hy Hne]%Hin. pose proof (mv_fair _ _ _ _ _ _ Hmv x y ltac:(done) (proj1 Hb) (proj2 Hb) (Hlive y Hy) Hy) as H.
    rewrite Hs in H. pose proof (service_count (packet_weight m) (sends y f1) Hw). cbn in H. lia.
  - intros y Hy. apply Hin. split; [by apply (mv_senders _ _ _ _ _ _ Hmv)|]. intros ->.
    unfold sends, senders in *. clear - Hy Hs. induction f1 as [|[z d|d| |z|h] f1 IH]; cbn in *; try (by apply IH).
    + by apply not_elem_of_nil in Hy.
    + apply elem_of_cons in Hy. destruct (decide (z = x)); [done|]. destruct Hy; [done|by apply IH].
Qed.

Lemma progress_run m l q es m' fx x : fq_ok m l q -> freeing m = false -> x ∈ q -> allowed_run m es -> exec m es = Ret (m', fx) ->
  Forall (only_old_flows x) es -> sends x fx = [] ->
  packet_weight m * served m es <= packet_weight m * phase m + 4 * leads m x.
Proof.
  induction es as [|e es IH] in m, l, q, fx |- *; intros Ho Hfr Hx Ha E He Hs.
  - cbn. assert (0 <= leads m x) by (unfold leads; rewrite <- (total_0 (others m x)); apply total_le; intros y _; unfold lead; lia).
    assert (0 <= phase m) by (unfold phase; by destruct (i_state (output m))). pose proof (m_weight _ _ _ (proj1 Ho)). nia.
  - destruct (allowed_step m l q e es m' fx Ho Ha E) as (m1 & f1 & l1 & q1 & fx' & E1 & Ho1 & Hmv & Ha1 & E2 & ->).
    rewrite sends_app in Hs. apply app_eq_nil in Hs as [Hs1 Hs2]. apply Forall_cons_iff in He as [He Hes].
    assert (Hl1 : live m1 x).
    { destruct (mv_stay _ _ _ _ _ _ Hmv x) as [|Hf]; [|done|by subst e]. by apply (proj1 Ho), (proj1 Ho). }
    pose proof (mv_wait _ _ _ _ _ _ Hmv x Hx Hl1 Hs1) as Hx1.
    assert (Hfr1 : freeing m1 = false) by (rewrite (mv_freeing _ _ _ _ _ _ Hmv); by destruct e).
    pose proof (m_weight _ _ _ (proj1 Ho)) as Hw.
    pose proof (leads_step m l q e f1 m1 l1 q1 x Ho Ho1 Hmv ltac:(lia) He Hx Hx1 Hs1) as Hlead.
    specialize (IH m1 l1 q1 fx' Ho1 Hfr1 Hx1 Ha1 E2 Hes Hs2). rewrite (proj1 (mv_const _ _ _ _ _ _ Hmv)) in IH.
    destruct (mv_phase _ _ _ _ _ _ Hmv Hfr1) as [Hph Hnext]. cbn [served]. rewrite E1. destruct (is_next m e) eqn:Hn.
    + assert (Hq : q <> []) by (intros ->; by apply not_elem_of_nil in Hx).
      pose proof (Z.mul_le_mono_nonneg_l _ _ (packet_weight m) ltac:(lia) (Hnext Hq (is_next_true m e Hn))). lia.
    + pose proof (Z.mul_le_mono_nonneg_l _ _ (packet_weight m) ltac:(lia) Hph). lia.
Qed.

(** ** The properties *)

Section queue.
Context (out : PacketPassInterface) (uc : bool) (w : Z).
Hypotheses (Hout : ppi_ok out) (Huser : i_user out = false) (Hmtu : i_mtu out <= INT_MAX) (Hw : 0 < w <= INT_MAX)
  (Huc : uc = true -> i_cancel out = true).

Lemma fq_reachable m0 m es es' fx : PacketPassFairQueue_Init out uc w = Ret (Some m0) -> allowed_run m0 (es ++ es') ->
  exec m0 es = Ret (m, fx) -> exists l q, fq_ok m l q /\ packet_weight m = w /\ allowed_run m es'.
Proof.
  intros E0 Ha E. destruct (Init_outcome out uc w Hout Huser Hmtu Hw Huc) as (m0' & E0' & Ho & Hpw).
  rewrite E0 in E0'. injection E0' as <-.
  destruct (run_outcome m0 [] [] es Ho (allowed_run_prefix m0 es es' Ha)) as (m' & fx' & l & q & E' & Ho' & Hpw').
  rewrite E in E'. injection E' as <- <-. exists l, q. split; [done|]. split; [by rewrite Hpw'|].
  by apply (allowed_run_app m0 es es' m fx).
Qed.

(** C8: a queue can be made for any output and weight in range.  Whatever
    its callers then do, no assertion fails, no pointer is followed into nowhere
    and no loop runs on; the tree, the list, the times (64-bit), the jobs and the interfaces
    stay consistent; and the packets of a flow that stays leave in the order they
    came, each once: those waiting and those submitted are those sent and those
    still waiting. *)
Theorem fairqueue_well_formed es es' : exists m0, PacketPassFairQueue_Init out uc w = Ret (Some m0) /\
  (allowed_run m0 (es ++ es') -> exists m fx l q m' fx' l' q',
    exec m0 es = Ret (m, fx) /\ fq_ok m l q /\ exec m es' = Ret (m', fx') /\ fq_ok m' l' q' /\
    forall x, live m x -> FlowFree x ∉ es' ->
      live m' x /\ waiting m x ++ flat_map (fun e => submitted e x) es' = sends x fx' ++ waiting m' x).
Proof.
  destruct (Init_outcome out uc w Hout Huser Hmtu Hw Huc) as (m0 & E0 & Ho0 & _). exists m0. split; [done|]. intros Ha.
  destruct (run_outcome m0 [] [] es Ho0 (allowed_run_prefix m0 es es' Ha)) as (m & fx & l & q & E & Ho & _).
  pose proof (allowed_run_app m0 es es' m fx Ha E) as Ha'.
  destruct (run_outcome m l q es' Ho Ha') as (m' & fx' & l' & q' & E' & Ho' & _).
  exists m, fx, l, q, m', fx', l', q'. do 4 (split; [done|]). intros x Hx Hes.
  by apply (packets_run m l q es' m' fx' x).
Qed.

(** C10: while the flow [x] has packets waiting, no other flow [y] gets more
    service (bytes and the weight of each packet) than [x] but for [lead], which
    the virtual times at the beginning fix. *)
Theorem fairqueue_fair es es' m0 m m' fx fx' x y : PacketPassFairQueue_Init out uc w = Ret (Some m0) ->
  allowed_run m0 (es ++ es') -> exec m0 es = Ret (m, fx) -> exec m es' = Ret (m', fx') -> x <> y ->
  throughout (fun s => backlogged s x /\ live s y) m es' ->
  service w (sends y fx') <= lead m x y + service w (sends x fx').
Proof.
  intros E0 Ha E E' Hne Ht. destruct (fq_reachable m0 m es es' fx E0 Ha E) as (l & q & Ho & <- & Ha').
  pose proof (fair_run m l q es' m' fx' x y Ho Ha' E' Hne Ht). assert (0 <= lead m' x y) by (unfold lead; lia). lia.
Qed.

(** C9: the first packet of a queued flow is sent, whatever else happens and
    however it is interleaved, once the events that the packet at the output waits for (its
    handler called, the output done with it, the jobs) have come often enough:
    the bound is in the leads of the other flows.  No flow is added in between. *)
Theorem fairqueue_liveness es es' m0 m m' fx fx' x f : PacketPassFairQueue_Init out uc w = Ret (Some m0) ->
  allowed_run m0 (es ++ es') -> exec m0 es = Ret (m, fx) -> exec m es' = Ret (m', fx') ->
  freeing m = false -> flows m !! x = Some f -> is_queued f = true -> Forall (only_old_flows x) es' ->
  3 * w + 4 * leads m x < w * served m es' -> exists ds, sends x fx' = queued_data f :: ds.
Proof.
  intros E0 Ha E E' Hfr Hx Hq Hes Hb. destruct (fq_reachable m0 m es es' fx E0 Ha E) as (l & q & Ho & Hpw & Ha').
  assert (Hxq : x ∈ q) by (rewrite (f_queued _ _ _ _ (m_flow _ _ _ (proj1 Ho) x f Hx)) in Hq; by apply bool_decide_eq_true in Hq).
  assert (Hfree : FlowFree x ∉ es') by (intros Hin; by apply (proj1 (list.Forall_forall _ _) Hes _ Hin)).
  destruct (packets_run m l q es' m' fx' x Ho Ha' E' ltac:(by eexists) Hfree) as [_ Hp].
  unfold waiting in Hp. rewrite Hx, Hq in Hp. destruct (sends x fx') as [|d ds] eqn:Hs.
  - pose proof (progress_run m l q es' m' fx' x Ho Hfr Hxq Ha' E' Hes Hs) as H. rewrite Hpw in H.
    assert (phase m <= 3) by (unfold phase; by destruct (i_state (output m))). nia.
  - cbn in Hp. injection Hp as <- _. by eexists.
Qed.
End queue.
End props.

(** ** A queue with two flows *)

Section decide.
#[local] Instance on_flow_dec m x P : (forall f, Decision (P f)) -> Decision (on_flow m x P).
Proof. intros. unfold on_flow. destruct (flows m !! x); apply _. Defined.
#[local] Instance allowed_dec m e : Decision (allowed m e).
Proof. destruct e; cbn; apply _. Defined.
#[local] Instance next_dec m e (P : PacketPassFairQueue -> Prop) : (forall m', Decision (P m')) ->
  Decision (forall m' (f : list effect), step m e = Ret (m', f) -> P m').
Proof.
  intros HP. destruct (step m e) as [[m1 f1]|]; [destruct (HP m1) as [H|H]; [left|right]|left]; [by intros m' f [= <- <-]| |done].
  intros H'. by apply H, (H' m1 f1).
Defined.
#[local] Instance allowed_run_dec m es : Decision (allowed_run m es).
Proof. revert m. induction es as [|e es IH]; intros m; cbn; apply _. Defined.
#[local] Instance throughout_dec P m es : (forall s, Decision (P s)) -> Decision (throughout P m es).
Proof. intros HP. revert m. induction es as [|e es IH]; intros m; cbn; apply _. Defined.
#[local] Instance backlogged_dec m x : Decision (backlogged m x).
Proof. unfold backlogged. apply _. Defined.
#[local] Instance live_dec m x : Decision (live m x).
Proof. unfold live. apply _. Defined.
#[local] Instance only_old_flows_dec x e : Decision (only_old_flows x e).
Proof. destruct e; cbn; apply _. Defined.

Let old_flow : PacketPassFairQueueFlow := Flow None (PPI 0 false false false [] false false PPI_STATE_NONE false) 7 true [9].
Let memory (x : positive) : flow_memory := FlowMemory x old_flow (MkNode None None None 3) (MkLink None None).
Let submit (x : positive) (d : bytes) : list event := [UserSend x d; InputOperationJob x].
Let finish_packet (x : positive) : list event := [OutputOperationJob; OutputDone; OutputDoneJob; InputDoneJob x].

Let ex_out : PacketPassInterface := PPI 10 false false false [] false false PPI_STATE_NONE false.
Lemma ex_out_ok : ppi_ok ex_out.
Proof. by split. Qed.
(** The second flow waits for the packet of the first. *)
Let ex_before : list event :=
  [FlowInit (memory 1); FlowInit (memory 2); SenderInit 1; SenderInit 2] ++ submit 1 [1; 2; 3] ++ submit 2 [4].
Let ex_after : list event :=
  finish_packet 1 ++ submit 1 [5] ++ [ScheduleJob] ++ finish_packet 2 ++ submit 2 [6; 7] ++ [ScheduleJob] ++ finish_packet 2.
Let ex_queue : run (option PacketPassFairQueue) := PacketPassFairQueue_Init ex_out false 10.
Let ex_start : PacketPassFairQueue :=
  match ex_queue with Ret (Some m) => m | _ => FairQueue ex_out false 0 None 0 None (SAvl_Init ∅) (LinkedList1_Init ∅) false false ∅ end.
Let run_of (m : PacketPassFairQueue) (es : list event) : PacketPassFairQueue * list effect :=
  match exec m es with Ret r => r | Fail _ => (m, []) end.
Let ex_middle : PacketPassFairQueue := (run_of ex_start ex_before).1.
Let ex_end : PacketPassFairQueue * list effect := run_of ex_middle ex_after.

Lemma fq_ex_allowed : allowed_run ex_start (ex_before ++ ex_after).
Proof. apply (bool_decide_unpack _). by vm_compute. Qed.
Example ex_sent : (sends 1 ex_end.2, sends 2 ex_end.2) = ([], [[4]; [6; 7]]).
Proof. by vm_compute. Qed.
Lemma ex_start_ok : PacketPassFairQueue_Init ex_out false 10 = Ret (Some ex_start).
Proof. by vm_compute. Qed.
Lemma ex_middle_ok : exec ex_start ex_before = Ret (ex_middle, (run_of ex_start ex_before).2).
Proof. by vm_compute. Qed.
Lemma ex_end_ok : exec ex_middle ex_after = Ret (ex_end.1, ex_end.2).
Proof. by vm_compute. Qed.

Lemma fairqueue_well_formed_witness : exists m fx l q m' fx' l' q',
  exec ex_start ex_before = Ret (m, fx) /\ fq_ok m l q /\ exec m ex_after = Ret (m', fx') /\ fq_ok m' l' q' /\
  forall x, live m x -> FlowFree x ∉ ex_after ->
    live m' x /\ waiting m x ++ flat_map (fun e => submitted e x) ex_after = sends x fx' ++ waiting m' x.
Proof.
  destruct (fairqueue_well_formed ex_out false 10 ex_out_ok eq_refl ltac:(done) ltac:(done) ltac:(done) ex_before ex_after) as (m0 & E0 & H).
  rewrite ex_start_ok in E0. injection E0 as <-. exact (H fq_ex_allowed).
Defined.
Lemma fairqueue_fair_witness : service 10 (sends 2 ex_end.2) <= lead ex_middle 1 2 + service 10 (sends 1 ex_end.2).
Proof.
  apply (fairqueue_fair ex_out false 10 ex_out_ok eq_refl ltac:(done) ltac:(done) ltac:(done) ex_before ex_after
    ex_start ex_middle ex_end.1 (run_of ex_start ex_before).2 ex_end.2 1 2 ex_start_ok fq_ex_allowed ex_middle_ok ex_end_ok); [done|].
  apply (bool_decide_unpack _). by vm_compute.
Defined.
Let ex_waiting : PacketPassFairQueueFlow := match flows ex_middle !! 2%positive with Some f => f | None => old_flow end.
Lemma fairqueue_liveness_witness : exists ds, sends 2 ex_end.2 = queued_data ex_waiting :: ds.
Proof.
  apply (fairqueue_liveness ex_out false 10 ex_out_ok eq_refl ltac:(done) ltac:(done) ltac:(done) ex_before ex_after
    ex_start ex_middle ex_end.1 (run_of ex_start ex_before).2 ex_end.2 2 ex_waiting ex_start_ok fq_ex_allowed ex_middle_ok ex_end_ok);
    [by vm_compute..| |by vm_compute].
  apply (bool_decide_unpack _). by vm_compute.
Defined.

(** When the queue is idle its time is 0 again, while the flows keep theirs:
    the flow 1, alone so far, is behind the new flow 2 by all it has ever sent,
    and waits while 2 is sent four packets. *)
Let ex_alone : list event := [FlowInit (memory 1); SenderInit 1] ++ submit 1 [1; 2; 3; 4; 5; 6; 7; 8; 9; 10] ++ finish_packet 1 ++ [ScheduleJob] ++
  submit 1 [1; 2; 3; 4; 5; 6; 7; 8; 9; 10] ++ finish_packet 1 ++ [ScheduleJob].
Let ex_idle : PacketPassFairQueue := (run_of ex_start ex_alone).1.
Let ex_late : list event := [FlowInit (memory 2); SenderInit 2] ++ submit 2 [1] ++ submit 1 [0] ++
  concat (repeat (finish_packet 2 ++ submit 2 [1] ++ [ScheduleJob]) 3).
Example fairqueue_idle_time : get_current_time ex_idle = Ret 0 /\ time_at (flows ex_idle) 1 = 40 /\
  senders (run_of ex_idle ex_late).2 = [2; 2; 2; 2]%positive.
Proof. by vm_compute. Qed.
End decide.
