(* ===== verification/BufferWriter.v ===== *)
(** * flow/BufferWriter.c: best-effort writing of packets

    The writer owns, while [out_have] is set, a place of [d_mtu] bytes that its
    receiver gave it; [out] is the memory of that place.  The receive operation
    of the interface is in flight exactly while [out_have] is set, so the state
    of the interface is not kept apart: [PacketRecvInterface_Done] is the packet
    that [BufferWriter_EndPacket] returns, and the assertion of
    [PacketRecvInterface_Done] is that of [out_have]. *)
From S2P Require Import Prelude.

Record BufferWriter := BW { out_have : bool; out : bytes; d_mtu : Z; d_writing : bool }.

(** The receiver asks for a packet and gives the memory for it. *)
Definition output_handler_recv (o : BufferWriter) (data : bytes) : run BufferWriter :=
  _ ← check (negb (out_have o));
  Ret (BW true data (d_mtu o) (d_writing o)).
Definition BufferWriter_Init (mtu : Z) : run BufferWriter :=
  _ ← check (0 <=? mtu); Ret (BW false [] mtu false).
Definition BufferWriter_StartPacket (o : BufferWriter) : run (BufferWriter * bool) :=
  _ ← check (negb (d_writing o));
  if negb (out_have o) then Ret (o, false) else Ret (BW (out_have o) (out o) (d_mtu o) true, true).
(** [memcpy] to the place that [BufferWriter_StartPacket] returned. *)
Definition BufferWriter_write (o : BufferWriter) (pos : Z) (d : bytes) : run BufferWriter :=
  m ← wr_range (out o) pos d; Ret (BW (out_have o) m (d_mtu o) (d_writing o)).
Definition BufferWriter_EndPacket (o : BufferWriter) (n : Z) : run (BufferWriter * bytes) :=
  _ ← check (0 <=? n);
  _ ← check (n <=? d_mtu o);
  _ ← check (out_have o);
  _ ← check (d_writing o);
  packet ← rd_range (out o) 0 n;
  Ret (BW false (out o) (d_mtu o) false, packet).

(** Between packets: not writing, and the place, if there is one, is as large as
    the receiver promised. *)
Definition idle (mtu : Z) (o : BufferWriter) : Prop :=
  d_writing o = false /\ d_mtu o = mtu /\ (out_have o = true -> len (out o) = mtu).
(** A packet of which [d] is written so far. *)
Definition writing (mtu : Z) (o : BufferWriter) (d : bytes) : Prop :=
  d_writing o = true /\ out_have o = true /\ d_mtu o = mtu /\ len (out o) = mtu /\ starts_with d (out o).

Lemma start_packet mtu o : idle mtu o -> exists o',
  BufferWriter_StartPacket o = Ret (o', out_have o) /\
  if out_have o then writing mtu o' [] else o' = o.
Proof.
  intros (Hw & Hm & Hl). unfold BufferWriter_StartPacket. rewrite Hw. run_simpl.
  destruct (out_have o) eqn:E; cbn [negb]; [|by eexists]. eexists. split; [done|].
  repeat (split; [by auto|]). apply starts_with_nil.
Qed.
Lemma write_packet mtu o d x pos : writing mtu o d -> pos = len d -> pos + len x <= mtu ->
  exists o', BufferWriter_write o pos x = Ret o' /\ writing mtu o' (d ++ x).
Proof.
  intros (Hw & Hh & Hm & Hl & Hs) -> Hle. unfold BufferWriter_write.
  destruct (wr_range_extend d x (out o) (len d)) as (m & -> & Hs' & Hl'); [done|done|lia|]. run_simpl.
  eexists. split; [done|]. unfold writing. cbn [d_writing out_have d_mtu out]. split_and!; first [done|congruence].
Qed.
Lemma end_packet mtu o d n : writing mtu o d -> n = len d -> exists o',
  BufferWriter_EndPacket o n = Ret (o', d) /\ idle mtu o' /\ out_have o' = false.
Proof.
  intros (Hw & Hh & Hm & Hl & Hs) ->. unfold BufferWriter_EndPacket. rewrite Hw, Hh, Hm.
  pose proof (starts_with_len _ _ Hs). pose proof (len_nonneg d). ztest. run_simpl.
  rewrite (rd_range_prefix d) by done. run_simpl. eexists. split; [done|]. by split.
Qed.
Lemma recv_ready mtu o m : idle mtu o -> out_have o = false -> len m = mtu ->
  exists o', output_handler_recv o m = Ret o' /\ idle mtu o' /\ out_have o' = true.
Proof.
  intros (Hw & Hm & Hl) Hh Hlen. unfold output_handler_recv. rewrite Hh. run_simpl.
  eexists. split; [done|]. by split.
Qed.
