(* ===== verification/UdpGw.v ===== *)
(** * The UDP gateway client ([udpgw_client/UdpGwClient.c], [protocol/udpgw_proto.h])

    The client multiplexes UDP associations over one stream: each association
    (a pair of addresses) has a connection with a 16-bit identifier.  The
    connections are objects in a memory [cons]; two trees index them by their
    addresses and by their identifier, and a list keeps them from the least to
    the most recently used.  A node of a tree or of the list has the address of
    the connection that contains it.  What the client does to its surroundings is
    a list of effects: packets handed to the sending side of a connection, replies
    handed to the user.  [malloc], the allocation of the packet buffer of a
    connection and that of the decoder are arguments. *)
From stdpp Require Import gmap.
From S2P Require Import Prelude Inet Addr Bsize Bavl LinkedList1 BufferWriter.

(** ** protocol/udpgw_proto.h *)

Definition UDPGW_CLIENT_FLAG_KEEPALIVE : Z := Z.shiftl 1 0.
Definition UDPGW_CLIENT_FLAG_REBIND : Z := Z.shiftl 1 1.
Definition UDPGW_CLIENT_FLAG_DNS : Z := Z.shiftl 1 2.
Definition UDPGW_CLIENT_FLAG_IPV6 : Z := Z.shiftl 1 3.

Definition sizeof_udpgw_header : Z := 3.
Definition sizeof_udpgw_addr_ipv4 : Z := 6.
Definition sizeof_udpgw_addr_ipv6 : Z := 18.
Definition sizeof_packetproto_header : Z := 2.
Definition PACKETPROTO_MAXPAYLOAD : Z := 65535.
Definition UINT16_MAX : Z := 65535.

(** The bytes of the packed structs. *)
Definition udpgw_header (flags conid : Z) : bytes := [flags] ++ le16 conid.
Definition udpgw_addr_ipv4 (ip port : Z) : bytes := le32 ip ++ le16 port.
Definition udpgw_addr_ipv6 (ip : bytes) (port : Z) : bytes := ip ++ le16 port.

Definition udpgw_compute_mtu (dgram_mtu : Z) : Z :=
  let bs := bsize_add (bsize_fromsize sizeof_udpgw_header)
              (bsize_add (bsize_max (bsize_fromsize sizeof_udpgw_addr_ipv4) (bsize_fromsize sizeof_udpgw_addr_ipv6))
                 (bsize_fromint dgram_mtu)) in
  match bsize_toint bs with None => -1 | Some s => s end.

(** ** The state *)

Record conaddr := ConAddr { local_addr : BAddr; remote_addr : BAddr }.
#[export] Instance conaddr_eq_dec : EqDecision conaddr.
Proof. solve_decision. Defined.

(** [first_data] is a pointer into the caller's packet, an offset of it.
    [first_job] tells whether the job is set. *)
Record connection := Con {
  c_conaddr : conaddr;
  first_flags : Z;
  first_data : Z;
  first_data_len : Z;
  c_conid : Z;
  first_job : bool;
  send_if : BufferWriter }.

Record UdpGwClient := Client {
  udp_mtu : Z;
  max_connections : Z;
  udpgw_mtu : Z;
  pp_mtu : Z;
  connections_tree_by_conaddr : BAVL;
  connections_tree_by_conid : BAVL;
  connections_list : LinkedList1;
  num_connections : Z;
  next_conid : Z;
  keepalive_sending : bool;
  have_server : bool;
  cons : gmap positive connection }.

Definition set_trees (ta ti : BAVL) (o : UdpGwClient) : UdpGwClient :=
  Client (udp_mtu o) (max_connections o) (udpgw_mtu o) (pp_mtu o) ta ti (connections_list o)
    (num_connections o) (next_conid o) (keepalive_sending o) (have_server o) (cons o).
Definition set_list (l : LinkedList1) (o : UdpGwClient) : UdpGwClient :=
  Client (udp_mtu o) (max_connections o) (udpgw_mtu o) (pp_mtu o) (connections_tree_by_conaddr o)
    (connections_tree_by_conid o) l (num_connections o) (next_conid o) (keepalive_sending o) (have_server o) (cons o).
Definition set_count (num next : Z) (o : UdpGwClient) : UdpGwClient :=
  Client (udp_mtu o) (max_connections o) (udpgw_mtu o) (pp_mtu o) (connections_tree_by_conaddr o)
    (connections_tree_by_conid o) (connections_list o) num next (keepalive_sending o) (have_server o) (cons o).
Definition set_flags (keep srv : bool) (o : UdpGwClient) : UdpGwClient :=
  Client (udp_mtu o) (max_connections o) (udpgw_mtu o) (pp_mtu o) (connections_tree_by_conaddr o)
    (connections_tree_by_conid o) (connections_list o) (num_connections o) (next_conid o) keep srv (cons o).
Definition set_cons (m : gmap positive connection) (o : UdpGwClient) : UdpGwClient :=
  Client (udp_mtu o) (max_connections o) (udpgw_mtu o) (pp_mtu o) (connections_tree_by_conaddr o)
    (connections_tree_by_conid o) (connections_list o) (num_connections o) (next_conid o) (keepalive_sending o)
    (have_server o) m.

Inductive effect : Type :=
  | SendPacket (con : positive) (packet : bytes)   (* to the PacketProtoFlow of the connection *)
  | SendKeepalive (packet : bytes)
  | HandlerReceived (local remote : BAddr) (data : bytes)
  | HandlerServerError.

Definition con_of (o : UdpGwClient) (p : ptr) : run connection :=
  x ← deref p; match cons o !! x with Some c => Ret c | None => Fail OutOfBounds end.
Definition set_con (o : UdpGwClient) (p : ptr) (c : connection) : run UdpGwClient :=
  x ← deref p; match cons o !! x with Some _ => Ret (set_cons (<[x := c]> (cons o)) o) | None => Fail OutOfBounds end.

(** The values at [node + offset] that the trees compare. *)
Definition no_conaddr : conaddr := ConAddr BADDR_NONE BADDR_NONE.
Definition conaddr_at (m : gmap positive connection) (x : positive) : conaddr :=
  match m !! x with Some c => c_conaddr c | None => no_conaddr end.
Definition conid_at (m : gmap positive connection) (x : positive) : Z :=
  match m !! x with Some c => c_conid c | None => 0 end.

Definition uint16_comparator (v1 v2 : Z) : Z := B_COMPARE v1 v2.
Definition conaddr_comparator (v1 v2 : conaddr) : Z :=
  let r := BAddr_CompareOrder (remote_addr v1) (remote_addr v2) in
  if negb (r =? 0) then r else BAddr_CompareOrder (local_addr v1) (local_addr v2).

(** ** Finding connections *)

Definition find_connection_by_conaddr (o : UdpGwClient) (a : conaddr) : run ptr :=
  BAVL_LookupExact conaddr_comparator (conaddr_at (cons o)) (connections_tree_by_conaddr o) a.
Definition find_connection_by_conid (o : UdpGwClient) (conid : Z) : run ptr :=
  BAVL_LookupExact uint16_comparator (conid_at (cons o)) (connections_tree_by_conid o) conid.

(** The loop has as many rounds as there are identifiers: fuel for [max_connections]. *)
Fixpoint find_unused_loop (fuel : nat) (o : UdpGwClient) : run (UdpGwClient * Z) :=
  match fuel with
  | O => Fail OutOfFuel
  | S fuel =>
      p ← find_connection_by_conid o (u16 (next_conid o));
      match p with
      | None => Ret (o, u16 (next_conid o))
      | Some _ =>
          find_unused_loop fuel
            (set_count (num_connections o)
               (if next_conid o =? max_connections o - 1 then 0 else next_conid o + 1) o)
      end
  end.
Definition find_unused_conid (o : UdpGwClient) : run (UdpGwClient * Z) :=
  _ ← check (num_connections o <? max_connections o);
  find_unused_loop (Z.to_nat (max_connections o)) o.

(** ** Connections *)

(** A fresh object: its address and what its memory holds. *)
Record allocation := Alloc {
  a_addr : positive; a_con : connection; a_node1 : BAVLNode; a_node2 : BAVLNode; a_link : LinkedList1Node }.


Definition malloc_connection (m : allocation) (o : UdpGwClient) : UdpGwClient :=
  set_trees (tree_alloc (a_addr m) (a_node1 m) (connections_tree_by_conaddr o))
            (tree_alloc (a_addr m) (a_node2 m) (connections_tree_by_conid o))
    (set_list (list_alloc (a_addr m) (a_link m) (connections_list o))
       (set_cons (<[a_addr m := a_con m]> (cons o)) o)).
Definition free_connection (x : positive) (o : UdpGwClient) : UdpGwClient :=
  set_trees (tree_free x (connections_tree_by_conaddr o)) (tree_free x (connections_tree_by_conid o))
    (set_list (list_free x (connections_list o)) (set_cons (delete x (cons o)) o)).

(** [ASSERT_EXECUTE(BAVL_Insert(tree, node, NULL))] *)
Definition insert_by_conaddr (o : UdpGwClient) (con : ptr) : run UdpGwClient :=
  '(t, r, _) ← BAVL_Insert conaddr_comparator (conaddr_at (cons o)) (connections_tree_by_conaddr o) con;
  _ ← check r;
  Ret (set_trees t (connections_tree_by_conid o) o).
Definition insert_by_conid (o : UdpGwClient) (con : ptr) : run UdpGwClient :=
  '(t, r, _) ← BAVL_Insert uint16_comparator (conid_at (cons o)) (connections_tree_by_conid o) con;
  _ ← check r;
  Ret (set_trees (connections_tree_by_conaddr o) t o).
Definition remove_by_conaddr (o : UdpGwClient) (con : ptr) : run UdpGwClient :=
  t ← BAVL_Remove (connections_tree_by_conaddr o) con; Ret (set_trees t (connections_tree_by_conid o) o).
Definition remove_by_conid (o : UdpGwClient) (con : ptr) : run UdpGwClient :=
  t ← BAVL_Remove (connections_tree_by_conid o) con; Ret (set_trees (connections_tree_by_conaddr o) t o).

(** [new]: the result of [malloc]; [flow]: whether [PacketProtoFlow_Init] succeeds. *)
Definition connection_init (o : UdpGwClient) (new : option allocation) (flow : bool)
    (a : conaddr) (flags data data_len : Z) : run UdpGwClient :=
  _ ← check (num_connections o <? max_connections o);
  p ← find_connection_by_conaddr o a; _ ← check (bool_decide (p = None));
  _ ← check (0 <=? data_len);
  _ ← check (data_len <=? udp_mtu o);
  match new with
  | None => Ret o
  | Some m =>
      let con := Some (a_addr m) in
      let o := malloc_connection m o in
      (* init arguments *)
      c ← con_of o con;
      o ← set_con o con (Con a flags data data_len (c_conid c) (first_job c) (send_if c));
      (* allocate conid *)
      '(o, conid) ← find_unused_conid o;
      (* set the first job; init the packet flow *)
      if negb flow then Ret (free_connection (a_addr m) o) else
      w ← BufferWriter_Init (udpgw_mtu o);
      o ← set_con o con (Con a flags data data_len conid true w);
      o ← insert_by_conaddr o con;
      o ← insert_by_conid o con;
      l ← LinkedList1_Append (connections_list o) con;
      Ret (set_count (num_connections o + 1) (next_conid o) (set_list l o))
  end.

Definition connection_free (o : UdpGwClient) (con : ptr) : run UdpGwClient :=
  let o := set_count (num_connections o - 1) (next_conid o) o in
  l ← LinkedList1_Remove (connections_list o) con;
  o ← remove_by_conid (set_list l o) con;
  o ← remove_by_conaddr o con;
  x ← deref con;
  Ret (free_connection x o).

(** The address in the packet: [switch (con->conaddr.remote_addr.type)]. *)
Definition addr_bytes (a : BAddr) : bytes :=
  match a with
  | BADDR_IPV4 ip port => udpgw_addr_ipv4 ip port
  | BADDR_IPV6 ip port => udpgw_addr_ipv6 ip port
  | BADDR_NONE => []
  end.

(** [packet] is the caller's packet, [data] an offset of it. *)
Definition connection_send (o : UdpGwClient) (con : ptr) (flags : Z) (packet : bytes) (data data_len : Z) :
    run (UdpGwClient * list effect) :=
  _ ← check (0 <=? data_len);
  _ ← check (data_len <=? udp_mtu o);
  c ← con_of o con;
  '(w, have) ← BufferWriter_StartPacket (send_if c);
  if negb have then Ret (o, []) else
  let flags := if BAddr_type (remote_addr (c_conaddr c)) =? BADDR_TYPE_IPV6
               then Z.lor flags UDPGW_CLIENT_FLAG_IPV6 else flags in
  (* write header *)
  w ← BufferWriter_write w 0 (udpgw_header flags (c_conid c));
  let out_pos := sizeof_udpgw_header in
  (* write address *)
  w ← BufferWriter_write w out_pos (addr_bytes (remote_addr (c_conaddr c)));
  let out_pos := out_pos + len (addr_bytes (remote_addr (c_conaddr c))) in
  (* write packet to buffer *)
  d ← rd_range packet data data_len;
  w ← BufferWriter_write w out_pos d;
  let out_pos := out_pos + data_len in
  '(w, sent) ← BufferWriter_EndPacket w out_pos;
  o ← set_con o con (Con (c_conaddr c) (first_flags c) (first_data c) (first_data_len c) (c_conid c) (first_job c) w);
  x ← deref con;
  Ret (o, [SendPacket x sent]).

(** The job runs: [BPendingGroup_ExecuteJob] has unset it. *)
Definition connection_first_job_handler (o : UdpGwClient) (con : ptr) (packet : bytes) : run (UdpGwClient * list effect) :=
  c ← con_of o con;
  connection_send o con (Z.lor UDPGW_CLIENT_FLAG_REBIND (first_flags c)) packet (first_data c) (first_data_len c).
Definition run_first_job (o : UdpGwClient) (con : ptr) (packet : bytes) : run (UdpGwClient * list effect) :=
  c ← con_of o con;
  if negb (first_job c) then Ret (o, []) else
  o ← set_con o con (Con (c_conaddr c) (first_flags c) (first_data c) (first_data_len c) (c_conid c) false (send_if c));
  connection_first_job_handler o con packet.

(** The sending side of the connection has room for a packet. *)
Definition writer_recv (o : UdpGwClient) (con : ptr) (m : bytes) : run UdpGwClient :=
  c ← con_of o con;
  w ← output_handler_recv (send_if c) m;
  set_con o con (Con (c_conaddr c) (first_flags c) (first_data c) (first_data_len c) (c_conid c) (first_job c) w).

Definition reuse_connection (o : UdpGwClient) (a : conaddr) : run (UdpGwClient * ptr) :=
  p ← find_connection_by_conaddr o a; _ ← check (bool_decide (p = None));
  _ ← check (0 <? num_connections o);
  let con := LinkedList1_GetFirst (connections_list o) in
  o ← remove_by_conaddr o con;
  c ← con_of o con;
  o ← set_con o con (Con a (first_flags c) (first_data c) (first_data_len c) (c_conid c) (first_job c) (send_if c));
  o ← insert_by_conaddr o con;
  Ret (o, con).

(** Move a connection to the end of the list, the place of the most recently used. *)
Definition touch (o : UdpGwClient) (con : ptr) : run UdpGwClient :=
  l ← LinkedList1_Remove (connections_list o) con;
  l ← LinkedList1_Append l con;
  Ret (set_list l o).

(** ** The handlers and the interface *)

Definition recv_interface_handler_send (o : UdpGwClient) (data : bytes) : run (list effect * UdpGwClient) :=
  let data_len := len data in
  _ ← check (have_server o);
  _ ← check (data_len <=? udpgw_mtu o);
  (* check header *)
  if data_len <? sizeof_udpgw_header then Ret ([], o) else
  header ← rd_range data 0 sizeof_udpgw_header;
  flags ← rd header 0;
  id ← rd_range header 1 2;
  let conid := of_le id in
  let pos := sizeof_udpgw_header in
  let data_len := data_len - sizeof_udpgw_header in
  (* parse address *)
  r ← (if negb (Z.land flags UDPGW_CLIENT_FLAG_IPV6 =? 0) then
         if to_size_t data_len <? sizeof_udpgw_addr_ipv6 then Ret None else
         a ← rd_range data pos sizeof_udpgw_addr_ipv6;
         ip ← rd_range a 0 16; port ← rd_range a 16 2;
         remote ← BAddr_InitIPv6 ip (of_le port);
         Ret (Some (remote, pos + sizeof_udpgw_addr_ipv6, data_len - sizeof_udpgw_addr_ipv6))
       else
         if to_size_t data_len <? sizeof_udpgw_addr_ipv4 then Ret None else
         a ← rd_range data pos sizeof_udpgw_addr_ipv4;
         ip ← rd_range a 0 4; port ← rd_range a 4 2;
         Ret (Some (BAddr_InitIPv4 (of_le ip) (of_le port), pos + sizeof_udpgw_addr_ipv4,
                    data_len - sizeof_udpgw_addr_ipv4)));
  match r with
  | None => Ret ([], o)
  | Some (remote, pos, data_len) =>
      (* check remaining data *)
      if data_len >? udp_mtu o then Ret ([], o) else
      (* find connection *)
      p ← find_connection_by_conid o conid;
      match p with
      | None => Ret ([], o)
      | Some _ =>
          c ← con_of o p;
          (* check remote address *)
          if negb (BAddr_CompareOrder (remote_addr (c_conaddr c)) remote =? 0) then Ret ([], o) else
          o ← touch o p;
          d ← rd_range data pos data_len;
          Ret ([HandlerReceived (local_addr (c_conaddr c)) (remote_addr (c_conaddr c)) d], o)
      end
  end.

Definition decoder_handler_error (o : UdpGwClient) : run (UdpGwClient * list effect) :=
  _ ← check (have_server o); Ret (o, [HandlerServerError]).

(** The bytes of [o->keepalive_packet] on a little-endian machine. *)
Definition keepalive_packet : bytes := le16 sizeof_udpgw_header ++ udpgw_header UDPGW_CLIENT_FLAG_KEEPALIVE 0.
Definition send_monitor_handler (o : UdpGwClient) : UdpGwClient * list effect :=
  if keepalive_sending o then (o, []) else
  (set_flags true (have_server o) o, [SendKeepalive keepalive_packet]).
Definition keepalive_if_handler_done (o : UdpGwClient) : run UdpGwClient :=
  _ ← check (keepalive_sending o); Ret (set_flags false (have_server o) o).

(** [queue]: whether [PacketPassFairQueue_Init] succeeds. *)
Definition UdpGwClient_Init (udp_mtu max_connections send_buffer_size : Z) (queue : bool) : run (option UdpGwClient) :=
  _ ← check (0 <=? udp_mtu);
  _ ← check (0 <=? udpgw_compute_mtu udp_mtu);
  _ ← check (udpgw_compute_mtu udp_mtu <=? PACKETPROTO_MAXPAYLOAD);
  _ ← check (0 <? max_connections);
  _ ← check (0 <? send_buffer_size);
  let max_connections := if max_connections >? UINT16_MAX + 1 then UINT16_MAX + 1 else max_connections in
  let udpgw_mtu := udpgw_compute_mtu udp_mtu in
  if negb queue then Ret None else
  Ret (Some (Client udp_mtu max_connections udpgw_mtu (udpgw_mtu + sizeof_packetproto_header)
               (BAVL_Init ∅) (BAVL_Init ∅) (LinkedList1_Init ∅) 0 0 false false ∅)).

(** [while (!LinkedList1_IsEmpty(...)) connection_free(first)], then the server. *)
Fixpoint free_loop (fuel : nat) (o : UdpGwClient) : run UdpGwClient :=
  if LinkedList1_IsEmpty (connections_list o) then Ret o else
  match fuel with
  | O => Fail OutOfFuel
  | S fuel => o ← connection_free o (LinkedList1_GetFirst (connections_list o)); free_loop fuel o
  end.
Definition UdpGwClient_Free (o : UdpGwClient) : run UdpGwClient := free_loop (Z.to_nat (num_connections o)) o.

Definition UdpGwClient_SubmitPacket (o : UdpGwClient) (new : option allocation) (flow : bool)
    (local remote : BAddr) (is_dns : bool) (packet : bytes) (data data_len : Z) : run (UdpGwClient * list effect) :=
  _ ← check ((BAddr_type local =? BADDR_TYPE_IPV4) || (BAddr_type local =? BADDR_TYPE_IPV6));
  _ ← check ((BAddr_type remote =? BADDR_TYPE_IPV4) || (BAddr_type remote =? BADDR_TYPE_IPV6));
  _ ← check (0 <=? data_len);
  _ ← check (data_len <=? udp_mtu o);
  let a := ConAddr local remote in
  con ← find_connection_by_conaddr o a;
  let flags := if is_dns then Z.lor 0 UDPGW_CLIENT_FLAG_DNS else 0 in
  '(o, con, flags) ←
    (if bool_decide (con = None) && (num_connections o =? max_connections o) then
       '(o, con) ← reuse_connection o a; Ret (o, con, Z.lor flags UDPGW_CLIENT_FLAG_REBIND)
     else Ret (o, con, flags));
  match con with
  | None => o ← connection_init o new flow a flags data data_len; Ret (o, [])
  | Some _ => o ← touch o con; connection_send o con flags packet data data_len
  end.

(** [decoder]: whether [PacketProtoDecoder_Init] succeeds. *)
Definition UdpGwClient_ConnectServer (o : UdpGwClient) (decoder : bool) : run (UdpGwClient * bool) :=
  _ ← check (negb (have_server o));
  if negb decoder then Ret (o, false) else Ret (set_flags (keepalive_sending o) true o, true).
Definition UdpGwClient_DisconnectServer (o : UdpGwClient) : run UdpGwClient :=
  _ ← check (have_server o); Ret (set_flags (keepalive_sending o) false o).
