(* ===== verification/UdpGwSpec.v ===== *)
(** * The state of the UDP gateway client, and its operations one by one

    [client_ok o l]: the two trees index the connections [l], which the list
    keeps from the least to the most recently used; identifiers and address
    pairs are distinct, identifiers are below [max_connections] and the counters
    are right.  The lemmas give the effect of each operation on [l]. *)
From stdpp Require Import gmap.
From S2P Require Import Prelude Inet Addr Bsize Bavl BavlTree BavlSpec LinkedList1 BufferWriter UdpGw.

(** ** A tree as an index of a set of nodes *)

Section index.
Context {V : Type} (cmp : V -> V -> Z) `{!ValueOrder cmp} (value : positive -> V).
Implicit Types (t : BAVL) (l : list positive) (x : positive).

Definition indexed t l : Prop := exists k, bavl cmp value t k /\ k ≡ₚ l.

#[global] Instance indexed_proper t : Proper (Permutation ==> iff) (indexed t).
Proof. intros l l' Hl. unfold indexed. by setoid_rewrite Hl. Qed.

Lemma indexed_nodup t l : indexed t l -> NoDup l.
Proof. intros (k & Hk & <-). by eapply bavl_nodup. Qed.
Lemma indexed_inj t l x y : indexed t l -> x ∈ l -> y ∈ l -> cmp (value x) (value y) = 0 -> x = y.
Proof. intros (k & (tr & _ & _ & _ & Hord) & <-). by apply ordered_inj. Qed.
Lemma indexed_lookup t l v : indexed t l ->
  exists r, BAVL_LookupExact cmp value t v = Ret r /\ forall x, r = Some x <-> x ∈ l /\ cmp v (value x) = 0.
Proof.
  intros (k & Hk & Hp). destruct (BAVL_LookupExact_ok cmp value t k v Hk) as (r & He & Hr).
  exists r. split; [done|]. intros x. by rewrite Hr, Hp.
Qed.
Lemma indexed_insert t l x : indexed t l -> x ∉ l -> is_Some (mem t !! x) ->
  (forall y, y ∈ l -> cmp (value x) (value y) <> 0) ->
  exists t' ref, BAVL_Insert cmp value t (Some x) = Ret (t', true, ref) /\ indexed t' (x :: l) /\ dom (mem t') = dom (mem t).
Proof.
  intros (k & Hk & Hp) Hx Hal Hne. rewrite <- Hp in Hx.
  destruct (BAVL_Insert_ok cmp value t k x Hk Hx Hal) as [(y & Hy & Hc & _)|(l1 & l2 & t' & ref & -> & He & Hb & Hd & _)].
  - exfalso. apply (Hne y); [by rewrite <- Hp|done].
  - exists t', ref. split; [done|]. split; [|done]. exists (l1 ++ x :: l2). split; [done|]. by rewrite <- Hp, Permutation_middle.
Qed.
Lemma indexed_remove t l x l' : indexed t l -> l ≡ₚ x :: l' ->
  exists t', BAVL_Remove t (Some x) = Ret t' /\ indexed t' l' /\ dom (mem t') = dom (mem t).
Proof.
  intros (k & Hk & Hp) Hl. rewrite Hl in Hp. assert (Hx : x ∈ k) by (rewrite Hp; set_solver).
  apply list_elem_of_split in Hx as (k1 & k2 & ->).
  destruct (BAVL_Remove_ok cmp value t k1 x k2 Hk) as (t' & He & Hb & Hd).
  exists t'. split; [done|]. split; [|done]. exists (k1 ++ k2). split; [done|].
  apply (Permutation_cons_inv (a := x)). by rewrite Permutation_middle.
Qed.
Lemma indexed_mem r m m' l : (forall x, x ∈ l -> m' !! x = m !! x) -> indexed (MkTree r m) l -> indexed (MkTree r m') l.
Proof. intros Ha (k & Hk & Hp). exists k. split; [|done]. eapply bavl_mem; [|done]. intros x Hx. apply Ha. by rewrite <- Hp. Qed.
End index.

Lemma indexed_value {V} (cmp : V -> V -> Z) (value value' : positive -> V) t l :
  (forall x, x ∈ l -> value' x = value x) -> indexed cmp value t l -> indexed cmp value' t l.
Proof. intros Ha (k & Hk & Hp). exists k. split; [|done]. eapply bavl_value; [|done]. intros x Hx. apply Ha. by rewrite <- Hp. Qed.

(** ** The comparators *)

#[export] Instance uint16_comparator_order : ValueOrder uint16_comparator.
Proof. exact B_COMPARE_order. Qed.
#[export] Instance conaddr_comparator_order : ValueOrder conaddr_comparator.
Proof.
  apply (value_order_lex (fun a b => BAddr_CompareOrder (remote_addr a) (remote_addr b))
           (fun a b => BAddr_CompareOrder (local_addr a) (local_addr b)));
    apply (value_order_by _ BAddr_CompareOrder), _.
Qed.

Definition conaddr_ok (a : conaddr) : Prop :=
  baddr_ok (local_addr a) /\ is_ip (local_addr a) /\ baddr_ok (remote_addr a) /\ is_ip (remote_addr a).
Lemma conaddr_comparator_0 a b : conaddr_ok a -> conaddr_ok b -> conaddr_comparator a b = 0 <-> a = b.
Proof.
  intros (Hal & _ & Har & _) (Hbl & _ & Hbr & _). unfold conaddr_comparator. destruct a as [al ar], b as [bl br].
  cbn [local_addr remote_addr] in *. pose proof (BAddr_CompareOrder_0 ar br Har Hbr) as Hr.
  pose proof (BAddr_CompareOrder_0 al bl Hal Hbl) as Hl.
  destruct (Z.eqb_spec (BAddr_CompareOrder ar br) 0) as [E|E]; cbn [negb].
  - rewrite Hl. apply Hr in E as ->. split; [by intros ->|by intros [=]].
  - split; [done|]. intros [= -> ->]. exfalso. by apply E, Hr.
Qed.

(** ** The invariant *)

Record con_valid (max mtu packet_mtu : Z) (c : connection) : Prop := {
  k_addr : conaddr_ok (c_conaddr c);
  k_id : 0 <= c_conid c < max;
  k_first : 0 <= first_data_len c <= mtu;
  k_flags : 0 <= first_flags c < 256;
  k_writer : idle packet_mtu (send_if c) }.
Definition con_ok (o : UdpGwClient) : connection -> Prop := con_valid (max_connections o) (udp_mtu o) (udpgw_mtu o).

Record client_ok (o : UdpGwClient) (l : list positive) : Prop := {
  i_max : 0 < max_connections o <= 65536;
  i_mtu : 0 <= udp_mtu o /\ udpgw_mtu o = sizeof_udpgw_header + sizeof_udpgw_addr_ipv6 + udp_mtu o /\
    udpgw_mtu o <= PACKETPROTO_MAXPAYLOAD;
  i_list : linked (connections_list o) l;
  i_addrs : indexed conaddr_comparator (conaddr_at (cons o)) (connections_tree_by_conaddr o) l;
  i_ids : indexed uint16_comparator (conid_at (cons o)) (connections_tree_by_conid o) l;
  i_num : num_connections o = len l /\ len l <= max_connections o;
  i_next : 0 <= next_conid o < max_connections o;
  i_cons : forall x, x ∈ l -> exists c, cons o !! x = Some c /\ con_ok o c;
  i_dom : dom (cons o) = list_to_set l }.

Lemma mtu_ok n : 0 <= n -> 0 <= udpgw_compute_mtu n -> udpgw_compute_mtu n <= PACKETPROTO_MAXPAYLOAD ->
  udpgw_compute_mtu n = sizeof_udpgw_header + sizeof_udpgw_addr_ipv6 + n.
Proof.
  intros Hn. unfold udpgw_compute_mtu.
  assert (Hb : bsize_is (bsize_add (bsize_fromsize sizeof_udpgw_header)
      (bsize_add (bsize_max (bsize_fromsize sizeof_udpgw_addr_ipv4) (bsize_fromsize sizeof_udpgw_addr_ipv6)) (bsize_fromint n)))
    (sizeof_udpgw_header + (sizeof_udpgw_addr_ipv4 `max` sizeof_udpgw_addr_ipv6 + n))).
  { repeat first [apply bsize_add_ok|apply bsize_max_ok|by apply bsize_fromsize_ok|by apply bsize_fromint_ok]. }
  rewrite (bsize_toint_ok _ _ Hb). unfold sizeof_udpgw_header, sizeof_udpgw_addr_ipv4, sizeof_udpgw_addr_ipv6.
  destruct (Z.leb_spec (3 + (6 `max` 18 + n)) INT_MAX); lia.
Qed.

Section client.
Implicit Types (o : UdpGwClient) (l : list positive) (c : connection).

Lemma con_of_ok o x c : cons o !! x = Some c -> con_of o (Some x) = Ret c.
Proof. intros Hx. unfold con_of. run_simpl. by rewrite Hx. Qed.
Lemma set_con_ok o x c c' : cons o !! x = Some c -> set_con o (Some x) c' = Ret (set_cons (<[x := c']> (cons o)) o).
Proof. intros Hx. unfold set_con. run_simpl. by rewrite Hx. Qed.
Lemma conaddr_at_some m x c : m !! x = Some c -> conaddr_at m x = c_conaddr c.
Proof. unfold conaddr_at. by intros ->. Qed.
Lemma conid_at_some m x c : m !! x = Some c -> conid_at m x = c_conid c.
Proof. unfold conid_at. by intros ->. Qed.

(** Looking a connection up by its addresses, and by its identifier. *)
Lemma find_conaddr_ok o l a : client_ok o l -> conaddr_ok a -> exists r,
  find_connection_by_conaddr o a = Ret r /\
  forall x, r = Some x <-> exists c, x ∈ l /\ cons o !! x = Some c /\ c_conaddr c = a.
Proof.
  intros Ho Ha. destruct (indexed_lookup _ _ _ l a (i_addrs _ _ Ho)) as (r & He & Hr). exists r. split; [done|].
  intros x. rewrite Hr. split.
  - intros [Hx Hc]. destruct (i_cons _ _ Ho x Hx) as (c & Hxc & Hok). exists c. rewrite (conaddr_at_some _ _ _ Hxc) in Hc.
    split_and!; [done..|]. symmetry. by apply (conaddr_comparator_0 a _ Ha (k_addr _ _ _ _ Hok)).
  - intros (c & Hx & Hxc & Hca). split; [done|]. rewrite (conaddr_at_some _ _ _ Hxc), Hca. by apply conaddr_comparator_0.
Qed.
Lemma find_conid_ok o l i : client_ok o l -> exists r,
  find_connection_by_conid o i = Ret r /\ forall x, r = Some x <-> exists c, x ∈ l /\ cons o !! x = Some c /\ c_conid c = i.
Proof.
  intros Ho. destruct (indexed_lookup _ _ _ l i (i_ids _ _ Ho)) as (r & He & Hr). exists r. split; [done|].
  intros x. rewrite Hr. unfold uint16_comparator. rewrite B_COMPARE_0. split.
  - intros [Hx Hc]. destruct (i_cons _ _ Ho x Hx) as (c & Hxc & Hok). exists c. by rewrite (conid_at_some _ _ _ Hxc) in Hc.
  - intros (c & Hx & Hxc & Hca). split; [done|]. by rewrite (conid_at_some _ _ _ Hxc), Hca.
Qed.
(** Identifiers and addresses tell connections apart. *)
Lemma conid_inj o l x y cx cy : client_ok o l -> x ∈ l -> y ∈ l -> cons o !! x = Some cx -> cons o !! y = Some cy ->
  c_conid cx = c_conid cy -> x = y.
Proof.
  intros Ho Hx Hy Hcx Hcy He. apply (indexed_inj _ _ _ _ _ _ (i_ids _ _ Ho) Hx Hy).
  apply B_COMPARE_0. by rewrite (conid_at_some _ _ _ Hcx), (conid_at_some _ _ _ Hcy).
Qed.
Lemma conaddr_inj o l x y cx cy : client_ok o l -> x ∈ l -> y ∈ l -> cons o !! x = Some cx -> cons o !! y = Some cy ->
  c_conaddr cx = c_conaddr cy -> x = y.
Proof.
  intros Ho Hx Hy Hcx Hcy He. apply (indexed_inj _ _ _ _ _ _ (i_addrs _ _ Ho) Hx Hy).
  rewrite (conaddr_at_some _ _ _ Hcx), (conaddr_at_some _ _ _ Hcy), He. apply cmp_refl, _.
Qed.
End client.

(** ** Allocation of an identifier *)

(** The identifiers from [next] on, in cyclic order, and the first one not in use. *)
Definition ring (max next : Z) : list Z := map (fun k => (next + k) mod max) (seqZ 0 max).
Definition unused_id (ids : list Z) (max next : Z) : option Z :=
  snd <$> list_find (fun i => i ∉ ids) (ring max next).

Lemma mod_inj m a b : 0 < m -> a mod m = b mod m -> - m < a - b < m -> a = b.
Proof.
  intros Hm He Hd. pose proof (Z.div_mod a m) as Ha. pose proof (Z.div_mod b m) as Hb. rewrite He in Ha.
  assert (a - b = m * (a / m - b / m)) by lia. assert (a / m - b / m = 0) by nia. lia.
Qed.
Lemma mod_succ m a x : 0 < m -> x = a mod m -> (if x =? m - 1 then 0 else x + 1) = (a + 1) mod m.
Proof.
  intros Hm ->. pose proof (Z.mod_pos_bound a m Hm). rewrite Z.add_mod by lia. zcase.
  - rewrite e. destruct (Z.eq_dec m 1) as [->|]; [done|]. rewrite (Z.mod_small 1) by lia.
    replace (m - 1 + 1) with (1 * m) by lia. by rewrite Z.mod_mul by lia.
  - rewrite (Z.mod_small 1) by lia. by rewrite (Z.mod_small (a mod m + 1)) by lia.
Qed.
Lemma ring_nodup max next : 0 < max -> NoDup (ring max next).
Proof.
  intros Hm. unfold ring. apply NoDup_fmap_2_strong; [|apply NoDup_seqZ].
  intros a b Ha%elem_of_seqZ Hb%elem_of_seqZ H. apply mod_inj in H; lia.
Qed.
Lemma ring_length max next : 0 <= max -> len (ring max next) = max.
Proof. intros. unfold ring, len. rewrite length_map, length_seqZ. lia. Qed.
Lemma ring_lookup max next k i : ring max next !! k = Some i <-> Z.of_nat k < max /\ i = (next + Z.of_nat k) mod max.
Proof.
  unfold ring. rewrite list_lookup_fmap, fmap_Some. split.
  - intros (j & Hj & ->). by apply lookup_seqZ in Hj as [-> Hk].
  - intros [Hk ->]. exists (0 + Z.of_nat k). split; [|f_equal; lia]. apply lookup_seqZ. lia.
Qed.
(** More identifiers than connections: one is free. *)
Lemma unused_id_some ids max next : 0 < max -> len ids < max -> exists i, unused_id ids max next = Some i.
Proof.
  intros Hm Hl. unfold unused_id. destruct (list_find _ (ring max next)) as [[k i]|] eqn:E; [by exists i|].
  exfalso. apply list_find_None in E. rewrite list.Forall_forall in E.
  pose proof (NoDup_submseteq (ring max next) ids (ring_nodup max next Hm)) as Hs.
  assert (Hsub : ring max next ⊆+ ids).
  { apply Hs. intros i Hi. destruct (decide (i ∈ ids)); [done|]. by destruct (E i Hi). }
  apply submseteq_length in Hsub. pose proof (ring_length max next). unfold len in *. lia.
Qed.
Lemma unused_id_ok ids max next i : 0 < max -> unused_id ids max next = Some i -> i ∉ ids /\ 0 <= i < max.
Proof.
  intros Hm ((k & j) & (Hk & Hi & _)%list_find_Some & ->)%fmap_Some. split; [done|].
  apply ring_lookup in Hk as [_ ->]. apply Z.mod_pos_bound. lia.
Qed.

Lemma find_unused_loop_ok k : forall fuel o l next i, let max := max_connections o in let ids := map (conid_at (cons o)) l in
  0 < max <= 65536 -> 0 <= next < max -> next_conid o = (next + Z.of_nat k) mod max ->
  indexed uint16_comparator (conid_at (cons o)) (connections_tree_by_conid o) l ->
  (exists n, list_find (fun i => i ∉ ids) (ring max next) = Some ((k + n)%nat, i)) -> (max <= Z.of_nat k + Z.of_nat fuel) ->
  find_unused_loop fuel o = Ret (set_count (num_connections o) i o, i).
Proof.
  intros fuel. revert k. induction fuel as [|fuel IH]; intros k o l next i max ids Hmax Hn Hk Hidx [n Hf] Hfuel.
  - apply list_find_Some in Hf as (Hl & _). apply ring_lookup in Hl as [Hl _]. fold max in Hl. lia.
  - cbn [find_unused_loop].
    assert (Hb : 0 <= next_conid o < max) by (rewrite Hk; apply Z.mod_pos_bound; lia).
    rewrite (u16_small (next_conid o)) by lia. unfold find_connection_by_conid.
    destruct (indexed_lookup _ _ _ l (next_conid o) Hidx) as (r & -> & Hr). run_simpl.
    assert (Hin : (exists x, r = Some x) <-> next_conid o ∈ ids).
    { unfold ids. rewrite list_elem_of_fmap. unfold uint16_comparator in Hr. setoid_rewrite Hr.
      setoid_rewrite B_COMPARE_0. split; intros (x & Hx); exists x; tauto. }
    destruct n as [|n].
    + apply list_find_Some in Hf as (Hl & Hni & _). rewrite Nat.add_0_r in Hl. apply ring_lookup in Hl as [_ Hi].
      fold max in Hi. rewrite <- Hk in Hi. subst i. destruct r as [x|]; [exfalso; apply Hni, Hin; by exists x|].
      by destruct o.
    + apply list_find_Some in Hf as (Hl & Hni & Hall).
      assert (Hused : next_conid o ∈ ids).
      { destruct (decide (next_conid o ∈ ids)) as [|Hno]; [done|]. exfalso. apply (Hall k (next_conid o)); [|lia|done].
        apply ring_lookup. apply ring_lookup in Hl as [Hl _]. split; [lia|done]. }
      apply Hin in Hused as [x ->]. fold max.
      assert (Hnext : (if next_conid o =? max - 1 then 0 else next_conid o + 1) = (next + Z.of_nat (S k)) mod max).
      { rewrite (mod_succ max (next + Z.of_nat k)) by (lia || done). f_equal. lia. }
      set (o' := set_count _ _ o). rewrite (IH (S k) o' l next i); [by destruct o|done|done|done|done| |change (max_connections o') with max; lia].
      exists n. apply list_find_Some. replace (S k + n)%nat with (k + S n)%nat by lia. done.
Qed.
Lemma find_unused_conid_ok o l : let max := max_connections o in
  0 < max <= 65536 -> 0 <= next_conid o < max -> num_connections o = len l -> len l < max ->
  indexed uint16_comparator (conid_at (cons o)) (connections_tree_by_conid o) l ->
  exists i, unused_id (map (conid_at (cons o)) l) max (next_conid o) = Some i /\ 0 <= i < max /\
    i ∉ map (conid_at (cons o)) l /\ find_unused_conid o = Ret (set_count (num_connections o) i o, i).
Proof.
  intros max Hmax Hn Hnum Hl Hidx.
  destruct (unused_id_some (map (conid_at (cons o)) l) max (next_conid o)) as [i Hi]; [lia|unfold len in *; rewrite length_map; lia|].
  exists i. split; [done|]. destruct (unused_id_ok _ _ _ _ (proj1 Hmax) Hi) as [Hni Hb]. split; [done|]. split; [done|].
  unfold find_unused_conid. fold max. rewrite Hnum. ztest. run_simpl. rewrite <- Hnum.
  apply fmap_Some in Hi as ((k & j) & Hf & ->).
  apply (find_unused_loop_ok 0 _ o l (next_conid o)); try done.
  - rewrite Z.add_0_r. by rewrite Z.mod_small.
  - by exists k.
  - fold max. lia.
Qed.

(** ** The abstract client: a list of sessions, least recently used first *)

Record session := Session {
  s_addr : conaddr;
  s_id : Z;
  s_first : option (Z * Z * Z);   (* a first packet not sent yet: flags, pointer, length *)
  s_ready : bool }.               (* the sending side has room for a packet *)

Definition abs (c : connection) : session :=
  Session (c_conaddr c) (c_conid c)
    (if first_job c then Some (first_flags c, first_data c, first_data_len c) else None) (out_have (send_if c)).
Definition abs_at (m : gmap positive connection) (x : positive) : session :=
  match m !! x with Some c => abs c | None => Session no_conaddr 0 None false end.
Definition view (m : gmap positive connection) (l : list positive) : list (positive * session) :=
  map (fun x => (x, abs_at m x)) l.

(** The packet of a session, and what becomes of a session that sends one. *)
Definition packet_of (flags : Z) (s : session) (d : bytes) : bytes :=
  udpgw_header (if BAddr_type (remote_addr (s_addr s)) =? BADDR_TYPE_IPV6
                then Z.lor flags UDPGW_CLIENT_FLAG_IPV6 else flags) (s_id s) ++
  addr_bytes (remote_addr (s_addr s)) ++ d.
Definition emit (x : positive) (s : session) (flags : Z) (d : bytes) : session * list effect :=
  if s_ready s then (Session (s_addr s) (s_id s) (s_first s) false, [SendPacket x (packet_of flags s d)])
  else (s, []).

Definition without (x : positive) (l : list positive) : list positive := filter (fun y => y <> x) l.

Lemma view_ext m m' l : (forall x, x ∈ l -> m' !! x = m !! x) -> view m' l = view m l.
Proof.
  intros Ha. unfold view. apply list_fmap_ext. intros i x Hx. unfold abs_at. rewrite Ha; [done|].
  by eapply list_elem_of_lookup_2.
Qed.
Lemma view_app m l1 l2 : view m (l1 ++ l2) = view m l1 ++ view m l2.
Proof. apply map_app. Qed.
Lemma abs_at_some m x c : m !! x = Some c -> abs_at m x = abs c.
Proof. unfold abs_at. by intros ->. Qed.
Lemma view_insert m x c l1 l2 : x ∉ l1 -> x ∉ l2 ->
  view (<[x := c]> m) (l1 ++ x :: l2) = view m l1 ++ (x, abs c) :: view m l2.
Proof.
  intros H1 H2. rewrite view_app. cbn [view map]. fold (view (<[x:=c]> m) l2).
  rewrite (abs_at_some _ x c) by apply lookup_insert_eq.
  rewrite (view_ext m (<[x:=c]> m) l1), (view_ext m (<[x:=c]> m) l2); [done| |];
    intros y Hy; apply lookup_insert_ne; by intros ->.
Qed.

Section operations.
Implicit Types (o : UdpGwClient) (l : list positive) (c : connection).

Lemma client_nodup o l : client_ok o l -> NoDup l.
Proof. intros Ho. eapply indexed_nodup, (i_ids _ _ Ho). Qed.
Lemma client_split o l x : client_ok o l -> x ∈ l -> exists l1 l2, l = l1 ++ x :: l2 /\ x ∉ l1 /\ x ∉ l2 /\ without x l = l1 ++ l2.
Proof.
  intros Ho Hx. pose proof (client_nodup _ _ Ho) as Hnd. apply list_elem_of_split in Hx as (l1 & l2 & ->).
  exists l1, l2. apply list.NoDup_app in Hnd as Hs. destruct Hs as (_ & Hd & [Hx2 _]%list.NoDup_cons).
  assert (Hx1 : x ∉ l1) by (intros Hin; apply (Hd x Hin); set_solver).
  split_and!; try done. by apply filter_ne.
Qed.

(** A connection changes, but for its addresses and its identifier. *)
Lemma update_con o l x c c' : client_ok o l -> x ∈ l -> cons o !! x = Some c -> con_ok o c' ->
  c_conaddr c' = c_conaddr c -> c_conid c' = c_conid c -> client_ok (set_cons (<[x := c']> (cons o)) o) l.
Proof.
  intros [] Hx Hc Hok Ha Hi. split; try done; cbn [set_cons cons connections_tree_by_conaddr connections_tree_by_conid].
  - eapply indexed_value; [|exact i_addrs0]. intros y Hy. unfold conaddr_at.
    destruct (decide (y = x)) as [->|Hne]; [rewrite lookup_insert_eq, Hc; done|by rewrite lookup_insert_ne].
  - eapply indexed_value; [|exact i_ids0]. intros y Hy. unfold conid_at.
    destruct (decide (y = x)) as [->|Hne]; [rewrite lookup_insert_eq, Hc; done|by rewrite lookup_insert_ne].
  - intros y Hy. destruct (decide (y = x)) as [->|Hne]; [rewrite lookup_insert_eq|rewrite lookup_insert_ne by done; auto].
    by exists c'.
  - rewrite dom_insert_L, i_dom0. set_solver.
Qed.

Lemma touch_ok o l x : client_ok o l -> x ∈ l -> exists o',
  touch o (Some x) = Ret o' /\ client_ok o' (without x l ++ [x]) /\ cons o' = cons o /\ next_conid o' = next_conid o /\
  o' = set_list (connections_list o') o.
Proof.
  intros Ho Hx. destruct (client_split _ _ _ Ho Hx) as (l1 & l2 & -> & Hx1 & Hx2 & ->). destruct Ho.
  unfold touch. destruct (LinkedList1_move_to_end _ _ _ _ i_list0) as (ll & He & Hll & _).
  destruct (LinkedList1_Remove (connections_list o) (Some x)) as [ll1|]; [|done]. revert He. run_simpl. intros ->. run_simpl.
  eexists. split; [done|]. split; [|done].
  assert (Hp : (l1 ++ l2) ++ [x] ≡ₚ l1 ++ x :: l2) by (rewrite <- app_assoc; solve_Permutation).
  split; try done; cbn [set_list connections_list connections_tree_by_conaddr connections_tree_by_conid cons num_connections max_connections].
  - by rewrite <- app_assoc.
  - by rewrite Hp.
  - by rewrite Hp.
  - unfold len in *. by rewrite Hp.
  - intros y Hy. rewrite Hp in Hy. auto.
  - rewrite i_dom0. apply list_to_set_perm_L. by rewrite Hp.
Qed.

Lemma len_addr_bytes a : baddr_ok a -> 0 <= len (addr_bytes a) <= sizeof_udpgw_addr_ipv6.
Proof.
  destruct a as [|ip port|ip port]; cbn [addr_bytes baddr_ok]; unfold sizeof_udpgw_addr_ipv6; [by vm_compute| |].
  - intros _. by vm_compute.
  - intros (_ & Hl & _). unfold udpgw_addr_ipv6. rewrite len_app, Hl. by vm_compute.
Qed.
Lemma set_cons_id o x c : cons o !! x = Some c -> set_cons (<[x := c]> (cons o)) o = o.
Proof. intros Hx. rewrite insert_id by done. by destruct o. Qed.

(** Sending on a connection. *)
Lemma connection_send_ok o l x c flags packet data n d : client_ok o l -> x ∈ l -> cons o !! x = Some c ->
  0 <= n <= udp_mtu o -> rd_range packet data n = Ret d -> len d = n ->
  exists c' effs, connection_send o (Some x) flags packet data n = Ret (set_cons (<[x := c']> (cons o)) o, effs) /\
    emit x (abs c) flags d = (abs c', effs) /\ client_ok (set_cons (<[x := c']> (cons o)) o) l.
Proof.
  intros Ho Hx Hc Hn Hrd Hd. destruct (i_cons _ _ Ho x Hx) as (c0 & Hc0 & Hok). rewrite Hc in Hc0. injection Hc0 as <-.
  unfold connection_send. ztest. run_simpl. rewrite (con_of_ok _ _ _ Hc). run_simpl.
  destruct (start_packet _ _ (k_writer _ _ _ _ Hok)) as (w & -> & Hw). run_simpl. unfold emit. cbn [abs s_ready].
  destruct (out_have (send_if c)) eqn:Hrdy; cbn [negb].
  - pose proof (i_mtu _ _ Ho) as (_ & Hmtu & _). pose proof (k_addr _ _ _ _ Hok) as (_ & _ & Hr & _).
    pose proof (len_addr_bytes _ Hr) as Hla. unfold sizeof_udpgw_header in *.
    set (fl := if _ =? _ then _ else _). set (hdr := udpgw_header fl (c_conid c)).
    assert (Hh : len hdr = 3) by reflexivity.
    destruct (write_packet _ _ [] hdr 0 Hw) as (w1 & -> & Hw1); [done|lia|]. run_simpl.
    destruct (write_packet _ _ _ (addr_bytes (remote_addr (c_conaddr c))) 3 Hw1) as (w2 & -> & Hw2); [done|lia|]. run_simpl.
    rewrite Hrd. run_simpl.
    destruct (write_packet _ _ _ d (3 + len (addr_bytes (remote_addr (c_conaddr c)))) Hw2) as (w3 & -> & Hw3).
    { rewrite !len_app. alia. } { lia. } run_simpl.
    destruct (end_packet _ _ _ (3 + len (addr_bytes (remote_addr (c_conaddr c))) + n) Hw3) as (w4 & -> & Hw4 & Hidle).
    { rewrite !len_app. alia. } run_simpl. rewrite (set_con_ok _ _ _ _ Hc). run_simpl.
    eexists _, _. split; [done|]. split.
    + unfold abs, packet_of. cbn. by rewrite Hidle.
    + eapply update_con; try done. by destruct Hok.
  - subst w. exists c, []. rewrite set_cons_id by done. done.
Qed.

(** The first packet of a connection. *)
Lemma run_first_job_ok o l x c packet d : client_ok o l -> x ∈ l -> cons o !! x = Some c ->
  (first_job c = true -> rd_range packet (first_data c) (first_data_len c) = Ret d /\ len d = first_data_len c) ->
  exists c' effs, run_first_job o (Some x) packet = Ret (set_cons (<[x := c']> (cons o)) o, effs) /\
    client_ok (set_cons (<[x := c']> (cons o)) o) l /\
    match s_first (abs c) with
    | None => abs c' = abs c /\ effs = []
    | Some (flags, _, _) =>
        emit x (Session (s_addr (abs c)) (s_id (abs c)) None (s_ready (abs c))) (Z.lor UDPGW_CLIENT_FLAG_REBIND flags) d
        = (abs c', effs)
    end.
Proof.
  intros Ho Hx Hc Hd. destruct (i_cons _ _ Ho x Hx) as (c0 & Hc0 & Hok). rewrite Hc in Hc0. injection Hc0 as <-.
  unfold run_first_job. rewrite (con_of_ok _ _ _ Hc). run_simpl. cbn [abs s_first].
  destruct (first_job c) eqn:Hj; cbn [negb].
  - rewrite (set_con_ok _ _ _ _ Hc). run_simpl. set (c1 := Con _ _ _ _ _ false _).
    assert (Ho1 : client_ok (set_cons (<[x := c1]> (cons o)) o) l) by (eapply update_con; try done; by destruct Hok).
    unfold connection_first_job_handler. rewrite (con_of_ok _ x c1) by apply lookup_insert_eq. run_simpl.
    destruct (Hd eq_refl) as [Hrd Hl].
    destruct (connection_send_ok _ l x c1 (Z.lor UDPGW_CLIENT_FLAG_REBIND (first_flags c1)) packet
                (first_data c1) (first_data_len c1) d Ho1 Hx) as (c2 & effs & -> & He & Ho2).
    { apply lookup_insert_eq. } { exact (k_first _ _ _ _ Hok). } { exact Hrd. } { exact Hl. }
    exists c2, effs. cbn [set_cons cons] in *. rewrite insert_insert_eq in *. done.
  - exists c, []. rewrite set_cons_id by done. done.
Qed.

Lemma writer_recv_ok o l x c m : client_ok o l -> x ∈ l -> cons o !! x = Some c ->
  out_have (send_if c) = false -> len m = udpgw_mtu o ->
  exists c', writer_recv o (Some x) m = Ret (set_cons (<[x := c']> (cons o)) o) /\
    client_ok (set_cons (<[x := c']> (cons o)) o) l /\
    abs c' = Session (s_addr (abs c)) (s_id (abs c)) (s_first (abs c)) true.
Proof.
  intros Ho Hx Hc Hr Hm. destruct (i_cons _ _ Ho x Hx) as (c0 & Hc0 & Hok). rewrite Hc in Hc0. injection Hc0 as <-.
  unfold writer_recv. rewrite (con_of_ok _ _ _ Hc). run_simpl.
  destruct (recv_ready _ _ m (k_writer _ _ _ _ Hok) Hr Hm) as (w & -> & Hw & Hrdy). run_simpl.
  rewrite (set_con_ok _ _ _ _ Hc). eexists. split; [done|]. split.
  - eapply update_con; try done. by destruct Hok.
  - unfold abs. cbn. by rewrite Hrdy.
Qed.

(** Memory for a new connection, and its release. *)
Lemma indexed_alloc {V} (cmp : V -> V -> Z) value t l x n : x ∉ l -> indexed cmp value t l -> indexed cmp value (tree_alloc x n t) l.
Proof. intros Hx. destruct t. apply indexed_mem. intros y Hy. apply lookup_insert_ne. by intros ->. Qed.
Lemma indexed_free {V} (cmp : V -> V -> Z) value t l x : x ∉ l -> indexed cmp value t l -> indexed cmp value (tree_free x t) l.
Proof. intros Hx. destruct t. apply indexed_mem. intros y Hy. apply lookup_delete_ne. by intros ->. Qed.

(** What an operation on the connections leaves alone. *)
Definition fixed o : Z * Z * Z * Z * bool * bool :=
  (udp_mtu o, max_connections o, udpgw_mtu o, pp_mtu o, keepalive_sending o, have_server o).

Lemma insert_by_conaddr_ok o l x : indexed conaddr_comparator (conaddr_at (cons o)) (connections_tree_by_conaddr o) l ->
  x ∉ l -> is_Some (mem (connections_tree_by_conaddr o) !! x) ->
  (forall y, y ∈ l -> conaddr_comparator (conaddr_at (cons o) x) (conaddr_at (cons o) y) <> 0) ->
  exists t, insert_by_conaddr o (Some x) = Ret (set_trees t (connections_tree_by_conid o) o) /\
    indexed conaddr_comparator (conaddr_at (cons o)) t (x :: l).
Proof.
  intros Hi Hx Hal Hne. unfold insert_by_conaddr. destruct (indexed_insert _ _ _ _ _ Hi Hx Hal Hne) as (t & ref & -> & Ht & _).
  by exists t.
Qed.
Lemma insert_by_conid_ok o l x : indexed uint16_comparator (conid_at (cons o)) (connections_tree_by_conid o) l ->
  x ∉ l -> is_Some (mem (connections_tree_by_conid o) !! x) -> conid_at (cons o) x ∉ map (conid_at (cons o)) l ->
  exists t, insert_by_conid o (Some x) = Ret (set_trees (connections_tree_by_conaddr o) t o) /\
    indexed uint16_comparator (conid_at (cons o)) t (x :: l).
Proof.
  intros Hi Hx Hal Hne. unfold insert_by_conid.
  destruct (indexed_insert _ _ _ _ _ Hi Hx Hal) as (t & ref & -> & Ht & _); [|by exists t].
  intros y Hy Hc. unfold uint16_comparator in Hc. rewrite B_COMPARE_0 in Hc. apply Hne. rewrite Hc. by apply list_elem_of_fmap_2.
Qed.

Section new_connection.
Context (o : UdpGwClient) (l : list positive) (m : allocation) (a : conaddr) (flags data n : Z).
Context (Ho : client_ok o l) (Ha : conaddr_ok a) (Hx : a_addr m ∉ l).
Context (Hnew : forall y c, y ∈ l -> cons o !! y = Some c -> c_conaddr c <> a).
Context (Hroom : len l < max_connections o) (Hn : 0 <= n <= udp_mtu o) (Hflags : 0 <= flags < 256).
Let x : positive := a_addr m.

(** The new connection as its first job finds it. *)
Definition fresh (i : Z) : connection := Con a flags data n i true (BW false [] (udpgw_mtu o) false).

Lemma fresh_con_ok i : 0 <= i < max_connections o -> con_ok o (fresh i).
Proof using Ha Hn Hflags. intros Hi. split; [done..|]. by split. Qed.
Lemma fresh_lookup (v : connection) y : y ∈ l -> <[x := v]> (cons o) !! y = cons o !! y.
Proof using Hx. intros Hy. apply lookup_insert_ne. intros <-. done. Qed.
Lemma fresh_absent : cons o !! x = None.
Proof using Ho Hx.
  apply not_elem_of_dom. rewrite (i_dom _ _ Ho), elem_of_list_to_set. exact Hx.
Qed.

Lemma link_new o1 i : fixed o1 = fixed o -> cons o1 = <[x := fresh i]> (cons o) ->
  num_connections o1 = num_connections o -> next_conid o1 = i -> 0 <= i < max_connections o ->
  i ∉ map (conid_at (cons o)) l ->
  linked (connections_list o1) l -> is_Some (ll_mem (connections_list o1) !! x) ->
  indexed conaddr_comparator (conaddr_at (cons o)) (connections_tree_by_conaddr o1) l ->
  is_Some (mem (connections_tree_by_conaddr o1) !! x) ->
  indexed uint16_comparator (conid_at (cons o)) (connections_tree_by_conid o1) l ->
  is_Some (mem (connections_tree_by_conid o1) !! x) ->
  exists o', (o2 ← insert_by_conaddr o1 (Some x); o3 ← insert_by_conid o2 (Some x);
              ll ← LinkedList1_Append (connections_list o3) (Some x);
              Ret (set_count (num_connections o3 + 1) (next_conid o3) (set_list ll o3))) = Ret o' /\
    client_ok o' (l ++ [x]) /\ cons o' = <[x := fresh i]> (cons o) /\ next_conid o' = i /\ fixed o' = fixed o.
Proof using Ho Ha Hx Hnew Hroom Hn Hflags.
  intros Hfix Hcons Hnum Hnext Hi Hfree Hll Hlal Hia Haal Hii Hial.
  assert (Hva : forall y, y ∈ l -> conaddr_at (cons o1) y = conaddr_at (cons o) y).
  { intros y Hy. unfold conaddr_at. by rewrite Hcons, fresh_lookup. }
  assert (Hvi : forall y, y ∈ l -> conid_at (cons o1) y = conid_at (cons o) y).
  { intros y Hy. unfold conid_at. by rewrite Hcons, fresh_lookup. }
  assert (Hxa : conaddr_at (cons o1) x = a) by (unfold conaddr_at; by rewrite Hcons, lookup_insert_eq).
  assert (Hxi : conid_at (cons o1) x = i) by (unfold conid_at; by rewrite Hcons, lookup_insert_eq).
  apply (indexed_value _ _ (conaddr_at (cons o1)) _ _ Hva) in Hia.
  apply (indexed_value _ _ (conid_at (cons o1)) _ _ Hvi) in Hii.
  destruct (insert_by_conaddr_ok o1 l x Hia Hx Haal) as (ta & -> & Hta).
  { intros y Hy. rewrite Hxa, (Hva y Hy). destruct (i_cons _ _ Ho y Hy) as (c & Hc & Hok).
    rewrite (conaddr_at_some _ _ _ Hc). rewrite (conaddr_comparator_0 a _ Ha (k_addr _ _ _ _ Hok)).
    intros ->. by apply (Hnew y c Hy Hc). }
  run_simpl. destruct (insert_by_conid_ok (set_trees ta (connections_tree_by_conid o1) o1) l x Hii Hx Hial) as (ti & -> & Hti).
  { cbn [set_trees cons]. rewrite Hxi. intros Hin. apply Hfree.
    apply list_elem_of_fmap in Hin as (y & -> & Hy). rewrite Hvi by done. by apply list_elem_of_fmap_2. }
  run_simpl. cbn [set_trees connections_list num_connections next_conid connections_tree_by_conaddr connections_tree_by_conid cons].
  destruct (LinkedList1_Append_ok _ l x Hll Hx Hlal) as (ll & -> & Hll' & _). run_simpl.
  injection Hfix as Hf1 Hf2 Hf3 Hf4 Hf5 Hf6.
  eexists. split; [done|]. split; [|cbn; unfold fixed; by rewrite <- Hf1, <- Hf2, <- Hf3, <- Hf4, <- Hf5, <- Hf6].
  assert (Hp : x :: l ≡ₚ l ++ [x]) by apply Permutation_cons_append.
  destruct Ho. split; cbn [set_count set_list set_trees max_connections udp_mtu udpgw_mtu connections_list cons num_connections next_conid
    connections_tree_by_conaddr connections_tree_by_conid]; rewrite ?Hf1, ?Hf2, ?Hf3; try done.
  - by rewrite <- Hp.
  - by rewrite <- Hp.
  - rewrite Hnum, len_app. change (len [x]) with 1. lia.
  - lia.
  - intros y. rewrite elem_of_app, list_elem_of_singleton, Hcons. unfold con_ok. cbn [set_count set_list set_trees max_connections udp_mtu udpgw_mtu].
    rewrite Hf1, Hf2, Hf3. intros [Hy| ->].
    + rewrite fresh_lookup by done. auto.
    + rewrite lookup_insert_eq. eexists. split; [done|]. by apply fresh_con_ok.
  - rewrite Hcons, dom_insert_L, i_dom0. rewrite list_to_set_app_L. set_solver.
Qed.

Lemma connection_init_ok flow : exists i o',
  connection_init o (Some m) flow a flags data n = Ret o' /\
  unused_id (map (conid_at (cons o)) l) (max_connections o) (next_conid o) = Some i /\
  next_conid o' = i /\ fixed o' = fixed o /\ 0 <= i < max_connections o /\
  if flow then client_ok o' (l ++ [x]) /\ cons o' = <[x := fresh i]> (cons o)
  else client_ok o' l /\ cons o' = cons o.
Proof using Ho Ha Hx Hnew Hroom Hn Hflags.
  unfold connection_init. pose proof (i_num _ _ Ho) as [Hnum _]. rewrite Hnum. ztest. run_simpl.
  destruct (find_conaddr_ok o l a Ho Ha) as (r & -> & Hr). run_simpl.
  destruct r as [y|]; [destruct (proj1 (Hr y) eq_refl) as (c & Hy & Hc & Hca); by destruct (Hnew y c Hy Hc)|].
  rewrite bool_decide_true by done. run_simpl. fold x. set (o1 := malloc_connection m o).
  assert (Hcx : cons o1 !! x = Some (a_con m)) by apply lookup_insert_eq.
  rewrite (con_of_ok _ _ _ Hcx). run_simpl. rewrite (set_con_ok _ _ _ _ Hcx). run_simpl.
  set (c1 := Con a flags data n _ _ _). set (o2 := set_cons _ o1).
  assert (Hc2 : cons o2 = <[x := c1]> (cons o)) by (unfold o2, o1; cbn; by rewrite insert_insert_eq).
  assert (Hii : indexed uint16_comparator (conid_at (cons o2)) (connections_tree_by_conid o2) l).
  { apply (indexed_value _ (conid_at (cons o))).
    - intros y Hy. unfold conid_at. by rewrite Hc2, fresh_lookup.
    - apply indexed_alloc; [done|]. exact (i_ids _ _ Ho). }
  assert (Hids : map (conid_at (cons o2)) l = map (conid_at (cons o)) l).
  { apply list_fmap_ext. intros j y Hj. unfold conid_at. rewrite Hc2, fresh_lookup; [done|]. by eapply list_elem_of_lookup_2. }
  destruct (find_unused_conid_ok o2 l) as (i & Hi & Hib & Hfree & ->).
  { exact (i_max _ _ Ho). } { exact (i_next _ _ Ho). } { exact Hnum. } { exact Hroom. } { exact Hii. }
  run_simpl. rewrite Hids in *. exists i. destruct flow; cbn [negb].
  - pose proof (i_mtu _ _ Ho) as (Hm0 & Hm1 & _). unfold sizeof_udpgw_header, sizeof_udpgw_addr_ipv6 in Hm1.
    change (udpgw_mtu (set_count (num_connections o2) i o2)) with (udpgw_mtu o). unfold BufferWriter_Init. ztest. run_simpl.
    rewrite (set_con_ok _ x c1) by (change (cons o2 !! x = Some c1); rewrite Hc2; apply lookup_insert_eq). run_simpl.
    fold (fresh i). set (o3 := set_cons _ _).
    assert (Hc3 : cons o3 = <[x := fresh i]> (cons o)).
    { unfold o3. change (cons (set_count (num_connections o2) i o2)) with (cons o2). cbn [set_cons cons]. rewrite Hc2. apply insert_insert_eq. }
    destruct (link_new o3 i) as (o' & -> & Hok & Hc' & Hn' & Hf'); try done.
    + apply linked_alloc; [done|]. exact (i_list _ _ Ho).
    + eexists. apply lookup_insert_eq.
    + apply indexed_alloc; [done|]. exact (i_addrs _ _ Ho).
    + eexists. apply lookup_insert_eq.
    + apply indexed_alloc; [done|]. exact (i_ids _ _ Ho).
    + eexists. apply lookup_insert_eq.
    + by exists o'.
  - eexists. split; [done|]. do 4 (split; [done|]).
    assert (Hc3 : delete x (cons o2) = cons o) by (rewrite Hc2; apply delete_insert_id, fresh_absent).
    split; [|exact Hc3]. destruct Ho. split; try done; unfold con_ok;
      cbn [free_connection set_trees set_list set_cons set_count connections_list connections_tree_by_conaddr
           connections_tree_by_conid cons]; fold x; change (cons (set_count (num_connections o2) i o2)) with (cons o2);
      rewrite ?Hc3; try done.
    + apply linked_free; [done|]. by apply linked_alloc.
    + apply indexed_free; [done|]. by apply indexed_alloc.
    + apply indexed_free; [done|]. by apply indexed_alloc.
Qed.
End new_connection.

(** The least recently used connection gets other addresses. *)
Lemma reuse_connection_ok o l x l' a : client_ok o (x :: l') -> l = x :: l' -> conaddr_ok a ->
  (forall y c, y ∈ l -> cons o !! y = Some c -> c_conaddr c <> a) ->
  exists c c' o', cons o !! x = Some c /\ reuse_connection o a = Ret (o', Some x) /\
    abs c' = Session a (s_id (abs c)) (s_first (abs c)) (s_ready (abs c)) /\
    client_ok o' l /\ cons o' = <[x := c']> (cons o) /\ next_conid o' = next_conid o /\ fixed o' = fixed o.
Proof.
  intros Ho -> Ha Hnew. unfold reuse_connection.
  destruct (find_conaddr_ok o _ a Ho Ha) as (r & -> & Hr). run_simpl.
  destruct r as [y|]; [destruct (proj1 (Hr y) eq_refl) as (c & Hy & Hc & Hca); by destruct (Hnew y c Hy Hc)|].
  rewrite bool_decide_true by done. run_simpl. pose proof (i_num _ _ Ho) as [-> _].
  rewrite len_cons. pose proof (len_nonneg l'). ztest. run_simpl.
  destruct (LinkedList1_ends_ok _ _ (i_list _ _ Ho)) as (-> & _). cbn [list.head].
  destruct (i_cons _ _ Ho x ltac:(set_solver)) as (c & Hc & Hok). exists c.
  unfold remove_by_conaddr. destruct (indexed_remove _ _ _ _ x l' (i_addrs _ _ Ho)) as (t & -> & Ht & Hd); [done|]. run_simpl.
  rewrite (con_of_ok _ x c) by done. run_simpl. rewrite (set_con_ok _ x c) by done. run_simpl.
  set (c' := Con a _ _ _ _ _ _). set (o1 := set_cons _ _). exists c'.
  pose proof (client_nodup _ _ Ho) as [Hx Hnd]%list.NoDup_cons.
  assert (Hsame : forall y, y ∈ l' -> <[x := c']> (cons o) !! y = cons o !! y).
  { intros y Hy. apply lookup_insert_ne. by intros ->. }
  assert (Hok' : con_ok o c') by (destruct Hok; by split).
  destruct (insert_by_conaddr_ok o1 l' x) as (t' & -> & Ht').
  { apply (indexed_value _ (conaddr_at (cons o))); [|exact Ht]. intros y Hy. unfold conaddr_at. cbn. by rewrite Hsame. }
  { done. }
  { cbn. apply elem_of_dom. rewrite Hd. apply elem_of_dom. destruct (i_addrs _ _ Ho) as (k & Hk & Hp).
    eapply bavl_dom; [exact Hk|]. rewrite Hp. set_solver. }
  { intros y Hy. cbn. unfold conaddr_at. rewrite lookup_insert_eq, Hsame by done.
    destruct (i_cons _ _ Ho y ltac:(set_solver)) as (cy & Hcy & Hoky). rewrite Hcy.
    cbn [c_conaddr c']. rewrite (conaddr_comparator_0 a _ Ha (k_addr _ _ _ _ Hoky)). intros E. apply (Hnew y cy); [set_solver|done|done]. }
  run_simpl. eexists. do 3 (split; [done|]). split; [|done]. destruct Ho.
  split; try done; unfold con_ok; cbn [set_trees set_cons connections_tree_by_conid connections_tree_by_conaddr cons].
  - eapply indexed_value; [|exact i_ids0]. intros y Hy. unfold conid_at. cbn.
    destruct (decide (y = x)) as [->|Hne]; [by rewrite lookup_insert_eq, Hc|by rewrite lookup_insert_ne].
  - intros y Hy. cbn. destruct (decide (y = x)) as [->|Hne]; [rewrite lookup_insert_eq; by exists c'|rewrite lookup_insert_ne by done; auto].
  - cbn. rewrite dom_insert_L, i_dom0. set_solver.
Qed.

(** Freeing the first connection of the list, and all of them. *)
Lemma connection_free_ok o x l : client_ok o (x :: l) -> exists o',
  connection_free o (Some x) = Ret o' /\ client_ok o' l /\ cons o' = delete x (cons o).
Proof.
  intros Ho. unfold connection_free. cbn [set_count connections_list]. pose proof (client_nodup _ _ Ho) as [Hx Hnd]%list.NoDup_cons.
  destruct (LinkedList1_Remove_ok (connections_list o) [] x l (i_list _ _ Ho)) as (ll & -> & Hll & _). run_simpl.
  unfold remove_by_conid, remove_by_conaddr. cbn [set_count set_list connections_tree_by_conid connections_tree_by_conaddr].
  destruct (indexed_remove _ _ _ _ x l (i_ids _ _ Ho)) as (ti & -> & Hti & _); [done|]. run_simpl.
  cbn [set_trees connections_tree_by_conaddr connections_tree_by_conid].
  destruct (indexed_remove _ _ _ _ x l (i_addrs _ _ Ho)) as (ta & -> & Hta & _); [done|]. run_simpl.
  eexists. split; [done|]. split; [|done]. destruct Ho.
  assert (Hsame : forall y, y ∈ l -> delete x (cons o) !! y = cons o !! y).
  { intros y Hy. apply lookup_delete_ne. by intros ->. }
  rewrite len_cons in i_num0. split; try done; unfold con_ok;
    cbn [free_connection set_trees set_list set_cons set_count connections_list connections_tree_by_conaddr
         connections_tree_by_conid cons num_connections max_connections].
  - by apply linked_free.
  - apply indexed_free; [done|]. eapply indexed_value; [|exact Hta]. intros y Hy. unfold conaddr_at. by rewrite Hsame.
  - apply indexed_free; [done|]. eapply indexed_value; [|exact Hti]. intros y Hy. unfold conid_at. by rewrite Hsame.
  - lia.
  - intros y Hy. rewrite Hsame by done. apply i_cons0. set_solver.
  - rewrite dom_delete_L, i_dom0. rewrite list_to_set_cons. set_solver.
Qed.
Lemma UdpGwClient_Free_ok o l : client_ok o l -> exists o', UdpGwClient_Free o = Ret o' /\ client_ok o' [] /\ cons o' = ∅.
Proof.
  intros Ho. unfold UdpGwClient_Free. pose proof (i_num _ _ Ho) as [-> _]. unfold len. rewrite Nat2Z.id.
  revert o Ho. induction l as [|x l IH]; intros o Ho; cbn [length free_loop];
    destruct (LinkedList1_ends_ok _ _ (i_list _ _ Ho)) as (Hfirst & _ & ->).
  - exists o. split; [done|]. split; [done|]. apply dom_empty_inv_L. by rewrite (i_dom _ _ Ho).
  - rewrite bool_decide_false, Hfirst by done. cbn [list.head].
    destruct (connection_free_ok o x l Ho) as (o1 & -> & Ho1 & _). run_simpl. exact (IH o1 Ho1).
Qed.

Lemma UdpGwClient_Init_ok mtu maxc buffer queue : 0 <= mtu -> 0 <= udpgw_compute_mtu mtu ->
  udpgw_compute_mtu mtu <= PACKETPROTO_MAXPAYLOAD -> 0 < maxc -> 0 < buffer ->
  exists r, UdpGwClient_Init mtu maxc buffer queue = Ret r /\
    match r with
    | None => queue = false
    | Some o => client_ok o [] /\ udp_mtu o = mtu /\ max_connections o = Z.min maxc 65536 /\ next_conid o = 0 /\
        keepalive_sending o = false /\ have_server o = false /\ cons o = ∅
    end.
Proof.
  intros Hm Hg Hgm Hc Hb. unfold UdpGwClient_Init. ztest. run_simpl.
  destruct queue; cbn [negb]; eexists; (split; [done|]); [|done]. unfold UINT16_MAX.
  assert (Hmin : (if 65535 + 1 <? maxc then 65535 + 1 else maxc) = Z.min maxc 65536) by (zcase; lia).
  cbn [udp_mtu max_connections next_conid keepalive_sending have_server cons]. rewrite Hmin. split; [|done].
  pose proof (mtu_ok mtu Hm Hg Hgm) as Hmtu.
  split; cbn [udp_mtu max_connections udpgw_mtu connections_list connections_tree_by_conaddr connections_tree_by_conid
              num_connections next_conid cons]; try done; try lia.
  - apply LinkedList1_Init_ok.
  - exists []. split; [apply BAVL_Init_ok|done].
  - exists []. split; [apply BAVL_Init_ok|done].
  - change (len (@nil positive)) with 0. lia.
  - intros x Hx. by apply not_elem_of_nil in Hx.
Qed.
End operations.
