(* ===== verification/UdpGwProps.v ===== *)
(** * The UDP gateway client refines a list of sessions ([udpgw_client/UdpGwClient.c])

    The abstract client keeps its sessions in a list ordered by use: a packet for
    a known pair of addresses moves its session to the end; a packet for a new
    pair opens a session with the first free identifier or, when all are taken,
    takes over the least recently used one; a reply is handed to the local
    address of the session it names, if it comes from the session's remote
    address. *)
From stdpp Require Import gmap.
From S2P Require Import Prelude Inet Addr Bavl BavlSpec LinkedList1 BufferWriter UdpGw UdpGwSpec.

(** ** The abstract client *)

Record spec := Spec {
  sp_sessions : list (positive * session);
  sp_next : Z;
  sp_keepalive : bool;
  sp_server : bool }.

Fixpoint split_at {A} (P : A -> Prop) `{!forall a, Decision (P a)} (s : list A) : option (list A * A * list A) :=
  match s with
  | [] => None
  | p :: s => if decide (P p) then Some ([], p, s) else
      match split_at P s with Some (s1, q, s2) => Some (p :: s1, q, s2) | None => None end
  end.

(** A packet from the gateway: the identifier, the remote address, the payload. *)
Definition parse_reply (data : bytes) : option (Z * BAddr * bytes) :=
  match data with
  | flags :: i0 :: i1 :: rest =>
      let conid := i0 + 256 * i1 in
      if Z.testbit flags 3 then
        if len rest <? 18 then None
        else Some (conid, BADDR_IPV6 (ztake 16 rest) (of_le (ztake 2 (zdrop 16 rest))), zdrop 18 rest)
      else
        if len rest <? 6 then None
        else Some (conid, BADDR_IPV4 (of_le (ztake 4 rest)) (of_le (ztake 2 (zdrop 4 rest))), zdrop 6 rest)
  | _ => None
  end.

Inductive event : Type :=
  | Submit (new : option allocation) (flow : bool) (local remote : BAddr) (is_dns : bool) (packet : bytes) (data n : Z)
  | FirstJob (x : positive) (packet : bytes)
  | WriterRecv (x : positive) (m : bytes)
  | Receive (data : bytes)
  | DecoderError
  | Monitor
  | KeepaliveDone
  | Connect (decoder : bool)
  | Disconnect.

Section spec.
Context (mtu maxc : Z).
Implicit Types (sp : spec) (s : list (positive * session)).

Definition with_sessions s sp : spec := Spec s (sp_next sp) (sp_keepalive sp) (sp_server sp).

Definition spec_submit sp (new : option allocation) (flow : bool) (a : conaddr) (is_dns : bool) (packet : bytes) (data n : Z) :
    spec * list effect :=
  let flags := if is_dns then UDPGW_CLIENT_FLAG_DNS else 0 in
  let d := ztake n (zdrop data packet) in
  match split_at (fun p : positive * session => s_addr p.2 = a) (sp_sessions sp) with
  | Some (s1, (x, ss), s2) =>
      let '(ss, effs) := emit x ss flags d in (with_sessions (s1 ++ s2 ++ [(x, ss)]) sp, effs)
  | None =>
      if len (sp_sessions sp) =? maxc then
        match sp_sessions sp with
        | [] => (sp, [])
        | (x, ss) :: s =>
            let '(ss, effs) := emit x (Session a (s_id ss) (s_first ss) (s_ready ss)) (Z.lor flags UDPGW_CLIENT_FLAG_REBIND) d in
            (with_sessions (s ++ [(x, ss)]) sp, effs)
        end
      else
        match new, unused_id (map (fun p : positive * session => s_id p.2) (sp_sessions sp)) maxc (sp_next sp) with
        | Some m, Some i =>
            (Spec (sp_sessions sp ++ if flow then [(a_addr m, Session a i (Some (flags, data, n)) false)] else [])
               i (sp_keepalive sp) (sp_server sp), [])
        | _, _ => (sp, [])
        end
  end.

Definition spec_receive sp (data : bytes) : spec * list effect :=
  match parse_reply data with
  | Some (id, remote, d) =>
      match split_at (fun p : positive * session => s_id p.2 = id) (sp_sessions sp) with
      | Some (s1, (x, ss), s2) =>
          if bool_decide (remote_addr (s_addr ss) = remote) && (len d <=? mtu)
          then (with_sessions (s1 ++ s2 ++ [(x, ss)]) sp, [HandlerReceived (local_addr (s_addr ss)) remote d])
          else (sp, [])
      | None => (sp, [])
      end
  | None => (sp, [])
  end.

Definition spec_event sp (e : event) : spec * list effect :=
  match e with
  | Submit new flow local remote is_dns packet data n => spec_submit sp new flow (ConAddr local remote) is_dns packet data n
  | FirstJob x packet =>
      match split_at (fun p : positive * session => p.1 = x) (sp_sessions sp) with
      | Some (s1, (_, Session a i (Some (flags, data, n)) ready), s2) =>
          let '(ss, effs) := emit x (Session a i None ready) (Z.lor UDPGW_CLIENT_FLAG_REBIND flags) (ztake n (zdrop data packet)) in
          (with_sessions (s1 ++ (x, ss) :: s2) sp, effs)
      | _ => (sp, [])
      end
  | WriterRecv x _ =>
      match split_at (fun p : positive * session => p.1 = x) (sp_sessions sp) with
      | Some (s1, (_, Session a i first _), s2) => (with_sessions (s1 ++ (x, Session a i first true) :: s2) sp, [])
      | None => (sp, [])
      end
  | Receive data => spec_receive sp data
  | DecoderError => (sp, [HandlerServerError])
  | Monitor => if sp_keepalive sp then (sp, []) else
      (Spec (sp_sessions sp) (sp_next sp) true (sp_server sp), [SendKeepalive [3; 0; 1; 0; 0]])
  | KeepaliveDone => (Spec (sp_sessions sp) (sp_next sp) false (sp_server sp), [])
  | Connect decoder => (Spec (sp_sessions sp) (sp_next sp) (sp_keepalive sp) (if decoder then true else sp_server sp), [])
  | Disconnect => (Spec (sp_sessions sp) (sp_next sp) (sp_keepalive sp) false, [])
  end.

(** What the surroundings of the client promise, in a state. *)
Definition session_of sp (x : positive) (P : session -> Prop) : Prop := exists ss, (x, ss) ∈ sp_sessions sp /\ P ss.
Definition allowed sp (e : event) : Prop :=
  match e with
  | Submit new _ local remote _ packet data n =>
      conaddr_ok (ConAddr local remote) /\ 0 <= n <= mtu /\ 0 <= data /\ data + n <= len packet /\
      forall m, new = Some m -> a_addr m ∉ map fst (sp_sessions sp)
  | FirstJob x packet => session_of sp x (fun ss =>
      forall flags data n, s_first ss = Some (flags, data, n) -> 0 <= data /\ data + n <= len packet)
  | WriterRecv x m => session_of sp x (fun ss => s_ready ss = false) /\
      len m = sizeof_udpgw_header + sizeof_udpgw_addr_ipv6 + mtu
  | Receive data => sp_server sp = true /\ bytes_ok data /\ len data <= sizeof_udpgw_header + sizeof_udpgw_addr_ipv6 + mtu
  | DecoderError | Disconnect => sp_server sp = true
  | Monitor => True
  | KeepaliveDone => sp_keepalive sp = true
  | Connect _ => sp_server sp = false
  end.

Fixpoint spec_run sp (es : list event) : spec * list effect :=
  match es with
  | [] => (sp, [])
  | e :: es => let '(sp, effs) := spec_event sp e in let '(sp, effs') := spec_run sp es in (sp, effs ++ effs')
  end.
Fixpoint allowed_run sp (es : list event) : Prop :=
  match es with [] => True | e :: es => allowed sp e /\ allowed_run (spec_event sp e).1 es end.
End spec.

(** ** The same events on the client *)

Definition exec_event (o : UdpGwClient) (e : event) : run (UdpGwClient * list effect) :=
  match e with
  | Submit new flow local remote is_dns packet data n => UdpGwClient_SubmitPacket o new flow local remote is_dns packet data n
  | FirstJob x packet => run_first_job o (Some x) packet
  | WriterRecv x m => o ← writer_recv o (Some x) m; Ret (o, [])
  | Receive data => '(effs, o) ← recv_interface_handler_send o data; Ret (o, effs)
  | DecoderError => decoder_handler_error o
  | Monitor => Ret (send_monitor_handler o)
  | KeepaliveDone => o ← keepalive_if_handler_done o; Ret (o, [])
  | Connect decoder => '(o, _) ← UdpGwClient_ConnectServer o decoder; Ret (o, [])
  | Disconnect => o ← UdpGwClient_DisconnectServer o; Ret (o, [])
  end.
Fixpoint exec_run (o : UdpGwClient) (es : list event) : run (UdpGwClient * list effect) :=
  match es with
  | [] => Ret (o, [])
  | e :: es => '(o, effs) ← exec_event o e; '(o, effs') ← exec_run o es; Ret (o, effs ++ effs')
  end.

(** ** The refinement *)

Section refinement.
Context (mtu maxc : Z).
Implicit Types (o : UdpGwClient) (sp : spec) (l : list positive).

(** The client [o] implements the sessions [sp]. *)
Definition implements o sp : Prop := exists l,
  client_ok o l /\ udp_mtu o = mtu /\ max_connections o = maxc /\
  sp = Spec (view (cons o) l) (next_conid o) (keepalive_sending o) (have_server o).

Lemma split_at_some {A} (P : A -> Prop) `{!forall a, Decision (P a)} s1 p s2 :
  (forall q, q ∈ s1 -> ~ P q) -> P p -> split_at P (s1 ++ p :: s2) = Some (s1, p, s2).
Proof.
  intros Hs1 Hp. induction s1 as [|q s1 IH]; cbn [app split_at]; [by rewrite decide_True|].
  rewrite decide_False by (apply Hs1; set_solver). rewrite IH; [done|]. intros q' Hq'. apply Hs1. set_solver.
Qed.
Lemma split_at_none {A} (P : A -> Prop) `{!forall a, Decision (P a)} s : (forall q, q ∈ s -> ~ P q) -> split_at P s = None.
Proof.
  intros Hs. induction s as [|q s IH]; cbn [split_at]; [done|]. rewrite decide_False by (apply Hs; set_solver).
  rewrite IH; [done|]. intros q' Hq'. apply Hs. set_solver.
Qed.
(** Finding the one session with a property. *)
Lemma split_view o l (P : positive * session -> Prop) `{!forall p, Decision (P p)} l1 x l2 c :
  client_ok o l -> l = l1 ++ x :: l2 -> cons o !! x = Some c -> P (x, abs c) ->
  (forall y cy, y ∈ l -> cons o !! y = Some cy -> P (y, abs cy) -> y = x) ->
  split_at P (view (cons o) l) = Some (view (cons o) l1, (x, abs c), view (cons o) l2).
Proof.
  intros Ho -> Hc HP Huniq. pose proof (client_nodup _ _ Ho) as (_ & Hd & _)%list.NoDup_app.
  rewrite view_app. cbn [view map]. rewrite (abs_at_some _ _ _ Hc). apply split_at_some; [|done].
  intros q (y & -> & Hy)%list_elem_of_fmap. destruct (i_cons _ _ Ho y ltac:(set_solver)) as (cy & Hcy & _).
  rewrite (abs_at_some _ _ _ Hcy). intros HPy. assert (y = x) as -> by (eapply Huniq; [set_solver|done|done]).
  apply (Hd x Hy). set_solver.
Qed.
Lemma split_view_none o l (P : positive * session -> Prop) `{!forall p, Decision (P p)} : client_ok o l ->
  (forall y cy, y ∈ l -> cons o !! y = Some cy -> ~ P (y, abs cy)) -> split_at P (view (cons o) l) = None.
Proof.
  intros Ho Hno. apply split_at_none. intros q (y & -> & Hy)%list_elem_of_fmap.
  destruct (i_cons _ _ Ho y Hy) as (cy & Hcy & _). rewrite (abs_at_some _ _ _ Hcy). eauto.
Qed.

Lemma rd_ztake (packet : bytes) data n : 0 <= n -> 0 <= data -> data + n <= len packet ->
  rd_range packet data n = Ret (ztake n (zdrop data packet)) /\ len (ztake n (zdrop data packet)) = n.
Proof. intros. rewrite rd_range_ok by lia. split; [done|]. rewrite len_ztake; [done|]. rewrite len_zdrop; lia. Qed.

(** Moving a connection to the end of the list and sending on it. *)
Lemma touch_send_ok o l1 x l2 c flags packet data n : client_ok o (l1 ++ x :: l2) -> cons o !! x = Some c ->
  0 <= n <= udp_mtu o -> 0 <= data -> data + n <= len packet ->
  exists ss effs o', (o1 ← touch o (Some x); connection_send o1 (Some x) flags packet data n) = Ret (o', effs) /\
    emit x (abs c) flags (ztake n (zdrop data packet)) = (ss, effs) /\ client_ok o' (l1 ++ l2 ++ [x]) /\
    view (cons o') (l1 ++ l2 ++ [x]) = view (cons o) l1 ++ view (cons o) l2 ++ [(x, ss)] /\
    next_conid o' = next_conid o /\ fixed o' = fixed o.
Proof.
  intros Ho Hc Hn Hd Hdn. pose proof (client_nodup _ _ Ho) as Hnd.
  destruct (touch_ok o _ x Ho ltac:(set_solver)) as (o1 & -> & Ho1 & Hc1 & Hn1 & Hf1). run_simpl.
  unfold without in Ho1. rewrite filter_ne, <- app_assoc in Ho1 by done.
  destruct (rd_ztake packet data n) as [Hrd Hl]; [lia..|]. rewrite <- Hc1 in Hc.
  assert (Hm1 : udp_mtu o1 = udp_mtu o) by (by rewrite Hf1).
  destruct (connection_send_ok o1 _ x c flags packet data n _ Ho1 ltac:(set_solver) Hc ltac:(lia) Hrd Hl) as (c' & effs & -> & He & Ho').
  exists (abs c'), effs, (set_cons (<[x := c']> (cons o1)) o1). do 3 (split; [done|]). split; [|split; [done|by rewrite Hf1]].
  apply list.NoDup_app in Hnd as (_ & H1 & [H2 _]%list.NoDup_cons). cbn [set_cons cons]. rewrite Hc1, app_assoc.
  rewrite view_insert; [by rewrite view_app, <- app_assoc| |set_solver].
  rewrite not_elem_of_app. split; [|done]. intros Hx. apply (H1 x Hx). set_solver.
Qed.

Lemma implements_intro o o' l sp : client_ok o' l -> fixed o' = fixed o -> udp_mtu o = mtu -> max_connections o = maxc ->
  sp = Spec (view (cons o') l) (next_conid o') (keepalive_sending o) (have_server o) -> implements o' sp.
Proof.
  intros Ho' Hf Hm Hc ->. unfold fixed in Hf. exists l. split; [done|].
  injection Hf as H1 H2 H3 H4 H5 H6. by rewrite H1, H2, H5, H6.
Qed.

(** The three ways of a submitted packet. *)
Section submit.
Context (o : UdpGwClient) (l : list positive) (a : conaddr) (flags : Z) (packet : bytes) (data n : Z).
Context (Ho : client_ok o l) (Hmtu : udp_mtu o = mtu) (Hmax : max_connections o = maxc) (Ha : conaddr_ok a).
Context (Hn : 0 <= n <= mtu) (Hd : 0 <= data) (Hdn : data + n <= len packet) (Hflags : 0 <= flags < 256).
Let sp : spec := Spec (view (cons o) l) (next_conid o) (keepalive_sending o) (have_server o).
Let d : bytes := ztake n (zdrop data packet).

Lemma submit_known x c : x ∈ l -> cons o !! x = Some c -> c_conaddr c = a -> exists s1 s2 ss effs o',
  split_at (fun p : positive * session => s_addr p.2 = a) (view (cons o) l) = Some (s1, (x, abs c), s2) /\
  (o1 ← touch o (Some x); connection_send o1 (Some x) flags packet data n) = Ret (o', effs) /\
  emit x (abs c) flags d = (ss, effs) /\ implements o' (with_sessions (s1 ++ s2 ++ [(x, ss)]) sp).
Proof using Ho Hmtu Hmax Ha Hn Hd Hdn Hflags.
  intros Hx Hc Hca. pose proof Ho as Ho0. apply list_elem_of_split in Hx as (l1 & l2 & E). rewrite E in Ho0.
  destruct (touch_send_ok o l1 x l2 c flags packet data n Ho0 Hc) as (ss & effs & o' & He & Hem & Ho' & Hv & Hn' & Hf'); [lia..|].
  exists (view (cons o) l1), (view (cons o) l2), ss, effs, o'. split; [|split; [done|split; [done|]]].
  - apply (split_view o l (fun p => s_addr p.2 = a) l1 x l2 c Ho E Hc Hca). intros y cy Hy Hcy HP.
    apply (conaddr_inj o l y x cy c); try done; [rewrite E; set_solver|by transitivity a].
  - eapply (implements_intro o); [exact Ho'|done..|]. by rewrite Hv, Hn'.
Qed.

Hypothesis Hno : forall y cy, y ∈ l -> cons o !! y = Some cy -> c_conaddr cy <> a.

Lemma submit_reuse : len l = maxc -> exists x ss0 s ss effs o1 o',
  view (cons o) l = (x, ss0) :: s /\ reuse_connection o a = Ret (o1, Some x) /\
  (o2 ← touch o1 (Some x); connection_send o2 (Some x) (Z.lor flags UDPGW_CLIENT_FLAG_REBIND) packet data n) = Ret (o', effs) /\
  emit x (Session a (s_id ss0) (s_first ss0) (s_ready ss0)) (Z.lor flags UDPGW_CLIENT_FLAG_REBIND) d = (ss, effs) /\
  implements o' (with_sessions (s ++ [(x, ss)]) sp).
Proof using Ho Hmtu Hmax Ha Hn Hd Hdn Hflags Hno.
  intros Hfull. destruct l as [|x l'] eqn:El.
  { pose proof (i_max _ _ Ho). change (len (@nil positive)) with 0 in *. lia. }
  destruct (reuse_connection_ok o (x :: l') x l' a Ho eq_refl Ha Hno) as (c & c' & o1 & Hc & Hre & Habs & Ho1 & Hc1 & Hn1 & Hf1).
  assert (Hm1 : udp_mtu o1 = udp_mtu o) by (unfold fixed in Hf1; congruence).
  destruct (touch_send_ok o1 [] x l' c' (Z.lor flags UDPGW_CLIENT_FLAG_REBIND) packet data n Ho1)
    as (ss & effs & o' & He & Hem & Ho' & Hv & Hn' & Hf'); [rewrite Hc1; apply lookup_insert_eq|lia..|].
  exists x, (abs c), (view (cons o) l'), ss, effs, o1, o'. cbn [view map]. rewrite (abs_at_some _ _ _ Hc), <- Habs.
  do 4 (split; [done|]). eapply (implements_intro o); [exact Ho'|by rewrite Hf'|done..|].
  cbn [app view map] in Hv. unfold with_sessions. rewrite Hn', Hn1. f_equal. etransitivity; [|symmetry; exact Hv]. f_equal.
  symmetry. apply (view_ext (cons o) (cons o1) l'). intros y Hy. rewrite Hc1. apply lookup_insert_ne. intros <-.
  by apply client_nodup, list.NoDup_cons in Ho as [].
Qed.

Lemma submit_new m flow : a_addr m ∉ l -> len l < maxc -> exists i o',
  connection_init o (Some m) flow a flags data n = Ret o' /\
  unused_id (map (fun p : positive * session => s_id p.2) (view (cons o) l)) maxc (next_conid o) = Some i /\
  implements o' (Spec (view (cons o) l ++ if flow then [(a_addr m, Session a i (Some (flags, data, n)) false)] else [])
                   i (keepalive_sending o) (have_server o)).
Proof using Ho Hmtu Hmax Ha Hn Hd Hdn Hflags Hno.
  intros Hx Hroom.
  assert (Hids : map (fun p : positive * session => s_id p.2) (view (cons o) l) = map (conid_at (cons o)) l).
  { unfold view. rewrite map_map. apply list_fmap_ext. intros j y Hy%list_elem_of_lookup_2. cbn.
    destruct (i_cons _ _ Ho y Hy) as (cy & Hcy & _). by rewrite (abs_at_some _ _ _ Hcy), (conid_at_some _ _ _ Hcy). }
  destruct (connection_init_ok o l m a flags data n Ho Ha Hx Hno) with (flow := flow)
    as (i & o' & -> & Hi & Hn' & Hf' & Hib & Hres); [lia|lia|done|].
  exists i, o'. split; [done|]. rewrite Hids, <- Hmax. split; [done|]. destruct flow; destruct Hres as [Ho' Hc'].
  - eapply (implements_intro o); [exact Ho'|done..|]. rewrite Hn', view_app. f_equal. f_equal.
    + symmetry. apply view_ext. intros y Hy. rewrite Hc'. apply lookup_insert_ne. intros <-. done.
    + cbn [view map]. by rewrite (abs_at_some (cons o') (a_addr m) (fresh o a flags data n i)) by (rewrite Hc'; apply lookup_insert_eq).
  - eapply (implements_intro o); [exact Ho'|done..|]. by rewrite Hn', Hc', app_nil_r.
Qed.
End submit.

Lemma is_ip_test b : is_ip b -> (BAddr_type b =? BADDR_TYPE_IPV4) || (BAddr_type b =? BADDR_TYPE_IPV6) = true.
Proof. intros [-> | ->]; done. Qed.

Lemma SubmitPacket_ok o sp new flow local remote is_dns packet data n :
  implements o sp -> allowed mtu sp (Submit new flow local remote is_dns packet data n) ->
  exists o', UdpGwClient_SubmitPacket o new flow local remote is_dns packet data n =
      Ret (o', (spec_submit maxc sp new flow (ConAddr local remote) is_dns packet data n).2) /\
    implements o' (spec_submit maxc sp new flow (ConAddr local remote) is_dns packet data n).1.
Proof.
  intros (l & Ho & Hmtu & Hmax & ->) (Ha & Hn & Hd & Hdn & Hnew).
  unfold UdpGwClient_SubmitPacket, spec_submit. cbn [sp_sessions sp_next sp_keepalive sp_server].
  rewrite (is_ip_test local), (is_ip_test remote) by apply Ha. rewrite Hmtu. ztest. run_simpl.
  set (a := ConAddr local remote) in *. destruct (find_conaddr_ok o l a Ho Ha) as (r & -> & Hr). run_simpl.
  replace (if is_dns then Z.lor 0 UDPGW_CLIENT_FLAG_DNS else 0) with (if is_dns then UDPGW_CLIENT_FLAG_DNS else 0) by (by destruct is_dns).
  set (flags := if is_dns then UDPGW_CLIENT_FLAG_DNS else 0). assert (Hflags : 0 <= flags < 256) by (by destruct is_dns; vm_compute).
  destruct r as [x|].
  - destruct (proj1 (Hr x) eq_refl) as (c & Hx & Hc & Hca). rewrite bool_decide_false by done. cbn [andb]. run_simpl.
    destruct (submit_known o l a flags packet data n Ho Hmtu Hmax Ha Hn Hd Hdn Hflags x c Hx Hc Hca) as (s1 & s2 & ss & effs & o' & -> & -> & -> & Hi).
    by exists o'.
  - rewrite bool_decide_true by done. cbn [andb].
    assert (Hno : forall y cy, y ∈ l -> cons o !! y = Some cy -> c_conaddr cy <> a).
    { intros y cy Hy Hcy HP. assert (Hsome : None = Some y) by (apply Hr; by exists cy). done. }
    rewrite (split_view_none o l) by done. pose proof (i_num _ _ Ho) as [-> Hle].
    assert (Hlv : len (view (cons o) l) = len l) by (unfold view, len; by rewrite length_map). rewrite Hlv, Hmax. zcase.
    + destruct (submit_reuse o l a flags packet data n Ho Hmtu Hmax Ha Hn Hd Hdn Hflags Hno e)
        as (x & ss0 & s & ss & effs & o1 & o' & -> & -> & He & -> & Hi). run_simpl. rewrite He. by exists o'.
    + run_simpl. destruct new as [m|].
      * assert (Hx : a_addr m ∉ l).
        { pose proof (Hnew m eq_refl) as Hx. unfold view in Hx. cbn [sp_sessions] in Hx. rewrite map_map in Hx. by rewrite map_id in Hx. }
        destruct (submit_new o l a flags packet data n Ho Hmtu Hmax Ha Hn Hd Hdn Hflags Hno m flow Hx) as (i & o' & -> & -> & Hi); [lia|].
        by exists o'.
      * exists o. unfold connection_init. pose proof (i_num _ _ Ho) as [-> _]. rewrite Hmax. ztest. run_simpl.
        destruct (find_conaddr_ok o l a Ho Ha) as (r & -> & Hr'). run_simpl.
        destruct r as [y|]; [destruct (proj1 (Hr' y) eq_refl) as (c & Hy & Hc & Hca); by destruct (Hno y c Hy Hc)|].
        rewrite bool_decide_true by done. run_simpl. split; [done|]. by exists l.
Qed.

(** ** Replies *)

Lemma flag_ipv6 flags : negb (Z.land flags UDPGW_CLIENT_FLAG_IPV6 =? 0) = Z.testbit flags 3.
Proof.
  change UDPGW_CLIENT_FLAG_IPV6 with (2 ^ 3). destruct (Z.testbit flags 3) eqn:E; zcase; try done; exfalso.
  - assert (Hb : Z.testbit (Z.land flags (2 ^ 3)) 3 = false) by (by rewrite e). by rewrite Z.land_spec, E in Hb.
  - apply n. apply Z.bits_inj'. intros i Hi. rewrite Z.land_spec, Z.bits_0, Z.pow2_bits_eqb by lia.
    zcase; [subst; by rewrite E|]. by rewrite andb_false_r.
Qed.

(** The header and the address, as the handler takes them apart. *)
Definition received o (data : bytes) (id : Z) (remote : BAddr) (pos : Z) : run (list effect * UdpGwClient) :=
  if len data - pos >? udp_mtu o then Ret ([], o) else
  p ← find_connection_by_conid o id;
  match p with
  | None => Ret ([], o)
  | Some _ =>
      c ← con_of o p;
      if negb (BAddr_CompareOrder (remote_addr (c_conaddr c)) remote =? 0) then Ret ([], o) else
      o ← touch o p;
      d ← rd_range data pos (len data - pos);
      Ret ([HandlerReceived (local_addr (c_conaddr c)) (remote_addr (c_conaddr c)) d], o)
  end.
Lemma slice_of_prefix (l : bytes) a b k : 0 <= a -> 0 <= b -> a + b <= k -> ztake b (zdrop a (ztake k l)) = ztake b (zdrop a l).
Proof.
  intros. unfold ztake, zdrop. rewrite !firstn_skipn_comm. rewrite take_take. do 2 f_equal. lia.
Qed.
(** Reading an address of [k] bytes and a port at the front of [rest]. *)
Lemma read_addr {A} (hd rest : bytes) k pos n (f : bytes -> bytes -> run A) : pos = len hd -> n = k + 2 ->
  0 <= k -> k + 2 <= len rest ->
  (a ← rd_range (hd ++ rest) pos n; ip ← rd_range a 0 k; port ← rd_range a k 2; f ip port) =
  f (ztake k rest) (ztake 2 (zdrop k rest)).
Proof.
  intros -> -> Hk Hl. pose proof (len_nonneg hd). rewrite rd_range_ok by (rewrite ?len_app; lia). run_simpl.
  rewrite zdrop_app_exact by done. assert (Hlen : len (ztake (k + 2) rest) = k + 2) by (apply len_ztake; lia).
  rewrite rd_range_front, rd_range_ok by lia. run_simpl. rewrite slice_of_prefix by lia.
  rewrite ztake_ztake. by rewrite Z.min_l by lia.
Qed.
Lemma port_bound (rest : bytes) k : bytes_ok rest -> 0 <= k -> k + 2 <= len rest -> 0 <= of_le (ztake 2 (zdrop k rest)) < 65536.
Proof.
  intros Hb Hk Hl. assert (Hs : bytes_ok (ztake 2 (zdrop k rest))) by (by apply Forall_take, Forall_drop).
  pose proof (of_le_bound _ Hs) as Hof. rewrite len_ztake in Hof by (rewrite len_zdrop; lia). exact Hof.
Qed.

Lemma handler_parse o data : have_server o = true -> len data <= udpgw_mtu o -> bytes_ok data ->
  udpgw_mtu o <= PACKETPROTO_MAXPAYLOAD ->
  match parse_reply data with
  | None => recv_interface_handler_send o data = Ret ([], o)
  | Some (id, remote, d) => exists pos, recv_interface_handler_send o data = received o data id remote pos /\
      0 <= pos <= len data /\ d = zdrop pos data /\ baddr_ok remote
  end.
Proof.
  intros Hs Hl Hb Hm. unfold recv_interface_handler_send, parse_reply, sizeof_udpgw_header, PACKETPROTO_MAXPAYLOAD in *.
  rewrite Hs. ztest. run_simpl. destruct data as [|flags [|i0 [|i1 rest]]]; [done|done|done|].
  rewrite !len_cons in *. pose proof (len_nonneg rest). ztest.
  rewrite (rd_range_front (flags :: i0 :: i1 :: rest) 3) by (rewrite !len_cons; lia). run_simpl.
  change (ztake 3 (flags :: i0 :: i1 :: rest)) with [flags; i0; i1].
  change (rd [flags; i0; i1] 0) with (Ret flags). change (rd_range [flags; i0; i1] 1 2) with (Ret [i0; i1]). run_simpl.
  rewrite flag_ipv6. cbn [of_le]. rewrite Z.mul_0_r, Z.add_0_r.
  assert (Hsz : to_size_t (1 + (1 + (1 + len rest)) - 3) = len rest) by (unfold to_size_t; rewrite Z.mod_small; lia).
  rewrite Hsz. do 3 apply Forall_inv_tail in Hb.
  change (flags :: i0 :: i1 :: rest) with ([flags; i0; i1] ++ rest) in *. set (hd := [flags; i0; i1]) in *.
  assert (Hz : forall n, 0 <= n -> zdrop n rest = zdrop (3 + n) (hd ++ rest)).
  { intros n Hn. rewrite zdrop_app_r by (change (len hd) with 3; lia). change (len hd) with 3. f_equal. lia. }
  destruct (Z.testbit flags 3); unfold sizeof_udpgw_addr_ipv4, sizeof_udpgw_addr_ipv6; (zcase; [done|]).
  - exists 21. rewrite (read_addr hd rest 16 3 18) by (done || lia).
    unfold BAddr_InitIPv6, BAddr_MakeIPv6. assert (Hl16 : len (ztake 16 rest) = 16) by (apply len_ztake; lia).
    rewrite rd_range_front, (ztake_all 16 (ztake 16 rest)) by lia. run_simpl.
    split; [|split; [lia|split; [by apply Hz|]]].
    + unfold received. rewrite !len_app. change (len hd) with 3. by replace (1 + (1 + (1 + len rest)) - 3 - 18) with (3 + len rest - 21) by lia.
    + split; [by apply Forall_take|]. split; [done|]. apply port_bound; [done|lia..].
  - exists 9. rewrite (read_addr hd rest 4 3 6) by (done || lia). run_simpl.
    split; [|split; [lia|split; [by apply Hz|]]].
    + unfold received. rewrite !len_app. change (len hd) with 3. by replace (1 + (1 + (1 + len rest)) - 3 - 6) with (3 + len rest - 9) by lia.
    + split; [|apply port_bound; [done|lia..]]. assert (Hs4 : bytes_ok (ztake 4 rest)) by (by apply Forall_take).
      pose proof (of_le_bound _ Hs4) as Hof. rewrite len_ztake in Hof by lia. exact Hof.
Qed.

Lemma receive_ok o sp data : implements o sp -> allowed mtu sp (Receive data) ->
  exists o', exec_event o (Receive data) = Ret (o', (spec_receive mtu sp data).2) /\ implements o' (spec_receive mtu sp data).1.
Proof.
  intros (l & Ho & Hmtu & Hmax & ->) (Hs & Hb & Hl). cbn [sp_server] in Hs. cbn [exec_event].
  pose proof (i_mtu _ _ Ho) as (_ & Hpm & Hpm').
  assert (Hl' : len data <= udpgw_mtu o) by (rewrite Hpm, Hmtu; exact Hl).
  pose proof (handler_parse o data Hs Hl' Hb Hpm') as Hp. unfold spec_receive. cbn [sp_sessions].
  assert (Hsame : implements o (Spec (view (cons o) l) (next_conid o) (keepalive_sending o) (have_server o))) by (by exists l).
  destruct (parse_reply data) as [[[id remote] d]|]; [|rewrite Hp; run_simpl; by exists o].
  destruct Hp as (pos & -> & Hpos & -> & Hremote). unfold received. rewrite Hmtu, len_zdrop by lia.
  rewrite Z.gtb_ltb. destruct (Z.ltb_spec mtu (len data - pos)) as [Hbig|Hfits].
  { run_simpl. exists o. destruct (split_at _ _) as [[[s1 [x ss]] s2]|]; [|done]. ztest. by rewrite andb_false_r. }
  destruct (find_conid_ok o l id Ho) as (r & -> & Hr). run_simpl. destruct r as [x|].
  - destruct (proj1 (Hr x) eq_refl) as (c & Hx & Hc & Hci). rewrite (con_of_ok _ _ _ Hc). run_simpl.
    pose proof Hx as Hx'. apply list_elem_of_split in Hx' as (l1 & l2 & El).
    rewrite (split_view o l (fun p => s_id p.2 = id) l1 x l2 c Ho El Hc Hci).
    2: { intros y cy Hy Hcy HP. apply (conid_inj o l y x cy c); try done. by transitivity id. }
    destruct (i_cons _ _ Ho x Hx) as (c' & Hc' & Hok). rewrite Hc in Hc'. injection Hc' as <-.
    pose proof (k_addr _ _ _ _ Hok) as (_ & _ & Hrb & _). cbn [abs s_addr].
    pose proof (BAddr_CompareOrder_0 (remote_addr (c_conaddr c)) remote Hrb Hremote) as Heq. ztest. rewrite andb_true_r.
    destruct (Z.eqb_spec (BAddr_CompareOrder (remote_addr (c_conaddr c)) remote) 0) as [E|E]; cbn [negb].
    + apply Heq in E. rewrite bool_decide_true by done. destruct (touch_ok o l x Ho Hx) as (o' & -> & Ho' & Hco' & Hn' & Hf').
      run_simpl. rewrite rd_range_ok by lia. run_simpl. rewrite ztake_all by (rewrite len_zdrop; lia). rewrite E.
      exists o'. split; [done|]. eapply (implements_intro o); [exact Ho'|by rewrite Hf'|done..|].
      pose proof (client_nodup _ _ Ho) as Hnd. rewrite El in *. unfold without. rewrite filter_ne, Hn', Hco' by done.
      unfold with_sessions. rewrite <- app_assoc, !view_app. cbn [view map]. by rewrite (abs_at_some _ _ _ Hc).
    + rewrite bool_decide_false by (intros Hrem; by apply E, Heq). run_simpl. by exists o.
  - rewrite (split_view_none o l); [run_simpl; by exists o|done|]. intros y cy Hy Hcy HP.
    assert (Hsome : None = Some y) by (apply Hr; by exists cy). done.
Qed.

(** ** Every event *)

(** An event of one connection. *)
Lemma session_at o l x P : client_ok o l ->
  session_of (Spec (view (cons o) l) (next_conid o) (keepalive_sending o) (have_server o)) x P ->
  exists l1 l2 c, l = l1 ++ x :: l2 /\ x ∈ l /\ cons o !! x = Some c /\ P (abs c) /\
    split_at (fun p : positive * session => p.1 = x) (view (cons o) l) = Some (view (cons o) l1, (x, abs c), view (cons o) l2) /\
    forall c', view (<[x := c']> (cons o)) l = view (cons o) l1 ++ (x, abs c') :: view (cons o) l2.
Proof.
  intros Ho (ss & Hin & HP). cbn [sp_sessions] in Hin. apply list_elem_of_fmap in Hin as (y & [= <- ->] & Hx).
  destruct (i_cons _ _ Ho x Hx) as (c & Hc & _). rewrite (abs_at_some _ _ _ Hc) in HP.
  destruct (client_split o l x Ho Hx) as (l1 & l2 & El & H1 & H2 & _). exists l1, l2, c. do 4 (split; [done|]). split.
  - by apply (split_view o l (fun p => p.1 = x) l1 x l2 c).
  - intros c'. rewrite El. by apply view_insert.
Qed.

Lemma exec_event_ok o sp e : implements o sp -> allowed mtu sp e ->
  exists o', exec_event o e = Ret (o', (spec_event mtu maxc sp e).2) /\ implements o' (spec_event mtu maxc sp e).1.
Proof.
  intros Hi Hal. destruct e as [new flow local remote is_dns packet data n|x packet|x m|data| | | |decoder| ].
  - by apply SubmitPacket_ok.
  - destruct Hi as (l & Ho & Hmtu & Hmax & ->). cbn [exec_event spec_event sp_sessions].
    destruct (session_at o l x _ Ho Hal) as (l1 & l2 & c & El & Hx & Hc & Hfirst & -> & Hv).
    destruct (i_cons _ _ Ho x Hx) as (c0 & Hc0 & Hok). rewrite Hc in Hc0. injection Hc0 as <-.
    destruct (run_first_job_ok o l x c packet (ztake (first_data_len c) (zdrop (first_data c) packet)) Ho Hx Hc)
      as (c' & effs & -> & Ho' & Hres).
    { intros Hj. cbn [abs s_first] in Hfirst. rewrite Hj in Hfirst. destruct (Hfirst _ _ _ eq_refl) as [Hd Hdn].
      pose proof (k_first _ _ _ _ Hok). apply rd_ztake; lia. }
    eexists. assert (Ea : abs c = Session (c_conaddr c) (c_conid c) (s_first (abs c)) (out_have (send_if c))) by done.
    rewrite Ea. cbn [abs s_first] in *. destruct (first_job c) eqn:Hj; cbn [s_first] in *.
    + change (s_addr (abs c)) with (c_conaddr c) in Hres. change (s_id (abs c)) with (c_conid c) in Hres.
      change (s_ready (abs c)) with (out_have (send_if c)) in Hres. rewrite Hres. split; [done|].
      eapply (implements_intro o); [exact Ho'|done..|]. cbn [set_cons cons]. by rewrite Hv.
    + destruct Hres as [Habs ->]. split; [done|]. eapply (implements_intro o); [exact Ho'|done..|].
      cbn [set_cons cons fst]. rewrite Hv, Habs. rewrite El at 1. rewrite view_app. cbn [view map]. by rewrite (abs_at_some _ _ _ Hc).
  - destruct Hi as (l & Ho & Hmtu & Hmax & ->). destruct Hal as [Hs Hm]. cbn [exec_event spec_event sp_sessions].
    destruct (session_at o l x _ Ho Hs) as (l1 & l2 & c & El & Hx & Hc & Hrdy & -> & Hv).
    pose proof (i_mtu _ _ Ho) as (_ & Hpm & _).
    destruct (writer_recv_ok o l x c m Ho Hx Hc Hrdy) as (c' & -> & Ho' & Habs); [by rewrite Hpm, Hmtu|].
    run_simpl. eexists. split; [done|]. eapply (implements_intro o); [exact Ho'|done..|].
    cbn [set_cons cons fst]. rewrite Hv, Habs. done.
  - by apply receive_ok.
  - destruct Hi as (l & Ho & Hmtu & Hmax & ->). cbn in *. unfold decoder_handler_error. rewrite Hal. run_simpl.
    exists o. split; [done|]. exists l. by rewrite Hal.
  - destruct Hi as (l & Ho & Hmtu & Hmax & ->). cbn in *. unfold send_monitor_handler.
    destruct (keepalive_sending o) eqn:Hk; eexists; (split; [done|]); exists l; (split; [by destruct Ho|]); by rewrite ?Hk.
  - destruct Hi as (l & Ho & Hmtu & Hmax & ->). cbn in *. unfold keepalive_if_handler_done. rewrite Hal. run_simpl.
    eexists. split; [done|]. exists l. split; [by destruct Ho|done].
  - destruct Hi as (l & Ho & Hmtu & Hmax & ->). cbn in *. unfold UdpGwClient_ConnectServer. rewrite Hal. cbn [negb]. run_simpl.
    destruct decoder; cbn [negb]; run_simpl; eexists; (split; [done|]); exists l; (split; [by destruct Ho|]); by rewrite ?Hal.
  - destruct Hi as (l & Ho & Hmtu & Hmax & ->). cbn in *. unfold UdpGwClient_DisconnectServer. rewrite Hal. run_simpl.
    eexists. split; [done|]. exists l. split; [by destruct Ho|done].
Qed.

Lemma exec_events_ok es : forall o sp, implements o sp -> allowed_run mtu maxc sp es ->
  exists o', exec_run o es = Ret (o', (spec_run mtu maxc sp es).2) /\ implements o' (spec_run mtu maxc sp es).1.
Proof.
  induction es as [|e es IH]; intros o sp Hi; cbn [allowed_run spec_run exec_run]; [by exists o|]. intros [He Hes].
  destruct (exec_event_ok o sp e Hi He) as (o1 & -> & Hi1). run_simpl.
  destruct (spec_event mtu maxc sp e) as [sp1 effs]. cbn [fst snd] in *. destruct (IH o1 sp1 Hi1 Hes) as (o' & -> & Hi').
  run_simpl. destruct (spec_run mtu maxc sp1 es) as [sp2 effs']. by exists o'.
Qed.

(** The sessions of a client are told apart by identifier and by addresses. *)
Definition sessions_ok sp : Prop :=
  len (sp_sessions sp) <= maxc /\ NoDup (map (fun p : positive * session => s_id p.2) (sp_sessions sp)) /\
  NoDup (map (fun p : positive * session => s_addr p.2) (sp_sessions sp)) /\
  forall p, p ∈ sp_sessions sp -> 0 <= s_id p.2 < maxc /\ conaddr_ok (s_addr p.2).
Lemma implements_sessions o sp : implements o sp -> sessions_ok sp.
Proof.
  intros (l & Ho & Hmtu & Hmax & ->). unfold sessions_ok. cbn [sp_sessions].
  assert (Hat : forall x, x ∈ l -> exists c, cons o !! x = Some c /\ con_ok o c /\ abs_at (cons o) x = abs c).
  { intros x Hx. destruct (i_cons _ _ Ho x Hx) as (c & Hc & Hok). exists c. by rewrite (abs_at_some _ _ _ Hc). }
  split; [unfold view, len; rewrite length_map; pose proof (i_num _ _ Ho); unfold len in *; lia|].
  unfold view. rewrite !map_map. cbn [snd]. split_and!.
  - apply NoDup_fmap_2_strong; [|by apply (client_nodup o)]. intros x y Hx Hy.
    destruct (Hat x Hx) as (cx & Hcx & _ & ->), (Hat y Hy) as (cy & Hcy & _ & ->). by apply (conid_inj o l).
  - apply NoDup_fmap_2_strong; [|by apply (client_nodup o)]. intros x y Hx Hy.
    destruct (Hat x Hx) as (cx & Hcx & _ & ->), (Hat y Hy) as (cy & Hcy & _ & ->). by apply (conaddr_inj o l).
  - intros p (x & -> & Hx)%list_elem_of_fmap. cbn [snd]. destruct (Hat x Hx) as (c & _ & Hok & ->).
    rewrite <- Hmax. exact (conj (k_id _ _ _ _ Hok) (k_addr _ _ _ _ Hok)).
Qed.

(** What the gateway sends for a session is what the client sends on it. *)
Lemma packet_of_bytes flags ss d : conaddr_ok (s_addr ss) -> 0 <= flags < 8 -> bytes_ok d -> bytes_ok (packet_of flags ss d).
Proof.
  intros (_ & _ & Hr & _) Hf Hd. unfold packet_of, udpgw_header. rewrite !bytes_ok_app. split_and!; [|apply bytes_ok_le16| |done].
  - apply Forall_cons_2; [|apply Forall_nil_2]. unfold byte_ok. zcase; [|lia].
    unfold UDPGW_CLIENT_FLAG_IPV6. rewrite lor_shiftl_add by lia. lia.
  - destruct (remote_addr (s_addr ss)) as [|ip port|ip port]; cbn [addr_bytes]; [by apply Forall_nil_2| |];
      apply bytes_ok_app; split; try apply bytes_ok_le16; [apply bytes_ok_le32|by destruct Hr].
Qed.
Lemma parse_packet_of flags ss d : conaddr_ok (s_addr ss) -> 0 <= flags < 8 -> 0 <= s_id ss < 65536 ->
  parse_reply (packet_of flags ss d) = Some (s_id ss, remote_addr (s_addr ss), d).
Proof.
  intros (_ & _ & Hr & Hip) Hf Hid. unfold packet_of, udpgw_header. set (fl := if _ =? _ then _ else _).
  cbn [app le16 parse_reply]. pose proof (of_le_le16 _ Hid) as H16. unfold le16, of_le in H16. rewrite Z.mul_0_r, Z.add_0_r in H16.
  rewrite H16. assert (Hbit : forall f, 0 <= f < 8 -> Z.testbit f 3 = false /\ Z.testbit (Z.lor f UDPGW_CLIENT_FLAG_IPV6) 3 = true).
  { intros f Hfb. rewrite Z.lor_spec. change (Z.testbit UDPGW_CLIENT_FLAG_IPV6 3) with true. rewrite orb_true_r. split; [|done].
    rewrite Z.testbit_false by lia. change (2 ^ 3) with 8. by rewrite Z.div_small. }
  destruct (remote_addr (s_addr ss)) as [|ip port|ip port] eqn:Er; [by destruct Hip| |];
    cbn [addr_bytes]; unfold fl; cbn [BAddr_type].
  - change (BADDR_TYPE_IPV4 =? BADDR_TYPE_IPV6) with false. destruct (Hbit flags Hf) as [-> _].
    unfold udpgw_addr_ipv4. destruct Hr as [Hipb Hport]. rewrite <- app_assoc.
    rewrite !len_app. change (len (le32 ip)) with 4. change (len (le16 port)) with 2. pose proof (len_nonneg d). ztest.
    rewrite ztake_app_exact, zdrop_app_exact, ztake_app_exact by done. rewrite of_le_le32, of_le_le16 by done.
    rewrite app_assoc. by rewrite zdrop_app_exact.
  - change (BADDR_TYPE_IPV6 =? BADDR_TYPE_IPV6) with true. destruct (Hbit flags Hf) as [_ ->].
    unfold udpgw_addr_ipv6. destruct Hr as (Hipb & Hlen & Hport). rewrite <- app_assoc.
    rewrite !len_app, Hlen. change (len (le16 port)) with 2. pose proof (len_nonneg d). ztest.
    rewrite ztake_app_exact, zdrop_app_exact, ztake_app_exact by (by rewrite ?Hlen). rewrite of_le_le16 by done.
    rewrite app_assoc. rewrite zdrop_app_exact; [done|]. rewrite len_app, Hlen. done.
Qed.
End refinement.

Definition initial : spec := Spec [] 0 false false.

Lemma reachable mtu max_connections buffer es :
  0 <= mtu -> 0 <= udpgw_compute_mtu mtu <= PACKETPROTO_MAXPAYLOAD -> 0 < max_connections -> 0 < buffer ->
  let maxc := Z.min max_connections 65536 in
  allowed_run mtu maxc initial es ->
  exists o0 o, UdpGwClient_Init mtu max_connections buffer true = Ret (Some o0) /\
    exec_run o0 es = Ret (o, (spec_run mtu maxc initial es).2) /\ implements mtu maxc o (spec_run mtu maxc initial es).1.
Proof.
  intros Hm [Hg Hgm] Hc Hb maxc Hal.
  destruct (UdpGwClient_Init_ok mtu max_connections buffer true Hm Hg Hgm Hc Hb) as ([o0|] & -> & Hi); [|done].
  destruct Hi as (Ho & Hmtu & Hmax & Hn & Hk & Hs & Hcons).
  assert (Hi0 : implements mtu maxc o0 initial) by (exists []; by rewrite Hn, Hk, Hs).
  destruct (exec_events_ok mtu maxc es o0 initial Hi0 Hal) as (o & He & Hi). by exists o0, o.
Qed.

(** C7: The gateway client refines an ordered list of sessions.  For any sequence
    of packets from the device, jobs, replies (any bytes), keepalives and
    connections that respects the contract of the surroundings, the C code does
    to the outside exactly what the list does, with both search trees, the usage
    list and the identifiers kept in step, without a fault, a failed assertion or
    an endless loop; freeing the client then frees every connection. *)
Theorem udpgw_client_refines_sessions mtu max_connections buffer es :
  0 <= mtu -> 0 <= udpgw_compute_mtu mtu <= PACKETPROTO_MAXPAYLOAD -> 0 < max_connections -> 0 < buffer ->
  let maxc := Z.min max_connections 65536 in
  allowed_run mtu maxc initial es ->
  exists o0 o o', UdpGwClient_Init mtu max_connections buffer true = Ret (Some o0) /\
    exec_run o0 es = Ret (o, (spec_run mtu maxc initial es).2) /\ implements mtu maxc o (spec_run mtu maxc initial es).1 /\
    UdpGwClient_Free o = Ret o' /\ cons o' = ∅.
Proof.
  intros Hm Hg Hc Hb maxc Hal. destruct (reachable mtu max_connections buffer es Hm Hg Hc Hb Hal) as (o0 & o & H0 & H1 & Hi).
  pose proof Hi as (l & Hol & _). destruct (UdpGwClient_Free_ok o l Hol) as (o' & Hf & _ & Hc'). by exists o0, o, o'.
Qed.

(** The connections of the client in memory: as many as it counts, at most
    [maxc], with identifiers below that; identifier and addresses each find the
    connection in their tree, so no two share either. *)
Definition connections_distinct (maxc : Z) (o : UdpGwClient) : Prop :=
  num_connections o = Z.of_nat (size (cons o)) /\ num_connections o <= maxc /\
  (forall x c, cons o !! x = Some c -> 0 <= c_conid c < maxc /\
     find_connection_by_conid o (c_conid c) = Ret (Some x) /\ find_connection_by_conaddr o (c_conaddr c) = Ret (Some x)) /\
  (forall x y cx cy, cons o !! x = Some cx -> cons o !! y = Some cy ->
     c_conid cx = c_conid cy \/ c_conaddr cx = c_conaddr cy -> x = y).
Lemma client_ok_distinct o l : client_ok o l -> connections_distinct (max_connections o) o.
Proof.
  intros Ho. pose proof (i_num _ _ Ho) as [Hn Hmax].
  assert (Hdom : forall x c, cons o !! x = Some c -> x ∈ l).
  { intros x c Hc. apply elem_of_dom_2 in Hc. rewrite (i_dom _ _ Ho) in Hc. by apply elem_of_list_to_set in Hc. }
  assert (Hin : forall x c, cons o !! x = Some c -> 0 <= c_conid c < max_connections o /\
     find_connection_by_conid o (c_conid c) = Ret (Some x) /\ find_connection_by_conaddr o (c_conaddr c) = Ret (Some x)).
  { intros x c Hc. pose proof (Hdom x c Hc) as Hx. destruct (i_cons _ _ Ho x Hx) as (c' & Hc' & Hok). rewrite Hc in Hc'. injection Hc' as <-.
    destruct (find_conid_ok o l (c_conid c) Ho) as (r & -> & Hr).
    destruct (find_conaddr_ok o l (c_conaddr c) Ho (k_addr _ _ _ _ Hok)) as (r' & -> & Hr').
    split; [apply Hok|]. by rewrite (proj2 (Hr x)), (proj2 (Hr' x)) by (by exists c). }
  split; [|split; [lia|split; [done|]]].
  - rewrite Hn, <- size_dom, (i_dom _ _ Ho), size_list_to_set by (by apply (client_nodup o)). done.
  - intros x y cx cy Hcx Hcy [E|E]; [by apply (conid_inj o l x y cx cy); eauto|by apply (conaddr_inj o l x y cx cy); eauto].
Qed.

(** C17: After any run of the client it holds at most [max_connections]
    connections (and at most 65536), no two with the same identifier and no two
    for the same pair of addresses: the look-ups by either, which route replies and
    packets, find exactly that connection. *)
Theorem udpgw_sessions_distinct mtu max_connections buffer es :
  0 <= mtu -> 0 <= udpgw_compute_mtu mtu <= PACKETPROTO_MAXPAYLOAD -> 0 < max_connections -> 0 < buffer ->
  let maxc := Z.min max_connections 65536 in
  allowed_run mtu maxc initial es ->
  exists o0 o fx, UdpGwClient_Init mtu max_connections buffer true = Ret (Some o0) /\ exec_run o0 es = Ret (o, fx) /\
    connections_distinct maxc o.
Proof.
  intros Hm Hg Hc Hb maxc Hal. destruct (reachable mtu max_connections buffer es Hm Hg Hc Hb Hal) as (o0 & o & H0 & H1 & l & Ho & _ & Hmax & _).
  exists o0, o. eexists. split; [done|]. split; [done|]. subst maxc. rewrite <- Hmax. by eapply client_ok_distinct.
Qed.

(** C14: A reply in the format the client itself uses, with the identifier and the
    remote address of a session, is delivered to the local address that opened
    the session, with its payload, and to no other. *)
Theorem udpgw_reply_delivered mtu maxc o sp x ss flags d :
  implements mtu maxc o sp -> maxc <= 65536 -> (x, ss) ∈ sp_sessions sp -> sp_server sp = true ->
  bytes_ok d -> len d <= mtu -> 0 <= flags < 8 ->
  exists o', exec_event o (Receive (packet_of flags ss d)) =
    Ret (o', [HandlerReceived (local_addr (s_addr ss)) (remote_addr (s_addr ss)) d]).
Proof.
  intros Hi Hmax Hx Hs Hb Hl Hf. pose proof (implements_sessions _ _ _ _ Hi) as (_ & Hids & _ & Hok).
  destruct (Hok _ Hx) as [Hid Ha]. cbn [snd] in *.
  assert (Hpar : parse_reply (packet_of flags ss d) = Some (s_id ss, remote_addr (s_addr ss), d)) by (apply parse_packet_of; [done..|lia]).
  assert (Hal : allowed mtu sp (Receive (packet_of flags ss d))).
  { split; [done|]. pose proof Ha as (_ & _ & Hr & _). pose proof (len_addr_bytes _ Hr). unfold packet_of. split.
    - by apply (packet_of_bytes flags ss d).
    - rewrite !len_app. change (len (udpgw_header _ _)) with sizeof_udpgw_header. lia. }
  destruct (exec_event_ok mtu maxc o sp _ Hi Hal) as (o' & He & _). exists o'. rewrite He. do 2 f_equal.
  cbn [spec_event]. unfold spec_receive. rewrite Hpar.
  apply list_elem_of_split in Hx as (s1 & s2 & E). rewrite E in *.
  rewrite (split_at_some (fun p : positive * session => s_id p.2 = s_id ss) s1 (x, ss) s2); [|intros q Hq Hqe|done].
  - rewrite bool_decide_true by done. ztest. done.
  - rewrite map_app in Hids. cbn [map snd] in Hids. apply list.NoDup_app in Hids as (_ & Hd & _).
    apply (Hd (s_id ss)); [|set_solver]. rewrite <- Hqe. by apply (list_elem_of_fmap_2 (fun p : positive * session => s_id p.2)).
Qed.

(** ** A concrete run *)

Section example.
Let local1 : BAddr := BADDR_IPV4 16777343 4096.
Let local2 : BAddr := BADDR_IPV6 [1; 2; 3; 4; 5; 6; 7; 8; 9; 10; 11; 12; 13; 14; 15; 16] 513.
Let remote : BAddr := BADDR_IPV4 134744072 13568.
Let ex_alloc : allocation :=
  Alloc 7 (Con no_conaddr 9 9 9 9 true (BW true [1] 1 true)) (MkNode (Some 1%positive) None None 3)
    (MkNode None None None 0) (MkLink (Some 5%positive) None).

(** One connection at most, so the second association takes over the first. *)
Definition ex_events : list event :=
  [Submit (Some ex_alloc) true local1 remote false [65; 66; 67] 0 3;
   WriterRecv 7 (zrep 31 0); FirstJob 7 [65; 66; 67]; Connect true; Monitor;
   Receive [0; 0; 0; 8; 8; 8; 8; 0; 53; 88; 89];
   Submit None true local2 remote true [1; 2; 3; 4] 1 2;
   WriterRecv 7 (zrep 31 0);
   Submit None true local2 remote true [1; 2; 3; 4] 1 2;
   Receive [0; 9]; KeepaliveDone; Disconnect].

Ltac bytes_eval := repeat (apply Forall_cons_2; [split; [done|done]|]); apply Forall_nil_2.
Ltac addr_eval := repeat split; try done; try (left; done); try (right; done); try bytes_eval.
Lemma ex_allowed : allowed_run 10 1 initial ex_events.
Proof.
  unfold ex_events. cbn [allowed_run].
  split. { do 4 (split; [addr_eval|]). intros m _. apply not_elem_of_nil. }
  split. { split; [|by vm_compute]. eexists. split; [vm_compute; left|done]. }
  split. { eexists. split; [vm_compute; left|]. intros f d n [= <- <- <-]. done. }
  split; [by vm_compute|]. split; [done|]. split; [by split; [vm_compute|split; [bytes_eval|vm_compute]]|].
  split. { do 4 (split; [addr_eval|]). intros m [=]. }
  split. { split; [|by vm_compute]. eexists. split; [vm_compute; left|done]. }
  split. { do 4 (split; [addr_eval|]). intros m [=]. }
  split; [by split; [vm_compute|split; [bytes_eval|vm_compute]]|]. by vm_compute.
Qed.
Definition ex_effects : list effect := (spec_run 10 1 initial ex_events).2.
Example ex_effects_value : ex_effects =
  [SendPacket 7 ([2; 0; 0] ++ [8; 8; 8; 8; 0; 53] ++ [65; 66; 67]); SendKeepalive [3; 0; 1; 0; 0];
   HandlerReceived local1 remote [88; 89]; SendPacket 7 ([4; 0; 0] ++ [8; 8; 8; 8; 0; 53] ++ [2; 3])].
Proof. by vm_compute. Qed.

Lemma udpgw_client_refines_sessions_witness : exists o0 o o', UdpGwClient_Init 10 1 4 true = Ret (Some o0) /\
  exec_run o0 ex_events = Ret (o, ex_effects) /\ implements 10 1 o (spec_run 10 1 initial ex_events).1 /\
  UdpGwClient_Free o = Ret o' /\ cons o' = ∅.
Proof.
  apply (udpgw_client_refines_sessions 10 1 4 ex_events); [done|by vm_compute|done|done|exact ex_allowed].
Defined.
Lemma udpgw_sessions_distinct_witness : exists o0 o fx, UdpGwClient_Init 10 1 4 true = Ret (Some o0) /\
  exec_run o0 ex_events = Ret (o, fx) /\ connections_distinct 1 o.
Proof. apply (udpgw_sessions_distinct 10 1 4 ex_events); [done|by vm_compute|done|done|exact ex_allowed]. Defined.

(** The client after its first four events has one session. *)
Let ex_session : session := Session (ConAddr local1 remote) 0 None false.
Lemma udpgw_reply_delivered_witness : exists o0 o o', UdpGwClient_Init 10 1 4 true = Ret (Some o0) /\
  exec_run o0 (take 4 ex_events) = Ret (o, (spec_run 10 1 initial (take 4 ex_events)).2) /\
  exec_event o (Receive (packet_of 0 ex_session [104; 105])) = Ret (o', [HandlerReceived local1 remote [104; 105]]).
Proof.
  assert (Hal : allowed_run 10 1 initial (take 4 ex_events)).
  { pose proof ex_allowed as H. unfold ex_events in *. cbn [take allowed_run] in *. tauto. }
  destruct (reachable 10 1 4 (take 4 ex_events)) as (o0 & o & H0 & H1 & Hi);
    [done|by vm_compute|done|done|exact Hal|].
  destruct (udpgw_reply_delivered 10 1 o _ 7 ex_session 0 [104; 105] Hi) as (o' & H2);
    [done|vm_compute; left|by vm_compute|bytes_eval|done|done|].
  by exists o0, o, o'.
Defined.
End example.
