(* ===== verification/SocksUdpGwClient.v ===== *)
(** * The gateway client over SOCKS ([tun2socks/SocksUdpGwClient.c])

    The gateway client needs a stream to the gateway: a SOCKS client makes one.
    While the SOCKS client is up, the gateway client is connected to its
    interfaces; when either fails, both are taken apart, the SOCKS client is freed
    and a timer is set to try again.  The variant without
    [BADVPN_SOCKS_UDP_RELAY], which no build file defines.

    The reports of the two clients are the last thing their handlers do, so a
    report is handled here when the step of the client is done.  [connector_ok],
    [decoder]: whether [BConnector_Init] and [PacketProtoDecoder_Init] succeed. *)
From S2P Require Import Prelude Addr UdpGw UdpGwProps SocksClient.

(** [socks_client]: the object, if it is initialised.  [reconnect_timer]: whether
    the timer is running. *)
Record SocksUdpGwClient := Gateway {
  socks_server_addr : BAddr;
  gw_auth_info : list BSocksClient_auth_info;
  remote_udpgw_addr : BAddr;
  udpgw_client : UdpGwClient;
  reconnect_timer : bool;
  have_socks : bool;
  socks_client : option BSocksClient;
  socks_up : bool }.

Definition set_udpgw (u : UdpGwClient) (o : SocksUdpGwClient) : SocksUdpGwClient :=
  Gateway (socks_server_addr o) (gw_auth_info o) (remote_udpgw_addr o) u (reconnect_timer o) (have_socks o)
    (socks_client o) (socks_up o).
Definition set_timer (b : bool) (o : SocksUdpGwClient) : SocksUdpGwClient :=
  Gateway (socks_server_addr o) (gw_auth_info o) (remote_udpgw_addr o) (udpgw_client o) b (have_socks o)
    (socks_client o) (socks_up o).
Definition set_socks (have : bool) (c : option BSocksClient) (up : bool) (o : SocksUdpGwClient) : SocksUdpGwClient :=
  Gateway (socks_server_addr o) (gw_auth_info o) (remote_udpgw_addr o) (udpgw_client o) (reconnect_timer o) have c up.

(** [BReactor_SetTimer], [BReactor_RemoveTimer] *)
Definition BReactor_SetTimer (o : SocksUdpGwClient) : SocksUdpGwClient := set_timer true o.
Definition BReactor_RemoveTimer (o : SocksUdpGwClient) : SocksUdpGwClient := set_timer false o.

Definition free_socks (o : SocksUdpGwClient) : run SocksUdpGwClient :=
  _ ← check (have_socks o);
  (* disconnect udpgw client from SOCKS *)
  o ← (if socks_up o then u ← UdpGwClient_DisconnectServer (udpgw_client o); Ret (set_udpgw u o) else Ret o);
  (* free SOCKS client *)
  c ← deref (socks_client o);
  _ ← BSocksClient_Free c;
  Ret (set_socks false None (socks_up o) o).

Definition try_connect (o : SocksUdpGwClient) (connector_ok : bool) : run SocksUdpGwClient :=
  _ ← check (negb (have_socks o));
  _ ← check (negb (reconnect_timer o));
  r ← BSocksClient_Init (socks_server_addr o) (gw_auth_info o) (remote_udpgw_addr o) connector_ok;
  match r with
  | Some c => Ret (set_socks true (Some c) false o)
  | None => Ret (BReactor_SetTimer o)
  end.

Definition reconnect_timer_handler (o : SocksUdpGwClient) (connector_ok : bool) : run SocksUdpGwClient :=
  _ ← check (negb (have_socks o)); try_connect o connector_ok.

Definition socks_client_handler (o : SocksUdpGwClient) (event : BSOCKSCLIENT_EVENT) (decoder : bool) : run SocksUdpGwClient :=
  _ ← check (have_socks o);
  match event with
  | EVENT_UP =>
      _ ← check (negb (socks_up o));
      (* connect udpgw client to SOCKS *)
      c ← deref (socks_client o);
      _ ← BSocksClient_GetInterface c;
      '(u, connected) ← UdpGwClient_ConnectServer (udpgw_client o) decoder;
      let o := set_udpgw u o in
      if negb connected then o ← free_socks o; Ret (BReactor_SetTimer o)
      else Ret (set_socks (have_socks o) (socks_client o) true o)
  | EVENT_ERROR | EVENT_ERROR_CLOSED => o ← free_socks o; Ret (BReactor_SetTimer o)
  end.

Definition udpgw_handler_servererror (o : SocksUdpGwClient) : run SocksUdpGwClient :=
  _ ← check (have_socks o); _ ← check (socks_up o);
  o ← free_socks o; Ret (BReactor_SetTimer o).

(** [mem]: what [socks_up] holds before it is set; [queue]: whether
    [PacketPassFairQueue_Init] succeeds. *)
Definition SocksUdpGwClient_Init (udp_mtu max_connections send_buffer_size : Z) (socks_server_addr : BAddr)
    (auth_info : list BSocksClient_auth_info) (remote_udpgw_addr : BAddr) (queue connector_ok mem : bool) :
    run (option SocksUdpGwClient) :=
  _ ← check ((BAddr_type remote_udpgw_addr =? BADDR_TYPE_IPV4) || (BAddr_type remote_udpgw_addr =? BADDR_TYPE_IPV6));
  r ← UdpGwClient_Init udp_mtu max_connections send_buffer_size queue;
  match r with
  | None => Ret None
  | Some u =>
      o ← try_connect (Gateway socks_server_addr auth_info remote_udpgw_addr u false false None mem) connector_ok;
      Ret (Some o)
  end.

Definition SocksUdpGwClient_Free (o : SocksUdpGwClient) : run SocksUdpGwClient :=
  o ← (if have_socks o then free_socks o else Ret o);
  let o := BReactor_RemoveTimer o in
  u ← UdpGwClient_Free (udpgw_client o); Ret (set_udpgw u o).

(** ** In its surroundings *)

(** What reaches the outside: the effects of the gateway client, of which the
    replies go on to the user, and those of the SOCKS client. *)
Inductive effect : Type :=
  | Gw (e : UdpGw.effect)
  | Link (e : SocksClient.effect).

Definition udpgw_handler_received (local remote : BAddr) (data : bytes) : list effect := [Gw (HandlerReceived local remote data)].

(** The reports of the clients are calls of the handlers. *)
Fixpoint handle_udpgw (o : SocksUdpGwClient) (fx : list UdpGw.effect) : run (SocksUdpGwClient * list effect) :=
  match fx with
  | [] => Ret (o, [])
  | HandlerServerError :: fx => o ← udpgw_handler_servererror o; handle_udpgw o fx
  | HandlerReceived local remote data :: fx => '(o, fx) ← handle_udpgw o fx; Ret (o, udpgw_handler_received local remote data ++ fx)
  | f :: fx => '(o, fx) ← handle_udpgw o fx; Ret (o, Gw f :: fx)
  end.
Fixpoint handle_socks (o : SocksUdpGwClient) (fx : list SocksClient.effect) (decoder : bool) :
    run (SocksUdpGwClient * list effect) :=
  match fx with
  | [] => Ret (o, [])
  | Report event :: fx => o ← socks_client_handler o event decoder; handle_socks o fx decoder
  | f :: fx => '(o, fx) ← handle_socks o fx decoder; Ret (o, Link f :: fx)
  end.

Definition SocksUdpGwClient_SubmitPacket (o : SocksUdpGwClient) (new : option allocation) (flow : bool)
    (local remote : BAddr) (is_dns : bool) (packet : bytes) (data data_len : Z) : run (SocksUdpGwClient * list effect) :=
  '(u, fx) ← UdpGwClient_SubmitPacket (udpgw_client o) new flow local remote is_dns packet data data_len;
  handle_udpgw (set_udpgw u o) fx.

(** What can happen: a packet is submitted, a job or an interface of one of the
    clients moves, the timer expires (the reactor stops it before the call). *)
Inductive event : Type :=
  | GwEvent (e : UdpGwProps.event)
  | LinkEvent (e : SocksClient.event) (decoder : bool)
  | ReconnectTimer (connector_ok : bool).

Definition step (o : SocksUdpGwClient) (e : event) : run (SocksUdpGwClient * list effect) :=
  match e with
  | GwEvent (Submit new flow local remote is_dns packet data n) =>
      SocksUdpGwClient_SubmitPacket o new flow local remote is_dns packet data n
  | GwEvent e => '(u, fx) ← exec_event (udpgw_client o) e; handle_udpgw (set_udpgw u o) fx
  | LinkEvent e decoder =>
      c ← deref (socks_client o);
      '(c, fx) ← SocksClient.step c e;
      handle_socks (set_socks (have_socks o) (Some c) (socks_up o) o) fx decoder
  | ReconnectTimer connector_ok =>
      o ← reconnect_timer_handler (BReactor_RemoveTimer o) connector_ok; Ret (o, [])
  end.
Fixpoint exec (o : SocksUdpGwClient) (es : list event) : run (SocksUdpGwClient * list effect) :=
  match es with
  | [] => Ret (o, [])
  | e :: es => '(o, f) ← step o e; '(o, fs) ← exec o es; Ret (o, f ++ fs)
  end.
