(* ===== verification/SocksUdpGwProps.v ===== *)
(** * The gateway client over SOCKS in operation ([tun2socks/SocksUdpGwClient.c])

    The link to the gateway is being waited for, dialled or up; it is always
    exactly one of these, the timer runs exactly while it is waited for, and each
    attempt is a fresh dialog with the SOCKS server.  The sessions of the gateway
    client do not depend on it. *)
From stdpp Require Import gmap.
From S2P Require Import Prelude Inet Addr Bavl LinkedList1 BufferWriter UdpGw UdpGwSpec UdpGwProps.
From S2P Require Import StreamInterface PacketStreamSender SocksClient SocksClientSpec SocksClientProps SocksUdpGwClient.

(** ** The abstract link *)

(** [Dialing r sent]: this attempt has received [r] and sent [sent]. *)
Inductive link : Type :=
  | Waiting
  | Dialing (r sent : bytes)
  | Linked.
Definition linked (lk : link) : bool := match lk with Linked => true | _ => false end.

(** The events of the gateway client that do not concern its connection. *)
Definition device_event (e : event) : list UdpGwProps.event :=
  match e with
  | GwEvent DecoderError => []
  | GwEvent e => [e]
  | _ => []
  end.
Definition device_events (es : list event) : list UdpGwProps.event := flat_map device_event es.
Definition gw_effects (fx : list effect) : list UdpGw.effect := flat_map (fun f => match f with Gw e => [e] | _ => [] end) fx.
Definition link_effects (fx : list effect) : list SocksClient.effect := flat_map (fun f => match f with Link e => [e] | _ => [] end) fx.

Inductive link_step (ais : list BSocksClient_auth_info) (dest : BAddr) : link -> event -> list SocksClient.effect -> link -> Prop :=
  | link_device lk e : e <> DecoderError -> link_step ais dest lk (GwEvent e) [] lk
  | link_gateway_error : link_step ais dest Linked (GwEvent DecoderError) [] Waiting
  | link_retry : link_step ais dest Waiting (ReconnectTimer true) [] (Dialing [] [])
  | link_no_retry : link_step ais dest Waiting (ReconnectTimer false) [] Waiting
  | link_dial r sent e decoder fx :
      starts_with (sent ++ sent_of fx) (dialog ais dest (r ++ received_by e)).1 ->
      link_step ais dest (Dialing r sent) (LinkEvent e decoder) fx (Dialing (r ++ received_by e) (sent ++ sent_of fx))
  | link_up r sent e fx :
      dialog ais dest (r ++ received_by e) = (sent ++ sent_of fx, Up) ->
      link_step ais dest (Dialing r sent) (LinkEvent e true) fx Linked
  | link_failed r sent e decoder fx :
      starts_with (sent ++ sent_of fx) (dialog ais dest (r ++ received_by e)).1 ->
      (blameless e && decoder = true -> dialog ais dest (r ++ received_by e) = (sent ++ sent_of fx, Refused)) ->
      link_step ais dest (Dialing r sent) (LinkEvent e decoder) fx Waiting
  | link_idle e decoder : link_step ais dest Linked (LinkEvent e decoder) [] Linked
  | link_broken e decoder fx : blameless e = false -> link_step ais dest Linked (LinkEvent e decoder) fx Waiting.

Inductive link_run (ais : list BSocksClient_auth_info) (dest : BAddr) : link -> list event -> list SocksClient.effect -> link -> Prop :=
  | link_run_nil lk : link_run ais dest lk [] [] lk
  | link_run_cons lk e f lk' es fs lk'' :
      link_step ais dest lk e f lk' -> link_run ais dest lk' es fs lk'' -> link_run ais dest lk (e :: es) (f ++ fs) lk''.

Definition with_server (b : bool) (sp : spec) : spec := Spec (sp_sessions sp) (sp_next sp) (sp_keepalive sp) b.

(** ** The sessions without the link *)

Section sessions.
Context (mtu maxc : Z).
Implicit Types (sp : spec) (e : UdpGwProps.event).

Lemma emit_no_error x ss flags d : HandlerServerError ∉ (emit x ss flags d).2.
Proof. unfold emit. destruct (s_ready ss); cbn; set_solver. Qed.
(** An event of the device neither looks at the connection nor changes it. *)
Lemma spec_event_server b sp e : (match e with Connect _ | Disconnect => False | _ => True end) ->
  spec_event mtu maxc (with_server b sp) e = (with_server b (spec_event mtu maxc sp e).1, (spec_event mtu maxc sp e).2).
Proof.
  destruct sp as [ss nx ka sv]. unfold with_server.
  destruct e as [new flow local remote is_dns packet data n|x packet|x m|data| | | |decoder|]; intros He; try done; cbn.
  - unfold spec_submit, with_sessions. cbn. destruct (split_at _ ss) as [[[s1 [x q]] s2]|]; [by destruct (emit _ _ _ _)|].
    destruct (len ss =? maxc); [destruct ss as [|[x q] s]; [done|by destruct (emit _ _ _ _)]|].
    destruct new; [|done]. by destruct (unused_id _ _ _).
  - destruct (split_at _ ss) as [[[s1 [y [a i [[[f d] n]|] r]]] s2]|]; try done. by destruct (emit _ _ _ _).
  - by destruct (split_at _ ss) as [[[s1 [y [a i f r]]] s2]|].
  - unfold spec_receive, with_sessions. cbn. destruct (parse_reply data) as [[[i r] d]|]; [|done].
    destruct (split_at _ ss) as [[[s1 [y q]] s2]|]; [|done]. by destruct (_ && _).
  - by destruct ka.
Qed.
Lemma spec_event_no_error sp e : e <> DecoderError -> HandlerServerError ∉ (spec_event mtu maxc sp e).2.
Proof.
  destruct e as [new flow local remote is_dns packet data n|x packet|x m|data| | | |decoder|]; intros He; try done; cbn; try set_solver.
  - unfold spec_submit. destruct (split_at _ _) as [[[s1 [x q]] s2]|].
    { pose proof (emit_no_error x q (if is_dns then UDPGW_CLIENT_FLAG_DNS else 0) (ztake n (zdrop data packet))). by destruct (emit _ _ _ _). }
    destruct (_ =? maxc); [destruct (sp_sessions sp) as [|[x q] s]; [set_solver|]|].
    + match goal with |- context [emit ?x ?s ?f ?d] => pose proof (emit_no_error x s f d); by destruct (emit x s f d) end.
    + destruct new; [|set_solver]. destruct (unused_id _ _ _); set_solver.
  - destruct (split_at _ _) as [[[s1 [y [a i [[[f d] n]|] r]]] s2]|]; cbn; try set_solver.
    match goal with |- context [emit ?x ?s ?f ?d] => pose proof (emit_no_error x s f d); by destruct (emit x s f d) end.
  - destruct (split_at _ _) as [[[s1 [y [a i f r]]] s2]|]; set_solver.
  - unfold spec_receive. destruct (parse_reply data) as [[[i r] d]|]; [|set_solver].
    destruct (split_at _ _) as [[[s1 [y q]] s2]|]; [|set_solver]. destruct (_ && _); set_solver.
  - destruct (sp_keepalive sp); set_solver.
Qed.
End sessions.

(** ** The contract of the surroundings *)

Section contract.
Context (mtu maxc : Z).

(** In the state [o], whose sessions are [sp].  The gateway client is connected
    and disconnected by the code only. *)
Definition allowed (o : SocksUdpGwClient) (sp : spec) (e : event) : Prop :=
  match e with
  | GwEvent (Connect _) | GwEvent Disconnect => False
  | GwEvent e => UdpGwProps.allowed mtu (with_server (have_server (udpgw_client o)) sp) e
  | LinkEvent e _ => exists c, socks_client o = Some c /\ possible c e
  | ReconnectTimer _ => reconnect_timer o = true
  end.
Fixpoint allowed_run (o : SocksUdpGwClient) (sp : spec) (es : list event) : Prop :=
  match es with
  | [] => True
  | e :: es => allowed o sp e /\
      forall o' f, step o e = Ret (o', f) -> allowed_run o' (spec_run mtu maxc sp (device_event e)).1 es
  end.

(** ** The invariant *)

End contract.

Section invariant.
Context (mtu maxc : Z) (server : BAddr) (ais : list BSocksClient_auth_info) (dest : BAddr).
Hypotheses (Hauth : forall ai, ai ∈ ais -> auth_ok ai) (Hdest : dest_ok dest) (Hserver : server <> BADDR_NONE).
Implicit Types (o : SocksUdpGwClient) (sp : spec) (lk : link) (c : BSocksClient).

Definition link_ok o lk : Prop :=
  match lk with
  | Waiting => reconnect_timer o = true /\ have_socks o = false /\ socks_client o = None
  | Dialing r sent => reconnect_timer o = false /\ have_socks o = true /\ socks_up o = false /\
      exists c, socks_client o = Some c /\ related ais dest c r sent /\ state c <> STATE_UP
  | Linked => reconnect_timer o = false /\ have_socks o = true /\ socks_up o = true /\
      exists c r sent, socks_client o = Some c /\ related ais dest c r sent /\ state c = STATE_UP
  end.
Record gw_ok o sp lk : Prop := {
  gw_server : socks_server_addr o = server /\ gw_auth_info o = ais /\ remote_udpgw_addr o = dest;
  gw_client : implements mtu maxc (udpgw_client o) (with_server (linked lk) sp);
  gw_link : link_ok o lk }.

Lemma gw_have_server o sp lk : gw_ok o sp lk -> have_server (udpgw_client o) = linked lk.
Proof using Type. intros [_ (l & _ & _ & _ & E) _]. by injection E. Qed.

(** *** Handlers *)

Lemma handle_udpgw_ok o fx : HandlerServerError ∉ fx -> handle_udpgw o fx = Ret (o, map Gw fx).
Proof using Type.
  induction fx as [|f fx IH]; [done|]. intros [Hf Hfx]%not_elem_of_cons. specialize (IH Hfx). cbn [handle_udpgw map].
  destruct f; try done; by rewrite IH.
Qed.
Lemma effects_of_gw fx : gw_effects (map Gw fx) = fx /\ link_effects (map Gw fx) = [].
Proof using Type. by split; (induction fx as [|f fx IH]; [done|]); [rewrite <- IH at 2|]. Qed.
Lemma effects_of_link fx : gw_effects (map Link fx) = [] /\ link_effects (map Link fx) = fx.
Proof using Type. by split; (induction fx as [|f fx IH]; [done|]); [|rewrite <- IH at 2]. Qed.
(** The reports left out. *)
Definition unreported (fx : list SocksClient.effect) : list SocksClient.effect :=
  List.filter (fun f => match f with Report _ => false | _ => true end) fx.
Lemma sent_unreported fx : sent_of (unreported fx) = sent_of fx.
Proof using Type. induction fx as [|[] fx IH]; [done|exact IH..| |exact IH]. exact (f_equal (app data) IH). Qed.
Lemma handle_socks_ok o fx decoder : reports fx = [] -> handle_socks o fx decoder = Ret (o, map Link (unreported fx)).
Proof using Type. induction fx as [|[] fx IH]; [done..| | |]; intros Hr; cbn [handle_socks]; by rewrite (IH Hr). Qed.
Lemma handle_socks_report o fx err decoder o' : reports fx = [err] -> socks_client_handler o err decoder = Ret o' ->
  handle_socks o fx decoder = Ret (o', map Link (unreported fx)).
Proof using Type.
  intros Hr Ho. induction fx as [|[event| | |] fx IH]; [done|..]; cbn [handle_socks]; [|by rewrite (IH Hr)..].
  injection Hr as -> Hr. rewrite Ho. run_simpl. by rewrite handle_socks_ok.
Qed.

(** *** Taking the link apart, and starting it *)

(** A SOCKS client that can be freed, connected to the gateway client or not. *)
Lemma free_socks_ok o sp c : have_socks o = true -> socks_client o = Some c -> freeable c ->
  implements mtu maxc (udpgw_client o) (with_server (socks_up o) sp) ->
  exists u, free_socks o = Ret (set_socks false None (socks_up o) (set_udpgw u o)) /\ implements mtu maxc u (with_server false sp).
Proof using Type.
  intros Hh Hc Hf Hi. unfold free_socks. rewrite Hh. run_simpl. destruct (Free_ok c Hf) as (c' & Hfree & _).
  destruct (socks_up o) eqn:Hup.
  - destruct (exec_event_ok mtu maxc (udpgw_client o) _ Disconnect Hi) as (u & E & Hi'); [done|]. cbn [exec_event] in E.
    destruct (UdpGwClient_DisconnectServer (udpgw_client o)) as [u'|]; [|done]. injection E as ->. run_simpl.
    cbn [set_udpgw socks_client have_socks]. rewrite Hc. run_simpl. rewrite Hfree. run_simpl. exists u.
    split; [|exact Hi']. unfold set_socks, set_udpgw. cbn. by rewrite Hup.
  - run_simpl. rewrite Hc. run_simpl. rewrite Hfree. run_simpl. exists (udpgw_client o). split; [|done].
    unfold set_socks, set_udpgw. cbn. by rewrite Hup.
Qed.
Lemma link_lost o sp c : (socks_server_addr o = server /\ gw_auth_info o = ais /\ remote_udpgw_addr o = dest) ->
  have_socks o = true -> socks_client o = Some c -> freeable c ->
  implements mtu maxc (udpgw_client o) (with_server (socks_up o) sp) ->
  exists o', (o ← free_socks o; Ret (BReactor_SetTimer o)) = Ret o' /\ gw_ok o' sp Waiting.
Proof using Type.
  intros Hs Hh Hc Hf Hi. destruct (free_socks_ok o sp c Hh Hc Hf Hi) as (u & -> & Hu). run_simpl. eexists. split; [done|].
  by split.
Qed.
Lemma try_connect_ok o sp ok : (socks_server_addr o = server /\ gw_auth_info o = ais /\ remote_udpgw_addr o = dest) ->
  implements mtu maxc (udpgw_client o) (with_server false sp) ->
  have_socks o = false -> reconnect_timer o = false -> socks_client o = None ->
  exists o', try_connect o ok = Ret o' /\ gw_ok o' sp (if ok then Dialing [] [] else Waiting).
Proof using Hauth Hdest Hserver.
  intros Hs Hi Hh Ht Hc. unfold try_connect. rewrite Hh, Ht. pose proof Hs as (-> & -> & ->).
  destruct (init_related ais dest Hauth Hdest server Hserver) as (c & Hinit & Hr & Hst).
  unfold BSocksClient_Init in *. destruct (negb (BAddr_IsInvalid server)); [|done]. destruct (negb (BAddr_IsInvalid dest)); [|done].
  destruct (forallb _ ais); [|done]. destruct ok; cbn in *; (eexists; split; [reflexivity|]); (split; [done|done|]); [|done].
  injection Hinit as ->. split_and!; try done. exists c. split_and!; try done. congruence.
Qed.

(** *** The events *)

(** What an event does, to the sessions and to the link. *)
Definition gw_outcome o sp lk (e : event) : Prop :=
  exists o' fx lk', step o e = Ret (o', fx) /\ gw_ok o' (spec_run mtu maxc sp (device_event e)).1 lk' /\
    gw_effects fx = (spec_run mtu maxc sp (device_event e)).2 /\ link_step ais dest lk e (link_effects fx) lk'.

Lemma step_gw o e : step o (GwEvent e) = ('(u, fx) ← exec_event (udpgw_client o) e; handle_udpgw (set_udpgw u o) fx).
Proof using Type. by destruct e. Qed.
Lemma set_udpgw_ok o sp sp' lk u : gw_ok o sp lk -> implements mtu maxc u (with_server (linked lk) sp') -> gw_ok (set_udpgw u o) sp' lk.
Proof using Type. intros [Hs _ Hl] Hu. by split. Qed.

Lemma device_outcome o sp lk e : gw_ok o sp lk -> (match e with Connect _ | Disconnect | DecoderError => False | _ => True end) ->
  UdpGwProps.allowed mtu (with_server (linked lk) sp) e -> gw_outcome o sp lk (GwEvent e).
Proof using Type.
  intros Ho He Ha. destruct (exec_event_ok mtu maxc (udpgw_client o) _ e (gw_client _ _ _ Ho) Ha) as (u & E & Hu).
  rewrite spec_event_server in E, Hu by (by destruct e). cbn [fst snd] in E, Hu.
  assert (Hne : e <> DecoderError) by (by intros ->).
  exists (set_udpgw u o), (map Gw (spec_event mtu maxc sp e).2), lk. rewrite step_gw, E. run_simpl.
  destruct (effects_of_gw (spec_event mtu maxc sp e).2) as [-> ->].
  rewrite handle_udpgw_ok by (by apply spec_event_no_error).
  assert (Hrun : spec_run mtu maxc sp (device_event (GwEvent e)) = spec_event mtu maxc sp e).
  { destruct e; try done; cbn [device_event spec_run]; destruct (spec_event _ _ _ _); by rewrite app_nil_r. }
  rewrite Hrun. split; [done|]. split; [by eapply set_udpgw_ok|]. split; [done|by constructor].
Qed.

Lemma linked_parts o sp : gw_ok o sp Linked -> have_socks o = true /\ socks_up o = true /\
  exists c, socks_client o = Some c /\ freeable c.
Proof using Type.
  intros [_ _ (_ & Hh & Hup & c & r & sent & Hc & Hr & _)]. split_and!; [done..|]. exists c. split; [done|]. by eapply related_freeable.
Qed.
Lemma decoder_error_outcome o sp lk : gw_ok o sp lk -> linked lk = true -> gw_outcome o sp lk (GwEvent DecoderError).
Proof using Type.
  intros Ho Hl. destruct lk; try done. destruct (linked_parts o sp Ho) as (Hh & Hup & c & Hc & Hf). pose proof Ho as [Hs Hi _].
  assert (Hi' : implements mtu maxc (udpgw_client o) (with_server (socks_up o) sp)) by (by rewrite Hup).
  destruct (link_lost o sp c Hs Hh Hc Hf Hi') as (o' & E & Ho').
  exists o', [], Waiting. split; [|split; [done|split; [done|constructor]]]. cbn [step exec_event]. unfold decoder_handler_error.
  rewrite (gw_have_server o sp Linked Ho). cbn [linked]. run_simpl. cbn [handle_udpgw].
  assert (Eo : set_udpgw (udpgw_client o) o = o) by (by destruct o). rewrite Eo. unfold udpgw_handler_servererror.
  rewrite Hh, Hup. run_simpl. rewrite E. by run_simpl.
Qed.
Lemma reconnect_outcome o sp lk ok : gw_ok o sp lk -> reconnect_timer o = true -> gw_outcome o sp lk (ReconnectTimer ok).
Proof using Hauth Hdest Hserver.
  intros [Hs Hi Hl] Ht. destruct lk; cbn in Hl; [|destruct Hl; congruence..]. destruct Hl as (_ & Hh & Hc).
  destruct (try_connect_ok (BReactor_RemoveTimer o) sp ok Hs Hi Hh eq_refl Hc) as (o' & E & Ho').
  exists o', [], (if ok then Dialing [] [] else Waiting). cbn [step]. unfold reconnect_timer_handler.
  cbn [BReactor_RemoveTimer set_timer have_socks]. rewrite Hh. run_simpl. change (set_timer false o) with (BReactor_RemoveTimer o). rewrite E. run_simpl.
  split; [done|]. split; [done|]. split; [done|]. destruct ok; constructor.
Qed.

(** The SOCKS client comes up, or reports an error. *)
Lemma handler_up o sp c r0 sent0 r sent decoder : gw_ok o sp (Dialing r0 sent0) -> freeable c -> state c = STATE_UP -> io c = UpIO ->
  related ais dest c r sent ->
  exists o', socks_client_handler (set_socks (have_socks o) (Some c) (socks_up o) o) EVENT_UP decoder = Ret o' /\
    gw_ok o' sp (if decoder then Linked else Waiting).
Proof using Type.
  intros [Hs Hi (Ht & Hh & Hup & _)] Hf Hst Hio Hr. cbn [linked] in Hi. unfold socks_client_handler, set_socks.
  cbn [have_socks socks_up socks_client udpgw_client]. rewrite Hh, Hup. run_simpl.
  unfold BSocksClient_GetInterface. rewrite Hst, bool_decide_true, Hio by done. run_simpl.
  destruct (exec_event_ok mtu maxc (udpgw_client o) _ (Connect decoder) Hi) as (u & E & Hu); [done|]. cbn [exec_event] in E.
  assert (Hconn : UdpGwClient_ConnectServer (udpgw_client o) decoder = Ret (u, decoder)).
  { unfold UdpGwClient_ConnectServer in *. destruct (check _); [|done]. revert E. run_simpl. destruct decoder; by intros [= ->]. }
  rewrite Hconn. run_simpl. destruct decoder; cbn [negb].
  - eexists. split; [reflexivity|]. split; [done|exact Hu|]. split_and!; try done. by exists c, r, sent.
  - eapply link_lost; [exact Hs|done|done|done|]. exact Hu.
Qed.
Lemma handler_error o sp c err decoder : (socks_server_addr o = server /\ gw_auth_info o = ais /\ remote_udpgw_addr o = dest) ->
  have_socks o = true -> freeable c -> err <> EVENT_UP -> implements mtu maxc (udpgw_client o) (with_server (socks_up o) sp) ->
  exists o', socks_client_handler (set_socks (have_socks o) (Some c) (socks_up o) o) err decoder = Ret o' /\ gw_ok o' sp Waiting.
Proof using Type.
  intros Hs Hh Hf He Hi. unfold socks_client_handler. cbn [set_socks have_socks]. rewrite Hh. run_simpl.
  destruct err; [|done|]; eapply link_lost; done.
Qed.

Lemma dialing_outcome o sp r sent c e decoder : gw_ok o sp (Dialing r sent) -> socks_client o = Some c -> possible c e ->
  gw_outcome o sp (Dialing r sent) (LinkEvent e decoder).
Proof using Hauth Hdest.
  intros Ho Hc Hp. pose proof Ho as [Hs Hi (Ht & Hh & Hup & c0 & Hc0 & Hr & Hst)]. rewrite Hc in Hc0. injection Hc0 as <-.
  assert (Ha : SocksClient.allowed c e) by (split; [by destruct Hr as (_ & _ & ? & _)|done]).
  destruct (socks_step_outcome ais dest Hauth Hdest c r sent e Hr Ha) as (c' & fx & E & Hf & Hres).
  unfold gw_outcome. cbn [step device_event spec_run fst snd]. rewrite Hc. run_simpl. rewrite E. run_simpl.
  destruct Hres as [[Hr' Hrep]|(Herr & err & Hrep & Hne & Hpre & Hblame)].
  - destruct (decide (state c' = STATE_UP)) as [Hup'|Hup'].
    + rewrite decide_True in Hrep by done. pose proof Hr' as (_ & _ & _ & Hlast). rewrite Hup' in Hlast. destruct Hlast as (_ & Hio & Hd).
      destruct (handler_up o sp c' r sent _ _ decoder Ho Hf Hup' Hio Hr') as (o' & Eh & Ho').
      rewrite (handle_socks_report _ fx EVENT_UP decoder o' Hrep Eh). eexists _, _, _. split; [done|]. split; [exact Ho'|].
      destruct (effects_of_link (unreported fx)) as [-> ->]. split; [done|]. rewrite <- sent_unreported in Hd.
      destruct decoder; [by apply link_up|]. apply link_failed; [|by rewrite andb_false_r]. rewrite sent_unreported. by eapply related_starts.
    + rewrite decide_False in Hrep by tauto. rewrite handle_socks_ok by done. eexists _, _, (Dialing (r ++ received_by e) (sent ++ sent_of (unreported fx))). split; [done|].
      destruct (effects_of_link (unreported fx)) as [-> ->]. split; [|split; [done|]].
      * split; [done|exact Hi|]. split_and!; try done. exists c'. split_and!; [done| |done]. rewrite sent_unreported. exact Hr'.
      * apply link_dial. rewrite sent_unreported. by eapply related_starts.
  - destruct (handler_error o sp c' err decoder Hs Hh Hf Hne) as (o' & Eh & Ho'); [by rewrite Hup|].
    rewrite (handle_socks_report _ fx err decoder o' Hrep Eh). eexists _, _, Waiting. split; [done|]. split; [exact Ho'|].
    destruct (effects_of_link (unreported fx)) as [-> ->]. split; [done|]. apply link_failed; rewrite sent_unreported; [done|].
    intros [Hb _]%andb_true_iff. by apply Hblame.
Qed.

Lemma linked_outcome o sp c e decoder : gw_ok o sp Linked -> socks_client o = Some c -> possible c e ->
  gw_outcome o sp Linked (LinkEvent e decoder).
Proof using Hauth Hdest.
  intros Ho Hc Hp. pose proof Ho as [Hs Hi (Ht & Hh & Hup & c0 & r & sent & Hc0 & Hr & Hst)]. rewrite Hc in Hc0. injection Hc0 as <-.
  assert (He : d_err c = false) by apply Hr. assert (Ha : SocksClient.allowed c e) by done.
  destruct (socks_step_outcome ais dest Hauth Hdest c r sent e Hr Ha) as (c' & fx & E & Hf & Hres).
  destruct (up_step ais dest c r sent e c' fx Hr Hst Ha E) as (_ & Hstep).
  unfold gw_outcome. cbn [step device_event spec_run fst snd]. rewrite Hc. run_simpl. rewrite E. run_simpl.
  destruct Hres as [[Hr' Hrep]|(Herr & err & Hrep & Hne & Hpre & Hblame)].
  - destruct Hstep as [[-> ->]|[Herr _]]; [|destruct Hr' as (_ & _ & ? & _); congruence].
    exists o, [], Linked. split; [|split; [done|split; [done|constructor]]]. cbn [handle_socks]. do 2 f_equal.
    unfold set_socks. rewrite <- Hc. by destruct o.
  - destruct Hstep as [[-> ->]|[_ Hb]]; [done|].
    destruct (handler_error o sp c' err decoder Hs Hh Hf Hne) as (o' & Eh & Ho'); [by rewrite Hup|].
    rewrite (handle_socks_report _ fx err decoder o' Hrep Eh). eexists _, _, Waiting. split; [done|]. split; [exact Ho'|].
    destruct (effects_of_link (unreported fx)) as [-> ->]. split; [done|]. by apply link_broken.
Qed.

Theorem gw_step_outcome o sp lk e : gw_ok o sp lk -> allowed mtu o sp e -> gw_outcome o sp lk e.
Proof using Hauth Hdest Hserver.
  intros Ho Ha. destruct e as [e|e decoder|ok].
  - cbn [allowed] in Ha. rewrite (gw_have_server o sp lk Ho) in Ha.
    destruct e; first [by destruct Ha|by apply decoder_error_outcome|by apply device_outcome].
  - destruct Ha as (c & Hc & Hp). destruct lk as [|r sent|]; [|by apply (dialing_outcome o sp r sent c)|by apply (linked_outcome o sp c)].
    destruct Ho as [_ _ (_ & _ & ?)]. congruence.
  - by apply reconnect_outcome.
Qed.

Lemma spec_run_app sp es es' : spec_run mtu maxc sp (es ++ es') =
  ((spec_run mtu maxc (spec_run mtu maxc sp es).1 es').1, (spec_run mtu maxc sp es).2 ++ (spec_run mtu maxc (spec_run mtu maxc sp es).1 es').2).
Proof using Type.
  revert sp. induction es as [|e es IH]; intros sp; cbn [app spec_run]; [by destruct (spec_run _ _ _ _)|].
  destruct (spec_event mtu maxc sp e) as [sp1 f1]. rewrite IH. destruct (spec_run mtu maxc sp1 es) as [sp2 f2]. cbn [fst snd].
  by rewrite app_assoc.
Qed.
Lemma gw_exec_ok es : forall o sp lk, gw_ok o sp lk -> allowed_run mtu maxc o sp es ->
  exists o' fx lk', exec o es = Ret (o', fx) /\ gw_ok o' (spec_run mtu maxc sp (device_events es)).1 lk' /\
    gw_effects fx = (spec_run mtu maxc sp (device_events es)).2 /\ link_run ais dest lk es (link_effects fx) lk'.
Proof using Hauth Hdest Hserver.
  induction es as [|e es IH]; intros o sp lk Ho; cbn [allowed_run exec].
  { intros _. exists o, [], lk. split_and!; try done. constructor. }
  intros [Ha Hrun]. destruct (gw_step_outcome o sp lk e Ho Ha) as (o1 & f1 & lk1 & E1 & Ho1 & Hf1 & Hl1). rewrite E1. run_simpl.
  destruct (IH o1 _ lk1 Ho1 (Hrun o1 f1 E1)) as (o2 & f2 & lk2 & E2 & Ho2 & Hf2 & Hl2). rewrite E2. run_simpl.
  exists o2, (f1 ++ f2), lk2. change (device_events (e :: es)) with (device_event e ++ device_events es).
  rewrite spec_run_app. split; [done|]. split; [done|]. cbn [snd]. rewrite <- Hf1, <- Hf2. unfold gw_effects, link_effects. rewrite !flat_map_app.
  split; [done|by eapply link_run_cons].
Qed.

(** The client can be freed, whatever the link is. *)
Lemma gw_free_ok o sp lk : gw_ok o sp lk -> exists o', SocksUdpGwClient_Free o = Ret o' /\
  cons (udpgw_client o') = ∅ /\ have_socks o' = false /\ socks_client o' = None /\ reconnect_timer o' = false.
Proof using Type.
  intros [Hs Hi Hl]. unfold SocksUdpGwClient_Free.
  assert (Hfree : exists o1 sp1, (if have_socks o then free_socks o else Ret o) = Ret o1 /\ implements mtu maxc (udpgw_client o1) sp1 /\
            have_socks o1 = false /\ socks_client o1 = None).
  { destruct lk as [|r sent|]; cbn in Hl.
    - destruct Hl as (_ & Hh & Hc). rewrite Hh. by exists o, (with_server false sp).
    - destruct Hl as (_ & Hh & Hup & c & Hc & Hr & _). rewrite Hh.
      destruct (free_socks_ok o sp c Hh Hc) as (u & -> & Hu); [by eapply related_freeable|by rewrite Hup|]. by eexists _, _.
    - destruct Hl as (_ & Hh & Hup & c & r & sent & Hc & Hr & _). rewrite Hh.
      destruct (free_socks_ok o sp c Hh Hc) as (u & -> & Hu); [by eapply related_freeable|by rewrite Hup|]. by eexists _, _. }
  destruct Hfree as (o1 & sp1 & -> & (l & Hok & _) & Hh & Hc). run_simpl.
  destruct (UdpGwClient_Free_ok (udpgw_client o1) l Hok) as (u & E & _ & Hcons). cbn [BReactor_RemoveTimer set_timer udpgw_client].
  rewrite E. run_simpl. by eexists.
Qed.

Lemma gw_init_ok buffer connector_ok mem : 0 <= mtu -> 0 <= udpgw_compute_mtu mtu <= PACKETPROTO_MAXPAYLOAD ->
  forall max_connections, 0 < max_connections -> maxc = Z.min max_connections 65536 -> 0 < buffer ->
  exists o0, SocksUdpGwClient_Init mtu max_connections buffer server ais dest true connector_ok mem = Ret (Some o0) /\
    gw_ok o0 initial (if connector_ok then Dialing [] [] else Waiting).
Proof using Hauth Hdest Hserver.
  intros Hm [Hg Hgm] max Hmax Hmaxc Hb. unfold SocksUdpGwClient_Init.
  assert (Hip : (BAddr_type dest =? BADDR_TYPE_IPV4) || (BAddr_type dest =? BADDR_TYPE_IPV6) = true) by (by destruct dest).
  rewrite Hip. run_simpl. destruct (UdpGwClient_Init_ok mtu max buffer true Hm Hg Hgm Hmax Hb) as ([u|] & -> & Hi); [|done].
  destruct Hi as (Ho & Hmtu & Hmc & Hn & Hk & Hsv & Hcons). run_simpl.
  rewrite <- Hmaxc in Hmc. assert (Hi : implements mtu maxc u (with_server false initial)) by (exists []; by rewrite Hn, Hk, Hsv).
  destruct (try_connect_ok (Gateway server ais dest u false false None mem) initial connector_ok) as (o & -> & Hok); [done..|].
  run_simpl. by exists o.
Qed.
End invariant.

(** ** The theorems *)

(** The arguments of [SocksUdpGwClient_Init] that [tun2socks.c] may pass. *)
Record config_ok (mtu max_connections buffer : Z) (server : BAddr) (ais : list BSocksClient_auth_info) (dest : BAddr) : Prop := {
  cf_mtu : 0 <= mtu /\ 0 <= udpgw_compute_mtu mtu <= PACKETPROTO_MAXPAYLOAD;
  cf_max : 0 < max_connections;
  cf_buffer : 0 < buffer;
  cf_server : server <> BADDR_NONE;
  cf_auth : forall ai, ai ∈ ais -> auth_ok ai;
  cf_dest : dest_ok dest }.

(** C5: Whatever the SOCKS server, the gateway and the network do, and in
    whatever order packets, replies, jobs, errors and the timer come, nothing
    faults: the link goes through attempts, each a fresh dialog with the SOCKS
    server; it is up only after a dialog that ended with success and is given up
    only after a refusal, a failure or an error of the gateway; the timer runs
    exactly while there is no SOCKS client, the gateway client is connected
    exactly while the link is up, and in every state all can be freed. *)
Theorem gateway_link_refines mtu max_connections buffer server ais dest connector_ok mem es :
  config_ok mtu max_connections buffer server ais dest ->
  exists o0, SocksUdpGwClient_Init mtu max_connections buffer server ais dest true connector_ok mem = Ret (Some o0) /\
    (allowed_run mtu (Z.min max_connections 65536) o0 initial es -> exists o fx lk, exec o0 es = Ret (o, fx) /\
      link_run ais dest (if connector_ok then Dialing [] [] else Waiting) es (link_effects fx) lk /\
      (reconnect_timer o = true <-> lk = Waiting) /\ have_socks o = negb (reconnect_timer o) /\
      have_server (udpgw_client o) = linked lk /\
      exists o', SocksUdpGwClient_Free o = Ret o' /\ cons (udpgw_client o') = ∅ /\ socks_client o' = None /\ reconnect_timer o' = false).
Proof.
  intros [[Hm Hg] Hmax Hb Hs Hauth Hdest]. set (maxc := Z.min max_connections 65536).
  destruct (gw_init_ok mtu maxc server ais dest Hauth Hdest Hs buffer connector_ok mem Hm Hg max_connections Hmax eq_refl Hb) as (o0 & -> & Ho).
  exists o0. split; [done|]. intros Ha.
  destruct (gw_exec_ok mtu maxc server ais dest Hauth Hdest Hs es o0 _ _ Ho Ha) as (o & fx & lk & -> & Hok & _ & Hrun).
  exists o, fx, lk. split; [done|]. split; [done|]. pose proof Hok as [_ _ Hl]. split; [|split; [|split]].
  - destruct lk; cbn in Hl; destruct Hl as (-> & _); naive_solver.
  - destruct lk; cbn in Hl; by destruct Hl as (-> & -> & _).
  - by eapply gw_have_server.
  - destruct (gw_free_ok mtu maxc server ais dest o _ lk Hok) as (o' & E & Hc & _ & Hn & Ht). by exists o'.
Qed.

(** C16: Sessions outlive the link.  Two clients that see the same packets,
    replies and jobs of the gateway client have the same sessions, identifiers
    included, send the same packets on them and deliver the same replies,
    however differently their links fail, are retried or come up. *)
Theorem gateway_sessions_survive mtu max_connections buffer server1 server2 ais1 ais2 dest1 dest2 ok1 ok2 mem1 mem2 es1 es2 o1 o2 :
  config_ok mtu max_connections buffer server1 ais1 dest1 -> config_ok mtu max_connections buffer server2 ais2 dest2 ->
  SocksUdpGwClient_Init mtu max_connections buffer server1 ais1 dest1 true ok1 mem1 = Ret (Some o1) ->
  SocksUdpGwClient_Init mtu max_connections buffer server2 ais2 dest2 true ok2 mem2 = Ret (Some o2) ->
  let maxc := Z.min max_connections 65536 in
  allowed_run mtu maxc o1 initial es1 -> allowed_run mtu maxc o2 initial es2 -> device_events es1 = device_events es2 ->
  exists o1' fx1 o2' fx2 sp, exec o1 es1 = Ret (o1', fx1) /\ exec o2 es2 = Ret (o2', fx2) /\ gw_effects fx1 = gw_effects fx2 /\
    implements mtu maxc (udpgw_client o1') (with_server (have_server (udpgw_client o1')) sp) /\
    implements mtu maxc (udpgw_client o2') (with_server (have_server (udpgw_client o2')) sp).
Proof.
  intros [[Hm Hg] Hmax Hb Hs1 Hauth1 Hdest1] [_ _ _ Hs2 Hauth2 Hdest2] E1 E2 maxc Ha1 Ha2 Hev.
  destruct (gw_init_ok mtu maxc server1 ais1 dest1 Hauth1 Hdest1 Hs1 buffer ok1 mem1 Hm Hg max_connections Hmax eq_refl Hb) as (o & E & Ho1).
  rewrite E1 in E. injection E as <-.
  destruct (gw_init_ok mtu maxc server2 ais2 dest2 Hauth2 Hdest2 Hs2 buffer ok2 mem2 Hm Hg max_connections Hmax eq_refl Hb) as (o & E & Ho2).
  rewrite E2 in E. injection E as <-.
  destruct (gw_exec_ok mtu maxc server1 ais1 dest1 Hauth1 Hdest1 Hs1 es1 o1 _ _ Ho1 Ha1) as (o1' & fx1 & lk1 & X1 & Hok1 & Hf1 & _).
  destruct (gw_exec_ok mtu maxc server2 ais2 dest2 Hauth2 Hdest2 Hs2 es2 o2 _ _ Ho2 Ha2) as (o2' & fx2 & lk2 & X2 & Hok2 & Hf2 & _).
  rewrite <- Hev in Hok2, Hf2. exists o1', fx1, o2', fx2, (spec_run mtu maxc initial (device_events es1)).1.
  rewrite (gw_have_server _ _ _ _ _ _ _ _ Hok1), (gw_have_server _ _ _ _ _ _ _ _ Hok2), Hf1, Hf2.
  split_and!; [done..|apply Hok1|apply Hok2].
Qed.

(** ** Concrete links *)

Section example.
#[local] Instance byte_ok_dec b : Decision (byte_ok b).
Proof. unfold byte_ok. apply _. Defined.
#[local] Instance bytes_ok_dec d : Decision (bytes_ok d).
Proof. unfold bytes_ok. apply _. Defined.
#[local] Instance baddr_ok_dec a : Decision (baddr_ok a).
Proof. destruct a; cbn; apply _. Defined.
#[local] Instance conaddr_ok_dec a : Decision (conaddr_ok a).
Proof. unfold conaddr_ok, is_ip. apply _. Defined.
#[local] Instance session_of_dec sp x (P : session -> Prop) : (forall ss, Decision (P ss)) -> Decision (session_of sp x P).
Proof.
  intros HP. destruct (decide (Exists (fun p : positive * session => p.1 = x /\ P p.2) (sp_sessions sp))) as [H|H]; [left|right].
  - apply list.Exists_exists in H as ([y ss] & Hin & <- & HPs). by exists ss.
  - intros (ss & Hin & HPs). apply H, list.Exists_exists. by exists (x, ss).
Defined.
#[local] Instance first_dec (f : option (Z * Z * Z)) (P : Z -> Z -> Prop) : (forall d n, Decision (P d n)) ->
  Decision (forall flags data n, f = Some (flags, data, n) -> P data n).
Proof.
  intros HP. destruct f as [[[a b] c]|]; [destruct (HP b c) as [H|H]; [left|right]|left; done].
  - by intros ? ? ? [= <- <- <-].
  - intros H'. by apply H, (H' a b c).
Defined.
#[local] Instance new_dec {A} (f : option A) (P : A -> Prop) : (forall m, Decision (P m)) -> Decision (forall m, f = Some m -> P m).
Proof.
  intros HP. destruct f as [a|]; [destruct (HP a) as [H|H]; [left|right]|left; done].
  - by intros ? [= <-].
  - intros H'. by apply H, H'.
Defined.
#[local] Instance gw_event_dec mtu sp e : Decision (UdpGwProps.allowed mtu sp e).
Proof. destruct e; cbn; apply _. Defined.
#[local] Instance possible_dec c e : Decision (possible c e).
Proof. destruct e; cbn; try apply _; destruct (io c); apply _. Defined.
#[local] Instance have_client_dec (f : option BSocksClient) (P : BSocksClient -> Prop) : (forall c, Decision (P c)) ->
  Decision (exists c, f = Some c /\ P c).
Proof.
  intros HP. destruct f as [c|]; [destruct (HP c) as [H|H]; [left|right]|right].
  - by exists c.
  - by intros (c' & [= <-] & ?).
  - by intros (c' & ? & _).
Defined.
#[local] Instance gw_allowed_dec mtu o sp e : Decision (allowed mtu o sp e).
Proof. destruct e as [e|e decoder|ok]; [destruct e|..]; unfold allowed; apply _. Defined.
#[local] Instance next_dec o e (P : SocksUdpGwClient -> Prop) : (forall o', Decision (P o')) ->
  Decision (forall o' (f : list effect), step o e = Ret (o', f) -> P o').
Proof.
  intros HP. destruct (step o e) as [[o1 f1]|]; [destruct (HP o1) as [H|H]; [left|right]|left; done].
  - by intros o' f [= <- <-].
  - intros H'. by apply H, (H' o1 f1).
Defined.
#[local] Instance gw_allowed_run_dec mtu maxc o sp es : Decision (allowed_run mtu maxc o sp es).
Proof. revert o sp. induction es as [|e es IH]; intros o sp; cbn [allowed_run]; apply _. Defined.

Let ex_auths : list BSocksClient_auth_info := [BSocksClient_auth_none].
Let ex_server : BAddr := BADDR_IPV4 16777343 14340.
Let ex_dest : BAddr := BADDR_IPV4 16777226 33820.
Let local : BAddr := BADDR_IPV4 33554442 4096.
Let remote : BAddr := BADDR_IPV4 134744072 13568.
Let ex_alloc : allocation :=
  Alloc 7 (Con no_conaddr 9 9 9 9 true (BW true [1] 1 true)) (MkNode (Some 1%positive) None None 3)
    (MkNode None None None 0) (MkLink (Some 5%positive) None).
Let heap : option (nat -> Z) := Some (fun i => Z.of_nat i + 170).
Let on (e : SocksClient.event) : event := LinkEvent e true.
Let says (n : Z) : list event :=
  map on [SendPacketJob; SendOperationJob; SendDone n; SendDoneJob; SendPacketDoneJob heap].
Let hears (d : bytes) : list event := map on [RecvOperationJob; RecvDone d; RecvDoneJob heap].
Let comes_up : list event :=
  on (Connected false true heap) :: says 3 ++ hears [5; 0] ++ says 10 ++ hears [5; 0; 0; 1] ++ hears [1; 2; 3; 4; 5; 6].
Let opens : event := GwEvent (Submit (Some ex_alloc) true local remote false [65; 66; 67] 0 3).
Let answered : list event :=
  map GwEvent [WriterRecv 7 (zrep 31 0); FirstJob 7 [65; 66; 67]; Receive [0; 0; 0; 8; 8; 8; 8; 0; 53; 88; 89]].
Let sends_again : list event :=
  map GwEvent [WriterRecv 7 (zrep 31 0); Submit None true local remote false [68; 69] 0 2].

(** The gateway breaks off and the next attempt finds no memory; or the first
    attempt fails, and the second comes up and stays so. *)
Let ex_run1 : list event :=
  [opens; ReconnectTimer true] ++ comes_up ++ answered ++ [GwEvent DecoderError; ReconnectTimer false] ++ sends_again.
Let ex_run2 : list event :=
  [on (Connected true true heap); ReconnectTimer true; opens] ++ comes_up ++ answered ++ sends_again.
Let ex_start (ok : bool) : SocksUdpGwClient :=
  match SocksUdpGwClient_Init 10 1 4 ex_server ex_auths ex_dest true ok true with
  | Ret (Some o) => o
  | _ => Gateway ex_server ex_auths ex_dest (UdpGw.Client 0 0 0 0 (BAVL_Init ∅) (BAVL_Init ∅) (LinkedList1_Init ∅) 0 0 false false ∅) false false None false
  end.

Lemma gw_ex_allowed1 : allowed_run 10 1 (ex_start false) initial ex_run1.
Proof. apply (bool_decide_unpack _). by vm_compute. Qed.
Lemma gw_ex_allowed2 : allowed_run 10 1 (ex_start true) initial ex_run2.
Proof. apply (bool_decide_unpack _). by vm_compute. Qed.
Example gw_ex_effects : match exec (ex_start false) ex_run1 with Ret (_, fx) => (gw_effects fx, sent_of (link_effects fx)) | Fail _ => ([], []) end =
  ([SendPacket 7 ([2; 0; 0] ++ [8; 8; 8; 8; 0; 53] ++ [65; 66; 67]); HandlerReceived local remote [88; 89];
    SendPacket 7 ([0; 0; 0] ++ [8; 8; 8; 8; 0; 53] ++ [68; 69])],
   [5; 1; 0] ++ [5; 1; 0; 1; 10; 0; 0; 1; 28; 132]).
Proof. by vm_compute. Qed.

Lemma ex_config : config_ok 10 1 4 ex_server ex_auths ex_dest.
Proof. split; [by vm_compute|done|done|done| |done]. intros ai [->|[]%not_elem_of_nil]%elem_of_cons. by left. Qed.
Lemma ex_started ok : SocksUdpGwClient_Init 10 1 4 ex_server ex_auths ex_dest true ok true = Ret (Some (ex_start ok)).
Proof. by destruct ok; vm_compute. Qed.

Lemma gateway_link_refines_witness : exists o fx lk, exec (ex_start false) ex_run1 = Ret (o, fx) /\
  link_run ex_auths ex_dest Waiting ex_run1 (link_effects fx) lk /\ (reconnect_timer o = true <-> lk = Waiting).
Proof.
  destruct (gateway_link_refines 10 1 4 ex_server ex_auths ex_dest false true ex_run1 ex_config) as (o0 & E & H).
  assert (Eo : o0 = ex_start false) by (rewrite ex_started in E; by injection E). rewrite Eo in H.
  destruct (H gw_ex_allowed1) as (o & fx & lk & Ex & Hl & Ht & _). exists o, fx, lk. exact (conj Ex (conj Hl Ht)).
Defined.
Lemma gateway_sessions_survive_witness : exists o1 fx1 o2 fx2, exec (ex_start false) ex_run1 = Ret (o1, fx1) /\
  exec (ex_start true) ex_run2 = Ret (o2, fx2) /\ gw_effects fx1 = gw_effects fx2.
Proof.
  destruct (gateway_sessions_survive 10 1 4 ex_server ex_server ex_auths ex_auths ex_dest ex_dest false true true true ex_run1 ex_run2
    (ex_start false) (ex_start true) ex_config ex_config (ex_started false) (ex_started true) gw_ex_allowed1 gw_ex_allowed2)
    as (o1 & fx1 & o2 & fx2 & sp & E1 & E2 & Ef & _); [vm_compute; reflexivity|].
  exists o1, fx1, o2, fx2. exact (conj E1 (conj E2 Ef)).
Defined.
End example.
