(* ===== verification/LocalSpec.v ===== *)
(** * The state of a connection of the local proxy, and its handlers one by one

    [related st r segs cl out]: after the client has sent [r] and the remote the
    segments [segs], [cl] has gone to the client and [out] to the remote.  What is
    out is always a beginning of what the two streams call for ([served]), and the
    watchers are those that the state needs. *)
From S2P Require Import Prelude Crypto Http Tls Local.

(** ** Part of a buffer *)

(** The [b_len b] bytes from [off] are [l]; the buffer has the room that [recv] assumes. *)
Definition window (b : buffer) (off : Z) (l : bytes) : Prop :=
  exists a, b_data b = Some a /\ len a = b_capacity b /\ BUF_SIZE <= len a /\
    b_len b = len l /\ 0 <= off /\ off + len l <= len a /\ ztake (len l) (zdrop off a) = l.

Section windows.
Implicit Types (b : buffer) (l d : bytes).

Lemma window_len b off l : window b off l -> b_len b = len l.
Proof. by intros (a & _ & _ & _ & ? & _). Qed.
Lemma window_holds b l : window b 0 l <-> holds b l /\ BUF_SIZE <= b_capacity b.
Proof.
  unfold window, holds, buffer_ok, starts_with. split.
  - intros (a & -> & Ha & Hb & Hl & _ & Hle & He). cbn. rewrite zdrop_0 in He. pose proof (len_nonneg l).
    split; [|lia]. split_and!; try lia. exact He.
  - intros [(Hok & Hl & Hs) Hc]. destruct (b_data b) as [a|] eqn:Ea.
    + exists a. rewrite zdrop_0. cbn in Hs. split_and!; try done; lia.
    + unfold BUF_SIZE in Hc. lia.
Qed.
Lemma window_idx b off l i : window (with_idx b i) off l <-> window b off l.
Proof. done. Qed.

Lemma bytes_at_ok b off l i n : window b off l -> 0 <= i -> 0 <= n -> i + n <= len l ->
  bytes_at b (off + i) n = Ret (ztake n (zdrop i l)).
Proof.
  intros (a & Ha & _ & _ & _ & Ho & Hle & He) Hi Hn Hin. unfold bytes_at. rewrite Ha. run_simpl.
  rewrite rd_range_ok by lia. f_equal. rewrite <- He. rewrite <- (zdrop_zdrop i off) by lia.
  unfold ztake, zdrop. rewrite skipn_firstn_comm, take_take. f_equal. lia.
Qed.
Lemma bytes_at_front b l i n : window b 0 l -> 0 <= i -> 0 <= n -> i + n <= len l -> bytes_at b i n = Ret (ztake n (zdrop i l)).
Proof. apply (bytes_at_ok b 0). Qed.
Lemma bytes_at_all b off l : window b off l -> bytes_at b off (b_len b) = Ret l.
Proof.
  intros Hw. rewrite (window_len _ _ _ Hw). pose proof (len_nonneg l). replace off with (off + 0) by lia.
  rewrite (bytes_at_ok b off l) by (done || lia). by rewrite zdrop_0, ztake_all.
Qed.
Lemma byte_at_ok b l i x : window b 0 l -> l !! Z.to_nat i = Some x -> 0 <= i -> byte_at b i = Ret x.
Proof.
  intros (a & Ha & _ & _ & _ & _ & Hle & He) Hx Hi. unfold byte_at. rewrite Ha. run_simpl.
  rewrite zdrop_0 in He. rewrite <- He in Hx. unfold ztake in Hx. apply lookup_take_Some in Hx as [Hx _].
  unfold rd. ztest. by rewrite Hx.
Qed.
Lemma byte_at_any b l i : window b 0 l -> 0 <= i < BUF_SIZE -> exists x, byte_at b i = Ret x.
Proof.
  intros (a & Ha & _ & Hb & _) Hi. unfold byte_at. rewrite Ha. run_simpl.
  destruct (rd_ok a i) as (x & E & _); [lia|]. by exists x.
Qed.

(** [recv] and [memcpy] at the end of what is there. *)
Lemma window_store b l d : window b 0 l -> len l + len d <= BUF_SIZE ->
  exists b', store b (b_len b) d = Ret b' /\ window (with_len b' (b_len b + len d)) 0 (l ++ d).
Proof.
  intros (a & Ha & Hc & Hb & Hl & _ & Hle & He) Hd. unfold store. rewrite Ha. run_simpl. rewrite Hl. rewrite zdrop_0 in He.
  destruct (wr_range_extend l d a (len l)) as (a' & -> & Hs & Hla); [done|done|lia|]. run_simpl.
  eexists. split; [done|]. exists a'. cbn. rewrite zdrop_0, len_app. pose proof (len_nonneg l). pose proof (len_nonneg d).
  split_and!; try done; try lia. rewrite <- len_app. exact Hs.
Qed.
Lemma store_capacity b off d b' : store b off d = Ret b' -> b_capacity b' = b_capacity b.
Proof. unfold store. destruct (b_data b) as [a|]; [|done]. run_simpl. destruct (wr_range a off d); [by intros [= <-]|done]. Qed.
Lemma put_ok b l d : window b 0 l -> len l + len d <= BUF_SIZE -> exists b', put b d = Ret b' /\ window b' 0 (l ++ d).
Proof. intros Hw Hd. destruct (window_store b l d Hw Hd) as (b' & E & Hw'). unfold put. rewrite E. run_simpl. by eexists. Qed.
Lemma store_front b off l d : window b off l -> len d <= BUF_SIZE ->
  exists b', store b 0 d = Ret b' /\ window (with_len b' (len d)) 0 d.
Proof.
  intros (a & Ha & Hc & Hb & _) Hd. unfold store. rewrite Ha. run_simpl.
  destruct (wr_range_extend [] d a 0) as (a' & -> & Hs & Hla); [apply starts_with_nil|done|change (len (@nil Z)) with 0; lia|]. run_simpl.
  eexists. split; [done|]. exists a'. cbn. rewrite zdrop_0. pose proof (len_nonneg d). split_and!; try done; lia.
Qed.
Lemma window_prefix b l k : window b 0 (l ++ k) -> window (with_len b (len l)) 0 l.
Proof.
  intros (a & Ha & Hc & Hb & Hl & _ & Hle & He). exists a. cbn. rewrite len_app in *. pose proof (len_nonneg k). pose proof (len_nonneg l).
  split_and!; try done; try lia. rewrite zdrop_0 in *. rewrite <- (ztake_app_exact (len l) l k) at 2 by done. rewrite <- He.
  rewrite ztake_ztake. f_equal. lia.
Qed.
Lemma window_nil b off l : window b off l -> window (with_len b 0) 0 [].
Proof. intros (a & Ha & Hc & Hb & _). exists a. cbn. change (len (@nil Z)) with 0. split_and!; try done; unfold BUF_SIZE in *; lia. Qed.
Lemma window_shift b l k : window b 0 (l ++ k) ->
  exists b', shift (with_len b (len k)) (len l) = Ret b' /\ window b' 0 k.
Proof.
  intros Hw. pose proof Hw as (a & Ha & Hc & Hb & Hl & _ & Hle & He). unfold shift. rewrite len_app in *. pose proof (len_nonneg k). pose proof (len_nonneg l).
  assert (E : bytes_at (with_len b (len k)) (len l) (len k) = Ret k).
  { change (bytes_at b (0 + len l) (len k) = Ret k). rewrite (bytes_at_ok b 0 (l ++ k)) by (rewrite ?len_app; done || lia).
    by rewrite zdrop_app_exact, ztake_all. }
  cbn [b_len with_len]. rewrite E. run_simpl. unfold store. cbn [b_data with_len]. rewrite Ha. run_simpl.
  destruct (wr_range_extend [] k a 0) as (a' & -> & Hs & Hla); [apply starts_with_nil|done|change (len (@nil Z)) with 0; lia|]. run_simpl.
  eexists. split; [done|]. exists a'. cbn. rewrite zdrop_0. split_and!; try done; lia.
Qed.
(** What [send] has taken leaves the front. *)
Lemma window_advance b off l1 l2 : window b off (l1 ++ l2) ->
  window (with_idx (with_len b (b_len b - len l1)) (off + len l1)) (off + len l1) l2.
Proof.
  intros (a & Ha & Hc & Hb & Hl & Ho & Hle & He). rewrite len_app in *. pose proof (len_nonneg l1). pose proof (len_nonneg l2).
  exists a. cbn. split_and!; try done; try lia. rewrite <- (zdrop_zdrop (len l1) off) by lia.
  rewrite <- (zdrop_app_exact (len l1) l1 l2) at 2 by done. rewrite <- He.
  unfold ztake, zdrop. rewrite skipn_firstn_comm. f_equal. lia.
Qed.
End windows.

Lemma new_buffer_window junk : window (fst (balloc junk BUF_SIZE)) 0 [].
Proof.
  exists (fresh junk BUF_SIZE). cbn. rewrite len_fresh by done. change (len (@nil Z)) with 0. unfold BUF_SIZE. by split_and!.
Qed.
Lemma memcpy_shift (a : bytes) l n : starts_with l a -> 0 <= n -> n + len l <= len a ->
  exists a', memcpy a n a 0 (len l) = Ret a' /\ len a' = len a /\ ztake (len l) (zdrop n a') = l.
Proof.
  intros Hs Hn Hl. unfold memcpy. pose proof (len_nonneg l). rewrite rd_range_front by lia. run_simpl. unfold starts_with in Hs. rewrite Hs.
  rewrite wr_range_ok by lia. eexists. split; [done|].
  assert (Hlt : len (ztake n a) = n) by (apply len_ztake; lia).
  split; [rewrite !len_app, Hlt, len_zdrop by lia; lia|].
  rewrite zdrop_app_exact by lia. by apply ztake_app_exact.
Qed.
Lemma bprepend_ok junk b a l k : window b 0 l -> window a 0 k ->
  exists b' n, bprepend junk b a BUF_SIZE = Ret (b', n) /\ window b' 0 (k ++ l).
Proof.
  intros [Hb Hbc]%window_holds (ka & Ha & _ & _ & Hal & _ & Hale & Hk). rewrite zdrop_0 in Hk.
  unfold bprepend. rewrite (proj1 (proj2 Hb)), Hal, Ha. pose proof (len_nonneg k). pose proof (len_nonneg l).
  destruct (grow_spec junk b l (len l + len k) BUF_SIZE Hb) as ((Hok & Hlen & Hs) & d & Hd & Hdc & Hmax & Hcap); [done|].
  rewrite Hd in *. cbn in Hs. run_simpl. rewrite Hlen.
  destruct (memcpy_shift d l (len k) Hs) as (d1 & -> & Hd1 & Hmid); [lia|lia|]. run_simpl.
  unfold memcpy. rewrite rd_range_front by lia. run_simpl. rewrite Hk.
  rewrite wr_range_ok by lia. run_simpl. eexists _, _. split; [done|]. cbn [with_len with_data b_len].
  eexists. cbn. split; [done|]. rewrite ztake_0, zdrop_0. cbn [app]. rewrite !Z.add_0_l, !len_app, len_zdrop by lia.
  split_and!; try lia. rewrite ztake_app_r by lia. f_equal. replace (len k + len l - len k) with (len l) by lia. exact Hmid.
Qed.

(** ** The cipher as the handlers use it *)

(** A context that is sound seals what it is given, and stays sound; a receiving
    one opens, waits for more or refuses.  [sealed e m w e']: [m] becomes [w];
    [opened d x m d']: [m] is what the bytes [x] complete. *)
Class TcpCryptoLaws (C : Type) {T : TcpCrypto C} := {
  enc_ok : C -> Prop;
  dec_ok : C -> Prop;
  sealed : C -> bytes -> bytes -> C -> Prop;
  opened : C -> bytes -> bytes -> C -> Prop;
  encrypt_law b e m : enc_ok e -> window b 0 m -> len m <= BUF_SIZE ->
    exists code b' e', crypto_encrypt b e = Ret (code, b', e') /\
      (code = 0 -> enc_ok e' /\ exists w, window b' 0 w /\ sealed e m w e');
  decrypt_law b d x : dec_ok d -> window b 0 x ->
    exists code b' d', crypto_decrypt b d = Ret (code, b', d') /\
      (code = CRYPTO_ERROR \/
       (code = CRYPTO_NEED_MORE /\ dec_ok d' /\ opened d x [] d' /\ exists l, window b' 0 l) \/
       (code = CRYPTO_OK /\ dec_ok d' /\ exists m, window b' 0 m /\ opened d x m d')) }.

Section runs.
Context {C : Type} `{TcpCryptoLaws C}.
Fixpoint seal_run (e : C) (ms ws : list bytes) (e' : C) : Prop :=
  match ms, ws with
  | [], [] => e' = e
  | m :: ms, w :: ws => exists e1, sealed e m w e1 /\ seal_run e1 ms ws e'
  | _, _ => False
  end.
Fixpoint open_run (d : C) (xs ms : list bytes) (d' : C) : Prop :=
  match xs, ms with
  | [], [] => d' = d
  | x :: xs, m :: ms => exists d1, opened d x m d1 /\ open_run d1 xs ms d'
  | _, _ => False
  end.
Lemma seal_run_snoc e ms ws e1 m w e' : seal_run e ms ws e1 -> sealed e1 m w e' -> seal_run e (ms ++ [m]) (ws ++ [w]) e'.
Proof.
  revert e ws. induction ms as [|m0 ms IH]; intros e [|w0 ws]; cbn; try done; [intros ->; by exists e'|].
  intros (e2 & ? & ?) ?. exists e2. eauto.
Qed.
Lemma open_run_snoc d xs ms d1 x m d' : open_run d xs ms d1 -> opened d1 x m d' -> open_run d (xs ++ [x]) (ms ++ [m]) d'.
Proof.
  revert d ms. induction xs as [|x0 xs IH]; intros d [|m0 ms]; cbn; try done; [intros ->; by exists d'|].
  intros (d2 & ? & ?) ?. exists d2. eauto.
Qed.
End runs.

(** ** What the client's bytes call for *)

(** After the greeting (version, number of methods, methods) comes [x]. *)
Definition rest (r x : bytes) : Prop :=
  exists g, r = g ++ x /\ match g with v :: n :: _ => v = SVERSION -> len g = n + 2 | _ => False end.
(** An address in the format of SOCKS, of the type [atyp]. *)
Definition address_ok (atyp : Z) (addr : bytes) : Prop :=
  (atyp = 1 /\ len addr = 6) \/ (atyp = 4 /\ len addr = 18) \/
  (atyp = 3 /\ exists n tail, addr = n :: tail /\ len tail = n + 2).
Definition port_bytes (addr : bytes) : bytes := zdrop (len addr - 2) addr.
Definition port_of (addr : bytes) : Z := of_be 0 (port_bytes addr).
(** The header for the Shadowsocks server: the address asked for or the name
    found in the first bytes [p]. *)
Definition header_ok (atyp : Z) (addr p hdr : bytes) : Prop :=
  hdr = atyp :: addr \/
  ((atyp = 1 \/ atyp = 4) /\ exists ret h mem name, parse_packet (port_of addr) p mem = Ret (ret, Some h) /\
     0 < ret /\ name = ztake ret h /\ len name = ret /\ hdr = 3 :: u8 ret :: name ++ port_bytes addr).
(** [x] asks for a connection, with the header [hdr] and then the bytes [pay]. *)
Definition request (x hdr pay : bytes) : Prop :=
  exists v rsv atyp addr p pay', x = [v; 1; rsv; atyp] ++ addr ++ pay /\ address_ok atyp addr /\
    pay = p ++ pay' /\ header_ok atyp addr p hdr.

Lemma rest_app r x d : rest r x -> rest (r ++ d) (x ++ d).
Proof. intros (g & -> & Hg). exists g. by rewrite app_assoc. Qed.
Lemma rest_bytes r x : rest r x -> bytes_ok r -> bytes_ok x.
Proof. by intros (g & -> & _) [_ ?]%bytes_ok_app. Qed.
Lemma request_app x hdr pay d : request x hdr pay -> request (x ++ d) hdr (pay ++ d).
Proof.
  intros (v & rsv & atyp & addr & p & pay' & -> & Ha & -> & Hh). exists v, rsv, atyp, addr, p, (pay' ++ d). split_and!; try done.
  - by rewrite <- !app_assoc.
  - by rewrite app_assoc.
Qed.

(** ** The parsers of the request *)

Lemma parse_packet_ok port d mem : bytes_ok d -> len d <= BUF_SIZE -> exists ret h, parse_packet port d mem = Ret (ret, h) /\
  (ret <= 0 \/ 0 < ret < len d /\ exists s, h = Some s /\ ret <= len s).
Proof.
  intros Hd Hl. unfold parse_packet. destruct (port =? 80); [|destruct (port =? 443)].
  - destruct (parse_http_header_total d (Some tt) mem) as (c & h & -> & Hc); [unfold INT_MAX, BUF_SIZE in *; lia|].
    exists c, h. split; [done|]. destruct Hc as [?|(? & s & -> & Hs)]; [left; lia|].
    destruct (decide (c <= 0)); [by left|]. right. split; [lia|]. exists s. split; [done|].
    apply lookup_lt_Some in Hs. unfold len. lia.
  - destruct (parse_tls_header_total d (Some tt) mem Hd) as (c & h & -> & Hc). exists c, h. split; [done|].
    destruct Hc as [?|(? & s & -> & Hs)]; [left; lia|]. destruct (decide (c <= 0)); [by left|]. right. split; [lia|].
    exists (s ++ [0]). split; [done|]. rewrite len_app. change (len [0]) with 1. lia.
  - exists 0, None. split; [done|]. by left.
Qed.
Lemma len_address atyp addr : bytes_ok addr -> address_ok atyp addr -> 2 <= len addr <= 258.
Proof.
  intros Hb [(_ & ->)|[(_ & ->)|(_ & n & tl & -> & Hl)]]; [lia|lia|]. apply Forall_cons_iff in Hb as [Hn _]. unfold byte_ok in Hn.
  rewrite len_cons. lia.
Qed.
(** The length byte of a domain name is there, and all of the address but its last byte. *)
Definition cut_short (atyp : Z) (body : bytes) : Prop := atyp = 3 /\ exists n tl, body = n :: tl /\ len tl = n + 1.

Section parsing.
Context {C : Type} `{TcpCryptoLaws C} (junk : nat -> Z) (logging : bool).

Lemma fill_host_ok name : (logging = true -> len name <= 256) -> fill_host junk logging name = Ret tt.
Proof.
  intros Hl. unfold fill_host. destruct logging; [|done]. specialize (Hl eq_refl). cbn [negb]. pose proof (len_nonneg name).
  rewrite wr_range_ok by (rewrite ?len_fresh; lia). run_simpl. unfold wr.
  rewrite wr_range_ok; [done|done|]. rewrite !len_app, ztake_0, len_zdrop by (rewrite ?len_fresh; lia).
  rewrite len_fresh by done. change (len [0]) with 1. change (len (@nil Z)) with 0. lia.
Qed.

Lemma copy_address_ok b a v c rsv atyp body : window b 0 ([v; c; rsv; atyp] ++ body) -> window a 0 [atyp] ->
  bytes_ok body -> len body <= BUF_SIZE - 4 -> ~ cut_short atyp body ->
  exists r, copy_address junk logging b a atyp = Ret r /\ forall a', r = Some (Some a') ->
    exists addr pay, body = addr ++ pay /\ address_ok atyp addr /\ window a' 0 (atyp :: addr).
Proof.
  intros Hb Ha Hbody Hlen Hcut. pose proof (window_len _ _ _ Hb) as Hbl. rewrite len_app in Hbl. change (len [v; c; rsv; atyp]) with 4 in Hbl.
  pose proof (len_nonneg body). unfold BUF_SIZE in Hlen.
  assert (Hcopy : forall n, 0 <= n <= 18 -> n <= len body -> exists a', put a (ztake n body) = Ret a' /\ window a' 0 (atyp :: ztake n body)).
  { intros n Hn Hnl. apply (put_ok a [atyp] (ztake n body) Ha). change (len [atyp]) with 1. rewrite len_ztake by lia. unfold BUF_SIZE. lia. }
  assert (Hread : forall i n, 0 <= i -> 0 <= n -> i + n <= len body -> bytes_at b (4 + i) n = Ret (ztake n (zdrop i body))).
  { intros i n Hi Hn Hin. rewrite (bytes_at_front b _ (4 + i) n Hb) by (rewrite ?len_app; change (len [v; c; rsv; atyp]) with 4; lia).
    rewrite zdrop_app_r by (change (len [v; c; rsv; atyp]) with 4; lia). change (len [v; c; rsv; atyp]) with 4. by replace (4 + i - 4) with i by lia. }
  unfold copy_address. rewrite Hbl.
  destruct (Z.eqb_spec atyp 1) as [->|_]; [|destruct (Z.eqb_spec atyp 3) as [->|_]; [|destruct (Z.eqb_spec atyp 4) as [->|_]]].
  - destruct (Z.ltb_spec (4 + len body) (4 + 4 + 2)); [by eexists|]. change 4 with (4 + 0) at 1. rewrite Hread by lia. run_simpl.
    rewrite zdrop_0. destruct (Hcopy 6) as (a' & -> & Hw); [lia|lia|]. run_simpl. eexists. split; [done|]. intros ? [= <-].
    exists (ztake 6 body), (zdrop 6 body). rewrite ztake_zdrop. split_and!; try done. left. rewrite len_ztake by lia. done.
  - destruct (byte_at_any b _ 4 Hb) as (n0 & En); [unfold BUF_SIZE; lia|]. rewrite En. run_simpl.
    pose proof (Z.mod_pos_bound n0 256 ltac:(lia)) as Hn0. fold (u8 n0) in Hn0.
    destruct (Z.ltb_spec (4 + len body) (4 + u8 n0 + 2)); [by eexists|].
    destruct body as [|n tl]; [change (len (@nil Z)) with 0 in *; lia|]. apply Forall_cons_iff in Hbody as [Hn Htl].
    rewrite (byte_at_ok b _ 4 n Hb) in En by done. injection En as <-. rewrite u8_small in * by done. rewrite len_cons in *.
    assert (len tl <> n + 1) by (intros ?; apply Hcut; split; [done|]; by exists n, tl). unfold byte_ok in Hn.
    destruct (put_ok a [3] [n] Ha) as (a1 & -> & Hw1); [done|]. run_simpl. cbn [app] in Hw1.
    assert (Htl' : forall k, 0 <= k <= len tl -> bytes_at b 5 k = Ret (ztake k tl)).
    { intros k Hk. change 5 with (4 + 1). by rewrite Hread by (rewrite ?len_cons; lia). }
    rewrite (Htl' (n + 2)) by lia. run_simpl. destruct (put_ok a1 [3; n] (ztake (n + 2) tl) Hw1) as (a2 & -> & Hw2).
    { change (len [3; n]) with 2. rewrite len_ztake by lia. unfold BUF_SIZE. lia. }
    run_simpl. rewrite (Htl' n) by lia. run_simpl. rewrite fill_host_ok by (rewrite len_ztake; lia). run_simpl.
    eexists. split; [done|]. intros ? [= <-]. exists (n :: ztake (n + 2) tl), (zdrop (n + 2) tl). split_and!; [|right; right|done].
    + cbn. by rewrite ztake_zdrop.
    + split; [done|]. eexists _, _. split; [done|]. rewrite len_ztake; lia.
  - destruct (Z.ltb_spec (4 + len body) (4 + 16 + 2)); [by eexists|]. change 4 with (4 + 0) at 1. rewrite Hread by lia. run_simpl.
    rewrite zdrop_0. destruct (Hcopy 18) as (a' & -> & Hw); [lia|lia|]. run_simpl. eexists. split; [done|]. intros ? [= <-].
    exists (ztake 18 body), (zdrop 18 body). rewrite ztake_zdrop. split_and!; try done. right; left. rewrite len_ztake by lia. done.
  - by eexists.
Qed.

Lemma port_ok a atyp addr : window a 0 (atyp :: addr) -> 2 <= len addr -> bytes_at a (b_len a - 2) 2 = Ret (port_bytes addr).
Proof.
  intros Ha Hl. rewrite (window_len _ _ _ Ha), len_cons. 
  rewrite (bytes_at_front a _ _ _ Ha) by (rewrite ?len_cons; lia). unfold port_bytes. f_equal.
  change (atyp :: addr) with ([atyp] ++ addr). rewrite zdrop_app_r by (change (len [atyp]) with 1; lia). change (len [atyp]) with 1.
  replace (1 + len addr - 2 - 1) with (len addr - 2) by lia. apply ztake_all. rewrite len_zdrop; lia.
Qed.
Lemma sniff_ok b a v c rsv atyp addr pay mem : window b 0 ([v; c; rsv; atyp] ++ addr ++ pay) -> window a 0 (atyp :: addr) -> 2 <= len addr ->
  sniff b a mem = parse_packet (port_of addr) pay mem.
Proof.
  intros Hb Ha Hl. unfold sniff. rewrite (port_ok a atyp addr Ha Hl). run_simpl. rewrite (window_len _ _ _ Ha), (window_len _ _ _ Hb), len_cons.
  rewrite !len_app. change (len [v; c; rsv; atyp]) with 4. pose proof (len_nonneg pay).
  replace (4 + (len addr + len pay) - 3 - (1 + len addr)) with (len pay) by lia.
  rewrite (bytes_at_front b _ _ _ Hb) by (rewrite ?len_app; change (len [v; c; rsv; atyp]) with 4; lia).
  run_simpl. rewrite app_assoc, zdrop_app_exact by (rewrite len_app; change (len [v; c; rsv; atyp]) with 4; lia). by rewrite ztake_all.
Qed.
Lemma name_address_ok a atyp addr ret h : window a 0 (atyp :: addr) -> 2 <= len addr -> 0 < ret <= len h -> ret + 4 <= BUF_SIZE ->
  (logging = true -> ret <= 256) ->
  exists a', name_address junk logging a ret (Some h) = Ret a' /\ window a' 0 (3 :: u8 ret :: ztake ret h ++ port_bytes addr).
Proof.
  intros Ha Hl Hr Hfit Hlog. unfold name_address. rewrite (port_ok a atyp addr Ha Hl). run_simpl. rewrite rd_range_front by lia. run_simpl.
  assert (Hn : len (ztake ret h) = ret) by (apply len_ztake; lia).
  assert (Hp : len (port_bytes addr) = 2) by (unfold port_bytes; rewrite len_zdrop; lia).
  destruct (put_ok _ [] [3] (window_nil _ _ _ Ha)) as (a1 & -> & H1); [done|]. run_simpl. cbn [app] in H1.
  destruct (put_ok a1 [3] [u8 ret] H1) as (a2 & -> & H2); [done|]. run_simpl. cbn [app] in H2.
  destruct (put_ok a2 [3; u8 ret] (ztake ret h) H2) as (a3 & -> & H3); [change (len [3; u8 ret]) with 2; lia|]. run_simpl.
  destruct (put_ok a3 _ (port_bytes addr) H3) as (a4 & -> & H4); [rewrite len_app; change (len [3; u8 ret]) with 2; lia|]. run_simpl.
  rewrite fill_host_ok by (intros ?; rewrite Hn; auto). run_simpl. exists a4. split; [done|]. by rewrite <- app_assoc in H4.
Qed.
End parsing.
