(* ===== verification/LocalSteps.v ===== *)
(** * The handlers of the local proxy keep what the two streams call for

    [related st r segs fx]: the client has sent [r], the remote the segments
    [segs], and the effects so far are [fx].  Each handler is a lemma: it does not
    fault and [related] holds again. *)
From S2P Require Import Prelude Crypto Http Tls Local LocalSpec.

(** ** What the effects say *)

Definition to_client (fx : list effect) : bytes := flat_map (fun f => match f with ToClient d => d | _ => [] end) fx.
Definition to_remote (fx : list effect) : bytes := flat_map (fun f => match f with ToRemote d => d | _ => [] end) fx.
Definition is_reply (f : effect) : Prop := match f with ToClient _ => True | _ => False end.
Definition is_relay (f : effect) : Prop := match f with ToClient _ | ToRemote _ | ConnectRemote => True | _ => False end.
Lemma to_client_app fx gx : to_client (fx ++ gx) = to_client fx ++ to_client gx.
Proof. apply flat_map_app. Qed.
Lemma to_remote_app fx gx : to_remote (fx ++ gx) = to_remote fx ++ to_remote gx.
Proof. apply flat_map_app. Qed.

(** Take the connection apart. *)
Ltac conn_simpl := unfold recv_buf; cbn [c_server c_remote]; run_simpl.

Section steps.
Context {C : Type} `{TcpCryptoLaws C} (junk : nat -> Z) (logging fast_open may_bypass : bool) (e0 d0 : C).
Context (He0 : enc_ok e0) (Hd0 : dec_ok d0).
Implicit Types (st : conn C) (s : server_t C) (q : remote_t) (r up down total : bytes) (segs : list bytes).

(** ** The streams *)

(** [total] is what the remote is to get for [r]: the payload itself on a direct
    connection, the sealed header and payload on another. *)
Definition upstream (r : bytes) (direct : bool) (e : C) (total : bytes) : Prop :=
  exists x hdr pay, rest r x /\ request x hdr pay /\
    if direct then total = pay else exists ms ws, seal_run e0 (hdr :: ms) ws e /\ concat ms = pay /\ total = concat ws.
(** [total] is what the client is to get for [segs]. *)
Definition downstream (segs : list bytes) (direct : bool) (d : C) (total : bytes) : Prop :=
  if direct then total = concat segs else exists ms, open_run d0 segs ms d /\ total = concat ms.

(** Only an access list makes a connection direct ([may_bypass]). *)
Definition kept r segs (post : list effect) : Prop := exists direct, (direct = true -> may_bypass = true) /\
  (to_remote post = [] \/ exists r' e total, r' `prefix_of` r /\ upstream r' direct e total /\ to_remote post `prefix_of` total) /\
  exists segs' d total, segs' `prefix_of` segs /\ downstream segs' direct d total /\ to_client post `prefix_of` total.

(** Replies only; a connection that was relayed; and how either ends. *)
Inductive served r segs : bool -> list effect -> Prop :=
  | served_waiting pre : Forall is_reply pre -> served r segs false pre
  | served_refused pre : Forall is_reply pre -> served r segs true (pre ++ [CloseServer])
  | served_relayed pre post : Forall is_reply pre -> Forall is_relay post -> kept r segs post -> served r segs false (pre ++ OpenRemote :: post)
  | served_ended pre post : Forall is_reply pre -> Forall is_relay post -> kept r segs post ->
      served r segs true (pre ++ OpenRemote :: post ++ [CloseRemote; CloseServer]).

(** ** The states *)

Definition stage_ok s r x : Prop :=
  match stage s with
  | STAGE_INIT => x = r
  | STAGE_HANDSHAKE => rest r x
  | STAGE_PARSE => rest r x /\ x !! 1%nat = Some 1
  | _ => False
  end.
Definition fresh_server s : Prop :=
  e_ctx s = e0 /\ d_ctx s = d0 /\ s_recv_io s = true /\ s_send_io s = false /\ delayed_connect s = false /\
  exists a l, abuf s = Some a /\ window a 0 l.
Definition waiting st r : Prop := exists s x, st = Conn (Some s) None /\ fresh_server s /\
  window (sbuf s) 0 x /\ len x <= BUF_SIZE /\ stage_ok s r x.

(** Before the delayed connection: the sealed header is apart from the payload. *)
Definition opening_ok s q r : Prop := stage s = STAGE_STREAM /\
  d_ctx s = d0 /\ s_recv_io s = true /\ s_send_io s = false /\ (exists l, window (sbuf s) 0 l) /\
  send_connected q = false /\ r_recv_io q = false /\ r_send_io q = false /\ (direct q = true -> may_bypass = true) /\
  exists a x hdr pay,
  rest r x /\ request x hdr pay /\ window (rbuf q) 0 pay /\ len pay <= BUF_SIZE /\ abuf s = Some a /\
  (direct q = false -> exists hw, window a 0 hw /\ sealed e0 hdr hw (e_ctx s) /\ enc_ok (e_ctx s)).
Definition opening st r : Prop := exists s q, st = Conn (Some s) (Some q) /\ delayed_connect s = true /\ opening_ok s q r.

(** While data flows: what is not out yet is in a buffer, and the side it comes
    from is not read before it is out. *)
Definition up_ok s q r up : Prop := (direct q = true -> may_bypass = true) /\ exists pend,
  upstream r (direct q) (e_ctx s) (up ++ pend) /\ window (rbuf q) (b_idx (rbuf q)) pend /\
  (direct q = false -> abuf s = None /\ enc_ok (e_ctx s)) /\
  ((r_send_io q = true /\ s_recv_io s = false) \/
   (r_send_io q = false /\ s_recv_io s = true /\ send_connected q = true /\ pend = [])).
Definition down_ok s q segs down : Prop := exists pend,
  downstream segs (direct q) (d_ctx s) (down ++ pend) /\ (direct q = false -> dec_ok (d_ctx s)) /\
  (if s_send_io s then r_recv_io q = false /\ window (sbuf s) (b_idx (sbuf s)) pend
   else pend = [] /\ exists off l, window (sbuf s) off l) /\
  (send_connected q = false -> s_send_io s = false /\ r_recv_io q = false).
Definition relaying st r segs up down : Prop := exists s q, st = Conn (Some s) (Some q) /\
  stage s = STAGE_STREAM /\ delayed_connect s = false /\ up_ok s q r up /\ down_ok s q segs down.

Inductive related st r segs : list effect -> Prop :=
  | related_waiting pre : waiting st r -> segs = [] -> Forall is_reply pre -> related st r segs pre
  | related_opening pre : opening st r -> segs = [] -> Forall is_reply pre -> related st r segs (pre ++ [OpenRemote])
  | related_relaying pre post : Forall is_reply pre -> Forall is_relay post ->
      relaying st r segs (to_remote post) (to_client post) -> related st r segs (pre ++ OpenRemote :: post)
  | related_closed fx : st = Conn None None -> served r segs true fx -> related st r segs fx.

(** A handler that succeeds and keeps [related]. *)
Definition keeps (res : run (conn C * list effect)) r segs (fx : list effect) : Prop :=
  exists st f, res = Ret (st, f) /\ related st r segs (fx ++ f).

(** ** Closing *)

Lemma kept_related s q r segs post : up_ok s q r (to_remote post) -> down_ok s q segs (to_client post) -> kept r segs post.
Proof.
  intros (Hby & pu & Hu & _) (pd & Hd & _). exists (direct q). split; [done|]. split.
  - right. exists r, (e_ctx s), (to_remote post ++ pu). split_and!; [done|done|by apply prefix_app_r].
  - exists segs, (d_ctx s), (to_client post ++ pd). split_and!; [done|done|by apply prefix_app_r].
Qed.
Lemma kept_more r segs post r' segs' : kept r segs post -> r `prefix_of` r' -> segs `prefix_of` segs' -> kept r' segs' post.
Proof.
  intros (dr & Hby & Hu & segs0 & d & t & Hs & Hd & Ht) Hr Hss. exists dr. split; [done|]. split.
  - destruct Hu as [?|(r0 & e & u & Hr0 & ? & ?)]; [by left|]. right. exists r0, e, u. split_and!; [by etrans|done|done].
  - exists segs0, d, t. split_and!; [by etrans|done|done].
Qed.
(** More relayed effects that send nothing. *)
Lemma kept_silent r segs post f : kept r segs post -> to_client f = [] -> to_remote f = [] -> kept r segs (post ++ f).
Proof. intros Hk Hc Hr. unfold kept in *. by rewrite to_client_app, to_remote_app, Hc, Hr, !app_nil_r. Qed.
Lemma close_relayed q s r segs pre post : Forall is_reply pre -> Forall is_relay post -> kept r segs post ->
  keeps (close_both (Some q) (Some s)) r segs (pre ++ OpenRemote :: post).
Proof.
  intros Hpre Hpost Hk. eexists _, _. split; [done|]. apply related_closed; [done|]. rewrite <- app_assoc. cbn [app].
  by apply served_ended.
Qed.
Lemma close_waiting s r segs pre : Forall is_reply pre -> keeps (close_both None (Some s)) r segs pre.
Proof. intros Hpre. eexists _, _. split; [done|]. apply related_closed; [done|]. by apply served_refused. Qed.
Lemma keeps_bind (fx0 : list effect) (res : run (conn C * list effect)) r segs fx : keeps res r segs (fx ++ fx0) ->
  keeps ('(st, f) ← res; Ret (st, fx0 ++ f)) r segs fx.
Proof. intros (st & f & -> & Hrel). eexists _, _. split; [done|]. by rewrite app_assoc. Qed.

(** What [send] takes and what it leaves. *)
Lemma send_split n (d : bytes) : exists l, d = take n d ++ l /\ ((len (take n d) <? len d) = false -> l = []).
Proof.
  exists (drop n d). split; [by rewrite take_drop|]. intros Hl%Z.ltb_ge. apply drop_ge. unfold len in Hl. rewrite length_take in Hl. lia.
Qed.

(** ** Sending to the remote *)

Lemma kept_nil r segs : kept r segs [].
Proof. exists false. split; [done|]. split; [by left|]. exists [], d0, []. split_and!; [apply prefix_nil|by exists []|apply prefix_nil]. Qed.

(** The state [connect_or_send] starts from: nothing of [p] is sent yet. *)
Definition sending s q r segs (post : list effect) (p : bytes) : Prop :=
  stage s = STAGE_STREAM /\ delayed_connect s = false /\ s_recv_io s = true /\ r_send_io q = false /\ (direct q = true -> may_bypass = true) /\
  upstream r (direct q) (e_ctx s) (to_remote post ++ p) /\ window (rbuf q) 0 p /\
  (direct q = false -> abuf s = None /\ enc_ok (e_ctx s)) /\ down_ok s q segs (to_client post).

Lemma relays_keep st f r segs pre post : Forall is_reply pre -> Forall is_relay post -> Forall is_relay f ->
  relaying st r segs (to_remote (post ++ f)) (to_client (post ++ f)) -> related st r segs ((pre ++ OpenRemote :: post) ++ f).
Proof. intros Hpre Hpost Hf Hst. rewrite <- app_assoc. cbn [app]. apply related_relaying; [done|by apply Forall_app|done]. Qed.

(** The remote waits for room: [sent] is out, [pend] is in the buffer. *)
Lemma wait_ok s q r segs pre post sent pend t f b : Forall is_reply pre -> Forall is_relay post ->
  sending s q r segs post (sent ++ pend) -> Forall is_relay f -> to_client f = [] -> to_remote f = sent ->
  window b (b_idx b) pend -> keeps (wait_for_room s (set_rbuf b q) t f) r segs (pre ++ OpenRemote :: post).
Proof.
  intros Hpre Hpost (Hst & Hdel & Hrio & Hsio & Hby & Hup & Hw & He & Hdown) Hf Hc Hr Hb. eexists _, _. split; [done|].
  apply relays_keep; [done..|]. rewrite to_client_app, to_remote_app, Hc, Hr, app_nil_r. eexists _, _.
  split_and!; [done|done|done| |exact Hdown]. split; [done|]. exists pend. rewrite <- app_assoc. split_and!; try done. by left.
Qed.
Lemma close_sending s q r segs pre post p f : Forall is_reply pre -> Forall is_relay post ->
  sending s q r segs post p -> Forall is_relay f -> to_client f = [] -> (exists l, p = to_remote f ++ l) -> forall q' s',
  keeps ('(st, fx) ← close_both (Some q') (Some s'); Ret (st, f ++ fx)) r segs (pre ++ OpenRemote :: post).
Proof.
  intros Hpre Hpost (_ & _ & _ & _ & Hby & Hup & _ & _ & (pd & Hd & _)) Hf Hc (l & ->) q' s'. apply keeps_bind. rewrite <- app_assoc.
  apply close_relayed; [done|by apply Forall_app|]. exists (direct q). split; [done|]. rewrite to_client_app, to_remote_app, Hc, app_nil_r. split.
  - right. eexists r, _, _. split_and!; [done|exact Hup|]. rewrite app_assoc. by apply prefix_app_r.
  - eexists segs, _, _. split_and!; [done|exact Hd|]. by apply prefix_app_r.
Qed.
Lemma leftover_window b l1 l2 : window b 0 (l1 ++ l2) -> window (leftover b (len l1)) (b_idx (leftover b (len l1))) l2.
Proof. intros Hw%window_advance. by rewrite Z.add_0_l in Hw. Qed.

Lemma connect_or_send_ok s q k r segs pre post p : Forall is_reply pre -> Forall is_relay post -> sending s q r segs post p ->
  keeps (connect_or_send fast_open s q k) r segs (pre ++ OpenRemote :: post).
Proof.
  intros Hpre Hpost Hs. pose proof Hs as (Hst & Hdel & Hrio & Hsio & Hby & Hup & Hw & He & Hdown).
  assert (Hnone : forall t f, Forall is_relay f -> to_client f = [] -> to_remote f = [] ->
    keeps (wait_for_room s (set_rbuf (with_idx (rbuf q) 0) q) t f) r segs (pre ++ OpenRemote :: post)).
  { intros t f Hf Hc Hr. by eapply (wait_ok s q r segs pre post [] p). }
  assert (Hclose : forall f, Forall is_relay f -> to_client f = [] -> to_remote f = [] -> forall q' s',
    keeps ('(st, fx) ← close_both (Some q') (Some s'); Ret (st, f ++ fx)) r segs (pre ++ OpenRemote :: post)).
  { intros f Hf Hc Hr. eapply close_sending; try done. exists p. by rewrite Hr. }
  unfold connect_or_send. destruct (send_connected q) eqn:Econ; cbn [negb].
  - rewrite (bytes_at_all _ _ _ Hw). run_simpl. rewrite (window_len _ _ _ Hw). destruct (k_send k) as [n| |]; cbn [accepted send_value].
    + destruct (send_split n p) as (l & Hp & Hl). destruct (_ <? _) eqn:Elt.
      * rewrite Hp in Hs, Hw. apply (wait_ok s q r segs pre post (take n p) l); try done; [by repeat constructor|cbn; by rewrite app_nil_r|by apply leftover_window].
      * specialize (Hl eq_refl). subst l. rewrite app_nil_r in Hp. rewrite <- Hp. eexists _, _. split; [done|].
        apply relays_keep; [done|done|by repeat constructor|]. eexists _, _. split_and!; try done.
        -- split; [done|]. exists []. rewrite to_remote_app. cbn. rewrite !app_nil_r. split_and!; try done; [by eapply window_nil|by right].
        -- rewrite to_client_app. cbn. by rewrite app_nil_r.
    + apply Hnone; [by repeat constructor|done|done].
    + apply Hclose; [by repeat constructor|done|done].
  - cbn [direct set_rbuf]. destruct (negb fast_open || direct q).
    + destruct (k_connect k); [apply Hnone|apply Hnone|apply Hclose]; try done; by repeat constructor.
    + destruct (k_connect k); [|apply Hnone; try done; by repeat constructor|apply Hclose; try done; by repeat constructor].
      cbn [rbuf set_rbuf]. rewrite (bytes_at_all _ _ _ (proj2 (window_idx (rbuf q) 0 p 0) Hw)). run_simpl. cbn [b_len with_idx].
      rewrite (window_len _ _ _ Hw). destruct (k_send k) as [n| |]; cbn [accepted send_value].
      * destruct (send_split n p) as (l & Hp & Hl). pose proof (len_nonneg (take n p)). ztest.
        destruct (_ <? _) eqn:Elt.
        -- rewrite Hp in Hs, Hw. apply (wait_ok s q r segs pre post (take n p) l); try done; [by repeat constructor|cbn; by rewrite app_nil_r|by apply (leftover_window (rbuf q))].
        -- specialize (Hl eq_refl). subst l. rewrite Hp in Hs, Hw. apply (wait_ok s q r segs pre post (take n p) []); try done; [by repeat constructor|cbn; by rewrite app_nil_r|by eapply window_nil].
      * apply Hclose; [by repeat constructor|done|done].
      * apply Hclose; [by repeat constructor|done|done].
Qed.

(** ** STAGE_STREAM *)

Lemma upstream_direct_more r d e e' total : upstream r true e total -> upstream (r ++ d) true e' (total ++ d).
Proof.
  intros (x & hdr & pay & Hr & Hx & ->). exists (x ++ d), hdr, (pay ++ d). split_and!; [by apply rest_app|by apply request_app|done].
Qed.
Lemma upstream_sealed_more r d e w e' total : upstream r false e total -> sealed e d w e' -> upstream (r ++ d) false e' (total ++ w).
Proof.
  intros (x & hdr & pay & Hr & Hx & ms & ws & Hrun & <- & ->) Hw. exists (x ++ d), hdr, (concat ms ++ d).
  split_and!; [by apply rest_app|by apply request_app|]. exists (ms ++ [d]), (ws ++ [w]).
  split_and!; [by apply (seal_run_snoc e0 (hdr :: ms) ws e)|by rewrite concat_app; cbn; rewrite app_nil_r..].
Qed.
Lemma down_start s q : d_ctx s = d0 -> s_send_io s = false -> (exists l, window (sbuf s) 0 l) -> r_recv_io q = false -> down_ok s q [] [].
Proof.
  intros Hd Hs (l & Hl) Hr. exists []. rewrite Hd, Hs. split_and!; [|done|done|by exists 0, l|done].
  unfold downstream. destruct (direct q); [done|]. by exists [].
Qed.
Lemma set_rbuf_id q : set_rbuf (rbuf q) q = q.
Proof. by destruct q. Qed.

Lemma stage_stream_opening s q k r pre : Forall is_reply pre -> opening_ok s q r ->
  keeps (stage_stream junk fast_open s (Some q) k) r [] (pre ++ [OpenRemote]).
Proof.
  intros Hpre (Hst & Hd & Hrio & Hsio & Hsb & Hcon & Hqr & Hqs & Hby & a & x & hdr & pay & Hr & Hx & Hw & Hlen & Ha & He).
  assert (Hclose : forall q' s', keeps (close_both (Some q') (Some s')) r [] (pre ++ [OpenRemote])).
  { intros q' s'. apply close_relayed; [done|done|apply kept_nil]. }
  unfold stage_stream. destruct (direct q) eqn:Edir; cbn [negb].
  - eapply (connect_or_send_ok _ _ _ _ _ _ [] pay); [done|done|]. split_and!; try done.
    + by rewrite Edir.
    + exists x, hdr, pay. by rewrite Edir.
    + by rewrite Edir.
    + by apply down_start.
  - destruct (He eq_refl) as (hw & Hhw & Hseal & Heok).
    destruct (encrypt_law (rbuf q) (e_ctx s) pay Heok Hw Hlen) as (code & b & e & E & Hcode).
    change (e_ctx (set_delayed false s)) with (e_ctx s). rewrite E. run_simpl.
    destruct (Z.eqb_spec code 0) as [->|]; cbn [negb]; [|apply Hclose].
    destruct (Hcode eq_refl) as (Heok' & w & Hb & Hsw). change (abuf (set_e_ctx e (set_delayed false s))) with (abuf s). rewrite Ha.
    destruct (bprepend_ok junk b a w hw Hb Hhw) as (b' & n & -> & Hb'). run_simpl.
    eapply (connect_or_send_ok _ _ _ _ _ _ [] (hw ++ w)); [done|done|]. split_and!; try done.
    + cbn. by rewrite Edir.
    + exists x, hdr, pay. cbn [direct set_rbuf]. rewrite Edir. split_and!; [done|done|]. exists [pay], [hw; w].
      cbn. rewrite !app_nil_r. split_and!; [|done|done]. exists (e_ctx s). split; [done|]. by exists e.
    + by apply down_start.
Qed.

(** The client is read again only when everything before is out. *)
Lemma stage_stream_relaying s q k r segs d pre post b : Forall is_reply pre -> Forall is_relay post ->
  stage s = STAGE_STREAM -> up_ok s q r (to_remote post) -> s_recv_io s = true -> down_ok s q segs (to_client post) ->
  window b 0 d -> len d <= BUF_SIZE ->
  keeps (stage_stream junk fast_open s (Some (set_rbuf b q)) k) (r ++ d) segs (pre ++ OpenRemote :: post).
Proof.
  intros Hpre Hpost Hst Hu Hrio Hdown Hb Hlen. pose proof (kept_related _ _ _ _ _ Hu Hdown) as Hkept.
  destruct Hu as (Hby & pend & Hup & _ & He & [(_ & Hf)|(Hsio & _ & Hcon & ->)]); [congruence|]. rewrite app_nil_r in Hup.
  unfold stage_stream. cbn [direct set_rbuf rbuf]. destruct (direct q) eqn:Edir; cbn [negb].
  - apply (connect_or_send_ok _ _ _ _ _ _ _ d); [done|done|]. split_and!; try done.
    + cbn. by rewrite Edir.
    + cbn [direct set_rbuf]. rewrite Edir. by eapply upstream_direct_more.
    + cbn [direct set_rbuf]. by rewrite Edir.
  - destruct (He eq_refl) as (Habuf & Heok).
    destruct (encrypt_law b (e_ctx s) d Heok Hb Hlen) as (code & b1 & e & E & Hcode).
    change (e_ctx (set_delayed false s)) with (e_ctx s). rewrite E. run_simpl.
    destruct (Z.eqb_spec code 0) as [->|]; cbn [negb].
    + destruct (Hcode eq_refl) as (Heok' & w & Hb1 & Hsw). change (abuf (set_e_ctx e (set_delayed false s))) with (abuf s). rewrite Habuf.
      apply (connect_or_send_ok _ _ _ _ _ _ _ w); [done|done|]. split_and!; try done; [cbn; by rewrite Edir|].
      cbn [direct set_rbuf e_ctx set_e_ctx]. rewrite Edir. by eapply upstream_sealed_more.
    + apply close_relayed; [done|done|]. eapply kept_more; [done|by apply prefix_app_r|done].
Qed.

(** ** The request *)

(** What the code does not survive in a request to connect: a domain name one byte
    short, and, when names are logged, a name sniffed behind a numeric address
    beyond the 257 bytes for it. *)
Definition fits (x : bytes) : Prop := forall v rsv atyp body, x = [v; 1; rsv; atyp] ++ body ->
  ~ cut_short atyp body /\
  forall addr pay mem ret h, logging = true -> atyp = 1 \/ atyp = 4 -> body = addr ++ pay -> address_ok atyp addr ->
    parse_packet (port_of addr) pay mem = Ret (ret, h) -> ret <= 256.

Definition misfit (x : bytes) : Prop := exists v rsv atyp body, x = [v; 1; rsv; atyp] ++ body /\
  (cut_short atyp body \/ exists addr pay mem ret h, logging = true /\ (atyp = 1 \/ atyp = 4) /\ body = addr ++ pay /\
     address_ok atyp addr /\ parse_packet (port_of addr) pay mem = Ret (ret, h) /\ 256 < ret).
Lemma misfit_fits x : misfit x -> ~ fits x.
Proof.
  intros (v & rsv & atyp & body & -> & Hm) Hf. destruct (Hf v rsv atyp body eq_refl) as [Hcut Hname].
  destruct Hm as [Hc|(addr & pay & mem & ret & h & Hlog & Ht & Hb & Ha & Hp & Hr)]; [done|].
  specialize (Hname _ _ _ _ _ Hlog Ht Hb Ha Hp). lia.
Qed.
(** A name sniffed behind the first [n] bytes of [body], if there is one that is too long. *)
Lemma long_name_cases n body : 0 <= n ->
  (exists addr pay mem ret h, body = addr ++ pay /\ len addr = n /\ parse_packet (port_of addr) pay mem = Ret (ret, h) /\ 256 < ret) \/
  (forall addr pay mem ret h, body = addr ++ pay -> len addr = n -> parse_packet (port_of addr) pay mem = Ret (ret, h) -> ret <= 256).
Proof.
  intros Hn. destruct (Z.le_gt_cases n (len body)) as [Hl|Hl].
  2: { right. intros addr pay mem ret h -> Ha. rewrite len_app in Hl. pose proof (len_nonneg pay). lia. }
  set (addr := ztake n body). set (pay := zdrop n body).
  assert (Hb : body = addr ++ pay) by (symmetry; apply ztake_zdrop). assert (Ha : len addr = n) by (apply len_ztake; lia).
  assert (Hone : forall mem, (exists ret h, parse_packet (port_of addr) pay mem = Ret (ret, h) /\ 256 < ret) \/
            (forall ret h, parse_packet (port_of addr) pay mem = Ret (ret, h) -> ret <= 256)).
  { intros mem. destruct (parse_packet (port_of addr) pay mem) as [[ret h]|]; [|by right].
    destruct (Z.le_gt_cases ret 256); [right; by intros ? ? [= <- _]|left; by exists ret, h]. }
  destruct (Hone true) as [(ret & h & E & Hr)|H1]; [left; by exists addr, pay, true, ret, h|].
  destruct (Hone false) as [(ret & h & E & Hr)|H0]; [left; by exists addr, pay, false, ret, h|].
  right. intros addr' pay' mem ret h Hb' Ha' E. rewrite Hb in Hb'. apply app_inj_1 in Hb' as [<- <-]; [|unfold len in *; lia].
  destruct mem; [exact (H1 _ _ E)|exact (H0 _ _ E)].
Qed.
Lemma fits_or_misfit x : fits x \/ misfit x.
Proof.
  destruct x as [|v [|c [|rsv [|atyp body]]]]; [left; by intros ? ? ? ? [=]..|].
  destruct (Z.eq_dec c 1) as [->|Hc]; [|left; by intros ? ? ? ? [=]].
  assert (Hcut : cut_short atyp body \/ ~ cut_short atyp body).
  { unfold cut_short. destruct (Z.eq_dec atyp 3); [|right; by intros [? _]]. destruct body as [|n tl]; [right; by intros (_ & ? & ? & ? & _)|].
    destruct (Z.eq_dec (len tl) (n + 1)); [left; split; [done|by exists n, tl]|right; intros (_ & ? & ? & [= <- <-] & ?); done]. }
  destruct Hcut as [Hcut|Hcut]; [right; exists v, rsv, atyp, body; split; [done|by left]|].
  destruct logging eqn:Hlog; [|left; intros ? ? ? ? [= <- <- <- <-]; split; [done|intros; congruence]].
  assert (Hnum : (atyp = 1 \/ atyp = 4) \/ ~ (atyp = 1 \/ atyp = 4)) by lia.
  destruct Hnum as [Hnum|Hnum]; [|left; intros ? ? ? ? [= <- <- <- <-]; split; [done|]; intros; lia].
  destruct (long_name_cases (if atyp =? 1 then 6 else 18) body) as [(addr & pay & mem & ret & h & Hb & Ha & E & Hr)|Hshort]; [by destruct (_ =? _)|..].
  - right. exists v, rsv, atyp, body. split; [done|]. right. exists addr, pay, mem, ret, h. split_and!; try done.
    destruct Hnum as [-> | ->]; cbn in Ha; [by left|by right; left].
  - left. intros ? ? ? ? [= <- <- <- <-]. split; [done|]. intros addr pay mem ret h _ _ Hb Ha E. apply (Hshort addr pay mem ret h Hb); [|exact E].
    destruct Hnum as [-> | ->], Ha as [(? & ?)|[(? & ?)|(? & _)]]; done || lia.
Qed.

Lemma keeps_replies (res : run (conn C * list effect)) fx r segs pre : keeps res r segs (pre ++ fx) ->
  forall st f, res = Ret (st, f) -> keeps (Ret (st, fx ++ f)) r segs pre.
Proof. intros (st & f & -> & Hrel) ? ? [= <- <-]. eexists _, _. split; [done|]. by rewrite app_assoc. Qed.
Lemma close_request s r pre fx : Forall is_reply (pre ++ fx) ->
  keeps ('(st, fx') ← close_both None (Some s); Ret (st, fx ++ fx')) r [] pre.
Proof. intros Hpre. apply keeps_bind. by apply close_waiting. Qed.
Lemma keeps_waiting s r x pre fx : Forall is_reply (pre ++ fx) -> fresh_server s -> window (sbuf s) 0 x -> len x <= BUF_SIZE ->
  stage_ok s r x -> keeps (Ret (Conn (Some s) None, fx)) r [] pre.
Proof. intros Hpre Hs Hw Hl Hst. eexists _, _. split; [done|]. apply related_waiting; [by exists s, x|done|done]. Qed.
Lemma abuf_fresh s a l : fresh_server s -> window a 0 l -> fresh_server (set_abuf (Some a) s).
Proof. intros (? & ? & ? & ? & ? & _) Ha. split_and!; try done. by exists a, l. Qed.

Lemma drop_request_ok b front pay : window b 0 (front ++ pay) -> len pay <= BUF_SIZE ->
  exists b', drop_request b (len front) = Ret b' /\ window b' 0 pay.
Proof.
  intros Hw Hlen. unfold drop_request. rewrite (window_len _ _ _ Hw), len_app. pose proof (len_nonneg pay).
  replace (len front + len pay - len front) with (len pay) by lia. unfold to_size_t. rewrite Z.mod_small by (unfold BUF_SIZE in *; lia).
  destruct (Z.ltb_spec 0 (len pay)) as [Hlt|Hle]; [by apply window_shift|]. eexists. split; [done|].
  assert (len pay = 0) as -> by lia. rewrite (len_0_nil pay) by lia. by eapply window_nil.
Qed.
Lemma start_stream_ok s a k r pre fx front pay hdr : (k_bypass k = true -> may_bypass = true) -> Forall is_reply (pre ++ fx) -> fresh_server s ->
  window (sbuf s) 0 (front ++ pay) -> len pay <= BUF_SIZE -> rest r (front ++ pay) -> request (front ++ pay) hdr pay ->
  window a 0 hdr -> len hdr <= BUF_SIZE -> keeps (start_stream junk s a (len front) k fx) r [] pre.
Proof.
  intros Hby Hpre (He & Hd & Hrio & Hsio & Hdel & _) Hw Hlen Hr Hx Ha Hhdr. unfold start_stream.
  destruct (drop_request_ok _ _ _ Hw Hlen) as (b & -> & Hb). run_simpl. rewrite (window_len _ _ _ Hb). pose proof (len_nonneg pay).
  set (s1 := set_stage STAGE_STREAM (set_sbuf b (set_abuf (Some a) s))).
  assert (Hgo : forall q a' e, window (rbuf q) 0 [] -> send_connected q = false -> r_recv_io q = false -> r_send_io q = false ->
    (direct q = true -> may_bypass = true) -> (direct q = false -> exists hw, window a' 0 hw /\ sealed e0 hdr hw e /\ enc_ok e) ->
    keeps (rb ← (if 0 <? len pay then d ← bytes_at b 0 (len pay); b' ← store (rbuf q) 0 d; Ret (with_len b' (len pay)) else Ret (rbuf q));
           Ret (Conn (Some (set_delayed true (set_abuf (Some a') (set_e_ctx e s1)))) (Some (set_rbuf rb q)), fx ++ [OpenRemote])) r [] pre).
  { intros q a' e Hq Hcon Hqr Hqs Hqby Hseal.
    assert (Hrb : exists rb, (if 0 <? len pay then d ← bytes_at b 0 (len pay); b' ← store (rbuf q) 0 d; Ret (with_len b' (len pay))
      else Ret (rbuf q)) = Ret rb /\ window rb 0 pay).
    { destruct (Z.ltb_spec 0 (len pay)); [|eexists; split; [done|]; by rewrite (len_0_nil pay) by lia].
      rewrite (bytes_at_front b pay) by (done || lia). run_simpl. rewrite zdrop_0, ztake_all by lia.
      destruct (store_front (rbuf q) 0 [] pay Hq Hlen) as (b' & -> & Hb'). run_simpl. by eexists. }
    destruct Hrb as (rb & -> & Hrb). run_simpl. eexists _, _. split; [done|]. rewrite app_assoc.
    apply related_opening; [|done|done]. eexists _, _. split_and!; [done|done|]. split_and!; try done; [by exists pay|].
    eexists _, (front ++ pay), hdr, pay. by split_and!. }
  destruct (k_bypass k).
  - apply (Hgo _ a); [apply new_buffer_window|done|done|done|by intros _; apply Hby|done].
  - destruct (k_socket k); [|by apply close_request]. cbn [direct new_remote negb].
    assert (Heok : enc_ok (e_ctx s1)) by (subst s1; cbn; by rewrite He).
    destruct (encrypt_law a (e_ctx s1) hdr Heok Ha Hhdr) as (code & a1 & e & E & Hcode).
    rewrite E. run_simpl. destruct (Z.eqb_spec code 0) as [->|]; cbn [negb].
    + destruct (Hcode eq_refl) as (Heok' & hw & Ha1 & Hseal). apply Hgo; try done; [apply new_buffer_window|].
      intros _. exists hw. split_and!; try done. subst s1. cbn in Hseal. by rewrite He in Hseal.
    + eexists _, _. split; [done|]. apply related_closed; [done|]. rewrite app_assoc.
      apply (served_ended _ _ (pre ++ fx) []); [done|done|apply kept_nil].
Qed.

Lemma stage_parse_ok s r x v rsv atyp body k pre fx : (k_bypass k = true -> may_bypass = true) -> Forall is_reply (pre ++ fx) -> fresh_server s ->
  window (sbuf s) 0 x -> len x <= BUF_SIZE -> bytes_ok x -> rest r x -> x = [v; 1; rsv; atyp] ++ body -> fits x ->
  (stage s = STAGE_HANDSHAKE \/ stage s = STAGE_PARSE) -> keeps (stage_parse junk logging s k fx) r [] pre.
Proof.
  intros Hby Hpre Hs Hw Hlen Hbx Hr Hx Hfit Hst. destruct (Hfit _ _ _ _ Hx) as [Hcut Hname].
  assert (Hbody : bytes_ok body /\ len body <= BUF_SIZE - 4).
  { rewrite Hx in Hbx, Hlen. apply bytes_ok_app in Hbx as [_ Hbb]. rewrite len_app in Hlen. change (len [v; 1; rsv; atyp]) with 4 in Hlen.
    split; [done|lia]. }
  destruct Hbody as [Hbb Hbl]. pose proof Hs as (He & Hd & Hrio & Hsio & Hdel & a & l & Ha & Hwa).
  unfold stage_parse. rewrite Ha. run_simpl. rewrite (byte_at_ok _ x 3 atyp Hw) by (subst x; done). run_simpl.
  destruct (put_ok (with_idx (with_len a 0) 0) [] [atyp] (window_nil _ _ _ Hwa)) as (a1 & -> & Hw1); [done|]. run_simpl. cbn [app] in Hw1.
  assert (Hw0 := Hw). rewrite Hx in Hw0. destruct (copy_address_ok junk logging (sbuf s) a1 v 1 rsv atyp body Hw0 Hw1 Hbb Hbl Hcut) as (cr & -> & Hcr).
  run_simpl. destruct cr as [[a2|]|]; [| |by apply close_request].
  2: { apply (keeps_waiting (set_abuf (Some a1) s) r x); [done|by eapply abuf_fresh|done|done|]. unfold stage_ok.
       change (stage (set_abuf (Some a1) s)) with (stage s). destruct Hst as [-> | ->]; [done|]. split; [done|]. by rewrite Hx. }
  destruct (Hcr a2 eq_refl) as (addr & pay & Hb & Hadr & Hw2). subst body. apply bytes_ok_app in Hbb as [Hba Hbp].
  pose proof (len_address _ _ Hba Hadr) as Hal. rewrite len_app in Hbl. pose proof (len_nonneg pay).
  assert (Hfront : x = ([v; 1; rsv; atyp] ++ addr) ++ pay) by (by rewrite <- app_assoc).
  assert (Hused : 3 + b_len a2 = len ([v; 1; rsv; atyp] ++ addr)).
  { rewrite (window_len _ _ _ Hw2), len_cons, len_app. change (len [v; 1; rsv; atyp]) with 4. lia. }
  assert (Hstart : forall a3 hdr, window a3 0 hdr -> header_ok atyp addr pay hdr -> len hdr <= BUF_SIZE ->
    keeps (start_stream junk (set_abuf (Some a2) s) a3 (3 + b_len a2) k fx) r [] pre).
  { intros a3 hdr Hw3 Hh Hhl. rewrite Hused. apply (start_stream_ok _ _ _ _ _ _ _ pay hdr); try done.
    - by eapply abuf_fresh.
    - lia.
    - by rewrite <- Hfront.
    - exists v, rsv, atyp, addr, pay, []. rewrite app_nil_r. by split_and!. }
  assert (Hplain : keeps (start_stream junk (set_abuf (Some a2) s) a2 (3 + b_len a2) k fx) r [] pre).
  { apply (Hstart a2 (atyp :: addr)); [done|by left|]. rewrite len_cons. unfold BUF_SIZE. lia. }
  destruct ((atyp =? 1) || (atyp =? 4)) eqn:Etyp; cbn [negb]; [|done].
  assert (Hnum : atyp = 1 \/ atyp = 4) by (by apply orb_true_iff in Etyp as [?%Z.eqb_eq|?%Z.eqb_eq]; [left|right]).
  rewrite (sniff_ok (sbuf s) a2 v 1 rsv atyp addr pay (k_mem k) Hw0 Hw2) by lia.
  destruct (parse_packet_ok (port_of addr) pay (k_mem k) Hbp) as (ret & h & E & Hret); [lia|]. rewrite E. run_simpl.
  destruct ((ret =? -1) && (b_len (sbuf s) <? BUF_SIZE)) eqn:Ewait.
  { apply (keeps_waiting _ r x); try done; [by eapply (abuf_fresh s)|]. split; [done|]. by rewrite Hx. }
  destruct (Z.ltb_spec 0 ret) as [Hpos|]; [|done].
  destruct Hret as [?|(Hin & nm & -> & Hnl)]; [lia|]. unfold BUF_SIZE in *.
  destruct (name_address_ok junk logging a2 atyp addr ret nm Hw2) as (a3 & -> & Hw3); [lia|lia|unfold BUF_SIZE; lia| |].
  { intros Hlog. by apply (Hname addr pay (k_mem k) ret (Some nm)). }
  run_simpl. apply (Hstart _ _ Hw3).
  - right. split; [done|].
    exists ret, nm, (k_mem k), (ztake ret nm). rewrite len_ztake by lia. by split_and!.
  - rewrite !len_cons, len_app, len_ztake by lia. unfold port_bytes. rewrite len_zdrop by lia. unfold BUF_SIZE. lia.
Qed.

Lemma head4 (x : bytes) : 4 <= len x -> exists v c rsv atyp body, x = [v; c; rsv; atyp] ++ body.
Proof.
  intros Hl. assert (4 <= length x)%nat by (unfold len in Hl; lia).
  destruct x as [|v [|c [|rsv [|atyp body]]]]; cbn in *; try lia. by exists v, c, rsv, atyp, body.
Qed.
Lemma stage_handshake_ok s r x k pre fx : (k_bypass k = true -> may_bypass = true) -> Forall is_reply (pre ++ fx) -> fresh_server s ->
  window (sbuf s) 0 x -> len x <= BUF_SIZE -> bytes_ok x -> stage_ok s r x -> stage s <> STAGE_INIT -> fits x ->
  keeps (stage_handshake junk logging s k fx) r [] pre.
Proof.
  intros Hby Hpre Hs Hw Hlen Hbx Hst Hinit Hfit. unfold stage_handshake. rewrite (window_len _ _ _ Hw).
  destruct (Z.ltb_spec (len x) 4); [by eapply keeps_waiting|].
  destruct (head4 x) as (v & c & rsv & atyp & body & Hx); [done|].
  rewrite (byte_at_ok _ x 1 c Hw) by (subst x; done). run_simpl.
  assert (Hreply : forall d, Forall is_reply (pre ++ fx ++ [ToClient d])).
  { intros d. rewrite app_assoc. apply Forall_app. split; [done|]. by repeat constructor. }
  assert (Hr : rest r x) by (unfold stage_ok in Hst; destruct (stage s); naive_solver).
  assert (Hstg : stage s = STAGE_HANDSHAKE \/ stage s = STAGE_PARSE /\ x !! 1%nat = Some 1)
    by (unfold stage_ok in Hst; destruct (stage s); naive_solver).
  destruct (Z.eqb_spec c 3) as [->|Hc3]; cbn [negb andb].
  - destruct Hstg as [Hh|[_ Hbad]]; [|by subst x]. rewrite bool_decide_eq_true_2 by done.
    destruct (_ <? _); [by apply close_request|]. by eapply keeps_waiting.
  - destruct (Z.eqb_spec c 1) as [->|]; cbn [negb]; [|by apply close_request].
    destruct (bool_decide_reflect (stage s = STAGE_HANDSHAKE)).
    + destruct (_ <? _); [by apply close_request|]. eapply stage_parse_ok; try done. by left.
    + eapply stage_parse_ok; try done. destruct Hstg as [?|[? _]]; [by left|by right].
Qed.

(** The request in what [server_recv_cb] has, when the greeting may still be in front. *)
Definition requested (sg : stage_t) (y : bytes) : bytes :=
  match sg with STAGE_INIT => match y with _ :: n :: _ => zdrop (n + 2) y | _ => [] end | _ => y end.
Lemma stage_init_ok s r k : (k_bypass k = true -> may_bypass = true) -> fresh_server s -> stage s = STAGE_INIT ->
  window (sbuf s) 0 r -> len r <= BUF_SIZE -> bytes_ok r -> fits (requested STAGE_INIT r) ->
  forall pre, Forall is_reply pre -> keeps (stage_init junk logging s k) r [] pre.
Proof.
  intros Hby Hs Hst Hw Hlen Hbr Hfit pre Hpre. unfold stage_init. rewrite (window_len _ _ _ Hw).
  assert (Hstay : keeps (Ret (Conn (Some s) None, [])) r [] pre).
  { eapply keeps_waiting; try done; [by rewrite app_nil_r|]. unfold stage_ok. by rewrite Hst. }
  destruct (Z.ltb_spec (len r) 3); [done|].
  destruct r as [|v [|n tl]]; [by change (len (@nil Z)) with 0 in *|by change (len [v]) with 1 in *|].
  rewrite (byte_at_ok _ _ 1 n Hw) by done. run_simpl. pose proof Hbr as [_ [Hnb _]%Forall_cons_iff]%Forall_cons_iff. rewrite u8_small by done. unfold byte_ok in Hnb.
  destruct (Z.ltb_spec (len (v :: n :: tl)) (n + 2)) as [|Hge]; [done|].
  rewrite (byte_at_ok _ _ 0 v Hw) by done. run_simpl.
  assert (Hreply : Forall is_reply (pre ++ [ToClient (accepted (k_method k) [SVERSION; 0])])).
  { apply Forall_app. split; [done|]. by repeat constructor. }
  set (r := v :: n :: tl) in *. assert (Hsplit : r = ztake (n + 2) r ++ zdrop (n + 2) r) by (by rewrite ztake_zdrop).
  assert (Hg : exists g, ztake (n + 2) r = v :: n :: g).
  { exists (ztake n tl). unfold r, ztake. replace (Z.to_nat (n + 2)) with (S (S (Z.to_nat n))) by lia. done. }
  destruct Hg as (g & Hg). assert (Hgl : len (v :: n :: g) = n + 2) by (rewrite <- Hg; apply len_ztake; lia).
  destruct ((v =? SVERSION) && (n + 2 <? len r)) eqn:Emore.
  - assert (Hw' := Hw). rewrite Hsplit, Hg in Hw'. destruct (window_shift _ _ _ Hw') as (b & Hb & Hwb).
    rewrite Hgl, len_zdrop in Hb by lia. rewrite Hb. run_simpl.
    eapply (stage_handshake_ok _ r (zdrop (n + 2) r)); try done.
    + rewrite len_zdrop by lia. lia.
    + rewrite Hsplit in Hbr. by apply bytes_ok_app in Hbr as [_ ?].
    + exists (v :: n :: g). split; [by rewrite <- Hg|]. by intros _.
  - eapply (keeps_waiting _ r []); try done; [by eapply window_nil|].
    exists r. split; [by rewrite app_nil_r|]. intros Hv5. cbn. change (v :: n :: tl) with r.
    apply andb_false_iff in Emore as [?%Z.eqb_neq|?%Z.ltb_ge]; [done|lia].
Qed.

(** ** The events *)

Definition held (b : buffer) : bytes := ztake (b_len b) (default [] (b_data b)).
(** What the event loop promises: only what is started happens, and [recv] keeps
    to its limit; and that the request fits. *)
Definition allowed st (e : event) : Prop :=
  match e with
  | ServerRecv x k => exists s, c_server st = Some s /\ s_recv_io s = true /\ (k_bypass k = true -> may_bypass = true) /\
      match x with
      | Received d => bytes_ok d /\ len d <= BUF_SIZE - b_len (recv_buf st s) /\
          (c_remote st = None -> fits (requested (stage s) (held (sbuf s) ++ d)))
      | _ => True
      end
  | ServerSend x => exists s, c_server st = Some s /\ s_send_io s = true
  | RemoteRecv x y => exists q, c_remote st = Some q /\ r_recv_io q = true /\
      match x with Received d => len d <= BUF_SIZE | _ => True end
  | RemoteSend peer x => exists q, c_remote st = Some q /\ r_send_io q = true
  | DelayedConnect k => exists s, c_server st = Some s /\ delayed_connect s = true
  | RemoteTimeout => exists q, c_remote st = Some q /\ (send_timer q = true \/ recv_timer q = true)
  end.
Definition client_said (e : event) : bytes := match e with ServerRecv (Received d) _ => d | _ => [] end.
Definition remote_said (e : event) : list bytes := match e with RemoteRecv (Received d) _ => [d] | _ => [] end.

Lemma held_window b l : window b 0 l -> held b = l.
Proof. intros (a & Ha & _ & _ & Hl & _ & _ & He). unfold held. by rewrite Ha, Hl. Qed.
Lemma close_related st r segs fx r' segs' (q : option remote_t) s : related st r segs fx -> r `prefix_of` r' -> segs `prefix_of` segs' ->
  is_Some (c_server st) -> (is_Some q <-> is_Some (c_remote st)) -> keeps (close_both q (Some s)) r' segs' fx.
Proof.
  intros Hrel Hr Hs Hsrv Hq. destruct Hrel as [pre (s1 & x & -> & _) -> Hpre|pre (s1 & q1 & -> & _) -> Hpre|pre post Hpre Hpost (s1 & q1 & -> & _ & _ & Hu & Hd)|fx -> _];
    cbn [c_remote c_server] in *.
  - destruct q; [|by apply close_waiting]. by destruct (proj1 Hq ltac:(done)).
  - destruct q; [|by destruct (proj2 Hq ltac:(done))]. apply close_relayed; [done|done|apply kept_nil].
  - destruct q; [|by destruct (proj2 Hq ltac:(done))]. apply close_relayed; [done|done|]. eapply kept_more; [by eapply kept_related|done|done].
  - by destruct Hsrv.
Qed.
Lemma keeps_same st r segs fx : related st r segs fx -> keeps (Ret (st, [])) r segs fx.
Proof. intros Hrel. eexists _, _. split; [done|]. by rewrite app_nil_r. Qed.

Lemma stage_ok_more s r x d : stage_ok s r x -> stage_ok s (r ++ d) (x ++ d).
Proof.
  unfold stage_ok. destruct (stage s); [by intros ->|by apply rest_app| |done..]. intros [Hr Hx]. split; [by apply rest_app|].
  by apply lookup_app_l_Some.
Qed.
Lemma received_waiting s r x d k pre : (k_bypass k = true -> may_bypass = true) -> fresh_server s -> window (sbuf s) 0 x -> stage_ok s r x -> bytes_ok (r ++ d) ->
  len x + len d <= BUF_SIZE -> fits (requested (stage s) (x ++ d)) -> Forall is_reply pre ->
  keeps (server_recv_cb junk logging fast_open (Conn (Some s) None) (Received d) k) (r ++ d) [] pre.
Proof.
  intros Hby Hs Hw Hst Hb Hroom Hfit Hpre. unfold server_recv_cb. conn_simpl.
  rewrite bool_decide_eq_false_2 by (intros E; unfold stage_ok in Hst; by rewrite E in Hst).
  destruct (window_store (sbuf s) x d Hw Hroom) as (b & -> & Hwb). run_simpl.
  set (b' := with_len b (b_len (sbuf s) + len d)) in *.
  apply (stage_ok_more _ _ _ d) in Hst. rewrite <- len_app in Hroom. unfold server_recv_loop. conn_simpl.
  change (stage (set_sbuf b' s)) with (stage s).
  assert (Hhs : stage s <> STAGE_INIT -> keeps (stage_handshake junk logging (set_sbuf b' s) k []) (r ++ d) [] pre).
  { intros Hni. eapply (stage_handshake_ok _ _ (x ++ d)); try done.
    - by rewrite app_nil_r.
    - unfold stage_ok in Hst. destruct (stage s); [done| | |done..]; eapply rest_bytes; [apply Hst|done|apply Hst|done].
    - by destruct (stage s). }
  destruct (stage s) eqn:Est; [|by apply Hhs|by apply Hhs|by unfold stage_ok in Hst; rewrite Est in Hst..].
  unfold stage_ok in Hst. rewrite Est in Hst. rewrite Hst in *. by apply stage_init_ok.
Qed.

Lemma server_recv_ok st r segs fx x k : related st r segs fx -> bytes_ok r -> allowed st (ServerRecv x k) ->
  keeps (server_recv_cb junk logging fast_open st x k) (r ++ client_said (ServerRecv x k)) segs fx.
Proof.
  intros Hrel Hbr (s & Es & Hrio & Hby & Hx).
  assert (Hquiet : match x with Received _ => False | _ => True end ->
    keeps (server_recv_cb junk logging fast_open st x k) (r ++ client_said (ServerRecv x k)) segs fx).
  { intros Hq. assert (Hni : stage s <> STAGE_WAIT).
    { intros E. destruct Hrel as [pre (s1 & y & -> & _ & _ & _ & Hst) _ _|pre (s1 & q1 & -> & _ & Hst & _) _ _|pre post _ _ (s1 & q1 & -> & Hst & _)|? -> _];
        cbn [c_server] in Es; try discriminate Es; injection Es as ->; [unfold stage_ok in Hst; by rewrite E in Hst|congruence|congruence]. }
    unfold server_recv_cb. rewrite Es. run_simpl. rewrite bool_decide_eq_false_2 by done.
    destruct x; [done| | |]; cbn [client_said]; rewrite app_nil_r.
    - eapply close_related; [done|done|done|by rewrite Es|done].
    - by apply keeps_same.
    - eapply close_related; [done|done|done|by rewrite Es|done]. }
  destruct x as [d| | |]; [|by apply Hquiet..]. destruct Hx as (Hbd & Hroom & Hfit). cbn [client_said].
  destruct Hrel as [pre (s1 & y & -> & Hfs & Hw & Hl & Hst) -> Hpre|pre (s1 & q & -> & Hdel & Hop) -> Hpre|pre post Hpre Hpost (s1 & q & -> & Hst & Hdel & Hu & Hd)|? -> _];
    cbn [c_server c_remote] in *; [injection Es as ->..|done]; unfold recv_buf in Hroom; cbn [c_remote] in Hroom.
  - rewrite (held_window _ _ Hw) in Hfit. rewrite (window_len _ _ _ Hw) in Hroom.
    apply received_waiting with y; try done; [by apply bytes_ok_app|lia|by apply Hfit].
  - destruct Hop as (Hst & Hd & _ & Hsio & Hsb & Hcon & Hqr & Hqs & Hqby & a & y & hdr & pay & Hr & Hreq & Hw & Hlen & Ha & He).
    unfold server_recv_cb. conn_simpl. rewrite bool_decide_eq_false_2 by (by rewrite Hst).
    rewrite (window_len _ _ _ Hw) in Hroom. destruct (window_store (rbuf q) pay d Hw) as (b & -> & Hwb); [lia|]. run_simpl.
    unfold server_recv_loop. conn_simpl. rewrite Hst. apply stage_stream_opening; [done|]. split_and!; try done.
    exists a, (y ++ d), hdr, (pay ++ d). split_and!; try done; [by apply rest_app|by apply request_app|rewrite len_app; lia].
  - unfold server_recv_cb. conn_simpl. rewrite bool_decide_eq_false_2 by (by rewrite Hst).
    pose proof Hu as (_ & pend & _ & Hw & _ & [(_ & Hf)|(_ & _ & _ & ->)]); [congruence|].
    apply window_nil in Hw as Hw0. rewrite (window_len _ _ _ Hw) in Hroom |- *. change (len (@nil Z)) with 0 in *.
    destruct (store_front (rbuf q) _ [] d Hw) as (b & -> & Hwb); [lia|]. run_simpl. unfold server_recv_loop. conn_simpl. rewrite Hst.
    by apply (stage_stream_relaying _ q).
Qed.

Lemma delayed_connect_ok st r segs fx k : related st r segs fx -> allowed st (DelayedConnect k) ->
  keeps (delayed_connect_cb junk logging fast_open st k) r segs fx.
Proof.
  intros Hrel (s & Es & Hdel). destruct Hrel as [pre (s1 & y & -> & Hfs & _) _ _|pre (s1 & q & -> & _ & Hop) -> Hpre|pre post _ _ (s1 & q & -> & _ & Hf & _)|? -> _];
    cbn [c_server] in Es; try discriminate Es; injection Es as ->.
  - destruct Hfs as (_ & _ & _ & _ & Hf & _). congruence.
  - unfold delayed_connect_cb. conn_simpl. unfold server_recv_cb. conn_simpl. rewrite bool_decide_eq_true_2 by done.
    unfold server_recv_loop. conn_simpl. apply stage_stream_opening; [done|]. destruct Hop as (_ & Hop). by split.
  - congruence.
Qed.

Lemma sent_window b d l1 l2 : window b (b_idx b) d -> d = l1 ++ l2 ->
  window (with_idx (with_len b (len d - len l1)) (b_idx b + len l1)) (b_idx b + len l1) l2.
Proof. intros Hw Hd. rewrite <- (window_len _ _ _ Hw). rewrite Hd in Hw. by apply window_advance. Qed.
Lemma server_send_ok st r segs fx x : related st r segs fx -> allowed st (ServerSend x) -> keeps (server_send_cb st x) r segs fx.
Proof.
  intros Hrel (s & Es & Hsio).
  assert (Hclose : keeps (close_both (c_remote st) (c_server st)) r segs fx) by (rewrite Es; by eapply close_related; rewrite ?Es).
  assert (Hsame : keeps (Ret (st, [])) r segs fx) by (by apply keeps_same).
  destruct Hrel as [pre (s1 & y & -> & Hfs & _) _ _|pre (s1 & q & -> & _ & _ & _ & _ & Hf & _) _ _|pre post Hpre Hpost (s1 & q & -> & Hst & Hdel & Hu & Hd)|? -> _];
    cbn [c_server] in Es; try discriminate Es; injection Es as ->; [destruct Hfs as (_ & _ & _ & Hf & _); congruence|congruence|].
  pose proof Hd as (pend & Hds & Hdok & Hb & Hcon). rewrite Hsio in Hb. destruct Hb as (Hqr & Hw).
  unfold server_send_cb. conn_simpl. rewrite (window_len _ _ _ Hw). destruct (_ =? 0); [done|].
  rewrite <- (window_len _ _ _ Hw), (bytes_at_all _ _ _ Hw). run_simpl. rewrite (window_len _ _ _ Hw).
  destruct x as [n| |]; [|done..]. cbn [send_value accepted].
  destruct (send_split n pend) as (l & Hp & Hl).
  destruct (_ <? _) eqn:Elt; (eexists _, _; split; [done|]); (apply relays_keep; [done|done|by repeat constructor|]);
    rewrite to_remote_app, to_client_app; cbn; rewrite !app_nil_r; eexists _, _; (split_and!; [done|done|done| |]).
  - exact Hu.
  - exists l. rewrite <- app_assoc, <- Hp. split_and!; try done. cbn [s_send_io set_sbuf]. rewrite Hsio. split; [done|].
    by apply sent_window.
  - exact Hu.
  - specialize (Hl eq_refl). subst l. rewrite app_nil_r in Hp. exists []. rewrite app_nil_r, <- Hp. split_and!; try done.
    + split; [done|]. exists 0, []. by eapply window_nil.
    + cbn. intros Hc. by destruct (Hcon Hc) as [Hf _]; rewrite Hsio in Hf.
Qed.

Lemma downstream_more segs direct d x m d' total : downstream segs direct d total ->
  (if direct then m = x /\ d' = d else opened d x m d') -> downstream (segs ++ [x]) direct d' (total ++ m).
Proof.
  unfold downstream. destruct direct.
  - intros -> [-> _]. rewrite concat_app. cbn. by rewrite app_nil_r.
  - intros (ms & Hrun & ->) Ho. exists (ms ++ [m]). split; [by eapply open_run_snoc|]. rewrite concat_app. cbn. by rewrite app_nil_r.
Qed.
Lemma opening_remote st q r : opening st r -> c_remote st = Some q -> r_recv_io q = false /\ r_send_io q = false.
Proof. intros (s1 & q1 & -> & _ & _ & _ & _ & _ & _ & _ & Hqr & Hqs & _) [= <-]. by split. Qed.

(** The remote's segment is in the client's buffer: the cipher opens it, or there is none. *)
Lemma decrypt_segment s q b d : (direct q = false -> dec_ok (d_ctx s)) -> window b 0 d ->
  exists code b' dc, (if negb (direct q) then crypto_decrypt b (d_ctx s) else Ret (CRYPTO_OK, b, d_ctx s)) = Ret (code, b', dc) /\
    (code = CRYPTO_ERROR \/
     (direct q = false -> dec_ok dc) /\
     ((code = CRYPTO_NEED_MORE /\ direct q = false /\ opened (d_ctx s) d [] dc /\ exists l, window b' 0 l) \/
      (code = CRYPTO_OK /\ exists m, window b' 0 m /\ if direct q then m = d /\ dc = d_ctx s else opened (d_ctx s) d m dc))).
Proof.
  intros Hok Hw. destruct (direct q); cbn [negb].
  - eexists _, _, _. split; [done|]. right. split; [done|]. right. split; [done|]. by exists d.
  - destruct (decrypt_law b (d_ctx s) d (Hok eq_refl) Hw) as (code & b' & dc & -> & Hc). exists code, b', dc. split; [done|]. naive_solver.
Qed.

(** What [remote_recv_cb] sends of the opened bytes [m], and what is left. *)
Definition answered s q (b : buffer) dc (y : send_result) (m : bytes) : run (conn C * list effect) :=
  let s := set_d_ctx dc (set_sbuf b s) in
  let n := send_value y m in
  let fx := [ToClient (accepted y m)] in
  let wait b := Ret (first_response (Conn (Some (set_s_io (s_recv_io s) true (set_sbuf b s))) (Some (set_r_io false (r_send_io q) q))), fx) in
  match y with
  | SendAgain => wait (with_idx b 0)
  | SendError => '(st, fx') ← close_both (Some q) (Some s); Ret (st, fx ++ fx')
  | Accept _ => if n <? b_len b then wait (leftover b n) else Ret (first_response (Conn (Some s) (Some q)), fx)
  end.
Lemma answered_ok s q b dc y m r segs pre post : Forall is_reply pre -> Forall is_relay post ->
  stage s = STAGE_STREAM -> delayed_connect s = false -> up_ok s q r (to_remote post) -> s_send_io s = false -> send_connected q = true ->
  window b 0 m -> downstream segs (direct q) dc (to_client post ++ m) -> (direct q = false -> dec_ok dc) ->
  kept r segs post -> keeps (answered s q b dc y m) r segs (pre ++ OpenRemote :: post).
Proof.
  intros Hpre Hpost Hst Hdel Hu Hsio Hcon Hw Hdown Hdok Hkept. unfold answered. rewrite (window_len _ _ _ Hw).
  assert (Hwait : forall b' sent pend, m = sent ++ pend -> window b' (b_idx b') pend ->
    keeps (Ret (first_response (Conn (Some (set_s_io (s_recv_io s) true (set_sbuf b' (set_d_ctx dc (set_sbuf b s)))))
      (Some (set_r_io false (r_send_io q) q))), [ToClient sent])) r segs (pre ++ OpenRemote :: post)).
  { intros b' sent pend -> Hb'. eexists _, _. split; [done|]. apply relays_keep; [done|done|by repeat constructor|].
    rewrite to_remote_app, to_client_app. cbn. rewrite !app_nil_r. eexists _, _. split_and!; [done|done|done|exact Hu|].
    exists pend. rewrite <- app_assoc. split_and!; try done. cbn. by rewrite Hcon. }
  destruct y as [n| |]; cbn [send_value accepted].
  - destruct (send_split n m) as (l & Hm & Hl). destruct (_ <? _) eqn:Elt.
    + apply (Hwait _ _ l Hm). rewrite Hm in Hw. by apply leftover_window.
    + specialize (Hl eq_refl). subst l. rewrite app_nil_r in Hm. rewrite <- Hm. eexists _, _. split; [done|].
      apply relays_keep; [done|done|by repeat constructor|]. rewrite to_remote_app, to_client_app. cbn. rewrite !app_nil_r.
      eexists _, _. split_and!; [done|done|done|exact Hu|]. exists []. rewrite app_nil_r. cbn. rewrite Hsio, Hcon. split_and!; try done.
      by exists 0, m.
  - by apply (Hwait _ [] m).
  - apply keeps_bind. rewrite <- app_assoc. apply close_relayed; [done|apply Forall_app; split; [done|by repeat constructor]|].
    by apply kept_silent.
Qed.

Lemma remote_recv_ok st r segs fx x y : related st r segs fx -> allowed st (RemoteRecv x y) ->
  keeps (remote_recv_cb st x y) r (segs ++ remote_said (RemoteRecv x y)) fx.
Proof.
  intros Hrel (q & Eq & Hqr & Hx).
  assert (Hclose : forall q' s', keeps (close_both (Some q') (Some s')) r (segs ++ remote_said (RemoteRecv x y)) fx).
  { intros q' s'. eapply close_related; [done|done|by apply prefix_app_r| |by rewrite Eq].
    destruct Hrel as [? (? & ? & -> & _) _ _|? (? & ? & -> & _) _ _|? ? _ _ (? & ? & -> & _)|? -> _]; try done. }
  destruct Hrel as [pre (s & z & -> & _) _ _|pre Hop _ _|pre post Hpre Hpost (s & q1 & -> & Hst & Hdel & Hu & Hd)|? -> _]; try done.
  { destruct (opening_remote _ _ _ Hop Eq). congruence. }
  cbn [c_remote] in Eq. injection Eq as ->. pose proof (kept_related _ _ _ _ _ Hu Hd) as Hkept.
  destruct Hd as (pend & Hds & Hdok & Hb & Hcon).
  assert (Hsio : s_send_io s = false) by (destruct (s_send_io s); [destruct Hb; congruence|done]). rewrite Hsio in Hb.
  destruct Hb as (-> & off & l & Hw). rewrite app_nil_r in Hds.
  assert (Hconn : send_connected q = true) by (destruct (send_connected q); [done|by destruct (Hcon eq_refl); congruence]).
  unfold remote_recv_cb. conn_simpl. destruct x as [d| | |]; cbn [remote_said]; [|by apply Hclose| |by apply Hclose].
  2: { rewrite app_nil_r. eexists _, _. split; [done|]. apply relays_keep; [done..|]. rewrite app_nil_r. eexists _, _.
       split_and!; [done|done|done|exact Hu|]. exists []. rewrite app_nil_r, Hsio. cbn. rewrite Hconn.
       split_and!; try done. by exists off, l. }
  destruct (store_front (sbuf s) off l d Hw Hx) as (b & -> & Hb). run_simpl. cbn [direct set_timers].
  destruct (decrypt_segment s q _ d Hdok Hb) as (code & b' & dc & -> & Hcode). run_simpl.
  assert (Hmore : forall m, (if direct q then m = d /\ dc = d_ctx s else opened (d_ctx s) d m dc) ->
    downstream (segs ++ [d]) (direct q) dc (to_client post ++ m)).
  { intros m. by apply downstream_more. }
  assert (Hkept' : kept r (segs ++ [d]) post) by (eapply kept_more; [done|done|by apply prefix_app_r]).
  destruct Hcode as [->|(Hdok' & [(-> & Hdir & Ho & l' & Hb')|(-> & m & Hb' & Ho)])].
  - apply Hclose.
  - cbn. eexists _, _. split; [done|]. apply relays_keep; [done..|]. rewrite app_nil_r. eexists _, _.
    split_and!; [done|done|done|exact Hu|]. exists []. cbn. rewrite Hsio. split_and!; [|done|done|by exists 0, l'|by rewrite Hconn].
    apply (Hmore []). by rewrite Hdir.
  - change (CRYPTO_OK =? CRYPTO_ERROR) with false. change (CRYPTO_OK =? CRYPTO_NEED_MORE) with false. cbv iota.
    cbn [sbuf set_d_ctx set_sbuf]. rewrite (bytes_at_all _ _ _ Hb'). run_simpl.
    by apply (answered_ok s (set_timers (send_timer q) true q)); try done; apply Hmore.
Qed.

Lemma remote_send_ok st r segs fx peer x : related st r segs fx -> allowed st (RemoteSend peer x) ->
  keeps (remote_send_cb st peer x) r segs fx.
Proof.
  intros Hrel (q & Eq & Hqs).
  assert (Hclose : forall q' s', keeps (close_both (Some q') (Some s')) r segs fx).
  { intros q' s'. eapply close_related; [done|done|done| |by rewrite Eq].
    destruct Hrel as [? (? & ? & -> & _) _ _|? (? & ? & -> & _) _ _|? ? _ _ (? & ? & -> & _)|? -> _]; try done. }
  destruct Hrel as [pre (s & z & -> & _) _ _|pre Hop _ _|pre post Hpre Hpost (s & q1 & -> & Hst & Hdel & Hu & Hd)|? -> _]; try done.
  { destruct (opening_remote _ _ _ Hop Eq). congruence. }
  cbn [c_remote] in Eq. injection Eq as ->. unfold remote_send_cb. conn_simpl.
  destruct Hu as (Hby & pend & Hup & Hw & He & Hio). destruct Hd as (pd & Hds & Hdok & Hb & Hcon).
  destruct (negb (send_connected q) && negb peer); [by apply Hclose|].
  set (q1 := if negb (send_connected q) then _ else q).
  assert (Hq1 : rbuf q1 = rbuf q /\ direct q1 = direct q /\ r_send_io q1 = true /\ send_connected q1 = true /\
    (s_send_io s = true -> r_recv_io q1 = r_recv_io q)).
  { subst q1. destruct (send_connected q) eqn:Ec; cbn; split_and!; try done. intros Hs. by destruct (Hcon eq_refl) as [Hf _]; congruence. }
  clearbody q1. destruct Hq1 as (Erb & Edir & Eio & Econ & Erio).
  assert (Hdown : forall q2 s2, direct q2 = direct q1 -> r_recv_io q2 = r_recv_io q1 -> send_connected q2 = true -> sbuf s2 = sbuf s ->
    d_ctx s2 = d_ctx s -> s_send_io s2 = s_send_io s -> down_ok s2 q2 segs (to_client post)).
  { intros q2 s2 E1 E2 E3 E4 E5 E6. exists pd. rewrite E1, E2, E3, E4, E5, E6, Edir. split_and!; try done.
    destruct (s_send_io s); [|done]. by rewrite Erio. }
  assert (Hback : forall b sent l, pend = sent ++ l -> l = [] -> window b (b_idx b) l -> forall f, Forall is_relay f -> to_client f = [] -> to_remote f = sent ->
    keeps (Ret (Conn (Some (set_s_io true (s_send_io s) s)) (Some (set_r_io (r_recv_io q1) false (set_rbuf b q1))), f)) r segs (pre ++ OpenRemote :: post)).
  { intros b sent l -> -> Hbw f Hf Hfc Hfr. eexists _, _. split; [done|]. apply relays_keep; [done..|].
    rewrite to_remote_app, to_client_app, Hfc, Hfr, app_nil_r. rewrite app_nil_r in Hup. eexists _, _. split_and!; [done|done|done| |by apply Hdown].
    split; [cbn; by rewrite Edir|]. exists []. rewrite app_nil_r. cbn. rewrite Edir. split_and!; try done. by right. }
  rewrite Erb, (window_len _ _ _ Hw). destruct (Z.eqb_spec (len pend) 0) as [Hz|Hz].
  - destruct (negb _); [|by apply Hclose]. apply len_0_nil in Hz. rewrite <- (set_rbuf_id q1) at 2. rewrite Erb.
    by apply (Hback _ [] pend).
  - rewrite <- (window_len _ _ _ Hw), (bytes_at_all _ _ _ Hw). run_simpl. rewrite (window_len _ _ _ Hw).
    destruct x as [n| |]; [| |by apply Hclose].
    + cbn [accepted send_value]. destruct (send_split n pend) as (l & Hp & Hl). destruct (_ <? _) eqn:Elt.
      * eexists _, _. split; [done|]. apply relays_keep; [done|done|by repeat constructor|]. rewrite to_remote_app, to_client_app. cbn. rewrite !app_nil_r.
        eexists _, _. split_and!; [done|done|done| |by apply Hdown]. split; [cbn; by rewrite Edir|]. exists l. rewrite <- app_assoc, <- Hp. cbn. rewrite Edir.
        split_and!; try done; [by apply sent_window|]. left. split; [done|]. destruct Hio as [[_ ?]|(? & _)]; [done|congruence].
      * specialize (Hl eq_refl). subst l. apply (Hback _ _ [] Hp); try done; [by eapply window_nil|by repeat constructor|by cbn; rewrite app_nil_r].
    + eexists _, _. split; [done|]. apply relays_keep; [done..|]. rewrite app_nil_r. eexists _, _. split_and!; [done|done|done| |by apply Hdown].
      split; [by rewrite Edir|]. exists pend. rewrite Edir, Erb. split_and!; try done. left. split; [done|]. destruct Hio as [[_ ?]|(? & _)]; [done|congruence].
Qed.

(** ** Every event *)

Lemma related_step st r segs fx e : related st r segs fx -> bytes_ok r -> allowed st e ->
  keeps (step junk logging fast_open st e) (r ++ client_said e) (segs ++ remote_said e) fx.
Proof.
  intros Hrel Hb Ha. destruct e as [x k|x|x y|peer x|k|]; cbn [step client_said remote_said]; rewrite ?app_nil_r.
  - by apply server_recv_ok.
  - by apply server_send_ok.
  - by apply remote_recv_ok.
  - by apply remote_send_ok.
  - by apply delayed_connect_ok.
  - destruct Ha as (q & Eq & _). unfold remote_timeout_cb. rewrite Eq.
    destruct Hrel as [? (? & ? & -> & _) _ _|? (s & q1 & -> & Hop) -> Hpre|? ? Hpre Hpost (s & q1 & -> & _ & _ & Hu & Hd)|? -> _]; try done.
    + apply close_relayed; [done|done|apply kept_nil].
    + apply close_relayed; [done|done|by eapply kept_related].
Qed.
Lemma related_accept : related (accept_cb junk e0 d0) [] [] [].
Proof.
  apply related_waiting; [|done|done]. eexists _, []. split_and!; [done| |apply new_buffer_window|done|done].
  split_and!; try done. eexists _, []. split; [done|apply new_buffer_window].
Qed.
End steps.
