(* ===== verification/LocalToy.v ===== *)
(** * A cipher that computes, for the evaluated instances of the local proxy

    Every byte is moved by one; the context counts the calls. *)
From S2P Require Import Prelude Crypto Local LocalSpec.

Definition moved (k : Z) (d : bytes) : bytes := map (fun x => (x + k) mod 256) d.
Definition move (k : Z) (b : buffer) (n : Z) : run (Z * buffer * Z) :=
  d ← bytes_at b 0 (b_len b); b' ← store b 0 (moved k d); Ret (0, with_len b' (len d), n + 1).

#[export] Instance toy_tcp : TcpCrypto Z := {| crypto_encrypt := move 1; crypto_decrypt := move (-1) |}.

Lemma len_moved k d : len (moved k d) = len d.
Proof. unfold len, moved. by rewrite length_map. Qed.
Lemma move_ok k b n m : window b 0 m -> exists b', move k b n = Ret (0, b', n + 1) /\ window b' 0 (moved k m).
Proof.
  intros Hw. unfold move. rewrite (bytes_at_all _ _ _ Hw). run_simpl. pose proof Hw as (a & Ha & Hc & Hb & Hl & _ & Hle & _).
  unfold store. rewrite Ha. run_simpl.
  destruct (wr_range_extend [] (moved k m) a 0) as (a' & -> & Hs & Hla); [apply starts_with_nil|done|rewrite len_moved; change (len (@nil Z)) with 0; lia|].
  run_simpl. eexists. split; [done|]. exists a'. cbn. rewrite zdrop_0, len_moved. pose proof (len_nonneg m).
  unfold starts_with in Hs. cbn [app] in Hs. rewrite len_moved in Hs. split_and!; try done; lia.
Qed.

#[export] Instance toy_tcp_laws : TcpCryptoLaws Z.
Proof.
  refine {| enc_ok _ := True; dec_ok _ := True; sealed n m w n' := w = moved 1 m /\ n' = n + 1; opened n x m n' := m = moved (-1) x /\ n' = n + 1 |}.
  - intros b n m _ Hw _. destruct (move_ok 1 b n m Hw) as (b' & E & Hb'). exists 0, b', (n + 1). split; [done|]. intros _. split; [done|].
    by exists (moved 1 m).
  - intros b n x _ Hw. destruct (move_ok (-1) b n x Hw) as (b' & E & Hb'). exists 0, b', (n + 1). split; [done|]. right; right.
    split_and!; [done|done|]. by exists (moved (-1) x).
Defined.

(** System calls that succeed, with room for everything. *)
Definition toy_calls : calls := Calls (Accept 2) (Accept 10) [] true false true ConnectInProgress (Accept 4096).
Definition toy_junk (n : nat) : Z := Z.of_nat n mod 256.
