(* ===== verification/LocalProps.v ===== *)
(** * The local proxy relays what it is asked to, and agrees with the SOCKS client

    A run starts with [accept_cb]; its events are those that the event loop can
    deliver, with any bytes of the client ([possible]) or with requests that the code
    survives ([admissible]). *)
From S2P Require Import Prelude Crypto Http Tls Local LocalSpec LocalSteps LocalToy.

Section runs.
Context {C : Type} `{TcpCryptoLaws C} (junk : nat -> Z) (logging fast_open may_bypass : bool).

Fixpoint admissible (st : conn C) (es : list event) : Prop :=
  match es with
  | [] => True
  | e :: es => allowed logging may_bypass st e /\ forall st' f, step junk logging fast_open st e = Ret (st', f) -> admissible st' es
  end.
Definition said_by_client (es : list event) : bytes := flat_map client_said es.
Definition said_by_remote (es : list event) : list bytes := flat_map remote_said es.

Lemma allowed_bytes (st : conn C) e : allowed logging may_bypass st e -> bytes_ok (client_said e).
Proof. destruct e as [[d| | |] k|x|x y|peer x|k|]; cbn; try by constructor. by intros (s & _ & _ & _ & ? & _). Qed.
Lemma related_run e0 d0 : enc_ok e0 -> dec_ok d0 -> forall es st r segs fx, related may_bypass e0 d0 st r segs fx -> bytes_ok r -> admissible st es ->
  exists st' f, exec junk logging fast_open st es = Ret (st', f) /\
    related may_bypass e0 d0 st' (r ++ said_by_client es) (segs ++ said_by_remote es) (fx ++ f).
Proof.
  intros He Hd. induction es as [|e es IH]; intros st r segs fx Hrel Hb Hadm.
  { exists st, []. cbn. by rewrite !app_nil_r. }
  destruct Hadm as [Ha Hadm]. destruct (related_step junk logging fast_open may_bypass e0 d0 He Hd st r segs fx e Hrel Hb Ha) as (st1 & f & E & Hrel').
  pose proof (allowed_bytes _ _ Ha). destruct (IH st1 _ _ _ Hrel') as (st' & f' & E' & Hrel''); [by apply bytes_ok_app|by eapply Hadm|].
  exists st', (f ++ f'). cbn [exec]. rewrite E. run_simpl. rewrite E'. run_simpl. split; [done|]. cbn. by rewrite !app_assoc.
Qed.
Lemma run_from_accept e0 d0 es : enc_ok e0 -> dec_ok d0 -> admissible (accept_cb junk e0 d0) es ->
  exists st fx, exec junk logging fast_open (accept_cb junk e0 d0) es = Ret (st, fx) /\
    related may_bypass e0 d0 st (said_by_client es) (said_by_remote es) fx.
Proof. intros He Hd Ha. apply (related_run e0 d0 He Hd es _ [] [] []); [apply related_accept|constructor|done]. Qed.

(** Without [fits]: whatever the client sends.  Such a run is admissible or comes
    to a request that does not fit. *)
Definition offered (st : conn C) (e : event) : Prop :=
  match e with
  | ServerRecv (Received d) k => bytes_ok d /\ exists s, c_server st = Some s /\ s_recv_io s = true /\
      (k_bypass k = true -> may_bypass = true) /\ len d <= BUF_SIZE - b_len (recv_buf st s)
  | _ => allowed logging may_bypass st e
  end.
Fixpoint possible (st : conn C) (es : list event) : Prop :=
  match es with
  | [] => True
  | e :: es => offered st e /\ forall st' f, step junk logging fast_open st e = Ret (st', f) -> possible st' es
  end.
Definition meets_misfit (st : conn C) (es : list event) : Prop := exists es1 d k es2 st1 fx s,
  es = es1 ++ ServerRecv (Received d) k :: es2 /\ exec junk logging fast_open st es1 = Ret (st1, fx) /\
  c_server st1 = Some s /\ c_remote st1 = None /\ misfit logging (requested (stage s) (held (sbuf s) ++ d)).

Lemma offered_cases st e : offered st e -> allowed logging may_bypass st e \/ meets_misfit st [e].
Proof.
  destruct e as [[d| | |] k|x|x y|peer x|k|]; try by left. intros (Hb & s & Hs & Hio & Hby & Hl).
  destruct (c_remote st) as [q|] eqn:Hq; [left; exists s; split_and!; try done; by rewrite Hq|].
  destruct (fits_or_misfit logging (requested (stage s) (held (sbuf s) ++ d))) as [Hf|Hm].
  - left. exists s. by split_and!.
  - right. by exists [], d, k, [], st, [], s.
Qed.
Lemma possible_cases es : forall st, possible st es -> admissible st es \/ meets_misfit st es.
Proof.
  induction es as [|e es IH]; intros st; [by left|]. intros [He Hes]. destruct (offered_cases st e He) as [Ha|Hm].
  - destruct (step junk logging fast_open st e) as [[st1 f]|] eqn:Hst; [|left; split; [done|by rewrite Hst]].
    destruct (IH st1 (Hes _ _ eq_refl)) as [Had|(es1 & d & k & es2 & st2 & fx & s & -> & E & Hrest)].
    + left. split; [done|]. rewrite Hst. by intros ? ? [= <- _].
    + right. exists (e :: es1), d, k, es2, st2, (f ++ fx), s. split; [done|]. split; [|done].
      cbn [exec]. rewrite Hst. run_simpl. by rewrite E.
  - right. destruct Hm as (es1 & d & k & es2 & st1 & fx & s & Hes1 & Hrest). exists es1, d, k, (es2 ++ es), st1, fx, s.
    split; [|done]. change (e :: es) with ([e] ++ es). rewrite Hes1, <- app_assoc. done.
Qed.
Lemma admissible_possible es : forall st, admissible st es -> possible st es.
Proof.
  induction es as [|e es IH]; intros st; [done|]. intros [Ha Hes]. split; [|intros st' f E; by apply IH, (Hes st' f)].
  destruct e as [[d| | |] k|x|x y|peer x|k|]; try exact Ha. destruct Ha as (s & Hs & Hio & Hby & Hb & Hl & _). split; [done|]. by exists s.
Qed.
Lemma admissible_meets_none es : forall st, admissible st es -> ~ meets_misfit st es.
Proof.
  intros st Had (es1 & d & k & es2 & st1 & fx & s & -> & E & Hs & Hq & Hm). revert st fx Had E.
  induction es1 as [|e es1 IH]; intros st fx Had E; destruct Had as [Ha Hes]; cbn [exec] in E.
  - injection E as -> _. destruct Ha as (s' & Hs' & _ & _ & _ & _ & Hf). rewrite Hs in Hs'. injection Hs' as <-.
    by apply (misfit_fits logging _ Hm), Hf.
  - destruct (step junk logging fast_open st e) as [[st2 f]|] eqn:Hst; cbn in E; [|done].
    destruct (exec junk logging fast_open st2 es1) as [[st3 f3]|] eqn:E2; cbn in E; [|done]. injection E as -> _.
    by apply (IH st2 f3 (Hes st2 f eq_refl)).
Qed.

Definition closed (st : conn C) : bool := match c_server st with Some _ => false | None => true end.
Lemma related_served e0 d0 st r segs fx : related may_bypass e0 d0 st r segs fx -> served may_bypass e0 d0 r segs (closed st) fx.
Proof.
  intros [pre (s & x & -> & _) _ Hpre|pre (s & q & -> & _) -> Hpre|pre post Hpre Hpost (s & q & -> & _ & _ & Hu & Hd)|? -> Hs]; cbn.
  - by constructor.
  - apply (served_relayed _ _ _ _ _ pre []); [done|done|apply kept_nil].
  - apply served_relayed; [done|done|by eapply kept_related].
  - done.
Qed.
(** Something can still happen: the client is read or the remote waits for room. *)
Definition awake (st : conn C) : Prop := forall s, c_server st = Some s ->
  s_recv_io s = true \/ exists q, c_remote st = Some q /\ r_send_io q = true.
Lemma related_awake e0 d0 st r segs fx : related may_bypass e0 d0 st r segs fx -> awake st.
Proof.
  intros [pre (s & x & -> & Hf & _) _ _|pre (s & q & -> & _ & _ & _ & Hr & _) _ _|pre post _ _ (s & q & -> & _ & _ & (_ & pend & _ & _ & _ & Hio) & _)|? -> _] s' [= <-].
  - left. apply Hf.
  - by left.
  - destruct Hio as [[? _]|(_ & ? & _)]; [right; by exists q|by left].
Qed.
Lemma replies_silent pre : Forall is_reply pre -> to_remote pre = [].
Proof. induction 1 as [|f pre Hf _ IH]; [done|]. destruct f; try done. Qed.
Lemma to_remote_split pre post : Forall is_reply pre -> to_remote (pre ++ OpenRemote :: post) = to_remote post.
Proof. intros Hpre. by rewrite to_remote_app, (replies_silent pre Hpre). Qed.

(** The effects since the remote was opened. *)
Fixpoint relayed (fx : list effect) : list effect :=
  match fx with [] => [] | OpenRemote :: fx => fx | _ :: fx => relayed fx end.
Lemma relayed_replies pre fx : Forall is_reply pre -> relayed (pre ++ fx) = relayed fx.
Proof. induction 1 as [|f pre Hf _ IH]; [done|]. destruct f; try done. Qed.

(** The client is read again: all it said is with the remote. *)
Definition caught_up (st : conn C) : Prop := exists s q, st = Conn (Some s) (Some q) /\ delayed_connect s = false /\ s_recv_io s = true.
Lemma caught_up_relaying e0 d0 st r segs fx : related may_bypass e0 d0 st r segs fx -> caught_up st ->
  exists direct e, (direct = true -> may_bypass = true) /\ upstream e0 r direct e (to_remote fx).
Proof.
  intros Hrel (s & q & -> & Hdel & Hr).
  destruct Hrel as [pre (s1 & x & Heq & _) _ _|pre (s1 & q1 & Heq & Hf & _) _ _|pre post Hpre _ (s1 & q1 & Heq & _ & _ & Hu & _)|fx Heq _]; simplify_eq; [congruence|].
  exists (direct q1), (e_ctx s1). rewrite to_remote_split by done.
  destruct Hu as (Hby & pend & Hup & _ & _ & [(_ & Hf)|(_ & _ & _ & ->)]); [congruence|]. split; [done|]. by rewrite app_nil_r in Hup.
Qed.

(** Nothing waits for the client: it has all that the remote sent. *)
Definition drained (st : conn C) : Prop := exists s q, st = Conn (Some s) (Some q) /\ delayed_connect s = false /\ s_send_io s = false.
Lemma drained_relaying e0 d0 st r segs fx : related may_bypass e0 d0 st r segs fx -> drained st ->
  exists direct d, (direct = true -> may_bypass = true) /\ downstream d0 segs direct d (to_client (relayed fx)).
Proof.
  intros Hrel (s & q & -> & Hdel & Hs).
  destruct Hrel as [pre (s1 & x & Heq & _) _ _|pre (s1 & q1 & Heq & Hf & _) _ _|pre post Hpre _ (s1 & q1 & Heq & _ & _ & [Hby _] & Hd)|fx Heq _]; simplify_eq; [congruence|].
  exists (direct q1), (d_ctx s1). split; [done|]. rewrite relayed_replies by done. cbn [relayed].
  destruct Hd as (pend & Hdn & _ & Hb & _). rewrite Hs in Hb. destruct Hb as [-> _]. by rewrite app_nil_r in Hdn.
Qed.

#[export] Instance caught_up_dec (st : conn C) : Decision (caught_up st).
Proof.
  destruct st as [[s|] [q|]]; [|right; by intros (? & ? & ? & _)..].
  destruct (delayed_connect s) eqn:Ed; [right; intros (? & ? & [= <- <-] & ? & _); congruence|].
  destruct (s_recv_io s) eqn:Er; [left; by exists s, q|right; intros (? & ? & [= <- <-] & _ & ?); congruence].
Defined.

#[export] Instance drained_dec (st : conn C) : Decision (drained st).
Proof.
  destruct st as [[s|] [q|]]; [|right; by intros (? & ? & ? & _)..].
  destruct (delayed_connect s) eqn:Ed; [right; intros (? & ? & [= <- <-] & ? & _); congruence|].
  destruct (s_send_io s) eqn:Er; [right; intros (? & ? & [= <- <-] & _ & ?); congruence|left; by exists s, q].
Defined.
End runs.

(** C3: the proxy relays.  Whatever the remote and the system calls do
    and whatever the client sends, short of the two kinds of request that [fits]
    excludes, a connection faults nowhere; it replies, opens at most one remote,
    sends it a beginning of the sealed header and payload that the request calls
    for (or, where the access list says so, the payload alone), sends the client a
    beginning of what the remote's segments open to, closes each object exactly
    once and is never left with nothing to wait for.  Nothing is lost: when the
    proxy reads from the client again the remote has all the client said, and when
    nothing waits for the client it has all the remote sent. *)
Theorem local_proxy_relays {C : Type} `{TcpCryptoLaws C} junk logging fast_open may_bypass (e0 d0 : C) es :
  enc_ok e0 -> dec_ok d0 -> admissible junk logging fast_open may_bypass (accept_cb junk e0 d0) es ->
  exists st fx, exec junk logging fast_open (accept_cb junk e0 d0) es = Ret (st, fx) /\
    served may_bypass e0 d0 (said_by_client es) (said_by_remote es) (closed st) fx /\ awake st /\
    (caught_up st -> exists direct e, (direct = true -> may_bypass = true) /\ upstream e0 (said_by_client es) direct e (to_remote fx)) /\
    (drained st -> exists direct d, (direct = true -> may_bypass = true) /\ downstream d0 (said_by_remote es) direct d (to_client (relayed fx))).
Proof.
  intros He Hd Ha. destruct (run_from_accept junk logging fast_open may_bypass e0 d0 es He Hd Ha) as (st & fx & E & Hrel).
  exists st, fx. split_and!; [done|by apply related_served|by eapply related_awake|by eapply caught_up_relaying|by eapply drained_relaying].
Qed.

(** ** Runs that can be checked by evaluation (names are not logged) *)

Definition bytes_okb (d : bytes) : bool := forallb (fun x => (0 <=? x) && (x <? 256)) d.
Definition fitsb (x : bytes) : bool :=
  match x with _ :: _ :: _ :: atyp :: n :: tl => negb ((atyp =? 3) && (len tl =? n + 1)) | _ => true end.
Definition allowedb {C : Type} (may_bypass : bool) (st : conn C) (e : event) : bool :=
  match e with
  | ServerRecv x k =>
      match c_server st with
      | Some s => s_recv_io s && implb (k_bypass k) may_bypass &&
          match x with
          | Received d => bytes_okb d && (len d <=? BUF_SIZE - b_len (recv_buf st s)) &&
              match c_remote st with None => fitsb (requested (stage s) (held (sbuf s) ++ d)) | Some _ => true end
          | _ => true
          end
      | None => false
      end
  | ServerSend x => match c_server st with Some s => s_send_io s | None => false end
  | RemoteRecv x y => match c_remote st with
                      | Some q => r_recv_io q && match x with Received d => len d <=? BUF_SIZE | _ => true end
                      | None => false
                      end
  | RemoteSend peer x => match c_remote st with Some q => r_send_io q | None => false end
  | DelayedConnect k => match c_server st with Some s => delayed_connect s | None => false end
  | RemoteTimeout => match c_remote st with Some q => send_timer q || recv_timer q | None => false end
  end.
Fixpoint admissibleb {C : Type} `{TcpCrypto C} junk fast_open may_bypass (st : conn C) (es : list event) : bool :=
  match es with
  | [] => true
  | e :: es => allowedb may_bypass st e &&
      match step junk false fast_open st e with Ret (st, _) => admissibleb junk fast_open may_bypass st es | Fail _ => false end
  end.

Lemma fitsb_ok x : fitsb x = true -> fits false x.
Proof.
  intros Hx v rsv atyp body ->. split; [|done]. intros (-> & n & tl & -> & Hl). cbn in Hx. rewrite Hl, Z.eqb_refl in Hx. done.
Qed.
Lemma bytes_okb_ok d : bytes_okb d = true -> bytes_ok d.
Proof.
  induction d as [|x d IH]; [by constructor|]. cbn. rewrite !andb_true_iff, Z.leb_le, Z.ltb_lt. intros [Hx Hd]. constructor; [done|by apply IH].
Qed.
Lemma allowedb_ok {C : Type} may_bypass (st : conn C) e : allowedb may_bypass st e = true -> allowed false may_bypass st e.
Proof.
  destruct e as [x k|x|x y|peer x|k|]; cbn.
  - destruct (c_server st) as [s|]; [|done]. rewrite !andb_true_iff. intros [[Hio Hby] Hx]. exists s. split_and!; [done|done|by destruct (k_bypass k)|].
    destruct x; [|done..]. rewrite !andb_true_iff, Z.leb_le in Hx. destruct Hx as [[Hd Hl] Hf].
    split_and!; [by apply bytes_okb_ok|done|]. intros Hr. rewrite Hr in Hf. by apply fitsb_ok.
  - destruct (c_server st) as [s|]; [|done]. intros Hs. by exists s.
  - destruct (c_remote st) as [q|]; [|done]. rewrite andb_true_iff. intros [Hq Hx]. exists q. split_and!; [done|done|].
    destruct x; [|done..]. by apply Z.leb_le.
  - destruct (c_remote st) as [q|]; [|done]. intros Hs. by exists q.
  - destruct (c_server st) as [s|]; [|done]. intros Hs. by exists s.
  - destruct (c_remote st) as [q|]; [|done]. intros [Hs|Hs]%orb_true_iff; exists q; (split; [done|]); [by left|by right].
Qed.
Lemma admissibleb_ok {C : Type} `{TcpCrypto C} junk fast_open may_bypass es : forall st : conn C,
  admissibleb junk fast_open may_bypass st es = true -> admissible junk false fast_open may_bypass st es.
Proof.
  induction es as [|e es IH]; intros st; [done|]. cbn. rewrite andb_true_iff. intros [Ha Hs]. split; [by apply allowedb_ok|].
  intros st' f E. rewrite E in Hs. by apply IH.
Qed.

(** A greeting, a request for port 25 of 10.0.0.1, two bytes before the delayed
    connection, the connection, and an answer that the client takes in two steps. *)
Definition toy_events : list event :=
  [ServerRecv (Received [5; 1; 0]) toy_calls; ServerRecv (Received [5; 1; 0; 1; 10; 0; 0; 1; 0; 25]) toy_calls;
   ServerRecv (Received [104; 105]) toy_calls; RemoteSend true (Accept 5); RemoteSend true (Accept 4096);
   RemoteRecv (Received [2; 3; 4]) (Accept 2); ServerSend (Accept 9)].
Lemma local_proxy_relays_witness : exists st fx,
  exec toy_junk false false (accept_cb toy_junk 0 0) toy_events = Ret (st, fx) /\
  served false 0 0 (said_by_client toy_events) [[2; 3; 4]] (closed st) fx /\
  to_remote fx = moved 1 [1; 10; 0; 0; 1; 0; 25; 104; 105] /\ to_client (relayed fx) = [1; 2; 3].
Proof.
  destruct (local_proxy_relays toy_junk false false false 0 0 toy_events) as (st & fx & E & Hs & _); [done|done|by apply admissibleb_ok; vm_compute|].
  exists st, fx. split; [exact E|]. split; [exact Hs|].
  assert (Hv : (to_remote <$> (snd <$> exec toy_junk false false (accept_cb toy_junk 0 0) toy_events),
                to_client <$> (relayed <$> (snd <$> exec toy_junk false false (accept_cb toy_junk 0 0) toy_events)))
               = (Ret (moved 1 [1; 10; 0; 0; 1; 0; 25; 104; 105]), Ret [1; 2; 3])) by (by vm_compute).
  rewrite E in Hv. cbn [fmap run_fmap snd] in Hv. injection Hv as H1 H2. split; [exact H1|exact H2].
Defined.
