(* ===== verification/LocalAead.v ===== *)
(** * The local proxy with the AEAD ciphers: from the SOCKS client to the server

    The interface that local.c uses ([TcpCrypto]) is filled by aead.c; its laws
    follow from those of the primitives. *)
From S2P Require Import Prelude Crypto CryptoSpec Aead AeadSpec AeadStream AeadSafety AeadUdp AeadProps CryptoToy Http Tls.
From S2P Require Import Local LocalSpec LocalSteps LocalToy LocalProps.

(** [cipher_ctx_t] with the static buffer of [aead_encrypt] or [aead_decrypt] and
    the random numbers that will be drawn. *)
Record tcp_ctx `{CryptoPrims} := TcpCtx { t_ctx : cipher_ctx; t_tmp : buffer; t_draws : nat -> entropy; t_seed : bytes }.
Arguments TcpCtx {_}.

Section aead_tcp.
Context `{L : CryptoLaws} (junk : nat -> Z) (may_bypass : bool).

#[export] Instance aead_tcp : TcpCrypto tcp_ctx := {|
  crypto_encrypt b c :=
    '(err, b, tmp, x) ← aead_encrypt junk b (t_tmp c) (t_ctx c) BUF_SIZE (t_draws c 0);
    Ret (err, b, TcpCtx x tmp (fun n => t_draws c (S n)) (t_seed c));
  crypto_decrypt b c :=
    '(err, b, tmp, x) ← aead_decrypt junk b (t_tmp c) (t_ctx c) BUF_SIZE (t_seed c);
    Ret (err, b, TcpCtx x tmp (t_draws c) (t_seed c)) |}.

(** ** Buffers keep their room *)

Lemma grow_capacity b n capacity : capacity <= b_capacity (grow junk b n capacity).
Proof. unfold grow. destruct (Z.ltb_spec (b_capacity b) (Z.max n capacity)); cbn; lia. Qed.
Lemma ret_bind {A B} (m : run A) (g : A -> run B) y : m ≫= g = Ret y -> exists x, m = Ret x /\ g x = Ret y.
Proof. destruct m as [x|]; [|done]. intros E. by exists x. Qed.

Lemma aead_encrypt_room pt tmp cx capacity e code pt' tmp' cx' :
  aead_encrypt junk pt tmp cx capacity e = Ret (code, pt', tmp', cx') -> code = 0 -> b_len pt <> 0 -> capacity <= b_capacity pt'.
Proof.
  unfold aead_encrypt. intros E -> Hn. rewrite (proj2 (Z.eqb_neq _ _) Hn) in E.
  apply ret_bind in E as (data & _ & E). apply ret_bind in E as ([data1 cx1] & _ & E). apply ret_bind in E as (p & _ & E).
  apply ret_bind in E as ([[[err cx2] data2] out] & _ & E). destruct (Z.eqb_spec err 0) as [->|Herr]; cbn [negb] in E; [|by injection E as ? _ _ _].
  apply ret_bind in E as (q & _ & E). apply ret_bind in E as (q' & _ & E). injection E as <- _ _. cbn. apply grow_capacity.
Qed.
Lemma aead_decrypt_room ct tmp d capacity seed code ct' tmp' d' :
  aead_decrypt junk ct tmp d capacity seed = Ret (code, ct', tmp', d') ->
  (code = CRYPTO_OK -> capacity <= b_capacity ct') /\ (code = CRYPTO_NEED_MORE -> ct' = ct).
Proof.
  unfold aead_decrypt. intros E. apply ret_bind in E as (cd & _ & E). apply ret_bind in E as (inp & _ & E).
  apply ret_bind in E as (cd' & _ & E). apply ret_bind in E as ([[d1 ch]|] & _ & E); [|injection E as <- <- _ _; by split].
  apply ret_bind in E as (p & _ & E). apply ret_bind in E as (c & _ & E).
  apply ret_bind in E as ([[[[[err d2] p2] c2] pl] cl] & _ & E).
  destruct (Z.eqb_spec err 0) as [->|Herr]; cbn [negb] in E; [|injection E as <- <- _ _; by split].
  apply ret_bind in E as (x & _ & E). apply ret_bind in E as (x' & _ & E).
  injection E as <- <- _ _. split; [|done]. intros _. cbn. apply grow_capacity.
Qed.

(** ** The laws *)

Lemma window_of_holds b l : holds b l -> BUF_SIZE <= b_capacity b -> window b 0 l.
Proof. intros Hh Hc. by apply window_holds. Qed.
Lemma window_data b l : window b 0 l -> is_Some (b_data b).
Proof. intros (a & -> & _). by eexists. Qed.

(** The messages of a call of [aead_encrypt]: none for an empty buffer. *)
Definition aead_sealed (c : tcp_ctx) (m w : bytes) (c' : tcp_ctx) : Prop := forall key n, sender (t_ctx c) key n ->
  exists ems, ems_ok ems /\ plain ems = m /\
    w = (if (init (t_ctx c) =? 0) && negb (length ems =? 0)%nat then preamble (t_ctx c) else []) ++ frames (cipher (t_ctx c)) key n ems /\
    sender (t_ctx c') key (nonce_after n ems) /\ cipher (t_ctx c') = cipher (t_ctx c) /\
    (if (length ems =? 0)%nat then t_ctx c' = t_ctx c else init (t_ctx c') = 1).
Definition aead_opened (c : tcp_ctx) (x m : bytes) (c' : tcp_ctx) : Prop := forall pre key ems b more,
  receiver (t_ctx c) pre key ems b (x ++ more) -> ems_ok ems ->
  exists ems1 ems2 b', ems = ems1 ++ ems2 /\ m = plain ems1 /\ receiver (t_ctx c') pre key ems2 b' more.

Lemma aead_encrypt_law (b : buffer) (c : tcp_ctx) m :
  ((exists key n, sender (t_ctx c) key n) /\ buffer_ok (t_tmp c) /\ forall i, entropy_ok (t_draws c i)) ->
  window b 0 m -> len m <= BUF_SIZE ->
  exists code b' c', crypto_encrypt b c = Ret (code, b', c') /\
    (code = 0 -> ((exists key n, sender (t_ctx c') key n) /\ buffer_ok (t_tmp c') /\ forall i, entropy_ok (t_draws c' i)) /\
       exists w, window b' 0 w /\ aead_sealed c m w c').
Proof.
  intros ((key & n & Hs) & Ht & He) Hw Hl. unfold crypto_encrypt, aead_tcp. destruct (decide (m = [])) as [->|Hm].
  - unfold aead_encrypt. rewrite (window_len _ _ _ Hw). change (len (@nil Z) =? 0) with true. run_simpl.
    eexists _, _, _. split; [done|]. intros _. cbn. split; [split_and!; [by exists key, n|done|intros i; apply He]|].
    exists []. split; [done|]. intros key' n' Hs'. exists []. cbn. rewrite andb_false_r. split_and!; try done. by constructor.
  - assert (Hmok : msg_ok m).
    { split; [|unfold BUF_SIZE, CHUNK_SIZE_MASK in *; lia]. destruct m; [done|]. rewrite len_cons. pose proof (len_nonneg m). lia. }
    assert (Hh : holds b m) by (by apply window_holds).
    destruct (aead_encrypt_spec junk (t_ctx c) key n b m (t_tmp c) BUF_SIZE (t_draws c 0) Hs Hh Hmok Ht) as (b' & tmp' & x & E & Hb' & Ht' & Hs' & _); [done|done|].
    rewrite E. run_simpl. eexists _, _, _. split; [done|]. intros _. cbn. split; [split_and!; [by eexists _, _|done|intros i; apply He]|].
    assert (Hroom : BUF_SIZE <= b_capacity b').
    { eapply aead_encrypt_room; [exact E|done|]. rewrite (window_len _ _ _ Hw). destruct Hmok. lia. }
    eexists. split; [by apply window_of_holds|]. intros key' n' Hs2.
    destruct (aead_encrypt_spec junk (t_ctx c) key' n' b m (t_tmp c) BUF_SIZE (t_draws c 0) Hs2 Hh Hmok Ht) as (b2 & tmp2 & x2 & E2 & Hb2 & _ & Hs3 & Hi & Hc); [done|done|].
    rewrite E in E2. injection E2 as <- <- <-. exists [(t_draws c 0, m)]. cbn. rewrite andb_true_r, !app_nil_r. split_and!; try done.
    + by repeat constructor; try apply He; apply Hmok.
    + rewrite <- (contents_holds _ _ Hb'). by apply contents_holds.
Qed.

Lemma aead_decrypt_law (b : buffer) (c : tcp_ctx) x : live (t_ctx c) /\ buffer_ok (t_tmp c) -> window b 0 x ->
  exists code b' c', crypto_decrypt b c = Ret (code, b', c') /\
    (code = CRYPTO_ERROR \/
     (code = CRYPTO_NEED_MORE /\ (live (t_ctx c') /\ buffer_ok (t_tmp c')) /\ aead_opened c x [] c' /\ exists l, window b' 0 l) \/
     (code = CRYPTO_OK /\ (live (t_ctx c') /\ buffer_ok (t_tmp c')) /\ exists m, window b' 0 m /\ aead_opened c x m c')).
Proof.
  intros [Hlive Ht] Hw. pose proof (proj1 (window_holds _ _) Hw) as [Hh _]. pose proof (window_data _ _ Hw) as Hd.
  destruct (aead_decrypt_any junk (t_ctx c) b x (t_tmp c) BUF_SIZE (t_seed c) Hlive Hh Hd Ht) as (code & b' & tmp' & d' & E & Hcode & Hlive' & Hb' & Ht' & Hl); [done|].
  unfold crypto_decrypt, aead_tcp. rewrite E. run_simpl. eexists _, _, _. split; [done|]. cbn.
  destruct (aead_decrypt_room _ _ _ _ _ _ _ _ _ E) as [Hroom Hsame].
  assert (Hopen : forall pre key ems bs more, receiver (t_ctx c) pre key ems bs (x ++ more) -> ems_ok ems ->
    exists ems1 ems2 bs', ems = ems1 ++ ems2 /\ receiver d' pre key ems2 bs' more /\
      (code = CRYPTO_OK /\ holds b' (plain ems1) \/ code = CRYPTO_NEED_MORE /\ ems1 = [])).
  { intros pre key ems bs more Hr He.
    destruct (aead_decrypt_spec junk (t_ctx c) pre key ems bs more b x (t_tmp c) BUF_SIZE (t_seed c) Hr He Hh Hd Ht) as (code2 & b2 & tmp2 & d2 & ems1 & ems2 & bs' & E2 & Hems & Hr' & _ & Hc2); [done|].
    rewrite E in E2. injection E2 as <- <- <- <-. exists ems1, ems2, bs'. split_and!; [done|done|]. naive_solver. }
  destruct Hcode as [-> |[-> | ->]]; [right; right|by left|right; left].
  - split_and!; [done|done|done|]. destruct (buffer_ok_holds b' Hb') as [m Hm]. exists m.
    split; [by apply window_of_holds; [|apply Hroom]|]. intros pre key ems bs more Hr He.
    destruct (Hopen pre key ems bs more Hr He) as (ems1 & ems2 & bs' & Hems & Hr' & [[_ Hp]|[Hf _]]); [|done].
    exists ems1, ems2, bs'. split_and!; [done| |done]. rewrite <- (contents_holds _ _ Hm). by apply contents_holds.
  - split_and!; [done|done|done| |rewrite (Hsame eq_refl); by eexists]. intros pre key ems bs more Hr He.
    destruct (Hopen pre key ems bs more Hr He) as (ems1 & ems2 & bs' & Hems & Hr' & [[Hf _]|[_ ->]]); [done|].
    by exists [], ems2, bs'.
Qed.

#[export] Instance aead_tcp_laws : TcpCryptoLaws tcp_ctx := {|
  enc_ok c := (exists key n, sender (t_ctx c) key n) /\ buffer_ok (t_tmp c) /\ forall i, entropy_ok (t_draws c i);
  dec_ok c := live (t_ctx c) /\ buffer_ok (t_tmp c);
  sealed := aead_sealed;
  opened := aead_opened;
  encrypt_law := aead_encrypt_law;
  decrypt_law := aead_decrypt_law |}.

(** ** Whole directions *)

Lemma nonce_after_app ems1 : forall n ems2, nonce_after n (ems1 ++ ems2) = nonce_after (nonce_after n ems1) ems2.
Proof. induction ems1 as [|[e m] ems1 IH]; intros n ems2; [done|]. apply IH. Qed.
Lemma frames_app c key ems1 : forall n ems2, frames c key n (ems1 ++ ems2) = frames c key n ems1 ++ frames c key (nonce_after n ems1) ems2.
Proof. induction ems1 as [|[e m] ems1 IH]; intros n ems2; [done|]. cbn. by rewrite IH, app_assoc. Qed.
Lemma plain_app ems1 ems2 : plain (ems1 ++ ems2) = plain ems1 ++ plain ems2.
Proof. unfold plain. by rewrite fmap_app, concat_app. Qed.

Lemma seal_run_frames ms : forall ws e e' key n, seal_run e ms ws e' -> sender (t_ctx e) key n ->
  exists ems, ems_ok ems /\ plain ems = concat ms /\
    concat ws = (if (init (t_ctx e) =? 0) && negb (length ems =? 0)%nat then preamble (t_ctx e) else []) ++ frames (cipher (t_ctx e)) key n ems.
Proof.
  induction ms as [|m ms IH]; intros [|w ws] e e' key n Hrun Hs; try done.
  { exists []. cbn. rewrite andb_false_r. split_and!; try done. by constructor. }
  destruct Hrun as (e1 & Hw & Hrun). destruct (Hw key n Hs) as (ems1 & Hok1 & Hp1 & -> & Hs1 & Hc1 & Hi1).
  destruct (IH ws e1 e' key _ Hrun Hs1) as (ems2 & Hok2 & Hp2 & Hw2). exists (ems1 ++ ems2).
  split_and!; [by apply Forall_app|by rewrite plain_app, Hp1, Hp2|]. cbn [concat]. rewrite Hw2, Hc1, frames_app, length_app. clear Hw Hw2.
  destruct ems1 as [|em ems1]; cbn [length Nat.eqb Nat.add app negb frames] in *.
  - rewrite Hi1, andb_false_r. done.
  - rewrite Hi1. change (1 =? 0) with false. cbn [andb app]. by rewrite <- app_assoc.
Qed.

Lemma open_run_plain pre key xs : forall ms d d' ems b more, open_run d xs ms d' ->
  receiver (t_ctx d) pre key ems b (concat xs ++ more) -> ems_ok ems ->
  exists ems1 ems2 b', ems = ems1 ++ ems2 /\ concat ms = plain ems1 /\ receiver (t_ctx d') pre key ems2 b' more.
Proof.
  induction xs as [|x xs IH]; intros [|m ms] d d' ems b more Hrun Hr He; try done.
  { exists [], ems, b. cbn in Hrun. by subst d'. }
  destruct Hrun as (d1 & Ho & Hrun). cbn [concat] in Hr. rewrite <- app_assoc in Hr.
  destruct (Ho _ _ _ _ _ Hr He) as (ems1 & ems2 & b1 & -> & -> & Hr1). apply Forall_app in He as [_ He2].
  destruct (IH ms d1 d' ems2 b1 more Hrun Hr1 He2) as (ems3 & ems4 & b2 & -> & Hms & Hr2).
  exists (ems1 ++ ems3), ems4, b2. rewrite plain_app, <- Hms. by rewrite <- app_assoc.
Qed.

Lemma header_nonempty x hdr pay : request x hdr pay -> hdr <> [].
Proof. intros (v & rsv & atyp & addr & p & pay' & _ & _ & _ & [-> |(_ & ret & h & mem & name & _ & _ & _ & _ & ->)]); done. Qed.
(** What the client's bytes call for, as the stream of one sender. *)
Lemma upstream_frames e0 r e total key n : upstream e0 r false e total -> sender (t_ctx e0) key n -> init (t_ctx e0) = 0 ->
  exists x hdr pay ems, rest r x /\ request x hdr pay /\ ems_ok ems /\ plain ems = hdr ++ pay /\
    total = preamble (t_ctx e0) ++ frames (cipher (t_ctx e0)) key n ems.
Proof.
  intros (x & hdr & pay & Hr & Hx & ms & ws & Hrun & <- & ->) Hs Hi.
  destruct (seal_run_frames (hdr :: ms) ws e0 e key n Hrun Hs) as (ems & Hok & Hp & Hw). exists x, hdr, (concat ms), ems.
  split_and!; [done|done|done|done|]. rewrite Hw, Hi. change (0 =? 0) with true. cbn [andb]. destruct ems; [|done].
  pose proof (header_nonempty _ _ _ Hx) as Hne. cbn in Hp. symmetry in Hp. by apply app_eq_nil in Hp as [? _].
Qed.
Lemma request_more r r' x hdr pay : r `prefix_of` r' -> rest r x -> request x hdr pay ->
  exists x' pay', rest r' x' /\ request x' hdr pay' /\ pay `prefix_of` pay'.
Proof.
  intros [k ->] Hr Hx. exists (x ++ k), (pay ++ k). split_and!; [by apply rest_app|by apply request_app|by apply prefix_app_r].
Qed.

(** The effects of a connection, whatever became of it. *)
Lemma served_streams {C : Type} `{TcpCryptoLaws C} (e0 d0 : C) r segs ended fx : served may_bypass e0 d0 r segs ended fx ->
  to_remote fx = to_remote (relayed fx) /\ kept may_bypass e0 d0 r segs (relayed fx).
Proof.
  intros [pre Hpre|pre Hpre|pre post Hpre Hpost Hk|pre post Hpre Hpost Hk]; rewrite ?to_remote_app, (replies_silent pre Hpre).
  - rewrite <- (app_nil_r pre), relayed_replies by done. split; [done|apply kept_nil].
  - rewrite relayed_replies by done. split; [done|apply kept_nil].
  - by rewrite relayed_replies.
  - rewrite relayed_replies by done. split; [done|]. by apply kept_silent.
Qed.

(** A receiver that has seen nothing, and all or a part of what a new sender sends. *)
Lemma receiver_start e d ems w more : ctx_ok e -> ctx_ok d -> method (cipher e) = method (cipher d) -> init d = 0 -> chunk d = None ->
  peer d (preamble e) (session_key 1 e) ->
  w ++ more = preamble e ++ frames (cipher e) (session_key 1 e) (zero_of (cipher e)) ems ->
  receiver d (preamble e) (session_key 1 e) ems [] (w ++ more).
Proof.
  intros He Hd Hm Hi Hch Hp Hw. destruct (suite_sizes _ _ (proj1 He) (proj1 Hd) Hm) as (Hnl & _ & _).
  split; [unfold pending; by rewrite Hch|]. left. split_and!; try done.
  - change (len (@nil Z)) with 0. apply len_nonneg.
  - cbn [app]. rewrite Hw. unfold zero_of. rewrite Hnl. f_equal. apply frames_suite; [apply He|apply Hd|done].
Qed.
Lemma server_reads e sd ems segs tmp seed : ctx_ok e -> ctx_ok sd -> method (cipher e) = method (cipher sd) -> init sd = 0 -> chunk sd = None ->
  peer sd (preamble e) (session_key 1 e) -> ems_ok ems -> buffer_ok tmp ->
  concat segs `prefix_of` preamble e ++ frames (cipher e) (session_key 1 e) (zero_of (cipher e)) ems ->
  exists ems1 ems2 sd', recv_stream junk tmp sd BUF_SIZE seed segs = Ret (CRYPTO_OK, plain ems1, sd') /\ ems = ems1 ++ ems2 /\
    (concat segs = preamble e ++ frames (cipher e) (session_key 1 e) (zero_of (cipher e)) ems -> ems2 = []).
Proof.
  intros He Hsd Hm Hi Hch Hp Hems Ht [more Hmore].
  destruct (recv_stream_spec junk (preamble e) (session_key 1 e) more segs sd ems [] tmp BUF_SIZE seed) as (sd' & ems1 & ems2 & b' & Hrec & Hsplit & Hr);
    [by apply receiver_start|done|done|done|]. exists ems1, ems2, sd'. split_and!; [done|done|]. intros Hall.
  rewrite <- Hall in Hmore. rewrite <- (app_nil_r (concat segs)) in Hmore at 1. apply app_inv_head in Hmore. subst more.
  rewrite Hsplit in Hems. apply Forall_app in Hems as [_ Hems2]. by apply (receiver_done sd' (preamble e) (session_key 1 e) ems2 b' (receiver_cipher _ _ _ _ _ _ Hr)).
Qed.
Lemma plain_prefix ems1 ems2 : plain ems1 `prefix_of` plain (ems1 ++ ems2).
Proof. rewrite plain_app. by apply prefix_app_r. Qed.
Lemma live_fresh d : ctx_ok d -> init d = 0 -> is_local d = 1 -> chunk d = None -> live d.
Proof. intros Hd Hi Hl Hch. split; [by rewrite Hch|]. left. split_and!; [done|done|]. by rewrite Hl. Qed.

Definition asked (r hdr pay : bytes) : Prop := exists x, rest r x /\ request x hdr pay.

(** The payload goes out as it is. *)
Definition bypassed (r : bytes) (fx : list effect) : Prop := may_bypass = true /\ exists hdr pay, asked r hdr pay /\ to_remote fx `prefix_of` pay.
(** The server has read [out]: a beginning of the header and the payload, and all if [complete]. *)
Definition uploaded (r : bytes) (complete : Prop) (out : bytes) : Prop :=
  (out = [] /\ ~ complete) \/
  exists hdr pay, asked r hdr pay /\ out `prefix_of` hdr ++ pay /\ (complete -> out = hdr ++ pay).

Lemma upload_sealed e0 e sd r total fx segs tmp seed complete :
  upstream e0 r false e total -> to_remote fx `prefix_of` total -> (complete -> to_remote fx = total) ->
  ctx_ok (t_ctx e0) -> init (t_ctx e0) = 0 -> ctx_ok sd -> method (cipher (t_ctx e0)) = method (cipher sd) -> init sd = 0 -> chunk sd = None ->
  peer sd (preamble (t_ctx e0)) (session_key 1 (t_ctx e0)) -> buffer_ok tmp -> concat segs `prefix_of` to_remote fx ->
  exists hdr pay out sd', asked r hdr pay /\ recv_stream junk tmp sd BUF_SIZE seed segs = Ret (CRYPTO_OK, out, sd') /\
    out `prefix_of` hdr ++ pay /\ (complete -> concat segs = to_remote fx -> out = hdr ++ pay).
Proof.
  intros Hup Hpre Hcomp He Hei Hsd Hm Hsi Hsch Hp Ht Hsegs.
  destruct (upstream_frames e0 r e total (session_key 1 (t_ctx e0)) (zero_of (cipher (t_ctx e0))) Hup) as (x & hdr & pay & ems & Hr & Hx & Hems & Hpl & ->);
    [split; [done|by left]|done|].
  destruct (server_reads (t_ctx e0) sd ems segs tmp seed He Hsd Hm Hsi Hsch Hp Hems Ht) as (ems1 & ems2 & sd' & Hrec & Hsplit & Hall); [by etrans|].
  exists hdr, pay, (plain ems1), sd'. rewrite <- Hpl, Hsplit. split_and!; [by exists x|done|apply plain_prefix|].
  intros Hc Heq. rewrite Hall, app_nil_r; [done|]. by rewrite Heq, Hcomp.
Qed.
Lemma uploads e0 d0 st r segs0 fx sd tmp seed : related may_bypass e0 d0 st r segs0 fx ->
  ctx_ok (t_ctx e0) -> init (t_ctx e0) = 0 -> ctx_ok sd -> method (cipher (t_ctx e0)) = method (cipher sd) -> init sd = 0 -> chunk sd = None ->
  peer sd (preamble (t_ctx e0)) (session_key 1 (t_ctx e0)) -> buffer_ok tmp ->
  bypassed r fx \/ forall segs, concat segs `prefix_of` to_remote fx -> exists out sd',
    recv_stream junk tmp sd BUF_SIZE seed segs = Ret (CRYPTO_OK, out, sd') /\ uploaded r (caught_up st /\ concat segs = to_remote fx) out.
Proof.
  intros Hrel He Hei Hsd Hm Hsi Hsch Hp Ht. destruct (decide (caught_up st)) as [Hc|Hc].
  - destruct (caught_up_relaying may_bypass e0 d0 st r segs0 fx Hrel Hc) as (dr & e & Hby & Hup). destruct dr.
    + left. split; [by apply Hby|]. destruct Hup as (x & hdr & pay & Hr & Hx & Heq). exists hdr, pay. split; [by exists x|by rewrite Heq].
    + right. intros segs Hsegs.
      destruct (upload_sealed e0 e sd r (to_remote fx) fx segs tmp seed True) as (hdr & pay & out & sd' & Ha & Hrec & Hpre & Hall); try done.
      exists out, sd'. split; [done|]. right. exists hdr, pay. split_and!; [done|done|]. intros [_ ?]. by apply Hall.
  - destruct (served_streams e0 d0 r segs0 _ fx (related_served may_bypass e0 d0 st r segs0 fx Hrel)) as (Hto & (dr & Hby & Hu & _)).
    rewrite <- Hto in Hu. destruct Hu as [Hnil|(r' & e & total & Hr' & Hup & Hpre)].
    + right. intros segs Hsegs. rewrite Hnil in Hsegs |- *. destruct (server_reads (t_ctx e0) sd [] segs tmp seed) as (ems1 & ems2 & sd' & Hrec & Hsplit & _); try done.
      { by constructor. }
      { etrans; [exact Hsegs|apply prefix_nil]. }
      symmetry in Hsplit. apply app_eq_nil in Hsplit as [-> ->]. exists [], sd'. split; [done|]. left. split; [done|]. by intros [? _].
    + destruct dr.
      * left. split; [by apply Hby|]. destruct Hup as (x & hdr & pay & Hr & Hx & Heq). rewrite Heq in Hpre. destruct (request_more r' r x hdr pay Hr' Hr Hx) as (x' & pay' & Hr2 & Hx2 & Hpp).
        exists hdr, pay'. split; [by exists x'|by etrans].
      * right. intros segs Hsegs.
        destruct (upload_sealed e0 e sd r' total fx segs tmp seed False) as (hdr & pay & out & sd' & (x & Hr & Hx) & Hrec & Hpo & _); try done.
        destruct (request_more r' r x hdr pay Hr' Hr Hx) as (x' & pay' & Hr2 & Hx2 & Hpp).
        exists out, sd'. split; [done|]. right. exists hdr, pay'. split_and!; [by exists x'| |by intros [? _]].
        etrans; [exact Hpo|]. by apply prefix_app.
Qed.

(** C1: upload, end to end.  A SOCKS client talks to the local proxy, which
    talks AEAD to the server.  Whatever the client sends and whatever the system
    calls do, either the run comes to a request of the two kinds that the code
    does not survive (a domain request one byte short, and, where names are
    logged, one that sniffs a name of more than 256 bytes), or it faults nowhere,
    and then, however the network cuts what the remote is given, the server's
    decoder accepts it and reads a beginning of the header and payload the client
    asked for, all of it when the proxy has caught up.  The one exception is a
    connection that the access list lets bypass the proxy: its remote is given a
    beginning of the payload, plain. *)
Theorem proxy_upload logging fast_open c cs seed seed' rx tx saltbytes saltbytes' draws tmp tmp' rseed :
  configured c cs seed seed' rx tx -> salt_source saltbytes -> salt_source saltbytes' ->
  (forall i, entropy_ok (draws i)) -> buffer_ok tmp -> buffer_ok tmp' ->
  exists e d sd, new_server_ctxs c seed saltbytes = Ret (e, d) /\ aead_ctx_init cs None 0 saltbytes' = Ret sd /\
  let start := accept_cb junk (TcpCtx e tmp draws []) (TcpCtx d tmp draws []) in
  forall es, possible junk logging fast_open may_bypass start es ->
  meets_misfit junk logging fast_open start es \/
  exists st fx, exec junk logging fast_open start es = Ret (st, fx) /\
    (bypassed (said_by_client es) fx \/
     forall segs, concat segs `prefix_of` to_remote fx -> exists out sd',
       recv_stream junk tmp' sd BUF_SIZE rseed segs = Ret (CRYPTO_OK, out, sd') /\
       uploaded (said_by_client es) (caught_up st /\ concat segs = to_remote fx) out).
Proof.
  intros Hcf Hs Hs' Hdraws Ht Ht'. pose proof (cf_method _ _ _ _ _ _ Hcf) as Hm.
  destruct (client_to_server_ends _ _ _ _ _ _ _ _ Hcf Hs Hs') as (e & d & sd & Hn & Hi & He & Hei & Hec & Hsd & Hsi & Hsch & Hsc & (Hd & Hdi & Hdl & Hdch) & Hp).
  exists e, d, sd. split_and!; [done|done|]. intros start es Hpos. rewrite <- Hec, <- Hsc in Hm.
  destruct (possible_cases junk logging fast_open may_bypass es start Hpos) as [Hadm|Hmis]; [right|by left].
  set (e0 := TcpCtx e tmp draws []) in *. set (d0 := TcpCtx d tmp draws []) in *.
  destruct (run_from_accept junk logging fast_open may_bypass e0 d0 es) as (st & fx & E & Hrel);
    [split_and!; [by exists (session_key 1 e), (zero_of (cipher e)); split; [|left]|done|done]|by split; [by apply live_fresh|]|done|].
  exists st, fx. split; [exact E|]. by apply (uploads e0 d0 st _ _ fx sd tmp' rseed Hrel).
Qed.

(** The client has been relayed [out] of the server's messages [ems], all if [complete]. *)
Definition downloaded (ems : list (entropy * bytes)) (complete : Prop) (out : bytes) : Prop :=
  out `prefix_of` plain ems /\ (complete -> out = plain ems).

Lemma downstream_plain d0 segs d total pre key ems more : downstream d0 segs false d total -> ems_ok ems ->
  receiver (t_ctx d0) pre key ems [] (concat segs ++ more) ->
  exists ems1 ems2 b, ems = ems1 ++ ems2 /\ total = plain ems1 /\ receiver (t_ctx d) pre key ems2 b more.
Proof.
  intros (ms & Hrun & ->) Hems Hr. by apply (open_run_plain pre key segs ms d0 d ems [] more).
Qed.
Lemma downloads e0 d0 st r segs fx se ems wire : related may_bypass e0 d0 st r segs fx -> ctx_ok se ->
  wire = preamble se ++ frames (cipher se) (session_key 1 se) (zero_of (cipher se)) ems ->
  ctx_ok (t_ctx d0) -> method (cipher se) = method (cipher (t_ctx d0)) -> init (t_ctx d0) = 0 -> chunk (t_ctx d0) = None ->
  peer (t_ctx d0) (preamble se) (session_key 1 se) -> ems_ok ems -> concat segs `prefix_of` wire ->
  (may_bypass = true /\ to_client (relayed fx) `prefix_of` wire) \/ downloaded ems (drained st /\ concat segs = wire) (to_client (relayed fx)).
Proof.
  intros Hrel Hse Hwire Hd Hm Hdi Hdch Hp Hems Hsegs.
  assert (Hopens : forall segs' d total more, downstream d0 segs' false d total -> concat segs' ++ more = wire ->
    exists ems1 ems2 b, ems = ems1 ++ ems2 /\ total = plain ems1 /\ receiver (t_ctx d) (preamble se) (session_key 1 se) ems2 b more).
  { intros segs' d total more Hdn Hmore. apply (downstream_plain d0 segs'); [done|done|]. apply receiver_start; try done. by rewrite Hmore. }
  destruct (decide (drained st)) as [Hc|Hc].
  - destruct (drained_relaying may_bypass e0 d0 st r segs fx Hrel Hc) as ([] & d & Hby & Hdn); [left; split; [by apply Hby|by rewrite Hdn]|right].
    destruct Hsegs as [more Hmore]. destruct (Hopens segs d _ more Hdn (eq_sym Hmore)) as (ems1 & ems2 & b & Hsplit & -> & Hr).
    split; [rewrite Hsplit; apply plain_prefix|]. intros [_ Hall]. rewrite Hall in Hmore.
    rewrite <- (app_nil_r wire) in Hmore at 1. apply app_inv_head in Hmore. subst more. rewrite Hsplit in Hems. apply Forall_app in Hems as [_ Hems2].
    rewrite (receiver_done _ _ _ ems2 b (receiver_cipher _ _ _ _ _ _ Hr) Hems2 Hr) in Hsplit. by rewrite Hsplit, app_nil_r.
  - destruct (served_streams e0 d0 r segs _ fx (related_served may_bypass e0 d0 st r segs fx Hrel)) as (_ & (dr & Hby & _ & segs' & d & total & [tl Htl] & Hdn & Hpre)).
    destruct dr.
    + left. split; [by apply Hby|]. etrans; [exact Hpre|]. rewrite Hdn. etrans; [|exact Hsegs]. rewrite Htl, concat_app. by apply prefix_app_r.
    + right. split; [|by intros [? _]]. etrans; [exact Hpre|]. destruct Hsegs as [more Hmore]. rewrite Htl, concat_app, <- app_assoc in Hmore.
      destruct (Hopens segs' d total _ Hdn (eq_sym Hmore)) as (ems1 & ems2 & b & -> & -> & _). apply plain_prefix.
Qed.

(** C2: download, end to end.  While the remote's segments are a beginning of
    what the server has sealed, cut anywhere, the client is relayed a beginning
    of the server's messages, in order, and all of them when the segments are
    complete and nothing waits in the proxy (on a bypassed connection, the segments as they are). *)
Theorem proxy_download logging fast_open c cs seed seed' rx tx k saltbytes saltbytes' draws tmp tmp' ems :
  configured c cs seed seed' rx tx -> kx_ok k -> kx_tx k = rx -> salt_source saltbytes -> salt_source saltbytes' ->
  (forall i, entropy_ok (draws i)) -> buffer_ok tmp -> buffer_ok tmp' -> ems_ok ems -> ems <> [] ->
  exists e d se wire se', new_server_ctxs c seed saltbytes = Ret (e, d) /\ aead_ctx_init cs (Some k) 1 saltbytes' = Ret se /\
  send_stream junk tmp' se BUF_SIZE ems = Ret (CRYPTO_OK, wire, se') /\
  let start := accept_cb junk (TcpCtx e tmp draws []) (TcpCtx d tmp draws []) in
  forall es, admissible junk logging fast_open may_bypass start es -> concat (said_by_remote es) `prefix_of` wire ->
  exists st fx, exec junk logging fast_open start es = Ret (st, fx) /\
    (may_bypass = true /\ to_client (relayed fx) `prefix_of` wire \/
     downloaded ems (drained st /\ concat (said_by_remote es) = wire) (to_client (relayed fx))).
Proof.
  intros Hcf Hk Hrx Hs Hs' Hdraws Ht Ht' Hems Hne. pose proof (cf_method _ _ _ _ _ _ Hcf) as Hm.
  destruct (server_to_client_ends _ _ _ _ _ _ _ _ _ Hcf Hk Hrx Hs Hs') as (e & d & se & Hn & Hi & He & Hei & Hse & Hsi & Hsc & Hd & Hdi & Hdch & Hdc & Hdl & Hp).
  destruct (send_stream_spec junk ems Hems se (session_key 1 se) (zero_of (cipher se)) tmp' BUF_SIZE) as (se' & Hsend & _ & _); [split; [done|by left]|done|done|].
  exists e, d, se. eexists _, se'. split_and!; [done|done|exact Hsend|]. intros start es Hadm Hsegs.
  set (e0 := TcpCtx e tmp draws []) in *. set (d0 := TcpCtx d tmp draws []) in *.
  destruct (run_from_accept junk logging fast_open may_bypass e0 d0 es) as (st & fx & E & Hrel);
    [split_and!; [by exists (session_key 1 e), (zero_of (cipher e)); split; [|left]|done|done]|by split; [by apply live_fresh|]|done|].
  exists st, fx. split; [exact E|]. eapply (downloads e0 d0 st _ _ fx se ems); try done.
  - rewrite Hsi. change (0 =? 0) with true. by destruct ems.
  - cbn. by rewrite Hsc, Hdc.
Qed.
End aead_tcp.

(** ** Evaluated instances *)

Definition toy_contexts : cipher_ctx * cipher_ctx :=
  match new_server_ctxs toy_client toy_seed toy_salt with Ret p => p | Fail _ => (ctx_zero toy_client, ctx_zero toy_client) end.
Definition toy_ctx_of (x : cipher_ctx) : tcp_ctx := TcpCtx x buffer_zero (fun _ => toy_entropy) [].
Definition toy_start : conn tcp_ctx := accept_cb AeadProps.toy_junk (toy_ctx_of toy_contexts.1) (toy_ctx_of toy_contexts.2).
Lemma toy_entropy_ok : entropy_ok toy_entropy.
Proof. split; [done|]. intros n Hn. by apply len_zrep. Qed.
(** The events of the upload: greeting, request, two bytes, and the connection. *)
Definition toy_upload : list event := take 5 toy_events.

Lemma proxy_upload_witness : exists sd st fx, aead_ctx_init toy_server None 0 toy_salt = Ret sd /\
  exec (H := aead_tcp AeadProps.toy_junk) AeadProps.toy_junk false false toy_start toy_upload = Ret (st, fx) /\
  forall segs, concat segs `prefix_of` to_remote fx -> exists out sd',
    recv_stream AeadProps.toy_junk buffer_zero sd BUF_SIZE [] segs = Ret (CRYPTO_OK, out, sd') /\
    uploaded (said_by_client toy_upload) (caught_up st /\ concat segs = to_remote fx) out.
Proof.
  destruct (proxy_upload AeadProps.toy_junk false false false toy_client toy_server toy_seed [9; 8; 7] _ _ toy_salt toy_salt (fun _ => toy_entropy)
    buffer_zero buffer_zero [] toy_configured toy_salt_ok toy_salt_ok) as (e & d & sd & Hn & Hi & Hrun); [intros _; apply toy_entropy_ok|done|done|].
  assert (Hc : toy_contexts = (e, d)) by (unfold toy_contexts; by rewrite Hn).
  assert (Hs : accept_cb AeadProps.toy_junk (TcpCtx e buffer_zero (fun _ => toy_entropy) []) (TcpCtx d buffer_zero (fun _ => toy_entropy) []) = toy_start)
    by (unfold toy_start; by rewrite Hc).
  cbv zeta in Hrun. rewrite Hs in Hrun. assert (Ha : admissible (T := aead_tcp AeadProps.toy_junk) AeadProps.toy_junk false false false toy_start toy_upload) by (by apply admissibleb_ok; vm_compute).
  destruct (Hrun toy_upload) as [Hmis|(st & fx & E & [[Hf _]|Hup])]; [by apply admissible_possible|by destruct (admissible_meets_none _ _ _ _ _ _ Ha Hmis)|done|].
  exists sd, st, fx. split; [exact Hi|]. split; [exact E|exact Hup].
Defined.

(** What the server seals, and a download that gets all of it in one segment. *)
Definition toy_wire : bytes :=
  match (se ← aead_ctx_init toy_server (Some toy_kx) 1 toy_salt; send_stream AeadProps.toy_junk buffer_zero se BUF_SIZE toy_ems) with
  | Ret (_, wire, _) => wire
  | Fail _ => []
  end.
Definition toy_download : list event := toy_upload ++ [RemoteRecv (Received toy_wire) (Accept 1); ServerSend (Accept 9)].

Lemma proxy_download_witness : exists st fx,
  exec (H := aead_tcp AeadProps.toy_junk) AeadProps.toy_junk false false toy_start toy_download = Ret (st, fx) /\
  downloaded toy_ems (drained st /\ concat [toy_wire] = toy_wire) (to_client (relayed fx)) /\
  to_client (relayed fx) = [104; 105; 33].
Proof.
  destruct (proxy_download AeadProps.toy_junk false false false toy_client toy_server toy_seed [9; 8; 7]
    (toy_rx (pad32 toy_seed) (pad32 [9; 8; 7])) (toy_shared (pad32 toy_seed) (pad32 [9; 8; 7])) toy_kx toy_salt toy_salt (fun _ => toy_entropy)
    buffer_zero buffer_zero toy_ems toy_configured) as (e & d & se & wire & se' & Hn & Hi & Hsend & Hrun);
    [done|done|apply toy_salt_ok|apply toy_salt_ok|intros _; apply toy_entropy_ok|done|done|apply toy_ems_ok|done|].
  assert (Hc : toy_contexts = (e, d)) by (unfold toy_contexts; by rewrite Hn).
  assert (Hs : accept_cb AeadProps.toy_junk (TcpCtx e buffer_zero (fun _ => toy_entropy) []) (TcpCtx d buffer_zero (fun _ => toy_entropy) []) = toy_start)
    by (unfold toy_start; by rewrite Hc).
  assert (Hw : toy_wire = wire) by (unfold toy_wire; rewrite Hi; run_simpl; by rewrite Hsend).
  cbv zeta in Hrun. rewrite Hs in Hrun. destruct (Hrun toy_download) as (st & fx & E & [[Hf _]|Hdown]);
    [by apply admissibleb_ok; vm_compute|cbn; rewrite app_nil_r; by rewrite Hw|done|].
  exists st, fx. split; [exact E|]. split; [rewrite <- Hw in Hdown; exact Hdown|].
  assert (Hv : to_client <$> (relayed <$> (snd <$> exec (H := aead_tcp AeadProps.toy_junk) AeadProps.toy_junk false false toy_start toy_download))
               = Ret [104; 105; 33]) by (by vm_compute).
  rewrite E in Hv. cbn [fmap run_fmap snd] in Hv. injection Hv as Hv. exact Hv.
Defined.
