(* ===== verification/LocalSocks.v ===== *)
(** * The SOCKS client of the tunnel meets the local proxy

    [dialog] is what the client of socksclient/BSocksClient.c says and concludes
    for what it is told; here the proxy of local.c tells it. *)
From S2P Require Import Prelude Crypto Http Tls Inet Addr SocksClient SocksClientSpec.
From S2P Require Import Local LocalSpec LocalSteps LocalToy LocalProps.

Section handshake.
Context {C : Type} `{TcpCryptoLaws C} (junk : nat -> Z) (logging fast_open may_bypass : bool) (e0 d0 : C).
Context (He0 : enc_ok e0) (Hd0 : dec_ok d0).
Implicit Types (s : server_t C) (k : calls).

Abbreviation handle := (server_recv_cb junk logging fast_open).

(** ** The greeting, in pieces *)

Definition greeting_ok (h : bytes) : Prop := exists n ms, h = 5 :: n :: ms /\ len ms = n /\ 1 <= n <= 255.

Lemma handle_init s x d k : stage s = STAGE_INIT -> window (sbuf s) 0 x -> len x + len d <= BUF_SIZE ->
  exists b, window b 0 (x ++ d) /\ b_capacity b = b_capacity (sbuf s) /\ handle (Conn (Some s) None) (Received d) k = stage_init junk logging (set_sbuf b s) k.
Proof.
  intros Hst Hw Hl. unfold server_recv_cb. conn_simpl. rewrite bool_decide_eq_false_2 by (by rewrite Hst).
  destruct (window_store (sbuf s) x d Hw Hl) as (b & Es & Hb). pose proof (store_capacity _ _ _ _ Es). rewrite Es. run_simpl.
  exists (with_len b (b_len (sbuf s) + len d)). split; [done|]. split; [done|].
  unfold server_recv_loop. conn_simpl. change (stage (set_sbuf _ s)) with (stage s). by rewrite Hst.
Qed.
Lemma stage_init_waits s x k n ms l : window (sbuf s) 0 x -> l <> [] -> x ++ l = 5 :: n :: ms -> len ms = n -> 1 <= n <= 255 ->
  stage_init junk logging s k = Ret (Conn (Some s) None, []).
Proof.
  intros Hw Hl Hx Hms Hn. unfold stage_init. rewrite (window_len _ _ _ Hw). destruct (Z.ltb_spec (len x) 3); [done|].
  destruct x as [|v [|n' x]]; [by change (len (@nil Z)) with 0 in *|by change (len [v]) with 1 in *|]. injection Hx as -> -> Hx.
  rewrite (byte_at_ok _ _ 1 n Hw) by done. run_simpl. rewrite u8_small by lia.
  assert (0 < len l) by (pose proof (len_nonneg l); destruct (Z.eq_dec (len l) 0) as [Hz|]; [by apply len_0_nil in Hz|lia]).
  rewrite <- Hx, len_app in Hms. rewrite !len_cons. by ztest.
Qed.
Lemma stage_init_done s k n ms : window (sbuf s) 0 (5 :: n :: ms) -> len ms = n -> 1 <= n <= 255 ->
  stage_init junk logging s k = Ret (Conn (Some (set_sbuf (with_len (sbuf s) 0) (set_stage STAGE_HANDSHAKE s))) None,
    [ToClient (accepted (k_method k) [SVERSION; 0])]).
Proof.
  intros Hw Hms Hn. unfold stage_init. rewrite (window_len _ _ _ Hw), !len_cons, Hms. ztest.
  rewrite (byte_at_ok _ _ 1 n Hw) by done. run_simpl. rewrite u8_small by lia. ztest.
  rewrite (byte_at_ok _ _ 0 5 Hw) by done. run_simpl. change (5 =? SVERSION) with true. cbn [andb]. by ztest.
Qed.

(** The pieces and what the system calls answer with each. *)
Definition pieces (ps : list (bytes * calls)) : list event := (fun p => ServerRecv (Received p.1) p.2) <$> ps.
Definition takes (n : nat) (r : send_result) : Prop := exists m, r = Accept m /\ (n <= m)%nat.

Lemma greeting_run ps : forall s x h, fresh_server e0 d0 s -> stage s = STAGE_INIT -> window (sbuf s) 0 x ->
  greeting_ok h -> x ++ concat ps.*1 = h -> concat ps.*1 <> [] -> Forall (fun p => p.1 <> [] /\ takes 2 (k_method p.2)) ps ->
  exists s', exec junk logging fast_open (Conn (Some s) None) (pieces ps) = Ret (Conn (Some s') None, [ToClient [5; 0]]) /\
    fresh_server e0 d0 s' /\ stage s' = STAGE_HANDSHAKE /\ window (sbuf s') 0 [] /\ b_capacity (sbuf s') = b_capacity (sbuf s).
Proof.
  induction ps as [|[d k] ps IH]; intros s x h Hs Hst Hw Hh Hx Hne Hps; [done|].
  apply Forall_cons_iff in Hps as [[Hd (m & Hm & Hm2)] Hps]. cbn in Hd, Hm, Hx. destruct Hh as (n & ms & -> & Hms & Hn).
  assert (Hlen : len x + len d + len (concat ps.*1) = 2 + n).
  { rewrite <- !len_app, <- app_assoc, Hx, !len_cons. lia. }
  pose proof (len_nonneg (concat ps.*1)).
  destruct (handle_init s x d k Hst Hw) as (b & Hb & Hcap & E); [unfold BUF_SIZE; lia|].
  cbn [pieces fmap list_fmap exec step fst snd]. rewrite E. rewrite app_assoc in Hx. destruct (decide (concat ps.*1 = [])) as [Hz|Hz].
  - rewrite Hz, app_nil_r in Hx. rewrite Hx in Hb. rewrite (stage_init_done (set_sbuf b s) k n ms) by done. run_simpl.
    assert (ps = []) as ->.
    { destruct ps as [|[d' k'] ps]; [done|]. apply Forall_cons_iff in Hps as [[Hd' _] _]. cbn in Hz, Hd'. by apply app_eq_nil in Hz as [? _]. }
    cbn. rewrite Hm. cbn [accepted]. rewrite take_ge by (cbn; lia). eexists. split; [done|]. split; [exact Hs|]. split; [done|]. split; [by eapply window_nil|exact Hcap].
  - rewrite (stage_init_waits (set_sbuf b s) (x ++ d) k n ms (concat ps.*1)) by done. run_simpl.
    destruct (IH (set_sbuf b s) (x ++ d) (5 :: n :: ms)) as (s' & E' & Hs' & Hst' & Hw' & Hcap'); try done; [by exists n, ms|].
    change (exec junk logging fast_open (Conn (Some (set_sbuf b s)) None) (pieces ps) = Ret (Conn (Some s') None, [ToClient [5; 0]])) in E'.
    unfold pieces in E'. rewrite E'. run_simpl. exists s'. split_and!; try done. by rewrite Hcap'.
Qed.

(** ** The request, whole *)

(** What is sent to the client before stays in front, and nothing is added. *)
Definition silently (fx : list effect) (res : run (conn C * list effect)) : Prop :=
  forall st f, res = Ret (st, f) -> to_client f = to_client fx.
Lemma close_silent q s fx : silently fx ('(st, f) ← close_both q (Some s); Ret (st, fx ++ f)).
Proof. intros st f [= <- <-]. rewrite to_client_app. destruct q; cbn; by rewrite app_nil_r. Qed.
Lemma bind_silent {A} (m : run A) (g : A -> run (conn C * list effect)) fx : (forall a, silently fx (g a)) -> silently fx (a ← m; g a).
Proof. intros Hg st f. destruct m; [apply Hg|done]. Qed.
Lemma ret_silent (st : conn C) fx gx : to_client gx = [] -> silently fx (Ret (st, fx ++ gx)).
Proof. intros Hg st' f [= <- <-]. by rewrite to_client_app, Hg, app_nil_r. Qed.
Lemma start_stream_silent s a used k fx : silently fx (start_stream junk s a used k fx).
Proof.
  unfold start_stream. apply bind_silent. intros b.
  assert (Hgo : forall q, silently fx
    ('(err, a, e) ← (if negb (direct q) then crypto_encrypt a (e_ctx (set_stage STAGE_STREAM (set_sbuf b (set_abuf (Some a) s))))
        else Ret (0, a, e_ctx (set_stage STAGE_STREAM (set_sbuf b (set_abuf (Some a) s)))));
      if negb (err =? 0) then '(st, fx') ← close_both (Some q) (Some (set_stage STAGE_STREAM (set_sbuf b (set_abuf (Some a) s)))); Ret (st, fx ++ [OpenRemote] ++ fx') else
      rb ← (if 0 <? b_len b then d ← bytes_at b 0 (b_len b); b' ← store (rbuf q) 0 d;
        Ret (with_len b' (b_len b)) else Ret (rbuf q));
      Ret (Conn (Some (set_delayed true (set_abuf (Some a) (set_e_ctx e (set_stage STAGE_STREAM (set_sbuf b (set_abuf (Some a) s))))))) (Some (set_rbuf rb q)), fx ++ [OpenRemote]))).
  { intros q. apply bind_silent. intros [[err a'] e]. destruct (negb (err =? 0)).
    - intros st f [= <- <-]. rewrite to_client_app. cbn. by rewrite app_nil_r.
    - apply bind_silent. intros rb. by apply ret_silent. }
  destruct (k_bypass k); [apply Hgo|]. destruct (k_socket k); [apply Hgo|]. apply close_silent.
Qed.
Lemma stage_parse_silent s k fx : silently fx (stage_parse junk logging s k fx).
Proof.
  unfold stage_parse. do 4 (apply bind_silent; intros ?).
  destruct a2 as [[a2|]|]; [|by intros st f [= <- <-]|apply close_silent].
  destruct (negb _); [apply start_stream_silent|]. apply bind_silent. intros [ret h].
  destruct (_ && _); [by intros st f [= <- <-]|]. destruct (0 <? ret); [|apply start_stream_silent].
  apply bind_silent. intros a3. apply start_stream_silent.
Qed.

(** Bytes written out one by one. *)
Ltac octets := repeat (apply Forall_cons; [first [apply byte_ok_mod|unfold byte_ok; lia]|]); by apply Forall_nil.

Definition dest_bytes (dest : BAddr) : Prop := match dest with BADDR_IPV6 ip _ => bytes_ok ip | _ => True end.
Lemma request_address dest : dest_ok dest -> dest_bytes dest -> exists atyp addr,
  SocksClientSpec.request dest = [5; 1; 0; atyp] ++ addr /\ atyp <> 3 /\ address_ok atyp addr /\ bytes_ok ([5; 1; 0; atyp] ++ addr).
Proof.
  intros Hd Hb. destruct dest as [|ip port|ip port]; [done| |]; cbn in Hd, Hb; eexists _, _; (split; [done|]); (split; [done|]); (split; [|]).
  - by left.
  - unfold le32, le16. cbn [app]. octets.
  - right; left. split; [done|]. rewrite len_app, Hd. done.
  - do 4 (apply Forall_cons; [unfold byte_ok; lia|]). apply bytes_ok_app. split; [done|]. unfold le16. octets.
Qed.
Lemma address_fits atyp addr : atyp <> 3 -> address_ok atyp addr -> fits logging ([5; 1; 0; atyp] ++ addr).
Proof.
  intros Hn Ha v rsv atyp' body [= <- <- <- <-]. split; [by intros [? _]|]. intros addr' pay mem ret h _ _ Hb Ha' E.
  assert (len pay = 0).
  { apply (f_equal len) in Hb. rewrite len_app in Hb.
    destruct Ha as [(-> & Hl)|[(-> & Hl)|(-> & _)]], Ha' as [(? & Hl')|[(? & Hl')|(? & _)]]; try done; lia. }
  assert (pay = []) as -> by (by apply len_0_nil). unfold parse_packet in E.
  destruct (_ =? 80); [by injection E as <- _|]. destruct (_ =? 443); [|by injection E as <- _].
  by injection E as <- _.
Qed.

Lemma request_run s h dest k pre : (k_bypass k = true -> may_bypass = true) -> fresh_server e0 d0 s -> stage s = STAGE_HANDSHAKE -> window (sbuf s) 0 [] -> rest h [] -> bytes_ok h ->
  dest_ok dest -> dest_bytes dest -> takes 10 (k_reply k) -> Forall is_reply pre -> exists st f,
  handle (Conn (Some s) None) (Received (SocksClientSpec.request dest)) k = Ret (st, f) /\ to_client f = [5; 0; 0; 1; 0; 0; 0; 0; 0; 0] /\
  related may_bypass e0 d0 st (h ++ SocksClientSpec.request dest) [] (pre ++ f).
Proof.
  intros Hby Hs Hst Hw Hr Hbh Hd Hdb (n & Hk & Hn) Hpre. destruct (request_address dest Hd Hdb) as (atyp & addr & -> & Hn3 & Ha & Hb).
  pose proof Hb as [_ Hba]%bytes_ok_app. pose proof (len_address _ _ Hba Ha). set (x := [5; 1; 0; atyp] ++ addr) in *.
  assert (Hlx : len x = 4 + len addr) by (unfold x; by rewrite len_app).
  destruct (received_waiting junk logging fast_open may_bypass e0 d0 He0 s h [] x k pre) as (st & f & E & Hrel); try done.
  - unfold stage_ok. by rewrite Hst.
  - by apply bytes_ok_app.
  - change (len (@nil Z)) with 0. unfold BUF_SIZE. lia.
  - rewrite Hst. cbn. by apply address_fits.
  - exists st, f. split; [done|]. split; [|done]. unfold server_recv_cb in E. revert E. conn_simpl. rewrite bool_decide_eq_false_2 by (by rewrite Hst).
    destruct (window_store (sbuf s) [] x Hw) as (b & -> & Hwb); [change (len (@nil Z)) with 0; unfold BUF_SIZE; lia|]. run_simpl.
    unfold server_recv_loop. conn_simpl. change (stage (set_sbuf ?b s)) with (stage s). rewrite Hst.
    unfold stage_handshake. change (stage (set_sbuf ?b s)) with (stage s). cbn [app] in Hwb.
    set (b' := with_len b _) in *. cbn [sbuf set_sbuf]. rewrite (window_len _ _ _ Hwb). ztest.
    rewrite (byte_at_ok b' x 1 1 Hwb) by done. run_simpl. rewrite Hst, bool_decide_eq_true_2 by done.
    change (1 =? 3) with false. change (1 =? 1) with true. cbn [negb andb]. rewrite Hk. cbn [send_value accepted].
    change ([SVERSION; 0; 0; 1] ++ zrep 6 0) with [5; 0; 0; 1; 0; 0; 0; 0; 0; 0].
    rewrite take_ge by (cbn; lia). cbn [app]. rewrite Z.ltb_irrefl. intros E. by apply stage_parse_silent in E.
Qed.
End handshake.

Lemma exec_snoc {C : Type} `{TcpCrypto C} junk logging fast_open es e : forall (st st1 : conn C) f,
  exec junk logging fast_open st es = Ret (st1, f) ->
  exec junk logging fast_open st (es ++ [e]) = ('(st2, g) ← step junk logging fast_open st1 e; Ret (st2, f ++ g)).
Proof.
  induction es as [|e0 es IH]; intros st st1 f E1; cbn [exec app] in *.
  - injection E1 as -> <-. destruct (step junk logging fast_open st1 e) as [[st2 g]|]; run_simpl; [by rewrite app_nil_r|done].
  - destruct (step junk logging fast_open st e0) as [[st0 f0]|]; [|done]. cbn [mbind run_bind] in *.
    destruct (exec junk logging fast_open st0 es) as [[st3 f3]|] eqn:E; [|done]. cbn [mbind run_bind] in *. injection E1 as -> <-.
    rewrite (IH _ _ _ E). destruct (step junk logging fast_open st1 e) as [[st2 g]|]; run_simpl; [by rewrite app_assoc|done].
Qed.

(** C4: the tunnel's SOCKS client and the proxy agree.  The client's greeting may
    arrive in any pieces; the proxy's answers to it and to the request make the
    client say exactly the greeting and the request and conclude that it is up,
    when it offers to go without authentication, and that it is refused when it
    does not (the proxy selects that method whatever is offered). *)
Theorem local_proxy_agrees {C : Type} `{TcpCryptoLaws C} junk logging fast_open may_bypass (e0 d0 : C) ais dest ps k :
  enc_ok e0 -> dec_ok d0 -> 0 < len ais <= 255 -> Forall auth_ok ais -> dest_ok dest -> dest_bytes dest ->
  concat ps.*1 = hello ais -> Forall (fun p => p.1 <> [] /\ takes 2 (k_method p.2)) ps -> takes 10 (k_reply k) -> (k_bypass k = true -> may_bypass = true) ->
  let es := pieces ps ++ [ServerRecv (Received (SocksClientSpec.request dest)) k] in
  exists st fx, exec junk logging fast_open (accept_cb junk e0 d0) es = Ret (st, fx) /\
    served may_bypass e0 d0 (hello ais ++ SocksClientSpec.request dest) [] (closed st) fx /\
    dialog ais dest (to_client fx) =
      match find_auth ais 0 with Some _ => (hello ais ++ SocksClientSpec.request dest, Up) | None => (hello ais, Refused) end.
Proof.
  intros He0 Hd0 Hn Hauth Hd Hdb Hps Hok Hk Hby es.
  assert (Hg : greeting_ok (hello ais)).
  { exists (len ais), (map auth_type ais). split_and!; [done| |lia|lia]. unfold len. by rewrite length_map. }
  destruct (greeting_run junk logging fast_open e0 d0 ps (set_s_io true false (new_server junk e0 d0)) [] (hello ais))
    as (s & E1 & Hs & Hst & Hw & _); try done.
  { split_and!; try done. eexists _, []. split; [done|apply new_buffer_window]. }
  { apply new_buffer_window. }
  { by rewrite Hps. }
  assert (Hb : bytes_ok (hello ais)).
  { unfold hello. apply bytes_ok_app. split; [repeat (apply Forall_cons; [unfold byte_ok; lia|]); by apply Forall_nil|].
    apply Forall_map. revert Hauth. apply Forall_impl. intros ai [(E & _)|(u & q & E & _)]; cbn; rewrite E; unfold byte_ok; lia. }
  destruct (request_run junk logging fast_open may_bypass e0 d0 He0 s (hello ais) dest k [ToClient [5; 0]]) as (st & f & E2 & Hf & Hrel); try done.
  { exists (hello ais). rewrite app_nil_r. split; [done|]. intros _. unfold hello. rewrite len_app. unfold len. rewrite length_map. cbn. lia. }
  { by repeat constructor. }
  exists st, ([ToClient [5; 0]] ++ f). split; [unfold es; rewrite (exec_snoc _ _ _ _ _ _ _ _ E1); cbn [step]; by rewrite E2|]. split; [by apply related_served|].
  rewrite to_client_app, Hf. unfold dialog. ztest. cbn [to_client flat_map app andb]. unfold after_hello. cbn [negb].
  change (5 =? 5) with true. cbn [negb]. destruct (find_auth ais 0) as [ai|] eqn:Ef; [|by rewrite app_nil_r].
  apply find_auth_in in Ef as [Hin Ht]. rewrite list.Forall_forall in Hauth. destruct (Hauth ai Hin) as [(_ & Hp)|(u & q & Hbad & _)]; [|congruence].
  unfold after_method. by rewrite Hp.
Qed.

(** A request for a name, without its last byte, right after the greeting. *)
Lemma short_name_faults {C : Type} `{TcpCryptoLaws C} junk logging fast_open (e0 d0 : C) s k n tl : fresh_server e0 d0 s ->
  stage s = STAGE_HANDSHAKE -> window (sbuf s) 0 [] -> b_capacity (sbuf s) = BUF_SIZE -> bytes_ok (n :: tl) -> len tl = n + 1 -> takes 10 (k_reply k) ->
  server_recv_cb junk logging fast_open (Conn (Some s) None) (Received ([5; 1; 0; 3; n] ++ tl)) k = Fail OutOfBounds.
Proof.
  intros (_ & _ & _ & _ & _ & a & l & Ha & Hwa) Hst Hw Hcap [Hn Htl]%Forall_cons_iff Hl (m & Hk & Hm). unfold byte_ok in Hn. set (x := [5; 1; 0; 3; n] ++ tl).
  assert (Hx : len x = n + 6) by (unfold x; rewrite len_app, Hl; change (len [5; 1; 0; 3; n]) with 5; lia).
  unfold server_recv_cb. conn_simpl. rewrite bool_decide_eq_false_2 by (by rewrite Hst).
  destruct (window_store (sbuf s) [] x Hw) as (b & Es & Hwb); [change (len (@nil Z)) with 0; unfold BUF_SIZE; lia|].
  pose proof (store_capacity _ _ _ _ Es) as Hcb. rewrite Es. run_simpl.
  cbn [app] in Hwb. set (b' := with_len b _) in *. unfold server_recv_loop. conn_simpl. change (stage (set_sbuf b' s)) with (stage s). rewrite Hst.
  unfold stage_handshake. cbn [sbuf set_sbuf]. rewrite (window_len _ _ _ Hwb), Hx. ztest.
  rewrite (byte_at_ok b' x 1 1 Hwb) by done. run_simpl. change (1 =? 3) with false. change (1 =? 1) with true. cbn [negb andb].
  rewrite bool_decide_eq_true_2 by done. rewrite Hk. cbn [send_value accepted]. change ([SVERSION; 0; 0; 1] ++ zrep 6 0) with [5; 0; 0; 1; 0; 0; 0; 0; 0; 0].
  rewrite take_ge by (cbn; lia). rewrite Z.ltb_irrefl. unfold stage_parse. change (abuf (set_sbuf b' s)) with (abuf s). rewrite Ha. run_simpl.
  cbn [sbuf set_sbuf]. rewrite (byte_at_ok b' x 3 3 Hwb) by done. run_simpl.
  destruct (put_ok (with_idx (with_len a 0) 0) [] [3] (window_nil _ _ _ Hwa)) as (a1 & -> & Hw1); [done|]. run_simpl. cbn [app] in Hw1.
  (* one byte more than there is *)
  unfold copy_address. change (3 =? 1) with false. change (3 =? 3) with true. cbv iota. rewrite (byte_at_ok b' x 4 n Hwb) by done. run_simpl.
  rewrite u8_small by lia. rewrite (window_len _ _ _ Hwb), Hx. ztest.
  destruct (put_ok a1 [3] [n] Hw1) as (a2 & -> & Hw2); [done|]. run_simpl. cbn [app] in Hw2.
  destruct Hwb as (dt & Hd & Hc & Hb & Hbl & _ & Hle & He). unfold bytes_at. rewrite Hd. run_simpl. unfold BUF_SIZE in *.
  rewrite (rd_range_ok dt 5 (n + 2)) by lia. run_simpl.
  assert (Hcopied : len (ztake (n + 2) (zdrop 5 dt)) = n + 2) by (apply len_ztake; rewrite len_zdrop; lia).
  destruct (put_ok a2 [3; n] (ztake (n + 2) (zdrop 5 dt)) Hw2) as (a3 & -> & Hw3);
    [rewrite Hcopied; change (len [3; n]) with 2; unfold BUF_SIZE; lia|]. run_simpl.
  rewrite (rd_range_ok dt 5 n) by lia. run_simpl. rewrite fill_host_ok by (rewrite len_ztake; rewrite ?len_zdrop; lia). run_simpl.
  change ((3 =? 1) || (3 =? 4)) with false. cbn [negb]. rewrite (window_len _ _ _ Hw3), len_app, Hcopied. change (len [3; n]) with 2.
  (* buf->len wraps around *)
  unfold start_stream, drop_request. cbn [sbuf set_abuf set_sbuf]. rewrite Hbl, Hx. replace (n + 6 - (3 + (2 + (n + 2)))) with (-1) by lia.
  change (to_size_t (-1)) with 18446744073709551615. cbn [Z.ltb]. unfold shift, bytes_at. cbn [b_data with_len b_len]. rewrite Hd. run_simpl.
  change (b_capacity b') with (b_capacity b) in Hc. unfold rd_range. by rewrite (proj2 (Z.leb_gt (_ + _) _)), andb_false_r by lia.
Qed.

(** C37: off by one.  A request for a domain name that has arrived but for its
    last byte is taken for complete: the length of the buffer wraps around and
    the [memmove] of the rest leaves it.  So [fits] is needed. *)
Theorem local_proxy_short_name {C : Type} `{TcpCryptoLaws C} junk logging fast_open (e0 d0 : C) h ps k n tl :
  greeting_ok h -> concat ps.*1 = h -> Forall (fun p => p.1 <> [] /\ takes 2 (k_method p.2)) ps -> takes 10 (k_reply k) ->
  bytes_ok (n :: tl) -> len tl = n + 1 ->
  exec junk logging fast_open (accept_cb junk e0 d0) (pieces ps ++ [ServerRecv (Received ([5; 1; 0; 3; n] ++ tl)) k]) = Fail OutOfBounds.
Proof.
  intros Hg Hps Hok Hk Hb Hl.
  destruct (greeting_run junk logging fast_open e0 d0 ps (set_s_io true false (new_server junk e0 d0)) [] h)
    as (s & E1 & Hs & Hst & Hw & Hcap); try done.
  { split_and!; try done. eexists _, []. split; [done|apply new_buffer_window]. }
  { apply new_buffer_window. }
  { rewrite Hps. by destruct Hg as (? & ? & -> & _). }
  rewrite (exec_snoc _ _ _ _ _ _ _ _ E1). cbn [step].
  by rewrite (short_name_faults junk logging fast_open e0 d0 s k n tl Hs Hst Hw Hcap Hb Hl Hk).
Qed.

(** The tunnel's client, which offers to go without authentication, and its greeting in two pieces. *)
Definition toy_pieces : list (bytes * calls) := [([5], toy_calls); ([1; 0], toy_calls)].
Lemma toy_pieces_ok : Forall (fun p => p.1 <> [] /\ takes 2 (k_method p.2)) toy_pieces.
Proof. repeat constructor; try done; exists 2%nat; (split; [done|lia]). Qed.
Lemma toy_reply_ok : takes 10 (k_reply toy_calls).
Proof. exists 10%nat. split; [done|lia]. Qed.

Lemma local_proxy_agrees_witness : exists st fx,
  exec toy_junk false false (accept_cb toy_junk 0 0)
    (pieces toy_pieces ++ [ServerRecv (Received [5; 1; 0; 1; 10; 0; 0; 1; 0; 25]) toy_calls]) = Ret (st, fx) /\
  dialog [AuthInfo 0 None] (BADDR_IPV4 16777226 6400) (to_client fx) = ([5; 1; 0; 5; 1; 0; 1; 10; 0; 0; 1; 0; 25], Up).
Proof.
  destruct (local_proxy_agrees toy_junk false false false 0 0 [AuthInfo 0 None] (BADDR_IPV4 16777226 6400) toy_pieces toy_calls)
    as (st & fx & E & _ & Hd); try done; [by constructor; [left|constructor]|apply toy_pieces_ok|apply toy_reply_ok|].
  exists st, fx. split; [exact E|exact Hd].
Defined.
(** "a." and the first byte of the port. *)
Lemma local_proxy_short_name_witness :
  exec toy_junk false false (accept_cb toy_junk 0 0)
    (pieces toy_pieces ++ [ServerRecv (Received ([5; 1; 0; 3; 2] ++ [97; 46; 0])) toy_calls]) = Fail OutOfBounds.
Proof.
  apply (local_proxy_short_name toy_junk false false 0 0 [5; 1; 0] toy_pieces toy_calls 2 [97; 46; 0]).
  - by exists 1, [0].
  - done.
  - apply toy_pieces_ok.
  - apply toy_reply_ok.
  - by repeat constructor.
  - done.
Defined.

(** A request in two pieces is answered twice: the second answer is read as data. *)
Lemma split_request_answered_twice :
  to_client <$> (snd <$> exec toy_junk false false (accept_cb toy_junk 0 0)
    (pieces toy_pieces ++ [ServerRecv (Received [5; 1; 0; 1]) toy_calls; ServerRecv (Received [10; 0; 0; 1; 0; 25]) toy_calls]))
  = Ret ([5; 0] ++ [5; 0; 0; 1; 0; 0; 0; 0; 0; 0] ++ [5; 0; 0; 1; 0; 0; 0; 0; 0; 0]).
Proof. by vm_compute. Qed.
